(* ===== verification/_CoqProject ===== *)
-Q . S2P
Prelude.v
Text.v
Bytes.v
DflRegs.v
DflTypes.v
DflParam.v
DflEnum.v
DflEnumFacts.v
DflEnumTerm.v
DflEnumExamples.v
DflPorts.v
DflPortsFacts.v
DflPortAccess.v
DflPci.v
DflPciSva.v
DflIrq.v
DflPortExamples.v
SpiAvmm.v
SpiAvmmTx.v
SpiAvmmRx.v
SpiAvmmAccess.v
SpiAvmmLimits.v
FpgaMgr.v
FpgaMgrFacts.v
FpgaMgrExamples.v
AltCvp.v
FmeMgr.v
FmeMgrFacts.v
FpgaRegion.v
FpgaRegionFacts.v
FmePr.v
FmePrMgmt.v
FmeExamples.v
DflBus.v
DflBusFacts.v
DflFeatureInit.v
DflModalias.v
DflModule.v
AreaTree.v
DmaPages.v
AfuDma.v
AfuDmaOps.v
Mmio.v
IndirectReg.v
Regmap.v
SpiAltera.v
SpiDfl.v
N3000Nios.v
Emif.v
PtpTod.v
QsfpMem.v
S10Phy.v
S10Hssi.v
M10Bmc.v
N5010Hssi.v
Pmci.v
ImageLoad.v
ImageLoadFacts.v
SecUpdate.v
SecUpload.v
SecFlash.v
SecImages.v
SecHash.v
SecExamples.v
Hwmon.v
HwmonBoards.v
FeatureIrqs.v
AfuPort.v
AfuRegion.v
AfuMain.v
CxlCache.v
FmePerf.v
FmePerfFacts.v
FmeErr.v
FmeMain.v
FmeDev.v
DflProbe.v
FmeDevExamples.v
FmeBr.v
AfuExamples.v
