(* ===== verification/Prelude.v ===== *)
(** * The Device Feature List drivers, modelled and verified

    This repository is an out-of-tree copy of the Linux drivers for FPGA cards whose
    logic is described by a Device Feature List (DFL): a chain of headers in the
    registers of the card.  The development models the C code of these drivers as
    executable functions and proves what makes them correct.  This file has what all
    the others share: machine integers, bit fields, errors, the monad of the
    code, its weakest preconditions and their tactics.

    ** The program

    - The DFL core (drivers/fpga/dfl.c) reads the list, builds the feature devices
      (one management engine, FME, and one port per accelerator), keeps the ports of
      a card (its container), and publishes on a bus of its own the features that no
      driver of a feature device handles.
    - The drivers of the FME (dfl-fme-*.c) and of the ports (dfl-afu-*.c) each serve
      a device file: partial reconfiguration, ports for virtual functions, errors,
      interrupts; mapping of registers and memory for an accelerator.
    - Partial reconfiguration goes through the frameworks for FPGA managers, bridges
      and regions (fpga-mgr.c, fpga-bridge.c, fpga-region.c), of which the FME has an
      instance of each (dfl-fme-mgr.c, dfl-fme-br.c, dfl-fme-region.c).
    - The board management controller (BMC) is reached over SPI, by a protocol of
      packets (regmap-spi-avmm.c), or through registers of the card
      (intel-m10-bmc-pmci.c over regmap-indirect-register.c).  On top of it are the
      secure update of the card's flash (intel-m10-bmc-sec-update.c, under the
      image load framework fpga-image-load.c) and the sensors
      (intel-m10-bmc-hwmon.c).
    - A cache exerciser (dfl-cxl-cache.c) pins buffers for a device of the bus.
    - A card is found on PCI (dfl-pci.c) or in the device tree (dfl-platform.c), and a
      process may share its address space with it (dfl-pci-sva.c); an FPGA that has
      not its final logic yet can be configured over PCIe (altera-cvp.c).
    - Drivers of single features are devices of the bus: an SPI controller
      (spi-altera-dfl.c, spi-altera-core.c) and the start of the board controller
      behind one (dfl-n3000-nios.c), memory interfaces (dfl-emif.c), the time of day
      (ptp_dfl_tod.c), modules of optical fibres (qsfp-mem-core.c), and Ethernet: phys
      (dfl-hssi.c, intel-s10-phy.c) and network devices (s10hssi.c, n5010-hssi.c).

    ** How code is modelled

    A function of the code is a Definition of the same name, with the lines it
    translates in a comment before it.  Functions that change state are in the monad
    [M] of a state: the result is a value or an error number, or [Fault] where the C
    code has undefined behaviour or an access the kernel does not survive (a NULL or
    out of range access, [access]), or [NoFuel] where a bound on a loop was too
    small.  [on_error] is the unwinding of the goto labels.  A component that works
    on a part of a larger state is lifted there by [zoom].  What the sources only
    call (allocation, the driver core, interrupts, pinning of pages, the device
    behind its registers, user memory) is the member of a class, an arbitrary
    function with a state of its own; where a theorem relies on its documented
    behaviour there is a second class of laws ([DmaKernelOk], [FwUploadOk],
    [SecFlashOk], ...), for which an instance is given beside the witnesses.
    Integers are [Z] with the conversions of C written out ([u32], [s32], ...).

    [wp m Q E s] says that [m], from state [s], neither faults nor runs out of fuel,
    that it satisfies [Q] if it succeeds and [E] if it fails: a theorem of this form
    states termination and the absence of faults along with the result.

    ** The files

    Enumeration: DflRegs and DflTypes are dfl.h and linux/dfl.h, DflParam the
    parameter blocks of a header, DflEnum the walk.  DflEnumFacts: what is committed
    is well formed (interrupts in range, features as their headers say, resources in
    order, arrays as long as their counts).  DflEnumTerm: the walk ends.
    Ports: DflPorts is the container; DflPortsFacts has its invariant, kept by every
    sequence of operations, DflPortAccess the effect of release, assignment and
    access modes.  DflIrq binds eventfds to the interrupts of one feature,
    FeatureIrqs to those of a device.
    Bus: DflBus publishes features and initialises feature drivers, DflBusFacts and
    DflFeatureInit show that both are all or nothing; DflModalias compares the alias
    of a device with the patterns scripts/mod/file2alias.c makes; DflModule loads the
    module.
    Partial reconfiguration: FpgaMgr, FpgaRegion (with the bridges), FmeMgr, FmePr
    and FmePrMgmt, FmeBr.  FpgaMgrFacts: the driver is given header and data of the
    image and nothing else, in order; FmeMgrFacts composes this with the FME's
    driver, down to the registers, and says in which state each failure ends;
    FpgaRegionFacts: programming gives back every lock and reference, and nothing is
    loaded before the bridges are disabled.  FmePrMgmt creates manager, bridges and
    regions, each with the port or the devices it belongs to.
    FME: FmeErr, FmeMain, FmeDev are the features and the device file, with the
    theorems about clearing errors, power limits and the ioctls of ports; FmePerf the
    performance counters, FmePerfFacts that the fabric is counted for the port asked for;
    DflProbe the probe and removal of both drivers.
    Port: AfuPort (reset, errors), AfuRegion (register mappings), AfuDma (buffers,
    over AreaTree and DmaPages), AfuMain (the device file over all of these), with
    the theorems beside the definitions; closing the last file gives back everything
    (AfuMain).
    CXL: CxlCache, over the same AreaTree and DmaPages.
    Cards: DflPci is the probe of a card on PCI or in the device tree, and its virtual
    functions; DflPciSva the files that share an address space.  AltCvp
    writes an image over PCIe: the words of the image and no others, in order.
    SPI: Regmap is a register map of the kernel's, SpiAltera the controller, with the
    words it exchanges with a slave, SpiDfl its bus as a register map and the theorem
    that the controller behind this bus is a controller again; N3000Nios starts the
    board controller behind it.
    Single features: Emif, PtpTod, QsfpMem, S10Phy, S10Hssi and N5010Hssi, each with its
    theorems and the executions in which it goes wrong.
    BMC: SpiAvmm is the protocol, SpiAvmmTx and SpiAvmmRx prove encoder and decoder
    against a specification of the wire, SpiAvmmAccess whole register accesses,
    SpiAvmmLimits what a broken slave can do; IndirectReg is the mailbox; M10Bmc the
    register accesses during an update; Pmci the flash behind the PMCI.
    Updates: ImageLoad is the framework, with its worker in the steps that users can
    come between; ImageLoadFacts proves it against the interface [FwUploadOk] and
    [FwOpsSafe]; SecUpdate is the driver, SecUpload proves that it keeps that
    interface, against [SecFlashOk], which SecFlash proves of both ways to reach the
    flash.  SecImages and SecHash are the attributes of the card; Hwmon and
    HwmonBoards the sensors.
    The files named Examples have a concrete kernel and device for each part: the
    witnesses of the theorems, and the executions in which the code does what its
    documentation does not say.

    ** Bounds

    Loops that are not structural take fuel.  Where the code walks data, enough fuel
    is a bound from the data, and the theorems have it as their hypothesis or in
    their definitions: a list of features of at most 512 MiB needs no more than 2^30
    rounds of each loop (parse_feature_list_terminates), an image no more than its
    bytes (load_scatterlist, upload_ends), the buffers of a device as many steps as there are buffers.  Polling
    a register with a timeout takes the number of tries as a parameter of the whole
    section, and the theorems hold for each; the loops of FmeMgr and Pmci count their
    own steps.  Only the receiver of SpiAvmm and the walk over broken headers have
    executions without end: these are stated as such (SpiAvmmLimits,
    DflParam, DflEnumExamples), and rx_silent_times_out says at which reading
    of the clock the receiver gives up on a silent slave, however the clock advances.  Time is a function of the device or of the kernel; waiting itself is not
    modelled.

    ** Interleaving

    Operations under one mutex are one step of the state; sequences of them are
    arbitrary (DflPortsFacts.ports_invariant_reachable).  The worker of the image load
    framework runs beside the users of its device file: ImageLoad splits it where
    the code drops its lock, and ImageLoadFacts.uploads_interleaved is about every
    interleaving.  A user may also change what the secure update looks at between
    any two register accesses.  The locks themselves, memory ordering, and races that
    the code leaves open without a lock are not modelled.

    ** Not modelled

    The registration of drivers and devices with the driver core, platform, PCI and
    SPI buses, and with sysfs, hwmon, MFD and the misc devices: tables and calls whose
    effect is outside of this repository.  The drivers under the FPGA manager framework
    for chips of other vendors, their bridges, and the regions and overlays of the
    device tree: they share no state with the DFL drivers.  The features that are only
    passed to another subsystem (uio_dfl.c, 8250_dfl.c) or shown raw
    (dfl-priv-feat-main.c).  Copies of
    kernel files that only call the regmap core, its debugfs files, and the scripts and
    headers that make the sources compile for older kernels. *)
From Stdlib Require Export ZArith Lia.
From stdpp Require Export base tactics numbers list option.

#[global] Open Scope Z_scope.

(** ** Machine integers

    A C object of an unsigned type of width [w] is a [Z] in [0, 2^w); the
    conversions below are the ones the C standard prescribes (GCC defines the
    signed ones as the two's complement wrap). *)
Definition u8 (z : Z) : Z := z mod 2 ^ 8.
Definition u16 (z : Z) : Z := z mod 2 ^ 16.
Definition u32 (z : Z) : Z := z mod 2 ^ 32.
Definition u64 (z : Z) : Z := z mod 2 ^ 64.
Definition s32 (z : Z) : Z := (z + 2 ^ 31) mod 2 ^ 32 - 2 ^ 31.
Definition s64 (z : Z) : Z := (z + 2 ^ 63) mod 2 ^ 64 - 2 ^ 63.

Definition is_u8 (z : Z) : Prop := 0 <= z < 2 ^ 8.
Definition is_u16 (z : Z) : Prop := 0 <= z < 2 ^ 16.
Definition is_u32 (z : Z) : Prop := 0 <= z < 2 ^ 32.
Definition is_u64 (z : Z) : Prop := 0 <= z < 2 ^ 64.

Create HintDb width.

Lemma u8_range z : is_u8 (u8 z).
Proof. apply Z.mod_pos_bound; lia. Qed.
Lemma u16_range z : is_u16 (u16 z).
Proof. apply Z.mod_pos_bound; lia. Qed.
Lemma u32_range z : is_u32 (u32 z).
Proof. apply Z.mod_pos_bound; lia. Qed.
Lemma u64_range z : is_u64 (u64 z).
Proof. apply Z.mod_pos_bound; lia. Qed.
#[export] Hint Resolve u8_range u16_range u32_range u64_range : width.

Lemma u8_small z : is_u8 z → u8 z = z.
Proof. apply Z.mod_small. Qed.
Lemma u16_small z : is_u16 z → u16 z = z.
Proof. apply Z.mod_small. Qed.
Lemma u32_small z : is_u32 z → u32 z = z.
Proof. apply Z.mod_small. Qed.
Lemma u64_small z : is_u64 z → u64 z = z.
Proof. apply Z.mod_small. Qed.
Lemma s32_small z : - 2 ^ 31 <= z < 2 ^ 31 → s32 z = z.
Proof. intros H. unfold s32. rewrite Z.mod_small; lia. Qed.
Lemma s32_range z : - 2 ^ 31 <= s32 z < 2 ^ 31.
Proof. unfold s32. pose proof (Z.mod_pos_bound (z + 2 ^ 31) (2 ^ 32)). lia. Qed.

(** [width_norm] removes a conversion whose argument is in range by [lia]. *)
Ltac width_norm :=
  repeat match goal with
  | |- context [u64 ?z] => rewrite (u64_small z) by (unfold is_u64; lia)
  | |- context [u32 ?z] => rewrite (u32_small z) by (unfold is_u32; lia)
  | |- context [u16 ?z] => rewrite (u16_small z) by (unfold is_u16; lia)
  | |- context [u8 ?z] => rewrite (u8_small z) by (unfold is_u8; lia)
  | |- context [s32 ?z] => rewrite (s32_small z) by lia
  end.
Tactic Notation "width_norm" "in" ident(H) :=
  repeat match type of H with
  | context [u64 ?z] => rewrite (u64_small z) in H by (unfold is_u64; lia)
  | context [u32 ?z] => rewrite (u32_small z) in H by (unfold is_u32; lia)
  | context [u16 ?z] => rewrite (u16_small z) in H by (unfold is_u16; lia)
  | context [u8 ?z] => rewrite (u8_small z) in H by (unfold is_u8; lia)
  | context [s32 ?z] => rewrite (s32_small z) in H by lia
  end.

(** ** Bit fields

    A mask [GENMASK_ULL(h, l)] or [BIT_ULL(n)] is kept as its two bounds, so
    that [FIELD_GET]/[FIELD_PREP] know the shift the C macro computes from the
    mask. *)
Record field := Field { f_hi : Z; f_lo : Z }.
Abbreviation GENMASK_ULL h l := (Field h l) (only parsing).
Abbreviation BIT_ULL n := (Field n n) (only parsing).
Definition f_width (f : field) : Z := f_hi f - f_lo f + 1.
Definition mask (f : field) : Z := Z.shiftl (Z.ones (f_width f)) (f_lo f).
Definition field_ok (f : field) : Prop := 0 <= f_lo f <= f_hi f.
Definition FIELD_GET (f : field) (v : Z) : Z := Z.shiftr (Z.land v (mask f)) (f_lo f).
Definition FIELD_PREP (f : field) (x : Z) : Z := Z.land (Z.shiftl x (f_lo f)) (mask f).
(** [v & MASK] used as a condition. *)
Definition has_bits (f : field) (v : Z) : bool := negb (Z.land v (mask f) =? 0).
(** [v & ~MASK] on a 64-bit value. *)
Definition clear_field (f : field) (v : Z) : Z := Z.land v (Z.lxor (Z.ones 64) (mask f)).
Definition set_field (f : field) (v x : Z) : Z := Z.lor (clear_field f v) (FIELD_PREP f x).

#[global] Arguments u8 : simpl never.
#[global] Arguments u16 : simpl never.
#[global] Arguments u32 : simpl never.
#[global] Arguments u64 : simpl never.
#[global] Arguments s32 : simpl never.
#[global] Arguments s64 : simpl never.
#[global] Arguments FIELD_GET : simpl never.
#[global] Arguments FIELD_PREP : simpl never.
#[global] Arguments has_bits : simpl never.
#[global] Arguments clear_field : simpl never.
#[global] Arguments set_field : simpl never.

Create HintDb bits.

Lemma testbit_mask f i :
  field_ok f → 0 <= i → Z.testbit (mask f) i = (f_lo f <=? i) && (i <=? f_hi f).
Proof.
  intros [Hl Hh] Hi. unfold mask, f_width.
  rewrite Z.shiftl_spec by lia.
  destruct (Z.leb_spec (f_lo f) i) as [H1|H1]; simpl.
  - destruct (Z.leb_spec i (f_hi f)) as [H2|H2].
    + apply Z.ones_spec_low; lia.
    + apply Z.ones_spec_high; lia.
  - apply Z.testbit_neg_r; lia.
Qed.

(** A field read is the bits between its bounds, as a number. *)
Lemma FIELD_GET_alt f v :
  field_ok f → FIELD_GET f v = (v / 2 ^ f_lo f) mod 2 ^ f_width f.
Proof.
  intros Hf. destruct Hf as [Hl Hh].
  rewrite <- Z.shiftr_div_pow2 by lia.
  rewrite <- Z.land_ones by (unfold f_width; lia).
  apply Z.bits_inj'. intros i Hi.
  unfold FIELD_GET. rewrite Z.shiftr_spec, !Z.land_spec, Z.shiftr_spec by lia.
  f_equal. rewrite testbit_mask by (unfold field_ok; lia).
  unfold f_width. destruct (Z.leb_spec (i + f_lo f) (f_hi f)).
  - rewrite Z.ones_spec_low by lia. apply andb_true_iff; split; lia.
  - rewrite Z.ones_spec_high by lia. apply andb_false_iff; right; lia.
Qed.

Lemma FIELD_GET_range f v : field_ok f → 0 <= FIELD_GET f v < 2 ^ f_width f.
Proof.
  intros Hf. rewrite FIELD_GET_alt by done.
  apply Z.mod_pos_bound, Z.pow_pos_nonneg; [lia|]. destruct Hf; unfold f_width; lia.
Qed.

Lemma FIELD_GET_nonneg f v : field_ok f → 0 <= FIELD_GET f v.
Proof. intros H. apply (FIELD_GET_range f v H). Qed.

Lemma testbit_FIELD_GET f v i :
  field_ok f → 0 <= i →
  Z.testbit (FIELD_GET f v) i = Z.testbit v (i + f_lo f) && (i + f_lo f <=? f_hi f).
Proof.
  intros Hf Hi. unfold FIELD_GET. destruct Hf as [Hl Hh].
  rewrite Z.shiftr_spec, Z.land_spec, testbit_mask by (unfold field_ok; lia).
  destruct (Z.leb_spec (f_lo f) (i + f_lo f)); [done|lia].
Qed.

Lemma testbit_clear_field f v i :
  field_ok f → 0 <= i < 64 →
  Z.testbit (clear_field f v) i = Z.testbit v i && negb ((f_lo f <=? i) && (i <=? f_hi f)).
Proof.
  intros Hf Hi. unfold clear_field.
  rewrite Z.land_spec, Z.lxor_spec, testbit_mask, Z.ones_spec_low by (done || lia). done.
Qed.

Lemma testbit_FIELD_PREP f x i :
  field_ok f → 0 <= i →
  Z.testbit (FIELD_PREP f x) i = Z.testbit x (i - f_lo f) && ((f_lo f <=? i) && (i <=? f_hi f)).
Proof.
  intros Hf Hi. unfold FIELD_PREP. rewrite Z.land_spec, Z.shiftl_spec, testbit_mask by (done || lia).
  done.
Qed.

(** Writing a field and reading it back gives the value, truncated. *)
Lemma FIELD_GET_set_field f v x :
  field_ok f → f_hi f < 64 → FIELD_GET f (set_field f v x) = x mod 2 ^ f_width f.
Proof.
  intros Hf Hh. destruct (id Hf) as [Hl Hlh].
  rewrite <- Z.land_ones by (unfold f_width; lia).
  apply Z.bits_inj'. intros i Hi.
  rewrite testbit_FIELD_GET by (done || lia). unfold set_field.
  rewrite Z.lor_spec, Z.land_spec, testbit_FIELD_PREP by (done || lia).
  unfold f_width. destruct (Z.leb_spec (i + f_lo f) (f_hi f)) as [H|H].
  - rewrite testbit_clear_field, Z.ones_spec_low by (done || lia).
    destruct (Z.leb_spec (f_lo f) (i + f_lo f)); [|lia].
    destruct (Z.leb_spec (i + f_lo f) (f_hi f)); [|lia]. simpl.
    rewrite andb_false_r, orb_false_l, !andb_true_r. f_equal; lia.
  - rewrite Z.ones_spec_high by lia. by rewrite !andb_false_r.
Qed.

(** Writing a field leaves a disjoint one as it was. *)
Lemma FIELD_GET_set_field_ne f g v x :
  field_ok f → field_ok g → f_hi f < 64 → f_hi g < 64 →
  f_hi f < f_lo g ∨ f_hi g < f_lo f →
  FIELD_GET g (set_field f v x) = FIELD_GET g v.
Proof.
  intros Hf Hg Hf64 Hg64 Hd. apply Z.bits_inj'. intros i Hi.
  rewrite !testbit_FIELD_GET by (done || lia).
  destruct (Z.leb_spec (i + f_lo g) (f_hi g)) as [H|H]; [|by rewrite !andb_false_r].
  destruct Hf as [Hf1 Hf2], Hg as [Hg1 Hg2].
  unfold set_field. rewrite Z.lor_spec, testbit_FIELD_PREP, testbit_clear_field
    by (unfold field_ok; lia).
  assert ((f_lo f <=? i + f_lo g) && (i + f_lo g <=? f_hi f) = false) as ->.
  { apply andb_false_iff. destruct Hd; [right|left]; lia. }
  by rewrite !andb_false_r, !andb_true_r, orb_false_r.
Qed.

Lemma testbit_clear_field_high f v i :
  f_hi f < 64 → field_ok f → 64 <= i → Z.testbit (clear_field f v) i = false.
Proof.
  intros Hh Hf Hi. unfold clear_field.
  rewrite Z.land_spec, Z.lxor_spec, testbit_mask, Z.ones_spec_high by (done || lia).
  assert ((i <=? f_hi f) = false) as -> by lia.
  assert ((f_lo f <=? i) = true) as -> by (destruct Hf; lia). apply andb_false_r.
Qed.

(** Writing the same field value twice is writing it once. *)
Lemma set_field_idem f v x :
  field_ok f → f_hi f < 64 → set_field f (set_field f v x) x = set_field f v x.
Proof.
  intros Hf Hh. apply Z.bits_inj'. intros i Hi. unfold set_field.
  rewrite !Z.lor_spec, testbit_FIELD_PREP by done.
  destruct (Z.lt_ge_cases i 64) as [H|H].
  - rewrite !testbit_clear_field, Z.lor_spec, testbit_FIELD_PREP, testbit_clear_field by (done || lia).
    destruct ((f_lo f <=? i) && (i <=? f_hi f)), (Z.testbit v i), (Z.testbit x (i - f_lo f)); done.
  - by rewrite !testbit_clear_field_high by done.
Qed.

(** Bits outside the field stay. *)
Lemma testbit_set_field_out f v x i :
  field_ok f → 0 <= i < 64 → i < f_lo f ∨ f_hi f < i →
  Z.testbit (set_field f v x) i = Z.testbit v i.
Proof.
  intros Hf Hi Ho. unfold set_field.
  rewrite Z.lor_spec, testbit_FIELD_PREP, testbit_clear_field by (done || lia).
  assert ((f_lo f <=? i) && (i <=? f_hi f) = false) as ->
    by (apply andb_false_iff; destruct Ho; [left|right]; lia).
  by rewrite andb_false_r, andb_true_r, orb_false_r.
Qed.

Lemma has_bits_bit n v : 0 <= n → has_bits (BIT_ULL n) v = Z.testbit v n.
Proof.
  intros Hn. unfold has_bits.
  assert (field_ok (BIT_ULL n)) as Hok by (unfold field_ok; simpl; lia).
  destruct (Z.testbit v n) eqn:E.
  - apply negb_true_iff, Z.eqb_neq. intros H.
    assert (Z.testbit (Z.land v (mask (BIT_ULL n))) n = false) as H2 by by rewrite H, Z.bits_0.
    rewrite Z.land_spec, testbit_mask, E in H2 by done. simpl in H2.
    rewrite Z.leb_refl in H2. done.
  - apply negb_false_iff, Z.eqb_eq. apply Z.bits_inj'. intros i Hi.
    rewrite Z.land_spec, testbit_mask, Z.bits_0 by done. simpl.
    destruct (decide (i = n)) as [->|]; [by rewrite E|].
    apply andb_false_iff; right. apply andb_false_iff.
    destruct (Z.leb_spec n i); [right|left]; lia.
Qed.
(** Words put together from fields, and from the low [k] bits and the rest. *)
Lemma FIELD_GET_lor f a b : FIELD_GET f (Z.lor a b) = Z.lor (FIELD_GET f a) (FIELD_GET f b).
Proof. unfold FIELD_GET. by rewrite Z.land_lor_distr_l, Z.shiftr_lor. Qed.
Lemma FIELD_GET_PREP f x : field_ok f → 0 ≤ x < 2 ^ f_width f → FIELD_GET f (FIELD_PREP f x) = x.
Proof.
  intros Hf Hx. apply Z.bits_inj'. intros i Hi. rewrite testbit_FIELD_GET, testbit_FIELD_PREP by (unfold field_ok in *; done || lia).
  replace (i + f_lo f - f_lo f) with i by lia. unfold f_width in Hx. destruct (Z.leb_spec (i + f_lo f) (f_hi f)) as [Hle|Hgt], (Z.leb_spec (f_lo f) (i + f_lo f)); rewrite ?andb_true_r, ?andb_false_r; try done; try lia.
  rewrite <- (Z.mod_small x (2 ^ (f_hi f - f_lo f + 1))) by done. symmetry. apply Z.mod_pow2_bits_high. unfold field_ok in Hf. lia.
Qed.
Lemma FIELD_GET_PREP_ne f g x : field_ok f → field_ok g → f_hi f < f_lo g ∨ f_hi g < f_lo f → FIELD_GET f (FIELD_PREP g x) = 0.
Proof.
  intros Hf Hg Hd. apply Z.bits_inj'. intros i Hi. rewrite Z.bits_0, testbit_FIELD_GET, testbit_FIELD_PREP by (unfold field_ok in *; done || lia).
  destruct (Z.leb_spec (i + f_lo f) (f_hi f)), (Z.leb_spec (f_lo g) (i + f_lo f)), (Z.leb_spec (i + f_lo f) (f_hi g)); rewrite ?andb_true_r, ?andb_false_r; done || (unfold field_ok in *; lia).
Qed.
Lemma lor_shiftl a b k : 0 ≤ k → 0 ≤ a < 2 ^ k → Z.lor a (Z.shiftl b k) = a + 2 ^ k * b.
Proof.
  intros Hk Ha. assert (Hd : Z.land a (Z.shiftl b k) = 0).
  { apply Z.bits_inj'. intros i Hi. rewrite Z.land_spec, Z.bits_0. destruct (Z.lt_ge_cases i k).
    - by rewrite Z.shiftl_spec_low, andb_false_r.
    - rewrite <- (Z.mod_small a (2 ^ k)) by done. by rewrite Z.mod_pow2_bits_high. }
  rewrite <- Z.lxor_lor, <- Z.add_nocarry_lxor, Z.shiftl_mul_pow2 by done. ring.
Qed.
#[export] Hint Resolve FIELD_GET_nonneg FIELD_GET_range : bits.

(** ** Kernel error numbers *)
Definition ENOENT := 2.
Definition EIO := 5.
Definition EAGAIN := 11.
Definition ENOMEM := 12.
Definition EFAULT := 14.
Definition EBUSY := 16.
Definition EEXIST := 17.
Definition ENODEV := 19.
Definition EINVAL := 22.
Definition EOPNOTSUPP := 95.
Definition ETIMEDOUT := 110.

(** ** Executions

    A C function that touches a state [S] is a computation of type [M S A].
    It ends with a value, or with an error code it returned early ([Err e],
    the state changes made before the return stay), or it reads or writes
    memory it must not touch ([Fault]), or the fuel of one of its loops runs
    out ([NoFuel], which no C execution does: a loop that has [NoFuel] for
    every fuel does not terminate). *)
Inductive outcome (A : Type) := Val (a : A) | Err (e : Z).
Arguments Val {A} a.
Arguments Err {A} e.
Inductive exec (R : Type) := Done (r : R) | Fault | NoFuel.
Arguments Done {R} r.
Arguments Fault {R}.
Arguments NoFuel {R}.

Definition M (S A : Type) : Type := S → exec (outcome A * S).

#[global] Instance M_ret S : MRet (M S) := λ A a s, Done (Val a, s).
#[global] Instance M_bind S : MBind (M S) := λ A B f m s,
  match m s with
  | Done (Val a, s') => f a s'
  | Done (Err e, s') => Done (Err e, s')
  | Fault => Fault
  | NoFuel => NoFuel
  end.

Section Primitives.
Context {S : Type}.
(** [return e;] for an error code. *)
Definition throw {A} (e : Z) : M S A := λ s, Done (Err e, s).
Definition fault {A} : M S A := λ _, Fault.
Definition nofuel {A} : M S A := λ _, NoFuel.
Definition get : M S S := λ s, Done (Val s, s).
Definition gets {A} (f : S → A) : M S A := λ s, Done (Val (f s), s).
Definition modify (f : S → S) : M S unit := λ s, Done (Val tt, f s).
(** [if (ret) return ret;] for an [int] status. *)
Definition rc (ret : Z) : M S unit := if ret =? 0 then mret tt else throw ret.
(** The landing site of a [goto] error label: [h] runs, then [e] is returned. *)
Definition on_error {A} (m : M S A) (h : M S unit) : M S A := λ s,
  match m s with
  | Done (Err e, s') =>
      match h s' with
      | Done (_, s'') => Done (Err e, s'')
      | Fault => Fault
      | NoFuel => NoFuel
      end
  | r => r
  end.
(** The status of a call whose caller goes on in either case. *)
Definition status (m : M S unit) : M S Z := λ s,
  match m s with
  | Done (Val _, s') => Done (Val 0, s')
  | Done (Err e, s') => Done (Val e, s')
  | Fault => Fault
  | NoFuel => NoFuel
  end.
(** The outcome of a call whose caller looks at it: an error code or a value. *)
Definition attempt {A} (m : M S A) : M S (Z + A) := λ s,
  match m s with
  | Done (Val a, s') => Done (Val (inr a), s')
  | Done (Err e, s') => Done (Val (inl e), s')
  | Fault => Fault
  | NoFuel => NoFuel
  end.
(** An access that is valid only where [o] has a value. *)
Definition access {A} (o : option A) : M S A :=
  match o with Some a => mret a | None => fault end.
Fixpoint for_each {X} (l : list X) (f : X → M S unit) : M S unit :=
  match l with
  | [] => mret tt
  | x :: l' => f x ≫= λ _, for_each l' f
  end.
End Primitives.

Declare Scope prog_scope.
Delimit Scope prog_scope with prog.
Notation "m ;; k" := (mbind (λ _, k) m)
  (at level 100, k at level 200, right associativity) : prog_scope.
#[global] Open Scope prog_scope.

(** Reading until [cond] holds or the time is over: after [tries] more reads the
    clock is found past the timeout (which is not 0), and the value is read once
    more.  The result is the status and the last value. *)
(* include/linux/iopoll.h:11-32 read_poll_timeout *)
Fixpoint read_poll_timeout {T A} (op : M T A) (cond : A → bool) (tries : nat) : M T (Z * A) :=
  val ← op;
  if cond val then mret (0, val)
  else match tries with
  | O => val ← op; mret (if cond val then 0 else - ETIMEDOUT, val)
  | S tries => read_poll_timeout op cond tries
  end.

(** A computation on a part of the state. *)
Definition zoom {S T A} (g : S → T) (u : T → S → S) (m : M T A) : M S A := λ s,
  match m (g s) with
  | Done (r, t) => Done (r, u t s)
  | Fault => Fault
  | NoFuel => NoFuel
  end.

(** ** Reasoning about executions

    [wpg F N m Q E s]: from [s] the computation [m] ends in a value and state
    satisfying [Q], or in an error code and state satisfying [E]; it may fault
    only if [F] and run out of fuel only if [N].  [wp] excludes both, [wlp]
    allows both, [wtp] allows a fault but no exhausted fuel. *)
Section WP.
Context {S : Type} {F N : Prop}.
Definition wpg {A} (m : M S A) (Q : A → S → Prop) (E : Z → S → Prop) (s : S) : Prop :=
  match m s with
  | Done (Val a, s') => Q a s'
  | Done (Err e, s') => E e s'
  | Fault => F
  | NoFuel => N
  end.

Lemma wp_mono {A} (m : M S A) (Q Q' : A → S → Prop) (E E' : Z → S → Prop) s :
  wpg m Q E s → (∀ a s', Q a s' → Q' a s') → (∀ e s', E e s' → E' e s') → wpg m Q' E' s.
Proof. unfold wpg. destruct (m s) as [[[] ?]| |]; eauto. Qed.

Lemma wp_conj {A} (m : M S A) (Q Q' : A → S → Prop) (E E' : Z → S → Prop) s :
  wpg m Q E s → wpg m Q' E' s →
  wpg m (λ a s', Q a s' ∧ Q' a s') (λ e s', E e s' ∧ E' e s') s.
Proof. unfold wpg. destruct (m s) as [[[] ?]| |]; eauto. Qed.

Lemma wp_ret {A} (a : A) (Q : A → S → Prop) E s : Q a s → wpg (mret a) Q E s.
Proof. done. Qed.
Lemma wp_throw {A} e (Q : A → S → Prop) (E : Z → S → Prop) s : E e s → wpg (throw e) Q E s.
Proof. done. Qed.
Lemma wp_get (Q : S → S → Prop) E s : Q s s → wpg get Q E s.
Proof. done. Qed.
Lemma wp_gets {A} (f : S → A) (Q : A → S → Prop) E s : Q (f s) s → wpg (gets f) Q E s.
Proof. done. Qed.
Lemma wp_modify f (Q : unit → S → Prop) E s : Q tt (f s) → wpg (modify f) Q E s.
Proof. done. Qed.
Lemma wp_access {A} (o : option A) (Q : A → S → Prop) E s :
  (∀ a, o = Some a → Q a s) → (o = None → F) → wpg (access o) Q E s.
Proof. unfold wpg. destruct o; cbn; auto. Qed.

Lemma wp_bind {A B} (m : M S A) (f : A → M S B) Q E s :
  wpg m (λ a s', wpg (f a) Q E s') E s → wpg (m ≫= f) Q E s.
Proof. unfold wpg, mbind, M_bind. by destruct (m s) as [[[] ?]| |]. Qed.

Lemma wp_on_error {A} (m : M S A) (h : M S unit) Q E s :
  wpg m Q (λ e s', wpg h (λ _, E e) (λ _, E e) s') s → wpg (on_error m h) Q E s.
Proof.
  unfold wpg, on_error. destruct (m s) as [[[] s']| |]; try done.
  by destruct (h s') as [[[] ?]| |].
Qed.
Lemma wp_status (m : M S unit) (Q : Z → S → Prop) E s :
  wpg m (λ _, Q 0) Q s → wpg (status m) Q E s.
Proof. unfold wpg, status. by destruct (m s) as [[[] ?]| |]. Qed.
Lemma wp_attempt {A} (m : M S A) (Q : Z + A → S → Prop) E s :
  wpg m (λ a, Q (inr a)) (λ e, Q (inl e)) s → wpg (attempt m) Q E s.
Proof. unfold wpg, attempt. by destruct (m s) as [[[] ?]| |]. Qed.

Lemma wp_rc ret (Q : unit → S → Prop) (E : Z → S → Prop) s :
  (ret = 0 → Q tt s) → (ret ≠ 0 → E ret s) → wpg (rc ret) Q E s.
Proof. unfold wpg, rc. destruct (Z.eqb_spec ret 0); cbv [mret M_ret throw]; auto. Qed.

(** A loop over a list keeps an invariant that its body keeps. *)
Lemma wp_for_each {X} (l : list X) (f : X → M S unit) (I : S → Prop) E s :
  I s → (∀ x s', x ∈ l → I s' → wpg (f x) (λ _, I) E s') →
  wpg (for_each l f) (λ _, I) E s.
Proof.
  revert s. induction l as [|x l IH]; intros s HI Hf; simpl; [done|].
  apply wp_bind. eapply wp_mono; [apply Hf; [left|done]| |done].
  intros ? s' HI'. apply IH; [done|]. intros y s'' Hy. apply Hf. by right.
Qed.

Lemma wp_zoom {T A} g u (m : M T A) (Q : A → S → Prop) E s :
  match m (g s) with
  | Done (Val a, t) => Q a (u t s) | Done (Err e, t) => E e (u t s)
  | Fault => F | NoFuel => N end → wpg (zoom g u m) Q E s.
Proof. unfold wpg, zoom. by destruct (m (g s)) as [[[] ?]| |]. Qed.

Lemma wp_eq {A} (m : M S A) a s s' (Q : A → S → Prop) E :
  m s = Done (Val a, s') → Q a s' → wpg m Q E s.
Proof. unfold wpg. by intros ->. Qed.
Lemma wp_elim {A} (m : M S A) Q E s a s' :
  wpg m Q E s → m s = Done (Val a, s') → Q a s'.
Proof. unfold wpg. intros H Hm. by rewrite Hm in H. Qed.
Lemma wp_elim_err {A} (m : M S A) Q E s e s' :
  wpg m Q E s → m s = Done (Err e, s') → E e s'.
Proof. unfold wpg. intros H Hm. by rewrite Hm in H. Qed.
Lemma wp_done {A} (m : M S A) Q E s r s' :
  wpg m Q E s → m s = Done (r, s') → match r with Val a => Q a s' | Err e => E e s' end.
Proof. unfold wpg. intros H Hm. rewrite Hm in H. by destruct r. Qed.
(** What is proved of a run that is seen to return [a], or seen to fault; the state
    it ends in need not be written down. *)
Definition is_fault {R} (r : exec R) : bool := match r with Fault => true | _ => false end.
Lemma is_fault_eq {R} (r : exec R) : is_fault r = true → r = Fault.
Proof. by destruct r. Qed.
Definition err_of {A} (r : exec (outcome A * S)) : option Z :=
  match r with Done (Err e, _) => Some e | _ => None end.
Definition val_of {A} (r : exec (outcome A * S)) : option A :=
  match r with Done (Val a, _) => Some a | _ => None end.
Lemma wp_val {A} (m : M S A) (Q : A → S → Prop) E s a :
  wpg m Q E s → val_of (m s) = Some a → ∃ s', m s = Done (Val a, s') ∧ Q a s'.
Proof. unfold wpg. destruct (m s) as [[[] s']| |]; cbn; try done. intros ? [= <-]. eauto. Qed.
End WP.
Arguments wpg {S} F N {A} m Q E s.
Abbreviation wp := (wpg False False).
Abbreviation wlp := (wpg True True).
Abbreviation wtp := (wpg True False).

(** A theorem in which the code does not fail, at a concrete state. *)
Lemma wp_run {S A} (m : M S A) (Q : A → S → Prop) (s : S) : wp m Q (λ _ _, False) s → ∃ a s', m s = Done (Val a, s') ∧ Q a s'.
Proof. unfold wpg. destruct (m s) as [[[a|e] s']| |]; try done. eauto. Qed.

Lemma wp_weaken {S A} (F N F' N' : Prop) (m : M S A) Q E s :
  wpg F N m Q E s → (F → F') → (N → N') → wpg F' N' m Q E s.
Proof. unfold wpg. destruct (m s) as [[[] ?]| |]; auto. Qed.

(** What two runs of the same computation prove, put together: the one bounds
    how it ends, the other what it returns. *)
Lemma wp_combine {S A} (F N F' N' : Prop) (m : M S A) Q E Q' E' s :
  wpg F N m Q E s → wpg F' N' m Q' E' s →
  wpg F N m (λ a s', Q a s' ∧ Q' a s') (λ e s', E e s' ∧ E' e s') s.
Proof. unfold wpg. destruct (m s) as [[[] ?]| |]; auto. Qed.

(** One step of a computation, by the shape of its head. *)
Ltac wstep :=
  lazymatch goal with
  | |- wpg _ _ (mbind _ _) _ _ _ => apply wp_bind
  | |- wpg _ _ (mret _) _ _ _ => apply wp_ret
  | |- wpg _ _ (throw _) _ _ _ => apply wp_throw
  | |- wpg _ _ (gets _) _ _ _ => apply wp_gets
  | |- wpg _ _ get _ _ _ => apply wp_get
  | |- wpg _ _ (modify _) _ _ _ => apply wp_modify
  | |- wpg _ _ (on_error _ _) _ _ _ => apply wp_on_error
  | |- wpg _ _ (status _) _ _ _ => apply wp_status
  | |- wpg _ _ (attempt _) _ _ _ => apply wp_attempt
  | |- wpg _ _ (rc _) _ _ _ => apply wp_rc
  end.
Ltac wsteps := repeat (wstep; cbv beta).
(** The branch that a condition without unknowns takes. *)
Ltac wif :=
  match goal with
  | |- wpg _ _ (if ?b then _ else _) _ _ _ =>
      let b' := eval vm_compute in b in change b with b'; cbv iota
  end.

(** ** Computations that only read the state *)
Class Reader {S A} (m : M S A) : Prop :=
  reader_state : ∀ s r s', m s = Done (r, s') → s' = s.

Section Readers.
Context {S : Type}.
#[global] Instance reader_ret {A} (a : A) : Reader (mret a : M S A).
Proof. intros s r s'. cbv. congruence. Qed.
#[global] Instance reader_throw {A} e : Reader (throw e : M S A).
Proof. intros s r s'. cbv. congruence. Qed.
#[global] Instance reader_fault {A} : Reader (fault : M S A).
Proof. intros s r s'. cbv. congruence. Qed.
#[global] Instance reader_nofuel {A} : Reader (nofuel : M S A).
Proof. intros s r s'. cbv. congruence. Qed.
#[global] Instance reader_gets {A} (f : S → A) : Reader (gets f).
Proof. intros s r s'. cbv. congruence. Qed.
#[global] Instance reader_access {A} (o : option A) : Reader (access o : M S A).
Proof. destruct o; cbn; apply _. Qed.
#[global] Instance reader_bind {A B} (m : M S A) (f : A → M S B) :
  Reader m → (∀ a, Reader (f a)) → Reader (m ≫= f).
Proof.
  intros Hm Hf s r s'. unfold mbind, M_bind.
  destruct (m s) as [[[a|e] s1]| |] eqn:E; try done.
  - apply Hm in E as ->. apply Hf.
  - apply Hm in E as ->. congruence.
Qed.
#[global] Instance reader_if {A} (b : bool) (m n : M S A) :
  Reader m → Reader n → Reader (if b then m else n).
Proof. by destruct b. Qed.
#[global] Instance reader_option {X A} (o : option X) (f : X → M S A) (n : M S A) :
  (∀ x, Reader (f x)) → Reader n → Reader (match o with Some x => f x | None => n end).
Proof. by destruct o. Qed.

Lemma wp_reader {F N} {A} (m : M S A) Q E s :
  Reader m → wpg F N m Q E s →
  wpg F N m (λ a s', s' = s ∧ Q a s') (λ e s', s' = s ∧ E e s') s.
Proof.
  intros Hm. unfold wpg. destruct (m s) as [[[a|e] s1]| |] eqn:Hs; try done;
    apply Hm in Hs as ->; done.
Qed.
Lemma wlp_true {A} (m : M S A) s : wlp m (λ _ _, True) (λ _ _, True) s.
Proof. unfold wpg. by destruct (m s) as [[[a|e] s1]| |]. Qed.
(** A reader whose value does not matter. *)
Lemma wlp_skip {A B} (m : M S A) (f : A → M S B) Q (E : Z → S → Prop) s :
  Reader m → (∀ a, wlp (f a) Q E s) → (∀ e, E e s) → wlp (m ≫= f) Q E s.
Proof.
  intros Hm Hf HE. apply wp_bind.
  eapply wp_mono; [apply wp_reader; [done|apply wlp_true]| |].
  - by intros a s' [-> _].
  - by intros e s' [-> _].
Qed.
End Readers.

Lemma wp_loosen {S A} (F N : Prop) (m : M S A) Q E s :
  wp m Q E s → wpg F N m Q E s.
Proof. intros. by eapply wp_weaken. Qed.
