(* ===== verification/Text.v ===== *)
(** * Text

    C strings are lists of characters without the terminator; the functions of the
    C library and of the kernel's string library that the drivers use. *)
From Stdlib Require Import Ascii String.
From stdpp Require Import strings.
From S2P Require Import Prelude.

Abbreviation text := (list ascii).
Definition lit (s : string) : text := list_ascii_of_string s.
Definition hex_digit (d : Z) : ascii := nth (Z.to_nat d) (lit "0123456789ABCDEF") "0"%char.
(** The last [n] hexadecimal digits, which for a value of [4 n] bits are all. *)
Fixpoint hex (n : nat) (v : Z) : text :=
  match n with
  | O => []
  | S n => hex n (v / 16) ++ [hex_digit (v mod 16)]
  end.

(** [scnprintf(buf, size, ...)] at offset [ofst] of a buffer of [len] bytes: at
    most [size - 1] characters and a terminator; behind the buffer it faults. *)
Definition scnprintf {T} (len ofst size : Z) (t : text) : M T text :=
  let t := take (Z.to_nat (size - 1)) t in
  access (if ofst + Z.of_nat (length t) + 1 <=? len then Some t else None).

Definition newline : ascii := "010"%char.

(** [sysfs_streq]: equal, where one of the two may have a newline more. *)
Fixpoint sysfs_streq (s1 s2 : text) : bool :=
  match s1, s2 with
  | [], [] => true
  | [], [c] | [c], [] => Ascii.eqb c newline
  | c1 :: s1, c2 :: s2 => if Ascii.eqb c1 c2 then sysfs_streq s1 s2 else false
  | _, _ => false
  end.

(** [strsep(&s, delim)] called until [s] is NULL: the pieces of [s], empty ones
    included, which are one more than the delimiters. *)
Fixpoint strsep_all (delim : ascii → bool) (s : text) : list text :=
  match s with
  | [] => [[]]
  | c :: s =>
      let r := strsep_all delim s in
      if delim c then [] :: r
      else match r with p :: r => (c :: p) :: r | [] => [[c]] end
  end.

(** Pieces put together again with a delimiter between them. *)
Fixpoint join (d : ascii) (ps : list text) : text :=
  match ps with
  | [] => []
  | [p] => p
  | p :: ps => p ++ d :: join d ps
  end.

Lemma strsep_all_plain delim p : Forall (λ c, delim c = false) p → strsep_all delim p = [p].
Proof. induction 1 as [|c p Hc _ IH]; [done|]. cbn. by rewrite IH, Hc. Qed.
Lemma strsep_all_app delim p d s :
  Forall (λ c, delim c = false) p → delim d = true → strsep_all delim (p ++ d :: s) = p :: strsep_all delim s.
Proof. intros Hp Hd. induction Hp as [|c p Hc _ IH]; cbn; [by rewrite Hd|]. by rewrite IH, Hc. Qed.
(** Pieces without delimiters are found again. *)
Lemma strsep_join delim d ps :
  delim d = true → ps ≠ [] → Forall (Forall (λ c, delim c = false)) ps → strsep_all delim (join d ps) = ps.
Proof.
  intros Hd Hne Hps. induction Hps as [|p ps Hp _ IH]; [done|].
  destruct ps as [|q ps]; cbn [join]; [by apply strsep_all_plain|].
  rewrite strsep_all_app by done. f_equal. by apply IH.
Qed.
Lemma strsep_all_nonempty delim s : strsep_all delim s ≠ [].
Proof. induction s as [|c s IH]; cbn; [done|]. destruct (delim c); [done|]. by destruct (strsep_all delim s). Qed.

Lemma sysfs_streq_refl s : sysfs_streq s s = true.
Proof. induction s as [|c s IH]; [done|]. cbn. destruct s; rewrite Ascii.eqb_refl; done. Qed.

Lemma strsep_all_pieces delim s : Forall (Forall (λ c, delim c = false)) (strsep_all delim s).
Proof.
  induction s as [|c s IH]; cbn; [by repeat constructor|]. destruct (delim c) eqn:Hc; [by repeat constructor|].
  destruct (strsep_all delim s) as [|p r]; [by repeat constructor|]. inversion IH; subst. constructor; [by constructor|done].
Qed.
(** What is behind the last delimiter is empty. *)
Lemma strsep_all_end delim s d : delim d = true → strsep_all delim (s ++ [d]) = strsep_all delim s ++ [[]].
Proof.
  intros Hd. induction s as [|c s IH]; cbn; [by rewrite Hd|]. rewrite IH. destruct (delim c); [done|].
  pose proof (strsep_all_nonempty delim s). by destruct (strsep_all delim s).
Qed.
(** Without newlines [sysfs_streq] is equality. *)
Lemma sysfs_streq_plain s1 s2 :
  Forall (λ c, c ≠ newline) s1 → Forall (λ c, c ≠ newline) s2 → sysfs_streq s1 s2 = true → s1 = s2.
Proof.
  intros H1. revert s2. induction H1 as [|c s1 Hc H1 IH]; intros [|d s2] H2.
  - done.
  - inversion H2; subst. cbn. destruct s2; [|done]. intros ?%Ascii.eqb_eq; cbv beta in *; congruence.
  - cbn. destruct s1; [|done]. intros ?%Ascii.eqb_eq; congruence.
  - inversion H2 as [|? ? Hd H2' [Heq1 Heq2]]; subst. intros Hs.
    assert ((if Ascii.eqb c d then sysfs_streq s1 s2 else false) = true) as Hs' by by destruct s1.
    destruct (Ascii.eqb_spec c d) as [<-|]; [|done]. f_equal. by apply IH.
Qed.
