(* ===== verification/Bytes.v ===== *)
(** * Bytes and words

    Buffers are lists of bytes; the processor is little endian. *)
From S2P Require Import Prelude.

(** The word that up to four bytes make. *)
Fixpoint le_word (l : list Z) : Z :=
  match l with [] => 0 | b :: l => b + 256 * le_word l end.

(** The words of a buffer, [n] at most. *)
Fixpoint le_words (n : nat) (buf : list Z) : list Z :=
  match n, buf with
  | S n, _ :: _ => le_word (take 4 buf) :: le_words n (drop 4 buf)
  | _, _ => []
  end.
Fixpoint le_split (n : nat) (w : Z) : list Z :=
  match n with O => [] | S n => w mod 256 :: le_split n (w / 256) end.

Lemma length_le_split n w : length (le_split n w) = n.
Proof. revert w. induction n as [|n IH]; intros w; cbn; [done|]. by rewrite IH. Qed.
Lemma le_split_0 n : le_split n 0 = replicate n 0.
Proof. induction n as [|n IH]; cbn [le_split replicate]; [done|]. rewrite Z.div_0_l by lia. by rewrite IH. Qed.
Lemma le_split_word n l :
  (length l ≤ n)%nat → Forall is_u8 l → le_split n (le_word l) = l ++ replicate (n - length l) 0.
Proof.
  intros Hn Hl. revert n Hn. induction Hl as [|b l Hb _ IH]; intros n Hn.
  { cbn [le_word app]. by rewrite le_split_0, Nat.sub_0_r. }
  destruct n as [|n]; cbn in Hn; [lia|]. cbn [le_split le_word app length Nat.sub].
  unfold is_u8 in Hb. rewrite <- (IH n) by lia. f_equal.
  - rewrite (Z.mul_comm 256), Z_mod_plus_full. apply Z.mod_small. lia.
  - f_equal. rewrite (Z.mul_comm 256), Z.div_add by lia. rewrite Z.div_small by lia. lia.
Qed.
(** The words hold the bytes in order, the last one filled with zeroes. *)
Lemma le_words_bytes n buf :
  (length buf ≤ n)%nat → Forall is_u8 buf →
  ∃ pad, (pad < 4)%nat ∧ le_words n buf ≫= le_split 4 = buf ++ replicate pad 0.
Proof.
  revert buf. induction n as [|n IH]; intros [|b buf] Hn Hb; cbn in Hn; try lia;
    [exists 0%nat; split; [lia|done]..|].
  cbn [le_words]. rewrite bind_cons.
  set (l := b :: buf) in *. assert (length (take 4 l) ≤ 4)%nat by (rewrite length_take; lia).
  rewrite le_split_word by (done || by apply Forall_take).
  destruct (decide (length l ≤ 4)%nat) as [Hs|Hs].
  - rewrite take_ge, drop_ge by done. exists (4 - length l)%nat. split; [cbn; lia|].
    destruct n; cbn [le_words mbind list_bind]; by rewrite app_nil_r.
  - destruct (IH (drop 4 l)) as (pad & Hp & He); [rewrite length_drop; cbn; lia|by apply Forall_drop|].
    exists pad. split; [done|]. rewrite He, length_take, Nat.min_l by lia.
    cbn [replicate Nat.sub]. rewrite app_nil_r, app_assoc. by rewrite take_drop.
Qed.

(** A whole number of words holds its bytes exactly. *)
Lemma le_words_exact n buf :
  length buf = (4 * n)%nat → Forall is_u8 buf → le_words n buf ≫= le_split 4 = buf.
Proof.
  revert buf. induction n as [|n IH]; intros buf Hn Hb; [by destruct buf|].
  destruct buf as [|b buf]; [done|]. cbn [le_words]. rewrite bind_cons. set (l := b :: buf) in *.
  assert (length (take 4 l) = 4%nat) as H4 by (rewrite length_take; lia).
  rewrite le_split_word by (lia || by apply Forall_take). rewrite H4, app_nil_r.
  rewrite IH; [apply take_drop| |by apply Forall_drop]. rewrite length_drop. lia.
Qed.
Lemma le_word_bound l : Forall is_u8 l → 0 ≤ le_word l < 256 ^ Z.of_nat (length l).
Proof.
  induction 1 as [|b l Hb _ IH]; [done|]. unfold is_u8 in Hb. cbn [le_word length]. rewrite Nat2Z.inj_succ, Z.pow_succ_r by lia. lia.
Qed.
Lemma le_words_u32 n buf : Forall is_u8 buf → Forall is_u32 (le_words n buf).
Proof.
  revert buf. induction n as [|n IH]; intros [|b buf] Hb; cbn [le_words]; constructor; [|by apply IH, Forall_drop].
  pose proof (le_word_bound (take 4 (b :: buf)) ltac:(by apply Forall_take)).
  assert (256 ^ Z.of_nat (length (take 4 (b :: buf))) ≤ 256 ^ 4) by (apply Z.pow_le_mono_r; [lia|rewrite length_take; lia]).
  unfold is_u32. lia.
Qed.

(** [n] bytes of a buffer from [off] on, where they exist. *)
Definition slice (off n : Z) (buf : list Z) : option (list Z) :=
  if (0 <=? off) && (0 <=? n) && (off + n <=? Z.of_nat (length buf))
  then Some (take (Z.to_nat n) (drop (Z.to_nat off) buf)) else None.

Lemma slice_Some off n buf :
  0 ≤ off → 0 ≤ n → off + n ≤ Z.of_nat (length buf) →
  slice off n buf = Some (take (Z.to_nat n) (drop (Z.to_nat off) buf)).
Proof.
  intros ???. unfold slice. destruct (Z.leb_spec 0 off), (Z.leb_spec 0 n), (Z.leb_spec (off + n) (Z.of_nat (length buf))); done || lia.
Qed.
(** Two adjacent parts of a buffer. *)
Lemma slice_app (a b c : nat) (buf : list Z) :
  (a ≤ b ≤ c)%nat →
  take (b - a) (drop a buf) ++ take (c - b) (drop b buf) = take (c - a) (drop a buf).
Proof.
  intros Hb. replace (drop b buf) with (drop (b - a) (drop a buf)) by (rewrite drop_drop; f_equal; lia).
  rewrite <- (take_drop (b - a) (take (c - a) (drop a buf))). f_equal.
  - rewrite take_take. f_equal. lia.
  - rewrite skipn_firstn_comm. f_equal. lia.
Qed.

(** Bytes written over a part of a buffer, where it is long enough. *)
Definition splice (off : Z) (bytes buf : list Z) : option (list Z) :=
  if (0 <=? off) && (off + Z.of_nat (length bytes) <=? Z.of_nat (length buf))
  then Some (take (Z.to_nat off) buf ++ bytes ++ drop (Z.to_nat off + length bytes) buf) else None.
Lemma splice_Some off bytes buf :
  0 ≤ off → off + Z.of_nat (length bytes) ≤ Z.of_nat (length buf) →
  splice off bytes buf = Some (take (Z.to_nat off) buf ++ bytes ++ drop (Z.to_nat off + length bytes) buf).
Proof.
  intros ??. unfold splice. destruct (Z.leb_spec 0 off), (Z.leb_spec (off + Z.of_nat (length bytes)) (Z.of_nat (length buf))); done || lia.
Qed.
