(* ===== verification/DflRegs.v ===== *)
(** * Registers of the Device Feature List (drivers/fpga/dfl.h)

    Offsets are [Z], bit masks are [field]s.  [dfl_fields_ok] states that every
    mask of the list is a mask of a 64-bit register. *)
From S2P Require Import Prelude.

(* drivers/fpga/dfl.h:33-33 MAX_DFL_FPGA_PORT_NUM *)
Definition MAX_DFL_FPGA_PORT_NUM : Z := 4.
(* drivers/fpga/dfl.h:38-38 FEATURE_ID_FIU_HEADER *)
Definition FEATURE_ID_FIU_HEADER : Z := 0xfe.
(* drivers/fpga/dfl.h:39-39 FEATURE_ID_AFU *)
Definition FEATURE_ID_AFU : Z := 0xff.
(* drivers/fpga/dfl.h:41-41 FME_FEATURE_ID_HEADER *)
Definition FME_FEATURE_ID_HEADER : Z := FEATURE_ID_FIU_HEADER.
(* drivers/fpga/dfl.h:42-42 FME_FEATURE_ID_THERMAL_MGMT *)
Definition FME_FEATURE_ID_THERMAL_MGMT : Z := 0x1.
(* drivers/fpga/dfl.h:43-43 FME_FEATURE_ID_POWER_MGMT *)
Definition FME_FEATURE_ID_POWER_MGMT : Z := 0x2.
(* drivers/fpga/dfl.h:44-44 FME_FEATURE_ID_GLOBAL_IPERF *)
Definition FME_FEATURE_ID_GLOBAL_IPERF : Z := 0x3.
(* drivers/fpga/dfl.h:45-45 FME_FEATURE_ID_GLOBAL_ERR *)
Definition FME_FEATURE_ID_GLOBAL_ERR : Z := 0x4.
(* drivers/fpga/dfl.h:46-46 FME_FEATURE_ID_PR_MGMT *)
Definition FME_FEATURE_ID_PR_MGMT : Z := 0x5.
(* drivers/fpga/dfl.h:47-47 FME_FEATURE_ID_HSSI *)
Definition FME_FEATURE_ID_HSSI : Z := 0x6.
(* drivers/fpga/dfl.h:48-48 FME_FEATURE_ID_GLOBAL_DPERF *)
Definition FME_FEATURE_ID_GLOBAL_DPERF : Z := 0x7.
(* drivers/fpga/dfl.h:50-50 PORT_FEATURE_ID_HEADER *)
Definition PORT_FEATURE_ID_HEADER : Z := FEATURE_ID_FIU_HEADER.
(* drivers/fpga/dfl.h:51-51 PORT_FEATURE_ID_AFU *)
Definition PORT_FEATURE_ID_AFU : Z := FEATURE_ID_AFU.
(* drivers/fpga/dfl.h:52-52 PORT_FEATURE_ID_ERROR *)
Definition PORT_FEATURE_ID_ERROR : Z := 0x10.
(* drivers/fpga/dfl.h:53-53 PORT_FEATURE_ID_UMSG *)
Definition PORT_FEATURE_ID_UMSG : Z := 0x11.
(* drivers/fpga/dfl.h:54-54 PORT_FEATURE_ID_UINT *)
Definition PORT_FEATURE_ID_UINT : Z := 0x12.
(* drivers/fpga/dfl.h:55-55 PORT_FEATURE_ID_STP *)
Definition PORT_FEATURE_ID_STP : Z := 0x13.
(* drivers/fpga/dfl.h:64-64 DFH *)
Definition DFH : Z := 0x0.
(* drivers/fpga/dfl.h:65-65 GUID_L *)
Definition GUID_L : Z := 0x8.
(* drivers/fpga/dfl.h:66-66 GUID_H *)
Definition GUID_H : Z := 0x10.
(* drivers/fpga/dfl.h:67-67 NEXT_AFU *)
Definition NEXT_AFU : Z := 0x18.
(* drivers/fpga/dfl.h:69-69 DFH_SIZE *)
Definition DFH_SIZE : Z := 0x8.
(* drivers/fpga/dfl.h:72-72 DFH_ID *)
Definition DFH_ID : field := GENMASK_ULL 11 0.
(* drivers/fpga/dfl.h:73-73 DFH_ID_FIU_FME *)
Definition DFH_ID_FIU_FME : Z := 0.
(* drivers/fpga/dfl.h:74-74 DFH_ID_FIU_PORT *)
Definition DFH_ID_FIU_PORT : Z := 1.
(* drivers/fpga/dfl.h:75-75 DFH_ID_FIU_PRIV_FEAT *)
Definition DFH_ID_FIU_PRIV_FEAT : Z := 2.
(* drivers/fpga/dfl.h:76-76 DFH_REVISION *)
Definition DFH_REVISION : field := GENMASK_ULL 15 12.
(* drivers/fpga/dfl.h:77-77 DFH_NEXT_HDR_OFST *)
Definition DFH_NEXT_HDR_OFST : field := GENMASK_ULL 39 16.
(* drivers/fpga/dfl.h:78-78 DFH_EOL *)
Definition DFH_EOL : field := BIT_ULL 40.
(* drivers/fpga/dfl.h:79-79 DFH_VERSION *)
Definition DFH_VERSION : field := GENMASK_ULL 59 52.
(* drivers/fpga/dfl.h:80-80 DFH_TYPE *)
Definition DFH_TYPE : field := GENMASK_ULL 63 60.
(* drivers/fpga/dfl.h:81-81 DFH_TYPE_AFU *)
Definition DFH_TYPE_AFU : Z := 1.
(* drivers/fpga/dfl.h:82-82 DFH_TYPE_PRIVATE *)
Definition DFH_TYPE_PRIVATE : Z := 3.
(* drivers/fpga/dfl.h:83-83 DFH_TYPE_FIU *)
Definition DFH_TYPE_FIU : Z := 4.
(* drivers/fpga/dfl.h:84-84 DFH_TYPE_INTERFACE *)
Definition DFH_TYPE_INTERFACE : Z := 5.
(* drivers/fpga/dfl.h:91-91 DFHv1_CSR_ADDR *)
Definition DFHv1_CSR_ADDR : Z := 0x18.
(* drivers/fpga/dfl.h:92-92 DFHv1_CSR_SIZE_GRP *)
Definition DFHv1_CSR_SIZE_GRP : Z := 0x20.
(* drivers/fpga/dfl.h:93-93 DFHv1_PARAM_HDR *)
Definition DFHv1_PARAM_HDR : Z := 0x28.
(* drivers/fpga/dfl.h:99-99 DFHv1_CSR_ADDR_REL *)
Definition DFHv1_CSR_ADDR_REL : field := BIT_ULL 0.
(* drivers/fpga/dfl.h:102-102 DFHv1_CSR_ADDR_MASK *)
Definition DFHv1_CSR_ADDR_MASK : field := GENMASK_ULL 63 1.
(* drivers/fpga/dfl.h:105-105 DFHv1_CSR_SIZE_GRP_INSTANCE_ID *)
Definition DFHv1_CSR_SIZE_GRP_INSTANCE_ID : field := GENMASK_ULL 15 0.
(* drivers/fpga/dfl.h:106-106 DFHv1_CSR_SIZE_GRP_GROUPING_ID *)
Definition DFHv1_CSR_SIZE_GRP_GROUPING_ID : field := GENMASK_ULL 30 16.
(* drivers/fpga/dfl.h:107-107 DFHv1_CSR_SIZE_GRP_HAS_PARAMS *)
Definition DFHv1_CSR_SIZE_GRP_HAS_PARAMS : field := BIT_ULL 31.
(* drivers/fpga/dfl.h:108-108 DFHv1_CSR_SIZE_GRP_SIZE *)
Definition DFHv1_CSR_SIZE_GRP_SIZE : field := GENMASK_ULL 63 32.
(* drivers/fpga/dfl.h:111-111 DFHv1_PARAM_HDR_ID *)
Definition DFHv1_PARAM_HDR_ID : field := GENMASK_ULL 15 0.
(* drivers/fpga/dfl.h:112-112 DFHv1_PARAM_HDR_VER *)
Definition DFHv1_PARAM_HDR_VER : field := GENMASK_ULL 31 16.
(* drivers/fpga/dfl.h:113-113 DFHv1_PARAM_HDR_NEXT_OFFSET *)
Definition DFHv1_PARAM_HDR_NEXT_OFFSET : field := GENMASK_ULL 63 35.
(* drivers/fpga/dfl.h:114-114 DFHv1_PARAM_HDR_NEXT_EOP *)
Definition DFHv1_PARAM_HDR_NEXT_EOP : field := BIT_ULL 32.
(* drivers/fpga/dfl.h:115-115 DFHv1_PARAM_DATA *)
Definition DFHv1_PARAM_DATA : Z := 0x08.
(* drivers/fpga/dfl.h:117-117 DFHv1_PARAM_ID_MSI_X *)
Definition DFHv1_PARAM_ID_MSI_X : Z := 0x1.
(* drivers/fpga/dfl.h:118-118 DFHv1_PARAM_MSI_X_NUMV *)
Definition DFHv1_PARAM_MSI_X_NUMV : field := GENMASK_ULL 63 32.
(* drivers/fpga/dfl.h:119-119 DFHv1_PARAM_MSI_X_STARTV *)
Definition DFHv1_PARAM_MSI_X_STARTV : field := GENMASK_ULL 31 0.
(* drivers/fpga/dfl.h:122-122 NEXT_AFU_NEXT_DFH_OFST *)
Definition NEXT_AFU_NEXT_DFH_OFST : field := GENMASK_ULL 23 0.
(* drivers/fpga/dfl.h:125-125 FME_HDR_DFH *)
Definition FME_HDR_DFH : Z := DFH.
(* drivers/fpga/dfl.h:126-126 FME_HDR_GUID_L *)
Definition FME_HDR_GUID_L : Z := GUID_L.
(* drivers/fpga/dfl.h:127-127 FME_HDR_GUID_H *)
Definition FME_HDR_GUID_H : Z := GUID_H.
(* drivers/fpga/dfl.h:128-128 FME_HDR_NEXT_AFU *)
Definition FME_HDR_NEXT_AFU : Z := NEXT_AFU.
(* drivers/fpga/dfl.h:129-129 FME_HDR_CAP *)
Definition FME_HDR_CAP : Z := 0x30.
(* drivers/fpga/dfl.h:130-130 FME_HDR_PORT_OFST *)
Definition FME_HDR_PORT_OFST (n : Z) : Z := 0x38 + n * 0x8.
(* drivers/fpga/dfl.h:131-131 FME_PORT_OFST_BAR_SKIP *)
Definition FME_PORT_OFST_BAR_SKIP : Z := 7.
(* drivers/fpga/dfl.h:132-132 FME_HDR_BITSTREAM_ID *)
Definition FME_HDR_BITSTREAM_ID : Z := 0x60.
(* drivers/fpga/dfl.h:133-133 FME_HDR_BITSTREAM_MD *)
Definition FME_HDR_BITSTREAM_MD : Z := 0x68.
(* drivers/fpga/dfl.h:136-136 FME_CAP_FABRIC_VERID *)
Definition FME_CAP_FABRIC_VERID : field := GENMASK_ULL 7 0.
(* drivers/fpga/dfl.h:137-137 FME_CAP_SOCKET_ID *)
Definition FME_CAP_SOCKET_ID : field := BIT_ULL 8.
(* drivers/fpga/dfl.h:138-138 FME_CAP_PCIE0_LINK_AVL *)
Definition FME_CAP_PCIE0_LINK_AVL : field := BIT_ULL 12.
(* drivers/fpga/dfl.h:139-139 FME_CAP_PCIE1_LINK_AVL *)
Definition FME_CAP_PCIE1_LINK_AVL : field := BIT_ULL 13.
(* drivers/fpga/dfl.h:140-140 FME_CAP_COHR_LINK_AVL *)
Definition FME_CAP_COHR_LINK_AVL : field := BIT_ULL 14.
(* drivers/fpga/dfl.h:141-141 FME_CAP_IOMMU_AVL *)
Definition FME_CAP_IOMMU_AVL : field := BIT_ULL 16.
(* drivers/fpga/dfl.h:142-142 FME_CAP_NUM_PORTS *)
Definition FME_CAP_NUM_PORTS : field := GENMASK_ULL 19 17.
(* drivers/fpga/dfl.h:143-143 FME_CAP_ADDR_WIDTH *)
Definition FME_CAP_ADDR_WIDTH : field := GENMASK_ULL 29 24.
(* drivers/fpga/dfl.h:144-144 FME_CAP_CACHE_SIZE *)
Definition FME_CAP_CACHE_SIZE : field := GENMASK_ULL 43 32.
(* drivers/fpga/dfl.h:145-145 FME_CAP_CACHE_ASSOC *)
Definition FME_CAP_CACHE_ASSOC : field := GENMASK_ULL 47 44.
(* drivers/fpga/dfl.h:149-149 FME_PORT_OFST_DFH_OFST *)
Definition FME_PORT_OFST_DFH_OFST : field := GENMASK_ULL 23 0.
(* drivers/fpga/dfl.h:151-151 FME_PORT_OFST_BAR_ID *)
Definition FME_PORT_OFST_BAR_ID : field := GENMASK_ULL 34 32.
(* drivers/fpga/dfl.h:153-153 FME_PORT_OFST_ACC_CTRL *)
Definition FME_PORT_OFST_ACC_CTRL : field := BIT_ULL 55.
(* drivers/fpga/dfl.h:154-154 FME_PORT_OFST_ACC_PF *)
Definition FME_PORT_OFST_ACC_PF : Z := 0.
(* drivers/fpga/dfl.h:155-155 FME_PORT_OFST_ACC_VF *)
Definition FME_PORT_OFST_ACC_VF : Z := 1.
(* drivers/fpga/dfl.h:156-156 FME_PORT_OFST_IMP *)
Definition FME_PORT_OFST_IMP : field := BIT_ULL 60.
(* drivers/fpga/dfl.h:159-159 FME_ERROR_CAP *)
Definition FME_ERROR_CAP : Z := 0x70.
(* drivers/fpga/dfl.h:162-162 FME_ERROR_CAP_SUPP_INT *)
Definition FME_ERROR_CAP_SUPP_INT : field := BIT_ULL 0.
(* drivers/fpga/dfl.h:163-163 FME_ERROR_CAP_INT_VECT *)
Definition FME_ERROR_CAP_INT_VECT : field := GENMASK_ULL 12 1.
(* drivers/fpga/dfl.h:166-166 PORT_HDR_DFH *)
Definition PORT_HDR_DFH : Z := DFH.
(* drivers/fpga/dfl.h:167-167 PORT_HDR_GUID_L *)
Definition PORT_HDR_GUID_L : Z := GUID_L.
(* drivers/fpga/dfl.h:168-168 PORT_HDR_GUID_H *)
Definition PORT_HDR_GUID_H : Z := GUID_H.
(* drivers/fpga/dfl.h:169-169 PORT_HDR_NEXT_AFU *)
Definition PORT_HDR_NEXT_AFU : Z := NEXT_AFU.
(* drivers/fpga/dfl.h:170-170 PORT_HDR_CAP *)
Definition PORT_HDR_CAP : Z := 0x30.
(* drivers/fpga/dfl.h:171-171 PORT_HDR_CTRL *)
Definition PORT_HDR_CTRL : Z := 0x38.
(* drivers/fpga/dfl.h:172-172 PORT_HDR_STS *)
Definition PORT_HDR_STS : Z := 0x40.
(* drivers/fpga/dfl.h:173-173 PORT_HDR_USRCLK_CMD0 *)
Definition PORT_HDR_USRCLK_CMD0 : Z := 0x50.
(* drivers/fpga/dfl.h:174-174 PORT_HDR_USRCLK_CMD1 *)
Definition PORT_HDR_USRCLK_CMD1 : Z := 0x58.
(* drivers/fpga/dfl.h:175-175 PORT_HDR_USRCLK_STS0 *)
Definition PORT_HDR_USRCLK_STS0 : Z := 0x60.
(* drivers/fpga/dfl.h:176-176 PORT_HDR_USRCLK_STS1 *)
Definition PORT_HDR_USRCLK_STS1 : Z := 0x68.
(* drivers/fpga/dfl.h:179-179 PORT_CAP_PORT_NUM *)
Definition PORT_CAP_PORT_NUM : field := GENMASK_ULL 1 0.
(* drivers/fpga/dfl.h:180-180 PORT_CAP_MMIO_SIZE *)
Definition PORT_CAP_MMIO_SIZE : field := GENMASK_ULL 23 8.
(* drivers/fpga/dfl.h:181-181 PORT_CAP_SUPP_INT_NUM *)
Definition PORT_CAP_SUPP_INT_NUM : field := GENMASK_ULL 35 32.
(* drivers/fpga/dfl.h:184-184 PORT_CTRL_SFTRST *)
Definition PORT_CTRL_SFTRST : field := BIT_ULL 0.
(* drivers/fpga/dfl.h:186-186 PORT_CTRL_LATENCY *)
Definition PORT_CTRL_LATENCY : field := BIT_ULL 2.
(* drivers/fpga/dfl.h:187-187 PORT_CTRL_SFTRST_ACK *)
Definition PORT_CTRL_SFTRST_ACK : field := BIT_ULL 4.
(* drivers/fpga/dfl.h:190-190 PORT_STS_AP2_EVT *)
Definition PORT_STS_AP2_EVT : field := BIT_ULL 13.
(* drivers/fpga/dfl.h:191-191 PORT_STS_AP1_EVT *)
Definition PORT_STS_AP1_EVT : field := BIT_ULL 12.
(* drivers/fpga/dfl.h:192-192 PORT_STS_PWR_STATE *)
Definition PORT_STS_PWR_STATE : field := GENMASK_ULL 11 8.
(* drivers/fpga/dfl.h:193-193 PORT_STS_PWR_STATE_NORM *)
Definition PORT_STS_PWR_STATE_NORM : Z := 0.
(* drivers/fpga/dfl.h:194-194 PORT_STS_PWR_STATE_AP1 *)
Definition PORT_STS_PWR_STATE_AP1 : Z := 1.
(* drivers/fpga/dfl.h:195-195 PORT_STS_PWR_STATE_AP2 *)
Definition PORT_STS_PWR_STATE_AP2 : Z := 2.
(* drivers/fpga/dfl.h:196-196 PORT_STS_PWR_STATE_AP6 *)
Definition PORT_STS_PWR_STATE_AP6 : Z := 6.
(* drivers/fpga/dfl.h:199-199 PORT_ERROR_CAP *)
Definition PORT_ERROR_CAP : Z := 0x38.
(* drivers/fpga/dfl.h:202-202 PORT_ERROR_CAP_SUPP_INT *)
Definition PORT_ERROR_CAP_SUPP_INT : field := BIT_ULL 0.
(* drivers/fpga/dfl.h:203-203 PORT_ERROR_CAP_INT_VECT *)
Definition PORT_ERROR_CAP_INT_VECT : field := GENMASK_ULL 12 1.
(* drivers/fpga/dfl.h:206-206 PORT_UINT_CAP *)
Definition PORT_UINT_CAP : Z := 0x8.
(* drivers/fpga/dfl.h:209-209 PORT_UINT_CAP_INT_NUM *)
Definition PORT_UINT_CAP_INT_NUM : field := GENMASK_ULL 11 0.
(* drivers/fpga/dfl.h:210-210 PORT_UINT_CAP_FST_VECT *)
Definition PORT_UINT_CAP_FST_VECT : field := GENMASK_ULL 23 12.

Definition dfl_fields : list field :=
  [DFH_ID;
   DFH_REVISION;
   DFH_NEXT_HDR_OFST;
   DFH_EOL;
   DFH_VERSION;
   DFH_TYPE;
   DFHv1_CSR_ADDR_REL;
   DFHv1_CSR_ADDR_MASK;
   DFHv1_CSR_SIZE_GRP_INSTANCE_ID;
   DFHv1_CSR_SIZE_GRP_GROUPING_ID;
   DFHv1_CSR_SIZE_GRP_HAS_PARAMS;
   DFHv1_CSR_SIZE_GRP_SIZE;
   DFHv1_PARAM_HDR_ID;
   DFHv1_PARAM_HDR_VER;
   DFHv1_PARAM_HDR_NEXT_OFFSET;
   DFHv1_PARAM_HDR_NEXT_EOP;
   DFHv1_PARAM_MSI_X_NUMV;
   DFHv1_PARAM_MSI_X_STARTV;
   NEXT_AFU_NEXT_DFH_OFST;
   FME_CAP_FABRIC_VERID;
   FME_CAP_SOCKET_ID;
   FME_CAP_PCIE0_LINK_AVL;
   FME_CAP_PCIE1_LINK_AVL;
   FME_CAP_COHR_LINK_AVL;
   FME_CAP_IOMMU_AVL;
   FME_CAP_NUM_PORTS;
   FME_CAP_ADDR_WIDTH;
   FME_CAP_CACHE_SIZE;
   FME_CAP_CACHE_ASSOC;
   FME_PORT_OFST_DFH_OFST;
   FME_PORT_OFST_BAR_ID;
   FME_PORT_OFST_ACC_CTRL;
   FME_PORT_OFST_IMP;
   FME_ERROR_CAP_SUPP_INT;
   FME_ERROR_CAP_INT_VECT;
   PORT_CAP_PORT_NUM;
   PORT_CAP_MMIO_SIZE;
   PORT_CAP_SUPP_INT_NUM;
   PORT_CTRL_SFTRST;
   PORT_CTRL_LATENCY;
   PORT_CTRL_SFTRST_ACK;
   PORT_STS_AP2_EVT;
   PORT_STS_AP1_EVT;
   PORT_STS_PWR_STATE;
   PORT_ERROR_CAP_SUPP_INT;
   PORT_ERROR_CAP_INT_VECT;
   PORT_UINT_CAP_INT_NUM;
   PORT_UINT_CAP_FST_VECT].

Definition field_okb (f : field) : bool :=
  (0 <=? f_lo f) && (f_lo f <=? f_hi f) && (f_hi f <? 64).
Lemma dfl_fields_ok : forallb field_okb dfl_fields = true.
Proof. reflexivity. Qed.

(** [fld] proves [field_ok] and the bounds of a concrete mask. *)
Ltac fld := solve [unfold field_ok, f_width; cbn; lia | vm_compute; repeat split; discriminate].

