(* ===== verification/DflTypes.v ===== *)
(** * Data of the DFL framework (drivers/fpga/dfl.h, include/linux/dfl.h)

    Records for the structures the DFL core shares with the drivers built on
    it, GUIDs, and the class [Kernel] of the kernel services the DFL core
    calls, none of which is code of this repository. *)
From stdpp Require Import gmap strings.
From S2P Require Import Prelude DflRegs.

(** ** GUIDs: sixteen bytes, the first three groups little-endian *)
Abbreviation guid_t := (list Z).
Definition byte_of (v i : Z) : Z := u8 (Z.shiftr v (8 * i)).
Definition GUID_INIT (a b c d0 d1 d2 d3 d4 d5 d6 d7 : Z) : guid_t :=
  [byte_of a 0; byte_of a 1; byte_of a 2; byte_of a 3; byte_of b 0; byte_of b 1;
   byte_of c 0; byte_of c 1; u8 d0; u8 d1; u8 d2; u8 d3; u8 d4; u8 d5; u8 d6; u8 d7].
Definition guid_null : guid_t := replicate 16 0.
Definition guid_equal (a b : guid_t) : bool := bool_decide (a = b).
Definition guid_is_null (g : guid_t) : bool := guid_equal g guid_null.

(* drivers/fpga/dfl.h:510-511 DFL_GUID_INVALID *)
Definition DFL_GUID_INVALID : guid_t :=
  GUID_INIT 0xffffffff 0xffff 0xffff 0xff 0xff 0xff 0xff 0xff 0xff 0xff 0xff.

(* drivers/fpga/dfl.h:513-521 dfl_guid_is_valid *)
Definition dfl_guid_is_valid (guid : guid_t) : bool :=
  let ret := true in
  let guid_invalid := DFL_GUID_INVALID in
  if guid_is_null guid || guid_equal guid guid_invalid then false else ret.

(* drivers/fpga/dfl.h:527-527 DFL_GUID_H_A *)
Definition DFL_GUID_H_A : field := GENMASK_ULL 63 32.
(* drivers/fpga/dfl.h:528-528 DFL_GUID_H_B *)
Definition DFL_GUID_H_B : field := GENMASK_ULL 31 16.
(* drivers/fpga/dfl.h:529-529 DFL_GUID_H_C *)
Definition DFL_GUID_H_C : field := GENMASK_ULL 15 0.
(* drivers/fpga/dfl.h:530-530 DFL_GUID_L_D0 *)
Definition DFL_GUID_L_D0 : field := GENMASK_ULL 63 56.
(* drivers/fpga/dfl.h:531-531 DFL_GUID_L_D1 *)
Definition DFL_GUID_L_D1 : field := GENMASK_ULL 55 48.
(* drivers/fpga/dfl.h:532-532 DFL_GUID_L_D2 *)
Definition DFL_GUID_L_D2 : field := GENMASK_ULL 47 40.
(* drivers/fpga/dfl.h:533-533 DFL_GUID_L_D3 *)
Definition DFL_GUID_L_D3 : field := GENMASK_ULL 39 32.
(* drivers/fpga/dfl.h:534-534 DFL_GUID_L_D4 *)
Definition DFL_GUID_L_D4 : field := GENMASK_ULL 31 24.
(* drivers/fpga/dfl.h:535-535 DFL_GUID_L_D5 *)
Definition DFL_GUID_L_D5 : field := GENMASK_ULL 23 16.
(* drivers/fpga/dfl.h:536-536 DFL_GUID_L_D6 *)
Definition DFL_GUID_L_D6 : field := GENMASK_ULL 15 8.
(* drivers/fpga/dfl.h:537-537 DFL_GUID_L_D7 *)
Definition DFL_GUID_L_D7 : field := GENMASK_ULL 7 0.

(** ** FIU types: [enum dfl_id_type], an integer in the code *)
(* include/linux/dfl.h:18-18 FME_ID *)
Definition FME_ID : Z := 0.
(* include/linux/dfl.h:19-19 PORT_ID *)
Definition PORT_ID : Z := 1.
(* include/linux/dfl.h:20-20 PRIV_FEAT_ID *)
Definition PRIV_FEAT_ID : Z := 2.
(* include/linux/dfl.h:21-21 DFL_ID_MAX *)
Definition DFL_ID_MAX : Z := 3.

(* drivers/fpga/dfl.h:417-417 DFL_FPGA_FEATURE_DEV_FME *)
Definition DFL_FPGA_FEATURE_DEV_FME : string := "dfl-fme".
(* drivers/fpga/dfl.h:418-418 DFL_FPGA_FEATURE_DEV_PORT *)
Definition DFL_FPGA_FEATURE_DEV_PORT : string := "dfl-port".
(* drivers/fpga/dfl.h:419-419 DFL_FPGA_FEATURE_DEV_PRIV_FEAT *)
Definition DFL_FPGA_FEATURE_DEV_PRIV_FEAT : string := "dfl-priv-feat".

(** The static part of [dfl_devs[]]: name, DFH id and chardev type. *)
(* drivers/fpga/dfl.c:59-64 dfl_dev_info *)
Record dfl_dev_info := DevInfo { di_name : string; di_dfh_id : Z; di_devt_type : Z }.
(* drivers/fpga/dfl.c:37-42 dfl_fpga_devt_type *)
Definition DFL_FPGA_DEVT_MAX : Z := 3.
(* drivers/fpga/dfl.c:66-74 dfl_devs *)
Definition dfl_devs : list dfl_dev_info :=
  [DevInfo DFL_FPGA_FEATURE_DEV_FME DFH_ID_FIU_FME 0;
   DevInfo DFL_FPGA_FEATURE_DEV_PORT DFH_ID_FIU_PORT 1;
   DevInfo DFL_FPGA_FEATURE_DEV_PRIV_FEAT DFH_ID_FIU_PRIV_FEAT 2].

(** The search of [dfh_id_to_type], from index [i]. *)
(* drivers/fpga/dfl.c:133-137 dfh_id_to_type *)
Fixpoint dfh_id_search (l : list dfl_dev_info) (i id : Z) : Z :=
  match l with
  | [] => DFL_ID_MAX
  | d :: l => if di_dfh_id d =? id then i else dfh_id_search l (i + 1) id
  end.
(* drivers/fpga/dfl.c:129-138 dfh_id_to_type *)
Definition dfh_id_to_type (id : Z) : Z := dfh_id_search dfl_devs 0 id.

(** ** Features and feature devices *)
Record resource := Res { r_start : Z; r_end : Z }.
#[export] Instance resource_eq_dec : EqDecision resource.
Proof. solve_decision. Defined.

(** [ic_trigger] is the eventfd context bound to the interrupt, [ic_name] whether
    the name buffer is allocated. *)
(* drivers/fpga/dfl.h:266-270 dfl_feature_irq_ctx *)
Record dfl_feature_irq_ctx := IrqCtx {
  ic_irq : Z;
  ic_trigger : option Z;
  ic_name : bool;
}.

(** A device on the DFL bus. *)
(* include/linux/dfl.h:42-57 dfl_device *)
Record dfl_device := DflDevice {
  dd_id : Z;
  dd_type : Z;
  dd_feature_id : Z;
  dd_revision : Z;
  dd_mmio_res : resource;
  dd_irqs : list Z;
  dd_num_irqs : Z;
  dd_dfh_version : Z;
  dd_param_size : Z;
  dd_params : list Z;
  dd_guid : guid_t;
}.

(** Pointers to objects of other drivers ([dev], [ops]) are handles. *)
(* drivers/fpga/dfl.h:292-307 dfl_feature *)
Record dfl_feature := Feature {
  f_dev : option Z;
  f_id : Z;
  f_revision : Z;
  f_resource_index : Z;
  f_ioaddr : option Z;
  f_irq_ctx : list dfl_feature_irq_ctx;
  f_nr_irqs : Z;
  f_ops : option Z;
  f_ddev : option dfl_device;
  f_dfh_version : Z;
  f_param_size : Z;
  f_params : list Z;
  f_guid : guid_t;
}.
(** What [kcalloc] leaves in an array of features. *)
Definition zero_feature : dfl_feature :=
  Feature None 0 0 0 None [] 0 None None 0 0 [] guid_null.

(* drivers/fpga/dfl.h:309-309 FEATURE_DEV_ID_UNUSED *)
Definition FEATURE_DEV_ID_UNUSED : Z := -1.

(* drivers/fpga/dfl.h:331-348 dfl_feature_dev_data *)
Record dfl_feature_dev_data := FData {
  fd_dev : option Z;
  fd_type : Z;
  fd_pdev_id : Z;
  fd_pdev_name : string;
  fd_id : Z;
  fd_disable_count : Z;
  fd_excl_open : bool;
  fd_open_count : Z;
  fd_num : Z;
  fd_features : list dfl_feature;
  fd_resource_num : Z;
  fd_resources : list resource;
}.

(** Feature device data is linked into at most one of the two lists of its
    container, so the lists hold the data; [cd_fmes] are the FME devices, the
    last one that was added, which is [cdev->fme_dev], first. *)
(* drivers/fpga/dfl.h:584-592 dfl_fpga_cdev *)
Record dfl_fpga_cdev := CDev {
  cd_fmes : list dfl_feature_dev_data;
  cd_port_dev_list : list dfl_feature_dev_data;
  cd_priv_feat_dev_list : list dfl_feature_dev_data;
  cd_released_port_num : Z;
}.

(** ** Updates of single fields *)
Definition set_f_dev (d : option Z) (f : dfl_feature) : dfl_feature :=
  Feature d (f_id f) (f_revision f) (f_resource_index f) (f_ioaddr f) (f_irq_ctx f)
    (f_nr_irqs f) (f_ops f) (f_ddev f) (f_dfh_version f) (f_param_size f) (f_params f) (f_guid f).
Definition set_f_ioaddr (a : option Z) (f : dfl_feature) : dfl_feature :=
  Feature (f_dev f) (f_id f) (f_revision f) (f_resource_index f) a (f_irq_ctx f)
    (f_nr_irqs f) (f_ops f) (f_ddev f) (f_dfh_version f) (f_param_size f) (f_params f) (f_guid f).
Definition set_f_irq_ctx (c : list dfl_feature_irq_ctx) (f : dfl_feature) : dfl_feature :=
  Feature (f_dev f) (f_id f) (f_revision f) (f_resource_index f) (f_ioaddr f) c
    (f_nr_irqs f) (f_ops f) (f_ddev f) (f_dfh_version f) (f_param_size f) (f_params f) (f_guid f).
Definition set_f_ops (o : option Z) (f : dfl_feature) : dfl_feature :=
  Feature (f_dev f) (f_id f) (f_revision f) (f_resource_index f) (f_ioaddr f) (f_irq_ctx f)
    (f_nr_irqs f) o (f_ddev f) (f_dfh_version f) (f_param_size f) (f_params f) (f_guid f).
Definition set_f_ddev (d : option dfl_device) (f : dfl_feature) : dfl_feature :=
  Feature (f_dev f) (f_id f) (f_revision f) (f_resource_index f) (f_ioaddr f) (f_irq_ctx f)
    (f_nr_irqs f) (f_ops f) d (f_dfh_version f) (f_param_size f) (f_params f) (f_guid f).

Definition set_fd_dev (d : option Z) (x : dfl_feature_dev_data) : dfl_feature_dev_data :=
  FData d (fd_type x) (fd_pdev_id x) (fd_pdev_name x) (fd_id x) (fd_disable_count x)
    (fd_excl_open x) (fd_open_count x) (fd_num x) (fd_features x) (fd_resource_num x) (fd_resources x).
Definition set_fd_id (i : Z) (x : dfl_feature_dev_data) : dfl_feature_dev_data :=
  FData (fd_dev x) (fd_type x) (fd_pdev_id x) (fd_pdev_name x) i (fd_disable_count x)
    (fd_excl_open x) (fd_open_count x) (fd_num x) (fd_features x) (fd_resource_num x) (fd_resources x).
Definition set_fd_disable_count (n : Z) (x : dfl_feature_dev_data) : dfl_feature_dev_data :=
  FData (fd_dev x) (fd_type x) (fd_pdev_id x) (fd_pdev_name x) (fd_id x) n
    (fd_excl_open x) (fd_open_count x) (fd_num x) (fd_features x) (fd_resource_num x) (fd_resources x).
Definition set_fd_excl_open (b : bool) (x : dfl_feature_dev_data) : dfl_feature_dev_data :=
  FData (fd_dev x) (fd_type x) (fd_pdev_id x) (fd_pdev_name x) (fd_id x) (fd_disable_count x)
    b (fd_open_count x) (fd_num x) (fd_features x) (fd_resource_num x) (fd_resources x).
Definition set_fd_open_count (n : Z) (x : dfl_feature_dev_data) : dfl_feature_dev_data :=
  FData (fd_dev x) (fd_type x) (fd_pdev_id x) (fd_pdev_name x) (fd_id x) (fd_disable_count x)
    (fd_excl_open x) n (fd_num x) (fd_features x) (fd_resource_num x) (fd_resources x).
Definition set_fd_features (l : list dfl_feature) (x : dfl_feature_dev_data) : dfl_feature_dev_data :=
  FData (fd_dev x) (fd_type x) (fd_pdev_id x) (fd_pdev_name x) (fd_id x) (fd_disable_count x)
    (fd_excl_open x) (fd_open_count x) (fd_num x) l (fd_resource_num x) (fd_resources x).

(** ** Kernel services *)
Class Kernel := {
  kst : Type;
  (** an allocation: whether it succeeds *)
  k_alloc : kst → bool * kst;
  (** [devm_request_mem_region], [devm_ioremap] and their inverses *)
  k_request_region : Z → Z → kst → bool * kst;
  k_release_region : Z → Z → kst → kst;
  k_ioremap : Z → Z → kst → option Z * kst;
  k_iounmap : Z → kst → kst;
  (** [devm_ioremap_resource]: an address or an error code *)
  k_ioremap_resource : resource → kst → (Z + Z) * kst;
  (** [idr_alloc] on an idr with the given ids in use *)
  k_idr_alloc : gset Z → kst → Z * kst;
  (** [devm_add_action_or_reset]: a status *)
  k_add_action : kst → Z * kst;
  (** platform devices: a handle or failure, then statuses *)
  k_pdev_alloc : string → Z → kst → option Z * kst;
  k_pdev_add_resources : Z → list resource → kst → Z * kst;
  k_pdev_add_data : Z → kst → Z * kst;
  k_pdev_add : Z → Z → kst → Z * kst;
  k_pdev_put : Z → kst → kst;
  k_pdev_unregister : Z → kst → kst;
  (** the base FPGA region of the container *)
  k_region_register : kst → Z * kst;
  k_region_unregister : kst → kst;
  (** reference count of a device *)
  k_get_device : Z → kst → kst;
  k_put_device : Z → kst → kst;
}.

(** What the documentation of those services promises. *)
Class KernelOk `{Kernel} := {
  idr_alloc_fresh ids k : let r := fst (k_idr_alloc ids k) in r < 0 ∨ (0 <= r ∧ r ∉ ids);
}.

Section KernelOps.
Context `{Kernel}.
Definition kop {A} (f : kst → A * kst) : M kst A := λ k, let (a, k') := f k in Done (Val a, k').
Definition kdo (f : kst → kst) : M kst unit := λ k, Done (Val tt, f k).
Definition kalloc : M kst unit := ok ← kop k_alloc; if (ok : bool) then mret tt else throw (- ENOMEM).

Lemma wp_kop {A} F N (f : kst → A * kst) (Q : A → kst → Prop) E k :
  Q (fst (f k)) (snd (f k)) → wpg F N (kop f) Q E k.
Proof. unfold wpg, kop. by destruct (f k). Qed.
End KernelOps.
