(* ===== verification/DflParam.v ===== *)
(** * DFHv1 parameter blocks (drivers/fpga/dfl.c)

    A version 1 feature header is followed by a chain of parameter blocks, each
    starting with a header word that holds its id, the offset of the next block
    in 8-byte words and an end-of-parameters bit.  [dfh_get_param_size] measures
    the chain in the device, the enumeration copies that many bytes, and
    [find_param]/[dfh_find_param] search the copy.

    The device is [mmio]: the 64-bit word at an address, [None] where a read is
    outside what is mapped; the words do not change during an enumeration. *)
From S2P Require Import Prelude DflRegs.

Section Param.
  Context {St : Type}.

Definition readq_at (mmio : Z → option Z) (addr : Z) : M St Z := access (mmio addr).

(** [params] is the array the pointer points to, [pos] the index [params]
    has reached, [end_] the index of [end]. *)
(* drivers/fpga/dfl.c:1085-1098 find_param *)
Fixpoint find_param_loop (fuel : nat) (params : list Z) (end_ param_id pos : Z) : M St (option Z) :=
  if negb (pos <? end_) then mret None else
  match fuel with
  | O => nofuel
  | S fuel =>
      v ← access (params !! Z.to_nat pos);
      if u64 param_id =? FIELD_GET DFHv1_PARAM_HDR_ID v then mret (Some pos)
      else if has_bits DFHv1_PARAM_HDR_NEXT_EOP v then mret None
      else
        let next := FIELD_GET DFHv1_PARAM_HDR_NEXT_OFFSET v in
        if next =? 0 then mret None
        else find_param_loop fuel params end_ param_id (pos + next)
  end.

(** The pointer advances by at least one word per iteration, so the number of
    words bounds the iterations. *)
(* drivers/fpga/dfl.c:1080-1101 find_param *)
Definition find_param (params : list Z) (max param_id : Z) : M St (option Z) :=
  let end_ := max / 8 in
  find_param_loop (Z.to_nat end_) params end_ param_id 0.

(** The result is the index of the parameter data in [params] and [*psize]. *)
(* drivers/fpga/dfl.c:1111-1127 dfh_find_param *)
Definition dfh_find_param (params : list Z) (param_size param_id : Z) : M St (Z * Z) :=
  phdr ← find_param params param_size param_id;
  match phdr with
  | None => throw (- ENOENT)
  | Some phdr =>
      v ← access (params !! Z.to_nat phdr);
      let next := FIELD_GET DFHv1_PARAM_HDR_NEXT_OFFSET v in
      let next := if next =? 0 then 2 else next in
      mret (phdr + 1, u64 ((next - 1) * 8))
  end.

(** [size] is an [int]: it is converted to the unsigned type of [max] in the
    comparison, and the sum with the 64-bit [next * 8] is truncated to 32 bits. *)
(* drivers/fpga/dfl.c:1234-1249 dfh_get_param_size *)
Fixpoint param_size_loop (fuel : nat) (mmio : Z → option Z) (dfh_base max size : Z) : M St Z :=
  if negb (u64 (s32 (size + DFHv1_PARAM_HDR)) <? max) then mret (- ENOENT) else
  match fuel with
  | O => nofuel
  | S fuel =>
      v ← readq_at mmio (dfh_base + DFHv1_PARAM_HDR + size);
      let next := FIELD_GET DFHv1_PARAM_HDR_NEXT_OFFSET v in
      if next =? 0 then mret (s32 (size + 2 * 8))
      else
        let size := s32 (size + next * 8) in
        if has_bits DFHv1_PARAM_HDR_NEXT_EOP v then mret size
        else param_size_loop fuel mmio dfh_base max size
  end.

(* drivers/fpga/dfl.c:1225-1250 dfh_get_param_size *)
Definition dfh_get_param_size (fuel : nat) (mmio : Z → option Z) (dfh_base max : Z) : M St Z :=
  v ← readq_at mmio (dfh_base + DFHv1_CSR_SIZE_GRP);
  if FIELD_GET DFHv1_CSR_SIZE_GRP_HAS_PARAMS v =? 0 then mret 0
  else param_size_loop fuel mmio dfh_base max 0.

(** [memcpy_fromio(to, from, n)] in 8-byte words, as the backport writes it. *)
(* drivers/fpga/dfl.c:1253-1259 backport_memcpy_fromio *)
Fixpoint memcpy_fromio (mmio : Z → option Z) (from : Z) (words : nat) : M St (list Z) :=
  match words with
  | O => mret []
  | S words =>
      v ← readq_at mmio from;
      rest ← memcpy_fromio mmio (from + 8) words;
      mret (v :: rest)
  end.
End Param.

(** ** Well-formed parameter chains

    [param_chain w n pos total]: from word [pos] of [w] the headers lead, in at
    most [n] steps, to the end of the chain at word [total]: the last block has
    the end bit, or a zero offset and then counts as two words. *)
Inductive param_chain (w : Z → option Z) : Z → Z → Prop :=
| chain_zero pos v :
    w pos = Some v → FIELD_GET DFHv1_PARAM_HDR_NEXT_OFFSET v = 0 → param_chain w pos (pos + 2)
| chain_last pos v :
    w pos = Some v → FIELD_GET DFHv1_PARAM_HDR_NEXT_OFFSET v ≠ 0 →
    has_bits DFHv1_PARAM_HDR_NEXT_EOP v = true →
    param_chain w pos (pos + FIELD_GET DFHv1_PARAM_HDR_NEXT_OFFSET v)
| chain_step pos v total :
    w pos = Some v → FIELD_GET DFHv1_PARAM_HDR_NEXT_OFFSET v ≠ 0 →
    has_bits DFHv1_PARAM_HDR_NEXT_EOP v = false →
    param_chain w (pos + FIELD_GET DFHv1_PARAM_HDR_NEXT_OFFSET v) total →
    param_chain w pos total.

Lemma next_offset_nonneg v : 0 <= FIELD_GET DFHv1_PARAM_HDR_NEXT_OFFSET v.
Proof. apply FIELD_GET_nonneg; fld. Qed.

Lemma param_chain_lt w pos total : param_chain w pos total → pos < total.
Proof. induction 1; pose proof (next_offset_nonneg v); lia. Qed.

(** The byte offsets of the parameter headers of the feature at [base], as the
    offsets in the device lead from one to the next. *)
Inductive param_at (mmio : Z → option Z) (base : Z) : Z → Prop :=
| param_first g :
    mmio (base + DFHv1_CSR_SIZE_GRP) = Some g →
    FIELD_GET DFHv1_CSR_SIZE_GRP_HAS_PARAMS g ≠ 0 → param_at mmio base 0
| param_next ofst v :
    param_at mmio base ofst → mmio (base + DFHv1_PARAM_HDR + ofst) = Some v →
    FIELD_GET DFHv1_PARAM_HDR_NEXT_OFFSET v ≠ 0 → has_bits DFHv1_PARAM_HDR_NEXT_EOP v = false →
    param_at mmio base (ofst + FIELD_GET DFHv1_PARAM_HDR_NEXT_OFFSET v * 8).
(** No header of the chain claims a block of more than 2^26 words, 512 MiB. *)
Definition params_small_at (mmio : Z → option Z) (base : Z) : Prop :=
  ∀ ofst v, param_at mmio base ofst → mmio (base + DFHv1_PARAM_HDR + ofst) = Some v →
    FIELD_GET DFHv1_PARAM_HDR_NEXT_OFFSET v <= 2 ^ 26.

Section ParamFacts.
  Context {St : Type}.
  Implicit Types s : St.

(** [find_param] ends, without reading outside the array, on every array. *)
Lemma find_param_loop_total fuel params id pos s :
  0 <= pos → Z.of_nat (length params) - pos <= Z.of_nat fuel →
  wp (find_param_loop fuel params (Z.of_nat (length params)) id pos)
     (λ r s', s' = s ∧ match r with Some p => 0 <= p < Z.of_nat (length params) | None => True end)
     (λ _ _, False) s.
Proof.
  revert pos. induction fuel as [|fuel IH]; intros pos Hp Hf; cbn [find_param_loop];
    destruct (Z.ltb_spec pos (Z.of_nat (length params))); cbn [negb];
    try (apply wp_ret; done); [lia|].
  destruct (lookup_lt_is_Some_2 params (Z.to_nat pos)) as [v Hv]; [lia|].
  rewrite Hv. apply wp_bind, wp_ret.
  destruct (u64 id =? _); [apply wp_ret; split; [done|lia]|].
  destruct (has_bits _ _); [apply wp_ret; done|].
  pose proof (next_offset_nonneg v).
  destruct (Z.eqb_spec (FIELD_GET DFHv1_PARAM_HDR_NEXT_OFFSET v) 0); [apply wp_ret; done|].
  apply IH; lia.
Qed.

Lemma find_param_total params id s :
  wp (find_param params (8 * Z.of_nat (length params)) id)
     (λ r s', s' = s ∧ match r with Some p => 0 <= p < Z.of_nat (length params) | None => True end)
     (λ _ _, False) s.
Proof.
  unfold find_param. replace (8 * Z.of_nat (length params) / 8) with (Z.of_nat (length params))
    by (rewrite Z.mul_comm, Z.div_mul; lia).
  apply find_param_loop_total; lia.
Qed.

(** On a well-formed chain the block that is found ends inside the chain. *)
Lemma find_param_loop_block fuel params end_ id pos total s :
  0 <= pos → param_chain (λ i, params !! Z.to_nat i) pos total →
  wlp (find_param_loop fuel params end_ id pos)
      (λ r s', s' = s ∧ match r with
        | Some p => 0 <= p ∧ ∃ v, params !! Z.to_nat p = Some v ∧
            let next := FIELD_GET DFHv1_PARAM_HDR_NEXT_OFFSET v in
            p + (if next =? 0 then 2 else next) <= total
        | None => True end)
      (λ _ _, False) s.
Proof.
  intros Hp Hc. revert pos Hp Hc.
  induction fuel as [|fuel IH]; intros pos Hp Hc; cbn [find_param_loop];
    (destruct (pos <? end_); cbn [negb]; [|by apply wp_ret]); [done|].
  assert (∃ v, params !! Z.to_nat pos = Some v) as [v Hv] by (inversion Hc; subst; eauto).
  rewrite Hv. apply wp_bind, wp_ret.
  pose proof (next_offset_nonneg v) as Hn.
  destruct (u64 id =? _).
  { apply wp_ret. split; [done|]. split; [done|]. exists v. split; [done|].
    inversion Hc as [? v' Hv' Hz|? v' Hv' Hz He|? v' ? Hv' Hz He Hs]; subst;
      cbn beta in Hv'; rewrite Hv in Hv'; injection Hv' as <-; cbn zeta;
      destruct (Z.eqb_spec (FIELD_GET DFHv1_PARAM_HDR_NEXT_OFFSET v) 0); try lia.
    apply param_chain_lt in Hs. lia. }
  destruct (has_bits DFHv1_PARAM_HDR_NEXT_EOP v) eqn:He; [by apply wp_ret|].
  destruct (Z.eqb_spec (FIELD_GET DFHv1_PARAM_HDR_NEXT_OFFSET v) 0); [by apply wp_ret|].
  apply IH; [lia|].
  inversion Hc as [? v' Hv' Hz|? v' Hv' Hz He'|? v' ? Hv' Hz He' Hs]; subst;
    cbn beta in Hv'; rewrite Hv in Hv'; injection Hv' as <-; congruence.
Qed.

(** The size that is measured is the size of a chain in the device. *)
Lemma param_size_loop_chain fuel mmio base max pos s :
  0 <= pos → 8 * pos <= 2 ^ 30 + 2 ^ 29 → max <= 2 ^ 30 →
  params_small_at mmio base → param_at mmio base (8 * pos) →
  wlp (param_size_loop fuel mmio base max (8 * pos))
      (λ sz s', s' = s ∧ (sz < 0 ∨ ∃ total, sz = 8 * total ∧
         param_chain (λ i, mmio (base + DFHv1_PARAM_HDR + 8 * i)) pos total))
      (λ _ _, False) s.
Proof.
  intros Hp Hp30 Hmax Hw. revert pos Hp Hp30.
  induction fuel as [|fuel IH]; intros pos Hp Hp30 Hat; cbn [param_size_loop];
    rewrite s32_small by (unfold DFHv1_PARAM_HDR; lia);
    rewrite u64_small by (unfold is_u64, DFHv1_PARAM_HDR; lia);
    (destruct (Z.ltb_spec (8 * pos + DFHv1_PARAM_HDR) max) as [Hlt|Hlt]; cbn [negb];
     [|apply wp_ret; split; [done|left; unfold ENOENT; lia]]); [done|].
  unfold readq_at. destruct (mmio (base + DFHv1_PARAM_HDR + 8 * pos)) as [v|] eqn:Hv; [|done].
  apply wp_bind, wp_ret.
  pose proof (next_offset_nonneg v) as Hn. pose proof (Hw _ _ Hat Hv) as Hn'.
  unfold DFHv1_PARAM_HDR in Hlt.
  destruct (Z.eqb_spec (FIELD_GET DFHv1_PARAM_HDR_NEXT_OFFSET v) 0) as [Hz|Hz].
  { apply wp_ret. split; [done|]. right. exists (pos + 2). rewrite s32_small by lia.
    split; [lia|]. by eapply chain_zero. }
  rewrite s32_small by lia.
  replace (8 * pos + FIELD_GET DFHv1_PARAM_HDR_NEXT_OFFSET v * 8)
    with (8 * (pos + FIELD_GET DFHv1_PARAM_HDR_NEXT_OFFSET v)) by lia.
  destruct (has_bits DFHv1_PARAM_HDR_NEXT_EOP v) eqn:He.
  { apply wp_ret. split; [done|]. right. eexists. split; [done|]. by eapply chain_last. }
  eapply wp_mono; [apply IH; [lia..|]| |done].
  { replace (8 * (pos + FIELD_GET DFHv1_PARAM_HDR_NEXT_OFFSET v))
      with (8 * pos + FIELD_GET DFHv1_PARAM_HDR_NEXT_OFFSET v * 8) by lia. by apply param_next. }
  intros sz s' [-> [?|(total & -> & Hc)]]; [auto|].
  split; [done|]. right. exists total. split; [done|]. by eapply chain_step.
Qed.

Lemma memcpy_fromio_words mmio from n s :
  wlp (memcpy_fromio mmio from n)
      (λ l s', s' = s ∧ length l = n ∧ ∀ i, (i < n)%nat → l !! i = mmio (from + 8 * Z.of_nat i))
      (λ _ _, False) s.
Proof.
  revert from. induction n as [|n IH]; intros from; cbn [memcpy_fromio].
  { apply wp_ret. split; [done|]. split; [done|]. intros i ?. lia. }
  unfold readq_at. destruct (mmio from) as [v|] eqn:Hv; [|done].
  apply wp_bind, wp_ret, wp_bind.
  eapply wp_mono; [apply IH| |done].
  intros l s' (-> & Hlen & Hl). apply wp_ret. split; [done|]. cbn. split; [lia|].
  intros [|i] Hi; cbn; [by rewrite Z.add_0_r, Hv|].
  rewrite Hl by lia. f_equal. lia.
Qed.

Lemma param_chain_mono (w w' : Z → option Z) pos total :
  0 <= pos → (∀ i, 0 <= i < total → w' i = w i) → param_chain w pos total → param_chain w' pos total.
Proof.
  intros Hp Hw Hc. revert Hp Hw. induction Hc as [pos v Hv Hz|pos v Hv Hz He|pos v total Hv Hz He Hc IH];
    intros Hp Hw; pose proof (next_offset_nonneg v).
  - eapply chain_zero; [|done]. rewrite Hw by lia. done.
  - eapply chain_last; [|done..]. rewrite Hw by lia. done.
  - pose proof (param_chain_lt _ _ _ Hc). eapply chain_step; [|done..|apply IH; [lia|done]].
    rewrite Hw by lia. done.
Qed.

(** ** The parameters of a feature

    What the enumeration keeps of a feature's parameters, and the search in it. *)
Definition copy_params (fuel : nat) (mmio : Z → option Z) (dfh_base max : Z) : M St (list Z * Z) :=
  size ← dfh_get_param_size fuel mmio dfh_base max;
  if size <? 0 then throw size else
  params ← memcpy_fromio mmio (dfh_base + DFHv1_PARAM_HDR) (Z.to_nat (size / 8));
  mret (params, size).

Lemma copy_params_chain fuel mmio base max s :
  max <= 2 ^ 30 → params_small_at mmio base →
  wlp (copy_params fuel mmio base max)
      (λ '(params, size) s', s' = s ∧ size = 8 * Z.of_nat (length params) ∧
         (params = [] ∨ param_chain (λ i, params !! Z.to_nat i) 0 (Z.of_nat (length params))))
      (λ e s', s' = s ∧ e < 0) s.
Proof.
  intros Hmax Hw. unfold copy_params, dfh_get_param_size, readq_at.
  apply wp_bind, wp_bind.
  destruct (mmio _) as [v|] eqn:Hv; [|done]. apply wp_ret.
  destruct (Z.eqb_spec (FIELD_GET DFHv1_CSR_SIZE_GRP_HAS_PARAMS v) 0).
  { apply wp_ret. cbn. apply wp_bind, wp_ret. cbn. auto. }
  eapply wp_mono; [apply (param_size_loop_chain _ _ _ _ 0); try (lia || done); by eapply param_first| |done].
  intros sz s' [-> Hsz]. destruct (Z.ltb_spec sz 0) as [Hneg|Hpos]; [split; [done|lia]|].
  destruct Hsz as [?|(total & -> & Hc)]; [lia|].
  replace (8 * total / 8) with total by (rewrite Z.mul_comm, Z.div_mul; lia).
  apply wp_bind. eapply wp_mono; [apply memcpy_fromio_words| |done].
  intros l s' (-> & Hlen & Hl). apply wp_ret. cbn.
  split; [done|]. rewrite Hlen, Z2Nat.id by lia. split; [done|]. right.
  eapply param_chain_mono; [lia| |exact Hc]. intros i Hi. cbn.
  rewrite Hl by lia. f_equal. lia.
Qed.

End ParamFacts.

(** ** Properties *)
Section ParamProperties.
  Context {St : Type}.
  Implicit Types s : St.

(** For a feature of at most 1 GiB whose parameter offsets are below 2^26
    words, searching any parameter id in the copy that the enumeration made
    ends, reads only inside the copy, and returns a data block that lies inside
    the copy, or -ENOENT. *)
Lemma dfh_find_param_in_copy fuel mmio base max params size id s :
  max <= 2 ^ 30 → params_small_at mmio base →
  copy_params fuel mmio base max s = Done (Val (params, size), s) →
  wp (dfh_find_param params size id)
     (λ '(idx, psize) s', s' = s ∧ 0 < idx ∧ 0 <= psize ∧ 8 * idx + psize <= size)
     (λ e s', s' = s ∧ e = - ENOENT) s.
Proof.
  intros Hmax Hw Hcopy.
  pose proof (wp_elim _ _ _ _ _ _ (copy_params_chain fuel mmio base max s Hmax Hw) Hcopy)
    as (_ & -> & Hc).
  unfold dfh_find_param. apply wp_bind.
  pose proof (find_param_total params id s) as Ht. unfold wpg in Ht |- *.
  assert (wlp (find_param params (8 * Z.of_nat (length params)) id) (λ r s', match r with
        | Some p => 0 <= p ∧ ∃ v, params !! Z.to_nat p = Some v ∧
            let next := FIELD_GET DFHv1_PARAM_HDR_NEXT_OFFSET v in
            p + (if next =? 0 then 2 else next) <= Z.of_nat (length params)
        | None => True end) (λ _ _, False) s) as Hb.
  { destruct Hc as [->|Hc]; [done|]. unfold find_param.
    eapply wp_mono; [by apply find_param_loop_block| |done]. by intros ? ? [_ ?]. }
  unfold wpg in Hb.
  destruct (find_param _ _ _ s) as [[[[p|]|] s']| |]; try done; [|by destruct Ht as [-> _]].
  destruct Ht as [-> _], Hb as (Hp & v & Hv & Hb). rewrite Hv. cbn zeta in Hb.
  pose proof (next_offset_nonneg v).
  assert (0 <= (if FIELD_GET DFHv1_PARAM_HDR_NEXT_OFFSET v =? 0 then 2
                else FIELD_GET DFHv1_PARAM_HDR_NEXT_OFFSET v) - 1 < 2 ^ 30) as Hsz.
  { pose proof (FIELD_GET_range DFHv1_PARAM_HDR_NEXT_OFFSET v ltac:(fld)) as Hr.
    change (f_width _) with 29 in Hr. destruct (Z.eqb_spec (FIELD_GET DFHv1_PARAM_HDR_NEXT_OFFSET v) 0); lia. }
  cbv [access mbind M_bind mret M_ret]. cbv zeta in *.
  rewrite u64_small by (unfold is_u64; lia). repeat split; lia.
Qed.
End ParamProperties.

(** A feature whose first two parameter headers point to one another: the
    offset of the second, 2^29 - 1 words, is -8 bytes in an [int]. *)
Definition cyclic_params (a : Z) : option Z :=
  if a =? DFHv1_CSR_SIZE_GRP then Some (2 ^ 31)
  else if a =? DFHv1_PARAM_HDR then Some (2 ^ 35)
  else if a =? DFHv1_PARAM_HDR + 8 then Some ((2 ^ 29 - 1) * 2 ^ 35)
  else Some 0.

Lemma cyclic_params_loop {St} fuel (s : St) :
  param_size_loop fuel cyclic_params 0 0x1000 0 s = NoFuel ∧
  param_size_loop fuel cyclic_params 0 0x1000 8 s = NoFuel.
Proof.
  induction fuel as [|fuel [IH1 IH2]]; [by vm_compute|]. split.
  - change (param_size_loop (S fuel) cyclic_params 0 0x1000 0 s)
      with (param_size_loop fuel cyclic_params 0 0x1000 8 s). done.
  - change (param_size_loop (S fuel) cyclic_params 0 0x1000 8 s)
      with (param_size_loop fuel cyclic_params 0 0x1000 0 s). done.
Qed.

(** The offset that a parameter header may hold is wider than the [int] that
    accumulates it: there is a device on which [dfh_get_param_size] never
    returns, whatever the number of iterations. *)
Lemma dfh_get_param_size_may_not_return {St} (s : St) :
  ∃ mmio, ∀ fuel, dfh_get_param_size fuel mmio 0 0x1000 s = NoFuel.
Proof.
  exists cyclic_params. intros fuel. apply (cyclic_params_loop fuel s).
Qed.
