(* ===== verification/DflEnum.v ===== *)
(** * Enumeration of a Device Feature List (drivers/fpga/dfl.c)

    The walk over the feature headers of a device, the creation of the feature
    instances, and the feature devices committed to the container.  The state
    of an enumeration is that of the kernel, of the build info, of the ids in
    use and of the container. *)
From stdpp Require Import gmap strings.
From S2P Require Import Prelude DflRegs DflTypes DflParam.

(* drivers/fpga/dfl.c:782-794 dfl_feature_info *)
Record dfl_feature_info := FInfo {
  fi_fid : Z;
  fi_revision : Z;
  fi_dfh_version : Z;
  fi_guid : guid_t;
  fi_mmio_res : resource;
  fi_irq_base : Z;
  fi_nr_irqs : Z;
  fi_param_size : Z;
  fi_params : list Z;
}.

(* drivers/fpga/dfl.c:753-765 build_feature_devs_info *)
Record build_feature_devs_info := BInfo {
  bi_nr_irqs : Z;
  bi_irq_table : list Z;
  bi_type : Z;
  bi_ioaddr : Z;
  bi_start : Z;
  bi_len : Z;
  bi_sub_features : list dfl_feature_info;
  bi_feature_num : Z;
}.

Definition set_bi_type (t : Z) (b : build_feature_devs_info) : build_feature_devs_info :=
  BInfo (bi_nr_irqs b) (bi_irq_table b) t (bi_ioaddr b) (bi_start b) (bi_len b)
    (bi_sub_features b) (bi_feature_num b).
Definition set_bi_region (a s l : Z) (b : build_feature_devs_info) : build_feature_devs_info :=
  BInfo (bi_nr_irqs b) (bi_irq_table b) (bi_type b) a s l (bi_sub_features b) (bi_feature_num b).
Definition set_bi_features (l : list dfl_feature_info) (n : Z) (b : build_feature_devs_info)
    : build_feature_devs_info :=
  BInfo (bi_nr_irqs b) (bi_irq_table b) (bi_type b) (bi_ioaddr b) (bi_start b) (bi_len b) l n.

(* drivers/fpga/dfl.c:1403-1403 is_feature_dev_detected *)
Definition is_feature_dev_detected (b : build_feature_devs_info) : bool := negb (bi_type b =? DFL_ID_MAX).

(* drivers/fpga/dfl.c:1064-1078 feature_id *)
Definition feature_id (value : Z) : Z :=
  let id := u16 (FIELD_GET DFH_ID value) in
  let type := u8 (FIELD_GET DFH_TYPE value) in
  if type =? DFH_TYPE_FIU then FEATURE_ID_FIU_HEADER
  else if type =? DFH_TYPE_PRIVATE then id
  else if type =? DFH_TYPE_AFU then FEATURE_ID_AFU
  else 0.

(* include/linux/minmax.h:15-18 in_range64 *)
Definition in_range64 (val start len : Z) : bool := u64 (val - start) <? len.

Section FeatureSize.
  Context {St : Type} (mmio : Z → option Z).

(** The [do] loop: an interface feature is skipped, its offset added. *)
(* drivers/fpga/dfl.c:1048-1061 feature_size *)
Fixpoint feature_size_loop (fuel : nat) (dfh_ioaddr end_ ofst : Z) : M St Z :=
  match fuel with
  | O => nofuel
  | S fuel =>
      value ← readq_at mmio (dfh_ioaddr + ofst);
      if negb (FIELD_GET DFH_TYPE value =? DFH_TYPE_INTERFACE) then mret ofst
      else
        let ofst := u32 (ofst + FIELD_GET DFH_NEXT_HDR_OFST value) in
        if has_bits DFH_EOL value then mret ofst
        else if dfh_ioaddr + ofst <? end_ then feature_size_loop fuel dfh_ioaddr end_ ofst
        else mret 0
  end.

(* drivers/fpga/dfl.c:1038-1062 feature_size *)
Definition feature_size (fuel : nat) (dfh_ioaddr end_ value : Z) : M St Z :=
  let ofst := u32 (FIELD_GET DFH_NEXT_HDR_OFST value) in
  if ofst =? 0 then mret 4096
  else if has_bits DFH_EOL value then mret ofst
  else feature_size_loop fuel dfh_ioaddr end_ ofst.
End FeatureSize.

Section Enum.
  Context `{Kernel}.
  (** the words of the device, the number of Linux interrupts, the major numbers
      of the chardev regions, and the fuel of the loops over the device *)
  Context (mmio : Z → option Z) (NR_IRQS : Z) (chrdev_major : Z → Z) (fuel : nat).

Record est := Est {
  e_k : kst;
  e_ids : Z → gset Z;
  e_b : build_feature_devs_info;
  e_c : dfl_fpga_cdev;
}.
Definition set_e_k (k : kst) (s : est) : est := Est k (e_ids s) (e_b s) (e_c s).
Definition set_e_ids (i : Z → gset Z) (s : est) : est := Est (e_k s) i (e_b s) (e_c s).
Definition set_e_b (b : build_feature_devs_info) (s : est) : est := Est (e_k s) (e_ids s) b (e_c s).
Definition set_e_c (c : dfl_fpga_cdev) (s : est) : est := Est (e_k s) (e_ids s) (e_b s) c.

Definition ek {A} (m : M kst A) : M est A := zoom e_k set_e_k m.
Definition readq (addr : Z) : M est Z := readq_at mmio addr.
Definition upd_b (f : build_feature_devs_info → build_feature_devs_info) : M est unit :=
  modify (λ s, set_e_b (f (e_b s)) s).

(** *** Interrupts of a feature *)

(** The vectors in the order they are tested. *)
(* drivers/fpga/dfl.c:1209-1217 parse_feature_irqs *)
Fixpoint check_irq_entries (table : list Z) (ibase : Z) (n : nat) (i : Z) : M est unit :=
  match n with
  | O => mret tt
  | S n =>
      virq ← access (table !! Z.to_nat (u32 (ibase + i)));
      if (virq <? 0) || (NR_IRQS <? virq) then throw (- EINVAL)
      else check_irq_entries table ibase n (i + 1)
  end.

(** [(ibase, inr)] as the registers of the feature give them; [inr = 0] where the
    switch leaves [inr] as it was initialised. *)
(* drivers/fpga/dfl.c:1142-1192 parse_feature_irqs *)
Definition feature_irq_vectors (base type : Z) (finfo : dfl_feature_info) : M est (Z * Z) :=
  let fid := fi_fid finfo in
  if fi_dfh_version finfo =? 0 then
    if type =? PORT_ID then
      if fid =? PORT_FEATURE_ID_UINT then
        v ← readq (base + PORT_UINT_CAP);
        mret (FIELD_GET PORT_UINT_CAP_FST_VECT v, FIELD_GET PORT_UINT_CAP_INT_NUM v)
      else if fid =? PORT_FEATURE_ID_ERROR then
        v ← readq (base + PORT_ERROR_CAP);
        mret (FIELD_GET PORT_ERROR_CAP_INT_VECT v, FIELD_GET PORT_ERROR_CAP_SUPP_INT v)
      else mret (0, 0)
    else if type =? FME_ID then
      if fid =? FME_FEATURE_ID_GLOBAL_ERR then
        v ← readq (base + FME_ERROR_CAP);
        mret (FIELD_GET FME_ERROR_CAP_INT_VECT v, FIELD_GET FME_ERROR_CAP_SUPP_INT v)
      else mret (0, 0)
    else mret (0, 0)
  else if fi_dfh_version finfo =? 1 then
    p ← find_param (fi_params finfo) (fi_param_size finfo) DFHv1_PARAM_ID_MSI_X;
    match p with
    | None => mret (0, 0)
    | Some p =>
        v ← access (fi_params finfo !! Z.to_nat (p + 1));
        mret (FIELD_GET DFHv1_PARAM_MSI_X_STARTV v, FIELD_GET DFHv1_PARAM_MSI_X_NUMV v)
    end
  else mret (0, 0).

(** The result is [finfo] with its interrupt range. *)
(* drivers/fpga/dfl.c:1130-1223 parse_feature_irqs *)
Definition parse_feature_irqs (ofst : Z) (finfo : dfl_feature_info) : M est dfl_feature_info :=
  b ← gets e_b;
  vec ← feature_irq_vectors (bi_ioaddr b + ofst) (bi_type b) finfo;
  let set_irqs (ibase inr : Z) :=
    FInfo (fi_fid finfo) (fi_revision finfo) (fi_dfh_version finfo) (fi_guid finfo)
      (fi_mmio_res finfo) ibase inr (fi_param_size finfo) (fi_params finfo) in
  let (ibase, inr) := (vec : Z * Z) in
  if inr =? 0 then mret (set_irqs 0 0)
  else if bi_nr_irqs b <? u32 (ibase + inr) then throw (- EINVAL)
  else
    check_irq_entries (bi_irq_table b) ibase (Z.to_nat inr) 0 ;;
    mret (set_irqs ibase inr).

(** *** Feature instances *)

(** What the header of a feature other than an AFU says: size, id, revision,
    version and the size of its parameters. *)
(* drivers/fpga/dfl.c:1286-1309 create_feature_instance *)
Definition read_feature_header (ofst size fid : Z) : M est (Z * Z * Z * Z * Z) :=
  b ← gets e_b;
  if negb (fid =? FEATURE_ID_AFU) then
    v ← readq (bi_ioaddr b + ofst);
    let revision := u8 (FIELD_GET DFH_REVISION v) in
    let dfh_ver := u8 (FIELD_GET DFH_VERSION v) in
    size ← (if negb (size =? 0) then mret size
            else feature_size mmio fuel (bi_ioaddr b + ofst) (bi_ioaddr b + bi_len b) v);
    if size =? 0 then throw (- EINVAL) else
    let fid := if negb (fid =? 0) then fid else feature_id v in
    if dfh_ver =? 1 then
      dfh_psize ← dfh_get_param_size fuel mmio (bi_ioaddr b + ofst) size;
      if dfh_psize <? 0 then throw dfh_psize
      else mret (size, fid, revision, dfh_ver, dfh_psize)
    else mret (size, fid, revision, dfh_ver, 0)
  else mret (size, fid, 0, 0, 0).

(** The GUID of a version 1 feature; the zero of [kzalloc] if it has none. *)
(* drivers/fpga/dfl.c:1353-1370 create_feature_instance *)
Definition read_feature_guid (addr : Z) : M est guid_t :=
  guid_l ← readq (addr + GUID_L);
  guid_h ← readq (addr + GUID_H);
  if negb (guid_l =? 0) || negb (guid_h =? 0) then
    mret (GUID_INIT (FIELD_GET DFL_GUID_H_A guid_h) (FIELD_GET DFL_GUID_H_B guid_h)
      (FIELD_GET DFL_GUID_H_C guid_h) (FIELD_GET DFL_GUID_L_D0 guid_l)
      (FIELD_GET DFL_GUID_L_D1 guid_l) (FIELD_GET DFL_GUID_L_D2 guid_l)
      (FIELD_GET DFL_GUID_L_D3 guid_l) (FIELD_GET DFL_GUID_L_D4 guid_l)
      (FIELD_GET DFL_GUID_L_D5 guid_l) (FIELD_GET DFL_GUID_L_D6 guid_l)
      (FIELD_GET DFL_GUID_L_D7 guid_l))
  else mret guid_null.

(** The register block of the feature, [None] where the code warns and ignores
    the feature. *)
(* drivers/fpga/dfl.c:1324-1374 create_feature_instance *)
Definition feature_region (ofst size dfh_ver : Z) : M est (option (resource * guid_t)) :=
  b ← gets e_b;
  if dfh_ver =? 1 then
    v ← readq (bi_ioaddr b + ofst + DFHv1_CSR_ADDR);
    let addr_off := u64 (Z.shiftl (FIELD_GET DFHv1_CSR_ADDR_MASK v) 1) in
    let rel_addr := FIELD_GET DFHv1_CSR_ADDR_REL v =? 0 in
    let start := if rel_addr then u64 (bi_start b + ofst + addr_off) else addr_off in
    v ← readq (bi_ioaddr b + ofst + DFHv1_CSR_SIZE_GRP);
    let csr_size := FIELD_GET DFHv1_CSR_SIZE_GRP_SIZE v in
    let end_ := if negb (csr_size =? 0) then u64 (start + csr_size - 1) else start in
    if rel_addr && negb (in_range64 start (bi_start b) (bi_len b) &&
                         in_range64 end_ (bi_start b) (bi_len b))
    then mret None
    else
      guid ← read_feature_guid (bi_ioaddr b + ofst);
      mret (Some (Res start end_, guid))
  else
    let start := u64 (bi_start b + ofst) in
    let end_ := u64 (start + size - 1) in
    mret (Some (Res start end_, guid_null)).

(* drivers/fpga/dfl.c:1272-1390 create_feature_instance *)
Definition create_feature_instance (ofst size fid : Z) : M est unit :=
  hdr ← read_feature_header ofst size fid;
  let '(size, fid, revision, dfh_ver, dfh_psize) := (hdr : Z * Z * Z * Z * Z) in
  b ← gets e_b;
  if u64 (bi_len b - ofst) <? size then throw (- EINVAL) else
  ek kalloc ;;
  params ← memcpy_fromio mmio (bi_ioaddr b + ofst + DFHv1_PARAM_HDR) (Z.to_nat (dfh_psize / 8));
  region ← feature_region ofst size dfh_ver;
  match region with
  | None => mret tt
  | Some (res, guid) =>
      finfo ← parse_feature_irqs ofst (FInfo fid revision dfh_ver guid res 0 0 dfh_psize params);
      upd_b (λ b, set_bi_features (bi_sub_features b ++ [finfo]) (bi_feature_num b + 1) b)
  end.

(* drivers/fpga/dfl.c:1392-1401 parse_feature_port_afu *)
Definition parse_feature_port_afu (ofst : Z) : M est unit :=
  b ← gets e_b;
  v ← readq (bi_ioaddr b + PORT_HDR_CAP);
  let size := u32 (Z.shiftl (FIELD_GET PORT_CAP_MMIO_SIZE v) 10) in
  create_feature_instance ofst size FEATURE_ID_AFU.

(* drivers/fpga/dfl.c:1405-1421 parse_feature_afu *)
Definition parse_feature_afu (ofst : Z) : M est unit :=
  b ← gets e_b;
  if negb (is_feature_dev_detected b) then throw (- EINVAL)
  else if bi_type b =? PORT_ID then parse_feature_port_afu ofst
  else mret tt.

(** *** Feature devices *)

(* drivers/fpga/dfl.c:109-119 dfl_id_alloc *)
Definition dfl_id_alloc (type : Z) : M est Z :=
  ids ← gets e_ids;
  id ← ek (kop (k_idr_alloc (ids type)));
  if id <? 0 then mret id else
  modify (λ s, set_e_ids (λ t, if t =? type then {[id]} ∪ e_ids s t else e_ids s t) s) ;;
  mret id.

(* drivers/fpga/dfl.c:121-127 dfl_id_free *)
Definition dfl_id_free (type id : Z) : M est unit :=
  modify (λ s, set_e_ids (λ t, if t =? type then e_ids s t ∖ {[id]} else e_ids s t) s).

(* drivers/fpga/dfl.c:547-547 is_header_feature *)
Definition is_header_feature (id : Z) : bool := id =? FEATURE_ID_FIU_HEADER.

(** The interrupt contexts of a feature. *)
(* drivers/fpga/dfl.c:912-924 binfo_create_feature_dev_data *)
Fixpoint fill_irq_ctx (table : list Z) (irq_base : Z) (n : nat) (i : Z)
    : M est (list dfl_feature_irq_ctx) :=
  match n with
  | O => mret []
  | S n =>
      irq ← access (table !! Z.to_nat (u32 (irq_base + i)));
      rest ← fill_irq_ctx table irq_base n (i + 1);
      mret (IrqCtx irq None false :: rest)
  end.

(** One round of the loop: the feature at [index], and the resources with
    [res_idx]. *)
(* drivers/fpga/dfl.c:873-924 binfo_create_feature_dev_data *)
Definition fill_feature (finfo : dfl_feature_info) (res_idx : Z) (resources : list resource)
    : M est (dfl_feature * Z * list resource) :=
  (if negb (fi_param_size finfo =? 0) then ek kalloc else mret tt) ;;
  let guid := if fi_dfh_version finfo =? 1 then fi_guid finfo else guid_null in
  place ← (if is_header_feature (fi_fid finfo) then
             r ← ek (kop (k_ioremap_resource (fi_mmio_res finfo)));
             match r with
             | inl ioaddr => mret (-1, Some ioaddr, res_idx, resources)
             | inr e => throw e
             end
           else
             _ ← access (resources !! Z.to_nat res_idx);
             mret (res_idx, None, res_idx + 1, <[Z.to_nat res_idx := fi_mmio_res finfo]> resources));
  let '(resource_index, ioaddr, res_idx, resources) := (place : Z * option Z * Z * list resource) in
  ctx ← (if negb (fi_nr_irqs finfo =? 0) then
           ek kalloc ;;
           b ← gets e_b;
           fill_irq_ctx (bi_irq_table b) (fi_irq_base finfo) (Z.to_nat (fi_nr_irqs finfo)) 0
         else mret []);
  mret (Feature None (fi_fid finfo) (fi_revision finfo) resource_index ioaddr ctx (fi_nr_irqs finfo)
          None None (fi_dfh_version finfo) (fi_param_size finfo) (fi_params finfo) guid,
        res_idx, resources).

(* drivers/fpga/dfl.c:871-928 binfo_create_feature_dev_data *)
Fixpoint fill_features (l : list dfl_feature_info) (index res_idx : Z)
    (features : list dfl_feature) (resources : list resource)
    : M est (Z * list dfl_feature * list resource) :=
  match l with
  | [] => mret (res_idx, features, resources)
  | finfo :: l =>
      _ ← access (features !! Z.to_nat index);
      r ← fill_feature finfo res_idx resources;
      let '(feature, res_idx, resources) := (r : dfl_feature * Z * list resource) in
      upd_b (λ b, set_bi_features l (bi_feature_num b) b) ;;
      fill_features l (index + 1) res_idx (<[Z.to_nat index := feature]> features) resources
  end.

(* drivers/fpga/dfl.c:820-933 binfo_create_feature_dev_data *)
Definition binfo_create_feature_dev_data : M est dfl_feature_dev_data :=
  b ← gets e_b;
  let type := bi_type b in
  if DFL_ID_MAX <=? type then throw (- EINVAL) else
  ek kalloc ;;
  ek kalloc ;;
  ek kalloc ;;
  let features := replicate (Z.to_nat (bi_feature_num b)) zero_feature in
  let resources := replicate (Z.to_nat (bi_feature_num b)) (Res 0 0) in
  pdev_id ← dfl_id_alloc type;
  if pdev_id <? 0 then throw pdev_id else
  ret ← ek (kop k_add_action);
  if negb (ret =? 0) then dfl_id_free type pdev_id ;; throw ret else
  info ← access (dfl_devs !! Z.to_nat type);
  r ← fill_features (bi_sub_features b) 0 0 features resources;
  let '(res_idx, features, resources) := (r : Z * list dfl_feature * list resource) in
  mret (FData None type pdev_id (di_name info) FEATURE_DEV_ID_UNUSED 0 false 0
          (bi_feature_num b) features res_idx resources).

(* drivers/fpga/dfl.c:688-694 dfl_get_devt *)
Definition dfl_get_devt (type id : Z) : Z :=
  if DFL_FPGA_DEVT_MAX <=? type then 0
  else Z.lor (Z.shiftl (chrdev_major type) 20) id.

(** The platform device and all features of [fd] get the handle [d]. *)
Definition set_dev_all (d : option Z) (fd : dfl_feature_dev_data) : dfl_feature_dev_data :=
  set_fd_features (set_f_dev d <$> fd_features fd) (set_fd_dev d fd).

(** The result is the data after the call and the status. *)
(* drivers/fpga/dfl.c:940-984 feature_dev_register *)
Definition feature_dev_register (fd : dfl_feature_dev_data) : M kst (dfl_feature_dev_data * Z) :=
  fdev ← kop (k_pdev_alloc (fd_pdev_name fd) (fd_pdev_id fd));
  match fdev with
  | None => mret (fd, - ENOMEM)
  | Some fdev =>
      info ← access (dfl_devs !! Z.to_nat (fd_type fd));
      let devt := dfl_get_devt (di_devt_type info) (fd_pdev_id fd) in
      ret ← status (
        ret ← kop (k_pdev_add_resources fdev (take (Z.to_nat (fd_resource_num fd)) (fd_resources fd)));
        rc ret ;;
        ret ← kop (k_pdev_add_data fdev);
        rc ret ;;
        ret ← kop (k_pdev_add fdev devt);
        rc ret);
      if ret =? 0 then mret (set_dev_all (Some fdev) fd, 0)
      else kdo (k_pdev_put fdev) ;; mret (set_dev_all None fd, ret)
  end.

(* drivers/fpga/dfl.c:986-996 feature_dev_unregister *)
Definition feature_dev_unregister (fd : dfl_feature_dev_data) : M kst dfl_feature_dev_data :=
  (match fd_dev fd with Some d => kdo (k_pdev_unregister d) | None => mret tt end) ;;
  mret (set_dev_all None fd).

(* drivers/fpga/dfl.c:796-802 dfl_fpga_cdev_add_port_data *)
Definition dfl_fpga_cdev_add_port_data (fd : dfl_feature_dev_data) (c : dfl_fpga_cdev) : dfl_fpga_cdev :=
  CDev (cd_fmes c) (fd :: cd_port_dev_list c) (cd_priv_feat_dev_list c) (cd_released_port_num c).
(* drivers/fpga/dfl.c:804-811 dfl_fpga_cdev_add_priv_feat_data *)
Definition dfl_fpga_cdev_add_priv_feat_data (fd : dfl_feature_dev_data) (c : dfl_fpga_cdev) : dfl_fpga_cdev :=
  CDev (cd_fmes c) (cd_port_dev_list c) (fd :: cd_priv_feat_dev_list c) (cd_released_port_num c).
Definition cdev_set_fme (fd : dfl_feature_dev_data) (c : dfl_fpga_cdev) : dfl_fpga_cdev :=
  CDev (fd :: cd_fmes c) (cd_port_dev_list c) (cd_priv_feat_dev_list c) (cd_released_port_num c).

(* drivers/fpga/dfl.c:998-1022 build_info_commit_dev *)
Definition build_info_commit_dev : M est unit :=
  fdata ← binfo_create_feature_dev_data;
  r ← ek (feature_dev_register fdata);
  let '(fdata, ret) := (r : dfl_feature_dev_data * Z) in
  if negb (ret =? 0) then throw ret else
  b ← gets e_b;
  (if bi_type b =? PORT_ID then modify (λ s, set_e_c (dfl_fpga_cdev_add_port_data fdata (e_c s)) s)
   else if bi_type b =? PRIV_FEAT_ID then
     modify (λ s, set_e_c (dfl_fpga_cdev_add_priv_feat_data fdata (e_c s)) s)
   else
     (match fd_dev fdata with Some d => ek (kdo (k_get_device d)) | None => fault end) ;;
     modify (λ s, set_e_c (cdev_set_fme fdata (e_c s)) s)) ;;
  upd_b (set_bi_type DFL_ID_MAX).

(* drivers/fpga/dfl.c:1423-1447 build_info_prepare *)
Definition build_info_prepare (start len : Z) : M est unit :=
  ok ← ek (kop (k_request_region start len));
  if negb ok then throw (- EBUSY) else
  ioaddr ← ek (kop (k_ioremap start len));
  match ioaddr with
  | None => throw (- ENOMEM)
  | Some ioaddr => upd_b (set_bi_region ioaddr start len)
  end.

(* drivers/fpga/dfl.c:1449-1453 build_info_complete *)
Definition build_info_complete : M est unit :=
  b ← gets e_b;
  ek (kdo (k_iounmap (bi_ioaddr b))) ;;
  ek (kdo (k_release_region (bi_start b) (bi_len b))).

(* drivers/fpga/dfl.c:1455-1504 parse_feature_fiu *)
Definition parse_feature_fiu (ofst : Z) : M est unit :=
  b ← gets e_b;
  (if is_feature_dev_detected b then
     build_info_complete ;;
     build_info_commit_dev ;;
     b ← gets e_b;
     build_info_prepare (u64 (bi_start b + ofst)) (u64 (bi_len b - ofst))
   else mret tt) ;;
  b ← gets e_b;
  v ← readq (bi_ioaddr b + DFH);
  let id := u16 (FIELD_GET DFH_ID v) in
  let type := dfh_id_to_type id in
  if DFL_ID_MAX <=? type then throw (- EINVAL) else
  upd_b (λ b, set_bi_features [] 0 (set_bi_type type b)) ;;
  create_feature_instance 0 0 0 ;;
  v ← readq (bi_ioaddr b + NEXT_AFU);
  let offset := u32 (FIELD_GET NEXT_AFU_NEXT_DFH_OFST v) in
  if negb (offset =? 0) then parse_feature_afu offset else mret tt.

(* drivers/fpga/dfl.c:1506-1525 parse_feature_private *)
Definition parse_feature_private (ofst : Z) : M est unit :=
  b ← gets e_b;
  v ← readq (bi_ioaddr b + DFH);
  let dfh_ver := u8 (FIELD_GET DFH_VERSION v) in
  if (dfh_ver =? 0) && negb (is_feature_dev_detected b) then
    _ ← readq (bi_ioaddr b + ofst); throw (- EINVAL)
  else
    (if dfh_ver =? 1 then upd_b (set_bi_type PRIV_FEAT_ID) else mret tt) ;;
    create_feature_instance ofst 0 0.

(* drivers/fpga/dfl.c:1533-1557 parse_feature *)
Definition parse_feature (ofst : Z) : M est unit :=
  b ← gets e_b;
  v ← readq (bi_ioaddr b + ofst + DFH);
  let type := u32 (FIELD_GET DFH_TYPE v) in
  if type =? DFH_TYPE_AFU then parse_feature_afu ofst
  else if type =? DFH_TYPE_PRIVATE then parse_feature_private ofst
  else if type =? DFH_TYPE_FIU then parse_feature_fiu ofst
  else mret tt.

(* drivers/fpga/dfl.c:1572-1588 parse_feature_list *)
Fixpoint parse_feature_list_loop (n : nat) (start end_ : Z) : M est unit :=
  if negb (start <? end_) then mret tt else
  match n with
  | O => nofuel
  | S n =>
      if u64 (end_ - start) <? DFH_SIZE then throw (- EINVAL) else
      b ← gets e_b;
      parse_feature (u64 (start - bi_start b)) ;;
      b ← gets e_b;
      v ← readq (bi_ioaddr b + start - bi_start b + DFH);
      let ofst := u32 (FIELD_GET DFH_NEXT_HDR_OFST v) in
      if has_bits DFH_EOL v || (ofst =? 0) then mret tt
      else parse_feature_list_loop n (u64 (start + ofst)) end_
  end.

(* drivers/fpga/dfl.c:1559-1597 parse_feature_list *)
Definition parse_feature_list (start len : Z) : M est unit :=
  let end_ := u64 (start + len) in
  build_info_prepare start len ;;
  parse_feature_list_loop fuel start end_ ;;
  build_info_complete ;;
  b ← gets e_b;
  if is_feature_dev_detected b then build_info_commit_dev else mret tt.

(** *** The container device *)

(** [feature_dev_unregister] on each device of a list that is registered. *)
(* drivers/fpga/dfl.c:1713-1720 remove_feature_dev *)
Fixpoint remove_feature_dev (l : list dfl_feature_dev_data) : M kst (list dfl_feature_dev_data) :=
  match l with
  | [] => mret []
  | fd :: l =>
      fd' ← (match fd_dev fd with Some _ => feature_dev_unregister fd | None => mret fd end);
      l' ← remove_feature_dev l;
      mret (fd' :: l')
  end.

(** The children of the region device are the registered feature devices. *)
(* drivers/fpga/dfl.c:1722-1725 remove_feature_devs *)
Definition remove_feature_devs (c : dfl_fpga_cdev) : M kst dfl_fpga_cdev :=
  fmes ← remove_feature_dev (cd_fmes c);
  ports ← remove_feature_dev (cd_port_dev_list c);
  privs ← remove_feature_dev (cd_priv_feat_dev_list c);
  mret (CDev fmes ports privs (cd_released_port_num c)).

(* drivers/fpga/dfl.c:1024-1036 build_info_free *)
Definition build_info_free : M est unit :=
  upd_b (λ b, set_bi_features [] (bi_feature_num b) b).

(** The lists to enumerate and the interrupt table; [ei_dev] is whether the
    device of the info is set. *)
(* drivers/fpga/dfl.h:547-552 dfl_fpga_enum_info *)
Record dfl_fpga_enum_info := EnumInfo {
  ei_dev : bool;
  ei_dfls : list (Z * Z);
  ei_nr_irqs : Z;
  ei_irq_table : option (list Z);
}.

(** [None] is the [NULL] of a failed allocation. *)
(* drivers/fpga/dfl.c:1599-1615 dfl_fpga_enum_info_alloc *)
Definition dfl_fpga_enum_info_alloc (dev : Z) : M kst (option dfl_fpga_enum_info) :=
  kdo (k_get_device dev) ;;
  ok ← kop k_alloc;
  if negb ok then kdo (k_put_device dev) ;; mret None
  else mret (Some (EnumInfo true [] 0 None)).

(* drivers/fpga/dfl.c:1618-1640 dfl_fpga_enum_info_free *)
Definition dfl_fpga_enum_info_free (dev : Z) (info : option dfl_fpga_enum_info) : M kst unit :=
  match info with
  | None => mret tt
  | Some _ => kdo (k_put_device dev)
  end.

(* drivers/fpga/dfl.c:1656-1671 dfl_fpga_enum_info_add_dfl *)
Definition dfl_fpga_enum_info_add_dfl (info : dfl_fpga_enum_info) (start len : Z)
    : M kst dfl_fpga_enum_info :=
  kalloc ;;
  mret (EnumInfo (ei_dev info) (ei_dfls info ++ [(start, len)]) (ei_nr_irqs info) (ei_irq_table info)).

(* drivers/fpga/dfl.c:1693-1710 dfl_fpga_enum_info_add_irq *)
Definition dfl_fpga_enum_info_add_irq (info : dfl_fpga_enum_info) (nr_irqs : Z)
    (irq_table : option (list Z)) : M kst dfl_fpga_enum_info :=
  match irq_table with
  | None => throw (- EINVAL)
  | Some table =>
      if nr_irqs =? 0 then throw (- EINVAL) else
      match ei_irq_table info with
      | Some _ => throw (- EEXIST)
      | None =>
          kalloc ;;
          mret (EnumInfo (ei_dev info) (ei_dfls info) nr_irqs (Some (take (Z.to_nat nr_irqs) table)))
      end
  end.

(* drivers/fpga/dfl.c:1737-1804 dfl_fpga_feature_devs_enumerate *)
Definition dfl_fpga_feature_devs_enumerate (info : dfl_fpga_enum_info) : M est dfl_fpga_cdev :=
  if negb (ei_dev info) then throw (- ENODEV) else
  ek kalloc ;;
  modify (set_e_c (CDev [] [] [] 0)) ;;
  ret ← ek (kop k_region_register);
  rc ret ;;
  on_error (
    ek kalloc ;;
    upd_b (λ _, BInfo (ei_nr_irqs info)
      (if negb (ei_nr_irqs info =? 0) then default [] (ei_irq_table info) else []) DFL_ID_MAX 0 0 0 [] 0) ;;
    on_error (for_each (ei_dfls info) (λ '(start, len), parse_feature_list start len))
      (c ← gets e_c;
       c' ← ek (remove_feature_devs c);
       modify (set_e_c c') ;;
       build_info_free) ;;
    build_info_free)
    (ek (kdo k_region_unregister)) ;;
  gets e_c.

(** [dfl_fpga_feature_devs_remove]: the reference [fme_dev] holds is dropped. *)
(* drivers/fpga/dfl.c:1814-1826 dfl_fpga_feature_devs_remove *)
Definition dfl_fpga_feature_devs_remove (c : dfl_fpga_cdev) : M kst dfl_fpga_cdev :=
  (match cd_fmes c with
   | fme :: _ => match fd_dev fme with Some d => kdo (k_put_device d) | None => mret tt end
   | [] => mret tt
   end) ;;
  c' ← remove_feature_devs c;
  kdo k_region_unregister ;;
  mret c'.
End Enum.
