(* ===== verification/DflEnumFacts.v ===== *)
(** * Properties of the enumeration

    Interrupt ranges, register blocks and arrays of what the walk of [DflEnum] makes;
    that the walk ends is [DflEnumTerm]. *)
From stdpp Require Import gmap strings.
From S2P Require Import Prelude DflRegs DflTypes DflParam DflEnum.

Section IrqFacts.
  Context `{Kernel} (mmio : Z → option Z) (NR_IRQS : Z).
  Implicit Types (s : est) (fi : dfl_feature_info) (table : list Z).

(** The [n] entries of a table from [ibase] on exist and are interrupt numbers. *)
Definition irq_entries_ok table (ibase : Z) (n : Z) : Prop :=
  ∀ j, 0 <= j < n → ∃ v, table !! Z.to_nat (u32 (ibase + j)) = Some v ∧ 0 <= v <= NR_IRQS.

Lemma check_irq_entries_spec F N table ibase n i s :
  (∀ j, i <= j < i + Z.of_nat n → table !! Z.to_nat (u32 (ibase + j)) = None → F) →
  wpg F N (check_irq_entries NR_IRQS table ibase n i)
      (λ _ s', s' = s ∧ ∀ j, i <= j < i + Z.of_nat n →
         ∃ v, table !! Z.to_nat (u32 (ibase + j)) = Some v ∧ 0 <= v <= NR_IRQS)
      (λ e s', s' = s ∧ e = - EINVAL) s.
Proof.
  revert i. induction n as [|n IH]; intros i HF; cbn [check_irq_entries].
  { wsteps. split; [done|]. intros j ?. lia. }
  wsteps. apply wp_access; [|intros Hn; apply (HF i); [lia|done]].
  intros v Hv. destruct (Z.ltb_spec v 0), (Z.ltb_spec NR_IRQS v); cbn [orb]; try (wsteps; done).
  eapply wp_mono; [apply (IH (i + 1)); intros j Hj; apply HF; lia| |done].
  intros _ s' [-> Hj]. split; [done|]. intros j ?.
  destruct (decide (j = i)) as [->|]; [exists v; split; [done|lia]|apply Hj; lia].
Qed.

(** The vectors of a version 0 feature are 12 bits wide. *)
Lemma feature_irq_vectors_v0 F N base type fi s :
  fi_dfh_version fi = 0 →
  (∀ a, mmio a = None → F) →
  wpg F N (feature_irq_vectors mmio base type fi)
      (λ '(ibase, ni) s', s' = s ∧ 0 <= ibase < 2 ^ 12 ∧ 0 <= ni < 2 ^ 12)
      (λ _ _, False) s.
Proof.
  intros Hv HF. unfold feature_irq_vectors, readq, readq_at. rewrite Hv. cbn [Z.eqb].
  assert (∀ f, field_ok f → f_width f <= 12 → ∀ v, 0 <= FIELD_GET f v < 2 ^ 12) as Hw.
  { intros f Hf Hw v. pose proof (FIELD_GET_range f v Hf).
    assert (2 ^ f_width f <= 2 ^ 12) by (apply Z.pow_le_mono_r; lia). lia. }
  repeat (case_match; wsteps); try (split; [done|lia]);
    (apply wp_access; [|apply HF]); intros v _; wsteps;
    (split; [done|]); split; apply Hw; fld.
Qed.

Definition finfo_irqs (ibase ni : Z) fi : dfl_feature_info :=
  FInfo (fi_fid fi) (fi_revision fi) (fi_dfh_version fi) (fi_guid fi) (fi_mmio_res fi)
    ibase ni (fi_param_size fi) (fi_params fi).

(** What is recorded of an accepted feature: no interrupts, or a range whose
    entries exist. *)
Definition finfo_irq_ok table fi : Prop :=
  fi_nr_irqs fi = 0 ∨ (0 < fi_nr_irqs fi ∧ irq_entries_ok table (fi_irq_base fi) (fi_nr_irqs fi)).

Lemma parse_feature_irqs_spec F N ofst fi s (I : Z → Z → Prop) :
  wpg F N (feature_irq_vectors mmio (bi_ioaddr (e_b s) + ofst) (bi_type (e_b s)) fi)
      (λ '(ibase, ni) s', s' = s ∧ 0 <= ni ∧ I ibase ni) (λ _ _, False) s →
  (∀ ibase ni j, I ibase ni → u32 (ibase + ni) <= bi_nr_irqs (e_b s) → 0 <= j < ni →
     bi_irq_table (e_b s) !! Z.to_nat (u32 (ibase + j)) = None → F) →
  wpg F N (parse_feature_irqs mmio NR_IRQS ofst fi)
      (λ fi' s', s' = s ∧ (∃ ibase ni, fi' = finfo_irqs ibase ni fi) ∧
         finfo_irq_ok (bi_irq_table (e_b s)) fi')
      (λ e s', s' = s ∧ e = - EINVAL) s.
Proof.
  intros Hvec HF. unfold parse_feature_irqs. wsteps.
  eapply wp_mono; [apply Hvec| |done].
  intros [ibase ni] s' (-> & Hni & HI).
  destruct (Z.eqb_spec ni 0) as [->|Hnz].
  { wsteps. split; [done|]. split; [by eexists _, _|by left]. }
  destruct (Z.ltb_spec (bi_nr_irqs (e_b s)) (u32 (ibase + ni))) as [|Hle]; [wsteps; done|].
  wsteps. eapply wp_mono; [apply check_irq_entries_spec| |done].
  { intros j Hj. apply (HF ibase ni j); [done..|lia]. }
  intros _ s' [-> Hj]. wsteps. split; [done|]. split; [by eexists _, _|].
  right. split; [cbn; lia|]. intros j Hjr. cbn in *. apply Hj. lia.
Qed.
End IrqFacts.

(** ** Readers of the device *)
Section DeviceReaders.
Context {St : Type} (mmio : Z → option Z).

#[global] Instance reader_readq_at addr : Reader (readq_at mmio addr : M St Z).
Proof. unfold readq_at. apply _. Qed.
#[global] Instance reader_find_param_loop fuel params end_ id pos :
  Reader (find_param_loop fuel params end_ id pos : M St _).
Proof. revert pos. induction fuel; intros; cbn [find_param_loop]; apply _. Qed.
#[global] Instance reader_find_param params max id : Reader (find_param params max id : M St _).
Proof. apply reader_find_param_loop. Qed.
#[global] Instance reader_param_size_loop fuel base max size :
  Reader (param_size_loop fuel mmio base max size : M St _).
Proof. revert size. induction fuel; intros; cbn [param_size_loop]; apply _. Qed.
#[global] Instance reader_dfh_get_param_size fuel base max :
  Reader (dfh_get_param_size fuel mmio base max : M St _).
Proof. unfold dfh_get_param_size. apply _. Qed.
#[global] Instance reader_memcpy_fromio from n : Reader (memcpy_fromio mmio from n : M St _).
Proof. revert from. induction n; intros; cbn [memcpy_fromio]; apply _. Qed.
#[global] Instance reader_feature_size_loop fuel a e ofst :
  Reader (feature_size_loop mmio fuel a e ofst : M St _).
Proof. revert ofst. induction fuel; intros; cbn [feature_size_loop]; apply _. Qed.
#[global] Instance reader_feature_size fuel a e v : Reader (feature_size mmio fuel a e v : M St _).
Proof. unfold feature_size. apply _. Qed.

(** A size is a 32-bit number. *)
Lemma feature_size_loop_u32 fuel a e ofst s :
  is_u32 ofst → wlp (feature_size_loop mmio fuel a e ofst : M St _) (λ sz _, is_u32 sz) (λ _ _, False) s.
Proof.
  revert ofst. induction fuel as [|fuel IH]; intros ofst Ho; cbn [feature_size_loop]; [done|].
  wsteps. unfold readq_at. apply wp_access; [|done]. intros v _.
  repeat case_match; wsteps; auto with width. by vm_compute.
Qed.
Lemma feature_size_u32 fuel a e v s :
  wlp (feature_size mmio fuel a e v : M St _) (λ sz _, is_u32 sz) (λ _ _, False) s.
Proof.
  unfold feature_size. repeat case_match; wsteps; auto with width; [by vm_compute|].
  apply feature_size_loop_u32; auto with width.
Qed.
End DeviceReaders.

(** ** Feature instances *)
Section InstanceFacts.
Context `{Kernel} (mmio : Z → option Z) (NR_IRQS : Z) (fuel : nat).
Implicit Types (s : est) (fi : dfl_feature_info) (b : build_feature_devs_info).

#[global] Instance reader_readq addr : Reader (readq mmio addr).
Proof. unfold readq. apply _. Qed.
#[global] Instance reader_read_feature_guid addr : Reader (read_feature_guid mmio addr).
Proof. unfold read_feature_guid. apply _. Qed.
#[global] Instance reader_read_feature_header ofst size fid :
  Reader (read_feature_header mmio fuel ofst size fid).
Proof. unfold read_feature_header. apply _. Qed.
#[global] Instance reader_feature_region ofst size v : Reader (feature_region mmio ofst size v).
Proof. unfold feature_region. apply _. Qed.

Lemma wp_readq F N addr (Q : Z → est → Prop) E s :
  (∀ v, mmio addr = Some v → Q v s) → (mmio addr = None → F) → wpg F N (readq mmio addr) Q E s.
Proof. apply wp_access. Qed.

Lemma wp_ek {A} F N (m : M kst A) (Q : A → est → Prop) E s :
  (∀ a k, Q a (set_e_k k s)) → (∀ e k, E e (set_e_k k s)) → N → F → wpg F N (ek m) Q E s.
Proof. intros HQ HE HN HF. apply wp_zoom. destruct (m (e_k s)) as [[[] ?]| |]; auto. Qed.

(** An enumeration window: its addresses are 64-bit and do not start at 0. *)
Definition window_ok b : Prop :=
  0 < bi_start b ∧ 0 <= bi_len b ∧ bi_start b + bi_len b <= 2 ^ 64.

Definition inside b (r : resource) : Prop :=
  bi_start b <= r_start r ∧ r_end r < bi_start b + bi_len b.

(** The CSR address of the feature at [ofst] is absolute. *)
Definition absolute_csr b (ofst : Z) : Prop :=
  ∃ v, mmio (bi_ioaddr b + ofst + DFHv1_CSR_ADDR) = Some v ∧ FIELD_GET DFHv1_CSR_ADDR_REL v ≠ 0.

Lemma in_range64_spec val start len :
  is_u64 val → 0 <= start → 0 <= len → start + len <= 2 ^ 64 →
  in_range64 val start len = true → start <= val < start + len.
Proof.
  unfold in_range64, is_u64, u64. intros Hv Hs Hl Hsl Hr. apply Z.ltb_lt in Hr.
  destruct (Z.le_gt_cases start val).
  - rewrite Z.mod_small in Hr; lia.
  - assert ((val - start) mod 2 ^ 64 = val - start + 2 ^ 64) as Hm.
    { symmetry. apply (Z.mod_unique_pos _ _ (-1)); lia. }
    lia.
Qed.

Lemma feature_region_inside ofst size ver s :
  window_ok (e_b s) → 0 <= ofst → 0 < size → ofst + size <= bi_len (e_b s) →
  wlp (feature_region mmio ofst size ver)
      (λ r _, match r with
         | Some (res, _) => inside (e_b s) res ∨ (ver = 1 ∧ absolute_csr (e_b s) ofst)
         | None => True end) (λ _ _, True) s.
Proof.
  intros (Hs & Hl & Hsl) Ho Hsz Hol. unfold feature_region. wsteps.
  destruct (Z.eqb_spec ver 1) as [->|].
  2: { wsteps. left. unfold inside; cbn [r_start r_end]. width_norm. lia. }
  wsteps. apply wp_readq; [|done]. intros va Hva.
  wsteps. apply wp_readq; [|done]. intros vs _.
  destruct (Z.eqb_spec (FIELD_GET DFHv1_CSR_ADDR_REL va) 0) as [Hrel|Hrel].
  - set (csr := FIELD_GET DFHv1_CSR_SIZE_GRP_SIZE vs).
    set (start := u64 (bi_start (e_b s) + ofst + _)).
    set (en := if negb (csr =? 0) then _ else start).
    assert (is_u64 start) by apply u64_range.
    assert (is_u64 en) by (unfold en; case_match; auto with width).
    destruct (in_range64 start _ _) eqn:Hi1; cbn [negb andb]; [|wsteps; done].
    destruct (in_range64 en _ _) eqn:Hi2; cbn [negb andb]; [|wsteps; done].
    apply in_range64_spec in Hi1; [|done || lia..]. apply in_range64_spec in Hi2; [|done || lia..].
    apply wlp_skip; [apply _| |done].
    intros g. wsteps. left. unfold inside; cbn [r_start r_end]. lia.
  - cbn [andb]. apply wlp_skip; [apply _| |done].
    intros g. wsteps. right. split; [done|]. by exists va.
Qed.

Lemma read_feature_header_size ofst size fid s :
  is_u32 size →
  wlp (read_feature_header mmio fuel ofst size fid)
      (λ '(sz, fid', _, _, _) _, (fid = FEATURE_ID_AFU ∧ sz = size) ∨ (0 < sz ∧ is_u32 sz))
      (λ _ _, True) s.
Proof.
  intros Hsz. unfold read_feature_header. wsteps.
  destruct (Z.eqb_spec fid FEATURE_ID_AFU) as [->|Hf]; cbn [negb]; [wsteps; auto|].
  wsteps. apply wp_readq; [|done]. intros v _. wsteps.
  apply (wp_mono _ (λ sz _, is_u32 sz) _ (λ _ _, True)); [| |done].
  { destruct (negb (size =? 0)); [by wsteps|].
    eapply wp_mono; [apply feature_size_u32|done|done]. }
  intros sz s' Hu. destruct (Z.eqb_spec sz 0); [by wsteps|].
  assert (0 < sz) by (unfold is_u32 in Hu; lia).
  destruct (_ =? 1); [|wsteps; auto].
  apply wlp_skip; [apply _| |done]. intros psz. case_match; wsteps; auto.
Qed.

(** Number, revision and version of a feature are what a header in the registers
    says; the AFU of a port has no header of its own. *)
Definition from_header (id revision version : Z) : Prop :=
  id = FEATURE_ID_AFU ∧ revision = 0 ∧ version = 0 ∨
  ∃ addr v, mmio addr = Some v ∧ id = feature_id v ∧
    revision = u8 (FIELD_GET DFH_REVISION v) ∧ version = u8 (FIELD_GET DFH_VERSION v).
Definition finfo_ok table fi : Prop :=
  finfo_irq_ok NR_IRQS table fi ∧ from_header (fi_fid fi) (fi_revision fi) (fi_dfh_version fi).

Lemma read_feature_header_from ofst size fid s :
  fid = 0 ∨ fid = FEATURE_ID_AFU →
  wlp (read_feature_header mmio fuel ofst size fid) (λ '(_, fid', rev, ver, _) _, from_header fid' rev ver) (λ _ _, True) s.
Proof.
  intros Hfid. unfold read_feature_header. wsteps.
  destruct (Z.eqb_spec fid FEATURE_ID_AFU) as [->|Hf]; cbn [negb]; [wsteps; by left|].
  destruct Hfid as [->|]; [|done]. wsteps. apply wp_readq; [|done]. intros v Hv. wsteps.
  eapply wp_mono; [apply wlp_true| |done]. intros sz s' _. destruct (sz =? 0); [by wsteps|].
  cbn [negb Z.eqb]. destruct (_ =? 1); [|wsteps; right; by eexists _, v].
  apply wlp_skip; [apply _| |done]. intros psz. case_match; wsteps; [done|right; by eexists _, v].
Qed.

(** What a successful call adds to the build info: nothing, or one feature from a
    header whose interrupts exist and whose register block and version satisfy [P]. *)
Definition adds_feature (P : resource → Z → Prop) b b' : Prop :=
  b' = b ∨ ∃ fi, b' = set_bi_features (bi_sub_features b ++ [fi]) (bi_feature_num b + 1) b ∧
    finfo_ok (bi_irq_table b) fi ∧ P (fi_mmio_res fi) (fi_dfh_version fi).

Lemma find_param_loop_no_err {St} n params end_ id pos (x : St) :
  wlp (find_param_loop n params end_ id pos) (λ _ x', x' = x) (λ _ _, False) x.
Proof.
  revert pos. induction n as [|n IH]; intros pos; cbn [find_param_loop];
    (destruct (negb _); [by wsteps|]); [done|].
  wsteps. apply wp_access; [|done]. intros v _.
  do 3 (case_match; [by wsteps|]). apply IH.
Qed.

Lemma feature_irq_vectors_nonneg base type fi s :
  wlp (feature_irq_vectors mmio base type fi) (λ '(ibase, ni) s', s' = s ∧ 0 <= ni ∧ True)
      (λ _ _, False) s.
Proof.
  unfold feature_irq_vectors.
  repeat (case_match; wsteps);
    try (split; [done|]; split; [lia|done]);
    try (apply wp_readq; [|done]; intros v _; wsteps; split; [done|]; split; [|done];
         apply FIELD_GET_nonneg; fld).
  eapply wp_mono; [apply find_param_loop_no_err| |done].
  intros [p|] s' ->; wsteps; [|split; [done|]; split; [lia|done]].
  apply wp_access; [|done]. intros v _. wsteps. split; [done|]. split; [|done].
  apply FIELD_GET_nonneg; fld.
Qed.

Lemma create_feature_instance_gen (C : Z → Prop) (P : resource → Z → Prop) ofst size fid s :
  fid = 0 ∨ fid = FEATURE_ID_AFU →
  wlp (read_feature_header mmio fuel ofst size fid) (λ '(sz, _, _, _, _) _, C sz) (λ _ _, True) s →
  (∀ sz ver k, C sz → sz <= u64 (bi_len (e_b s) - ofst) →
     wlp (feature_region mmio ofst sz ver)
       (λ r _, match r with Some (res, _) => P res ver | None => True end)
       (λ _ _, True) (set_e_k k s)) →
  wlp (create_feature_instance mmio NR_IRQS fuel ofst size fid)
      (λ _ s', e_ids s' = e_ids s ∧ e_c s' = e_c s ∧ adds_feature P (e_b s) (e_b s'))
      (λ _ s', e_ids s' = e_ids s ∧ e_c s' = e_c s ∧ e_b s' = e_b s) s.
Proof.
  intros Hfid Hhdr Hreg. unfold create_feature_instance. wsteps.
  eapply wp_mono; [apply wp_reader; [apply _|apply wp_conj; [exact Hhdr|by apply read_feature_header_from]]| |].
  2: { by intros e s' [-> _]. }
  intros [[[[sz fid'] rev] ver] psize] s' [-> [Hsz Hfrom]]. wsteps.
  destruct (Z.ltb_spec (u64 (bi_len (e_b s) - ofst)) sz) as [|Hle]; [by wsteps|].
  wsteps. apply wp_ek; [|done..|done|done]. intros _ k.
  apply wlp_skip; [apply _| |done]. intros params. wsteps.
  eapply wp_mono; [apply wp_reader; [apply _|by apply Hreg]| |].
  2: { by intros e s' [-> _]. }
  intros [[res guid]|] s' [-> Hr]; wsteps.
  2: { split; [done|]. split; [done|]. by left. }
  eapply wp_mono; [apply (parse_feature_irqs_spec _ _ _ _ _ _ _ (λ _ _, True));
                   [apply feature_irq_vectors_nonneg|done]| |].
  2: { by intros e s' [-> _]. }
  intros fi' s' (-> & (ib & ni & ->) & Hok). unfold upd_b. wsteps.
  split; [done|]. split; [done|]. right. eexists. split; [reflexivity|]. split; [split; [exact Hok|exact Hfrom]|exact Hr].
Qed.

Lemma create_feature_instance_irqs ofst size fid s :
  fid = 0 ∨ fid = FEATURE_ID_AFU →
  wlp (create_feature_instance mmio NR_IRQS fuel ofst size fid)
      (λ _ s', e_ids s' = e_ids s ∧ e_c s' = e_c s ∧ adds_feature (λ _ _, True) (e_b s) (e_b s'))
      (λ _ s', e_ids s' = e_ids s ∧ e_c s' = e_c s ∧ e_b s' = e_b s) s.
Proof.
  intros Hfid. apply (create_feature_instance_gen (λ _, True)); [done|..].
  - eapply wp_mono; [apply wlp_true|intros [[[[? ?] ?] ?] ?] ? _; done|done].
  - intros. eapply wp_mono; [apply wlp_true|intros [[? ?]|] ? _; done|done].
Qed.

(** An instance created at an offset inside the enumeration window (with a
  non-zero size if it is an AFU) has interrupts whose table entries exist, and
  a register block that lies inside the window unless the device declares the
  block's address absolute (version 1); the rest of the enumeration state, the
  ids and the container are not changed. *)
Lemma create_feature_instance_inside ofst size fid s :
  window_ok (e_b s) → 0 <= ofst <= bi_len (e_b s) → is_u32 size →
  fid = 0 ∨ fid = FEATURE_ID_AFU → (fid = FEATURE_ID_AFU → 0 < size) →
  wlp (create_feature_instance mmio NR_IRQS fuel ofst size fid)
      (λ _ s', e_ids s' = e_ids s ∧ e_c s' = e_c s ∧
         adds_feature (λ res ver, inside (e_b s) res ∨ (ver = 1 ∧ absolute_csr (e_b s) ofst))
           (e_b s) (e_b s'))
      (λ _ s', e_ids s' = e_ids s ∧ e_c s' = e_c s ∧ e_b s' = e_b s) s.
Proof.
  intros Hw Ho Hsz Hfid Hafu.
  apply (create_feature_instance_gen (λ sz, 0 < sz)); [done|..].
  - eapply wp_mono; [by apply read_feature_header_size| |done].
    intros [[[[? ?] ?] ?] ?] ? [[? ->]|[? _]]; auto.
  - intros sz ver k Hsz0 Hle. destruct (id Hw) as (Hs & Hl & Hsl).
    rewrite u64_small in Hle by (unfold is_u64; lia).
    apply (feature_region_inside ofst sz ver (set_e_k k s)); cbn [e_b set_e_k]; done || lia.
Qed.
End InstanceFacts.

(** ** Committed feature devices *)
Section CommitFacts.
Context `{Kernel} (mmio : Z → option Z) (NR_IRQS : Z) (chrdev_major : Z → Z).
Implicit Types (s : est) (fi : dfl_feature_info) (fd : dfl_feature_dev_data) (f : dfl_feature).

(** An interrupt context right after enumeration. *)
Definition irq_ctx_fresh (c : dfl_feature_irq_ctx) : Prop :=
  0 <= ic_irq c <= NR_IRQS ∧ ic_trigger c = None.

(** A feature from a header of the device, that nobody uses. *)
Definition feature_ok f : Prop :=
  from_header mmio (f_id f) (f_revision f) (f_dfh_version f) ∧
  Z.of_nat (length (f_irq_ctx f)) = f_nr_irqs f ∧ Forall irq_ctx_fresh (f_irq_ctx f) ∧
  f_ops f = None ∧ f_ddev f = None.
(** Headers are mapped and are no resource of the device; the other features are not
    mapped and have the resources of the device, from [i] to [n], one each in order. *)
Fixpoint placed (i : Z) (l : list dfl_feature) (n : Z) : Prop :=
  match l with
  | [] => i = n
  | f :: l =>
      if is_header_feature (f_id f) then f_resource_index f = -1 ∧ is_Some (f_ioaddr f) ∧ placed i l n
      else f_resource_index f = i ∧ f_ioaddr f = None ∧ placed (i + 1) l n
  end.
(** An array entry that nothing was written to. *)
Definition unwritten f : Prop := f = set_f_dev (f_dev f) zero_feature.

(** Entries that nothing was written to come last, and only in a device of
    private features: the number of features is not reset before one. *)
Definition features_ok fd : Prop :=
  ∃ filled blank, fd_features fd = filled ++ blank ∧ Forall feature_ok filled ∧ placed 0 filled (fd_resource_num fd) ∧
    Forall unwritten blank ∧ (fd_type fd ≠ PRIV_FEAT_ID → blank = []).
Definition arrays_ok fd : Prop :=
  Z.of_nat (length (fd_features fd)) = fd_num fd ∧
  Z.of_nat (length (fd_resources fd)) = fd_num fd ∧
  0 <= fd_resource_num fd <= fd_num fd ∧ features_ok fd.

(** A device that was just created is unused and is not a platform device yet;
    registration gives it, and all its features, one platform device. *)
Definition fdata_unused fd : Prop :=
  fd_id fd = FEATURE_DEV_ID_UNUSED ∧ fd_disable_count fd = 0 ∧ fd_excl_open fd = false ∧
  fd_open_count fd = 0 ∧ 0 <= fd_type fd < DFL_ID_MAX.
Definition fdata_ok fd : Prop :=
  arrays_ok fd ∧ fdata_unused fd ∧ is_Some (fd_dev fd) ∧
  Forall (λ f, f_dev f = fd_dev fd) (fd_features fd).
Definition cdev_ok (c : dfl_fpga_cdev) : Prop :=
  Forall fdata_ok (cd_fmes c) ∧ Forall fdata_ok (cd_port_dev_list c) ∧
  Forall fdata_ok (cd_priv_feat_dev_list c).

(** The build info: the features that are collected have interrupts that exist,
    and there are at most [feature_num] of them, exactly as many for an interface unit. *)
Definition binfo_ok (b : build_feature_devs_info) : Prop :=
  Forall (finfo_ok mmio NR_IRQS (bi_irq_table b)) (bi_sub_features b) ∧
  Z.of_nat (length (bi_sub_features b)) <= bi_feature_num b ∧
  (bi_type b < PRIV_FEAT_ID → Z.of_nat (length (bi_sub_features b)) = bi_feature_num b).

Lemma placed_snoc i l n f m : placed i l n → placed n [f] m → placed i (l ++ [f]) m.
Proof.
  revert i. induction l as [|g l IH]; intros i; cbn [app placed]; [by intros ->|].
  destruct (is_header_feature (f_id g)); intros (? & ? & ?) Hf; split_and!; try done; by apply IH.
Qed.
Lemma placed_set_dev d i l n : placed i l n → placed i (set_f_dev d <$> l) n.
Proof.
  revert i. induction l as [|g l IH]; intros i; cbn [fmap list_fmap placed]; [done|].
  change (f_id (set_f_dev d g)) with (f_id g).
  destruct (is_header_feature (f_id g)); intros (? & ? & ?); split_and!; try done; by apply IH.
Qed.

Lemma fill_irq_ctx_spec table base n i s :
  (∀ j, i <= j < i + Z.of_nat n →
     ∃ v, table !! Z.to_nat (u32 (base + j)) = Some v ∧ 0 <= v <= NR_IRQS) →
  wp (fill_irq_ctx table base n i)
     (λ l s', s' = s ∧ length l = n ∧ Forall irq_ctx_fresh l) (λ _ _, False) s.
Proof.
  revert i. induction n as [|n IH]; intros i Ht; cbn [fill_irq_ctx]; [by wsteps|].
  destruct (Ht i) as (v & Hv & Hr); [lia|]. rewrite Hv. cbn [access]. wsteps.
  eapply wp_mono; [apply IH; intros; apply Ht; lia| |done].
  intros l s' (-> & Hl & Hf). wsteps. split; [done|]. split; [cbn; lia|].
  by constructor.
Qed.

Lemma wp_kalloc F N (Q : unit → est → Prop) (E : Z → est → Prop) s :
  (∀ k, Q tt (set_e_k k s)) → (∀ e k, E e (set_e_k k s)) → wpg F N (ek kalloc) Q E s.
Proof.
  intros HQ HE. apply wp_zoom. unfold kalloc, mbind, M_bind, kop.
  destruct (k_alloc (e_k s)) as [[] k]; [apply HQ|apply HE].
Qed.
Lemma wp_ek_kop {A} F N (g : kst → A * kst) (Q : A → est → Prop) E s :
  (∀ a k, Q a (set_e_k k s)) → wpg F N (ek (kop g)) Q E s.
Proof. intros HQ. apply wp_zoom. unfold kop. destruct (g (e_k s)) as [a k]. apply HQ. Qed.

Lemma set_e_k_e_k s k k' : set_e_k k (set_e_k k' s) = set_e_k k s.
Proof. done. Qed.

Lemma fill_feature_spec fi res_idx resources s :
  finfo_ok mmio NR_IRQS (bi_irq_table (e_b s)) fi → 0 <= res_idx < Z.of_nat (length resources) →
  wp (fill_feature fi res_idx resources)
     (λ '(f, res_idx', resources') s', (∃ k, s' = set_e_k k s) ∧
        res_idx <= res_idx' <= res_idx + 1 ∧ length resources' = length resources ∧
        feature_ok f ∧ placed res_idx [f] res_idx')
     (λ _ s', ∃ k, s' = set_e_k k s) s.
Proof.
  intros [Hirq Hfrom] Hres. unfold fill_feature.
  set (ctxm := if negb (fi_nr_irqs fi =? 0) then _ else _).
  assert (∀ k, wp ctxm (λ l s', (∃ k, s' = set_e_k k s) ∧ Z.of_nat (length l) = fi_nr_irqs fi ∧
      Forall irq_ctx_fresh l) (λ _ s', ∃ k, s' = set_e_k k s) (set_e_k k s)) as Hctx.
  { intros k. unfold ctxm. destruct (Z.eqb_spec (fi_nr_irqs fi) 0) as [->|Hn]; cbn [negb].
    { wsteps. split; [by eexists|]. done. }
    destruct Hirq as [?|[Hpos Hirq]]; [done|].
    wsteps. apply wp_kalloc; [|by eexists]. intros k'. wsteps.
    eapply wp_mono; [apply fill_irq_ctx_spec| |done].
    { intros j Hj. apply Hirq. lia. }
    intros l s' (-> & Hl & Hf). split; [by eexists|]. split; [lia|done]. }
  clearbody ctxm. wsteps.
  apply (wp_mono _ (λ _ s', ∃ k, s' = set_e_k k s) _ (λ _ s', ∃ k, s' = set_e_k k s)); [| |done].
  { destruct (fi_param_size fi =? 0); cbn [negb];
      [wsteps; exists (e_k s); by destruct s|apply wp_kalloc; by eexists]. }
  intros _ ? [k ->]. wsteps. unfold is_header_feature.
  destruct (Z.eqb_spec (fi_fid fi) FEATURE_ID_FIU_HEADER) as [Hh|Hh].
  - wsteps. apply wp_ek_kop. intros [ioaddr|e] k'; wsteps; [|by eexists].
    eapply wp_mono; [apply Hctx| |done]. intros l s' (? & Hlen & Hf). wsteps.
    split; [done|]. split; [lia|]. split; [done|]. split; [done|]. cbn [placed f_id]. unfold is_header_feature.
    rewrite (proj2 (Z.eqb_eq _ _) Hh). by repeat split.
  - destruct (lookup_lt_is_Some_2 resources (Z.to_nat res_idx)) as [r Hr]; [lia|].
    rewrite Hr. cbn [access]. wsteps.
    eapply wp_mono; [apply Hctx| |done]. intros l s' (? & Hlen & Hf). wsteps.
    split; [done|]. split; [lia|]. split; [apply length_insert|].
    split; [done|]. cbn [placed f_id]. unfold is_header_feature. rewrite (proj2 (Z.eqb_neq _ _) Hh). by repeat split.
Qed.

(** The loop writes one feature per collected one, behind those written before. *)
Lemma fill_features_spec l res_idx filled m resources s :
  Forall (finfo_ok mmio NR_IRQS (bi_irq_table (e_b s))) l →
  0 <= res_idx <= Z.of_nat (length filled) → (length l ≤ m)%nat →
  length resources = (length filled + m)%nat → Forall feature_ok filled → placed 0 filled res_idx →
  wp (fill_features l (Z.of_nat (length filled)) res_idx (filled ++ replicate m zero_feature) resources)
     (λ '(res_idx', features', resources') s',
        (∃ k, s' = set_e_b (match l with [] => e_b s
                            | _ => set_bi_features [] (bi_feature_num (e_b s)) (e_b s) end)
                     (set_e_k k s)) ∧
        length resources' = length resources ∧ 0 <= res_idx' <= Z.of_nat (length resources) ∧
        ∃ filled', features' = filled' ++ replicate (m - length l) zero_feature ∧
          length filled' = (length filled + length l)%nat ∧ Forall feature_ok filled' ∧ placed 0 filled' res_idx')
     (λ _ s', e_ids s' = e_ids s ∧ e_c s' = e_c s) s.
Proof.
  revert res_idx filled m resources s.
  induction l as [|fi l IH]; intros res_idx filled m resources s Hl Hr Hn Hlen Hf Hpl;
    cbn [fill_features].
  { wsteps. split; [exists (e_k s); by destruct s|]. split; [done|]. split; [lia|].
    exists filled. cbn. by rewrite !Nat.sub_0_r, Nat.add_0_r. }
  cbn [length] in Hn |- *. inversion Hl as [|? ? Hfi Hl']; subst. destruct m as [|m]; [lia|].
  rewrite Nat2Z.id, lookup_app_r, Nat.sub_diag by lia. cbn [replicate lookup list_lookup access]. wsteps.
  eapply wp_mono; [apply fill_feature_spec; [done|lia]| |].
  2: { by intros e s' [k ->]. }
  intros [[f res'] resources'] s' ([k ->] & Hres' & Hlr & Hfok & Hfpl). unfold upd_b. wsteps.
  rewrite <- (Nat.add_0_r (length filled)), insert_app_r, Nat.add_0_r. cbn [insert list_insert].
  rewrite cons_middle, app_assoc.
  replace (Z.of_nat (length filled) + 1) with (Z.of_nat (length (filled ++ [f]))) by (rewrite length_app; cbn; lia).
  eapply wp_mono; [apply IH| |done].
  - done.
  - rewrite length_app. cbn. lia.
  - lia.
  - rewrite length_app, Hlr, Hlen. cbn. lia.
  - apply Forall_app. split; [done|by constructor].
  - by eapply placed_snoc.
  - intros [[r fs] rs] s' ((k' & ->) & Hl1 & Hrr & filled' & -> & Hl2 & Hff & Hfp).
    rewrite length_app in Hl2. cbn in Hl2. split; [exists k'; by destruct l|]. split; [lia|]. split; [lia|].
    exists filled'. split; [done|]. split; [lia|]. by split.
Qed.

Lemma dfl_devs_lookup type : 0 <= type < DFL_ID_MAX → is_Some (dfl_devs !! Z.to_nat type).
Proof. intros Ht. apply lookup_lt_is_Some_2. unfold DFL_ID_MAX in Ht. cbn. lia. Qed.

(** The step before registration: no write outside the arrays, and the data of
    an unused device. *)
Lemma binfo_create_spec s :
  binfo_ok (e_b s) → 0 <= bi_type (e_b s) →
  wp binfo_create_feature_dev_data
     (λ fd s', e_c s' = e_c s ∧ arrays_ok fd ∧ fdata_unused fd ∧ fd_type fd = bi_type (e_b s) ∧
        fd_dev fd = None ∧ fd_num fd = bi_feature_num (e_b s) ∧
        e_b s' = set_bi_features [] (bi_feature_num (e_b s)) (e_b s))
     (λ _ s', e_c s' = e_c s) s.
Proof.
  intros (Hirq & Hnum & Hexact) Ht. unfold binfo_create_feature_dev_data. wsteps.
  destruct (Z.leb_spec DFL_ID_MAX (bi_type (e_b s))) as [|Hlt]; [by wsteps|].
  do 3 (wsteps; apply wp_kalloc; [|done]; intros ?). rewrite !set_e_k_e_k.
  unfold dfl_id_alloc. wsteps. apply wp_ek_kop. intros id ?.
  rewrite !set_e_k_e_k.
  assert (∀ ids k,
    let s1 := set_e_k k (set_e_ids ids s) in
    wp (ret ← ek (kop k_add_action);
        if negb (ret =? 0) then dfl_id_free (bi_type (e_b s)) id ;; throw ret else
        info ← access (dfl_devs !! Z.to_nat (bi_type (e_b s)));
        r ← fill_features (bi_sub_features (e_b s)) 0 0
              (replicate (Z.to_nat (bi_feature_num (e_b s))) zero_feature)
              (replicate (Z.to_nat (bi_feature_num (e_b s))) (Res 0 0));
        let '(res_idx, features, resources) := (r : Z * list dfl_feature * list resource) in
        mret (FData None (bi_type (e_b s)) id (di_name info) FEATURE_DEV_ID_UNUSED 0 false 0
                (bi_feature_num (e_b s)) features res_idx resources))
      (λ fd s', e_c s' = e_c s ∧ arrays_ok fd ∧ fdata_unused fd ∧ fd_type fd = bi_type (e_b s) ∧
        fd_dev fd = None ∧ fd_num fd = bi_feature_num (e_b s) ∧
        e_b s' = set_bi_features [] (bi_feature_num (e_b s)) (e_b s))
      (λ _ s', e_c s' = e_c s) s1) as Hrest.
  { intros ids kk s1. wsteps. apply wp_ek_kop. intros ret k'. subst s1. rewrite set_e_k_e_k.
    destruct (negb (ret =? 0)); [unfold dfl_id_free; by wsteps|].
    destruct (dfl_devs_lookup (bi_type (e_b s))) as [info Hinfo]; [lia|].
    rewrite Hinfo. cbn [access]. wsteps.
    eapply wp_mono; [apply (fill_features_spec _ 0 [])| |].
    - done.
    - cbn. lia.
    - lia.
    - by rewrite length_replicate.
    - constructor.
    - done.
    - intros [[r fs] rs] s' ((kx & ->) & Hl1 & Hr & filled & -> & Hl2 & Hf & Hpl). wsteps.
      rewrite length_replicate in *. split; [done|].
      split.
      { unfold arrays_ok, features_ok. cbn. cbn in Hl2. rewrite length_app, length_replicate, Hl1, Hl2.
        split; [lia|]. split; [lia|]. split; [lia|]. eexists filled, _. split; [done|]. split; [done|]. split; [done|].
        split; [by apply Forall_replicate|]. intros Hty. unfold DFL_ID_MAX, PRIV_FEAT_ID in *.
        rewrite <- (Hexact ltac:(lia)), Nat2Z.id, Nat.sub_diag. done. }
      split. { unfold fdata_unused. cbn. repeat split; done || lia. }
      repeat (split; [done|]). cbn. by destruct (e_b s) as [? ? ? ? ? ? [] ?].
    - by intros e s' [_ ?]. }
  destruct (Z.ltb_spec id 0) as [Hid|Hid].
  - wsteps. destruct (Z.ltb_spec id 0); [|lia]. by wsteps.
  - wsteps. destruct (Z.ltb_spec id 0); [lia|]. cbv zeta in Hrest. cbn [e_ids set_e_k].
    apply Hrest.
Qed.
End CommitFacts.

(** ** Registration and the walk *)
Section WalkFacts.
Context `{Kernel} (mmio : Z → option Z) (NR_IRQS : Z) (chrdev_major : Z → Z) (fuel : nat).
Implicit Types (s : est) (fd : dfl_feature_dev_data).

Lemma wp_ek_wp {A} F N (m : M kst A) (Q : A → est → Prop) E s :
  wpg F N m (λ a k, Q a (set_e_k k s)) (λ e k, E e (set_e_k k s)) (e_k s) →
  wpg F N (ek m) Q E s.
Proof. apply wp_zoom. Qed.

(** A registration gives the device and all its features one platform device,
    or changes nothing that is visible and returns an error. *)
Lemma feature_dev_register_spec fd k :
  0 <= fd_type fd < DFL_ID_MAX →
  wp (feature_dev_register chrdev_major fd)
     (λ '(fd', ret) _, if ret =? 0 then ∃ d, fd' = set_dev_all (Some d) fd
                       else fd' = fd ∨ fd' = set_dev_all None fd)
     (λ _ _, False) k.
Proof.
  intros Ht. unfold feature_dev_register. wsteps. apply wp_kop.
  destruct (fst (k_pdev_alloc _ _ _)) as [d|]; [|wsteps; by left].
  destruct (dfl_devs_lookup (fd_type fd) Ht) as [info Hinfo]. rewrite Hinfo.
  cbn [access].
  assert (∀ ret k', ret ≠ 0 →
    wp (if ret =? 0 then mret (set_dev_all (Some d) fd, 0)
        else kdo (k_pdev_put d) ;; mret (set_dev_all None fd, ret))
       (λ '(fd', ret) _, if ret =? 0 then ∃ d, fd' = set_dev_all (Some d) fd
                         else fd' = fd ∨ fd' = set_dev_all None fd) (λ _ _, False) k') as Hfail.
  { intros ret k' Hne. apply Z.eqb_neq in Hne. rewrite Hne. wsteps.
    cbv [kdo wpg mret M_ret]. rewrite Hne. by right. }
  wsteps. apply wp_kop. wsteps; intros Hrc1.
  - wsteps. apply wp_kop. wsteps; intros Hrc2.
    + wsteps. apply wp_kop. wsteps; intros Hrc3.
      * change (0 =? 0) with true. cbv iota. wsteps. by exists d.
      * by apply Hfail.
    + by apply Hfail.
  - by apply Hfail.
Qed.

Lemma set_dev_all_fd_dev d fd : fd_dev (set_dev_all d fd) = d.
Proof. done. Qed.

Lemma arrays_ok_set_dev_all d fd : arrays_ok mmio NR_IRQS fd → arrays_ok mmio NR_IRQS (set_dev_all d fd).
Proof.
  unfold arrays_ok, features_ok, set_dev_all. cbn. rewrite length_fmap. intros (? & ? & ? & filled & blank & He & Hf & Hpl & Hb & Ht).
  do 3 (split; [done|]). exists (set_f_dev d <$> filled), (set_f_dev d <$> blank). split; [by rewrite He, fmap_app|].
  split; [by apply Forall_fmap|]. split; [by apply placed_set_dev|]. split; [|intros Hne; by rewrite Ht].
  apply Forall_fmap. eapply Forall_impl; [|exact Hb]. intros f ->. done.
Qed.

Lemma fdata_ok_registered d fd :
  arrays_ok mmio NR_IRQS fd → fdata_unused fd → fdata_ok mmio NR_IRQS (set_dev_all (Some d) fd).
Proof.
  intros Ha Hu. split; [by apply arrays_ok_set_dev_all|]. split; [done|].
  split; [by eexists|]. unfold set_dev_all; cbn. apply Forall_fmap, Forall_true. done.
Qed.

(** The invariant of the walk. *)
Definition walk_ok s : Prop :=
  binfo_ok mmio NR_IRQS (e_b s) ∧ 0 <= bi_type (e_b s) ∧ cdev_ok mmio NR_IRQS (e_c s).

(** [keeps m]: [m] keeps the invariant; if it fails, the container is still
    well-formed (the build info is thrown away then). *)
Definition keeps {A} (m : M est A) : Prop :=
  ∀ s, walk_ok s → wlp m (λ _, walk_ok) (λ _ s', cdev_ok mmio NR_IRQS (e_c s')) s.

Lemma keeps_reader {A} (m : M est A) : Reader m → keeps m.
Proof.
  intros Hm s Hs. eapply wp_mono; [apply wp_reader; [done|apply wlp_true]| |].
  - by intros ? s' [-> _].
  - intros ? s' [-> _]. apply Hs.
Qed.
Lemma keeps_bind {A B} (m : M est A) (f : A → M est B) :
  keeps m → (∀ a, keeps (f a)) → keeps (m ≫= f).
Proof.
  intros Hm Hf s Hs. apply wp_bind. eapply wp_mono; [by apply Hm| |done].
  intros a s' Hs'. by apply Hf.
Qed.
Lemma keeps_ek {A} (m : M kst A) : keeps (ek m).
Proof.
  intros s Hs. apply wp_ek_wp. eapply wp_mono; [apply wlp_true|done|].
  intros. apply Hs.
Qed.
Lemma keeps_if {A} (b : bool) (m n : M est A) : keeps m → keeps n → keeps (if b then m else n).
Proof. by destruct b. Qed.

Lemma keeps_create ofst size fid : fid = 0 ∨ fid = FEATURE_ID_AFU → keeps (create_feature_instance mmio NR_IRQS fuel ofst size fid).
Proof.
  intros Hfid s (Hb & Ht & Hc). eapply wp_mono; [by apply create_feature_instance_irqs| |].
  - intros _ s' (_ & Hc' & [Hb'|(fi & Hb' & Hirq & _)]); unfold walk_ok; rewrite Hb', Hc'; [done|].
    split; [|done]. destruct Hb as (Hf & Hn & He). split; [|split]; cbn.
    + apply Forall_app. split; [done|]. by constructor.
    + rewrite length_app. cbn. lia.
    + intros Hp. rewrite length_app. cbn. specialize (He Hp). lia.
  - intros e s' (_ & -> & _). done.
Qed.

Lemma binfo_ok_nil n b : 0 <= n → n = 0 ∨ PRIV_FEAT_ID <= bi_type b → binfo_ok mmio NR_IRQS (set_bi_features [] n b).
Proof. intros. split; [|split]; cbn; [constructor|lia|lia]. Qed.

Lemma binfo_ok_type t b : PRIV_FEAT_ID <= t → binfo_ok mmio NR_IRQS b → binfo_ok mmio NR_IRQS (set_bi_type t b).
Proof. intros ? (? & ? & _). split; [done|]. split; [done|]. cbn. lia. Qed.
Lemma binfo_ok_num b : binfo_ok mmio NR_IRQS b → 0 <= bi_feature_num b.
Proof. intros (_ & Hn & _). lia. Qed.

Lemma keeps_upd_b f :
  (∀ b, binfo_ok mmio NR_IRQS b → 0 <= bi_type b → binfo_ok mmio NR_IRQS (f b) ∧ 0 <= bi_type (f b)) →
  keeps (upd_b f).
Proof.
  intros Hf s (Hb & Ht & Hc). unfold upd_b. wsteps.
  destruct (Hf _ Hb Ht). by split.
Qed.
Lemma keeps_upd_type t : PRIV_FEAT_ID <= t → keeps (upd_b (set_bi_type t)).
Proof. intros Ht. apply keeps_upd_b. intros b ? _. split; [by apply binfo_ok_type|]. unfold PRIV_FEAT_ID in Ht. cbn. lia. Qed.

Lemma keeps_commit : keeps (build_info_commit_dev chrdev_major).
Proof.
  intros s (Hb & Ht & Hc). unfold build_info_commit_dev. wsteps.
  pose proof (binfo_ok_num _ Hb) as Hnum.
  eapply wp_mono; [apply wp_loosen, binfo_create_spec; done| |].
  2: { by intros e s' ->. }
  intros fd s' (Hc' & Ha & Hu & Hty & Hdev & Hnum' & Hb'). wsteps.
  apply wp_ek_wp. eapply wp_mono; [apply wp_loosen, feature_dev_register_spec; apply Hu| |done].
  intros [fd' ret] k Hr. destruct (Z.eqb_spec ret 0) as [->|]; cbn [negb].
  2: { wsteps. cbn. by rewrite Hc'. }
  destruct Hr as [d ->]. pose proof (fdata_ok_registered d fd Ha Hu) as Hok.
  rewrite <- Hc' in Hc. destruct Hc as (Hc1 & Hc2 & Hc3).
  assert (∀ c k, cdev_ok mmio NR_IRQS c →
    walk_ok (set_e_b (set_bi_type DFL_ID_MAX (e_b s')) (set_e_c c (set_e_k k s')))) as Hfin.
  { intros c k' Hcd. split; [|split; [done|exact Hcd]]. cbn. rewrite Hb'. by apply (binfo_ok_nil _ (set_bi_type DFL_ID_MAX (e_b s))); [|right]. }
  wsteps. cbn [e_b set_e_k].
  destruct (bi_type (e_b s') =? PORT_ID); [|destruct (bi_type (e_b s') =? PRIV_FEAT_ID)];
    unfold upd_b; wsteps.
  - apply (Hfin (dfl_fpga_cdev_add_port_data _ (e_c s'))). by repeat split; try constructor.
  - apply (Hfin (dfl_fpga_cdev_add_priv_feat_data _ (e_c s'))). by repeat split; try constructor.
  - cbn [fd_dev set_dev_all set_fd_dev set_fd_features]. apply wp_ek; [|done..].
    intros _ k'. wsteps.
    apply (Hfin (cdev_set_fme _ (e_c s'))). by repeat split; try constructor.
Qed.

Lemma keeps_prepare start len : keeps (build_info_prepare start len).
Proof.
  unfold build_info_prepare. apply keeps_bind; [apply keeps_ek|]. intros ok.
  apply keeps_if; [apply keeps_reader, _|].
  apply keeps_bind; [apply keeps_ek|]. intros [a|]; [|apply keeps_reader, _].
  by apply keeps_upd_b.
Qed.
Lemma keeps_complete : keeps build_info_complete.
Proof.
  unfold build_info_complete. apply keeps_bind; [apply keeps_reader, _|]. intros b.
  apply keeps_bind; intros; apply keeps_ek.
Qed.

Lemma keeps_parse_feature_afu ofst : keeps (parse_feature_afu mmio NR_IRQS fuel ofst).
Proof.
  unfold parse_feature_afu, parse_feature_port_afu.
  apply keeps_bind; [apply keeps_reader, _|]. intros b.
  repeat apply keeps_if; try (apply keeps_reader, _).
  apply keeps_bind; [apply keeps_reader, _|]. intros b'.
  apply keeps_bind; [apply keeps_reader, _|]. intros v. apply keeps_create. by right.
Qed.

Lemma keeps_parse_feature_private ofst : keeps (parse_feature_private mmio NR_IRQS fuel ofst).
Proof.
  unfold parse_feature_private.
  apply keeps_bind; [apply keeps_reader, _|]. intros b.
  apply keeps_bind; [apply keeps_reader, _|]. intros v.
  apply keeps_if; [apply keeps_reader, _|].
  apply keeps_bind; [|intros; apply keeps_create; by left].
  apply keeps_if; [by apply keeps_upd_type|apply keeps_reader, _].
Qed.

Lemma dfh_id_to_type_nonneg id : 0 <= dfh_id_to_type id.
Proof. unfold dfh_id_to_type. cbn. repeat case_match; by vm_compute. Qed.

Lemma keeps_parse_feature_fiu ofst : keeps (parse_feature_fiu mmio NR_IRQS chrdev_major fuel ofst).
Proof.
  unfold parse_feature_fiu.
  apply keeps_bind; [apply keeps_reader, _|]. intros b.
  apply keeps_bind; [apply keeps_if; [|apply keeps_reader, _]|intros _].
  { apply keeps_bind; [apply keeps_complete|intros _].
    apply keeps_bind; [apply keeps_commit|intros _].
    apply keeps_bind; [apply keeps_reader, _|intros ?]. apply keeps_prepare. }
  apply keeps_bind; [apply keeps_reader, _|]. intros b'.
  apply keeps_bind; [apply keeps_reader, _|]. intros v. cbv zeta.
  apply keeps_if; [apply keeps_reader, _|].
  apply keeps_bind; [|intros _].
  { apply keeps_upd_b. intros ? _ _. split; [by apply binfo_ok_nil; [|left]|apply dfh_id_to_type_nonneg]. }
  apply keeps_bind; [apply keeps_create; by left|intros _].
  apply keeps_bind; [apply keeps_reader, _|]. intros v'.
  apply keeps_if; [apply keeps_parse_feature_afu|apply keeps_reader, _].
Qed.

Lemma keeps_parse_feature ofst : keeps (parse_feature mmio NR_IRQS chrdev_major fuel ofst).
Proof.
  unfold parse_feature.
  apply keeps_bind; [apply keeps_reader, _|]. intros b.
  apply keeps_bind; [apply keeps_reader, _|]. intros v. cbv zeta.
  repeat apply keeps_if; [apply keeps_parse_feature_afu|apply keeps_parse_feature_private
    |apply keeps_parse_feature_fiu|apply keeps_reader, _].
Qed.

Lemma keeps_list_loop n start end_ :
  keeps (parse_feature_list_loop mmio NR_IRQS chrdev_major fuel n start end_).
Proof.
  revert start. induction n as [|n IH]; intros start; cbn [parse_feature_list_loop];
    (apply keeps_if; [apply keeps_reader, _|]); [apply keeps_reader, _|].
  apply keeps_if; [apply keeps_reader, _|].
  apply keeps_bind; [apply keeps_reader, _|]. intros b.
  apply keeps_bind; [apply keeps_parse_feature|]. intros _.
  apply keeps_bind; [apply keeps_reader, _|]. intros b'.
  apply keeps_bind; [apply keeps_reader, _|]. intros v. cbv zeta.
  apply keeps_if; [apply keeps_reader, _|apply IH].
Qed.

Lemma keeps_parse_feature_list start len :
  keeps (parse_feature_list mmio NR_IRQS chrdev_major fuel start len).
Proof.
  unfold parse_feature_list. cbv zeta.
  apply keeps_bind; [apply keeps_prepare|intros _].
  apply keeps_bind; [apply keeps_list_loop|intros _].
  apply keeps_bind; [apply keeps_complete|intros _].
  apply keeps_bind; [apply keeps_reader, _|]. intros b'.
  apply keeps_if; [apply keeps_commit|apply keeps_reader, _].
Qed.

Lemma enumerate_spec info s :
  wlp (dfl_fpga_feature_devs_enumerate mmio NR_IRQS chrdev_major fuel info)
      (λ c _, cdev_ok mmio NR_IRQS c) (λ _ _, True) s.
Proof.
  unfold dfl_fpga_feature_devs_enumerate. destruct (ei_dev info); cbn [negb]; [|by wsteps].
  wsteps. apply wp_kalloc; [|done]. intros k. wsteps. apply wp_ek_kop. intros ret k'.
  wsteps; intros _; [|done]. wsteps. apply wp_kalloc; [|intros; eapply wp_mono; [apply wlp_true|done..]].
  intros k2. unfold upd_b. wsteps.
  eapply wp_mono; [apply (wp_for_each _ _ walk_ok (λ _ _, True))| |].
  - split; [|split; [done|]]; [split; cbn; [constructor|lia]|]. by repeat split; constructor.
  - intros [start len] s' _ Hs'. eapply wp_mono; [by apply keeps_parse_feature_list|done|done].
  - intros _ s' (_ & _ & Hc). unfold build_info_free, upd_b. wsteps. exact Hc.
  - intros e s' _. eapply wp_mono; [apply wlp_true|..]; intros; eapply wp_mono; try apply wlp_true; done.
Qed.

(** C1: every feature device in the container that a successful enumeration
  returns is well-formed: its feature and resource arrays have the sizes it
  records; each of its features has the number, revision and version of a header in the
  registers (or is the AFU of a port, which has none), and as many interrupt
  contexts as it says, all with valid Linux interrupt numbers and none bound; the
  headers among them are mapped, and the others have the resources of the device,
  one each in order; the device and its features share one platform device, and
  the device is not in use.  Every entry of the feature array of an FME or a port
  holds such a feature; in a device of private features, blank entries may follow those
  that were written. *)
Theorem enumerate_well_formed info s :
  wlp (dfl_fpga_feature_devs_enumerate mmio NR_IRQS chrdev_major fuel info)
      (λ c _, cdev_ok mmio NR_IRQS c) (λ _ _, True) s.
Proof. apply enumerate_spec. Qed.
End WalkFacts.
