(* ===== verification/DflEnumTerm.v ===== *)
(** * Termination of the enumeration

    The walk over a list ends for every device whose interface features have a
    next offset and whose parameter offsets are below 2^26 words; without the
    first condition it need not. *)
From stdpp Require Import gmap strings.
From S2P Require Import Prelude DflRegs DflTypes DflParam DflEnum DflEnumFacts.

Section Ends.
Context `{Kernel}.

(** [ends I m]: from a state in [I], [m] does not run out of fuel, and stays in
    [I] unless it fails. *)
Definition ends {A} (I : est → Prop) (m : M est A) : Prop :=
  ∀ s, I s → wtp m (λ _, I) (λ _ _, True) s.

Context (I : est → Prop).

Lemma ends_ret {A} (a : A) : ends I (mret a).
Proof. by intros s Hs. Qed.
Lemma ends_throw {A} e : ends I (throw e : M est A).
Proof. by intros s Hs. Qed.
Lemma ends_fault {A} : ends I (fault : M est A).
Proof. by intros s Hs. Qed.
Lemma ends_gets {A} (f : est → A) : ends I (gets f).
Proof. by intros s Hs. Qed.
Lemma ends_access {A} (o : option A) : ends I (access o).
Proof. destruct o; by intros s Hs. Qed.
Lemma ends_bind {A B} (m : M est A) (f : A → M est B) :
  ends I m → (∀ a, ends I (f a)) → ends I (m ≫= f).
Proof.
  intros Hm Hf s Hs. apply wp_bind. eapply wp_mono; [by apply Hm| |done].
  intros a s' Hs'. by apply Hf.
Qed.
Lemma ends_if {A} (b : bool) (m n : M est A) : ends I m → ends I n → ends I (if b then m else n).
Proof. by destruct b. Qed.
(** A value read off the state satisfies what the invariant says of it. *)
Lemma ends_gets_bind {A B} (g : est → A) (f : A → M est B) (P : A → Prop) :
  (∀ s, I s → P (g s)) → (∀ a, P a → ends I (f a)) → ends I (gets g ≫= f).
Proof. intros HP Hf s Hs. apply wp_bind, wp_gets. apply Hf; auto. Qed.

Context (HIk : ∀ k s, I s → I (set_e_k k s)).
Lemma ends_ek_kop {A} (g : kst → A * kst) : ends I (ek (kop g)).
Proof. intros s Hs. apply wp_ek_kop. auto. Qed.
Lemma ends_ek_kdo g : ends I (ek (kdo g)).
Proof. intros s Hs. apply wp_zoom. cbn. auto. Qed.
Lemma ends_kalloc : ends I (ek kalloc).
Proof. intros s Hs. apply wp_kalloc; auto. Qed.
End Ends.

(** A reader that does not run out of fuel ends in every invariant. *)
Lemma ends_reader `{Kernel} {A} I (m : M est A) :
  Reader m → (∀ s, I s → wtp m (λ _ _, True) (λ _ _, True) s) → ends I m.
Proof.
  intros Hr Hm s Hs. eapply wp_mono; [apply wp_reader; [done|by apply Hm]| |done].
  by intros a s' [-> _].
Qed.

Ltac ends_step :=
  first [ apply ends_ret | apply ends_throw | apply ends_fault | apply ends_access
        | apply ends_ek_kop; [done] | apply ends_ek_kdo; [done] | apply ends_kalloc; [done]
        | apply ends_gets | apply ends_if | (apply ends_bind; [|intros ?])
        | case_match ].
Ltac ends_steps := repeat ends_step.

Section LoopBounds.
Context {St : Type} (mmio : Z → option Z).
Implicit Types s : St.

(** Interface features advance the walk. *)
Definition interfaces_advance : Prop :=
  ∀ a v, mmio a = Some v → FIELD_GET DFH_TYPE v = DFH_TYPE_INTERFACE → FIELD_GET DFH_NEXT_HDR_OFST v ≠ 0.
(** The parameters of version 1 features have sane offsets. *)
Definition params_small : Prop :=
  ∀ base h, mmio base = Some h → u8 (FIELD_GET DFH_VERSION h) = 1 → params_small_at mmio base.

Lemma next_hdr_range v : 0 <= FIELD_GET DFH_NEXT_HDR_OFST v < 2 ^ 24.
Proof. apply (FIELD_GET_range DFH_NEXT_HDR_OFST); fld. Qed.

Lemma feature_size_loop_ends fuel a end_ ofst s :
  interfaces_advance → end_ - a <= 2 ^ 29 → 0 <= ofst < Z.max (2 ^ 24) (end_ - a) →
  Z.max 0 (end_ - a - ofst) < Z.of_nat fuel →
  wtp (feature_size_loop mmio fuel a end_ ofst) (λ sz _, 0 <= sz <= 2 ^ 30) (λ _ _, True) s.
Proof.
  intros Hadv He. revert ofst. induction fuel as [|fuel IH]; intros ofst Ho Hf;
    cbn [feature_size_loop]; [lia|].
  wsteps. unfold readq_at. apply wp_access; [|done]. intros v Hv.
  pose proof (next_hdr_range v) as Hn.
  destruct (Z.eqb_spec (FIELD_GET DFH_TYPE v) DFH_TYPE_INTERFACE) as [Ht|Ht]; cbn [negb];
    [|wsteps; lia].
  pose proof (Hadv _ _ Hv Ht) as Hnz.
  rewrite (u32_small (ofst + _)) by (unfold is_u32; lia).
  destruct (has_bits DFH_EOL v); [wsteps; lia|].
  destruct (Z.ltb_spec (a + (ofst + FIELD_GET DFH_NEXT_HDR_OFST v)) end_); [|wsteps; lia].
  apply IH; lia.
Qed.

Lemma feature_size_ends fuel a end_ v s :
  interfaces_advance → end_ - a <= 2 ^ 29 → 2 ^ 30 <= Z.of_nat fuel →
  wtp (feature_size mmio fuel a end_ v) (λ sz _, 0 <= sz <= 2 ^ 30) (λ _ _, True) s.
Proof.
  intros Hadv He Hf. unfold feature_size. pose proof (next_hdr_range v) as Hn.
  rewrite (u32_small (FIELD_GET _ _)) by (unfold is_u32; lia).
  repeat case_match; try (wsteps; lia). apply feature_size_loop_ends; done || lia.
Qed.

Lemma param_size_loop_ends fuel base max size s :
  params_small_at mmio base → param_at mmio base size →
  max <= 2 ^ 30 → 0 <= size <= 2 ^ 30 + 2 ^ 29 →
  Z.max 0 (max - size) < Z.of_nat fuel →
  wtp (param_size_loop fuel mmio base max size) (λ _ _, True) (λ _ _, True) s.
Proof.
  intros Hps Hat Hm. revert size Hat. induction fuel as [|fuel IH]; intros size Hat Hs Hf;
    cbn [param_size_loop]; [lia|].
  rewrite s32_small by (unfold DFHv1_PARAM_HDR; lia).
  rewrite u64_small by (unfold is_u64, DFHv1_PARAM_HDR; lia).
  destruct (Z.ltb_spec (size + DFHv1_PARAM_HDR) max) as [Hlt|]; cbn [negb]; [|by wsteps].
  wsteps. unfold readq_at. apply wp_access; [|done]. intros v Hv.
  pose proof (next_offset_nonneg v). pose proof (Hps _ _ Hat Hv).
  destruct (Z.eqb_spec (FIELD_GET DFHv1_PARAM_HDR_NEXT_OFFSET v) 0); [by wsteps|].
  unfold DFHv1_PARAM_HDR in Hlt. rewrite s32_small by lia.
  destruct (has_bits _ _) eqn:?; [by wsteps|]. apply IH; [by apply param_next|lia..].
Qed.

Lemma dfh_get_param_size_ends fuel base max s :
  params_small_at mmio base → max <= 2 ^ 30 → 2 ^ 30 < Z.of_nat fuel →
  wtp (dfh_get_param_size fuel mmio base max) (λ _ _, True) (λ _ _, True) s.
Proof.
  intros Hps Hm Hf. unfold dfh_get_param_size. wsteps. unfold readq_at.
  apply wp_access; [|done]. intros v Hv.
  destruct (Z.eqb_spec (FIELD_GET DFHv1_CSR_SIZE_GRP_HAS_PARAMS v) 0); [by wsteps|].
  apply param_size_loop_ends; try (done || lia). by eapply param_first.
Qed.

Lemma find_param_loop_ends fuel params end_ id pos s :
  end_ - pos <= Z.of_nat fuel → wtp (find_param_loop fuel params end_ id pos) (λ _ _, True) (λ _ _, True) s.
Proof.
  revert pos. induction fuel as [|fuel IH]; intros pos Hf; cbn [find_param_loop];
    (destruct (Z.ltb_spec pos end_); cbn [negb]; [|by wsteps]); [lia|].
  wsteps. apply wp_access; [|done]. intros v _. pose proof (next_offset_nonneg v).
  case_match; [by wsteps|]. case_match; [by wsteps|].
  destruct (Z.eqb_spec (FIELD_GET DFHv1_PARAM_HDR_NEXT_OFFSET v) 0); [by wsteps|]. apply IH. lia.
Qed.
Lemma find_param_ends params max id s :
  wtp (find_param params max id) (λ _ _, True) (λ _ _, True) s.
Proof. apply find_param_loop_ends. lia. Qed.
Lemma memcpy_fromio_ends from n s :
  wtp (memcpy_fromio mmio from n) (λ _ _, True) (λ _ _, True) s.
Proof.
  revert from. induction n as [|n IH]; intros from; cbn [memcpy_fromio]; wsteps; [done|].
  unfold readq_at. apply wp_access; [|done]. intros v _. wsteps.
  eapply wp_mono; [apply IH| |done]. intros. by wsteps.
Qed.
End LoopBounds.

Section WalkEnds.
Context `{Kernel} (mmio : Z → option Z) (NR_IRQS : Z) (chrdev_major : Z → Z) (fuel : nat).
Context (Hadv : interfaces_advance mmio) (Hps : params_small mmio) (Hfuel : 2 ^ 30 < Z.of_nat fuel).
Implicit Types s : est.

(** The window that is enumerated: it moves to the FIU that is being parsed,
    and always ends where the list ends. *)
Definition window_at (st ln : Z) s : Prop := bi_start (e_b s) = st ∧ bi_len (e_b s) = ln.
Definition window_bounds (st ln : Z) : Prop :=
  0 <= st ∧ 0 <= ln <= 2 ^ 29 ∧ st + ln <= 2 ^ 64 - 2 ^ 24.

Section Fixed.
Context (st ln : Z) (Hwin : window_bounds st ln).
Abbreviation I := (window_at st ln).
Local Ltac go := repeat (done || ends_step).

Lemma ends_upd_b f :
  (∀ b, bi_start (f b) = bi_start b ∧ bi_len (f b) = bi_len b) → ends I (upd_b f).
Proof.
  intros Hf s Hs. unfold upd_b, window_at in *. wsteps. cbn. destruct (Hf (e_b s)) as [-> ->]. done.
Qed.

Lemma ends_read_header ofst size fid :
  0 <= ofst → 0 <= size <= 2 ^ 30 → ends I (read_feature_header mmio fuel ofst size fid).
Proof.
  intros Ho Hsz. apply ends_reader; [apply _|]. intros s [Hs Hl]. destruct Hwin as (? & ? & ?). unfold read_feature_header. wsteps.
  case_match; [|by wsteps]. wsteps. apply wp_readq; [|done]. intros v Hv. wsteps.
  apply (wp_mono _ (λ sz _, 0 <= sz <= 2 ^ 30) _ (λ _ _, True)); [| |done].
  { destruct (negb (size =? 0)); [by wsteps|]. apply feature_size_ends; done || lia. }
  intros sz s' Hsz'. case_match; [by wsteps|].
  destruct (Z.eqb_spec (u8 (FIELD_GET DFH_VERSION v)) 1); [|by wsteps].
  wsteps. eapply wp_mono; [apply dfh_get_param_size_ends; try (done || lia); by eapply Hps| |done].
  intros psz s'' _. case_match; by wsteps.
Qed.

Lemma ends_irqs ofst fi : ends I (parse_feature_irqs mmio NR_IRQS ofst fi).
Proof.
  unfold parse_feature_irqs, feature_irq_vectors, readq, readq_at.
  apply ends_bind; [go|intros b].
  apply ends_bind.
  - repeat (case_match; try (go; fail)).
    apply ends_bind; [apply ends_reader; [apply _|intros; apply find_param_ends]|]. intros [p|]; go.
  - intros [ib ni]. case_match; [go|]. case_match; [go|].
    apply ends_bind; [|go]. generalize 0 (Z.to_nat ni). clear. intros i n. revert i.
    induction n as [|n IH]; intros i; cbn [check_irq_entries]; go.
Qed.

Lemma ends_create ofst size fid :
  0 <= ofst → 0 <= size <= 2 ^ 30 → ends I (create_feature_instance mmio NR_IRQS fuel ofst size fid).
Proof.
  intros Ho Hsz. unfold create_feature_instance.
  apply ends_bind; [by apply ends_read_header|]. intros [[[[sz fid'] rev] ver] psize].
  apply ends_bind; [go|]. intros b. case_match; [go|].
  apply ends_bind; [go|]. intros _.
  apply ends_bind; [apply ends_reader; [apply _|intros; apply memcpy_fromio_ends]|]. intros params.
  apply ends_bind.
  { unfold feature_region, read_feature_guid, readq, readq_at. go. }
  intros [[res guid]|]; [|go].
  apply ends_bind; [apply ends_irqs|]. intros fi. by apply ends_upd_b.
Qed.

Lemma ends_complete : ends I build_info_complete.
Proof. unfold build_info_complete. go. Qed.

Lemma ends_fill_irq_ctx table base n i : ends I (fill_irq_ctx table base n i).
Proof. revert i. induction n as [|n IH]; intros i; cbn [fill_irq_ctx]; go. Qed.

Lemma ends_fill_feature fi res_idx resources : ends I (fill_feature fi res_idx resources).
Proof.
  unfold fill_feature.
  apply ends_bind; [go|intros _]. apply ends_bind; [go|]. intros [[[ri io] rx] rs].
  apply ends_bind; [|go]. case_match; [|go].
  apply ends_bind; [go|intros _]. apply ends_bind; [go|intros b]. apply ends_fill_irq_ctx.
Qed.

Lemma ends_fill_features l idx rx fs rs : ends I (fill_features l idx rx fs rs).
Proof.
  revert idx rx fs rs. induction l as [|fi l IH]; intros idx rx fs rs; cbn [fill_features]; [go|].
  apply ends_bind; [go|intros _]. apply ends_bind; [apply ends_fill_feature|].
  intros [[f rx'] rs']. apply ends_bind; [by apply ends_upd_b|intros _]. apply IH.
Qed.

Lemma ends_modify f : (∀ s, e_b (f s) = e_b s) → ends I (modify f).
Proof. intros Hf s Hs. wsteps. unfold window_at in *. by rewrite Hf. Qed.

Lemma ends_binfo_create : ends I binfo_create_feature_dev_data.
Proof.
  unfold binfo_create_feature_dev_data, dfl_id_alloc, dfl_id_free.
  apply ends_bind; [go|intros b]. cbv zeta. apply ends_if; [go|].
  do 3 (apply ends_bind; [go|intros _]).
  apply ends_bind.
  { apply ends_bind; [go|intros ids]. apply ends_bind; [go|intros id]. apply ends_if; [go|].
    apply ends_bind; [by apply ends_modify|go]. }
  intros id. apply ends_if; [go|]. apply ends_bind; [go|intros ret]. apply ends_if.
  { apply ends_bind; [by apply ends_modify|go]. }
  apply ends_bind; [go|intros info].
  apply ends_bind; [apply ends_fill_features|]. intros [[rx fs] rs]. go.
Qed.

Lemma ends_register fd : ends I (ek (feature_dev_register chrdev_major fd)).
Proof.
  intros s Hs. apply wp_ek_wp. unfold feature_dev_register, kdo.
  assert (∀ k, wtp (feature_dev_register chrdev_major fd) (λ _ _, True) (λ _ _, True) k) as Hk.
  { intros k. unfold feature_dev_register. wsteps. apply wp_kop.
    case_match; [|by wsteps]. wsteps. apply wp_access; [|done]. intros info _. wsteps.
    assert (∀ ret k', wtp (if ret =? 0 then mret (set_dev_all (Some z) fd, 0)
        else kdo (k_pdev_put z) ;; mret (set_dev_all None fd, ret)) (λ _ _, True) (λ _ _, True) k')
      by (intros; case_match; by wsteps).
    repeat first [apply wp_kop; wsteps; intros _; [|done]; try done|progress wsteps]. }
  eapply wp_mono; [apply Hk|done|done].
Qed.

Lemma ends_commit : ends I (build_info_commit_dev chrdev_major).
Proof.
  unfold build_info_commit_dev. apply ends_bind; [apply ends_binfo_create|intros fd].
  apply ends_bind; [apply ends_register|]. intros [fd' ret]. apply ends_if; [go|].
  apply ends_bind; [go|intros b]. apply ends_bind; [|intros _; by apply ends_upd_b].
  apply ends_if; [by apply ends_modify|]. apply ends_if; [by apply ends_modify|].
  apply ends_bind; [go|intros _]. by apply ends_modify.
Qed.

Lemma ends_afu ofst : 0 <= ofst → ends I (parse_feature_afu mmio NR_IRQS fuel ofst).
Proof.
  intros Ho. unfold parse_feature_afu, parse_feature_port_afu, readq, readq_at.
  apply ends_bind; [go|intros b]. apply ends_if; [go|]. apply ends_if; [|go].
  apply ends_bind; [go|intros b']. apply ends_bind; [go|intros v]. apply ends_create; [done|].
  pose proof (FIELD_GET_range PORT_CAP_MMIO_SIZE v ltac:(fld)) as Hr.
  change (2 ^ f_width PORT_CAP_MMIO_SIZE) with (2 ^ 16) in Hr.
  rewrite Z.shiftl_mul_pow2 by lia. rewrite u32_small; unfold is_u32; lia.
Qed.

Lemma ends_private ofst : 0 <= ofst → ends I (parse_feature_private mmio NR_IRQS fuel ofst).
Proof.
  intros Ho. unfold parse_feature_private, readq, readq_at.
  apply ends_bind; [go|intros b]. apply ends_bind; [go|intros v]. apply ends_if; [go|].
  apply ends_bind; [|intros _; apply ends_create; done || lia].
  apply ends_if; [by apply ends_upd_b|go].
Qed.
End Fixed.

(** The window ends at [end_] and starts at or before [lim]. *)
Definition window_to (end_ lim : Z) s : Prop :=
  ∃ st ln, window_bounds st ln ∧ st + ln = end_ ∧ st <= lim ∧ window_at st ln s.

Lemma ends_prepare st ln s :
  window_bounds st ln →
  wtp (build_info_prepare st ln) (λ _, window_at st ln) (λ _ _, True) s.
Proof.
  intros Hw. unfold build_info_prepare. wsteps. apply wp_ek_kop. intros ok k.
  case_match; [by wsteps|]. wsteps. apply wp_ek_kop. intros [a|] k'; [|by wsteps].
  unfold upd_b. by wsteps.
Qed.

Lemma fiu_ends st ln ofst s :
  window_bounds st ln → window_at st ln s → 0 <= ofst <= ln →
  wtp (parse_feature_fiu mmio NR_IRQS chrdev_major fuel ofst) (λ _, window_to (st + ln) (st + ofst)) (λ _ _, True) s.
Proof.
  intros Hw Hs Ho. unfold parse_feature_fiu, readq, readq_at.
  destruct (id Hw) as (Hst & Hln & Hend).
  wsteps. apply (wp_mono _ (λ _, window_to (st + ln) (st + ofst)) _ (λ _ _, True)); [| |done].
  { destruct (is_feature_dev_detected _); [|wsteps; exists st, ln; auto with lia].
    wsteps. eapply wp_mono; [by apply (ends_complete st ln)| |done]. intros ? s1 Hs1.
    wsteps. eapply wp_mono; [by apply (ends_commit st ln)| |done]. intros ? s2 [Hs2 Hl2].
    wsteps. rewrite Hs2, Hl2, !u64_small by (unfold is_u64; lia).
    eapply wp_mono; [apply ends_prepare; unfold window_bounds; lia| |done].
    intros ? s3 Hs3. exists (st + ofst), (ln - ofst). split; [unfold window_bounds; lia|].
    split; [lia|]. split; [lia|done]. }
  intros ? s1 (st1 & ln1 & Hw1 & <- & Hlim & Hs1).
  apply (wp_mono _ (λ _, window_at st1 ln1) _ (λ _ _, True)); [|intros; by exists st1, ln1|done].
  revert s1 Hs1. change (ends (window_at st1 ln1) (
     b ← gets e_b; v ← access (mmio (bi_ioaddr b + DFH));
     let type := dfh_id_to_type (u16 (FIELD_GET DFH_ID v)) in
     if DFL_ID_MAX <=? type then throw (- EINVAL) else
     upd_b (λ b, set_bi_features [] 0 (set_bi_type type b)) ;;
     create_feature_instance mmio NR_IRQS fuel 0 0 0 ;;
     v ← access (mmio (bi_ioaddr b + NEXT_AFU));
     let offset := u32 (FIELD_GET NEXT_AFU_NEXT_DFH_OFST v) in
     if negb (offset =? 0) then parse_feature_afu mmio NR_IRQS fuel offset else mret tt)).
  apply ends_bind; [apply ends_gets|intros b]. apply ends_bind; [apply ends_access|intros v].
  cbv zeta. apply ends_if; [apply ends_throw|].
  apply ends_bind; [by apply ends_upd_b|intros _].
  apply ends_bind; [apply ends_create; done || lia|intros _].
  apply ends_bind; [apply ends_access|intros v'].
  apply ends_if; [apply ends_afu; [done|apply u32_range]|apply ends_ret].
Qed.

Lemma feature_ends st ln ofst s :
  window_bounds st ln → window_at st ln s → 0 <= ofst <= ln →
  wtp (parse_feature mmio NR_IRQS chrdev_major fuel ofst) (λ _, window_to (st + ln) (st + ofst)) (λ _ _, True) s.
Proof.
  intros Hw Hs Ho. unfold parse_feature, readq, readq_at. wsteps.
  apply wp_access; [|done]. intros v _. cbv zeta.
  assert (∀ m : M est unit, ends (window_at st ln) m → wtp m (λ _, window_to (st + ln) (st + ofst)) (λ _ _, True) s) as Hm.
  { intros m Hm. eapply wp_mono; [by apply Hm| |done]. intros ? s' Hs'. exists st, ln. split; [done|]. split; [done|]. split; [lia|done]. }
  case_match; [apply Hm, ends_afu; done || lia|]. case_match; [apply Hm, ends_private; done || lia|].
  case_match; [by apply fiu_ends|]. apply Hm, ends_ret.
Qed.

Lemma list_loop_ends n start end_ s :
  0 <= start → window_to end_ start s → Z.max 0 (end_ - start) < Z.of_nat n →
  wtp (parse_feature_list_loop mmio NR_IRQS chrdev_major fuel n start end_)
      (λ _ _, True) (λ _ _, True) s.
Proof.
  revert start s. induction n as [|n IH]; intros start s Hst (st & ln & Hw & <- & Hle & Hs) Hn;
    cbn [parse_feature_list_loop];
    (destruct (Z.ltb_spec start (st + ln)); cbn [negb]; [|by wsteps]); [lia|].
  case_match; [by wsteps|]. wsteps. destruct (id Hw) as (? & ? & ?). destruct (id Hs) as [Hs1 Hs2].
  rewrite Hs1. rewrite u64_small by (unfold is_u64; lia).
  eapply wp_mono; [apply (feature_ends st ln); [done..|lia]| |done].
  intros ? s1 Hs'. wsteps. apply wp_readq; [|done]. intros v _.
  pose proof (next_hdr_range v). rewrite u32_small by (unfold is_u32; lia).
  destruct (has_bits DFH_EOL v); cbn [orb]; [by wsteps|].
  destruct (Z.eqb_spec (FIELD_GET DFH_NEXT_HDR_OFST v) 0); [by wsteps|].
  rewrite u64_small by (unfold is_u64; lia).
  apply IH; [lia| |lia].
  destruct Hs' as (st1 & ln1 & Hw1 & He1 & Hl1 & Hs'). exists st1, ln1. split; [done|].
  split; [done|]. split; [lia|done].
Qed.

End WalkEnds.
