(* ===== verification/DflEnumExamples.v ===== *)
(** * Concrete devices

    A kernel whose services succeed, small devices, and what the enumeration
    does on them: the witnesses of the general theorems and the inputs on which
    the code misbehaves. *)
From stdpp Require Import gmap strings.
From S2P Require Import Prelude DflRegs DflTypes DflParam DflEnum DflEnumFacts DflEnumTerm.

(** ** A kernel

    The state is the next handle; [idr_alloc] takes the least id above those in
    use; a region is mapped at its own address. *)
Definition next_id (ids : gset Z) : Z := set_fold Z.max (-1) ids + 1.

Lemma next_id_above ids i : i ∈ ids → i < next_id ids.
Proof.
  unfold next_id.
  apply (set_fold_ind_L (λ r X, i ∈ X → i < r + 1)); [set_solver|].
  intros x X r Hx IH Hi. apply elem_of_union in Hi as [Hi%elem_of_singleton|Hi]; [lia|].
  specialize (IH Hi). lia.
Qed.
Lemma next_id_nonneg ids : 0 <= next_id ids.
Proof.
  unfold next_id. apply (set_fold_ind_L (λ r _, 0 <= r + 1)); [lia|].
  intros x X r _ IH. lia.
Qed.

Definition demo_kernel : Kernel := {|
  kst := Z;
  k_alloc k := (true, k);
  k_request_region _ _ k := (true, k);
  k_release_region _ _ k := k;
  k_ioremap start _ k := (Some start, k);
  k_iounmap _ k := k;
  k_ioremap_resource r k := (inl (r_start r), k);
  k_idr_alloc ids k := (next_id ids, k);
  k_add_action k := (0, k);
  k_pdev_alloc _ _ k := (Some k, k + 1);
  k_pdev_add_resources _ _ k := (0, k);
  k_pdev_add_data _ k := (0, k);
  k_pdev_add _ _ k := (0, k);
  k_pdev_put _ k := k;
  k_pdev_unregister _ k := k;
  k_region_register k := (0, k);
  k_region_unregister k := k;
  k_get_device _ k := k;
  k_put_device _ k := k;
|}.
#[export] Instance demo_kernel_ok : @KernelOk demo_kernel.
Proof.
  constructor. intros ids k. cbn. right. split; [apply next_id_nonneg|].
  intros Hi%next_id_above. lia.
Qed.

(** ** Devices *)

(** The words of [l] by address, other words of [lo, hi) are 0. *)
Fixpoint assoc (l : list (Z * Z)) (a : Z) : option Z :=
  match l with [] => None | (b, v) :: l => if b =? a then Some v else assoc l a end.
Definition device (lo hi : Z) (l : list (Z * Z)) (a : Z) : option Z :=
  if (lo <=? a) && (a <? hi) then Some (default 0 (assoc l a)) else None.

(** A feature header: type, version, end of list, next offset, id. *)
Definition dfh (type ver eol next id : Z) : Z :=
  type * 2 ^ 60 + ver * 2 ^ 52 + eol * 2 ^ 40 + next * 2 ^ 16 + id.

Definition demo_run (mmio : Z → option Z) (info : dfl_fpga_enum_info) : option dfl_fpga_cdev :=
  match @dfl_fpga_feature_devs_enumerate demo_kernel mmio 1024 (λ _, 240) 1000 info
          (@Est demo_kernel 0 (λ _, ∅) (BInfo 0 [] 0 0 0 0 [] 0) (CDev [] [] [] 0)) with
  | Done (Val c, _) => Some c
  | _ => None
  end.

(** A management engine with a thermal feature, and its error feature which uses
    vector 2 of four. *)
Definition fme_device : Z → option Z := device 0x1000 0x3000
  [(0x1000, dfh DFH_TYPE_FIU 0 0 0x1000 DFH_ID_FIU_FME);
   (0x2000, dfh DFH_TYPE_PRIVATE 0 0 0x800 FME_FEATURE_ID_THERMAL_MGMT);
   (0x2800, dfh DFH_TYPE_PRIVATE 0 1 0x800 FME_FEATURE_ID_GLOBAL_ERR);
   (0x2870, 2 * 2 + 1)].
Definition fme_info : dfl_fpga_enum_info := EnumInfo true [(0x1000, 0x2000)] 4 (Some [50; 51; 52; 53]).

Example fme_device_features :
  (λ c, (λ fd, (fd_pdev_name fd, (λ f, (f_id f, f_resource_index f, ic_irq <$> f_irq_ctx f))
                                    <$> fd_features fd, take 2 (fd_resources fd))) <$> cd_fmes c)
    <$> demo_run fme_device fme_info
  = Some [("dfl-fme"%string, [(0xfe, -1, []); (1, 0, []); (4, 1, [52])],
           [Res 0x2000 0x27ff; Res 0x2800 0x2fff])].
Proof. vm_compute. reflexivity. Qed.

(** ** Inputs the code does not handle *)

(** Two lists, each of one version 1 private feature. *)
Definition v1_feature (base id : Z) : list (Z * Z) :=
  [(base, dfh DFH_TYPE_PRIVATE 1 1 0 id); (base + DFHv1_CSR_SIZE_GRP, 0x100 * 2 ^ 32)].
Definition two_lists : Z → option Z := device 0x1000 0x3000 (v1_feature 0x1000 0x20 ++ v1_feature 0x2000 0x21).
Definition two_lists_info : dfl_fpga_enum_info := EnumInfo true [(0x1000, 0x1000); (0x2000, 0x1000)] 0 None.

(** The number of features is not reset when a feature device is committed,
    so where a list without FIU follows another one the device that is created
    for it has extra features nothing was written to: here the second list has
    one feature, and its device has two, the second all zero. *)
Lemma stale_feature_num :
  ∃ c fd f,
    demo_run two_lists two_lists_info = Some c ∧ cd_priv_feat_dev_list c !! 0%nat = Some fd ∧
    fd_num fd = 2 ∧ f_id <$> fd_features fd !! 0%nat = Some 0x21 ∧
    fd_features fd !! 1%nat = Some f ∧ f = set_f_dev (fd_dev fd) zero_feature.
Proof. do 3 eexists. split; [vm_compute; reflexivity|]. by repeat split. Qed.

(** A port whose [NEXT_AFU] register leads out of the region of 4 KiB. *)
Definition far_afu : Z → option Z := device 0x1000 0x2000
  [(0x1000, dfh DFH_TYPE_FIU 0 1 0x1000 DFH_ID_FIU_PORT);
   (0x1000 + NEXT_AFU, 0x800000);
   (0x1000 + PORT_HDR_CAP, 256 * 2 ^ 8)].
Definition far_afu_info : dfl_fpga_enum_info := EnumInfo true [(0x1000, 0x1000)] 0 None.

(** The offset of a port's AFU is not compared with the length of the region
    (their difference wraps): an AFU 8 MiB behind the start of a 4 KiB region is
    accepted, with a register block outside the region. *)
Lemma afu_outside_region :
  ∃ c fd f,
    demo_run far_afu far_afu_info = Some c ∧ cd_port_dev_list c !! 0%nat = Some fd ∧
    fd_features fd !! 1%nat = Some f ∧ f_id f = FEATURE_ID_AFU ∧
    fd_resources fd !! Z.to_nat (f_resource_index f) = Some (Res 0x801000 0x840fff).
Proof. do 3 eexists. split; [vm_compute; reflexivity|]. by repeat split. Qed.

(** A version 1 feature that claims vector 2^32 - 1, and one whose MSI-X block
    has no data word. *)
Definition msix_header (next : Z) : Z := next * 2 ^ 35 + 2 ^ 32 + DFHv1_PARAM_ID_MSI_X.
Definition wrapping_msix : dfl_feature_info :=
  FInfo 0x20 0 1 guid_null (Res 0 0) 0 0 16 [msix_header 2; 1 * 2 ^ 32 + (2 ^ 32 - 1)].
Definition short_msix : dfl_feature_info :=
  FInfo 0x20 0 1 guid_null (Res 0 0) 0 0 8 [msix_header 1].

(** The sum of the first vector and the number of vectors of a version 1
    feature wraps before it is compared with the size of the interrupt table:
    with vector 2^32 - 1 the entry that is read is far behind any table of less
    than 2^32 - 1 entries. *)
Lemma irq_vector_sum_wraps `{Kernel} mmio NR_IRQS ofst s :
  Z.of_nat (length (bi_irq_table (e_b s))) < 2 ^ 32 - 1 → 0 <= bi_nr_irqs (e_b s) →
  parse_feature_irqs mmio NR_IRQS ofst wrapping_msix s = Fault.
Proof.
  intros Hlen Hnr. unfold parse_feature_irqs.
  cbv [mbind M_bind gets].
  change (feature_irq_vectors mmio (bi_ioaddr (e_b s) + ofst) (bi_type (e_b s)) wrapping_msix s)
    with (Done (Val (2 ^ 32 - 1, 1) : outcome (Z * Z), s)).
  cbv beta iota. change (1 =? 0) with false. change (u32 (2 ^ 32 - 1 + 1)) with 0.
  destruct (Z.ltb_spec (bi_nr_irqs (e_b s)) 0); [lia|]. cbv iota.
  change (Z.to_nat 1) with 1%nat. cbn [check_irq_entries].
  change (u32 (2 ^ 32 - 1 + 0)) with (2 ^ 32 - 1).
  rewrite lookup_ge_None_2 by lia. done.
Qed.

(** The data word of an MSI-X parameter is read without checking that the
    parameter has one: if the last parameter is an MSI-X header alone, the read
    is behind the copied parameters. *)
Lemma msix_without_data `{Kernel} mmio NR_IRQS ofst s :
  parse_feature_irqs mmio NR_IRQS ofst short_msix s = Fault.
Proof. reflexivity. Qed.

(** An interface feature without a next offset behind a feature. *)
Definition stuck_interface : Z → option Z := device 0 0x1000 [(0x100, dfh DFH_TYPE_INTERFACE 0 0 0 0)].

(** The size of a feature that is followed by an interface feature with a
    zero next offset (and without the end-of-list bit) is never found: the loop
    reads the same header for ever. *)
Lemma feature_size_may_not_return {St} (s : St) :
  ∃ mmio value, ∀ fuel, feature_size mmio fuel 0 0x1000 value s = NoFuel.
Proof.
  exists stuck_interface, (dfh DFH_TYPE_PRIVATE 0 0 0x100 1). intros fuel.
  change (feature_size_loop stuck_interface fuel 0 0x1000 0x100 s = NoFuel).
  induction fuel as [|fuel IH]; [done|]. exact IH.
Qed.

(** ** The general theorems on these devices *)

Lemma device_words lo hi l a v : device lo hi l a = Some v → v = 0 ∨ (a, v) ∈ l.
Proof.
  unfold device. destruct (_ && _); [|done]. intros [= <-].
  induction l as [|[b w] l IH]; cbn [assoc]; [by left|].
  destruct (Z.eqb_spec b a) as [->|]; [right; by left|]. destruct IH; [by left|right; by right].
Qed.

(** A version 1 feature with two parameters: the first of three words, the last,
    an MSI-X block, of two. *)
Definition v1_device : Z → option Z := device 0x1000 0x2000
  [(0x1000, dfh DFH_TYPE_PRIVATE 1 1 0 0x20);
   (0x1000 + DFHv1_CSR_SIZE_GRP, 0x100 * 2 ^ 32 + 2 ^ 31);
   (0x1000 + DFHv1_PARAM_HDR, 3 * 2 ^ 35 + 7);
   (0x1000 + DFHv1_PARAM_HDR + 24, 2 * 2 ^ 35 + 2 ^ 32 + 9)].
Definition v1_info : dfl_fpga_enum_info := EnumInfo true [(0x1000, 0x1000)] 0 None.
Definition v1_params : list Z :=
  match copy_params 10 v1_device 0x1000 0x1000 tt with Done (Val (l, _), _) => l | _ => [] end.

Lemma v1_params_small : params_small_at v1_device 0x1000.
Proof.
  assert (∀ ofst, param_at v1_device 0x1000 ofst → ofst = 0 ∨ ofst = 24) as Hat.
  { induction 1 as [|ofst v Hat IH Hv Hn He]; [by left|]. destruct IH as [->| ->].
    - injection Hv as <-. right. vm_compute. done.
    - injection Hv as <-. vm_compute in He. done. }
  intros ofst v [->| ->]%Hat Hv; injection Hv as <-; vm_compute; discriminate.
Qed.

Lemma dfh_find_param_in_copy_witness :
  wp (dfh_find_param v1_params 40 9)
     (λ '(idx, psize) s', s' = tt ∧ 0 < idx ∧ 0 <= psize ∧ 8 * idx + psize <= 40)
     (λ e s', s' = tt ∧ e = - ENOENT) tt ∧
  dfh_find_param v1_params 40 9 tt = Done (Val (4, 8), tt).
Proof.
  split; [|vm_compute; reflexivity].
  apply (dfh_find_param_in_copy 10 v1_device 0x1000 0x1000).
  - vm_compute; discriminate.
  - apply v1_params_small.
  - vm_compute. reflexivity.
Defined.

Definition fme_state : @est demo_kernel :=
  @Est demo_kernel 0 (λ _, ∅) (BInfo 4 [50; 51; 52; 53] 0 0x1000 0x1000 0x2000 [] 0) (CDev [] [] [] 0).

Lemma create_feature_instance_inside_witness :
  wlp (@create_feature_instance demo_kernel fme_device 1024 100 0x1800 0 0)
      (λ _ s', e_ids s' = e_ids fme_state ∧ e_c s' = e_c fme_state ∧
         adds_feature fme_device 1024 (λ res ver, inside (e_b fme_state) res ∨
                                       (ver = 1 ∧ absolute_csr fme_device (e_b fme_state) 0x1800))
           (e_b fme_state) (e_b s'))
      (λ _ s', e_ids s' = e_ids fme_state ∧ e_c s' = e_c fme_state ∧ e_b s' = e_b fme_state) fme_state.
Proof.
  apply (@create_feature_instance_inside demo_kernel).
  - unfold window_ok. cbn. lia.
  - cbn. lia.
  - unfold is_u32. lia.
  - by left.
  - discriminate.
Defined.

Definition empty_state : @est demo_kernel :=
  @Est demo_kernel 0 (λ _, ∅) (BInfo 0 [] 0 0 0 0 [] 0) (CDev [] [] [] 0).
Abbreviation fme_run :=
  (@dfl_fpga_feature_devs_enumerate demo_kernel fme_device 1024 (λ _, 240) 1000 fme_info).
Lemma fme_run_returns :
  match fme_run empty_state with Done (Val _, _) => true | _ => false end = true.
Proof. vm_compute. reflexivity. Qed.
Lemma fme_run_value : ∃ c s, fme_run empty_state = Done (Val c, s).
Proof.
  pose proof fme_run_returns as Hr. revert Hr. generalize (fme_run empty_state).
  intros [[[c|e] s]| |] Hr; try discriminate Hr. by exists c, s.
Qed.

Lemma enumerate_well_formed_witness : ∃ c s, fme_run empty_state = Done (Val c, s) ∧ cdev_ok fme_device 1024 c.
Proof.
  destruct fme_run_value as (c & s & Hr). exists c, s. split; [exact Hr|].
  exact (@wp_elim _ True True _ fme_run (λ c _, cdev_ok fme_device 1024 c) (λ _ _, True) empty_state c s
    (@enumerate_well_formed demo_kernel fme_device 1024 (λ _, 240) 1000 fme_info empty_state) Hr).
Defined.

Lemma irq_vector_sum_wraps_witness :
  @parse_feature_irqs demo_kernel fme_device 1024 0x1000 wrapping_msix fme_state = Fault.
Proof. apply (@irq_vector_sum_wraps demo_kernel); cbn; lia. Defined.

Definition v1_state : @est demo_kernel :=
  @Est demo_kernel 0 (λ _, ∅) (BInfo 0 [] 2 0 0 0 [] 0) (CDev [] [] [] 0).
Definition much_fuel : nat := Z.to_nat (2 ^ 31).
Lemma much_fuel_value : Z.of_nat much_fuel = 2 ^ 31.
Proof. unfold much_fuel. rewrite Z2Nat.id; lia. Qed.
#[global] Opaque much_fuel.

