(* ===== verification/DflPorts.v ===== *)
(** * Ports of a container (drivers/fpga/dfl.c, dfl.h)

    The use count of a feature device, the global list of port operations, the
    search of a port by its id, releasing a port to a virtual function and
    assigning it back, and the access mode registers of the ports.  Each
    operation runs under the container's mutex in the code, so one operation is
    one step of the state here. *)
From stdpp Require Import gmap strings.
From S2P Require Import Prelude DflRegs DflTypes DflEnum.

(** ** Use count of a feature device *)

(* drivers/fpga/dfl.h:362-377 dfl_feature_dev_use_begin *)
Definition dfl_feature_dev_use_begin (excl : bool) (fd : dfl_feature_dev_data) : dfl_feature_dev_data * Z :=
  if fd_excl_open fd then (fd, - EBUSY)
  else if excl then
    if negb (fd_open_count fd =? 0) then (fd, - EBUSY)
    else (set_fd_open_count (fd_open_count fd + 1) (set_fd_excl_open true fd), 0)
  else (set_fd_open_count (fd_open_count fd + 1) fd, 0).

(* drivers/fpga/dfl.h:380-388 dfl_feature_dev_use_end *)
Definition dfl_feature_dev_use_end (fd : dfl_feature_dev_data) : dfl_feature_dev_data :=
  let fd := set_fd_excl_open false fd in
  if fd_open_count fd <=? 0 then fd
  else set_fd_open_count (fd_open_count fd - 1) fd.

(* drivers/fpga/dfl.h:391-394 dfl_feature_dev_use_count *)
Definition dfl_feature_dev_use_count (fd : dfl_feature_dev_data) : Z := fd_open_count fd.

(** ** Features of a device *)

(* drivers/fpga/dfl.h:444-454 dfl_get_feature_by_id *)
Fixpoint feature_by_id (l : list dfl_feature) (id : Z) : option dfl_feature :=
  match l with
  | [] => None
  | f :: l => if f_id f =? id then Some f else feature_by_id l id
  end.
Definition dfl_get_feature_by_id (fd : dfl_feature_dev_data) (id : Z) : option dfl_feature :=
  feature_by_id (fd_features fd) id.

(* drivers/fpga/dfl.h:456-466 dfl_get_feature_ioaddr_by_id *)
Definition dfl_get_feature_ioaddr_by_id (fd : dfl_feature_dev_data) (id : Z) : option Z :=
  match dfl_get_feature_by_id fd id with
  | Some feature => f_ioaddr feature
  | None => None
  end.

(** ** Port operations

    A port driver that can read the port id from hardware has a [get_id]. *)
(* drivers/fpga/dfl.h:223-229 dfl_fpga_port_ops *)
Record dfl_fpga_port_ops := PortOps {
  po_name : string;
  po_owner : option Z;
  po_get_id : option (dfl_feature_dev_data → Z);
}.

Section Ports.
  Context `{Kernel}.
  (** whether a module can still be referenced, and the chardev majors *)
  Context (module_live : Z → bool) (chrdev_major : Z → Z).

(** [p_refs] counts the references this code holds on each module, [p_regs] are
    the 64-bit registers by address. *)
Record pst := PSt {
  p_k : kst;
  p_c : dfl_fpga_cdev;
  p_ops : list dfl_fpga_port_ops;
  p_refs : Z → Z;
  p_regs : Z → Z;
}.
Definition set_p_k (k : kst) (s : pst) : pst := PSt k (p_c s) (p_ops s) (p_refs s) (p_regs s).
Definition set_p_c (c : dfl_fpga_cdev) (s : pst) : pst := PSt (p_k s) c (p_ops s) (p_refs s) (p_regs s).
Definition set_p_ops (o : list dfl_fpga_port_ops) (s : pst) : pst := PSt (p_k s) (p_c s) o (p_refs s) (p_regs s).
Definition set_p_refs (r : Z → Z) (s : pst) : pst := PSt (p_k s) (p_c s) (p_ops s) r (p_regs s).
Definition set_p_regs (r : Z → Z) (s : pst) : pst := PSt (p_k s) (p_c s) (p_ops s) (p_refs s) r.
Definition pk {A} (m : M kst A) : M pst A := zoom p_k set_p_k m.

(** [try_module_get] and [module_put]; built-in code has no module. *)
Definition try_module_get (owner : option Z) : M pst bool :=
  match owner with
  | None => mret true
  | Some m => if module_live m
              then modify (λ s, set_p_refs (λ x, if x =? m then p_refs s x + 1 else p_refs s x) s) ;; mret true
              else mret false
  end.
Definition module_put (m : Z) : M pst unit :=
  modify (λ s, set_p_refs (λ x, if x =? m then p_refs s x - 1 else p_refs s x) s).

(* drivers/fpga/dfl.c:164-175 dfl_fpga_port_ops_get *)
Fixpoint port_ops_search (l : list dfl_fpga_port_ops) (fd : dfl_feature_dev_data)
    : M pst (option dfl_fpga_port_ops) :=
  match l with
  | [] => mret None
  | ops :: l =>
      if String.eqb (fd_pdev_name fd) (po_name ops) then
        ok ← try_module_get (po_owner ops);
        mret (if (ok : bool) then Some ops else None)
      else port_ops_search l fd
  end.
(* drivers/fpga/dfl.c:160-181 dfl_fpga_port_ops_get *)
Definition dfl_fpga_port_ops_get (fd : dfl_feature_dev_data) : M pst (option dfl_fpga_port_ops) :=
  l ← gets p_ops;
  port_ops_search l fd.

(* drivers/fpga/dfl.c:188-192 dfl_fpga_port_ops_put *)
Definition dfl_fpga_port_ops_put (ops : option dfl_fpga_port_ops) : M pst unit :=
  match ops with
  | Some ops => match po_owner ops with Some m => module_put m | None => mret tt end
  | None => mret tt
  end.

(* drivers/fpga/dfl.c:199-204 dfl_fpga_port_ops_add *)
Definition dfl_fpga_port_ops_add (ops : dfl_fpga_port_ops) : M pst unit :=
  modify (λ s, set_p_ops (p_ops s ++ [ops]) s).

(** The entry that is linked at position [i]. *)
(* drivers/fpga/dfl.c:211-216 dfl_fpga_port_ops_del *)
Definition dfl_fpga_port_ops_del (i : nat) : M pst unit :=
  modify (λ s, set_p_ops (take i (p_ops s) ++ drop (i + 1) (p_ops s)) s).

(** The result is the truth of the match and the data, whose id may have been
    read from hardware. *)
(* drivers/fpga/dfl.c:226-241 dfl_fpga_check_port_id *)
Definition dfl_fpga_check_port_id (port_id : Z) (fd : dfl_feature_dev_data)
    : M pst (bool * dfl_feature_dev_data) :=
  if negb (fd_id fd =? FEATURE_DEV_ID_UNUSED) then mret (fd_id fd =? port_id, fd)
  else
    port_ops ← dfl_fpga_port_ops_get fd;
    match port_ops with
    | None => mret (false, fd)
    | Some ops =>
        match po_get_id ops with
        | None => mret (false, fd)
        | Some get_id =>
            let fd := set_fd_id (get_id fd) fd in
            dfl_fpga_port_ops_put (Some ops) ;;
            mret (fd_id fd =? port_id, fd)
        end
    end.

(** ** Search, release and assignment

    The search returns the position of the first match and the list, in which
    the data that were tested may have been updated. *)
(* drivers/fpga/dfl.c:1843-1855 __dfl_fpga_cdev_find_port_data *)
Fixpoint find_port_data (l : list dfl_feature_dev_data)
    (match_ : dfl_feature_dev_data → M pst (bool * dfl_feature_dev_data))
    : M pst (option nat * list dfl_feature_dev_data) :=
  match l with
  | [] => mret (None, [])
  | fd :: l =>
      r ← match_ fd;
      let '(found, fd) := (r : bool * dfl_feature_dev_data) in
      if found then mret (Some 0%nat, fd :: l)
      else
        r ← find_port_data l match_;
        let '(pos, l) := (r : option nat * list dfl_feature_dev_data) in
        mret (S <$> pos, fd :: l)
  end.

Definition set_ports (l : list dfl_feature_dev_data) (c : dfl_fpga_cdev) : dfl_fpga_cdev :=
  CDev (cd_fmes c) l (cd_priv_feat_dev_list c) (cd_released_port_num c).
Definition set_released (n : Z) (c : dfl_fpga_cdev) : dfl_fpga_cdev :=
  CDev (cd_fmes c) (cd_port_dev_list c) (cd_priv_feat_dev_list c) n.
Definition upd_c (f : dfl_fpga_cdev → dfl_fpga_cdev) : M pst unit := modify (λ s, set_p_c (f (p_c s)) s).
(** Write back the port at position [i]. *)
Definition set_port (i : nat) (fd : dfl_feature_dev_data) : M pst unit :=
  upd_c (λ c, set_ports (<[i := fd]> (cd_port_dev_list c)) c).

(* drivers/fpga/dfl.h:602-613 dfl_fpga_cdev_find_port_data *)
Definition dfl_fpga_cdev_find_port_data
    (match_ : dfl_feature_dev_data → M pst (bool * dfl_feature_dev_data)) : M pst (option nat) :=
  c ← gets p_c;
  r ← find_port_data (cd_port_dev_list c) match_;
  let '(pos, l) := (r : option nat * list dfl_feature_dev_data) in
  upd_c (set_ports l) ;;
  mret pos.

(* drivers/fpga/dfl.c:1888-1915 dfl_fpga_cdev_release_port *)
Definition dfl_fpga_cdev_release_port (port_id : Z) : M pst unit :=
  pos ← dfl_fpga_cdev_find_port_data (dfl_fpga_check_port_id port_id);
  match pos with
  | None => throw (- ENODEV)
  | Some i =>
      c ← gets p_c;
      fd ← access (cd_port_dev_list c !! i);
      if bool_decide (fd_dev fd = None) then throw (- EBUSY) else
      let '(fd, ret) := dfl_feature_dev_use_begin true fd in
      set_port i fd ;;
      rc ret ;;
      fd ← pk (feature_dev_unregister fd);
      set_port i fd ;;
      upd_c (λ c, set_released (cd_released_port_num c + 1) c)
  end.

(* drivers/fpga/dfl.c:1929-1957 dfl_fpga_cdev_assign_port *)
Definition dfl_fpga_cdev_assign_port (port_id : Z) : M pst unit :=
  pos ← dfl_fpga_cdev_find_port_data (dfl_fpga_check_port_id port_id);
  match pos with
  | None => throw (- ENODEV)
  | Some i =>
      c ← gets p_c;
      fd ← access (cd_port_dev_list c !! i);
      if negb (bool_decide (fd_dev fd = None)) then throw (- EBUSY) else
      r ← pk (feature_dev_register chrdev_major fd);
      let '(fd, ret) := (r : dfl_feature_dev_data * Z) in
      set_port i fd ;;
      rc ret ;;
      set_port i (dfl_feature_dev_use_end fd) ;;
      upd_c (λ c, set_released (cd_released_port_num c - 1) c)
  end.

(** ** Access mode of the ports *)

(* drivers/fpga/dfl.c:1960-1976 config_port_access_mode *)
Definition config_port_access_mode (port_id : Z) (is_vf : bool) : M pst unit :=
  c ← gets p_c;
  match cd_fmes c with
  | [] => fault
  | fme :: _ =>
      match dfl_get_feature_ioaddr_by_id fme FME_FEATURE_ID_HEADER with
      | None => fault
      | Some base =>
          v ← gets (λ s, p_regs s (base + FME_HDR_PORT_OFST port_id));
          let v := clear_field FME_PORT_OFST_ACC_CTRL v in
          let v := Z.lor v (FIELD_PREP FME_PORT_OFST_ACC_CTRL
                              (if is_vf then FME_PORT_OFST_ACC_VF else FME_PORT_OFST_ACC_PF)) in
          modify (λ s, set_p_regs (λ a, if a =? base + FME_HDR_PORT_OFST port_id then v else p_regs s a) s)
      end
  end.

(** The released ports of a list, in its order. *)
Definition is_released (fd : dfl_feature_dev_data) : bool := bool_decide (fd_dev fd = None).

(* drivers/fpga/dfl.c:1989-2001 dfl_fpga_cdev_config_ports_pf *)
Definition dfl_fpga_cdev_config_ports_pf : M pst unit :=
  c ← gets p_c;
  for_each (cd_port_dev_list c) (λ fd,
    if negb (is_released fd) then mret tt
    else config_port_access_mode (fd_id fd) false).

(* drivers/fpga/dfl.c:2024-2028 dfl_fpga_cdev_config_ports_vf *)
Fixpoint count_released (l : list dfl_feature_dev_data) : Z :=
  match l with
  | [] => 0
  | fd :: l => if negb (is_released fd) then count_released l else count_released l + 1
  end.

(* drivers/fpga/dfl.c:2015-2049 dfl_fpga_cdev_config_ports_vf *)
Definition dfl_fpga_cdev_config_ports_vf (num_vfs : Z) : M pst unit :=
  c ← gets p_c;
  match cd_port_dev_list c with
  | [] => mret tt
  | _ =>
      let port_count := count_released (cd_port_dev_list c) in
      if negb (port_count =? 0) && negb (cd_released_port_num c =? num_vfs) then throw (- EINVAL)
      else
        for_each (cd_port_dev_list c) (λ fd,
          if negb (is_released fd) then mret tt
          else config_port_access_mode (fd_id fd) true)
  end.
End Ports.
