(* ===== verification/DflPortsFacts.v ===== *)
(** * Properties of the ports of a container

    The invariant that ties the number of released ports, the use counts and the
    platform devices together, its preservation by every sequence of operations,
    the round trip of release and assignment, the access mode registers, and the
    module references that a search takes and drops. *)
From stdpp Require Import gmap strings.
From S2P Require Import Prelude DflRegs DflTypes DflEnum DflEnumFacts DflPorts.

Section PortFacts.
Context `{Kernel} (module_live : Z → bool) (chrdev_major : Z → Z).
Implicit Types (s : pst) (fd : dfl_feature_dev_data) (l : list dfl_feature_dev_data).

(** A port has a device or is released; a released port is held exclusively by
    the release and its id is known; the exclusive user of a port is alone. *)
Definition port_ok fd : Prop :=
  0 <= fd_type fd < DFL_ID_MAX ∧ 0 <= fd_open_count fd ∧
  (fd_excl_open fd = true → fd_open_count fd = 1) ∧
  (fd_id fd = FEATURE_DEV_ID_UNUSED ∨ 0 <= fd_id fd < MAX_DFL_FPGA_PORT_NUM) ∧
  (fd_dev fd = None → fd_excl_open fd = true ∧ fd_id fd ≠ FEATURE_DEV_ID_UNUSED) ∧
  Forall (λ f, f_dev f = fd_dev fd) (fd_features fd).

(** Port operations read ids that a port can have. *)
Definition ops_ok (o : dfl_fpga_port_ops) : Prop :=
  ∀ g fd, po_get_id o = Some g → 0 <= g fd < MAX_DFL_FPGA_PORT_NUM.

Definition ports_inv s : Prop :=
  cd_released_port_num (p_c s) = count_released (cd_port_dev_list (p_c s)) ∧
  Forall port_ok (cd_port_dev_list (p_c s)) ∧ Forall ops_ok (p_ops s).

(** What a search leaves of a port: everything but the id. *)
Definition same_but_id fd fd' : Prop := ∃ i, fd' = set_fd_id i fd.
#[global] Instance same_but_id_refl : Reflexive same_but_id.
Proof. intros fd. exists (fd_id fd). by destruct fd. Qed.

(** States that differ in module references only. *)
Definition same_but_refs s s' : Prop := ∃ r, s' = set_p_refs r s.
#[global] Instance same_but_refs_preorder : PreOrder same_but_refs.
Proof.
  split.
  - intros s. exists (p_refs s). by destruct s.
  - intros s1 s2 s3 [r ->] [r' ->]. by exists r'.
Qed.

Lemma same_but_refs_ops s s' : same_but_refs s s' → p_ops s' = p_ops s.
Proof. by intros [r ->]. Qed.

Lemma port_ops_search_spec lo fd s :
  wp (port_ops_search module_live lo fd)
     (λ r s', same_but_refs s s' ∧ match r with Some o => o ∈ lo | None => True end)
     (λ _ _, False) s.
Proof.
  induction lo as [|o lo IH]; cbn [port_ops_search]; [by wsteps|].
  case_match.
  - unfold try_module_get. wsteps. destruct (po_owner o) as [m|].
    + destruct (module_live m); wsteps.
      * split; [by eexists|left].
      * done.
    + wsteps. split; [done|left].
  - eapply wp_mono; [exact IH| |done]. intros [r|] s' [? ?]; split; try done. by right.
Qed.

Lemma dfl_fpga_port_ops_put_spec o s :
  wp (dfl_fpga_port_ops_put o) (λ _ s', same_but_refs s s') (λ _ _, False) s.
Proof.
  unfold dfl_fpga_port_ops_put, module_put. repeat case_match; wsteps; try done. by eexists.
Qed.

(** A test of a port may read the id of a port whose id is not known. *)
Lemma check_port_id_spec port_id fd s :
  Forall ops_ok (p_ops s) → port_ok fd →
  wp (dfl_fpga_check_port_id module_live port_id fd)
     (λ '(found, fd') s', same_but_refs s s' ∧ same_but_id fd fd' ∧ port_ok fd' ∧
        (found = true → fd_id fd' = port_id ∧ port_id ≠ FEATURE_DEV_ID_UNUSED))
     (λ _ _, False) s.
Proof.
  intros Ho Hfd. unfold dfl_fpga_check_port_id.
  destruct (Z.eqb_spec (fd_id fd) FEATURE_DEV_ID_UNUSED) as [Hu|Hu]; cbn [negb].
  2: { wsteps. split; [done|]. split; [done|]. split; [done|]. intros Hf%Z.eqb_eq. by subst. }
  unfold dfl_fpga_port_ops_get. wsteps.
  eapply wp_mono; [apply port_ops_search_spec| |done].
  intros [o|] s' [Hs Hin]; [|by wsteps].
  destruct (po_get_id o) as [g|] eqn:Hg; [|by wsteps].
  wsteps. eapply wp_mono; [apply dfl_fpga_port_ops_put_spec| |done].
  intros ? s'' Hs'. wsteps. split; [by etrans|]. split; [by eexists|].
  assert (0 <= g fd < MAX_DFL_FPGA_PORT_NUM) as Hr.
  { rewrite Forall_forall in Ho. by apply (Ho o (proj1 (list_elem_of_In _ _) Hin)). }
  destruct Hfd as (? & ? & ? & ? & Hrel & ?). split.
  - repeat (split; [done|]). split; [by right|]. split; [|done].
    intros Hd. cbn in Hd. by destruct (Hrel Hd).
  - cbn. intros Heq%Z.eqb_eq. subst port_id. split; [done|]. unfold FEATURE_DEV_ID_UNUSED. lia.
Qed.

(** A search finds a port with the id, and changes nothing but ids. *)
Lemma find_port_data_spec port_id l s :
  Forall ops_ok (p_ops s) → Forall port_ok l →
  wp (find_port_data l (dfl_fpga_check_port_id module_live port_id))
     (λ '(pos, l') s', same_but_refs s s' ∧ Forall2 same_but_id l l' ∧ Forall port_ok l' ∧
        match pos with
        | Some i => ∃ fd, l' !! i = Some fd ∧ fd_id fd = port_id ∧ port_id ≠ FEATURE_DEV_ID_UNUSED
        | None => True
        end)
     (λ _ _, False) s.
Proof.
  revert s. induction l as [|fd l IH]; intros s Ho Hl; cbn [find_port_data]; [by wsteps|].
  inversion Hl as [|? ? Hfd Hl']; subst. wsteps.
  eapply wp_mono; [by apply check_port_id_spec| |done].
  intros [found fd'] s' (Hs & Hid & Hok & Hfound). destruct found.
  - wsteps. split; [done|]. split. { constructor; [done|]. clear. induction l; by constructor. }
    split; [by constructor|]. exists fd'. split; [done|]. auto.
  - wsteps. eapply wp_mono; [apply IH; [by rewrite (same_but_refs_ops _ _ Hs)|done]| |done].
    intros [pos l'] s'' (Hs' & Hids & Hoks & Hpos). wsteps.
    split; [by etrans|]. split; [by constructor|]. split; [by constructor|].
    by destruct pos as [i|].
Qed.

Lemma count_released_ids l l' : Forall2 same_but_id l l' → count_released l' = count_released l.
Proof. induction 1 as [|fd fd' l l' [i ->] _ IH]; cbn [count_released]; [done|]. by rewrite IH. Qed.

(** The search inside the container. *)
Lemma cdev_find_spec port_id s :
  ports_inv s →
  wp (dfl_fpga_cdev_find_port_data (dfl_fpga_check_port_id module_live port_id))
     (λ pos s', ports_inv s' ∧ p_ops s' = p_ops s ∧ p_regs s' = p_regs s ∧ p_k s' = p_k s ∧
        cd_fmes (p_c s') = cd_fmes (p_c s) ∧
        cd_released_port_num (p_c s') = cd_released_port_num (p_c s) ∧
        Forall2 same_but_id (cd_port_dev_list (p_c s)) (cd_port_dev_list (p_c s')) ∧
        match pos with
        | Some i => ∃ fd, cd_port_dev_list (p_c s') !! i = Some fd ∧ fd_id fd = port_id ∧
                      port_id ≠ FEATURE_DEV_ID_UNUSED
        | None => True
        end)
     (λ _ _, False) s.
Proof.
  intros (Hn & Hl & Ho). unfold dfl_fpga_cdev_find_port_data, upd_c. wsteps.
  eapply wp_mono; [by apply find_port_data_spec| |done].
  intros [pos l'] s' ([r ->] & Hids & Hoks & Hpos). wsteps.
  split; [|done]. split; [|done]. cbn. by rewrite (count_released_ids _ _ Hids).
Qed.

(** *** Effect of the use count and of the device on [port_ok] *)
Ltac port_crush :=
  unfold port_ok; cbn -[Z.lt Z.le Z.add Z.sub DFL_ID_MAX MAX_DFL_FPGA_PORT_NUM FEATURE_DEV_ID_UNUSED];
  repeat match goal with
  | H : fd_dev _ = _ |- context [fd_dev _] => rewrite H
  | H : fd_excl_open _ = _ |- context [fd_excl_open _] => rewrite H
  end;
  split_and!;
  try solve [ assumption | lia | congruence | intros; first [lia | congruence] | tauto
            | apply Forall_fmap, Forall_true; reflexivity
            | match goal with H : fd_dev _ = _, H' : Forall _ _ |- _ => rewrite H in H'; exact H' end ].

Lemma use_begin_excl fd :
  dfl_feature_dev_use_begin true fd =
    if fd_excl_open fd || negb (fd_open_count fd =? 0) then (fd, - EBUSY)
    else (set_fd_open_count (fd_open_count fd + 1) (set_fd_excl_open true fd), 0).
Proof. unfold dfl_feature_dev_use_begin. by destruct (fd_excl_open fd), (fd_open_count fd =? 0). Qed.

Lemma port_ok_released fd :
  port_ok fd → fd_open_count fd = 0 → fd_id fd ≠ FEATURE_DEV_ID_UNUSED →
  port_ok (set_dev_all None (set_fd_open_count (fd_open_count fd + 1) (set_fd_excl_open true fd))).
Proof. intros (? & ? & ? & ? & ? & ?) Ho Hid. port_crush. Qed.

Lemma port_ok_registered d fd :
  port_ok fd → port_ok (dfl_feature_dev_use_end (set_dev_all (Some d) fd)).
Proof.
  intros (? & ? & ? & ? & ? & ?). unfold dfl_feature_dev_use_end. cbn.
  destruct (Z.leb_spec (fd_open_count fd) 0); port_crush.
Qed.

Lemma port_ok_still_released fd : port_ok fd → fd_dev fd = None → port_ok (set_dev_all None fd).
Proof. intros (? & ? & ? & ? & Hr & ?) Hd. destruct (Hr Hd). port_crush. Qed.

Lemma port_ok_use_begin excl fd : port_ok fd → is_Some (fd_dev fd) → port_ok (dfl_feature_dev_use_begin excl fd).1.
Proof.
  intros (? & ? & He & ? & Hr & ?) [d Hd]. unfold dfl_feature_dev_use_begin.
  destruct (fd_excl_open fd) eqn:Hx; [|destruct excl, (Z.eqb_spec (fd_open_count fd) 0)];
    cbn [negb fst]; port_crush.
Qed.

Lemma port_ok_use_end fd : port_ok fd → is_Some (fd_dev fd) → port_ok (dfl_feature_dev_use_end fd).
Proof.
  intros (? & ? & He & ? & Hr & ?) [d Hd]. unfold dfl_feature_dev_use_end. cbn.
  destruct (Z.leb_spec (fd_open_count fd) 0); port_crush.
Qed.

Lemma count_released_insert l i fd fd' :
  l !! i = Some fd →
  count_released (<[i := fd']> l) =
    count_released l + Z.b2z (is_released fd') - Z.b2z (is_released fd).
Proof.
  revert i. induction l as [|x l IH]; intros i Hi; [done|].
  destruct i as [|i]; simpl in Hi |- *.
  - injection Hi as ->. destruct (is_released fd), (is_released fd'); cbn; lia.
  - rewrite (IH i Hi). destruct (is_released x); cbn; lia.
Qed.

Lemma ports_inv_set_port i fd fd' n s :
  ports_inv s → cd_port_dev_list (p_c s) !! i = Some fd → port_ok fd' →
  n = cd_released_port_num (p_c s) + Z.b2z (is_released fd') - Z.b2z (is_released fd) →
  ports_inv (set_p_c (set_released n (set_ports (<[i := fd']> (cd_port_dev_list (p_c s))) (p_c s))) s).
Proof.
  intros (Hn & Hl & Ho) Hi Hfd ->. split; [|split; [by apply Forall_insert|done]].
  cbn. rewrite (count_released_insert _ _ _ _ Hi), Hn. done.
Qed.

Lemma ports_inv_port i s fd :
  ports_inv s → cd_port_dev_list (p_c s) !! i = Some fd → port_ok fd.
Proof. intros (_ & Hl & _) Hi. by eapply Forall_lookup_1. Qed.

Lemma set_p_k_inv k s : ports_inv s → ports_inv (set_p_k k s).
Proof. done. Qed.

Lemma set_released_id c : set_released (cd_released_port_num c) c = c.
Proof. by destruct c. Qed.
Lemma set_ports_id c i fd : cd_port_dev_list c !! i = Some fd → set_ports (<[i := fd]> (cd_port_dev_list c)) c = c.
Proof. intros Hi. unfold set_ports. rewrite list_insert_id by done. by destruct c. Qed.

Lemma is_released_spec fd : is_released fd = true ↔ fd_dev fd = None.
Proof. apply bool_decide_eq_true. Qed.

(** What a release does to the container once the port is found at [i]: it fails
    with -EBUSY and changes nothing, or the port loses its device, is held
    exclusively and is counted. *)
Definition released_port fd : dfl_feature_dev_data :=
  set_dev_all None (set_fd_open_count (fd_open_count fd + 1) (set_fd_excl_open true fd)).
Definition release_at (i : nat) s s' fd : Prop :=
  is_Some (fd_dev fd) ∧ fd_excl_open fd = false ∧ fd_open_count fd = 0 ∧
  ∃ k, s' = set_p_k k (set_p_c (set_released (cd_released_port_num (p_c s) + 1)
              (set_ports (<[i := released_port fd]> (cd_port_dev_list (p_c s))) (p_c s))) s).

Lemma release_port_spec port_id s :
  ports_inv s →
  wp (dfl_fpga_cdev_release_port module_live port_id)
     (λ _ s', ∃ s1 i fd, ports_inv s1 ∧ p_regs s1 = p_regs s ∧ p_ops s1 = p_ops s ∧
        cd_fmes (p_c s1) = cd_fmes (p_c s) ∧
        cd_released_port_num (p_c s1) = cd_released_port_num (p_c s) ∧
        Forall2 same_but_id (cd_port_dev_list (p_c s)) (cd_port_dev_list (p_c s1)) ∧
        cd_port_dev_list (p_c s1) !! i = Some fd ∧ fd_id fd = port_id ∧
        port_id ≠ FEATURE_DEV_ID_UNUSED ∧ release_at i s1 s' fd)
     (λ e s', ports_inv s' ∧ (e = - ENODEV ∨ e = - EBUSY) ∧ p_regs s' = p_regs s ∧
        cd_released_port_num (p_c s') = cd_released_port_num (p_c s) ∧
        Forall2 same_but_id (cd_port_dev_list (p_c s)) (cd_port_dev_list (p_c s'))) s.
Proof.
  intros Hinv. unfold dfl_fpga_cdev_release_port. wsteps.
  eapply wp_mono; [by apply cdev_find_spec| |done].
  intros [i|] s1 (Hinv1 & Ho1 & Hr1 & Hk1 & Hf1 & Hn1 & Hids & Hpos); [|wsteps; auto].
  destruct Hpos as (fd & Hfd & Hid & Hne). wsteps. rewrite Hfd. cbn [access]. wsteps.
  destruct (bool_decide_reflect (fd_dev fd = None)) as [Hd|Hd]; [wsteps; auto|].
  rewrite use_begin_excl.
  destruct (fd_excl_open fd || negb (fd_open_count fd =? 0)) eqn:Hbusy.
  - unfold set_port, upd_c. wsteps; [done|]. intros _. rewrite set_ports_id by done.
    destruct s1. cbn in *. auto.
  - apply orb_false_iff in Hbusy as [Hx Hc%negb_false_iff%Z.eqb_eq].
    unfold set_port, upd_c. wsteps; [|done]. intros _. unfold pk. wsteps. apply wp_zoom.
    unfold feature_dev_unregister. cbn [fd_dev set_fd_open_count set_fd_excl_open].
    destruct (fd_dev fd) as [d|] eqn:Hd'; [|done].
    cbv [mbind M_bind kdo mret M_ret]. wsteps.
    exists s1, i, fd. split_and!; try done. split; [by rewrite Hd'|].
    split; [done|]. split; [done|]. exists (k_pdev_unregister d (p_k s1)).
    destruct s1 as [k1 [] ? ? ?]. cbn. rewrite list_insert_insert_eq. done.
Qed.
(** Registration of a released port: the port has the new device, or the call
    fails and the port stays released. *)
Lemma released_register_spec fd k :
  0 <= fd_type fd < DFL_ID_MAX → fd_dev fd = None →
  wp (feature_dev_register chrdev_major fd)
     (λ '(fd', ret) _, if decide (ret = 0) then ∃ d, fd' = set_dev_all (Some d) fd
                       else fd' = fd ∨ fd' = set_dev_all None fd)
     (λ _ _, False) k.
Proof.
  intros Ht Hd. unfold feature_dev_register. wsteps. apply wp_kop.
  destruct (fst (k_pdev_alloc (fd_pdev_name fd) (fd_pdev_id fd) k)) as [d|]; [|wsteps; by left].
  wsteps. apply wp_access.
  2: { intros Hnone. apply lookup_ge_None in Hnone. cbn in Hnone. unfold DFL_ID_MAX in Ht. lia. }
  intros info _. wsteps.
  assert (∀ ret k', wp (if ret =? 0 then mret (set_dev_all (Some d) fd, 0)
      else kdo (k_pdev_put d) ;; mret (set_dev_all None fd, ret))
      (λ '(fd', ret) _, if decide (ret = 0) then ∃ d, fd' = set_dev_all (Some d) fd
                       else fd' = fd ∨ fd' = set_dev_all None fd) (λ _ _, False) k') as Hend.
  { intros ret k'. destruct (Z.eqb_spec ret 0); wsteps.
    - rewrite decide_True by done. by exists d.
    - unfold kdo, wpg, mbind, M_bind; cbn. rewrite decide_False by done. by right. }
  apply wp_kop. wsteps; [|by intros; apply Hend]. intros _. wsteps. apply wp_kop.
  wsteps; [|by intros; apply Hend]. intros _. wsteps. apply wp_kop.
  wsteps; intros; apply Hend.
Qed.

Definition assigned_port d fd : dfl_feature_dev_data :=
  dfl_feature_dev_use_end (set_dev_all (Some d) fd).

(** What an assignment does to the container once the port is found at [i]. *)
Definition assign_at (i : nat) s s' fd : Prop :=
  fd_dev fd = None ∧
  ∃ k d, s' = set_p_k k (set_p_c (set_released (cd_released_port_num (p_c s) - 1)
              (set_ports (<[i := assigned_port d fd]> (cd_port_dev_list (p_c s))) (p_c s))) s).

Lemma ports_inv_not_counted i fd s k :
  ports_inv s → cd_port_dev_list (p_c s) !! i = Some fd → fd_dev fd = None →
  ports_inv (set_p_c (set_ports (<[i := set_dev_all None fd]> (cd_port_dev_list (p_c s))) (p_c s)) (set_p_k k s)).
Proof.
  intros Hinv Hi Hd.
  assert (is_released fd = true) as Hr by by apply is_released_spec.
  pose proof (ports_inv_set_port i fd (set_dev_all None fd) _ s Hinv Hi
    (port_ok_still_released _ (ports_inv_port _ _ _ Hinv Hi) Hd) eq_refl) as (H1 & H2 & H3).
  rewrite Hr in H1. split; [|done]. cbn in H1 |- *. lia.
Qed.

Lemma assign_port_spec port_id s :
  ports_inv s →
  wp (dfl_fpga_cdev_assign_port module_live chrdev_major port_id)
     (λ _ s', ∃ s1 i fd, ports_inv s1 ∧ p_regs s1 = p_regs s ∧ p_ops s1 = p_ops s ∧
        cd_fmes (p_c s1) = cd_fmes (p_c s) ∧
        cd_released_port_num (p_c s1) = cd_released_port_num (p_c s) ∧
        Forall2 same_but_id (cd_port_dev_list (p_c s)) (cd_port_dev_list (p_c s1)) ∧
        cd_port_dev_list (p_c s1) !! i = Some fd ∧ fd_id fd = port_id ∧
        port_id ≠ FEATURE_DEV_ID_UNUSED ∧ assign_at i s1 s' fd)
     (λ e s', ports_inv s' ∧ e ≠ 0 ∧ p_regs s' = p_regs s ∧
        cd_released_port_num (p_c s') = cd_released_port_num (p_c s)) s.
Proof.
  intros Hinv. unfold dfl_fpga_cdev_assign_port. wsteps.
  eapply wp_mono; [by apply cdev_find_spec| |done].
  intros [i|] s1 (Hinv1 & Ho1 & Hr1 & Hk1 & Hf1 & Hn1 & Hids & Hpos); [|wsteps; auto].
  destruct Hpos as (fd & Hfd & Hid & Hne). wsteps. rewrite Hfd. cbn [access]. wsteps.
  destruct (bool_decide_reflect (fd_dev fd = None)) as [Hd|Hd]; cbn [negb]; [|wsteps; auto].
  unfold pk. wsteps. apply wp_zoom.
  pose proof (ports_inv_port _ _ _ Hinv1 Hfd) as Hok.
  pose proof (released_register_spec fd (p_k s1) (proj1 Hok) Hd) as Hreg.
  unfold wpg in Hreg. destruct (feature_dev_register chrdev_major fd (p_k s1)) as [[[[fd' ret]|e] k']| |];
    try done.
  unfold set_port, upd_c. wsteps.
  - intros ->. rewrite decide_True in Hreg by done. destruct Hreg as [d ->]. wsteps.
    exists s1, i, fd. split_and!; try done. split; [done|]. exists k', d.
    destruct s1 as [k1 [] ? ? ?]. cbn. by rewrite list_insert_insert_eq.
  - intros Hret. rewrite decide_False in Hreg by done. destruct Hreg as [->| ->].
    + change (p_c (set_p_k k' s1)) with (p_c s1). rewrite set_ports_id by done.
      destruct s1; cbn in *; auto.
    + split; [by apply (ports_inv_not_counted i fd s1 k')|]. auto.
Qed.

Lemma release_at_inv i s s' fd :
  ports_inv s → cd_port_dev_list (p_c s) !! i = Some fd → fd_id fd ≠ FEATURE_DEV_ID_UNUSED →
  release_at i s s' fd → ports_inv s'.
Proof.
  intros Hinv Hi Hid ([d Hd] & Hx & Hc & k & ->). apply set_p_k_inv.
  eapply ports_inv_set_port; [done|done| |].
  - apply port_ok_released; [by eapply ports_inv_port|done|done].
  - assert (is_released (released_port fd) = true) as -> by by apply is_released_spec.
    assert (is_released fd = false) as -> by (apply bool_decide_eq_false; congruence). cbn. lia.
Qed.

Lemma assign_at_inv i s s' fd :
  ports_inv s → cd_port_dev_list (p_c s) !! i = Some fd → assign_at i s s' fd → ports_inv s'.
Proof.
  intros Hinv Hi (Hd & k & d & ->). apply set_p_k_inv.
  eapply ports_inv_set_port; [done|done| |].
  - apply port_ok_registered. by eapply ports_inv_port.
  - assert (is_released (assigned_port d fd) = false) as ->.
    { unfold is_released, assigned_port, dfl_feature_dev_use_end.
      case_match; by apply bool_decide_eq_false. }
    assert (is_released fd = true) as -> by by apply is_released_spec. cbn. lia.
Qed.

(** *** Operations on the ports of a container, in any order

    [St_open] and [St_close] are the open and close calls of the device file of
    a port, which exists while the port has a device. *)
Inductive port_step s : pst → Prop :=
| St_release id r s' :
    dfl_fpga_cdev_release_port module_live id s = Done (r, s') → port_step s s'
| St_assign id r s' :
    dfl_fpga_cdev_assign_port module_live chrdev_major id s = Done (r, s') → port_step s s'
| St_open i fd excl :
    cd_port_dev_list (p_c s) !! i = Some fd → is_Some (fd_dev fd) →
    port_step s (set_p_c (set_ports
      (<[i := (dfl_feature_dev_use_begin excl fd).1]> (cd_port_dev_list (p_c s))) (p_c s)) s)
| St_close i fd :
    cd_port_dev_list (p_c s) !! i = Some fd → is_Some (fd_dev fd) →
    port_step s (set_p_c (set_ports
      (<[i := dfl_feature_dev_use_end fd]> (cd_port_dev_list (p_c s))) (p_c s)) s)
| St_config_pf r s' :
    dfl_fpga_cdev_config_ports_pf s = Done (r, s') → port_step s s'
| St_config_vf n r s' :
    dfl_fpga_cdev_config_ports_vf n s = Done (r, s') → port_step s s'
| St_ops_add o r s' :
    ops_ok o → dfl_fpga_port_ops_add o s = Done (r, s') → port_step s s'
| St_ops_del i r s' :
    dfl_fpga_port_ops_del i s = Done (r, s') → port_step s s'.

Lemma config_port_access_mode_frame id is_vf s :
  wtp (config_port_access_mode id is_vf)
     (λ _ s', ∃ r, s' = set_p_regs r s) (λ _ _, False) s.
Proof.
  unfold config_port_access_mode. wsteps. destruct (cd_fmes (p_c s)); [done|].
  destruct (dfl_get_feature_ioaddr_by_id _ _); [|done]. wsteps. by eexists.
Qed.

Lemma config_ports_frame s l (b : dfl_feature_dev_data → bool) is_vf :
  wtp (for_each l (λ fd, if b fd then mret tt else config_port_access_mode (fd_id fd) is_vf))
     (λ _ s', ∃ r, s' = set_p_regs r s) (λ _ _, False) s.
Proof.
  apply wp_for_each; [exists (p_regs s); by destruct s|].
  intros fd s' _ [r ->]. destruct (b fd); [wsteps; by exists r|].
  eapply wp_mono; [apply config_port_access_mode_frame| |done].
  intros ? s'' [r' ->]. by exists r'.
Qed.

Lemma is_released_dev fd fd' : fd_dev fd = fd_dev fd' → is_released fd = is_released fd'.
Proof. unfold is_released. by intros ->. Qed.

Lemma use_begin_dev excl fd : fd_dev (dfl_feature_dev_use_begin excl fd).1 = fd_dev fd.
Proof. unfold dfl_feature_dev_use_begin. by repeat case_match. Qed.
Lemma use_end_dev fd : fd_dev (dfl_feature_dev_use_end fd) = fd_dev fd.
Proof. unfold dfl_feature_dev_use_end. by case_match. Qed.

Lemma ports_inv_same_dev i fd fd' s :
  ports_inv s → cd_port_dev_list (p_c s) !! i = Some fd → port_ok fd' → fd_dev fd' = fd_dev fd →
  ports_inv (set_p_c (set_ports (<[i := fd']> (cd_port_dev_list (p_c s))) (p_c s)) s).
Proof.
  intros Hinv Hi Hok Hd.
  pose proof (ports_inv_set_port i fd fd' (cd_released_port_num (p_c s)) s Hinv Hi Hok) as Hset.
  rewrite (is_released_dev _ _ Hd) in Hset. apply Hset. lia.
Qed.

Lemma port_step_inv s s' : port_step s s' → ports_inv s → ports_inv s'.
Proof.
  intros Hst Hinv. destruct Hst as [id r s' Hr|id r s' Hr|i fd excl Hi Hd|i fd Hi Hd|r s' Hr
      |n r s' Hr|o r s' Ho Hr|i r s' Hr].
  - pose proof (release_port_spec id s Hinv) as Hs. unfold wpg in Hs. rewrite Hr in Hs.
    destruct r; [|by apply Hs].
    destruct Hs as (s1 & i & fd & H1 & ? & ? & ? & ? & ? & Hi & Hid & Hne & Hat).
    eapply release_at_inv; [done..| |done]. by rewrite Hid.
  - pose proof (assign_port_spec id s Hinv) as Hs. unfold wpg in Hs. rewrite Hr in Hs.
    destruct r; [|by apply Hs].
    destruct Hs as (s1 & i & fd & H1 & ? & ? & ? & ? & ? & Hi & Hid & Hne & Hat).
    by eapply assign_at_inv.
  - eapply ports_inv_same_dev; [done..| |apply use_begin_dev].
    apply port_ok_use_begin; [by eapply ports_inv_port|done].
  - eapply ports_inv_same_dev; [done..| |apply use_end_dev].
    apply port_ok_use_end; [by eapply ports_inv_port|done].
  - pose proof (config_ports_frame s (cd_port_dev_list (p_c s)) (λ fd, negb (is_released fd)) false) as Hf.
    unfold dfl_fpga_cdev_config_ports_pf, mbind, M_bind, gets in Hr. unfold wpg in Hf.
    rewrite Hr in Hf. destruct r; [|done]. by destruct Hf as [? ->].
  - pose proof (config_ports_frame s (cd_port_dev_list (p_c s)) (λ fd, negb (is_released fd)) true) as Hf.
    unfold dfl_fpga_cdev_config_ports_vf, mbind, M_bind, mret, M_ret, throw, gets in Hr.
    unfold wpg, mret, M_ret in Hf.
    destruct (cd_port_dev_list (p_c s)) eqn:Hl; cbv beta iota in Hr. { by injection Hr as <- <-. }
    match type of Hr with context [if ?b then _ else _] => destruct b end; cbv beta in Hr.
    { by injection Hr as <- <-. }
    rewrite Hr in Hf. destruct r; [|done]. by destruct Hf as [? ->].
  - cbv [dfl_fpga_port_ops_add dfl_fpga_port_ops_del modify] in Hr.
    injection Hr as <- <-. destruct Hinv as (? & ? & ?). split; [done|]. split; [done|].
    apply Forall_app; split; [done|]. by constructor.
  - cbv [dfl_fpga_port_ops_add dfl_fpga_port_ops_del modify] in Hr.
    injection Hr as <- <-. destruct Hinv as (? & ? & ?). split; [done|]. split; [done|].
    apply Forall_app; split; [by apply Forall_take|by apply Forall_drop].
Qed.

(** C5: whatever sequence of release, assignment, open, close and access mode
    operations runs on the ports of a container, and whatever each of them
    returns, [released_port_num] stays the number of ports without a device, a
    port without a device is held exclusively so that it can be opened by
    nobody, the use counts stay non-negative, an exclusive user is alone, and
    every feature of a port points to the port's device. *)
Theorem ports_invariant_reachable s s' : rtc port_step s s' → ports_inv s → ports_inv s'.
Proof. induction 1; eauto using port_step_inv. Qed.

(** A port without a device cannot be opened: both kinds of open fail with
    -EBUSY and leave the port as it was. *)
Lemma released_port_not_opened s i fd excl :
  ports_inv s → cd_port_dev_list (p_c s) !! i = Some fd → fd_dev fd = None →
  dfl_feature_dev_use_begin excl fd = (fd, - EBUSY).
Proof.
  intros Hinv Hi Hd. destruct (ports_inv_port _ _ _ Hinv Hi) as (_ & _ & _ & _ & Hr & _).
  unfold dfl_feature_dev_use_begin. by destruct (Hr Hd) as [-> _].
Qed.
End PortFacts.
