(* ===== verification/DflPortAccess.v ===== *)
(** * Release and assignment undo each other, access modes, module references

    Functional properties of the port operations of [DflPorts]: the round trip
    of a release and an assignment, the exact effect of the access mode
    operations on the registers of the FME, and the module references that a
    test of a port id takes and drops. *)
From stdpp Require Import gmap strings.
From S2P Require Import Prelude DflRegs DflTypes DflEnum DflEnumFacts DflPorts DflPortsFacts.

Section PortAccess.
Context `{Kernel} (module_live : Z → bool) (chrdev_major : Z → Z).
Implicit Types (s : pst) (fd : dfl_feature_dev_data) (l : list dfl_feature_dev_data).

(** ** Searches of ports whose ids are known *)
Definition ids_known l : Prop := Forall (λ fd, fd_id fd ≠ FEATURE_DEV_ID_UNUSED) l.

Fixpoint position_of (id : Z) l : option nat :=
  match l with
  | [] => None
  | fd :: l => if fd_id fd =? id then Some 0%nat else S <$> position_of id l
  end.

Lemma position_of_lookup id l i :
  position_of id l = Some i → ∃ fd, l !! i = Some fd ∧ fd_id fd = id.
Proof.
  revert i. induction l as [|fd l IH]; intros i; cbn [position_of]; [done|].
  destruct (Z.eqb_spec (fd_id fd) id) as [He|He].
  - intros [= <-]. by exists fd.
  - destruct (position_of id l) as [j|]; [|done]. intros [= <-]. by apply IH.
Qed.

Lemma position_of_insert id l i fd fd' :
  l !! i = Some fd → fd_id fd' = fd_id fd → position_of id (<[i := fd']> l) = position_of id l.
Proof.
  revert i. induction l as [|x l IH]; intros [|i] Hi He; try done; simpl in Hi |- *.
  - injection Hi as ->. by rewrite He.
  - by rewrite (IH i Hi He).
Qed.

Lemma ids_known_insert l i fd fd' :
  l !! i = Some fd → fd_id fd' = fd_id fd → ids_known l → ids_known (<[i := fd']> l).
Proof.
  intros Hi He Hl. apply Forall_insert; [done|]. rewrite He. by apply (Forall_lookup_1 _ _ _ _ Hl Hi).
Qed.

Lemma check_port_id_known id fd s :
  fd_id fd ≠ FEATURE_DEV_ID_UNUSED →
  dfl_fpga_check_port_id module_live id fd s = Done (Val (fd_id fd =? id, fd), s).
Proof. intros Hfd%Z.eqb_neq. unfold dfl_fpga_check_port_id. by rewrite Hfd. Qed.

Lemma find_port_data_known id l s :
  ids_known l →
  find_port_data l (dfl_fpga_check_port_id module_live id) s = Done (Val (position_of id l, l), s).
Proof.
  induction 1 as [|fd l Hfd Hl IH]; [done|]. cbn [find_port_data position_of].
  unfold mbind, M_bind. rewrite check_port_id_known by done.
  destruct (fd_id fd =? id); [done|]. by rewrite IH.
Qed.

Lemma cdev_find_known id s :
  ids_known (cd_port_dev_list (p_c s)) →
  dfl_fpga_cdev_find_port_data (dfl_fpga_check_port_id module_live id) s =
    Done (Val (position_of id (cd_port_dev_list (p_c s))), s).
Proof.
  intros Hl. unfold dfl_fpga_cdev_find_port_data, gets, upd_c, modify, mbind, M_bind.
  rewrite find_port_data_known by done. cbv [mret M_ret].
  destruct s as [? [] ? ? ?]. done.
Qed.

(** ** The round trip *)
Lemma release_known id s :
  ports_inv s → ids_known (cd_port_dev_list (p_c s)) →
  wp (dfl_fpga_cdev_release_port module_live id)
     (λ _ s', ∃ i fd, position_of id (cd_port_dev_list (p_c s)) = Some i ∧
        cd_port_dev_list (p_c s) !! i = Some fd ∧ release_at i s s' fd)
     (λ _ _, True) s.
Proof.
  intros Hinv Hl. unfold dfl_fpga_cdev_release_port. wstep.
  eapply wp_eq; [by apply cdev_find_known|].
  destruct (position_of id _) as [i|] eqn:Hpos; [|by wsteps].
  destruct (position_of_lookup _ _ _ Hpos) as (fd & Hfd & Hid).
  wsteps. rewrite Hfd. cbn [access]. wsteps.
  destruct (bool_decide_reflect (fd_dev fd = None)) as [Hd|Hd]; [by wsteps|].
  rewrite use_begin_excl.
  destruct (fd_excl_open fd || negb (fd_open_count fd =? 0)) eqn:Hbusy;
    unfold set_port, upd_c; wsteps; try done.
  apply orb_false_iff in Hbusy as [Hx Hc%negb_false_iff%Z.eqb_eq].
  intros _. unfold pk. wsteps. apply wp_zoom.
  unfold feature_dev_unregister. cbn [fd_dev set_fd_open_count set_fd_excl_open].
  destruct (fd_dev fd) as [d|] eqn:Hd'; [|done].
  cbv [mbind M_bind kdo mret M_ret]. wsteps.
  exists i, fd. split_and!; try done. split; [by rewrite Hd'|].
  split; [done|]. split; [done|]. exists (k_pdev_unregister d (p_k s)).
  destruct s as [k1 [] ? ? ?]. cbn. by rewrite list_insert_insert_eq.
Qed.

Lemma assign_known id s :
  ports_inv s → ids_known (cd_port_dev_list (p_c s)) →
  wp (dfl_fpga_cdev_assign_port module_live chrdev_major id)
     (λ _ s', ∃ i fd, position_of id (cd_port_dev_list (p_c s)) = Some i ∧
        cd_port_dev_list (p_c s) !! i = Some fd ∧ assign_at i s s' fd)
     (λ _ _, True) s.
Proof.
  intros Hinv Hl. unfold dfl_fpga_cdev_assign_port. wstep.
  eapply wp_eq; [by apply cdev_find_known|].
  destruct (position_of id _) as [i|] eqn:Hpos; [|by wsteps].
  destruct (position_of_lookup _ _ _ Hpos) as (fd & Hfd & Hid).
  wsteps. rewrite Hfd. cbn [access]. wsteps.
  destruct (bool_decide_reflect (fd_dev fd = None)) as [Hd|Hd]; cbn [negb]; [|by wsteps].
  unfold pk. wsteps. apply wp_zoom.
  pose proof (ports_inv_port _ _ _ Hinv Hfd) as Hok.
  pose proof (released_register_spec chrdev_major fd (p_k s) (proj1 Hok) Hd) as Hreg.
  unfold wpg in Hreg. destruct (feature_dev_register chrdev_major fd (p_k s)) as [[[[fd' ret]|e] k']| |];
    try done.
  unfold set_port, upd_c. wsteps; [|done].
  intros ->. rewrite decide_True in Hreg by done. destruct Hreg as [d ->]. wsteps.
  exists i, fd. split_and!; try done. split; [done|]. exists k', d.
  destruct s as [k1 [] ? ? ?]. cbn. by rewrite list_insert_insert_eq.
Qed.

Lemma assigned_released d fd :
  fd_excl_open fd = false → fd_open_count fd = 0 →
  assigned_port d (released_port fd) = set_dev_all (Some d) fd.
Proof.
  intros Hx Hc. destruct fd as [? ? ? ? ? ? ? ? ? fs ? ?]. cbn in Hx, Hc. subst.
  unfold assigned_port, released_port, dfl_feature_dev_use_end, set_dev_all.
  assert (set_f_dev (Some d) <$> (set_f_dev None <$> fs) = set_f_dev (Some d) <$> fs)
    as Hf by (rewrite <- list_fmap_compose; apply list_fmap_ext; by intros ? []).
  cbn [set_fd_features set_fd_dev set_fd_open_count set_fd_excl_open fd_features fd_open_count].
  rewrite Hf. reflexivity.
Qed.

(** When the ids of the ports are known, assigning a port back after it was
    released restores the container: if both calls succeed, the number of
    released ports, every other port, the registers, the module references and
    the operations are as before, and so is the port itself except that it and
    its features have the new platform device.  Neither call faults. *)
Lemma release_assign_roundtrip id s :
  ports_inv s → ids_known (cd_port_dev_list (p_c s)) →
  wp (dfl_fpga_cdev_release_port module_live id ;;
      dfl_fpga_cdev_assign_port module_live chrdev_major id)
     (λ _ s', ∃ i fd d k, cd_port_dev_list (p_c s) !! i = Some fd ∧ fd_id fd = id ∧
        s' = set_p_k k (set_p_c (set_ports
               (<[i := set_dev_all (Some d) fd]> (cd_port_dev_list (p_c s))) (p_c s)) s))
     (λ _ _, True) s.
Proof.
  intros Hinv Hl. wstep. eapply wp_mono; [by apply release_known| |done].
  intros ? s1 (i & fd & Hpos & Hfd & Hrel).
  destruct (position_of_lookup _ _ _ Hpos) as (fd2 & Hfd2 & Hid).
  assert (fd2 = fd) as -> by congruence.
  assert (ports_inv s1) as Hinv1.
  { eapply release_at_inv; [done..| |done]. by apply (Forall_lookup_1 _ _ _ _ Hl Hfd). }
  destruct Hrel as (_ & Hx & Hc & k & ->).
  eapply wp_mono; [apply assign_known; [done|]| |done].
  { cbn. by eapply ids_known_insert. }
  intros ? s2 (i' & fd' & Hpos' & Hfd' & _ & k' & d & ->). cbn in Hpos', Hfd'.
  rewrite (position_of_insert _ _ _ fd) in Hpos' by done.
  assert (i' = i) as -> by congruence.
  rewrite list_lookup_insert_eq in Hfd' by (by eapply lookup_lt_Some). injection Hfd' as <-.
  exists i, fd, d, k'. split; [done|]. split; [done|].
  destruct s as [? [] ? ? ?]. cbn. rewrite list_insert_insert_eq, assigned_released by done.
  unfold set_p_k, set_p_c, set_released, set_ports. cbn. do 2 f_equal. lia.
Qed.
(** ** Access mode registers *)

(** The register of port [id] in the header feature of the FME at [base]. *)
Definition port_ofst base id : Z := base + FME_HDR_PORT_OFST id.

(** What the registers are after the released ports of a list were configured. *)
Definition configured base l is_vf (r : Z → Z) : Z → Z := λ a,
  if existsb (λ fd, is_released fd && (a =? port_ofst base (fd_id fd))) l
  then set_field FME_PORT_OFST_ACC_CTRL (r a) (if is_vf : bool then FME_PORT_OFST_ACC_VF else FME_PORT_OFST_ACC_PF)
  else r a.

(** The FME device of the container and its mapped header. *)
Definition fme_header s base : Prop :=
  ∃ fme, head (cd_fmes (p_c s)) = Some fme ∧
    dfl_get_feature_ioaddr_by_id fme FME_FEATURE_ID_HEADER = Some base.

Definition regs_eq s (r : Z → Z) : Prop := ∀ a, p_regs s a = r a.

Lemma config_loop_spec base is_vf l s :
  fme_header s base →
  wp (for_each l (λ fd, if negb (is_released fd) then mret tt
                        else config_port_access_mode (fd_id fd) is_vf))
     (λ _ s', p_c s' = p_c s ∧ p_refs s' = p_refs s ∧ p_ops s' = p_ops s ∧ p_k s' = p_k s ∧
        regs_eq s' (configured base l is_vf (p_regs s)))
     (λ _ _, False) s.
Proof.
  intros (fme & Hfme & Hbase). revert s Hfme. induction l as [|fd l IH]; intros s Hfme; cbn [for_each].
  { wsteps. by split_and!. }
  wstep. destruct (is_released fd) eqn:Hr; cbn [negb].
  2: { wsteps. eapply wp_mono; [by apply IH| |done].
       intros ? s' (? & ? & ? & ? & Hreg). split_and!; try done. intros b.
       rewrite Hreg. unfold configured. cbn [existsb]. by rewrite Hr. }
  unfold config_port_access_mode. wsteps.
  destruct (cd_fmes (p_c s)) as [|fme' fmes] eqn:Hl; [done|]. cbn in Hfme. injection Hfme as ->.
  rewrite Hbase. wsteps.
  eapply wp_mono; [apply IH; cbn; by rewrite Hl| |done].
  intros ? s' (? & ? & ? & ? & Hreg). split_and!; try done. intros b. rewrite Hreg.
  unfold configured. cbn [existsb p_regs set_p_regs]. rewrite Hr. cbn [andb].
  fold (port_ofst base (fd_id fd)).
  destruct (Z.eqb_spec b (port_ofst base (fd_id fd))) as [->|Hne]; cbn [orb]; [|done].
  destruct (existsb _ l); [|done]. fold (set_field FME_PORT_OFST_ACC_CTRL
    (p_regs s (port_ofst base (fd_id fd))) (if is_vf then FME_PORT_OFST_ACC_VF else FME_PORT_OFST_ACC_PF)).
  apply set_field_idem; fld.
Qed.

(** Before virtual functions are enabled, [dfl_fpga_cdev_config_ports_vf]
    fails with -EINVAL and changes nothing when some port is released but their
    number is not the number of virtual functions; otherwise it succeeds, and
    the only thing that changes is the access control bit of the registers of
    the released ports, which becomes VF. *)
Lemma config_ports_vf_exact base num_vfs s :
  fme_header s base → ports_inv s →
  wp (dfl_fpga_cdev_config_ports_vf num_vfs)
     (λ _ s', (count_released (cd_port_dev_list (p_c s)) = 0 ∨
               cd_released_port_num (p_c s) = num_vfs) ∧
        p_c s' = p_c s ∧ p_refs s' = p_refs s ∧ p_ops s' = p_ops s ∧ p_k s' = p_k s ∧
        regs_eq s' (configured base (cd_port_dev_list (p_c s)) true (p_regs s)))
     (λ e s', e = - EINVAL ∧ s' = s ∧ count_released (cd_port_dev_list (p_c s)) ≠ 0 ∧
        count_released (cd_port_dev_list (p_c s)) ≠ num_vfs) s.
Proof.
  intros Hfme Hinv. unfold dfl_fpga_cdev_config_ports_vf. wsteps.
  destruct (cd_port_dev_list (p_c s)) as [|x l] eqn:Hl.
  { wsteps. split_and!; try done. by left. }
  destruct Hinv as [Hn _]. rewrite Hl in Hn. rewrite <- Hn.
  destruct (negb (cd_released_port_num (p_c s) =? 0) && negb (cd_released_port_num (p_c s) =? num_vfs)) eqn:Hc.
  { wsteps. apply andb_true_iff in Hc as [?%negb_true_iff%Z.eqb_neq ?%negb_true_iff%Z.eqb_neq]. done. }
  eapply wp_mono; [by apply config_loop_spec| |done].
  intros ? s' (? & ? & ? & ? & ?). split_and!; try done.
  apply andb_false_iff in Hc as [?%negb_false_iff%Z.eqb_eq|?%negb_false_iff%Z.eqb_eq]; auto.
Qed.

(** [dfl_fpga_cdev_config_ports_pf] never fails and gives exactly the
    released ports back to the physical function. *)
Lemma config_ports_pf_exact base s :
  fme_header s base →
  wp dfl_fpga_cdev_config_ports_pf
     (λ _ s', p_c s' = p_c s ∧ p_refs s' = p_refs s ∧ p_ops s' = p_ops s ∧ p_k s' = p_k s ∧
        regs_eq s' (configured base (cd_port_dev_list (p_c s)) false (p_regs s)))
     (λ _ _, False) s.
Proof.
  intros Hfme. unfold dfl_fpga_cdev_config_ports_pf. wsteps. by apply config_loop_spec.
Qed.

Lemma existsb_port base l fd :
  fd ∈ l → is_released fd = true →
  existsb (λ x, is_released x && (port_ofst base (fd_id fd) =? port_ofst base (fd_id x))) l = true.
Proof.
  intros Hin Hr. apply existsb_exists. exists fd. split; [by apply list_elem_of_In|].
  by rewrite Hr, Z.eqb_refl.
Qed.

(** What [configured] means for the device: the access control bit of a
    released port reads as the mode that was asked for, every other bit of its
    register reads as before, and registers of ports that are not released, or
    that are no port registers at all, are untouched. *)
Lemma configured_reads base l is_vf r :
  (∀ fd, fd ∈ l → is_released fd = true →
     FIELD_GET FME_PORT_OFST_ACC_CTRL (configured base l is_vf r (port_ofst base (fd_id fd))) =
       Z.b2z is_vf ∧
     ∀ i, 0 <= i < 64 → i ≠ 55 →
       Z.testbit (configured base l is_vf r (port_ofst base (fd_id fd))) i =
       Z.testbit (r (port_ofst base (fd_id fd))) i) ∧
  (∀ a, (∀ fd, fd ∈ l → is_released fd = true → a ≠ port_ofst base (fd_id fd)) →
     configured base l is_vf r a = r a).
Proof.
  split.
  - intros fd Hin Hr. unfold configured. rewrite existsb_port by done. split.
    + rewrite FIELD_GET_set_field by fld. by destruct is_vf.
    + intros i Hi Hne. apply testbit_set_field_out; [fld|done|].
      unfold FME_PORT_OFST_ACC_CTRL; cbn. lia.
  - intros a Ha. unfold configured. destruct (existsb _ l) eqn:He; [|done].
    apply existsb_exists in He as (fd & Hin & [Hr Heq%Z.eqb_eq]%andb_true_iff).
    destruct (Ha fd); [by apply list_elem_of_In|done|done].
Qed.

(** ** Module references *)

(** The operations a test finds for a device, when their module can be used. *)
Fixpoint usable_ops (lo : list dfl_fpga_port_ops) fd : option dfl_fpga_port_ops :=
  match lo with
  | [] => None
  | o :: lo =>
      if String.eqb (fd_pdev_name fd) (po_name o) then
        match po_owner o with
        | Some m => if module_live m then Some o else None
        | None => Some o
        end
      else usable_ops lo fd
  end.

Definition add_ref (owner : option Z) (n : Z) (r : Z → Z) : Z → Z := λ x,
  if bool_decide (owner = Some x) then r x + n else r x.

Lemma port_ops_search_refs lo fd s :
  wp (port_ops_search module_live lo fd)
     (λ r s', r = usable_ops lo fd ∧ (∀ x, p_refs s' x = add_ref (r ≫= po_owner) 1 (p_refs s) x) ∧
        ∃ rf, s' = set_p_refs rf s) (λ _ _, False) s.
Proof.
  induction lo as [|o lo IH]; cbn [port_ops_search usable_ops].
  { wsteps. split; [done|]. split; [done|]. exists (p_refs s). by destruct s. }
  destruct (String.eqb _ _); [|done]. unfold try_module_get.
  destruct (po_owner o) as [m|] eqn:Ho; [destruct (module_live m)|]; wsteps; (split; [done|]).
  - split; [|by eexists]. intros x. unfold add_ref. cbn. rewrite Ho.
    destruct (Z.eqb_spec x m) as [->|Hn]; [by rewrite bool_decide_eq_true_2|].
    by rewrite bool_decide_eq_false_2 by congruence.
  - split; [done|]. exists (p_refs s). by destruct s.
  - cbn. rewrite Ho. split; [done|]. exists (p_refs s). by destruct s.
Qed.

(** A test of a port's id is balanced in module references, except that it
    keeps one reference to the module of operations without [get_id] each time
    it runs: only the id that was read may change in the port, and only these
    reference counts in the rest of the state. *)
Lemma check_port_id_references id fd s :
  wp (dfl_fpga_check_port_id module_live id fd)
     (λ _ s', (∀ x, p_refs s' x =
        match (if fd_id fd =? FEATURE_DEV_ID_UNUSED then usable_ops (p_ops s) fd else None) with
        | Some o => match po_get_id o with
                    | Some _ => p_refs s x
                    | None => add_ref (po_owner o) 1 (p_refs s) x
                    end
        | None => p_refs s x
        end) ∧ ∃ rf, s' = set_p_refs rf s)
     (λ _ _, False) s.
Proof.
  unfold dfl_fpga_check_port_id.
  assert (∃ rf, s = set_p_refs rf s) as Hs by (exists (p_refs s); by destruct s).
  destruct (Z.eqb_spec (fd_id fd) FEATURE_DEV_ID_UNUSED); cbn [negb]; [|by wsteps].
  unfold dfl_fpga_port_ops_get. wsteps.
  eapply wp_mono; [apply port_ops_search_refs| |done].
  intros r s' (<- & Hrefs & rf & ->). destruct r as [o|]; [|by wsteps; split; [done|eexists]].
  cbn [mbind option_bind] in Hrefs.
  destruct (po_get_id o) as [g|]; [|by wsteps; split; [done|eexists]].
  unfold dfl_fpga_port_ops_put, module_put. wsteps.
  destruct (po_owner o) as [m|]; wsteps; [|by split; [done|eexists]].
  split; [|by eexists]. intros x. cbn. cbn in Hrefs. rewrite Hrefs. unfold add_ref.
  destruct (Z.eqb_spec x m) as [->|Hn]; [rewrite bool_decide_eq_true_2 by done; lia|].
  by rewrite bool_decide_eq_false_2 by congruence.
Qed.
End PortAccess.
