(* ===== verification/DflPci.v ===== *)
(** * Cards on the PCI bus and in the device tree (drivers/fpga/dfl-pci.c, dfl-platform.c)

    The probe of a card finds where its feature lists are, in the configuration space
    or in the registers of the first list, hands them with the interrupts to the
    enumeration ([DflEnum]), and keeps the container.  Virtual functions are enabled
    after the ports for them have been put into their mode ([DflPorts]). *)
From stdpp Require Import gmap strings.
From S2P Require Import Prelude DflRegs DflTypes DflParam DflEnum DflEnumFacts DflEnumExamples DflPorts DflPortsFacts DflPortAccess.

(* drivers/fpga/dfl-pci.c:35-35 PCI_VNDR_DFLS_CNT *)
Definition PCI_VNDR_DFLS_CNT : Z := 0x8.
(* drivers/fpga/dfl-pci.c:36-36 PCI_VNDR_DFLS_RES *)
Definition PCI_VNDR_DFLS_RES : Z := 0xc.
(* drivers/fpga/dfl-pci.c:38-38 PCI_VNDR_DFLS_RES_BAR_MASK *)
Definition PCI_VNDR_DFLS_RES_BAR_MASK : field := GENMASK_ULL 2 0.
(* drivers/fpga/dfl-pci.c:39-39 PCI_VNDR_DFLS_RES_OFF_MASK *)
Definition PCI_VNDR_DFLS_RES_OFF_MASK : field := GENMASK_ULL 31 3.
(** Constants of the PCI core. *)
Definition PCI_STD_NUM_BARS : Z := 6.
Definition PCI_CFG_SPACE_EXP_SIZE : Z := 4096.

(** The bus: what the device is (the offset of the capability, 0 if there is none; the
    words of the configuration space; the BARs, whose length is 0 where there is
    none; the number of MSI-X vectors and the interrupt of each), and what the kernel
    says to each call: a status, or whether there is memory or a mapping. *)
Class PciBus := {
  pcik : Type;
  pci_find_vsec_capability : Z;
  pci_read_config_dword : Z → Z;
  pci_resource_start : Z → Z;
  pci_resource_len : Z → Z;
  pci_msix_vec_count : Z;
  pci_irq_vector : Z → Z;
  pci_alloc_irq_vectors : Z → pcik → Z * pcik;
  pci_map_bar0 : pcik → bool * pcik;
  pci_alloc : pcik → bool * pcik;
  pci_enable_device : pcik → Z * pcik;
  pci_set_dma_mask : Z → pcik → Z * pcik;
  pci_enable_sriov : Z → pcik → Z * pcik;
}.

Section Pci.
Context `{Kernel} `{PciBus}.
(** [dev] is the device, the others are those of the enumeration. *)
Context (dev : Z) (mmio : Z → option Z) (NR_IRQS : Z) (chrdev_major : Z → Z) (fuel : nat).
Implicit Types (info : dfl_fpga_enum_info).

(** [pc_vectors] is whether interrupt vectors are allocated, [pc_cdev] the container
    of the driver data; [None] if there is none (yet). *)
Record pci_st := PciSt {
  pc_k : pcik;
  pc_est : est;
  pc_vectors : bool;
  pc_cdev : option dfl_fpga_cdev;
}.
Implicit Types s : pci_st.
Definition pci_op {A} (f : pcik → A * pcik) : M pci_st A := λ s,
  let (a, k) := f (pc_k s) in Done (Val a, PciSt k (pc_est s) (pc_vectors s) (pc_cdev s)).
Definition set_pc_est x s := PciSt (pc_k s) x (pc_vectors s) (pc_cdev s).
Definition set_pc_vectors x s := PciSt (pc_k s) (pc_est s) x (pc_cdev s).
Definition set_pc_cdev x s := PciSt (pc_k s) (pc_est s) (pc_vectors s) x.
Definition on_est {A} (m : M est A) : M pci_st A := zoom pc_est set_pc_est m.

(** ** Interrupts *)

(* drivers/fpga/dfl-pci.c:53-67 cci_pci_alloc_irq *)
Definition cci_pci_alloc_irq : M pci_st Z :=
  let nvec := pci_msix_vec_count in
  if nvec <=? 0 then mret 0 else
  ret ← pci_op (pci_alloc_irq_vectors nvec);
  if ret <? 0 then throw ret else
  modify (set_pc_vectors true) ;;
  mret nvec.
(* drivers/fpga/dfl-pci.c:69-72 cci_pci_free_irq *)
Definition cci_pci_free_irq : M pci_st unit := modify (set_pc_vectors false).
(** [None] is a failed allocation. *)
(* drivers/fpga/dfl-pci.c:158-171 cci_pci_create_irq_table *)
Definition cci_pci_create_irq_table (nvec : Z) : M pci_st (option (list Z)) :=
  ok ← pci_op pci_alloc;
  mret (if (ok : bool) then Some (pci_irq_vector <$> seqZ 0 nvec) else None).

(** ** Finding the feature lists *)

(** Nobody looks at the result of the call: a list for which there is no memory is
    left out. *)
Definition add_dfl (info : dfl_fpga_enum_info) (start len : Z) : M pci_st dfl_fpga_enum_info :=
  r ← on_est (attempt (ek (dfl_fpga_enum_info_add_dfl info start len)));
  mret match (r : Z + dfl_fpga_enum_info) with inr info' => info' | inl _ => info end.

(** The lists that are left, at [dfl_res_off] in the configuration space. *)
(* drivers/fpga/dfl-pci.c:201-235 find_dfls_by_vsec *)
Fixpoint vsec_loop (n : nat) (dfl_res_off bars : Z) (info : dfl_fpga_enum_info) : M pci_st dfl_fpga_enum_info :=
  match n with
  | O => mret info
  | S n =>
      let dfl_res := u32 (pci_read_config_dword dfl_res_off) in
      let bir := Z.land dfl_res (mask PCI_VNDR_DFLS_RES_BAR_MASK) in
      if PCI_STD_NUM_BARS <=? bir then throw (- EINVAL) else
      if Z.testbit bars bir then throw (- EINVAL) else
      let bars := Z.lor bars (Z.shiftl 1 bir) in
      let len := pci_resource_len bir in
      let offset := Z.land dfl_res (mask PCI_VNDR_DFLS_RES_OFF_MASK) in
      if len <=? offset then throw (- EINVAL) else
      let len := u64 (len - offset) in
      let start := u64 (pci_resource_start bir + offset) in
      info ← add_dfl info start len;
      vsec_loop n (dfl_res_off + 4) bars info
  end.
(* drivers/fpga/dfl-pci.c:173-238 find_dfls_by_vsec *)
Definition find_dfls_by_vsec (info : dfl_fpga_enum_info) : M pci_st dfl_fpga_enum_info :=
  let voff := pci_find_vsec_capability in
  if voff =? 0 then throw (- ENODEV) else
  let dfl_cnt := u32 (pci_read_config_dword (voff + PCI_VNDR_DFLS_CNT)) in
  if PCI_STD_NUM_BARS <? dfl_cnt then throw (- EINVAL) else
  let dfl_res_off := voff + PCI_VNDR_DFLS_RES in
  if PCI_CFG_SPACE_EXP_SIZE <? dfl_res_off + dfl_cnt * 4 then throw (- EINVAL) else
  vsec_loop (Z.to_nat dfl_cnt) dfl_res_off 0 info.

Definition bar0_readq (off : Z) : M pci_st Z := readq_at mmio (pci_resource_start 0 + off).
(* drivers/fpga/dfl.h:482-488 dfl_feature_is_fme *)
Definition dfl_feature_is_fme : M pci_st bool :=
  v ← bar0_readq DFH;
  mret ((FIELD_GET DFH_TYPE v =? DFH_TYPE_FIU) && (FIELD_GET DFH_ID v =? DFH_ID_FIU_FME)).
(* drivers/fpga/dfl.h:490-496 dfl_feature_is_port *)
Definition dfl_feature_is_port : M pci_st bool :=
  v ← bar0_readq DFH;
  mret ((FIELD_GET DFH_TYPE v =? DFH_TYPE_FIU) && (FIELD_GET DFH_ID v =? DFH_ID_FIU_PORT)).
(* drivers/fpga/dfl.h:498-503 dfl_feature_is_private *)
Definition dfl_feature_is_private : M pci_st bool :=
  v ← bar0_readq DFH;
  mret (FIELD_GET DFH_TYPE v =? DFH_TYPE_PRIVATE).

(** The ports from [i] on, [n] of them. *)
(* drivers/fpga/dfl-pci.c:277-315 find_dfls_by_default *)
Fixpoint port_loop (n : nat) (i bars : Z) (info : dfl_fpga_enum_info) : M pci_st dfl_fpga_enum_info :=
  match n with
  | O => mret info
  | S n =>
      v ← bar0_readq (FME_HDR_PORT_OFST i);
      if negb (has_bits FME_PORT_OFST_IMP v) then port_loop n (i + 1) bars info else
      let bar := FIELD_GET FME_PORT_OFST_BAR_ID v in
      let offset := u32 (FIELD_GET FME_PORT_OFST_DFH_OFST v) in
      if bar =? FME_PORT_OFST_BAR_SKIP then port_loop n (i + 1) bars info
      else if PCI_STD_NUM_BARS <=? bar then throw (- EINVAL) else
      if Z.testbit bars bar then port_loop n (i + 1) bars info else
      let start := u64 (pci_resource_start bar + offset) in
      let len := pci_resource_len bar in
      if len <=? offset then port_loop n (i + 1) bars info else
      let len := u64 (len - offset) in
      let bars := Z.lor bars (Z.shiftl 1 bar) in
      info ← add_dfl info start len;
      port_loop n (i + 1) bars info
  end.
(** The mapping of the first BAR is released at the end on every path. *)
(* drivers/fpga/dfl-pci.c:241-339 find_dfls_by_default *)
Definition find_dfls_by_default (info : dfl_fpga_enum_info) : M pci_st dfl_fpga_enum_info :=
  ok ← pci_op pci_map_bar0;
  if negb ok then throw (- ENOMEM) else
  fme ← dfl_feature_is_fme;
  if (fme : bool) then
    info ← add_dfl info (pci_resource_start 0) (pci_resource_len 0);
    v ← bar0_readq FME_HDR_CAP;
    let port_num := FIELD_GET FME_CAP_NUM_PORTS v in
    port_loop (Z.to_nat port_num) 0 (Z.shiftl 1 0) info
  else
    port ← dfl_feature_is_port;
    if (port : bool) then add_dfl info (pci_resource_start 0) (pci_resource_len 0) else
    private ← dfl_feature_is_private;
    if (private : bool) then add_dfl info (pci_resource_start 0) (pci_resource_len 0) else
    v ← bar0_readq DFH;
    if negb (FIELD_GET DFH_TYPE v =? DFH_TYPE_AFU) then throw (- ENODEV) else mret info.

(** ** Enumeration *)

Definition on_k {A} (m : M kst A) : M pci_st A := on_est (ek m).
(** What is between the allocation of the vectors and the label that frees them. *)
(* drivers/fpga/dfl-pci.c:361-389 cci_enumerate_feature_devs *)
Definition enumerate_with (nvec : Z) (info : dfl_fpga_enum_info) : M pci_st unit :=
  info ←
    (if negb (nvec =? 0) then
       irq_table ← cci_pci_create_irq_table nvec;
       match (irq_table : option (list Z)) with
       | None => throw (- ENOMEM)
       | Some table => on_k (dfl_fpga_enum_info_add_irq info nvec (Some table))
       end
     else mret info);
  r ← attempt (find_dfls_by_vsec info);
  info ←
    match (r : Z + dfl_fpga_enum_info) with
    | inr info => mret info
    | inl ret => if ret =? - ENODEV then find_dfls_by_default info else throw ret
    end;
  cdev ← on_est (dfl_fpga_feature_devs_enumerate mmio NR_IRQS chrdev_major fuel info);
  modify (set_pc_cdev (Some cdev)).
(** The info goes away at the end on every path. *)
(* drivers/fpga/dfl-pci.c:342-398 cci_enumerate_feature_devs *)
Definition cci_enumerate_feature_devs : M pci_st unit :=
  info ← on_k (dfl_fpga_enum_info_alloc dev);
  match (info : option dfl_fpga_enum_info) with
  | None => throw (- ENOMEM)
  | Some info =>
      on_error (
        nvec ← cci_pci_alloc_irq;
        on_error (enumerate_with nvec info) cci_pci_free_irq)
        (on_k (dfl_fpga_enum_info_free dev (Some info))) ;;
      on_k (dfl_fpga_enum_info_free dev (Some info))
  end.
(** The variant for kernels that report errors of the bus themselves. *)
(* drivers/fpga/dfl-pci.c:400-449 cci_pci_probe *)
Definition cci_pci_probe : M pci_st unit :=
  ret ← pci_op pci_enable_device;
  if ret <? 0 then throw ret else
  ret ← pci_op (pci_set_dma_mask 64);
  ret ← (if negb (ret =? 0) then pci_op (pci_set_dma_mask 32) else mret ret);
  rc ret ;;
  ok ← pci_op pci_alloc;
  if negb ok then throw (- ENOMEM) else
  cci_enumerate_feature_devs.
(* drivers/fpga/dfl-pci.c:149-156 cci_remove_feature_devs *)
Definition cci_remove_feature_devs : M pci_st unit :=
  s ← get;
  cdev ← access (pc_cdev s);
  _ ← on_k (dfl_fpga_feature_devs_remove cdev);
  cci_pci_free_irq.

(** ** The device tree *)

(** The memory of the node is claimed and mapped for a moment: [claimed] and
    [mapped] say whether that is possible. *)
(* drivers/fpga/dfl-platform.c:48-79 dfl_platform_process_dfl_node *)
Definition dfl_platform_process_dfl_node (claimed mapped : bool) (info : dfl_fpga_enum_info) (start end_ : Z)
    : M pci_st dfl_fpga_enum_info :=
  let len := u64 (end_ - start + 1) in
  if negb claimed then throw (- EINVAL) else
  if negb mapped then throw (- ENOMEM) else
  add_dfl info start len.
(* drivers/fpga/dfl-platform.c:82-114 dfl_platform_enumerate_feature_devs *)
Definition dfl_platform_enumerate_feature_devs (claimed mapped : bool) (start end_ : Z) : M pci_st unit :=
  info ← on_k (dfl_fpga_enum_info_alloc dev);
  match (info : option dfl_fpga_enum_info) with
  | None => throw (- ENOMEM)
  | Some info =>
      on_error (
        info' ← dfl_platform_process_dfl_node claimed mapped info start end_;
        cdev ← on_est (dfl_fpga_feature_devs_enumerate mmio NR_IRQS chrdev_major fuel info');
        modify (set_pc_cdev (Some cdev)))
        (on_k (dfl_fpga_enum_info_free dev (Some info))) ;;
      on_k (dfl_fpga_enum_info_free dev (Some info))
  end.
(** [location] is what the node says, or an error. *)
(* drivers/fpga/dfl-platform.c:116-156 dfl_platform_probe *)
Definition dfl_platform_probe (location : Z + Z * Z) (claimed mapped : bool) : M pci_st unit :=
  match location with
  | inl _ => throw (- EINVAL)
  | inr (start, end_) =>
      if (start =? 0) || (end_ =? 0) || (end_ <=? start) then throw (- EINVAL) else
      ret ← pci_op (pci_set_dma_mask 64);
      (if negb (ret =? 0) then
         ret ← pci_op (pci_set_dma_mask 32);
         rc ret
       else mret tt) ;;
      ok ← pci_op pci_alloc;
      if negb ok then throw (- ENOMEM) else
      dfl_platform_enumerate_feature_devs claimed mapped start end_
  end.
(* drivers/fpga/dfl-platform.c:159-168 dfl_platform_remove *)
Definition dfl_platform_remove : M pci_st unit :=
  s ← get;
  cdev ← access (pc_cdev s);
  _ ← on_k (dfl_fpga_feature_devs_remove cdev);
  mret tt.
End Pci.

(** ** Virtual functions *)
Section Sriov.
Context `{Kernel} `{PciBus}.
(** [sr_vfs] is how many virtual functions are enabled. *)
Record sriov_st := SriovSt {
  sr_k : pcik;
  sr_ports : pst;
  sr_vfs : Z;
}.
Implicit Types s : sriov_st.
Definition on_ports {A} (m : M pst A) : M sriov_st A :=
  zoom sr_ports (λ p s, SriovSt (sr_k s) p (sr_vfs s)) m.
Definition set_sr_vfs x s := SriovSt (sr_k s) (sr_ports s) x.
Definition enable_sriov (num_vfs : Z) : M sriov_st unit := λ s,
  let (ret, k) := pci_enable_sriov num_vfs (sr_k s) in
  (rc ret ;; modify (set_sr_vfs num_vfs)) (SriovSt k (sr_ports s) (sr_vfs s)).
(* drivers/fpga/dfl-pci.c:451-484 cci_pci_sriov_configure *)
Definition cci_pci_sriov_configure (num_vfs : Z) : M sriov_st Z :=
  (if num_vfs =? 0 then
     modify (set_sr_vfs 0) ;;
     on_ports dfl_fpga_cdev_config_ports_pf
   else
     on_ports (dfl_fpga_cdev_config_ports_vf num_vfs) ;;
     on_error (enable_sriov num_vfs) (on_ports dfl_fpga_cdev_config_ports_pf)) ;;
  mret num_vfs.
End Sriov.

(** ** Where the lists are *)
Section Inside.
Context `{Kernel} `{PciBus} (dev : Z) (mmio : Z → option Z) (NR_IRQS : Z) (chrdev_major : Z → Z) (fuel : nat).
Implicit Types (s : pci_st) (info : dfl_fpga_enum_info).
(** A BAR does not wrap. *)
Definition bars_ok : Prop :=
  ∀ b, 0 ≤ pci_resource_start b ∧ 0 ≤ pci_resource_len b ∧ pci_resource_start b + pci_resource_len b < 2 ^ 64.
Context (Hbars : bars_ok).

(** The list runs from some offset to the end of its BAR. *)
Definition in_bar (d : Z * Z) (b : Z) : Prop :=
  0 ≤ b < PCI_STD_NUM_BARS ∧
  ∃ off, 0 ≤ off ≤ pci_resource_len b ∧ d = (pci_resource_start b + off, pci_resource_len b - off).
(** Each list is in a BAR of its own, among those marked in [bars]. *)
Definition lists_in (bars : Z) (dfls : list (Z * Z)) : Prop :=
  ∃ bs, NoDup bs ∧ Forall2 in_bar dfls bs ∧ Forall (λ b, Z.testbit bars b = true) bs.
Definition dfls_inside (dfls : list (Z * Z)) : Prop := ∃ bs, NoDup bs ∧ Forall2 in_bar dfls bs.

Lemma lists_in_nil bars : lists_in bars [].
Proof. exists []. split_and!; constructor. Qed.
Lemma lists_in_bars bars bars' dfls :
  lists_in bars dfls → (∀ b, 0 ≤ b → Z.testbit bars b = true → Z.testbit bars' b = true) → lists_in bars' dfls.
Proof.
  intros (bs & Hn & H2 & Hall) Hb. exists bs. split_and!; [done..|]. apply list.Forall_forall. intros b Hin.
  apply Hb; [|by apply (proj1 (list.Forall_forall _ _) Hall)].
  apply list_elem_of_lookup in Hin as [i Hi]. destruct (Forall2_lookup_r _ _ _ _ _ H2 Hi) as (d & _ & Hd & _). lia.
Qed.
Lemma lists_in_add bars dfls d b :
  lists_in bars dfls → in_bar d b → Z.testbit bars b = false → lists_in (Z.lor bars (Z.shiftl 1 b)) (dfls ++ [d]).
Proof.
  intros (bs & Hn & H2 & Hall) Hd Hb. pose proof Hd as [[Hb0 _] _].
  exists (bs ++ [b]). split_and!.
  - apply list.NoDup_app. split_and!; [done| |apply NoDup_singleton].
    intros x Hx ->%list_elem_of_singleton. rewrite list.Forall_forall in Hall. specialize (Hall b Hx). congruence.
  - by apply Forall2_app; [|constructor].
  - apply list.Forall_app. split; [|constructor; [|done]].
    + eapply list.Forall_impl; [exact Hall|]. cbv beta. intros x Hx. by rewrite Z.lor_spec, Hx.
    + rewrite Z.lor_spec, Z.shiftl_1_l, Z.pow2_bits_true by lia. apply orb_true_r.
Qed.

Definition same_irqs info info' : Prop := ei_nr_irqs info' = ei_nr_irqs info ∧ ei_irq_table info' = ei_irq_table info.
(** A list is added, or left out for lack of memory. *)
Lemma add_dfl_spec info start len s :
  wp (add_dfl info start len)
     (λ info' s', (info' = info ∨ ei_dfls info' = ei_dfls info ++ [(start, len)]) ∧ same_irqs info info' ∧ pc_cdev s' = pc_cdev s ∧ pc_vectors s' = pc_vectors s)
     (λ _ _, False) s.
Proof.
  unfold add_dfl. wstep. apply wp_zoom. unfold ek, attempt, dfl_fpga_enum_info_add_dfl, kalloc, kop, zoom.
  cbv [mbind M_bind mret M_ret throw]. destruct (k_alloc (e_k (pc_est s))) as [[] k]; wsteps; cbn; unfold same_irqs; auto.
Qed.
Lemma lists_in_mono bars dfls b : lists_in bars dfls → lists_in (Z.lor bars (Z.shiftl 1 b)) dfls.
Proof. intros Hl. eapply lists_in_bars; [done|]. intros x _ Hx. by rewrite Z.lor_spec, Hx. Qed.
(** What adding a list at an offset in a BAR that is not marked does. *)
Lemma add_inside info b off bars s (Q : dfl_fpga_enum_info → pci_st → Prop) E :
  lists_in bars (ei_dfls info) → 0 ≤ b < PCI_STD_NUM_BARS → Z.testbit bars b = false → 0 ≤ off ≤ pci_resource_len b →
  (∀ info' s', lists_in (Z.lor bars (Z.shiftl 1 b)) (ei_dfls info') → same_irqs info info' →
    pc_cdev s' = pc_cdev s → pc_vectors s' = pc_vectors s → Q info' s') →
  wp (add_dfl info (pci_resource_start b + off) (pci_resource_len b - off)) Q E s.
Proof.
  intros Hl Hb Hbit Hoff HQ. eapply wp_mono; [apply add_dfl_spec| |done].
  intros info' s' ([-> | He] & Hi & Hc & Hv); apply HQ; try done; [by apply lists_in_mono|]. rewrite He. apply lists_in_add; [done| |done].
  split; [done|]. by exists off.
Qed.
Definition keeps_rest s s' : Prop := pc_cdev s' = pc_cdev s ∧ pc_vectors s' = pc_vectors s.
Lemma u32_land v m : 0 ≤ Z.land (u32 v) m.
Proof. apply Z.land_nonneg. left. apply u32_range. Qed.
Lemma vsec_loop_spec n : ∀ off bars info s,
  lists_in bars (ei_dfls info) →
  wp (vsec_loop n off bars info) (λ info' s', dfls_inside (ei_dfls info') ∧ same_irqs info info' ∧ keeps_rest s s')
     (λ e s', e = - EINVAL ∧ keeps_rest s s') s.
Proof.
  induction n as [|n IH]; intros off bars info s Hl; cbn [vsec_loop].
  { wsteps. split; [|by repeat split]. destruct Hl as (bs & ? & ? & _). by exists bs. }
  set (bir := Z.land _ (mask PCI_VNDR_DFLS_RES_BAR_MASK)). set (offset := Z.land _ (mask PCI_VNDR_DFLS_RES_OFF_MASK)).
  assert (0 ≤ bir) by apply u32_land. assert (0 ≤ offset) by apply u32_land.
  destruct (Z.leb_spec PCI_STD_NUM_BARS bir); [by wsteps|]. destruct (Z.testbit bars bir) eqn:Hbit; [by wsteps|].
  destruct (Z.leb_spec (pci_resource_len bir) offset); [by wsteps|]. destruct (Hbars bir) as (? & ? & ?).
  rewrite !u64_small by (unfold is_u64; lia). wstep. eapply add_inside; [done|done|done|lia|].
  intros info' s' Hl' [Hi1 Hi2] Hc Hv. eapply wp_mono; [by apply IH|..]; unfold keeps_rest, same_irqs; cbv beta.
  - intros ? ? (? & (? & ?) & ? & ?). split_and!; congruence.
  - intros ? ? (? & ? & ?). split_and!; congruence.
Qed.
Lemma find_dfls_by_vsec_spec info s :
  ei_dfls info = [] →
  wp (find_dfls_by_vsec info) (λ info' s', dfls_inside (ei_dfls info') ∧ same_irqs info info' ∧ keeps_rest s s')
     (λ _ s', keeps_rest s s') s.
Proof.
  intros He. unfold find_dfls_by_vsec. do 3 (case_match; [by wsteps|]).
  eapply wp_mono; [apply vsec_loop_spec; rewrite He; apply lists_in_nil|naive_solver|naive_solver].
Qed.
Lemma bar0_spec off s (Q : Z → pci_st → Prop) E : (∀ v, Q v s) → wlp (bar0_readq mmio off) Q E s.
Proof. intros HQ. unfold bar0_readq, readq_at. apply wp_access; [|done]. intros v _. apply HQ. Qed.
Lemma port_loop_spec n : ∀ i bars info s,
  lists_in bars (ei_dfls info) →
  wlp (port_loop mmio n i bars info) (λ info' s', dfls_inside (ei_dfls info') ∧ same_irqs info info' ∧ keeps_rest s s')
      (λ _ s', keeps_rest s s') s.
Proof.
  induction n as [|n IH]; intros i bars info s Hl; cbn [port_loop].
  { wsteps. split; [|by repeat split]. destruct Hl as (bs & ? & ? & _). by exists bs. }
  wstep. apply bar0_spec. intros v. case_match; [by apply IH|]. case_match; [by apply IH|].
  set (bar := FIELD_GET FME_PORT_OFST_BAR_ID v). set (offset := u32 _). cbv zeta.
  assert (0 ≤ bar) by (apply FIELD_GET_nonneg; by vm_compute). pose proof (u32_range (FIELD_GET FME_PORT_OFST_DFH_OFST v)) as [Ho _]. fold offset in Ho.
  destruct (Z.leb_spec PCI_STD_NUM_BARS bar); [by wsteps|]. destruct (Z.testbit bars bar) eqn:Hbit; [by apply IH|].
  destruct (Z.leb_spec (pci_resource_len bar) offset); [by apply IH|]. destruct (Hbars bar) as (? & ? & ?).
  rewrite !u64_small by (unfold is_u64; lia). wstep. apply wp_loosen. eapply add_inside; [done|done|done|lia|].
  intros info' s' Hl' [Hi1 Hi2] Hc Hv. eapply wp_mono; [by apply IH|..]; unfold keeps_rest, same_irqs; cbv beta.
  - intros ? ? (? & (? & ?) & ? & ?). split_and!; congruence.
  - intros ? ? (? & ?). split_and!; congruence.
Qed.

Lemma find_dfls_by_default_spec info s :
  ei_dfls info = [] →
  wlp (find_dfls_by_default mmio info) (λ info' s', dfls_inside (ei_dfls info') ∧ same_irqs info info' ∧ keeps_rest s s')
      (λ _ s', keeps_rest s s') s.
Proof.
  intros He. unfold find_dfls_by_default. destruct (Hbars 0) as (? & ? & ?).
  assert (∀ s0 (Q : dfl_fpga_enum_info → pci_st → Prop) E,
    (∀ info' s', lists_in (Z.lor 0 (Z.shiftl 1 0)) (ei_dfls info') → same_irqs info info' → pc_cdev s' = pc_cdev s0 → pc_vectors s' = pc_vectors s0 → Q info' s') →
    wlp (add_dfl info (pci_resource_start 0) (pci_resource_len 0)) Q E s0) as Hfirst.
  { intros s0 Q E HQ. apply wp_loosen. rewrite <- (Z.add_0_r (pci_resource_start 0)), <- (Z.sub_0_r (pci_resource_len 0)).
    apply (add_inside info 0 0 0); [rewrite He; apply lists_in_nil|done|done|lia|done]. }
  assert (∀ bars dfls, lists_in bars dfls → dfls_inside dfls) as Hins by (intros ? ? (bs & ? & ? & _); by exists bs).
  wstep. unfold wpg at 1, pci_op. destruct (pci_map_bar0 (pc_k s)) as [ok k]. destruct ok; cbn [negb]; [|by wsteps].
  unfold dfl_feature_is_fme, dfl_feature_is_port, dfl_feature_is_private. wsteps. apply bar0_spec. intros v. wsteps.
  destruct (_ && _); wsteps.
  { apply Hfirst. intros info' s' Hl [Hi1 Hi2] Hc Hv. cbn [pc_cdev pc_vectors] in Hc, Hv. wsteps. apply bar0_spec. intros w.
    eapply wp_mono; [by apply port_loop_spec|..]; unfold keeps_rest, same_irqs; cbv beta.
    - intros ? ? (? & (? & ?) & ? & ?). split_and!; congruence.
    - intros ? ? (? & ?). split_and!; congruence. }
  apply bar0_spec. intros v1. wsteps. destruct (_ && _); wsteps.
  { apply Hfirst. intros info' s' Hl Hi Hc Hv. split_and!; [by eapply Hins|done|by split]. }
  apply bar0_spec. intros v2. wsteps. destruct (_ =? _); wsteps.
  { apply Hfirst. intros info' s' Hl Hi Hc Hv. split_and!; [by eapply Hins|done|by split]. }
  apply bar0_spec. intros v3. destruct (negb _); wsteps; [done|]. split; [|by repeat split]. rewrite He.
  by apply (Hins 0), lists_in_nil.
Qed.

(** The interrupts of the info are those of the device. *)
Definition irqs_of_bus info : Prop :=
  ei_nr_irqs info = Z.max 0 pci_msix_vec_count ∧
  (0 < pci_msix_vec_count → ei_irq_table info = Some (pci_irq_vector <$> seqZ 0 pci_msix_vec_count)).

Lemma alloc_irq_spec s :
  pc_vectors s = false →
  wp cci_pci_alloc_irq
    (λ nvec s', nvec = Z.max 0 pci_msix_vec_count ∧ pc_cdev s' = pc_cdev s)
    (λ _ s', pc_vectors s' = false ∧ pc_cdev s' = pc_cdev s) s.
Proof.
  intros Hv. unfold cci_pci_alloc_irq. destruct (Z.leb_spec pci_msix_vec_count 0); [wsteps; split; [lia|done]|].
  wstep. unfold wpg at 1, pci_op. destruct (pci_alloc_irq_vectors _ _) as [ret k]. destruct (ret <? 0); wsteps; [done|].
  split; [lia|done].
Qed.
(** The info with the interrupts of the device. *)
Lemma add_irqs_spec nvec info s :
  nvec = Z.max 0 pci_msix_vec_count → ei_nr_irqs info = 0 → ei_irq_table info = None →
  wp (if negb (nvec =? 0) then
        irq_table ← cci_pci_create_irq_table nvec;
        match (irq_table : option (list Z)) with
        | None => throw (- ENOMEM)
        | Some table => on_k (dfl_fpga_enum_info_add_irq info nvec (Some table))
        end
      else mret info)
    (λ info' s', irqs_of_bus info' ∧ ei_dfls info' = ei_dfls info ∧ keeps_rest s s') (λ _ s', pc_cdev s' = pc_cdev s) s.
Proof.
  intros Hn Hnr Hno. unfold irqs_of_bus. destruct (Z.eqb_spec nvec 0) as [He|He]; cbn [negb]; wsteps.
  { rewrite Hnr. repeat split; lia. }
  unfold cci_pci_create_irq_table. wstep. unfold wpg at 1, pci_op. destruct (pci_alloc (pc_k s)) as [[] k]; wsteps; [|done].
  apply wp_zoom. unfold ek, zoom, dfl_fpga_enum_info_add_irq, kalloc, kop. cbv [mbind M_bind mret M_ret throw].
  rewrite (proj2 (Z.eqb_neq _ _) He), Hno. cbn [pc_est set_pc_est]. destruct (k_alloc _) as [[] k']; cbn; [|done].
  split; [|by repeat split]. split; [done|]. intros _. rewrite firstn_all2; [by replace nvec with pci_msix_vec_count by lia|].
  rewrite length_fmap, length_seqZ. lia.
Qed.

(** The info that is enumerated. *)
Definition enum_info_ok info : Prop := dfls_inside (ei_dfls info) ∧ irqs_of_bus info.
Definition enumerated s' : Prop :=
  ∃ info est est' c, enum_info_ok info ∧
    dfl_fpga_feature_devs_enumerate mmio NR_IRQS chrdev_major fuel info est = Done (Val c, est') ∧
    pc_cdev s' = Some c ∧ cdev_ok mmio NR_IRQS c.
Lemma enumerate_with_spec nvec info s :
  nvec = Z.max 0 pci_msix_vec_count → info = EnumInfo true [] 0 None →
  wlp (enumerate_with mmio NR_IRQS chrdev_major fuel nvec info) (λ _ s', enumerated s') (λ _ s', pc_cdev s' = pc_cdev s) s.
Proof.
  intros Hn ->. unfold enumerate_with. wstep.
  eapply wp_mono; [apply wp_loosen, add_irqs_spec; done| |done]. cbv beta. intros info s1 ([Hi1 Hi2] & Hd & Hk1). cbn [ei_dfls] in Hd.
  assert (∀ info' s', dfls_inside (ei_dfls info') ∧ same_irqs info info' ∧ keeps_rest s1 s' →
    wlp (on_est (dfl_fpga_feature_devs_enumerate mmio NR_IRQS chrdev_major fuel info'))
      (λ c, wlp (modify (set_pc_cdev (Some c))) (λ _ s', enumerated s') (λ _ s', pc_cdev s' = pc_cdev s))
      (λ _ s', pc_cdev s' = pc_cdev s) s') as Hend.
  { intros info' s' (Hin & [Hs1 Hs2] & [Hc Hv]). apply wp_zoom.
    pose proof (enumerate_spec mmio NR_IRQS chrdev_major fuel info' (pc_est s')) as Hen. unfold wpg in Hen.
    destruct (dfl_fpga_feature_devs_enumerate _ _ _ _ info' _) as [[[c|e] est']| |] eqn:Hrun; [|destruct Hk1; cbn; congruence|done|done].
    wsteps. exists info', (pc_est s'), est', c. split_and!; [|done|done|done]. split; [done|]. split; [congruence|].
    intros Hp. rewrite Hs2. by apply Hi2. }
  wsteps. eapply wp_mono; [by apply wp_loosen, find_dfls_by_vsec_spec|..]; cbv beta.
  - intros info' s2 Hok. wsteps. by apply Hend.
  - intros e s2 Hk2. destruct (e =? - ENODEV); wsteps; [|destruct Hk1, Hk2; congruence].
    eapply wp_mono; [by apply find_dfls_by_default_spec|..]; cbv beta.
    + intros info' s3 (Hin & Hs & [Hc Hv]). destruct Hk2. wsteps. apply Hend. split; [done|]. split; [done|]. split; congruence.
    + intros e' s3 [Hc Hv]. destruct Hk1, Hk2. congruence.
Qed.

Lemma alloc_info_spec s (Q : option dfl_fpga_enum_info → pci_st → Prop) E :
  (∀ est, Q (Some (EnumInfo true [] 0 None)) (set_pc_est est s) ∧ Q None (set_pc_est est s)) →
  wp (on_k (dfl_fpga_enum_info_alloc dev)) Q E s.
Proof.
  intros HQ. apply wp_zoom. unfold ek, zoom, dfl_fpga_enum_info_alloc, kdo, kop. cbv [mbind M_bind mret M_ret].
  destruct (k_alloc _) as [[] k]; cbn; apply HQ.
Qed.

(** C2: what the probe of a card hands to the enumeration are lists that run from an
    offset of a BAR to its end, no two in one BAR, whatever the configuration space and
    the registers of the card say, together with the interrupts of the device; and if
    it succeeds, the container it keeps is the well-formed one that was enumerated.  If
    it fails, no container is kept and the interrupt vectors are freed. *)
Theorem enumerate_inside s :
  pc_vectors s = false →
  wlp (cci_enumerate_feature_devs dev mmio NR_IRQS chrdev_major fuel)
    (λ _ s', enumerated s')
    (λ _ s', pc_vectors s' = false ∧ pc_cdev s' = pc_cdev s) s.
Proof.
  intros Hv. unfold cci_enumerate_feature_devs. wstep. apply wp_loosen, alloc_info_spec. intros est0. split; wsteps; [|done].
  assert (∀ s' (Q : pci_st → Prop), (∀ e, Q (set_pc_est e s')) →
    wlp (on_k (dfl_fpga_enum_info_free dev (Some (EnumInfo true [] 0 None)))) (λ _, Q) (λ _, Q) s') as Hfree.
  { intros s' Q HQ. apply wp_zoom. cbn. apply HQ. }
  eapply wp_mono; [by apply wp_loosen, alloc_irq_spec|..]; cbv beta.
  - intros nvec s1 [Hn Hc]. wsteps. eapply wp_mono; [by apply enumerate_with_spec|..]; cbv beta.
    + intros _ s2 He. apply Hfree. intros e. exact He.
    + intros e s2 Hc2. unfold cci_pci_free_irq. wsteps. apply Hfree. intros est. cbn in *. split; [done|congruence].
  - intros e s1 [Hv1 Hc]. apply Hfree. intros est. by split.
Qed.
End Inside.

(** ** Enabling virtual functions *)
Section SriovFacts.
Context `{Kernel} `{PciBus}.
Implicit Types s : sriov_st.
(** The ports are those before, with the mode of the released ones as given. *)
Definition ports_as base (modes : list bool) s s' : Prop :=
  let ports := cd_port_dev_list (p_c (sr_ports s)) in
  p_c (sr_ports s') = p_c (sr_ports s) ∧ p_refs (sr_ports s') = p_refs (sr_ports s) ∧
  regs_eq (sr_ports s') (foldl (λ r vf, configured base ports vf r) (p_regs (sr_ports s)) modes).

Lemma sr_ports_spec {A} (m : M pst A) s (Q : A → sriov_st → Prop) E :
  wp m (λ a p, Q a (SriovSt (sr_k s) p (sr_vfs s))) (λ e p, E e (SriovSt (sr_k s) p (sr_vfs s))) (sr_ports s) →
  wp (on_ports m) Q E s.
Proof. intros Hm. apply wp_zoom. unfold wpg in Hm. by destruct (m (sr_ports s)) as [[[] ?]| |]. Qed.
Lemma regs_eq_configured base l vf p r : regs_eq p r → ∀ a, configured base l vf (p_regs p) a = configured base l vf r a.
Proof. intros Hr a. unfold configured. by rewrite (Hr a). Qed.

(** Enabling some virtual functions puts exactly the released ports into their mode,
    and takes them back if the bus refuses; it is refused, and nothing done, if not
    as many ports are released.  Disabling takes the ports back. *)
Lemma sriov_configure_exact base num_vfs s :
  fme_header (sr_ports s) base → ports_inv (sr_ports s) →
  wp (cci_pci_sriov_configure num_vfs)
    (λ n s', n = num_vfs ∧ sr_vfs s' = num_vfs ∧ ports_as base [negb (num_vfs =? 0)] s s')
    (λ e s', sr_vfs s' = sr_vfs s ∧ (e = - EINVAL ∧ ports_as base [] s s' ∨ ports_as base [true; false] s s')) s.
Proof.
  intros Hfme Hinv. unfold cci_pci_sriov_configure. wstep. destruct (Z.eqb_spec num_vfs 0) as [->|Hn]; cbn [negb]; wsteps.
  { apply sr_ports_spec. eapply wp_mono; [by apply (config_ports_pf_exact base)| |done].
    intros _ p (Hc & Hr & _ & _ & Hregs). wsteps. by repeat split. }
  apply sr_ports_spec. eapply wp_mono; [by apply (config_ports_vf_exact base)|..]; cbv beta.
  2: { intros e p (-> & -> & _). split; [done|]. left. by repeat split. }
  intros _ p (_ & Hc & Hr & _ & _ & Hregs). wsteps.
  unfold wpg at 1, enable_sriov. cbn [sr_k sr_ports sr_vfs]. destruct (pci_enable_sriov num_vfs (sr_k s)) as [ret k].
  unfold rc. destruct (Z.eqb_spec ret 0); cbv [mbind M_bind mret M_ret throw modify]; wsteps; [by repeat split|].
  apply sr_ports_spec. cbn [sr_ports]. eapply wp_mono; [apply (config_ports_pf_exact base); unfold fme_header in *; by rewrite Hc| |done].
  intros _ p' (Hc' & Hr' & _ & _ & Hregs'). split; [done|]. right.
  split; [cbn; congruence|]. split; [cbn; congruence|]. intros a. cbn. rewrite Hregs', Hc. by apply regs_eq_configured.
Qed.
End SriovFacts.

(** ** Concrete cards *)

(** The card of [fme_device]: its list is in BAR 0, which the capability at 0x100
    says, unless there is none. *)
Definition demo_bus (vsec : bool) : PciBus := {|
  pcik := unit;
  pci_find_vsec_capability := if vsec then 0x100 else 0;
  pci_read_config_dword a := if a =? 0x108 then 1 else 0;
  pci_resource_start b := if b =? 0 then 0x1000 else 0;
  pci_resource_len b := if b =? 0 then 0x2000 else 0;
  pci_msix_vec_count := 4;
  pci_irq_vector i := 50 + i;
  pci_alloc_irq_vectors _ k := (0, k);
  pci_map_bar0 k := (true, k);
  pci_alloc k := (true, k);
  pci_enable_device k := (0, k);
  pci_set_dma_mask _ k := (0, k);
  pci_enable_sriov _ k := (- EBUSY, k);
|}.
Lemma demo_bus_ok vsec : @bars_ok (demo_bus vsec).
Proof. intros b. cbn. destruct (b =? 0); lia. Qed.
Definition unprobed `{Kernel} (vsec : bool) (k : kst) : @pci_st _ (demo_bus vsec) :=
  @PciSt _ (demo_bus vsec) tt (Est k (λ _, ∅) (BInfo 0 [] 0 0 0 0 [] 0) (CDev [] [] [] 0)) false None.
Definition demo_probe `{Kernel} (vsec : bool) (k : kst) : exec (outcome unit * @pci_st _ (demo_bus vsec)) :=
  @cci_enumerate_feature_devs _ (demo_bus vsec) 1 fme_device 1024 (λ _, 240) 1000 (unprobed vsec k).

Lemma enumerate_inside_witness :
  ∃ s', @demo_probe demo_kernel false 0 = Done (Val tt, s') ∧
    @enumerated demo_kernel (demo_bus false) fme_device 1024 (λ _, 240) 1000 s'.
Proof.
  pose proof (@enumerate_inside demo_kernel (demo_bus false) 1 fme_device 1024 (λ _, 240) 1000
    (demo_bus_ok false) (@unprobed demo_kernel false 0) eq_refl) as Hx.
  destruct (wp_val _ _ _ _ tt Hx ltac:(vm_compute; reflexivity)) as (s' & He & Hp).
  exists s'. unfold demo_probe. split; [exact He|exact Hp].
Defined.
Definition probed_lists `{Kernel} vsec (r : exec (outcome unit * @pci_st _ (demo_bus vsec))) : option (nat * bool) :=
  match r with Done (Val _, s) => (λ c, (length (cd_fmes c), pc_vectors s)) <$> pc_cdev s | _ => None end.
Example probe_by_vsec : @probed_lists demo_kernel true (@demo_probe demo_kernel true 0) = Some (1%nat, true).
Proof. vm_compute. reflexivity. Qed.

(** A kernel without memory for the third allocation. *)
Definition short_kernel : Kernel := {|
  kst := Z;
  k_alloc k := (negb (k =? 2), k + 1);
  k_request_region := @k_request_region demo_kernel;
  k_release_region := @k_release_region demo_kernel;
  k_ioremap := @k_ioremap demo_kernel;
  k_iounmap := @k_iounmap demo_kernel;
  k_ioremap_resource := @k_ioremap_resource demo_kernel;
  k_idr_alloc := @k_idr_alloc demo_kernel;
  k_add_action := @k_add_action demo_kernel;
  k_pdev_alloc := @k_pdev_alloc demo_kernel;
  k_pdev_add_resources := @k_pdev_add_resources demo_kernel;
  k_pdev_add_data := @k_pdev_add_data demo_kernel;
  k_pdev_add := @k_pdev_add demo_kernel;
  k_pdev_put := @k_pdev_put demo_kernel;
  k_pdev_unregister := @k_pdev_unregister demo_kernel;
  k_region_register := @k_region_register demo_kernel;
  k_region_unregister := @k_region_unregister demo_kernel;
  k_get_device := @k_get_device demo_kernel;
  k_put_device := @k_put_device demo_kernel;
|}.
(** The list of the card can not be added to the info, and the probe succeeds with an
    empty container. *)
Example list_left_out : @probed_lists short_kernel true (@demo_probe short_kernel true 0) = Some (0%nat, true).
Proof. vm_compute. reflexivity. Qed.
