(* ===== verification/DflPciSva.v ===== *)
(** * Shared virtual addressing of cards (drivers/fpga/dfl-pci-sva.c)

    For each card that supports it there is a device file; a process that opens it
    can have its address space bound to the card.  The card may go away while files
    are open: the node of the device is then kept until the last file is closed.

    Objects that are allocated and freed have addresses; an access to one that is not
    there faults.  Each operation runs under a mutex in the code. *)
From stdpp Require Import gmap gmultiset.
From S2P Require Import Prelude.

(* include/uapi/linux/fpga-dfl.h:46-46 DFL_FPGA_GET_API_VERSION *)
Definition SVA_GET_API_VERSION : Z := 0xB600.
(* include/uapi/linux/fpga-dfl.h:296-297 DFL_PCI_SVA_BIND_DEV *)
Definition DFL_PCI_SVA_BIND_DEV : Z := 0xB6F8.
(* include/uapi/linux/fpga-dfl.h:304-305 DFL_PCI_SVA_UNBIND_DEV *)
Definition DFL_PCI_SVA_UNBIND_DEV : Z := 0xB6F9.
(* include/uapi/linux/fpga-dfl.h:20-20 DFL_FPGA_API_VERSION *)
Definition SVA_API_VERSION : Z := 0.
(* drivers/fpga/dfl-pci-sva.c:39-39 PCIE_DEVICE_ID_INTEL_DFL *)
Definition PCIE_DEVICE_ID_INTEL_DFL : Z := 0xbcce.
(* drivers/fpga/dfl-pci-sva.c:40-40 PCIE_DEVICE_ID_INTEL_DFL_VF *)
Definition PCIE_DEVICE_ID_INTEL_DFL_VF : Z := 0xbccf.
Definition PCI_VENDOR_ID_INTEL : Z := 0x8086.

(** The kernel: a status for each call, whether there is memory; binding gives a
    handle, NULL or an error. *)
Class SvaKernel := {
  svk : Type;
  svk_alloc : svk → bool * svk;
  svk_enable : Z → bool → svk → Z * svk;
  svk_bind : Z → svk → (option Z + Z) * svk;
  svk_pasid : Z → Z;
  svk_misc_register : svk → Z * svk;
  svk_register_notifier : svk → Z * svk;
  pdev_vendor : Z → Z;
  pdev_device : Z → Z;
}.

(** The list of the handles of a device, one per open file, each with its address
    and its binding. *)
(* drivers/fpga/dfl-pci-sva.c:52-60 dfl_sva_dev *)
Record dfl_sva_dev := SvaDev {
  sd_pdev : option Z;
  sd_handles : list (Z * option Z);
}.
(** What is held of the IOMMU: a binding, or a feature of a card ([true] is shared
    addresses, [false] page faults). *)
Abbreviation sva_res := (Z + Z * bool)%type.

Section Sva.
Context `{SvaKernel}.
(** [sv_devs] are the nodes, by address; [sv_list] those of [dfl_dev_list]; [sv_misc]
    those whose device file is registered. *)
Record sva_st := SvaSt {
  sv_k : svk;
  sv_devs : gmap Z dfl_sva_dev;
  sv_list : list Z;
  sv_misc : list Z;
  sv_held : gmultiset sva_res;
  sv_next : Z;
}.
Implicit Types s : sva_st.
Definition set_sv_devs x s := SvaSt (sv_k s) x (sv_list s) (sv_misc s) (sv_held s) (sv_next s).
Definition set_sv_list x s := SvaSt (sv_k s) (sv_devs s) x (sv_misc s) (sv_held s) (sv_next s).
Definition set_sv_misc x s := SvaSt (sv_k s) (sv_devs s) (sv_list s) x (sv_held s) (sv_next s).
Definition set_sv_held x s := SvaSt (sv_k s) (sv_devs s) (sv_list s) (sv_misc s) x (sv_next s).
Definition sv_op {A} (f : svk → A * svk) : M sva_st A := λ s,
  let (a, k) := f (sv_k s) in Done (Val a, SvaSt k (sv_devs s) (sv_list s) (sv_misc s) (sv_held s) (sv_next s)).
(** The address of a new object. *)
Definition new_address : M sva_st Z := λ s,
  Done (Val (sv_next s), SvaSt (sv_k s) (sv_devs s) (sv_list s) (sv_misc s) (sv_held s) (sv_next s + 1)).
Definition hold (r : sva_res) : M sva_st unit := modify (λ s, set_sv_held (sv_held s ⊎ {[+ r +]}) s).
Definition drop_res (r : sva_res) : M sva_st unit := modify (λ s, set_sv_held (sv_held s ∖ {[+ r +]}) s).
Definition get_dev (d : Z) : M sva_st dfl_sva_dev := s ← get; access (sv_devs s !! d).
Definition put_dev (d : Z) (dev : dfl_sva_dev) : M sva_st unit := modify (λ s, set_sv_devs (<[d := dev]> (sv_devs s)) s).
Definition free_dev (d : Z) : M sva_st unit := modify (λ s, set_sv_devs (delete d (sv_devs s)) s).
(** A handle of the list, by its address. *)
Fixpoint find_handle (sva : Z) (l : list (Z * option Z)) : option (option Z) :=
  match l with [] => None | (a, h) :: l => if a =? sva then Some h else find_handle sva l end.
Definition del_handle (sva : Z) (l : list (Z * option Z)) : list (Z * option Z) := base.filter (λ x, x.1 ≠ sva) l.
Definition set_handle (sva : Z) (h : option Z) (l : list (Z * option Z)) : list (Z * option Z) :=
  (λ x, if x.1 =? sva then (x.1, h) else x) <$> l.

(** ** The features of a card *)

(* drivers/fpga/dfl-pci-sva.c:70-94 enable_iommu_sva_feature *)
Definition enable_iommu_sva_feature (pdev : Z) : M sva_st unit :=
  ret ← sv_op (svk_enable pdev false);
  rc ret ;;
  hold (inr (pdev, false)) ;;
  ret ← sv_op (svk_enable pdev true);
  if negb (ret =? 0) then drop_res (inr (pdev, false)) ;; throw ret else
  hold (inr (pdev, true)).
(* drivers/fpga/dfl-pci-sva.c:96-103 disable_iommu_sva_feature *)
Definition disable_iommu_sva_feature (pdev : Z) : M sva_st unit :=
  drop_res (inr (pdev, true)) ;;
  drop_res (inr (pdev, false)).

(** ** The device file *)

(** The address of the handle, which the file keeps. *)
(* drivers/fpga/dfl-pci-sva.c:105-134 dfl_pci_sva_open *)
Definition dfl_pci_sva_open (d : Z) : M sva_st Z :=
  dev ← get_dev d;
  match sd_pdev dev with
  | None => throw (- EBUSY)
  | Some _ =>
      ok ← sv_op svk_alloc;
      if negb ok then throw (- ENOMEM) else
      sva ← new_address;
      put_dev d (SvaDev (sd_pdev dev) ((sva, None) :: sd_handles dev)) ;;
      mret sva
  end.
Definition unbind (h : option Z) : M sva_st unit := match h with Some h => drop_res (inl h) | None => mret tt end.
(* drivers/fpga/dfl-pci-sva.c:136-167 dfl_pci_sva_release *)
Definition dfl_pci_sva_release (d sva : Z) : M sva_st unit :=
  dev ← get_dev d;
  h ← access (find_handle sva (sd_handles dev));
  unbind h ;;
  let dev := SvaDev (sd_pdev dev) (del_handle sva (sd_handles dev)) in
  put_dev d dev ;;
  match sd_pdev dev, sd_handles dev with
  | None, [] => free_dev d
  | _, _ => mret tt
  end.
(** [has_mm] is whether the caller has an address space. *)
(* drivers/fpga/dfl-pci-sva.c:169-195 ioctl_sva_bind_dev *)
Definition ioctl_sva_bind_dev (has_mm : bool) (d sva : Z) : M sva_st Z :=
  dev ← get_dev d;
  h ← access (find_handle sva (sd_handles dev));
  match sd_pdev dev with
  | None => throw (- ENODEV)
  | Some pdev =>
      if negb has_mm then throw (- EINVAL) else
      match (h : option Z) with
      | Some handle => mret (svk_pasid handle)
      | None =>
          handle ← sv_op (svk_bind pdev);
          match (handle : option Z + Z) with
          | inl None => throw (- ENODEV)
          | inr e => throw e
          | inl (Some handle) =>
              hold (inl handle) ;;
              put_dev d (SvaDev (sd_pdev dev) (set_handle sva (Some handle) (sd_handles dev))) ;;
              mret (svk_pasid handle)
          end
      end
  end.
(* drivers/fpga/dfl-pci-sva.c:197-212 ioctl_sva_unbind_dev *)
Definition ioctl_sva_unbind_dev (d sva : Z) : M sva_st Z :=
  dev ← get_dev d;
  h ← access (find_handle sva (sd_handles dev));
  match sd_pdev dev with
  | None => throw (- ENODEV)
  | Some _ =>
      match (h : option Z) with
      | Some handle =>
          drop_res (inl handle) ;;
          put_dev d (SvaDev (sd_pdev dev) (set_handle sva None (sd_handles dev)))
      | None => mret tt
      end ;;
      mret 0
  end.
(** An unknown command is reported with the name of the card. *)
(* drivers/fpga/dfl-pci-sva.c:214-240 dfl_pci_sva_ioctl *)
Definition dfl_pci_sva_ioctl (has_mm : bool) (d sva cmd : Z) : M sva_st Z :=
  dev ← get_dev d;
  if cmd =? SVA_GET_API_VERSION then mret SVA_API_VERSION
  else if cmd =? DFL_PCI_SVA_BIND_DEV then ioctl_sva_bind_dev has_mm d sva
  else if cmd =? DFL_PCI_SVA_UNBIND_DEV then ioctl_sva_unbind_dev d sva
  else
    _ ← access (sd_pdev dev);
    throw (- EINVAL).

(** ** Cards that come and go *)

(** Nobody looks at whether the device file could be registered. *)
(* drivers/fpga/dfl-pci-sva.c:249-272 add_dfl_mdev *)
Definition add_dfl_mdev (d : Z) : M sva_st unit :=
  ret ← sv_op svk_misc_register;
  if ret =? 0 then modify (λ s, set_sv_misc (d :: sv_misc s) s) else mret tt.
(* drivers/fpga/dfl-pci-sva.c:274-306 del_dfl_mdev *)
Definition del_dfl_mdev (d : Z) : M sva_st unit :=
  dev ← get_dev d;
  modify (λ s, set_sv_misc (base.filter (λ x, x ≠ d) (sv_misc s)) s) ;;
  for_each (sd_handles dev) (λ x, unbind x.2) ;;
  pdev ← access (sd_pdev dev);
  disable_iommu_sva_feature pdev ;;
  put_dev d (SvaDev None ((λ x, (x.1, None)) <$> sd_handles dev)) ;;
  match sd_handles dev with
  | [] => free_dev d
  | _ => mret tt
  end.
(* drivers/fpga/dfl-pci-sva.c:308-313 is_dfl_device *)
Definition is_dfl_device (pdev : Z) : bool :=
  (pdev_vendor pdev =? PCI_VENDOR_ID_INTEL) &&
  ((pdev_device pdev =? PCIE_DEVICE_ID_INTEL_DFL) || (pdev_device pdev =? PCIE_DEVICE_ID_INTEL_DFL_VF)).
(** The node of a card, from a place of the list on. *)
Fixpoint find_node (pdev : Z) (l : list Z) : M sva_st (option Z) :=
  match l with
  | [] => mret None
  | cur :: l =>
      dev ← get_dev cur;
      if bool_decide (sd_pdev dev = Some pdev) then mret (Some cur) else find_node pdev l
  end.
(* drivers/fpga/dfl-pci-sva.c:319-365 dfl_pci_sva_add_dev *)
Definition dfl_pci_sva_add_dev (pdev : Z) : M sva_st unit :=
  if negb (is_dfl_device pdev) then mret tt else
  s ← get;
  cur ← find_node pdev (sv_list s);
  match (cur : option Z) with
  | Some _ => mret tt
  | None =>
      ret ← attempt (enable_iommu_sva_feature pdev);
      match (ret : Z + unit) with
      | inl _ => mret tt
      | inr _ =>
          ok ← sv_op svk_alloc;
          if negb ok then disable_iommu_sva_feature pdev else
          d ← new_address;
          put_dev d (SvaDev (Some pdev) []) ;;
          add_dfl_mdev d ;;
          modify (λ s, set_sv_list (d :: sv_list s) s)
      end
  end.
(* drivers/fpga/dfl-pci-sva.c:367-382 dfl_pci_sva_del_dev *)
Definition dfl_pci_sva_del_dev (pdev : Z) : M sva_st unit :=
  if negb (is_dfl_device pdev) then mret tt else
  s ← get;
  cur ← find_node pdev (sv_list s);
  match (cur : option Z) with
  | None => mret tt
  | Some cur =>
      modify (λ s, set_sv_list (base.filter (λ x, x ≠ cur) (sv_list s)) s) ;;
      del_dfl_mdev cur
  end.

(** What the bus reports. *)
Inductive bus_notify := BUS_NOTIFY_ADD_DEVICE | BUS_NOTIFY_BIND_DRIVER | BUS_NOTIFY_DEL_DEVICE | BUS_NOTIFY_OTHER.
(* drivers/fpga/dfl-pci-sva.c:388-400 sva_bus_notifier *)
Definition sva_bus_notifier (action : bus_notify) (pdev : Z) : M sva_st unit :=
  match action with
  | BUS_NOTIFY_ADD_DEVICE | BUS_NOTIFY_BIND_DRIVER => dfl_pci_sva_add_dev pdev
  | BUS_NOTIFY_DEL_DEVICE => dfl_pci_sva_del_dev pdev
  | BUS_NOTIFY_OTHER => mret tt
  end.
(** [pdevs] are the cards on the bus when the module is loaded. *)
(* drivers/fpga/dfl-pci-sva.c:408-423 dfl_pci_sva_init_module *)
Definition dfl_pci_sva_init_module (pdevs : list Z) : M sva_st unit :=
  modify (set_sv_list []) ;;
  ret ← sv_op svk_register_notifier;
  rc ret ;;
  for_each pdevs dfl_pci_sva_add_dev.
(* drivers/fpga/dfl-pci-sva.c:425-438 dfl_pci_sva_cleanup_module *)
Definition dfl_pci_sva_cleanup_module : M sva_st unit :=
  s ← get;
  for_each (sv_list s) del_dfl_mdev ;;
  modify (set_sv_list []).
End Sva.

(** ** What the nodes hold *)
Definition dev_held (dev : dfl_sva_dev) : gmultiset sva_res :=
  list_to_set_disj (inl <$> omap snd (sd_handles dev)) ⊎
  match sd_pdev dev with Some p => {[+ inr (p, true); inr (p, false) +]} | None => ∅ end.
Definition total (devs : gmap Z dfl_sva_dev) : gmultiset sva_res := map_fold (λ _ dev acc, dev_held dev ⊎ acc) ∅ devs.
Lemma total_fresh devs d dev : devs !! d = None → total (<[d := dev]> devs) = dev_held dev ⊎ total devs.
Proof. intros Hd. unfold total. rewrite map_fold_insert_L; [done| |done]. intros. multiset_solver. Qed.
Lemma total_delete devs d dev : devs !! d = Some dev → total devs = dev_held dev ⊎ total (delete d devs).
Proof. intros Hd. rewrite <- (insert_delete_id devs d dev Hd) at 1. apply total_fresh, lookup_delete_eq. Qed.
Lemma total_update devs d dev dev' :
  devs !! d = Some dev → total (<[d := dev']> devs) = dev_held dev' ⊎ total (delete d devs).
Proof. intros Hd. rewrite <- insert_delete_eq. apply total_fresh, lookup_delete_eq. Qed.

(** ** Handles *)
Lemma find_handle_elem sva l h : find_handle sva l = Some h → (sva, h) ∈ l.
Proof. induction l as [|[a x] l IH]; cbn; [done|]. destruct (Z.eqb_spec a sva) as [->|]; [intros [= ->]; by left|right; auto]. Qed.
Lemma find_handle_is_Some sva l : sva ∈ l.*1 → is_Some (find_handle sva l).
Proof. induction l as [|[a x] l IH]; cbn; [by intros ?%elem_of_nil|]. destruct (Z.eqb_spec a sva); [by eexists|]. intros [?|?]%elem_of_cons; [done|auto]. Qed.
Lemma handles_del sva l : (del_handle sva l).*1 = base.filter (λ x, x ≠ sva) l.*1.
Proof.
  unfold del_handle. induction l as [|[a x] l IH]; [done|]. rewrite fmap_cons, !filter_cons. cbn [fst].
  destruct (decide (a ≠ sva)); [by rewrite fmap_cons, IH|done].
Qed.
Lemma handles_set sva h l : (set_handle sva h l).*1 = l.*1.
Proof. unfold set_handle. induction l as [|[a x] l IH]; cbn; [done|]. rewrite IH. by destruct (a =? sva). Qed.
Definition bindings (l : list (Z * option Z)) : gmultiset sva_res := list_to_set_disj (inl <$> omap snd l).
Definition binding (h : option Z) : gmultiset sva_res := match h with Some h => {[+ inl h +]} | None => ∅ end.
Lemma bindings_cons a h l : bindings ((a, h) :: l) = binding h ⊎ bindings l.
Proof. destruct h; [done|]. unfold binding. by rewrite gmultiset_disj_union_left_id. Qed.
Lemma set_handle_other sva h l : sva ∉ l.*1 → set_handle sva h l = l.
Proof.
  unfold set_handle. induction l as [|[a x] l IH]; [done|]. rewrite !fmap_cons, not_elem_of_cons. cbn [fst].
  intros [Hne Hn]. rewrite IH by done. by destruct (Z.eqb_spec a sva).
Qed.
Lemma del_handle_other sva l : sva ∉ l.*1 → del_handle sva l = l.
Proof.
  unfold del_handle. induction l as [|[a x] l IH]; [done|]. rewrite !fmap_cons, filter_cons, not_elem_of_cons. cbn [fst].
  intros [Hne Hn]. rewrite IH by done. by rewrite decide_True.
Qed.
Lemma filter_other (d : Z) (l : list Z) : d ∉ l → base.filter (λ x, x ≠ d) l = l.
Proof. induction l as [|x l IH]; [done|]. rewrite not_elem_of_cons, filter_cons. intros [Hne Hn]. by rewrite decide_True, IH by done. Qed.
Lemma bindings_del sva l h : NoDup l.*1 → find_handle sva l = Some h → bindings l = binding h ⊎ bindings (del_handle sva l).
Proof.
  induction l as [|[a x] l IH]; [done|]. rewrite fmap_cons. cbn [fst find_handle]. intros [Hn Hnd]%list.NoDup_cons. unfold del_handle. rewrite filter_cons. cbn [fst].
  destruct (Z.eqb_spec a sva) as [->|Hne].
  - intros [= ->]. rewrite decide_False by tauto. fold (del_handle sva l). by rewrite del_handle_other, bindings_cons.
  - intros Hf. rewrite decide_True by done. fold (del_handle sva l). rewrite !bindings_cons, (IH Hnd Hf). multiset_solver.
Qed.
Lemma bindings_set sva l h h' : NoDup l.*1 → find_handle sva l = Some h →
  bindings (set_handle sva h' l) ⊎ binding h = bindings l ⊎ binding h'.
Proof.
  induction l as [|[a x] l IH]; [done|]. unfold set_handle. rewrite !fmap_cons. cbn [fst find_handle]. intros [Hn Hnd]%list.NoDup_cons.
  destruct (Z.eqb_spec a sva) as [->|Hne].
  - intros [= ->]. fold (set_handle sva h' l). rewrite set_handle_other, !bindings_cons by done. multiset_solver.
  - intros Hf. rewrite !bindings_cons, <- !(assoc_L (⊎)). f_equal. by apply IH.
Qed.
Lemma bindings_unbound l : bindings ((λ x : Z * option Z, (x.1, None)) <$> l) = ∅.
Proof. induction l as [|[a x] l IH]; [done|]. rewrite fmap_cons. cbn [fst]. rewrite bindings_cons, IH. apply gmultiset_disj_union_left_id. Qed.

Lemma drop_held (x : sva_res) (r : gmultiset sva_res) : ({[+ x +]} ⊎ r) ∖ {[+ x +]} = r.
Proof. multiset_solver. Qed.
Lemma drop_both (x y : sva_res) (a : gmultiset sva_res) : ({[+ x; y +]} ⊎ a) ∖ {[+ x +]} ∖ {[+ y +]} = a.
Proof. multiset_solver. Qed.
Lemma hold_both (x y : sva_res) (a : gmultiset sva_res) : a ⊎ {[+ y +]} ⊎ {[+ x +]} = {[+ x; y +]} ⊎ a.
Proof. multiset_solver. Qed.
Lemma drop_and_back (x : sva_res) (a b : gmultiset sva_res) :
  (({[+ x +]} ⊎ a) ⊎ b) ∖ {[+ x +]} ⊎ {[+ x +]} = (({[+ x +]} ⊎ a) ⊎ b) ⊎ ∅.
Proof. multiset_solver. Qed.

Section SvaFacts.
Context `{SvaKernel}.
Implicit Types (s : sva_st) (dev : dfl_sva_dev) (fs : list (Z * Z)).

(** The invariant, for the open files [fs], each with its node and handle.  A node that
    is not in the list has lost its card, and has open files but no bindings. *)
Record sva_inv s fs : Prop := {
  si_held : sv_held s = total (sv_devs s);
  si_list d : d ∈ sv_list s ↔ ∃ dev, sv_devs s !! d = Some dev ∧ is_Some (sd_pdev dev);
  si_nodup : NoDup (sv_list s);
  si_gone d dev : sv_devs s !! d = Some dev → sd_pdev dev = None → sd_handles dev ≠ [] ∧ bindings (sd_handles dev) = ∅;
  si_files d sva : (d, sva) ∈ fs ↔ ∃ dev, sv_devs s !! d = Some dev ∧ sva ∈ (sd_handles dev).*1;
  si_handles d dev : sv_devs s !! d = Some dev → NoDup (sd_handles dev).*1;
  si_misc d : d ∈ sv_misc s → d ∈ sv_list s;
  si_fresh d dev : sv_devs s !! d = Some dev → d < sv_next s ∧ ∀ sva, sva ∈ (sd_handles dev).*1 → sva < sv_next s;
  si_card d1 d2 dev1 dev2 p : sv_devs s !! d1 = Some dev1 → sv_devs s !! d2 = Some dev2 →
    sd_pdev dev1 = Some p → sd_pdev dev2 = Some p → d1 = d2;
}.
(** Only the kernel's own state is different. *)
Definition same_sva s s' : Prop :=
  s' = SvaSt (sv_k s') (sv_devs s) (sv_list s) (sv_misc s) (sv_held s) (sv_next s).
Lemma same_sva_inv s s' fs : same_sva s s' → sva_inv s fs → sva_inv s' fs.
Proof. intros -> []. by constructor. Qed.
Lemma sv_op_spec {A} (f : svk → A * svk) s (Q : A → sva_st → Prop) E :
  (∀ a k, Q a (SvaSt k (sv_devs s) (sv_list s) (sv_misc s) (sv_held s) (sv_next s))) → wp (sv_op f) Q E s.
Proof. intros HQ. unfold wpg, sv_op. by destruct (f (sv_k s)). Qed.
Lemma sva_new_address_spec s (Q : Z → sva_st → Prop) E :
  Q (sv_next s) (SvaSt (sv_k s) (sv_devs s) (sv_list s) (sv_misc s) (sv_held s) (sv_next s + 1)) → wp new_address Q E s.
Proof. done. Qed.
Lemma sva_get_dev_spec d dev s (Q : dfl_sva_dev → sva_st → Prop) E :
  sv_devs s !! d = Some dev → Q dev s → wp (get_dev d) Q E s.
Proof. intros Hd HQ. unfold get_dev. wsteps. by rewrite Hd. Qed.
Lemma access_some {A} (a : A) s (Q : A → sva_st → Prop) E : Q a s → wp (access (Some a)) Q E s.
Proof. done. Qed.
Lemma dev_held_eq dev : dev_held dev = bindings (sd_handles dev) ⊎
  match sd_pdev dev with Some p => {[+ inr (p, true); inr (p, false) +]} | None => ∅ end.
Proof. done. Qed.

(** A node with other handles: what it holds and which files are open changes. *)
Lemma sva_inv_update s fs fs' d dev l k held next :
  sva_inv s fs → sv_devs s !! d = Some dev → NoDup l.*1 →
  (sd_pdev dev = None → l ≠ [] ∧ bindings l = ∅) →
  held ⊎ bindings (sd_handles dev) = sv_held s ⊎ bindings l →
  (∀ d' sva, (d', sva) ∈ fs' ↔ (d' = d ∧ sva ∈ l.*1) ∨ (d' ≠ d ∧ (d', sva) ∈ fs)) →
  sv_next s ≤ next → (∀ sva, sva ∈ l.*1 → sva < next) →
  sva_inv (SvaSt k (<[d := SvaDev (sd_pdev dev) l]> (sv_devs s)) (sv_list s) (sv_misc s) held next) fs'.
Proof.
  intros [Hh Hl Hnd Hg Hf Hhs Hm Hfr Hc] Hd Hndl Hnone Hheld Hfs Hnext Hlt.
  constructor; cbn [sv_held sv_devs sv_list sv_misc sv_next]; [|intros d'|done|intros d' dev'|intros d' sva|intros d' dev'|done|intros d' dev'|intros d1 d2 dev1 dev2 p].
  - rewrite (total_update _ _ dev), dev_held_eq by done. cbn [sd_handles sd_pdev].
    rewrite Hh, (total_delete _ _ _ Hd), dev_held_eq in Hheld. multiset_solver.
  - rewrite Hl. destruct (decide (d' = d)) as [->|Hne].
    + rewrite lookup_insert_eq. split; intros (x & Hx & Hs); rewrite ?Hd in Hx; injection Hx as <-; eauto.
    + by rewrite lookup_insert_ne.
  - destruct (decide (d' = d)) as [->|Hne]; [|rewrite lookup_insert_ne by done; apply Hg].
    rewrite lookup_insert_eq. intros [= <-]. apply Hnone.
  - rewrite Hfs. destruct (decide (d' = d)) as [->|Hne].
    + rewrite lookup_insert_eq. split; [intros [[_ ?]|[? _]]; [by eexists|done]|]. intros (x & [= <-] & ?). by left.
    + rewrite lookup_insert_ne by done. rewrite <- Hf. naive_solver.
  - destruct (decide (d' = d)) as [->|Hne]; [rewrite lookup_insert_eq; by intros [= <-]|rewrite lookup_insert_ne by done; apply Hhs].
  - destruct (decide (d' = d)) as [->|Hne].
    + rewrite lookup_insert_eq. intros [= <-]. destruct (Hfr d dev Hd). split; [lia|done].
    + rewrite lookup_insert_ne by done. intros Hx. destruct (Hfr d' dev' Hx) as [? Hs]. split; [lia|]. intros sva Hsva. specialize (Hs sva Hsva). lia.
  - rewrite !lookup_insert. repeat case_decide; subst; [done|..]; intros; simplify_eq/=; eauto.
Qed.

(** ** The operations on a file *)
Lemma sva_open_spec d s fs :
  sva_inv s fs → d ∈ sv_misc s →
  wp (dfl_pci_sva_open d) (λ sva s', sva_inv s' ((d, sva) :: fs)) (λ e s', e = - ENOMEM ∧ sva_inv s' fs) s.
Proof.
  intros Hi Hd. pose proof Hi as [_ Hl _ _ Hf Hhs Hm Hfr _]. apply Hm, Hl in Hd as (dev & Hd & p & Hp).
  unfold dfl_pci_sva_open. wstep. eapply sva_get_dev_spec; [done|]. rewrite Hp. wsteps. apply sv_op_spec. intros ok k.
  destruct ok; cbn [negb]; wsteps; [|by split; [|eapply same_sva_inv; [|done]; done]].
  unfold wpg, new_address. cbn. rewrite <- Hp. destruct (Hfr d dev Hd) as [_ Hlt].
  assert (Hnew : sv_next s ∉ (sd_handles dev).*1) by (intros Hx%Hlt; lia).
  eapply (sva_inv_update s fs); [done|done|rewrite fmap_cons; apply list.NoDup_cons; split; [done|by eapply Hhs]|congruence|..].
  - by rewrite bindings_cons, gmultiset_disj_union_left_id.
  - intros d' sva. rewrite fmap_cons, !elem_of_cons. cbn [fst]. destruct (decide (d' = d)) as [->|Hne]; [|naive_solver].
    rewrite Hf. split; [intros [[= ->]|(x & Hx & ?)]|]; [by auto|rewrite Hd in Hx; injection Hx as <-; by auto|].
    intros [[_ [->|?]]|[? _]]; [by left|right; by eexists|done].
  - cbn. lia.
  - intros sva. rewrite fmap_cons, elem_of_cons. cbn [fst]. intros [->|Hs%Hlt]; cbn; lia.
Qed.
Lemma open_file d sva s fs :
  sva_inv s fs → (d, sva) ∈ fs → ∃ dev h, sv_devs s !! d = Some dev ∧ find_handle sva (sd_handles dev) = Some h ∧
    NoDup (sd_handles dev).*1 ∧ (∀ x, x ∈ (sd_handles dev).*1 → x < sv_next s).
Proof.
  intros [_ _ _ _ Hf Hhs _ Hfr _] (dev & Hd & Hs)%Hf. destruct (find_handle_is_Some _ _ Hs) as [h Hh].
  destruct (Hfr d dev Hd). eauto 10.
Qed.
Lemma sva_unbind_spec h r s (Q : unit → sva_st → Prop) E :
  sv_held s = binding h ⊎ r → Q tt (set_sv_held r s) → wp (unbind h) Q E s.
Proof.
  intros Hh HQ. destruct h as [h|]; cbn [unbind binding] in *; wsteps.
  - unfold drop_res. wsteps. rewrite Hh. by rewrite drop_held.
  - rewrite gmultiset_disj_union_left_id in Hh. subst r. by destruct s.
Qed.

(** What a node with its bindings holds is a part of what is held. *)
Lemma held_split s fs d dev :
  sva_inv s fs → sv_devs s !! d = Some dev →
  sv_held s = bindings (sd_handles dev) ⊎
    (match sd_pdev dev with Some p => {[+ inr (p, true); inr (p, false) +]} | None => ∅ end ⊎ total (delete d (sv_devs s))).
Proof. intros [Hh _ _ _ _ _ _ _ _] Hd. by rewrite Hh, (total_delete _ _ _ Hd), dev_held_eq, (assoc_L (⊎)). Qed.
(** The binding of an open file is replaced, or removed. *)
Lemma sva_inv_set s fs d sva dev h h' k held :
  sva_inv s fs → sv_devs s !! d = Some dev → is_Some (sd_pdev dev) → find_handle sva (sd_handles dev) = Some h →
  held ⊎ binding h = sv_held s ⊎ binding h' →
  sva_inv (SvaSt k (<[d := SvaDev (sd_pdev dev) (set_handle sva h' (sd_handles dev))]> (sv_devs s)) (sv_list s) (sv_misc s) held (sv_next s)) fs.
Proof.
  intros Hi Hd [p Hp] Hh Hheld. pose proof Hi as [_ _ _ _ Hf Hhs _ Hfr _].
  pose proof (bindings_set sva _ h h' (Hhs d dev Hd) Hh) as Hb.
  eapply (sva_inv_update s fs); rewrite ?handles_set; try done; [by eapply Hhs|congruence| | |by apply (Hfr d dev)].
  - rewrite (held_split _ _ _ _ Hi Hd) in *. multiset_solver.
  - intros d' sva'. destruct (decide (d' = d)) as [->|Hne]; [|naive_solver].
    rewrite Hf. split; [intros (x & Hx & ?); rewrite Hd in Hx; injection Hx as <-; by left|intros [[_ ?]|[? _]]; [by eexists|done]].
Qed.
Lemma sva_bind_spec has_mm d sva s fs :
  sva_inv s fs → (d, sva) ∈ fs →
  wp (ioctl_sva_bind_dev has_mm d sva) (λ _ s', sva_inv s' fs) (λ _ s', sva_inv s' fs) s.
Proof.
  intros Hi Hfile. destruct (open_file _ _ _ _ Hi Hfile) as (dev & h & Hd & Hh & _).
  unfold ioctl_sva_bind_dev. wstep. eapply sva_get_dev_spec; [done|]. rewrite Hh. wstep. apply access_some.
  destruct (sd_pdev dev) as [p|] eqn:Hp; wsteps; [|done]. destruct has_mm; cbn [negb]; wsteps; [|done].
  destruct h as [h|]; wsteps; [done|]. apply sv_op_spec. intros r k.
  assert (Hk : sva_inv (SvaSt k (sv_devs s) (sv_list s) (sv_misc s) (sv_held s) (sv_next s)) fs) by (by eapply same_sva_inv).
  destruct r as [[handle|]|e]; wsteps; [|done|done]. unfold hold, put_dev. wsteps. rewrite <- Hp.
  eapply (sva_inv_set s fs); try done. cbn. multiset_solver.
Qed.
Lemma sva_unbind_dev_spec d sva s fs :
  sva_inv s fs → (d, sva) ∈ fs →
  wp (ioctl_sva_unbind_dev d sva) (λ _ s', sva_inv s' fs) (λ _ s', sva_inv s' fs) s.
Proof.
  intros Hi Hfile. destruct (open_file _ _ _ _ Hi Hfile) as (dev & h & Hd & Hh & Hnd & _).
  unfold ioctl_sva_unbind_dev. wstep. eapply sva_get_dev_spec; [done|]. rewrite Hh. wstep. apply access_some.
  destruct (sd_pdev dev) as [p|] eqn:Hp; wsteps; [|done]. destruct h as [h|]; wsteps; [|done].
  unfold drop_res, put_dev. wsteps. rewrite <- Hp. eapply (sva_inv_set s fs); try done.
  cbn. rewrite (held_split _ _ _ _ Hi Hd), (bindings_del _ _ _ Hnd Hh). apply drop_and_back.
Qed.
(** A command the device does not know, after the card is gone, has no name to report. *)
Definition known_cmd (cmd : Z) : Prop := cmd = SVA_GET_API_VERSION ∨ cmd = DFL_PCI_SVA_BIND_DEV ∨ cmd = DFL_PCI_SVA_UNBIND_DEV.
Lemma sva_ioctl_spec has_mm d sva cmd s fs :
  sva_inv s fs → (d, sva) ∈ fs → known_cmd cmd ∨ d ∈ sv_list s →
  wp (dfl_pci_sva_ioctl has_mm d sva cmd) (λ _ s', sva_inv s' fs) (λ _ s', sva_inv s' fs) s.
Proof.
  intros Hi Hfile Hcmd. destruct (open_file _ _ _ _ Hi Hfile) as (dev & h & Hd & _).
  unfold dfl_pci_sva_ioctl. wstep. eapply sva_get_dev_spec; [done|].
  destruct (Z.eqb_spec cmd SVA_GET_API_VERSION); wsteps; [done|].
  destruct (Z.eqb_spec cmd DFL_PCI_SVA_BIND_DEV); [by apply sva_bind_spec|].
  destruct (Z.eqb_spec cmd DFL_PCI_SVA_UNBIND_DEV); [by apply sva_unbind_dev_spec|].
  destruct Hcmd as [[?|[?|?]]|Hin]; [done..|]. apply (si_list _ _ Hi) in Hin as (x & Hx & p & Hp).
  rewrite Hd in Hx. injection Hx as <-. rewrite Hp. wstep. apply access_some. by wsteps.
Qed.

(** ** Closing a file *)
Lemma sva_inv_free s fs fs' d dev k held :
  sva_inv s fs → sv_devs s !! d = Some dev → sd_pdev dev = None →
  held = total (delete d (sv_devs s)) → (∀ x, x ∈ fs' ↔ x.1 ≠ d ∧ x ∈ fs) →
  sva_inv (SvaSt k (delete d (sv_devs s)) (sv_list s) (sv_misc s) held (sv_next s)) fs'.
Proof.
  intros [Hh Hl Hnd Hg Hf Hhs Hm Hfr Hc] Hd Hp -> Hfs.
  constructor; cbn [sv_held sv_devs sv_list sv_misc sv_next]; try done.
  - intros d'. rewrite Hl. destruct (decide (d' = d)) as [->|Hne]; [|by rewrite lookup_delete_ne].
    rewrite lookup_delete_eq. split; intros (x & Hx & p & Hs); [|done]. rewrite Hd in Hx. injection Hx as <-. congruence.
  - intros d' dev' [_ Hx]%lookup_delete_Some. by eapply Hg.
  - intros d' sva. rewrite Hfs, Hf. cbn [fst]. setoid_rewrite lookup_delete_Some. naive_solver.
  - intros d' dev' [_ Hx]%lookup_delete_Some. by eapply Hhs.
  - intros d' dev' [_ Hx]%lookup_delete_Some. by eapply Hfr.
  - intros d1 d2 dev1 dev2 p [_ H1]%lookup_delete_Some [_ H2]%lookup_delete_Some. by eapply Hc.
Qed.
Lemma sva_release_spec d sva s fs :
  sva_inv s fs → (d, sva) ∈ fs →
  wp (dfl_pci_sva_release d sva) (λ _ s', sva_inv s' (base.filter (λ x, x ≠ (d, sva)) fs)) (λ _ _, False) s.
Proof.
  intros Hi Hfile. destruct (open_file _ _ _ _ Hi Hfile) as (dev & h & Hd & Hh & Hnd & Hlt).
  pose proof (held_split _ _ _ _ Hi Hd) as Hheld. rewrite (bindings_del _ _ _ Hnd Hh) in Hheld.
  pose proof Hi as [_ Hl _ Hg Hf Hhs _ Hfr _].
  unfold dfl_pci_sva_release. wstep. eapply sva_get_dev_spec; [done|]. rewrite Hh. wstep. apply access_some. wstep.
  rewrite <- (assoc_L (⊎)) in Hheld. apply (sva_unbind_spec _ _ _ _ _ Hheld). cbn [sd_pdev sd_handles]. wstep. unfold put_dev. wstep.
  assert (Hfs : ∀ d' sva', (d', sva') ∈ base.filter (λ x, x ≠ (d, sva)) fs ↔
    (d' = d ∧ sva' ∈ (del_handle sva (sd_handles dev)).*1) ∨ (d' ≠ d ∧ (d', sva') ∈ fs)).
  { intros d' sva'. rewrite list_elem_of_filter, handles_del, list_elem_of_filter. destruct (decide (d' = d)) as [->|Hne].
    - rewrite Hf, Hd. split; [intros [Hne (x & [= <-] & ?)]; left; split; [done|split; congruence]|].
      intros [[_ [Hne ?]]|[? _]]; [|done]. split; [congruence|by eexists].
    - split; [intros [_ ?]; by right|intros [[? _]|[_ ?]]; [done|split; congruence]]. }
  destruct (decide (sd_pdev dev = None ∧ del_handle sva (sd_handles dev) = [])) as [[Hp Hnil]|Hkeep].
  - rewrite Hp, Hnil in *. unfold free_dev. wsteps. unfold set_sv_devs, set_sv_held. cbn [sv_k sv_devs sv_list sv_misc sv_held sv_next]. rewrite delete_insert_eq. apply (sva_inv_free s fs _ d dev); try done.
    + change (bindings []) with (∅ : gmultiset sva_res). by rewrite !gmultiset_disj_union_left_id.
    + intros [d' sva']. rewrite Hfs. cbn. rewrite elem_of_nil. naive_solver.
  - assert (Hinv : sva_inv (SvaSt (sv_k s) (<[d := SvaDev (sd_pdev dev) (del_handle sva (sd_handles dev))]> (sv_devs s)) (sv_list s) (sv_misc s)
      (bindings (del_handle sva (sd_handles dev)) ⊎ (match sd_pdev dev with Some p => {[+ inr (p, true); inr (p, false) +]} | None => ∅ end
        ⊎ total (delete d (sv_devs s)))) (sv_next s)) (base.filter (λ x, x ≠ (d, sva)) fs)).
    { eapply (sva_inv_update s fs); try done.
      - rewrite handles_del. by apply list.NoDup_filter.
      - intros Hp. destruct (Hg d dev Hd Hp) as [_ Hb]. split; [naive_solver|]. rewrite (bindings_del _ _ _ Hnd Hh) in Hb. multiset_solver.
      - rewrite Hheld, (bindings_del _ _ _ Hnd Hh). multiset_solver.
      - intros x. rewrite handles_del, list_elem_of_filter. intros [_ Hx]. by apply Hlt. }
    destruct (sd_pdev dev) eqn:Hp, (del_handle sva (sd_handles dev)) eqn:Hnil; wsteps; try exact Hinv. by destruct Hkeep.
Qed.

(** ** A card that goes away *)

(** Its node, with the handles that stay. *)
Definition node_gone (d : Z) (dev : dfl_sva_dev) (devs : gmap Z dfl_sva_dev) : gmap Z dfl_sva_dev :=
  match sd_handles dev with [] => delete d devs | l => <[d := SvaDev None ((λ x, (x.1, None)) <$> l)]> devs end.
Definition without_node (d : Z) (dev : dfl_sva_dev) s : sva_st :=
  SvaSt (sv_k s) (node_gone d dev (sv_devs s)) (base.filter (λ x, x ≠ d) (sv_list s)) (base.filter (λ x, x ≠ d) (sv_misc s))
    (total (delete d (sv_devs s))) (sv_next s).
Lemma handles_unbound (l : list (Z * option Z)) : ((λ x : Z * option Z, (x.1, None : option Z)) <$> l).*1 = l.*1.
Proof. rewrite <- list_fmap_compose. by apply list_fmap_ext. Qed.
Lemma sva_unbind_all_spec l r s (Q : unit → sva_st → Prop) E :
  sv_held s = bindings l ⊎ r → Q tt (set_sv_held r s) → wp (for_each l (λ x, unbind x.2)) Q E s.
Proof.
  revert s. induction l as [|[a h] l IH]; intros s Hh HQ; cbn [for_each].
  - wsteps. change (bindings []) with (∅ : gmultiset sva_res) in Hh. rewrite gmultiset_disj_union_left_id in Hh. subst r. by destruct s.
  - wstep. rewrite bindings_cons, <- (assoc_L (⊎)) in Hh. by apply (sva_unbind_spec _ _ _ _ _ Hh), IH.
Qed.
Lemma node_gone_lookup d dev devs d' dev' :
  node_gone d dev devs !! d' = Some dev' ↔
    (d' ≠ d ∧ devs !! d' = Some dev') ∨
    (d' = d ∧ sd_handles dev ≠ [] ∧ dev' = SvaDev None ((λ x, (x.1, None)) <$> sd_handles dev)).
Proof.
  unfold node_gone. destruct (sd_handles dev) as [|x l]; [rewrite lookup_delete_Some; naive_solver|].
  rewrite lookup_insert_Some. naive_solver.
Qed.
Lemma total_node_gone d dev devs : devs !! d = Some dev → total (node_gone d dev devs) = total (delete d devs).
Proof.
  intros Hd. unfold node_gone. destruct (sd_handles dev) as [|x l]; [done|]. rewrite (total_update _ _ _ _ Hd), dev_held_eq.
  cbn [sd_handles sd_pdev]. by rewrite bindings_unbound, !gmultiset_disj_union_left_id.
Qed.
Lemma sva_inv_gone s fs d dev p :
  sva_inv s fs → sv_devs s !! d = Some dev → sd_pdev dev = Some p → sva_inv (without_node d dev s) fs.
Proof.
  intros [Hh Hl Hnd Hg Hf Hhs Hm Hfr Hc] Hd Hp. unfold without_node.
  constructor; cbn [sv_held sv_devs sv_list sv_misc sv_next].
  - by rewrite (total_node_gone _ _ _ Hd).
  - intros d'. rewrite list_elem_of_filter, Hl. setoid_rewrite node_gone_lookup. split.
    + intros [Hne (x & Hx & Hs)]. exists x. auto.
    + intros (x & [[Hne Hx]|(_ & _ & ->)] & Hs); [eauto|]. by destruct Hs.
  - by apply list.NoDup_filter.
  - intros d' dev' [[_ Hx]|(_ & Hnil & ->)]%node_gone_lookup; [by eapply Hg|]. cbn [sd_handles]. intros _. split.
    + by intros ?%fmap_nil_inv.
    + apply bindings_unbound.
  - intros d' sva. rewrite Hf. setoid_rewrite node_gone_lookup. split.
    + intros (x & Hx & Hs). destruct (decide (d' = d)) as [->|Hne]; [|eauto]. rewrite Hd in Hx. injection Hx as <-.
      eexists. split; [right; split_and!; [done| |done]|cbn [sd_handles]; by rewrite handles_unbound].
      intros Hnil. rewrite Hnil in Hs. by apply elem_of_nil in Hs.
    + intros (x & [[Hne Hx]|(-> & _ & ->)] & Hs); [eauto|]. cbn [sd_handles] in Hs. rewrite handles_unbound in Hs. eauto.
  - intros d' dev' [[_ Hx]|(_ & _ & ->)]%node_gone_lookup; [by eapply Hhs|]. cbn [sd_handles]. rewrite handles_unbound. by eapply Hhs.
  - intros d'. rewrite !list_elem_of_filter. intros [? ?]. auto.
  - intros d' dev' [[_ Hx]|(-> & _ & ->)]%node_gone_lookup; [by eapply Hfr|]. cbn [sd_handles]. rewrite handles_unbound. by apply Hfr.
  - intros d1 d2 dev1 dev2 q [[_ H1]|(_ & _ & ->)]%node_gone_lookup [[_ H2]|(_ & _ & ->)]%node_gone_lookup; [by eapply Hc|done..].
Qed.
Lemma sva_del_mdev_spec s d dev p (Q : unit → sva_st → Prop) E :
  sv_devs s !! d = Some dev → sd_pdev dev = Some p → sv_held s = total (sv_devs s) →
  Q tt (SvaSt (sv_k s) (node_gone d dev (sv_devs s)) (sv_list s) (base.filter (λ x, x ≠ d) (sv_misc s)) (total (delete d (sv_devs s))) (sv_next s)) →
  wp (del_dfl_mdev d) Q E s.
Proof.
  intros Hd Hp Hh HQ. rewrite (total_delete _ _ _ Hd), dev_held_eq, Hp, <- (assoc_L (⊎)) in Hh.
  unfold del_dfl_mdev. wstep. eapply sva_get_dev_spec; [done|]. wsteps. eapply sva_unbind_all_spec; [exact Hh|]. wstep. rewrite Hp. apply access_some.
  unfold disable_iommu_sva_feature, drop_res, put_dev, free_dev. wsteps. unfold set_sv_held, set_sv_misc, set_sv_devs.
  cbn [sv_k sv_devs sv_list sv_misc sv_held sv_next]. rewrite drop_both.
  unfold node_gone in HQ. destruct (sd_handles dev); wsteps; [|exact HQ].
  cbn [sv_k sv_devs sv_list sv_misc sv_held sv_next]. by rewrite delete_insert_eq.
Qed.

(** ** The node of a card *)
Lemma sva_find_node_spec pdev l s (Q : option Z → sva_st → Prop) E :
  (∀ d, d ∈ l → ∃ dev, sv_devs s !! d = Some dev) →
  (∀ d dev, d ∈ l → sv_devs s !! d = Some dev → sd_pdev dev = Some pdev → Q (Some d) s) →
  ((∀ d dev, d ∈ l → sv_devs s !! d = Some dev → sd_pdev dev ≠ Some pdev) → Q None s) →
  wp (find_node pdev l) Q E s.
Proof.
  induction l as [|d l IH]; cbn [find_node]; intros Hl HS HN.
  - wsteps. apply HN. by intros d dev ?%elem_of_nil.
  - destruct (Hl d) as [dev Hd]; [by left|]. wstep. eapply sva_get_dev_spec; [done|]. case_bool_decide as Hp; wsteps.
    + by eapply HS; [left| |].
    + apply IH; [intros; apply Hl; by right|intros; eapply HS; [by right|done..]|]. intros HNl. apply HN.
      intros d' dev' [->|Hin]%elem_of_cons Hx; [congruence|by eapply HNl].
Qed.
(** The node of a card in the list, or there is no node of it. *)
Lemma inv_find_node pdev s fs (Q : option Z → sva_st → Prop) E :
  sva_inv s fs →
  (∀ d dev, d ∈ sv_list s → sv_devs s !! d = Some dev → sd_pdev dev = Some pdev → Q (Some d) s) →
  ((∀ d dev, sv_devs s !! d = Some dev → sd_pdev dev ≠ Some pdev) → Q None s) →
  wp (find_node pdev (sv_list s)) Q E s.
Proof.
  intros Hi HS HN. apply sva_find_node_spec; [|done|].
  - intros d (dev & Hd & _)%(si_list _ _ Hi). by exists dev.
  - intros Hl. apply HN. intros d dev Hd Hp. eapply Hl; [|done|done]. apply (si_list _ _ Hi). exists dev. by rewrite Hp.
Qed.
(** [sva_gone p s]: the module holds nothing of the card. *)
Definition sva_gone (p : Z) s : Prop := ∀ b, inr (p, b) ∉ sv_held s.
Lemma total_elem x devs : x ∈ total devs ↔ ∃ d dev, devs !! d = Some dev ∧ x ∈ dev_held dev.
Proof.
  induction devs as [|d dev devs Hd IH] using map_ind.
  - unfold total. rewrite map_fold_empty. split; [multiset_solver|]. intros (d & dev & Hd & _). by rewrite lookup_empty in Hd.
  - rewrite total_fresh, gmultiset_elem_of_disj_union, IH by done. setoid_rewrite lookup_insert_Some. split.
    + intros [Hx|(d' & dev' & Hd' & Hx)]; [by exists d, dev; auto|]. exists d', dev'. split; [|done]. right. split; [congruence|done].
    + intros (d' & dev' & [[-> ->]|[_ Hd']] & Hx); eauto.
Qed.
Lemma bindings_elem_inr y l : inr y ∉ bindings l.
Proof. unfold bindings. rewrite elem_of_list_to_set_disj, list_elem_of_fmap. naive_solver. Qed.
Lemma gone_of_nodes p s : sv_held s = total (sv_devs s) → (∀ d dev, sv_devs s !! d = Some dev → sd_pdev dev ≠ Some p) → sva_gone p s.
Proof.
  intros Hs Hn b Hb. rewrite Hs, total_elem in Hb. destruct Hb as (d & dev & Hd & Hx). rewrite dev_held_eq, gmultiset_elem_of_disj_union in Hx.
  destruct Hx as [Hx|Hx]; [by apply bindings_elem_inr in Hx|]. destruct (sd_pdev dev) as [q|] eqn:Hq; [|multiset_solver].
  apply (Hn d dev Hd). rewrite Hq. f_equal. rewrite gmultiset_elem_of_disj_union, !gmultiset_elem_of_singleton in Hx. naive_solver.
Qed.
Lemma sva_del_dev_spec pdev s fs :
  sva_inv s fs →
  wp (dfl_pci_sva_del_dev pdev) (λ _ s', sva_inv s' fs ∧ (is_dfl_device pdev = true → sva_gone pdev s')) (λ _ _, False) s.
Proof.
  intros Hi. unfold dfl_pci_sva_del_dev. destruct (is_dfl_device pdev); cbn [negb]; wsteps; [|done].
  eapply inv_find_node; [done| |].
  - intros d dev Hin Hd Hp. wsteps. eapply sva_del_mdev_spec; [done|done|apply (si_held _ _ Hi)|].
    pose proof (sva_inv_gone _ _ _ _ _ Hi Hd Hp) as Hinv. split; [exact Hinv|]. intros _.
    apply gone_of_nodes; [apply (si_held _ _ Hinv)|]. intros d' dev' [[Hne Hx]|(_ & _ & ->)]%node_gone_lookup; [|done].
    intros Hp'. by apply Hne, (si_card _ _ Hi _ _ _ _ _ Hx Hd Hp' Hp).
  - intros Hn. wsteps. split; [done|]. intros _. apply gone_of_nodes; [apply (si_held _ _ Hi)|done].
Qed.

(** ** A card that comes *)
Lemma sva_enable_spec pdev s fs :
  sva_inv s fs →
  wp (enable_iommu_sva_feature pdev)
    (λ _ s', s' = SvaSt (sv_k s') (sv_devs s) (sv_list s) (sv_misc s) ({[+ inr (pdev, true); inr (pdev, false) +]} ⊎ sv_held s) (sv_next s))
    (λ _ s', same_sva s s') s.
Proof.
  intros Hi. unfold enable_iommu_sva_feature. wstep. apply sv_op_spec. intros ret k. wstep. wstep; intros _; [|done].
  unfold hold, drop_res. wsteps. apply sv_op_spec. intros ret' k'. cbn [sv_k sv_devs sv_list sv_misc sv_held sv_next set_sv_held].
  destruct (ret' =? 0); cbn [negb]; wsteps; unfold same_sva, set_sv_held; cbn [sv_k sv_devs sv_list sv_misc sv_held sv_next].
  - by rewrite hold_both.
  - by rewrite (comm_L (⊎) (sv_held s)), drop_held.
Qed.
(** A new node for a card that has none. *)
Lemma sva_inv_new s fs p k misc :
  sva_inv s fs → (∀ d dev, sv_devs s !! d = Some dev → sd_pdev dev ≠ Some p) →
  (∀ d, d ∈ misc → d = sv_next s ∨ d ∈ sv_misc s) →
  sva_inv (SvaSt k (<[sv_next s := SvaDev (Some p) []]> (sv_devs s)) (sv_next s :: sv_list s) misc
    ({[+ inr (p, true); inr (p, false) +]} ⊎ sv_held s) (sv_next s + 1)) fs.
Proof.
  intros [Hh Hl Hnd Hg Hf Hhs Hm Hfr Hc] Hp Hmisc.
  assert (Hnew : sv_devs s !! sv_next s = None).
  { destruct (sv_devs s !! sv_next s) as [x|] eqn:Hx; [|done]. apply Hfr in Hx. lia. }
  constructor; cbn [sv_held sv_devs sv_list sv_misc sv_next].
  - rewrite (total_fresh _ _ _ Hnew), dev_held_eq, Hh. cbn [sd_handles sd_pdev].
    change (bindings []) with (∅ : gmultiset sva_res). by rewrite gmultiset_disj_union_left_id.
  - intros d. rewrite elem_of_cons, Hl. setoid_rewrite lookup_insert_Some. split.
    + intros [->|(x & Hx & Hs)]; [eexists; split; [by left|done]|]. exists x. split; [right; split; [congruence|done]|done].
    + intros (x & [[<- _]|[_ Hx]] & Hs); eauto.
  - apply list.NoDup_cons. split; [|done]. rewrite Hl. intros (x & Hx & _). congruence.
  - intros d dev [[_ <-]|[_ Hx]]%lookup_insert_Some; [done|by eapply Hg].
  - intros d sva. rewrite Hf. setoid_rewrite lookup_insert_Some. split.
    + intros (x & Hx & Hs). exists x. split; [right; split; [congruence|done]|done].
    + intros (x & [[_ <-]|[_ Hx]] & Hs); [by apply elem_of_nil in Hs|eauto].
  - intros d dev [[_ <-]|[_ Hx]]%lookup_insert_Some; [constructor|by eapply Hhs].
  - intros d. rewrite elem_of_cons. intros [->|Hd]%Hmisc; auto.
  - intros d dev [[<- <-]|[_ Hx]]%lookup_insert_Some.
    + split; [cbn; lia|]. by intros sva ?%elem_of_nil.
    + destruct (Hfr d dev Hx) as [? Hs]. split; [cbn; lia|]. intros sva Hsva. specialize (Hs sva Hsva). cbn. lia.
  - intros d1 d2 dev1 dev2 q [[<- <-]|[_ H1]]%lookup_insert_Some [[<- <-]|[_ H2]]%lookup_insert_Some Hq1 Hq2; [done|..|by eapply Hc].
    + injection Hq1 as <-. by apply Hp in H2.
    + injection Hq2 as <-. by apply Hp in H1.
Qed.
Lemma sva_add_dev_spec pdev s fs :
  sva_inv s fs → wp (dfl_pci_sva_add_dev pdev) (λ _ s', sva_inv s' fs) (λ _ _, False) s.
Proof.
  intros Hi. unfold dfl_pci_sva_add_dev. destruct (is_dfl_device pdev); cbn [negb]; wsteps; [|done].
  eapply inv_find_node; [done|by intros; wsteps|]. intros Hn. wsteps.
  eapply wp_mono; [by apply (sva_enable_spec _ _ fs)|..]; cbv beta; [|intros e s' Hs; wsteps; by eapply same_sva_inv].
  intros _ s' Hs'. wsteps. apply sv_op_spec. intros ok k. rewrite Hs'. cbn [sv_devs sv_list sv_misc sv_held sv_next].
  destruct ok; cbn [negb].
  - wstep. apply sva_new_address_spec. unfold put_dev, add_dfl_mdev. wsteps. apply sv_op_spec. intros ret k'.
    destruct (ret =? 0); wsteps; unfold set_sv_list, set_sv_misc, set_sv_devs; cbn [sv_k sv_devs sv_list sv_misc sv_held sv_next];
      apply (sva_inv_new s); try done; intros d; [rewrite elem_of_cons; tauto|by right].
  - unfold disable_iommu_sva_feature, drop_res. wsteps. unfold set_sv_held. cbn [sv_k sv_devs sv_list sv_misc sv_held sv_next].
    rewrite drop_both. by eapply (same_sva_inv s).
Qed.

(** ** The module *)
Lemma sva_notifier_spec action pdev s fs :
  sva_inv s fs →
  wp (sva_bus_notifier action pdev)
    (λ _ s', sva_inv s' fs ∧ (action = BUS_NOTIFY_DEL_DEVICE → is_dfl_device pdev = true → sva_gone pdev s')) (λ _ _, False) s.
Proof.
  intros Hi. unfold sva_bus_notifier. destruct action; wsteps; try (by split).
  1,2: eapply wp_mono; [by apply sva_add_dev_spec|done..].
  eapply wp_mono; [by apply sva_del_dev_spec| |done]. cbv beta. naive_solver.
Qed.
Lemma cleanup_loop l s :
  sva_inv (set_sv_list l s) [] →
  wp (for_each l del_dfl_mdev) (λ _ s', sva_inv (set_sv_list [] s') []) (λ _ _, False) s.
Proof.
  revert s. induction l as [|d l IH]; intros s Hi; cbn [for_each]; wsteps; [done|].
  pose proof Hi as [Hh Hl Hnd _ _ _ _ _ _]. cbn in Hh, Hnd. apply list.NoDup_cons in Hnd as [Hd Hnd].
  destruct (proj1 (Hl d)) as (dev & Hdev & p & Hp); [by left|].
  eapply sva_del_mdev_spec; [done|done|done|]. apply IH. pose proof (sva_inv_gone _ _ _ _ _ Hi Hdev Hp) as Hinv.
  unfold without_node in Hinv. cbn [set_sv_list sv_k sv_devs sv_list sv_misc sv_held sv_next] in Hinv.
  rewrite filter_cons, decide_False in Hinv by tauto. by rewrite filter_other in Hinv.
Qed.
Lemma sva_cleanup_spec s :
  sva_inv s [] →
  wp dfl_pci_sva_cleanup_module (λ _ s', sv_devs s' = ∅ ∧ sv_held s' = ∅ ∧ sv_misc s' = [] ∧ sv_list s' = []) (λ _ _, False) s.
Proof.
  intros Hi. unfold dfl_pci_sva_cleanup_module. wsteps. eapply wp_mono; [apply cleanup_loop; by destruct s| |done].
  intros _ s' [Hh Hl _ Hg Hf _ Hm _ _]. wsteps. cbn [set_sv_list sv_devs sv_list sv_misc sv_held] in *.
  assert (He : sv_devs s' = ∅).
  { apply map_empty. intros d. destruct (sv_devs s' !! d) as [dev|] eqn:Hd; [|done]. exfalso.
    destruct (sd_pdev dev) as [p|] eqn:Hp; [eapply elem_of_nil, Hl; by eauto|].
    destruct (Hg d dev Hd Hp) as [Hnil _]. destruct (sd_handles dev) as [|[sva h] l] eqn:Hx; [done|].
    eapply elem_of_nil, (Hf d sva). exists dev. split; [done|]. rewrite Hx, fmap_cons. by left. }
  split_and!; [done|by rewrite Hh, He| |done]. destruct (sv_misc s') as [|d l]; [done|]. exfalso. eapply elem_of_nil, (Hm d). by left.
Qed.
(** Nothing of the module before it is loaded. *)
Definition sva_unloaded s : Prop := sv_devs s = ∅ ∧ sv_misc s = [] ∧ sv_held s = ∅.
Lemma unloaded_inv s : sva_unloaded s → sva_inv (set_sv_list [] s) [].
Proof.
  intros (Hd & Hm & Hh). constructor; cbn; rewrite ?Hd, ?Hm, ?Hh; try done; try by (intros; simplify_map_eq).
  - intros d. rewrite elem_of_nil. split; [done|]. by intros (x & Hx & _).
  - constructor.
  - intros d sva. rewrite elem_of_nil. split; [done|]. by intros (x & Hx & _).
Qed.
Lemma sva_init_spec pdevs s :
  sva_unloaded s → wp (dfl_pci_sva_init_module pdevs) (λ _ s', sva_inv s' []) (λ _ s', sva_inv s' []) s.
Proof.
  intros Hu%unloaded_inv. unfold dfl_pci_sva_init_module. wsteps. apply sv_op_spec. intros ret k. wsteps; intros _.
  - eapply wp_mono; [apply (wp_for_each _ _ (λ s, sva_inv s []) (λ _ _, False))|done..].
    + by eapply same_sva_inv.
    + intros pdev s' _ Hi. by apply sva_add_dev_spec.
  - by eapply same_sva_inv.
Qed.

(** ** What may happen while the module is loaded *)
Inductive sva_call :=
  | CallOpen (d : Z)
  | CallRelease (d sva : Z)
  | CallIoctl (has_mm : bool) (d sva cmd : Z)
  | CallNotify (action : bus_notify) (pdev : Z).
(** A device file is opened while it is registered, an open file is used and closed. *)
Definition sva_allowed s fs (c : sva_call) : Prop :=
  match c with
  | CallOpen d => d ∈ sv_misc s
  | CallRelease d sva => (d, sva) ∈ fs
  | CallIoctl _ d sva cmd => (d, sva) ∈ fs
  | CallNotify _ _ => True
  end.
(** A command that the device does not know, when the card is gone. *)
Definition unknown_when_gone s (c : sva_call) : Prop :=
  match c with CallIoctl _ d _ cmd => ¬ known_cmd cmd ∧ d ∉ sv_list s | _ => False end.
#[export] Instance known_cmd_dec cmd : Decision (known_cmd cmd).
Proof. unfold known_cmd. apply _. Defined.
#[export] Instance unknown_when_gone_dec s c : Decision (unknown_when_gone s c).
Proof. destruct c; cbn [unknown_when_gone]; apply _. Defined.
(** The open files after the call. *)
Definition sva_run (c : sva_call) fs : M sva_st (list (Z * Z)) :=
  match c with
  | CallOpen d => r ← attempt (dfl_pci_sva_open d); mret (match r : Z + Z with inl _ => fs | inr sva => (d, sva) :: fs end)
  | CallRelease d sva => dfl_pci_sva_release d sva ;; mret (base.filter (λ x, x ≠ (d, sva)) fs)
  | CallIoctl has_mm d sva cmd => _ ← attempt (dfl_pci_sva_ioctl has_mm d sva cmd); mret fs
  | CallNotify action pdev => sva_bus_notifier action pdev ;; mret fs
  end.
Inductive sva_reach : sva_st → list (Z * Z) → Prop :=
  | reach_load s0 pdevs s : sva_unloaded s0 → dfl_pci_sva_init_module pdevs s0 = Done (Val tt, s) → sva_reach s []
  | reach_call s fs c fs' s' : sva_reach s fs → sva_allowed s fs c → sva_run c fs s = Done (Val fs', s') → sva_reach s' fs'.
Lemma sva_run_spec c s fs :
  sva_inv s fs → sva_allowed s fs c → ¬ unknown_when_gone s c →
  wp (sva_run c fs) (λ fs' s', sva_inv s' fs' ∧
    match c with CallNotify BUS_NOTIFY_DEL_DEVICE p => is_dfl_device p = true → sva_gone p s' | _ => True end) (λ _ _, False) s.
Proof.
  intros Hi Ha Hu. destruct c as [d|d sva|mm d sva cmd|action p]; cbn [sva_run sva_allowed unknown_when_gone] in *; wsteps.
  - eapply wp_mono; [by apply sva_open_spec|..]; cbv beta; [intros sva s' Hs|intros e s' [He Hs]]; wsteps; by split.
  - eapply wp_mono; [by apply (sva_release_spec _ _ _ fs)| |done]. cbv beta. intros _ s' Hs. wsteps. by split.
  - assert (known_cmd cmd ∨ d ∈ sv_list s) by (destruct (decide (known_cmd cmd)), (decide (d ∈ sv_list s)); tauto).
    eapply wp_mono; [by apply (sva_ioctl_spec _ _ _ _ _ fs)|..]; intros ? s' Hs; wsteps; by split.
  - eapply wp_mono; [by apply (sva_notifier_spec _ _ _ fs)| |done]. cbv beta. intros _ s' [Hs Hg]. wsteps. split; [done|]. destruct action; [done..|by apply Hg|done].
Qed.
Lemma unknown_faults c s fs : sva_inv s fs → sva_allowed s fs c → unknown_when_gone s c → sva_run c fs s = Fault.
Proof.
  intros Hi Ha. destruct c as [d|d sva|mm d sva cmd|action p]; cbn [sva_allowed unknown_when_gone] in *; try done. intros [Hk Hl].
  destruct (open_file _ _ _ _ Hi Ha) as (dev & h & Hd & _). assert (Hp : sd_pdev dev = None).
  { destruct (sd_pdev dev) as [p|] eqn:Hp; [|done]. destruct Hl. apply (si_list _ _ Hi). by exists dev; split; [|exists p]. }
  unfold known_cmd in Hk. apply Decidable.not_or in Hk as [H1 Hk]. apply Decidable.not_or in Hk as [H2 H3].
  cbn [sva_run]. unfold dfl_pci_sva_ioctl, get_dev, mbind, M_bind, attempt. unfold get, mbind, M_bind. rewrite Hd. cbn [access mret].
  rewrite (proj2 (Z.eqb_neq _ _) H1), (proj2 (Z.eqb_neq _ _) H2), (proj2 (Z.eqb_neq _ _) H3).
  unfold mret, M_ret. by rewrite Hp.
Qed.
Lemma reach_inv s fs : sva_reach s fs → sva_inv s fs.
Proof.
  induction 1 as [s0 pdevs s Hu He|s fs c fs' s' _ IH Ha He].
  - exact (wp_elim _ _ _ _ _ _ (sva_init_spec pdevs s0 Hu) He).
  - destruct (decide (unknown_when_gone s c)) as [Hu|Hu]; [by rewrite (unknown_faults c s fs IH Ha Hu) in He|].
    by destruct (wp_elim _ _ _ _ _ _ (sva_run_spec c s fs IH Ha Hu) He).
Qed.

(** C3: However device files are opened, used and closed while cards come and go, no
    function of the driver uses a node that was freed, and each call ends, with one exception:
    a command that the device does not know, on a file that is still open after
    its card is gone, uses the null pointer that the card left.  Each node of a card that is
    gone waits for files that are still open, without bindings; a card that goes leaves
    none of its features enabled; and when the module is unloaded, with all files
    closed, every node is freed and nothing is held of the IOMMU.  What the kernel
    itself reads of a node after the driver's functions have returned is not modelled. *)
Theorem sva_lifetimes s fs :
  sva_reach s fs →
  sva_inv s fs ∧
  (∀ c, sva_allowed s fs c → unknown_when_gone s c → sva_run c fs s = Fault) ∧
  (∀ c, sva_allowed s fs c → ¬ unknown_when_gone s c → ∃ fs' s', sva_run c fs s = Done (Val fs', s') ∧ sva_reach s' fs' ∧
    match c with CallNotify BUS_NOTIFY_DEL_DEVICE p => is_dfl_device p = true → sva_gone p s' | _ => True end) ∧
  (fs = [] → ∃ s', dfl_pci_sva_cleanup_module s = Done (Val tt, s') ∧ sva_unloaded s').
Proof.
  intros Hr. pose proof (reach_inv _ _ Hr) as Hi. split; [done|]. split; [|split].
  - intros c Ha Hu. by apply (unknown_faults c s fs).
  - intros c Ha Hu. pose proof (sva_run_spec c s fs Hi Ha Hu) as Hx. unfold wpg in Hx.
    destruct (sva_run c fs s) as [[[fs'|e] s']| |] eqn:He; try done. destruct Hx as [_ Hg]. exists fs', s'. split; [done|]. split; [by eapply reach_call|done].
  - intros ->. pose proof (sva_cleanup_spec s Hi) as Hx. unfold wpg in Hx.
    destruct (dfl_pci_sva_cleanup_module s) as [[[[]|e] s']| |]; try done. exists s'. split; [done|]. unfold sva_unloaded. tauto.
Qed.
End SvaFacts.

(** ** Concrete cards *)
Section SvaPlay.
Context `{SvaKernel}.
#[export] Instance sva_allowed_dec s fs c : Decision (sva_allowed s fs c).
Proof. destruct c; cbn [sva_allowed]; apply _. Defined.
(** The module is loaded, then the calls are made, each if it is allowed. *)
Fixpoint sva_play (cs : list sva_call) (s : sva_st) (fs : list (Z * Z)) : option (sva_st * list (Z * Z)) :=
  match cs with
  | [] => Some (s, fs)
  | c :: cs =>
      if decide (sva_allowed s fs c) then
        match sva_run c fs s with Done (Val fs', s') => sva_play cs s' fs' | _ => None end
      else None
  end.
Definition sva_scenario (pdevs : list Z) (cs : list sva_call) (s0 : sva_st) : option (sva_st * list (Z * Z)) :=
  match dfl_pci_sva_init_module pdevs s0 with Done (Val tt, s) => sva_play cs s [] | _ => None end.
Lemma play_reach cs s fs s' fs' : sva_reach s fs → sva_play cs s fs = Some (s', fs') → sva_reach s' fs'.
Proof.
  revert s fs. induction cs as [|c cs IH]; intros s fs Hr; cbn; [by intros [= <- <-]|]. destruct (decide _) as [Ha|]; [|done].
  destruct (sva_run c fs s) as [[[fs1|e] s1]| |] eqn:He; try done. apply IH. by eapply reach_call.
Qed.
Lemma scenario_reach pdevs cs s0 s fs : sva_unloaded s0 → sva_scenario pdevs cs s0 = Some (s, fs) → sva_reach s fs.
Proof.
  intros Hu. unfold sva_scenario. destruct (dfl_pci_sva_init_module pdevs s0) as [[[[]|e] s1]| |] eqn:He; try done.
  apply play_reach. by eapply reach_load.
Qed.
End SvaPlay.

(** Cards 7 and 8 are for this module, each binding gets the next handle; device files
    can be registered or not. *)
Definition demo_sva (reg : Z) : SvaKernel := {|
  svk := Z;
  svk_alloc k := (true, k);
  svk_enable _ _ k := (0, k);
  svk_bind _ k := (inl (Some k), k + 1);
  svk_pasid h := 1000 + h;
  svk_misc_register k := (reg, k);
  svk_register_notifier k := (0, k);
  pdev_vendor _ := PCI_VENDOR_ID_INTEL;
  pdev_device p := if (p =? 7) || (p =? 8) then PCIE_DEVICE_ID_INTEL_DFL else 0;
|}.
Definition sva_start (reg : Z) : @sva_st (demo_sva reg) := @SvaSt (demo_sva reg) 1 ∅ [] [] ∅ 100.
(** Card 7 is opened and bound, and goes away; a command still works. *)
Definition gone_calls : list sva_call :=
  [CallOpen 100; CallIoctl true 100 101 DFL_PCI_SVA_BIND_DEV; CallNotify BUS_NOTIFY_ADD_DEVICE 8; CallNotify BUS_NOTIFY_DEL_DEVICE 7;
   CallIoctl true 100 101 DFL_PCI_SVA_BIND_DEV].
(** The nodes, the list of cards, the device files and the open files at the end. *)
Definition sva_view (reg : Z) (r : option (@sva_st (demo_sva reg) * list (Z * Z))) : option (list (Z * dfl_sva_dev) * list Z * list Z * list (Z * Z)) :=
  (λ x, (map_to_list (sv_devs x.1), sv_list x.1, sv_misc x.1, x.2)) <$> r.
Definition sva_demo (reg : Z) (cs : list sva_call) := @sva_scenario (demo_sva reg) [7; 9] cs (sva_start reg).
Lemma demo_reach reg cs s fs : sva_demo reg cs = Some (s, fs) → @sva_reach (demo_sva reg) s fs.
Proof. unfold sva_demo. apply scenario_reach. by repeat split. Qed.
Example gone_view :
  sva_view 0 (sva_demo 0 gone_calls) =
    Some ([(102, SvaDev (Some 8) []); (100, SvaDev None [(101, None)])], [102], [102], [(100, 101)]).
Proof. vm_compute. reflexivity. Qed.
Lemma sva_lifetimes_witness :
  ∃ s fs, sva_demo 0 gone_calls = Some (s, fs) ∧ @sva_inv (demo_sva 0) s fs ∧
    ∃ fs' s', @sva_run (demo_sva 0) (CallRelease 100 101) fs s = Done (Val fs', s') ∧ @sva_reach (demo_sva 0) s' fs'.
Proof.
  pose proof gone_view as Hv. destruct (sva_demo 0 gone_calls) as [[s fs]|] eqn:He; [|discriminate Hv].
  exists s, fs. split; [reflexivity|]. injection Hv as _ _ _ Hfs.
  destruct (@sva_lifetimes (demo_sva 0) s fs) as (Hi & _ & Hrun & _).
  { apply (demo_reach 0 gone_calls), He. }
  split; [exact Hi|]. destruct (Hrun (CallRelease 100 101)) as (fs' & s' & Hr & Hs & _); [|intros []|exists fs', s'; by split].
  cbn in Hfs |- *. rewrite Hfs. by left.
Defined.
(** A command that the device does not know, after the card is gone: its name is read
    through a null pointer. *)
Example unknown_command_faults :
  match sva_demo 0 gone_calls with
  | Some (s, _) => @dfl_pci_sva_ioctl (demo_sva 0) true 100 101 0xB6FF s = Fault
  | None => False
  end.
Proof. vm_compute. reflexivity. Qed.
(** A card whose device file can not be registered stays in the list, with its features
    enabled, and nobody can open it. *)
Example file_not_registered : sva_view (- EBUSY) (sva_demo (- EBUSY) []) = Some ([(100, SvaDev (Some 7) [])], [100], [], []).
Proof. vm_compute. reflexivity. Qed.
