(* ===== verification/DflIrq.v ===== *)
(** * Interrupt triggers of a feature (drivers/fpga/dfl.c)

    User space binds eventfds to the interrupts of a feature.  Each binding holds
    a registered handler, a reference on the eventfd context and a name buffer;
    the state counts all three, so that a leak or a double release would show. *)
From S2P Require Import Prelude DflTypes.

(** The kernel services that can fail: allocations, and the registration of a
    handler; and the table of open files, which gives the context of an eventfd
    or an error code. *)
Class IrqKernel := {
  ik : Type;
  ik_alloc : ik → bool * ik;
  ik_request_irq : Z → Z → ik → Z * ik;
  ik_eventfd : Z → Z + Z;
}.

Section Irq.
Context `{IrqKernel}.

(** [q_handlers irq t] is how many times [dfl_irq_handler] is registered for
    [irq] with the argument [t], [q_refs t] the references held on [t],
    [q_names] the name buffers that are allocated. *)
Record qst := QSt {
  q_k : ik;
  q_ctx : list dfl_feature_irq_ctx;
  q_handlers : Z → Z → Z;
  q_refs : Z → Z;
  q_names : Z;
}.
Definition set_q_k (k : ik) (s : qst) : qst := QSt k (q_ctx s) (q_handlers s) (q_refs s) (q_names s).
Definition set_q_ctx (c : list dfl_feature_irq_ctx) (s : qst) : qst :=
  QSt (q_k s) c (q_handlers s) (q_refs s) (q_names s).

Definition count_if (b : bool) : Z := Z.b2z b.
Definition add_handler (n irq t : Z) : M qst unit := modify (λ s,
  QSt (q_k s) (q_ctx s) (λ i x, q_handlers s i x + n * count_if ((i =? irq) && (x =? t)))
    (q_refs s) (q_names s)).
Definition add_eventfd (n t : Z) : M qst unit := modify (λ s,
  QSt (q_k s) (q_ctx s) (q_handlers s) (λ x, q_refs s x + n * count_if (x =? t)) (q_names s)).
Definition add_names (n : Z) : M qst unit := modify (λ s,
  QSt (q_k s) (q_ctx s) (q_handlers s) (q_refs s) (q_names s + n)).
Definition qk {A} (f : ik → A * ik) : M qst A := λ s, let (a, k) := f (q_k s) in Done (Val a, set_q_k k s).

(** [free_irq], [kfree] of a name, [eventfd_ctx_put]; [kasprintf],
    [eventfd_ctx_fdget], [request_irq]. *)
Definition free_irq (irq t : Z) : M qst unit := add_handler (-1) irq t.
Definition kfree_name : M qst unit := add_names (-1).
Definition eventfd_ctx_put (t : Z) : M qst unit := add_eventfd (-1) t.
Definition kasprintf : M qst bool :=
  ok ← qk ik_alloc;
  if (ok : bool) then add_names 1 ;; mret true else mret false.
Definition eventfd_ctx_fdget (fd : Z) : M qst (Z + Z) :=
  match ik_eventfd fd with
  | inl t => add_eventfd 1 t ;; mret (inl t)
  | inr e => mret (inr e)
  end.
Definition request_irq (irq t : Z) : M qst Z :=
  ret ← qk (ik_request_irq irq t);
  if ret =? 0 then add_handler 1 irq t ;; mret 0 else mret ret.

Definition set_ctx (idx : nat) (c : dfl_feature_irq_ctx) : M qst unit :=
  modify (λ s, set_q_ctx (<[idx := c]> (q_ctx s)) s).

(** An entry whose trigger is unbound has a name pointer that is not used. *)
(* drivers/fpga/dfl.c:2060-2103 do_set_irq_trigger *)
Definition do_set_irq_trigger (idx fd : Z) : M qst unit :=
  ctx ← gets q_ctx;
  c ← access (ctx !! Z.to_nat idx);
  let irq := ic_irq c in
  (match ic_trigger c with
   | Some t =>
       free_irq irq t ;;
       kfree_name ;;
       eventfd_ctx_put t ;;
       set_ctx (Z.to_nat idx) (IrqCtx irq None false)
   | None => mret tt
   end) ;;
  if fd <? 0 then mret tt else
  name ← kasprintf;
  if negb name then throw (- ENOMEM) else
  trigger ← eventfd_ctx_fdget fd;
  match trigger with
  | inr ret =>
      kfree_name ;;
      throw ret
  | inl trigger =>
      ret ← request_irq irq trigger;
      if ret =? 0 then set_ctx (Z.to_nat idx) (IrqCtx irq (Some trigger) true)
      else
        eventfd_ctx_put trigger ;;
        kfree_name ;;
        throw ret
  end.

(** [while (i--)]: unbind the triggers before number [i]. *)
(* drivers/fpga/dfl.c:2139-2140 dfl_fpga_set_irq_triggers *)
Fixpoint unset_irq_triggers (start : Z) (i : nat) : M qst unit :=
  match i with
  | O => mret tt
  | S i => status (do_set_irq_trigger (u32 (start + Z.of_nat i)) (-1)) ≫= λ _, unset_irq_triggers start i
  end.

(** The loop at index [i], with [n] iterations left. *)
(* drivers/fpga/dfl.c:2134-2143 dfl_fpga_set_irq_triggers *)
Fixpoint set_irq_triggers_loop (start : Z) (fds : option (list Z)) (i n : nat) : M qst unit :=
  match n with
  | O => mret tt
  | S n =>
      fd ← (match fds with Some fds => access (fds !! i) | None => mret (-1) end);
      on_error (do_set_irq_trigger (u32 (start + Z.of_nat i)) fd) (unset_irq_triggers start i) ;;
      set_irq_triggers_loop start fds (S i) n
  end.

(* drivers/fpga/dfl.c:2120-2146 dfl_fpga_set_irq_triggers *)
Definition dfl_fpga_set_irq_triggers (nr_irqs start count : Z) (fds : option (list Z)) : M qst unit :=
  if u32 (start + count) <? start then throw (- EINVAL) else
  if nr_irqs <? u32 (start + count) then throw (- EINVAL) else
  set_irq_triggers_loop start fds 0 (Z.to_nat count).

(** [put_user]: a status. *)
(* drivers/fpga/dfl.c:2157-2162 dfl_feature_ioctl_get_num_irqs *)
Definition dfl_feature_ioctl_get_num_irqs (put_user : Z → Z) (nr_irqs : Z) : Z := put_user nr_irqs.

(** [hdr] is what [copy_from_user] gives, [user_fds count] what [memdup_user] does. *)
(* drivers/fpga/dfl.c:2173-2203 dfl_feature_ioctl_set_irq *)
Definition dfl_feature_ioctl_set_irq (nr_irqs : Z) (hdr : option (Z * Z)) (user_fds : Z → list Z + Z)
    : M qst unit :=
  if nr_irqs =? 0 then throw (- ENOENT) else
  match hdr with
  | None => throw (- EFAULT)
  | Some (start, count) =>
      if (count =? 0) || (nr_irqs <? u32 (start + count)) || (u32 (start + count) <? start)
      then throw (- EINVAL)
      else
        match user_fds count with
        | inr e => throw e
        | inl fds => dfl_fpga_set_irq_triggers nr_irqs start count (Some fds)
        end
  end.

(** ** Accounting *)

(** How many entries are bound to [t] on [irq]; to [t]; at all. *)
Fixpoint handlers_of (l : list dfl_feature_irq_ctx) (irq t : Z) : Z :=
  match l with
  | [] => 0
  | c :: l => handlers_of l irq t +
      match ic_trigger c with Some x => count_if ((irq =? ic_irq c) && (t =? x)) | None => 0 end
  end.
Fixpoint refs_of (l : list dfl_feature_irq_ctx) (t : Z) : Z :=
  match l with
  | [] => 0
  | c :: l => refs_of l t + match ic_trigger c with Some x => count_if (t =? x) | None => 0 end
  end.
Fixpoint bound_of (l : list dfl_feature_irq_ctx) : Z :=
  match l with
  | [] => 0
  | c :: l => bound_of l + match ic_trigger c with Some _ => 1 | None => 0 end
  end.

(** The bindings own exactly the handlers, references and names there are. *)
Definition bindings_exact (s : qst) : Prop :=
  (∀ irq t, q_handlers s irq t = handlers_of (q_ctx s) irq t) ∧
  (∀ t, q_refs s t = refs_of (q_ctx s) t) ∧
  q_names s = bound_of (q_ctx s).

Lemma handlers_of_insert l i c c' irq t :
  l !! i = Some c →
  handlers_of (<[i := c']> l) irq t = handlers_of l irq t
    - match ic_trigger c with Some x => count_if ((irq =? ic_irq c) && (t =? x)) | None => 0 end
    + match ic_trigger c' with Some x => count_if ((irq =? ic_irq c') && (t =? x)) | None => 0 end.
Proof.
  revert i. induction l as [|y l IH]; intros [|i] Hi; try done; simpl in Hi |- *.
  - injection Hi as ->. lia.
  - rewrite (IH i Hi). lia.
Qed.
Lemma refs_of_insert l i c c' t :
  l !! i = Some c →
  refs_of (<[i := c']> l) t = refs_of l t
    - match ic_trigger c with Some x => count_if (t =? x) | None => 0 end
    + match ic_trigger c' with Some x => count_if (t =? x) | None => 0 end.
Proof.
  revert i. induction l as [|y l IH]; intros [|i] Hi; try done; simpl in Hi |- *.
  - injection Hi as ->. lia.
  - rewrite (IH i Hi). lia.
Qed.
Lemma bound_of_insert l i c c' :
  l !! i = Some c →
  bound_of (<[i := c']> l) = bound_of l
    - match ic_trigger c with Some _ => 1 | None => 0 end
    + match ic_trigger c' with Some _ => 1 | None => 0 end.
Proof.
  revert i. induction l as [|y l IH]; intros [|i] Hi; try done; simpl in Hi |- *.
  - injection Hi as ->. lia.
  - rewrite (IH i Hi). lia.
Qed.

Lemma wp_qk {A F N} (f : ik → A * ik) (Q : A → qst → Prop) E s :
  Q (fst (f (q_k s))) (set_q_k (snd (f (q_k s))) s) → wpg F N (qk f) Q E s.
Proof. unfold wpg, qk. by destruct (f (q_k s)). Qed.

(** The trigger that a descriptor asks for. *)
Definition wanted (fd : Z) (t : option Z) : Prop :=
  match t with
  | None => fd < 0
  | Some t => 0 <= fd ∧ ik_eventfd fd = inl t
  end.
Definition unbound (c : dfl_feature_irq_ctx) : dfl_feature_irq_ctx := IrqCtx (ic_irq c) None false.

Definition ctx_clean (l : list dfl_feature_irq_ctx) : Prop :=
  Forall (λ c, ic_trigger c = None → ic_name c = false) l.

(** Where the state may be while one entry is rebound: every count is what the
    other bindings and [h], [r] and [n] more own. *)
Definition bindings_plus (h : Z → Z → Z) (r : Z → Z) (n : Z) (s : qst) : Prop :=
  (∀ irq t, q_handlers s irq t = handlers_of (q_ctx s) irq t + h irq t) ∧
  (∀ t, q_refs s t = refs_of (q_ctx s) t + r t) ∧
  q_names s = bound_of (q_ctx s) + n.
Definition none1 : Z → Z := λ _, 0.
Definition none2 : Z → Z → Z := λ _ _, 0.
Definition one1 (t : Z) : Z → Z := λ x, count_if (x =? t).

Lemma bindings_exact_plus s : bindings_exact s ↔ bindings_plus none2 none1 0 s.
Proof.
  unfold bindings_exact, bindings_plus, none1, none2.
  split; intros (H1 & H2 & H3); (split_and!; [intros irq t; specialize (H1 irq t)|intros t; specialize (H2 t)|]; lia).
Qed.

Ltac plus_go :=
  let Hh := fresh "Hh" in let Hr := fresh "Hr" in let Hn := fresh "Hn" in
  match goal with H : bindings_plus _ _ _ _ |- _ => destruct H as (Hh & Hr & Hn) end;
  unfold none1, none2, one1 in *;
  split_and!; cbn; [intros irq_ t_; rewrite Hh; cbn|intros t_; rewrite Hr; cbn|rewrite Hn; cbn]; lia.

(** Unbinding. *)
Definition release_trigger (idx : nat) (c : dfl_feature_irq_ctx) : M qst unit :=
  match ic_trigger c with
  | Some t =>
      free_irq (ic_irq c) t ;;
      kfree_name ;;
      eventfd_ctx_put t ;;
      set_ctx idx (IrqCtx (ic_irq c) None false)
  | None => mret tt
  end.

Lemma unbound_clean l idx c : ctx_clean l → l !! idx = Some c → ic_trigger c = None → unbound c = c.
Proof.
  intros Hc Hi Ht. pose proof (Forall_lookup_1 _ _ _ _ Hc Hi Ht) as Hn.
  destruct c. cbn in *. by subst.
Qed.

Lemma release_trigger_spec idx c s :
  bindings_exact s → ctx_clean (q_ctx s) → q_ctx s !! idx = Some c →
  wp (release_trigger idx c)
     (λ _ s', bindings_exact s' ∧ q_ctx s' = <[idx := unbound c]> (q_ctx s)) (λ _ _, False) s.
Proof.
  intros Hb Hc Hi. unfold release_trigger. destruct (ic_trigger c) as [t|] eqn:Ht.
  - unfold free_irq, kfree_name, eventfd_ctx_put, set_ctx, add_handler, add_names, add_eventfd. wsteps.
    split; [|done]. destruct Hb as (H1 & H2 & H3). split_and!; cbn.
    + intros irq x. rewrite (handlers_of_insert _ _ _ _ _ _ Hi), H1, Ht. cbn. lia.
    + intros x. rewrite (refs_of_insert _ _ _ _ _ Hi), H2, Ht. cbn. lia.
    + rewrite (bound_of_insert _ _ _ _ Hi), H3, Ht. cbn. lia.
  - wsteps. split; [done|]. rewrite (unbound_clean _ _ _ Hc Hi Ht). by rewrite list_insert_id.
Qed.

(** Binding an entry that is unbound. *)
Lemma bind_entry idx c t s :
  q_ctx s !! idx = Some (unbound c) →
  bindings_plus (λ i x, count_if ((i =? ic_irq c) && (x =? t))) (one1 t) 1 s →
  bindings_exact (set_q_ctx (<[idx := IrqCtx (ic_irq c) (Some t) true]> (q_ctx s)) s).
Proof.
  intros Hi (H1 & H2 & H3). split_and!; cbn.
  - intros irq x. rewrite (handlers_of_insert _ _ _ _ _ _ Hi), H1. cbn. lia.
  - intros x. rewrite (refs_of_insert _ _ _ _ _ Hi), H2. unfold one1. cbn. lia.
  - rewrite (bound_of_insert _ _ _ _ Hi), H3. cbn. lia.
Qed.

(** One call: the entry is bound as asked, or, on an error, it is unbound. *)
Lemma do_set_irq_trigger_spec idx fd s c :
  bindings_exact s → ctx_clean (q_ctx s) → q_ctx s !! Z.to_nat idx = Some c →
  wp (do_set_irq_trigger idx fd)
     (λ _ s', bindings_exact s' ∧ ∃ t, wanted fd t ∧
        q_ctx s' = <[Z.to_nat idx := IrqCtx (ic_irq c) t (bool_decide (is_Some t))]> (q_ctx s))
     (λ e s', bindings_exact s' ∧ 0 <= fd ∧ q_ctx s' = <[Z.to_nat idx := unbound c]> (q_ctx s)) s.
Proof.
  intros Hb Hc Hi. unfold do_set_irq_trigger. wsteps. rewrite Hi. cbn [access]. wsteps.
  eapply wp_mono; [by apply (release_trigger_spec (Z.to_nat idx) c)| |done].
  intros ? s1 [Hb1 Hctx1].
  assert (q_ctx s1 !! Z.to_nat idx = Some (unbound c)) as Hi1.
  { rewrite Hctx1. apply list_lookup_insert_eq. by eapply lookup_lt_Some. }
  destruct (Z.ltb_spec fd 0) as [Hfd|Hfd].
  { wsteps. split; [done|]. exists None. split; [done|]. by rewrite Hctx1. }
  apply bindings_exact_plus in Hb1.
  unfold kasprintf, eventfd_ctx_fdget, request_irq, kfree_name, eventfd_ctx_put, set_ctx,
    add_names, add_eventfd, add_handler.
  wsteps. apply wp_qk. destruct (fst (ik_alloc _)); wsteps; cbn [negb].
  2: { wsteps. split; [|done]. apply bindings_exact_plus. plus_go. }
  destruct (ik_eventfd fd) as [t|e] eqn:Hev; wsteps.
  2: { split; [apply bindings_exact_plus; plus_go|done]. }
  apply wp_qk. case_match; wsteps.
  - split.
    + apply bind_entry; [done|]. plus_go.
    + exists (Some t). split; [done|]. cbn. by rewrite Hctx1, list_insert_insert_eq.
  - case_match; wsteps; [done|]. split; [apply bindings_exact_plus; plus_go|done].
Qed.

(** ** The table of a feature before and after a call *)
Definition table_rel (P : Z → dfl_feature_irq_ctx → dfl_feature_irq_ctx → Prop)
    (l l' : list dfl_feature_irq_ctx) : Prop :=
  ∀ j : nat, match l !! j, l' !! j with
             | Some c, Some c' => P (Z.of_nat j) c c'
             | None, None => True
             | _, _ => False
             end.

Lemma table_rel_refl (P : Z → dfl_feature_irq_ctx → dfl_feature_irq_ctx → Prop) l :
  (∀ j c, P j c c) → table_rel P l l.
Proof. intros HP j. by destruct (l !! j). Qed.

Lemma table_rel_insert (P P' : Z → dfl_feature_irq_ctx → dfl_feature_irq_ctx → Prop) l l' i c' :
  table_rel P l l' →
  (∀ c, l !! i = Some c → P' (Z.of_nat i) c c') →
  (∀ j c d, j ≠ Z.of_nat i → P j c d → P' j c d) →
  table_rel P' l (<[i := c']> l').
Proof.
  intros Hl Hi Hj j. specialize (Hl j). destruct (decide (j = i)) as [->|Hne].
  - destruct (l !! i) as [c|] eqn:E; destruct (l' !! i) as [d|] eqn:E'; try done.
    + rewrite list_lookup_insert_eq by (by eapply lookup_lt_Some). auto.
    + apply lookup_ge_None in E'. rewrite list_insert_ge by done. by rewrite lookup_ge_None_2.
  - rewrite list_lookup_insert_ne by done.
    destruct (l !! j), (l' !! j); try done. apply Hj; [lia|done].
Qed.

Lemma table_rel_mono (P P' : Z → dfl_feature_irq_ctx → dfl_feature_irq_ctx → Prop) l l' :
  (∀ j c d, P j c d → P' j c d) → table_rel P l l' → table_rel P' l l'.
Proof. intros HP Hl j. specialize (Hl j). destruct (l !! j), (l' !! j); auto. Qed.

Lemma table_rel_lookup P l l' (i : nat) c :
  table_rel P l l' → l' !! i = Some c → ∃ c0, l !! i = Some c0 ∧ P (Z.of_nat i) c0 c.
Proof. intros Hl Hi. specialize (Hl i). rewrite Hi in Hl. destruct (l !! i) as [c0|]; [by exists c0|done]. Qed.

Lemma table_rel_length P l l' : table_rel P l l' → length l' = length l.
Proof.
  intros Hl. destruct (Nat.lt_trichotomy (length l) (length l')) as [H1|[H1|H1]]; [|done|].
  - specialize (Hl (length l)). rewrite lookup_ge_None_2 in Hl by done.
    destruct (lookup_lt_is_Some_2 _ _ H1) as [c Hc]. by rewrite Hc in Hl.
  - specialize (Hl (length l')). rewrite (lookup_ge_None_2 l') in Hl by done.
    destruct (lookup_lt_is_Some_2 _ _ H1) as [c Hc]. by rewrite Hc in Hl.
Qed.

Lemma unbound_idem c : unbound (unbound c) = unbound c.
Proof. done. Qed.

(** Entries from [a] on, up to [b], are unbound, and the others are not touched. *)
Definition unbound_between (a b j : Z) (c c' : dfl_feature_irq_ctx) : Prop :=
  if decide (a <= j < b) then c' = unbound c else c' = c.

Lemma ctx_clean_insert l i c : ctx_clean l → (ic_trigger c = None → ic_name c = false) → ctx_clean (<[i := c]> l).
Proof. intros. by apply Forall_insert. Qed.

Lemma table_rel_trans (P Q R : Z → dfl_feature_irq_ctx → dfl_feature_irq_ctx → Prop) l1 l2 l3 :
  (∀ j c1 c2 c3, P j c1 c2 → Q j c2 c3 → R j c1 c3) →
  table_rel P l1 l2 → table_rel Q l2 l3 → table_rel R l1 l3.
Proof.
  intros HR H1 H2 j. specialize (H1 j). specialize (H2 j).
  destruct (l1 !! j), (l2 !! j), (l3 !! j); try done. by eapply HR.
Qed.

Definition table_comp (P Q : Z → dfl_feature_irq_ctx → dfl_feature_irq_ctx → Prop)
    (j : Z) (c c' : dfl_feature_irq_ctx) : Prop := ∃ d, P j c d ∧ Q j d c'.

Definition only_at (i : Z) (f : dfl_feature_irq_ctx → dfl_feature_irq_ctx)
    (j : Z) (c c' : dfl_feature_irq_ctx) : Prop := if decide (j = i) then c' = f c else c' = c.

Lemma table_rel_only_at l (i : nat) c f :
  l !! i = Some c → table_rel (only_at (Z.of_nat i) f) l (<[i := f c]> l).
Proof.
  intros Hi. apply (table_rel_insert (λ _, eq)); [by apply table_rel_refl| |]; unfold only_at.
  - intros d Hd. rewrite decide_True by done. congruence.
  - intros j d e Hj ->. by rewrite decide_False.
Qed.

Lemma unbound_clean_insert l i c : ctx_clean l → ctx_clean (<[i := unbound c]> l).
Proof. intros. by apply ctx_clean_insert. Qed.

Lemma unset_irq_triggers_spec start i s :
  bindings_exact s → ctx_clean (q_ctx s) → 0 <= start →
  start + Z.of_nat i <= Z.of_nat (length (q_ctx s)) < 2 ^ 32 →
  wp (unset_irq_triggers start i)
     (λ _ s', bindings_exact s' ∧ ctx_clean (q_ctx s') ∧
        table_rel (unbound_between start (start + Z.of_nat i)) (q_ctx s) (q_ctx s'))
     (λ _ _, False) s.
Proof.
  revert s. induction i as [|i IH]; intros s Hb Hc Hs Hlen; cbn [unset_irq_triggers].
  { wsteps. split_and!; [done..|]. apply table_rel_refl. intros j c. unfold unbound_between.
    by rewrite decide_False by lia. }
  destruct (lookup_lt_is_Some_2 (q_ctx s) (Z.to_nat (start + Z.of_nat i))) as [c Hi]; [lia|].
  wsteps. rewrite u32_small by (unfold is_u32; lia).
  assert (∀ s1, bindings_exact s1 → q_ctx s1 = <[Z.to_nat (start + Z.of_nat i) := unbound c]> (q_ctx s) →
    wp (unset_irq_triggers start i)
     (λ _ s', bindings_exact s' ∧ ctx_clean (q_ctx s') ∧
        table_rel (unbound_between start (start + Z.of_nat (S i))) (q_ctx s) (q_ctx s'))
     (λ _ _, False) s1) as Hgo.
  { intros s1 Hb1 Hctx1. eapply wp_mono; [apply IH| |done].
    - done.
    - rewrite Hctx1. by apply unbound_clean_insert.
    - done.
    - rewrite Hctx1, length_insert. lia.
    - intros ? s' (Hb' & Hc' & Hrel). split_and!; [done..|].
      rewrite Hctx1 in Hrel. eapply table_rel_trans; [|by apply table_rel_only_at|exact Hrel].
      intros j c1 c2 c3. unfold only_at, unbound_between.
      repeat case_decide; intros; subst; try done; lia. }
  eapply wp_mono; [by apply do_set_irq_trigger_spec| |].
  - intros ? s1 (Hb1 & t & Ht & Hctx). apply Hgo; [done|]. destruct t as [t|]; [cbn in Ht; lia|done].
  - intros e s1 (Hb1 & Hneg & Hctx). by apply Hgo.
Qed.

(** *** The whole call *)

(** The descriptor for entry [j] of a call that starts at [start]. *)
Definition fd_at (fds : option (list Z)) (start j : Z) : Z :=
  match fds with
  | Some l => default 0 (l !! Z.to_nat (j - start))
  | None => -1
  end.
Definition rebound (fds : option (list Z)) (start j : Z) (c c' : dfl_feature_irq_ctx) : Prop :=
  ic_irq c' = ic_irq c ∧ wanted (fd_at fds start j) (ic_trigger c') ∧
  ic_name c' = bool_decide (is_Some (ic_trigger c')).
Definition rebound_between (fds : option (list Z)) (start a b j : Z) (c c' : dfl_feature_irq_ctx) : Prop :=
  if decide (a <= j < b) then rebound fds start j c c' else c' = c.

Definition fds_ok (fds : option (list Z)) (count : Z) : Prop :=
  match fds with Some l => Z.of_nat (length l) = count | None => True end.

Lemma fd_at_access {F N} fds start i count (Q : Z → qst → Prop) E s :
  fds_ok fds count → Z.of_nat i < count → Q (fd_at fds start (start + Z.of_nat i)) s →
  wpg F N (match fds with Some fds => access (fds !! i) | None => mret (-1) end) Q E s.
Proof.
  intros Hf Hi HQ. destruct fds as [l|]; [|by wsteps].
  destruct (lookup_lt_is_Some_2 l i) as [fd Hfd]; [cbn in Hf; lia|].
  apply wp_access; [|by rewrite Hfd]. intros a Ha. unfold fd_at in HQ.
  replace (Z.to_nat (start + Z.of_nat i - start)) with i in HQ by lia. by rewrite Ha in HQ.
Qed.

Lemma set_irq_triggers_loop_spec start fds l n i s :
  bindings_exact s → ctx_clean (q_ctx s) → 0 <= start →
  fds_ok fds (Z.of_nat (i + n)) → start + Z.of_nat (i + n) <= Z.of_nat (length l) < 2 ^ 32 →
  table_rel (rebound_between fds start start (start + Z.of_nat i)) l (q_ctx s) →
  wp (set_irq_triggers_loop start fds i n)
     (λ _ s', bindings_exact s' ∧ ctx_clean (q_ctx s') ∧
        table_rel (rebound_between fds start start (start + Z.of_nat (i + n))) l (q_ctx s'))
     (λ _ s', bindings_exact s' ∧ ctx_clean (q_ctx s') ∧
        ∃ k, 0 <= k < Z.of_nat (i + n) ∧ 0 <= fd_at fds start (start + k) ∧
          table_rel (unbound_between start (start + k + 1)) l (q_ctx s')) s.
Proof.
  revert i s. induction n as [|n IH]; intros i s Hb Hc Hs Hf Hlen Hrel; cbn [set_irq_triggers_loop].
  { wsteps. by rewrite Nat.add_0_r. }
  pose proof (table_rel_length _ _ _ Hrel) as Hll.
  destruct (lookup_lt_is_Some_2 (q_ctx s) (Z.to_nat (start + Z.of_nat i))) as [c Hi]; [lia|].
  wsteps. eapply fd_at_access; [done|lia|]. wsteps. rewrite u32_small by (unfold is_u32; lia).
  eapply wp_mono; [by apply do_set_irq_trigger_spec| |].
  - intros ? s1 (Hb1 & t & Ht & Hctx).
    replace (i + S n)%nat with (S i + n)%nat in * by lia. apply IH; try done.
    + rewrite Hctx. apply ctx_clean_insert; [done|]. cbn. by intros ->.
    + rewrite Hctx. eapply table_rel_trans; [|exact Hrel|by apply
        (table_rel_only_at _ _ c (λ c, IrqCtx (ic_irq c) t (bool_decide (is_Some t))))].
      rewrite Z2Nat.id by lia. intros j c1 c2 c3. unfold only_at, rebound_between.
      repeat case_decide; intros; subst; try done; try lia.
  - intros e s1 (Hb1 & Hfd & Hctx).
    eapply wp_mono; [apply unset_irq_triggers_spec| |done].
    + done.
    + rewrite Hctx. by apply unbound_clean_insert.
    + done.
    + rewrite Hctx, length_insert. lia.
    + intros ? s2 (Hb2 & Hc2 & Hrel2). split_and!; [done..|]. exists (Z.of_nat i).
      split; [lia|]. split; [done|]. rewrite Hctx in Hrel2.
      eapply table_rel_trans; [|exact Hrel|].
      2: { eapply (table_rel_trans _ _ (table_comp _ _)); [|by apply table_rel_only_at|exact Hrel2].
           intros j c1 c2 c3 H1 H2. exists c2. exact (conj H1 H2). }
      rewrite Z2Nat.id by lia. intros j c1 c2 c3 H1 (c4 & H2 & H3). revert H1 H2 H3.
      unfold only_at, rebound_between, unbound_between.
      repeat case_decide; intros; subst; try done; try lia.
      match goal with H : rebound _ _ _ _ _ |- _ => destruct H as (Hirq & _) end.
      unfold unbound. by rewrite Hirq.
Qed.

Definition table_ok (nr_irqs : Z) (s : qst) : Prop :=
  bindings_exact s ∧ ctx_clean (q_ctx s) ∧ nr_irqs = Z.of_nat (length (q_ctx s)) ∧ nr_irqs < 2 ^ 32.

(** C29: [dfl_fpga_set_irq_triggers] never reads outside the interrupt table or
    the array of descriptors.  On success the interrupts in the range are bound to
    the eventfds that were asked for, or unbound where the descriptor is negative,
    and no other entry changed.  It fails with -EINVAL and no change when the range
    wraps around or exceeds the table, and otherwise a failure happens at a
    non-negative descriptor, and leaves all entries of the range up to that one
    unbound and the rest as they were.  In every case the registered handlers, the
    references on eventfds and the name buffers are exactly those the bound
    entries own: nothing leaks and nothing is released twice. *)
Theorem set_irq_triggers_exact nr_irqs start count fds s :
  table_ok nr_irqs s → is_u32 start → is_u32 count → fds_ok fds count →
  wp (dfl_fpga_set_irq_triggers nr_irqs start count fds)
     (λ _ s', start + count <= nr_irqs ∧ table_ok nr_irqs s' ∧
        table_rel (rebound_between fds start start (start + count)) (q_ctx s) (q_ctx s'))
     (λ e s', table_ok nr_irqs s' ∧
        (nr_irqs < start + count ∧ e = - EINVAL ∧ s' = s ∨
         start + count <= nr_irqs ∧ ∃ k, 0 <= k < count ∧ 0 <= fd_at fds start (start + k) ∧
           table_rel (unbound_between start (start + k + 1)) (q_ctx s) (q_ctx s'))) s.
Proof.
  intros (Hb & Hc & Hn & Hlim) [Hs0 Hs] [Hc0 Hcnt] Hf.
  unfold dfl_fpga_set_irq_triggers.
  destruct (Z.le_gt_cases (start + count) nr_irqs) as [Hle|Hgt].
  - rewrite u32_small by (unfold is_u32; lia).
    destruct (Z.ltb_spec (start + count) start); [lia|].
    destruct (Z.ltb_spec nr_irqs (start + count)); [lia|].
    eapply wp_mono; [apply (set_irq_triggers_loop_spec start fds (q_ctx s)); try done| |].
    + replace (Z.of_nat (0 + Z.to_nat count)) with count by lia. done.
    + lia.
    + apply table_rel_refl. intros j c. unfold rebound_between. by rewrite decide_False by lia.
    + intros ? s' (Hb' & Hc' & Hrel). pose proof (table_rel_length _ _ _ Hrel).
      replace (Z.of_nat (0 + Z.to_nat count)) with count in Hrel by lia.
      split; [done|]. split; [|done]. split_and!; try done; lia.
    + intros e s' (Hb' & Hc' & k & Hk & Hfd & Hrel). pose proof (table_rel_length _ _ _ Hrel).
      split; [split_and!; try done; lia|]. right. split; [done|]. exists k. split; [lia|]. done.
  - assert (start + count < 2 ^ 32 ∨ 2 ^ 32 <= start + count) as [Hw|Hw] by lia.
    + rewrite u32_small by (unfold is_u32; lia).
      destruct (Z.ltb_spec (start + count) start); [lia|].
      destruct (Z.ltb_spec nr_irqs (start + count)); [|lia].
      wsteps. split; [by split_and!|]. by left.
    + assert (u32 (start + count) = start + count - 2 ^ 32) as ->.
      { unfold u32. symmetry. apply (Z.mod_unique_pos _ _ 1); lia. }
      destruct (Z.ltb_spec (start + count - 2 ^ 32) start); [|lia].
      wsteps. split; [by split_and!|]. by left.
Qed.

Lemma unbound_counts l :
  Forall (λ c, ic_trigger c = None) l →
  bound_of l = 0 ∧ (∀ t, refs_of l t = 0) ∧ (∀ i t, handlers_of l i t = 0).
Proof.
  induction 1 as [|c l Hc Hl (H1 & H2 & H3)]; [done|]. cbn [bound_of refs_of handlers_of]. rewrite Hc.
  split_and!; [lia|intros t; rewrite H2; lia|intros i t; rewrite H3; lia].
Qed.

Lemma unset_all_spec nr_irqs s :
  table_ok nr_irqs s →
  wp (dfl_fpga_set_irq_triggers nr_irqs 0 nr_irqs None)
     (λ _ s', table_ok nr_irqs s' ∧ Forall (λ c, ic_trigger c = None) (q_ctx s') ∧
        q_names s' = 0 ∧ (∀ t, q_refs s' t = 0) ∧ (∀ i t, q_handlers s' i t = 0))
     (λ _ _, False) s.
Proof.
  intros (Hb & Hc & Hn & Hlim). unfold dfl_fpga_set_irq_triggers.
  rewrite !u32_small by (unfold is_u32; lia).
  destruct (Z.ltb_spec (0 + nr_irqs) 0); [lia|]. destruct (Z.ltb_spec nr_irqs (0 + nr_irqs)); [lia|].
  eapply wp_mono; [apply (set_irq_triggers_loop_spec 0 None (q_ctx s)); try done| |].
  - lia.
  - apply table_rel_refl. intros j c. unfold rebound_between. by rewrite decide_False by lia.
  - intros ? s' (Hb' & Hc' & Hrel).
    assert (Forall (λ c, ic_trigger c = None) (q_ctx s')) as Hall.
    { apply Forall_lookup. intros i c Hi.
      pose proof (lookup_lt_Some _ _ _ Hi) as Hlt. rewrite (table_rel_length _ _ _ Hrel) in Hlt.
      destruct (table_rel_lookup _ _ _ _ _ Hrel Hi) as (c0 & _ & HP). unfold rebound_between in HP.
      rewrite decide_True in HP by lia. destruct HP as (_ & Hw & _).
      destruct (ic_trigger c); [cbn in Hw; lia|done]. }
    destruct (id Hb') as (Hh & Hr & Hm), (unbound_counts _ Hall) as (Hm0 & Hr0 & Hh0).
    pose proof (table_rel_length _ _ _ Hrel). split; [split_and!; try done; lia|].
    split_and!; [done|by rewrite Hm|intros t; by rewrite Hr|intros i t; by rewrite Hh].
  - intros e s' (_ & _ & k & _ & Hfd & _). cbn in Hfd. lia.
Qed.

(** Unbinding without descriptors always succeeds and leaves no entry
    bound, no handler registered, no eventfd referenced and no name allocated. *)
Lemma unset_all_irqs nr_irqs s :
  table_ok nr_irqs s →
  wp (dfl_fpga_set_irq_triggers nr_irqs 0 nr_irqs None)
     (λ _ s', Forall (λ c, ic_trigger c = None) (q_ctx s') ∧
        q_names s' = 0 ∧ (∀ t, q_refs s' t = 0) ∧ (∀ i t, q_handlers s' i t = 0))
     (λ _ _, False) s.
Proof. intros Hok. eapply wp_mono; [by apply unset_all_spec| |done]. by intros _ s' [_ ?]. Qed.

(** The ioctl passes a request on only if it is in range: whatever user
    space supplies, it fails without a change, or it is the checked call, which
    cannot fail with -EINVAL any more. *)
Lemma ioctl_set_irq_checked nr_irqs hdr user_fds s :
  table_ok nr_irqs s →
  (∀ start count, hdr = Some (start, count) → is_u32 start ∧ is_u32 count) →
  (∀ count l, user_fds count = inl l → Z.of_nat (length l) = count) →
  wp (dfl_feature_ioctl_set_irq nr_irqs hdr user_fds)
     (λ _ s', table_ok nr_irqs s' ∧ ∃ start count l,
        hdr = Some (start, count) ∧ 0 < count ∧ start + count <= nr_irqs ∧ user_fds count = inl l ∧
        table_rel (rebound_between (Some l) start start (start + count)) (q_ctx s) (q_ctx s'))
     (λ e s', table_ok nr_irqs s' ∧ (s' = s ∨ ∃ start count,
        hdr = Some (start, count) ∧ 0 < count ∧ start + count <= nr_irqs)) s.
Proof.
  intros Hok Hhdr Hfds. unfold dfl_feature_ioctl_set_irq.
  destruct (nr_irqs =? 0); [wsteps; auto|]. destruct hdr as [[start count]|]; [|wsteps; auto].
  destruct (Hhdr start count eq_refl) as [Hs Hc]. destruct (id Hok) as (Hb & Hcl & Hn & Hlim).
  destruct ((count =? 0) || _ || _) eqn:Hchk; [wsteps; auto|].
  apply orb_false_iff in Hchk as [[H1%Z.eqb_neq H2%Z.ltb_ge]%orb_false_iff H3%Z.ltb_ge].
  assert (0 < count) by (unfold is_u32 in Hc; lia).
  assert (start + count <= nr_irqs).
  { unfold is_u32 in *. destruct (Z.lt_ge_cases (start + count) (2 ^ 32)).
    - by rewrite u32_small in H2 by (unfold is_u32; lia).
    - unfold u32 in *. assert ((start + count) mod 2 ^ 32 = start + count - 2 ^ 32)
        by (symmetry; apply (Z.mod_unique_pos _ _ 1); lia). lia. }
  destruct (user_fds count) as [l|e] eqn:Hl; [|wsteps; auto].
  unfold dfl_fpga_set_irq_triggers.
  rewrite !u32_small by (unfold is_u32 in *; lia).
  destruct (Z.ltb_spec (start + count) start); [unfold is_u32 in *; lia|].
  destruct (Z.ltb_spec nr_irqs (start + count)); [lia|].
  unfold is_u32 in *.
  eapply wp_mono; [apply (set_irq_triggers_loop_spec start (Some l) (q_ctx s)); try done| |].
  - lia.
  - change (Z.of_nat (length l) = Z.of_nat (0 + Z.to_nat count)). rewrite (Hfds _ _ Hl). lia.
  - lia.
  - apply table_rel_refl. intros j c. unfold rebound_between. by rewrite decide_False by lia.
  - intros ? s' (Hb' & Hc' & Hrel). pose proof (table_rel_length _ _ _ Hrel).
    replace (Z.of_nat (0 + Z.to_nat count)) with count in Hrel by lia.
    split; [split_and!; try done; lia|]. by exists start, count, l.
  - intros e s' (Hb' & Hc' & k & _ & _ & Hrel). pose proof (table_rel_length _ _ _ Hrel).
    split; [split_and!; try done; lia|]. right. by exists start, count.
Qed.
End Irq.
