(* ===== verification/DflPortExamples.v ===== *)
(** * A container with two ports

    Port 0 has a device, port 1 is released; the properties of the port
    operations at this state. *)
From stdpp Require Import gmap strings.
From S2P Require Import Prelude DflRegs DflTypes DflEnum DflEnumFacts DflEnumExamples DflPorts DflPortsFacts DflPortAccess DflIrq.

Definition port0 : dfl_feature_dev_data :=
  FData (Some 7) PORT_ID 0 "dfl-port" 0 0 false 0 1 [set_f_dev (Some 7) zero_feature] 0 [].
Definition port1 : dfl_feature_dev_data :=
  FData None PORT_ID 1 "dfl-port" 1 0 true 1 1 [zero_feature] 0 [].
Definition demo_fme : dfl_feature_dev_data :=
  FData (Some 6) FME_ID 0 "dfl-fme" FEATURE_DEV_ID_UNUSED 0 false 0 1
    [set_f_ioaddr (Some 0x1000) (Feature None FME_FEATURE_ID_HEADER 0 0 None [] 0 None None 0 0 [] guid_null)]
    0 [].
Definition demo_cdev : dfl_fpga_cdev := CDev [demo_fme] [port0; port1] [] 1.
Definition demo_ports : @pst demo_kernel := @PSt demo_kernel 10 demo_cdev [] (λ _, 0) (λ _, 0).

Lemma demo_ports_inv : ports_inv demo_ports.
Proof.
  split; [reflexivity|]. split; [|constructor].
  repeat constructor; cbn; try lia; try done; unfold FEATURE_DEV_ID_UNUSED; naive_solver lia.
Qed.
Lemma demo_ports_known : ids_known (cd_port_dev_list (p_c demo_ports)).
Proof. repeat constructor; unfold FEATURE_DEV_ID_UNUSED; cbn; lia. Qed.
Lemma demo_ports_fme : fme_header demo_ports 0x1000.
Proof. by exists demo_fme. Qed.

Definition demo_assigned : @pst demo_kernel :=
  match @dfl_fpga_cdev_assign_port demo_kernel (λ _, true) (λ _, 240) 1 demo_ports with
  | Done (_, s) => s
  | _ => demo_ports
  end.

Lemma ports_invariant_reachable_witness :
  cd_released_port_num (p_c demo_assigned) = 0 ∧ ports_inv demo_assigned.
Proof.
  split; [vm_compute; reflexivity|].
  apply (@ports_invariant_reachable demo_kernel (λ _, true) (λ _, 240) demo_ports demo_assigned).
  - apply rtc_once. apply (St_assign _ _ _ 1 (Val tt)). vm_compute. reflexivity.
  - apply demo_ports_inv.
Defined.

Lemma released_port_not_opened_witness : dfl_feature_dev_use_begin false port1 = (port1, - EBUSY).
Proof. by apply (@released_port_not_opened demo_kernel demo_ports 1%nat port1 false demo_ports_inv). Defined.

Lemma release_assign_roundtrip_witness :
  wp (@dfl_fpga_cdev_release_port demo_kernel (λ _, true) 0 ;;
      @dfl_fpga_cdev_assign_port demo_kernel (λ _, true) (λ _, 240) 0)
     (λ _ s', ∃ i fd d k, cd_port_dev_list (p_c demo_ports) !! i = Some fd ∧ fd_id fd = 0 ∧
        s' = set_p_k k (set_p_c (set_ports
               (<[i := set_dev_all (Some d) fd]> (cd_port_dev_list (p_c demo_ports))) (p_c demo_ports)) demo_ports))
     (λ _ _, True) demo_ports.
Proof.
  exact (@release_assign_roundtrip demo_kernel (λ _, true) (λ _, 240) 0 demo_ports
           demo_ports_inv demo_ports_known).
Defined.

Lemma config_ports_vf_exact_witness :
  wp (@dfl_fpga_cdev_config_ports_vf demo_kernel 1)
     (λ _ s', (count_released [port0; port1] = 0 ∨ 1 = 1) ∧
        p_c s' = p_c demo_ports ∧ p_refs s' = p_refs demo_ports ∧ p_ops s' = p_ops demo_ports ∧
        p_k s' = p_k demo_ports ∧
        regs_eq s' (configured 0x1000 [port0; port1] true (p_regs demo_ports)))
     (λ e s', e = - EINVAL ∧ s' = demo_ports ∧ count_released [port0; port1] ≠ 0 ∧
        count_released [port0; port1] ≠ 1) demo_ports.
Proof.
  exact (@config_ports_vf_exact demo_kernel 0x1000 1 demo_ports demo_ports_fme demo_ports_inv).
Defined.

Lemma config_ports_pf_exact_witness :
  wp (@dfl_fpga_cdev_config_ports_pf demo_kernel)
     (λ _ s', p_c s' = p_c demo_ports ∧ p_refs s' = p_refs demo_ports ∧ p_ops s' = p_ops demo_ports ∧
        p_k s' = p_k demo_ports ∧
        regs_eq s' (configured 0x1000 [port0; port1] false (p_regs demo_ports)))
     (λ _ _, False) demo_ports.
Proof. exact (@config_ports_pf_exact demo_kernel 0x1000 demo_ports demo_ports_fme). Defined.

Lemma configured_reads_witness :
  FIELD_GET FME_PORT_OFST_ACC_CTRL
    (configured 0x1000 [port0; port1] true (λ _, 0) (port_ofst 0x1000 (fd_id port1))) = 1.
Proof.
  pose proof (configured_reads 0x1000 [port0; port1] true (λ _, 0)) as [Hr _].
  apply (Hr port1); [right; left|reflexivity].
Defined.

(** ** A feature with three interrupts

    Entry 1 is bound; the theorems about interrupt triggers at this state. *)

(** Allocations succeed, interrupt 99 cannot be requested, descriptors below 100
    are eventfds. *)
Definition demo_irqs : IrqKernel := {|
  ik := unit;
  ik_alloc k := (true, k);
  ik_request_irq irq _ k := (if irq =? 99 then - EBUSY else 0, k);
  ik_eventfd fd := if fd <? 100 then inl (1000 + fd) else inr (- EINVAL);
|}.
#[local] Existing Instance demo_irqs.
Definition one_bound : @qst demo_irqs :=
  @QSt demo_irqs tt [IrqCtx 40 None false; IrqCtx 41 (Some 1007) true; IrqCtx 99 None false]
    (λ i t, count_if ((i =? 41) && (t =? 1007))) (λ t, count_if (t =? 1007)) 1.

Lemma one_bound_ok : table_ok 3 one_bound.
Proof.
  split_and!; [split_and!|by repeat constructor|done|lia].
  - intros irq t. cbn. lia.
  - intros t. cbn. lia.
  - done.
Qed.

Definition rebind : @qst demo_irqs :=
  match @dfl_fpga_set_irq_triggers demo_irqs 3 0 2 (Some [5; 6]) one_bound with
  | Done (_, s) => s
  | _ => one_bound
  end.
Example rebind_triggers : ic_trigger <$> q_ctx rebind = [Some 1005; Some 1006; None].
Proof. vm_compute. reflexivity. Qed.
(** The third interrupt cannot be requested, so all three end up unbound. *)
Example failed_triggers :
  match @dfl_fpga_set_irq_triggers demo_irqs 3 0 3 (Some [5; 6; 7]) one_bound with
  | Done (Err e, s) => e = - EBUSY ∧ ic_trigger <$> q_ctx s = [None; None; None] ∧ q_names s = 0
  | _ => False
  end.
Proof. vm_compute. by split_and!. Qed.

Lemma set_irq_triggers_exact_witness :
  wp (@dfl_fpga_set_irq_triggers demo_irqs 3 0 3 (Some [5; 6; 7]))
     (λ _ s', 0 + 3 <= 3 ∧ table_ok 3 s' ∧
        table_rel (rebound_between (Some [5; 6; 7]) 0 0 (0 + 3)) (q_ctx one_bound) (q_ctx s'))
     (λ e s', table_ok 3 s' ∧
        (3 < 0 + 3 ∧ e = - EINVAL ∧ s' = one_bound ∨
         0 + 3 <= 3 ∧ ∃ k, 0 <= k < 3 ∧ 0 <= fd_at (Some [5; 6; 7]) 0 (0 + k) ∧
           table_rel (unbound_between 0 (0 + k + 1)) (q_ctx one_bound) (q_ctx s'))) one_bound.
Proof.
  apply (@set_irq_triggers_exact demo_irqs 3 0 3 (Some [5; 6; 7]) one_bound one_bound_ok);
    unfold is_u32; try lia. reflexivity.
Defined.

Lemma unset_all_irqs_witness :
  wp (@dfl_fpga_set_irq_triggers demo_irqs 3 0 3 None)
     (λ _ s', Forall (λ c, ic_trigger c = None) (q_ctx s') ∧
        q_names s' = 0 ∧ (∀ t, q_refs s' t = 0) ∧ (∀ i t, q_handlers s' i t = 0))
     (λ _ _, False) one_bound.
Proof. exact (@unset_all_irqs demo_irqs 3 one_bound one_bound_ok). Defined.

(** The user passes one descriptor. *)
Definition one_fd (count : Z) : list Z + Z := if count =? 1 then inl [8] else inr (- EFAULT).

Lemma ioctl_set_irq_checked_witness :
  wp (@dfl_feature_ioctl_set_irq demo_irqs 3 (Some (1, 1)) one_fd)
     (λ _ s', table_ok 3 s' ∧ ∃ start count l,
        Some (1, 1) = Some (start, count) ∧ 0 < count ∧ start + count <= 3 ∧ one_fd count = inl l ∧
        table_rel (rebound_between (Some l) start start (start + count)) (q_ctx one_bound) (q_ctx s'))
     (λ e s', table_ok 3 s' ∧ (s' = one_bound ∨ ∃ start count,
        Some (1, 1) = Some (start, count) ∧ 0 < count ∧ start + count <= 3)) one_bound.
Proof.
  apply (@ioctl_set_irq_checked demo_irqs 3 (Some (1, 1)) one_fd one_bound one_bound_ok).
  - intros start count [= <- <-]. unfold is_u32. lia.
  - unfold one_fd. intros count l. destruct (Z.eqb_spec count 1); [|done]. intros [= <-]. cbn. lia.
Defined.
