(* ===== verification/SpiAvmm.v ===== *)
(** * SPI to Avalon bridge (drivers/base/regmap/regmap-spi-avmm.c)

    A register access is turned into a transaction (a header and data), the
    transaction into a packet of physical layer bytes (special characters, escapes,
    idle bytes for alignment), which is sent to the slave; the answer is read word
    by word and parsed back.  The two buffers of the bridge are lists of bytes of
    a fixed length: a write behind their end is a fault. *)
From S2P Require Import Prelude.

(* drivers/base/regmap/regmap-spi-avmm.c:55-55 PKT_SOP *)
Definition PKT_SOP : Z := 0x7a.
(* drivers/base/regmap/regmap-spi-avmm.c:56-56 PKT_EOP *)
Definition PKT_EOP : Z := 0x7b.
(* drivers/base/regmap/regmap-spi-avmm.c:57-57 PKT_CHANNEL *)
Definition PKT_CHANNEL : Z := 0x7c.
(* drivers/base/regmap/regmap-spi-avmm.c:58-58 PKT_ESC *)
Definition PKT_ESC : Z := 0x7d.
(* drivers/base/regmap/regmap-spi-avmm.c:60-60 PHY_IDLE *)
Definition PHY_IDLE : Z := 0x4a.
(* drivers/base/regmap/regmap-spi-avmm.c:61-61 PHY_ESC *)
Definition PHY_ESC : Z := 0x4d.
(* drivers/base/regmap/regmap-spi-avmm.c:63-63 TRANS_CODE_WRITE *)
Definition TRANS_CODE_WRITE : Z := 0x0.
(* drivers/base/regmap/regmap-spi-avmm.c:64-64 TRANS_CODE_SEQ_WRITE *)
Definition TRANS_CODE_SEQ_WRITE : Z := 0x4.
(* drivers/base/regmap/regmap-spi-avmm.c:65-65 TRANS_CODE_READ *)
Definition TRANS_CODE_READ : Z := 0x10.
(* drivers/base/regmap/regmap-spi-avmm.c:66-66 TRANS_CODE_SEQ_READ *)
Definition TRANS_CODE_SEQ_READ : Z := 0x14.
(* drivers/base/regmap/regmap-spi-avmm.c:72-72 SPI_AVMM_REG_SIZE *)
Definition SPI_AVMM_REG_SIZE : Z := 4.
(* drivers/base/regmap/regmap-spi-avmm.c:74-74 SPI_AVMM_VAL_SIZE *)
Definition SPI_AVMM_VAL_SIZE : Z := 4.
(* drivers/base/regmap/regmap-spi-avmm.c:80-80 MAX_READ_CNT *)
Definition MAX_READ_CNT : Z := 256.
(* drivers/base/regmap/regmap-spi-avmm.c:81-81 MAX_WRITE_CNT *)
Definition MAX_WRITE_CNT : Z := 1.
(* drivers/base/regmap/regmap-spi-avmm.c:83-88 trans_req_header *)
Definition TRANS_REQ_HD_SIZE : Z := 8.
(* drivers/base/regmap/regmap-spi-avmm.c:90-94 trans_resp_header *)
Definition TRANS_RESP_HD_SIZE : Z := 4.
(* drivers/base/regmap/regmap-spi-avmm.c:106-106 TRANS_WR_TX_SIZE *)
Definition TRANS_WR_TX_SIZE (n : Z) : Z := TRANS_REQ_HD_SIZE + SPI_AVMM_VAL_SIZE * n.
(* drivers/base/regmap/regmap-spi-avmm.c:108-108 TRANS_TX_MAX *)
Definition TRANS_TX_MAX : Z := TRANS_WR_TX_SIZE MAX_WRITE_CNT.
(* drivers/base/regmap/regmap-spi-avmm.c:110-112 TRANS_RX_MAX *)
Definition TRANS_RX_MAX : Z := SPI_AVMM_VAL_SIZE * MAX_READ_CNT.
(* drivers/base/regmap/regmap-spi-avmm.c:115-116 TRANS_BUF_SIZE *)
Definition TRANS_BUF_SIZE : Z := if TRANS_TX_MAX >? TRANS_RX_MAX then TRANS_TX_MAX else TRANS_RX_MAX.
(** [ALIGN(x, a)] for a power of two [a]. *)
Definition ALIGN (x a : Z) : Z := Z.land (x + a - 1) (Z.lnot (a - 1)).
(* drivers/base/regmap/regmap-spi-avmm.c:132-132 PHY_TX_MAX *)
Definition PHY_TX_MAX : Z := ALIGN (2 * TRANS_TX_MAX + 4) 4.
(* drivers/base/regmap/regmap-spi-avmm.c:140-140 PHY_BUF_SIZE *)
Definition PHY_BUF_SIZE : Z := PHY_TX_MAX.

(** The SPI device behind the bridge: a write has a status, a read of a number
    of bytes a status and the bytes, and [jiffies] can be read. *)
Class Spi := {
  spi : Type;
  spi_write : list Z → spi → Z * spi;
  spi_read : Z → spi → (Z * list Z) * spi;
  spi_jiffies : spi → Z * spi;
  (** [msecs_to_jiffies(200)] *)
  SPI_AVMM_XFER_TIMEOUT : Z;
}.

(** [br_swap] is whether [swap_words] is set. *)
(* drivers/base/regmap/regmap-spi-avmm.c:157-166 spi_avmm_bridge *)
Record spi_avmm_bridge := Bridge {
  br_word_len : Z;
  br_trans_len : Z;
  br_phy_len : Z;
  br_trans_buf : list Z;
  br_phy_buf : list Z;
  br_swap : bool;
}.
Definition set_trans_len (n : Z) (b : spi_avmm_bridge) : spi_avmm_bridge :=
  Bridge (br_word_len b) n (br_phy_len b) (br_trans_buf b) (br_phy_buf b) (br_swap b).
Definition set_phy_len (n : Z) (b : spi_avmm_bridge) : spi_avmm_bridge :=
  Bridge (br_word_len b) (br_trans_len b) n (br_trans_buf b) (br_phy_buf b) (br_swap b).
Definition set_trans_buf (l : list Z) (b : spi_avmm_bridge) : spi_avmm_bridge :=
  Bridge (br_word_len b) (br_trans_len b) (br_phy_len b) l (br_phy_buf b) (br_swap b).
Definition set_phy_buf (l : list Z) (b : spi_avmm_bridge) : spi_avmm_bridge :=
  Bridge (br_word_len b) (br_trans_len b) (br_phy_len b) (br_trans_buf b) l (br_swap b).

(** The words of the buffer as 32-bit values, byte-swapped in memory; bytes after
    the last whole word stay. *)
(* drivers/base/regmap/regmap-spi-avmm.c:168-178 br_swap_words_32 *)
Fixpoint br_swap_words_32 (count : nat) (buf : list Z) : list Z :=
  match count, buf with
  | S count, a :: b :: c :: d :: buf => d :: c :: b :: a :: br_swap_words_32 count buf
  | _, _ => buf
  end.

(** [memcpy] of [src] to index [i] of a buffer, [None] outside. *)
Definition store (buf : list Z) (i : Z) (src : list Z) : option (list Z) :=
  if (0 <=? i) && (i + Z.of_nat (length src) <=? Z.of_nat (length buf))
  then Some (take (Z.to_nat i) buf ++ src ++ drop (Z.to_nat i + length src) buf)
  else None.
Definition load (buf : list Z) (i : Z) : option Z := if i <? 0 then None else buf !! Z.to_nat i.

Definition be16 (v : Z) : list Z := [u8 (Z.shiftr v 8); u8 v].
Definition be32 (v : Z) : list Z := [u8 (Z.shiftr v 24); u8 (Z.shiftr v 16); u8 (Z.shiftr v 8); u8 v].
Definition le32 (v : Z) : list Z := [u8 v; u8 (Z.shiftr v 8); u8 (Z.shiftr v 16); u8 (Z.shiftr v 24)].
Definition le32_to_cpu (l : list Z) : Z :=
  match l with
  | [a; b; c; d] => a + Z.shiftl b 8 + Z.shiftl c 16 + Z.shiftl d 24
  | _ => 0
  end.

Section Bridge.
Context `{Spi}.

Record avst := AvSt { a_br : spi_avmm_bridge; a_spi : spi }.
Definition upd_br (f : spi_avmm_bridge → spi_avmm_bridge) : M avst unit :=
  modify (λ s, AvSt (f (a_br s)) (a_spi s)).
Definition spi_op {A} (f : spi → A * spi) : M avst A := λ s,
  let (a, d) := f (a_spi s) in Done (Val a, AvSt (a_br s) d).

Definition put_trans (i : Z) (src : list Z) : M avst unit :=
  b ← gets a_br;
  l ← access (store (br_trans_buf b) i src);
  upd_br (set_trans_buf l).
Definition put_phy (i : Z) (src : list Z) : M avst unit :=
  b ← gets a_br;
  l ← access (store (br_phy_buf b) i src);
  upd_br (set_phy_buf l).

(** ** Transaction layer *)

(** The data words, from word [i] of [n]. *)
(* drivers/base/regmap/regmap-spi-avmm.c:220-221 br_trans_tx_prepare *)
Fixpoint tx_data (wr_val : list Z) (i n : nat) : M avst unit :=
  match n with
  | O => mret tt
  | S n =>
      v ← access (wr_val !! i);
      put_trans (TRANS_REQ_HD_SIZE + SPI_AVMM_VAL_SIZE * Z.of_nat i) (le32 v) ;;
      tx_data wr_val (S i) n
  end.

(* drivers/base/regmap/regmap-spi-avmm.c:184-228 br_trans_tx_prepare *)
Definition br_trans_tx_prepare (is_read : bool) (reg : Z) (wr_val : list Z) (count : Z) : M avst unit :=
  let code :=
    if is_read then if count =? 1 then TRANS_CODE_READ else TRANS_CODE_SEQ_READ
    else if count =? 1 then TRANS_CODE_WRITE else TRANS_CODE_SEQ_WRITE in
  put_trans 0 ([code; 0] ++ be16 (u16 (u16 count * SPI_AVMM_VAL_SIZE)) ++ be32 reg) ;;
  let trans_len := TRANS_REQ_HD_SIZE in
  trans_len ← (if negb is_read then
      let trans_len := u32 (trans_len + SPI_AVMM_VAL_SIZE * count) in
      if TRANS_BUF_SIZE <? trans_len then throw (- ENOMEM) else
      tx_data wr_val 0 (Z.to_nat count) ;;
      mret trans_len
    else mret trans_len);
  upd_br (set_trans_len trans_len).

(** ** Packet and physical layer, sending *)

(** The loop that fills the physical layer buffer; the result is the final
    [pb], [tb] and [pb_eop]. [n] is [pb_limit - pb]. *)
(* drivers/base/regmap/regmap-spi-avmm.c:273-308 br_pkt_phy_tx_prepare *)
Fixpoint tx_loop (n : nat) (pb tb tb_end : Z) (need_esc : bool) (pb_eop : option Z)
    : M avst (Z * Z * option Z) :=
  match n with
  | O => mret (pb, tb, pb_eop)
  | S n =>
      if negb (tb <? tb_end) then mret (pb, tb, pb_eop) else
      b ← gets a_br;
      c ← access (load (br_trans_buf b) tb);
      if need_esc then
        put_phy pb [Z.lxor c 0x20] ;; tx_loop n (pb + 1) (tb + 1) tb_end false pb_eop
      else if (tb =? tb_end - 1) && bool_decide (pb_eop = None) then
        put_phy pb [PKT_EOP] ;; tx_loop n (pb + 1) tb tb_end need_esc (Some pb)
      else if (c =? PKT_SOP) || (c =? PKT_EOP) || (c =? PKT_CHANNEL) || (c =? PKT_ESC) then
        put_phy pb [PKT_ESC] ;; tx_loop n (pb + 1) tb tb_end true pb_eop
      else if (c =? PHY_IDLE) || (c =? PHY_ESC) then
        put_phy pb [PHY_ESC] ;; tx_loop n (pb + 1) tb tb_end true pb_eop
      else
        put_phy pb [c] ;; tx_loop n (pb + 1) (tb + 1) tb_end need_esc pb_eop
  end.

(* drivers/base/regmap/regmap-spi-avmm.c:253-339 br_pkt_phy_tx_prepare *)
Definition br_pkt_phy_tx_prepare : M avst unit :=
  b ← gets a_br;
  let tb_end := br_trans_len b in
  put_phy 0 [PKT_SOP] ;;
  put_phy 1 [PKT_CHANNEL] ;;
  put_phy 2 [0x0] ;;
  r ← tx_loop (Z.to_nat (PHY_BUF_SIZE - 3)) 3 0 tb_end false None;
  let '(pb, tb, pb_eop) := (r : Z * Z * option Z) in
  if tb <? tb_end then throw (- ENOMEM) else
  upd_br (set_phy_len pb) ;;
  b ← gets a_br;
  if br_word_len b =? 1 then mret tt else
  let aligned_phy_len := ALIGN (br_phy_len b) (br_word_len b) in
  if PHY_BUF_SIZE <? aligned_phy_len then throw (- ENOMEM) else
  if aligned_phy_len =? br_phy_len b then mret tt else
  pb_eop ← access pb_eop;
  let move_size := pb - pb_eop in
  put_phy (aligned_phy_len - move_size)
    (take (Z.to_nat move_size) (drop (Z.to_nat pb_eop) (br_phy_buf b))) ;;
  put_phy pb_eop (replicate (Z.to_nat (aligned_phy_len - br_phy_len b)) PHY_IDLE) ;;
  upd_br (set_phy_len aligned_phy_len).

Definition swap_phy (len : Z) : M avst unit :=
  upd_br (λ b, if br_swap b then set_phy_buf (br_swap_words_32 (Z.to_nat (len / 4)) (br_phy_buf b)) b else b).

(* drivers/base/regmap/regmap-spi-avmm.c:345-353 br_do_tx *)
Definition br_do_tx : M avst unit :=
  b ← gets a_br;
  swap_phy (br_phy_len b) ;;
  b ← gets a_br;
  ret ← spi_op (spi_write (take (Z.to_nat (br_phy_len b)) (br_phy_buf b)));
  rc ret.

(** ** Receiving

    The local variables of the parser; [rx_tb] is the index [tb] points to,
    [None] where it is NULL. *)
(* drivers/base/regmap/regmap-spi-avmm.c:367-370 br_do_rx_and_pkt_phy_parse *)
Record rx_vars := Rx {
  rx_tb : option Z;
  rx_eop_found : bool;
  rx_channel_found : bool;
  rx_esc_found : bool;
  rx_valid_word : bool;
}.

(** One byte [c] of a word; the result is [None] if the function returns 0. *)
(* drivers/base/regmap/regmap-spi-avmm.c:388-467 br_do_rx_and_pkt_phy_parse *)
Definition rx_byte (c : Z) (r : rx_vars) : M avst (option rx_vars) :=
  if bool_decide (rx_tb r = None) && negb (c =? PKT_SOP) then mret (Some r) else
  if c =? PHY_IDLE then mret (Some r) else
  let '(Rx tb eop_found channel_found esc_found _) := r in
  if channel_found then
    if negb (c =? 0) then throw (- EFAULT)
    else mret (Some (Rx tb eop_found false esc_found true))
  else if c =? PKT_SOP then
    mret (Some (Rx (Some 0) false false false true))
  else if c =? PKT_EOP then
    if esc_found || eop_found then throw (- EFAULT)
    else mret (Some (Rx tb true channel_found esc_found true))
  else if c =? PKT_CHANNEL then
    if esc_found || eop_found then throw (- EFAULT)
    else mret (Some (Rx tb eop_found true esc_found true))
  else if (c =? PKT_ESC) || (c =? PHY_ESC) then
    if esc_found then throw (- EFAULT)
    else mret (Some (Rx tb eop_found channel_found true true))
  else
    i ← access tb;
    put_trans i [if esc_found then Z.lxor c 0x20 else c] ;;
    if eop_found then
      upd_br (set_trans_len (i + 1)) ;;
      mret None
    else mret (Some (Rx (Some (i + 1)) eop_found channel_found false true)).

(** The bytes of the word from [i] on, [n] of them. *)
(* drivers/base/regmap/regmap-spi-avmm.c:386-468 br_do_rx_and_pkt_phy_parse *)
Fixpoint rx_word (i : Z) (n : nat) (r : rx_vars) : M avst (option rx_vars) :=
  match n with
  | O => mret (Some r)
  | S n =>
      b ← gets a_br;
      c ← access (load (br_phy_buf b) i);
      r ← rx_byte c r;
      match r with
      | None => mret None
      | Some r => rx_word (i + 1) n r
      end
  end.

(** [time_after(a, b)] on [unsigned long]. *)
Definition time_after (a b : Z) : bool := s64 (b - a) <? 0.

(** [tb < tb_limit], where a NULL pointer is below every address. *)
Definition tb_below (tb : option Z) : bool :=
  match tb with None => true | Some i => i <? TRANS_BUF_SIZE end.

(* drivers/base/regmap/regmap-spi-avmm.c:377-490 br_do_rx_and_pkt_phy_parse *)
Fixpoint rx_loop (fuel : nat) (r : rx_vars) (last_try : bool) (poll_timeout : Z) : M avst unit :=
  if negb (tb_below (rx_tb r)) then throw (- EFAULT) else
  match fuel with
  | O => nofuel
  | S fuel =>
      b ← gets a_br;
      res ← spi_op (spi_read (br_word_len b));
      let '(ret, word) := (res : Z * list Z) in
      rc ret ;;
      put_phy 0 word ;;
      swap_phy (br_word_len b) ;;
      let r := Rx (rx_tb r) (rx_eop_found r) (rx_channel_found r) (rx_esc_found r) false in
      r ← rx_word 0 (Z.to_nat (br_word_len b)) r;
      match r with
      | None => mret tt
      | Some r =>
          if rx_valid_word r then
            now ← spi_op spi_jiffies;
            rx_loop fuel r false (u64 (now + SPI_AVMM_XFER_TIMEOUT))
          else if last_try then throw (- ETIMEDOUT)
          else
            now ← spi_op spi_jiffies;
            rx_loop fuel r (if time_after now poll_timeout then true else last_try) poll_timeout
      end
  end.

(* drivers/base/regmap/regmap-spi-avmm.c:365-500 br_do_rx_and_pkt_phy_parse *)
Definition br_do_rx_and_pkt_phy_parse (fuel : nat) : M avst unit :=
  now ← spi_op spi_jiffies;
  rx_loop fuel (Rx None false false false false) false (u64 (now + SPI_AVMM_XFER_TIMEOUT)).

(** ** Parsing the answer, register accesses *)

(** The values of [n] words of the buffer, from byte [i]. *)
(* drivers/base/regmap/regmap-spi-avmm.c:515-517 br_rd_trans_rx_parse *)
Fixpoint rd_values (i : Z) (n : nat) : M avst (list Z) :=
  match n with
  | O => mret []
  | S n =>
      b ← gets a_br;
      w0 ← access (load (br_trans_buf b) i);
      w1 ← access (load (br_trans_buf b) (i + 1));
      w2 ← access (load (br_trans_buf b) (i + 2));
      w3 ← access (load (br_trans_buf b) (i + 3));
      rest ← rd_values (i + SPI_AVMM_VAL_SIZE) n;
      mret (le32_to_cpu [w0; w1; w2; w3] :: rest)
  end.

(* drivers/base/regmap/regmap-spi-avmm.c:506-520 br_rd_trans_rx_parse *)
Definition br_rd_trans_rx_parse (expected_count : Z) : M avst (list Z) :=
  b ← gets a_br;
  if negb (expected_count * SPI_AVMM_VAL_SIZE =? br_trans_len b) then throw (- EFAULT) else
  rd_values 0 (Z.to_nat expected_count).

(* drivers/base/regmap/regmap-spi-avmm.c:526-550 br_wr_trans_rx_parse *)
Definition br_wr_trans_rx_parse (expected_count : Z) : M avst unit :=
  b ← gets a_br;
  if negb (br_trans_len b =? TRANS_RESP_HD_SIZE) then throw (- EFAULT) else
  r_code ← access (load (br_trans_buf b) 0);
  size_h ← access (load (br_trans_buf b) 2);
  size_l ← access (load (br_trans_buf b) 3);
  let code := Z.lxor r_code 0x80 in
  let val_len := size_h * 256 + size_l in
  if (val_len =? 0) || negb (val_len =? expected_count * SPI_AVMM_VAL_SIZE) then throw (- EFAULT) else
  if ((val_len =? SPI_AVMM_VAL_SIZE) && negb (code =? TRANS_CODE_WRITE)) ||
     ((SPI_AVMM_VAL_SIZE <? val_len) && negb (code =? TRANS_CODE_SEQ_WRITE))
  then throw (- EFAULT) else mret tt.

(** The values that are read, none for a write. *)
(* drivers/base/regmap/regmap-spi-avmm.c:552-582 do_reg_access *)
Definition do_reg_access (fuel : nat) (is_read : bool) (reg : Z) (value : list Z) (count : Z)
    : M avst (list Z) :=
  upd_br (λ b, set_phy_len 0 (set_trans_len 0 b)) ;;
  br_trans_tx_prepare is_read reg value count ;;
  br_pkt_phy_tx_prepare ;;
  br_do_tx ;;
  br_do_rx_and_pkt_phy_parse fuel ;;
  if is_read then br_rd_trans_rx_parse count
  else br_wr_trans_rx_parse count ;; mret [].

(** The buffers of the register map core: the address and the values as the
    32-bit words they hold, and their length in bytes. *)
(* drivers/base/regmap/regmap-spi-avmm.c:584-596 regmap_spi_avmm_gather_write *)
Definition regmap_spi_avmm_gather_write (fuel : nat) (reg : Z) (reg_len : Z) (vals : list Z) (val_len : Z)
    : M avst unit :=
  if negb (reg_len =? SPI_AVMM_REG_SIZE) then throw (- EINVAL) else
  if negb (val_len mod SPI_AVMM_VAL_SIZE =? 0) then throw (- EINVAL) else
  do_reg_access fuel false reg vals (u32 (val_len / SPI_AVMM_VAL_SIZE)) ;; mret tt.

(** [data] is the address followed by the values. *)
(* drivers/base/regmap/regmap-spi-avmm.c:598-606 regmap_spi_avmm_write *)
Definition regmap_spi_avmm_write (fuel : nat) (data : list Z) (bytes : Z) : M avst unit :=
  if bytes <? SPI_AVMM_REG_SIZE + SPI_AVMM_VAL_SIZE then throw (- EINVAL) else
  reg ← access (head data);
  regmap_spi_avmm_gather_write fuel reg SPI_AVMM_REG_SIZE (tail data) (bytes - SPI_AVMM_REG_SIZE).

(* drivers/base/regmap/regmap-spi-avmm.c:608-620 regmap_spi_avmm_read *)
Definition regmap_spi_avmm_read (fuel : nat) (reg reg_len val_len : Z) : M avst (list Z) :=
  if negb (reg_len =? SPI_AVMM_REG_SIZE) then throw (- EINVAL) else
  if negb (val_len mod SPI_AVMM_VAL_SIZE =? 0) then throw (- EINVAL) else
  do_reg_access fuel true reg [] (u32 (val_len / SPI_AVMM_VAL_SIZE)).

(** [spi_setup bits] is whether the controller supports that word length. *)
(* drivers/base/regmap/regmap-spi-avmm.c:622-655 spi_avmm_bridge_ctx_gen *)
Definition spi_avmm_bridge_ctx_gen (has_spi : bool) (spi_setup : Z → bool) (kzalloc : bool)
    : spi_avmm_bridge + Z :=
  if negb has_spi then inr (- ENODEV) else
  let setup bits :=
    if negb kzalloc then inr (- ENOMEM)
    else
      let word_len := bits / 8 in
      inl (Bridge word_len 0 0 (replicate (Z.to_nat TRANS_BUF_SIZE) 0)
             (replicate (Z.to_nat PHY_BUF_SIZE) 0) (word_len =? 4)) in
  if spi_setup 32 then setup 32
  else if spi_setup 8 then setup 8
  else inr (- EINVAL).
End Bridge.
