(* ===== verification/SpiAvmmTx.v ===== *)
(** * What the bridge sends

    The wire format of a packet, as a specification, and the proof that the
    encoder of [SpiAvmm] produces it: the physical layer bytes of a transaction
    are the packet with idle bytes inserted, a whole number of words long, and
    always fit the buffer. *)
From S2P Require Import Prelude SpiAvmm.

(** ** The wire format *)

Definition pkt_special (c : Z) : bool :=
  (c =? PKT_SOP) || (c =? PKT_EOP) || (c =? PKT_CHANNEL) || (c =? PKT_ESC).
Definition phy_special (c : Z) : bool := (c =? PHY_IDLE) || (c =? PHY_ESC).

(** A byte of the transaction on the wire. *)
Definition escaped (c : Z) : list Z :=
  if pkt_special c then [PKT_ESC; Z.lxor c 0x20]
  else if phy_special c then [PHY_ESC; Z.lxor c 0x20]
  else [c].
(** A packet whose payload is [p] followed by [x]: the end marker precedes the
    last byte of the payload. *)
Definition packet_end (x : Z) : list Z := PKT_EOP :: escaped x.
Definition packet (p : list Z) (x : Z) : list Z :=
  [PKT_SOP; PKT_CHANNEL; 0] ++ mjoin (escaped <$> p) ++ packet_end x.

(** A stream that carries [q]: the bytes of [q] with idle bytes between them, and
    anything behind. *)
Inductive carries : list Z → list Z → Prop :=
| carries_done st : carries [] st
| carries_idle q st : carries q st → carries q (PHY_IDLE :: st)
| carries_byte c q st : c ≠ PHY_IDLE → carries q st → carries (c :: q) (c :: st).

Lemma escaped_not_idle c : Forall (λ b, b ≠ PHY_IDLE) (escaped c).
Proof.
  unfold escaped, pkt_special, phy_special.
  repeat match goal with |- context [c =? ?k] => destruct (Z.eqb_spec c k) as [->|] end;
    cbn; repeat constructor; try done; discriminate.
Qed.

Lemma packet_not_idle p x : Forall (λ b, b ≠ PHY_IDLE) (packet p x).
Proof.
  unfold packet, packet_end. apply Forall_app; split; [repeat constructor; discriminate|].
  apply Forall_app; split.
  - induction p as [|c p IH]; cbn; [constructor|]. apply Forall_app; split; [apply escaped_not_idle|done].
  - constructor; [discriminate|apply escaped_not_idle].
Qed.

Lemma carries_refl_app q st : Forall (λ b, b ≠ PHY_IDLE) q → carries q (q ++ st).
Proof. induction 1; cbn; constructor; done. Qed.
Lemma carries_idles q st n : carries q st → carries q (replicate n PHY_IDLE ++ st).
Proof. intros. induction n; cbn; [done|]. by constructor. Qed.
Lemma carries_app q1 q2 st : Forall (λ b, b ≠ PHY_IDLE) q1 → carries q2 st → carries (q1 ++ q2) (q1 ++ st).
Proof. induction 1; cbn; [done|]. intros. constructor; auto. Qed.

Lemma escaped_length c : (1 <= length (escaped c) <= 2)%nat.
Proof. unfold escaped. repeat case_match; cbn; lia. Qed.
Lemma escapes_length p : (length p <= length (mjoin (escaped <$> p)) <= 2 * length p)%nat.
Proof.
  induction p as [|c p IH]; [cbn; lia|].
  change (mjoin (escaped <$> (c :: p))) with (escaped c ++ mjoin (escaped <$> p)).
  rewrite length_app. pose proof (escaped_length c). cbn [length]. lia.
Qed.

(** ** Writing into a buffer *)
Definition splice (buf : list Z) (i : nat) (src : list Z) : list Z :=
  take i buf ++ src ++ drop (i + length src) buf.

#[global] Arguments splice : simpl never.
#[global] Arguments escaped : simpl never.

Lemma splice_length buf i src : (i + length src <= length buf)%nat → length (splice buf i src) = length buf.
Proof. intros. unfold splice. rewrite !length_app, length_take, length_drop. lia. Qed.

Lemma splice_app buf i a b :
  (i + length a + length b <= length buf)%nat →
  splice (splice buf i a) (i + length a) b = splice buf i (a ++ b).
Proof.
  intros Hle. unfold splice.
  rewrite take_app_ge; rewrite length_take_le by lia; [|lia].
  replace (i + length a - i)%nat with (length a) by lia. rewrite take_app_length.
  rewrite drop_app_ge; rewrite length_take_le by lia; [|lia].
  rewrite drop_app_ge by lia. rewrite drop_drop, length_app, <- !app_assoc.
  do 4 f_equal. lia.
Qed.

Lemma store_splice buf i src :
  (i + length src <= length buf)%nat → store buf (Z.of_nat i) src = Some (splice buf i src).
Proof.
  intros Hle. unfold store, splice. rewrite !Nat2Z.id.
  destruct (Z.leb_spec 0 (Z.of_nat i)); [|lia].
  destruct (Z.leb_spec (Z.of_nat i + Z.of_nat (length src)) (Z.of_nat (length buf))); [done|lia].
Qed.

Lemma take_splice buf i src :
  (i + length src <= length buf)%nat → take (i + length src) (splice buf i src) = take i buf ++ src.
Proof.
  intros Hle. unfold splice. rewrite app_assoc.
  rewrite take_app_length'; [done|]. rewrite length_app, length_take. lia.
Qed.

Lemma splice_app_r A G i E :
  splice (A ++ G) (length A + i) E = A ++ splice G i E.
Proof.
  unfold splice. rewrite take_app_add, <- !app_assoc. do 3 f_equal.
  rewrite <- Nat.add_assoc. rewrite drop_app_add. done.
Qed.

(** Moving the last [m] bytes [E] of [A ++ E] up by [k] and filling the hole. *)
Lemma padded A E rest k b :
  (k <= length rest)%nat →
  take (length A + k + length E)
    (splice (splice (A ++ E ++ rest) (length A + k) E) (length A) (replicate k b))
  = A ++ replicate k b ++ E.
Proof.
  intros Hk. rewrite splice_app_r.
  replace (length A) with (length A + 0)%nat at 2 by lia. rewrite splice_app_r.
  rewrite <- Nat.add_assoc, take_app_add. f_equal.
  assert (length (E ++ rest) = length E + length rest)%nat as Hl by apply length_app.
  unfold splice at 1. rewrite take_0, app_nil_l, length_replicate.
  rewrite take_app_ge; rewrite length_replicate; [|lia]. f_equal.
  replace (k + length E - k)%nat with (length E) by lia. cbn [Nat.add].
  unfold splice. rewrite drop_app_ge; rewrite length_take_le by lia; [|lia].
  rewrite Nat.sub_diag, drop_0. apply take_app_length.
Qed.

Lemma ALIGN_1 x : ALIGN x 1 = x.
Proof. unfold ALIGN. replace (x + 1 - 1) with x by lia. apply Z.land_m1_r. Qed.
Lemma ALIGN_4 x : ALIGN x 4 = (x + 3) / 4 * 4.
Proof.
  unfold ALIGN. rewrite <- Z.ldiff_land. change (4 - 1) with (Z.ones 2).
  rewrite Z.ldiff_ones_r, Z.shiftr_div_pow2, Z.shiftl_mul_pow2 by lia.
  do 3 f_equal. lia.
Qed.

Section Tx.
Context `{Spi}.
Implicit Types s : avst.

Definition with_phy (l : list Z) s : avst := AvSt (set_phy_buf l (a_br s)) (a_spi s).
Definition with_trans (l : list Z) s : avst := AvSt (set_trans_buf l (a_br s)) (a_spi s).
Abbreviation phy s := (br_phy_buf (a_br s)).
Abbreviation trans s := (br_trans_buf (a_br s)).

Lemma put_phy_eq i src s :
  (i + length src <= length (phy s))%nat →
  put_phy (Z.of_nat i) src s = Done (Val tt, with_phy (splice (phy s) i src) s).
Proof.
  intros Hle. unfold put_phy, gets, upd_br, modify, mbind, M_bind.
  rewrite store_splice by done. done.
Qed.
Lemma put_trans_eq i src s :
  (i + length src <= length (trans s))%nat →
  put_trans (Z.of_nat i) src s = Done (Val tt, with_trans (splice (trans s) i src) s).
Proof.
  intros Hle. unfold put_trans, gets, upd_br, modify, mbind, M_bind.
  rewrite store_splice by done. done.
Qed.

Lemma with_phy_phy l l' s : with_phy l (with_phy l' s) = with_phy l s.
Proof. done. Qed.
Lemma br_phy_with_phy l s : phy (with_phy l s) = l.
Proof. done. Qed.
Lemma br_trans_with_trans l s : trans (with_trans l s) = l.
Proof. done. Qed.
Lemma br_trans_with_phy l s : trans (with_phy l s) = trans s.
Proof. done. Qed.
Lemma with_trans_trans l l' s : with_trans l (with_trans l' s) = with_trans l s.
Proof. done. Qed.

Lemma load_nat buf i c : buf !! i = Some c → load buf (Z.of_nat i) = Some c.
Proof.
  intros Hi. unfold load. destruct (Z.ltb_spec (Z.of_nat i) 0); [lia|]. by rewrite Nat2Z.id.
Qed.

(** ** The encoder loop *)

(** One iteration, the byte at [tb] being [c]. *)
Lemma tx_loop_S n pb tb tb_end need_esc eop c s :
  trans s !! tb = Some c → Z.of_nat tb < tb_end →
  tx_loop (S n) pb (Z.of_nat tb) tb_end need_esc eop s =
    (if need_esc then
       put_phy pb [Z.lxor c 0x20] ;; tx_loop n (pb + 1) (Z.of_nat tb + 1) tb_end false eop
     else if (Z.of_nat tb =? tb_end - 1) && bool_decide (eop = None) then
       put_phy pb [PKT_EOP] ;; tx_loop n (pb + 1) (Z.of_nat tb) tb_end need_esc (Some pb)
     else if pkt_special c then
       put_phy pb [PKT_ESC] ;; tx_loop n (pb + 1) (Z.of_nat tb) tb_end true eop
     else if phy_special c then
       put_phy pb [PHY_ESC] ;; tx_loop n (pb + 1) (Z.of_nat tb) tb_end true eop
     else
       put_phy pb [c] ;; tx_loop n (pb + 1) (Z.of_nat tb + 1) tb_end need_esc eop) s.
Proof.
  intros Hc Htb. cbn [tx_loop]. apply Z.ltb_lt in Htb as ->. cbn [negb].
  unfold mbind at 1, M_bind at 1, gets. cbv beta iota.
  rewrite (load_nat _ _ _ Hc). reflexivity.
Qed.

Lemma put_phy_bind {A} pb src s (k : unit → M avst A) :
  (pb + length src <= length (phy s))%nat →
  (put_phy (Z.of_nat pb) src ≫= k) s = k tt (with_phy (splice (phy s) pb src) s).
Proof. intros Hle. unfold mbind, M_bind. by rewrite put_phy_eq. Qed.

(** One byte that is not the last, or the last after the end marker. *)
Lemma tx_byte n pb tb tb_end eop c s :
  trans s !! tb = Some c → Z.of_nat tb < tb_end →
  Z.of_nat tb ≠ tb_end - 1 ∨ eop ≠ None →
  (pb + length (escaped c) <= length (phy s))%nat →
  tx_loop (length (escaped c) + n) (Z.of_nat pb) (Z.of_nat tb) tb_end false eop s =
    tx_loop n (Z.of_nat (pb + length (escaped c))) (Z.of_nat (S tb)) tb_end false eop
      (with_phy (splice (phy s) pb (escaped c)) s).
Proof.
  intros Hc Htb Hlast Hpb.
  assert ((Z.of_nat tb =? tb_end - 1) && bool_decide (eop = None) = false) as Hl.
  { destruct Hlast as [Hne|Hne]; [by apply Z.eqb_neq in Hne as ->|].
    rewrite (bool_decide_eq_false_2 _ Hne). apply andb_false_r. }
  assert (∀ esc : Z, (pb + 2 <= length (phy s))%nat →
    (put_phy (Z.of_nat pb) [esc] ;; tx_loop (S n) (Z.of_nat pb + 1) (Z.of_nat tb) tb_end true eop) s =
    tx_loop n (Z.of_nat (pb + 2)) (Z.of_nat (S tb)) tb_end false eop
      (with_phy (splice (phy s) pb [esc; Z.lxor c 0x20]) s)) as Htwo.
  { intros esc Hle. rewrite put_phy_bind by (cbn; lia).
    rewrite (tx_loop_S _ _ _ _ _ _ c) by done.
    replace (Z.of_nat pb + 1) with (Z.of_nat (S pb)) by lia.
    rewrite put_phy_bind by (cbn; rewrite splice_length; cbn; lia).
    assert (splice (splice (phy s) pb [esc]) (S pb) [Z.lxor c 0x20] =
            splice (phy s) pb [esc; Z.lxor c 0x20]) as Hsp.
    { replace (S pb) with (pb + length [esc])%nat by (cbn; lia). apply splice_app. cbn. lia. }
    change (phy (with_phy (splice (phy s) pb [esc]) s)) with (splice (phy s) pb [esc]).
    rewrite Hsp, with_phy_phy. f_equal; lia. }
  unfold escaped in Hpb |- *.
  destruct (pkt_special c) eqn:Hpk; [|destruct (phy_special c) eqn:Hph]; cbn [length Nat.add] in Hpb |- *;
    rewrite (tx_loop_S _ _ _ _ _ _ c) by done; rewrite Hl, Hpk, ?Hph.
  - by apply Htwo.
  - by apply Htwo.
  - rewrite put_phy_bind by (cbn; lia). f_equal; lia.
Qed.

(** The bytes before the last one. *)
Lemma tx_bytes p n pb tb tb_end s :
  (∀ i c, p !! i = Some c → trans s !! (tb + i)%nat = Some c) →
  Z.of_nat (tb + length p) < tb_end →
  (pb + length (mjoin (escaped <$> p)) <= length (phy s))%nat →
  tx_loop (length (mjoin (escaped <$> p)) + n) (Z.of_nat pb) (Z.of_nat tb) tb_end false None s =
    tx_loop n (Z.of_nat (pb + length (mjoin (escaped <$> p)))) (Z.of_nat (tb + length p)) tb_end false None
      (with_phy (splice (phy s) pb (mjoin (escaped <$> p))) s).
Proof.
  revert pb tb s. induction p as [|c p IH]; intros pb tb s Hp Hend Hpb.
  { cbn. rewrite !Nat.add_0_r. f_equal. unfold splice. cbn. rewrite Nat.add_0_r, take_drop.
    by destruct s as [[] ?]. }
  change (mjoin (escaped <$> (c :: p))) with (escaped c ++ mjoin (escaped <$> p)) in *.
  rewrite length_app in Hpb |- *. cbn [length] in Hend |- *.
  pose proof (Hp 0%nat c eq_refl) as Hc. rewrite Nat.add_0_r in Hc.
  rewrite <- Nat.add_assoc, tx_byte by (done || lia || (left; lia)).
  rewrite IH.
  - rewrite with_phy_phy. f_equal; [lia..|]. f_equal. cbn. rewrite splice_app by lia. done.
  - intros i d Hi. cbn. replace (S (tb + i)) with (tb + S i)%nat by lia. by apply Hp.
  - lia.
  - cbn. rewrite splice_length by lia. lia.
Qed.

Lemma tx_loop_end n pb tb esc eop s : tx_loop n pb tb tb esc eop s = Done (Val (pb, tb, eop), s).
Proof. destruct n; cbn [tx_loop]; [done|]. by rewrite Z.ltb_irrefl. Qed.

(** The end marker and the last byte. *)
Lemma tx_last n pb tb x s :
  trans s !! tb = Some x → (pb + length (packet_end x) <= length (phy s))%nat →
  (length (packet_end x) <= n)%nat →
  tx_loop n (Z.of_nat pb) (Z.of_nat tb) (Z.of_nat (S tb)) false None s =
    Done (Val (Z.of_nat (pb + length (packet_end x)), Z.of_nat (S tb), Some (Z.of_nat pb)),
          with_phy (splice (phy s) pb (packet_end x)) s).
Proof.
  unfold packet_end. cbn [length]. intros Hx Hpb Hn.
  destruct n as [|n]; [lia|]. rewrite (tx_loop_S _ _ _ _ _ _ x) by (done || lia).
  assert ((Z.of_nat tb =? Z.of_nat (S tb) - 1) = true) as -> by (apply Z.eqb_eq; lia). cbn [andb].
  rewrite bool_decide_eq_true_2 by done. rewrite put_phy_bind by (cbn; lia).
  replace n with (length (escaped x) + (n - length (escaped x)))%nat by lia.
  replace (Z.of_nat pb + 1) with (Z.of_nat (S pb)) by lia.
  rewrite tx_byte; [|done|lia|by right|cbn [with_phy a_br set_phy_buf br_phy_buf]; rewrite splice_length; cbn [length]; lia].
  rewrite tx_loop_end, with_phy_phy. do 3 f_equal; [do 2 f_equal; lia|].
  change (phy (with_phy (splice (phy s) pb [PKT_EOP]) s)) with (splice (phy s) pb [PKT_EOP]).
  change (PKT_EOP :: escaped x) with ([PKT_EOP] ++ escaped x).
  rewrite <- splice_app by (cbn; lia). by rewrite Nat.add_1_r.
Qed.

(** ** The encoder *)

Definition bridge_ok (b : spi_avmm_bridge) : Prop :=
  Z.of_nat (length (br_trans_buf b)) = TRANS_BUF_SIZE ∧
  Z.of_nat (length (br_phy_buf b)) = PHY_BUF_SIZE ∧
  (br_word_len b = 1 ∧ br_swap b = false ∨ br_word_len b = 4 ∧ br_swap b = true).

Definition with_phy_len (l : list Z) (n : Z) s : avst :=
  AvSt (set_phy_len n (set_phy_buf l (a_br s))) (a_spi s).

(** The part of the packet before the end marker. *)
Definition packet_start (p : list Z) : list Z := [PKT_SOP; PKT_CHANNEL; 0] ++ mjoin (escaped <$> p).
Lemma packet_split p x : packet p x = packet_start p ++ packet_end x.
Proof. unfold packet, packet_start. by rewrite <- app_assoc. Qed.

Lemma packet_length p x : (length (packet p x) <= 2 * S (length p) + 4)%nat.
Proof.
  unfold packet, packet_end. rewrite !length_app. cbn [length].
  pose proof (escapes_length p). pose proof (escaped_length x). lia.
Qed.

(** Before the padding. *)
Lemma tx_fill p x s :
  bridge_ok (a_br s) → br_trans_len (a_br s) = Z.of_nat (S (length p)) → (S (length p) <= 12)%nat →
  take (S (length p)) (trans s) = p ++ [x] →
  tx_loop (Z.to_nat (PHY_BUF_SIZE - 3)) 3 0 (br_trans_len (a_br s)) false None
    (with_phy (splice (phy s) 0 [PKT_SOP; PKT_CHANNEL; 0]) s) =
  Done (Val (Z.of_nat (length (packet p x)), br_trans_len (a_br s), Some (Z.of_nat (length (packet_start p)))),
        with_phy (splice (phy s) 0 (packet p x)) s).
Proof.
  intros (Htb & Hpb & _) Hlen Hle Htake.
  assert (length (phy s) = 28%nat) as Hphy by (change PHY_BUF_SIZE with 28 in Hpb; lia).
  pose proof (escapes_length p) as He. pose proof (escaped_length x) as Hx.
  assert (∀ i c, (p ++ [x]) !! i = Some c → trans s !! i = Some c) as Hbytes.
  { intros i c Hi. rewrite <- Htake in Hi. by apply lookup_take_Some in Hi as [? _]. }
  change (Z.to_nat (PHY_BUF_SIZE - 3)) with 25%nat.
  change 3 with (Z.of_nat 3). change 0 with (Z.of_nat 0).
  rewrite Hlen.
  replace 25%nat with (length (mjoin (escaped <$> p)) + (25 - length (mjoin (escaped <$> p))))%nat by lia.
  rewrite tx_bytes; [|intros i c Hi; apply Hbytes; by apply lookup_app_l_Some|lia|
    rewrite br_phy_with_phy, splice_length; cbn [length app]; lia].
  rewrite Nat.add_0_l, with_phy_phy, br_phy_with_phy, splice_app by (cbn [length app]; lia).
  rewrite (tx_last _ _ _ x).
  - rewrite with_phy_phy, br_phy_with_phy.
    replace (3 + length (mjoin (escaped <$> p)))%nat with (0 + length (packet_start p))%nat
      by (unfold packet_start; rewrite length_app; done).
    rewrite packet_split, length_app. unfold packet_start at 3.
    rewrite (splice_app _ 0 (packet_start p)); [done|].
    unfold packet_start, packet_end. rewrite length_app. cbn [length]. lia.
  - rewrite br_trans_with_phy. apply Hbytes. by apply list_lookup_middle.
  - rewrite br_phy_with_phy, splice_length; unfold packet_end; cbn [length app]; lia.
  - unfold packet_end. cbn [length]. lia.
Qed.

Lemma packet_idles_carries p x k :
  carries (packet p x) (packet_start p ++ replicate k PHY_IDLE ++ packet_end x).
Proof.
  pose proof (packet_not_idle p x) as Hn. rewrite packet_split in *. apply Forall_app in Hn as [Hs He].
  apply carries_app; [done|]. apply carries_idles.
  rewrite <- (app_nil_r (packet_end x)) at 2. by apply carries_refl_app.
Qed.

(** The padding: the end of the packet moves to the end of the last word. *)
Lemma tx_pad F A E al k s :
  F = A ++ E → al = (length F + k)%nat → (al <= length (phy s))%nat →
  ∃ B, length B = length (phy s) ∧ take al B = A ++ replicate k PHY_IDLE ++ E ∧
    (put_phy (Z.of_nat al - (Z.of_nat (length F) - Z.of_nat (length A)))
       (take (Z.to_nat (Z.of_nat (length F) - Z.of_nat (length A)))
          (drop (Z.to_nat (Z.of_nat (length A))) (splice (phy s) 0 F))) ;;
     put_phy (Z.of_nat (length A)) (replicate (Z.to_nat (Z.of_nat al - Z.of_nat (length F))) PHY_IDLE))
      (with_phy (splice (phy s) 0 F) s) = Done (Val tt, with_phy B s).
Proof.
  intros -> Hal Hle. rewrite length_app in Hal |- *.
  set (rest := drop (length (A ++ E)) (phy s)).
  assert (splice (phy s) 0 (A ++ E) = A ++ E ++ rest) as ->.
  { unfold splice. rewrite take_0, app_nil_l, <- app_assoc. done. }
  assert (length rest = length (phy s) - length (A ++ E))%nat as Hrest by apply length_drop.
  rewrite length_app in Hrest.
  assert (length (A ++ E ++ rest) = length (phy s)) as Hlen by (rewrite !length_app; lia).
  replace (Z.to_nat (Z.of_nat (length A + length E) - Z.of_nat (length A))) with (length E) by lia.
  rewrite Nat2Z.id, drop_app_length, take_app_length.
  replace (Z.of_nat al - (Z.of_nat (length A + length E) - Z.of_nat (length A)))
    with (Z.of_nat (length A + k)) by lia.
  replace (Z.to_nat (Z.of_nat al - Z.of_nat (length A + length E))) with k by lia.
  exists (splice (splice (A ++ E ++ rest) (length A + k) E) (length A) (replicate k PHY_IDLE)).
  split; [|split].
  - rewrite !splice_length; rewrite ?splice_length, ?length_replicate; lia.
  - replace al with (length A + k + length E)%nat by lia. apply padded. lia.
  - rewrite put_phy_bind by (rewrite br_phy_with_phy; lia).
    rewrite !br_phy_with_phy, with_phy_phy, put_phy_eq; [by rewrite br_phy_with_phy, with_phy_phy|].
    rewrite br_phy_with_phy, splice_length, length_replicate; lia.
Qed.

Lemma wp_seq_eq {A} (m1 m2 : M avst unit) (k : M avst A) s s' (Q : A → avst → Prop) E :
  (m1 ;; m2) s = Done (Val tt, s') → wp k Q E s' →
  wp m1 (λ _, wp (m2 ;; k) Q E) E s.
Proof.
  unfold wpg, mbind, M_bind. destruct (m1 s) as [[[a|e] s1]| |]; try done. by intros ->.
Qed.

Lemma tx_prepare_spec p x s :
  bridge_ok (a_br s) → br_trans_len (a_br s) = Z.of_nat (S (length p)) → (S (length p) <= 12)%nat →
  take (S (length p)) (trans s) = p ++ [x] →
  wp br_pkt_phy_tx_prepare
     (λ _ s', ∃ B (L : nat), s' = with_phy_len B (Z.of_nat L) s ∧ length B = length (phy s) ∧
        (L <= length B)%nat ∧ Z.of_nat L mod br_word_len (a_br s) = 0 ∧ carries (packet p x) (take L B))
     (λ _ _, False) s.
Proof.
  intros Hok Hlen Hle Htake. pose proof (tx_fill p x s Hok Hlen Hle Htake) as Hfill.
  destruct Hok as (_ & Hpb & Hwl).
  assert (length (phy s) = 28%nat) as Hphy by (change PHY_BUF_SIZE with 28 in Hpb; lia).
  pose proof (packet_length p x) as Hpl.
  unfold br_pkt_phy_tx_prepare. wsteps.
  change 0 with (Z.of_nat 0) at 1. eapply wp_eq; [apply put_phy_eq; cbn; lia|]. wsteps.
  change 1 with (Z.of_nat 1) at 1. eapply wp_eq; [apply put_phy_eq; rewrite br_phy_with_phy, splice_length; cbn; lia|]. wsteps.
  change 2 with (Z.of_nat 2). eapply wp_eq; [apply put_phy_eq; rewrite br_phy_with_phy, splice_length;
    rewrite br_phy_with_phy, splice_length; cbn; lia|]. wsteps.
  rewrite !br_phy_with_phy, !with_phy_phy.
  rewrite (splice_app _ 0 [PKT_SOP] [PKT_CHANNEL]) by (cbn; lia).
  rewrite (splice_app _ 0 [PKT_SOP; PKT_CHANNEL] [0]) by (cbn; lia).
  eapply wp_eq; [exact Hfill|]. cbv beta iota. rewrite Z.ltb_irrefl. unfold upd_br. wsteps.
  cbn [a_br with_phy set_phy_len br_word_len set_phy_buf br_phy_len].
  assert (∀ wl, Z.of_nat (length (packet p x)) mod wl = 0 →
    ∃ B (L : nat), with_phy_len (splice (phy s) 0 (packet p x)) (Z.of_nat (length (packet p x))) s = with_phy_len B (Z.of_nat L) s ∧
        length B = length (phy s) ∧ (L <= length B)%nat ∧ Z.of_nat L mod wl = 0 ∧
        carries (packet p x) (take L B)) as Hplain.
  { intros wl Hdiv. exists (splice (phy s) 0 (packet p x)), (length (packet p x)).
    rewrite splice_length by lia. split_and!; [done|done|lia|done|].
    pose proof (take_splice (phy s) 0 (packet p x) ltac:(lia)) as Ht.
    rewrite Nat.add_0_l, take_0, app_nil_l in Ht. rewrite Ht.
    rewrite <- (app_nil_r (packet p x)) at 2. apply carries_refl_app, packet_not_idle. }
  destruct Hwl as [[Hw _]|[Hw _]]; rewrite Hw; [by wsteps; apply Hplain, Z.mod_1_r|].
  change (4 =? 1) with false. cbv iota. rewrite ALIGN_4. change PHY_BUF_SIZE with 28.
  set (n := length (packet p x)) in *.
  pose proof (Z.div_mod (Z.of_nat n + 3) 4 ltac:(lia)) as Hdm.
  pose proof (Z.mod_pos_bound (Z.of_nat n + 3) 4 ltac:(lia)) as Hmb.
  set (al := (Z.of_nat n + 3) / 4 * 4) in *.
  destruct (Z.ltb_spec 28 al) as [Hgt|Hal]; [lia|].
  destruct (Z.eqb_spec al (Z.of_nat n)) as [Heq|Hne].
  { wsteps. apply Hplain. rewrite <- Heq. apply Z.mod_mul. lia. }
  cbn [access]. wsteps.
  set (s1 := AvSt (set_phy_len (Z.of_nat n) (a_br s)) (a_spi s)).
  destruct (tx_pad (packet p x) (packet_start p) (packet_end x) (Z.to_nat al) (Z.to_nat al - n)%nat s1)
    as (B & HB & Htake' & Hrun); [apply packet_split|subst n; lia|cbn; lia|].
  fold n in Hrun. rewrite Z2Nat.id in Hrun by lia.
  eapply (wp_seq_eq _ _ _ (with_phy (splice (phy s) 0 (packet p x)) s1) (with_phy B s1)); [exact Hrun|].
  wsteps. exists B, (Z.to_nat al). rewrite Z2Nat.id by lia. split_and!; [done|done| | |].
  - rewrite HB. change (phy s1) with (phy s). lia.
  - apply Z.mod_mul. lia.
  - rewrite Htake'. apply packet_idles_carries.
Qed.

(** The encoder never fails and never writes outside the physical layer
    buffer, for every transaction of 1 to 12 bytes, on both word lengths: the
    buffer then holds the packet of the transaction with idle bytes in it, the
    length is a whole number of words, and nothing else of the bridge changes. *)
Lemma tx_prepare_carries_packet p x s :
  bridge_ok (a_br s) → br_trans_len (a_br s) = Z.of_nat (S (length p)) → (S (length p) <= 12)%nat →
  take (S (length p)) (trans s) = p ++ [x] →
  wp br_pkt_phy_tx_prepare
     (λ _ s', ∃ B (L : nat), s' = with_phy_len B (Z.of_nat L) s ∧ length B = length (phy s) ∧
        (L <= length B)%nat ∧ Z.of_nat L mod br_word_len (a_br s) = 0 ∧ carries (packet p x) (take L B))
     (λ _ _, False) s.
Proof. apply tx_prepare_spec. Qed.
End Tx.
