(* ===== verification/SpiAvmmRx.v ===== *)
(** * What the bridge receives

    The parser of [SpiAvmm] recovers the payload of a packet from every stream
    that carries it: bytes before the packet that are no start marker, idle bytes
    anywhere, and any split into words. *)
From S2P Require Import Prelude SpiAvmm SpiAvmmTx.

Lemma xor_special c :
  pkt_special c || phy_special c = true →
  Z.lxor c 0x20 ≠ PHY_IDLE ∧ Z.lxor c 0x20 ≠ PKT_SOP ∧ pkt_special (Z.lxor c 0x20) = false ∧
  phy_special (Z.lxor c 0x20) = false.
Proof.
  unfold pkt_special, phy_special.
  repeat match goal with |- context [c =? ?k] => destruct (Z.eqb_spec c k) as [->|] end;
    intros; try discriminate; by vm_compute.
Qed.
Lemma xor_twice c : Z.lxor (Z.lxor c 0x20) 0x20 = c.
Proof. by rewrite Z.lxor_assoc, Z.lxor_nilpotent, Z.lxor_0_r. Qed.

(** The bytes behind the channel number. *)
Definition packet_body (p : list Z) (x : Z) : list Z := mjoin (escaped <$> p) ++ packet_end x.

Section Rx.
Context `{Spi}.
Implicit Types s : avst.
Abbreviation phy s := (br_phy_buf (a_br s)).
Abbreviation trans s := (br_trans_buf (a_br s)).

Section Packet.
(** The payload of the packet is [p] and [x]. *)
Context (p : list Z) (x : Z).

(** [expects d q r]: the parser has the variables [r] when it has stored [d] and
    the rest of the packet is [q]. *)
Inductive expects : list Z → list Z → rx_vars → Prop :=
| Ex_channel v :
    expects [] (PKT_CHANNEL :: 0 :: packet_body p x) (Rx (Some 0) false false false v)
| Ex_number v :
    expects [] (0 :: packet_body p x) (Rx (Some 0) false true false v)
| Ex_body d p' v :
    p = d ++ p' →
    expects d (packet_body p' x) (Rx (Some (Z.of_nat (length d))) false false false v)
| Ex_escape d c p' v :
    p = d ++ c :: p' → pkt_special c || phy_special c = true →
    expects d (Z.lxor c 0x20 :: packet_body p' x) (Rx (Some (Z.of_nat (length d))) false false true v)
| Ex_last v :
    expects p (escaped x) (Rx (Some (Z.of_nat (length p))) true false false v)
| Ex_last_escape v :
    pkt_special x || phy_special x = true →
    expects p [Z.lxor x 0x20] (Rx (Some (Z.of_nat (length p))) true false true v).

(** A stream in which the packet is still to start. *)
Inductive awaits : list Z → Prop :=
| awaits_skip c st : c ≠ PKT_SOP → awaits st → awaits (c :: st)
| awaits_start st : carries (PKT_CHANNEL :: 0 :: packet_body p x) st → awaits (PKT_SOP :: st).

Inductive progress : list Z → list Z → rx_vars → Prop :=
| Pr_before st v : awaits st → progress [] st (Rx None false false false v)
| Pr_inside d q st r : expects d q r → carries q st → progress d st r.

Definition stored (d : list Z) s : Prop :=
  Z.of_nat (length (trans s)) = TRANS_BUF_SIZE ∧ take (length d) (trans s) = d ∧
  (length d <= S (length p))%nat.
(** What the parser leaves alone. *)
Definition rx_frame s s' : Prop :=
  phy s' = phy s ∧ a_spi s' = a_spi s ∧ br_word_len (a_br s') = br_word_len (a_br s) ∧
  br_swap (a_br s') = br_swap (a_br s).
Definition finished s : Prop :=
  stored (p ++ [x]) s ∧ br_trans_len (a_br s) = Z.of_nat (S (length p)).

Lemma rx_frame_refl s : rx_frame s s.
Proof. done. Qed.

Lemma expects_valid d q tb e c esc v v' :
  expects d q (Rx tb e c esc v) → expects d q (Rx tb e c esc v').
Proof. inversion 1; subst; by constructor. Qed.

Lemma expects_nonempty d q r : expects d q r → q ≠ [].
Proof.
  assert (∀ y, escaped y ≠ []) as He by (intros y; pose proof (escaped_length y); by destruct (escaped y); cbn in *; [lia|]).
  destruct 1; try done; try apply He.
  unfold packet_body, packet_end. by destruct (mjoin _).
Qed.

Hypothesis Hsize : Z.of_nat (S (length p)) <= TRANS_BUF_SIZE.

Lemma store_byte d b s :
  stored d s → (length d <= length p)%nat →
  ∃ s', put_trans (Z.of_nat (length d)) [b] s = Done (Val tt, s') ∧
    stored (d ++ [b]) s' ∧ rx_frame s s'.
Proof.
  intros (Hlen & Htake & Hd) Hle. eexists. split; [apply put_trans_eq; cbn; lia|].
  split; [|done]. split_and!; rewrite ?br_trans_with_trans.
  - rewrite splice_length by (cbn; lia). done.
  - rewrite length_app. rewrite take_splice by (cbn; lia). by rewrite Htake.
  - rewrite length_app. cbn. lia.
Qed.

Definition next_state (st : list Z) s (res : option rx_vars) s' : Prop :=
  rx_frame s s' ∧
  match res with
  | None => finished s'
  | Some r' => ∃ d', progress d' st r' ∧ stored d' s'
  end.

(** The tests of the parser on a byte that is to be stored. *)
Lemma not_special c :
  pkt_special c = false → phy_special c = false →
  (c =? PHY_IDLE) = false ∧ (c =? PKT_SOP) = false ∧ (c =? PKT_EOP) = false ∧
  (c =? PKT_CHANNEL) = false ∧ (c =? PKT_ESC) || (c =? PHY_ESC) = false.
Proof.
  unfold pkt_special, phy_special.
  destruct (c =? PKT_SOP), (c =? PKT_EOP), (c =? PKT_CHANNEL), (c =? PKT_ESC), (c =? PHY_IDLE), (c =? PHY_ESC); done.
Qed.

(** A byte that is stored. *)
Lemma rx_byte_data d b c esc eop v s Q :
  stored d s → (length d <= length p)%nat →
  pkt_special c = false → phy_special c = false →
  b = (if esc : bool then Z.lxor c 0x20 else c) →
  (∀ s', stored (d ++ [b]) s' → rx_frame s s' → eop = false →
     Q (Some (Rx (Some (Z.of_nat (length d) + 1)) eop false false true)) s') →
  (∀ s', stored (d ++ [b]) s' → rx_frame s s' → eop = true →
     br_trans_len (a_br s') = Z.of_nat (length d) + 1 → Q None s') →
  wp (rx_byte c (Rx (Some (Z.of_nat (length d))) eop false esc v)) Q (λ _ _, False) s.
Proof.
  intros Hst Hle Hpk Hph Hb Hgo Hend. unfold rx_byte.
  destruct (not_special c Hpk Hph) as (-> & -> & -> & -> & ->). cbn [rx_tb andb].
  rewrite bool_decide_eq_false_2 by done. cbn [andb access]. wsteps.
  destruct (store_byte d b s Hst Hle) as (s' & Hput & Hst' & Hfr).
  rewrite <- Hb. eapply wp_eq; [exact Hput|]. destruct eop.
  - unfold upd_br. wsteps. apply Hend; done.
  - wsteps. by apply Hgo.
Qed.

(** Bytes that are not stored. *)
Lemma rx_byte_idle r s (Q : option rx_vars → avst → Prop) :
  Q (Some r) s → wp (rx_byte PHY_IDLE r) Q (λ _ _, False) s.
Proof. intros HQ. unfold rx_byte. destruct r as [[t|] ? ? ? ?]; exact HQ. Qed.
Lemma rx_byte_skip c v s (Q : option rx_vars → avst → Prop) :
  c ≠ PKT_SOP → Q (Some (Rx None false false false v)) s →
  wp (rx_byte c (Rx None false false false v)) Q (λ _ _, False) s.
Proof. intros Hc%Z.eqb_neq HQ. unfold rx_byte. cbn [rx_tb]. rewrite Hc. exact HQ. Qed.

Lemma escaped_cases c :
  pkt_special c = true ∧ escaped c = [PKT_ESC; Z.lxor c 0x20] ∨
  pkt_special c = false ∧ phy_special c = true ∧ escaped c = [PHY_ESC; Z.lxor c 0x20] ∨
  pkt_special c = false ∧ phy_special c = false ∧ escaped c = [c].
Proof. unfold escaped. destruct (pkt_special c), (phy_special c); auto. Qed.

(** An escape character. *)
Lemma rx_byte_escape c tb eop v s (Q : option rx_vars → avst → Prop) :
  c = PKT_ESC ∨ c = PHY_ESC →
  Q (Some (Rx (Some tb) eop false true true)) s →
  wp (rx_byte c (Rx (Some tb) eop false false v)) Q (λ _ _, False) s.
Proof. intros [-> | ->] HQ; unfold rx_byte; destruct eop; exact HQ. Qed.

Lemma body_cons c p' : packet_body (c :: p') x = escaped c ++ packet_body p' x.
Proof.
  unfold packet_body. change (mjoin (escaped <$> (c :: p'))) with (escaped c ++ mjoin (escaped <$> p')).
  by rewrite app_assoc.
Qed.

Lemma stored_length d s : stored d s → (length d <= S (length p))%nat.
Proof. by intros (_ & _ & ?). Qed.

Lemma length_snoc (d : list Z) (y : Z) : Z.of_nat (length (d ++ [y])) = Z.of_nat (length d) + 1.
Proof. rewrite length_app. cbn. lia. Qed.

Lemma prefix_le d y p' : p = d ++ y :: p' → (length d <= length p)%nat.
Proof. intros Hp. assert (length p = length (d ++ y :: p')) as -> by congruence. rewrite length_app. lia. Qed.

(** After a byte that is not the last one. *)
Lemma stored_next d y p' st s s' v :
  p = d ++ y :: p' → carries (packet_body p' x) st → stored (d ++ [y]) s' → rx_frame s s' →
  next_state st s (Some (Rx (Some (Z.of_nat (length d) + 1)) false false false v)) s'.
Proof.
  intros Hp Hc Hst Hfr. split; [done|]. exists (d ++ [y]). split; [|done].
  eapply Pr_inside; [|exact Hc]. rewrite <- (length_snoc d y). apply Ex_body. by rewrite <- app_assoc.
Qed.
(** After the last byte. *)
Lemma stored_last st s s' :
  stored (p ++ [x]) s' → rx_frame s s' → br_trans_len (a_br s') = Z.of_nat (length p) + 1 →
  next_state st s None s'.
Proof. intros Hst Hfr Hl. split; [done|]. split; [done|]. rewrite Hl. lia. Qed.

(** A byte of the packet. *)
Lemma rx_byte_expects d c q st r s :
  expects d (c :: q) r → carries q st → stored d s →
  wp (rx_byte c r) (next_state st s) (λ _ _, False) s.
Proof.
  intros He Hc Hst. inversion He; subst; clear He.
  - (* channel *) apply wp_ret. split; [done|]. exists []. split; [|done]. by eapply Pr_inside; [apply Ex_number|].
  - (* number *) apply wp_ret. split; [done|]. exists []. split; [|done].
    eapply Pr_inside; [|exact Hc]. by apply (Ex_body [] p true).
  - (* body *) rename p' into rest.
    match goal with H : packet_body rest x = _ |- _ => rename H into Hq end.
    destruct rest as [|y rest].
    + injection Hq as <- <-. apply wp_ret. split; [done|]. exists d. split; [|done].
      eapply Pr_inside; [|exact Hc]. rewrite app_nil_r in *. subst. apply Ex_last.
    + rewrite body_cons in Hq. destruct (escaped_cases y) as [[Hy Hey]|[(Hy & Hy2 & Hey)|(Hy & Hy2 & Hey)]];
        rewrite Hey in Hq; injection Hq as <- <-.
      * apply rx_byte_escape; [by left|]. split; [done|]. exists d. split; [|done].
        eapply Pr_inside; [|exact Hc]. apply Ex_escape; [done|by rewrite Hy].
      * apply rx_byte_escape; [by right|]. split; [done|]. exists d. split; [|done].
        eapply Pr_inside; [|exact Hc]. apply Ex_escape; [done|by rewrite Hy, Hy2].
      * apply (rx_byte_data d y y false false); try done.
        { by eapply prefix_le. }
        intros s' Hst' Hfr _. by eapply stored_next.
  - (* escaped byte *)
    match goal with H : pkt_special ?y || _ = true |- _ => rename y into b; destruct (xor_special _ H) as (_ & _ & Hx1 & Hx2) end.
    apply (rx_byte_data d b _ true false); try done; [by eapply prefix_le|by rewrite xor_twice|].
    intros s' Hst' Hfr _. by eapply stored_next.
  - (* last byte *)
    match goal with H : escaped x = _ |- _ => rename H into Hq end.
    destruct (escaped_cases x) as [[Hy Hey]|[(Hy & Hy2 & Hey)|(Hy & Hy2 & Hey)]];
      rewrite Hey in Hq; injection Hq as <- <-.
    + apply rx_byte_escape; [by left|]. split; [done|]. exists p. split; [|done].
      eapply Pr_inside; [|exact Hc]. apply Ex_last_escape. by rewrite Hy.
    + apply rx_byte_escape; [by right|]. split; [done|]. exists p. split; [|done].
      eapply Pr_inside; [|exact Hc]. apply Ex_last_escape. by rewrite Hy, Hy2.
    + apply (rx_byte_data p x x false true); try done. intros s' Hst' Hfr _ Hl. by apply stored_last.
  - (* last byte, escaped *)
    match goal with H : pkt_special x || _ = true |- _ => destruct (xor_special _ H) as (_ & _ & Hx1 & Hx2) end.
    apply (rx_byte_data p x _ true true); try done; [by rewrite xor_twice|].
    intros s' Hst' Hfr _ Hl. by apply stored_last.
Qed.

(** A byte of the stream. *)
Lemma rx_byte_progress d c st r s :
  progress d (c :: st) r → stored d s → wp (rx_byte c r) (next_state st s) (λ _ _, False) s.
Proof.
  intros Hp Hst. inversion Hp as [st' v Ha|d' q st' r' He Hc]; subst; clear Hp.
  - inversion Ha as [c' st' Hne Ha'|st' Hc]; subst; clear Ha.
    + apply rx_byte_skip; [done|]. split; [done|]. exists []. split; [by apply Pr_before|done].
    + apply wp_ret. split; [done|]. exists []. split; [|done]. by eapply Pr_inside; [apply Ex_channel|].
  - inversion Hc as [st'|q' st' Hc'|c' q' st' Hne Hc']; subst; clear Hc.
    + by destruct (expects_nonempty _ _ _ He).
    + apply rx_byte_idle. split; [done|]. exists d. split; [|done]. by eapply Pr_inside.
    + by eapply rx_byte_expects.
Qed.

(** ** Words *)
Lemma next_state_trans st s s1 s2 res : rx_frame s s1 → next_state st s1 res s2 → next_state st s res s2.
Proof.
  intros (? & ? & ? & ?) [(? & ? & ? & ?) Hres]. split; [|done]. unfold rx_frame. split_and!; congruence.
Qed.

Lemma rx_word_progress w i d st r s :
  progress d (w ++ st) r → stored d s → (∀ j c, w !! j = Some c → phy s !! (i + j)%nat = Some c) →
  wp (rx_word (Z.of_nat i) (length w) r) (next_state st s) (λ _ _, False) s.
Proof.
  revert i d r s. induction w as [|c w IH]; intros i d r s Hp Hst Hw; cbn [length rx_word].
  { apply wp_ret. split; [done|]. by exists d. }
  pose proof (Hw 0%nat c eq_refl) as Hc. rewrite Nat.add_0_r in Hc.
  wsteps. rewrite (load_nat _ _ _ Hc). cbn [access]. wsteps.
  eapply wp_mono; [by eapply rx_byte_progress| |done].
  intros [r'|] s1 [Hfr Hres]; [|by wsteps].
  destruct Hres as (d' & Hp' & Hst').
  replace (Z.of_nat i + 1) with (Z.of_nat (S i)) by lia.
  eapply wp_mono; [eapply IH; [done|done|]| |done].
  - intros j b Hj. destruct Hfr as (-> & _). replace (S i + j)%nat with (i + S j)%nat by lia. by apply Hw.
  - intros res s2 Hs2. by eapply next_state_trans.
Qed.

(** ** The receive loop *)

(** A word as the parser sees it. *)
Definition wire (b : spi_avmm_bridge) (w : list Z) : list Z :=
  if br_swap b then br_swap_words_32 1 w else w.

(** The device gives the words [ws], each without an error, while the clock stays
    in [t0, t0 + timeout]. *)
Definition in_time (t0 now : Z) : Prop := t0 <= now <= t0 + SPI_AVMM_XFER_TIMEOUT.
Inductive delivers (wl t0 : Z) : list (list Z) → spi → Prop :=
| delivers_nil d : delivers wl t0 [] d
| delivers_cons w ws d d1 d2 now :
    Z.of_nat (length w) = wl → spi_read wl d = ((0, w), d1) → spi_jiffies d1 = (now, d2) →
    in_time t0 now → delivers wl t0 ws d2 → delivers wl t0 (w :: ws) d.

(** A clock that does not reach the sign bit. *)
Definition clock_ok (t0 : Z) : Prop :=
  0 <= t0 ∧ 0 <= SPI_AVMM_XFER_TIMEOUT ∧ t0 + 2 * SPI_AVMM_XFER_TIMEOUT < 2 ^ 63.

Lemma not_after t0 now t :
  clock_ok t0 → in_time t0 now → in_time t0 t →
  time_after now (u64 (t + SPI_AVMM_XFER_TIMEOUT)) = false.
Proof.
  clear Hsize. intros (H0 & H1 & H2) [H3 H4] [H5 H6]. unfold time_after, s64. apply Z.ltb_ge.
  rewrite u64_small by (unfold is_u64; lia). rewrite Z.mod_small by lia. lia.
Qed.

Lemma swap_word w rest : length w = 4%nat → br_swap_words_32 1 (w ++ rest) = br_swap_words_32 1 w ++ rest.
Proof. clear Hsize. intros Hw. by destruct w as [|a [|b [|c [|d [|]]]]]. Qed.
Lemma swap_word_length w : length (br_swap_words_32 1 w) = length w.
Proof. by destruct w as [|a [|b [|c [|d w]]]]. Qed.

Lemma load_word w s :
  bridge_ok (a_br s) → Z.of_nat (length w) = br_word_len (a_br s) →
  wp (put_phy 0 w ;; swap_phy (br_word_len (a_br s)))
     (λ _ s', (∃ B, s' = with_phy B s ∧ length B = length (phy s)) ∧
        ∀ j c, wire (a_br s) w !! j = Some c → phy s' !! (0 + j)%nat = Some c)
     (λ _ _, False) s.
Proof.
  clear Hsize. intros (_ & Hphy & Hwl) Hw. change PHY_BUF_SIZE with 28 in Hphy.
  assert (splice (phy s) 0 w = w ++ drop (length w) (phy s)) as Hsp.
  { unfold splice. by rewrite take_0. }
  assert (length (splice (phy s) 0 w) = length (phy s)) as Hlen by (apply splice_length; lia).
  wsteps. change 0 with (Z.of_nat 0). eapply wp_eq; [apply put_phy_eq; lia|].
  unfold swap_phy, upd_br. wsteps. rewrite Hsp in *. unfold wire.
  destruct Hwl as [[Hl Hs]|[Hl Hs]]; cbn [a_br with_phy set_phy_buf br_swap br_phy_buf]; rewrite Hs.
  - split; [by eexists|]. intros j c Hj. cbn. by apply lookup_app_l_Some.
  - rewrite Hl. change (Z.to_nat (4 / 4)) with 1%nat. rewrite swap_word by lia. split.
    + eexists. split; [done|]. rewrite <- Hlen, !length_app, swap_word_length. done.
    + intros j c Hj. cbn. by apply lookup_app_l_Some.
Qed.

Lemma wp_spi_op {A F N} (f : spi → A * spi) (Q : A → avst → Prop) E s :
  Q (fst (f (a_spi s))) (AvSt (a_br s) (snd (f (a_spi s)))) → wpg F N (spi_op f) Q E s.
Proof. unfold wpg, spi_op. by destruct (f (a_spi s)). Qed.

Lemma wp_bind_inv {A B F N} (m : M avst A) (f : A → M avst B) Q E s :
  wpg F N (m ≫= f) Q E s → wpg F N m (λ a s', wpg F N (f a) Q E s') E s.
Proof. unfold wpg, mbind, M_bind. by destruct (m s) as [[[] ?]| |]. Qed.

Lemma wp_assoc {A F N} (a b : M avst unit) (k : M avst A) Q E s :
  wpg F N ((a ;; b) ;; k) Q E s → wpg F N (a ;; b ;; k) Q E s.
Proof. unfold wpg, mbind, M_bind. by destruct (a s) as [[[[]|e] s1]| |]. Qed.

Lemma progress_valid d st r v :
  progress d st r →
  progress d st (Rx (rx_tb r) (rx_eop_found r) (rx_channel_found r) (rx_esc_found r) v).
Proof.
  destruct 1 as [st v' Ha|d q st [tb e c esc v'] He Hc]; cbn; [by constructor|].
  eapply Pr_inside; [by eapply expects_valid|done].
Qed.

Lemma progress_below d st r s : progress d st r → stored d s → tb_below (rx_tb r) = true.
Proof.
  intros Hp (Hlen & _ & Hd). destruct Hp as [st v Ha|d q st r He Hc]; [done|].
  assert (∀ n : nat, (n <= length p)%nat → (Z.of_nat n <? TRANS_BUF_SIZE) = true) as Hb
    by (intros n Hn; apply Z.ltb_lt; lia).
  inversion He; subst; cbn [rx_tb tb_below]; try done; try (apply Hb; lia).
  - apply Hb. match goal with H : p = _ |- _ => rewrite H, length_app; lia end.
  - apply Hb. by eapply prefix_le.
Qed.

Lemma progress_nil d r : ¬ progress d [] r.
Proof.
  inversion 1 as [st v Ha|d' q st r' He Hc]; subst; [inversion Ha|].
  apply (expects_nonempty _ _ _ He). by inversion Hc.
Qed.

Lemma rx_loop_delivers ws fuel t0 t d r s :
  bridge_ok (a_br s) → clock_ok t0 → in_time t0 t →
  progress d (mjoin (wire (a_br s) <$> ws)) r → stored d s →
  delivers (br_word_len (a_br s)) t0 ws (a_spi s) → (length ws <= fuel)%nat →
  wp (rx_loop fuel r false (u64 (t + SPI_AVMM_XFER_TIMEOUT)))
     (λ _ s', finished s' ∧ bridge_ok (a_br s')) (λ _ _, False) s.
Proof.
  revert fuel t d r s. induction ws as [|w ws IH]; intros fuel t d r s Hok Hck Ht Hp Hst Hdel Hf.
  { by destruct (progress_nil _ _ Hp). }
  destruct fuel as [|fuel]; [cbn in Hf; lia|]. cbn [rx_loop].
  rewrite (progress_below _ _ _ _ Hp Hst). cbn [negb].
  inversion Hdel as [|w' ws' dv d1 d2 now Hw Hrd Hj Hnow Hdel']; subst.
  wsteps. apply wp_spi_op. rewrite Hrd. cbn [fst snd]. wsteps; [intros _|done].
  set (s1 := AvSt (a_br s) d1).
  apply wp_assoc. wstep.
  eapply wp_mono; [apply (load_word w s1); done| |done].
  intros ? s2 [[B [-> HB]] Hbytes]. cbn [with_phy a_br s1]. wsteps.
  assert (Z.to_nat (br_word_len (a_br s)) = length (wire (a_br s) w)) as ->.
  { unfold wire. destruct (br_swap _); rewrite ?swap_word_length; lia. }
  apply progress_valid with (v := false) in Hp.
  change 0 with (Z.of_nat 0).
  eapply wp_mono; [eapply (rx_word_progress (wire (a_br s) w) 0 d); [exact Hp|exact Hst|exact Hbytes]| |done].
  intros res s3 [(Hphy3 & Hspi3 & Hwl3 & Hsw3) Hres]. cbn in Hphy3, Hspi3, Hwl3, Hsw3.
  assert (∀ n, Z.of_nat (length (trans s3)) = n → n = TRANS_BUF_SIZE → bridge_ok (a_br s3)) as Hok3.
  { intros n <- Hn. destruct Hok as (Ho1 & Ho2 & Ho3). unfold bridge_ok.
    rewrite Hphy3, Hwl3, Hsw3, HB. done. }
  destruct res as [r'|].
  - destruct Hres as (d' & Hp' & Hst').
    assert (bridge_ok (a_br s3)) as Hok' by (eapply Hok3; [done|apply Hst']).
    assert (wire (a_br s3) = wire (a_br s)) as Hwire by (unfold wire; by rewrite Hsw3).
    assert (∀ t', in_time t0 t' →
      wp (rx_loop fuel r' false (u64 (t' + SPI_AVMM_XFER_TIMEOUT)))
        (λ _ s', finished s' ∧ bridge_ok (a_br s')) (λ _ _, False) (AvSt (a_br s3) d2)) as Hgo.
    { intros t' Ht'. eapply (IH fuel t'); try done; cbn [a_br a_spi].
      - rewrite Hwire. exact Hp'.
      - rewrite Hwl3. done.
      - cbn in Hf. lia. }
    destruct (rx_valid_word r'); wsteps; apply wp_spi_op; rewrite Hspi3, Hj; cbn [fst snd].
    + by apply Hgo.
    + rewrite (not_after t0) by done. by apply Hgo.
  - wsteps. split; [done|]. eapply Hok3; [done|apply Hres].
Qed.
End Packet.
End Rx.
