(* ===== verification/SpiAvmmAccess.v ===== *)
(** * Register accesses over the bridge

    The theorems about whole accesses: a slave that answers every encoding of the
    request with an encoding of the register values makes a read return exactly
    these values, and makes a write succeed exactly if it acknowledges it. *)
From S2P Require Import Prelude SpiAvmm SpiAvmmTx SpiAvmmRx.

Section Access.
Context `{Spi}.
Implicit Types s : avst.
Abbreviation phy s := (br_phy_buf (a_br s)).
Abbreviation trans s := (br_trans_buf (a_br s)).

Lemma rx_payload_spec p x fuel t0 t d ws s :
  bridge_ok (a_br s) → clock_ok t0 → Z.of_nat (S (length p)) <= TRANS_BUF_SIZE →
  spi_jiffies (a_spi s) = (t, d) → in_time t0 t →
  delivers (br_word_len (a_br s)) t0 ws d →
  awaits p x (mjoin (wire (a_br s) <$> ws)) → (length ws <= fuel)%nat →
  wp (br_do_rx_and_pkt_phy_parse fuel)
     (λ _ s', bridge_ok (a_br s') ∧ br_trans_len (a_br s') = Z.of_nat (S (length p)) ∧
        take (S (length p)) (trans s') = p ++ [x])
     (λ _ _, False) s.
Proof.
  intros Hok Hck Hsize Hj Ht Hdel Haw Hf. unfold br_do_rx_and_pkt_phy_parse.
  wsteps. apply wp_spi_op. rewrite Hj. cbn [fst snd].
  eapply wp_mono; [eapply (rx_loop_delivers p x Hsize ws fuel t0 t []); try done| |done].
  - by apply Pr_before.
  - split_and!; [apply Hok|done|cbn; lia].
  - intros ? s' [[(_ & Htk & _) Hl] Hok']. split_and!; [done|done|].
    rewrite length_app, Nat.add_1_r in Htk. done.
Qed.

(** ** The request *)
Definition request (is_read : bool) (reg : Z) (vals : list Z) (count : Z) : list Z :=
  [if is_read then if count =? 1 then TRANS_CODE_READ else TRANS_CODE_SEQ_READ
   else if count =? 1 then TRANS_CODE_WRITE else TRANS_CODE_SEQ_WRITE; 0] ++
  be16 (u16 (u16 count * SPI_AVMM_VAL_SIZE)) ++ be32 reg ++
  (if is_read then [] else mjoin (le32 <$> vals)).

Lemma le32s_length vals : length (mjoin (le32 <$> vals)) = (4 * length vals)%nat.
Proof.
  induction vals as [|v vals IH]; [done|].
  change (mjoin (le32 <$> (v :: vals))) with (le32 v ++ mjoin (le32 <$> vals)).
  rewrite length_app, IH. cbn [le32 length]. lia.
Qed.

Lemma put_trans_bind {A} i src s (k : unit → M avst A) :
  (i + length src <= length (trans s))%nat →
  (put_trans (Z.of_nat i) src ≫= k) s = k tt (with_trans (splice (trans s) i src) s).
Proof. intros Hle. unfold mbind, M_bind. by rewrite put_trans_eq. Qed.

Lemma splice_nil buf i : splice buf i [] = buf.
Proof. unfold splice. rewrite app_nil_l, Nat.add_0_r. apply take_drop. Qed.

Lemma tx_data_eq vals i n s :
  (i + n = length vals)%nat → (8 + 4 * length vals <= length (trans s))%nat →
  tx_data vals i n s =
    Done (Val tt, with_trans (splice (trans s) (8 + 4 * i) (mjoin (le32 <$> drop i vals))) s).
Proof.
  revert i s. induction n as [|n IH]; intros i s Hn Hle; cbn [tx_data].
  { rewrite drop_ge by lia. cbn. rewrite splice_nil. by destruct s as [[] ?]. }
  destruct (lookup_lt_is_Some_2 vals i) as [v Hv]; [lia|].
  rewrite Hv. unfold mbind at 1, M_bind at 1, access, mret at 1, M_ret at 1. cbv beta iota.
  replace (TRANS_REQ_HD_SIZE + SPI_AVMM_VAL_SIZE * Z.of_nat i) with (Z.of_nat (8 + 4 * i))
    by (unfold TRANS_REQ_HD_SIZE, SPI_AVMM_VAL_SIZE; lia).
  rewrite put_trans_bind by (cbn [le32 length]; lia).
  rewrite IH; [|lia|rewrite br_trans_with_trans, splice_length; cbn [le32 length]; lia].
  rewrite br_trans_with_trans, with_trans_trans, (drop_S _ _ _ Hv).
  change (mjoin (le32 <$> (v :: drop (S i) vals))) with (le32 v ++ mjoin (le32 <$> drop (S i) vals)).
  rewrite <- splice_app.
  - replace (8 + 4 * S i)%nat with (8 + 4 * i + length (le32 v))%nat by (cbn [le32 length]; lia). done.
  - rewrite le32s_length, length_drop. cbn [le32 length]. lia.
Qed.

Definition with_trans_len (l : list Z) (n : Z) s : avst :=
  AvSt (set_trans_len n (set_trans_buf l (a_br s))) (a_spi s).

(** The header and, for a write, the values are at the start of the transaction
    buffer. *)
Lemma trans_tx_prepare_spec is_read reg vals count s :
  bridge_ok (a_br s) → is_u32 count → (is_read = false → Z.of_nat (length vals) = count) →
  count < 2 ^ 29 →
  wp (br_trans_tx_prepare is_read reg vals count)
     (λ _ s', ∃ T, s' = with_trans_len T (Z.of_nat (length (request is_read reg vals count))) s ∧
        length T = length (trans s) ∧
        take (length (request is_read reg vals count)) T = request is_read reg vals count)
     (λ e _, e = - ENOMEM ∧ is_read = false ∧ 254 < count) s.
Proof.
  intros (Htb & _) Hcnt Hvals Hlim. change TRANS_BUF_SIZE with 1024 in Htb.
  assert (length (trans s) = 1024%nat) as Htl by lia.
  unfold br_trans_tx_prepare. wstep.
  set (code := if is_read then _ else _).
  set (hdr := [code; 0] ++ be16 (u16 (u16 count * SPI_AVMM_VAL_SIZE)) ++ be32 reg).
  assert (length hdr = 8%nat) as Hhdr by done.
  change 0 with (Z.of_nat 0) at 1. eapply wp_eq; [apply put_trans_eq; rewrite Hhdr; lia|].
  destruct is_read; cbn [negb]; unfold upd_br; wsteps.
  - exists (splice (trans s) 0 hdr).
    assert (request true reg vals count = hdr) as -> by (unfold request, hdr; by rewrite app_nil_r).
    split; [done|]. split; [apply splice_length; rewrite Hhdr; lia|].
    rewrite <- (Nat.add_0_l (length hdr)), take_splice, take_0 by (rewrite Hhdr; lia). done.
  - specialize (Hvals eq_refl). unfold TRANS_REQ_HD_SIZE, SPI_AVMM_VAL_SIZE.
    rewrite u32_small by (unfold is_u32 in *; lia). change TRANS_BUF_SIZE with 1024.
    destruct (Z.ltb_spec 1024 (8 + 4 * count)) as [Hbig|Hsmall].
    { wsteps. split_and!; [done..|lia]. }
    wsteps. eapply wp_eq.
    { apply tx_data_eq; [lia|]. rewrite br_trans_with_trans, splice_length; rewrite ?Hhdr; lia. }
    wsteps. rewrite drop_0. rewrite br_trans_with_trans, with_trans_trans.
    assert (request false reg vals count = hdr ++ mjoin (le32 <$> vals)) as ->.
    { unfold request, hdr. by rewrite <- !app_assoc. }
    assert (length (mjoin (le32 <$> vals)) = (4 * length vals)%nat) as Hl by apply le32s_length.
    replace (8 + 4 * 0)%nat with (0 + length hdr)%nat by (rewrite Hhdr; lia).
    rewrite splice_app by (rewrite Hhdr, Hl; lia).
    exists (splice (trans s) 0 (hdr ++ mjoin (le32 <$> vals))).
    assert (8 + 4 * count = Z.of_nat (length (hdr ++ mjoin (le32 <$> vals)))) as ->
      by (rewrite length_app, Hhdr, Hl; lia).
    split; [done|]. assert (0 + length (hdr ++ mjoin (le32 <$> vals)) <= length (trans s))%nat as Hle
      by (rewrite length_app, Hhdr, Hl; lia).
    split; [by apply splice_length|].
    pose proof (take_splice (trans s) 0 (hdr ++ mjoin (le32 <$> vals)) Hle) as Ht.
    by rewrite Nat.add_0_l, take_0 in Ht.
Qed.

(** ** The slave *)

Lemma swap_take n buf : (4 * n <= length buf)%nat →
  take (4 * n) (br_swap_words_32 n buf) = br_swap_words_32 n (take (4 * n) buf).
Proof.
  revert buf. induction n as [|n IH]; intros buf Hn; [done|].
  destruct buf as [|a [|b [|c [|d buf]]]]; cbn [length] in Hn; try lia.
  replace (4 * S n)%nat with (S (S (S (S (4 * n))))) by lia.
  cbn [br_swap_words_32]. rewrite !firstn_cons. cbn [br_swap_words_32]. rewrite IH by lia. done.
Qed.
Lemma swap_swap n buf : br_swap_words_32 n (br_swap_words_32 n buf) = buf.
Proof.
  revert buf. induction n as [|n IH]; intros buf; [done|].
  destruct buf as [|a [|b [|c [|d buf]]]]; try done. cbn [br_swap_words_32]. by rewrite IH.
Qed.
Lemma swap_length n buf : length (br_swap_words_32 n buf) = length buf.
Proof.
  revert buf. induction n as [|n IH]; intros buf; [done|].
  destruct buf as [|a [|b [|c [|d buf]]]]; try done. cbn [br_swap_words_32 length]. by rewrite IH.
Qed.

(** The bytes of a transfer in protocol order. *)
Definition unwire (b : spi_avmm_bridge) (out : list Z) : list Z :=
  if br_swap b then br_swap_words_32 (Z.to_nat (Z.of_nat (length out) / 4)) out else out.

(** The slave accepts every transfer that carries the request [req], in whole
    words, and then sends a stream with the payload [rp] and [rx], early enough
    and of at most [fuel] words. *)
Definition answers (b : spi_avmm_bridge) (fuel : nat) (t0 : Z) (req rp : list Z) (rx : Z) (d : spi) : Prop :=
  ∀ out p x, req = p ++ [x] → carries (packet p x) (unwire b out) →
    Z.of_nat (length out) mod br_word_len b = 0 →
    ∃ d1 t d2 ws, spi_write out d = (0, d1) ∧ spi_jiffies d1 = (t, d2) ∧ in_time t0 t ∧
      delivers (br_word_len b) t0 ws d2 ∧ awaits rp rx (mjoin (wire b <$> ws)) ∧ (length ws <= fuel)%nat.

Lemma unwire_swapped b B (L : nat) :
  br_word_len b = 1 ∧ br_swap b = false ∨ br_word_len b = 4 ∧ br_swap b = true →
  (L <= length B)%nat → Z.of_nat L mod br_word_len b = 0 →
  let B' := if br_swap b then br_swap_words_32 (Z.to_nat (Z.of_nat L / 4)) B else B in
  unwire b (take L B') = take L B ∧ length (take L B') = L ∧ length B' = length B.
Proof.
  intros Hwl HL Hmod. unfold unwire. destruct Hwl as [[Hw Hs]|[Hw Hs]]; rewrite Hw in Hmod; rewrite Hs.
  - cbn zeta. split_and!; [done|rewrite length_take; lia|done].
  - set (n := Z.to_nat (Z.of_nat L / 4)).
    assert (L = 4 * n)%nat as HLn by (pose proof (Z.div_mod (Z.of_nat L) 4 ltac:(lia)); lia).
    cbn zeta. assert (length (take L (br_swap_words_32 n B)) = L) as Hlen
      by (rewrite length_take, swap_length; lia).
    rewrite Hlen. fold n. split_and!; [|done|apply swap_length].
    rewrite HLn at 1. rewrite swap_take by lia. rewrite swap_swap. by rewrite <- HLn.
Qed.

(** Everything up to the parsed answer. *)
Lemma access_answered fuel t0 is_read reg vals count rp rx s :
  bridge_ok (a_br s) → clock_ok t0 → is_u32 count →
  (is_read = false → Z.of_nat (length vals) = count ∧ count <= 1) → count < 2 ^ 29 →
  Z.of_nat (S (length rp)) <= TRANS_BUF_SIZE →
  answers (a_br s) fuel t0 (request is_read reg vals count) rp rx (a_spi s) →
  wp (upd_br (λ b, set_phy_len 0 (set_trans_len 0 b)) ;;
      br_trans_tx_prepare is_read reg vals count ;;
      br_pkt_phy_tx_prepare ;; br_do_tx ;; br_do_rx_and_pkt_phy_parse fuel)
     (λ _ s', bridge_ok (a_br s') ∧ br_trans_len (a_br s') = Z.of_nat (S (length rp)) ∧
        take (S (length rp)) (trans s') = rp ++ [rx])
     (λ _ _, False) s.
Proof.
  intros Hok Hck Hcnt Hvals Hlim Hsize Hans.
  unfold upd_br. wsteps.
  set (s0 := AvSt (set_phy_len 0 (set_trans_len 0 (a_br s))) (a_spi s)).
  eapply wp_mono; [apply (trans_tx_prepare_spec is_read reg vals count s0); try done|
    |intros e ? (_ & Hrd & Hbig); destruct (Hvals Hrd); lia].
  { intros Hr. by destruct (Hvals Hr). }
  intros ? s1 (T & -> & HT & Htake). set (req := request is_read reg vals count) in *.
  destruct (exists_last (l := req)) as (p & x & Hreq); [done|].
  assert (length req = S (length p)) as Hrl by (rewrite Hreq, length_app; cbn; lia).
  assert (length req <= 12)%nat as Hr12.
  { subst req. unfold request. rewrite !length_app. destruct is_read; [cbn; lia|].
    destruct (Hvals eq_refl). rewrite le32s_length. cbn [length be16 be32]. lia. }
  destruct Hok as (Hok1 & Hok2 & Hok3).
  wsteps. eapply wp_mono; [apply (tx_prepare_spec p x); cbn [a_br with_trans_len set_trans_len set_trans_buf br_trans_buf br_trans_len]|
    |done].
  { split_and!; [|done|done]. cbn. rewrite HT. exact Hok1. }
  { by rewrite Hrl. }
  { lia. }
  { by rewrite <- Hrl, <- Hreq. }
  intros ? s2 (B & L & -> & HB & HL & Hmod & Hcar). cbn in HB, Hmod.
  unfold br_do_tx, swap_phy, upd_br. wsteps. cbn [a_br with_phy_len with_trans_len set_phy_len set_phy_buf br_phy_len br_swap br_phy_buf].
  change (br_swap _) with (br_swap (a_br s)).
  destruct (unwire_swapped (a_br s) B L Hok3 HL Hmod) as (Hun & Hout & HB').
  set (B' := if br_swap (a_br s) then br_swap_words_32 (Z.to_nat (Z.of_nat L / 4)) B else B) in *.
  destruct (Hans (take L B') p x Hreq) as (d1 & t & d2 & ws & Hwr & Hj & Ht & Hdel & Haw & Hf);
    [by rewrite Hun|by rewrite Hout|].
  match goal with |- context [if br_swap (a_br s) then ?b1 else ?b2] =>
    assert ((if br_swap (a_br s) then b1 else b2) =
      Bridge (br_word_len (a_br s)) (Z.of_nat (length req)) (Z.of_nat L) T B' (br_swap (a_br s))) as ->
      by (subst B' req; clear; destruct s as [[? ? ? ? ? sw] ?]; cbn; destruct sw; reflexivity) end.
  apply wp_spi_op. cbn [a_br a_spi br_phy_len br_phy_buf with_phy_len with_trans_len s0]. rewrite Nat2Z.id, Hwr. cbn [fst snd].
  wsteps; [intros _|done].
  eapply wp_mono; [eapply (rx_payload_spec rp rx fuel t0 t d2 ws); try done| |done].
  { split_and!; [cbn; rewrite HT; exact Hok1|cbn; rewrite HB', HB; exact Hok2|exact Hok3]. }
  done.
Qed.

(** ** Register values *)
Lemma le32_roundtrip v : is_u32 v → le32_to_cpu (le32 v) = v.
Proof.
  intros Hv. unfold le32_to_cpu, le32, u8.
  rewrite !Z.shiftr_div_pow2, !Z.shiftl_mul_pow2 by lia. unfold is_u32 in Hv.
  pose proof (Z.div_mod v (2 ^ 8) ltac:(lia)).
  pose proof (Z.div_mod (v / 2 ^ 8) (2 ^ 8) ltac:(lia)) as H2. rewrite Z.div_div in H2 by lia.
  pose proof (Z.div_mod (v / 2 ^ 16) (2 ^ 8) ltac:(lia)) as H3. rewrite Z.div_div in H3 by lia.
  change (2 ^ 8 * 2 ^ 8) with (2 ^ 16) in H2. change (2 ^ 16 * 2 ^ 8) with (2 ^ 24) in H3.
  assert (v / 2 ^ 24 < 2 ^ 8) by (apply Z.div_lt_upper_bound; lia).
  pose proof (Z.div_pos v (2 ^ 24) ltac:(lia) ltac:(lia)).
  rewrite (Z.mod_small (v / 2 ^ 24)) by lia. lia.
Qed.

Lemma rd_values_spec vals i s :
  Forall is_u32 vals → take (4 * length vals) (drop i (trans s)) = mjoin (le32 <$> vals) →
  wp (rd_values (Z.of_nat i) (length vals)) (λ r s', r = vals ∧ s' = s) (λ _ _, False) s.
Proof.
  revert i. induction vals as [|v vals IH]; intros i Hv Htake; cbn [length rd_values]; [by wsteps|].
  inversion Hv as [|? ? Hv1 Hvs]; subst.
  change (mjoin (le32 <$> (v :: vals))) with (le32 v ++ mjoin (le32 <$> vals)) in Htake.
  assert (∀ j, (j < 4)%nat → load (trans s) (Z.of_nat (i + j)) = le32 v !! j) as Hload.
  { intros j Hj. destruct (le32 v !! j) as [b|] eqn:Hb.
    - apply load_nat. rewrite <- lookup_drop. 
      assert ((le32 v ++ mjoin (le32 <$> vals)) !! j = Some b) as Hb' by by apply lookup_app_l_Some.
      rewrite <- Htake in Hb'. by apply lookup_take_Some in Hb' as [? _].
    - apply lookup_ge_None in Hb. cbn in Hb. lia. }
  wsteps.
  pose proof (Hload 0%nat ltac:(lia)) as H0. pose proof (Hload 1%nat ltac:(lia)) as H1.
  pose proof (Hload 2%nat ltac:(lia)) as H2. pose proof (Hload 3%nat ltac:(lia)) as H3.
  rewrite Nat2Z.inj_add in H0, H1, H2, H3. rewrite Z.add_0_r in H0.
  change (Z.of_nat 1) with 1 in H1. change (Z.of_nat 2) with 2 in H2. change (Z.of_nat 3) with 3 in H3.
  rewrite H0, H1, H2, H3. cbn [le32 lookup list_lookup access]. wsteps.
  replace (Z.of_nat i + SPI_AVMM_VAL_SIZE) with (Z.of_nat (i + 4)) by (unfold SPI_AVMM_VAL_SIZE; lia).
  eapply wp_mono; [apply IH; [done|]| |done].
  - rewrite <- drop_drop. apply (f_equal (drop 4)) in Htake. rewrite skipn_firstn_comm in Htake.
    replace (4 * length (v :: vals) - 4)%nat with (4 * length vals)%nat in Htake by (cbn [length]; lia).
    rewrite Htake. done.
  - intros r s' [-> ->]. wsteps. split; [|done]. f_equal.
    apply (le32_roundtrip v Hv1).
Qed.

(** C32: from every stream that carries a packet of at most the size of the
    transaction buffer, whatever bytes other than a start marker precede it,
    wherever idle bytes are, and however it is cut into words, the receiver
    returns the payload of the packet and its length, if the words arrive in time.
    It needs no more iterations than there are words, and writes nothing outside
    its buffers. *)
Theorem rx_recovers_payload p x fuel t0 t d ws s :
  bridge_ok (a_br s) → clock_ok t0 → Z.of_nat (S (length p)) <= TRANS_BUF_SIZE →
  spi_jiffies (a_spi s) = (t, d) → in_time t0 t →
  delivers (br_word_len (a_br s)) t0 ws d →
  awaits p x (mjoin (wire (a_br s) <$> ws)) → (length ws <= fuel)%nat →
  wp (br_do_rx_and_pkt_phy_parse fuel)
     (λ _ s', bridge_ok (a_br s') ∧ br_trans_len (a_br s') = Z.of_nat (S (length p)) ∧
        take (S (length p)) (trans s') = p ++ [x])
     (λ _ _, False) s.
Proof. apply rx_payload_spec. Qed.

(** The transaction layer puts the header and, for a write, the values at the
    start of the transaction buffer, for up to 254 values; with more it would
    fail, and write nothing but the header. *)
Lemma trans_tx_prepare_request is_read reg vals count s :
  bridge_ok (a_br s) → is_u32 count → (is_read = false → Z.of_nat (length vals) = count) →
  count < 2 ^ 29 →
  wp (br_trans_tx_prepare is_read reg vals count)
     (λ _ s', ∃ T, s' = with_trans_len T (Z.of_nat (length (request is_read reg vals count))) s ∧
        length T = length (trans s) ∧
        take (length (request is_read reg vals count)) T = request is_read reg vals count)
     (λ e _, e = - ENOMEM ∧ is_read = false ∧ 254 < count) s.
Proof. apply trans_tx_prepare_spec. Qed.

Lemma access_assoc {A} fuel is_read reg vals count (k : M avst A) Q E s :
  wp ((upd_br (λ b, set_phy_len 0 (set_trans_len 0 b)) ;;
       br_trans_tx_prepare is_read reg vals count ;;
       br_pkt_phy_tx_prepare ;; br_do_tx ;; br_do_rx_and_pkt_phy_parse fuel) ;; k) Q E s →
  wp (upd_br (λ b, set_phy_len 0 (set_trans_len 0 b)) ;;
       br_trans_tx_prepare is_read reg vals count ;;
       br_pkt_phy_tx_prepare ;; br_do_tx ;; br_do_rx_and_pkt_phy_parse fuel ;; k) Q E s.
Proof.
  unfold wpg, mbind, M_bind.
  destruct (upd_br _ s) as [[[[]|e] s1]| |]; try done.
  destruct (br_trans_tx_prepare _ _ _ _ s1) as [[[[]|e] s2]| |]; try done.
  destruct (br_pkt_phy_tx_prepare s2) as [[[[]|e] s3]| |]; try done.
  by destruct (br_do_tx s3) as [[[[]|e] s4]| |].
Qed.

(** C31: a register read over the bridge is correct end to end: if the slave
    answers the request for [count] registers from [reg], in whatever encoding of
    the packet the bridge chose, by a packet with the little-endian bytes of
    [vals], then the read returns exactly [vals] when there are [count] of them,
    and fails with -EFAULT when there are not; it always returns, and never
    touches memory outside the buffers of the bridge. *)
Theorem reg_read_correct fuel t0 reg count vals rp rx s :
  bridge_ok (a_br s) → clock_ok t0 → 0 <= count <= MAX_READ_CNT →
  Forall is_u32 vals → Z.of_nat (length vals) <= MAX_READ_CNT → mjoin (le32 <$> vals) = rp ++ [rx] →
  answers (a_br s) fuel t0 (request true reg [] count) rp rx (a_spi s) →
  wp (do_reg_access fuel true reg [] count)
     (λ r s', r = vals ∧ Z.of_nat (length vals) = count ∧ bridge_ok (a_br s'))
     (λ e s', e = - EFAULT ∧ Z.of_nat (length vals) ≠ count ∧ bridge_ok (a_br s')) s.
Proof.
  intros Hok Hck Hcnt Hvals Hlen Hresp Hans. unfold MAX_READ_CNT in *.
  assert (length (rp ++ [rx]) = (4 * length vals)%nat) as Hrl by (rewrite <- Hresp; apply le32s_length).
  assert (length (rp ++ [rx]) = S (length rp)) as Hrl' by (rewrite length_app; cbn; lia).
  unfold do_reg_access. apply access_assoc. wstep.
  eapply wp_mono; [eapply (access_answered fuel t0 true reg [] count rp rx); try done| |done].
  { unfold is_u32; lia. }
  { lia. }
  { change TRANS_BUF_SIZE with 1024. lia. }
  intros ? s1 (Hok1 & Htl & Htake). unfold br_rd_trans_rx_parse. wsteps.
  rewrite Htl. unfold SPI_AVMM_VAL_SIZE.
  destruct (Z.eqb_spec (count * 4) (Z.of_nat (S (length rp)))) as [Heq|Hne]; cbn [negb].
  - assert (Z.to_nat count = length vals) as -> by lia.
    change 0 with (Z.of_nat 0).
    eapply wp_mono; [apply (rd_values_spec vals 0)| |done].
    + done.
    + rewrite drop_0, Hresp, <- Htake. f_equal. lia.
    + intros r s' [-> ->]. split_and!; [done|lia|done].
  - wsteps. split_and!; [done|lia|done].
Qed.

(** The response header that acknowledges a write of one value. *)
Definition acknowledges (resp : list Z) : Prop :=
  ∃ r_code rsvd size_h size_l, resp = [r_code; rsvd; size_h; size_l] ∧
    Z.lxor r_code 0x80 = TRANS_CODE_WRITE ∧ size_h * 256 + size_l = SPI_AVMM_VAL_SIZE.

(** A register write over the bridge sends the value and succeeds exactly if
    the slave's answer is the header that acknowledges a write of four bytes;
    every other packet of up to the size of the buffer is answered with -EFAULT. *)
Lemma reg_write_correct fuel t0 reg v rp rx s :
  bridge_ok (a_br s) → clock_ok t0 → Z.of_nat (S (length rp)) <= TRANS_BUF_SIZE →
  answers (a_br s) fuel t0 (request false reg [v] 1) rp rx (a_spi s) →
  wp (do_reg_access fuel false reg [v] 1)
     (λ r s', r = [] ∧ acknowledges (rp ++ [rx]) ∧ bridge_ok (a_br s'))
     (λ e s', e = - EFAULT ∧ ¬ acknowledges (rp ++ [rx]) ∧ bridge_ok (a_br s')) s.
Proof.
  intros Hok Hck Hsize Hans.
  assert (length (rp ++ [rx]) = S (length rp)) as Hrl by (rewrite length_app; cbn; lia).
  unfold do_reg_access. apply access_assoc. wstep.
  eapply wp_mono; [eapply (access_answered fuel t0 false reg [v] 1 rp rx); try done| |done].
  intros ? s1 (Hok1 & Htl & Htake). unfold br_wr_trans_rx_parse. wsteps.
  rewrite Htl, <- Hrl in *. clear Hrl. unfold TRANS_RESP_HD_SIZE.
  destruct (Z.eqb_spec (Z.of_nat (length (rp ++ [rx]))) 4) as [Heq|Hne]; cbn [negb].
  2: { wsteps. split_and!; [done| |done]. intros (r0 & r1 & r2 & r3 & Hr & _). rewrite Hr in Hne. done. }
  destruct (rp ++ [rx]) as [|b0 [|b1 [|b2 [|b3 [|]]]]] eqn:Hr; cbn [length] in Heq; try lia.
  cbn [length] in Htake.
  assert (∀ j y, [b0; b1; b2; b3] !! j = Some y → load (trans s1) (Z.of_nat j) = Some y) as Hload.
  { intros j y Hy. apply load_nat. rewrite <- Htake in Hy. by apply lookup_take_Some in Hy as [? _]. }
  pose proof (Hload 0%nat b0 eq_refl) as H0. pose proof (Hload 2%nat b2 eq_refl) as H2.
  pose proof (Hload 3%nat b3 eq_refl) as H3. 
  change (Z.of_nat 0) with 0 in H0. change (Z.of_nat 2) with 2 in H2. change (Z.of_nat 3) with 3 in H3.
  rewrite H0, H2, H3. cbn [access]. wsteps. change (1 * SPI_AVMM_VAL_SIZE) with 4.
  assert (acknowledges [b0; b1; b2; b3] ↔ Z.lxor b0 0x80 = 0 ∧ b2 * 256 + b3 = 4) as Hack.
  { split; [by intros (a' & b' & c' & d' & [= -> -> -> ->] & ? & ?)|].
    intros [? ?]. by exists b0, b1, b2, b3. }
  unfold SPI_AVMM_VAL_SIZE, TRANS_CODE_WRITE.
  destruct (Z.eqb_spec (b2 * 256 + b3) 4) as [Hv|Hv]; [rewrite Hv|].
  - cbn [Z.eqb Pos.eqb negb orb andb]. change (4 <? 4) with false. cbn [andb]. rewrite orb_false_r.
    destruct (Z.eqb_spec (Z.lxor b0 0x80) 0); cbn [negb]; wsteps; rewrite Hack; tauto.
  - cbn [negb]. rewrite orb_true_r. wsteps. rewrite Hack. tauto.
Qed.
End Access.
