(* ===== verification/SpiAvmmLimits.v ===== *)
(** * Limits of the receiver

    With words of one byte the receiver stays inside its buffers on every slave,
    a silent slave makes it time out; with words of four bytes a slave that sends
    too much makes it write behind the transaction buffer, and a slave that keeps
    starting packets keeps it in the loop. *)
From S2P Require Import Prelude SpiAvmm SpiAvmmTx SpiAvmmRx SpiAvmmAccess.

Section Limits.
Context `{Spi}.
Implicit Types s : avst.
Abbreviation phy s := (br_phy_buf (a_br s)).
Abbreviation trans s := (br_trans_buf (a_br s)).

(** ** Words of one byte *)
Definition tb_ok (r : rx_vars) (lim : Z) : Prop :=
  match rx_tb r with None => True | Some i => 0 <= i < lim end.

Lemma rx_byte_in_bounds c r s :
  bridge_ok (a_br s) → tb_ok r TRANS_BUF_SIZE →
  wp (rx_byte c r)
     (λ res s', bridge_ok (a_br s') ∧ br_word_len (a_br s') = br_word_len (a_br s) ∧
        a_spi s' = a_spi s ∧ match res with Some r' => tb_ok r' (TRANS_BUF_SIZE + 1) | None => True end)
     (λ e s', e = - EFAULT ∧ bridge_ok (a_br s')) s.
Proof.
  intros Hok Htb. unfold rx_byte.
  assert (∀ r', tb_ok r' TRANS_BUF_SIZE → tb_ok r' (TRANS_BUF_SIZE + 1)) as Hmono.
  { unfold tb_ok. intros [[i|] ? ? ? ?]; cbn; lia. }
  assert (0 < TRANS_BUF_SIZE) as Hpos by done.
  destruct (bool_decide_reflect (rx_tb r = None)) as [Hn|Hn]; cbn [andb].
  - destruct (Z.eqb_spec c PKT_SOP) as [->|Hc]; cbn [negb]; [|wsteps; auto].
    destruct r as [tb e ch esc v]. cbn in Hn. subst tb.
    change (PKT_SOP =? PHY_IDLE) with false. cbv iota.
    destruct ch; [by wsteps|]. wsteps. split_and!; try done.
  - destruct (c =? PHY_IDLE); [wsteps; auto|]. destruct r as [[i|] e ch esc v]; [|done]. clear Hn.
    cbn in Htb. change TRANS_BUF_SIZE with 1024 in *.
    destruct ch. { destruct (negb _); wsteps; split_and!; try done; cbn; lia. }
    destruct (c =? PKT_SOP). { wsteps; split_and!; try done; cbn; lia. }
    destruct (c =? PKT_EOP). { destruct (_ || _); wsteps; split_and!; try done; cbn; lia. }
    destruct (c =? PKT_CHANNEL). { destruct (_ || _); wsteps; split_and!; try done; cbn; lia. }
    destruct (_ || _). { destruct esc; wsteps; split_and!; try done; cbn; lia. }
    cbn [access]. wsteps.
    destruct Hok as (H1 & H2 & H3). change TRANS_BUF_SIZE with 1024 in H1.
    replace i with (Z.of_nat (Z.to_nat i)) at 1 by lia.
    eapply wp_eq; [apply put_trans_eq; cbn [length]; lia|].
    assert (∀ n, bridge_ok (set_trans_len n (a_br (with_trans (splice (trans s) (Z.to_nat i)
      [if esc then Z.lxor c 32 else c]) s)))) as Hok'.
    { intros n. split_and!; [|done|done]. cbn -[Z.of_nat]. rewrite splice_length by (cbn; lia). done. }
    destruct e; unfold upd_br; wsteps; split_and!; try done; try (cbn; lia); [apply Hok'|].
    apply (Hok' (br_trans_len (a_br s))).
Qed.

(** Reads of one byte give one byte. *)
Definition byte_reads : Prop := ∀ d ret w d', spi_read 1 d = ((ret, w), d') → length w = 1%nat.

(** A bridge with words of one byte never reads or writes outside its two
    buffers while it receives, whatever the slave sends and however long: the
    parser returns, fails with an error code, or still waits for the slave. *)
Lemma rx_byte_words_in_bounds fuel s :
  bridge_ok (a_br s) → br_word_len (a_br s) = 1 → byte_reads →
  wpg False True (br_do_rx_and_pkt_phy_parse fuel)
     (λ _ s', bridge_ok (a_br s')) (λ _ s', bridge_ok (a_br s')) s.
Proof.
  intros Hok Hw Hread. unfold br_do_rx_and_pkt_phy_parse. wsteps. apply wp_spi_op.
  assert (∀ r lt to s, bridge_ok (a_br s) → br_word_len (a_br s) = 1 → tb_ok r (TRANS_BUF_SIZE + 1) →
    wpg False True (rx_loop fuel r lt to) (λ _ s', bridge_ok (a_br s')) (λ _ s', bridge_ok (a_br s')) s)
    as Hloop; [|by apply Hloop].
  clear s Hok Hw. induction fuel as [|fuel IH]; intros r lt to s Hok Hw Htb; cbn [rx_loop];
    (destruct (tb_below (rx_tb r)) eqn:Hb; cbn [negb]; [|by wsteps]); [done|].
  wsteps. apply wp_spi_op. rewrite Hw.
  destruct (spi_read 1 (a_spi s)) as [[ret w] d1] eqn:Hrd. cbn [fst snd].
  pose proof (Hread _ _ _ _ Hrd) as Hlen. wsteps; [intros _|intros _; done].
  apply wp_assoc. wstep.
  eapply wp_mono; [apply wp_loosen; rewrite <- Hw; apply (load_word w (AvSt (a_br s) d1)); cbn; [done|lia]| |done].
  intros ? s1 [[B [-> HB]] _]. change (Z.to_nat 1) with 1%nat. cbn [rx_word].
  assert (bridge_ok (a_br (with_phy B (AvSt (a_br s) d1)))) as Hok1.
  { destruct Hok as (? & Hp & ?). split_and!; [done|cbn; rewrite HB; exact Hp|done]. }
  wsteps. cbn [rx_tb rx_eop_found].
  apply wp_access; [intros c _|].
  2: { intros Hnone. destruct Hok1 as (_ & Hp & _). change PHY_BUF_SIZE with 28 in Hp.
       cbn in Hnone, Hp. apply lookup_ge_None in Hnone. lia. }
  wsteps. eapply wp_mono; [apply wp_loosen, rx_byte_in_bounds; [done|]| |by intros e s' [_ ?]].
  { unfold tb_ok in *. cbn [rx_tb]. destruct (rx_tb r) as [i|]; [|done]. cbn in Hb. lia. }
  intros [r'|] s2 (Hok2 & Hw2 & Hspi2 & Hr'); wsteps; [|done].
  assert (∀ d lt' to', wpg False True (rx_loop fuel r' lt' to') (λ _ s', bridge_ok (a_br s'))
    (λ _ s', bridge_ok (a_br s')) (AvSt (a_br s2) d)) as Hgo.
  { intros d lt' to'. apply IH; [done|cbn; rewrite Hw2; exact Hw|done]. }
  destruct (rx_valid_word r'); [wsteps; apply wp_spi_op, Hgo|].
  destruct lt; [by wsteps|]. wsteps. apply wp_spi_op, Hgo.
Qed.

(** ** A silent slave *)

(** The device, from [d] to the last state, gives words of idle bytes, after each of
    which the clock is read: [ts] are the readings, about which nothing is assumed. *)
Inductive silent (wl : Z) : spi → list Z → spi → Prop :=
| silent_nil d : silent wl d [] d
| silent_cons d w d1 now d2 ts d' :
    Z.of_nat (length w) = wl → Forall (eq PHY_IDLE) w → spi_read wl d = ((0, w), d1) →
    spi_jiffies d1 = (now, d2) → silent wl d2 ts d' → silent wl d (now :: ts) d'.

Lemma rx_word_idle n i v s :
  (∀ j, (j < n)%nat → phy s !! (i + j)%nat = Some PHY_IDLE) →
  wp (rx_word (Z.of_nat i) n (Rx None false false false v))
     (λ res s', res = Some (Rx None false false false v) ∧ s' = s) (λ _ _, False) s.
Proof.
  revert i. induction n as [|n IH]; intros i Hi; cbn [rx_word]; [by wsteps|].
  pose proof (Hi 0%nat ltac:(lia)) as H0. rewrite Nat.add_0_r in H0.
  wsteps. rewrite (load_nat _ _ _ H0). cbn [access]. wsteps.
  change (rx_byte PHY_IDLE (Rx None false false false v))
    with (mret (Some (Rx None false false false v)) : M avst (option rx_vars)). wsteps.
  replace (Z.of_nat i + 1) with (Z.of_nat (S i)) by lia. apply IH.
  intros j Hj. replace (S i + j)%nat with (i + S j)%nat by lia. apply Hi. lia.
Qed.

Lemma idle_wire b w : Forall (eq PHY_IDLE) w → Forall (eq PHY_IDLE) (wire b w).
Proof.
  intros Hw. unfold wire. destruct (br_swap b); [|done].
  destruct w as [|b0 [|b1 [|b2 [|b3 w]]]]; try done. cbn.
  apply Forall_cons_1 in Hw as [? Hw]. apply Forall_cons_1 in Hw as [? Hw].
  apply Forall_cons_1 in Hw as [? Hw]. apply Forall_cons_1 in Hw as [? Hw]. by repeat constructor.
Qed.
Lemma wire_length b w : length (wire b w) = length w.
Proof. unfold wire. destruct (br_swap b); [apply swap_word_length|done]. Qed.

(** One word of idle bytes: the last try, or a look at the clock. *)
Lemma rx_loop_idle fuel poll lt v s w d1 Q E :
  bridge_ok (a_br s) → Z.of_nat (length w) = br_word_len (a_br s) → Forall (eq PHY_IDLE) w →
  spi_read (br_word_len (a_br s)) (a_spi s) = ((0, w), d1) →
  (∀ b, bridge_ok b → br_word_len b = br_word_len (a_br s) →
     if lt : bool then E (- ETIMEDOUT) (AvSt b d1)
     else wp (rx_loop fuel (Rx None false false false false) (time_after (spi_jiffies d1).1 poll) poll) Q E
       (AvSt b (spi_jiffies d1).2)) →
  wp (rx_loop (S fuel) (Rx None false false false v) lt poll) Q E s.
Proof.
  intros Hok Hw Hidle Hrd HQ. cbn [rx_loop rx_tb tb_below negb].
  wsteps. apply wp_spi_op. rewrite Hrd. cbn [fst snd]. wsteps; [intros _|done].
  apply wp_assoc. wstep.
  eapply wp_mono; [apply (load_word w (AvSt (a_br s) d1)); done| |done].
  intros ? s1 [[B [-> HB]] Hbytes]. cbn [a_br with_phy] in Hbytes. wsteps.
  cbn [rx_eop_found rx_channel_found rx_esc_found rx_tb].
  change 0 with (Z.of_nat 0).
  eapply wp_mono; [apply (rx_word_idle _ 0)| |done].
  { intros j Hjl. destruct (lookup_lt_is_Some_2 (wire (a_br s) w) j) as [c Hc].
    - rewrite wire_length. cbn in Hjl. lia.
    - pose proof (Hbytes _ _ Hc) as Hb. cbn in Hb |- *. rewrite Hb. f_equal. symmetry.
      exact (Forall_lookup_1 _ _ _ _ (idle_wire (a_br s) w Hidle) Hc). }
  intros res s2 [-> ->]. cbn [rx_valid_word].
  assert (bridge_ok (a_br (with_phy B (AvSt (a_br s) d1)))) as Hok'.
  { destruct Hok as (? & Hp & ?). split_and!; [done|cbn; rewrite HB; exact Hp|done]. }
  specialize (HQ _ Hok' eq_refl). destruct lt; [wsteps; exact HQ|].
  wsteps. apply wp_spi_op. cbn [a_spi with_phy].
  destruct (time_after _ _); exact HQ.
Qed.

Lemma rx_loop_silent early late poll w d d' d1 fuel v s :
  bridge_ok (a_br s) → silent (br_word_len (a_br s)) d (early ++ [late]) d' → a_spi s = d → (length early + 2 <= fuel)%nat →
  Forall (λ now, time_after now poll = false) early → time_after late poll = true →
  Z.of_nat (length w) = br_word_len (a_br s) → Forall (eq PHY_IDLE) w → spi_read (br_word_len (a_br s)) d' = ((0, w), d1) →
  wp (rx_loop fuel (Rx None false false false v) false poll)
     (λ _ _, False) (λ e s', e = - ETIMEDOUT ∧ a_spi s' = d1) s.
Proof.
  intros Hok Hsil Hd Hf Hearly Hlate Hw Hidle Hrd. revert fuel d v s Hok Hsil Hd Hf Hw Hrd.
  induction Hearly as [|now early Hnow Hearly IH]; intros fuel d v s Hok Hsil Hd Hf Hw Hrd; cbn [app length] in *.
  - destruct fuel as [|[|fuel]]; [lia..|]. inversion Hsil as [|? w0 d0 ? d2 ? ? Hw0 Hi0 Hr0 Hj Hs0]; subst.
    inversion Hs0; subst. apply (rx_loop_idle _ _ _ _ _ w0 d0); [done..|]. intros b Hb Hwl. rewrite Hj. cbn [fst snd]. rewrite Hlate.
    apply (rx_loop_idle _ _ _ _ _ w d1); cbn [a_br a_spi]; rewrite ?Hwl; [done..|]. by intros b' _ _.
  - destruct fuel as [|fuel]; [lia|]. inversion Hsil as [|? w0 d0 ? d2 ? ? Hw0 Hi0 Hr0 Hj Hs0]; subst.
    apply (rx_loop_idle _ _ _ _ _ w0 d0); [done..|]. intros b Hb Hwl. rewrite Hj. cbn [fst snd]. rewrite Hnow.
    apply (IH fuel d2); cbn [a_br a_spi]; rewrite ?Hwl; first [done|lia].
Qed.

(** C40: when the slave stays silent, the receiver gives up with -ETIMEDOUT as soon as
    the clock has passed the deadline and one more word was silent, and not before.
    The clock is read at the start, which sets the deadline, and after each word of
    idle bytes, and may advance in any way, or not at all, between two readings; if
    [late] is the first reading after the deadline, the receiver has read one word
    for each of the readings up to it, and then the one last word, and no more. *)
Theorem rx_silent_times_out fuel t d early late d' w d1 s :
  bridge_ok (a_br s) → spi_jiffies (a_spi s) = (t, d) →
  let wl := br_word_len (a_br s) in let deadline := u64 (t + SPI_AVMM_XFER_TIMEOUT) in
  silent wl d (early ++ [late]) d' →
  Forall (λ now, time_after now deadline = false) early → time_after late deadline = true →
  Z.of_nat (length w) = wl → Forall (eq PHY_IDLE) w → spi_read wl d' = ((0, w), d1) → (length early + 2 <= fuel)%nat →
  wp (br_do_rx_and_pkt_phy_parse fuel) (λ _ _, False) (λ e s', e = - ETIMEDOUT ∧ a_spi s' = d1) s.
Proof.
  intros Hok Hj wl deadline Hsil Hearly Hlate Hw Hi Hr Hf. unfold br_do_rx_and_pkt_phy_parse. wsteps.
  apply wp_spi_op. rewrite Hj. cbn [fst snd]. by eapply rx_loop_silent.
Qed.
End Limits.

(** ** A scripted slave

    A slave that accepts every transfer and answers with given words, and what
    the theorems about the bridge say of it; and the slaves the receiver does not
    cope with. *)

(** The state is the words that are left and the clock, which advances with each
    reading; behind the words the slave is idle. *)
Definition scripted : Spi := {|
  spi := list (list Z) * Z;
  spi_write _ d := (0, d);
  spi_read n d := match d with
                  | (w :: ws, t) => ((0, resize (Z.to_nat n) PHY_IDLE w), (ws, t))
                  | ([], t) => ((0, replicate (Z.to_nat n) PHY_IDLE), ([], t))
                  end;
  spi_jiffies d := (snd d, (fst d, snd d + 1));
  SPI_AVMM_XFER_TIMEOUT := 50;
|}.

Lemma scripted_delivers wl ws t :
  Forall (λ w, Z.of_nat (length w) = wl) ws → 0 <= t → t + Z.of_nat (length ws) <= 50 →
  @delivers scripted wl 0 ws (ws, t).
Proof.
  intros Hws. revert t. induction Hws as [|w ws Hw Hws IH]; intros t Ht Hl; [constructor|].
  cbn [length] in Hl. eapply (@delivers_cons scripted wl 0 w ws (w :: ws, t) (ws, t) (ws, t + 1) t); try done.
  - cbn. do 2 f_equal. rewrite <- Hw, Nat2Z.id. apply resize_all.
  - split; cbn; lia.
  - apply IH; lia.
Qed.
Lemma scripted_clock : @clock_ok scripted 0.
Proof. split_and!; cbn; lia. Qed.

Definition bridge (bits : Z) : spi_avmm_bridge :=
  match spi_avmm_bridge_ctx_gen true (Z.eqb bits) true with inl b => b | inr _ => Bridge 0 0 0 [] [] false end.
Lemma bridge_32_ok : bridge_ok (bridge 32).
Proof. split_and!; try (vm_compute; reflexivity). by right. Qed.
Lemma bridge_8_ok : bridge_ok (bridge 8).
Proof. split_and!; try (vm_compute; reflexivity). by left. Qed.

(** A register with the value 0x11223344, read in words of 32 bits. *)
Definition value_words : list (list Z) := [[0x44; 0x00; 0x7c; 0x7a]; [0x11; 0x7b; 0x22; 0x33]].
Definition value_state : @avst scripted := @AvSt scripted (bridge 32) (value_words, 0).

Lemma value_awaits : awaits [0x44; 0x33; 0x22] 0x11 (mjoin (wire (bridge 32) <$> value_words)).
Proof.
  change (mjoin _) with [0x7a; 0x7c; 0; 0x44; 0x33; 0x22; 0x7b; 0x11].
  apply awaits_start. repeat (apply carries_byte; [discriminate|]). apply carries_done.
Qed.
Lemma value_delivers : @delivers scripted 4 0 value_words (value_words, 1).
Proof. apply scripted_delivers; [by repeat constructor|lia|cbn; lia]. Qed.

Lemma reg_read_correct_witness :
  wp (@do_reg_access scripted 2 true 0x400 [] 1)
     (λ r s', r = [0x11223344] ∧ Z.of_nat (length [0x11223344]) = 1 ∧ bridge_ok (a_br s'))
     (λ e s', e = - EFAULT ∧ Z.of_nat (length [0x11223344]) ≠ 1 ∧ bridge_ok (a_br s')) value_state.
Proof.
  apply (@reg_read_correct scripted 2 0 0x400 1 [0x11223344] [0x44; 0x33; 0x22] 0x11).
  - apply bridge_32_ok.
  - apply scripted_clock.
  - unfold MAX_READ_CNT. lia.
  - repeat constructor; lia.
  - vm_compute. discriminate.
  - reflexivity.
  - intros out p x _ _ _. exists (value_words, 0), 0, (value_words, 1), value_words.
    split_and!; try done; try apply value_delivers; try apply value_awaits; cbn; lia.
Defined.
Example value_is_read :
  match @do_reg_access scripted 2 true 0x400 [] 1 value_state with Done (Val l, _) => l | _ => [] end = [0x11223344].
Proof. vm_compute. reflexivity. Qed.

(** An acknowledged write in words of 8 bits. *)
Definition ack_words : list (list Z) :=
  [[0x4a]; [0x7a]; [0x7c]; [0x00]; [0x80]; [0x00]; [0x00]; [0x7b]; [0x4a]; [0x04]].
Definition ack_state : @avst scripted := @AvSt scripted (bridge 8) (ack_words, 0).
Lemma ack_awaits : awaits [0x80; 0x00; 0x00] 0x04 (mjoin (wire (bridge 8) <$> ack_words)).
Proof.
  change (mjoin _) with [0x4a; 0x7a; 0x7c; 0; 0x80; 0; 0; 0x7b; 0x4a; 0x04].
  apply awaits_skip; [discriminate|]. apply awaits_start.
  repeat first [apply carries_done | apply carries_idle | apply carries_byte; [discriminate|]].
Qed.
Lemma ack_delivers : @delivers scripted 1 0 ack_words (ack_words, 1).
Proof. apply scripted_delivers; [by repeat constructor|lia|cbn; lia]. Qed.

Lemma reg_write_correct_witness :
  wp (@do_reg_access scripted 10 false 0x400 [0x7a4d0000] 1)
     (λ r s', r = [] ∧ acknowledges [0x80; 0x00; 0x00; 0x04] ∧ bridge_ok (a_br s'))
     (λ e s', e = - EFAULT ∧ ¬ acknowledges [0x80; 0x00; 0x00; 0x04] ∧ bridge_ok (a_br s')) ack_state.
Proof.
  apply (@reg_write_correct scripted 10 0 0x400 0x7a4d0000 [0x80; 0x00; 0x00] 0x04).
  - apply bridge_8_ok.
  - apply scripted_clock.
  - vm_compute. discriminate.
  - intros out p x _ _ _. exists (ack_words, 0), 0, (ack_words, 1), ack_words.
    split_and!; try done; try apply ack_delivers; try apply ack_awaits; cbn; lia.
Defined.

Lemma rx_recovers_payload_witness :
  wp (@br_do_rx_and_pkt_phy_parse scripted 10)
     (λ _ s', bridge_ok (a_br s') ∧ br_trans_len (a_br s') = 4 ∧
        take 4 (br_trans_buf (a_br s')) = [0x80; 0x00; 0x00; 0x04])
     (λ _ _, False) ack_state.
Proof.
  apply (@rx_recovers_payload scripted [0x80; 0x00; 0x00] 0x04 10 0 0 (ack_words, 1) ack_words).
  - apply bridge_8_ok.
  - apply scripted_clock.
  - vm_compute. discriminate.
  - reflexivity.
  - split; cbn; lia.
  - apply ack_delivers.
  - apply ack_awaits.
  - cbn. lia.
Defined.

(** A transaction in the buffer. *)
Definition prepared : @avst scripted :=
  match @br_trans_tx_prepare scripted true 0x7a00 [] 1 (@AvSt scripted (bridge 32) ([], 0)) with
  | Done (_, s) => s
  | _ => ack_state
  end.
Definition prepared_bytes : list Z := [0x10; 0; 0; 4; 0; 0; 0x7a].

Lemma tx_prepare_carries_packet_witness :
  wp (@br_pkt_phy_tx_prepare scripted)
     (λ _ s', ∃ B (L : nat), s' = with_phy_len B (Z.of_nat L) prepared ∧
        length B = length (br_phy_buf (a_br prepared)) ∧
        (L <= length B)%nat ∧ Z.of_nat L mod br_word_len (a_br prepared) = 0 ∧
        carries (packet prepared_bytes 0) (take L B))
     (λ _ _, False) prepared.
Proof.
  apply (@tx_prepare_carries_packet scripted prepared_bytes 0 prepared).
  - split_and!; try (vm_compute; reflexivity). by right.
  - vm_compute. reflexivity.
  - cbn. lia.
  - vm_compute. reflexivity.
Defined.

Lemma trans_tx_prepare_request_witness :
  wp (@br_trans_tx_prepare scripted false 0x400 [7] 1)
     (λ _ s', ∃ T, s' = with_trans_len T (Z.of_nat (length (request false 0x400 [7] 1))) ack_state ∧
        length T = length (br_trans_buf (a_br ack_state)) ∧
        take (length (request false 0x400 [7] 1)) T = request false 0x400 [7] 1)
     (λ e _, e = - ENOMEM ∧ false = false ∧ 254 < 1) ack_state.
Proof.
  apply (@trans_tx_prepare_request scripted false 0x400 [7] 1 ack_state).
  - apply bridge_8_ok.
  - unfold is_u32. lia.
  - reflexivity.
  - lia.
Defined.

Lemma rx_byte_words_in_bounds_witness :
  wpg False True (@br_do_rx_and_pkt_phy_parse scripted 10)
     (λ _ s', bridge_ok (a_br s')) (λ _ s', bridge_ok (a_br s')) (@AvSt scripted (bridge 8) ([], 0)).
Proof.
  apply (@rx_byte_words_in_bounds scripted 10).
  - apply bridge_8_ok.
  - reflexivity.
  - intros [[|v ws] t] ret w d' Hr; injection Hr as <- <- <-; [done|apply length_resize].
Defined.

Lemma scripted_silent wl n t :
  0 <= wl → @silent scripted wl ([], t) (seqZ t (Z.of_nat n)) ([], t + Z.of_nat n).
Proof.
  intros Hwl. revert t. induction n as [|n IH]; intros t; [rewrite Z.add_0_r; constructor|].
  rewrite seqZ_cons by lia. replace (Z.pred (Z.of_nat (S n))) with (Z.of_nat n) by lia.
  eapply (@silent_cons scripted wl ([], t) (replicate (Z.to_nat wl) PHY_IDLE) ([], t) t ([], t + 1)); [|by apply Forall_replicate|done|done|].
  - rewrite length_replicate. lia.
  - replace (t + Z.of_nat (S n)) with (Z.succ t + Z.of_nat n) by lia. apply IH.
Qed.

(** The clock is at 0 in the beginning and at 51 after the 51st word. *)
Lemma rx_silent_times_out_witness :
  wp (@br_do_rx_and_pkt_phy_parse scripted 52) (λ _ _, False) (λ e s', e = - ETIMEDOUT ∧ a_spi s' = ([], 52))
     (@AvSt scripted (bridge 32) ([], 0)).
Proof.
  assert (seqZ 1 50 ++ [51] = seqZ 1 51) as Hts by (vm_compute; reflexivity).
  pose proof (scripted_silent 4 51 1 ltac:(lia)) as Hs. change (Z.of_nat 51) with 51 in Hs. rewrite <- Hts in Hs.
  apply (@rx_silent_times_out scripted 52 0 ([], 1) (seqZ 1 50) 51 ([], 52) (replicate 4 PHY_IDLE)).
  - apply bridge_32_ok.
  - reflexivity.
  - exact Hs.
  - apply (bool_decide_eq_true_1 _). vm_compute. reflexivity.
  - vm_compute. reflexivity.
  - reflexivity.
  - by apply Forall_replicate.
  - reflexivity.
  - rewrite length_seqZ. lia.
Defined.
(** A clock that has stood still for three words, and is then past the deadline. *)
Definition scheduled_out : Spi := {|
  spi := list Z;
  spi_write _ d := (0, d);
  spi_read n d := ((0, replicate (Z.to_nat n) PHY_IDLE), d);
  spi_jiffies d := (default 1000 (head d), tail d);
  SPI_AVMM_XFER_TIMEOUT := 50;
|}.
Example slow_clock_times_out :
  match @br_do_rx_and_pkt_phy_parse scheduled_out 4 (@AvSt scheduled_out (bridge 32) [7; 7; 7; 58; 1000]) with
  | Done (Err e, s') => e = - ETIMEDOUT ∧ a_spi s' = [1000]
  | _ => False
  end.
Proof. vm_compute. by split. Qed.

(** ** What goes wrong *)

(** Data without an end: one byte, then four with each word. *)
Definition flood_state : @avst scripted :=
  @AvSt scripted (bridge 32) ([0x01; 0x00; 0x7c; 0x7a] :: replicate 260 [1; 1; 1; 1], 0).

(** The receiver compares the fill of the transaction buffer with its size
    only between words: with words of four bytes, a slave that sends more than
    1024 bytes makes it write up to three bytes behind the buffer. *)
Lemma rx_overruns_buffer : @br_do_rx_and_pkt_phy_parse scripted 300 flood_state = Fault.
Proof. vm_compute. reflexivity. Qed.

(** A slave that sends nothing but start markers. *)
Definition restarting : Spi := {|
  spi := unit;
  spi_write _ d := (0, d);
  spi_read n d := ((0, replicate (Z.to_nat n) PKT_SOP), d);
  spi_jiffies d := (0, d);
  SPI_AVMM_XFER_TIMEOUT := 50;
|}.
Definition restarting_state : @avst restarting :=
  @AvSt restarting (set_phy_buf (PKT_SOP :: replicate 27 0) (bridge 8)) tt.

Lemma restarting_step fuel r lt to :
  tb_below (rx_tb r) = true → rx_channel_found r = false →
  @rx_loop restarting (S fuel) r lt to restarting_state =
  @rx_loop restarting fuel (Rx (Some 0) false false false true) false 50 restarting_state.
Proof.
  intros Hb Hch. cbn [rx_loop]. rewrite Hb. destruct r as [[i|] e ch esc v]; cbn in Hch; subst ch; reflexivity.
Qed.

(** A packet start resets the parser and the timeout, so a slave that sends
    nothing but start markers keeps the receiver in its loop for ever. *)
Lemma rx_may_not_return fuel : @br_do_rx_and_pkt_phy_parse restarting fuel restarting_state = NoFuel.
Proof.
  change (@rx_loop restarting fuel (Rx None false false false false) false 50 restarting_state = NoFuel).
  destruct fuel as [|fuel]; [done|]. rewrite restarting_step by done.
  induction fuel as [|fuel IH]; [done|]. by rewrite restarting_step.
Qed.
