(* ===== verification/FpgaMgr.v ===== *)
(** * FPGA manager core (drivers/fpga/fpga-mgr.c, include/linux/fpga/fpga-mgr.h)

    Loading an image: the framework walks the low level driver through parsing
    the header, preparing, writing and completing, for an image in a scatterlist,
    in a buffer or in a firmware file, and records how far it came in the state of
    the manager.  Low level drivers, scatterlists, pages and firmware are
    parameters. *)
From stdpp Require Import gmap strings.
From S2P Require Import Prelude.

(* include/linux/fpga/fpga-mgr.h:35-58 fpga_mgr_states *)
Inductive fpga_mgr_states :=
| FPGA_MGR_STATE_UNKNOWN
| FPGA_MGR_STATE_POWER_OFF
| FPGA_MGR_STATE_POWER_UP
| FPGA_MGR_STATE_RESET
| FPGA_MGR_STATE_FIRMWARE_REQ
| FPGA_MGR_STATE_FIRMWARE_REQ_ERR
| FPGA_MGR_STATE_PARSE_HEADER
| FPGA_MGR_STATE_PARSE_HEADER_ERR
| FPGA_MGR_STATE_WRITE_INIT
| FPGA_MGR_STATE_WRITE_INIT_ERR
| FPGA_MGR_STATE_WRITE
| FPGA_MGR_STATE_WRITE_ERR
| FPGA_MGR_STATE_WRITE_COMPLETE
| FPGA_MGR_STATE_WRITE_COMPLETE_ERR
| FPGA_MGR_STATE_OPERATING.
#[export] Instance fpga_mgr_states_eq : EqDecision fpga_mgr_states.
Proof. solve_decision. Defined.

(** What the framework uses of the kernel: scatterlists ([sg_chunks] is what
    [sg_miter_next] maps one after the other, [sg_miter_skip] what it maps after
    skipping some bytes), memory that is allocated, pages, and firmware files. *)
Class MgrKernel := {
  sgt : Type;
  page : Type;
  mk : Type;
  PAGE_SIZE : Z;
  sg_chunks : sgt → list (list Z);
  sg_miter_skip : sgt → Z → option (list (list Z));
  sg_pcopy_to_buffer : sgt → Z → Z → list Z;
  mk_alloc : mk → bool * mk;
  page_at : Z → option page;
  sg_alloc_table_from_pages : list page → Z → Z → sgt + Z;
  request_firmware : string → mk → ((Z * list Z) + Z) * mk;
}.

(* include/linux/fpga/fpga-mgr.h:75-75 FPGA_MGR_PARTIAL_RECONFIG *)
Definition FPGA_MGR_PARTIAL_RECONFIG : field := BIT_ULL 0.

(** A buffer is its address and its bytes. *)
(* include/linux/fpga/fpga-mgr.h:99-115 fpga_image_info *)
Record fpga_image_info `{MgrKernel} := ImageInfo {
  ii_firmware_name : option string;
  ii_sgt : option sgt;
  ii_buf : option (Z * list Z);
  ii_header_size : Z;
  ii_data_size : Z;
  ii_flags : Z;
  ii_region_id : Z;
}.

(** The callbacks of a low level driver with state [D]; [None] is NULL. *)
(* include/linux/fpga/fpga-mgr.h:170-187 fpga_manager_ops *)
Record fpga_manager_ops `{MgrKernel} (D : Type) := MgrOps {
  mo_initial_header_size : Z;
  mo_skip_header : bool;
  mo_state : option (D → fpga_mgr_states);
  mo_status : option (D → Z);
  mo_parse_header : option (fpga_image_info → list Z → D → (Z * fpga_image_info) * D);
  mo_write_init : option (fpga_image_info → list Z → D → (Z * fpga_image_info) * D);
  mo_write : option (list Z → D → Z * D);
  mo_write_sg : option (sgt → D → Z * D);
  mo_write_complete : option (fpga_image_info → D → (Z * fpga_image_info) * D);
  mo_fpga_remove : option (D → D);
}.
Arguments mo_initial_header_size {_ D}.
Arguments mo_skip_header {_ D}.
Arguments mo_state {_ D}.
Arguments mo_status {_ D}.
Arguments mo_parse_header {_ D}.
Arguments mo_write_init {_ D}.
Arguments mo_write {_ D}.
Arguments mo_write_sg {_ D}.
Arguments mo_write_complete {_ D}.
Arguments mo_fpga_remove {_ D}.

(** What the low level driver was called with. *)
Inductive mgr_call `{MgrKernel} :=
| CallParse (buf : list Z)
| CallInit (info : fpga_image_info) (buf : list Z)
| CallWrite (buf : list Z)
| CallWriteSg (t : sgt)
| CallComplete.

(** A callback gives its status back.  It is used for operations that neither fault nor
    run out of fuel, so that the last case does not arise. *)
Definition callback {S} (m : M S unit) (s : S) : Z * S :=
  match m s with
  | Done (Val _, s') => (0, s')
  | Done (Err e, s') => (e, s')
  | _ => (- EIO, s)
  end.

Section Mgr.
Context `{MgrKernel} {D : Type} (mops : fpga_manager_ops D).

(** [g_calls] is the calls the driver has seen, each with the state of the
    manager at that time; no code reads it. *)
Record gst := GSt {
  g_k : mk;
  g_state : fpga_mgr_states;
  g_info : fpga_image_info;
  g_drv : D;
  g_calls : list (fpga_mgr_states * mgr_call);
}.
Definition set_state (x : fpga_mgr_states) : M gst unit :=
  modify (λ s, GSt (g_k s) x (g_info s) (g_drv s) (g_calls s)).
Definition log_call (c : mgr_call) : M gst unit :=
  modify (λ s, GSt (g_k s) (g_state s) (g_info s) (g_drv s) (g_calls s ++ [(g_state s, c)])).
Definition set_header_size (n : Z) : M gst unit := modify (λ s,
  GSt (g_k s) (g_state s)
    (ImageInfo _ (ii_firmware_name (g_info s)) (ii_sgt (g_info s)) (ii_buf (g_info s)) n (ii_data_size (g_info s))
       (ii_flags (g_info s)) (ii_region_id (g_info s)))
    (g_drv s) (g_calls s)).
(** A callback that may change the image information, and one that may not. *)
Definition drv_info (f : fpga_image_info → D → (Z * fpga_image_info) * D) : M gst Z := λ s,
  let '((ret, info), d) := f (g_info s) (g_drv s) in
  Done (Val ret, GSt (g_k s) (g_state s) info d (g_calls s)).
Definition drv (f : D → Z * D) : M gst Z := λ s,
  let (ret, d) := f (g_drv s) in Done (Val ret, GSt (g_k s) (g_state s) (g_info s) d (g_calls s)).
Definition kalloc_mem : M gst bool := λ s,
  let (ok, k) := mk_alloc (g_k s) in Done (Val ok, GSt k (g_state s) (g_info s) (g_drv s) (g_calls s)).

(** ** Wrappers of the callbacks *)

(* drivers/fpga/fpga-mgr.c:28-32 fpga_mgr_fpga_remove *)
Definition fpga_mgr_fpga_remove : M gst unit :=
  match mo_fpga_remove mops with
  | Some f => modify (λ s, GSt (g_k s) (g_state s) (g_info s) (f (g_drv s)) (g_calls s))
  | None => mret tt
  end.

(* drivers/fpga/fpga-mgr.c:34-39 fpga_mgr_state *)
Definition fpga_mgr_state (d : D) : fpga_mgr_states :=
  match mo_state mops with Some f => f d | None => FPGA_MGR_STATE_UNKNOWN end.

(* drivers/fpga/fpga-mgr.c:41-46 fpga_mgr_status *)
Definition fpga_mgr_status (d : D) : Z :=
  match mo_status mops with Some f => f d | None => 0 end.

(** The caller passes [count] bytes from [buf]: reading behind its end is a fault. *)
(* drivers/fpga/fpga-mgr.c:48-53 fpga_mgr_write *)
Definition fpga_mgr_write (buf : list Z) (count : Z) : M gst Z :=
  match mo_write mops with
  | None => mret (- EOPNOTSUPP)
  | Some f =>
      bytes ← access (if count <=? Z.of_nat (length buf) then Some (take (Z.to_nat count) buf) else None);
      log_call (CallWrite bytes) ;;
      drv (f bytes)
  end.

(* drivers/fpga/fpga-mgr.c:59-75 fpga_mgr_write_complete *)
Definition fpga_mgr_write_complete : M gst unit :=
  set_state FPGA_MGR_STATE_WRITE_COMPLETE ;;
  ret ← (match mo_write_complete mops with
         | Some f => log_call CallComplete ;; drv_info f
         | None => mret 0
         end);
  if negb (ret =? 0) then
    set_state FPGA_MGR_STATE_WRITE_COMPLETE_ERR ;;
    throw ret
  else set_state FPGA_MGR_STATE_OPERATING.

(* drivers/fpga/fpga-mgr.c:77-84 fpga_mgr_parse_header *)
Definition fpga_mgr_parse_header (buf : list Z) : M gst Z :=
  match mo_parse_header mops with
  | Some f => log_call (CallParse buf) ;; drv_info (λ i, f i buf)
  | None => mret 0
  end.

(* drivers/fpga/fpga-mgr.c:86-93 fpga_mgr_write_init *)
Definition fpga_mgr_write_init (buf : list Z) : M gst Z :=
  match mo_write_init mops with
  | Some f =>
      s ← get;
      log_call (CallInit (g_info s) buf) ;;
      drv_info (λ i, f i buf)
  | None => mret 0
  end.

(* drivers/fpga/fpga-mgr.c:95-101 fpga_mgr_write_sg *)
Definition fpga_mgr_write_sg (t : sgt) : M gst Z :=
  match mo_write_sg mops with
  | Some f => log_call (CallWriteSg t) ;; drv (f t)
  | None => mret (- EOPNOTSUPP)
  end.

(** ** Header *)

(* drivers/fpga/fpga-mgr.c:151-171 fpga_mgr_parse_header_mapped *)
Definition fpga_mgr_parse_header_mapped (buf : list Z) : M gst unit :=
  set_state FPGA_MGR_STATE_PARSE_HEADER ;;
  ret ← fpga_mgr_parse_header buf;
  s ← get;
  let ret := if Z.of_nat (length buf) <? u64 (ii_header_size (g_info s) + ii_data_size (g_info s))
             then - EINVAL else ret in
  if negb (ret =? 0) then
    set_state FPGA_MGR_STATE_PARSE_HEADER_ERR ;;
    throw ret
  else mret tt.

(* drivers/fpga/fpga-mgr.c:180-203 fpga_mgr_parse_header_sg_first *)
Definition fpga_mgr_parse_header_sg_first (t : sgt) : M gst Z :=
  set_state FPGA_MGR_STATE_PARSE_HEADER ;;
  s ← get;
  ret ← (match sg_chunks t with
         | c :: _ => if ii_header_size (g_info s) <=? Z.of_nat (length c)
                     then fpga_mgr_parse_header c else mret (- EAGAIN)
         | [] => mret (- EAGAIN)
         end);
  (if negb (ret =? 0) && negb (ret =? - EAGAIN) then set_state FPGA_MGR_STATE_PARSE_HEADER_ERR
   else mret tt) ;;
  mret ret.

(** The loop, whose buffer has [header_size] bytes; the result is the status and
    the buffer. *)
(* drivers/fpga/fpga-mgr.c:220-247 fpga_mgr_parse_header_sg *)
Fixpoint parse_header_sg_loop (fuel : nat) (t : sgt) (buf : list Z) : M gst (Z * list Z) :=
  match fuel with
  | O => nofuel
  | S fuel =>
      s ← get;
      let header_size := Z.of_nat (length buf) in
      let new_header_size := ii_header_size (g_info s) in
      if new_header_size <=? header_size then mret (- EFAULT, buf) else
      ok ← kalloc_mem;
      if negb ok then mret (- ENOMEM, buf) else
      let bytes := sg_pcopy_to_buffer t (new_header_size - header_size) header_size in
      if negb (Z.of_nat (length bytes) =? new_header_size - header_size) then mret (- EFAULT, buf) else
      let buf := buf ++ bytes in
      ret ← fpga_mgr_parse_header buf;
      if ret =? - EAGAIN then parse_header_sg_loop fuel t buf else mret (ret, buf)
  end.

(* drivers/fpga/fpga-mgr.c:212-259 fpga_mgr_parse_header_sg *)
Definition fpga_mgr_parse_header_sg (fuel : nat) (t : sgt) : M gst (list Z) :=
  r ← parse_header_sg_loop fuel t [];
  let '(ret, buf) := (r : Z * list Z) in
  if negb (ret =? 0) then
    set_state FPGA_MGR_STATE_PARSE_HEADER_ERR ;;
    throw ret
  else mret buf.

(** [buf] is NULL with a count of 0 where the caller passes the empty list. *)
(* drivers/fpga/fpga-mgr.c:268-291 fpga_mgr_write_init_buf *)
Definition fpga_mgr_write_init_buf (buf : list Z) : M gst unit :=
  s ← get;
  let header_size := ii_header_size (g_info s) in
  set_state FPGA_MGR_STATE_WRITE_INIT ;;
  ret ← (if Z.of_nat (length buf) <? header_size then mret (- EINVAL)
         else if header_size =? 0 then fpga_mgr_write_init []
         else fpga_mgr_write_init buf);
  if negb (ret =? 0) then
    set_state FPGA_MGR_STATE_WRITE_INIT_ERR ;;
    throw ret
  else mret tt.

(* drivers/fpga/fpga-mgr.c:293-342 fpga_mgr_prepare_sg *)
Definition fpga_mgr_prepare_sg (fuel : nat) (t : sgt) : M gst unit :=
  if (mo_initial_header_size mops =? 0) && bool_decide (mo_parse_header mops = None)
  then fpga_mgr_write_init_buf []
  else
    ret ← fpga_mgr_parse_header_sg_first t;
    let copy :=
      buf ← fpga_mgr_parse_header_sg fuel t;
      fpga_mgr_write_init_buf buf in
    if ret =? 0 then
      match sg_chunks t with
      | c :: _ => fpga_mgr_write_init_buf c
      | [] => copy
      end
    else if negb (ret =? - EAGAIN) then throw ret
    else copy.

(** ** Writing *)

(** The loop over the chunks; [count] bytes were written so far. *)
(* drivers/fpga/fpga-mgr.c:387-400 fpga_mgr_buf_load_sg *)
Fixpoint write_chunks (chunks : list (list Z)) (data_size count : Z) : M gst Z :=
  match chunks with
  | [] => mret 0
  | c :: chunks =>
      let length_ := if negb (data_size =? 0)
                     then Z.min (Z.of_nat (length c)) (data_size - count)
                     else Z.of_nat (length c) in
      ret ← fpga_mgr_write c length_;
      if negb (ret =? 0) then mret ret else
      let count := count + length_ in
      if negb (data_size =? 0) && (data_size <=? count) then mret 0
      else write_chunks chunks data_size count
  end.

(* drivers/fpga/fpga-mgr.c:361-412 fpga_mgr_buf_load_sg *)
Definition fpga_mgr_buf_load_sg (fuel : nat) (t : sgt) : M gst unit :=
  fpga_mgr_prepare_sg fuel t ;;
  set_state FPGA_MGR_STATE_WRITE ;;
  ret ← (if bool_decide (is_Some (mo_write_sg mops)) then fpga_mgr_write_sg t
         else
           s ← get;
           let info := g_info s in
           if mo_skip_header mops then
             match sg_miter_skip t (ii_header_size info) with
             | None => mret (- EINVAL)
             | Some chunks => write_chunks chunks (ii_data_size info) 0
             end
           else write_chunks (sg_chunks t) (ii_data_size info) 0);
  if negb (ret =? 0) then
    set_state FPGA_MGR_STATE_WRITE_ERR ;;
    throw ret
  else fpga_mgr_write_complete.

(** [buf += n] leads out of the buffer where [n] exceeds its length. *)
(* drivers/fpga/fpga-mgr.c:414-448 fpga_mgr_buf_load_mapped *)
Definition fpga_mgr_buf_load_mapped (buf : list Z) : M gst unit :=
  fpga_mgr_parse_header_mapped buf ;;
  fpga_mgr_write_init_buf buf ;;
  s ← get;
  let info := g_info s in
  let count := Z.of_nat (length buf) in
  let '(buf, count) :=
    if mo_skip_header mops
    then (drop (Z.to_nat (ii_header_size info)) buf, u64 (count - ii_header_size info))
    else (buf, count) in
  let count := if negb (ii_data_size info =? 0) then ii_data_size info else count in
  set_state FPGA_MGR_STATE_WRITE ;;
  ret ← fpga_mgr_write buf count;
  if negb (ret =? 0) then
    set_state FPGA_MGR_STATE_WRITE_ERR ;;
    throw ret
  else fpga_mgr_write_complete.

(** The pages from address [p] on. *)
(* drivers/fpga/fpga-mgr.c:493-504 fpga_mgr_buf_load *)
Fixpoint collect_pages (p : Z) (nr_pages : nat) : M gst (list page) :=
  match nr_pages with
  | O => mret []
  | S n =>
      match page_at p with
      | None => throw (- EFAULT)
      | Some pg =>
          rest ← collect_pages (p + PAGE_SIZE) n;
          mret (pg :: rest)
      end
  end.

(* drivers/fpga/fpga-mgr.c:464-520 fpga_mgr_buf_load *)
Definition fpga_mgr_buf_load (fuel : nat) (addr : Z) (buf : list Z) : M gst unit :=
  if bool_decide (is_Some (mo_write mops)) then fpga_mgr_buf_load_mapped buf else
  let count := Z.of_nat (length buf) in
  let nr_pages := (addr + count + PAGE_SIZE - 1) / PAGE_SIZE - addr / PAGE_SIZE in
  ok ← kalloc_mem;
  if negb ok then throw (- ENOMEM) else
  pages ← collect_pages (addr - addr mod PAGE_SIZE) (Z.to_nat nr_pages);
  match sg_alloc_table_from_pages pages (addr mod PAGE_SIZE) count with
  | inr rc => throw rc
  | inl t => fpga_mgr_buf_load_sg fuel t
  end.

(* drivers/fpga/fpga-mgr.c:536-560 fpga_mgr_firmware_load *)
Definition fpga_mgr_firmware_load (fuel : nat) (image_name : string) : M gst unit :=
  set_state FPGA_MGR_STATE_FIRMWARE_REQ ;;
  fw ← ((λ s, let (fw, k) := request_firmware image_name (g_k s) in
              Done (Val fw, GSt k (g_state s) (g_info s) (g_drv s) (g_calls s))) : M gst ((Z * list Z) + Z));
  match (fw : (Z * list Z) + Z) with
  | inr ret =>
      set_state FPGA_MGR_STATE_FIRMWARE_REQ_ERR ;;
      throw ret
  | inl (addr, data) => fpga_mgr_buf_load fuel addr data
  end.

(* drivers/fpga/fpga-mgr.c:572-583 fpga_mgr_load *)
Definition fpga_mgr_load (fuel : nat) : M gst unit :=
  set_header_size (mo_initial_header_size mops) ;;
  s ← get;
  let info := g_info s in
  match ii_sgt info, ii_buf info, ii_firmware_name info with
  | Some t, _, _ => fpga_mgr_buf_load_sg fuel t
  | None, Some (addr, b :: buf), _ => fpga_mgr_buf_load fuel addr (b :: buf)
  | None, _, Some name => fpga_mgr_firmware_load fuel name
  | None, _, None => throw (- EINVAL)
  end.
End Mgr.
