(* ===== verification/FpgaMgrFacts.v ===== *)
(** * Facts about loading an image (FpgaMgr)

    What the low level driver is called with, in which order and in which state
    of the manager; that loading ends; what state it leaves. *)
From stdpp Require Import gmap strings.
From S2P Require Import Prelude FpgaMgr.

(** The image a scatterlist holds. *)
Definition image `{MgrKernel} (t : sgt) : list Z := concat (sg_chunks t).

(** A callback succeeded with [R], or gave an error with [E]. *)
Definition ended {D} (r : Z * D) (R : D → Prop) (E : Z → D → Prop) : Prop := r.1 = 0 ∧ R r.2 ∨ r.1 ≠ 0 ∧ E r.1 r.2.
Lemma callback_spec {D} (m : M D unit) s (Q : unit → D → Prop) (E : Z → D → Prop) :
  wp m Q E s → (∀ e s', E e s' → e ≠ 0) → ended (callback m s) (Q tt) E.
Proof.
  unfold wpg, callback, ended. destruct (m s) as [[[[]|e] s']| |]; cbn; try done; eauto.
Qed.

(** What is documented of scatterlists: a partial copy starts behind [skip] bytes
    and ends with the list; skipping fails behind the end; a list made of pages
    describes the given number of bytes. *)
Class MgrLaws `{MgrKernel} := {
  sg_pcopy_law t n skip : 0 ≤ n → 0 ≤ skip →
    sg_pcopy_to_buffer t n skip = take (Z.to_nat n) (drop (Z.to_nat skip) (image t));
  sg_skip_law t n : 0 ≤ n →
    match sg_miter_skip t n with
    | Some cs => n ≤ Z.of_nat (length (image t)) ∧ concat cs = drop (Z.to_nat n) (image t)
    | None => Z.of_nat (length (image t)) < n
    end;
  sg_alloc_law pages off n t : 0 ≤ n →
    sg_alloc_table_from_pages pages off n = inl t → Z.of_nat (length (image t)) = n;
}.

(** The part of image [img] that [write] is to receive. *)
Definition payload (skip_header : bool) (header_size data_size : Z) (img : list Z) : list Z :=
  let data := if skip_header then drop (Z.to_nat header_size) img else img in
  if data_size =? 0 then data else take (Z.to_nat data_size) data.

(** States in which a load stops after the driver reported an error. *)
Definition failed_state (x : fpga_mgr_states) : Prop :=
  match x with
  | FPGA_MGR_STATE_PARSE_HEADER_ERR | FPGA_MGR_STATE_WRITE_INIT_ERR
  | FPGA_MGR_STATE_WRITE_ERR | FPGA_MGR_STATE_WRITE_COMPLETE_ERR => True
  | _ => False
  end.

Definition sizes_ok `{MgrKernel} (i : fpga_image_info) : Prop :=
  0 ≤ ii_header_size i < 2 ^ 64 ∧ 0 ≤ ii_data_size i < 2 ^ 64.
Definition same_sizes `{MgrKernel} (i i' : fpga_image_info) : Prop :=
  ii_header_size i' = ii_header_size i ∧ ii_data_size i' = ii_data_size i.

(** What the callbacks are documented to do with the sizes: they are [size_t]s,
    and it is [parse_header] that sets them. *)
Record driver_ok `{MgrKernel} {D} (mops : fpga_manager_ops D) : Prop := DriverOk {
  initial_size : 0 ≤ mo_initial_header_size mops < 2 ^ 64;
  parse_sizes f i b d r i' d' :
    mo_parse_header mops = Some f → sizes_ok i → f i b d = ((r, i'), d') → sizes_ok i';
  init_sizes f i b d r i' d' :
    mo_write_init mops = Some f → f i b d = ((r, i'), d') → same_sizes i i';
  complete_sizes f i d r i' d' :
    mo_write_complete mops = Some f → f i d = ((r, i'), d') → same_sizes i i';
}.

Section Facts.
Context `{MgrKernel} {D : Type} (mops : fpga_manager_ops D) (Hd : driver_ok mops).
#[local] Abbreviation gst := (gst (D := D)).

(** The calls of a callback that may be missing. *)
Definition calls_if {A} (o : option A) (l : list (fpga_mgr_states * mgr_call)) :=
  match o with Some _ => l | None => [] end.
Definition parse_calls (bufs : list (list Z)) : list (fpga_mgr_states * mgr_call) :=
  calls_if (mo_parse_header mops) ((λ b, (FPGA_MGR_STATE_PARSE_HEADER, CallParse b)) <$> bufs).
Definition init_calls (info : fpga_image_info) (buf : list Z) : list (fpga_mgr_states * mgr_call) :=
  calls_if (mo_write_init mops) [(FPGA_MGR_STATE_WRITE_INIT, CallInit info buf)].
Definition write_calls (bufs : list (list Z)) : list (fpga_mgr_states * mgr_call) :=
  (λ b, (FPGA_MGR_STATE_WRITE, CallWrite b)) <$> bufs.
Definition complete_calls : list (fpga_mgr_states * mgr_call) :=
  calls_if (mo_write_complete mops) [(FPGA_MGR_STATE_WRITE_COMPLETE, CallComplete)].

(** [buf] is the start of the image, at least as long as the header, or nothing
    if there is no header. *)
Definition init_ok (img : list Z) (info : fpga_image_info) (buf : list Z) : Prop :=
  buf `prefix_of` img ∧ ii_header_size info ≤ Z.of_nat (length buf) ∧
  (ii_header_size info = 0 → buf = []).

(** The calls that prepare a driver for image [img]. *)
Definition prepared (img : list Z) (calls : list (fpga_mgr_states * mgr_call)) : Prop :=
  ∃ parses info buf,
    calls = parse_calls parses ++ init_calls info buf ∧
    Forall (λ b, b `prefix_of` img) parses ∧ init_ok img info buf.

(** All calls of a load of image [img], where [write] gets the part that the
    sizes in [info] select. *)
Definition loaded (img : list Z) (info : fpga_image_info)
    (calls : list (fpga_mgr_states * mgr_call)) : Prop :=
  ∃ pre writes,
    calls = pre ++ write_calls writes ++ complete_calls ∧ prepared img pre ∧
    concat writes = payload (mo_skip_header mops) (ii_header_size info) (ii_data_size info) img.

(** *** Failing *)

(** What the driver was called with when the state [st] names the step that failed: no
    later step was reached, those before it were completed, and it is the
    callback of the step that failed, unless the framework itself refused. *)
Definition parses_of (img : list Z) (calls : list (fpga_mgr_states * mgr_call)) : Prop :=
  ∃ ps, calls = parse_calls ps ∧ Forall (λ b, b `prefix_of` img) ps.
Definition data_call (c : fpga_mgr_states * mgr_call) : Prop :=
  c.1 = FPGA_MGR_STATE_WRITE ∧ match c.2 with CallWrite _ | CallWriteSg _ => True | _ => False end.
Definition failed_calls (img : list Z) (e : Z) (calls : list (fpga_mgr_states * mgr_call)) (st : fpga_mgr_states) : Prop :=
  match st with
  | FPGA_MGR_STATE_PARSE_HEADER_ERR => parses_of img calls
  | FPGA_MGR_STATE_WRITE_INIT_ERR => ∃ pre l, parses_of img pre ∧ calls = pre ++ l ∧
      (l = [] ∧ e = - EINVAL ∨ is_Some (mo_write_init mops) ∧ ∃ info b, l = init_calls info b ∧ init_ok img info b)
  | FPGA_MGR_STATE_WRITE_ERR => ∃ pre ws, prepared img pre ∧ calls = pre ++ ws ∧ Forall data_call ws ∧
      (ws = [] → e = - EINVAL ∨ e = - EOPNOTSUPP)
  | FPGA_MGR_STATE_WRITE_COMPLETE_ERR => is_Some (mo_write_complete mops) ∧
      ∃ pre ws, prepared img pre ∧ calls = pre ++ ws ++ complete_calls ∧ Forall data_call ws
  | _ => False
  end.
Definition failed_in (img : list Z) (s : gst) (e : Z) (s' : gst) : Prop :=
  ∃ calls, g_calls s' = g_calls s ++ calls ∧ failed_calls img e calls (g_state s').
Lemma failed_in_state img s e s' : failed_in img s e s' → failed_state (g_state s').
Proof. intros (calls & _ & Hf). by destruct (g_state s'). Qed.
Lemma write_calls_data ws : Forall data_call (write_calls ws).
Proof. apply Forall_fmap, Forall_true. done. Qed.

(** *** Callbacks *)
Definition grows (l : list (fpga_mgr_states * mgr_call)) (s s' : gst) : Prop :=
  g_state s' = g_state s ∧ g_calls s' = g_calls s ++ l.

Lemma wp_drv_info F N f (Q : Z → gst → Prop) E s :
  (∀ ret info d, f (g_info s) (g_drv s) = ((ret, info), d) →
     Q ret (GSt (g_k s) (g_state s) info d (g_calls s))) →
  wpg F N (drv_info f) Q E s.
Proof. unfold wpg, drv_info. destruct (f _ _) as [[ret info] d] eqn:Hf. intros HQ. by apply HQ. Qed.
Lemma wp_drv F N f (Q : Z → gst → Prop) E s :
  (∀ ret d, Q ret (GSt (g_k s) (g_state s) (g_info s) d (g_calls s))) →
  wpg F N (drv f) Q E s.
Proof. unfold wpg, drv. destruct (f _) as [ret d] eqn:Hf. intros HQ. by apply HQ. Qed.
Lemma wp_kalloc_mem F N (Q : bool → gst → Prop) E s :
  (∀ ok k, Q ok (GSt k (g_state s) (g_info s) (g_drv s) (g_calls s))) →
  wpg F N kalloc_mem Q E s.
Proof. unfold wpg, kalloc_mem. destruct (mk_alloc _) as [ok k] eqn:Hk. intros HQ. by apply HQ. Qed.

Lemma same_sizes_ok i i' : same_sizes i i' → sizes_ok i → sizes_ok i'.
Proof. unfold same_sizes, sizes_ok. by intros [-> ->]. Qed.

Lemma parse_header_spec F N buf (Q : Z → gst → Prop) E s :
  g_state s = FPGA_MGR_STATE_PARSE_HEADER → sizes_ok (g_info s) →
  (∀ ret s', grows (parse_calls [buf]) s s' → sizes_ok (g_info s') → Q ret s') →
  wpg F N (fpga_mgr_parse_header mops buf) Q E s.
Proof.
  intros Hs Hz HQ. unfold fpga_mgr_parse_header, parse_calls in *.
  destruct (mo_parse_header mops) as [f|] eqn:Hf; wsteps; unfold log_call; wsteps.
  - apply wp_drv_info. intros ret info d Hr. apply HQ; cbn.
    + split; cbn; [done|]. by rewrite Hs.
    + by eapply (parse_sizes _ Hd).
  - apply HQ; [|done]. split; cbn; [done|]. by rewrite app_nil_r.
Qed.

Lemma write_init_spec F N buf (Q : Z → gst → Prop) E s :
  g_state s = FPGA_MGR_STATE_WRITE_INIT →
  (∀ ret s', grows (init_calls (g_info s) buf) s s' → same_sizes (g_info s) (g_info s') → (ret ≠ 0 → is_Some (mo_write_init mops)) → Q ret s') →
  wpg F N (fpga_mgr_write_init mops buf) Q E s.
Proof.
  intros Hs HQ. unfold fpga_mgr_write_init, init_calls in *.
  destruct (mo_write_init mops) as [f|] eqn:Hf; wsteps; unfold log_call; wsteps.
  - apply wp_drv_info. intros ret info d Hr. apply HQ; cbn.
    + split; cbn; [done|]. by rewrite Hs.
    + by eapply (init_sizes _ Hd).
    + by eexists.
  - apply HQ; [|done..]. split; cbn; [done|]. by rewrite app_nil_r.
Qed.

Lemma core_write_spec F N buf count (Q : Z → gst → Prop) E s :
  g_state s = FPGA_MGR_STATE_WRITE → count ≤ Z.of_nat (length buf) →
  (∀ ret s', (grows (write_calls [take (Z.to_nat count) buf]) s s' ∨ ret = - EOPNOTSUPP ∧ s' = s) →
     g_state s' = g_state s → g_info s' = g_info s → Q ret s') →
  wpg F N (fpga_mgr_write mops buf count) Q E s.
Proof.
  intros Hs Hc HQ. unfold fpga_mgr_write. destruct (mo_write mops); wsteps.
  - rewrite (proj2 (Z.leb_le _ _) Hc). apply wp_access; [|done]. intros ? [= <-].
    unfold log_call; wsteps. apply wp_drv. intros. apply HQ; [|done..].
    left. split; cbn; [done|]. by rewrite Hs.
  - apply HQ; [by right|done..].
Qed.

Lemma write_sg_spec F N t (Q : Z → gst → Prop) E s f :
  mo_write_sg mops = Some f → g_state s = FPGA_MGR_STATE_WRITE →
  (∀ ret s', grows [(FPGA_MGR_STATE_WRITE, CallWriteSg t)] s s' →
     g_info s' = g_info s → Q ret s') →
  wpg F N (fpga_mgr_write_sg mops t) Q E s.
Proof.
  intros Hf Hs HQ. unfold fpga_mgr_write_sg. rewrite Hf. unfold log_call; wsteps.
  apply wp_drv. intros. apply HQ; [|done]. split; cbn; [done|]. by rewrite Hs.
Qed.

Lemma write_complete_spec F N (Q : unit → gst → Prop) (E : Z → gst → Prop) s :
  (∀ u s', g_state s' = FPGA_MGR_STATE_OPERATING →
     g_calls s' = g_calls s ++ complete_calls →
     same_sizes (g_info s) (g_info s') → Q u s') →
  (∀ e s', e ≠ 0 → g_state s' = FPGA_MGR_STATE_WRITE_COMPLETE_ERR → is_Some (mo_write_complete mops) →
     g_calls s' = g_calls s ++ complete_calls → E e s') →
  wpg F N (fpga_mgr_write_complete mops) Q E s.
Proof.
  intros HQ HE. unfold fpga_mgr_write_complete, complete_calls, set_state, log_call in *. wsteps.
  destruct (mo_write_complete mops) as [f|] eqn:Hf; wsteps.
  - apply wp_drv_info. intros ret info d Hr. destruct (Z.eqb_spec ret 0); cbn [negb]; wsteps.
    + apply HQ; cbn; [done..|]. by eapply (complete_sizes _ Hd).
    + by apply HE.
  - change (0 =? 0) with true. cbn [negb]. wsteps. apply HQ; cbn; try done. by rewrite app_nil_r.
Qed.

(** *** Preparing *)
Lemma write_init_buf_spec F N img buf (Q : unit → gst → Prop) (E : Z → gst → Prop) s :
  buf `prefix_of` img → 0 ≤ ii_header_size (g_info s) →
  (∀ u s' b, g_state s' = FPGA_MGR_STATE_WRITE_INIT →
     g_calls s' = g_calls s ++ init_calls (g_info s) b → init_ok img (g_info s) b →
     same_sizes (g_info s) (g_info s') → Q u s') →
  (∀ e s', e ≠ 0 → g_state s' = FPGA_MGR_STATE_WRITE_INIT_ERR →
     (∃ l, g_calls s' = g_calls s ++ l ∧
       (l = [] ∧ e = - EINVAL ∨ is_Some (mo_write_init mops) ∧ ∃ info b, l = init_calls info b ∧ init_ok img info b)) → E e s') →
  wpg F N (fpga_mgr_write_init_buf mops buf) Q E s.
Proof.
  intros Hb Hh HQ HE. unfold fpga_mgr_write_init_buf, set_state. wsteps.
  destruct (Z.ltb_spec (Z.of_nat (length buf)) (ii_header_size (g_info s))); wsteps.
  { change (- EINVAL =? 0) with false. cbn [negb]. wsteps. apply HE; [done..|]. exists []. split; [by rewrite app_nil_r|by left]. }
  assert (Hok : init_ok img (g_info s) (if ii_header_size (g_info s) =? 0 then [] else buf)).
  { unfold init_ok. destruct (Z.eqb_spec (ii_header_size (g_info s)) 0) as [->|]; [|done]. split; [apply prefix_nil|]. split; [cbn; lia|done]. }
  set (b := if ii_header_size (g_info s) =? 0 then [] else buf).
  apply (wp_mono _ (λ ret s', g_state s' = FPGA_MGR_STATE_WRITE_INIT ∧
    g_calls s' = g_calls s ++ init_calls (g_info s) b ∧ same_sizes (g_info s) (g_info s') ∧ (ret ≠ 0 → is_Some (mo_write_init mops)))
    _ (λ _ _, False) _); [|intros ret s' (Hs & Hc & Hz & Hsome)|done].
  - subst b. destruct (ii_header_size (g_info s) =? 0); apply write_init_spec; try done;
      intros ret s' [Hs Hc] Hz Hsome; cbn in *; done.
  - destruct (Z.eqb_spec ret 0); cbn [negb]; wsteps; [by apply (HQ tt s' b)|].
    apply HE; [done..|]. exists (init_calls (g_info s) b). split; [done|]. right. split; [by apply Hsome|]. by exists (g_info s), b.
Qed.

Lemma parse_calls_app l l' : parse_calls (l ++ l') = parse_calls l ++ parse_calls l'.
Proof. unfold parse_calls, calls_if. destruct (mo_parse_header mops); [|done]. by rewrite fmap_app. Qed.

(** What the parsing functions leave after they read prefixes of [img]. *)
Definition parsed (img : list Z) (s s' : gst) : Prop :=
  g_state s' = FPGA_MGR_STATE_PARSE_HEADER ∧ sizes_ok (g_info s') ∧
  ∃ parses, g_calls s' = g_calls s ++ parse_calls parses ∧ Forall (λ b, b `prefix_of` img) parses.

Lemma parsed_refl img s :
  g_state s = FPGA_MGR_STATE_PARSE_HEADER → sizes_ok (g_info s) → parsed img s s.
Proof.
  intros Hs Hz. split_and!; [done..|]. exists []. split; [|done].
  unfold parse_calls, calls_if. destruct (mo_parse_header mops); by rewrite app_nil_r.
Qed.
Lemma parsed_step img s s' s'' b :
  parsed img s s' → grows (parse_calls [b]) s' s'' → sizes_ok (g_info s'') →
  b `prefix_of` img → parsed img s s''.
Proof.
  intros (Hs & Hz & ps & Hc & Hps) [Hs' Hc'] Hz' Hb. split; [congruence|]. split; [done|].
  exists (ps ++ [b]). rewrite parse_calls_app, Hc', Hc, app_assoc. split; [done|].
  by apply Forall_app_2; [|constructor].
Qed.
Lemma parsed_mem img s s' k :
  parsed img s s' → parsed img s (GSt k (g_state s') (g_info s') (g_drv s') (g_calls s')).
Proof. done. Qed.

(** Parsing failed after reading such prefixes. *)
Definition parse_failed (img : list Z) (s s' : gst) : Prop :=
  g_state s' = FPGA_MGR_STATE_PARSE_HEADER_ERR ∧ ∃ calls, g_calls s' = g_calls s ++ calls ∧ parses_of img calls.
Lemma parsed_failed img s s' k i d :
  parsed img s s' → parse_failed img s (GSt k FPGA_MGR_STATE_PARSE_HEADER_ERR i d (g_calls s')).
Proof. intros (_ & _ & ps & Hc & Hps). split; [done|]. exists (parse_calls ps). split; [done|]. by exists ps. Qed.

Context `{!MgrLaws}.

(** The loop asks for ever longer starts of the image, so it ends. *)
Lemma parse_header_sg_loop_spec F fuel t buf (Q : Z * list Z → gst → Prop) E s0 s :
  buf `prefix_of` image t → parsed (image t) s0 s →
  (length (image t) < fuel + length buf)%nat →
  (∀ ret buf s', ret ≠ 0 → parsed (image t) s0 s' → Q (ret, buf) s') →
  (∀ buf s', buf `prefix_of` image t → parsed (image t) s0 s' → Q (0, buf) s') →
  wpg F False (parse_header_sg_loop mops fuel t buf) Q E s.
Proof.
  intros Hb Hp Hf HE HQ. revert buf s Hb Hp Hf.
  induction fuel as [|fuel IH]; intros buf s Hb Hp Hf.
  { apply prefix_length in Hb. lia. }
  cbn [parse_header_sg_loop]. wsteps.
  destruct (Z.leb_spec (ii_header_size (g_info s)) (Z.of_nat (length buf))); wsteps.
  { by apply HE. }
  apply wp_kalloc_mem. intros ok k. cbv beta zeta. destruct ok; cbn [negb]; wsteps.
  2: { by apply HE. }
  rewrite sg_pcopy_law by lia. set (n := Z.to_nat (_ - _)). rewrite Nat2Z.id.
  destruct (Z.eqb_spec (Z.of_nat (length (take n (drop (length buf) (image t)))))
    (ii_header_size (g_info s) - Z.of_nat (length buf))) as [Hn|]; cbn [negb]; wsteps.
  2: { by apply HE. }
  assert ((buf ++ take n (drop (length buf) (image t))) `prefix_of` image t) as Hb'.
  { destruct Hb as [rest Hrest]. rewrite Hrest, drop_app_length. apply prefix_app.
    exists (drop n rest). by rewrite take_drop. }
  apply parse_header_spec; [apply Hp..|].
  intros ret s' Hg Hz'. eapply (parsed_step _ _ _ _ _ (parsed_mem _ _ _ k Hp)) in Hg; [|done|exact Hb'].
  destruct (Z.eqb_spec ret (- EAGAIN)).
  - apply IH; [done..|]. rewrite length_app. lia.
  - wsteps. destruct (decide (ret = 0)) as [->|]; [by apply HQ|]. by apply HE.
Qed.

Lemma parse_header_sg_spec F fuel t (Q : list Z → gst → Prop) (E : Z → gst → Prop) s0 s :
  parsed (image t) s0 s → (length (image t) < fuel)%nat →
  (∀ e s', e ≠ 0 → parse_failed (image t) s0 s' → E e s') →
  (∀ buf s', buf `prefix_of` image t → parsed (image t) s0 s' → Q buf s') →
  wpg F False (fpga_mgr_parse_header_sg mops fuel t) Q E s.
Proof.
  intros Hp Hf HE HQ. unfold fpga_mgr_parse_header_sg, set_state. wsteps.
  apply (parse_header_sg_loop_spec _ _ _ _ _ _ s0);
    [apply prefix_nil|done|cbn [length]; lia| |].
  - intros ret buf s' Hr Hs. cbv beta iota. rewrite (proj2 (Z.eqb_neq _ _) Hr).
    cbn [negb]. wsteps. apply HE; [done|]. by eapply parsed_failed.
  - intros buf s' Hb Hp'. cbv beta iota. change (0 =? 0) with true. cbn [negb]. wsteps. by apply HQ.
Qed.

Lemma chunk_prefix t c cs : sg_chunks t = c :: cs → c `prefix_of` image t.
Proof. unfold image. intros ->. by exists (concat cs). Qed.

Lemma parse_header_sg_first_spec F N t (Q : Z → gst → Prop) E s :
  sizes_ok (g_info s) →
  (∀ ret s', ret ≠ 0 → ret ≠ - EAGAIN → parse_failed (image t) s s' → Q ret s') →
  (∀ ret s' st, parsed (image t) (GSt (g_k s) st (g_info s) (g_drv s) (g_calls s)) s' →
     ret = 0 ∨ ret = - EAGAIN → Q ret s') →
  wpg F N (fpga_mgr_parse_header_sg_first mops t) Q E s.
Proof.
  intros Hz HE HQ. unfold fpga_mgr_parse_header_sg_first, set_state. wsteps.
  set (s1 := GSt _ FPGA_MGR_STATE_PARSE_HEADER _ _ _).
  assert (parsed (image t) s1 s1) as Hp by by apply parsed_refl.
  assert (Q (- EAGAIN) s1) as Hagain by (eapply HQ; [exact Hp|by right]).
  assert (∀ (k : Z → gst → Prop), (∀ ret s', parsed (image t) s1 s' → k ret s') →
    wpg F N (match sg_chunks t with
         | c :: _ => if ii_header_size (g_info s1) <=? Z.of_nat (length c)
                     then fpga_mgr_parse_header mops c else mret (- EAGAIN)
         | [] => mret (- EAGAIN) end) k E s1) as Hm.
  { intros k Hk. destruct (sg_chunks t) as [|c cs] eqn:Hc; [wsteps; by apply Hk|].
    destruct (_ <=? _); [|wsteps; by apply Hk].
    apply parse_header_spec; [done..|]. intros ret s' Hg Hz'. apply Hk.
    eapply parsed_step; [exact Hp|done..|]. by eapply chunk_prefix. }
  apply Hm. intros ret s' Hp'.
  destruct (Z.eqb_spec ret 0) as [->|]; cbn [negb andb]; wsteps; [eapply HQ; [done|by left]|].
  destruct (Z.eqb_spec ret (- EAGAIN)) as [->|]; cbn [negb]; wsteps; [eapply HQ; [done|by right]|].
  apply HE; [done..|]. exact (parsed_failed _ s1 _ _ _ _ Hp').
Qed.

Lemma prepared_from s0 s' img info b calls :
  parsed img s0 s' → calls = g_calls s' ++ init_calls info b → init_ok img info b →
  ∃ pre, calls = g_calls s0 ++ pre ∧ prepared img pre.
Proof.
  intros (_ & _ & ps & Hc & Hps) -> Hb. exists (parse_calls ps ++ init_calls info b).
  rewrite Hc, app_assoc. split; [done|]. by exists ps, info, b.
Qed.

Lemma prepare_sg_spec F fuel t (Q : unit → gst → Prop) (E : Z → gst → Prop) s :
  sizes_ok (g_info s) → (length (image t) < fuel)%nat →
  (∀ e s', e ≠ 0 → failed_in (image t) s e s' → E e s') →
  (∀ u s' pre, sizes_ok (g_info s') → g_calls s' = g_calls s ++ pre →
     prepared (image t) pre → Q u s') →
  wpg F False (fpga_mgr_prepare_sg mops fuel t) Q E s.
Proof.
  intros Hz Hf HE HQ. unfold fpga_mgr_prepare_sg.
  assert (∀ b s0 s', g_calls s0 = g_calls s → b `prefix_of` image t → parsed (image t) s0 s' →
    wpg F False (fpga_mgr_write_init_buf mops b) Q E s') as Hinit.
  { intros b s0 s' Hs0 Hb Hp. pose proof Hp as (_ & Hz' & _).
    apply (write_init_buf_spec _ _ (image t)); [done|apply Hz'| |].
    - intros u s'' b' Hs Hc Hi Hsz. destruct (prepared_from _ _ _ _ _ _ Hp Hc Hi) as (pre & Hpre & ?).
      rewrite Hs0 in Hpre. eapply HQ; [by eapply same_sizes_ok|done..].
    - intros e s'' He Hs (l & Hc & Hl). apply HE; [done|]. destruct Hp as (_ & _ & ps & Hcp & Hps).
      exists (parse_calls ps ++ l). split; [by rewrite Hc, Hcp, Hs0, app_assoc|]. rewrite Hs. exists (parse_calls ps), l.
      split; [by exists ps|done]. }
  destruct (_ && _) eqn:Hshort.
  { apply (write_init_buf_spec _ _ (image t)); [apply prefix_nil|apply Hz| |].
    - intros u s' b _ Hc Hi Hsz. eapply HQ; [by eapply same_sizes_ok|done|].
      apply andb_true_iff in Hshort as [_ Hnone%bool_decide_eq_true].
      exists [], (g_info s), b. unfold parse_calls. rewrite Hnone. done.
    - intros e s' He Hs (l & Hc & Hl). apply HE; [done|]. exists l. split; [done|]. rewrite Hs. exists [], l.
      split; [|done]. exists []. split; [|done]. unfold parse_calls, calls_if. by destruct (mo_parse_header mops). }
  assert (Hparse : ∀ s0 e s', g_calls s0 = g_calls s → e ≠ 0 → parse_failed (image t) s0 s' → E e s').
  { intros s0 e s' Hs0 He (Hs & l & Hc & Hl). apply HE; [done|]. exists l. rewrite <- Hs0, Hs. done. }
  wsteps. apply parse_header_sg_first_spec; [done| |].
  { intros ret s' Hr Ha Hs. rewrite (proj2 (Z.eqb_neq _ _) Hr), (proj2 (Z.eqb_neq _ _) Ha).
    cbn [negb]. wsteps. by eapply Hparse. }
  intros ret s' st Hp Hret.
  assert (wpg F False (buf ← fpga_mgr_parse_header_sg mops fuel t; fpga_mgr_write_init_buf mops buf)
    Q E s') as Hcopy.
  { wsteps. eapply parse_header_sg_spec; [exact Hp|done| |].
    - intros e s'' He Hs. by eapply Hparse.
    - intros buf s'' Hb Hp'. by eapply Hinit. }
  destruct Hret as [-> | ->].
  - change (0 =? 0) with true. cbv beta iota. destruct (sg_chunks t) eqn:Hc; [exact Hcopy|].
    eapply Hinit; [| |exact Hp]; [done|]. by eapply chunk_prefix.
  - change (- EAGAIN =? 0) with false. change (- EAGAIN =? - EAGAIN) with true. exact Hcopy.
Qed.

(** *** Writing *)

(** What is left of [img] where [count] bytes of it are written. *)
Definition rest_of (data_size count : Z) (img : list Z) : list Z :=
  if data_size =? 0 then img else take (Z.to_nat (data_size - count)) img.

Lemma write_chunks_spec F N chunks data_size count (Q : Z → gst → Prop) E s :
  g_state s = FPGA_MGR_STATE_WRITE → (data_size = 0 ∨ count < data_size) →
  (∀ ret s' ws, ret ≠ 0 → g_calls s' = g_calls s ++ ws → Forall data_call ws → (ws = [] → ret = - EOPNOTSUPP) → Q ret s') →
  (∀ s' ws, g_state s' = FPGA_MGR_STATE_WRITE → g_info s' = g_info s →
     g_calls s' = g_calls s ++ write_calls ws →
     concat ws = rest_of data_size count (concat chunks) → Q 0 s') →
  wpg F N (write_chunks mops chunks data_size count) Q E s.
Proof.
  revert count s. induction chunks as [|c chunks IH]; intros count s Hs Hlt HE HQ;
    cbn [write_chunks].
  { wsteps. apply (HQ s []); [done..| |].
    - by rewrite app_nil_r.
    - unfold rest_of. cbn [concat]. by destruct (data_size =? 0); rewrite ?take_nil. }
  set (len := if negb (data_size =? 0) then _ else _). wsteps.
  assert (len ≤ Z.of_nat (length c)) as Hlen
    by (subst len; destruct (data_size =? 0); cbn [negb]; lia).
  apply core_write_spec; [done..|]. intros ret s' Hg Hs' Hi.
  destruct (Z.eqb_spec ret 0) as [->|Hr]; cbn [negb]; wsteps.
  2: { destruct Hg as [[_ Hc]|[-> ->]]; [by eapply HE; [|exact Hc|apply write_calls_data|]|by apply (HE _ s []); [|rewrite app_nil_r|..]]. }
  destruct Hg as [[_ Hc]|[? _]]; [|done]. unfold rest_of in *. cbn [concat] in *.
  assert (∀ ws (s'' : gst), g_calls s'' = g_calls s' ++ write_calls ws →
    g_calls s'' = g_calls s ++ write_calls (take (Z.to_nat len) c :: ws)) as Hcalls
    by (intros ws s'' ->; rewrite Hc, <-app_assoc; done).
  assert (∀ ret (s'' : gst) ws, ret ≠ 0 → g_calls s'' = g_calls s' ++ ws → Forall data_call ws → (ws = [] → ret = - EOPNOTSUPP) → Q ret s'') as HE'.
  { intros ret' s'' ws Hr' Hc' Hws Hne. eapply HE; [done|by rewrite Hc', Hc, <- app_assoc| |done]. apply Forall_app. split; [apply write_calls_data|done]. }
  destruct (Z.eqb_spec data_size 0) as [->|Hd0]; cbn [negb andb] in *.
  - assert (take (Z.to_nat len) c = c) as Hall by (apply take_ge; lia). rewrite Hall in *.
    apply IH; [congruence|by left|exact HE'|]. intros s'' ws ? Hi'' Hc'' Hw.
    apply (HQ s'' (c :: ws)); [done|congruence|by apply Hcalls|]. cbn [concat]. by rewrite Hw.
  - destruct (Z.leb_spec data_size (count + len)); wsteps.
    + apply (HQ s' [take (Z.to_nat len) c]); [congruence|done|done|].
      cbn [concat]. rewrite app_nil_r, take_app_le by lia. f_equal. lia.
    + apply IH; [congruence|by right|exact HE'|]. intros s'' ws ? Hi'' Hc'' Hw.
      apply (HQ s'' (take (Z.to_nat len) c :: ws)); [done|congruence|by apply Hcalls|].
      assert (len = Z.of_nat (length c)) as Hl by lia. rewrite Hl in *. cbn [concat].
      rewrite Hw, take_ge by lia. rewrite take_app_ge by lia. do 2 f_equal. lia.
Qed.

(** Where [loaded] leaves the way the data goes to the driver open. *)
Definition data_loaded (t : sgt) (info : fpga_image_info)
    (calls : list (fpga_mgr_states * mgr_call)) : Prop :=
  match mo_write_sg mops with
  | None => loaded (image t) info calls
  | Some _ => ∃ pre, prepared (image t) pre ∧
      calls = pre ++ [(FPGA_MGR_STATE_WRITE, CallWriteSg t)] ++ complete_calls
  end.

(** The data phase of a scatterlist. *)
Definition sg_written (t : sgt) (s s' : gst) : Prop :=
  g_info s' = g_info s ∧
  ∃ ws, g_calls s' = g_calls s ++ ws ∧
    match mo_write_sg mops with
    | Some _ => ws = [(FPGA_MGR_STATE_WRITE, CallWriteSg t)]
    | None => ∃ bufs, ws = write_calls bufs ∧ concat bufs =
        payload (mo_skip_header mops) (ii_header_size (g_info s)) (ii_data_size (g_info s)) (image t)
    end.

Lemma write_sg_data_spec F N t (Q : Z → gst → Prop) E s (m : M gst Z) :
  g_state s = FPGA_MGR_STATE_WRITE → sizes_ok (g_info s) →
  m = (if bool_decide (is_Some (mo_write_sg mops)) then fpga_mgr_write_sg mops t
       else
         s ← get;
         let info := g_info s in
         if mo_skip_header mops then
           match sg_miter_skip t (ii_header_size info) with
           | None => mret (- EINVAL)
           | Some chunks => write_chunks mops chunks (ii_data_size info) 0
           end
         else write_chunks mops (sg_chunks t) (ii_data_size info) 0) →
  (∀ ret s', (ret = 0 → sg_written t s s') →
     (ret ≠ 0 → ∃ ws, g_calls s' = g_calls s ++ ws ∧ Forall data_call ws ∧ (ws = [] → ret = - EINVAL ∨ ret = - EOPNOTSUPP)) → Q ret s') →
  wpg F N m Q E s.
Proof.
  intros Hs Hz -> HQ. unfold sg_written in HQ. destruct (mo_write_sg mops) as [f|] eqn:Hw.
  { rewrite bool_decide_eq_true_2 by done. eapply write_sg_spec; [done..|].
    intros ret s' [_ Hc] Hi. apply HQ; [intros _; split; [done|]; by eexists|]. intros _. eexists. split; [exact Hc|]. by repeat constructor. }
  rewrite bool_decide_eq_false_2 by (by intros [? [=]]). wsteps.
  assert (∀ chunks img', concat chunks = img' →
    rest_of (ii_data_size (g_info s)) 0 img' =
      payload (mo_skip_header mops) (ii_header_size (g_info s)) (ii_data_size (g_info s)) (image t) →
    wpg F N (write_chunks mops chunks (ii_data_size (g_info s)) 0) Q E s) as Hchunks.
  { intros chunks img' Himg Hpay. apply write_chunks_spec; [done| |intros ret s' ws ? ? ? Hws; apply HQ; [done|]; intros _; exists ws; split_and!; [done..|]; intros ->; right; by apply Hws|].
    - destruct Hz as [_ Hz]. lia.
    - intros s' ws _ Hi Hc Hws. apply HQ; [|done]. intros _. split; [done|]. exists (write_calls ws).
      split; [done|]. exists ws. by rewrite Hws, Himg, Hpay. }
  unfold payload in *. destruct (mo_skip_header mops).
  - pose proof (sg_skip_law t (ii_header_size (g_info s)) ltac:(apply Hz)) as Hskip.
    destruct (sg_miter_skip _ _) as [chunks|]; [|wsteps; apply HQ; [done|]; intros _; exists []; split_and!; [by rewrite app_nil_r|done|by left]].
    eapply Hchunks; [apply Hskip|]. unfold rest_of. by rewrite Z.sub_0_r.
  - eapply Hchunks; [done|]. unfold rest_of, image. by rewrite Z.sub_0_r.
Qed.

Lemma buf_load_sg_spec F fuel t (Q : unit → gst → Prop) (E : Z → gst → Prop) s :
  sizes_ok (g_info s) → (length (image t) < fuel)%nat →
  (∀ e s', e ≠ 0 → failed_in (image t) s e s' → E e s') →
  (∀ u s' calls, g_state s' = FPGA_MGR_STATE_OPERATING → g_calls s' = g_calls s ++ calls →
     data_loaded t (g_info s') calls → Q u s') →
  wpg F False (fpga_mgr_buf_load_sg mops fuel t) Q E s.
Proof.
  intros Hz Hf HE HQ. unfold fpga_mgr_buf_load_sg, set_state. wsteps.
  apply prepare_sg_spec; [done..|]. intros _ s1 pre Hz1 Hpre Hp. wsteps.
  eapply write_sg_data_spec; [done|exact Hz1|reflexivity|]. intros ret s2 H2 H2'.
  destruct (Z.eqb_spec ret 0) as [->|Hr]; cbn [negb]; wsteps.
  2: { apply HE; [done|]. destruct (H2' Hr) as (ws & Hc & Hws & Hne). exists (pre ++ ws).
       split; [cbn in Hc |- *; by rewrite Hc, Hpre, app_assoc|]. by exists pre, ws. }
  destruct (H2 eq_refl) as (Hi & ws & Hc & Hws). cbn in Hi, Hc, Hws. apply write_complete_spec.
  - intros u s3 Hs3 Hc3 [Hh3 Hd3]. rewrite Hi in Hh3, Hd3.
    apply (HQ u s3 (pre ++ ws ++ complete_calls)); [done|..].
    + by rewrite Hc3, Hc, Hpre, <-!app_assoc.
    + unfold data_loaded, loaded. destruct (mo_write_sg mops); [subst; by eexists|].
      destruct Hws as (bufs & -> & Hbufs). exists pre, bufs. by rewrite Hh3, Hd3.
  - intros e s3 He Hs3 Hsome Hc3. apply HE; [done|]. exists (pre ++ ws ++ complete_calls).
    split; [by rewrite Hc3, Hc, Hpre, <- !app_assoc|]. rewrite Hs3. split; [done|]. exists pre, ws. split_and!; [done..|].
    destruct (mo_write_sg mops); [subst; by repeat constructor|]. destruct Hws as (bufs & -> & _). apply write_calls_data.
Qed.

(** *** Images in a buffer *)

(** Parsing the header does not make [header_size + data_size] wrap around. *)
Definition no_wrap : Prop := ∀ f i b d r i' d',
  mo_parse_header mops = Some f → f i b d = ((r, i'), d') →
  ii_header_size i + ii_data_size i < 2 ^ 64 → ii_header_size i' + ii_data_size i' < 2 ^ 64.

Lemma parse_header_no_wrap F N buf (Q : Z → gst → Prop) E s :
  g_state s = FPGA_MGR_STATE_PARSE_HEADER → sizes_ok (g_info s) → no_wrap →
  ii_header_size (g_info s) + ii_data_size (g_info s) < 2 ^ 64 →
  (∀ ret s', parsed buf s s' →
     ii_header_size (g_info s') + ii_data_size (g_info s') < 2 ^ 64 → Q ret s') →
  wpg F N (fpga_mgr_parse_header mops buf) Q E s.
Proof.
  intros Hs Hz Hnw Hsum HQ. pose proof (parsed_refl buf s Hs Hz) as Hp.
  pose proof (λ ret s', HQ ret s') as HQ'. unfold fpga_mgr_parse_header.
  destruct (mo_parse_header mops) as [f|] eqn:Hf; wsteps; [|by apply HQ].
  unfold log_call. wsteps. apply wp_drv_info. intros ret info d Hr. apply HQ.
  - eapply (parsed_step _ _ _ _ buf Hp); [|cbn; by eapply (parse_sizes _ Hd)|done].
    unfold parse_calls. rewrite Hf. split; cbn; [done|]. by rewrite Hs.
  - cbn. by eapply Hnw.
Qed.

Lemma parse_header_mapped_spec F N buf (Q : unit → gst → Prop) (E : Z → gst → Prop) s :
  sizes_ok (g_info s) → no_wrap → ii_header_size (g_info s) + ii_data_size (g_info s) < 2 ^ 64 →
  (∀ e s', e ≠ 0 → parse_failed buf s s' → E e s') →
  (∀ u s' s0, g_calls s0 = g_calls s → parsed buf s0 s' →
     ii_header_size (g_info s') + ii_data_size (g_info s') ≤ Z.of_nat (length buf) → Q u s') →
  wpg F N (fpga_mgr_parse_header_mapped mops buf) Q E s.
Proof.
  intros Hz Hnw Hsum HE HQ. unfold fpga_mgr_parse_header_mapped, set_state. wsteps.
  apply parse_header_no_wrap; [done..|]. intros ret s' Hp Hsum'. wsteps.
  assert (Hfail : ∀ k i d, parse_failed buf s (GSt k FPGA_MGR_STATE_PARSE_HEADER_ERR i d (g_calls s'))) by (intros; exact (parsed_failed _ _ _ _ _ _ Hp)).
  destruct Hp as (Hs & [Hh Hdd] & Hc). rewrite u64_small by (unfold is_u64; lia).
  destruct (Z.ltb_spec (Z.of_nat (length buf)) (ii_header_size (g_info s') + ii_data_size (g_info s'))).
  { change (- EINVAL =? 0) with false. cbn [negb]. wsteps. by apply HE. }
  destruct (Z.eqb_spec ret 0); cbn [negb]; wsteps; [|by apply HE].
  eapply (HQ tt s' (GSt _ FPGA_MGR_STATE_PARSE_HEADER _ _ _)); [|done..]. reflexivity.
Qed.

Lemma mapped_payload buf header_size data_size data len :
  0 ≤ header_size → 0 ≤ data_size → header_size + data_size ≤ Z.of_nat (length buf) →
  Z.of_nat (length buf) < 2 ^ 64 →
  (if mo_skip_header mops
   then (drop (Z.to_nat header_size) buf, u64 (Z.of_nat (length buf) - header_size))
   else (buf, Z.of_nat (length buf))) = (data, len) →
  let n := if negb (data_size =? 0) then data_size else len in
  n ≤ Z.of_nat (length data) ∧
  take (Z.to_nat n) data = payload (mo_skip_header mops) header_size data_size buf.
Proof.
  intros ???? Hdata. unfold payload. destruct (mo_skip_header mops); injection Hdata as <- <-;
    rewrite ?u64_small by (unfold is_u64; lia);
    destruct (Z.eqb_spec data_size 0); cbn [negb]; rewrite ?length_drop;
    (split; [lia|]); try done; apply take_ge; rewrite ?length_drop; lia.
Qed.

Lemma buf_load_mapped_spec F N buf (Q : unit → gst → Prop) (E : Z → gst → Prop) s :
  is_Some (mo_write mops) →
  sizes_ok (g_info s) → no_wrap → ii_header_size (g_info s) + ii_data_size (g_info s) < 2 ^ 64 →
  Z.of_nat (length buf) < 2 ^ 64 →
  (∀ e s', e ≠ 0 → failed_in buf s e s' → E e s') →
  (∀ u s' calls, g_state s' = FPGA_MGR_STATE_OPERATING → g_calls s' = g_calls s ++ calls →
     ii_header_size (g_info s') + ii_data_size (g_info s') ≤ Z.of_nat (length buf) →
     loaded buf (g_info s') calls → Q u s') →
  wpg F N (fpga_mgr_buf_load_mapped mops buf) Q E s.
Proof.
  intros Hwr Hz Hnw Hsum Hlen HE HQ. unfold fpga_mgr_buf_load_mapped, set_state. wsteps.
  apply parse_header_mapped_spec; [done..| |].
  { intros e s' He (Hs & l & Hc & Hl). apply HE; [done|]. exists l. by rewrite Hs. }
  intros _ s1 s0 Hs0 Hp Hfit. pose proof Hp as (_ & Hz1 & _). wsteps.
  apply (write_init_buf_spec _ _ buf); [done|apply Hz1| |].
  2: { intros e s' He Hs (l & Hc & Hl). apply HE; [done|]. destruct Hp as (_ & _ & ps & Hcp & Hps).
       exists (parse_calls ps ++ l). split; [by rewrite Hc, Hcp, Hs0, app_assoc|]. rewrite Hs. exists (parse_calls ps), l. split; [by exists ps|done]. }
  intros _ s2 b _ Hc2 Hi [Hh2 Hd2]. destruct (prepared_from _ _ _ _ _ _ Hp Hc2 Hi) as (pre & Hpre & Hprep).
  wsteps. rewrite Hh2, Hd2. destruct Hz1 as [Hzh Hzd].
  set (p := if mo_skip_header mops then (drop _ buf, _) else _).
  destruct p as [data len] eqn:Hdata. subst p.
  set (n := if negb (ii_data_size (g_info s1) =? 0) then _ else _). wsteps.
  assert (n ≤ Z.of_nat (length data) ∧ take (Z.to_nat n) data = payload (mo_skip_header mops)
    (ii_header_size (g_info s1)) (ii_data_size (g_info s1)) buf) as [Hn Hpay]
    by (apply (mapped_payload _ _ _ _ len); [lia..|done]).
  apply core_write_spec; [done..|]. intros ret s3 Hg Hs3 Hi3. cbn in Hi3.
  destruct (Z.eqb_spec ret 0) as [->|Hr]; cbn [negb]; wsteps.
  2: { apply HE; [done|]. destruct Hg as [[_ Hc3]|[-> ->]].
       - exists (pre ++ write_calls [take (Z.to_nat n) data]). split; [cbn in Hc3 |- *; by rewrite Hc3, Hpre, Hs0, <- app_assoc|].
         exists pre, (write_calls [take (Z.to_nat n) data]). split_and!; [done|done|apply write_calls_data|done].
       - exists (pre ++ []). split; [by rewrite app_nil_r; cbn; rewrite Hpre, Hs0|]. exists pre, []. split_and!; [done..|by right]. }
  destruct Hg as [[_ Hc3]|[? _]]; [|done]. apply write_complete_spec.
  - intros u s4 Hs4 Hc4 [Hh4 Hd4]. rewrite Hi3, Hh2 in Hh4. rewrite Hi3, Hd2 in Hd4.
    apply (HQ u s4 (pre ++ write_calls [take (Z.to_nat n) data] ++ complete_calls)); [done|..].
    + rewrite Hc4, Hc3. cbn [g_calls]. by rewrite Hpre, Hs0, <-!app_assoc.
    + by rewrite Hh4, Hd4.
    + exists pre, [take (Z.to_nat n) data]. split; [done|]. split; [done|].
      cbn [concat]. by rewrite app_nil_r, Hh4, Hd4, Hpay.
  - intros e s4 He Hs4 Hsome Hc4. apply HE; [done|]. exists (pre ++ write_calls [take (Z.to_nat n) data] ++ complete_calls).
    split; [by rewrite Hc4, Hc3; cbn [g_calls]; rewrite Hpre, Hs0, <- !app_assoc|]. rewrite Hs4. split; [done|].
    exists pre, (write_calls [take (Z.to_nat n) data]). split_and!; [done|done|apply write_calls_data].
Qed.

(** *** Loading *)

Lemma load_start_sizes (info : fpga_image_info) :
  0 ≤ ii_data_size info < 2 ^ 64 →
  sizes_ok (ImageInfo _ (ii_firmware_name info) (ii_sgt info) (ii_buf info)
    (mo_initial_header_size mops) (ii_data_size info) (ii_flags info) (ii_region_id info)).
Proof. intros. split; cbn; [apply (initial_size _ Hd)|done]. Qed.

(** C13: loading an image from a scatterlist always ends, and leaves the manager
    operating or in the error state of the step that failed.  After a success the
    driver has been called in this order, each time in the state of that step: to
    parse starts of the image; to prepare, with a start of the image at least as
    long as the header (or nothing if there is no header); to write, and what it
    got are exactly the bytes of the image without the header it asked to skip and
    limited to the data size it set, or the scatterlist; to complete.  After a failure
    these calls were made up to those of the step that the state names: only
    parsing; parsing and preparing; these two and writing; or all of them. *)
Theorem load_scatterlist fuel t s :
  ii_sgt (g_info s) = Some t → 0 ≤ ii_data_size (g_info s) < 2 ^ 64 →
  (length (image t) < fuel)%nat →
  wp (fpga_mgr_load mops fuel)
    (λ _ s', g_state s' = FPGA_MGR_STATE_OPERATING ∧
       ∃ calls, g_calls s' = g_calls s ++ calls ∧ data_loaded t (g_info s') calls)
    (λ e s', e ≠ 0 ∧ failed_in (image t) s e s') s.
Proof.
  intros Ht Hz Hf. unfold fpga_mgr_load, set_header_size. wsteps. cbn [g_info ii_sgt]. rewrite Ht.
  apply buf_load_sg_spec; [by apply load_start_sizes|done|done|].
  intros u s' calls Hs Hc Hl. split; [done|]. by exists calls.
Qed.

(** Loading an image from a buffer through a driver that has a [write]
    callback ends the same way, and the driver gets the same bytes it would get
    from a scatterlist; in a success the header and the data the driver asked for
    also lie in the image.  It needs that the sum of the two sizes the driver
    sets does not wrap around. *)
Lemma load_buffer fuel addr buf s :
  is_Some (mo_write mops) → no_wrap → ii_sgt (g_info s) = None →
  ii_buf (g_info s) = Some (addr, buf) → buf ≠ [] → Z.of_nat (length buf) < 2 ^ 64 →
  0 ≤ ii_data_size (g_info s) → mo_initial_header_size mops + ii_data_size (g_info s) < 2 ^ 64 →
  wp (fpga_mgr_load mops fuel)
    (λ _ s', g_state s' = FPGA_MGR_STATE_OPERATING ∧
       ii_header_size (g_info s') + ii_data_size (g_info s') ≤ Z.of_nat (length buf) ∧
       ∃ calls, g_calls s' = g_calls s ++ calls ∧ loaded buf (g_info s') calls)
    (λ e s', e ≠ 0 ∧ failed_in buf s e s') s.
Proof.
  intros Hw Hnw Ht Hb Hne Hlen Hz Hsum. destruct buf as [|b buf]; [done|].
  unfold fpga_mgr_load, set_header_size. wsteps. cbn [g_info ii_sgt ii_buf]. rewrite Ht, Hb.
  unfold fpga_mgr_buf_load. rewrite bool_decide_eq_true_2 by done.
  pose proof (initial_size _ Hd).
  apply buf_load_mapped_spec; [done|apply load_start_sizes; lia|done..|].
  intros u s' calls Hs Hc Hfit Hl. split_and!; [done..|]. by exists calls.
Qed.

Lemma collect_pages_spec F N p n (Q : list page → gst → Prop) (E : Z → gst → Prop) s :
  (∀ pages, Q pages s) → E (- EFAULT) s → wpg F N (collect_pages (D := D) p n) Q E s.
Proof.
  revert p Q. induction n as [|n IH]; intros p Q HQ HE; cbn [collect_pages]; [by wsteps|].
  destruct (page_at p); wsteps; [|done]. apply IH; [|done]. intros pages. by wsteps.
Qed.

(** How a load that fails leaves the manager: a step of the driver failed, or the
    driver has not been called and the state is one of [sts]. *)
Definition load_failed (s : gst) (sts : list fpga_mgr_states) (s' : gst) : Prop :=
  failed_state (g_state s') ∨ (g_calls s' = g_calls s ∧ g_state s' ∈ sts).

Lemma buf_load_spec F fuel addr buf (Q : unit → gst → Prop) (E : Z → gst → Prop) s :
  sizes_ok (g_info s) → no_wrap → ii_header_size (g_info s) + ii_data_size (g_info s) < 2 ^ 64 →
  Z.of_nat (length buf) < 2 ^ 64 → (length buf < fuel)%nat →
  (∀ e s', load_failed s [g_state s] s' → E e s') →
  (∀ u s', g_state s' = FPGA_MGR_STATE_OPERATING → Q u s') →
  wpg F False (fpga_mgr_buf_load mops fuel addr buf) Q E s.
Proof.
  intros Hz Hnw Hsum Hlen Hf HE HQ. unfold fpga_mgr_buf_load.
  case_bool_decide.
  { apply buf_load_mapped_spec; [done..| |]; [intros ? ? _ ?%failed_in_state; apply HE; by left|intros; by eapply HQ]. }
  wsteps. apply wp_kalloc_mem. intros ok k. destruct ok; cbn [negb]; wsteps.
  2: { apply HE. right. split; [done|]. by left. }
  apply collect_pages_spec; [|apply HE; right; split; [done|by left]].
  intros pages. destruct (sg_alloc_table_from_pages _ _ _) as [t|rc] eqn:Ht; wsteps.
  2: { apply HE. right. split; [done|]. by left. }
  apply sg_alloc_law in Ht; [|lia].
  apply buf_load_sg_spec; [done|lia|intros ? ? _ ?%failed_in_state; apply HE; by left|intros; by eapply HQ].
Qed.

(** The images that can be met fit the fuel, and a [size_t]. *)
Definition images_fit (fuel : nat) (s : gst) : Prop :=
  (∀ t, ii_sgt (g_info s) = Some t → (length (image t) < fuel)%nat) ∧
  (∀ addr buf, ii_buf (g_info s) = Some (addr, buf) →
     (length buf < fuel)%nat ∧ Z.of_nat (length buf) < 2 ^ 64) ∧
  (∀ name k addr data k', request_firmware name k = (inl (addr, data), k') →
     (length data < fuel)%nat ∧ Z.of_nat (length data) < 2 ^ 64).

(** Loading ends whatever the image comes from.  A success leaves the manager
    operating.  After an error, either a step of the driver failed and the state
    names it, or the driver was never called and the state says that the image
    could not be fetched or is unchanged. *)
Lemma load_ends fuel s :
  no_wrap → images_fit fuel s → 0 ≤ ii_data_size (g_info s) →
  mo_initial_header_size mops + ii_data_size (g_info s) < 2 ^ 64 →
  wp (fpga_mgr_load mops fuel)
    (λ _ s', g_state s' = FPGA_MGR_STATE_OPERATING)
    (λ _ s', load_failed s
       [g_state s; FPGA_MGR_STATE_FIRMWARE_REQ; FPGA_MGR_STATE_FIRMWARE_REQ_ERR] s') s.
Proof.
  intros Hnw (Hft & Hfb & Hff) Hz Hsum. pose proof (initial_size _ Hd).
  assert (sizes_ok (ImageInfo _ (ii_firmware_name (g_info s)) (ii_sgt (g_info s)) (ii_buf (g_info s))
    (mo_initial_header_size mops) (ii_data_size (g_info s))
    (ii_flags (g_info s)) (ii_region_id (g_info s)))) as Hz0 by (apply load_start_sizes; lia).
  assert (∀ (s1 s' : gst), g_calls s1 = g_calls s →
    g_state s1 ∈ [g_state s; FPGA_MGR_STATE_FIRMWARE_REQ; FPGA_MGR_STATE_FIRMWARE_REQ_ERR] →
    load_failed s1 [g_state s1] s' → load_failed s
      [g_state s; FPGA_MGR_STATE_FIRMWARE_REQ; FPGA_MGR_STATE_FIRMWARE_REQ_ERR] s') as Hfail.
  { intros s1 s' Hc Hs [|[Hc' Hs']]; [by left|]. right. apply list_elem_of_singleton in Hs'.
    by rewrite Hc', Hs'. }
  unfold fpga_mgr_load, set_header_size. wsteps. cbn [g_info ii_sgt ii_buf ii_firmware_name].
  destruct (ii_sgt (g_info s)) as [t|] eqn:Ht.
  { apply buf_load_sg_spec; [done|by apply Hft|intros ? ? _ ?%failed_in_state; by left|done]. }
  assert (∀ name : string, wp (fpga_mgr_firmware_load mops fuel name)
    (λ _ s', g_state s' = FPGA_MGR_STATE_OPERATING)
    (λ _ s', load_failed s
       [g_state s; FPGA_MGR_STATE_FIRMWARE_REQ; FPGA_MGR_STATE_FIRMWARE_REQ_ERR] s')
    (GSt (g_k s) (g_state s) (ImageInfo _ (ii_firmware_name (g_info s)) None (ii_buf (g_info s))
      (mo_initial_header_size mops) (ii_data_size (g_info s))
    (ii_flags (g_info s)) (ii_region_id (g_info s))) (g_drv s) (g_calls s))) as Hfw.
  { intros name. unfold fpga_mgr_firmware_load, set_state. wsteps.
    unfold wpg at 1. cbn [g_k g_state g_info g_drv g_calls].
    destruct (request_firmware name (g_k s)) as [[[addr data]|ret] k'] eqn:Hr.
    - destruct (Hff _ _ _ _ _ Hr). apply buf_load_spec; [done..| |done].
      intros e s'. apply Hfail; cbn; [done|]. right. by left.
    - wsteps. right. split; [done|]. cbn. do 2 right. by left. }
  destruct (ii_buf (g_info s)) as [[addr [|b buf]]|] eqn:Hb.
  - destruct (ii_firmware_name (g_info s)); [done|]. wsteps. right. split; [done|by left].
  - destruct (Hfb _ _ eq_refl). apply buf_load_spec; [done..| |done].
    intros e s'. apply Hfail; [done|by left].
  - destruct (ii_firmware_name (g_info s)); [done|]. wsteps. right. split; [done|by left].
Qed.

(** *** Pages of a buffer *)

(** The addresses of the pages that hold bytes [addr] to [addr + count - 1]. *)
Definition page_addrs (addr count : Z) : list Z :=
  (λ i, PAGE_SIZE * i) <$> seqZ (addr / PAGE_SIZE) ((addr + count - 1) / PAGE_SIZE - addr / PAGE_SIZE + 1).

Lemma collect_pages_run p n pages (s : gst) :
  mapM page_at ((λ i, p + PAGE_SIZE * i) <$> seqZ 0 (Z.of_nat n)) = Some pages →
  collect_pages p n s = Done (Val pages, s).
Proof.
  revert p pages. induction n as [|n IH]; intros p pages; [by intros [= <-]|].
  rewrite (seqZ_cons 0) by lia. replace (Z.pred (Z.of_nat (S n))) with (Z.of_nat n) by lia.
  cbn [fmap list_fmap mapM collect_pages]. replace (p + PAGE_SIZE * 0) with p by lia.
  destruct (page_at p) as [pg|]; [|done]. cbn. intros Hm.
  assert (mapM page_at ((λ i, p + PAGE_SIZE + PAGE_SIZE * i) <$> seqZ 0 (Z.of_nat n)) =
    mapM page_at ((λ i, p + PAGE_SIZE * i) <$> seqZ (Z.succ 0) (Z.of_nat n))) as Heq.
  { f_equal. change (Z.succ 0) with (1 + 0). rewrite <-(fmap_add_seqZ 1 0), <-list_fmap_compose. apply list_fmap_ext. intros; cbn; lia. }
  rewrite <-Heq in Hm. destruct (mapM page_at _) as [rest|] eqn:Hr; [|done]. injection Hm as <-.
  unfold mbind, M_bind. by rewrite (IH _ _ Hr).
Qed.

Lemma nr_pages_last addr count :
  0 < PAGE_SIZE → (addr + count + PAGE_SIZE - 1) / PAGE_SIZE - addr / PAGE_SIZE
    = (addr + count - 1) / PAGE_SIZE - addr / PAGE_SIZE + 1.
Proof.
  intros. replace (addr + count + PAGE_SIZE - 1) with (addr + count - 1 + 1 * PAGE_SIZE) by lia.
  rewrite Z.div_add by lia. lia.
Qed.

(** A buffer for a driver without a [write] callback is loaded as the
    scatterlist made of exactly the pages that hold its bytes, the first to the
    last, with the offset of the buffer in the first page. *)
Lemma buffer_by_pages fuel addr buf s k pages t :
  mo_write mops = None → 0 < PAGE_SIZE → buf ≠ [] →
  mk_alloc (g_k s) = (true, k) →
  mapM page_at (page_addrs addr (Z.of_nat (length buf))) = Some pages →
  sg_alloc_table_from_pages pages (addr mod PAGE_SIZE) (Z.of_nat (length buf)) = inl t →
  fpga_mgr_buf_load mops fuel addr buf s =
    fpga_mgr_buf_load_sg mops fuel t (GSt k (g_state s) (g_info s) (g_drv s) (g_calls s)).
Proof.
  intros Hw Hps Hne Hk Hpages Ht. unfold fpga_mgr_buf_load. rewrite Hw.
  change (bool_decide (is_Some None)) with false. cbv iota.
  unfold mbind, M_bind. unfold kalloc_mem at 1. rewrite Hk. cbn [negb].
  rewrite nr_pages_last by done.
  set (n := (addr + _ - 1) / PAGE_SIZE - addr / PAGE_SIZE + 1) in *.
  rewrite (collect_pages_run _ _ pages).
  - by rewrite Ht.
  - rewrite <-Hpages. unfold page_addrs. f_equal.
    assert (0 < Z.of_nat (length buf)) by (destruct buf; [done|cbn; lia]).
    assert (addr / PAGE_SIZE ≤ (addr + Z.of_nat (length buf) - 1) / PAGE_SIZE)
      by (apply Z.div_le_mono; lia).
    rewrite Z2Nat.id by lia. 
    replace (seqZ (addr / PAGE_SIZE)) with (seqZ (addr / PAGE_SIZE + 0)) by (f_equal; lia).
    rewrite <-fmap_add_seqZ, <-list_fmap_compose. apply list_fmap_ext. intros; cbn.
    pose proof (Z.div_mod addr PAGE_SIZE). lia.
Qed.
End Facts.

(** ** Drivers that write a buffer as it is

    No header, no size of the data: loading a buffer prepares the driver, hands it
    the buffer, and completes.  A driver's own theorem about loading is one about
    its three callbacks. *)
Section Plain.
Context `{MgrKernel} {D : Type} (mops : fpga_manager_ops D).
Record plain_driver (init : fpga_image_info → list Z → D → (Z * fpga_image_info) * D) (write : list Z → D → Z * D)
    (complete : option (fpga_image_info → D → (Z * fpga_image_info) * D)) : Prop := PlainDriver {
  plain_header : mo_initial_header_size mops = 0;
  plain_skip : mo_skip_header mops = false;
  plain_parse : mo_parse_header mops = None;
  plain_init : mo_write_init mops = Some init;
  plain_write : mo_write mops = Some write;
  plain_complete : mo_write_complete mops = complete;
}.
(** What the driver finds: the information with no header. *)
Definition no_header (i : fpga_image_info) : fpga_image_info :=
  ImageInfo _ (ii_firmware_name i) (ii_sgt i) (ii_buf i) 0 (ii_data_size i) (ii_flags i) (ii_region_id i).
(** What is known after a failure of the step that the state names. *)
Definition failed_step (E1 E2 E3 : Z → D → Prop) (st : fpga_mgr_states) : Z → D → Prop :=
  match st with
  | FPGA_MGR_STATE_WRITE_INIT_ERR => E1
  | FPGA_MGR_STATE_WRITE_ERR => E2
  | FPGA_MGR_STATE_WRITE_COMPLETE_ERR => E3
  | _ => λ _ _, False
  end.
Lemma failed_step_mono E1 E2 E3 (E : Z → D → Prop) st e d :
  failed_step E1 E2 E3 st e d → (∀ e d, E1 e d → E e d) → (∀ e d, E2 e d → E e d) → (∀ e d, E3 e d → E e d) → failed_state st ∧ E e d.
Proof. destruct st; cbn; try done; auto. Qed.
Lemma load_buffer_rule init write complete fl addr buf g (R1 R2 R3 : D → Prop) (E1 E2 E3 : Z → D → Prop) :
  plain_driver init write complete →
  ii_sgt (g_info g) = None → ii_buf (g_info g) = Some (addr, buf) → buf ≠ [] → ii_data_size (g_info g) = 0 →
  (let '((r, i), d) := init (no_header (g_info g)) [] (g_drv g) in i = no_header (g_info g) ∧ ended (r, d) R1 E1) →
  (∀ d, R1 d → ended (write buf d) R2 E2) →
  (∀ d, R2 d → match complete with
                | Some complete => let '((r, i), d') := complete (no_header (g_info g)) d in ended (r, d') R3 E3
                | None => R3 d
                end) →
  wp (fpga_mgr_load mops fl)
    (λ _ g', g_state g' = FPGA_MGR_STATE_OPERATING ∧ R3 (g_drv g'))
    (λ e g', failed_step E1 E2 E3 (g_state g') e (g_drv g')) g.
Proof.
  intros [Hh Hs Hp Hi Hw Hc] Ht Hb Hne Hz H1 H2 H3. destruct buf as [|b buf]; [done|]. set (l := b :: buf) in *.
  unfold fpga_mgr_load, set_header_size. wsteps; cbn [g_k g_state g_info g_drv g_calls]. cbn [g_info ii_sgt ii_buf]. rewrite Ht, Hb, Hh.
  unfold l at 1. fold l. unfold fpga_mgr_buf_load. rewrite Hw. change (bool_decide (is_Some (Some write))) with true. cbv iota.
  unfold fpga_mgr_buf_load_mapped, fpga_mgr_parse_header_mapped, set_state, fpga_mgr_parse_header. rewrite Hp, Hs.
  wsteps; cbn [g_k g_state g_info g_drv g_calls]. cbn [g_info ii_header_size ii_data_size].
  rewrite Hz, u64_small by (unfold is_u64; lia). rewrite (proj2 (Z.ltb_ge _ _)) by lia. cbn [Z.eqb negb]. wsteps; cbn [g_k g_state g_info g_drv g_calls].
  unfold fpga_mgr_write_init_buf, set_state. wsteps; cbn [g_k g_state g_info g_drv g_calls]. cbn [g_info ii_header_size].
  rewrite (proj2 (Z.ltb_ge _ _)) by lia. cbn [Z.eqb]. unfold fpga_mgr_write_init. rewrite Hi. unfold log_call. wsteps; cbn [g_k g_state g_info g_drv g_calls].
  unfold wpg at 1, drv_info. cbn [g_info g_drv]. unfold no_header in H1, H3. rewrite Hz in H1, H3. rewrite Ht, Hb in H1, H3. rewrite ?Ht, ?Hb.
  destruct (init _ _ _) as [[r1 i1] d1]. destruct H1 as [-> H1]. unfold ended in *. cbn [fst snd] in H1. destruct H1 as [[-> HR]|[Hr HE]]; cbn [Z.eqb negb];
    [|rewrite (proj2 (Z.eqb_neq _ _)) by done; cbn [negb]; wsteps; exact HE].
  wsteps; cbn [g_k g_state g_info g_drv g_calls]. cbn [ii_data_size ii_header_size Z.eqb negb].
  unfold fpga_mgr_write. rewrite Hw, Z.leb_refl, Nat2Z.id, firstn_all. cbn [access]. unfold log_call. wsteps; cbn [g_k g_state g_info g_drv g_calls].
  unfold wpg at 1, drv. cbn [g_drv]. specialize (H2 d1 HR). destruct (write l d1) as [r2 d2]. cbn [fst snd] in H2. destruct H2 as [[-> HR2]|[Hr HE]]; cbn [Z.eqb negb];
    [|rewrite (proj2 (Z.eqb_neq _ _)) by done; cbn [negb]; wsteps; exact HE].
  wsteps; cbn [g_k g_state g_info g_drv g_calls]. unfold fpga_mgr_write_complete, set_state. rewrite Hc. unfold log_call. specialize (H3 d2 HR2).
  destruct complete as [complete|]; [|wsteps; by split]. wsteps; cbn [g_k g_state g_info g_drv g_calls].
  unfold wpg at 1, drv_info. cbn [g_info g_drv]. destruct (complete _ _) as [[r3 i3] d3]. cbn [fst snd] in H3. destruct H3 as [[-> HR3]|[Hr HE]]; cbn [Z.eqb negb];
    [|rewrite (proj2 (Z.eqb_neq _ _)) by done; cbn [negb]]; wsteps; [by split|exact HE].
Qed.
End Plain.
