(* ===== verification/FpgaMgrExamples.v ===== *)
(** * Concrete loads (FpgaMgr)

    A kernel whose scatterlists are lists of chunks, and a driver with a four byte
    header that says how long the header is; the theorems of FpgaMgrFacts at these,
    and two images on which the buffer path and the scatterlist path differ. *)
From stdpp Require Import gmap strings.
From S2P Require Import Prelude FpgaMgr FpgaMgrFacts.

(** Skipping [n] bytes of a list of chunks. *)
Fixpoint skip_chunks (cs : list (list Z)) (n : nat) : option (list (list Z)) :=
  match cs with
  | [] => if (n =? 0)%nat then Some [] else None
  | c :: cs => if (n <? length c)%nat then Some (drop n c :: cs) else skip_chunks cs (n - length c)
  end.
Lemma skip_chunks_spec cs n :
  match skip_chunks cs n with
  | Some cs' => (n ≤ length (concat cs))%nat ∧ concat cs' = drop n (concat cs)
  | None => (length (concat cs) < n)%nat
  end.
Proof.
  revert n. induction cs as [|c cs IH]; intros n; cbn [skip_chunks concat].
  { destruct (Nat.eqb_spec n 0) as [->|]; cbn; [done|lia]. }
  rewrite length_app. destruct (Nat.ltb_spec n (length c)).
  - cbn [concat]. rewrite drop_app_le by lia. split; [lia|done].
  - specialize (IH (n - length c)%nat). destruct (skip_chunks _ _); [|lia].
    rewrite drop_app_ge by lia. split; [lia|apply IH].
Qed.

#[local] Instance demo_kernel : MgrKernel := {
  sgt := list (list Z);
  page := Z;
  mk := unit;
  PAGE_SIZE := 4096;
  sg_chunks t := t;
  sg_miter_skip t n := skip_chunks t (Z.to_nat n);
  sg_pcopy_to_buffer t n skip := take (Z.to_nat n) (drop (Z.to_nat skip) (concat t));
  mk_alloc k := (true, k);
  page_at p := Some p;
  sg_alloc_table_from_pages pages off n := inl [replicate (Z.to_nat n) off];
  request_firmware name k := (inr (- ENOENT), k);
}.
#[local] Instance demo_laws : MgrLaws.
Proof.
  split; unfold image; cbn.
  - done.
  - intros t n Hn. pose proof (skip_chunks_spec t (Z.to_nat n)) as Hs.
    destruct (skip_chunks _ _); [|lia]. split; [lia|apply Hs].
  - intros pages off n t Hn [= <-]. cbn. rewrite app_nil_r, length_replicate. lia.
Qed.

(** Byte 0 of an image is the size of its header, byte 1 that of its data; a
    driver's own state is not used. *)
Definition demo_parse (i : fpga_image_info) (b : list Z) (d : unit) : (Z * fpga_image_info) * unit :=
  match b with
  | h :: n :: _ =>
      let h := h mod 256 in
      ((if Z.of_nat (length b) <? h then - EAGAIN else 0,
        ImageInfo _ (ii_firmware_name i) (ii_sgt i) (ii_buf i) h (n mod 256) (ii_flags i) (ii_region_id i)), d)
  | _ => ((- EINVAL, i), d)
  end.
Definition demo_mops (use_write : bool) : fpga_manager_ops unit :=
  MgrOps _ unit 2 true None None (Some demo_parse) (Some (λ i _ d, ((0, i), d)))
    (if use_write then Some (λ _ d, (0, d)) else None)
    (if use_write then None else Some (λ _ d, (0, d)))
    None None.
Lemma demo_driver_ok w : driver_ok (demo_mops w).
Proof.
  split.
  - cbn. lia.
  - intros f i b d r i' d' [= <-] Hz. unfold demo_parse. destruct b as [|h [|n b]]; intros [=]; subst;
      try done. unfold sizes_ok; cbn.
    pose proof (Z.mod_pos_bound h 256). pose proof (Z.mod_pos_bound n 256). lia.
  - by intros f i b d r i' d' [= <-] [= <- <- <-].
  - done.
Qed.
Lemma demo_no_wrap w : no_wrap (demo_mops w).
Proof.
  intros f i b d r i' d' [= <-]. unfold demo_parse.
  destruct b as [|h [|n b]]; intros [=] Hsum; subst; try done. cbn.
  pose proof (Z.mod_pos_bound h 256). pose proof (Z.mod_pos_bound n 256). lia.
Qed.
Definition demo_state (i : fpga_image_info) : gst (D := unit) :=
  GSt tt FPGA_MGR_STATE_UNKNOWN i tt [].
Abbreviation sg_info t := (ImageInfo demo_kernel None (Some t) None 0 0 0 0).
Abbreviation buf_info b := (ImageInfo demo_kernel None None (Some (4100, b)) 0 0 0 0).

(** A header of three bytes spread over two chunks is parsed in three steps; the
    driver gets the two bytes behind it. *)
Abbreviation split_image := [[3]; [2; 9; 10]; [11; 12]].
Lemma split_image_calls :
  ∃ s, fpga_mgr_load (demo_mops true) 7 (demo_state (sg_info split_image)) = Done (Val tt, s) ∧
    g_calls s =
      [(FPGA_MGR_STATE_PARSE_HEADER, CallParse [3; 2]);
       (FPGA_MGR_STATE_PARSE_HEADER, CallParse [3; 2; 9]);
       (FPGA_MGR_STATE_WRITE_INIT, CallInit (ImageInfo _ None (Some split_image) None 3 2 0 0) [3; 2; 9]);
       (FPGA_MGR_STATE_WRITE, CallWrite [10]); (FPGA_MGR_STATE_WRITE, CallWrite [11])].
Proof. eexists. split; vm_compute; reflexivity. Qed.

Lemma load_scatterlist_witness :
  ∃ s, fpga_mgr_load (demo_mops true) 7 (demo_state (sg_info split_image)) = Done (Val tt, s) ∧
    (g_state s = FPGA_MGR_STATE_OPERATING ∧
     ∃ calls, g_calls s = [] ++ calls ∧ data_loaded (demo_mops true) split_image (g_info s) calls).
Proof.
  eexists. split; [vm_compute; reflexivity|].
  refine (wp_elim (fpga_mgr_load (demo_mops true) 7) _ _ _ _ _
    (load_scatterlist (demo_mops true) (demo_driver_ok true) 7 split_image
      (demo_state (sg_info split_image)) _ _ _) _); [reflexivity|cbn; lia|cbn; lia|vm_compute; reflexivity].
Defined.


Lemma load_buffer_witness :
  ∃ s, fpga_mgr_load (demo_mops true) 7 (demo_state (buf_info [3; 2; 9; 10; 11; 12])) = Done (Val tt, s) ∧
    (g_state s = FPGA_MGR_STATE_OPERATING ∧
     ii_header_size (g_info s) + ii_data_size (g_info s) ≤ 6 ∧
     ∃ calls, g_calls s = [] ++ calls ∧ loaded (demo_mops true) [3; 2; 9; 10; 11; 12] (g_info s) calls).
Proof.
  eexists. split; [vm_compute; reflexivity|].
  refine (wp_elim (fpga_mgr_load (demo_mops true) 7) _ _ _ _ _
    (load_buffer (demo_mops true) (demo_driver_ok true) 7 4100 [3; 2; 9; 10; 11; 12]
      (demo_state (buf_info [3; 2; 9; 10; 11; 12])) _ (demo_no_wrap true) _ _ _ _ _ _) _);
    try reflexivity; try (cbn; lia); [by eexists|done|vm_compute; reflexivity].
Defined.

Lemma demo_images_fit : images_fit 7 (demo_state (sg_info split_image)).
Proof.
  split_and!.
  - intros t [= <-]. cbn. lia.
  - done.
  - intros name k addr data k' [=].
Qed.
Lemma load_ends_witness :
  ∃ s, fpga_mgr_load (demo_mops false) 7 (demo_state (sg_info split_image)) = Done (Val tt, s) ∧
    g_state s = FPGA_MGR_STATE_OPERATING.
Proof.
  eexists. split; [vm_compute; reflexivity|].
  refine (wp_elim (fpga_mgr_load (demo_mops false) 7) _ _ _ _ _
    (load_ends (demo_mops false) (demo_driver_ok false) 7
      (demo_state (sg_info split_image)) (demo_no_wrap false) demo_images_fit _ _) _);
    [cbn; lia|cbn; lia|vm_compute; reflexivity].
Defined.

(** Six bytes at address 4100 lie in the second page. *)
Lemma buffer_by_pages_witness :
  fpga_mgr_buf_load (demo_mops false) 7 4100 [3; 2; 9; 10; 11; 12] (demo_state (buf_info [3; 2; 9; 10; 11; 12])) =
  fpga_mgr_buf_load_sg (demo_mops false) 7 [replicate 6 4] (demo_state (buf_info [3; 2; 9; 10; 11; 12])).
Proof.
  apply (buffer_by_pages (demo_mops false) 7 4100 [3; 2; 9; 10; 11; 12]
    (demo_state (buf_info [3; 2; 9; 10; 11; 12])) tt [4096]);
    [reflexivity|reflexivity|done|reflexivity..].
Defined.

(** ** Images on which the two paths differ *)

(** A driver whose header announces a data size close to [2^64]. *)
Definition wrap_mops : fpga_manager_ops unit :=
  MgrOps _ unit 2 true None None
    (Some (λ i _ d, ((0, ImageInfo _ (ii_firmware_name i) (ii_sgt i) (ii_buf i) 8 (2 ^ 64 - 4) (ii_flags i) (ii_region_id i)), d)))
    None (Some (λ _ d, (0, d))) None None None.

(** The check that header and data lie in the image is done with wrap-around:
    with a data size near the largest [size_t] it passes, and [write] is called
    with far more bytes than the image has. *)
Lemma mapped_size_wraps :
  fpga_mgr_load wrap_mops 7 (demo_state (buf_info (replicate 16 0))) = Fault.
Proof. vm_compute. reflexivity. Qed.

(** An image shorter than the data size its header announces is refused when
    it comes in a buffer, and loaded without an error when it comes in a
    scatterlist. *)
Lemma short_image_paths_differ :
  (∃ s, fpga_mgr_load (demo_mops true) 7 (demo_state (buf_info [3; 100; 9; 10])) = Done (Err (- EINVAL), s) ∧
     g_state s = FPGA_MGR_STATE_PARSE_HEADER_ERR) ∧
  (∃ s, fpga_mgr_load (demo_mops true) 7 (demo_state (sg_info [[3; 100; 9; 10]])) = Done (Val tt, s) ∧
     g_state s = FPGA_MGR_STATE_OPERATING ∧ ii_data_size (g_info s) = 100 ∧
     g_calls s !! 2%nat = Some (FPGA_MGR_STATE_WRITE, CallWrite [10])).
Proof. split; eexists; (split; [vm_compute; reflexivity|]); vm_compute; auto. Qed.
