(* ===== verification/AltCvp.v ===== *)
(** * Configuration over PCIe (drivers/fpga/altera-cvp.c)

    A low level driver of the manager framework ([FpgaMgr]) that loads an image through
    registers in the configuration space of the card: a vendor capability with a
    status, a mode, and a register for the data.  Version 2 of the hardware
    grants credits for blocks of data. *)
From stdpp Require Import list strings.
From S2P Require Import Prelude Bytes FpgaMgr.

(* drivers/fpga/altera-cvp.c:20-20 CVP_BAR *)
Definition CVP_BAR : Z := 0.
(* drivers/fpga/altera-cvp.c:21-21 CVP_DUMMY_WR *)
Definition CVP_DUMMY_WR : nat := 244.
(* drivers/fpga/altera-cvp.c:22-22 TIMEOUT_US *)
Definition TIMEOUT_US : Z := 2000.
(* drivers/fpga/altera-cvp.c:25-25 VSE_PCIE_EXT_CAP_ID *)
Definition VSE_PCIE_EXT_CAP_ID : Z := 0x0.
(* drivers/fpga/altera-cvp.c:26-26 VSE_PCIE_EXT_CAP_ID_VAL *)
Definition VSE_PCIE_EXT_CAP_ID_VAL : Z := 0x000b.
(* drivers/fpga/altera-cvp.c:28-28 VSE_CVP_STATUS *)
Definition VSE_CVP_STATUS : Z := 0x1c.
(* drivers/fpga/altera-cvp.c:29-29 VSE_CVP_STATUS_CFG_RDY *)
Definition VSE_CVP_STATUS_CFG_RDY : Z := 2 ^ 18.
(* drivers/fpga/altera-cvp.c:30-30 VSE_CVP_STATUS_CFG_ERR *)
Definition VSE_CVP_STATUS_CFG_ERR : Z := 2 ^ 19.
(* drivers/fpga/altera-cvp.c:31-31 VSE_CVP_STATUS_CVP_EN *)
Definition VSE_CVP_STATUS_CVP_EN : Z := 2 ^ 20.
(* drivers/fpga/altera-cvp.c:32-32 VSE_CVP_STATUS_USERMODE *)
Definition VSE_CVP_STATUS_USERMODE : Z := 2 ^ 21.
(* drivers/fpga/altera-cvp.c:33-33 VSE_CVP_STATUS_CFG_DONE *)
Definition VSE_CVP_STATUS_CFG_DONE : Z := 2 ^ 23.
(* drivers/fpga/altera-cvp.c:34-34 VSE_CVP_STATUS_PLD_CLK_IN_USE *)
Definition VSE_CVP_STATUS_PLD_CLK_IN_USE : Z := 2 ^ 24.
(* drivers/fpga/altera-cvp.c:36-36 VSE_CVP_MODE_CTRL *)
Definition VSE_CVP_MODE_CTRL : Z := 0x20.
(* drivers/fpga/altera-cvp.c:37-37 VSE_CVP_MODE_CTRL_CVP_MODE *)
Definition VSE_CVP_MODE_CTRL_CVP_MODE : Z := 1.
(* drivers/fpga/altera-cvp.c:38-38 VSE_CVP_MODE_CTRL_HIP_CLK_SEL *)
Definition VSE_CVP_MODE_CTRL_HIP_CLK_SEL : Z := 2.
(* drivers/fpga/altera-cvp.c:39-39 VSE_CVP_MODE_CTRL_NUMCLKS_OFF *)
Definition VSE_CVP_MODE_CTRL_NUMCLKS_OFF : Z := 8.
(* drivers/fpga/altera-cvp.c:40-40 VSE_CVP_MODE_CTRL_NUMCLKS_MASK *)
Definition VSE_CVP_MODE_CTRL_NUMCLKS_MASK : Z := 0xff00.
(* drivers/fpga/altera-cvp.c:42-42 VSE_CVP_DATA *)
Definition VSE_CVP_DATA : Z := 0x28.
(* drivers/fpga/altera-cvp.c:43-43 VSE_CVP_PROG_CTRL *)
Definition VSE_CVP_PROG_CTRL : Z := 0x2c.
(* drivers/fpga/altera-cvp.c:44-44 VSE_CVP_PROG_CTRL_CONFIG *)
Definition VSE_CVP_PROG_CTRL_CONFIG : Z := 1.
(* drivers/fpga/altera-cvp.c:45-45 VSE_CVP_PROG_CTRL_START_XFER *)
Definition VSE_CVP_PROG_CTRL_START_XFER : Z := 2.
(* drivers/fpga/altera-cvp.c:46-46 VSE_CVP_PROG_CTRL_MASK *)
Definition VSE_CVP_PROG_CTRL_MASK : Z := 3.
(* drivers/fpga/altera-cvp.c:48-48 VSE_UNCOR_ERR_STATUS *)
Definition VSE_UNCOR_ERR_STATUS : Z := 0x34.
(* drivers/fpga/altera-cvp.c:49-49 VSE_UNCOR_ERR_CVP_CFG_ERR *)
Definition VSE_UNCOR_ERR_CVP_CFG_ERR : Z := 2 ^ 5.
(* drivers/fpga/altera-cvp.c:51-51 V1_VSEC_OFFSET *)
Definition V1_VSEC_OFFSET : Z := 0x200.
(* drivers/fpga/altera-cvp.c:53-53 VSE_CVP_TX_CREDITS *)
Definition VSE_CVP_TX_CREDITS : Z := 0x49.
(* drivers/fpga/altera-cvp.c:55-55 V2_CREDIT_TIMEOUT_US *)
Definition V2_CREDIT_TIMEOUT_US : Z := 20000.
(* drivers/fpga/altera-cvp.c:56-56 V2_CHECK_CREDIT_US *)
Definition V2_CHECK_CREDIT_US : Z := 10.
(* drivers/fpga/altera-cvp.c:57-57 V2_POLL_TIMEOUT_US *)
Definition V2_POLL_TIMEOUT_US : Z := 1000000.
(* drivers/fpga/altera-cvp.c:58-58 V2_USER_TIMEOUT_US *)
Definition V2_USER_TIMEOUT_US : Z := 500000.
(* drivers/fpga/altera-cvp.c:60-60 V1_POLL_TIMEOUT_US *)
Definition V1_POLL_TIMEOUT_US : Z := 10.
(* drivers/fpga/altera-cvp.c:66-66 ALTERA_CVP_V1_SIZE *)
Definition ALTERA_CVP_V1_SIZE : Z := 4.
(* drivers/fpga/altera-cvp.c:67-67 ALTERA_CVP_V2_SIZE *)
Definition ALTERA_CVP_V2_SIZE : Z := 4096.
Definition SZ_4K : Z := 4096.
(* include/linux/fpga/fpga-mgr.h:77-77 FPGA_MGR_ENCRYPTED_BITSTREAM *)
Definition FPGA_MGR_ENCRYPTED_BITSTREAM : field := BIT_ULL 2.
(* include/linux/fpga/fpga-mgr.h:79-79 FPGA_MGR_COMPRESSED_BITSTREAM *)
Definition FPGA_MGR_COMPRESSED_BITSTREAM : field := BIT_ULL 4.
Definition EPROTO : Z := 71.
(** PCI: the command register, and its bit for memory accesses. *)
Definition PCI_COMMAND : Z := 0x04.
Definition PCI_COMMAND_MEMORY : Z := 2.

(** The card: the space of configuration, by address (a read of some bytes has a status,
    and gives a value in any case), and the BAR for the data. *)
Class CvpHw := {
  cvp : Type;
  cfg_read : Z → Z → cvp → (Z * Z) * cvp;
  cfg_write : Z → Z → Z → cvp → Z * cvp;
  bar_write : Z → cvp → cvp;
}.
(** What the card sees: reads of configuration words and of the credits, writes, data. *)
Inductive cvp_io := CvpRead (where_ v : Z) | CvpCredit (v : Z) | CvpWrite (where_ v : Z) | CvpData (v : Z).
(** [pr_switch_clk], [pr_clear_state] and [pr_wait_credit] are whether there is the
    function of that name. *)
(* drivers/fpga/altera-cvp.c:87-94 cvp_priv *)
Record cvp_priv := CvpPriv {
  pr_switch_clk : bool;
  pr_clear_state : bool;
  pr_wait_credit : bool;
  pr_block_size : Z;
  pr_poll_time_us : Z;
  pr_user_time_us : Z;
}.
(* drivers/fpga/altera-cvp.c:525-530 cvp_priv_v1 *)
Definition cvp_priv_v1 : cvp_priv := CvpPriv true false false ALTERA_CVP_V1_SIZE V1_POLL_TIMEOUT_US TIMEOUT_US.
(* drivers/fpga/altera-cvp.c:532-538 cvp_priv_v2 *)
Definition cvp_priv_v2 : cvp_priv := CvpPriv false true true ALTERA_CVP_V2_SIZE V2_POLL_TIMEOUT_US V2_USER_TIMEOUT_US.

Section Cvp.
Context `{CvpHw}.
(** [cv_map] is whether the BAR is mapped, which decides how data are written. *)
(* drivers/fpga/altera-cvp.c:74-85 altera_cvp_conf *)
Record altera_cvp_conf := CvpConf {
  cv_dev : cvp;
  cv_map : bool;
  cv_numclks : Z;
  cv_sent_packets : Z;
  cv_vsec_offset : Z;
  cv_priv : cvp_priv;
  cv_log : list cvp_io;
}.
Implicit Types s : altera_cvp_conf.
Definition cv_step (d : cvp) (io : cvp_io) s := CvpConf d (cv_map s) (cv_numclks s) (cv_sent_packets s) (cv_vsec_offset s) (cv_priv s) (cv_log s ++ [io]).
Definition set_numclks n s := CvpConf (cv_dev s) (cv_map s) n (cv_sent_packets s) (cv_vsec_offset s) (cv_priv s) (cv_log s).
Definition set_sent_packets n s := CvpConf (cv_dev s) (cv_map s) (cv_numclks s) n (cv_vsec_offset s) (cv_priv s) (cv_log s).
(** The status and the value. *)
(* drivers/fpga/altera-cvp.c:96-101 altera_read_config_byte *)
Definition altera_read_config_byte (where_ : Z) : M altera_cvp_conf (Z * Z) := λ s,
  let '((ret, v), d) := cfg_read 1 (cv_vsec_offset s + where_) (cv_dev s) in Done (Val (ret, u8 v), cv_step d (CvpCredit (u8 v)) s).
(* drivers/fpga/altera-cvp.c:103-108 altera_read_config_dword *)
Definition altera_read_config_dword (where_ : Z) : M altera_cvp_conf (Z * Z) := λ s,
  let '((ret, v), d) := cfg_read 4 (cv_vsec_offset s + where_) (cv_dev s) in Done (Val (ret, u32 v), cv_step d (CvpRead where_ (u32 v)) s).
(* drivers/fpga/altera-cvp.c:110-115 altera_write_config_dword *)
Definition altera_write_config_dword (where_ val : Z) : M altera_cvp_conf Z := λ s,
  let (ret, d) := cfg_write 4 (cv_vsec_offset s + where_) (u32 val) (cv_dev s) in Done (Val ret, cv_step d (CvpWrite where_ (u32 val)) s).
(* drivers/fpga/altera-cvp.c:133-136 altera_cvp_write_data_iomem *)
Definition altera_cvp_write_data_iomem (val : Z) : M altera_cvp_conf unit := modify (λ s, cv_step (bar_write (u32 val) (cv_dev s)) (CvpData (u32 val)) s).
(* drivers/fpga/altera-cvp.c:138-142 altera_cvp_write_data_config *)
Definition altera_cvp_write_data_config (val : Z) : M altera_cvp_conf unit :=
  modify (λ s, cv_step (cfg_write 4 (cv_vsec_offset s + VSE_CVP_DATA) (u32 val) (cv_dev s)).2 (CvpData (u32 val)) s).
Definition write_data (val : Z) : M altera_cvp_conf unit :=
  s ← get; if cv_map s then altera_cvp_write_data_iomem val else altera_cvp_write_data_config val.
(** The value alone, where the code does not look at the status. *)
Definition cvp_read (where_ : Z) : M altera_cvp_conf Z := r ← altera_read_config_dword where_; mret (r : Z * Z).2.
Definition cvp_write (where_ val : Z) : M altera_cvp_conf unit := _ ← altera_write_config_dword where_ val; mret tt.

(* drivers/fpga/altera-cvp.c:117-131 altera_cvp_state *)
Definition altera_cvp_state : M altera_cvp_conf fpga_mgr_states :=
  status ← cvp_read VSE_CVP_STATUS;
  if negb (Z.land status VSE_CVP_STATUS_CFG_DONE =? 0) then mret FPGA_MGR_STATE_OPERATING
  else if negb (Z.land status VSE_CVP_STATUS_CVP_EN =? 0) then mret FPGA_MGR_STATE_POWER_UP
  else mret FPGA_MGR_STATE_UNKNOWN.
(* drivers/fpga/altera-cvp.c:145-158 altera_cvp_dummy_write *)
Definition altera_cvp_dummy_write : M altera_cvp_conf unit :=
  val ← cvp_read VSE_CVP_MODE_CTRL;
  cvp_write VSE_CVP_MODE_CTRL (Z.lor (Z.ldiff val VSE_CVP_MODE_CTRL_NUMCLKS_MASK) (Z.shiftl 1 VSE_CVP_MODE_CTRL_NUMCLKS_OFF)) ;;
  for_each (seq 0 CVP_DUMMY_WR) (λ _, write_data 0).
(** [retries] more rounds after this one. *)
Fixpoint wait_status_loop (status_mask status_val : Z) (retries : nat) : M altera_cvp_conf unit :=
  val ← cvp_read VSE_CVP_STATUS;
  if Z.land val status_mask =? status_val then mret tt
  else match retries with O => throw (- ETIMEDOUT) | S retries => wait_status_loop status_mask status_val retries end.
(* drivers/fpga/altera-cvp.c:160-180 altera_cvp_wait_status *)
Definition altera_cvp_wait_status (status_mask status_val timeout_us : Z) : M altera_cvp_conf unit :=
  let retries := timeout_us / 10 + if timeout_us mod 10 =? 0 then 0 else 1 in
  wait_status_loop status_mask status_val (Z.to_nat (u32 (retries - 1))).
(* drivers/fpga/altera-cvp.c:182-196 altera_cvp_chk_error *)
Definition altera_cvp_chk_error : M altera_cvp_conf unit :=
  r ← altera_read_config_dword VSE_CVP_STATUS;
  let '(ret, val) := (r : Z * Z) in
  if negb (ret =? 0) || negb (Z.land val VSE_CVP_STATUS_CFG_ERR =? 0) then throw (- EPROTO) else mret tt.

(** ** Version 2 *)
(* drivers/fpga/altera-cvp.c:204-227 altera_cvp_v2_clear_state *)
Definition altera_cvp_v2_clear_state : M altera_cvp_conf unit :=
  r ← altera_read_config_dword VSE_CVP_PROG_CTRL;
  let '(ret, val) := (r : Z * Z) in
  rc ret ;;
  ret ← altera_write_config_dword VSE_CVP_PROG_CTRL (Z.ldiff val VSE_CVP_PROG_CTRL_MASK);
  rc ret ;;
  s ← get;
  altera_cvp_wait_status VSE_CVP_STATUS_CFG_RDY 0 (pr_poll_time_us (cv_priv s)).
(** [timeout] more rounds after this one. *)
Fixpoint wait_for_credit_loop (timeout : nat) : M altera_cvp_conf unit :=
  r ← altera_read_config_byte VSE_CVP_TX_CREDITS;
  let '(ret, val) := (r : Z * Z) in
  rc ret ;;
  s ← get;
  if negb (val - u8 (cv_sent_packets s) =? 0) then mret tt else
  e ← attempt altera_cvp_chk_error;
  match (e : Z + unit) with
  | inl _ => throw (- EAGAIN)
  | inr _ => match timeout with O => throw (- ETIMEDOUT) | S timeout => wait_for_credit_loop timeout end
  end.
(* drivers/fpga/altera-cvp.c:229-263 altera_cvp_v2_wait_for_credit *)
Definition altera_cvp_v2_wait_for_credit : M altera_cvp_conf unit :=
  wait_for_credit_loop (Z.to_nat (V2_CREDIT_TIMEOUT_US / V2_CHECK_CREDIT_US)).

(** ** Loading an image *)

(** A block of the buffer: its words, and the bytes behind them in a word of their
    own; the bytes that the code reads with these are masked out. *)
(* drivers/fpga/altera-cvp.c:265-283 altera_cvp_send_block *)
Definition altera_cvp_send_block (data : list Z) : M altera_cvp_conf unit :=
  let len := length data in
  let words := (len / 4)%nat in
  for_each (le_words words data) write_data ;;
  if (len mod 4 =? 0)%nat then mret tt else write_data (le_word (drop (4 * words) data)).
(* drivers/fpga/altera-cvp.c:285-316 altera_cvp_teardown *)
Definition altera_cvp_teardown : M altera_cvp_conf unit :=
  val ← cvp_read VSE_CVP_PROG_CTRL;
  let val := Z.ldiff val VSE_CVP_PROG_CTRL_START_XFER in
  cvp_write VSE_CVP_PROG_CTRL val ;;
  let val := Z.ldiff val VSE_CVP_PROG_CTRL_CONFIG in
  cvp_write VSE_CVP_PROG_CTRL val ;;
  s ← get;
  (if pr_switch_clk (cv_priv s) then altera_cvp_dummy_write else mret tt) ;;
  altera_cvp_wait_status VSE_CVP_STATUS_CFG_RDY 0 (pr_poll_time_us (cv_priv s)).
(** [chkcfg] is the option of the driver to look for errors meanwhile. *)
(* drivers/fpga/altera-cvp.c:318-429 altera_cvp_write_init *)
Definition altera_cvp_write_init (chkcfg : bool) (iflags : Z) : M altera_cvp_conf unit :=
  if has_bits FPGA_MGR_PARTIAL_RECONFIG iflags then throw (- EINVAL) else
  modify (set_numclks
    (if has_bits FPGA_MGR_COMPRESSED_BITSTREAM iflags then 8 else if has_bits FPGA_MGR_ENCRYPTED_BITSTREAM iflags then 4 else 1)) ;;
  val ← cvp_read VSE_CVP_STATUS;
  if Z.land val VSE_CVP_STATUS_CVP_EN =? 0 then throw (- ENODEV) else
  (if negb (Z.land val VSE_CVP_STATUS_CFG_RDY =? 0) then altera_cvp_teardown else mret tt) ;;
  val ← cvp_read VSE_CVP_MODE_CTRL;
  cvp_write VSE_CVP_MODE_CTRL (Z.lor val VSE_CVP_MODE_CTRL_HIP_CLK_SEL) ;;
  val ← cvp_read VSE_CVP_MODE_CTRL;
  cvp_write VSE_CVP_MODE_CTRL (Z.lor val VSE_CVP_MODE_CTRL_CVP_MODE) ;;
  s ← get;
  let priv := cv_priv s in
  (if pr_switch_clk priv then altera_cvp_dummy_write else mret tt) ;;
  (if pr_clear_state priv then altera_cvp_v2_clear_state else mret tt) ;;
  modify (set_sent_packets 0) ;;
  val ← cvp_read VSE_CVP_PROG_CTRL;
  cvp_write VSE_CVP_PROG_CTRL (Z.lor val VSE_CVP_PROG_CTRL_CONFIG) ;;
  altera_cvp_wait_status VSE_CVP_STATUS_CFG_RDY VSE_CVP_STATUS_CFG_RDY (pr_poll_time_us priv) ;;
  (if pr_switch_clk priv then altera_cvp_dummy_write else mret tt) ;;
  (if chkcfg then altera_cvp_chk_error else mret tt) ;;
  val ← cvp_read VSE_CVP_PROG_CTRL;
  cvp_write VSE_CVP_PROG_CTRL (Z.lor val VSE_CVP_PROG_CTRL_START_XFER) ;;
  if pr_switch_clk priv then
    val ← cvp_read VSE_CVP_MODE_CTRL;
    s ← get;
    cvp_write VSE_CVP_MODE_CTRL
      (Z.lor (Z.ldiff val VSE_CVP_MODE_CTRL_NUMCLKS_MASK) (Z.shiftl (cv_numclks s) VSE_CVP_MODE_CTRL_NUMCLKS_OFF))
  else mret tt.
(** The rest of the buffer, of which [done] bytes were sent; a block has a byte at
    least, so that the length of the rest bounds the rounds. *)
Fixpoint cvp_write_loop (chkcfg : bool) (rounds : nat) (rest : list Z) (done : Z) : M altera_cvp_conf unit :=
  match rest with
  | [] => mret tt
  | _ =>
      match rounds with
      | O => nofuel
      | S rounds =>
          s ← get;
          let priv := cv_priv s in
          (if pr_wait_credit priv then altera_cvp_v2_wait_for_credit else mret tt) ;;
          let len := Z.min (pr_block_size priv) (Z.of_nat (length rest)) in
          altera_cvp_send_block (take (Z.to_nat len) rest) ;;
          let done := done + len in
          modify (λ s, set_sent_packets (u32 (cv_sent_packets s + 1)) s) ;;
          (if chkcfg && (done mod SZ_4K =? 0) then altera_cvp_chk_error else mret tt) ;;
          cvp_write_loop chkcfg rounds (drop (Z.to_nat len) rest) done
      end
  end.
(* drivers/fpga/altera-cvp.c:431-482 altera_cvp_write *)
Definition altera_cvp_write (chkcfg : bool) (buf : list Z) : M altera_cvp_conf unit :=
  cvp_write_loop chkcfg (length buf) buf 0 ;;
  if chkcfg then altera_cvp_chk_error else mret tt.
(* drivers/fpga/altera-cvp.c:484-516 altera_cvp_write_complete *)
Definition altera_cvp_write_complete : M altera_cvp_conf unit :=
  altera_cvp_teardown ;;
  val ← cvp_read VSE_UNCOR_ERR_STATUS;
  if negb (Z.land val VSE_UNCOR_ERR_CVP_CFG_ERR =? 0) then throw (- EPROTO) else
  val ← cvp_read VSE_CVP_MODE_CTRL;
  cvp_write VSE_CVP_MODE_CTRL (Z.ldiff (Z.ldiff val VSE_CVP_MODE_CTRL_HIP_CLK_SEL) VSE_CVP_MODE_CTRL_CVP_MODE) ;;
  let mask := Z.lor VSE_CVP_STATUS_PLD_CLK_IN_USE VSE_CVP_STATUS_USERMODE in
  s ← get;
  altera_cvp_wait_status mask mask (pr_user_time_us (cv_priv s)).
End Cvp.

(** ** The driver

    A callback gives its status back; the operations do not fault, so that the last
    case does not arise.  Reading the state leaves the card as it is. *)
Section CvpDriver.
Context `{CvpHw}.
(* drivers/fpga/altera-cvp.c:518-523 altera_cvp_ops *)
Definition altera_cvp_ops `{MgrKernel} (chkcfg : bool) : fpga_manager_ops altera_cvp_conf := {|
  mo_initial_header_size := 0;
  mo_skip_header := false;
  mo_state := Some (λ s, match altera_cvp_state s with Done (Val st, _) => st | _ => FPGA_MGR_STATE_UNKNOWN end);
  mo_status := None;
  mo_parse_header := None;
  mo_write_init := Some (λ info _ s, let (ret, s') := callback (altera_cvp_write_init chkcfg (ii_flags info)) s in ((ret, info), s'));
  mo_write := Some (λ buf, callback (altera_cvp_write chkcfg buf));
  mo_write_sg := None;
  mo_write_complete := Some (λ info s, let (ret, s') := callback altera_cvp_write_complete s in ((ret, info), s'));
  mo_fpga_remove := None;
|}.
(** What the kernel does for the driver: the offset of the capability (0 if there is
    none), memory, the region of the BAR and its mapping, the manager. *)
Class CvpKernel := {
  cvk : Type;
  cvk_vsec : cvk → Z * cvk;
  cvk_kzalloc : cvk → bool * cvk;
  cvk_request_region : cvk → Z * cvk;
  cvk_iomap : cvk → bool * cvk;
  cvk_mgr_register : cvk → Z * cvk;
}.
Context `{CvpKernel}.
(** The card, what is held of it, and the configuration with the manager. *)
Record cvp_pdev := CvpPdev {
  pd_k : cvk;
  pd_dev : cvp;
  pd_region : bool;
  pd_mapped : bool;
  pd_mgr : option altera_cvp_conf;
}.
Definition pd_op {A} (f : cvk → A * cvk) : M cvp_pdev A := λ p,
  let (a, k) := f (pd_k p) in Done (Val a, CvpPdev k (pd_dev p) (pd_region p) (pd_mapped p) (pd_mgr p)).
Definition set_region b p := CvpPdev (pd_k p) (pd_dev p) b (pd_mapped p) (pd_mgr p).
Definition set_mapped b p := CvpPdev (pd_k p) (pd_dev p) (pd_region p) b (pd_mgr p).
Definition set_pd_mgr m p := CvpPdev (pd_k p) (pd_dev p) (pd_region p) (pd_mapped p) m.
Definition pci_read (size addr : Z) : M cvp_pdev Z := λ p,
  let '((_, v), d) := cfg_read size addr (pd_dev p) in
  Done (Val (v mod 256 ^ size), CvpPdev (pd_k p) d (pd_region p) (pd_mapped p) (pd_mgr p)).
Definition pci_write (size addr v : Z) : M cvp_pdev unit := λ p,
  Done (Val tt, CvpPdev (pd_k p) (cfg_write size addr (v mod 256 ^ size) (pd_dev p)).2 (pd_region p) (pd_mapped p) (pd_mgr p)).
(** The registered configuration has the card as it is then. *)
(* drivers/fpga/altera-cvp.c:576-674 altera_cvp_probe *)
Definition altera_cvp_probe : M cvp_pdev unit :=
  offset ← pd_op cvk_vsec;
  if offset =? 0 then throw (- ENODEV) else
  val ← pci_read 2 (offset + VSE_PCIE_EXT_CAP_ID);
  if negb (val =? VSE_PCIE_EXT_CAP_ID_VAL) then throw (- ENODEV) else
  regval ← pci_read 4 (offset + VSE_CVP_STATUS);
  if Z.land regval VSE_CVP_STATUS_CVP_EN =? 0 then throw (- ENODEV) else
  ok ← pd_op cvk_kzalloc;
  if negb ok then throw (- ENOMEM) else
  cmd ← pci_read 2 PCI_COMMAND;
  let cmd' := Z.lor cmd PCI_COMMAND_MEMORY in
  (if Z.land cmd PCI_COMMAND_MEMORY =? 0 then pci_write 2 PCI_COMMAND cmd' else mret tt) ;;
  let cmd := if Z.land cmd PCI_COMMAND_MEMORY =? 0 then cmd' else cmd in
  on_error (
    ret ← pd_op cvk_request_region;
    rc ret ;;
    modify (set_region true) ;;
    let priv := if offset =? V1_VSEC_OFFSET then cvp_priv_v1 else cvp_priv_v2 in
    map ← pd_op cvk_iomap;
    modify (set_mapped map) ;;
    on_error (
      ret ← pd_op cvk_mgr_register;
      rc ret ;;
      modify (λ p, set_pd_mgr (Some (CvpConf (pd_dev p) map 0 0 offset priv [])) p))
      (modify (set_mapped false) ;; modify (set_region false)))
    (pci_write 2 PCI_COMMAND (Z.ldiff cmd PCI_COMMAND_MEMORY)).
(* drivers/fpga/altera-cvp.c:676-689 altera_cvp_remove *)
Definition altera_cvp_remove : M cvp_pdev unit :=
  modify (λ p, match pd_mgr p with
    | Some conf => CvpPdev (pd_k p) (cv_dev conf) (pd_region p) (pd_mapped p) None
    | None => p
    end) ;;
  modify (set_mapped false) ;;
  modify (set_region false) ;;
  cmd ← pci_read 2 PCI_COMMAND;
  pci_write 2 PCI_COMMAND (Z.ldiff cmd PCI_COMMAND_MEMORY).
End CvpDriver.

(** ** The words of a buffer *)
Definition buf_words (l : list Z) : list Z := le_words (length l) l.
Lemma le_words_fuel n l : (length l ≤ n)%nat → le_words n l = buf_words l.
Proof.
  unfold buf_words. remember (length l) as m eqn:Hm. assert (length l ≤ m)%nat as Hl by lia. clear Hm. revert n l Hl.
  induction m as [|m IH]; intros [|n] [|x l] Hl Hn; cbn in Hl; try done; try lia. cbn [le_words]. f_equal.
  apply IH; [|lia]. cbn [drop]. rewrite length_drop. lia.
Qed.
Lemma buf_words_cons l : l ≠ [] → buf_words l = le_word (take 4 l) :: buf_words (drop 4 l).
Proof.
  intros Hl. destruct l as [|x l]; [done|]. unfold buf_words at 1. cbn [length le_words]. f_equal. apply le_words_fuel.
  cbn [drop]. rewrite length_drop. lia.
Qed.
Lemma buf_words_app k a b : length a = (4 * k)%nat → buf_words (a ++ b) = buf_words a ++ buf_words b.
Proof.
  revert a. induction k as [|k IH]; intros a Ha; [by destruct a|].
  assert (a ≠ []) by (destruct a; [cbn in Ha; lia|done]).
  rewrite (buf_words_cons (a ++ b)), (buf_words_cons a) by (done || by intros [? _]%app_eq_nil).
  rewrite take_app_le, drop_app_le by lia. cbn [app]. f_equal. apply IH. rewrite length_drop. lia.
Qed.
Lemma buf_words_tail n l : (4 * n ≤ length l < 4 * n + 4)%nat →
  buf_words l = le_words n l ++ if (length l =? 4 * n)%nat then [] else [le_word (drop (4 * n) l)].
Proof.
  revert l. induction n as [|n IH]; intros l Hl.
  - destruct l as [|x l]; [done|]. rewrite buf_words_cons by done. cbn in Hl. rewrite take_ge by (cbn; lia).
    rewrite drop_ge by (cbn; lia). done.
  - assert (Hne : l ≠ []) by (destruct l; [cbn in Hl; lia|done]). rewrite buf_words_cons by done.
    destruct l as [|x l]; [done|]. cbn [le_words app]. f_equal. set (l' := x :: l) in *. rewrite (IH (drop 4 l')) by (rewrite length_drop; lia).
    rewrite length_drop, drop_drop. f_equal. destruct (Nat.eqb_spec (length l' - 4) (4 * n)), (Nat.eqb_spec (length l') (4 * S n)); try lia; [done|].
    do 3 f_equal. lia.
Qed.
Lemma length_buf_words l : length (buf_words l) = ((length l + 3) / 4)%nat.
Proof.
  remember (length l) as m eqn:Hm. revert l Hm. induction (lt_wf m) as [m _ IH]. intros l Hm. destruct (decide (l = [])) as [->|Hne]; [by subst m|].
  rewrite buf_words_cons by done. cbn [length]. assert (0 < m)%nat by (destruct l; [done|subst m; cbn; lia]).
  rewrite (IH (m - 4)%nat) by (rewrite ?length_drop; lia). destruct (decide (m ≤ 4)%nat).
  - replace (m - 4)%nat with 0%nat by lia. apply (Nat.div_unique (m + 3) 4 1 (m - 1)); lia.
  - replace (m + 3)%nat with (1 * 4 + (m - 4 + 3))%nat by lia. by rewrite Nat.div_add_l.
Qed.
Lemma buf_words_u32 l : Forall is_u8 l → Forall is_u32 (buf_words l).
Proof. apply le_words_u32. Qed.

(** ** What the card sees *)
Definition cvp_data (l : list cvp_io) : list Z := omap (λ e, match e with CvpData v => Some v | _ => None end) l.
(** The blocks that were granted after the accesses [l], [sent] before, and how many
    words of the last one are left; [None] if a word was sent without a grant.  A
    read of the credits grants a block of 1024 words unless it shows what was sent. *)
Fixpoint granted (sent : Z) (room : nat) (l : list cvp_io) : option (Z * nat) :=
  match l with
  | [] => Some (sent, room)
  | CvpCredit c :: l => if c =? u8 sent then granted sent 0 l else granted (u32 (sent + 1)) 1024 l
  | CvpData _ :: l => match room with O => None | S room => granted sent room l end
  | _ :: l => granted sent room l
  end.
Lemma granted_app sent room l l' : granted sent room (l ++ l') = granted sent room l ≫= λ x, granted x.1 x.2 l'.
Proof.
  revert sent room. induction l as [|[w v|c|w v|v] l IH]; intros sent room; cbn [app granted]; [done|apply IH| |apply IH|].
  - destruct (c =? u8 sent); apply IH.
  - destruct room; [done|apply IH].
Qed.
Lemma cvp_data_app l l' : cvp_data (l ++ l') = cvp_data l ++ cvp_data l'.
Proof. apply omap_app. Qed.
Lemma granted_data sent room ws : (length ws ≤ room)%nat → granted sent room (CvpData <$> ws) = Some (sent, (room - length ws)%nat).
Proof.
  revert room. induction ws as [|w ws IH]; intros room Hl; cbn; [by rewrite Nat.sub_0_r|]. cbn in Hl. destruct room; [lia|]. apply IH. lia.
Qed.
Lemma cvp_data_words ws : cvp_data (CvpData <$> ws) = ws.
Proof. induction ws as [|w ws IH]; [done|]. cbn. by f_equal. Qed.

Section CvpFacts.
Context `{CvpHw}.
Implicit Types s : altera_cvp_conf.
(** [s'] is [s] after the accesses [l]. *)
Definition cv_after s (l : list cvp_io) s' : Prop :=
  s' = CvpConf (cv_dev s') (cv_map s) (cv_numclks s) (cv_sent_packets s) (cv_vsec_offset s) (cv_priv s) (cv_log s ++ l).
Lemma cv_after_nil s : cv_after s [] s.
Proof. unfold cv_after. rewrite app_nil_r. by destruct s. Qed.
Lemma cv_after_app s l s1 l' s2 : cv_after s l s1 → cv_after s1 l' s2 → cv_after s (l ++ l') s2.
Proof. unfold cv_after. intros -> ->. cbn. by rewrite app_assoc. Qed.
Lemma cv_after_step s d e : cv_after s [e] (cv_step d e s).
Proof. done. Qed.
Lemma write_data_spec v s (Q : unit → altera_cvp_conf → Prop) E :
  is_u32 v → (∀ s', cv_after s [CvpData v] s' → Q tt s') → wp (write_data v) Q E s.
Proof.
  intros Hv HQ. unfold write_data, altera_cvp_write_data_iomem, altera_cvp_write_data_config. wsteps. rewrite u32_small by done.
  destruct (cv_map s); wsteps; apply HQ, cv_after_step.
Qed.
Lemma write_words_spec ws s (Q : unit → altera_cvp_conf → Prop) E :
  Forall is_u32 ws → (∀ s', cv_after s (CvpData <$> ws) s' → Q tt s') → wp (for_each ws write_data) Q E s.
Proof.
  intros Hws. revert s. induction Hws as [|w ws Hw _ IH]; intros s HQ; cbn [for_each]; wsteps; [apply HQ, cv_after_nil|].
  apply write_data_spec; [done|]. intros s1 H1. apply IH. intros s2 H2. apply HQ. exact (cv_after_app _ _ _ _ _ H1 H2).
Qed.
Lemma send_block_spec data s (Q : unit → altera_cvp_conf → Prop) E :
  Forall is_u8 data → (∀ s', cv_after s (CvpData <$> buf_words data) s' → Q tt s') → wp (altera_cvp_send_block data) Q E s.
Proof.
  intros Hd HQ. unfold altera_cvp_send_block. cbv zeta. set (n := (length data / 4)%nat).
  pose proof (Nat.div_mod (length data) 4 ltac:(lia)) as Hdm. pose proof (Nat.mod_upper_bound (length data) 4 ltac:(lia)) as Hmod. fold n in Hdm.
  rewrite (buf_words_tail n) in HQ by lia. wstep. apply write_words_spec; [by apply le_words_u32|]. intros s1 H1.
  destruct (Nat.eqb_spec (length data mod 4) 0) as [Hz|Hz], (Nat.eqb_spec (length data) (4 * n)) as [Hn|Hn]; try lia; wsteps.
  - apply HQ. by rewrite app_nil_r.
  - apply write_data_spec.
    + pose proof (le_word_bound (drop (4 * n) data) ltac:(by apply Forall_drop)) as Hb. rewrite length_drop in Hb.
      assert (256 ^ Z.of_nat (length data - 4 * n) ≤ 256 ^ 4) by (apply Z.pow_le_mono_r; lia). unfold is_u32. lia.
    + intros s2 H2. apply HQ. rewrite fmap_app. exact (cv_after_app _ _ _ _ _ H1 H2).
Qed.
Lemma chk_error_spec s (Q : unit → altera_cvp_conf → Prop) (E : Z → altera_cvp_conf → Prop) :
  (∀ v s', cv_after s [CvpRead VSE_CVP_STATUS v] s' → Q tt s') → (∀ v s', cv_after s [CvpRead VSE_CVP_STATUS v] s' → E (- EPROTO) s') →
  wp altera_cvp_chk_error Q E s.
Proof.
  intros HQ HE. unfold altera_cvp_chk_error. wstep. unfold wpg at 1, altera_read_config_dword.
  destruct (cfg_read 4 (cv_vsec_offset s + VSE_CVP_STATUS) (cv_dev s)) as [[ret v] d]. destruct (_ || _); wsteps; [eapply HE|eapply HQ]; apply cv_after_step.
Qed.
(** Waiting for a credit reads, and ends with a grant for one more block. *)
Lemma cvp_wait_credit_spec n room s :
  wp (wait_for_credit_loop n)
    (λ _ s', ∃ l, cv_after s l s' ∧ cvp_data l = [] ∧ granted (cv_sent_packets s) room l = Some (u32 (cv_sent_packets s + 1), 1024%nat))
    (λ e s', e ≠ 0 ∧ ∃ l, cv_after s l s' ∧ cvp_data l = [] ∧ is_Some (granted (cv_sent_packets s) room l)) s.
Proof.
  revert room s. induction n as [|n IH]; intros room s; cbn [wait_for_credit_loop]; wstep; unfold wpg at 1, altera_read_config_byte;
    destruct (cfg_read 1 (cv_vsec_offset s + VSE_CVP_TX_CREDITS) (cv_dev s)) as [[ret v] d]; wsteps; intros Hret.
  2,4: split; [done|]; exists [CvpCredit (u8 v)]; split_and!; [apply cv_after_step|done|cbn; case_match; by eexists].
  all: wsteps; cbn [cv_sent_packets cv_step]; destruct (Z.eqb_spec (u8 v - u8 (cv_sent_packets s)) 0) as [Hz|Hz]; cbn [negb]; wsteps.
  2,4: exists [CvpCredit (u8 v)]; split_and!; [apply cv_after_step|done|]; cbn; destruct (Z.eqb_spec (u8 v) (u8 (cv_sent_packets s))); [lia|done].
  all: assert (Hv : u8 v = u8 (cv_sent_packets s)) by lia; set (s1 := cv_step d (CvpCredit (u8 v)) s);
    assert (H1 : cv_after s [CvpCredit (u8 v)] s1) by apply cv_after_step;
    apply chk_error_spec; intros x s2 H2; wsteps; pose proof (cv_after_app _ _ _ _ _ H1 H2) as H12; cbn [app] in H12.
  1,2,4: split; [done|]; eexists; split_and!; [exact H12|done|]; cbn; rewrite Hv, Z.eqb_refl; by eexists.
  assert (Hsent : cv_sent_packets s2 = cv_sent_packets s) by (rewrite H12; done).
  eapply wp_mono; [apply (IH 0%nat)|..]; cbv beta; rewrite Hsent.
  - intros _ s3 (l & H3 & Hd & Hg). exists ([CvpCredit (u8 v); CvpRead VSE_CVP_STATUS x] ++ l).
    split_and!; [exact (cv_after_app _ _ _ _ _ H12 H3)|done|]. cbn. by rewrite Hv, Z.eqb_refl.
  - intros e s3 (He & l & H3 & Hd & Hg). split; [done|]. exists ([CvpCredit (u8 v); CvpRead VSE_CVP_STATUS x] ++ l).
    split_and!; [exact (cv_after_app _ _ _ _ _ H12 H3)|done|]. cbn. by rewrite Hv, Z.eqb_refl.
Qed.
(** [s'] is [s] after the accesses [l], with blocks sent. *)
Definition cv_wrote s (l : list cvp_io) s' : Prop := cv_log s' = cv_log s ++ l ∧ cv_priv s' = cv_priv s.
Lemma cv_wrote_after s l s' : cv_after s l s' → cv_wrote s l s'.
Proof. by intros ->. Qed.
Lemma cv_wrote_app s l s1 l' s2 : cv_wrote s l s1 → cv_wrote s1 l' s2 → cv_wrote s (l ++ l') s2.
Proof. intros [H1 H1'] [H2 H2']. split; [by rewrite H2, H1, app_assoc|congruence]. Qed.
(** A block is a number of words, of which the grant has room. *)
Definition priv_ok (p : cvp_priv) : Prop :=
  ∃ w : nat, (0 < w ≤ 1024)%nat ∧ pr_block_size p = Z.of_nat (4 * w).
(** The data of the accesses are the words of [buf]; with credits each was granted. *)
Definition pushed (p : cvp_priv) (sent : Z) (room : nat) (buf : list Z) (l : list cvp_io) (sent' : Z) : Prop :=
  cvp_data l = buf_words buf ∧ (pr_wait_credit p = true → ∃ room', granted sent room l = Some (sent', room')).
Lemma priv_ok_v1 : priv_ok cvp_priv_v1.
Proof. exists 1%nat. split; [lia|done]. Qed.
Lemma priv_ok_v2 : priv_ok cvp_priv_v2.
Proof. exists 1024%nat. split; [lia|done]. Qed.
Lemma block_spec chkcfg b s done_ room :
  Forall is_u8 b → (length (buf_words b) ≤ 1024)%nat →
  wp ((if pr_wait_credit (cv_priv s) then altera_cvp_v2_wait_for_credit else mret tt) ;;
      altera_cvp_send_block b ;;
      modify (λ s, set_sent_packets (u32 (cv_sent_packets s + 1)) s) ;;
      (if chkcfg && (done_ mod SZ_4K =? 0) then altera_cvp_chk_error else mret tt))
    (λ _ s', ∃ l, cv_wrote s l s' ∧ pushed (cv_priv s) (cv_sent_packets s) room b l (cv_sent_packets s'))
    (λ e s', e ≠ 0 ∧ ∃ l b' n, cv_wrote s l s' ∧ (b' = [] ∨ b' = b) ∧ pushed (cv_priv s) (cv_sent_packets s) room b' l n) s.
Proof.
  intros Hb Hlen.
  assert (Hsend : ∀ s1 l1, cv_after s l1 s1 → cvp_data l1 = [] →
    (pr_wait_credit (cv_priv s) = true → ∃ room', granted (cv_sent_packets s) room l1 = Some (u32 (cv_sent_packets s + 1), room') ∧ (1024 ≤ room')%nat) →
    wp (altera_cvp_send_block b ;; modify (λ s, set_sent_packets (u32 (cv_sent_packets s + 1)) s) ;;
        (if chkcfg && (done_ mod SZ_4K =? 0) then altera_cvp_chk_error else mret tt))
      (λ _ s', ∃ l, cv_wrote s l s' ∧ pushed (cv_priv s) (cv_sent_packets s) room b l (cv_sent_packets s'))
      (λ e s', e ≠ 0 ∧ ∃ l b' n, cv_wrote s l s' ∧ (b' = [] ∨ b' = b) ∧ pushed (cv_priv s) (cv_sent_packets s) room b' l n) s1).
  { intros s1 l1 H1 Hd Hg. wstep. apply send_block_spec; [done|]. intros s2 H2. wsteps.
    set (s3 := set_sent_packets _ s2). pose proof (cv_after_app _ _ _ _ _ H1 H2) as H12.
    assert (H3 : cv_wrote s (l1 ++ (CvpData <$> buf_words b)) s3) by (unfold s3, cv_wrote; rewrite H12; done).
    assert (Hsent : cv_sent_packets s3 = u32 (cv_sent_packets s + 1)) by (unfold s3; rewrite H12; done).
    assert (Hp : ∀ l', cvp_data l' = [] → (∀ n room, granted n room l' = Some (n, room)) →
      pushed (cv_priv s) (cv_sent_packets s) room b ((l1 ++ (CvpData <$> buf_words b)) ++ l') (cv_sent_packets s3)).
    { intros l' Hl' Hg'. split; [by rewrite !cvp_data_app, Hd, cvp_data_words, Hl', app_nil_r|]. intros Hw.
      destruct (Hg Hw) as (room' & Hr & Hle). rewrite !granted_app, Hr. cbn [mbind option_bind fst snd]. rewrite granted_data by lia.
      cbn [mbind option_bind fst snd]. rewrite Hg', Hsent. by eexists. }
    destruct (chkcfg && _); wsteps.
    - apply chk_error_spec; intros v s4 H4.
      + exists ((l1 ++ (CvpData <$> buf_words b)) ++ [CvpRead VSE_CVP_STATUS v]). split; [by eapply cv_wrote_app, cv_wrote_after|].
        replace (cv_sent_packets s4) with (cv_sent_packets s3) by (by rewrite H4). by apply Hp.
      + split; [done|]. exists ((l1 ++ (CvpData <$> buf_words b)) ++ [CvpRead VSE_CVP_STATUS v]), b, (cv_sent_packets s3).
        split_and!; [by eapply cv_wrote_app, cv_wrote_after|by right|by apply Hp].
    - exists ((l1 ++ (CvpData <$> buf_words b)) ++ []). rewrite app_nil_r. split; [done|]. rewrite <- (app_nil_r (l1 ++ _)). by apply Hp. }
  wstep. destruct (pr_wait_credit (cv_priv s)) eqn:Hw.
  - eapply wp_mono; [apply (cvp_wait_credit_spec _ room)|..]; cbv beta.
    + intros _ s1 (l1 & H1 & Hd & Hg). apply (Hsend s1 l1); [done|done|]. intros _. by exists 1024%nat.
    + intros e s1 (He & l1 & H1 & Hd & [[n room'] Hg]). split; [done|]. exists l1, [], n. split_and!; [by apply cv_wrote_after|by left|].
      split; [done|]. intros _. by exists room'.
  - wstep. cbv beta. apply (Hsend s []); [apply cv_after_nil|done|done].
Qed.
Lemma wp_block {A B C D R} (a : M altera_cvp_conf A) (b : M altera_cvp_conf B) (c : M altera_cvp_conf C) (d : M altera_cvp_conf D)
  (k : M altera_cvp_conf R) Q E s : wp (a ;; b ;; c ;; d) (λ _, wp k Q E) E s → wp (a ;; b ;; c ;; d ;; k) Q E s.
Proof.
  unfold wpg, mbind, M_bind. destruct (a s) as [[[] s1]| |]; try done. destruct (b s1) as [[[] s2]| |]; try done.
  destruct (c s2) as [[[] s3]| |]; try done. by destruct (d s3) as [[[] s4]| |].
Qed.
(** The words of a block, and those of some of the rest. *)
Lemma block_words (w : nat) buf k : let len := Nat.min (4 * w) (length buf) in
  buf_words (take (len + k) buf) = buf_words (take len buf) ++ buf_words (take k (drop len buf)).
Proof.
  cbv zeta. destruct (decide (4 * w ≤ length buf)%nat) as [Hle|Hgt].
  - rewrite Nat.min_l by lia. rewrite <- (buf_words_app w) by (rewrite length_take; lia). by rewrite take_take_drop.
  - rewrite Nat.min_r by lia. rewrite drop_all, !take_ge by (cbn; lia). symmetry. apply app_nil_r.
Qed.
Lemma pushed_app p sent room b l sent1 :
  pushed p sent room b l sent1 → ∃ room', ∀ b' l' sent2, pushed p sent1 room' b' l' sent2 →
    cvp_data (l ++ l') = buf_words b ++ buf_words b' ∧ (pr_wait_credit p = true → ∃ room'', granted sent room (l ++ l') = Some (sent2, room'')).
Proof.
  intros [Hd Hg]. destruct (pr_wait_credit p) eqn:Hw.
  - destruct (Hg eq_refl) as [room' Hr]. exists room'. intros b' l' sent2 [Hd' Hg']. split; [by rewrite cvp_data_app, Hd, Hd'|]. intros _.
    rewrite granted_app, Hr. cbn. by apply Hg'.
  - exists 0%nat. intros b' l' sent2 [Hd' _]. split; [by rewrite cvp_data_app, Hd, Hd'|done].
Qed.
Lemma write_loop_spec chkcfg rounds rest done_ room s :
  priv_ok (cv_priv s) → Forall is_u8 rest → (length rest ≤ rounds)%nat →
  wp (cvp_write_loop chkcfg rounds rest done_)
    (λ _ s', ∃ l, cv_wrote s l s' ∧ pushed (cv_priv s) (cv_sent_packets s) room rest l (cv_sent_packets s'))
    (λ e s', e ≠ 0 ∧ ∃ l k n, cv_wrote s l s' ∧ pushed (cv_priv s) (cv_sent_packets s) room (take k rest) l n) s.
Proof.
  revert rest done_ room s. induction rounds as [|rounds IH]; intros rest done_ room s Hp Hu Hlen;
    (destruct rest as [|x rest]; [cbn; wsteps; exists []; split; [split; [by rewrite app_nil_r|done]|split; [done|intros _; by exists room]]|cbn in Hlen; try lia]).
  cbn [cvp_write_loop]. wstep. wstep. cbv beta zeta. set (buf := x :: rest) in *. assert (Hlenb : length buf = S (length rest)) by done.
  clearbody buf. assert (Hp' := Hp). destruct Hp' as (w & Hw & Hb). set (len := Z.min (pr_block_size (cv_priv s)) (Z.of_nat (length buf))).
  assert (Hlen' : Z.to_nat len = Nat.min (4 * w) (length buf)) by (unfold len; rewrite Hb; lia).
  assert (Hwords : (length (buf_words (take (Z.to_nat len) buf)) ≤ 1024)%nat).
  { rewrite length_buf_words, length_take, Hlen'. assert ((Nat.min (Nat.min (4 * w) (length buf)) (length buf) + 3) / 4 < S w)%nat; [apply Nat.Div0.div_lt_upper_bound; lia|lia]. }
  pose proof (λ k, block_words w buf k) as Hjoin. cbv zeta in Hjoin. rewrite <- Hlen' in Hjoin.
  apply wp_block. eapply wp_mono; [apply (block_spec chkcfg _ s (done_ + len) room); [by apply Forall_take|done]|..]; cbv beta.
  - intros _ s1 (l & [Hl Hp1] & Hpush). destruct (pushed_app _ _ _ _ _ _ Hpush) as [room' Happ].
    eapply wp_mono; [apply (IH _ (done_ + len) room'); [by rewrite Hp1|by apply Forall_drop|rewrite length_drop; lia]|..]; cbv beta; rewrite Hp1.
    + intros _ s2 (l' & H2 & Hpush'). exists (l ++ l'). split; [by eapply cv_wrote_app|]. unfold pushed.
      specialize (Hjoin (length buf)). rewrite !(take_ge _ (_ + length buf)), (take_ge (drop _ _)) in Hjoin by (rewrite ?length_drop; lia).
      rewrite Hjoin. by apply Happ.
    + intros e s2 (He & l' & k & n & H2 & Hpush'). split; [done|]. exists (l ++ l'), (Z.to_nat len + k)%nat, n. split; [by eapply cv_wrote_app|].
      unfold pushed. rewrite Hjoin. by apply Happ.
  - intros e s1 (He & l & b' & n & H1 & Hb' & Hpush). split; [done|]. destruct Hb' as [-> | ->].
    + exists l, 0%nat, n. by rewrite take_0.
    + by exists l, (Z.to_nat len), n.
Qed.

(** C35: a write of a buffer, with the block sizes of both versions: it ends; when it
    succeeds the card was sent just the words of the buffer, in order and the last one
    filled with zeroes, and with credits every word belongs to a block that was
    granted, with at most 1024 words to a block; when it fails the card was sent the words of an
    initial part of the buffer, all granted as well. *)
Theorem cvp_write_exact chkcfg buf s :
  priv_ok (cv_priv s) → Forall is_u8 buf →
  wp (altera_cvp_write chkcfg buf)
    (λ _ s', ∃ l, cv_wrote s l s' ∧ cvp_data l = buf_words buf ∧ (pr_wait_credit (cv_priv s) = true → is_Some (granted (cv_sent_packets s) 0 l)))
    (λ e s', e ≠ 0 ∧ ∃ l k, cv_wrote s l s' ∧ cvp_data l = buf_words (take k buf) ∧
       (pr_wait_credit (cv_priv s) = true → is_Some (granted (cv_sent_packets s) 0 l))) s.
Proof.
  intros Hp Hu. unfold altera_cvp_write. wstep. eapply wp_mono; [by apply (write_loop_spec _ _ _ _ 0)|..]; cbv beta.
  - intros _ s1 (l & H1 & Hpush). destruct (pushed_app _ _ _ _ _ _ Hpush) as [room' Happ].
    assert (Hread : ∀ l', cvp_data l' = [] → (∀ n room, granted n room l' = Some (n, room)) →
      cvp_data (l ++ l') = buf_words buf ∧ (pr_wait_credit (cv_priv s) = true → is_Some (granted (cv_sent_packets s) 0 (l ++ l')))).
    { intros l' Hd Hg. destruct (Happ [] l' (cv_sent_packets s1)) as [-> Hgr]; [split; [done|intros _; exists room'; apply Hg]|].
      split; [apply app_nil_r|]. intros Hw. destruct (Hgr Hw) as [? ->]. by eexists. }
    destruct chkcfg; wsteps.
    + apply chk_error_spec; intros v s2 H2; [|split; [done|]]; exists (l ++ [CvpRead VSE_CVP_STATUS v]); [|exists (length buf); rewrite take_ge by lia];
        (split; [by eapply cv_wrote_app, cv_wrote_after|]); by apply Hread.
    + exists l. split; [done|]. rewrite <- (app_nil_r l). by apply Hread.
  - intros e s1 (He & l & k & n & H1 & Hd & Hg). split; [done|]. exists l, k. split_and!; [done|done|]. intros Hw. destruct (Hg Hw) as [? ->]. by eexists.
Qed.
End CvpFacts.

(** ** Probing and removing *)
Section CvpProbeFacts.
Context `{CvpHw} `{CvpKernel}.
(** Nothing is held of the card; the BAR is held for the manager. *)
Definition pd_free (p : cvp_pdev) : Prop := pd_region p = false ∧ pd_mapped p = false ∧ pd_mgr p = None.
Definition pd_held (p : cvp_pdev) : Prop := ∃ conf, pd_region p = true ∧ pd_mgr p = Some conf ∧ cv_map conf = pd_mapped p ∧
  priv_ok (cv_priv conf) ∧ pr_wait_credit (cv_priv conf) = negb (cv_vsec_offset conf =? V1_VSEC_OFFSET).
Lemma pd_op_spec {A} (f : cvk → A * cvk) r m g p (Q : A → cvp_pdev → Prop) E :
  pd_region p = r → pd_mapped p = m → pd_mgr p = g →
  (∀ a p', pd_region p' = r → pd_mapped p' = m → pd_mgr p' = g → Q a p') → wp (pd_op f) Q E p.
Proof. intros <- <- <- HQ. unfold wpg, pd_op. destruct (f (pd_k p)). by apply HQ. Qed.
Lemma pci_read_spec size addr r m g p (Q : Z → cvp_pdev → Prop) E :
  pd_region p = r → pd_mapped p = m → pd_mgr p = g →
  (∀ a p', pd_region p' = r → pd_mapped p' = m → pd_mgr p' = g → Q a p') → wp (pci_read size addr) Q E p.
Proof. intros <- <- <- HQ. unfold wpg, pci_read. destruct (cfg_read size addr (pd_dev p)) as [[? ?] ?]. by apply HQ. Qed.
Lemma pci_write_spec size addr v r m g p (Q : unit → cvp_pdev → Prop) E :
  pd_region p = r → pd_mapped p = m → pd_mgr p = g →
  (∀ p', pd_region p' = r → pd_mapped p' = m → pd_mgr p' = g → Q tt p') → wp (pci_write size addr v) Q E p.
Proof. intros <- <- <- HQ. unfold wpg, pci_write. by apply HQ. Qed.
Lemma cvp_probe_exact p : pd_free p → wp altera_cvp_probe (λ _, pd_held) (λ _, pd_free) p.
Proof.
  intros (Hr & Hm & Hg). unfold altera_cvp_probe.
  wstep. eapply pd_op_spec; [done..|]. intros offset p1 Hr1 Hm1 Hg1. destruct (offset =? 0); [by wsteps|].
  wstep. eapply pci_read_spec; [done..|]. intros val p2 Hr2 Hm2 Hg2. destruct (negb (val =? _)); [by wsteps|].
  wstep. eapply pci_read_spec; [done..|]. intros regval p3 Hr3 Hm3 Hg3. destruct (_ =? 0); [by wsteps|].
  wstep. eapply pd_op_spec; [done..|]. intros ok p4 Hr4 Hm4 Hg4. destruct ok; cbn [negb]; [|by wsteps].
  wstep. eapply pci_read_spec; [done..|]. intros cmd p5 Hr5 Hm5 Hg5. cbv zeta. wstep.
  apply wp_mono with (Q := λ _ p', pd_region p' = false ∧ pd_mapped p' = false ∧ pd_mgr p' = None) (E := λ _ _, False); [|clear p5 Hr5 Hm5 Hg5|done].
  { destruct (_ =? 0); [|by wsteps]. eapply pci_write_spec; done. }
  intros _ p6 (Hr6 & Hm6 & Hg6). wstep. wstep. eapply pd_op_spec; [done..|]. intros ret p7 Hr7 Hm7 Hg7.
  wsteps; intros _; [|eapply pci_write_spec; [done..|]; by intros].
  wsteps. eapply pd_op_spec; [done..|]. intros map p8 Hr8 Hm8 Hg8. wsteps.
  eapply pd_op_spec; [done..|]. intros ret2 p9 Hr9 Hm9 Hg9. wsteps; intros _; wsteps.
  - eexists. split_and!; [done|done|done| |]; cbn; destruct (_ =? _); (apply priv_ok_v1 || apply priv_ok_v2 || done).
  - eapply pci_write_spec; [done..|]. intros p10 ? ? ?. split_and!; cbn in *; congruence.
Qed.
Lemma cvp_remove_exact p : wp altera_cvp_remove (λ _, pd_free) (λ _ _, False) p.
Proof.
  unfold altera_cvp_remove. wsteps. set (p' := set_region _ _). assert (pd_mgr p' = None) by (unfold p'; by destruct (pd_mgr p) eqn:Hm).
  eapply pci_read_spec; [done..|]. intros cmd p1 Hr1 Hm1 Hg1. eapply pci_write_spec; [done..|]. by intros.
Qed.
End CvpProbeFacts.

(** ** A concrete card

    It is ready, its credits show one block, and it keeps the data. *)
Definition demo_card : CvpHw := {|
  cvp := list Z;
  cfg_read size addr d := ((0, if addr =? 0xb80 + VSE_CVP_TX_CREDITS then 1 else VSE_CVP_STATUS_CVP_EN), d);
  cfg_write size addr v d := (0, d);
  bar_write v d := d ++ [v];
|}.
Definition demo_conf (p : cvp_priv) : @altera_cvp_conf demo_card := @CvpConf demo_card [] true 1 0 0xb80 p [].
Definition demo_image : list Z := [1; 2; 3; 4; 5; 6].
Definition cvp_view (r : exec (outcome unit * @altera_cvp_conf demo_card)) : option (list cvp_io * list Z) :=
  match r with Done (Val _, s) => Some (cv_log s, cv_dev s) | _ => None end.
Lemma cvp_write_exact_witness :
  ∃ l, cvp_view (@altera_cvp_write demo_card false demo_image (demo_conf cvp_priv_v2)) = Some (l, [0x04030201; 0x0605]) ∧
    cvp_data l = [0x04030201; 0x0605] ∧ is_Some (granted 0 0 l).
Proof.
  pose proof (@cvp_write_exact demo_card false demo_image (demo_conf cvp_priv_v2)
    ltac:(exists 1024%nat; split; [lia|reflexivity]) ltac:(repeat constructor; unfold is_u8; lia)) as Hx.
  destruct (wp_val _ _ _ _ tt Hx ltac:(vm_compute; reflexivity)) as (s' & He & l & [Hl _] & Hd & Hg).
  cbn [cv_log demo_conf app] in Hl. subst l. exists (cv_log s'). split; [|split; [exact Hd|by apply Hg]]. rewrite He. cbn [cvp_view]. do 2 f_equal.
  assert (Hv : cvp_view (@altera_cvp_write demo_card false demo_image (demo_conf cvp_priv_v2)) =
    Some ([CvpCredit 1; CvpData 0x04030201; CvpData 0x0605], [0x04030201; 0x0605])) by (vm_compute; reflexivity).
  rewrite He in Hv. cbn [cvp_view] in Hv. congruence.
Defined.
(** An image in two parts, the first of them no whole number of words, is sent with
    zeroes in its middle. *)
Example parts_padded :
  cvp_view ((altera_cvp_write (H := demo_card) false [1; 2; 3] ;; altera_cvp_write (H := demo_card) false [4; 5; 6]) (demo_conf cvp_priv_v1)) =
    Some ([CvpData 0x030201; CvpData 0x060504], [0x030201; 0x060504]).
Proof. vm_compute. reflexivity. Qed.
