(* ===== verification/FmeMgr.v ===== *)
(** * FPGA manager of the management engine (drivers/fpga/dfl-fme-mgr.c)

    The low level driver that pushes an image into the partial reconfiguration
    engine: a reset handshake, the region id, the data in words of four bytes under
    the credits the engine grants, and the completion with its errors.  The engine
    is a parameter, and all that is known of it is that it has registers. *)
From S2P Require Import Prelude Bytes FpgaMgr.

(* drivers/fpga/dfl-fme-mgr.c:28-28 FME_PR_CTRL *)
Definition FME_PR_CTRL : Z := 0x8.
(* drivers/fpga/dfl-fme-mgr.c:29-29 FME_PR_STS *)
Definition FME_PR_STS : Z := 0x10.
(* drivers/fpga/dfl-fme-mgr.c:30-30 FME_PR_DATA *)
Definition FME_PR_DATA : Z := 0x18.
(* drivers/fpga/dfl-fme-mgr.c:31-31 FME_PR_ERR *)
Definition FME_PR_ERR : Z := 0x20.
(* drivers/fpga/dfl-fme-mgr.c:32-32 FME_PR_INTFC_ID_L *)
Definition FME_PR_INTFC_ID_L : Z := 0xA8.
(* drivers/fpga/dfl-fme-mgr.c:33-33 FME_PR_INTFC_ID_H *)
Definition FME_PR_INTFC_ID_H : Z := 0xB0.
(* drivers/fpga/dfl-fme-mgr.c:36-36 FME_PR_CTRL_PR_RST *)
Definition FME_PR_CTRL_PR_RST : field := BIT_ULL 0.
(* drivers/fpga/dfl-fme-mgr.c:37-37 FME_PR_CTRL_PR_RSTACK *)
Definition FME_PR_CTRL_PR_RSTACK : field := BIT_ULL 4.
(* drivers/fpga/dfl-fme-mgr.c:38-38 FME_PR_CTRL_PR_RGN_ID *)
Definition FME_PR_CTRL_PR_RGN_ID : field := GENMASK_ULL 9 7.
(* drivers/fpga/dfl-fme-mgr.c:39-39 FME_PR_CTRL_PR_START *)
Definition FME_PR_CTRL_PR_START : field := BIT_ULL 12.
(* drivers/fpga/dfl-fme-mgr.c:40-40 FME_PR_CTRL_PR_COMPLETE *)
Definition FME_PR_CTRL_PR_COMPLETE : field := BIT_ULL 13.
(* drivers/fpga/dfl-fme-mgr.c:44-44 FME_PR_STS_PR_CREDIT *)
Definition FME_PR_STS_PR_CREDIT : field := GENMASK_ULL 8 0.
(* drivers/fpga/dfl-fme-mgr.c:45-45 FME_PR_STS_PR_STS *)
Definition FME_PR_STS_PR_STS : field := BIT_ULL 16.
(* drivers/fpga/dfl-fme-mgr.c:57-57 FME_PR_ERR_OPERATION_ERR *)
Definition FME_PR_ERR_OPERATION_ERR : field := BIT_ULL 0.
(* drivers/fpga/dfl-fme-mgr.c:59-59 FME_PR_ERR_CRC_ERR *)
Definition FME_PR_ERR_CRC_ERR : field := BIT_ULL 1.
(* drivers/fpga/dfl-fme-mgr.c:61-61 FME_PR_ERR_INCOMPATIBLE_BS *)
Definition FME_PR_ERR_INCOMPATIBLE_BS : field := BIT_ULL 2.
(* drivers/fpga/dfl-fme-mgr.c:63-63 FME_PR_ERR_PROTOCOL_ERR *)
Definition FME_PR_ERR_PROTOCOL_ERR : field := BIT_ULL 3.
(* drivers/fpga/dfl-fme-mgr.c:65-65 FME_PR_ERR_FIFO_OVERFLOW *)
Definition FME_PR_ERR_FIFO_OVERFLOW : field := BIT_ULL 4.
(* drivers/fpga/dfl-fme-mgr.c:67-67 PR_WAIT_TIMEOUT *)
Definition PR_WAIT_TIMEOUT : Z := 8000000.

(* include/linux/fpga/fpga-mgr.h:190-190 FPGA_MGR_STATUS_OPERATION_ERR *)
Definition FPGA_MGR_STATUS_OPERATION_ERR : field := BIT_ULL 0.
(* include/linux/fpga/fpga-mgr.h:191-191 FPGA_MGR_STATUS_CRC_ERR *)
Definition FPGA_MGR_STATUS_CRC_ERR : field := BIT_ULL 1.
(* include/linux/fpga/fpga-mgr.h:192-192 FPGA_MGR_STATUS_INCOMPATIBLE_IMAGE_ERR *)
Definition FPGA_MGR_STATUS_INCOMPATIBLE_IMAGE_ERR : field := BIT_ULL 2.
(* include/linux/fpga/fpga-mgr.h:193-193 FPGA_MGR_STATUS_IP_PROTOCOL_ERR *)
Definition FPGA_MGR_STATUS_IP_PROTOCOL_ERR : field := BIT_ULL 3.
(* include/linux/fpga/fpga-mgr.h:194-194 FPGA_MGR_STATUS_FIFO_OVERFLOW_ERR *)
Definition FPGA_MGR_STATUS_FIFO_OVERFLOW_ERR : field := BIT_ULL 4.

(* drivers/fpga/dfl-fme-mgr.c:75-91 pr_error_to_mgr_status *)
Definition pr_error_to_mgr_status (err : Z) : Z :=
  let status := 0 in
  let status := if has_bits FME_PR_ERR_OPERATION_ERR err then Z.lor status (mask FPGA_MGR_STATUS_OPERATION_ERR) else status in
  let status := if has_bits FME_PR_ERR_CRC_ERR err then Z.lor status (mask FPGA_MGR_STATUS_CRC_ERR) else status in
  let status := if has_bits FME_PR_ERR_INCOMPATIBLE_BS err
                then Z.lor status (mask FPGA_MGR_STATUS_INCOMPATIBLE_IMAGE_ERR) else status in
  let status := if has_bits FME_PR_ERR_PROTOCOL_ERR err then Z.lor status (mask FPGA_MGR_STATUS_IP_PROTOCOL_ERR) else status in
  let status := if has_bits FME_PR_ERR_FIFO_OVERFLOW err then Z.lor status (mask FPGA_MGR_STATUS_FIFO_OVERFLOW_ERR) else status in
  status.

(** The reconfiguration engine: a read may change it; time passing shows in what
    the next read gives. *)
Class PrEngine := {
  pe : Type;
  pe_read : Z → pe → Z * pe;
  pe_write : Z → Z → pe → pe;
}.

(** An access to a register, by its offset. *)
Inductive pr_io := PrRead (off v : Z) | PrWrite (off v : Z).
#[export] Instance pr_io_eq : EqDecision pr_io.
Proof. solve_decision. Defined.

Section FmeMgr.
Context `{PrEngine}.

(** [fm_log] is the accesses so far; no code reads it. *)
(* drivers/fpga/dfl-fme-mgr.c:70-73 fme_mgr_priv *)
Record fme_mgr_priv := FmePriv {
  fm_dev : pe;
  fm_ioaddr : Z;
  fm_pr_error : Z;
  fm_log : list pr_io;
}.
Definition pr_readq (off : Z) : M fme_mgr_priv Z := λ s,
  let (v, d) := pe_read (fm_ioaddr s + off) (fm_dev s) in
  Done (Val v, FmePriv d (fm_ioaddr s) (fm_pr_error s) (fm_log s ++ [PrRead off v])).
Definition pr_writeq (v off : Z) : M fme_mgr_priv unit := modify (λ s,
  FmePriv (pe_write (fm_ioaddr s + off) v (fm_dev s)) (fm_ioaddr s) (fm_pr_error s) (fm_log s ++ [PrWrite off v])).
Definition set_pr_error (e : Z) : M fme_mgr_priv unit :=
  modify (λ s, FmePriv (fm_dev s) (fm_ioaddr s) e (fm_log s)).

(* drivers/fpga/dfl-fme-mgr.c:93-105 fme_mgr_pr_error_handle *)
Definition fme_mgr_pr_error_handle : M fme_mgr_priv Z :=
  pr_status ← pr_readq FME_PR_STS;
  if negb (has_bits FME_PR_STS_PR_STS pr_status) then mret 0 else
  pr_error ← pr_readq FME_PR_ERR;
  pr_writeq pr_error FME_PR_ERR ;;
  mret pr_error.

(** [polls] bounds the reads of each wait, by the time they take. *)
(* drivers/fpga/dfl-fme-mgr.c:107-162 fme_mgr_write_init *)
Definition fme_mgr_write_init (polls : nat) (flags region_id : Z) : M fme_mgr_priv unit :=
  if negb (has_bits FPGA_MGR_PARTIAL_RECONFIG flags) then throw (- EINVAL) else
  pr_ctrl ← pr_readq FME_PR_CTRL;
  pr_writeq (Z.lor pr_ctrl (mask FME_PR_CTRL_PR_RST)) FME_PR_CTRL ;;
  r ← read_poll_timeout (pr_readq FME_PR_CTRL) (has_bits FME_PR_CTRL_PR_RSTACK) polls;
  if negb ((r : Z * Z).1 =? 0) then throw (- ETIMEDOUT) else
  pr_ctrl ← pr_readq FME_PR_CTRL;
  pr_writeq (clear_field FME_PR_CTRL_PR_RST pr_ctrl) FME_PR_CTRL ;;
  r ← read_poll_timeout (pr_readq FME_PR_STS) (λ v, negb (has_bits FME_PR_STS_PR_STS v)) polls;
  if negb ((r : Z * Z).1 =? 0) then
    e ← fme_mgr_pr_error_handle;
    set_pr_error e ;;
    throw (- ETIMEDOUT)
  else
    e ← fme_mgr_pr_error_handle;
    set_pr_error e ;;
    pr_ctrl ← pr_readq FME_PR_CTRL;
    pr_writeq (Z.lor (clear_field FME_PR_CTRL_PR_RGN_ID pr_ctrl) (FIELD_PREP FME_PR_CTRL_PR_RGN_ID region_id))
      FME_PR_CTRL.

(** Waiting for credits: the credit and the delay so far. *)
(* drivers/fpga/dfl-fme-mgr.c:204-215 fme_mgr_write *)
Fixpoint wait_credit (fuel : nat) (delay pr_credit : Z) : M fme_mgr_priv (Z * Z) :=
  if negb (pr_credit <=? 1) then mret (delay, pr_credit)
  else if PR_WAIT_TIMEOUT <? delay then throw (- ETIMEDOUT)
  else match fuel with
  | O => nofuel
  | S fuel =>
      pr_status ← pr_readq FME_PR_STS;
      wait_credit fuel (delay + 1) (FIELD_GET FME_PR_STS_PR_CREDIT pr_status)
  end.

(** Pushing the rest of the data, [n] steps at most. *)
(* drivers/fpga/dfl-fme-mgr.c:203-226 fme_mgr_write *)
Fixpoint push_loop (fuel n : nat) (buf : list Z) (delay pr_credit : Z) : M fme_mgr_priv unit :=
  match buf with
  | [] => mret tt
  | _ =>
      match n with
      | O => nofuel
      | S n =>
          r ← wait_credit fuel delay pr_credit;
          let '(delay, pr_credit) := (r : Z * Z) in
          pr_writeq (le_word (take 4 buf)) FME_PR_DATA ;;
          push_loop fuel n (drop 4 buf) delay (pr_credit - 1)
      end
  end.

(* drivers/fpga/dfl-fme-mgr.c:174-229 fme_mgr_write *)
Definition fme_mgr_write (fuel : nat) (buf : list Z) : M fme_mgr_priv unit :=
  pr_ctrl ← pr_readq FME_PR_CTRL;
  pr_writeq (Z.lor pr_ctrl (mask FME_PR_CTRL_PR_START)) FME_PR_CTRL ;;
  pr_status ← pr_readq FME_PR_STS;
  push_loop fuel (length buf) buf 0 (FIELD_GET FME_PR_STS_PR_CREDIT pr_status).

(* drivers/fpga/dfl-fme-mgr.c:231-263 fme_mgr_write_complete *)
Definition fme_mgr_write_complete (polls : nat) : M fme_mgr_priv unit :=
  pr_ctrl ← pr_readq FME_PR_CTRL;
  pr_writeq (Z.lor pr_ctrl (mask FME_PR_CTRL_PR_COMPLETE)) FME_PR_CTRL ;;
  r ← read_poll_timeout (pr_readq FME_PR_CTRL) (λ v, negb (has_bits FME_PR_CTRL_PR_START v)) polls;
  if negb ((r : Z * Z).1 =? 0) then throw (- ETIMEDOUT) else
  e ← fme_mgr_pr_error_handle;
  set_pr_error e ;;
  if negb (e =? 0) then throw (- EIO) else mret tt.

(* drivers/fpga/dfl-fme-mgr.c:265-270 fme_mgr_status *)
Definition fme_mgr_status (s : fme_mgr_priv) : Z := pr_error_to_mgr_status (fm_pr_error s).

(* drivers/fpga/dfl-fme-mgr.c:279-284 fme_mgr_get_compat_id *)
Definition fme_mgr_get_compat_id : M fme_mgr_priv (Z * Z) :=
  id_l ← pr_readq FME_PR_INTFC_ID_L;
  id_h ← pr_readq FME_PR_INTFC_ID_H;
  mret (id_h, id_l).

(** ** As a low level driver of [FpgaMgr]

    A callback gives its status back; that the operations neither fault nor run
    out of fuel is proved in [FmeMgrFacts], so the last case does not arise. *)
(* drivers/fpga/dfl-fme-mgr.c:272-277 fme_mgr_ops *)
Definition fme_mgr_ops `{MgrKernel} (polls fuel : nat) : fpga_manager_ops fme_mgr_priv := {|
  mo_initial_header_size := 0;
  mo_skip_header := false;
  mo_state := None;
  mo_status := Some fme_mgr_status;
  mo_parse_header := None;
  mo_write_init := Some (λ info _ s,
    let (ret, s') := callback (fme_mgr_write_init polls (ii_flags info) (ii_region_id info)) s in
    ((ret, info), s'));
  mo_write := Some (λ buf, callback (fme_mgr_write fuel buf));
  mo_write_sg := None;
  mo_write_complete := Some (λ info s,
    let (ret, s') := callback (fme_mgr_write_complete polls) s in ((ret, info), s'));
  mo_fpga_remove := None;
|}.
End FmeMgr.
