(* ===== verification/FmeMgrFacts.v ===== *)
(** * Properties of the FPGA manager of the management engine

    What the driver of [FmeMgr] does to the registers of the engine, for every
    engine: the handshake, the data and its flow control, and that every operation
    ends. *)
From stdpp Require Import gmap strings.
From S2P Require Import Prelude Bytes FpgaMgr FpgaMgrFacts FmeMgr.

(** ** The log *)
Definition data_written (l : list pr_io) : list Z :=
  omap (λ e, match e with PrWrite off v => if off =? FME_PR_DATA then Some v else None | _ => None end) l.
(** The credit that is left after the accesses [l], the engine having granted what
    its status register said last; [None] if data were pushed with a credit of one
    or none. *)
Fixpoint flow (c : Z) (l : list pr_io) : option Z :=
  match l with
  | [] => Some c
  | PrRead off v :: l => flow (if off =? FME_PR_STS then FIELD_GET FME_PR_STS_PR_CREDIT v else c) l
  | PrWrite off _ :: l => if off =? FME_PR_DATA then if c <=? 1 then None else flow (c - 1) l else flow c l
  end.
Lemma flow_app c l l' : flow c (l ++ l') = flow c l ≫= λ c, flow c l'.
Proof.
  revert c. induction l as [|[off v|off v] l IH]; intros c; cbn [app flow]; [done|apply IH|].
  destruct (off =? FME_PR_DATA); [destruct (c <=? 1); [done|]|]; apply IH.
Qed.
Lemma data_written_app l l' : data_written (l ++ l') = data_written l ++ data_written l'.
Proof. apply omap_app. Qed.

Section Facts.
Context `{PrEngine}.
Implicit Types s : fme_mgr_priv.

(** [s'] is [s] after the accesses [l]. *)
Definition after s (l : list pr_io) s' : Prop :=
  s' = FmePriv (fm_dev s') (fm_ioaddr s) (fm_pr_error s') (fm_log s ++ l).
Lemma after_nil s : after s [] s.
Proof. unfold after. rewrite app_nil_r. by destruct s. Qed.
Lemma after_app s l s1 l' s2 : after s l s1 → after s1 l' s2 → after s (l ++ l') s2.
Proof. unfold after. intros -> ->. cbn. by rewrite app_assoc. Qed.
Lemma after_snoc s l s1 e d pe :
  after s l s1 → after s (l ++ [e]) (FmePriv d (fm_ioaddr s1) pe (fm_log s1 ++ [e])).
Proof. unfold after. intros ->. cbn. by rewrite app_assoc. Qed.
Lemma after_ioaddr s l s' : after s l s' → fm_ioaddr s' = fm_ioaddr s.
Proof. by intros ->. Qed.

Lemma mgr_readq_spec off s l s1 (Q : Z → fme_mgr_priv → Prop) E :
  after s l s1 → (∀ v s2, after s (l ++ [PrRead off v]) s2 → fm_pr_error s2 = fm_pr_error s1 → Q v s2) →
  wp (pr_readq off) Q E s1.
Proof.
  intros Ha HQ. unfold wpg, pr_readq. destruct (pe_read _ _) as [v d].
  apply HQ; [by apply after_snoc|done].
Qed.
Lemma writeq_spec v off s l s1 (Q : unit → fme_mgr_priv → Prop) E :
  after s l s1 → (∀ s2, after s (l ++ [PrWrite off v]) s2 → fm_pr_error s2 = fm_pr_error s1 → Q tt s2) →
  wp (pr_writeq v off) Q E s1.
Proof. intros Ha HQ. unfold pr_writeq. wsteps. apply HQ; [by apply after_snoc|done]. Qed.
Lemma set_pr_error_spec e s l s1 (Q : unit → fme_mgr_priv → Prop) E :
  after s l s1 → (∀ s2, after s l s2 → fm_pr_error s2 = e → Q tt s2) →
  wp (set_pr_error e) Q E s1.
Proof. intros -> HQ. unfold set_pr_error. wsteps. by apply HQ. Qed.

(** ** Waiting *)
Definition reads_of (off : Z) (p : list pr_io) : Prop := Forall (λ e, ∃ v, e = PrRead off v) p.
Lemma reads_of_nil off : reads_of off [].
Proof. constructor. Qed.
Lemma reads_of_cons off v p : reads_of off p → reads_of off (PrRead off v :: p).
Proof. intros Hp. constructor; [by eexists|done]. Qed.
#[local] Hint Resolve reads_of_nil reads_of_cons : core.
Lemma mgr_poll_spec off cond tries s l s1 (Q : Z * Z → fme_mgr_priv → Prop) E :
  after s l s1 →
  (∀ p v s2, reads_of off p → after s (l ++ p ++ [PrRead off v]) s2 → cond v = true → Q (0, v) s2) →
  (∀ p v s2, reads_of off p → after s (l ++ p ++ [PrRead off v]) s2 → Q (- ETIMEDOUT, v) s2) →
  wp (read_poll_timeout (pr_readq off) cond tries) Q E s1.
Proof.
  revert l s1. induction tries as [|n IH]; intros l s1 Ha HQ HT; cbn [read_poll_timeout]; wsteps;
    (eapply mgr_readq_spec; [done|]); intros v s2 Ha2 _; destruct (cond v) eqn:Hc.
  - wsteps. eapply (HQ []); by eauto.
  - wsteps. eapply mgr_readq_spec; [done|]. intros v' s3 Ha3 _.
    rewrite <- app_assoc in Ha3. assert (reads_of off [PrRead off v]) by auto.
    destruct (cond v') eqn:Hc'; wsteps; [eapply (HQ [_])|eapply (HT [_])]; by eauto.
  - wsteps. eapply (HQ []); by eauto.
  - eapply (IH (l ++ [PrRead off v])); [done|..]; intros p v' s3 Hp Ha3;
      rewrite <- app_assoc in Ha3; [eapply (HQ (_ :: p))|eapply (HT (_ :: p))]; by eauto.
Qed.

(** Handling an error reads the status, and the error register and clears it if the
    status says so. *)
Definition error_handled (e : Z) (l : list pr_io) : Prop :=
  ∃ v, (has_bits FME_PR_STS_PR_STS v = false ∧ e = 0 ∧ l = [PrRead FME_PR_STS v]) ∨
       (has_bits FME_PR_STS_PR_STS v = true ∧ l = [PrRead FME_PR_STS v; PrRead FME_PR_ERR e; PrWrite FME_PR_ERR e]).
Lemma error_handle_spec s l s1 (Q : Z → fme_mgr_priv → Prop) E :
  after s l s1 →
  (∀ e p s2, error_handled e p → after s (l ++ p) s2 → Q e s2) →
  wp fme_mgr_pr_error_handle Q E s1.
Proof.
  intros Ha HQ. unfold fme_mgr_pr_error_handle. wsteps. eapply mgr_readq_spec; [done|]. intros v s2 Ha2 _.
  destruct (has_bits FME_PR_STS_PR_STS v) eqn:Hv; cbn [negb]; wsteps.
  - eapply mgr_readq_spec; [done|]. intros e s3 Ha3 _. wsteps. eapply writeq_spec; [done|]. intros s4 Ha4 _.
    wsteps. eapply HQ; [|by rewrite <- !app_assoc in Ha4]. exists v. by right.
  - eapply HQ; [|done]. exists v. by left.
Qed.

(** ** Preparing *)
Definition init_log (region_id : Z) (l : list pr_io) : Prop :=
  ∃ c p a c2 q i e h c3,
    l = [PrRead FME_PR_CTRL c; PrWrite FME_PR_CTRL (Z.lor c (mask FME_PR_CTRL_PR_RST))] ++
        p ++ [PrRead FME_PR_CTRL a] ++
        [PrRead FME_PR_CTRL c2; PrWrite FME_PR_CTRL (clear_field FME_PR_CTRL_PR_RST c2)] ++
        q ++ [PrRead FME_PR_STS i] ++ h ++
        [PrRead FME_PR_CTRL c3; PrWrite FME_PR_CTRL (set_field FME_PR_CTRL_PR_RGN_ID c3 region_id)] ∧
    reads_of FME_PR_CTRL p ∧ has_bits FME_PR_CTRL_PR_RSTACK a = true ∧
    reads_of FME_PR_STS q ∧ has_bits FME_PR_STS_PR_STS i = false ∧ error_handled e h.
(** The request that begins a step. *)
Definition ctrl_request (bit : field) (l : list pr_io) : Prop :=
  ∃ c p, l = [PrRead FME_PR_CTRL c; PrWrite FME_PR_CTRL (Z.lor c (mask bit))] ++ p ∧ data_written p = [].
Lemma reads_no_data off p : reads_of off p → data_written p = [].
Proof. induction 1 as [|e p (v & ->) _ IH]; [done|]. exact IH. Qed.
Lemma handled_no_data e h : error_handled e h → data_written h = [].
Proof. by intros (v & [(_ & _ & ->)|(_ & ->)]). Qed.
Lemma fme_write_init_spec polls flags region_id s l s1 (Q : unit → fme_mgr_priv → Prop) (E : Z → fme_mgr_priv → Prop) :
  after s l s1 →
  (∀ p s2, has_bits FPGA_MGR_PARTIAL_RECONFIG flags = true → init_log region_id p → after s (l ++ p) s2 → Q tt s2) →
  (has_bits FPGA_MGR_PARTIAL_RECONFIG flags = false → E (- EINVAL) s1) →
  (∀ p s2, has_bits FPGA_MGR_PARTIAL_RECONFIG flags = true → ctrl_request FME_PR_CTRL_PR_RST p → after s (l ++ p) s2 → E (- ETIMEDOUT) s2) →
  wp (fme_mgr_write_init polls flags region_id) Q E s1.
Proof.
  intros Ha HQ HI HE. unfold fme_mgr_write_init.
  destruct (has_bits FPGA_MGR_PARTIAL_RECONFIG flags) eqn:Hf; cbn [negb]; wsteps; [|by apply HI].
  eapply mgr_readq_spec; [done|]. intros c s2 Ha2 _. wsteps. eapply writeq_spec; [done|]. intros s3 Ha3 _. wsteps.
  eapply mgr_poll_spec; [done| |]; cycle 1.
  { intros p v s4 Hp Ha4. wif. wsteps. rewrite <- !app_assoc in Ha4. eapply HE; [done| |exact Ha4]. exists c, (p ++ [PrRead FME_PR_CTRL v]).
    split; [done|]. by rewrite data_written_app, (reads_no_data _ _ Hp). }
  intros p a s4 Hp Ha4 Hack. wif. wsteps.
  eapply mgr_readq_spec; [done|]. intros c2 s5 Ha5 _. wsteps. eapply writeq_spec; [done|]. intros s6 Ha6 _. wsteps.
  eapply mgr_poll_spec; [done| |]; cycle 1.
  { intros q v s7 Hq Ha7. wif. wsteps. eapply error_handle_spec; [done|]. intros e h s8 Hh Ha8. wsteps.
    eapply set_pr_error_spec; [done|]. intros s9 Ha9 _. wsteps. rewrite <- !app_assoc in Ha9. cbn [app] in Ha9. eapply HE; [done| |exact Ha9].
    exists c. eexists. split; [reflexivity|]. rewrite data_written_app, (reads_no_data _ _ Hp).
    change (data_written (q ++ PrRead FME_PR_STS v :: h) = []). by rewrite data_written_app, (reads_no_data _ _ Hq); cbn; apply handled_no_data in Hh. }
  intros q i s7 Hq Ha7 Hidle%negb_true_iff. wif. wsteps. eapply error_handle_spec; [done|].
  intros e h s8 Hh Ha8. wsteps. eapply set_pr_error_spec; [done|]. intros s9 Ha9 _. wsteps.
  eapply mgr_readq_spec; [done|]. intros c3 s10 Ha10 _. wsteps. eapply writeq_spec; [done|]. intros s11 Ha11 _.
  rewrite <- !app_assoc in Ha11. cbn [app] in Ha11.
  eapply HQ; [done| |exact Ha11]. exists c, p, a, c2, q, i, e, h, c3. split_and!; [|done..].
  done.
Qed.

(** ** Writing *)
Lemma wait_credit_spec fuel delay c s l s1 (Q : Z * Z → fme_mgr_priv → Prop) (E : Z → fme_mgr_priv → Prop) :
  0 ≤ delay → PR_WAIT_TIMEOUT + 1 - delay ≤ Z.of_nat fuel → after s l s1 →
  (∀ d c' p s2, 0 ≤ d → 1 < c' → reads_of FME_PR_STS p → flow c p = Some c' → after s (l ++ p) s2 → Q (d, c') s2) →
  (∀ p s2, reads_of FME_PR_STS p → is_Some (flow c p) → after s (l ++ p) s2 → E (- ETIMEDOUT) s2) →
  wp (wait_credit fuel delay c) Q E s1.
Proof.
  revert delay c l s1. induction fuel as [|fuel IH]; intros delay c l s1 Hd Hf Ha HQ HE; cbn [wait_credit];
    (destruct (Z.leb_spec c 1) as [Hc|Hc]; cbn [negb];
     [|wsteps; apply (HQ _ _ []); [done..|by rewrite app_nil_r]]);
    destruct (Z.ltb_spec PR_WAIT_TIMEOUT delay) as [Ht|Ht]; [wsteps; apply (HE []); [done|by eexists|by rewrite app_nil_r]| |
      wsteps; apply (HE []); [done|by eexists|by rewrite app_nil_r]|].
  - lia.
  - wsteps. eapply mgr_readq_spec; [done|]. intros v s2 Ha2 _. eapply IH; [lia|lia|done| |].
    + intros d c' p s3 Hd' Hc' Hp Hfl Ha3. rewrite <- app_assoc in Ha3. eapply (HQ _ _ (_ :: p)); by eauto.
    + intros p s3 Hp Hfl Ha3. rewrite <- app_assoc in Ha3. eapply (HE (_ :: p)); by eauto.
Qed.

Lemma push_loop_spec fuel n buf delay c s l s1 (Q : unit → fme_mgr_priv → Prop) (E : Z → fme_mgr_priv → Prop) :
  (length buf ≤ n)%nat → 0 ≤ delay → PR_WAIT_TIMEOUT + 1 ≤ Z.of_nat fuel → after s l s1 →
  (∀ p s2, data_written p = le_words n buf → is_Some (flow c p) → after s (l ++ p) s2 → Q tt s2) →
  (∀ p s2, data_written p `prefix_of` le_words n buf → is_Some (flow c p) → after s (l ++ p) s2 → E (- ETIMEDOUT) s2) →
  wp (push_loop fuel n buf delay c) Q E s1.
Proof.
  revert buf delay c l s1. induction n as [|n IH]; intros [|b buf] delay c l s1 Hn Hd Hf Ha HQ HE;
    cbn in Hn; try lia; cbn [push_loop];
    try (wsteps; apply (HQ []); [done|by eexists|by rewrite app_nil_r]).
  wsteps. eapply wait_credit_spec; [done|lia|done| |].
  - intros d c' p s2 Hd' Hc' Hp Hfl Ha2. wsteps. eapply writeq_spec; [done|]. intros s3 Ha3 _.
    rewrite <- app_assoc in Ha3. pose proof (reads_no_data _ _ Hp) as Hnp.
    set (w := le_word _) in *. set (rest := drop 4 (b :: buf)).
    assert (∀ q, flow c (p ++ PrWrite FME_PR_DATA w :: q) = flow (c' - 1) q) as Hflow.
    { intros q. rewrite flow_app, Hfl. cbn [mbind option_bind flow]. rewrite Z.eqb_refl.
      by destruct (Z.leb_spec c' 1); [lia|]. }
    assert (∀ q, data_written (p ++ PrWrite FME_PR_DATA w :: q) = w :: data_written q) as Hdata.
    { intros q. by rewrite data_written_app, Hnp. }
    eapply IH; [|done|done|done| |]; [unfold rest; rewrite length_drop; cbn; lia| |].
    + intros q s4 Hq Hfq Ha4. rewrite <- !app_assoc in Ha4. cbn [app] in Ha4. eapply (HQ _ s4); [..|exact Ha4].
      * rewrite Hdata, Hq. done.
      * by rewrite Hflow.
    + intros q s4 Hq Hfq Ha4. rewrite <- !app_assoc in Ha4. cbn [app] in Ha4. eapply (HE _ s4); [..|exact Ha4].
      * rewrite Hdata. by apply prefix_cons.
      * by rewrite Hflow.
  - intros p s2 Hp Hfl Ha2. eapply HE; [|done|done]. rewrite (reads_no_data _ _ Hp). apply prefix_nil.
Qed.

(** The credit the engine grants before any status was read is none. *)
Definition write_log (ok : bool) (buf : list Z) (l : list pr_io) : Prop :=
  ∃ c v p, l = [PrRead FME_PR_CTRL c; PrWrite FME_PR_CTRL (Z.lor c (mask FME_PR_CTRL_PR_START));
                PrRead FME_PR_STS v] ++ p ∧
    is_Some (flow 0 l) ∧
    if ok then data_written l = le_words (length buf) buf
    else data_written l `prefix_of` le_words (length buf) buf.
Lemma fme_write_spec fuel buf s l s1 (Q : unit → fme_mgr_priv → Prop) (E : Z → fme_mgr_priv → Prop) :
  PR_WAIT_TIMEOUT + 1 ≤ Z.of_nat fuel → after s l s1 →
  (∀ p s2, write_log true buf p → after s (l ++ p) s2 → Q tt s2) →
  (∀ p s2, write_log false buf p → after s (l ++ p) s2 → E (- ETIMEDOUT) s2) →
  wp (fme_mgr_write fuel buf) Q E s1.
Proof.
  intros Hf Ha HQ HE. unfold fme_mgr_write. wsteps.
  eapply mgr_readq_spec; [done|]. intros c s2 Ha2 _. wsteps. eapply writeq_spec; [done|]. intros s3 Ha3 _. wsteps.
  eapply mgr_readq_spec; [done|]. intros v s4 Ha4 _.
  eapply push_loop_spec; [done|done|done|exact Ha4| |]; intros p s5 Hp Hfl Ha5;
    rewrite <- !app_assoc in Ha5; [eapply (HQ _ s5)|eapply (HE _ s5)]; try exact Ha5; exists c, v, p; by split_and!.
Qed.

(** ** Completing *)
Definition complete_log (l : list pr_io) : Prop :=
  ∃ c p a h, l = [PrRead FME_PR_CTRL c; PrWrite FME_PR_CTRL (Z.lor c (mask FME_PR_CTRL_PR_COMPLETE))] ++
      p ++ [PrRead FME_PR_CTRL a] ++ h ∧
    reads_of FME_PR_CTRL p ∧ has_bits FME_PR_CTRL_PR_START a = false ∧ error_handled 0 h.
Lemma fme_complete_spec polls s l s1 (Q : unit → fme_mgr_priv → Prop) (E : Z → fme_mgr_priv → Prop) :
  after s l s1 →
  (∀ p s2, complete_log p → after s (l ++ p) s2 → fm_pr_error s2 = 0 → Q tt s2) →
  (∀ e p s2, e = - ETIMEDOUT ∨ e = - EIO ∧ fm_pr_error s2 ≠ 0 → ctrl_request FME_PR_CTRL_PR_COMPLETE p → after s (l ++ p) s2 → E e s2) →
  wp (fme_mgr_write_complete polls) Q E s1.
Proof.
  intros Ha HQ HE. unfold fme_mgr_write_complete. wsteps.
  eapply mgr_readq_spec; [done|]. intros c s2 Ha2 _. wsteps. eapply writeq_spec; [done|]. intros s3 Ha3 _. wsteps.
  eapply mgr_poll_spec; [done| |]; cycle 1.
  { intros p v s4 Hp Ha4. wif. wsteps. rewrite <- !app_assoc in Ha4. eapply HE; [by left| |exact Ha4]. exists c, (p ++ [PrRead FME_PR_CTRL v]).
    split; [done|]. by rewrite data_written_app, (reads_no_data _ _ Hp). }
  intros p a s4 Hp Ha4 Hst%negb_true_iff. wif. wsteps. eapply error_handle_spec; [done|].
  intros e h s5 Hh Ha5. wsteps. eapply set_pr_error_spec; [done|]. intros s6 Ha6 He.
  rewrite <- !app_assoc in Ha6.
  destruct (Z.eqb_spec e 0) as [->|Hne]; cbn [negb]; wsteps.
  2: { eapply HE; [right; by subst| |exact Ha6]. exists c, (p ++ [PrRead FME_PR_CTRL a] ++ h).
       split; [done|]. by rewrite !data_written_app, (reads_no_data _ _ Hp), (handled_no_data _ _ Hh). }
  eapply HQ; [|exact Ha6|done]. exists c, p, a, h. by split_and!.
Qed.
End Facts.

(** ** Loading an image into the reconfiguration engine

    The driver of [FmeMgr] under the framework of [FpgaMgr]: what a whole load does
    to the engine. *)

Section Load.
Context `{PrEngine} `{MgrKernel} (polls fuel : nat).
Hypothesis Hfuel : PR_WAIT_TIMEOUT + 1 ≤ Z.of_nat fuel.
Abbreviation ops := (fme_mgr_ops polls fuel).
Implicit Types s : fme_mgr_priv.

Lemma init_log_no_data r l : init_log r l → data_written l = [].
Proof.
  intros (c & p & a & c2 & q & i & e & h & c3 & -> & Hp & _ & Hq & _ & (v & [(_ & _ & ->)|(_ & ->)]));
    rewrite !data_written_app, (reads_no_data _ _ Hp), (reads_no_data _ _ Hq); done.
Qed.
Lemma complete_log_no_data l : complete_log l → data_written l = [].
Proof.
  intros (c & p & a & h & -> & Hp & _ & (v & [(_ & _ & ->)|(_ & ->)]));
    rewrite !data_written_app, (reads_no_data _ _ Hp); done.
Qed.

(** What a load did to the engine. *)
Definition engine_loaded (region_id : Z) (buf : list Z) s s' : Prop :=
  ∃ li lw lc, after s (li ++ lw ++ lc) s' ∧ init_log region_id li ∧ write_log true buf lw ∧ complete_log lc.

(** How far the engine has been taken when the step that [st] names failed. *)
Definition init_failed (flags : Z) s (e : Z) s' : Prop :=
  e = - EINVAL ∧ has_bits FPGA_MGR_PARTIAL_RECONFIG flags = false ∧ s' = s ∨
  e = - ETIMEDOUT ∧ ∃ l, after s l s' ∧ ctrl_request FME_PR_CTRL_PR_RST l.
Definition write_failed (region_id : Z) (buf : list Z) s (e : Z) s' : Prop :=
  e = - ETIMEDOUT ∧ ∃ li lw, after s (li ++ lw) s' ∧ init_log region_id li ∧ write_log false buf lw.
Definition complete_failed (region_id : Z) (buf : list Z) s (e : Z) s' : Prop :=
  (e = - ETIMEDOUT ∨ e = - EIO ∧ fm_pr_error s' ≠ 0) ∧
  ∃ li lw lc, after s (li ++ lw ++ lc) s' ∧ init_log region_id li ∧ write_log true buf lw ∧ ctrl_request FME_PR_CTRL_PR_COMPLETE lc.
Lemma fme_load_spec fl addr buf (g : gst) :
  ii_sgt (g_info g) = None → ii_buf (g_info g) = Some (addr, buf) → buf ≠ [] → ii_data_size (g_info g) = 0 →
  let r := ii_region_id (g_info g) in
  wp (fpga_mgr_load ops fl)
    (λ _ g', g_state g' = FPGA_MGR_STATE_OPERATING ∧ has_bits FPGA_MGR_PARTIAL_RECONFIG (ii_flags (g_info g)) = true ∧
       engine_loaded r buf (g_drv g) (g_drv g') ∧ fm_pr_error (g_drv g') = 0)
    (λ e g', failed_step (init_failed (ii_flags (g_info g)) (g_drv g)) (write_failed r buf (g_drv g)) (complete_failed r buf (g_drv g))
       (g_state g') e (g_drv g')) g.
Proof.
  intros Ht Hb Hne Hz r. set (pr := has_bits FPGA_MGR_PARTIAL_RECONFIG (ii_flags (g_info g)) = true).
  eapply wp_mono; [eapply (load_buffer_rule ops _ _ (Some _) fl addr buf g
    (λ d, pr ∧ ∃ li, init_log r li ∧ after (g_drv g) li d)
    (λ d, pr ∧ ∃ li lw, init_log r li ∧ write_log true buf lw ∧ after (g_drv g) (li ++ lw) d)
    (λ d, pr ∧ engine_loaded r buf (g_drv g) d ∧ fm_pr_error d = 0)
    (init_failed (ii_flags (g_info g)) (g_drv g)) (write_failed r buf (g_drv g)) (complete_failed r buf (g_drv g))); [by split|done..| | |]|done|done]; cbv beta.
  - cbn [no_header ii_flags ii_region_id].
    pose proof (callback_spec (fme_mgr_write_init polls (ii_flags (g_info g)) r) (g_drv g)
      (λ _ s2, pr ∧ ∃ p, init_log r p ∧ after (g_drv g) p s2) (init_failed (ii_flags (g_info g)) (g_drv g))) as Hcb.
    destruct (callback _ _) as [r1 d1]. split; [done|]. apply Hcb; [|by intros e s2 [[-> _]|[-> _]]].
    eapply fme_write_init_spec; [apply after_nil|eauto|by left|]. intros p s2 _ Hp Ha. right. split; [done|]. by exists p.
  - intros d [Hpr (li & Hli & Ha)].
    apply (callback_spec (fme_mgr_write fuel buf) d (λ _ d, pr ∧ ∃ li lw, init_log r li ∧ write_log true buf lw ∧ after (g_drv g) (li ++ lw) d));
      [|by intros e s2 [-> _]].
    eapply fme_write_spec; [done|done|..]; intros p s2 Hp Ha2; [split; [done|]; by exists li, p|]. split; [done|]. by exists li, p.
  - intros d [Hpr (li & lw & Hli & Hlw & Ha)].
    pose proof (callback_spec (fme_mgr_write_complete polls) d (λ _ d, pr ∧ engine_loaded r buf (g_drv g) d ∧ fm_pr_error d = 0)
      (complete_failed r buf (g_drv g))) as Hcb.
    destruct (callback _ _) as [r3 d3]. apply Hcb; [|by intros e s2 [[-> |[-> _]] _]].
    eapply fme_complete_spec; [done|..].
    + intros p s2 Hp Ha2 He. split; [done|]. split; [|done]. exists li, lw, p. rewrite <- app_assoc in Ha2. by split_and!.
    + intros e p s2 He Hp Ha2. split; [done|]. exists li, lw, p. rewrite <- app_assoc in Ha2. by split_and!.
Qed.

(** C15: loading an image from a buffer that is not empty, all of it, for partial
    reconfiguration through the FME manager always ends, whatever the engine answers.  After a success the manager
    is operating, no error is recorded, and the engine has seen in this order: a
    reset request, its acknowledgement, the reset taken back, an idle status, the
    id of the region, the start request, the data, the completion, and the start
    request gone.  The words of the data written, split in four bytes each, are the
    bytes of the image and at most three zeroes; none was written while the credit
    the engine had last granted was used up but for one.  After a failure the
    manager is in the error state of the step that failed: preparing was refused with
    nothing done, or timed out after the reset request with no data written; writing timed
    out after preparing was complete; completing timed out, or found the error bits of
    the engine for an [-EIO], after all data were written. *)
Theorem fme_load_pushes_image fl addr buf (g : gst) :
  ii_sgt (g_info g) = None → ii_buf (g_info g) = Some (addr, buf) → buf ≠ [] → ii_data_size (g_info g) = 0 →
  Forall is_u8 buf →
  wp (fpga_mgr_load ops fl)
    (λ _ g', g_state g' = FPGA_MGR_STATE_OPERATING ∧ fm_pr_error (g_drv g') = 0 ∧
       ∃ l pad, after (g_drv g) l (g_drv g') ∧ is_Some (flow 0 l) ∧ (pad < 4)%nat ∧
         data_written l ≫= le_split 4 = buf ++ replicate pad 0 ∧
         engine_loaded (ii_region_id (g_info g)) buf (g_drv g) (g_drv g'))
    (λ e g', let r := ii_region_id (g_info g) in
       failed_step (init_failed (ii_flags (g_info g)) (g_drv g)) (write_failed r buf (g_drv g)) (complete_failed r buf (g_drv g))
         (g_state g') e (g_drv g')) g.
Proof.
  intros Ht Hb Hne Hz Hu. eapply wp_mono; [by eapply fme_load_spec| |done].
  intros _ g' (? & ? & Hl & ?). split_and!; [done..|]. pose proof Hl as (li & lw & lc & Ha & Hi & Hw & Hc).
  destruct (le_words_bytes (length buf) buf) as (pad & Hp & He); [done..|].
  exists (li ++ lw ++ lc), pad. split_and!; [done| |done| |done].
  - assert (∀ c l, data_written l = [] → is_Some (flow c l)) as Hnd.
    { intros c l. revert c. induction l as [|[off v|off v] l IH]; intros c Hd; cbn in *; [by eexists|by apply IH|].
      destruct (off =? FME_PR_DATA); [done|by apply IH]. }
    destruct (Hnd 0 li (init_log_no_data _ _ Hi)) as [c1 Hc1]. rewrite !flow_app, Hc1. cbn.
    destruct Hw as (c & v & p & -> & Hfl & _). rewrite flow_app in Hfl. cbn in Hfl |- *.
    rewrite flow_app. destruct Hfl as [c2 Hc2]. rewrite Hc2. cbn. apply Hnd. by eapply complete_log_no_data.
  - rewrite !data_written_app, (init_log_no_data _ _ Hi), (complete_log_no_data _ Hc).
    destruct Hw as (c & v & p & -> & _ & Hd). by rewrite app_nil_r, Hd.
Qed.
End Load.
