(* ===== verification/FpgaRegion.v ===== *)
(** * FPGA bridges and regions (drivers/fpga/fpga-bridge.c, fpga-region.c, fpga-mgr.c)

    A region of an FPGA is programmed by a manager while the bridges that connect
    it are disabled.  Region, manager and bridges are each for one user at a time:
    they are tried to lock, never waited for; whoever holds one also holds a
    reference to its device and to the module of its driver. *)
From stdpp Require Import gmap gmultiset strings.
From S2P Require Import Prelude FpgaMgr.

(** Devices are known by number; [br_parent] and [rg_parent] are the devices that
    bridge and region were registered with, an image information is known by its
    address. *)
(* include/linux/fpga/fpga-bridge.h:52-60 fpga_bridge *)
Record fpga_bridge := Bridge {
  br_parent : Z;
  br_of_node : option Z;
  br_locked : bool;
  br_info : option Z;
}.
(** A bridge in a list is known by its position among all bridges. *)
(* include/linux/fpga/fpga-region.h:42-51 fpga_region *)
Record fpga_region := Region {
  rg_parent : Z;
  rg_locked : bool;
  rg_bridge_list : list nat;
  rg_info : Z;
}.

(** References to devices: to a bridge, to a region, to the manager. *)
Abbreviation dev_ref := (nat + (nat + unit))%type.
Abbreviation RefBridge i := (inl i : dev_ref) (only parsing).
Abbreviation RefRegion i := (inr (inl i) : dev_ref) (only parsing).
Abbreviation RefMgr := (inr (inr tt) : dev_ref) (only parsing).

(** What happens to the hardware, in order. *)
Inductive fpga_event := EvBridge (i : nat) (enable : bool) (ret : Z) | EvLoad (ok : bool).
#[export] Instance fpga_event_eq : EqDecision fpga_event.
Proof. solve_decision. Defined.

(** The low level drivers of the bridges (the operation [enable_set] of each, which
    may be missing) and the modules (the one of the driver of a device, and whether
    it can be used). *)
Class BridgeHw := {
  bw : Type;
  enable_set : nat → option (bool → bw → Z * bw);
  owner : Z → Z;
  module_alive : Z → bool;
}.

Section Region.
Context `{MgrKernel} `{BridgeHw} {D : Type} (mops : fpga_manager_ops D).

(** [r_mods] and [r_devs] are the references to modules and devices that are held,
    each as often as it is; [r_trace] is what happened, no code reads it. *)
Record rst := RSt {
  r_bridges : list fpga_bridge;
  r_regions : list fpga_region;
  r_mods : gmultiset Z;
  r_devs : gmultiset dev_ref;
  r_mgr_parent : Z;
  r_mgr_locked : bool;
  r_mgr : gst (D := D);
  r_hw : bw;
  r_trace : list fpga_event;
}.
Definition set_bridges x s := RSt x (r_regions s) (r_mods s) (r_devs s) (r_mgr_parent s) (r_mgr_locked s) (r_mgr s) (r_hw s) (r_trace s).
Definition set_regions x s := RSt (r_bridges s) x (r_mods s) (r_devs s) (r_mgr_parent s) (r_mgr_locked s) (r_mgr s) (r_hw s) (r_trace s).
Definition set_mods x s := RSt (r_bridges s) (r_regions s) x (r_devs s) (r_mgr_parent s) (r_mgr_locked s) (r_mgr s) (r_hw s) (r_trace s).
Definition set_devs x s := RSt (r_bridges s) (r_regions s) (r_mods s) x (r_mgr_parent s) (r_mgr_locked s) (r_mgr s) (r_hw s) (r_trace s).
Definition set_mgr_locked x s := RSt (r_bridges s) (r_regions s) (r_mods s) (r_devs s) (r_mgr_parent s) x (r_mgr s) (r_hw s) (r_trace s).
Definition set_mgr x s := RSt (r_bridges s) (r_regions s) (r_mods s) (r_devs s) (r_mgr_parent s) (r_mgr_locked s) x (r_hw s) (r_trace s).
Definition set_hw x s := RSt (r_bridges s) (r_regions s) (r_mods s) (r_devs s) (r_mgr_parent s) (r_mgr_locked s) (r_mgr s) x (r_trace s).
Definition add_event e s := RSt (r_bridges s) (r_regions s) (r_mods s) (r_devs s) (r_mgr_parent s) (r_mgr_locked s) (r_mgr s) (r_hw s) (r_trace s ++ [e]).

Definition get_device (d : dev_ref) : M rst unit := modify (λ s, set_devs (r_devs s ⊎ {[+ d +]}) s).
Definition put_device (d : dev_ref) : M rst unit := modify (λ s, set_devs (r_devs s ∖ {[+ d +]}) s).
(** [try_module_get(dev->parent->driver->owner)] and [module_put]. *)
Definition try_module_get (parent : Z) : M rst bool :=
  if module_alive (owner parent)
  then modify (λ s, set_mods (r_mods s ⊎ {[+ owner parent +]}) s) ;; mret true
  else mret false.
Definition module_put (parent : Z) : M rst unit := modify (λ s, set_mods (r_mods s ∖ {[+ owner parent +]}) s).

Definition the_bridge (i : nat) : M rst fpga_bridge := s ← get; access (r_bridges s !! i).
Definition upd_bridge (i : nat) (f : fpga_bridge → fpga_bridge) : M rst unit :=
  modify (λ s, set_bridges (alter f i (r_bridges s)) s).
Definition the_region (r : nat) : M rst fpga_region := s ← get; access (r_regions s !! r).
Definition upd_region (r : nat) (f : fpga_region → fpga_region) : M rst unit :=
  modify (λ s, set_regions (alter f r (r_regions s)) s).
Definition set_br_info (x : option Z) (b : fpga_bridge) := Bridge (br_parent b) (br_of_node b) (br_locked b) x.
Definition set_br_locked (x : bool) (b : fpga_bridge) := Bridge (br_parent b) (br_of_node b) x (br_info b).
Definition set_rg_locked (x : bool) (r : fpga_region) := Region (rg_parent r) x (rg_bridge_list r) (rg_info r).
Definition set_rg_bridge_list (x : list nat) (r : fpga_region) := Region (rg_parent r) (rg_locked r) x (rg_info r).
Definition set_rg_info (x : Z) (r : fpga_region) := Region (rg_parent r) (rg_locked r) (rg_bridge_list r) x.

(** ** Bridges *)

(* drivers/fpga/fpga-bridge.c:29-37 fpga_bridge_enable *)
Definition fpga_bridge_enable (i : nat) : M rst Z :=
  match enable_set i with
  | Some f => λ s, let (ret, w) := f true (r_hw s) in
                   Done (Val ret, add_event (EvBridge i true ret) (set_hw w s))
  | None => modify (add_event (EvBridge i true 0)) ;; mret 0
  end.

(* drivers/fpga/fpga-bridge.c:47-55 fpga_bridge_disable *)
Definition fpga_bridge_disable (i : nat) : M rst Z :=
  match enable_set i with
  | Some f => λ s, let (ret, w) := f false (r_hw s) in
                   Done (Val ret, add_event (EvBridge i false ret) (set_hw w s))
  | None => modify (add_event (EvBridge i false 0)) ;; mret 0
  end.

(** The caller has a reference to the device of the bridge. *)
(* drivers/fpga/fpga-bridge.c:58-85 __fpga_bridge_get *)
Definition __fpga_bridge_get (i : nat) (info : Z) : M rst nat :=
  upd_bridge i (set_br_info (Some info)) ;;
  b ← the_bridge i;
  if br_locked b then put_device (RefBridge i) ;; throw (- EBUSY) else
  upd_bridge i (set_br_locked true) ;;
  alive ← try_module_get (br_parent b);
  if negb alive then
    upd_bridge i (set_br_locked false) ;;
    put_device (RefBridge i) ;;
    throw (- ENODEV)
  else mret i.

Fixpoint find_index {A} (P : A → bool) (l : list A) : option nat :=
  match l with
  | [] => None
  | a :: l => if P a then Some 0%nat else S <$> find_index P l
  end.

(* drivers/fpga/fpga-bridge.c:97-107 of_fpga_bridge_get *)
Definition of_fpga_bridge_get (np info : Z) : M rst nat :=
  s ← get;
  match find_index (λ b, bool_decide (br_of_node b = Some np)) (r_bridges s) with
  | None => throw (- ENODEV)
  | Some i => get_device (RefBridge i) ;; __fpga_bridge_get i info
  end.

(* drivers/fpga/fpga-bridge.c:110-113 fpga_bridge_dev_match *)
Definition fpga_bridge_dev_match (dev : Z) (b : fpga_bridge) : bool := br_parent b =? dev.

(* drivers/fpga/fpga-bridge.c:124-135 fpga_bridge_get *)
Definition fpga_bridge_get (dev info : Z) : M rst nat :=
  s ← get;
  match find_index (fpga_bridge_dev_match dev) (r_bridges s) with
  | None => throw (- ENODEV)
  | Some i => get_device (RefBridge i) ;; __fpga_bridge_get i info
  end.

(* drivers/fpga/fpga-bridge.c:143-151 fpga_bridge_put *)
Definition fpga_bridge_put (i : nat) : M rst unit :=
  upd_bridge i (set_br_info None) ;;
  b ← the_bridge i;
  module_put (br_parent b) ;;
  upd_bridge i (set_br_locked false) ;;
  put_device (RefBridge i).

(* drivers/fpga/fpga-bridge.c:167-171 fpga_bridges_enable *)
Fixpoint enable_loop (l : list nat) : M rst unit :=
  match l with
  | [] => mret tt
  | i :: l =>
      ret ← fpga_bridge_enable i;
      rc ret ;;
      enable_loop l
  end.
(** The list is the one of region [r]. *)
(* drivers/fpga/fpga-bridge.c:162-174 fpga_bridges_enable *)
Definition fpga_bridges_enable (r : nat) : M rst unit :=
  region ← the_region r;
  enable_loop (rg_bridge_list region).

(* drivers/fpga/fpga-bridge.c:191-195 fpga_bridges_disable *)
Fixpoint disable_loop (l : list nat) : M rst unit :=
  match l with
  | [] => mret tt
  | i :: l =>
      ret ← fpga_bridge_disable i;
      rc ret ;;
      disable_loop l
  end.
(* drivers/fpga/fpga-bridge.c:186-198 fpga_bridges_disable *)
Definition fpga_bridges_disable (r : nat) : M rst unit :=
  region ← the_region r;
  disable_loop (rg_bridge_list region).

(** [list_del] of the bridge just put, which is the first. *)
(* drivers/fpga/fpga-bridge.c:214-220 fpga_bridges_put *)
Fixpoint put_loop (r : nat) (l : list nat) : M rst unit :=
  match l with
  | [] => mret tt
  | i :: l =>
      fpga_bridge_put i ;;
      upd_region r (set_rg_bridge_list l) ;;
      put_loop r l
  end.
(* drivers/fpga/fpga-bridge.c:209-221 fpga_bridges_put *)
Definition fpga_bridges_put (r : nat) : M rst unit :=
  region ← the_region r;
  put_loop r (rg_bridge_list region).

Definition list_add_bridge (r i : nat) : M rst unit :=
  upd_region r (λ g, set_rg_bridge_list (i :: rg_bridge_list g) g).
(* drivers/fpga/fpga-bridge.c:235-251 of_fpga_bridge_get_to_list *)
Definition of_fpga_bridge_get_to_list (np info : Z) (r : nat) : M rst unit :=
  i ← of_fpga_bridge_get np info;
  list_add_bridge r i.

(* drivers/fpga/fpga-bridge.c:265-281 fpga_bridge_get_to_list *)
Definition fpga_bridge_get_to_list (dev info : Z) (r : nat) : M rst unit :=
  i ← fpga_bridge_get dev info;
  list_add_bridge r i.

(** ** The manager *)

(** The caller has a reference to the device of the manager. *)
(* drivers/fpga/fpga-mgr.c:667-681 __fpga_mgr_get *)
Definition __fpga_mgr_get : M rst unit :=
  s ← get;
  alive ← try_module_get (r_mgr_parent s);
  if negb alive then put_device RefMgr ;; throw (- ENODEV) else mret tt.

(* drivers/fpga/fpga-mgr.c:683-686 fpga_mgr_dev_match *)
Definition fpga_mgr_dev_match (dev mgr_parent : Z) : bool := mgr_parent =? dev.

(* drivers/fpga/fpga-mgr.c:694-702 fpga_mgr_get *)
Definition fpga_mgr_get (dev : Z) : M rst unit :=
  s ← get;
  if negb (fpga_mgr_dev_match dev (r_mgr_parent s)) then throw (- ENODEV)
  else get_device RefMgr ;; __fpga_mgr_get.

(* drivers/fpga/fpga-mgr.c:728-732 fpga_mgr_put *)
Definition fpga_mgr_put : M rst unit :=
  s ← get;
  module_put (r_mgr_parent s) ;;
  put_device RefMgr.

(* drivers/fpga/fpga-mgr.c:747-755 fpga_mgr_lock *)
Definition fpga_mgr_lock : M rst unit :=
  s ← get;
  if r_mgr_locked s then throw (- EBUSY) else modify (set_mgr_locked true).

(* drivers/fpga/fpga-mgr.c:762-765 fpga_mgr_unlock *)
Definition fpga_mgr_unlock : M rst unit := modify (set_mgr_locked false).

(** ** Regions *)

(* drivers/fpga/fpga-region.c:45-64 fpga_region_get *)
Definition fpga_region_get (r : nat) : M rst unit :=
  region ← the_region r;
  if rg_locked region then throw (- EBUSY) else
  upd_region r (set_rg_locked true) ;;
  get_device (RefRegion r) ;;
  alive ← try_module_get (rg_parent region);
  if negb alive then
    put_device (RefRegion r) ;;
    upd_region r (set_rg_locked false) ;;
    throw (- ENODEV)
  else mret tt.

(* drivers/fpga/fpga-region.c:71-80 fpga_region_put *)
Definition fpga_region_put (r : nat) : M rst unit :=
  region ← the_region r;
  module_put (rg_parent region) ;;
  put_device (RefRegion r) ;;
  upd_region r (set_rg_locked false).

(** [fpga_mgr_load(region->mgr, info)]. *)
Definition mgr_load (fuel : nat) : M rst unit := λ s,
  match fpga_mgr_load mops fuel (r_mgr s) with
  | Done (Val tt, g) => Done (Val tt, add_event (EvLoad true) (set_mgr g s))
  | Done (Err e, g) => Done (Err e, add_event (EvLoad false) (set_mgr g s))
  | Fault => Fault
  | NoFuel => NoFuel
  end.

(** [get_bridges] is the region's operation of that name, which may be missing. *)
(* drivers/fpga/fpga-region.c:96-158 fpga_region_program_fpga *)
Definition fpga_region_program_fpga (get_bridges : option (M rst unit)) (fuel r : nat) : M rst unit :=
  fpga_region_get r ;;
  on_error (
    fpga_mgr_lock ;;
    on_error (
      (match get_bridges with Some f => f | None => mret tt end) ;;
      on_error (
        fpga_bridges_disable r ;;
        mgr_load fuel ;;
        fpga_bridges_enable r)
        (match get_bridges with Some _ => fpga_bridges_put r | None => mret tt end))
      fpga_mgr_unlock)
    (fpga_region_put r) ;;
  fpga_mgr_unlock ;;
  fpga_region_put r.
End Region.
