(* ===== verification/FpgaRegionFacts.v ===== *)
(** * Programming a region gives back what it takes

    What is held in [FpgaRegion] (locks, references to modules and devices, the
    bridges in the lists of the regions), and that programming a region is balanced
    and isolates the region while it is programmed. *)
From stdpp Require Import gmap gmultiset strings.
From S2P Require Import Prelude FpgaMgr FpgaRegion.

Section Facts.
Context `{MgrKernel} `{BridgeHw} {D : Type} (mops : fpga_manager_ops D).
Implicit Types s : rst (D := D).

(** ** What is held *)
Definition br_key (b : fpga_bridge) : Z * option Z * bool := (br_parent b, br_of_node b, br_locked b).
Record holding := Holding {
  h_bridges : list (Z * option Z * bool);
  h_regions : list fpga_region;
  h_mods : gmultiset Z;
  h_devs : gmultiset dev_ref;
  h_mgr_parent : Z;
  h_mgr_locked : bool;
}.
Definition holds s : holding :=
  Holding (br_key <$> r_bridges s) (r_regions s) (r_mods s) (r_devs s) (r_mgr_parent s) (r_mgr_locked s).
(** Everything else but the information of the bridges. *)
Definition others s : gst (D := D) * bw * list fpga_event := (r_mgr s, r_hw s, r_trace s).

Definition key_lock (x : bool) (k : Z * option Z * bool) : Z * option Z * bool := (k.1, x).
Definition h_take (r i : nat) (p : Z) (h : holding) : holding :=
  Holding (alter (key_lock true) i (h_bridges h))
    (alter (λ g, set_rg_bridge_list (i :: rg_bridge_list g) g) r (h_regions h))
    (h_mods h ⊎ {[+ owner p +]}) (h_devs h ⊎ {[+ RefBridge i +]}) (h_mgr_parent h) (h_mgr_locked h).
(** Bridges taken one after the other into the list of region [r]; each was free. *)
Inductive acquired (r : nat) : holding → holding → Prop :=
| acquired_nil h : acquired r h h
| acquired_cons h h1 i p n :
    acquired r h h1 → h_bridges h1 !! i = Some (p, n, false) → acquired r h (h_take r i p h1).

(** What the operation [get_bridges] of region [r] promises: it takes free bridges
    into the list, or takes nothing. *)
Class BridgeGetter (r : nat) (f : M rst unit) : Prop :=
  getter_spec : ∀ s, is_Some (r_regions s !! r) →
    wp f (λ _ s', acquired r (holds s) (holds s') ∧ others s' = others s)
         (λ e s', e ≠ 0 ∧ holds s' = holds s ∧ others s' = others s) s.

Lemma acquired_app r h1 h2 h3 : acquired r h1 h2 → acquired r h2 h3 → acquired r h1 h3.
Proof. intros H12 H23. induction H23; [done|]. eapply acquired_cons; eauto. Qed.

(** ** Keys *)
Lemma key_info x i (l : list fpga_bridge) : br_key <$> alter (set_br_info x) i l = br_key <$> l.
Proof.
  rewrite (list_fmap_alter br_key (set_br_info x) id); [by rewrite list_alter_id|].
  apply list.Forall_forall. done.
Qed.
Lemma key_locked x i (l : list fpga_bridge) :
  br_key <$> alter (set_br_locked x) i l = alter (key_lock x) i (br_key <$> l).
Proof. apply list_fmap_alter, list.Forall_forall. done. Qed.
Lemma key_lock_undo i k (l : list (Z * option Z * bool)) x y :
  l !! i = Some (k, x) → alter (key_lock x) i (alter (key_lock y) i l) = l.
Proof.
  intros Hi. apply list_eq. intros j. destruct (decide (i = j)) as [<-|Hn].
  - rewrite !list_lookup_alter_eq, Hi. done.
  - by rewrite !list_lookup_alter_ne.
Qed.
Lemma holds_bridge s i k :
  h_bridges (holds s) !! i = Some k → ∃ b, r_bridges s !! i = Some b ∧ br_key b = k.
Proof. cbn. rewrite list_lookup_fmap, fmap_Some. naive_solver. Qed.
Lemma alter_same {A} (f : A → A) i (l : list A) : (∀ a, l !! i = Some a → f a = a) → alter f i l = l.
Proof.
  intros Hf. apply list_eq. intros j. destruct (decide (i = j)) as [<-|].
  - rewrite list_lookup_alter_eq. destruct (l !! i) eqn:E; cbn; [|done]. by rewrite Hf.
  - by rewrite list_lookup_alter_ne.
Qed.

(** ** Bridges *)
Lemma the_bridge_spec i b s (Q : fpga_bridge → rst → Prop) E :
  r_bridges s !! i = Some b → Q b s → wp (the_bridge i) Q E s.
Proof. intros Hb HQ. unfold the_bridge. wsteps. rewrite Hb. done. Qed.
Lemma the_region_spec r g s (Q : fpga_region → rst → Prop) E :
  r_regions s !! r = Some g → Q g s → wp (the_region r) Q E s.
Proof. intros Hb HQ. unfold the_region. wsteps. rewrite Hb. done. Qed.

Lemma find_index_lookup {A} (P : A → bool) l i :
  find_index P l = Some i → ∃ a, l !! i = Some a ∧ P a = true.
Proof.
  revert i. induction l as [|a l IH]; intros i; cbn; [done|]. destruct (P a) eqn:E; [intros [= <-]; by exists a|].
  destruct (find_index P l) as [j|]; [|done]. intros [= <-]. by apply IH.
Qed.
Lemma ms_undo {A} `{Countable A} (X : gmultiset A) x : (X ⊎ {[+ x +]}) ∖ {[+ x +]} = X.
Proof. multiset_solver. Qed.

Lemma bridge_get_spec i b info s :
  r_bridges s !! i = Some b →
  wp (get_device (RefBridge i) ;; __fpga_bridge_get i info)
    (λ j s', j = i ∧ br_locked b = false ∧ others s' = others s ∧
       holds s' = Holding (alter (key_lock true) i (h_bridges (holds s))) (r_regions s)
         (r_mods s ⊎ {[+ owner (br_parent b) +]}) (r_devs s ⊎ {[+ RefBridge i +]}) (r_mgr_parent s) (r_mgr_locked s))
    (λ e s', (e = - EBUSY ∨ e = - ENODEV) ∧ holds s' = holds s ∧ others s' = others s) s.
Proof.
  intros Hb. unfold get_device, __fpga_bridge_get, upd_bridge. wsteps.
  eapply the_bridge_spec; [cbn; by rewrite list_lookup_alter_eq, Hb|]. cbn.
  destruct (br_locked b) eqn:Hl; unfold put_device; wsteps.
  { split; [by left|]. unfold holds, others. cbn. by rewrite key_info, ms_undo. }
  unfold try_module_get. destruct (module_alive _); wsteps; cbn [negb]; wsteps; unfold holds, others; cbn.
  - split_and!; [done..|]. by rewrite key_locked, key_info.
  - split; [by right|]. rewrite !key_locked, key_info, ms_undo.
    rewrite (key_lock_undo _ (br_parent b, br_of_node b)); [done|].
    rewrite list_lookup_fmap, Hb. cbn. unfold br_key. by rewrite Hl.
Qed.

(** Whichever way the bridge is found. *)
Lemma get_found_spec (P : fpga_bridge → bool) info r s :
  is_Some (r_regions s !! r) →
  wp (i ← (s ← get;
           match find_index P (r_bridges s) with
           | None => throw (- ENODEV)
           | Some i => get_device (RefBridge i) ;; __fpga_bridge_get i info
           end); list_add_bridge r i)
    (λ _ s', acquired r (holds s) (holds s') ∧ others s' = others s)
    (λ e s', e ≠ 0 ∧ holds s' = holds s ∧ others s' = others s) s.
Proof.
  intros Hr. do 3 wstep. destruct (find_index P (r_bridges s)) as [i|] eqn:Hf; [|by wsteps].
  apply find_index_lookup in Hf as (b & Hb & _).
  eapply wp_mono; [by apply bridge_get_spec| |by intros e s' ([-> | ->] & ? & ?)].
  intros j s' (-> & Hl & Ho & Hh). unfold list_add_bridge, upd_region. wsteps. split; [|done].
  assert (holds (set_regions (alter (λ g, set_rg_bridge_list (i :: rg_bridge_list g) g) r (r_regions s')) s')
    = h_take r i (br_parent b) (holds s)) as ->.
  { unfold holds in *. cbn in *. injection Hh as Hk Hg Hm Hd Hp Hx. unfold h_take. cbn. by rewrite Hk, Hg, Hm, Hd, Hp, Hx. }
  eapply acquired_cons; [constructor|]. cbn. rewrite list_lookup_fmap, Hb. cbn. unfold br_key. by rewrite Hl.
Qed.
#[export] Instance get_to_list_getter dev info r : BridgeGetter r (fpga_bridge_get_to_list dev info r).
Proof. intros s Hr. exact (get_found_spec (fpga_bridge_dev_match dev) info r s Hr). Qed.
#[export] Instance of_get_to_list_getter np info r : BridgeGetter r (of_fpga_bridge_get_to_list np info r).
Proof. intros s Hr. exact (get_found_spec (λ b, bool_decide (br_of_node b = Some np)) info r s Hr). Qed.

(** ** Putting back *)
Lemma bridge_put_spec r i p h1 s n (Q : unit → rst → Prop) E :
  holds s = h_take r i p h1 → h_bridges h1 !! i = Some (p, n, false) →
  (∀ s', others s' = others s → r_regions s' = r_regions s →
     holds s' = Holding (h_bridges h1) (r_regions s) (h_mods h1) (h_devs h1) (h_mgr_parent h1) (h_mgr_locked h1) → Q tt s') →
  wp (fpga_bridge_put i) Q E s.
Proof.
  intros Hs Hi HQ. injection Hs as Hk Hg Hm Hd Hp Hx.
  assert (∃ b, r_bridges s !! i = Some b ∧ br_parent b = p) as (b & Hb & Hbp).
  { assert ((br_key <$> r_bridges s) !! i = Some (key_lock true (p, n, false))) as Hki
      by by rewrite Hk, list_lookup_alter_eq, Hi.
    rewrite list_lookup_fmap in Hki. destruct (r_bridges s !! i) as [b|]; [|done].
    exists b. split; [done|]. cbn in Hki. by injection Hki. }
  unfold fpga_bridge_put, upd_bridge, module_put, put_device. wsteps.
  eapply the_bridge_spec; [cbn; by rewrite list_lookup_alter_eq, Hb|]. wsteps.
  apply HQ; [done..|]. unfold holds. cbn. rewrite Hbp, Hm, Hd, Hp, Hx, !ms_undo, key_locked, key_info, Hk.
  f_equal. by eapply key_lock_undo.
Qed.

Definition bridge_list_of r (h : holding) : list nat :=
  from_option rg_bridge_list [] (h_regions h !! r).
Lemma put_loop_spec r h h' (Q : unit → rst → Prop) E :
  acquired r h h' → bridge_list_of r h = [] → is_Some (h_regions h !! r) →
  ∀ s, holds s = h' → (∀ s', holds s' = h → others s' = others s → Q tt s') →
  wp (put_loop r (bridge_list_of r h')) Q E s.
Proof.
  induction 1 as [h|h h1 i p n Ha IH Hi]; intros Hl Hr s Hs HQ.
  { rewrite Hl. cbn. wsteps. by apply HQ. }
  assert (∃ g, h_regions h1 !! r = Some g) as [g Hg].
  { clear -Ha Hr. induction Ha as [|h h1 j q m _ IH _]; [done|]. destruct (IH Hr) as [g Hg].
    cbn. rewrite list_lookup_alter_eq, Hg. by eexists. }
  assert (bridge_list_of r (h_take r i p h1) = i :: bridge_list_of r h1) as ->.
  { unfold bridge_list_of. cbn. by rewrite list_lookup_alter_eq, Hg. }
  cbn [put_loop]. wsteps. eapply bridge_put_spec; [exact Hs|exact Hi|].
  intros s1 Ho1 Hr1 Hh1. unfold upd_region. wsteps. eapply IH; [done|done| |].
  - assert (∀ x, holds (set_regions x s1) = Holding (h_bridges (holds s1)) x (h_mods (holds s1))
      (h_devs (holds s1)) (h_mgr_parent (holds s1)) (h_mgr_locked (holds s1))) as -> by done.
    rewrite Hh1, Hr1. cbn. injection Hs as _ Hrg _ _ _ _. rewrite Hrg, list_alter_alter_eq. unfold bridge_list_of. rewrite Hg. cbn.
    rewrite alter_same; [by destruct h1|]. intros g' Hg'. assert (g' = g) as -> by congruence. by destruct g.
  - intros s2 Hh2 Ho2. apply HQ; [done|]. rewrite Ho2. exact Ho1.
Qed.
Lemma acquired_region r h h' g :
  acquired r h h' → h_regions h !! r = Some g →
  ∃ l, h_regions h' !! r = Some (set_rg_bridge_list l g).
Proof.
  intros Ha Hg. induction Ha as [h|h h1 i p n _ IH Hi].
  { exists (rg_bridge_list g). rewrite Hg. by destruct g. }
  destruct (IH Hg) as [l Hl]. cbn. rewrite list_lookup_alter_eq, Hl. by eexists.
Qed.
Lemma bridges_put_spec r h s (Q : unit → rst → Prop) E :
  acquired r h (holds s) → bridge_list_of r h = [] → is_Some (h_regions h !! r) →
  (∀ s', holds s' = h → others s' = others s → Q tt s') →
  wp (fpga_bridges_put r) Q E s.
Proof.
  intros Ha Hl [g Hg] HQ. unfold fpga_bridges_put. wsteps.
  destruct (acquired_region _ _ _ _ Ha Hg) as [l Hr].
  eapply the_region_spec; [exact Hr|].
  assert (rg_bridge_list (set_rg_bridge_list l g) = bridge_list_of r (holds s)) as -> by (unfold bridge_list_of; by rewrite Hr).
  eapply put_loop_spec; [done|done|by eexists|done|done].
Qed.

(** ** Enabling and disabling *)
(** The bridges [l] switched one after the other. *)
Definition switched (l : list nat) (on : bool) : list fpga_event := (λ i, EvBridge i on 0) <$> l.
(** Some of them were, and the next one failed. *)
Definition switch_failed (l : list nat) (on : bool) (tr : list fpga_event) : Prop :=
  ∃ l1 i l2 e, l = l1 ++ i :: l2 ∧ e ≠ 0 ∧ tr = switched l1 on ++ [EvBridge i on e].
Definition kept s s' : Prop := holds s' = holds s ∧ r_mgr s' = r_mgr s ∧ r_bridges s' = r_bridges s.

Lemma switch_one (on : bool) i s (Q : Z → rst → Prop) E :
  (∀ ret s', kept s s' → r_trace s' = r_trace s ++ [EvBridge i on ret] → Q ret s') →
  wp (if on then fpga_bridge_enable i else fpga_bridge_disable i) Q E s.
Proof.
  intros HQ. destruct on; unfold fpga_bridge_enable, fpga_bridge_disable;
    (destruct (enable_set i) as [f|]; [|wsteps; by apply HQ]); unfold wpg; destruct (f _ _) as [ret w]; by apply HQ.
Qed.
Lemma switch_loop_spec (on : bool) l s :
  wp (if on then enable_loop l else disable_loop l)
    (λ _ s', kept s s' ∧ r_trace s' = r_trace s ++ switched l on)
    (λ e s', e ≠ 0 ∧ kept s s' ∧ ∃ tr, r_trace s' = r_trace s ++ tr ∧ switch_failed l on tr) s.
Proof.
  revert s. induction l as [|i l IH]; intros s.
  { destruct on; cbn; wsteps; split; [done|by rewrite app_nil_r|done|by rewrite app_nil_r]. }
  assert (∀ F N Q E, wpg F N (if on then enable_loop (i :: l) else disable_loop (i :: l)) Q E s ↔
    wpg F N (ret ← (if on then fpga_bridge_enable i else fpga_bridge_disable i);
      rc ret ;; if on then enable_loop l else disable_loop l) Q E s) as Heq by (by destruct on).
  apply Heq. wstep. apply switch_one. intros ret s1 (Hh & Hm & Hb) Ht. wsteps.
  - intros ->. eapply wp_mono; [apply IH| |].
    + intros _ s' [(Hh' & Hm' & Hb') Ht']. split; [split_and!; congruence|].
      rewrite Ht', Ht, <- app_assoc. done.
    + intros e s' (Hne & (Hh' & Hm' & Hb') & (tr & Ht' & l1 & j & l2 & e' & -> & He & ->)).
      split; [done|]. split; [split_and!; congruence|]. eexists. rewrite Ht', Ht, <- app_assoc. split; [done|].
      exists (i :: l1), j, l2, e'. done.
  - intros He. split; [done|]. split; [done|]. eexists. split; [exact Ht|]. exists [], i, l, ret. done.
Qed.

(** ** Programming *)
Definition set_mgr_lock (x : bool) (h : holding) : holding :=
  Holding (h_bridges h) (h_regions h) (h_mods h) (h_devs h) (h_mgr_parent h) x.
Definition set_region_held r p (h : holding) : holding :=
  Holding (h_bridges h) (alter (set_rg_locked true) r (h_regions h)) (h_mods h ⊎ {[+ owner p +]})
    (h_devs h ⊎ {[+ RefRegion r +]}) (h_mgr_parent h) (h_mgr_locked h).

Lemma region_get_spec r g s :
  r_regions s !! r = Some g →
  wp (fpga_region_get r)
    (λ _ s', rg_locked g = false ∧ holds s' = set_region_held r (rg_parent g) (holds s) ∧ others s' = others s)
    (λ e s', (e = - EBUSY ∨ e = - ENODEV) ∧ holds s' = holds s ∧ others s' = others s) s.
Proof.
  intros Hg. unfold fpga_region_get. wstep. eapply the_region_spec; [done|].
  destruct (rg_locked g) eqn:Hl; unfold upd_region, get_device, put_device; wsteps; [by split; [left|]|].
  unfold try_module_get. destruct (module_alive _); cbn [negb]; wsteps; cbn [negb]; wsteps; [done|].
  split; [by right|]. split; [|done]. unfold holds. cbn. rewrite ms_undo, list_alter_alter_eq, alter_same; [done|].
  intros a Ha. assert (a = g) as -> by congruence. destruct g. cbn in *. by subst.
Qed.

(** What giving region [r] back leaves. *)
Lemma region_put_spec r p h s (Q : unit → rst → Prop) E g :
  holds s = set_region_held r p h → h_regions h !! r = Some g → rg_parent g = p → rg_locked g = false →
  (∀ s', holds s' = h → others s' = others s → Q tt s') →
  wp (fpga_region_put r) Q E s.
Proof.
  intros Hs Hg Hp Hl HQ. injection Hs as Hk Hr Hm Hd Hmp Hml. unfold fpga_region_put. wstep.
  eapply the_region_spec; [by rewrite Hr, list_lookup_alter_eq, Hg|].
  unfold module_put, put_device, upd_region. wsteps. apply HQ; [|done]. unfold holds. cbn.
  rewrite Hk, Hr, Hm, Hd, Hmp, Hml, Hp, !ms_undo, list_alter_alter_eq, alter_same; [by destruct h|].
  intros a Ha. assert (a = g) as -> by congruence. destruct g. cbn in *. by subst.
Qed.

(** Taking bridges does not depend on what is locked otherwise. *)
Lemma acquired_set_mgr r x h h' : acquired r h h' → acquired r (set_mgr_lock x h) (set_mgr_lock x h').
Proof.
  induction 1 as [h|h h1 i p n _ IH Hi]; [constructor|].
  change (set_mgr_lock x (h_take r i p h1)) with (h_take r i p (set_mgr_lock x h1)).
  by eapply acquired_cons.
Qed.
Lemma alter_swap {A} (f g : A → A) i (l : list A) :
  (∀ a, f (g a) = g (f a)) → alter f i (alter g i l) = alter g i (alter f i l).
Proof. intros Hfg. rewrite !list_alter_alter_eq. apply list_alter_ext; [|done]. intros a _. apply Hfg. Qed.
Lemma take_region_held r i p q h :
  h_take r i p (set_region_held r q h) = set_region_held r q (h_take r i p h).
Proof.
  unfold h_take, set_region_held. cbn. f_equal; [|multiset_solver..].
  by apply alter_swap.
Qed.
Lemma acquired_held_region r q h h1 :
  acquired r h h1 → acquired r (set_region_held r q h) (set_region_held r q h1).
Proof.
  induction 1 as [h|h h1 i p n _ IH Hi]; [constructor|]. rewrite <- take_region_held. by eapply acquired_cons.
Qed.
Lemma acquired_region_held r q h h1 :
  acquired r (set_region_held r q h) h1 → ∃ h', h1 = set_region_held r q h' ∧ acquired r h h'.
Proof.
  remember (set_region_held r q h) as h0 eqn:E. induction 1 as [h0|h0 h1 i p n _ IH Hi]; subst.
  { eexists. split; [done|constructor]. }
  destruct (IH eq_refl) as (h' & -> & Ha). exists (h_take r i p h'). split; [by apply take_region_held|].
  by eapply acquired_cons.
Qed.
Lemma acquired_mgr r h h' : acquired r h h' → h_mgr_locked h' = h_mgr_locked h.
Proof. by induction 1. Qed.

(** How a run on the bridges [l] can fail: a bridge can not be disabled; the load fails,
    with all of them disabled; or one can not be enabled after the load. *)
Inductive program_failed (l : list nat) : list fpga_event → Prop :=
| failed_disable tr : switch_failed l false tr → program_failed l tr
| failed_load : program_failed l (switched l false ++ [EvLoad false])
| failed_enable tr : switch_failed l true tr → program_failed l (switched l false ++ EvLoad true :: tr).

Lemma mgr_load_spec (G : gst → Prop) fuel s :
  wp (fpga_mgr_load mops fuel) (λ _, G) (λ e _, e ≠ 0) (r_mgr s) →
  wp (mgr_load mops fuel)
    (λ _ s', holds s' = holds s ∧ G (r_mgr s') ∧ r_trace s' = r_trace s ++ [EvLoad true])
    (λ e s', e ≠ 0 ∧ holds s' = holds s ∧ r_trace s' = r_trace s ++ [EvLoad false]) s.
Proof. unfold wpg, mgr_load. by destruct (fpga_mgr_load mops fuel (r_mgr s)) as [[[[]|e] g]| |]. Qed.

(** The part in the middle: disable, load, enable. *)
Lemma program_middle_spec (G : gst → Prop) fuel r s g :
  r_regions s !! r = Some g →
  wp (fpga_mgr_load mops fuel) (λ _, G) (λ e _, e ≠ 0) (r_mgr s) →
  wp (fpga_bridges_disable r ;; mgr_load mops fuel ;; fpga_bridges_enable r)
    (λ _ s', holds s' = holds s ∧ G (r_mgr s') ∧ r_trace s' = r_trace s ++ switched (rg_bridge_list g) false ++
       EvLoad true :: switched (rg_bridge_list g) true)
    (λ e s', e ≠ 0 ∧ holds s' = holds s ∧ ∃ tr, r_trace s' = r_trace s ++ tr ∧ program_failed (rg_bridge_list g) tr) s.
Proof.
  intros Hg Hload. unfold fpga_bridges_disable, fpga_bridges_enable. wsteps.
  eapply the_region_spec; [done|].
  eapply wp_mono; [apply (switch_loop_spec false)| |].
  2: { intros e s' (Hne & (Hh & _) & (tr & Ht & Hf)). do 2 (split; [done|]). eexists. split; [done|]. by apply failed_disable. }
  intros _ s1 [(Hh1 & Hm1 & _) Ht1]. wsteps. cbv beta.
  eapply wp_mono; [apply (mgr_load_spec G); by rewrite Hm1| |].
  2: { intros e s' (Hne & Hh & Ht). split; [done|]. split; [congruence|]. eexists. rewrite Ht, Ht1, <- app_assoc. split; [done|]. apply failed_load. }
  intros _ s2 (Hh2 & HG2 & Ht2). wsteps.
  assert (r_regions s2 = r_regions s) as Hr2.
  { change (h_regions (holds s2) = h_regions (holds s)). congruence. }
  eapply the_region_spec; [by rewrite Hr2|].
  eapply wp_mono; [apply (switch_loop_spec true)| |].
  - intros _ s3 [(Hh3 & Hm3 & _) Ht3]. split_and!; [congruence|by rewrite Hm3|]. rewrite Ht3, Ht2, Ht1, <- !app_assoc. done.
  - intros e s3 (Hne & (Hh3 & _) & (tr & Ht & Hf)). split; [done|]. split; [congruence|]. eexists.
    rewrite Ht, Ht2, Ht1, <- !app_assoc. split; [done|]. by apply failed_enable.
Qed.

(** What [get_bridges] has to promise. *)
Definition getter_ok r (gb : option (M rst unit)) s : Prop :=
  match gb with Some f => BridgeGetter r f ∧ bridge_list_of r (holds s) = [] | None => True end.

(** Giving back manager and region. *)
Lemma give_back_spec r p s h (Q : unit → rst → Prop) E E' :
  holds s = set_region_held r p (set_mgr_lock true h) → h_mgr_locked h = false →
  (∃ g, h_regions h !! r = Some g ∧ rg_parent g = p ∧ rg_locked g = false) →
  (∀ s', holds s' = h → others s' = others s → Q tt s') →
  wp fpga_mgr_unlock (λ _, wp (fpga_region_put r) Q E) E' s.
Proof.
  intros Hs Hm (g & Hg & Hp & Hl) HQ. unfold fpga_mgr_unlock. wsteps.
  eapply (region_put_spec r p h); [|done..|].
  - change (holds (set_mgr_locked false s)) with (set_mgr_lock false (holds s)). rewrite Hs.
    unfold set_mgr_lock, set_region_held. cbn. rewrite <- Hm. by destruct h.
  - intros s' Hh Ho. by apply HQ.
Qed.
Lemma acquired_held r p h h1 :
  h_mgr_locked h = false → acquired r (set_region_held r p (set_mgr_lock true h)) h1 →
  ∃ h', h1 = set_region_held r p (set_mgr_lock true h') ∧ acquired r h h'.
Proof.
  intros Hm Ha. apply acquired_region_held in Ha as (h4 & -> & Ha).
  assert (set_mgr_lock false (set_mgr_lock true h) = h) as Hh by (unfold set_mgr_lock; rewrite <- Hm; by destruct h).
  exists (set_mgr_lock false h4). split.
  - f_equal. apply acquired_mgr in Ha. cbn in Ha. unfold set_mgr_lock. cbn. rewrite <- Ha. by destruct h4.
  - rewrite <- Hh. by apply acquired_set_mgr.
Qed.

(** The run of a region that was got, with the manager locked, up to its end. *)
Section Locked.
Context (r : nat) (g : fpga_region) (s s2 : rst (D := D)) (fuel : nat) (G : gst (D := D) → Prop).
Hypothesis Hg : r_regions s !! r = Some g.
Hypothesis Hl : rg_locked g = false.
Hypothesis Hm : h_mgr_locked (holds s) = false.
Hypothesis Hs2 : holds s2 = set_region_held r (rg_parent g) (set_mgr_lock true (holds s)).
Hypothesis Ho2 : others s2 = others s.
Hypothesis Hload : wp (fpga_mgr_load mops fuel) (λ _, G) (λ e _, e ≠ 0) (r_mgr s).

(** The bridges of the region when the run began: those it had, or has once
    [get_bridges] has succeeded with region and manager locked. *)
Definition bridges_got (gb : option (M (rst (D := D)) unit)) (l : list nat) : Prop :=
  match gb with
  | None => l = bridge_list_of r (holds s)
  | Some f => ∃ sa sb, f sa = Done (Val tt, sb) ∧ others sa = others s ∧
      holds sa = set_region_held r (rg_parent g) (set_mgr_lock true (holds s)) ∧ l = bridge_list_of r (holds sb)
  end.
Definition program_error (gb : option (M (rst (D := D)) unit)) (e : Z) s' : Prop :=
  e ≠ 0 ∧ holds s' = holds s ∧
  (r_trace s' = r_trace s ∨ ∃ l tr, bridges_got gb l ∧ r_trace s' = r_trace s ++ tr ∧ program_failed l tr).
Definition program_done (gb : option (M (rst (D := D)) unit)) s' : Prop :=
  acquired r (holds s) (holds s') ∧ (gb = None → holds s' = holds s) ∧ G (r_mgr s') ∧
  let l := bridge_list_of r (holds s') in
  r_trace s' = r_trace s ++ switched l false ++ EvLoad true :: switched l true.

Lemma locked_region : h_regions (holds s2) !! r = Some (set_rg_locked true g).
Proof. rewrite Hs2. cbn. by rewrite list_lookup_alter_eq, Hg. Qed.
Abbreviation gives_back gb := (λ e, wp (fpga_region_put r) (λ _, program_error gb e) (λ _, program_error gb e)).
Lemma program_give_back gb s3 e E' :
  e ≠ 0 → holds s3 = holds s2 →
  (r_trace s3 = r_trace s ∨ ∃ l tr, bridges_got gb l ∧ r_trace s3 = r_trace s ++ tr ∧ program_failed l tr) →
  wp fpga_mgr_unlock (λ _, gives_back gb e) E' s3.
Proof.
  intros He Hh3 Hf. eapply (give_back_spec _ _ _ (holds s)); [by rewrite Hh3|done|by exists g|].
  intros s4 Hh4 Ho4. split; [done|]. split; [done|].
  assert (r_trace s4 = r_trace s3) as -> by (unfold others in *; congruence). done.
Qed.
Lemma program_without_getter E :
  wp (fpga_bridges_disable r ;; mgr_load mops fuel ;; fpga_bridges_enable r)
    (λ _, wp fpga_mgr_unlock (λ _, wp (fpga_region_put r) (λ _, program_done None) E) E)
    (λ e, wp fpga_mgr_unlock (λ _, gives_back None e) (λ _, gives_back None e)) s2.
Proof.
  eapply wp_mono; [apply (program_middle_spec G _ _ _ (set_rg_locked true g) locked_region)| |].
  - assert (r_mgr s2 = r_mgr s) as -> by (unfold others in *; congruence). done.
  - intros _ s3 (Hh3 & HG3 & Ht3). eapply (give_back_spec _ _ _ (holds s)); [by rewrite Hh3|done|by exists g|].
    intros s4 Hh4 Ho4. assert (r_mgr s4 = r_mgr s3) as Hm4 by (unfold others in *; congruence).
    unfold program_done. rewrite Hh4. split_and!; [constructor|done|by rewrite Hm4|].
    unfold bridge_list_of. cbn. rewrite Hg. cbn. unfold others in *. cbn in Ht3. congruence.
  - intros e s3 (Hne & Hh3 & (tr & Ht3 & Hf)). apply program_give_back; [done|done|right].
    exists (rg_bridge_list g), tr. split_and!; [|unfold others in *; congruence|exact Hf]. unfold bridges_got, bridge_list_of. cbn. by rewrite Hg.
Qed.
Lemma program_with_getter f s3 E :
  f s2 = Done (Val tt, s3) → bridge_list_of r (holds s) = [] → acquired r (holds s2) (holds s3) → others s3 = others s2 →
  wp (fpga_bridges_disable r ;; mgr_load mops fuel ;; fpga_bridges_enable r)
    (λ _, wp fpga_mgr_unlock (λ _, wp (fpga_region_put r) (λ _, program_done (Some f)) E) E)
    (λ e, wp (fpga_bridges_put r)
       (λ _, wp fpga_mgr_unlock (λ _, gives_back (Some f) e) (λ _, gives_back (Some f) e))
       (λ _, wp fpga_mgr_unlock (λ _, gives_back (Some f) e) (λ _, gives_back (Some f) e))) s3.
Proof.
  intros Hrun Hnil Hacq Ho3. pose proof Hacq as Hacq2. rewrite Hs2 in Hacq.
  apply acquired_held in Hacq as (h3 & Hh3 & Hacq3); [|done].
  destruct (acquired_region _ _ _ _ Hacq3 Hg) as [l Hlk].
  assert (h_regions (holds s3) !! r = Some (set_rg_locked true (set_rg_bridge_list l g))) as Hg3.
  { rewrite Hh3. cbn. by rewrite list_lookup_alter_eq, Hlk. }
  assert (r_trace s3 = r_trace s) as Ht3 by (unfold others in *; congruence).
  eapply wp_mono; [eapply (program_middle_spec G); [exact Hg3|]| |].
  - assert (r_mgr s3 = r_mgr s) as -> by (unfold others in *; congruence). done.
  - intros _ s4 (Hh4 & HG4 & Ht4). eapply (give_back_spec _ _ _ h3); [by rewrite Hh4, Hh3| | |].
    + by rewrite (acquired_mgr _ _ _ Hacq3).
    + by eexists.
    + intros s5 Hh5 Ho5. assert (r_mgr s5 = r_mgr s4) as Hm5 by (unfold others in *; congruence).
      unfold program_done. rewrite Hh5. split_and!; [done|done|by rewrite Hm5|].
      unfold bridge_list_of. rewrite Hlk. cbn. unfold others in *. cbn in Ht4. congruence.
  - intros e s4 (Hne & Hh4 & (tr & Ht4 & Hfail)).
    eapply (bridges_put_spec r (holds s2)); [by rewrite Hh4| |by rewrite locked_region|].
    + unfold bridge_list_of in *. rewrite locked_region. cbn in *. rewrite Hg in Hnil. done.
    + intros s5 Hh5 Ho5. apply program_give_back; [done|done|right]. exists l, tr.
      assert (r_trace s5 = r_trace s4) as -> by (unfold others in *; congruence). split_and!; [|congruence|exact Hfail].
      exists s2, s3. split_and!; [done..|]. unfold bridge_list_of. by rewrite Hg3.
Qed.
End Locked.

(** A rule on a computation, read as one on the run it makes. *)
Lemma wp_as_run {T A} F N (m : M T A) (Q : A → T → Prop) E x :
  wpg F N m Q E x → wpg F N m (λ a x', m x = Done (Val a, x') ∧ Q a x') (λ e x', m x = Done (Err e, x') ∧ E e x') x.
Proof. unfold wpg. by destruct (m x) as [[[] ?]| |]. Qed.
Lemma program_error_start r g s gb e s' :
  e ≠ 0 → holds s' = holds s → others s' = others s → program_error r g s gb e s'.
Proof. intros He Hh Ho. do 2 (split; [done|]). left. unfold others in *. congruence. Qed.
Lemma program_spec (G : gst → Prop) gb fuel r s g :
  r_regions s !! r = Some g → getter_ok r gb s →
  wp (fpga_mgr_load mops fuel) (λ _, G) (λ e _, e ≠ 0) (r_mgr s) →
  wp (fpga_region_program_fpga mops gb fuel r) (λ _, program_done r s G gb) (program_error r g s gb) s.
Proof.
  intros Hg Hgb Hload. unfold fpga_region_program_fpga. wstep.
  eapply wp_mono; [by apply region_get_spec| |by intros e s' ([-> | ->] & Hh & Ho); apply program_error_start].
  intros _ s1 (Hlk & Hh1 & Ho1). wsteps. unfold fpga_mgr_lock at 1. wsteps.
  destruct (r_mgr_locked s1) eqn:Hml; wsteps.
  { eapply region_put_spec; [done|done|done|done|]. intros s2 Hh2 Ho2. apply program_error_start; [done|congruence..]. }
  assert (h_mgr_locked (holds s) = false) as Hmh.
  { change (h_mgr_locked (set_region_held r (rg_parent g) (holds s)) = false). rewrite <- Hh1. exact Hml. }
  assert (holds (set_mgr_locked true s1) = set_region_held r (rg_parent g) (set_mgr_lock true (holds s))) as Hh2.
  { change (holds (set_mgr_locked true s1)) with (set_mgr_lock true (holds s1)). by rewrite Hh1. }
  destruct gb as [f|]; cbn [getter_ok] in Hgb.
  - destruct Hgb as [Hf Hnil]. eapply wp_mono; [eapply wp_as_run, Hf| |].
    + change (is_Some (h_regions (holds (set_mgr_locked true s1)) !! r)).
      rewrite (locked_region _ _ _ _ Hg Hh2). by eexists.
    + intros [] s3 [Hrun [Hacq Ho3]]. apply wp_on_error.
      eapply (program_with_getter r g s _ fuel G Hg Hlk Hmh Hh2); [exact Ho1|exact Hload|exact Hrun|done|exact Hacq|exact Ho3].
    + intros e s3 [_ (Hne & Hh3 & Ho3)]. apply (program_give_back r g s _ Hg Hlk Hmh Hh2); [done|exact Hh3|left].
      unfold others in *. cbn in Ho3. congruence.
  - apply wp_ret, wp_on_error. apply (program_without_getter r g s _ fuel G Hg Hlk Hmh Hh2); [exact Ho1|exact Hload].
Qed.

(** C19: programming a region, with or without bridges of its own, gives back what it
    takes and isolates the region meanwhile, however it ends; provided that loading
    an image ends without a fault, and that [get_bridges], if the region has one,
    is called without bridges in the region and keeps the promise of [BridgeGetter],
    which is to hold what it puts into the region, or nothing when it fails.  After a success the
    locks of region and manager and the references to their devices and modules are
    as before, and what is held in addition are exactly the bridges that
    [get_bridges] took; the image was loaded after every bridge of the region was
    disabled and before any of them was enabled.  After a failure everything held
    is as before, all bridges included, and either the hardware saw nothing, or, for the
    bridges that the region had after [get_bridges], it saw a prefix of that
    sequence: no bridge is enabled unless the load succeeded, and nothing is loaded
    unless every one of them was disabled.  It never faults.  What a successful load
    establishes of the manager still holds at the end. *)
Theorem program_fpga_balanced (G : gst → Prop) gb fuel r s g :
  r_regions s !! r = Some g → getter_ok r gb s →
  wp (fpga_mgr_load mops fuel) (λ _, G) (λ e _, e ≠ 0) (r_mgr s) →
  wp (fpga_region_program_fpga mops gb fuel r)
    (λ _ s', acquired r (holds s) (holds s') ∧ (gb = None → holds s' = holds s) ∧ G (r_mgr s') ∧
       let l := bridge_list_of r (holds s') in
       r_trace s' = r_trace s ++ switched l false ++ EvLoad true :: switched l true)
    (λ e s', e ≠ 0 ∧ holds s' = holds s ∧
       (r_trace s' = r_trace s ∨ ∃ l tr, bridges_got r g s gb l ∧ r_trace s' = r_trace s ++ tr ∧ program_failed l tr)) s.
Proof. apply program_spec. Qed.
End Facts.
