(* ===== verification/FmePr.v ===== *)
(** * Partial reconfiguration of a port (drivers/fpga/dfl-fme-pr.c)

    The management feature creates a manager, and a bridge and a region for every
    port; the ioctl copies an image from user space and programs the region of a
    port with it, under the lock of the feature device. *)
From stdpp Require Import gmap gmultiset strings.
From S2P Require Import Prelude DflRegs DflTypes FpgaMgr FpgaMgrFacts FmeMgr FmeMgrFacts FpgaRegion FpgaRegionFacts.

(* drivers/fpga/dfl-fme-pr.h:30-34 dfl_fme_region *)
Record dfl_fme_region := FmeRegion {
  fr_region : Z;
  fr_port_id : Z;
}.
(** Platform devices are handles. *)
(* drivers/fpga/dfl-fme.h:28-32 dfl_fme *)
Record dfl_fme := Fme {
  fme_mgr : option Z;
  fme_region_list : list dfl_fme_region;
  fme_bridge_list : list Z;
}.

(** ** The ioctl *)

(* include/uapi/linux/fpga-dfl.h:237-244 dfl_fpga_fme_port_pr *)
Record dfl_fpga_fme_port_pr := PortPr {
  pp_argsz : Z;
  pp_flags : Z;
  pp_port_id : Z;
  pp_buffer_size : Z;
  pp_buffer_address : Z;
}.
(** [offsetofend(struct dfl_fpga_fme_port_pr, buffer_address)]: four words of 32
    bits and one of 64. *)
Definition port_pr_minsz : Z := 24.

(** User space (what can be copied from there) and memory: an address, or none. *)
Class PrUser := {
  pu : Type;
  copy_port_pr : Z → option dfl_fpga_fme_port_pr;
  copy_buffer : Z → Z → option (list Z);
  pu_vmalloc : Z → pu → option Z * pu;
  pu_info_alloc : pu → option Z * pu;
}.
Class PrUserOk `{PrUser} := {
  port_pr_u32 arg pp : copy_port_pr arg = Some pp →
    is_u32 (pp_argsz pp) ∧ is_u32 (pp_flags pp) ∧ is_u32 (pp_port_id pp) ∧ is_u32 (pp_buffer_size pp);
  copy_buffer_size a n l : copy_buffer a n = Some l → Z.of_nat (length l) = n ∧ Forall is_u8 l;
}.

Section FmePr.
Context `{MgrKernel} `{BridgeHw} `{PrEngine} `{PrUser}.
(** The bounds of the waits of the manager, the bridge of each region's platform
    data, the FME header and the registers there. *)
Context (polls fuel fl : nat) (pdata_br : nat → Z) (fme_hdr : option Z) (readq : Z → Z).

(** [f_bufs] are the buffers and [f_infos] the image informations that are
    allocated. *)
Record fst_ := FPr {
  f_r : rst (D := fme_mgr_priv);
  f_fme : option dfl_fme;
  f_u : pu;
  f_bufs : gmultiset Z;
  f_infos : gmultiset Z;
}.
Definition set_f_r r (s : fst_) := FPr r (f_fme s) (f_u s) (f_bufs s) (f_infos s).
Definition on_r {A} (m : M (rst (D := fme_mgr_priv)) A) : M fst_ A := zoom f_r set_f_r m.
Definition vmalloc (n : Z) : M fst_ (option Z) := λ s,
  let (p, u) := pu_vmalloc n (f_u s) in
  Done (Val p, FPr (f_r s) (f_fme s) u (match p with Some a => f_bufs s ⊎ {[+ a +]} | None => f_bufs s end) (f_infos s)).
Definition vfree (a : Z) : M fst_ unit :=
  modify (λ s, FPr (f_r s) (f_fme s) (f_u s) (f_bufs s ∖ {[+ a +]}) (f_infos s)).

(* drivers/fpga/fpga-mgr.c:109-124 fpga_image_info_alloc *)
Definition fpga_image_info_alloc : M fst_ (option Z) := λ s,
  let (p, u) := pu_info_alloc (f_u s) in
  Done (Val p, FPr (f_r s) (f_fme s) u (f_bufs s) (match p with Some a => f_infos s ⊎ {[+ a +]} | None => f_infos s end)).
(** Address 0 is NULL. *)
(* drivers/fpga/fpga-mgr.c:131-144 fpga_image_info_free *)
Definition fpga_image_info_free (info : Z) : M fst_ unit :=
  if info =? 0 then mret tt
  else modify (λ s, FPr (f_r s) (f_fme s) (f_u s) (f_bufs s) (f_infos s ∖ {[+ info +]})).

(* drivers/fpga/dfl-fme-region.c:22-28 fme_region_get_bridges *)
Definition fme_region_get_bridges (r : nat) : M (rst (D := fme_mgr_priv)) unit :=
  region ← the_region r;
  fpga_bridge_get_to_list (pdata_br r) (rg_info region) r.

(* drivers/fpga/dfl-fme-pr.c:32-42 dfl_fme_region_find_by_port_id *)
Fixpoint dfl_fme_region_find_by_port_id (l : list dfl_fme_region) (port_id : Z) : option dfl_fme_region :=
  match l with
  | [] => None
  | fme_region :: l => if fr_port_id fme_region =? port_id then Some fme_region else dfl_fme_region_find_by_port_id l port_id
  end.
(* drivers/fpga/dfl-fme-pr.c:44-47 dfl_fme_region_match *)
Definition dfl_fme_region_match (dev : Z) (r : fpga_region) : bool := rg_parent r =? dev.

(* drivers/fpga/fpga-region.c:21-32 fpga_region_class_find *)
Definition fpga_region_class_find (match_ : fpga_region → bool) : M (rst (D := fme_mgr_priv)) (option nat) :=
  s ← get;
  match find_index match_ (r_regions s) with
  | Some i => get_device (RefRegion i) ;; mret (Some i)
  | None => mret None
  end.
(* drivers/fpga/dfl-fme-pr.c:49-64 dfl_fme_region_find *)
Definition dfl_fme_region_find (fme : dfl_fme) (port_id : Z) : M (rst (D := fme_mgr_priv)) (option nat) :=
  match dfl_fme_region_find_by_port_id (fme_region_list fme) port_id with
  | None => mret None
  | Some fme_region => fpga_region_class_find (dfl_fme_region_match (fr_region fme_region))
  end.

(** The image information of the region is what the manager loads. *)
Definition set_image (flags region_id addr : Z) (buf : list Z) : M (rst (D := fme_mgr_priv)) unit := modify (λ s,
  set_mgr (GSt (g_k (r_mgr s)) (g_state (r_mgr s))
    (ImageInfo _ None None (Some (addr, buf)) 0 0 flags region_id) (g_drv (r_mgr s)) (g_calls (r_mgr s))) s).

(** From the buffer on; whatever happens, the buffer is freed. *)
(* drivers/fpga/dfl-fme-pr.c:102-151 fme_pr *)
Definition fme_pr_buffer (port_pr : dfl_fpga_fme_port_pr) (buf : Z) : M fst_ unit :=
  bytes ← (match copy_buffer (pp_buffer_address port_pr) (pp_buffer_size port_pr) with
           | Some l => mret l | None => throw (- EFAULT) end);
  info ← fpga_image_info_alloc;
  match info with
  | None => throw (- ENOMEM)
  | Some info =>
      s ← get;
      match f_fme s with
      | None => throw (- EINVAL)
      | Some fme =>
          region ← on_r (dfl_fme_region_find fme (pp_port_id port_pr));
          match region with
          | None => throw (- EINVAL)
          | Some r =>
              g ← on_r (the_region r);
              fpga_image_info_free (rg_info g) ;;
              on_r (set_image (mask FPGA_MGR_PARTIAL_RECONFIG) (pp_port_id port_pr) buf bytes) ;;
              on_r (upd_region r (set_rg_info info)) ;;
              ret ← status (on_r (fpga_region_program_fpga (fme_mgr_ops polls fuel) (Some (fme_region_get_bridges r)) fl r));
              on_r (fpga_bridges_put r) ;;
              on_r (put_device (RefRegion r)) ;;
              rc ret
          end
      end
  end.
(* drivers/fpga/dfl-fme-pr.c:66-155 fme_pr *)
Definition fme_pr (arg : Z) : M fst_ unit :=
  match copy_port_pr arg with
  | None => throw (- EFAULT)
  | Some port_pr =>
      if (pp_argsz port_pr <? port_pr_minsz) || negb (pp_flags port_pr =? 0) || (pp_buffer_size port_pr =? 0)
      then throw (- EINVAL) else
      hdr ← access fme_hdr;
      let v := readq (hdr + FME_HDR_CAP) in
      if FIELD_GET FME_CAP_NUM_PORTS v <=? pp_port_id port_pr then throw (- EINVAL) else
      buf ← vmalloc (pp_buffer_size port_pr);
      match buf with
      | None => throw (- ENOMEM)
      | Some buf =>
          ret ← status (fme_pr_buffer port_pr buf);
          vfree buf ;;
          rc ret
      end
  end.

(* include/uapi/linux/fpga-dfl.h:246-246 DFL_FPGA_FME_PORT_PR *)
Definition DFL_FPGA_FME_PORT_PR : Z := 0xB680.
(* drivers/fpga/dfl-fme-pr.c:443-458 fme_pr_ioctl *)
Definition fme_pr_ioctl (cmd arg : Z) : M fst_ unit :=
  if cmd =? DFL_FPGA_FME_PORT_PR then fme_pr arg else throw (- ENODEV).
End FmePr.

(** ** The partial reconfiguration ioctl

    What the ioctl of [FmePr] does with the image and with everything it takes on
    the way. *)

Section Facts.
Context `{MgrKernel} `{BridgeHw} `{PrEngine} `{PrUserOk}.
Context (polls fuel fl : nat) (pdata_br : nat → Z) (fme_hdr : option Z) (readq : Z → Z).
Hypothesis Hfuel : PR_WAIT_TIMEOUT + 1 ≤ Z.of_nat fuel.
Implicit Types s : fst_.

Lemma on_r_spec {A} (m : M (rst (D := fme_mgr_priv)) A) Q E s :
  wp m (λ a t, Q a (set_f_r t s)) (λ e t, E e (set_f_r t s)) (f_r s) → wp (on_r m) Q E s.
Proof. apply wp_zoom. Qed.

Lemma on_r_finally (p a b : M (rst (D := fme_mgr_priv)) unit) Q E s :
  wp (ret ← status p; a ;; b ;; rc ret) (λ x t, Q x (set_f_r t s)) (λ e t, E e (set_f_r t s)) (f_r s) →
  wp (ret ← status (on_r p); on_r a ;; on_r b ;; rc ret) Q E s.
Proof.
  unfold wpg, mbind, M_bind, status, on_r, zoom.
  destruct (p (f_r s)) as [[[?|e] t1]| |]; try done; cbn;
    (destruct (a t1) as [[[?|e1] t2]| |]; try done; cbn;
     destruct (b t2) as [[[?|e2] t3]| |]; try done; unfold rc; try destruct (_ =? 0); done).
Qed.

#[export] Instance fme_getter r : BridgeGetter r (fme_region_get_bridges pdata_br r).
Proof.
  intros s [g Hg]. unfold fme_region_get_bridges. wstep. eapply the_region_spec; [done|].
  apply get_to_list_getter. by eexists.
Qed.

(** ** The region that is programmed *)
Implicit Types t : rst (D := fme_mgr_priv).
Definition h_set_info r info (h : holding) : holding :=
  Holding (h_bridges h) (alter (set_rg_info info) r (h_regions h)) (h_mods h) (h_devs h) (h_mgr_parent h) (h_mgr_locked h).
Definition h_unref_region r (h : holding) : holding :=
  Holding (h_bridges h) (h_regions h) (h_mods h) (h_devs h ∖ {[+ RefRegion r +]}) (h_mgr_parent h) (h_mgr_locked h).

(** Programming and giving everything back, the reference to the region included. *)
Lemma program_and_put_spec (G : gst → Prop) r g t :
  r_regions t !! r = Some g → rg_bridge_list g = [] →
  wp (fpga_mgr_load (fme_mgr_ops polls fuel) fl) (λ _, G) (λ e _, e ≠ 0) (r_mgr t) →
  wp (ret ← status (fpga_region_program_fpga (fme_mgr_ops polls fuel) (Some (fme_region_get_bridges pdata_br r)) fl r);
      fpga_bridges_put r ;; put_device (RefRegion r) ;; rc ret)
    (λ _ t', holds t' = h_unref_region r (holds t) ∧ G (r_mgr t'))
    (λ e t', e ≠ 0 ∧ holds t' = h_unref_region r (holds t)) t.
Proof.
  intros Hg Hnil Hload.
  assert (bridge_list_of r (holds t) = []) as Hb by (unfold bridge_list_of; cbn; by rewrite Hg).
  wsteps. eapply wp_mono; [eapply (program_spec _ G); [done| |done]| |].
  - split; [apply _|done].
  - intros _ t1 (Ha & _ & HG & _). wsteps. eapply (bridges_put_spec _ (holds t)); [done|done|by eexists|].
    intros t2 Hh2 Ho2. unfold put_device. wsteps; [|done]. intros _. split.
    + unfold holds, h_unref_region in *. cbn in *. injection Hh2 as -> -> -> -> -> ->. done.
    + assert (r_mgr t2 = r_mgr t1) as Hm by (unfold others in *; congruence). cbn. by rewrite Hm.
  - intros e t1 (Hne & Hh1 & _). wsteps. eapply (bridges_put_spec _ (holds t)); [rewrite Hh1; constructor|done|by eexists|].
    intros t2 Hh2 Ho2. unfold put_device. wsteps; unfold holds, h_unref_region in *; cbn in *;
      injection Hh2 as -> -> -> -> -> ->; done.
Qed.

(** ** The region of a port *)
Definition port_region fme port_id t r : Prop :=
  ∃ fr g, dfl_fme_region_find_by_port_id (fme_region_list fme) port_id = Some fr ∧
    r_regions t !! r = Some g ∧ rg_parent g = fr_region fr.
Lemma region_find_spec fme port_id t (Q : option nat → rst → Prop) E :
  (∀ r, port_region fme port_id t r → Q (Some r) (set_devs (r_devs t ⊎ {[+ RefRegion r +]}) t)) →
  Q None t →
  wp (dfl_fme_region_find fme port_id) Q E t.
Proof.
  intros HS HN. unfold dfl_fme_region_find, fpga_region_class_find.
  destruct (dfl_fme_region_find_by_port_id _ _) as [fr|] eqn:Hf; wsteps; [|done].
  destruct (find_index _ _) as [r|] eqn:Hi; unfold get_device; wsteps; [|done].
  apply find_index_lookup in Hi as (g & Hg & Hp%Z.eqb_eq). apply HS. by exists fr, g.
Qed.
Lemma region_by_port_id l port_id fr :
  dfl_fme_region_find_by_port_id l port_id = Some fr → fr ∈ l ∧ fr_port_id fr = port_id.
Proof.
  induction l as [|x l IH]; cbn; [done|]. destruct (Z.eqb_spec (fr_port_id x) port_id) as [He|He].
  - intros [= <-]. split; [left|done].
  - intros [? ?]%IH. split; [by right|done].
Qed.

(** What a call leaves: nothing, except that it may have put new image information
    into the region, or forgotten it. *)
Definition info_kept s s' : Prop :=
  holds (f_r s') = holds (f_r s) ∧ (f_infos s' = f_infos s ∨ ∃ info, f_infos s' = f_infos s ⊎ {[+ info +]}).
Definition info_replaced r s s' : Prop :=
  ∃ g info, r_regions (f_r s) !! r = Some g ∧ holds (f_r s') = h_set_info r info (holds (f_r s)) ∧
    f_infos s' = (f_infos s ⊎ {[+ info +]}) ∖ (if rg_info g =? 0 then ∅ else {[+ rg_info g +]}).
Definition image_loaded port_id bytes s s' : Prop :=
  g_state (r_mgr (f_r s')) = FPGA_MGR_STATE_OPERATING ∧
  engine_loaded port_id bytes (g_drv (r_mgr (f_r s))) (g_drv (r_mgr (f_r s'))).

Lemma mem_region_holds t r info :
  holds (set_regions (alter (set_rg_info info) r (r_regions t)) t) = h_set_info r info (holds t).
Proof. done. Qed.

Lemma pr_buffer_spec pp buf s :
  (∀ r g, r_regions (f_r s) !! r = Some g → rg_bridge_list g = []) →
  0 < pp_buffer_size pp →
  wp (fme_pr_buffer polls fuel fl pdata_br pp buf)
    (λ _ s', f_bufs s' = f_bufs s ∧ ∃ fme r bytes, f_fme s = Some fme ∧ port_region fme (pp_port_id pp) (f_r s) r ∧
       copy_buffer (pp_buffer_address pp) (pp_buffer_size pp) = Some bytes ∧
       image_loaded (pp_port_id pp) bytes s s' ∧ info_replaced r s s')
    (λ e s', e ≠ 0 ∧ f_bufs s' = f_bufs s ∧ (info_kept s s' ∨ ∃ r, info_replaced r s s')) s.
Proof.
  intros Hnil Hpos. unfold fme_pr_buffer. wstep.
  destruct (copy_buffer _ _) as [bytes|] eqn:Hcopy; wsteps; [|split_and!; [done..|left; split; [done|by left]]].
  pose proof (copy_buffer_size _ _ _ Hcopy) as [Hlen Hu].
  unfold wpg at 1, fpga_image_info_alloc. destruct (pu_info_alloc (f_u s)) as [[info|] u]; wsteps; cbn [f_fme].
  2: { split_and!; [done..|left; split; [done|by left]]. }
  destruct (f_fme s) as [fme|] eqn:Hfme; wsteps; [|split_and!; [done..|left; split; [done|right; by exists info]]].
  apply on_r_spec. cbn [f_r]. apply region_find_spec; cycle 1.
  { wsteps. split_and!; [done..|left; split; [done|right; by exists info]]. }
  intros r Hport. pose proof Hport as (fr & g & _ & Hg & _). wsteps.
  apply on_r_spec. cbn [f_r set_f_r]. eapply the_region_spec; [exact Hg|]. wsteps.
  unfold fpga_image_info_free.
  apply (wp_mono _ (λ _ s', s' = FPr (set_devs (r_devs (f_r s) ⊎ {[+ RefRegion r +]}) (f_r s)) (f_fme s) u (f_bufs s)
    ((f_infos s ⊎ {[+ info +]}) ∖ (if rg_info g =? 0 then ∅ else {[+ rg_info g +]})))
    _ (λ _ _, False)); [| |done].
  { destruct (rg_info g =? 0); cbv iota; [apply wp_ret|apply wp_modify]; unfold set_f_r; cbn; rewrite Hfme; f_equal; multiset_solver. }
  intros _ s1 ->. wstep. apply on_r_spec. unfold set_image. wstep. cbn [f_r set_f_r].
  wstep. apply on_r_spec. unfold upd_region. wstep. cbn [f_r set_f_r].
  apply on_r_finally. cbn [f_r set_f_r].
  set (t := set_regions _ _).
  assert (r_regions t !! r = Some (set_rg_info info g)) as Hgt by (unfold t; cbn; by rewrite list_lookup_alter_eq, Hg).
  assert (h_unref_region r (holds t) = h_set_info r info (holds (f_r s))) as Hht.
  { unfold t, holds, h_unref_region, h_set_info. cbn. f_equal. multiset_solver. }
  eapply wp_mono; [apply (program_and_put_spec (λ g', g_state g' = FPGA_MGR_STATE_OPERATING ∧
    engine_loaded (pp_port_id pp) bytes (g_drv (r_mgr (f_r s))) (g_drv g')) r _ t Hgt)| |].
  - unfold set_rg_info. cbn. by eapply Hnil.
  - eapply wp_mono; [eapply (fme_load_spec _ _ Hfuel); cbn; try done| |].
    + intros ->. cbn in Hlen. lia.
    + cbn. intros _ g' (? & _ & ? & _). done.
    + intros e g' Hf. apply (failed_step_mono _ _ _ (λ e _, e ≠ 0)) in Hf as [_ ?]; [done|..]; cbv beta.
      * by intros ? ? [[-> _]|[-> _]].
      * by intros ? ? [-> _].
      * by intros ? ? [[->|[-> _]] _].
  - intros _ t' [Hh [Hs He]]. rewrite Hht in Hh. cbn. split; [done|]. exists fme, r, bytes. split_and!; [done..|].
    exists g, info. split_and!; [done..|]. done.
  - intros e t' [Hne Hh]. rewrite Hht in Hh. cbn. split_and!; [done..|]. right. exists r, g, info. done.
Qed.

(** C14: the partial reconfiguration ioctl, when it succeeds, has copied an image of
    the size user space asked for, found the region of the port, and pushed exactly
    this image into the reconfiguration engine for this port; and however it ends,
    the locks of the region and of the manager, the bridges, the references to
    modules and devices and the buffer it allocated are given back.  The only thing
    a call leaves behind is image information: the new one in the region in place
    of the old one, which is freed, or, when the port has no region, the new one
    without an owner. *)
Theorem fme_pr_exact arg s :
  (∀ r g, r_regions (f_r s) !! r = Some g → rg_bridge_list g = []) → is_Some fme_hdr →
  wp (fme_pr polls fuel fl pdata_br fme_hdr readq arg)
    (λ _ s', f_bufs s' = f_bufs s ∧ ∃ pp fme r bytes,
       copy_port_pr arg = Some pp ∧ f_fme s = Some fme ∧ port_region fme (pp_port_id pp) (f_r s) r ∧
       copy_buffer (pp_buffer_address pp) (pp_buffer_size pp) = Some bytes ∧
       image_loaded (pp_port_id pp) bytes s s' ∧ info_replaced r s s')
    (λ e s', e ≠ 0 ∧ f_bufs s' = f_bufs s ∧ (info_kept s s' ∨ ∃ r, info_replaced r s s')) s.
Proof.
  intros Hnil [hdr Hhdr]. unfold fme_pr.
  assert (info_kept s s) as Hid by (split; [done|by left]).
  destruct (copy_port_pr arg) as [pp|] eqn:Hpp; wsteps; [|by auto].
  destruct (_ || _) eqn:Hchk; wsteps; [by auto|].
  apply orb_false_iff in Hchk as [_ Hz%Z.eqb_neq]. rewrite Hhdr. cbn [access]. wsteps.
  destruct (_ <=? pp_port_id pp); wsteps; [by auto|].
  unfold wpg at 1, vmalloc. destruct (pu_vmalloc _ (f_u s)) as [[buf|] u]; wsteps; [|by auto].
  pose proof (port_pr_u32 _ _ Hpp) as (_ & _ & _ & Hsz). unfold is_u32 in Hsz.
  set (s1 := FPr _ _ _ _ _).
  assert (∀ X Y : gmultiset Z, X = Y ⊎ {[+ buf +]} → X ∖ {[+ buf +]} = Y) as Hms by multiset_solver.
  eapply wp_mono; [apply (pr_buffer_spec pp buf s1 Hnil); lia| |].
  - intros _ s2 (Hb & fme & r & bytes & ? & ? & ? & Hload & Hi). unfold vfree. wsteps; [|done].
    intros _. cbn. split; [by apply Hms|]. by exists pp, fme, r, bytes.
  - intros e s2 (Hne & Hb & Hi). unfold vfree. wsteps; [done|]. intros _. cbn. split_and!; [done|by apply Hms|exact Hi].
Qed.

(** For a port without a region the new image information is forgotten: nothing
    points to it and nothing frees it. *)
Lemma fme_pr_forgets_info pp buf bytes info u fme s :
  copy_buffer (pp_buffer_address pp) (pp_buffer_size pp) = Some bytes →
  pu_info_alloc (f_u s) = (Some info, u) → f_fme s = Some fme →
  dfl_fme_region_find_by_port_id (fme_region_list fme) (pp_port_id pp) = None →
  wp (fme_pr_buffer polls fuel fl pdata_br pp buf) (λ _ _, False)
    (λ e s', e = - EINVAL ∧ f_infos s' = f_infos s ⊎ {[+ info +]} ∧ r_regions (f_r s') = r_regions (f_r s)) s.
Proof.
  intros Hc Hi Hf Hr. unfold fme_pr_buffer. rewrite Hc. wsteps. unfold wpg at 1, fpga_image_info_alloc.
  rewrite Hi. wsteps. cbn [f_fme]. rewrite Hf. wsteps. apply on_r_spec. unfold dfl_fme_region_find. rewrite Hr.
  wsteps. done.
Qed.
End Facts.
