(* ===== verification/FmePrMgmt.v ===== *)
(** * The sub devices of partial reconfiguration (drivers/fpga/dfl-fme-pr.c)

    The initialisation of the management feature creates platform devices: the
    manager, and for each implemented port a bridge and a region; on any failure,
    and when the feature goes away, it destroys them. *)
From stdpp Require Import gmap gmultiset strings.
From S2P Require Import Prelude DflRegs DflTypes FmePr.

(* drivers/fpga/dfl-fme-pr.h:80-80 DFL_FPGA_FME_MGR *)
Definition DFL_FPGA_FME_MGR : string := "dfl-fme-mgr".
(* drivers/fpga/dfl-fme-pr.h:81-81 DFL_FPGA_FME_BRIDGE *)
Definition DFL_FPGA_FME_BRIDGE : string := "dfl-fme-bridge".
(* drivers/fpga/dfl-fme-pr.h:82-82 DFL_FPGA_FME_REGION *)
Definition DFL_FPGA_FME_REGION : string := "dfl-fme-region".
(* drivers/fpga/dfl.h:156-156 FME_PORT_OFST_IMP *)
Definition FME_PORT_OFST_IMP : field := BIT_ULL 60.
Definition PLATFORM_DEVID_AUTO : Z := -2.

(** ** Platform devices *)

(** What a sub device is told about its place, copied into it before it is added. *)
(* drivers/fpga/dfl-fme-pr.h:36-78 dfl_fme_region_pdata *)
Inductive pdev_data :=
  | MgrPdata (ioaddr : Z)
  | BrPdata (cdev port_id : Z)
  | RegionPdata (mgr br : Z).
Record pdev := Pdev {
  pd_name : string;
  pd_devid : Z;
  pd_parent : option Z;
  pd_data : option pdev_data;
}.
Definition set_pd_parent x (d : pdev) := Pdev (pd_name d) (pd_devid d) x (pd_data d).
Definition set_pd_data x (d : pdev) := Pdev (pd_name d) (pd_devid d) (pd_parent d) x.

Section Mgmt.
Context `{Kernel}.
(** The device of the FME and its id, the container device, the id of a platform
    device, the registers of the FME header, at [fme_hdr]. *)
Context (fme_dev fme_id cdev : Z) (pdev_id : Z → Z) (fme_hdr : option Z) (readq : Z → Z).

(** [pm_devs] are the platform devices that are allocated, [pm_pdevs] what is in
    them, [pm_added] those that were added to the bus, in order, each with what was
    in it at that moment: what its driver is probed with. *)
Record pmst := PmSt {
  pm_k : kst;
  pm_fme : dfl_fme;
  pm_devs : gmultiset Z;
  pm_pdevs : gmap Z pdev;
  pm_added : list (Z * option pdev);
}.
Definition pm_kop {A} (f : kst → A * kst) : M pmst A := λ s,
  let (a, k) := f (pm_k s) in Done (Val a, PmSt k (pm_fme s) (pm_devs s) (pm_pdevs s) (pm_added s)).
Definition set_pm_pdevs x s := PmSt (pm_k s) (pm_fme s) (pm_devs s) x (pm_added s).
Definition set_pm_added x s := PmSt (pm_k s) (pm_fme s) (pm_devs s) (pm_pdevs s) x.
Definition platform_device_alloc (name : string) (id : Z) : M pmst (option Z) := λ s,
  let (p, k) := k_pdev_alloc name id (pm_k s) in
  Done (Val p, match p with
               | Some d => PmSt k (pm_fme s) (pm_devs s ⊎ {[+ d +]}) (<[d:=Pdev name id None None]> (pm_pdevs s)) (pm_added s)
               | None => PmSt k (pm_fme s) (pm_devs s) (pm_pdevs s) (pm_added s)
               end).
(** Copying the data fails, when memory runs out, or the device has the data. *)
Definition platform_device_add_data (d : Z) (data : pdev_data) : M pmst Z :=
  ret ← pm_kop (k_pdev_add_data d);
  (if ret =? 0 then modify (λ s, set_pm_pdevs (alter (set_pd_data (Some data)) d (pm_pdevs s)) s) else mret tt) ;;
  mret ret.
Definition platform_device_add (d : Z) : M pmst Z :=
  ret ← pm_kop (k_pdev_add d 0);
  (if ret =? 0 then modify (λ s, set_pm_added (pm_added s ++ [(d, pm_pdevs s !! d)]) s) else mret tt) ;;
  mret ret.
Definition platform_device_put (d : Z) : M pmst unit :=
  modify (λ s, PmSt (k_pdev_put d (pm_k s)) (pm_fme s) (pm_devs s ∖ {[+ d +]}) (delete d (pm_pdevs s)) (pm_added s)).
Definition platform_device_unregister (d : Z) : M pmst unit :=
  modify (λ s, PmSt (k_pdev_unregister d (pm_k s)) (pm_fme s) (pm_devs s ∖ {[+ d +]}) (delete d (pm_pdevs s)) (pm_added s)).
Definition upd_fme (f : dfl_fme → dfl_fme) : M pmst unit := modify (λ s, PmSt (pm_k s) (f (pm_fme s)) (pm_devs s) (pm_pdevs s) (pm_added s)).
Definition set_fme_mgr x (f : dfl_fme) := Fme x (fme_region_list f) (fme_bridge_list f).
Definition set_fme_region_list x (f : dfl_fme) := Fme (fme_mgr f) x (fme_bridge_list f).
Definition set_fme_bridge_list x (f : dfl_fme) := Fme (fme_mgr f) (fme_region_list f) x.
Definition pm_alloc : M pmst bool := pm_kop k_alloc.

(** What the three functions that create a sub device have in common: allocating a
    platform device, putting it below the FME, giving it its data and adding it. *)
Definition create_pdev (name : string) (id : Z) (data : pdev_data) : M pmst Z :=
  p ← platform_device_alloc name id;
  match p with
  | None => throw (- ENOMEM)
  | Some p =>
      modify (λ s, set_pm_pdevs (alter (set_pd_parent (Some fme_dev)) p (pm_pdevs s)) s) ;;
      on_error (
        ret ← platform_device_add_data p data;
        rc ret ;;
        ret ← platform_device_add p;
        rc ret) (platform_device_put p) ;;
      mret p
  end.

(* drivers/fpga/dfl-fme-pr.c:164-200 dfl_fme_create_mgr *)
Definition dfl_fme_create_mgr (ioaddr : option Z) : M pmst Z :=
  match ioaddr with
  | None => throw (- ENODEV)
  | Some ioaddr => create_pdev DFL_FPGA_FME_MGR fme_id (MgrPdata ioaddr)
  end.
(** [priv->mgr] is NULL or the device; unregistering NULL does nothing. *)
(* drivers/fpga/dfl-fme-pr.c:206-211 dfl_fme_destroy_mgr *)
Definition dfl_fme_destroy_mgr : M pmst unit :=
  s ← get;
  match fme_mgr (pm_fme s) with Some d => platform_device_unregister d | None => mret tt end.

(* drivers/fpga/dfl-fme-pr.c:221-256 dfl_fme_create_bridge *)
Definition dfl_fme_create_bridge (port_id : Z) : M pmst Z :=
  ok ← pm_alloc;
  if negb ok then throw (- ENOMEM) else create_pdev DFL_FPGA_FME_BRIDGE PLATFORM_DEVID_AUTO (BrPdata cdev port_id).
(* drivers/fpga/dfl-fme-pr.c:262-265 dfl_fme_destroy_bridge *)
Definition dfl_fme_destroy_bridge (fme_br : Z) : M pmst unit := platform_device_unregister fme_br.
(* drivers/fpga/dfl-fme-pr.c:276-279 dfl_fme_destroy_bridges *)
Fixpoint destroy_bridges_loop (l : list Z) : M pmst unit :=
  match l with
  | [] => mret tt
  | fbridge :: l =>
      upd_fme (set_fme_bridge_list l) ;;
      dfl_fme_destroy_bridge fbridge ;;
      destroy_bridges_loop l
  end.
(* drivers/fpga/dfl-fme-pr.c:271-280 dfl_fme_destroy_bridges *)
Definition dfl_fme_destroy_bridges : M pmst unit :=
  s ← get; destroy_bridges_loop (fme_bridge_list (pm_fme s)).

(* drivers/fpga/dfl-fme-pr.c:292-335 dfl_fme_create_region *)
Definition dfl_fme_create_region (mgr br port_id : Z) : M pmst dfl_fme_region :=
  ok ← pm_alloc;
  if negb ok then throw (- ENOMEM) else
  region ← create_pdev DFL_FPGA_FME_REGION (pdev_id br) (RegionPdata mgr br);
  mret (FmeRegion region port_id).
(* drivers/fpga/dfl-fme-pr.c:341-344 dfl_fme_destroy_region *)
Definition dfl_fme_destroy_region (fme_region : dfl_fme_region) : M pmst unit :=
  platform_device_unregister (fr_region fme_region).
(* drivers/fpga/dfl-fme-pr.c:355-358 dfl_fme_destroy_regions *)
Fixpoint destroy_regions_loop (l : list dfl_fme_region) : M pmst unit :=
  match l with
  | [] => mret tt
  | fme_region :: l =>
      upd_fme (set_fme_region_list l) ;;
      dfl_fme_destroy_region fme_region ;;
      destroy_regions_loop l
  end.
(* drivers/fpga/dfl-fme-pr.c:350-359 dfl_fme_destroy_regions *)
Definition dfl_fme_destroy_regions : M pmst unit :=
  s ← get; destroy_regions_loop (fme_region_list (pm_fme s)).

Definition destroy_all : M pmst unit :=
  dfl_fme_destroy_regions ;; dfl_fme_destroy_bridges ;; dfl_fme_destroy_mgr.

(** The ports from [i] on, [n] of them. *)
(* drivers/fpga/dfl-fme-pr.c:393-416 pr_mgmt_init *)
Fixpoint init_ports (mgr hdr i : Z) (n : nat) : M pmst unit :=
  match n with
  | O => mret tt
  | S n =>
      let port_offset := readq (hdr + FME_HDR_PORT_OFST i) in
      (if negb (has_bits FME_PORT_OFST_IMP port_offset) then mret tt
       else
         fme_br ← dfl_fme_create_bridge i;
         upd_fme (λ f, set_fme_bridge_list (fme_br :: fme_bridge_list f) f) ;;
         fme_region ← dfl_fme_create_region mgr fme_br i;
         upd_fme (λ f, set_fme_region_list (fme_region :: fme_region_list f) f)) ;;
      init_ports mgr hdr (i + 1) n
  end.
(** The error of the manager is not returned, but [-ENODEV]. *)
(* drivers/fpga/dfl-fme-pr.c:361-428 pr_mgmt_init *)
Definition pr_mgmt_init (ioaddr : option Z) : M pmst unit :=
  upd_fme (set_fme_region_list []) ;;
  upd_fme (set_fme_bridge_list []) ;;
  mgr ← (λ s, match dfl_fme_create_mgr ioaddr s with
              | Done (Err _, s') => Done (Err (- ENODEV), s')
              | r => r
              end) : M pmst Z;
  upd_fme (set_fme_mgr (Some mgr)) ;;
  hdr ← access fme_hdr;
  let fme_cap := readq (hdr + FME_HDR_CAP) in
  on_error (init_ports mgr hdr 0 (Z.to_nat (FIELD_GET FME_CAP_NUM_PORTS fme_cap))) destroy_all.

(* drivers/fpga/dfl-fme-pr.c:430-441 pr_mgmt_uinit *)
Definition pr_mgmt_uinit : M pmst unit := destroy_all.

(** ** Devices *)
Implicit Types s : pmst.
Definition fme_devs (f : dfl_fme) : gmultiset Z :=
  list_to_set_disj (fr_region <$> fme_region_list f) ⊎ list_to_set_disj (fme_bridge_list f).

Lemma pm_kop_spec {A} (f : kst → A * kst) s (Q : A → pmst → Prop) E :
  (∀ a k, Q a (PmSt k (pm_fme s) (pm_devs s) (pm_pdevs s) (pm_added s))) → wp (pm_kop f) Q E s.
Proof. intros HQ. unfold wpg, pm_kop. by destruct (f _). Qed.

(** A sub device of the FME as its driver gets to see it. *)
Definition sub_pdev (name : string) (id : Z) (data : pdev_data) : option pdev :=
  Some (Pdev name id (Some fme_dev) (Some data)).
Lemma create_pdev_spec name id data s :
  wp (create_pdev name id data)
    (λ d s', pm_fme s' = pm_fme s ∧ pm_devs s' = pm_devs s ⊎ {[+ d +]} ∧
       pm_added s' = pm_added s ++ [(d, sub_pdev name id data)])
    (λ _ s', pm_fme s' = pm_fme s ∧ pm_devs s' = pm_devs s) s.
Proof.
  unfold create_pdev. wstep. unfold wpg at 1, platform_device_alloc.
  destruct (k_pdev_alloc name id (pm_k s)) as [[d|] k]; wsteps; [|done].
  unfold platform_device_add_data, platform_device_add, platform_device_put. wsteps. apply pm_kop_spec. intros ret k1. cbn.
  destruct (Z.eqb_spec ret 0) as [->|Hne]; wsteps; [intros _|done|done|intros _; cbn; split; [done|multiset_solver]].
  wsteps. apply pm_kop_spec. intros ret k2. cbn.
  destruct (Z.eqb_spec ret 0) as [->|Hne]; wsteps; [intros _|done|done|intros _; cbn; split; [done|multiset_solver]].
  wsteps. cbn. split_and!; [done..|]. do 3 f_equal. by rewrite !lookup_alter_eq, lookup_insert_eq.
Qed.

Lemma destroy_bridges_loop_spec l s :
  wp (destroy_bridges_loop l)
    (λ _ s', pm_fme s' = (if l is [] then pm_fme s else set_fme_bridge_list [] (pm_fme s)) ∧
       pm_devs s' = pm_devs s ∖ list_to_set_disj l) (λ _ _, False) s.
Proof.
  revert s. induction l as [|d l IH]; intros s; cbn [destroy_bridges_loop].
  { wsteps. split; [done|]. cbn. multiset_solver. }
  unfold upd_fme, dfl_fme_destroy_bridge, platform_device_unregister. wsteps.
  eapply wp_mono; [apply IH| |done]. intros _ s' [Hf Hd]. cbn [pm_fme pm_devs] in *. split.
  - rewrite Hf. by destruct l.
  - rewrite Hd, ?fmap_cons, list_to_set_disj_cons. multiset_solver.
Qed.
Lemma destroy_regions_loop_spec l s :
  wp (destroy_regions_loop l)
    (λ _ s', pm_fme s' = (if l is [] then pm_fme s else set_fme_region_list [] (pm_fme s)) ∧
       pm_devs s' = pm_devs s ∖ list_to_set_disj (fr_region <$> l)) (λ _ _, False) s.
Proof.
  revert s. induction l as [|d l IH]; intros s; cbn [destroy_regions_loop].
  { wsteps. split; [done|]. cbn. multiset_solver. }
  unfold upd_fme, dfl_fme_destroy_region, platform_device_unregister. wsteps.
  eapply wp_mono; [apply IH| |done]. intros _ s' [Hf Hd]. cbn [pm_fme pm_devs] in *. split.
  - rewrite Hf. by destruct l.
  - rewrite Hd, ?fmap_cons, list_to_set_disj_cons. multiset_solver.
Qed.
(** Everything that was created is destroyed, and the lists are empty. *)
Lemma destroy_all_spec s mgr X :
  fme_mgr (pm_fme s) = Some mgr → pm_devs s = X ⊎ fme_devs (pm_fme s) ⊎ {[+ mgr +]} →
  wp destroy_all
    (λ _ s', pm_devs s' = X ∧ fme_region_list (pm_fme s') = [] ∧ fme_bridge_list (pm_fme s') = [])
    (λ _ _, False) s.
Proof.
  intros Hm Hd. unfold destroy_all, dfl_fme_destroy_regions, dfl_fme_destroy_bridges, dfl_fme_destroy_mgr. wsteps.
  eapply wp_mono; [apply destroy_regions_loop_spec| |done]. intros _ s1 [Hf1 Hd1]. wsteps.
  assert (fme_bridge_list (pm_fme s1) = fme_bridge_list (pm_fme s) ∧ fme_mgr (pm_fme s1) = Some mgr ∧
    fme_region_list (pm_fme s1) = []) as (Hb & Hm1 & Hr).
  { rewrite Hf1. destruct (fme_region_list (pm_fme s)) eqn:E; done. }
  eapply wp_mono; [apply destroy_bridges_loop_spec| |done]. intros _ s2 [Hf2 Hd2]. wsteps.
  rewrite Hb in Hf2, Hd2.
  assert (fme_bridge_list (pm_fme s2) = [] ∧ fme_mgr (pm_fme s2) = Some mgr ∧ fme_region_list (pm_fme s2) = [])
    as (Hb2 & Hm2 & Hr2).
  { rewrite Hf2. destruct (fme_bridge_list (pm_fme s)) eqn:E; [|done]. by rewrite Hb. }
  rewrite Hm2. unfold platform_device_unregister. wsteps. cbn. split_and!; [|done..].
  rewrite Hd2, Hd1, Hd. unfold fme_devs. multiset_solver.
Qed.

Lemma fme_devs_bridge d f : fme_devs (set_fme_bridge_list (d :: fme_bridge_list f) f) = fme_devs f ⊎ {[+ d +]}.
Proof. unfold fme_devs, set_fme_bridge_list. cbn [fme_region_list fme_bridge_list]. rewrite list_to_set_disj_cons. multiset_solver. Qed.
Lemma fme_devs_region r f :
  fme_devs (set_fme_region_list (r :: fme_region_list f) f) = fme_devs f ⊎ {[+ fr_region r +]}.
Proof.
  unfold fme_devs, set_fme_region_list. cbn [fme_region_list fme_bridge_list].
  rewrite fmap_cons, list_to_set_disj_cons. multiset_solver.
Qed.
Lemma fme_devs_fresh mgr : fme_devs (Fme mgr [] []) = ∅.
Proof. done. Qed.
#[local] Arguments fme_devs : simpl never.

(** ** Initialisation *)

(** The implemented ones of the ports [i], ..., [i + n - 1]. *)
Definition implemented (hdr i : Z) (n : nat) : list Z :=
  base.filter (λ p, has_bits FME_PORT_OFST_IMP (readq (hdr + FME_HDR_PORT_OFST p)) = true) (seqZ i (Z.of_nat n)).
(** The sub devices of one port. *)
Record port_sub := PortSub { ps_port : Z; ps_br : Z; ps_region : Z }.
(** Its bridge was added with the port to control, its region with the manager and
    this bridge. *)
Definition port_added (mgr : Z) (p : port_sub) : list (Z * option pdev) :=
  [(ps_br p, sub_pdev DFL_FPGA_FME_BRIDGE PLATFORM_DEVID_AUTO (BrPdata cdev (ps_port p)));
   (ps_region p, sub_pdev DFL_FPGA_FME_REGION (pdev_id (ps_br p)) (RegionPdata mgr (ps_br p)))].
(** Each of the ports [ps] has a bridge and a region, which the lists of the FME have
    in reverse; they were added to the bus in order, after [added]; and all devices
    are theirs or the manager's, besides [X]. *)
Definition sub_devices (X : gmultiset Z) (added : list (Z * option pdev)) (mgr : Z) (ps : list Z) s : Prop :=
  ∃ l, ps_port <$> l = ps ∧
    fme_bridge_list (pm_fme s) = reverse (ps_br <$> l) ∧
    fme_region_list (pm_fme s) = reverse ((λ p, FmeRegion (ps_region p) (ps_port p)) <$> l) ∧
    pm_added s = added ++ (l ≫= port_added mgr) ∧
    fme_mgr (pm_fme s) = Some mgr ∧ pm_devs s = X ⊎ fme_devs (pm_fme s) ⊎ {[+ mgr +]}.
Definition some_devices (X : gmultiset Z) s : Prop :=
  ∃ mgr, fme_mgr (pm_fme s) = Some mgr ∧ pm_devs s = X ⊎ fme_devs (pm_fme s) ⊎ {[+ mgr +]}.

Lemma implemented_S hdr i n :
  implemented hdr i (S n) = (if has_bits FME_PORT_OFST_IMP (readq (hdr + FME_HDR_PORT_OFST i)) then [i] else [])
    ++ implemented hdr (i + 1) n.
Proof.
  unfold implemented. rewrite seqZ_cons by lia. rewrite filter_cons.
  replace (Z.pred (Z.of_nat (S n))) with (Z.of_nat n) by lia. change (Z.succ i) with (i + 1).
  destruct (has_bits _ _); [by rewrite decide_True|by rewrite decide_False].
Qed.
Lemma init_ports_spec X added mgr hdr n : ∀ i ps s,
  sub_devices X added mgr ps s →
  wp (init_ports mgr hdr i n) (λ _ s', sub_devices X added mgr (ps ++ implemented hdr i n) s') (λ _ s', some_devices X s') s.
Proof.
  induction n as [|n IH]; intros i ps s Hs; cbn [init_ports].
  { wsteps. unfold implemented. cbn. by rewrite app_nil_r. }
  pose proof Hs as (l & Hl & Hb & Hr & Ha & Hm & Hd).
  rewrite implemented_S. destruct (has_bits _ _); cbn [negb]; wsteps; [|by apply IH].
  unfold dfl_fme_create_bridge. wsteps. apply pm_kop_spec. intros ok k.
  destruct ok; cbn [negb]; wsteps; [|by exists mgr].
  eapply wp_mono; [apply create_pdev_spec| |]; cbn; [|by intros e s1 [Hf1 Hd1]; exists mgr; rewrite Hf1, Hd1].
  intros br s1 (Hf1 & Hd1 & Ha1). unfold upd_fme, dfl_fme_create_region. wsteps.
  apply pm_kop_spec. intros ok k'. cbn.
  assert (pm_devs s1 = X ⊎ fme_devs (set_fme_bridge_list (br :: fme_bridge_list (pm_fme s1)) (pm_fme s1)) ⊎ {[+ mgr +]}) as Hd1'.
  { rewrite fme_devs_bridge, Hd1, Hd, Hf1. multiset_solver. }
  destruct ok; cbn [negb]; wsteps; [|exists mgr; cbn; by rewrite Hf1 in *].
  eapply wp_mono; [apply create_pdev_spec| |]; cbn;
    [|by intros e s2 [Hf2 Hd2]; exists mgr; rewrite Hf2, Hd2; cbn; rewrite Hf1 in *].
  intros rg s2 (Hf2 & Hd2 & Ha2). wsteps. rewrite cons_middle, app_assoc. apply IH.
  pose proof (fme_devs_region (FmeRegion rg i) (pm_fme s2)) as Hrg.
  exists (l ++ [PortSub i br rg]). cbn [pm_fme pm_devs pm_added]. rewrite Hrg, Hf2, !fmap_app, bind_app, !reverse_app. cbn.
  rewrite Hf1 in *. split_and!.
  - by rewrite Hl.
  - by rewrite Hb.
  - by rewrite Hr.
  - rewrite Ha2, Ha1, Ha, <- !app_assoc. done.
  - done.
  - rewrite Hd2, Hd1'. cbn. multiset_solver.
Qed.

(** C23: the initialisation of the partial reconfiguration feature, of an FME whose header
    is mapped, is all or nothing.
    When it succeeds it has created one manager, which is given the registers of the
    feature, and for exactly the ports that the FME says are implemented, one after
    the other, a bridge and a region: the bridge is the one that controls this port
    of the container device, the region is linked to this bridge and to the manager
    and is the one found under the number of the port.  These are all the platform
    devices that were added and that are left; when it fails, every platform device
    it created is gone.  After a success the feature's [uinit] destroys them all
    again. *)
Theorem pr_mgmt_init_all_or_nothing ioaddr hdr s :
  fme_hdr = Some hdr →
  let ports := implemented hdr 0 (Z.to_nat (FIELD_GET FME_CAP_NUM_PORTS (readq (hdr + FME_HDR_CAP)))) in
  wp (pr_mgmt_init ioaddr)
    (λ _ s1, (∃ mgr io, ioaddr = Some io ∧
         let added := pm_added s ++ [(mgr, sub_pdev DFL_FPGA_FME_MGR fme_id (MgrPdata io))] in
         sub_devices (pm_devs s) added mgr ports s1) ∧
       wp pr_mgmt_uinit
         (λ _ s2, pm_devs s2 = pm_devs s ∧ fme_region_list (pm_fme s2) = [] ∧ fme_bridge_list (pm_fme s2) = [])
         (λ _ _, False) s1)
    (λ _ s1, pm_devs s1 = pm_devs s) s.
Proof.
  intros Hhdr ports. unfold pr_mgmt_init, upd_fme. wsteps. set (s0 := PmSt _ _ _ _ _).
  assert (∀ Q E, wp (dfl_fme_create_mgr ioaddr) Q (λ _, E (- ENODEV)) s0 →
    wp (λ s, match dfl_fme_create_mgr ioaddr s with Done (Err _, s') => Done (Err (- ENODEV), s') | r => r end) Q E s0) as Hmap.
  { intros Q E. unfold wpg. by destruct (dfl_fme_create_mgr ioaddr s0) as [[[?|?] ?]| |]. }
  apply Hmap. unfold dfl_fme_create_mgr. destruct ioaddr as [io|]; wsteps; [|done].
  eapply wp_mono; [apply create_pdev_spec| |]; [|by intros e s1 [_ Hd]; rewrite Hd].
  intros mgr s1 (Hf1 & Hd1 & Ha1). wsteps. rewrite Hhdr. cbn [access]. wsteps.
  eapply wp_mono; [apply (init_ports_spec (pm_devs s) (pm_added s1) mgr hdr _ 0 [])| |].
  - exists []. cbn. rewrite Hf1, app_nil_r. cbn. split_and!; [done..|]. rewrite Hd1. cbn.
    unfold fme_devs. cbn. multiset_solver.
  - intros ? s2 Hs. split; [exists mgr, io; rewrite Ha1 in Hs; by split|]. destruct Hs as (? & _ & _ & _ & _ & Hm & Hd).
    by apply (destroy_all_spec _ mgr).
  - intros e s2 (m & Hm & Hd). eapply wp_mono; [by apply (destroy_all_spec _ m)| |done]. by intros _ s3 [-> _].
Qed.
End Mgmt.
