(* ===== verification/FmeExamples.v ===== *)
(** * A concrete management engine (FmeMgr, FpgaRegion, FmePr, FmePrMgmt)

    An engine that acknowledges every reset, grants three words at a time and never
    reports an error; one bridge and one region; a user who asks for an image of six
    bytes in port 0. *)
From stdpp Require Import gmap gmultiset strings.
From S2P Require Import Prelude Bytes DflRegs DflTypes DflEnumExamples FpgaMgr FpgaMgrFacts FpgaMgrExamples FmeMgr FmeMgrFacts FpgaRegion FpgaRegionFacts FmePr FmePrMgmt.

#[local] Existing Instance FpgaMgrExamples.demo_kernel.
#[local] Instance demo_engine : PrEngine := {
  pe := unit;
  pe_read off _ := (if off =? FME_PR_CTRL then mask FME_PR_CTRL_PR_RSTACK else if off =? FME_PR_STS then 3 else 0, tt);
  pe_write _ _ _ := tt;
}.
#[local] Instance demo_bridges : BridgeHw := {
  bw := unit;
  enable_set _ := Some (λ _ _, (0, tt));
  owner dev := dev;
  module_alive _ := true;
}.
#[local] Instance demo_user : PrUser := {
  pu := unit;
  copy_port_pr a := if a =? 7 then Some (PortPr 24 0 0 6 0x5000) else None;
  copy_buffer a n := if (a =? 0x5000) && (0 <=? n) then Some (replicate (Z.to_nat n) 0xA5) else None;
  pu_vmalloc _ u := (Some 0x9000, u);
  pu_info_alloc u := (Some 0x9100, u);
}.

Definition wait_fuel : nat := Z.to_nat 8000001.
Lemma wait_fuel_enough : PR_WAIT_TIMEOUT + 1 ≤ Z.of_nat wait_fuel.
Proof. unfold wait_fuel. rewrite Z2Nat.id; [done|lia]. Defined.

Definition demo_image : fpga_image_info := ImageInfo _ None None (Some (0x9000, [1; 2; 3; 4; 5; 6])) 0 0 1 0.
Definition demo_mgr : gst (D := fme_mgr_priv) :=
  GSt tt FPGA_MGR_STATE_UNKNOWN demo_image (FmePriv tt 0 0 []) [].
Definition demo_rst : rst (D := fme_mgr_priv) :=
  RSt [Bridge 40 None false None] [Region 50 false [] 0] ∅ ∅ 30 false demo_mgr tt [].
Abbreviation demo_ops := (fme_mgr_ops 0 wait_fuel).

Lemma fme_load_pushes_image_witness :
  ∃ g', fpga_mgr_load demo_ops 0 demo_mgr = Done (Val tt, g') ∧ g_state g' = FPGA_MGR_STATE_OPERATING ∧
    ∃ l pad, after (g_drv demo_mgr) l (g_drv g') ∧ is_Some (flow 0 l) ∧ (pad < 4)%nat ∧
      data_written l ≫= le_split 4 = [1; 2; 3; 4; 5; 6] ++ replicate pad 0.
Proof.
  refine (match wp_val (fpga_mgr_load demo_ops 0) _ _ demo_mgr tt
    (fme_load_pushes_image 0 wait_fuel wait_fuel_enough 0 0x9000 [1; 2; 3; 4; 5; 6] demo_mgr _ _ _ _ _) _ with
    | ex_intro _ g' (conj He (conj H1 (conj _ (ex_intro _ l (ex_intro _ pad (conj Ha (conj Hf (conj Hp (conj Hd _)))))))))
      => ex_intro _ g' (conj He (conj H1 (ex_intro _ l (ex_intro _ pad (conj Ha (conj Hf (conj Hp Hd)))))))
    end); [reflexivity..|done|reflexivity| |lazy; reflexivity].
  repeat constructor; done.
Defined.

(** The region is programmed: its bridge 40 is taken, disabled before and enabled
    after the load. *)
Lemma demo_load_ok : wp (fpga_mgr_load demo_ops 0) (λ _ _, True) (λ e _, e ≠ 0) demo_mgr.
Proof. lazy. done. Qed.
Lemma program_fpga_balanced_witness :
  ∃ s', fpga_region_program_fpga demo_ops (Some (fpga_bridge_get_to_list 40 0 0)) 0 0 demo_rst = Done (Val tt, s') ∧
    acquired 0 (holds demo_rst) (holds s') ∧
    let l := bridge_list_of 0 (holds s') in
    r_trace s' = switched l false ++ EvLoad true :: switched l true.
Proof.
  refine (match wp_val (fpga_region_program_fpga demo_ops (Some (fpga_bridge_get_to_list 40 0 0)) 0 0) _ _ demo_rst tt
    (program_fpga_balanced demo_ops (λ _, True) (Some (fpga_bridge_get_to_list 40 0 0)) 0 0 demo_rst
       (Region 50 false [] 0) eq_refl (conj _ eq_refl) demo_load_ok) _ with
    | ex_intro _ s' (conj He (conj Ha (conj _ (conj _ Ht)))) => ex_intro _ s' (conj He (conj Ha Ht))
    end). lazy. reflexivity.
Defined.

#[local] Instance demo_user_ok : PrUserOk.
Proof.
  split; cbn; intros a.
  - intros pp. destruct (a =? 7); [|done]. by intros [= <-].
  - intros n l. destruct (_ && _) eqn:E; [|done]. intros [= <-]. apply andb_true_iff in E as [_ E%Z.leb_le].
    split; [rewrite length_replicate; lia|]. by apply Forall_replicate.
Qed.

(** The FME has two ports; port 0 has the region of device 50. *)
Definition demo_pr : fst_ := FPr demo_rst (Some (Fme (Some 30) [FmeRegion 50 0] [40])) tt ∅ ∅.
Definition demo_cap (_ : Z) : Z := FIELD_PREP FME_CAP_NUM_PORTS 2.
Abbreviation demo_fme_pr := (fme_pr 0 wait_fuel 0 (λ _, 40) (Some 0) demo_cap 7).
Lemma demo_no_bridges r g : r_regions (f_r demo_pr) !! r = Some g → rg_bridge_list g = [].
Proof. destruct r as [|r]; [by intros [= <-]|done]. Qed.
Lemma fme_pr_exact_witness :
  ∃ s', demo_fme_pr demo_pr = Done (Val tt, s') ∧ f_bufs s' = ∅ ∧
    ∃ r, image_loaded 0 (replicate 6 0xA5) demo_pr s' ∧ info_replaced r demo_pr s'.
Proof.
  destruct (wp_val demo_fme_pr _ _ demo_pr tt
    (fme_pr_exact 0 wait_fuel 0 (λ _, 40) (Some 0) demo_cap wait_fuel_enough 7 demo_pr demo_no_bridges
       (ex_intro _ 0 eq_refl)) ltac:(vm_compute; reflexivity))
    as (s' & He & Hb & pp & fme & r & bytes & Hpp & _ & _ & Hc & Hl & Hi).
  exists s'. split; [exact He|]. split; [exact Hb|]. exists r. split; [|exact Hi].
  injection Hpp as <-. injection Hc as <-. exact Hl.
Defined.

(** The FME of the two ports says that port 1 is implemented. *)
Definition demo_ports (a : Z) : Z :=
  if a =? FME_HDR_CAP then demo_cap 0 else if a =? FME_HDR_PORT_OFST 1 then 2 ^ 60 else 0.
#[local] Existing Instance DflEnumExamples.demo_kernel.
Definition demo_pm : pmst := PmSt 100 (Fme None [] []) ∅ ∅ [].
Lemma pr_mgmt_init_all_or_nothing_witness :
  ∃ s', pr_mgmt_init 1 2 3 id (Some 0) demo_ports (Some 0x4000) demo_pm = Done (Val tt, s') ∧
    ∃ mgr, sub_devices 1 3 id ∅ [(mgr, sub_pdev 1 DFL_FPGA_FME_MGR 2 (MgrPdata 0x4000))] mgr
      (implemented demo_ports 0 0 (Z.to_nat (FIELD_GET FME_CAP_NUM_PORTS (demo_ports (0 + FME_HDR_CAP))))) s'.
Proof.
  pose proof (pr_mgmt_init_all_or_nothing 1 2 3 id (Some 0) demo_ports (Some 0x4000) 0 demo_pm eq_refl) as Hall.
  cbv zeta in Hall. destruct (wp_val _ _ _ _ tt Hall ltac:(vm_compute; reflexivity)) as (s' & He & (mgr & io & [= <-] & Hd) & _).
  exists s'. split; [exact He|]. exists mgr. exact Hd.
Defined.
(** The devices this adds, and what their drivers are probed with. *)
Example demo_added : match pr_mgmt_init 1 2 3 id (Some 0) demo_ports (Some 0x4000) demo_pm with
  | Done (_, s') => pm_added s' =
      [(100, sub_pdev 1 DFL_FPGA_FME_MGR 2 (MgrPdata 0x4000));
       (101, sub_pdev 1 DFL_FPGA_FME_BRIDGE PLATFORM_DEVID_AUTO (BrPdata 3 1));
       (102, sub_pdev 1 DFL_FPGA_FME_REGION 101 (RegionPdata 100 101))]
  | _ => False
  end.
Proof. by vm_compute. Qed.
Example demo_implemented : implemented demo_ports 0 0 2 = [1].
Proof. by vm_compute. Qed.

(** ** A bridge in use

    Trying to take a bridge that is held fails, but the image information of the
    holder is replaced by the one of the caller first. *)
Lemma failed_get_replaces_info i b info (s : rst (D := fme_mgr_priv)) :
  r_bridges s !! i = Some b → br_locked b = true →
  wp (__fpga_bridge_get i info) (λ _ _, False)
    (λ e s', e = - EBUSY ∧ r_bridges s' !! i = Some (set_br_info (Some info) b)) s.
Proof.
  intros Hb Hl. unfold __fpga_bridge_get, upd_bridge, the_bridge. wsteps. cbn.
  rewrite list_lookup_alter_eq, Hb. cbn. wsteps. rewrite Hl. unfold put_device. wsteps. cbn.
  split; [done|]. by rewrite list_lookup_alter_eq, Hb.
Qed.
