(* ===== verification/DflBus.v ===== *)
(** * The DFL bus and the sub features of a feature device (drivers/fpga/dfl.c)

    When the driver of a feature device is probed, each sub feature is either
    initialised by a feature driver of that module or published as a device on
    the DFL bus, where DFL drivers bind to it by their id tables. Loading the
    module is [DflModule]. *)
From stdpp Require Import gmap strings.
From S2P Require Import Prelude DflRegs DflTypes DflEnum.

(** The kernel services, and the drivers: memory, the [ida] of device numbers, the
    name of a device, claiming a resource in its parent, adding a device, mapping
    a resource; [init] and [uinit] of the ops with a given handle, for the feature
    at a given index. *)
Class BusKernel := {
  bk : Type;
  bk_alloc : bk → bool * bk;
  bk_ida_alloc : gset Z → bk → Z * bk;
  bk_set_name : Z → bk → Z * bk;
  bk_insert_resource : resource → resource → bk → Z * bk;
  bk_device_add : Z → bk → Z * bk;
  bk_ioremap : resource → bk → (Z + Z) * bk;
  ops_init : Z → option (nat → bk → Z * bk);
  ops_uinit : Z → option (nat → bk → bk);
}.
(** What is documented of the [ida]: a number that is not in use, or an error. *)
Class BusKernelOk `{BusKernel} :=
  ida_alloc_fresh : ∀ ids k, let r := (bk_ida_alloc ids k).1 in r < 0 ∨ (0 <= r ∧ r ∉ ids).

(** ** Matching *)

(* include/linux/mod_devicetable.h:33-38 dfl_device_id *)
Record dfl_device_id := DeviceId {
  di_type : Z;
  di_feature_id : Z;
  di_guid : guid_t;
}.

(* drivers/fpga/dfl.c:246-254 dfl_match_one_device *)
Definition dfl_match_one_device (id : dfl_device_id) (ddev : dfl_device) : bool :=
  (dfl_guid_is_valid (dd_guid ddev) && guid_equal (di_guid id) (dd_guid ddev)) ||
  ((di_type id =? dd_type ddev) && (di_feature_id id =? dd_feature_id ddev)).

(** The condition of the loop over a table: the entry does not end it. *)
Definition id_entry_valid (id : dfl_device_id) : bool :=
  negb (di_feature_id id =? 0) || dfl_guid_is_valid (di_guid id).

(** The loop, from entry [i] of the table; running off the table faults.  The
    result is the entry that matches, which becomes [ddev->id_entry]. *)
(* drivers/fpga/dfl.c:268-274 dfl_bus_match *)
Fixpoint bus_match_loop {T} (table : list dfl_device_id) (ddev : dfl_device) (i : nat)
    : M T (option nat) :=
  match table with
  | [] => fault
  | id_entry :: table =>
      if negb (id_entry_valid id_entry) then mret None
      else if dfl_match_one_device id_entry ddev then mret (Some i)
      else bus_match_loop table ddev (S i)
  end.

(* drivers/fpga/dfl.c:257-278 dfl_bus_match *)
Definition dfl_bus_match {T} (id_table : option (list dfl_device_id)) (ddev : dfl_device)
    : M T (option nat) :=
  match id_table with
  | Some table => bus_match_loop table ddev 0
  | None => mret None
  end.

(* drivers/fpga/dfl.h:243-246 dfl_feature_id *)
Record dfl_feature_id := FeatureId { id_id : Z; id_guid : guid_t }.

(** [ops] is the handle of the ops, [None] where it is NULL. *)
(* drivers/fpga/dfl.h:254-257 dfl_feature_driver *)
Record dfl_feature_driver := FeatureDriver {
  fdr_id_table : option (list dfl_feature_id);
  fdr_ops : option Z;
}.

Definition feature_id_matches (feature : dfl_feature) (ids : dfl_feature_id) : bool :=
  (dfl_guid_is_valid (f_guid feature) && guid_equal (id_guid ids) (f_guid feature)) ||
  (id_id ids =? f_id feature).

(* drivers/fpga/dfl.c:607-613 dfl_feature_drv_match *)
Fixpoint drv_match_loop {T} (feature : dfl_feature) (ids : list dfl_feature_id) : M T bool :=
  match ids with
  | [] => fault
  | i :: ids =>
      if (id_id i =? 0) && negb (dfl_guid_is_valid (id_guid i)) then mret false
      else if feature_id_matches feature i then mret true
      else drv_match_loop feature ids
  end.

(* drivers/fpga/dfl.c:601-616 dfl_feature_drv_match *)
Definition dfl_feature_drv_match {T} (feature : dfl_feature) (driver : dfl_feature_driver) : M T bool :=
  match fdr_id_table driver with
  | Some ids => drv_match_loop feature ids
  | None => mret false
  end.

(** ** Devices on the bus *)
Section Bus.
Context `{BusKernel}.

(** One feature device: its features and resources; [b_ids] are the numbers of
    [dfl_device_ida] in use, [b_devs] the numbers of the devices that are added,
    [b_claimed] those whose resource is inserted in the tree, [b_calls] the calls
    of [init] and [uinit], by ops and feature, that returned without an error. *)
Record bst := BSt {
  b_k : bk;
  b_fd : dfl_feature_dev_data;
  b_ids : gset Z;
  b_devs : gset Z;
  b_claimed : gset Z;
  b_calls : list (bool * Z * nat);
}.
Definition bk_op {A} (f : bk → A * bk) : M bst A := λ s,
  let (a, k) := f (b_k s) in
  Done (Val a, BSt k (b_fd s) (b_ids s) (b_devs s) (b_claimed s) (b_calls s)).
Definition set_ids (f : gset Z → gset Z) : M bst unit := modify (λ s,
  BSt (b_k s) (b_fd s) (f (b_ids s)) (b_devs s) (b_claimed s) (b_calls s)).
Definition set_devs (f : gset Z → gset Z) : M bst unit := modify (λ s,
  BSt (b_k s) (b_fd s) (b_ids s) (f (b_devs s)) (b_claimed s) (b_calls s)).
Definition set_claimed (f : gset Z → gset Z) : M bst unit := modify (λ s,
  BSt (b_k s) (b_fd s) (b_ids s) (b_devs s) (f (b_claimed s)) (b_calls s)).
Definition log_call (c : bool * Z * nat) : M bst unit := modify (λ s,
  BSt (b_k s) (b_fd s) (b_ids s) (b_devs s) (b_claimed s) (b_calls s ++ [c])).
Definition upd_feature (i : nat) (f : dfl_feature → dfl_feature) : M bst unit := modify (λ s,
  BSt (b_k s) (set_fd_features (alter f i (fd_features (b_fd s))) (b_fd s))
    (b_ids s) (b_devs s) (b_claimed s) (b_calls s)).
Definition alloc : M bst unit := ok ← bk_op bk_alloc; if (ok : bool) then mret tt else throw (- ENOMEM).

(** [pdev->resource[i]]: the resources that were added to the platform device. *)
Definition pdev_resource (fd : dfl_feature_dev_data) (i : Z) : option resource :=
  if (0 <=? i) && (i <? fd_resource_num fd) then fd_resources fd !! Z.to_nat i else None.

(** The resource has a parent where it was inserted. *)
(* drivers/fpga/dfl.c:375-387 release_dfl_dev *)
Definition release_dfl_dev (id : Z) : M bst unit :=
  s ← get;
  (if bool_decide (id ∈ b_claimed s) then set_claimed (λ c, c ∖ {[id]}) else mret tt) ;;
  set_ids (λ ids, ids ∖ {[id]}).

(** [device_unregister], for a device that only this code references. *)
Definition device_unregister (id : Z) : M bst unit :=
  set_devs (λ d, d ∖ {[id]}) ;;
  release_dfl_dev id.

(* drivers/fpga/dfl.c:389-475 dfl_dev_add *)
Definition dfl_dev_add (feature : dfl_feature) : M bst dfl_device :=
  alloc ;;
  s ← get;
  let fdata := b_fd s in
  id ← bk_op (bk_ida_alloc (b_ids s));
  if id <? 0 then throw id else
  set_ids (λ ids, {[id]} ∪ ids) ;;
  on_error (
    ret ← bk_op (bk_set_name id);
    rc ret ;;
    (if negb (f_param_size feature =? 0) then alloc else mret tt) ;;
    let params := if negb (f_param_size feature =? 0) then f_params feature else [] in
    let guid := if f_dfh_version feature =? 1 then f_guid feature else guid_null in
    parent_res ← access (pdev_resource fdata (f_resource_index feature));
    let mmio_res := Res (r_start parent_res) (r_end parent_res) in
    ret ← bk_op (bk_insert_resource parent_res mmio_res);
    rc ret ;;
    set_claimed (λ c, {[id]} ∪ c) ;;
    (if negb (f_nr_irqs feature =? 0) then alloc else mret tt) ;;
    irqs ← access (mapM (λ i, ic_irq <$> f_irq_ctx feature !! i) (seq 0 (Z.to_nat (f_nr_irqs feature))));
    ret ← bk_op (bk_device_add id);
    rc ret ;;
    set_devs (λ d, {[id]} ∪ d) ;;
    mret (DflDevice id (fd_type fdata) (f_id feature) (f_revision feature) mmio_res irqs
      (f_nr_irqs feature) (f_dfh_version feature) (f_param_size feature) params guid))
    (release_dfl_dev id).

(** The features from [i] on, [n] of them. *)
(* drivers/fpga/dfl.c:481-486 dfl_devs_remove *)
Fixpoint devs_remove_loop (i n : nat) : M bst unit :=
  match n with
  | O => mret tt
  | S n =>
      s ← get;
      feature ← access (fd_features (b_fd s) !! i);
      (match f_ddev feature with
       | Some ddev => device_unregister (dd_id ddev) ;; upd_feature i (set_f_ddev None)
       | None => mret tt
       end) ;;
      devs_remove_loop (S i) n
  end.
(* drivers/fpga/dfl.c:477-487 dfl_devs_remove *)
Definition dfl_devs_remove : M bst unit :=
  s ← get;
  devs_remove_loop 0 (Z.to_nat (fd_num (b_fd s))).

(* drivers/fpga/dfl.c:495-511 dfl_devs_add *)
Fixpoint devs_add_loop (i n : nat) : M bst unit :=
  match n with
  | O => mret tt
  | S n =>
      s ← get;
      feature ← access (fd_features (b_fd s) !! i);
      (if bool_decide (is_Some (f_ioaddr feature)) then mret tt
       else if bool_decide (is_Some (f_ddev feature)) then throw (- EEXIST)
       else
         ddev ← dfl_dev_add feature;
         upd_feature i (set_f_ddev (Some ddev))) ;;
      devs_add_loop (S i) n
  end.
(* drivers/fpga/dfl.c:489-518 dfl_devs_add *)
Definition dfl_devs_add : M bst unit :=
  s ← get;
  on_error (devs_add_loop 0 (Z.to_nat (fd_num (b_fd s)))) dfl_devs_remove.

(** ** Sub features *)

(* drivers/fpga/dfl.c:560-566 dfl_fpga_dev_feature_uinit *)
Fixpoint feature_uinit_loop (i n : nat) : M bst unit :=
  match n with
  | O => mret tt
  | S n =>
      s ← get;
      feature ← access (fd_features (b_fd s) !! i);
      (match f_ops feature with
       | Some ops =>
           (match ops_uinit ops with
            | Some uinit => bk_op (λ k, (tt, uinit i k))
            | None => mret tt
            end) ;;
           log_call (false, ops, i) ;;
           upd_feature i (set_f_ops None)
       | None => mret tt
       end) ;;
      feature_uinit_loop (S i) n
  end.
(* drivers/fpga/dfl.c:553-567 dfl_fpga_dev_feature_uinit *)
Definition dfl_fpga_dev_feature_uinit : M bst unit :=
  dfl_devs_remove ;;
  s ← get;
  feature_uinit_loop 0 (Z.to_nat (fd_num (b_fd s))).

(** [devm_platform_ioremap_resource] refuses an index without a resource. *)
(* drivers/fpga/dfl.c:570-599 dfl_feature_instance_init *)
Definition dfl_feature_instance_init (i : nat) (feature : dfl_feature) (ops : Z) : M bst unit :=
  s ← get;
  (if negb (is_header_feature (f_id feature)) then
     match pdev_resource (b_fd s) (f_resource_index feature) with
     | None => throw (- EINVAL)
     | Some res =>
         base ← bk_op (bk_ioremap res);
         match (base : Z + Z) with
         | inr e => throw e
         | inl base => upd_feature i (set_f_ioaddr (Some base))
         end
     end
   else mret tt) ;;
  ret ← (match ops_init ops with
         | Some init => bk_op (init i)
         | None => mret 0
         end);
  rc ret ;;
  log_call (true, ops, i) ;;
  upd_feature i (set_f_ops (Some ops)).

(** The features from [i] on for one driver. *)
(* drivers/fpga/dfl.c:637-643 dfl_fpga_dev_feature_init *)
Fixpoint driver_init_loop (drv : dfl_feature_driver) (ops : Z) (i n : nat) : M bst unit :=
  match n with
  | O => mret tt
  | S n =>
      s ← get;
      feature ← access (fd_features (b_fd s) !! i);
      matches ← dfl_feature_drv_match feature drv;
      (if (matches : bool) then dfl_feature_instance_init i feature ops else mret tt) ;;
      driver_init_loop drv ops (S i) n
  end.

(** The drivers, up to the one without ops. *)
(* drivers/fpga/dfl.c:636-645 dfl_fpga_dev_feature_init *)
Fixpoint drivers_init_loop (drvs : list dfl_feature_driver) : M bst unit :=
  match drvs with
  | [] => fault
  | drv :: drvs =>
      match fdr_ops drv with
      | None => mret tt
      | Some ops =>
          s ← get;
          driver_init_loop drv ops 0 (Z.to_nat (fd_num (b_fd s))) ;;
          drivers_init_loop drvs
      end
  end.

(* drivers/fpga/dfl.c:628-655 dfl_fpga_dev_feature_init *)
Definition dfl_fpga_dev_feature_init (feature_drvs : list dfl_feature_driver) : M bst unit :=
  on_error (drivers_init_loop feature_drvs ;; dfl_devs_add) dfl_fpga_dev_feature_uinit.
End Bus.
