(* ===== verification/DflBusFacts.v ===== *)
(** * Facts about the DFL bus devices (DflBus)

    Publishing the features of a device on the bus is all or nothing: it gives each
    feature without a driver a device that carries what the feature says, or leaves
    no device, number or resource behind. *)
From stdpp Require Import gmap strings.
From S2P Require Import Prelude DflRegs DflTypes DflEnum DflBus.

Section BusFacts.
Context `{BusKernel} `{!BusKernelOk}.
Implicit Types (s : bst) (f : dfl_feature) (l : list dfl_feature) (fd : dfl_feature_dev_data).

(** ** The devices of a list of features *)
Definition own_ids l : list Z := omap (λ f, dd_id <$> f_ddev f) l.

(** A feature whose registers nobody has mapped has a resource, and its interrupt
    contexts are all there. *)
Definition bus_feature_ok fd f : Prop :=
  (f_ioaddr f = None → is_Some (pdev_resource fd (f_resource_index f))) ∧
  Z.of_nat (length (f_irq_ctx f)) = f_nr_irqs f.

(** [d] is the bus device of feature [f] of [fd]. *)
Definition device_of fd f (d : dfl_device) : Prop :=
  pdev_resource fd (f_resource_index f) = Some (dd_mmio_res d) ∧
  dd_type d = fd_type fd ∧ dd_feature_id d = f_id f ∧ dd_revision d = f_revision f ∧
  dd_irqs d = ic_irq <$> f_irq_ctx f ∧ dd_num_irqs d = f_nr_irqs f ∧
  dd_dfh_version d = f_dfh_version f ∧ dd_param_size d = f_param_size f ∧
  (f_param_size f ≠ 0 → dd_params d = f_params f) ∧
  dd_guid d = (if f_dfh_version f =? 1 then f_guid f else guid_null).

(** What publishing does to a feature. *)
Definition published fd f f' : Prop :=
  (is_Some (f_ioaddr f) ∧ f' = f) ∨
  (f_ioaddr f = None ∧ ∃ d, device_of fd f d ∧ f' = set_f_ddev (Some d) f).

(** [s] is [s0] with the features [l], whose devices have been added since. *)
Definition with_devices (s0 : bst) l s : Prop :=
  ∃ k, s = BSt k (set_fd_features l (b_fd s0)) (list_to_set (own_ids l) ∪ b_ids s0)
             (list_to_set (own_ids l) ∪ b_devs s0) (list_to_set (own_ids l) ∪ b_claimed s0) (b_calls s0) ∧
  NoDup (own_ids l) ∧ (∀ id, id ∈ own_ids l → id ∉ b_ids s0).

(** The numbers in use cover the devices and claimed resources there are. *)
Definition ids_cover s : Prop := b_devs s ⊆ b_ids s ∧ b_claimed s ⊆ b_ids s.

Lemma own_ids_app l l' : own_ids (l ++ l') = own_ids l ++ own_ids l'.
Proof. apply omap_app. Qed.
Lemma own_ids_none l : Forall (λ f, f_ddev f = None) l → own_ids l = [].
Proof. induction 1 as [|f l Hf _ IH]; [done|]. unfold own_ids. cbn. by rewrite Hf. Qed.

Lemma wp_bk {A} F N (f : bk → A * bk) (Q : A → bst → Prop) E s :
  (∀ a k, f (b_k s) = (a, k) → Q a (BSt k (b_fd s) (b_ids s) (b_devs s) (b_claimed s) (b_calls s))) →
  wpg F N (bk_op f) Q E s.
Proof. unfold wpg, bk_op. destruct (f (b_k s)) as [a k]. auto. Qed.
Lemma wp_alloc F N (Q : unit → bst → Prop) E s :
  (∀ k, Q tt (BSt k (b_fd s) (b_ids s) (b_devs s) (b_claimed s) (b_calls s)) ∧
        E (- ENOMEM) (BSt k (b_fd s) (b_ids s) (b_devs s) (b_claimed s) (b_calls s))) →
  wpg F N alloc Q E s.
Proof. intros HQ. unfold alloc. wsteps. apply wp_bk. intros [] k _; wsteps; apply HQ. Qed.
Lemma wp_alloc_if F N (b : bool) (Q : unit → bst → Prop) E s :
  (∀ k, Q tt (BSt k (b_fd s) (b_ids s) (b_devs s) (b_claimed s) (b_calls s)) ∧
        E (- ENOMEM) (BSt k (b_fd s) (b_ids s) (b_devs s) (b_claimed s) (b_calls s))) →
  wpg F N (if b then alloc else mret tt) Q E s.
Proof. intros HQ. destruct b; [by apply wp_alloc|]. wsteps. destruct s. apply HQ. Qed.

Lemma mapM_lookup {A B} (g : A → B) (l : list A) n :
  n = length l → mapM (λ i, g <$> l !! i) (seq 0 n) = Some (g <$> l).
Proof.
  intros ->. apply mapM_Some, Forall2_same_length_lookup_2; [by rewrite List.length_seq, length_fmap|].
  intros i j y [-> Hi]%lookup_seq Hy. cbn. by rewrite list_lookup_fmap in Hy.
Qed.

(** What is left of a device that is given up. *)
Definition only_k (k : bk) s : bst := BSt k (b_fd s) (b_ids s) (b_devs s) (b_claimed s) (b_calls s).

Lemma dfl_release_spec F N id (Q : unit → bst → Prop) E s s1 :
  b_fd s = b_fd s1 → b_devs s = b_devs s1 → b_calls s = b_calls s1 →
  id ∉ b_ids s1 → id ∉ b_claimed s1 → b_ids s = {[id]} ∪ b_ids s1 →
  b_claimed s = b_claimed s1 ∨ b_claimed s = {[id]} ∪ b_claimed s1 →
  (∀ u, Q u (only_k (b_k s) s1)) →
  wpg F N (release_dfl_dev id) Q E s.
Proof.
  destruct s as [k fd ids devs claimed calls], s1 as [k1 fd1 ids1 devs1 claimed1 calls1].
  cbn. intros -> -> -> Hi Hc -> Hcl HQ. unfold release_dfl_dev, set_claimed, set_ids. wsteps. cbn.
  assert (({[id]} ∪ ids1) ∖ {[id]} = ids1) as Hids by set_solver.
  destruct Hcl as [-> | ->].
  - rewrite bool_decide_eq_false_2 by done. wsteps. cbn. rewrite Hids. apply HQ.
  - rewrite bool_decide_eq_true_2 by set_solver. wsteps. cbn. rewrite Hids.
    assert (({[id]} ∪ claimed1) ∖ {[id]} = claimed1) as -> by set_solver. apply HQ.
Qed.

(** Adding a device: it is there and carries the data of the feature, or nothing
    has changed. *)
Lemma dev_add_spec f (Q : dfl_device → bst → Prop) (E : Z → bst → Prop) s :
  bus_feature_ok (b_fd s) f → f_ioaddr f = None → ids_cover s →
  (∀ d k, device_of (b_fd s) f d → dd_id d ∉ b_ids s →
     Q d (BSt k (b_fd s) ({[dd_id d]} ∪ b_ids s) ({[dd_id d]} ∪ b_devs s)
            ({[dd_id d]} ∪ b_claimed s) (b_calls s))) →
  (∀ e k, E e (only_k k s)) →
  wp (dfl_dev_add f) Q E s.
Proof.
  intros [Hres Hirqs] Hio [Hdevs Hclaimed] HQ HE. destruct (Hres Hio) as [res Hr].
  unfold dfl_dev_add. wsteps. apply wp_alloc. intros k. split; [|apply HE]. wsteps.
  apply wp_bk. intros id k1 Hid. cbn [b_ids b_k] in Hid.
  pose proof (ida_alloc_fresh (b_ids s) k) as Hf. rewrite Hid in Hf. cbn in Hf.
  destruct (Z.ltb_spec id 0); wsteps; [apply HE|].
  assert (id ∉ b_ids s) as Hni by (destruct Hf as [|[_ ?]]; [lia|done]).
  unfold set_ids. wsteps. cbn [b_k b_fd b_ids b_devs b_claimed b_calls].
  assert (∀ k claimed e, claimed = b_claimed s ∨ claimed = {[id]} ∪ b_claimed s →
    wp (release_dfl_dev id) (λ _, E e) (λ _, E e)
      (BSt k (b_fd s) ({[id]} ∪ b_ids s) (b_devs s) claimed (b_calls s))) as Hrel.
  { intros k' claimed e Hcl. eapply (dfl_release_spec _ _ _ _ _ _ s); try done; set_solver. }
  wsteps. apply wp_bk. intros ret k2 _. cbn [b_k b_fd b_ids b_devs b_claimed b_calls].
  wsteps; intros _; [|apply Hrel; by left]. wsteps.
  apply wp_alloc_if. intros k3. cbn [b_k b_fd b_ids b_devs b_claimed b_calls]. split; [|apply Hrel; by left]. wsteps. rewrite Hr.
  apply wp_access; [|done]. intros ? [= <-]. wsteps.
  apply wp_bk. intros ret' k4 _. cbn [b_k b_fd b_ids b_devs b_claimed b_calls].
  wsteps; intros _; [|apply Hrel; by left].
  unfold set_claimed. wsteps. cbn [b_k b_fd b_ids b_devs b_claimed b_calls].
  apply wp_alloc_if. intros k5. cbn [b_k b_fd b_ids b_devs b_claimed b_calls]. split; [|apply Hrel; by right]. wsteps.
  rewrite (mapM_lookup ic_irq) by lia. apply wp_access; [|done]. intros ? [= <-]. wsteps.
  apply wp_bk. intros ret'' k6 _. cbn [b_k b_fd b_ids b_devs b_claimed b_calls].
  wsteps; intros _; [|apply Hrel; by right].
  unfold set_devs. wsteps. cbn [b_k b_fd b_ids b_devs b_claimed b_calls]. apply (HQ (DflDevice id _ _ _ _ _ _ _ _ _ _)); [|done].
  unfold device_of; cbn. destruct res. split_and!; try done.
  intros Hp%Z.eqb_neq. by rewrite Hp.
Qed.

(** ** Publishing and removing all devices *)

Lemma b_fd_with s0 l s : with_devices s0 l s → b_fd s = set_fd_features l (b_fd s0).
Proof. by intros (k & -> & _). Qed.
Lemma pdev_resource_features l fd i : pdev_resource (set_fd_features l fd) i = pdev_resource fd i.
Proof. done. Qed.
Lemma fd_features_set l fd : fd_features (set_fd_features l fd) = l.
Proof. done. Qed.
Lemma set_fd_features_twice l l' fd : set_fd_features l (set_fd_features l' fd) = set_fd_features l fd.
Proof. done. Qed.

Lemma alter_middle {A} (g : A → A) (k1 : list A) x k2 : alter g (length k1) (k1 ++ x :: k2) = k1 ++ g x :: k2.
Proof. induction k1 as [|y k1 IH]; [done|]. cbn. f_equal. exact IH. Qed.

Lemma own_ids_cons f l : own_ids (f :: l) = (match f_ddev f with Some d => [dd_id d] | None => [] end) ++ own_ids l.
Proof. unfold own_ids. cbn. by destruct (f_ddev f). Qed.

(** Unregistering the device of one feature. *)
Lemma unregister_spec F N s0 l1 f d l2 (Q : unit → bst → Prop) E s :
  ids_cover s0 → with_devices s0 (l1 ++ f :: l2) s → f_ddev f = Some d →
  (∀ u s', with_devices s0 (l1 ++ set_f_ddev None f :: l2) s' → Q u s') →
  wpg F N (device_unregister (dd_id d) ;; upd_feature (length l1) (set_f_ddev None)) Q E s.
Proof.
  intros [Hd0 Hc0] (k & -> & Hnd & Hfresh) Hf HQ.
  assert (own_ids (l1 ++ f :: l2) ≡ₚ dd_id d :: own_ids (l1 ++ set_f_ddev None f :: l2)) as Hperm.
  { rewrite !own_ids_app, !own_ids_cons, Hf. cbn. by rewrite Permutation_middle. }
  set (rest := own_ids (l1 ++ set_f_ddev None f :: l2)) in *.
  assert (dd_id d ∉ rest ∧ NoDup rest) as [Hnr Hndr].
  { rewrite Hperm in Hnd. split; [by eapply NoDup_cons_1_1|by eapply NoDup_cons_1_2]. }
  assert (dd_id d ∉ b_ids s0) as Hn0 by (apply Hfresh; rewrite Hperm; left).
  assert (∀ X : gset Z, dd_id d ∉ X →
    (list_to_set (own_ids (l1 ++ f :: l2)) ∪ X) ∖ {[dd_id d]} = list_to_set rest ∪ X) as Hset.
  { intros X HX. rewrite Hperm. cbn. apply leibniz_equiv. set_solver. }
  unfold device_unregister, set_devs, release_dfl_dev, set_claimed, set_ids, upd_feature. wsteps.
  cbn [b_claimed]. rewrite bool_decide_eq_true_2 by (rewrite Hperm; set_solver). wsteps.
  cbn [b_k b_fd b_ids b_devs b_claimed b_calls].
  rewrite fd_features_set, alter_middle, !Hset, set_fd_features_twice by set_solver.
  apply HQ. exists k. split; [done|]. split; [done|]. intros id Hid. apply Hfresh.
  rewrite Hperm. by right.
Qed.

Lemma devs_remove_loop_spec F N s0 n l1 l2 (Q : unit → bst → Prop) E s :
  length l2 = n → ids_cover s0 → with_devices s0 (l1 ++ l2) s →
  (∀ u s', with_devices s0 (l1 ++ (set_f_ddev None <$> l2)) s' → Q u s') →
  wpg F N (devs_remove_loop (length l1) n) Q E s.
Proof.
  revert l1 l2 s. induction n as [|n IH]; intros l1 [|f l2] s Hn Hc Hs HQ; try done;
    cbn [devs_remove_loop]; wsteps; [by apply HQ|].
  rewrite (b_fd_with _ _ _ Hs), fd_features_set, list_lookup_middle by done.
  apply wp_access; [|done]. intros ? [= <-]. wsteps.
  assert (∀ s', with_devices s0 (l1 ++ set_f_ddev None f :: l2) s' →
    wpg F N (devs_remove_loop (S (length l1)) n) Q E s') as Hrest.
  { intros s' Hs'. replace (S (length l1)) with (length (l1 ++ [set_f_ddev None f]))
      by (rewrite length_app; cbn; lia).
    apply (IH _ l2); [by injection Hn|done|by rewrite <-app_assoc|].
    intros u s''. rewrite <-app_assoc. apply HQ. }
  destruct (f_ddev f) as [d|] eqn:Hf.
  - eapply unregister_spec; [done..|]. intros _. exact Hrest.
  - wsteps. apply Hrest. by replace (set_f_ddev None f) with f by (by destruct f; cbn in Hf; subst).
Qed.

Lemma devs_remove_spec F N s0 l (Q : unit → bst → Prop) E s :
  Z.of_nat (length l) = fd_num (b_fd s0) → ids_cover s0 → with_devices s0 l s →
  (∀ u s', with_devices s0 (set_f_ddev None <$> l) s' → Q u s') →
  wpg F N dfl_devs_remove Q E s.
Proof.
  intros Hl Hc Hs HQ. unfold dfl_devs_remove. wsteps. rewrite (b_fd_with _ _ _ Hs).
  change (fd_num (set_fd_features l (b_fd s0))) with (fd_num (b_fd s0)).
  apply (devs_remove_loop_spec _ _ s0 _ [] l); [lia|done..].
Qed.

Lemma published_erased fd f f' : published fd f f' → set_f_ddev None f' = set_f_ddev None f.
Proof. by intros [[_ ->]|(_ & d & _ & ->)]. Qed.
Lemma published_all_erased fd l l' :
  Forall2 (published fd) l l' → set_f_ddev None <$> l' = set_f_ddev None <$> l.
Proof. induction 1 as [|f f' l l' Hf _ IH]; [done|]. cbn. by rewrite IH, (published_erased _ _ _ Hf). Qed.

(** A device that was just added belongs to the next feature. *)
Lemma with_devices_add s0 l1 f l2 d s k :
  with_devices s0 (l1 ++ f :: l2) s → f_ddev f = None → dd_id d ∉ b_ids s →
  with_devices s0 (l1 ++ set_f_ddev (Some d) f :: l2)
    (BSt k (set_fd_features (l1 ++ set_f_ddev (Some d) f :: l2) (b_fd s0)) ({[dd_id d]} ∪ b_ids s)
       ({[dd_id d]} ∪ b_devs s) ({[dd_id d]} ∪ b_claimed s) (b_calls s)).
Proof.
  intros (k0 & -> & Hnd & Hfresh) Hf Hid. cbn [b_ids b_devs b_claimed b_calls] in *.
  assert (own_ids (l1 ++ set_f_ddev (Some d) f :: l2) ≡ₚ dd_id d :: own_ids (l1 ++ f :: l2)) as Hperm.
  { rewrite !own_ids_app, !own_ids_cons, Hf. cbn. by rewrite Permutation_middle. }
  assert (∀ X : gset Z, {[dd_id d]} ∪ (list_to_set (own_ids (l1 ++ f :: l2)) ∪ X) =
    list_to_set (own_ids (l1 ++ set_f_ddev (Some d) f :: l2)) ∪ X) as Hset.
  { intros X. rewrite Hperm. cbn. by rewrite (assoc_L (∪)). }
  exists k. rewrite !Hset. split; [done|]. rewrite not_elem_of_union, not_elem_of_list_to_set in Hid.
  split.
  - rewrite Hperm. constructor; [apply Hid|done].
  - intros id. rewrite Hperm, elem_of_cons. intros [-> | Hin]; [apply Hid|by apply Hfresh].
Qed.

Lemma with_devices_cover s0 l s : ids_cover s0 → with_devices s0 l s → ids_cover s.
Proof. intros [Hd Hc] (k & -> & _). unfold ids_cover; cbn. set_solver. Qed.
Lemma with_devices_k s0 l s k : with_devices s0 l s → with_devices s0 l (only_k k s).
Proof. intros (k0 & -> & ?). by exists k. Qed.

Lemma devs_add_loop_spec s0 n l1 l2 l1' (Q : unit → bst → Prop) (E : Z → bst → Prop) s :
  length l2 = n → Forall (bus_feature_ok (b_fd s0)) l2 → Forall (λ f, f_ddev f = None) l2 →
  ids_cover s0 → Forall2 (published (b_fd s0)) l1 l1' → with_devices s0 (l1' ++ l2) s →
  (∀ u s' l', Forall2 (published (b_fd s0)) (l1 ++ l2) l' → with_devices s0 l' s' → Q u s') →
  (∀ e s' l', set_f_ddev None <$> l' = set_f_ddev None <$> (l1 ++ l2) → with_devices s0 l' s' → E e s') →
  wp (devs_add_loop (length l1') n) Q E s.
Proof.
  revert l1 l1' l2 s. induction n as [|n IH]; intros l1 l1' [|f l2] s Hn Hok Hnd Hc Hpub Hs HQ HE; try done;
    cbn [devs_add_loop]; wsteps.
  { eapply HQ; [|done]. by apply Forall2_app. }
  rewrite (b_fd_with _ _ _ Hs), fd_features_set, list_lookup_middle by done.
  apply wp_access; [|done]. intros ? [= <-]. wsteps.
  inversion Hok as [|? ? Hokf Hok']; subst. inversion Hnd as [|? ? Hf Hnd']; subst.
  assert (∀ f' s', published (b_fd s0) f f' → with_devices s0 (l1' ++ f' :: l2) s' →
    wp (devs_add_loop (S (length l1')) n) Q E s') as Hrest.
  { intros f' s' Hp Hs'. replace (S (length l1')) with (length (l1' ++ [f']))
      by (rewrite length_app; cbn; lia).
    apply (IH (l1 ++ [f]) _ l2); [by injection Hn|done|done|done| |by rewrite <-app_assoc| |].
    - apply Forall2_app; [done|]. by apply Forall2_cons_2.
    - intros u s'' l'. rewrite <-app_assoc. apply HQ.
    - intros e s'' l'. rewrite <-app_assoc. apply HE. }
  case_bool_decide as Hio; [wsteps; apply (Hrest f); [by left|done]|].
  rewrite <-eq_None_not_Some in Hio.
  rewrite bool_decide_eq_false_2 by (rewrite Hf; by intros [? [=]]). wsteps.
  apply dev_add_spec; [by rewrite (b_fd_with _ _ _ Hs)|done|by eapply with_devices_cover| |].
  - intros d k Hd Hid. unfold upd_feature. wsteps. rewrite (b_fd_with _ _ _ Hs) in *.
    cbn [b_k b_fd b_ids b_devs b_claimed b_calls].
    rewrite fd_features_set, set_fd_features_twice, alter_middle.
    eapply Hrest; [right; split; [done|]; exists d; split; [exact Hd|done]|].
    by apply with_devices_add.
  - intros e k. eapply HE; [|by apply with_devices_k].
    rewrite !fmap_app. f_equal. by eapply published_all_erased.
Qed.

(** A feature device before its sub features are initialised. *)
Definition features_fresh s : Prop :=
  Z.of_nat (length (fd_features (b_fd s))) = fd_num (b_fd s) ∧ ids_cover s ∧
  Forall (bus_feature_ok (b_fd s)) (fd_features (b_fd s)) ∧
  Forall (λ f, f_ddev f = None) (fd_features (b_fd s)).

Lemma erase_none l : Forall (λ f, f_ddev f = None) l → set_f_ddev None <$> l = l.
Proof.
  induction 1 as [|f l Hf _ IH]; [done|]. cbn. rewrite IH. f_equal. destruct f. cbn in *. by subst.
Qed.
Lemma with_devices_start s :
  Forall (λ f, f_ddev f = None) (fd_features (b_fd s)) → with_devices s (fd_features (b_fd s)) s.
Proof.
  intros Hnone. exists (b_k s). rewrite own_ids_none by done. cbn.
  split; [|by split; [constructor|intros ? Hin; inversion Hin]].
  destruct s as [k [] ids devs claimed calls]. cbn. by rewrite !(left_id_L ∅ (∪)).
Qed.
Lemma with_devices_none s0 l s :
  Forall (λ f, f_ddev f = None) l → with_devices s0 l s →
  ∃ k, s = BSt k (set_fd_features l (b_fd s0)) (b_ids s0) (b_devs s0) (b_claimed s0) (b_calls s0).
Proof.
  intros Hnone (k & -> & _). exists k. rewrite own_ids_none by done. cbn.
  by rewrite !(left_id_L ∅ (∪)).
Qed.

Lemma devs_add_spec (Q : unit → bst → Prop) (E : Z → bst → Prop) s :
  features_fresh s →
  (∀ u s' l, Forall2 (published (b_fd s)) (fd_features (b_fd s)) l → with_devices s l s' → Q u s') →
  (∀ e k, E e (only_k k s)) →
  wp dfl_devs_add Q E s.
Proof.
  intros (Hnum & Hc & Hok & Hnone) HQ HE. unfold dfl_devs_add. wsteps.
  apply (devs_add_loop_spec s _ [] (fd_features (b_fd s)) []); try done; [lia| |].
  - by apply with_devices_start.
  - intros e s' l Herase Hs'. cbn in Herase.
    assert (length l = length (fd_features (b_fd s))) as Hlen
      by (rewrite <-(length_fmap (set_f_ddev None)), Herase; apply length_fmap).
    apply (devs_remove_spec _ _ s l); [by rewrite Hlen|done|done|].
    intros _ s'' Hs''. rewrite Herase, erase_none in Hs'' by done.
    apply with_devices_none in Hs'' as [k ->]; [|done].
    replace (set_fd_features (fd_features (b_fd s)) (b_fd s)) with (b_fd s) by (by destruct (b_fd s)).
    apply HE.
Qed.

(** Publishing the features of a feature device on the bus is all or nothing.
    If it succeeds, each feature whose registers no driver has mapped has a device
    with a fresh number, which carries the type, id, revision, version, GUID,
    parameters, resource and interrupts of the feature.  If it fails, at whichever
    feature and step, no device, number or claimed resource is left and the
    features are as they were. *)
Lemma devs_add_all_or_nothing s :
  features_fresh s →
  wp dfl_devs_add
    (λ _ s', ∃ l, Forall2 (published (b_fd s)) (fd_features (b_fd s)) l ∧ with_devices s l s')
    (λ _ s', ∃ k, s' = only_k k s) s.
Proof.
  intros Hs. apply devs_add_spec; [done| |]; [|by eexists].
  intros _ s' l Hl Hs'. by exists l.
Qed.

(** ** Binding of drivers *)

(** The entries of a table before the one that ends it. *)
Fixpoint before_end {T} (is_end : T → bool) (table : list T) : list T :=
  match table with
  | [] => []
  | e :: table => if is_end e then [] else e :: before_end is_end table
  end.

(** A device matches a driver exactly if some entry of its id table before
    the end names the GUID of the device, where that is valid, or its type and
    feature id; and the entry recorded in the device is the first of these.  The
    table is never read behind its end. *)
Lemma bus_match_first {T} (table : list dfl_device_id) (ddev : dfl_device) (s : T) :
  Exists (λ e, id_entry_valid e = false) table →
  let entries := before_end (λ e, negb (id_entry_valid e)) table in
  ∃ r, dfl_bus_match (Some table) ddev s = Done (Val r, s) ∧
    match r with
    | Some i => ∃ e, entries !! i = Some e ∧ dfl_match_one_device e ddev = true ∧
        Forall (λ e, dfl_match_one_device e ddev = false) (take i entries)
    | None => Forall (λ e, dfl_match_one_device e ddev = false) entries
    end.
Proof.
  intros Hend. cbn. cut (∀ j, ∃ r, bus_match_loop table ddev j s = Done (Val r, s) ∧
    match r with
    | Some i => ∃ i' e, i = (j + i')%nat ∧
        before_end (λ e, negb (id_entry_valid e)) table !! i' = Some e ∧
        dfl_match_one_device e ddev = true ∧ Forall (λ e, dfl_match_one_device e ddev = false)
          (take i' (before_end (λ e, negb (id_entry_valid e)) table))
    | None => Forall (λ e, dfl_match_one_device e ddev = false)
        (before_end (λ e, negb (id_entry_valid e)) table)
    end).
  { intros Hloop. destruct (Hloop 0%nat) as (r & Hr & Hspec). exists r. split; [done|].
    destruct r as [i|]; [|done]. destruct Hspec as (i' & e & -> & ?). by exists e. }
  induction table as [|e table IH]; [by apply Exists_nil in Hend|]. intros j.
  cbn [bus_match_loop before_end]. destruct (id_entry_valid e) eqn:Hv; cbn [negb].
  2: { by exists None. }
  destruct (dfl_match_one_device e ddev) eqn:Hm.
  { exists (Some j). split; [done|]. exists 0%nat, e. by rewrite Nat.add_0_r. }
  inversion Hend as [? ? Hx|? ? Hx]; subst; [congruence|].
  destruct (IH Hx (S j)) as (r & Hr & Hspec). exists r. split; [done|]. destruct r as [i|].
  - destruct Hspec as (i' & e' & -> & ? & ? & ?). exists (S i'), e'.
    split; [lia|]. split; [done|]. split; [done|]. by constructor.
  - by constructor.
Qed.
End BusFacts.
