(* ===== verification/DflFeatureInit.v ===== *)
(** * Initialising the sub features of a feature device (DflBus)

    Each sub feature is either taken by the feature driver whose table names it or
    published on the bus; if any step fails, everything that was done is undone. *)
From stdpp Require Import gmap strings.
From S2P Require Import Prelude DflRegs DflTypes DflEnum DflBus DflBusFacts.

Section FeatureInit.
Context `{BusKernel} `{!BusKernelOk}.
Implicit Types (s : bst) (f : dfl_feature) (l : list dfl_feature) (fd : dfl_feature_dev_data).

(** ** Which driver takes a feature *)

Definition ids_end (i : dfl_feature_id) : bool := (id_id i =? 0) && negb (dfl_guid_is_valid (id_guid i)).
(** The table of a driver names the feature. *)
Definition drv_matches (drv : dfl_feature_driver) f : bool :=
  match fdr_id_table drv with
  | Some ids => existsb (feature_id_matches f) (before_end ids_end ids)
  | None => false
  end.
Definition table_ended (drv : dfl_feature_driver) : Prop :=
  match fdr_id_table drv with Some ids => Exists (λ i, ids_end i = true) ids | None => True end.

Lemma drv_match_spec {T} (drv : dfl_feature_driver) f (s : T) :
  table_ended drv → dfl_feature_drv_match f drv s = Done (Val (drv_matches drv f), s).
Proof.
  unfold table_ended, dfl_feature_drv_match, drv_matches. destruct (fdr_id_table drv) as [ids|]; [|done].
  induction ids as [|i ids IH]; [by intros ?%Exists_nil|]. intros Hend. cbn [drv_match_loop before_end].
  unfold ids_end at 1. destruct (_ && _) eqn:Hi; [done|]. cbn [existsb].
  destruct (feature_id_matches f i); [done|]. apply IH.
  inversion Hend as [? ? Hx|]; subst; [|done]. unfold ids_end in Hx. congruence.
Qed.

(** The ops of the driver that takes the feature, among the drivers [ds]. *)
Fixpoint owner (ds : list dfl_feature_driver) f : option Z :=
  match ds with
  | [] => None
  | d :: ds => if drv_matches d f then fdr_ops d else owner ds f
  end.
(** The drivers before the end of the array have ops and complete tables, and no
    feature is named by two of them. *)
Definition drivers_ok (ds : list dfl_feature_driver) : Prop :=
  Forall (λ d, is_Some (fdr_ops d) ∧ table_ended d) ds.
Definition one_owner l (ds : list dfl_feature_driver) : Prop :=
  ∀ ds1 d ds2 f, ds = ds1 ++ d :: ds2 → f ∈ l → drv_matches d f = true → owner ds1 f = None.

Lemma owner_snoc ds d f :
  drivers_ok ds → owner (ds ++ [d]) f =
    match owner ds f with Some o => Some o | None => if drv_matches d f then fdr_ops d else None end.
Proof.
  induction 1 as [|d' ds [[o Ho] _] _ IH]; [cbn; by destruct (drv_matches d f)|]. cbn.
  destruct (drv_matches d' f); [by rewrite Ho|done].
Qed.

(** The bindings of drivers to features, from index [i] on. *)
Fixpoint ops_from (i : nat) l : list (Z * nat) :=
  match l with
  | [] => []
  | f :: l => (match f_ops f with Some o => [(o, i)] | None => [] end) ++ ops_from (S i) l
  end.
Lemma ops_from_app i l1 l2 : ops_from i (l1 ++ l2) = ops_from i l1 ++ ops_from (i + length l1) l2.
Proof.
  revert i. induction l1 as [|f l1 IH]; intros i; cbn; [by rewrite Nat.add_0_r|].
  rewrite IH, app_assoc. do 2 f_equal. lia.
Qed.
Lemma ops_from_none i l : Forall (λ f, f_ops f = None) l → ops_from i l = [].
Proof. intros Hl. revert i. induction Hl as [|f l Hf _ IH]; intros i; [done|]. cbn. by rewrite Hf, IH. Qed.

Definition init_calls (L : list (Z * nat)) : list (bool * Z * nat) := (λ p, (true, p.1, p.2)) <$> L.
Definition uinit_calls (L : list (Z * nat)) : list (bool * Z * nat) := (λ p, (false, p.1, p.2)) <$> L.

(** [f] is [f0] after driver [o], if any, has taken it; after any number of steps. *)
Definition taken (o : option Z) f0 f : Prop :=
  ∃ a, f = set_f_ops o (set_f_ioaddr a f0) ∧ (o = None → a = f_ioaddr f0) ∧ (is_Some o → is_Some a).
Definition touched f0 f : Prop := ∃ o a, f = set_f_ops o (set_f_ioaddr a f0).

(** [s] is [s0] with the features [l] and the calls of [init] in [L]. *)
Definition in_init (s0 : bst) l (L : list (Z * nat)) s : Prop :=
  ∃ k, s = BSt k (set_fd_features l (b_fd s0)) (b_ids s0) (b_devs s0) (b_claimed s0)
             (b_calls s0 ++ init_calls L).
Definition init_failed (s0 : bst) s : Prop :=
  ∃ l L, Forall2 touched (fd_features (b_fd s0)) l ∧ L ≡ₚ ops_from 0 l ∧ in_init s0 l L s.

Lemma taken_touched o f0 f : taken o f0 f → touched f0 f.
Proof. intros (a & -> & _). by exists o, a. Qed.
Lemma taken_all_touched (g : dfl_feature → option Z) l0 l :
  Forall2 (λ f0 f, taken (g f0) f0 f) l0 l → Forall2 touched l0 l.
Proof. apply Forall2_impl. intros f0 f. apply taken_touched. Qed.

Lemma in_init_fd s0 l L s : in_init s0 l L s → b_fd s = set_fd_features l (b_fd s0).
Proof. by intros (k & ->). Qed.

(** One driver initialises the feature behind [l1]. *)
Lemma instance_init_spec F N s0 l1 f l2 L ops (Q : unit → bst → Prop) (E : Z → bst → Prop) s :
  in_init s0 (l1 ++ f :: l2) L s → (is_header_feature (f_id f) = true → is_Some (f_ioaddr f)) →
  (∀ u s' a, is_Some a →
     in_init s0 (l1 ++ set_f_ops (Some ops) (set_f_ioaddr a f) :: l2) (L ++ [(ops, length l1)]) s' → Q u s') →
  (∀ e s' a, in_init s0 (l1 ++ set_f_ioaddr a f :: l2) L s' → E e s') →
  wpg F N (dfl_feature_instance_init (length l1) f ops) Q E s.
Proof.
  intros Hs Hhdr HQ HE. unfold dfl_feature_instance_init. wsteps.
  apply (wp_mono _ (λ _ s', ∃ a, is_Some a ∧ in_init s0 (l1 ++ set_f_ioaddr a f :: l2) L s') _ E);
    [|intros _ s' (a & Ha & k & ->)|done].
  - assert (set_f_ioaddr (f_ioaddr f) f = f) as Hsame by (by destruct f).
    destruct (is_header_feature (f_id f)); cbn [negb].
    { wsteps. exists (f_ioaddr f). rewrite Hsame. split; [by apply Hhdr|done]. }
    destruct (pdev_resource _ _) as [res|]; [|wsteps; apply (HE _ _ (f_ioaddr f)); by rewrite Hsame].
    wsteps. apply wp_bk. intros base k _. destruct Hs as [k0 ->].
    destruct base as [base|e]; [|wsteps; apply (HE _ _ (f_ioaddr f)); rewrite Hsame; by exists k].
    unfold upd_feature. wsteps. exists (Some base). split; [by eexists|]. exists k.
    cbn [b_k b_fd b_ids b_devs b_claimed b_calls].
    by rewrite fd_features_set, set_fd_features_twice, alter_middle.
  - wsteps. apply (wp_mono _ (λ _ s', ∃ k, s' = BSt k (set_fd_features (l1 ++ set_f_ioaddr a f :: l2) (b_fd s0))
      (b_ids s0) (b_devs s0) (b_claimed s0) (b_calls s0 ++ init_calls L)) _ E);
      [|intros ret s' [k' ->]|done].
    { destruct (ops_init ops); [apply wp_bk; intros ret k' _; by exists k'|wsteps; by exists k]. }
    wsteps; intros _; [|eapply HE; by exists k'].
    unfold log_call, upd_feature. wsteps. apply (HQ _ _ a Ha). exists k'.
    cbn [b_k b_fd b_ids b_devs b_claimed b_calls].
    rewrite fd_features_set, set_fd_features_twice, alter_middle.
    unfold init_calls. by rewrite fmap_app, app_assoc.
Qed.

Lemma taken_matches o f0 f d : taken o f0 f → drv_matches d f = drv_matches d f0.
Proof. by intros (a & -> & _). Qed.
Lemma taken_ops o f0 f : taken o f0 f → f_ops f = o.
Proof. by intros (a & -> & _). Qed.
Lemma taken_refl f : f_ops f = None → taken None f f.
Proof.
  intros Hf. exists (f_ioaddr f). split; [destruct f; cbn in *; by subst|]. split; [done|].
  by intros [? [=]].
Qed.
Lemma taken_by o f0 f a :
  taken None f0 f → is_Some a → taken (Some o) f0 (set_f_ops (Some o) (set_f_ioaddr a f)).
Proof. intros (a0 & -> & _) Ha. by exists a. Qed.
Lemma taken_io o f0 f a : taken o f0 f → touched f0 (set_f_ioaddr a f).
Proof. intros (a0 & -> & _). by exists o, a. Qed.

(** Header features are mapped from the start. *)
Definition headers_mapped l : Prop :=
  Forall (λ f, is_header_feature (f_id f) = true → is_Some (f_ioaddr f)) l.

Definition owned_by (ds : list dfl_feature_driver) : dfl_feature → dfl_feature → Prop :=
  λ f0 f, taken (owner ds f0) f0 f.

(** One driver, from the feature behind [l1] on; [k1] and [k2] are the features
    before any driver. *)
Lemma driver_init_loop_spec s0 ds d ops n k1 k2 l1 l2 L (Q : unit → bst → Prop) (E : Z → bst → Prop) s :
  drivers_ok ds → table_ended d → fdr_ops d = Some ops → headers_mapped k2 →
  (∀ f, f ∈ k2 → drv_matches d f = true → owner ds f = None) →
  fd_features (b_fd s0) = k1 ++ k2 → length l2 = n →
  Forall2 (owned_by (ds ++ [d])) k1 l1 → Forall2 (owned_by ds) k2 l2 →
  L ≡ₚ ops_from 0 (l1 ++ l2) → in_init s0 (l1 ++ l2) L s →
  (∀ u s' l L', Forall2 (owned_by (ds ++ [d])) (k1 ++ k2) l → L' ≡ₚ ops_from 0 l →
     in_init s0 l L' s' → Q u s') →
  (∀ e s', init_failed s0 s' → E e s') →
  wp (driver_init_loop d ops (length l1) n) Q E s.
Proof.
  intros Hds Htab Hops. revert k1 k2 l1 l2 L s.
  induction n as [|n IH]; intros k1 k2 l1 l2 L s Hhdr Hone Hfd Hn H1 H2 HL Hs HQ HE;
    destruct H2 as [|f0 f k2 l2 Hf H2]; try done; cbn [driver_init_loop]; wsteps.
  { rewrite !app_nil_r in *. by eapply HQ. }
  rewrite (in_init_fd _ _ _ _ Hs), fd_features_set, list_lookup_middle by done.
  apply wp_access; [|done]. intros ? [= <-]. wsteps.
  eapply wp_eq; [by apply drv_match_spec|]. rewrite (taken_matches _ _ _ d Hf).
  inversion Hhdr as [|? ? Hh0 Hhdr']; subst.
  assert (∀ f' L' s', owned_by (ds ++ [d]) f0 f' → L' ≡ₚ ops_from 0 (l1 ++ f' :: l2) →
    in_init s0 (l1 ++ f' :: l2) L' s' → wp (driver_init_loop d ops (S (length l1)) n) Q E s') as Hrest.
  { intros f' L' s' Hf' HL' Hs'. replace (S (length l1)) with (length (l1 ++ [f']))
      by (rewrite length_app; cbn; lia).
    apply (IH (k1 ++ [f0]) k2 _ l2 L'); rewrite <-?app_assoc; try done; try by injection Hn.
    - intros x Hx. apply Hone. by right.
    - apply Forall2_app; [done|]. by apply Forall2_cons_2. }
  assert (Forall2 touched (k1 ++ f0 :: k2) (l1 ++ f :: l2)) as Htouched.
  { apply Forall2_app; [by eapply taken_all_touched|].
    apply Forall2_cons_2; [by eapply taken_touched|by eapply taken_all_touched]. }
  unfold owned_by in Hf. destruct (drv_matches d f0) eqn:Hm.
  - rewrite (Hone f0) in Hf by (by left || done). cbv iota. wsteps.
    eapply instance_init_spec; [exact Hs|destruct Hf as (a & -> & Ha & _); by rewrite (Ha eq_refl)| |].
    + intros _ s' a Ha Hs'. eapply Hrest; [|..|exact Hs'].
      * unfold owned_by. rewrite owner_snoc, (Hone f0), Hm, Hops by (by left || done). by apply taken_by.
      * rewrite HL, !ops_from_app. cbn. rewrite (taken_ops _ _ _ Hf). cbn.
        rewrite <-!app_assoc. f_equiv. by rewrite Permutation_app_comm.
    + intros e s' a Hs'. apply HE. exists (l1 ++ set_f_ioaddr a f :: l2), L. rewrite Hfd.
      split; [|split; [|done]].
      * apply Forall2_app; [by eapply taken_all_touched|].
        apply Forall2_cons_2; [by eapply taken_io|by eapply taken_all_touched].
      * rewrite HL, !ops_from_app. done.
  - cbv iota. wsteps. eapply Hrest; [|done..]. unfold owned_by. rewrite owner_snoc, Hm by done.
    by destruct (owner ds f0).
Qed.

(** The array of drivers: [ds] and the entry that ends it. *)
Definition driver_array (ds : list dfl_feature_driver) : list dfl_feature_driver :=
  ds ++ [FeatureDriver None None].

Lemma drivers_init_loop_spec s0 ds1 ds2 l L (Q : unit → bst → Prop) (E : Z → bst → Prop) s :
  drivers_ok (ds1 ++ ds2) → one_owner (fd_features (b_fd s0)) (ds1 ++ ds2) →
  headers_mapped (fd_features (b_fd s0)) →
  Z.of_nat (length (fd_features (b_fd s0))) = fd_num (b_fd s0) →
  Forall2 (owned_by ds1) (fd_features (b_fd s0)) l → L ≡ₚ ops_from 0 l → in_init s0 l L s →
  (∀ u s' l L, Forall2 (owned_by (ds1 ++ ds2)) (fd_features (b_fd s0)) l → L ≡ₚ ops_from 0 l →
     in_init s0 l L s' → Q u s') →
  (∀ e s', init_failed s0 s' → E e s') →
  wp (drivers_init_loop (driver_array ds2)) Q E s.
Proof.
  revert ds1 l L s. induction ds2 as [|d ds2 IH]; intros ds1 l L s Hds Hone Hhdr Hnum Hl HL Hs HQ HE.
  { cbn. wsteps. rewrite app_nil_r in HQ. by eapply HQ. }
  pose proof Hds as [Hds1 Hd2]%Forall_app. inversion Hd2 as [|? ? [[ops Hops] Htab] _]; subst.
  cbn [driver_array app drivers_init_loop]. rewrite Hops. wsteps.
  rewrite (in_init_fd _ _ _ _ Hs).
  change (fd_num (set_fd_features l (b_fd s0))) with (fd_num (b_fd s0)).
  apply (driver_init_loop_spec s0 ds1 d ops _ [] (fd_features (b_fd s0)) [] l L);
    try done; [|rewrite <-(Forall2_length Hl); lia|].
  - intros f Hf Hm. by eapply Hone.
  - intros _ s' l' L' Hl' HL' Hs'.
    apply (IH (ds1 ++ [d]) l' L'); rewrite <-?app_assoc; done.
Qed.

(** *** Undoing *)

Lemma touched_none l0 l :
  Forall (λ f, f_ddev f = None) l0 → Forall2 touched l0 l → Forall (λ f, f_ddev f = None) l.
Proof.
  intros Hl0. induction 1 as [|f0 f l0 l (o & a & ->) _ IH]; [constructor|].
  apply list.Forall_cons in Hl0 as [Hf0 Hl0]. constructor; [exact Hf0|exact (IH Hl0)].
Qed.

Lemma feature_uinit_loop_spec F N fd n l1 l2 (Q : unit → bst → Prop) E k ids devs claimed calls :
  length l2 = n →
  (∀ u k, Q u (BSt k (set_fd_features (l1 ++ (set_f_ops None <$> l2)) fd) ids devs claimed
                 (calls ++ uinit_calls (ops_from (length l1) l2)))) →
  wpg F N (feature_uinit_loop (length l1) n) Q E
    (BSt k (set_fd_features (l1 ++ l2) fd) ids devs claimed calls).
Proof.
  revert l1 l2 k calls. induction n as [|n IH]; intros l1 [|f l2] k calls Hn HQ; try done;
    cbn [feature_uinit_loop]; wsteps; cbn [b_k b_fd b_ids b_devs b_claimed b_calls].
  { specialize (HQ tt k). cbn in HQ. rewrite !app_nil_r in HQ. by rewrite app_nil_r. }
  rewrite fd_features_set, list_lookup_middle by done. apply wp_access; [|done]. intros ? [= <-]. wsteps.
  assert (∀ k c, c = calls ++ uinit_calls (ops_from (length l1) [f]) →
    wpg F N (feature_uinit_loop (S (length l1)) n) Q E
      (BSt k (set_fd_features (l1 ++ set_f_ops None f :: l2) fd) ids devs claimed c)) as Hrest.
  { intros k' c ->. replace (S (length l1)) with (length (l1 ++ [set_f_ops None f]))
      by (rewrite length_app; cbn; lia).
    replace (l1 ++ set_f_ops None f :: l2) with ((l1 ++ [set_f_ops None f]) ++ l2) by by rewrite <-app_assoc.
    apply IH; [by injection Hn|]. intros u k''. specialize (HQ u k''). revert HQ. cbn [ops_from].
    unfold uinit_calls. rewrite length_app, !fmap_app, app_nil_r, <-!app_assoc, Nat.add_1_r. done. }
  destruct (f_ops f) as [ops|] eqn:Hops.
  - unfold log_call, upd_feature. wsteps.
    apply (wp_mono _ (λ _ s', ∃ k, s' = BSt k (set_fd_features (l1 ++ f :: l2) fd) ids devs claimed calls) _ E);
      [|intros _ s' [k' ->]|done].
    { destruct (ops_uinit ops); [apply wp_bk; intros ? k' _; by exists k'|wsteps; by exists k]. }
    wsteps. cbn [b_k b_fd b_ids b_devs b_claimed b_calls].
    rewrite fd_features_set, set_fd_features_twice, alter_middle. apply Hrest. cbn. by rewrite Hops.
  - wsteps. replace f with (set_f_ops None f) at 1 by (destruct f; cbn in *; by subst).
    apply Hrest. cbn. by rewrite Hops, app_nil_r.
Qed.

(** Everything has been undone: no driver and no device is left; every [init] in
    [L] was followed by one [uinit]. *)
Definition undone (s0 s : bst) : Prop :=
  ∃ l L L' k, Forall2 (λ f0 f, ∃ a, f = set_f_ioaddr a f0) (fd_features (b_fd s0)) l ∧ L' ≡ₚ L ∧
    s = BSt k (set_fd_features l (b_fd s0)) (b_ids s0) (b_devs s0) (b_claimed s0)
          (b_calls s0 ++ init_calls L ++ uinit_calls L').

(** Undoing an initialisation whose features [l] may have been published since, as
    [l']. *)
Lemma uinit_published_spec F N s0 s1 l l' L (Q : unit → bst → Prop) E s :
  Z.of_nat (length (fd_features (b_fd s0))) = fd_num (b_fd s0) → ids_cover s0 →
  Forall (λ f, f_ops f = None) (fd_features (b_fd s0)) →
  Forall2 touched (fd_features (b_fd s0)) l → L ≡ₚ ops_from 0 l → in_init s0 l L s1 →
  set_f_ddev None <$> l' = l → with_devices s1 l' s →
  (∀ u s', undone s0 s' → Q u s') →
  wpg F N dfl_fpga_dev_feature_uinit Q E s.
Proof.
  intros Hnum Hc Hops Hl HL (k & ->) Herase Hs HQ. pose proof (Forall2_length Hl) as Hlen.
  unfold dfl_fpga_dev_feature_uinit. wsteps. set (s1 := BSt k _ _ _ _ _) in *.
  assert (length l' = length l) as Hlen' by by rewrite <- Herase, length_fmap.
  apply (devs_remove_spec _ _ s1 l'); [cbn; by rewrite Hlen', <- Hlen|exact Hc|exact Hs|].
  intros _ s2 Hs2. rewrite Herase in Hs2.
  apply with_devices_none in Hs2 as [k1 ->]; [|rewrite <- Herase; apply Forall_fmap, Forall_true; done].
  wsteps. cbn [b_k b_fd b_ids b_devs b_claimed b_calls].
  apply (feature_uinit_loop_spec _ _ (b_fd s0) _ [] l); [cbn; lia|]. intros u k2. apply HQ.
  exists (set_f_ops None <$> l), L, (ops_from 0 l), k2. split_and!; [|done|subst s1; cbn; by rewrite <-app_assoc].
  apply Forall2_fmap_r. clear -Hl Hops. induction Hl as [|f0 f l0 l (o & a & ->) _ IH]; [constructor|].
  inversion Hops; subst. apply Forall2_cons_2; [|by apply IH]. exists a. destruct f0. cbn in *. by subst.
Qed.
Lemma feature_uinit_spec F N s0 (Q : unit → bst → Prop) E s :
  Z.of_nat (length (fd_features (b_fd s0))) = fd_num (b_fd s0) → ids_cover s0 →
  Forall (λ f, f_ddev f = None) (fd_features (b_fd s0)) →
  Forall (λ f, f_ops f = None) (fd_features (b_fd s0)) → init_failed s0 s →
  (∀ u s', undone s0 s' → Q u s') →
  wpg F N dfl_fpga_dev_feature_uinit Q E s.
Proof.
  intros Hnum Hc Hdev Hops (l & L & Hl & HL & Hs) HQ.
  pose proof (touched_none _ _ Hdev Hl) as Hnone.
  apply (uinit_published_spec _ _ s0 s l l L); try done; [by apply erase_none|].
  pose proof Hs as (k & ->). by apply with_devices_start.
Qed.

(** A feature device as its driver finds it: no sub feature is in use. *)
Definition features_unused s : Prop :=
  features_fresh s ∧ headers_mapped (fd_features (b_fd s)) ∧
  Forall (λ f, f_ops f = None) (fd_features (b_fd s)).

Lemma owned_fresh s0 ds l L s :
  features_fresh s0 → Forall2 (owned_by ds) (fd_features (b_fd s0)) l → in_init s0 l L s →
  features_fresh s.
Proof.
  intros (Hnum & Hc & Hok & Hnone) Hl [k ->]. split; [cbn; by rewrite <-(Forall2_length Hl)|].
  split; [done|]. cbn. split; [|by eapply touched_none, taken_all_touched].
  clear -Hok Hl. induction Hl as [|f0 f l0 l (a & -> & Ha & Hs) _ IH]; [constructor|].
  inversion Hok as [|? ? [Hres Hirq] Hok']; subst. constructor; [|by apply IH].
  split; [|done]. cbn. intros ->. apply Hres. destruct (owner ds f0) as [o|]; [|by rewrite Ha].
  destruct Hs as [? [=]]. by eexists.
Qed.

(** Every feature in the hands of its driver, or on the bus. *)
Definition initialised (ds : list dfl_feature_driver) s s' : Prop :=
  ∃ l l' L, Forall2 (owned_by ds) (fd_features (b_fd s)) l ∧ Forall2 (published (b_fd s)) l l' ∧ L ≡ₚ ops_from 0 l ∧
    ∃ s1, in_init s l L s1 ∧ with_devices s1 l' s'.
Lemma uinit_initialised F N ds s s' (Q : unit → bst → Prop) E :
  features_unused s → initialised ds s s' → (∀ u s'', undone s s'' → Q u s'') →
  wpg F N dfl_fpga_dev_feature_uinit Q E s'.
Proof.
  intros ((Hnum & Hc & _ & Hdev) & _ & Hops) (l & l' & L & Hl & Hp & HL & s1 & Hs1 & Hs') HQ.
  pose proof (taken_all_touched _ _ _ Hl) as Ht.
  apply (uinit_published_spec _ _ s s1 l l' L); try done.
  rewrite (published_all_erased _ _ _ Hp). apply erase_none. by eapply touched_none.
Qed.
Lemma feature_init_spec ds s :
  features_unused s → drivers_ok ds → one_owner (fd_features (b_fd s)) ds →
  wp (dfl_fpga_dev_feature_init (driver_array ds))
    (λ _ s', ∃ l l' L, Forall2 (owned_by ds) (fd_features (b_fd s)) l ∧
       Forall2 (published (b_fd s)) l l' ∧ L ≡ₚ ops_from 0 l ∧
       ∃ s1, in_init s l L s1 ∧ with_devices s1 l' s')
    (λ _ s', undone s s') s.
Proof.
  intros (Hf & Hhdr & Hops) Hds Hone. pose proof Hf as (Hnum & Hc & _ & Hdev).
  unfold dfl_fpga_dev_feature_init. wsteps.
  assert (∀ (e : Z) s', init_failed s s' →
    wp dfl_fpga_dev_feature_uinit (λ _ s'', undone s s'') (λ _ s'', undone s s'') s') as Hundo.
  { intros e s' Hs'. by apply (feature_uinit_spec _ _ s). }
  apply (drivers_init_loop_spec s [] ds (fd_features (b_fd s)) []); try done.
  - clear -Hops. induction Hops as [|f l Hf _ IH]; constructor; [by apply taken_refl|done].
  - by rewrite ops_from_none.
  - exists (b_k s). cbn. rewrite app_nil_r. by destruct s as [k [] ids devs claimed calls].
  - intros _ s1 l L Hl HL Hs1. cbn in Hl.
    assert (fd_features (b_fd s1) = l) as Hl1 by (destruct Hs1 as [k ->]; done).
    apply devs_add_spec; [by eapply owned_fresh|..].
    + intros _ s' l' Hpub Hs'. exists l, l', L. rewrite Hl1 in Hpub.
      assert (published (b_fd s1) = published (b_fd s)) as <- by (by destruct Hs1 as [k ->]).
      split_and!; [done..|]. by exists s1.
    + intros e k. apply (Hundo e). exists l, L. split; [by eapply taken_all_touched|]. split; [done|].
      destruct Hs1 as [k1 ->]. by exists k.
Qed.
(** C28: probing a feature device leaves each of its sub features in the hands of
    exactly the driver whose table names it, with its registers mapped, or, where no
    table does and the registers are not mapped already, published as a device on
    the bus; the [init] of each binding has been called once.  If any step fails, no
    driver, device, number or claimed resource is left, and exactly the bindings
    whose [init] succeeded have had their [uinit]. *)
Theorem feature_init_takes_all ds s :
  features_unused s → drivers_ok ds → one_owner (fd_features (b_fd s)) ds →
  wp (dfl_fpga_dev_feature_init (driver_array ds))
    (λ _ s', ∃ l l' L, Forall2 (owned_by ds) (fd_features (b_fd s)) l ∧
       Forall2 (published (b_fd s)) l l' ∧ L ≡ₚ ops_from 0 l ∧
       ∃ s1, in_init s l L s1 ∧ with_devices s1 l' s')
    (λ _ s', undone s s') s.
Proof. apply feature_init_spec. Qed.
End FeatureInit.
