(* ===== verification/DflModalias.v ===== *)
(** * Aliases of DFL devices and drivers (dfl.c, scripts/mod/file2alias.c)

    A device that appears on the bus announces an alias; the build puts a pattern
    for each entry of a driver's id table into its module, and user space loads the
    modules that have a pattern the alias matches. *)
From Stdlib Require Import Ascii String.
From stdpp Require Import gmap strings.
From S2P Require Import Prelude Text DflRegs DflTypes DflEnum DflEnumExamples DflBus DflBusFacts DflFeatureInit.

Section Modalias.
(** [%pUL] of the kernel's [printf], whose documented format is the text that
    [add_guid] writes. *)
Context (pUL : guid_t → text).

(* drivers/fpga/dfl.c:305-305 DFL_ALIAS_BUF_LEN *)
Definition DFL_ALIAS_BUF_LEN : Z := 64.

(** The value of MODALIAS. *)
(* drivers/fpga/dfl.c:308-326 dfl_bus_uevent *)
Definition dfl_bus_uevent {T} (ddev : dfl_device) : M T text :=
  alias ← scnprintf DFL_ALIAS_BUF_LEN 0 DFL_ALIAS_BUF_LEN
    (lit "dfl:t" ++ hex 4 (dd_type ddev) ++ lit "f" ++ hex 4 (dd_feature_id ddev));
  if negb (guid_is_null (dd_guid ddev)) then
    g ← scnprintf DFL_ALIAS_BUF_LEN (Z.of_nat (length alias)) DFL_ALIAS_BUF_LEN
      (lit "g{" ++ pUL (dd_guid ddev) ++ lit "}");
    mret (alias ++ g)
  else mret alias.

(** The order of the bytes, with the dashes between the groups. *)
(* scripts/mod/file2alias.c:118-127 add_guid *)
Definition add_guid (guid : guid_t) : text :=
  let b i := hex 2 (nth i guid 0) in
  b 3%nat ++ b 2%nat ++ b 1%nat ++ b 0%nat ++ lit "-" ++ b 5%nat ++ b 4%nat ++ lit "-" ++
  b 7%nat ++ b 6%nat ++ lit "-" ++ b 8%nat ++ b 9%nat ++ lit "-" ++
  b 10%nat ++ b 11%nat ++ b 12%nat ++ b 13%nat ++ b 14%nat ++ b 15%nat.

(* scripts/mod/file2alias.c:99-105 add_wildcard *)
Definition add_wildcard (str : text) : text :=
  if bool_decide (list.last str = Some "*"%char) then str else str ++ lit "*".

(** The pattern of an id table entry, [None] where there is a warning instead. *)
(* scripts/mod/file2alias.c:1383-1410 do_dfl_entry *)
Definition do_dfl_entry (id : dfl_device_id) : option text :=
  let guid_cmp_val := negb (guid_equal (di_guid id) guid_null) in
  if (di_feature_id id =? 0) && negb guid_cmp_val then None else
  let alias := if di_feature_id id =? 0 then lit "dfl:t*f*"
               else lit "dfl:t" ++ hex 4 (di_type id) ++ lit "f" ++ hex 4 (di_feature_id id) in
  let alias := if guid_cmp_val then alias ++ lit "g{" ++ add_guid (di_guid id) ++ lit "}" else alias in
  Some (add_wildcard alias).
End Modalias.

(** ** Shell patterns with the wildcard [*] *)
Inductive glob : text → text → Prop :=
| glob_nil : glob [] []
| glob_char c p s : c ≠ "*"%char → glob p s → glob (c :: p) (c :: s)
| glob_star p s1 s2 : glob p s2 → glob ("*"%char :: p) (s1 ++ s2).

Definition plain (t : text) : Prop := "*"%char ∉ t.

Lemma glob_plain t p s : plain t → glob (t ++ p) s ↔ ∃ s', s = t ++ s' ∧ glob p s'.
Proof.
  unfold plain. revert s. induction t as [|c t IH]; intros s Ht.
  { split; [intros; by exists s|]. by intros (s' & -> & ?). }
  apply not_elem_of_cons in Ht as [Hc Ht]. cbn. split.
  - intros Hg. inversion Hg as [|? ? s' ? Hg'|]; subst; [|done].
    apply IH in Hg' as (s'' & -> & ?); [|done]. by exists s''.
  - intros (s' & -> & ?). cbn. constructor; [done|]. apply IH; [done|]. by exists s'.
Qed.
Lemma glob_wild p s : glob ("*"%char :: p) s ↔ ∃ s1 s2, s = s1 ++ s2 ∧ glob p s2.
Proof.
  split.
  - intros Hg. inversion Hg as [|? ? ? Hc|? s1 s2]; subst; [done|]. by exists s1, s2.
  - intros (s1 & s2 & -> & ?). by constructor.
Qed.
Lemma glob_any s : glob ["*"%char] s.
Proof. apply glob_wild. exists s, []. rewrite app_nil_r. by split; [|constructor]. Qed.

(** ** Digits *)
Definition is_hex (c : ascii) : Prop := c ∈ lit "0123456789ABCDEF".

Lemma hex_digit_is_hex d : 0 ≤ d < 16 → is_hex (hex_digit d).
Proof.
  intros Hd. unfold is_hex, hex_digit. apply list_elem_of_lookup. exists (Z.to_nat d).
  assert (∃ n, (n < 16)%nat ∧ Z.to_nat d = n) as (n & Hn & ->) by (exists (Z.to_nat d); lia).
  do 16 (destruct n as [|n]; [done|]). lia.
Qed.
Lemma hex_digit_inj d d' : 0 ≤ d < 16 → 0 ≤ d' < 16 → hex_digit d = hex_digit d' → d = d'.
Proof.
  intros Hd Hd' Heq. unfold hex_digit in Heq.
  assert (∀ n n', (n < 16)%nat → (n' < 16)%nat →
    nth n (lit "0123456789ABCDEF") "0"%char = nth n' (lit "0123456789ABCDEF") "0"%char → n = n') as Hinj.
  { intros n n' Hn Hn'. do 16 (destruct n as [|n]; [do 16 (destruct n' as [|n']; [done|]); lia|]). lia. }
  apply Hinj in Heq; lia.
Qed.

Lemma hex_length n v : length (hex n v) = n.
Proof. revert v. induction n as [|n IH]; intros v; [done|]. cbn. rewrite length_app, IH. cbn. lia. Qed.
Lemma hex_is_hex n v : Forall is_hex (hex n v).
Proof.
  revert v. induction n as [|n IH]; intros v; [constructor|]. cbn. apply Forall_app_2; [apply IH|].
  constructor; [|constructor]. apply hex_digit_is_hex. apply Z.mod_pos_bound. lia.
Qed.
Lemma hex_inj n v v' :
  0 ≤ v < 16 ^ Z.of_nat n → 0 ≤ v' < 16 ^ Z.of_nat n → hex n v = hex n v' → v = v'.
Proof.
  revert v v'. induction n as [|n IH]; intros v v' Hv Hv' Heq; [cbn in *; lia|].
  cbn in Heq. apply app_inj_2 in Heq as [Hhi [= Hlo]]; [|done].
  replace (Z.of_nat (S n)) with (Z.of_nat n + 1) in Hv, Hv' by lia.
  rewrite Z.pow_add_r, Z.pow_1_r in Hv, Hv' by lia.
  apply hex_digit_inj in Hlo; [|apply Z.mod_pos_bound; lia..].
  apply IH in Hhi; [|split; [apply Z.div_pos; lia|apply Z.div_lt_upper_bound; lia]..].
  rewrite (Z.div_mod v 16), (Z.div_mod v' 16) by lia. by rewrite Hhi, Hlo.
Qed.

(** ** The text of a GUID *)
Definition guid_ok (g : guid_t) : Prop := length g = 16%nat ∧ Forall is_u8 g.
Definition guid_char (c : ascii) : Prop := is_hex c ∨ c = "-"%char.

Lemma add_guid_chars g : Forall guid_char (add_guid g).
Proof.
  assert (∀ b, Forall guid_char (hex 2 b)) as Hb
    by (intros b; eapply list.Forall_impl; [apply hex_is_hex|by left]).
  assert (Forall guid_char (lit "-")) as Hd by (constructor; [by right|constructor]).
  unfold add_guid. by repeat (apply Forall_app_2; [first [apply Hb|exact Hd]|]).
Qed.
Lemma add_guid_length g : length (add_guid g) = 36%nat.
Proof. unfold add_guid. by rewrite !length_app, !hex_length. Qed.
Lemma add_guid_inj g g' : guid_ok g → guid_ok g' → add_guid g = add_guid g' → g = g'.
Proof.
  intros [Hl Hb] [Hl' Hb'] Heq.
  assert (∀ i, (i < 16)%nat → is_u8 (nth i g 0) ∧ is_u8 (nth i g' 0)) as Hbyte.
  { intros i Hi. rewrite !nth_lookup.
    destruct (lookup_lt_is_Some_2 g i ltac:(lia)) as [x Hx], (lookup_lt_is_Some_2 g' i ltac:(lia)) as [y Hy].
    rewrite Hx, Hy. cbn. by split; [apply (Forall_lookup_1 _ g i)|apply (Forall_lookup_1 _ g' i)]. }
  assert (∀ i, (i < 16)%nat → hex 2 (nth i g 0) = hex 2 (nth i g' 0) → nth i g 0 = nth i g' 0) as Hhex.
  { intros i Hi. destruct (Hbyte i Hi) as [[] []]. apply hex_inj; cbn; lia. }
  unfold add_guid in Heq.
  repeat match type of Heq with
  | hex 2 ?a ++ _ = hex 2 ?b ++ _ =>
      let E := fresh "E" in apply app_inj_1 in Heq as [E Heq]; [|by rewrite !hex_length]
  | lit "-" ++ _ = lit "-" ++ _ => apply app_inv_head in Heq
  end.
  repeat match goal with E : hex 2 _ = hex 2 _ |- _ => apply Hhex in E; [|lia] end.
  do 16 (destruct g as [|? g]; [done|]). destruct g; [|done].
  do 16 (destruct g' as [|? g']; [done|]). destruct g'; [|done]. cbn in *. by subst.
Qed.

Lemma hex_not_star c : is_hex c → c ≠ "*"%char.
Proof. intros Hc ->. unfold is_hex in Hc. cbn in Hc. set_solver. Qed.
Lemma guid_char_not c : guid_char c → c ≠ "*"%char ∧ c ≠ "g"%char.
Proof.
  intros [Hc| ->]; [|done]. split; intros ->; unfold is_hex in Hc; cbn in Hc; set_solver.
Qed.

(** ** Patterns and aliases *)
Definition type_text (type feature_id : Z) : text := lit "dfl:t" ++ hex 4 type ++ lit "f" ++ hex 4 feature_id.
Definition guid_text (g : guid_t) : text := lit "g{" ++ add_guid g ++ lit "}".
Definition device_alias (d : dfl_device) : text :=
  type_text (dd_type d) (dd_feature_id d) ++
  (if guid_is_null (dd_guid d) then [] else guid_text (dd_guid d)).
Definition device_ok (d : dfl_device) : Prop :=
  is_u16 (dd_type d) ∧ is_u16 (dd_feature_id d) ∧ guid_ok (dd_guid d).
Definition entry_ok (e : dfl_device_id) : Prop :=
  is_u16 (di_type e) ∧ is_u16 (di_feature_id e) ∧ guid_ok (di_guid e).

Lemma plain_app t t' : plain t → plain t' → plain (t ++ t').
Proof. unfold plain. rewrite elem_of_app. by intros ?? [?|?]. Qed.
Lemma plain_hex n v : plain (hex n v).
Proof.
  intros Hin. eapply list.Forall_forall in Hin; [|apply hex_is_hex]. by eapply hex_not_star.
Qed.
Lemma plain_guid g : plain (add_guid g).
Proof.
  intros Hin. eapply list.Forall_forall in Hin; [|apply add_guid_chars].
  by apply guid_char_not in Hin as [? _].
Qed.
Lemma plain_lit s : bool_decide ("*"%char ∈ lit s) = false → plain (lit s).
Proof. by intros ?%bool_decide_eq_false. Qed.
Lemma plain_type type feature_id : plain (type_text type feature_id).
Proof. unfold type_text. by repeat (apply plain_app; [first [apply plain_hex|by apply plain_lit]|]); apply plain_hex. Qed.
Lemma plain_guid_text g : plain (guid_text g).
Proof. unfold guid_text. apply plain_app; [by apply plain_lit|]. apply plain_app; [apply plain_guid|by apply plain_lit]. Qed.

Lemma add_wildcard_snoc t c : c ≠ "*"%char → add_wildcard (t ++ [c]) = (t ++ [c]) ++ lit "*".
Proof.
  intros Hc. unfold add_wildcard. rewrite bool_decide_eq_false_2; [done|].
  rewrite last_snoc. congruence.
Qed.
Lemma add_wildcard_type type feature_id :
  add_wildcard (type_text type feature_id) = type_text type feature_id ++ lit "*".
Proof.
  unfold type_text. cbn [hex]. rewrite !app_assoc. apply add_wildcard_snoc.
  apply hex_not_star, hex_digit_is_hex, Z.mod_pos_bound. lia.
Qed.
Lemma add_wildcard_guid t g : add_wildcard (t ++ guid_text g) = (t ++ guid_text g) ++ lit "*".
Proof. unfold guid_text. rewrite !app_assoc. by apply add_wildcard_snoc. Qed.

(** The three shapes of a pattern. *)
Lemma entry_pattern e p :
  do_dfl_entry e = Some p →
  (di_feature_id e ≠ 0 ∧ di_guid e = guid_null ∧ p = type_text (di_type e) (di_feature_id e) ++ lit "*") ∨
  (di_feature_id e ≠ 0 ∧ di_guid e ≠ guid_null ∧
   p = (type_text (di_type e) (di_feature_id e) ++ guid_text (di_guid e)) ++ lit "*") ∨
  (di_feature_id e = 0 ∧ di_guid e ≠ guid_null ∧ p = (lit "dfl:t*f*" ++ guid_text (di_guid e)) ++ lit "*").
Proof.
  unfold do_dfl_entry, guid_equal. change (lit "dfl:t" ++ hex 4 (di_type e) ++ lit "f" ++ hex 4 (di_feature_id e))
    with (type_text (di_type e) (di_feature_id e)).
  change (lit "g{" ++ add_guid (di_guid e) ++ lit "}") with (guid_text (di_guid e)).
  destruct (Z.eqb_spec (di_feature_id e) 0); case_bool_decide; cbn [negb andb]; intros [= <-];
    rewrite ?add_wildcard_type, ?add_wildcard_guid; auto.
Qed.

Lemma uevent_alias {T} pUL d (s : T) :
  (∀ g, guid_ok g → pUL g = add_guid g) → device_ok d →
  dfl_bus_uevent pUL d s = Done (Val (device_alias d), s) ∧ Z.of_nat (length (device_alias d)) < DFL_ALIAS_BUF_LEN.
Proof.
  intros HpUL (_ & _ & Hg). unfold dfl_bus_uevent, device_alias. fold (type_text (dd_type d) (dd_feature_id d)).
  assert (length (type_text (dd_type d) (dd_feature_id d)) = 14%nat) as Hlen
    by (unfold type_text; rewrite !length_app, !hex_length; done).
  assert (∀ g, length (guid_text g) = 39%nat) as Hglen
    by (intros g; unfold guid_text; rewrite !length_app, add_guid_length; done).
  unfold mbind, M_bind, scnprintf. rewrite take_ge by (unfold DFL_ALIAS_BUF_LEN; fold (type_text (dd_type d) (dd_feature_id d)); rewrite Hlen; lia). rewrite Hlen. cbn [access].
  change (0 + Z.of_nat 14 + 1 <=? DFL_ALIAS_BUF_LEN) with true. cbv iota. cbn [access mret M_ret].
  destruct (guid_is_null (dd_guid d)); cbn [negb].
  - rewrite app_nil_r, Hlen. by split.
  - rewrite HpUL by done. change (lit "g{" ++ add_guid (dd_guid d) ++ lit "}") with (guid_text (dd_guid d)).
    rewrite Hlen, take_ge, Hglen by (unfold DFL_ALIAS_BUF_LEN; rewrite Hglen; lia).
    change (Z.of_nat 14 + Z.of_nat 39 + 1 <=? DFL_ALIAS_BUF_LEN) with true. cbv iota.
    rewrite length_app, Hlen, Hglen. by split.
Qed.

(** ** Which aliases a pattern matches *)

Lemma type_text_inj t f t' f' r r' :
  is_u16 t → is_u16 f → is_u16 t' → is_u16 f' →
  type_text t f ++ r = type_text t' f' ++ r' → t = t' ∧ f = f' ∧ r = r'.
Proof.
  unfold is_u16, type_text. intros ????. rewrite <-!app_assoc. intros Heq%app_inv_head.
  apply app_inj_1 in Heq as [Ht Heq]; [|by rewrite !hex_length]. apply app_inv_head in Heq.
  apply app_inj_1 in Heq as [Hf Heq]; [|by rewrite !hex_length].
  apply hex_inj in Ht; [|cbn; lia..]. apply hex_inj in Hf; [|cbn; lia..]. done.
Qed.
Lemma guid_text_inj g g' r : guid_ok g → guid_ok g' → guid_text g = guid_text g' ++ r → g = g'.
Proof.
  intros Hg Hg'. unfold guid_text. rewrite <-!app_assoc. intros Heq%app_inv_head.
  apply app_inj_1 in Heq as [Heq _]; [|by rewrite !add_guid_length]. by apply add_guid_inj.
Qed.

(** The letter [g] occurs in an alias only where the GUID starts. *)
Lemma type_text_no_g t f : "g"%char ∉ type_text t f.
Proof.
  assert (∀ v, "g"%char ∉ hex 4 v) as Hv.
  { intros v Hin. eapply list.Forall_forall in Hin; [|apply hex_is_hex].
    unfold is_hex in Hin. cbn in Hin. set_solver. }
  unfold type_text. rewrite !elem_of_app. intros [Hin|[Hin|[Hin|Hin]]]; [cbn in Hin; set_solver|by apply Hv in Hin| |by apply Hv in Hin].
  cbn in Hin. set_solver.
Qed.
Lemma split_at_g (x y x' y' : text) :
  "g"%char ∉ x → "g"%char ∉ y → x ++ "g"%char :: y = x' ++ "g"%char :: y' → y = y'.
Proof.
  intros Hx Hy Heq. destruct (decide ("g"%char ∈ x')) as [Hin|Hx'].
  - apply list_elem_of_split in Hin as (u & v & ->). exfalso.
    revert x Hx Heq. induction u as [|c u IH]; intros [|c' x] Hx Heq; cbn in *.
    + injection Heq as Heq. subst y. apply Hy. rewrite elem_of_app. right. by left.
    + injection Heq as -> _. apply Hx. by left.
    + injection Heq as _ Heq. subst y. apply Hy. rewrite !elem_of_app, !elem_of_cons. auto 10.
    + injection Heq as _ Heq. eapply IH; [|exact Heq]. intros ?. apply Hx. by right.
  - revert x' Hx' Heq. induction x as [|c x IH]; intros [|c' x'] Hx' Heq; cbn in *; simplify_eq.
    + done.
    + destruct Hx'. by left.
    + destruct Hx. by left.
    + eapply IH; [|..|done]; [|by intros ?; apply Hx'; right]. intros ?. apply Hx. by right.
Qed.
Lemma guid_text_tail g : guid_text g = "g"%char :: lit "{" ++ add_guid g ++ lit "}".
Proof. done. Qed.
Lemma guid_tail_no_g g : "g"%char ∉ lit "{" ++ add_guid g ++ lit "}".
Proof.
  rewrite !elem_of_app. intros [Hin|[Hin|Hin]].
  - cbn in Hin. set_solver.
  - eapply list.Forall_forall in Hin; [|apply add_guid_chars]. by apply guid_char_not in Hin as [_ ?].
  - cbn in Hin. set_solver.
Qed.

Lemma glob_prefix t s : plain t → glob (t ++ lit "*") s ↔ ∃ r, s = t ++ r.
Proof.
  intros Ht. rewrite glob_plain by done. split; intros (r & -> & ?) || intros (r & ->); exists r; [done|].
  split; [done|apply glob_any].
Qed.

(** A pattern that leaves type and feature open finds the GUID where it is. *)
Lemma glob_guid_only g d :
  guid_ok g → guid_ok (dd_guid d) → g ≠ guid_null →
  glob ((lit "dfl:t*f*" ++ guid_text g) ++ lit "*") (device_alias d) ↔ g = dd_guid d.
Proof.
  intros Hg Hd Hnull.
  assert ((lit "dfl:t*f*" ++ guid_text g) ++ lit "*" =
    lit "dfl:t" ++ "*"%char :: lit "f" ++ "*"%char :: guid_text g ++ lit "*") as -> by done.
  rewrite glob_plain by by apply plain_lit. split.
  - intros (s' & Hs & (s1 & s2 & -> & (s3 & -> & (s4 & s5 & -> & (r & ->)%glob_prefix)%glob_wild)%glob_plain)%glob_wild);
      [|apply plain_guid_text|by apply plain_lit].
    unfold device_alias in Hs. rewrite (guid_text_tail g) in Hs.
    assert (∃ x', lit "dfl:t" ++ s1 ++ lit "f" ++ s4 ++ ("g"%char :: lit "{" ++ add_guid g ++ lit "}") ++ r =
      x' ++ "g"%char :: (lit "{" ++ add_guid g ++ lit "}") ++ r) as [x' Hx'].
    { exists (lit "dfl:t" ++ s1 ++ lit "f" ++ s4). by rewrite <-!app_assoc. }
    rewrite Hx' in Hs. unfold guid_is_null, guid_equal in Hs. case_bool_decide as Hdn.
    + exfalso. rewrite app_nil_r in Hs. apply (type_text_no_g (dd_type d) (dd_feature_id d)).
      rewrite Hs, elem_of_app. right. by left.
    + rewrite guid_text_tail in Hs. apply split_at_g in Hs; [|apply type_text_no_g|apply guid_tail_no_g].
      symmetry. apply (guid_text_inj _ _ r); [done..|]. by rewrite !guid_text_tail, Hs.
  - intros ->. exists (hex 4 (dd_type d) ++ lit "f" ++ hex 4 (dd_feature_id d) ++ guid_text (dd_guid d)).
    unfold device_alias, type_text, guid_is_null, guid_equal. rewrite bool_decide_eq_false_2 by done.
    split; [by rewrite <-!app_assoc|]. constructor. apply glob_plain; [by apply plain_lit|].
    exists (hex 4 (dd_feature_id d) ++ guid_text (dd_guid d)). split; [done|]. constructor.
    apply glob_prefix; [apply plain_guid_text|]. exists []. by rewrite app_nil_r.
Qed.

(** C30: the alias of a device fits its buffer, and the pattern of an id table entry
    matches it exactly if the entry leaves type and feature id open (feature id 0)
    or names those of the device, and leaves the GUID open (all zeros) or names that
    of the device.  So a module is only loaded for devices the bus would match with
    that entry, unless its GUID is the invalid one. *)
Theorem modalias_exact {T} pUL e d p (s : T) :
  (∀ g, guid_ok g → pUL g = add_guid g) → device_ok d → entry_ok e → do_dfl_entry e = Some p →
  ∃ a, dfl_bus_uevent pUL d s = Done (Val a, s) ∧ Z.of_nat (length a) < DFL_ALIAS_BUF_LEN ∧
    (glob p a ↔
       (di_feature_id e = 0 ∨ (di_type e = dd_type d ∧ di_feature_id e = dd_feature_id d)) ∧
       (di_guid e = guid_null ∨ di_guid e = dd_guid d)) ∧
    (glob p a → di_guid e ≠ DFL_GUID_INVALID → dfl_match_one_device e d = true).
Proof.
  intros HpUL Hd He Hp. destruct (uevent_alias pUL d s HpUL Hd) as [Hu Hlen].
  exists (device_alias d). split; [done|]. split; [done|].
  destruct Hd as (Hdt & Hdf & Hdg), He as (Het & Hef & Heg).
  assert (glob p (device_alias d) ↔
       (di_feature_id e = 0 ∨ (di_type e = dd_type d ∧ di_feature_id e = dd_feature_id d)) ∧
       (di_guid e = guid_null ∨ di_guid e = dd_guid d)) as Hglob.
  { apply entry_pattern in Hp as [(Hf & Hg & ->)|[(Hf & Hg & ->)|(Hf & Hg & ->)]].
    - rewrite glob_prefix by apply plain_type. unfold device_alias. split.
      + intros (r & (Ht & Hf' & _)%type_text_inj); [|done..]. rewrite Ht, Hf'. auto.
      + intros [[?|[-> ->]] _]; [done|]. by eexists.
    - rewrite glob_prefix by (apply plain_app; [apply plain_type|apply plain_guid_text]).
      unfold device_alias, guid_is_null, guid_equal. split.
      + intros (r & Heq). rewrite <-app_assoc in Heq.
        apply type_text_inj in Heq as (Ht & Hf' & Heq); [|done..]. rewrite Ht, Hf'.
        case_bool_decide; [done|]. apply guid_text_inj in Heq; auto.
      + intros [[?|[-> ->]] [?|Heq]]; [done..|]. exists []. rewrite app_nil_r, Heq.
        by rewrite bool_decide_eq_false_2 by (by rewrite <-Heq).
    - rewrite glob_guid_only by done. naive_solver. }
  split; [done|]. rewrite Hglob. intros [Htf Hg] Hinv. unfold dfl_match_one_device.
  destruct Htf as [Hf|[-> ->]]; [|by rewrite !Z.eqb_refl, orb_true_r].
  unfold do_dfl_entry, guid_equal in Hp. rewrite Hf in Hp. case_bool_decide as Hn; [done|].
  destruct Hg as [|Hg]; [done|]. unfold dfl_guid_is_valid, guid_is_null, guid_equal.
  rewrite (bool_decide_eq_true_2 (di_guid e = dd_guid d)) by done. rewrite <-Hg.
  rewrite (bool_decide_eq_false_2 (di_guid e = guid_null)) by done.
  by rewrite (bool_decide_eq_false_2 (di_guid e = DFL_GUID_INVALID)).
Qed.

(** ** Examples *)
Abbreviation demo_guid := (GUID_INIT 0x12345678 0x9abc 0xdef0 1 2 3 4 5 6 7 8).
Abbreviation demo_dfl_device := (DflDevice 0 1 0x12 0 (Res 0 0) [] 0 1 0 [] demo_guid).
Abbreviation demo_entry := (DeviceId 1 0x12 guid_null).

Lemma modalias_exact_witness :
  ∃ a, dfl_bus_uevent add_guid demo_dfl_device tt = Done (Val a, tt) ∧
    Z.of_nat (length a) < DFL_ALIAS_BUF_LEN ∧
    (glob (lit "dfl:t0001f0012*") a ↔ (18 = 0 ∨ (1 = 1 ∧ 18 = 18)) ∧ (guid_null = guid_null ∨ guid_null = demo_guid)) ∧
    (glob (lit "dfl:t0001f0012*") a → guid_null ≠ DFL_GUID_INVALID →
     dfl_match_one_device demo_entry demo_dfl_device = true).
Proof.
  apply (modalias_exact add_guid demo_entry demo_dfl_device (lit "dfl:t0001f0012*") tt).
  - done.
  - split; [by split|]. split; [by split|]. split; [reflexivity|]. by repeat constructor.
  - split; [by split|]. split; [by split|]. split; [reflexivity|]. by repeat constructor.
  - reflexivity.
Defined.

(** The bus matches an entry by its GUID or by its type and feature id, the
    pattern asks for both where the entry has both: a device without a GUID that
    such an entry matches does not cause its module to be loaded. *)
Lemma match_without_alias :
  let e := DeviceId 1 0x12 demo_guid in
  let d := DflDevice 0 1 0x12 0 (Res 0 0) [] 0 0 0 [] guid_null in
  dfl_match_one_device e d = true ∧
  ∃ p a, do_dfl_entry e = Some p ∧ dfl_bus_uevent add_guid d tt = Done (Val a, tt) ∧ ¬ glob p a.
Proof.
  split; [reflexivity|]. do 2 eexists. split; [reflexivity|]. split; [vm_compute; reflexivity|].
  intros Hg. do 14 (inversion Hg as [|? ? ? _ Hg'|]; subst; clear Hg; rename Hg' into Hg).
  inversion Hg.
Qed.

(** ** Concrete feature devices on the bus (DflBus)

    A port with a mapped header, an error feature that a driver takes and a private
    feature that goes to the bus. *)

(** The state of the kernel is how many device additions still succeed. *)
#[local] Instance demo_bus : BusKernel := {
  bk := nat;
  bk_alloc k := (true, k);
  bk_ida_alloc ids k := (next_id ids, k);
  bk_set_name id k := (0, k);
  bk_insert_resource p r k := (0, k);
  bk_device_add id k := match k with O => (- ENOMEM, O) | S k => (0, k) end;
  bk_ioremap r k := (inl (r_start r), k);
  ops_init ops := Some (λ i k, (0, k));
  ops_uinit ops := None;
}.
#[local] Instance demo_bus_ok : BusKernelOk.
Proof.
  intros ids k. cbn. right. split; [apply next_id_nonneg|]. intros Hin%next_id_above. lia.
Qed.

Abbreviation demo_feature id idx io := (Feature (Some 5) id 0 idx io [] 0 None None 0 0 [] guid_null).
Abbreviation demo_user := (Feature (Some 5) 0x12 1 1 None [IrqCtx 33 None false] 1 None None 1 16 [1; 2] guid_null).
Abbreviation demo_features := [demo_feature 0xfe (-1) (Some 4096); demo_feature 0x10 0 None; demo_user].
Abbreviation demo_fd :=
  (FData (Some 5) PORT_ID 0 "dfl-port" (-1) 0 false 0 3 demo_features 2 [Res 8192 12287; Res 12288 16383; Res 0 0]).
Abbreviation demo_drivers := [FeatureDriver (Some [FeatureId 0x10 guid_null; FeatureId 0 guid_null]) (Some 77)].
(** Device 4 belongs to somebody else. *)
Abbreviation demo_bst k := (BSt (k : @bk demo_bus) demo_fd {[4]} {[4]} {[4]} []).

Lemma demo_fresh k : features_fresh (demo_bst k).
Proof.
  split; [reflexivity|]. split; [by split|].
  split; [|by repeat constructor].
  repeat (apply list.Forall_cons; split); [..|constructor]; (split; [|reflexivity]); cbn; intros Hio; try done; by eexists.
Qed.
Lemma demo_unused k : features_unused (demo_bst k).
Proof.
  split; [apply demo_fresh|]. split; [|by repeat constructor].
  repeat (apply list.Forall_cons; split); [..|constructor]; cbn; intros Hh; try done; by eexists.
Qed.

Lemma devs_add_all_or_nothing_witness :
  ∃ s', dfl_devs_add (demo_bst 2%nat) = Done (Val tt, s') ∧
    ∃ l, Forall2 (published demo_fd) demo_features l ∧ with_devices (demo_bst 2%nat) l s'.
Proof.
  eexists. split; [vm_compute; reflexivity|].
  refine (wp_elim dfl_devs_add _ _ _ _ _ (devs_add_all_or_nothing (demo_bst 2%nat) (demo_fresh 2%nat)) _).
  vm_compute. reflexivity.
Defined.
(** With one addition left the second device fails and the first is removed. *)
Lemma demo_devs_add_fails : dfl_devs_add (demo_bst 1%nat) = Done (Err (- ENOMEM), demo_bst 0%nat).
Proof. vm_compute. reflexivity. Qed.

Lemma demo_drivers_ok : drivers_ok demo_drivers.
Proof. apply list.Forall_singleton. split; [by eexists|]. cbn. right. by left. Qed.
Lemma demo_one_owner l : one_owner l demo_drivers.
Proof. intros [|d1 [|d2 ds1]] d ds2 f Hds Hf Hm; [done|discriminate..]. Qed.
Lemma feature_init_takes_all_witness :
  ∃ s', dfl_fpga_dev_feature_init (driver_array demo_drivers) (demo_bst 1%nat) = Done (Val tt, s') ∧
    ∃ l l' L, Forall2 (owned_by demo_drivers) demo_features l ∧
       Forall2 (published demo_fd) l l' ∧ L ≡ₚ ops_from 0 l ∧
       ∃ s1, in_init (demo_bst 1%nat) l L s1 ∧ with_devices s1 l' s'.
Proof.
  eexists. split; [vm_compute; reflexivity|].
  refine (wp_elim (dfl_fpga_dev_feature_init (driver_array demo_drivers)) _ _ _ _ _
    (feature_init_takes_all demo_drivers (demo_bst 1%nat) (demo_unused 1%nat) demo_drivers_ok (demo_one_owner _)) _).
  vm_compute. reflexivity.
Defined.

Abbreviation demo_table := [DeviceId 0 0x12 guid_null; DeviceId 1 0x12 guid_null; DeviceId 0 0 guid_null].
Abbreviation demo_ddev := (DflDevice 0 1 0x12 0 (Res 0 0) [] 0 1 0 [] guid_null).
Lemma bus_match_first_witness :
  ∃ r, dfl_bus_match (Some demo_table) demo_ddev tt = Done (Val r, tt) ∧
    match r with
    | Some i => ∃ e, before_end (λ e, negb (id_entry_valid e)) demo_table !! i = Some e ∧
        dfl_match_one_device e demo_ddev = true ∧
        Forall (λ e, dfl_match_one_device e demo_ddev = false)
          (take i (before_end (λ e, negb (id_entry_valid e)) demo_table))
    | None => Forall (λ e, dfl_match_one_device e demo_ddev = false)
        (before_end (λ e, negb (id_entry_valid e)) demo_table)
    end.
Proof. apply (bus_match_first demo_table demo_ddev tt). by right; right; left. Defined.
