(* ===== verification/DflModule.v ===== *)
(** * Loading and unloading of the DFL module (drivers/fpga/dfl.c)

    The bus type, the ids of feature devices and one chardev region per kind of
    device that has a character device. *)
From stdpp Require Import gmap strings.
From S2P Require Import Prelude DflRegs DflTypes.

(** [dev_t]: the major number above 20 bits of minor number. *)
Definition MINORBITS : Z := 20.
Definition MKDEV (ma mi : Z) : Z := Z.lor (Z.shiftl ma MINORBITS) mi.
Definition MAJOR (dev : Z) : Z := Z.shiftr dev MINORBITS.

(** [alloc_chrdev_region] for a name: a device number or an error code;
    [bus_register]: a status. *)
Class ModKernel := {
  mdk : Type;
  md_alloc_chrdev_region : string → mdk → (Z + Z) * mdk;
  md_bus_register : mdk → Z * mdk;
}.
(** What is documented of [alloc_chrdev_region]: the major number it chooses is
    not zero, and errors are negative. *)
Class ModKernelOk `{ModKernel} :=
  chrdev_region_ok : ∀ name k,
    match (md_alloc_chrdev_region name k).1 with inl d => MAJOR d ≠ 0 | inr e => e < 0 end.

(* drivers/fpga/dfl.c:81-84 dfl_chardev_info *)
Record dfl_chardev_info := ChardevInfo { ci_name : string; ci_devt : Z }.
(* drivers/fpga/dfl.c:87-91 dfl_chrdevs *)
Definition dfl_chrdevs : list dfl_chardev_info :=
  [ChardevInfo DFL_FPGA_FEATURE_DEV_FME 0; ChardevInfo DFL_FPGA_FEATURE_DEV_PORT 0;
   ChardevInfo DFL_FPGA_FEATURE_DEV_PRIV_FEAT 0].

Section Module_.
Context `{ModKernel}.

(** [m_regions] are the regions that are registered, [m_ids] says of each entry of
    [dfl_devs] whether its idr is initialised. *)
Record mst := MSt {
  m_k : mdk;
  m_bus : bool;
  m_ids : list bool;
  m_chrdevs : list dfl_chardev_info;
  m_regions : list Z;
}.
Definition set_bus (b : bool) : M mst unit :=
  modify (λ s, MSt (m_k s) b (m_ids s) (m_chrdevs s) (m_regions s)).
Definition set_m_ids (l : list bool) : M mst unit :=
  modify (λ s, MSt (m_k s) (m_bus s) l (m_chrdevs s) (m_regions s)).
Definition set_devt (i : nat) (d : Z) : M mst unit := modify (λ s,
  MSt (m_k s) (m_bus s) (m_ids s) (alter (λ c, ChardevInfo (ci_name c) d) i (m_chrdevs s)) (m_regions s)).
Definition set_regions (f : list Z → list Z) : M mst unit :=
  modify (λ s, MSt (m_k s) (m_bus s) (m_ids s) (m_chrdevs s) (f (m_regions s))).

(* drivers/fpga/dfl.c:93-99 dfl_ids_init *)
Definition dfl_ids_init : M mst unit := set_m_ids (replicate (length dfl_devs) true).
(* drivers/fpga/dfl.c:101-107 dfl_ids_destroy *)
Definition dfl_ids_destroy : M mst unit := set_m_ids (replicate (length dfl_devs) false).

(** One copy of the region is given up. *)
Definition unregister_chrdev_region (d : Z) : M mst unit :=
  set_regions (λ l, match list_find (λ x, x = d) l with Some (i, _) => delete i l | None => l end).

(** The entries from [i] on, [n] of them. *)
(* drivers/fpga/dfl.c:662-667 dfl_chardev_uinit *)
Fixpoint chardev_uinit_loop (i n : nat) : M mst unit :=
  match n with
  | O => mret tt
  | S n =>
      s ← get;
      c ← access (m_chrdevs s !! i);
      (if negb (MAJOR (ci_devt c) =? 0) then
         unregister_chrdev_region (ci_devt c) ;;
         set_devt i (MKDEV 0 0)
       else mret tt) ;;
      chardev_uinit_loop (S i) n
  end.
(* drivers/fpga/dfl.c:658-668 dfl_chardev_uinit *)
Definition dfl_chardev_uinit : M mst unit := chardev_uinit_loop 0 (Z.to_nat DFL_FPGA_DEVT_MAX).

(* drivers/fpga/dfl.c:674-679 dfl_chardev_init *)
Fixpoint chardev_init_loop (i n : nat) : M mst unit :=
  match n with
  | O => mret tt
  | S n =>
      s ← get;
      c ← access (m_chrdevs s !! i);
      ret ← ((λ s, let (r, k) := md_alloc_chrdev_region (ci_name c) (m_k s) in
                   Done (Val r, MSt k (m_bus s) (m_ids s) (m_chrdevs s) (m_regions s))) : M mst (Z + Z));
      match (ret : Z + Z) with
      | inr e => throw e
      | inl d =>
          set_regions (λ l, d :: l) ;;
          set_devt i d ;;
          chardev_init_loop (S i) n
      end
  end.
(* drivers/fpga/dfl.c:670-686 dfl_chardev_init *)
Definition dfl_chardev_init : M mst unit :=
  on_error (chardev_init_loop 0 (Z.to_nat DFL_FPGA_DEVT_MAX)) dfl_chardev_uinit.

(* drivers/fpga/dfl.c:1858-1875 dfl_fpga_init *)
Definition dfl_fpga_init : M mst unit :=
  ret ← ((λ s, let (r, k) := md_bus_register (m_k s) in
               Done (Val r, MSt k (m_bus s) (m_ids s) (m_chrdevs s) (m_regions s))) : M mst Z);
  rc ret ;;
  set_bus true ;;
  dfl_ids_init ;;
  on_error dfl_chardev_init (dfl_ids_destroy ;; set_bus false).

(* drivers/fpga/dfl.c:2206-2211 dfl_fpga_exit *)
Definition dfl_fpga_exit : M mst unit :=
  dfl_chardev_uinit ;;
  dfl_ids_destroy ;;
  set_bus false.
End Module_.

(** ** Nothing is left behind *)
Section Facts.
Context `{ModKernel} `{!ModKernelOk}.
Implicit Types (s : mst) (R : list Z).

(** The module is not loaded, and the regions of others are [R]. *)
Definition unloaded R s : Prop :=
  ∃ k R', R' ≡ₚ R ∧ s = MSt k false (replicate 3 false) dfl_chrdevs R'.

Definition devts (l : list Z) : list dfl_chardev_info :=
  zip_with (λ c d, ChardevInfo (ci_name c) d) dfl_chrdevs l.

Lemma unregister_perm d l R :
  l ≡ₚ d :: R → (match list_find (λ x, x = d) l with Some (i, _) => delete i l | None => l end) ≡ₚ R.
Proof.
  intros Hl. destruct (list_find (λ x, x = d) l) as [[i x]|] eqn:Hf.
  - apply list_find_Some in Hf as (Hi & -> & _). apply delete_Permutation in Hi.
    rewrite Hi in Hl. by apply Permutation_cons_inv in Hl.
  - apply list_find_None in Hf. exfalso. eapply list.Forall_forall in Hf; [by apply Hf|].
    rewrite Hl. by left.
Qed.

(** Giving up the regions of the entries from [i] on. *)
Lemma chardev_uinit_loop_spec F N n l1 l2 R (Q : unit → mst → Prop) E k b ids regs :
  length (l1 ++ l2) = 3%nat → length l2 = n → Forall (λ d, d = 0 ∨ MAJOR d ≠ 0) l2 →
  regs ≡ₚ filter (λ d, MAJOR d ≠ 0) l2 ++ R →
  (∀ u regs', regs' ≡ₚ R → Q u (MSt k b ids (devts (l1 ++ replicate (length l2) 0)) regs')) →
  wpg F N (chardev_uinit_loop (length l1) n) Q E (MSt k b ids (devts (l1 ++ l2)) regs).
Proof.
  revert l1 l2 regs. induction n as [|n IH]; intros l1 [|d l2] regs H3 Hn Hd Hr HQ; try done;
    cbn [chardev_uinit_loop]; wsteps; cbn [m_k m_bus m_ids m_chrdevs m_regions].
  { apply HQ. by cbn in Hr. }
  assert (∀ x, ∃ c, devts (l1 ++ x :: l2) !! length l1 = Some (ChardevInfo c x) ∧
    ∀ y, alter (λ c, ChardevInfo (ci_name c) y) (length l1) (devts (l1 ++ x :: l2)) = devts (l1 ++ y :: l2)) as Hat.
  { intros x. cbn in H3. rewrite length_app in H3. cbn in H3.
    destruct l1 as [|a [|b' [|c' l1]]]; [..|cbn in H3; lia]; eexists; (split; [reflexivity|]); intros; reflexivity. }
  assert (∀ regs', regs' ≡ₚ filter (λ d, MAJOR d ≠ 0) l2 ++ R →
    wpg F N (chardev_uinit_loop (S (length l1)) n) Q E (MSt k b ids (devts (l1 ++ 0 :: l2)) regs')) as Hrest.
  { intros regs' Hr'. replace (S (length l1)) with (length (l1 ++ [0])) by (rewrite length_app; cbn; lia).
    replace (l1 ++ 0 :: l2) with ((l1 ++ [0]) ++ l2) by by rewrite <-app_assoc.
    apply IH; [|by injection Hn|by inversion Hd|done|].
    - rewrite <-app_assoc. cbn in *. rewrite length_app in *. done.
    - intros u regs'' Hr''. rewrite <-app_assoc. by apply HQ. }
  destruct (Hat d) as (c & -> & Halter). apply wp_access; [|done]. intros ? [= <-]. wsteps.
  cbn [ci_devt ci_name]. apply list.Forall_cons in Hd as [Hd _].
  destruct (Z.eqb_spec (MAJOR d) 0) as [Hz|Hz]; cbn [negb].
  - destruct Hd as [->|]; [|done]. wsteps. apply Hrest. by rewrite filter_cons_False in Hr by auto.
  - unfold unregister_chrdev_region, set_regions, set_devt. wsteps.
    cbn [m_k m_bus m_ids m_chrdevs m_regions]. change (MKDEV 0 0) with 0. rewrite Halter.
    apply Hrest. apply unregister_perm. by rewrite filter_cons_True in Hr by done.
Qed.

Lemma chardev_uinit_spec F N l R (Q : unit → mst → Prop) E k b ids regs :
  length l = 3%nat → Forall (λ d, d = 0 ∨ MAJOR d ≠ 0) l → regs ≡ₚ filter (λ d, MAJOR d ≠ 0) l ++ R →
  (∀ u regs', regs' ≡ₚ R → Q u (MSt k b ids dfl_chrdevs regs')) →
  wpg F N dfl_chardev_uinit Q E (MSt k b ids (devts l) regs).
Proof.
  intros Hl Hd Hr HQ. apply (chardev_uinit_loop_spec _ _ 3 [] l R); [done..|].
  intros u regs'. rewrite Hl. apply HQ.
Qed.

(** The regions in [l] are registered, those that are not zero. *)
Definition holding R (b : bool) (ids : list bool) (l : list Z) s : Prop :=
  ∃ k regs, length l = 3%nat ∧ Forall (λ d, d = 0 ∨ MAJOR d ≠ 0) l ∧
    regs ≡ₚ filter (λ d, MAJOR d ≠ 0) l ++ R ∧ s = MSt k b ids (devts l) regs.

Lemma chardev_init_loop_spec R b ids n l1 (Q : unit → mst → Prop) (E : Z → mst → Prop) s :
  holding R b ids (l1 ++ replicate n 0) s → Forall (λ d, MAJOR d ≠ 0) l1 →
  (∀ u s' l, Forall (λ d, MAJOR d ≠ 0) l → holding R b ids l s' → Q u s') →
  (∀ e s' l, holding R b ids l s' → E e s') →
  wp (chardev_init_loop (length l1) n) Q E s.
Proof.
  revert l1 s. induction n as [|n IH]; intros l1 s Hs Hl1 HQ HE; cbn [chardev_init_loop]; wsteps.
  { eapply HQ; [|exact Hs]. by rewrite app_nil_r. }
  pose proof Hs as (k & regs & H3 & Hd & Hr & ->). cbn [m_k m_bus m_ids m_chrdevs m_regions].
  assert (∃ c, devts (l1 ++ replicate (S n) 0) !! length l1 = Some (ChardevInfo c 0) ∧
    ∀ y, alter (λ c, ChardevInfo (ci_name c) y) (length l1) (devts (l1 ++ replicate (S n) 0)) =
      devts ((l1 ++ [y]) ++ replicate n 0)) as (c & -> & Halter).
  { rewrite length_app, length_replicate in H3. rewrite replicate_S.
    destruct l1 as [|x1 [|x2 [|x3 l1]]]; [..|cbn in H3; lia]; cbn in H3;
      (destruct n as [|[|[|n]]]; try lia); eexists; (split; [reflexivity|]); intros; reflexivity. }
  apply wp_access; [|done]. intros ? [= <-]. wsteps. unfold wpg at 1. cbn [m_k m_bus m_ids m_chrdevs m_regions ci_name].
  pose proof (chrdev_region_ok c k) as Hok. destruct (md_alloc_chrdev_region c k) as [[d|e] k'] eqn:Ha.
  2: { wsteps. eapply HE. by exists k', regs. }
  cbn in Hok. unfold set_regions, set_devt. wsteps. cbn [m_k m_bus m_ids m_chrdevs m_regions].
  rewrite Halter. replace (S (length l1)) with (length (l1 ++ [d])) by (rewrite length_app; cbn; lia).
  assert (length ((l1 ++ [d]) ++ replicate n 0) = 3%nat) as H3'
    by (rewrite !length_app, length_replicate in *; cbn in *; lia).
  apply IH; [|by apply Forall_app_2; [|apply list.Forall_singleton]|done..].
  exists k', (d :: regs). split; [done|]. split; [|split; [|done]].
  - apply Forall_app_2; [|apply Forall_replicate; by left].
    apply Forall_app_2; [|apply list.Forall_singleton; by right]. eapply list.Forall_impl; [exact Hl1|by right].
  - rewrite Hr, !list.filter_app, filter_cons_True, filter_nil by done.
    change (replicate (S n) 0) with (0 :: replicate n 0).
    rewrite filter_cons_False by auto. by rewrite <-!app_assoc, Permutation_middle.
Qed.

(** Loading the module either succeeds with the bus registered, the ids
    initialised and one region for each kind of device, or fails, at whichever step,
    with nothing registered; and unloading it after a success gives up exactly the
    regions that loading registered. *)
Lemma module_init_exit R s :
  unloaded R s →
  wp dfl_fpga_init
    (λ _ s', (∃ l, Forall (λ d, MAJOR d ≠ 0) l ∧ holding R true (replicate 3 true) l s') ∧
       wp dfl_fpga_exit (λ _, unloaded R) (λ _ _, False) s')
    (λ _ s', unloaded R s') s.
Proof.
  intros (k & R' & HR & ->). unfold dfl_fpga_init. wsteps. unfold wpg at 1. cbn [m_k m_bus m_ids m_chrdevs m_regions].
  destruct (md_bus_register k) as [ret k']. wsteps; intros _; [|by exists k', R'].
  unfold set_bus, dfl_ids_init, set_m_ids. wsteps. cbn [m_k m_bus m_ids m_chrdevs m_regions].
  unfold dfl_chardev_init. wsteps.
  apply (chardev_init_loop_spec R true (replicate 3 true) 3 []).
  - exists k', R'. split; [done|]. split; [by repeat (constructor; [by left|])|]. by split.
  - constructor.
  - intros _ s' l Hl (k'' & regs & H3 & Hd & Hr & ->). split; [by exists l; split; [|exists k'', regs]|].
    unfold dfl_fpga_exit. wsteps. apply (chardev_uinit_spec _ _ _ R); [done..|].
    intros _ regs' Hr'. unfold dfl_ids_destroy, set_m_ids, set_bus. wsteps. by exists k'', regs'.
  - intros e s' l (k'' & regs & H3 & Hd & Hr & ->).
    apply (chardev_uinit_spec _ _ _ R); [done..|]. intros _ regs' Hr'.
    unfold dfl_ids_destroy, set_m_ids, set_bus. wsteps. by exists k'', regs'.
Qed.
End Facts.

(** ** An example: a kernel that gives out consecutive major numbers, from 240 on *)
#[local] Instance demo_mod_kernel : ModKernel := {
  mdk := Z;
  md_alloc_chrdev_region name k := (if (0 <? k) && (k <? 243) then inl (MKDEV k 0) else inr (- EBUSY), k + 1);
  md_bus_register k := (0, k);
}.
Lemma major_mkdev k : MAJOR (MKDEV k 0) = k.
Proof.
  unfold MAJOR, MKDEV. rewrite Z.lor_0_r, Z.shiftr_shiftl_l by done. by rewrite Z.shiftl_0_r.
Qed.
#[local] Instance demo_mod_kernel_ok : ModKernelOk.
Proof.
  intros name k. cbn. destruct (Z.ltb_spec 0 k), (Z.ltb_spec k 243); cbn; try done. rewrite major_mkdev. lia.
Qed.
(** The last of the three regions cannot be registered from 241 on. *)
Lemma demo_init_fails :
  ∃ s, dfl_fpga_init (MSt 241 false (replicate 3 false) dfl_chrdevs [7]) = Done (Err (- EBUSY), s) ∧
    m_regions s = [7] ∧ m_chrdevs s = dfl_chrdevs.
Proof. eexists. split; [vm_compute; reflexivity|]. by split. Qed.
Lemma demo_unloaded : unloaded [7] (MSt 240 false (replicate 3 false) dfl_chrdevs [7]).
Proof. exists 240, [7]. by split. Qed.
Lemma module_init_exit_witness :
  ∃ s', dfl_fpga_init (MSt 240 false (replicate 3 false) dfl_chrdevs [7]) = Done (Val tt, s') ∧
    (∃ l, Forall (λ d, MAJOR d ≠ 0) l ∧ holding [7] true (replicate 3 true) l s') ∧
    wp dfl_fpga_exit (λ _, unloaded [7]) (λ _ _, False) s'.
Proof.
  eexists. split; [vm_compute; reflexivity|].
  refine (wp_elim dfl_fpga_init _ _ _ _ _ (module_init_exit [7] _ demo_unloaded) _).
  vm_compute. reflexivity.
Defined.
