(* ===== verification/AreaTree.v ===== *)
(** * Trees of areas

    The drivers that keep buffers for a device use the kernel's red-black tree, in
    the order of an address ([key]), to find the buffer that holds an area.  The
    walks down the tree are the same in each driver; here they are for any type of
    buffer, with the properties of a tree in strict order. *)
From stdpp Require Import list sets sorting.
From S2P Require Import Prelude.

(** The colours of the nodes are the business of the library. *)
Inductive rb_tree (R : Type) :=
| RbLeaf
| RbNode (rb_left : rb_tree R) (this : R) (rb_right : rb_tree R).
Arguments RbLeaf {R}.
Arguments RbNode {R} _ _ _.
Fixpoint inorder {R} (t : rb_tree R) : list R :=
  match t with
  | RbLeaf => []
  | RbNode l this r => inorder l ++ this :: inorder r
  end.

(** ** Strict order of the addresses *)
Section Order.
Context {R : Type} (key : R → Z).
Implicit Types (r : R) (l : list R) (t : rb_tree R).
Definition key_lt r1 r2 : Prop := key r1 < key r2.
Definition key_sorted l : Prop := StronglySorted key_lt l.

Lemma key_sorted_app l1 l2 :
  key_sorted (l1 ++ l2) ↔
  key_sorted l1 ∧ key_sorted l2 ∧ ∀ a b, a ∈ l1 → b ∈ l2 → key a < key b.
Proof.
  unfold key_sorted. induction l1 as [|x l1 IH]; cbn.
  { split; [intros ?; split_and!; [constructor|done|set_solver]|tauto]. }
  split.
  - intros [Hs Hx]%StronglySorted_inv. apply IH in Hs as (H1 & H2 & H3).
    apply list.Forall_app in Hx as [Hx1 Hx2]. split_and!; [by constructor|done|].
    intros a b [->|Ha]%elem_of_cons Hb; [|by apply H3].
    by apply (proj1 (list.Forall_forall _ _) Hx2).
  - intros ([H1 Hx]%StronglySorted_inv & H2 & H3). constructor.
    + apply IH. split_and!; [done..|]. intros a b Ha. apply H3. by right.
    + apply list.Forall_app. split; [done|]. apply list.Forall_forall. intros b Hb.
      apply H3; [by left|done].
Qed.
Lemma key_sorted_cons r l :
  key_sorted (r :: l) ↔ key_sorted l ∧ ∀ b, b ∈ l → key r < key b.
Proof.
  rewrite (key_sorted_app [r] l). split.
  - intros (_ & Hl & Hx). split; [done|]. intros b. apply Hx. set_solver.
  - intros (Hl & Hx). split_and!; [|done|].
    + constructor; constructor.
    + intros a b ->%list_elem_of_singleton. apply Hx.
Qed.
(** In order, a node splits its subtree. *)
Lemma key_sorted_node l1 r l2 :
  key_sorted (l1 ++ r :: l2) ↔
  key_sorted l1 ∧ key_sorted l2 ∧ (∀ a, a ∈ l1 → key a < key r) ∧
  (∀ b, b ∈ l2 → key r < key b).
Proof.
  rewrite key_sorted_app, key_sorted_cons. split.
  - intros (H1 & (H2 & H3) & H4). split_and!; [done..| |done]. intros a Ha. apply H4; [done|by left].
  - intros (H1 & H2 & H3 & H4). split_and!; [done..|].
    intros a b Ha [->|Hb]%elem_of_cons; [by apply H3|]. specialize (H3 a Ha). specialize (H4 b Hb). lia.
Qed.
Lemma key_sorted_delete i r l : l !! i = Some r → key_sorted l → key_sorted (delete i l).
Proof.
  intros Hr Hs.
  pose proof (take_drop_middle _ _ _ Hr) as He. rewrite <- He in Hs.
  rewrite key_sorted_node in Hs. destruct Hs as (H1 & H2 & H3 & H4).
  rewrite delete_take_drop. apply key_sorted_app. split_and!; [done..|].
  intros a b Ha Hb. specialize (H3 a Ha). specialize (H4 b Hb). lia.
Qed.
Lemma key_sorted_inj l i j a b :
  key_sorted l → l !! i = Some a → l !! j = Some b → key a = key b → i = j ∧ a = b.
Proof.
  revert i j. induction l as [|x l IH]; intros [|i] [|j] Hs Hi Hj He; try done; cbn in Hi, Hj;
    apply key_sorted_cons in Hs as [Hs Hx].
  - split; [done|congruence].
  - injection Hi as ->. apply list_elem_of_lookup_2 in Hj. specialize (Hx _ Hj). lia.
  - injection Hj as ->. apply list_elem_of_lookup_2 in Hi. specialize (Hx _ Hi). lia.
  - destruct (IH i j Hs Hi Hj He) as [-> ->]. done.
Qed.

End Order.

(** ** Walks *)
Section AreaTree.
Context {R : Type} (key len : R → Z).

(** Whether the area is in the buffer, or begins it if it is empty; the sums are of
    64 bits. *)
Definition area_check (region : R) (addr size : Z) : bool :=
  if (size =? 0) && negb (key region =? addr) then false
  else (key region <=? addr) && (u64 (addr + size) <=? u64 (len region + key region)).
(** The walk down to the place of a new buffer, and the tree with the buffer linked
    there; [None] if one there holds it. *)
Fixpoint area_link (t : rb_tree R) (region : R) : option (rb_tree R) :=
  match t with
  | RbLeaf => Some (RbNode RbLeaf region RbLeaf)
  | RbNode l this r =>
      if area_check this (key region) (len region) then None
      else if key region <? key this then
        (λ l', RbNode l' this r) <$> area_link l region
      else if key this <? key region then
        (λ r', RbNode l this r') <$> area_link r region
      else None
  end.
(** The walk to the buffer that holds an area; [before] nodes come before the
    subtree. *)
Fixpoint area_find (t : rb_tree R) (addr size : Z) (before : nat) : option (nat * R) :=
  match t with
  | RbLeaf => None
  | RbNode l region r =>
      let here := (before + length (inorder l))%nat in
      if area_check region addr size then Some (here, region)
      else if addr <? key region then area_find l addr size before
      else if key region <? addr then area_find r addr size (S here)
      else None
  end.

Implicit Types (r : R) (l : list R) (t : rb_tree R).
Definition area_ok r : Prop := 0 ≤ key r ∧ 0 < len r ∧ key r + len r < 2 ^ 64.

(** What the comparison means for a region and an area that do not wrap. *)
Lemma area_check_spec r iova size :
  area_ok r → 0 ≤ iova → 0 ≤ size → iova + size < 2 ^ 64 →
  area_check r iova size = true ↔
  if decide (size = 0) then key r = iova
  else key r ≤ iova ∧ iova + size ≤ key r + len r.
Proof.
  intros (Hi & Hl & Hs) H1 H2 H3. unfold area_check. width_norm.
  destruct (decide (size = 0)) as [->|Hz].
  - rewrite Z.eqb_refl. cbn [andb]. destruct (Z.eqb_spec (key r) iova) as [He|He]; cbn [negb].
    + split; [done|]. intros _. apply andb_true_iff. split; lia.
    + done.
  - apply Z.eqb_neq in Hz. rewrite Hz. cbn [andb]. rewrite andb_true_iff. lia.
Qed.

Lemma area_link_spec t r t' :
  key_sorted key (inorder t) → area_link t r = Some t' →
  ∃ l1 l2, inorder t = l1 ++ l2 ∧ inorder t' = l1 ++ r :: l2 ∧ key_sorted key (inorder t').
Proof.
  revert t'. induction t as [|tl IHl this tr IHr]; intros t' Hs Hlink; cbn in Hs, Hlink |- *.
  { injection Hlink as <-. exists [], []. split_and!; [done..|]. constructor; constructor. }
  destruct (area_check _ _ _); [done|].
  apply key_sorted_node in Hs as (Hsl & Hsr & Hltl & Hltr).
  destruct (Z.ltb_spec (key r) (key this)) as [Hlt|Hge]; [|
    destruct (Z.ltb_spec (key this) (key r)) as [Hgt|Hle]; [|done]].
  - destruct (area_link tl r) as [l'|] eqn:E; [|done]. injection Hlink as <-.
    destruct (IHl _ Hsl eq_refl) as (l1 & l2 & Ht & Ht' & Hs'). cbn.
    exists l1, (l2 ++ this :: inorder tr). rewrite Ht, Ht', <- !app_assoc. split_and!; [done..|].
    rewrite Ht' in Hs'.
    change (l1 ++ (r :: l2) ++ this :: inorder tr) with (l1 ++ (r :: l2) ++ ([this] ++ inorder tr)).
    rewrite (assoc (++)). apply key_sorted_node. split_and!; [done..| |done].
    intros a Ha. rewrite Ht in Hltl. apply elem_of_app in Ha as [Ha|[->|Ha]%elem_of_cons]; [|lia|];
      apply Hltl; set_solver.
  - destruct (area_link tr r) as [r'|] eqn:E; [|done]. injection Hlink as <-.
    destruct (IHr _ Hsr eq_refl) as (l1 & l2 & Ht & Ht' & Hs'). cbn.
    exists (inorder tl ++ this :: l1), l2. rewrite Ht, Ht', <- !app_assoc. split_and!; [done..|].
    apply key_sorted_node. rewrite <- Ht'. split_and!; [done..|].
    intros b. rewrite Ht'. rewrite Ht in Hltr.
    intros [Hb|[->|Hb]%elem_of_cons]%elem_of_app; [|done|]; apply Hltr; set_solver.
Qed.
(** An insertion fails only where a region holds the area or starts with it. *)
Lemma area_link_None t r :
  area_link t r = None →
  ∃ this, this ∈ inorder t ∧
    (area_check this (key r) (len r) = true ∨ key this = key r).
Proof.
  induction t as [|tl IHl this tr IHr]; cbn; [done|].
  destruct (area_check _ _ _) eqn:E; [intros _; exists this; set_solver|].
  destruct (Z.ltb_spec (key r) (key this)); [|destruct (Z.ltb_spec (key this) (key r))].
  - destruct (area_link tl r); [done|]. intros _. destruct (IHl eq_refl) as (x & ? & ?).
    exists x. set_solver.
  - destruct (area_link tr r); [done|]. intros _. destruct (IHr eq_refl) as (x & ? & ?).
    exists x. set_solver.
  - intros _. exists this. split; [set_solver|]. right. lia.
Qed.

Lemma area_find_sound t iova size before i r :
  area_find t iova size before = Some (i, r) →
  (before ≤ i)%nat ∧ inorder t !! (i - before)%nat = Some r ∧ area_check r iova size = true.
Proof.
  revert before. induction t as [|tl IHl this tr IHr]; intros before; cbn; [done|].
  destruct (area_check this _ _) eqn:E.
  { intros [= <- <-]. split_and!; [lia| |done].
    rewrite lookup_app_r by lia. by replace (before + _ - before - _)%nat with 0%nat by lia. }
  destruct (iova <? key this); [|destruct (key this <? iova); [|done]].
  - intros (Hb & Hl & ?)%IHl. split_and!; [done| |done]. by apply lookup_app_l_Some.
  - intros (Hb & Hl & ?)%IHr. split_and!; [lia| |done].
    rewrite lookup_app_r by lia. replace (i - before - length (inorder tl))%nat
      with (S (i - S (before + length (inorder tl))))%nat by lia. done.
Qed.
(** What the walk skips starts behind the address, or ends before a region that
    starts at or before it. *)
Lemma area_find_None t iova size before r :
  key_sorted key (inorder t) → area_find t iova size before = None →
  r ∈ inorder t → area_check r iova size = true →
  ∃ this, this ∈ inorder t ∧ key r < key this ≤ iova ∧ area_check this iova size = false.
Proof.
  revert before. induction t as [|tl IHl this tr IHr]; intros before Hs; cbn in Hs |- *; [set_solver|].
  apply key_sorted_node in Hs as (Hsl & Hsr & Hltl & Hltr).
  destruct (area_check this _ _) eqn:E; [done|].
  intros Hf Hr Hc. assert (key r ≤ iova) as Hle.
  { unfold area_check in Hc. destruct (_ && negb _); [done|]. apply andb_true_iff in Hc. lia. }
  apply elem_of_app in Hr as [Hr|[->|Hr]%elem_of_cons]; [|congruence|].
  - specialize (Hltl _ Hr). destruct (Z.ltb_spec iova (key this)).
    + destruct (IHl _ Hsl Hf Hr Hc) as (x & ? & ? & ?). exists x. set_solver.
    + exists this. split_and!; [set_solver|lia|lia|done].
  - specialize (Hltr _ Hr). destruct (Z.ltb_spec iova (key this)); [lia|].
    destruct (Z.ltb_spec (key this) iova); [|lia].
    destruct (IHr _ Hsr Hf Hr Hc) as (x & ? & ? & ?). exists x. set_solver.
Qed.

(** No two regions share an address. *)
Definition disjoint_areas l : Prop :=
  ∀ i j a b, (i < j)%nat → l !! i = Some a → l !! j = Some b → key a + len a ≤ key b.
Lemma disjoint_areas_elem l a b :
  key_sorted key l → disjoint_areas l → a ∈ l → b ∈ l → key a < key b →
  key a + len a ≤ key b.
Proof.
  intros Hs Hd [i Hi]%list_elem_of_lookup_1 [j Hj]%list_elem_of_lookup_1 Hlt.
  destruct (lt_eq_lt_dec i j) as [[Hij| ->]|Hji]; [by apply (Hd i j)| |].
  - assert (a = b) as -> by congruence. lia.
  - pose proof (take_drop_middle _ _ _ Hi) as He. rewrite <- He in Hs.
    apply key_sorted_node in Hs as (_ & _ & Hl & _).
    assert (b ∈ take i l) as Hb; [|specialize (Hl _ Hb); lia].
    apply list_elem_of_lookup. exists j. by rewrite lookup_take_lt.
Qed.

(** A search for an area finds, when the buffers are in order and disjoint, the one
    that holds all of the area, or the one that starts at the address when the size
    is zero, whenever there is one, and nothing otherwise.  With size zero this
    needs no disjointness. *)
Lemma area_find_exact t iova size r :
  key_sorted key (inorder t) → Forall area_ok (inorder t) →
  size = 0 ∨ disjoint_areas (inorder t) →
  0 ≤ iova → 0 ≤ size → iova + size < 2 ^ 64 →
  ((∃ i, area_find t iova size 0 = Some (i, r) ∧ inorder t !! i = Some r) ↔
   r ∈ inorder t ∧
   if decide (size = 0) then key r = iova
   else key r ≤ iova ∧ iova + size ≤ key r + len r).
Proof.
  intros Hs Hok Hd Hi Hz Hsp.
  assert (∀ x, x ∈ inorder t → area_ok x) as Hok' by (by apply list.Forall_forall).
  split.
  - intros (i & Hf & Hl). apply area_find_sound in Hf as (_ & _ & Hc).
    apply list_elem_of_lookup_2 in Hl. split; [done|]. by apply area_check_spec in Hc; auto.
  - intros [Hr Hc]. pose proof Hc as Hc'. apply area_check_spec in Hc; [|by auto..].
    destruct (area_find t iova size 0) as [[i x]|] eqn:Hf.
    + apply area_find_sound in Hf as (_ & Hl & Hx). rewrite Nat.sub_0_r in Hl.
      exists i. assert (x = r) as ->; [|done].
      pose proof (list_elem_of_lookup_2 _ _ _ Hl) as Hxin. apply area_check_spec in Hx; [|by auto..].
      destruct (list_elem_of_lookup_1 _ _ Hr) as [j Hj].
      enough (key x = key r) as He by by destruct (key_sorted_inj _ _ _ _ _ _ Hs Hl Hj He).
      destruct (decide (size = 0)) as [|Hnz]; [lia|]. destruct Hd as [|Hd]; [done|].
      destruct (Z.lt_trichotomy (key x) (key r)) as [Hlt|[?|Hlt]]; [|done|].
      * pose proof (disjoint_areas_elem _ _ _ Hs Hd Hxin Hr Hlt). lia.
      * pose proof (disjoint_areas_elem _ _ _ Hs Hd Hr Hxin Hlt). lia.
    + destruct (area_find_None _ _ _ _ _ Hs Hf Hr Hc) as (x & Hx & Hlt & Hxc).
      exfalso. destruct (decide (size = 0)) as [|Hnz]; [lia|]. destruct Hd as [|Hd]; [done|].
      pose proof (disjoint_areas_elem _ _ _ Hs Hd Hr Hx (proj1 Hlt)). lia.
Qed.

End AreaTree.
