(* ===== verification/DmaPages.v ===== *)
(** * Pages of user space for a device

    What the drivers that map buffers of user space share: accounting and pinning
    pages, mapping them for DMA, and the tree of the regions ([AreaTree]); with what
    these do to the pages that are accounted, pinned and mapped. *)
From stdpp Require Import gmap gmultiset sorting.
From S2P Require Import Prelude AreaTree.

(** A DMA mapping: address, length and direction. *)
Abbreviation dma_area := (Z * Z * Z)%type.

(** The kernel: pages, memory, accounting of locked pages (a status), pinning (the
    pages, perhaps fewer than asked for, or an error), mapping for DMA ([None] is a
    mapping error), and the two operations of the tree library. *)
Class DmaKernel := {
  dk : Type;
  PAGE_SHIFT : Z;
  dk_alloc : dk → bool * dk;
  dk_account : Z → dk → Z * dk;
  dk_pin : Z → Z → bool → dk → (list Z + Z) * dk;
  dk_map : Z → Z → Z → dk → option Z * dk;
  rb_insert_color {R} : rb_tree R → rb_tree R;
  rb_erase {R} : nat → rb_tree R → rb_tree R;
}.
(** What is documented of these: errors are negative numbers; no more pages are
    pinned than asked for; a mapping lies in the address space; balancing keeps the
    order of the nodes; erasing takes out the one node. *)
Class DmaKernelOk `{DmaKernel} := {
  page_shift_pos : 0 ≤ PAGE_SHIFT < 32;
  pin_at_most a n w k : match (dk_pin a n w k).1 with inl ps => Z.of_nat (length ps) ≤ Z.max 0 n | inr e => e < 0 end;
  map_in_space p n d k a : (dk_map p n d k).1 = Some a → 0 ≤ a ∧ a + n < 2 ^ 64;
  rb_insert_color_order {R} (t : rb_tree R) : inorder (rb_insert_color t) = inorder t;
  rb_erase_order {R} i (t : rb_tree R) : inorder (rb_erase i t) = delete i (inorder t);
}.

Section Pages.
Context `{DmaKernel}.
(** The type of the regions. *)
Context {R : Type}.

(** [d_locked] pages are accounted to the process, [d_pins] are the pages pinned
    and [d_maps] the mappings, both as often as they were made. *)
Record dst_of := DSt {
  d_k : dk;
  d_tree : rb_tree R;
  d_locked : Z;
  d_pins : gmultiset Z;
  d_maps : gmultiset dma_area;
}.
Definition dk_op {A} (f : dk → A * dk) : M dst_of A := λ s,
  let (a, k) := f (d_k s) in Done (Val a, DSt k (d_tree s) (d_locked s) (d_pins s) (d_maps s)).
Definition set_tree (t : rb_tree R) : M dst_of unit :=
  modify (λ s, DSt (d_k s) t (d_locked s) (d_pins s) (d_maps s)).
Definition add_locked (n : Z) : M dst_of unit :=
  modify (λ s, DSt (d_k s) (d_tree s) (d_locked s + n) (d_pins s) (d_maps s)).
Definition set_pins (f : gmultiset Z → gmultiset Z) : M dst_of unit :=
  modify (λ s, DSt (d_k s) (d_tree s) (d_locked s) (f (d_pins s)) (d_maps s)).
Definition set_maps (f : gmultiset dma_area → gmultiset dma_area) : M dst_of unit :=
  modify (λ s, DSt (d_k s) (d_tree s) (d_locked s) (d_pins s) (f (d_maps s))).

Definition PFN_DOWN (x : Z) : Z := Z.shiftr x PAGE_SHIFT.
Definition PAGE_ALIGNED (x : Z) : bool := x mod Z.shiftl 1 PAGE_SHIFT =? 0.

(** [account_locked_vm(mm, n, inc)]: counting down does not fail. *)
Definition account_locked_vm (n : Z) (inc : bool) : M dst_of Z :=
  if inc then
    ret ← dk_op (dk_account n);
    (if ret =? 0 then add_locked n else mret tt) ;;
    mret ret
  else add_locked (- n) ;; mret 0.
Definition kalloc_ok : M dst_of bool := dk_op dk_alloc.
(** [pin_user_pages_fast] and [unpin_user_pages], for the first [n] pages, [n] an
    [unsigned long]. *)
Definition pin_user_pages_fast (addr n : Z) (write : bool) : M dst_of (list Z + Z) :=
  r ← dk_op (dk_pin addr n write);
  (match (r : list Z + Z) with inl ps => set_pins (λ m, m ⊎ list_to_set_disj ps) | inr _ => mret tt end) ;;
  mret r.
Definition unpin_user_pages (ps : list Z) (n : Z) : M dst_of unit :=
  ps ← access (if u64 n <=? Z.of_nat (length ps) then Some (take (Z.to_nat (u64 n)) ps) else None);
  set_pins (λ m, m ∖ list_to_set_disj ps).
(** [dma_map_page] and [dma_unmap_page]: the parameters of the second have to be
    those of the first. *)
Definition dma_map_page (pfn len dir : Z) : M dst_of (option Z) :=
  r ← dk_op (dk_map pfn len dir);
  (match (r : option Z) with Some a => set_maps (λ m, m ⊎ {[+ (a, len, dir) +]}) | None => mret tt end) ;;
  mret r.
Definition dma_unmap_page (iova len dir : Z) : M dst_of unit :=
  set_maps (λ m, m ∖ {[+ (iova, len, dir) +]}).

(** The pages from [i] on, [n] steps. *)
(* drivers/fpga/dfl-afu-dma-region.c:172-175 afu_dma_check_continuous_pages *)
Fixpoint continuous_loop (pages : list Z) (i n : nat) : M dst_of bool :=
  match n with
  | O => mret true
  | S n =>
      p ← access (pages !! i);
      q ← access (pages !! S i);
      if negb (p + 1 =? q) then mret false else continuous_loop pages (S i) n
  end.
(** ** Kernels before 5.3: the accounting of the backport

    [limit] is the limit on locked pages, or none for a privileged process. *)

(* drivers/fpga/dfl-dma-cxl-common.h:8-43 afu_dma_adjust_locked_vm *)
Definition afu_dma_adjust_locked_vm (has_mm : bool) (limit : option Z) (npages : Z) (incr : bool) : M dst_of Z :=
  if negb has_mm then mret 0 else
  s ← get;
  if incr then
    let locked := u64 (d_locked s + npages) in
    if match limit with Some l => l <? locked | None => false end then mret (- ENOMEM)
    else add_locked npages ;; mret 0
  else
    let npages := if d_locked s <? npages then d_locked s else npages in
    add_locked (- npages) ;; mret 0.

End Pages.
#[global] Arguments dst_of {_} R.
#[global] Arguments DSt {_ R} _ _ _ _ _.

(** ** Properties *)
Section Frames.
Context `{DmaKernelOk}.
Lemma pfn_down_range len : is_u64 len → 0 ≤ PFN_DOWN len < 2 ^ 64.
Proof.
  intros [? ?]. unfold PFN_DOWN. pose proof page_shift_pos. rewrite Z.shiftr_div_pow2 by lia.
  split; [apply Z.div_pos; lia|]. apply Z.div_lt_upper_bound; [lia|]. nia.
Qed.
Lemma pfn_down_aligned len : PAGE_ALIGNED len = true → 0 < len → 0 < PFN_DOWN len.
Proof.
  unfold PAGE_ALIGNED, PFN_DOWN. pose proof page_shift_pos.
  rewrite Z.shiftl_1_l, Z.shiftr_div_pow2 by lia. intros Ha%Z.eqb_eq Hl.
  pose proof (Z.div_mod len (2 ^ PAGE_SHIFT)). 
  assert (0 ≤ len / 2 ^ PAGE_SHIFT) by (apply Z.div_pos; lia). nia.
Qed.
End Frames.

Section PageFacts.
Context `{DmaKernelOk} {R : Type}.
Implicit Types (s : dst_of R).

(** The same but for the kernel's own state. *)
Definition same_but_kernel s s' : Prop :=
  s' = DSt (d_k s') (d_tree s) (d_locked s) (d_pins s) (d_maps s).

Lemma disj_union_difference_r {A} `{Countable A} (X Y : gmultiset A) : (X ⊎ Y) ∖ Y = X.
Proof. multiset_solver. Qed.

(** ** The kernel's calls *)
Lemma dk_op_spec {A} (f : dk → A * dk) s (Q : A → dst_of R → Prop) E :
  (∀ k, Q (f (d_k s)).1 (DSt k (d_tree s) (d_locked s) (d_pins s) (d_maps s))) →
  wp (dk_op f) Q E s.
Proof. intros HQ. unfold wpg, dk_op. specialize (HQ (f (d_k s)).2). by destruct (f (d_k s)). Qed.

Lemma account_up_spec n s (Q : Z → dst_of R → Prop) E :
  (∀ ret k, Q ret (DSt k (d_tree s) (if ret =? 0 then d_locked s + n else d_locked s) (d_pins s) (d_maps s))) →
  wp (account_locked_vm n true) Q E s.
Proof.
  intros HQ. unfold account_locked_vm. wstep. apply dk_op_spec. intros k.
  specialize (HQ (dk_account n (d_k s)).1 k).
  destruct (_ =? 0) eqn:E0; unfold add_locked; wsteps; done.
Qed.
Lemma account_down_spec n s (Q : unit → dst_of R → Prop) E :
  Q tt (DSt (d_k s) (d_tree s) (d_locked s - n) (d_pins s) (d_maps s)) →
  wp (_ ← account_locked_vm n false; mret tt) Q E s.
Proof. intros HQ. unfold account_locked_vm, add_locked. wsteps. by rewrite Z.add_opp_r. Qed.

Lemma pin_fast_spec a n w s (Q : list Z + Z → dst_of R → Prop) E :
  0 ≤ n →
  (∀ ps k, Z.of_nat (length ps) ≤ n →
     Q (inl ps) (DSt k (d_tree s) (d_locked s) (d_pins s ⊎ list_to_set_disj ps) (d_maps s))) →
  (∀ e k, e < 0 → Q (inr e) (DSt k (d_tree s) (d_locked s) (d_pins s) (d_maps s))) →
  wp (pin_user_pages_fast a n w) Q E s.
Proof.
  intros Hn HQ HE. unfold pin_user_pages_fast. wstep. apply dk_op_spec. intros k.
  pose proof (pin_at_most a n w (d_k s)) as Hp.
  destruct (dk_pin a n w (d_k s)).1 as [ps|e]; unfold set_pins; wsteps; [apply HQ; lia|by apply HE].
Qed.
Lemma unpin_spec ps s (Q : unit → dst_of R → Prop) E :
  Z.of_nat (length ps) < 2 ^ 64 →
  Q tt (DSt (d_k s) (d_tree s) (d_locked s) (d_pins s ∖ list_to_set_disj ps) (d_maps s)) →
  wp (unpin_user_pages ps (Z.of_nat (length ps))) Q E s.
Proof.
  intros Hl HQ. unfold unpin_user_pages. rewrite u64_small by (unfold is_u64; lia).
  rewrite Z.leb_refl, Nat2Z.id, firstn_all.
  unfold set_pins. cbn [access]. wsteps. done.
Qed.

(** The frames of the pages are consecutive. *)
Definition consecutive (ps : list Z) : Prop :=
  ∀ j p q, ps !! j = Some p → ps !! S j = Some q → q = p + 1.
Lemma continuous_loop_spec ps i n s :
  (i + n < length ps)%nat →
  wp (continuous_loop ps i n)
     (λ b s', s' = s ∧ (b = true → ∀ j p q, (i ≤ j < i + n)%nat → ps !! j = Some p → ps !! S j = Some q → q = p + 1) ∧
        (b = false → ¬ consecutive ps))
     (λ _ _, False) s.
Proof.
  revert i. induction n as [|n IH]; intros i Hi; cbn [continuous_loop].
  { wsteps. split_and!; [done|lia|done]. }
  destruct (lookup_lt_is_Some_2 ps i ltac:(lia)) as [p Hp].
  destruct (lookup_lt_is_Some_2 ps (S i) ltac:(lia)) as [q Hq].
  rewrite Hp, Hq. cbn [access]. wsteps.
  destruct (Z.eqb_spec (p + 1) q) as [He|He]; cbn [negb].
  - eapply wp_mono; [apply IH; lia| |done]. intros b s' (-> & Ht & Hf). split_and!; [done| |done].
    intros Hb j p' q' Hj Hp' Hq'. destruct (decide (j = i)) as [->|]; [congruence|].
    apply (Ht Hb j); [lia|done..].
  - wsteps. split_and!; [done|done|]. intros _ Hc. specialize (Hc _ _ _ Hp Hq). lia.
Qed.

(** ** What the regions of a tree hold *)

(** The pages that regions have accounted and pinned. *)
Context (len : R → Z) (pages : R → list Z).
Implicit Types (r : R) (l : list R).
Fixpoint locked_by l : Z := match l with [] => 0 | r :: l => PFN_DOWN (len r) + locked_by l end.
Definition pinned_by l : gmultiset Z := list_to_set_disj (l ≫= pages).
Lemma locked_by_app l1 l2 : locked_by (l1 ++ l2) = locked_by l1 + locked_by l2.
Proof. induction l1; cbn; lia. Qed.
Lemma pinned_by_app l1 l2 : pinned_by (l1 ++ l2) = pinned_by l1 ⊎ pinned_by l2.
Proof. unfold pinned_by. by rewrite bind_app, list_to_set_disj_app. Qed.
Lemma pinned_by_cons r l : pinned_by (r :: l) = list_to_set_disj (pages r) ⊎ pinned_by l.
Proof. unfold pinned_by. by rewrite bind_cons, list_to_set_disj_app. Qed.
Lemma locked_by_middle l1 r l2 : locked_by (l1 ++ r :: l2) = locked_by (l1 ++ l2) + PFN_DOWN (len r).
Proof. rewrite !locked_by_app. cbn [locked_by]. lia. Qed.
Lemma pinned_by_middle l1 r l2 : pinned_by (l1 ++ r :: l2) = pinned_by (l1 ++ l2) ⊎ list_to_set_disj (pages r).
Proof. rewrite !pinned_by_app, pinned_by_cons. multiset_solver. Qed.
End PageFacts.
