(* ===== verification/AfuDma.v ===== *)
(** * DMA regions of an accelerator (drivers/fpga/dfl-afu-dma-region.c, dfl-afu.h)

    User space maps a page-aligned buffer for the accelerator: its pages are
    accounted, pinned and mapped, and the region is kept in a red-black tree by its
    IO virtual address, until it is unmapped or the device is closed. *)
From stdpp Require Import gmap gmultiset sorting.
From S2P Require Import Prelude DflTypes AreaTree DmaPages.

(* include/uapi/linux/fpga-dfl.h:138-138 DFL_DMA_MAP_FLAG_READ *)
Definition DFL_DMA_MAP_FLAG_READ : Z := Z.shiftl 1 0.
(* include/uapi/linux/fpga-dfl.h:139-139 DFL_DMA_MAP_FLAG_WRITE *)
Definition DFL_DMA_MAP_FLAG_WRITE : Z := Z.shiftl 1 1.

(** [enum dma_data_direction] of the kernel. *)
Definition DMA_BIDIRECTIONAL : Z := 0.
Definition DMA_TO_DEVICE : Z := 1.
Definition DMA_FROM_DEVICE : Z := 2.

(** Pages are known by their frame numbers; [None] is a NULL array. *)
(* drivers/fpga/dfl-afu.h:55-63 dfl_afu_dma_region *)
Record dfl_afu_dma_region := DmaRegion {
  dr_user_addr : Z;
  dr_length : Z;
  dr_iova : Z;
  dr_pages : option (list Z);
  dr_in_use : bool;
  dr_direction : Z;
}.
#[export] Instance dfl_afu_dma_region_eq_dec : EqDecision dfl_afu_dma_region.
Proof. solve_decision. Defined.

Abbreviation dst := (dst_of dfl_afu_dma_region).

Section Dma.
Context `{DmaKernel}.

(* drivers/fpga/dfl-afu-dma-region.c:22-27 afu_dma_region_init *)
Definition afu_dma_region_init : M dst unit := set_tree RbLeaf.

(** ** Pages *)

(** The pages pinned become the pages of the region; [npages] is an [int]. *)
(* drivers/fpga/dfl-afu-dma-region.c:93-135 afu_dma_pin_pages *)
Definition afu_dma_pin_pages (user_addr length_ direction : Z) : M dst (list Z) :=
  let npages := s32 (PFN_DOWN length_) in
  ret ← account_locked_vm npages true;
  rc ret ;;
  on_error (
    ok ← kalloc_ok;
    if negb ok then throw (- ENOMEM) else
    pinned ← pin_user_pages_fast user_addr npages (negb (direction =? DMA_TO_DEVICE));
    match (pinned : list Z + Z) with
    | inr e => throw e
    | inl pages =>
        if negb (Z.of_nat (length pages) =? npages) then
          unpin_user_pages pages (Z.of_nat (length pages)) ;;
          throw (- EFAULT)
        else mret pages
    end)
    (_ ← account_locked_vm npages false; mret tt).

(** [npages] is a [long] here. *)
(* drivers/fpga/dfl-afu-dma-region.c:145-156 afu_dma_unpin_pages *)
Definition afu_dma_unpin_pages (length_ : Z) (pages : list Z) : M dst unit :=
  let npages := PFN_DOWN length_ in
  unpin_user_pages pages npages ;;
  _ ← account_locked_vm npages false;
  mret tt.

(* drivers/fpga/dfl-afu-dma-region.c:167-178 afu_dma_check_continuous_pages *)
Definition afu_dma_check_continuous_pages (length_ : Z) (pages : list Z) : M dst bool :=
  continuous_loop pages 0 (Z.to_nat (s32 (PFN_DOWN length_) - 1)).

(** ** The tree of regions *)

(* drivers/fpga/dfl-afu-dma-region.c:189-197 dma_region_check_iova *)
Definition dma_region_check_iova (region : dfl_afu_dma_region) (iova size : Z) : bool :=
  area_check dr_iova dr_length region iova size.

(** The walk down to the place of a new region, and the tree with the region
    linked there; [None] is [-EEXIST]. *)
(* drivers/fpga/dfl-afu-dma-region.c:216-236 afu_dma_region_add *)
Definition region_link (t : rb_tree dfl_afu_dma_region) (region : dfl_afu_dma_region) : option (rb_tree dfl_afu_dma_region) :=
  area_link dr_iova dr_length t region.
(* drivers/fpga/dfl-afu-dma-region.c:208-240 afu_dma_region_add *)
Definition afu_dma_region_add (region : dfl_afu_dma_region) : M dst unit :=
  s ← get;
  match region_link (d_tree s) region with
  | None => throw (- EEXIST)
  | Some t => set_tree (rb_insert_color t)
  end.

(** A node is known by its position in the order of the tree. *)
(* drivers/fpga/dfl-afu-dma-region.c:249-258 afu_dma_region_remove *)
Definition afu_dma_region_remove (node : nat) : M dst unit :=
  s ← get;
  set_tree (rb_erase node (d_tree s)).

(** The walk; [before] nodes come before the subtree. *)
(* drivers/fpga/dfl-afu-dma-region.c:314-332 afu_dma_region_find *)
Definition region_find (t : rb_tree dfl_afu_dma_region) (iova size : Z) (before : nat) : option (nat * dfl_afu_dma_region) :=
  area_find dr_iova dr_length t iova size before.
(* drivers/fpga/dfl-afu-dma-region.c:307-338 afu_dma_region_find *)
Definition afu_dma_region_find (iova size : Z) : M dst (option (nat * dfl_afu_dma_region)) :=
  s ← get;
  mret (region_find (d_tree s) iova size 0).

(* drivers/fpga/dfl-afu-dma-region.c:347-351 afu_dma_region_find_iova *)
Definition afu_dma_region_find_iova (iova : Z) : M dst (option (nat * dfl_afu_dma_region)) :=
  afu_dma_region_find iova 0.

(** From the first node on: a node is erased before [rb_next] leaves it, so the
    next one is the first of what is left. *)
(* drivers/fpga/dfl-afu-dma-region.c:272-290 afu_dma_region_destroy *)
Fixpoint destroy_loop (fuel : nat) : M dst unit :=
  s ← get;
  match inorder (d_tree s) with
  | [] => mret tt
  | region :: _ =>
      match fuel with
      | O => nofuel
      | S fuel =>
          afu_dma_region_remove 0 ;;
          (if negb (dr_iova region =? 0) then
             dma_unmap_page (dr_iova region) (dr_length region) DMA_BIDIRECTIONAL
           else mret tt) ;;
          (match dr_pages region with
           | Some pages => afu_dma_unpin_pages (dr_length region) pages
           | None => mret tt
           end) ;;
          destroy_loop fuel
      end
  end.
(* drivers/fpga/dfl-afu-dma-region.c:266-291 afu_dma_region_destroy *)
Definition afu_dma_region_destroy (fuel : nat) : M dst unit := destroy_loop fuel.

(** ** Mapping and unmapping *)

(* drivers/fpga/dfl-afu-dma-region.c:353-370 dma_flag_to_dir *)
Definition dma_flag_to_dir (flags : Z) : Z :=
  let mask := Z.lor DFL_DMA_MAP_FLAG_READ DFL_DMA_MAP_FLAG_WRITE in
  if Z.land flags mask =? DFL_DMA_MAP_FLAG_READ then DMA_TO_DEVICE
  else if Z.land flags mask =? DFL_DMA_MAP_FLAG_WRITE then DMA_FROM_DEVICE
  else DMA_BIDIRECTIONAL.

(** The result is [*iova]. *)
(* drivers/fpga/dfl-afu-dma-region.c:384-455 afu_dma_map_region *)
Definition afu_dma_map_region (user_addr length_ flags : Z) : M dst Z :=
  if negb (PAGE_ALIGNED user_addr) || negb (PAGE_ALIGNED length_) || (length_ =? 0) then throw (- EINVAL)
  else if u64 (user_addr + length_) <? user_addr then throw (- EINVAL) else
  ok ← kalloc_ok;
  if negb ok then throw (- ENOMEM) else
  let direction := dma_flag_to_dir flags in
  pages ← afu_dma_pin_pages user_addr length_ direction;
  on_error (
    cont ← afu_dma_check_continuous_pages length_ pages;
    if negb cont then throw (- EINVAL) else
    page0 ← access (pages !! 0%nat);
    iova ← dma_map_page page0 length_ direction;
    match (iova : option Z) with
    | None => throw (- EFAULT)
    | Some iova =>
        on_error (afu_dma_region_add (DmaRegion user_addr length_ iova (Some pages) false direction))
          (dma_unmap_page iova length_ direction) ;;
        mret iova
    end)
    (afu_dma_unpin_pages length_ pages).

(* drivers/fpga/dfl-afu-dma-region.c:465-490 afu_dma_unmap_region *)
Definition afu_dma_unmap_region (iova : Z) : M dst unit :=
  region ← afu_dma_region_find_iova iova;
  match (region : option (nat * dfl_afu_dma_region)) with
  | None => throw (- EINVAL)
  | Some (node, region) =>
      if dr_in_use region then throw (- EBUSY) else
      afu_dma_region_remove node ;;
      dma_unmap_page (dr_iova region) (dr_length region) (dr_direction region) ;;
      pages ← access (dr_pages region);
      afu_dma_unpin_pages (dr_length region) pages
  end.

(** ** Kernels before 5.3: the pinning of the backport

    [get_user_pages_fast] and [put_user_pages] are the calls above. *)

(* drivers/fpga/dfl-afu-dma-region.c:30-68 afu_dma_pin_pages *)
Definition afu_dma_pin_pages_4 (has_mm : bool) (limit : option Z) (user_addr length_ direction : Z)
    : M dst (list Z) :=
  let npages := PFN_DOWN length_ in
  ret ← afu_dma_adjust_locked_vm has_mm limit npages true;
  rc ret ;;
  on_error (
    ok ← kalloc_ok;
    if negb ok then throw (- ENOMEM) else
    pinned ← pin_user_pages_fast user_addr npages (negb (direction =? DMA_TO_DEVICE));
    match (pinned : list Z + Z) with
    | inr e => unpin_user_pages [] e ;; throw e
    | inl pages =>
        if negb (Z.of_nat (length pages) =? npages) then throw (- EFAULT)
        else mret pages
    end)
    (_ ← afu_dma_adjust_locked_vm has_mm limit npages false; mret tt).

(* drivers/fpga/dfl-afu-dma-region.c:70-81 afu_dma_unpin_pages *)
Definition afu_dma_unpin_pages_4 (has_mm : bool) (limit : option Z) (length_ : Z) (pages : list Z) : M dst unit :=
  let npages := PFN_DOWN length_ in
  unpin_user_pages pages npages ;;
  _ ← afu_dma_adjust_locked_vm has_mm limit npages false;
  mret tt.
End Dma.

(** ** Properties of the DMA regions of [AfuDma]

    The invariant: every page that is accounted and pinned and every DMA mapping
    belongs to one region of the tree; and what pinning and unpinning do to it. *)

Abbreviation iova_sorted := (key_sorted dr_iova).

(** ** Resources of a list of regions *)
Section Resources.
Context `{DmaKernelOk}.
Implicit Types (r : dfl_afu_dma_region) (l : list dfl_afu_dma_region) (t : rb_tree dfl_afu_dma_region) (s : dst).

Definition region_pages r : list Z := default [] (dr_pages r).
Definition region_area r : dma_area := (dr_iova r, dr_length r, dr_direction r).
Definition maps_of l : gmultiset dma_area := list_to_set_disj (region_area <$> l).

(** A region as the code makes it: all its pages are there, and its DMA addresses
    do not wrap. *)
Record region_ok r : Prop := {
  ro_pages : dr_pages r = Some (region_pages r);
  ro_count : Z.of_nat (length (region_pages r)) = PFN_DOWN (dr_length r);
  ro_iova : 0 ≤ dr_iova r;
  ro_length : 0 < dr_length r;
  ro_space : dr_iova r + dr_length r < 2 ^ 64;
}.

(** [L] pages are accounted and [P] pinned by others. *)
Record dma_inv (L : Z) (P : gmultiset Z) s : Prop := {
  di_sorted : iova_sorted (inorder (d_tree s));
  di_regions : Forall region_ok (inorder (d_tree s));
  di_locked : d_locked s = L + locked_by dr_length (inorder (d_tree s));
  di_pins : d_pins s = P ⊎ pinned_by region_pages (inorder (d_tree s));
  di_maps : d_maps s = maps_of (inorder (d_tree s));
}.

Lemma maps_of_app l1 l2 : maps_of (l1 ++ l2) = maps_of l1 ⊎ maps_of l2.
Proof. unfold maps_of. by rewrite fmap_app, list_to_set_disj_app. Qed.
Lemma maps_of_cons r l : maps_of (r :: l) = {[+ region_area r +]} ⊎ maps_of l.
Proof. done. Qed.

(** ** Pages *)
Lemma pin_pages_spec ua len dir s :
  0 ≤ PFN_DOWN len < 2 ^ 31 →
  wp (afu_dma_pin_pages ua len dir)
     (λ ps s', Z.of_nat (length ps) = PFN_DOWN len ∧
        ∃ k, s' = DSt k (d_tree s) (d_locked s + PFN_DOWN len) (d_pins s ⊎ list_to_set_disj ps) (d_maps s))
     (λ _ s', same_but_kernel s s') s.
Proof.
  intros Hn. unfold afu_dma_pin_pages. rewrite s32_small by lia.
  wstep. apply account_up_spec. intros ret k.
  wsteps; cycle 1. { intros Hr%Z.eqb_neq. by rewrite Hr. }
  intros ->. cbn [Z.eqb]. wsteps. unfold kalloc_ok. apply dk_op_spec. intros k1.
  destruct (dk_alloc _).1; cbn [negb]; wsteps; cycle 1.
  { apply account_down_spec. cbn. unfold same_but_kernel. cbn. f_equal. lia. }
  apply pin_fast_spec; [lia| |]; cbn.
  - intros ps k2 Hl. destruct (Z.eqb_spec (Z.of_nat (length ps)) (PFN_DOWN len)) as [He|He]; cbn [negb]; wsteps.
    + eauto.
    + apply unpin_spec; [lia|]. wsteps. apply account_down_spec. cbn.
      rewrite disj_union_difference_r. unfold same_but_kernel. cbn. f_equal. lia.
  - intros e k2 _. wsteps. apply account_down_spec. unfold same_but_kernel. cbn. f_equal. lia.
Qed.

Lemma unpin_pages_spec len ps s (Q : unit → dst → Prop) E :
  Z.of_nat (length ps) = PFN_DOWN len → PFN_DOWN len < 2 ^ 64 →
  Q tt (DSt (d_k s) (d_tree s) (d_locked s - PFN_DOWN len) (d_pins s ∖ list_to_set_disj ps) (d_maps s)) →
  wp (afu_dma_unpin_pages len ps) Q E s.
Proof.
  intros Hl Hn HQ. unfold afu_dma_unpin_pages. wstep. rewrite <- Hl in *. apply unpin_spec; [done|].
  by apply account_down_spec.
Qed.

Lemma check_continuous_spec len ps s :
  0 < PFN_DOWN len < 2 ^ 31 → Z.of_nat (length ps) = PFN_DOWN len →
  wp (afu_dma_check_continuous_pages len ps)
     (λ b s', s' = s ∧ (b = true ↔ consecutive ps)) (λ _ _, False) s.
Proof.
  intros Hn Hl. unfold afu_dma_check_continuous_pages. rewrite s32_small by lia.
  eapply wp_mono; [apply continuous_loop_spec; lia| |done]. intros b s' (-> & Ht & Hf).
  split; [done|]. split.
  - intros Hb j p q Hp Hq. apply (Ht Hb j); [|done..]. apply lookup_lt_Some in Hq. lia.
  - intros Hc. destruct b; [done|]. by destruct Hf.
Qed.
End Resources.
#[global] Arguments pinned_by : simpl never.
#[global] Arguments maps_of : simpl never.
#[global] Arguments region_area : simpl never.

(** ** Searches and insertions in the tree of DMA regions

    The tree of [AfuDma] is kept in strict order of the DMA addresses; a walk down
    it finds a region when there is one. *)

Section Tree.
Context `{DmaKernelOk}.
Implicit Types (r : dfl_afu_dma_region) (l : list dfl_afu_dma_region) (t : rb_tree dfl_afu_dma_region) (s : dst).

Lemma region_ok_area r : region_ok r → area_ok dr_iova dr_length r.
Proof. by intros []. Qed.
Lemma regions_ok_area l : Forall region_ok l → Forall (area_ok dr_iova dr_length) l.
Proof. intros Hl. eapply Forall_impl; [apply region_ok_area|exact Hl]. Qed.
(** What the comparison means for a region and an area that do not wrap. *)
Lemma check_iova_spec r iova size :
  region_ok r → 0 ≤ iova → 0 ≤ size → iova + size < 2 ^ 64 →
  dma_region_check_iova r iova size = true ↔
  if decide (size = 0) then dr_iova r = iova
  else dr_iova r ≤ iova ∧ iova + size ≤ dr_iova r + dr_length r.
Proof. intros Hr. by apply area_check_spec, region_ok_area. Qed.

(** No two regions share an address. *)
Abbreviation disjoint_regions := (disjoint_areas dr_iova dr_length).

(** A search for an area finds, when the regions are in order and disjoint, the
    region that holds all of the area, or the one that starts at the address when
    the size is zero, whenever there is one, and nothing otherwise; the position it
    gives is that of the region.  With size zero this needs no disjointness. *)
Lemma region_find_exact t iova size r :
  iova_sorted (inorder t) → Forall region_ok (inorder t) →
  size = 0 ∨ disjoint_regions (inorder t) →
  0 ≤ iova → 0 ≤ size → iova + size < 2 ^ 64 →
  ((∃ i, region_find t iova size 0 = Some (i, r) ∧ inorder t !! i = Some r) ↔
   r ∈ inorder t ∧
   if decide (size = 0) then dr_iova r = iova
   else dr_iova r ≤ iova ∧ iova + size ≤ dr_iova r + dr_length r).
Proof. intros Hs Hok. apply area_find_exact; [done|]. by apply regions_ok_area. Qed.

Lemma find_iova_spec s iova (Q : option (nat * dfl_afu_dma_region) → dst → Prop) E :
  iova_sorted (inorder (d_tree s)) → Forall region_ok (inorder (d_tree s)) → 0 ≤ iova < 2 ^ 64 →
  (∀ i r, inorder (d_tree s) !! i = Some r → dr_iova r = iova → Q (Some (i, r)) s) →
  ((∀ r, r ∈ inorder (d_tree s) → dr_iova r ≠ iova) → Q None s) →
  wp (afu_dma_region_find_iova iova) Q E s.
Proof.
  intros Hs Hok Hi HS HN. unfold afu_dma_region_find_iova, afu_dma_region_find. wsteps.
  assert (∀ x, x ∈ inorder (d_tree s) → region_ok x) as Hok' by (by apply list.Forall_forall).
  destruct (region_find _ _ _ _) as [[i r]|] eqn:Hf.
  - apply area_find_sound in Hf as (_ & Hl & Hc). rewrite Nat.sub_0_r in Hl.
    pose proof (list_elem_of_lookup_2 _ _ _ Hl) as Hr.
    apply check_iova_spec in Hc; [|by auto with lia..]. by apply HS.
  - apply HN. intros r Hr He.
    destruct (area_find_None _ _ _ _ _ _ r Hs Hf Hr) as (x & Hx & Hlt & _); [|lia].
    apply check_iova_spec; by auto with lia.
Qed.
End Tree.
