(* ===== verification/AfuDmaOps.v ===== *)
(** * Mapping, unmapping and destroying DMA regions

    The operations of [AfuDma] against the invariant of [AfuDma]: mapping is
    all or nothing, unmapping undoes it, destroying empties the tree. *)
From stdpp Require Import gmap gmultiset sorting.
From S2P Require Import Prelude DflTypes AreaTree DmaPages AfuDma.

Section Ops.
Context `{DmaKernelOk}.
Implicit Types (r : dfl_afu_dma_region) (l : list dfl_afu_dma_region) (t : rb_tree dfl_afu_dma_region) (s : dst).

Lemma same_but_kernel_inv L P s s' : same_but_kernel s s' → dma_inv L P s → dma_inv L P s'.
Proof. intros -> []. by constructor. Qed.

(** A region put into the tree, or taken out of it, together with its resources. *)
Lemma dma_inv_insert L P k s t l1 l2 r :
  dma_inv L P s → inorder (d_tree s) = l1 ++ l2 → inorder t = l1 ++ r :: l2 →
  iova_sorted (inorder t) → region_ok r →
  dma_inv L P (DSt k t (d_locked s + PFN_DOWN (dr_length r))
                 (d_pins s ⊎ list_to_set_disj (region_pages r)) (d_maps s ⊎ {[+ region_area r +]})).
Proof.
  intros [Hs Hr Hl Hp Hm] He He' Hs' Hok. rewrite He in Hr, Hl, Hp, Hm.
  constructor; cbn; rewrite ?He'.
  - by rewrite <- He'.
  - apply list.Forall_app in Hr as [??]. apply list.Forall_app. split; [done|]. by constructor.
  - rewrite Hl, !(locked_by_app dr_length). cbn. lia.
  - rewrite Hp, !(pinned_by_app region_pages), (pinned_by_cons region_pages). multiset_solver.
  - rewrite Hm, !maps_of_app, maps_of_cons. multiset_solver.
Qed.
Lemma dma_inv_delete L P k s t i r :
  dma_inv L P s → inorder (d_tree s) !! i = Some r → inorder t = delete i (inorder (d_tree s)) →
  dma_inv L P (DSt k t (d_locked s - PFN_DOWN (dr_length r))
                 (d_pins s ∖ list_to_set_disj (region_pages r)) (d_maps s ∖ {[+ region_area r +]})).
Proof.
  intros [Hs Hr Hl Hp Hm] Hi He. pose proof (key_sorted_delete _ _ _ _ Hi Hs) as Hs'.
  pose proof (take_drop_middle _ _ _ Hi) as Hmid. rewrite delete_take_drop in *.
  rewrite <- Hmid in Hr, Hl, Hp, Hm. constructor; cbn; rewrite ?He.
  - done.
  - apply list.Forall_app in Hr as [? [??]%list.Forall_cons]. by apply list.Forall_app.
  - rewrite Hl, !(locked_by_app dr_length). cbn. lia.
  - rewrite Hp, !(pinned_by_app region_pages), (pinned_by_cons region_pages). multiset_solver.
  - rewrite Hm, !maps_of_app, maps_of_cons. multiset_solver.
Qed.
Lemma dma_inv_lookup L P s i r : dma_inv L P s → inorder (d_tree s) !! i = Some r → region_ok r.
Proof. intros [_ Hr _ _ _] Hi. by apply (Forall_lookup_1 _ _ _ _ Hr Hi). Qed.

Lemma region_ok_length r : region_ok r → is_u64 (dr_length r).
Proof. intros [? ? ? ? ?]. unfold is_u64. lia. Qed.
Lemma dma_map_spec p n d s (Q : option Z → dst → Prop) E :
  (∀ k, Q None (DSt k (d_tree s) (d_locked s) (d_pins s) (d_maps s))) →
  (∀ a k, 0 ≤ a → a + n < 2 ^ 64 →
     Q (Some a) (DSt k (d_tree s) (d_locked s) (d_pins s) (d_maps s ⊎ {[+ (a, n, d) +]}))) →
  wp (dma_map_page p n d) Q E s.
Proof.
  intros HN HS. unfold dma_map_page. wstep. apply dk_op_spec. intros k.
  pose proof (map_in_space p n d (d_k s)) as Hm.
  destruct (dk_map p n d (d_k s)).1 as [a|]; unfold set_maps; wsteps; [|done].
  destruct (Hm a eq_refl). by apply HS.
Qed.

(** What a mapping adds. *)
Definition mapped ua len flags iova s s' : Prop :=
  ∃ l1 l2 ps k t,
    let r := DmaRegion ua len iova (Some ps) false (dma_flag_to_dir flags) in
    region_ok r ∧ consecutive ps ∧ inorder (d_tree s) = l1 ++ l2 ∧ inorder t = l1 ++ r :: l2 ∧
    iova_sorted (inorder t) ∧
    s' = DSt k t (d_locked s + PFN_DOWN (dr_length r))
           (d_pins s ⊎ list_to_set_disj (region_pages r)) (d_maps s ⊎ {[+ region_area r +]}).

Lemma map_region_spec ua len flags s :
  iova_sorted (inorder (d_tree s)) → is_u64 len → PFN_DOWN len < 2 ^ 31 →
  wp (afu_dma_map_region ua len flags)
     (λ iova s', mapped ua len flags iova s s') (λ _ s', same_but_kernel s s') s.
Proof.
  intros Hs Hlen Hn. unfold afu_dma_map_region.
  destruct (negb (PAGE_ALIGNED ua) || negb (PAGE_ALIGNED len) || (len =? 0)) eqn:Hchk; wsteps; [by destruct s|].
  apply orb_false_iff in Hchk as [[_ Ha%negb_false_iff]%orb_false_iff Hz%Z.eqb_neq].
  destruct (_ <? ua); wsteps; [by destruct s|].
  unfold kalloc_ok. apply dk_op_spec. intros k. destruct (dk_alloc _).1; cbn [negb]; wsteps; [|done].
  assert (0 < PFN_DOWN len) by (apply pfn_down_aligned; [done|destruct Hlen; lia]).
  pose proof (pfn_down_range _ Hlen).
  eapply wp_mono; [apply pin_pages_spec; lia| |by intros e s1 ->].
  intros ps s1 (Hps & k1 & ->). cbn. wsteps.
  assert (∀ s2 k2, s2 = DSt k2 (d_tree s) (d_locked s + PFN_DOWN len) (d_pins s ⊎ list_to_set_disj ps) (d_maps s) →
     wp (afu_dma_unpin_pages len ps) (λ _ s', same_but_kernel s s')
        (λ _ s', same_but_kernel s s') s2) as Hundo.
  { intros s2 k2 ->. apply unpin_pages_spec; [done|lia|]. cbn. rewrite disj_union_difference_r.
    unfold same_but_kernel. cbn. f_equal. lia. }
  eapply wp_mono; [by apply check_continuous_spec| |done]. intros b s2 (-> & Hb).
  destruct b; cbn [negb]; wsteps; [|by eapply Hundo].
  destruct ps as [|p ps]; [cbn in Hps; lia|]. cbn [lookup list_lookup access]. wsteps.
  apply dma_map_spec; cbn; [intros k2; wsteps; by eapply Hundo|].
  intros iova k2 Hi Hsp. wsteps. unfold afu_dma_region_add. wsteps. cbn [d_tree].
  set (r := DmaRegion ua len iova (Some (p :: ps)) false (dma_flag_to_dir flags)).
  destruct (region_link (d_tree s) r) as [t|] eqn:Hlink.
  - unfold set_tree. wsteps. cbn.
    destruct (area_link_spec _ _ _ _ _ Hs Hlink) as (l1 & l2 & He & He' & Hs').
    exists l1, l2, (p :: ps), k2, (rb_insert_color t). rewrite rb_insert_color_order.
    split_and!; [|by apply Hb|done..]. constructor; cbn; try done. destruct Hlen; lia.
  - wsteps. unfold dma_unmap_page, set_maps. wsteps. cbn.
    eapply Hundo. f_equal. multiset_solver.
Qed.

Lemma mapped_inv L P ua len flags iova s s' :
  mapped ua len flags iova s s' → dma_inv L P s → dma_inv L P s'.
Proof.
  intros (l1 & l2 & ps & k & t & Hok & _ & He & He' & Hs & ->) Hinv. by eapply dma_inv_insert.
Qed.

(** C20: mapping a buffer of fewer than 2^31 pages for DMA is all or nothing, and
    keeps the invariant that the accounted pages, the pinned pages and the DMA
    mappings are exactly those of the regions of the tree.  On success one new
    region is in the tree, in its place in the order, with the address that is
    returned; its pages are physically consecutive, as many as the buffer has, and
    they are pinned, accounted and mapped in the direction of the flags.  On an
    error nothing is held that was not held before. *)
Theorem map_region_all_or_nothing L P ua len flags s :
  dma_inv L P s → is_u64 len → PFN_DOWN len < 2 ^ 31 →
  wp (afu_dma_map_region ua len flags)
     (λ iova s', dma_inv L P s' ∧ mapped ua len flags iova s s')
     (λ _ s', dma_inv L P s' ∧ same_but_kernel s s') s.
Proof.
  intros Hinv Hlen Hn. eapply wp_mono; [apply map_region_spec; [apply Hinv|done..]| |].
  - intros iova s' Hm. split; [by eapply mapped_inv; [exact Hm|]|done].
  - intros e s' Hs. split; [by eapply same_but_kernel_inv; [exact Hs|]|done].
Qed.

(** ** Unmapping *)
Definition unmapped (i : nat) r s s' : Prop :=
  inorder (d_tree s') = delete i (inorder (d_tree s)) ∧
  d_k s' = d_k s ∧ d_locked s' = d_locked s - PFN_DOWN (dr_length r) ∧
  d_pins s' = d_pins s ∖ list_to_set_disj (region_pages r) ∧ d_maps s' = d_maps s ∖ {[+ region_area r +]}.

Lemma unmap_region_spec L P iova s :
  dma_inv L P s → 0 ≤ iova < 2 ^ 64 →
  wp (afu_dma_unmap_region iova)
     (λ _ s', ∃ i r, inorder (d_tree s) !! i = Some r ∧ dr_iova r = iova ∧ dr_in_use r = false ∧
        unmapped i r s s' ∧ dma_inv L P s')
     (λ e s', s' = s ∧
        ((e = - EINVAL ∧ ∀ r, r ∈ inorder (d_tree s) → dr_iova r ≠ iova) ∨
         (e = - EBUSY ∧ ∃ r, r ∈ inorder (d_tree s) ∧ dr_iova r = iova ∧ dr_in_use r = true))) s.
Proof.
  intros Hinv Hi. unfold afu_dma_unmap_region. wstep.
  apply find_iova_spec; [apply Hinv|apply Hinv|done| |]; cycle 1.
  { intros Hno. wsteps. split; [done|]. by left. }
  intros i r Hr He. destruct (dr_in_use r) eqn:Hu; wsteps.
  { split; [done|]. right. split; [done|]. exists r. split_and!; [by eapply list_elem_of_lookup_2|done..]. }
  pose proof (dma_inv_lookup _ _ _ _ _ Hinv Hr) as Hok.
  pose proof (pfn_down_range _ (region_ok_length _ Hok)).
  unfold afu_dma_region_remove, set_tree, dma_unmap_page, set_maps. wsteps. cbn.
  rewrite (ro_pages _ Hok). cbn [access]. wsteps.
  apply unpin_pages_spec; [apply Hok|lia|]. cbn. exists i, r.
  split_and!; [done..| |].
  - unfold unmapped. cbn. by rewrite rb_erase_order.
  - eapply dma_inv_delete; [done..|]. apply rb_erase_order.
Qed.

Lemma unmap_mapped L P ua len flags iova s s1 :
  dma_inv L P s → mapped ua len flags iova s s1 →
  wp (afu_dma_unmap_region iova)
    (λ _ s', inorder (d_tree s') = inorder (d_tree s) ∧ d_locked s' = d_locked s ∧
       d_pins s' = d_pins s ∧ d_maps s' = d_maps s)
    (λ _ _, False) s1.
Proof.
  intros Hinv Hm. pose proof (mapped_inv L P _ _ _ _ _ _ Hm Hinv) as Hinv1.
  destruct Hm as (l1 & l2 & ps & k & t & Hok & _ & He & He' & Hs & ->).
  set (r := DmaRegion ua len iova (Some ps) false (dma_flag_to_dir flags)) in *.
  assert (inorder t !! length l1 = Some r) as Hr by by rewrite He', list_lookup_middle.
  assert (dr_iova r = iova) as Hri by done.
  assert (0 ≤ iova < 2 ^ 64) as Hiova.
  { pose proof (ro_iova _ Hok). pose proof (ro_length _ Hok). pose proof (ro_space _ Hok).
    rewrite Hri in *. lia. }
  eapply wp_mono; [by apply (unmap_region_spec L P)| |].
  - intros _ s' (i & x & Hx & Hxi & _ & (Ht & _ & Hl & Hp & Hmp) & _). cbn in *.
    destruct (key_sorted_inj _ _ _ _ _ _ Hs Hr Hx) as [<- <-]; [by rewrite Hxi|].
    split_and!.
    + rewrite Ht, He', He. by rewrite delete_middle.
    + rewrite Hl. cbn. lia.
    + rewrite Hp. apply disj_union_difference_r.
    + rewrite Hmp. apply disj_union_difference_r.
  - intros e s' [_ [[_ Hno]|[_ (x & Hx & Hxi & Hu)]]]; cbn in *.
    + apply (Hno r); [|done]. by eapply list_elem_of_lookup_2.
    + apply list_elem_of_lookup in Hx as [j Hx].
      destruct (key_sorted_inj _ _ _ _ _ _ Hs Hr Hx) as [<- <-]; [by rewrite Hxi|]. done.
Qed.

(** C22: a buffer of fewer than 2^31 pages that was mapped is unmapped by the address
    that the mapping returned: both calls succeed one after the other, and afterwards the regions,
    the accounted pages, the pinned pages and the DMA mappings are exactly those of
    before. *)
Theorem map_unmap_roundtrip L P ua len flags s :
  dma_inv L P s → is_u64 len → PFN_DOWN len < 2 ^ 31 →
  wp (afu_dma_map_region ua len flags)
     (λ iova s1, wp (afu_dma_unmap_region iova)
        (λ _ s', inorder (d_tree s') = inorder (d_tree s) ∧ d_locked s' = d_locked s ∧
           d_pins s' = d_pins s ∧ d_maps s' = d_maps s)
        (λ _ _, False) s1)
     (λ _ _, True) s.
Proof.
  intros Hinv Hlen Hn. eapply wp_mono; [apply map_region_spec; [apply Hinv|done..]| |done].
  intros iova s1 Hm. eapply (unmap_mapped L P); [done|exact Hm].
Qed.

(** ** Destroying *)

(** The mappings that the destruction leaves: it unmaps with [DMA_BIDIRECTIONAL]
    whatever the region was mapped with, and not at address 0. *)
Definition leaves_mapping r : bool := (dr_iova r =? 0) || negb (dr_direction r =? DMA_BIDIRECTIONAL).
Definition left_mapped l : gmultiset dma_area := maps_of (base.filter (λ r, leaves_mapping r = true) l).

Lemma maps_of_elem_iova l a n d : (a, n, d) ∈ maps_of l → ∃ r, r ∈ l ∧ dr_iova r = a.
Proof.
  unfold maps_of. rewrite elem_of_list_to_set_disj, list_elem_of_fmap.
  intros (r & [= -> -> ->] & Hr). eauto.
Qed.
Lemma not_in_difference {A} `{Countable A} (X : gmultiset A) x : x ∉ X → X ∖ {[+ x +]} = X.
Proof. multiset_solver. Qed.

Lemma destroy_loop_spec L P U l : ∀ s,
  inorder (d_tree s) = l → iova_sorted l → Forall region_ok l →
  d_locked s = L + locked_by dr_length l → d_pins s = P ⊎ pinned_by region_pages l → d_maps s = U ⊎ maps_of l →
  (∀ a n d r, (a, n, d) ∈ U → r ∈ l → a < dr_iova r) →
  wp (destroy_loop (length l))
     (λ _ s', inorder (d_tree s') = [] ∧ d_locked s' = L ∧ d_pins s' = P ∧ d_maps s' = U ⊎ left_mapped l)
     (λ _ _, False) s.
Proof.
  revert U. induction l as [|r l IH]; intros U s Hl Hs Hok HL HP HM HU;
    cbn [destroy_loop length]; wsteps; rewrite Hl.
  { wsteps. cbn in HL. rewrite Z.add_0_r in HL. split_and!; [done..| |].
    - rewrite HP. unfold pinned_by. cbn. multiset_solver.
    - rewrite HM. done. }
  apply key_sorted_cons in Hs as [Hs Hlt]. apply list.Forall_cons in Hok as [Hr Hok].
  pose proof (pfn_down_range _ (region_ok_length _ Hr)).
  unfold afu_dma_region_remove, set_tree. wsteps.
  assert (inorder (rb_erase 0 (d_tree s)) = l) as Hl' by by rewrite rb_erase_order, Hl.
  rewrite (ro_pages _ Hr), (pinned_by_cons region_pages), maps_of_cons in *.
  assert (∀ m, m = (U ⊎ (if leaves_mapping r then {[+ region_area r +]} else ∅)) ⊎ maps_of l →
    wp (afu_dma_unpin_pages (dr_length r) (region_pages r))
     (λ _, wp (destroy_loop (length l))
        (λ _ s', inorder (d_tree s') = [] ∧ d_locked s' = L ∧ d_pins s' = P ∧ d_maps s' = U ⊎ left_mapped (r :: l))
        (λ _ _, False))
     (λ _ _, False) (DSt (d_k s) (rb_erase 0 (d_tree s)) (d_locked s) (d_pins s) m)) as Hrest.
  { intros m ->. apply unpin_pages_spec; [apply Hr|lia|]. cbn.
    eapply wp_mono; [eapply (IH (U ⊎ (if leaves_mapping r then {[+ region_area r +]} else ∅)));
      cbn; [done..| | |done|]| |done].
    - rewrite HL. cbn. lia.
    - rewrite HP. multiset_solver.
    - intros a n d x [Hx|Hx]%gmultiset_elem_of_disj_union Hxl.
      + eapply (HU a n d x); [done|by right].
      + destruct (leaves_mapping r); [|multiset_solver].
        apply gmultiset_elem_of_singleton in Hx. injection Hx as -> -> ->. by apply Hlt.
    - cbn. intros _ s' (? & ? & ? & HM'). split_and!; [done..|]. rewrite HM'. unfold left_mapped.
      rewrite filter_cons. destruct (leaves_mapping r) eqn:E; cbn [decide].
      + rewrite decide_True by done. rewrite maps_of_cons. multiset_solver.
      + rewrite decide_False by done. multiset_solver. }
  assert (∀ a n d, (a, n, d) ∈ U ⊎ maps_of l → a ≠ dr_iova r) as Hno.
  { intros a n d [Hx|Hx]%gmultiset_elem_of_disj_union Ha.
    - specialize (HU a n d r Hx ltac:(by left)). lia.
    - apply maps_of_elem_iova in Hx as (x & Hx & Hxa). specialize (Hlt x Hx). lia. }
  unfold leaves_mapping in Hrest. destruct (dr_iova r =? 0) eqn:E0; cbn [negb orb] in *; wsteps.
  { apply Hrest. rewrite HM. multiset_solver. }
  unfold dma_unmap_page, set_maps. wsteps. cbn. apply Hrest. rewrite HM.
  destruct (Z.eqb_spec (dr_direction r) DMA_BIDIRECTIONAL) as [Hd|Hd]; cbn [negb] in *.
  - unfold region_area. rewrite Hd. multiset_solver.
  - rewrite not_in_difference; [multiset_solver|].
    rewrite !gmultiset_elem_of_disj_union, gmultiset_elem_of_singleton. unfold region_area.
    intros [Hx|[[=]|Hx]]; [|congruence|];
      (eapply Hno; [apply gmultiset_elem_of_disj_union; (by left) || by right|done]).
Qed.

Lemma region_destroy_spec L P s :
  dma_inv L P s →
  wp (afu_dma_region_destroy (length (inorder (d_tree s))))
     (λ _ s', inorder (d_tree s') = [] ∧ d_locked s' = L ∧ d_pins s' = P ∧
        d_maps s' = left_mapped (inorder (d_tree s)))
     (λ _ _, False) s.
Proof.
  intros [Hs Hok HL HP HM]. unfold afu_dma_region_destroy.
  eapply wp_mono; [apply (destroy_loop_spec L P ∅); try done|..|done].
  - rewrite HM. multiset_solver.
  - intros a n d r Hx. multiset_solver.
  - intros _ s' (? & ? & ? & HM'). split_and!; [done..|]. rewrite HM'. multiset_solver.
Qed.

(** Destroying the regions of a device, with as much fuel as there are regions,
    ends without error; then the tree is empty and every page accounted or pinned
    for a region is released.  Of the DMA mappings exactly those remain that were
    mapped in one direction only or at DMA address 0. *)
Lemma region_destroy_exact L P s :
  dma_inv L P s →
  wp (afu_dma_region_destroy (length (inorder (d_tree s))))
     (λ _ s', inorder (d_tree s') = [] ∧ d_locked s' = L ∧ d_pins s' = P ∧
        d_maps s' = left_mapped (inorder (d_tree s)))
     (λ _ _, False) s.
Proof. apply region_destroy_spec. Qed.
End Ops.

(** ** A concrete kernel for the DMA regions: witnesses and limits

    A kernel with pages of 4 KiB that pins the next free frames and maps a frame at
    its physical address; it satisfies the hypotheses of [AfuDma].  On it the
    theorems of [AfuDma] and [AfuDmaOps] are applied, and the executions that
    the documentation does not foresee are run. *)

(** ** A tree library *)
Fixpoint rb_join {R} (l r : rb_tree R) : rb_tree R :=
  match r with
  | RbLeaf => l
  | RbNode rl x rr => RbNode (rb_join l rl) x rr
  end.
Fixpoint rb_del {R} (i : nat) (t : rb_tree R) : rb_tree R :=
  match t with
  | RbLeaf => RbLeaf
  | RbNode l x r =>
      let n := length (inorder l) in
      if (i <? n)%nat then RbNode (rb_del i l) x r
      else if (i =? n)%nat then rb_join l r
      else RbNode l x (rb_del (i - S n) r)
  end.
Lemma inorder_join {R} (l r : rb_tree R) : inorder (rb_join l r) = inorder l ++ inorder r.
Proof.
  induction r as [|rl IH x rr _]; cbn; [by rewrite app_nil_r|]. by rewrite IH, <- (assoc (++)).
Qed.
Lemma delete_app_l {A} (l k : list A) i : (i < length l)%nat → delete i (l ++ k) = delete i l ++ k.
Proof.
  revert i. induction l as [|x l IH]; intros [|i] Hi; cbn in *; [lia..|done|].
  f_equal. apply IH. lia.
Qed.
Lemma delete_app_r {A} (l k : list A) i : delete (length l + i)%nat (l ++ k) = l ++ delete i k.
Proof. induction l; cbn; [done|]. by f_equal. Qed.
Lemma inorder_del {R} i (t : rb_tree R) : inorder (rb_del i t) = delete i (inorder t).
Proof.
  revert i. induction t as [|l IHl x r IHr]; intros i; cbn [rb_del inorder]; [done|].
  destruct (Nat.ltb_spec i (length (inorder l))) as [Hi|Hi]; cbn [inorder].
  { by rewrite IHl, delete_app_l. }
  destruct (Nat.eqb_spec i (length (inorder l))) as [->|Hn]; cbn [inorder].
  { rewrite inorder_join, <- (Nat.add_0_r (length (inorder l))). by rewrite delete_app_r. }
  replace i with (length (inorder l) + S (i - S (length (inorder l))))%nat at 2 by lia.
  rewrite delete_app_r. cbn. by rewrite IHr.
Qed.

(** ** The kernel: the next free frame, and how many are left *)
Definition test_kernel : DmaKernel := {|
  dk := Z * Z;
  PAGE_SHIFT := 12;
  dk_alloc k := (true, k);
  dk_account _ k := (0, k);
  dk_pin _ n _ '(next, room) :=
    if room <? 0 then (inr (- EFAULT), (next, room))
    else let m := Z.min n room in (inl (seqZ next (Z.max 0 m)), (next + m, room - m));
  dk_map p n _ k :=
    if (0 <=? p) && (p * 4096 + n <? 2 ^ 64) then (Some (p * 4096), k) else (None, k);
  rb_insert_color _ t := t;
  rb_erase _ := rb_del;
|}.
Lemma test_kernel_ok : @DmaKernelOk test_kernel.
Proof.
  constructor.
  - done.
  - intros a n w [next room]. cbn. destruct (Z.ltb_spec room 0); cbn; [done|].
    rewrite length_seqZ. lia.
  - intros p n d k a. cbn. destruct (Z.leb_spec 0 p); [|done].
    destruct (Z.ltb_spec (p * 4096 + n) (2 ^ 64)); [|done]. cbn. intros [= <-]. lia.
  - done.
  - intros R i t. apply inorder_del.
Qed.
#[local] Existing Instance test_kernel.
#[local] Existing Instance test_kernel_ok.

Definition dma_state (next room : Z) : dst := DSt (next, room) RbLeaf 7 {[+ 3 +]} ∅.
Lemma dma_state_inv next room : dma_inv 7 {[+ 3 +]} (dma_state next room).
Proof. constructor; cbn; try done. constructor. Qed.

(** Two mappings: two pages for reading, then one for both directions. *)
Definition two_regions : M dst unit :=
  _ ← afu_dma_map_region 0x10000 0x2000 DFL_DMA_MAP_FLAG_READ;
  _ ← afu_dma_map_region 0x40000 0x1000 0;
  mret tt.
Definition two_regions_list : list dfl_afu_dma_region :=
  [DmaRegion 0x10000 0x2000 0x5000 (Some [5; 6]) false DMA_TO_DEVICE;
   DmaRegion 0x40000 0x1000 0x7000 (Some [7]) false DMA_BIDIRECTIONAL].
Definition two_regions_state : dst :=
  match two_regions (dma_state 5 10) with Done (_, s) => s | _ => dma_state 0 0 end.
Lemma two_regions_inorder : inorder (d_tree two_regions_state) = two_regions_list.
Proof. vm_compute. reflexivity. Qed.
Lemma two_regions_inv : dma_inv 7 {[+ 3 +]} two_regions_state.
Proof.
  constructor; rewrite two_regions_inorder.
  - apply key_sorted_cons. split; [|by intros b ->%list_elem_of_singleton].
    apply key_sorted_cons. split; [constructor|]. intros b ?%elem_of_nil. done.
  - repeat constructor; done.
  - reflexivity.
  - vm_compute. reflexivity.
  - vm_compute. reflexivity.
Qed.

Lemma map_region_all_or_nothing_witness : ∃ s',
  afu_dma_map_region 0x10000 0x2000 DFL_DMA_MAP_FLAG_READ (dma_state 5 10) = Done (Val 0x5000, s') ∧
  dma_inv 7 {[+ 3 +]} s' ∧ mapped 0x10000 0x2000 DFL_DMA_MAP_FLAG_READ 0x5000 (dma_state 5 10) s'.
Proof.
  refine (wp_val (afu_dma_map_region 0x10000 0x2000 DFL_DMA_MAP_FLAG_READ) _ _ _ _
    (map_region_all_or_nothing 7 {[+ 3 +]} 0x10000 0x2000 DFL_DMA_MAP_FLAG_READ (dma_state 5 10) _ _ _) _).
  - apply dma_state_inv.
  - unfold is_u64. lia.
  - vm_compute. reflexivity.
  - vm_compute. reflexivity.
Defined.

Lemma map_unmap_roundtrip_witness : ∃ s1,
  afu_dma_map_region 0x10000 0x2000 DFL_DMA_MAP_FLAG_READ (dma_state 5 10) = Done (Val 0x5000, s1) ∧
  wp (afu_dma_unmap_region 0x5000)
    (λ _ s', inorder (d_tree s') = [] ∧ d_locked s' = 7 ∧ d_pins s' = {[+ 3 +]} ∧ d_maps s' = ∅)
    (λ _ _, False) s1.
Proof.
  refine (wp_val (afu_dma_map_region 0x10000 0x2000 DFL_DMA_MAP_FLAG_READ) _ _ _ _
    (map_unmap_roundtrip 7 {[+ 3 +]} 0x10000 0x2000 DFL_DMA_MAP_FLAG_READ (dma_state 5 10) _ _ _) _).
  - apply dma_state_inv.
  - unfold is_u64. lia.
  - vm_compute. reflexivity.
  - vm_compute. reflexivity.
Defined.

Lemma region_find_exact_witness :
  ∃ i, region_find (d_tree two_regions_state) 0x5800 0x1000 0 =
         Some (i, DmaRegion 0x10000 0x2000 0x5000 (Some [5; 6]) false DMA_TO_DEVICE).
Proof.
  edestruct (region_find_exact (d_tree two_regions_state) 0x5800 0x1000
    (DmaRegion 0x10000 0x2000 0x5000 (Some [5; 6]) false DMA_TO_DEVICE)) as [_ Hf].
  - apply two_regions_inv.
  - apply two_regions_inv.
  - right. rewrite two_regions_inorder. intros [|[|i]] [|[|j]] a b Hij; cbn; try lia; try done.
    intros [= <-] [= <-]. done.
  - lia.
  - lia.
  - lia.
  - destruct Hf as (i & Hf & _); [|by exists i]. split; [rewrite two_regions_inorder; by left|].
    vm_compute. split; discriminate.
Defined.

(** The mapping made for reading is left when the regions are destroyed. *)
Lemma region_destroy_exact_witness : ∃ s',
  afu_dma_region_destroy 2 two_regions_state = Done (Val tt, s') ∧
  d_locked s' = 7 ∧ d_pins s' = {[+ 3 +]} ∧ d_maps s' = {[+ (0x5000, 0x2000, DMA_TO_DEVICE) +]}.
Proof.
  pose proof (region_destroy_exact 7 {[+ 3 +]} two_regions_state two_regions_inv) as Hd.
  rewrite two_regions_inorder in Hd.
  destruct (wp_val (afu_dma_region_destroy 2) _ _ _ tt Hd) as (s' & Hs & _ & HL & HP & HM);
    [vm_compute; reflexivity|].
  exists s'. split_and!; [done..|]. rewrite HM.
  change (left_mapped two_regions_list) with
    ({[+ region_area (DmaRegion 0x10000 0x2000 0x5000 (Some [5; 6]) false DMA_TO_DEVICE) +]} ⊎ ∅ : gmultiset dma_area).
  unfold region_area. cbn [dr_iova dr_length dr_direction]. multiset_solver.
Defined.

(** ** What is not foreseen *)

(** The number of pages is cut to an [int]: of a buffer of 2^44 bytes no page is
    pinned, and the first page, which is mapped next, does not exist. *)
Lemma huge_buffer_faults : afu_dma_map_region 0 (2 ^ 44) 0 (dma_state 5 10) = Fault.
Proof. apply is_fault_eq. vm_compute. reflexivity. Qed.

(** On old kernels the pages pinned of a buffer that cannot be pinned whole stay
    pinned, though no region has them. *)
Lemma old_pin_leaks : ∃ s',
  afu_dma_pin_pages_4 true None 0x10000 0x2000 0 (dma_state 5 1) = Done (Err (- EFAULT), s') ∧
  d_pins s' = d_pins (dma_state 5 1) ⊎ {[+ 5 +]} ∧ d_locked s' = 7.
Proof. eexists. split; [reflexivity|]. split; vm_compute; reflexivity. Qed.
(** When pinning fails altogether, the error number is taken for a number of pages. *)
Lemma old_pin_error_faults :
  afu_dma_pin_pages_4 true None 0x10000 0x2000 0 (dma_state 5 (-1)) = Fault.
Proof. apply is_fault_eq. vm_compute. reflexivity. Qed.
(** The test of containment wraps: an area that runs past the end of the address
    space is found in a region that does not even hold its first byte. *)
Lemma wrapping_area_found :
  region_find (d_tree two_regions_state) 0x7800 (2 ^ 64 - 0x1000) 0 =
    Some (0%nat, DmaRegion 0x10000 0x2000 0x5000 (Some [5; 6]) false DMA_TO_DEVICE).
Proof. vm_compute. reflexivity. Qed.
