(* ===== verification/Mmio.v ===== *)
(** * Device registers

    Memory mapped registers behind [readq] and [writeq].  The device is a
    parameter: all that is known of it is that it has registers, that a read may
    change it, and that time passing shows in what the next read gives.  The state
    keeps the accesses so far, which no code reads. *)
From S2P Require Import Prelude.

Class MmioHw := {
  hw : Type;
  hw_read : Z → hw → Z * hw;
  hw_write : Z → Z → hw → hw;
}.

(** An access, by address and value. *)
Inductive mmio_io := MmioRead (addr v : Z) | MmioWrite (addr v : Z).
#[export] Instance mmio_io_eq : EqDecision mmio_io.
Proof. solve_decision. Defined.

Section Mmio.
Context `{MmioHw}.

Record mmst := Mm {
  mm_hw : hw;
  mm_log : list mmio_io;
}.
Implicit Types s : mmst.
Definition readq (addr : Z) : M mmst Z := λ s,
  let (v, d) := hw_read addr (mm_hw s) in Done (Val v, Mm d (mm_log s ++ [MmioRead addr v])).
Definition writeq (v addr : Z) : M mmst unit :=
  modify (λ s, Mm (hw_write addr v (mm_hw s)) (mm_log s ++ [MmioWrite addr v])).
(** Accesses of 32 bits. *)
Definition readl (addr : Z) : M mmst Z := λ s,
  let (v, d) := hw_read addr (mm_hw s) in Done (Val (u32 v), Mm d (mm_log s ++ [MmioRead addr (u32 v)])).
Definition writel (v addr : Z) : M mmst unit := writeq (u32 v) addr.

Lemma readl_spec addr s (Q : Z → mmst → Prop) E :
  (∀ v d, is_u32 v → Q v (Mm d (mm_log s ++ [MmioRead addr v]))) → wp (readl addr) Q E s.
Proof. intros HQ. unfold wpg, readl. destruct (hw_read addr (mm_hw s)). apply HQ, u32_range. Qed.
Lemma readq_spec addr s (Q : Z → mmst → Prop) E :
  (∀ v d, Q v (Mm d (mm_log s ++ [MmioRead addr v]))) → wp (readq addr) Q E s.
Proof. intros HQ. unfold wpg, readq. by destruct (hw_read addr (mm_hw s)). Qed.

(** ** Polling *)

(** The reads of a poll, of which only the last may have satisfied [cond]. *)
Definition polled (addr : Z) (cond : Z → bool) (ok : bool) (l : list mmio_io) : Prop :=
  ∃ vs v, l = (MmioRead addr <$> vs) ++ [MmioRead addr v] ∧ Forall (λ v, cond v = false) vs ∧ cond v = ok.

Lemma poll_spec_of (rd : M mmst Z) addr cond tries :
  (∀ s (Q : Z → mmst → Prop) E, (∀ v d, Q v (Mm d (mm_log s ++ [MmioRead addr v]))) → wp rd Q E s) → ∀ s,
  wp (read_poll_timeout rd cond tries)
    (λ r s', ∃ l, mm_log s' = mm_log s ++ l ∧ polled addr cond (r.1 =? 0) l ∧ (r.1 = 0 ∨ r.1 = - ETIMEDOUT) ∧
       cond r.2 = (r.1 =? 0))
    (λ _ _, False) s.
Proof.
  intros Hrd. induction tries as [|n IH]; intros s; cbn [read_poll_timeout]; wsteps; apply Hrd; intros v d;
    destruct (cond v) eqn:Hv; wsteps; try (exists [MmioRead addr v]; split_and!; [done| |by left|done]; by exists [], v).
  - apply Hrd. intros w d'. wsteps. exists [MmioRead addr v; MmioRead addr w]. cbn [mm_log fst snd].
    rewrite <- app_assoc. split_and!; [done| |destruct (cond w); auto|by destruct (cond w)].
    exists [v], w. split_and!; [done|by constructor|by destruct (cond w)].
  - eapply wp_mono; [apply IH| |done]. cbn [mm_log]. intros r s' (l & -> & (vs & w & -> & Hvs & Hw) & Hr & Hc).
    rewrite <- app_assoc. eexists. split_and!; [done| |done|done].
    exists (v :: vs), w. split_and!; [done|by constructor|done].
Qed.
Lemma poll_spec addr cond tries s :
  wp (read_poll_timeout (readq addr) cond tries)
    (λ r s', ∃ l, mm_log s' = mm_log s ++ l ∧ polled addr cond (r.1 =? 0) l ∧ (r.1 = 0 ∨ r.1 = - ETIMEDOUT))
    (λ _ _, False) s.
Proof.
  eapply wp_mono; [apply (poll_spec_of _ addr); intros; by apply readq_spec| |done].
  intros r s' (l & ?&?&?&_). by exists l.
Qed.
Lemma polll_spec addr cond tries s :
  wp (read_poll_timeout (readl addr) cond tries)
    (λ r s', ∃ l, mm_log s' = mm_log s ++ l ∧ polled addr cond (r.1 =? 0) l ∧ (r.1 = 0 ∨ r.1 = - ETIMEDOUT) ∧
       cond r.2 = (r.1 =? 0))
    (λ _ _, False) s.
Proof. apply poll_spec_of. intros; apply readl_spec; auto. Qed.
End Mmio.
#[global] Arguments mmst {_}.
