(* ===== verification/IndirectReg.v ===== *)
(** * Registers behind a mailbox (drivers/base/regmap/regmap-indirect-register.c)

    The register map that the flash and BMC code of an FPGA reaches through four
    words of memory mapped registers: command, address, data read and data
    written. *)
From S2P Require Import Prelude DflRegs Mmio.

(* drivers/base/regmap/regmap-indirect-register.c:15-15 INDIRECT_CMD_OFF *)
Definition INDIRECT_CMD_OFF : Z := 0.
(* drivers/base/regmap/regmap-indirect-register.c:16-16 INDIRECT_CMD_CLR *)
Definition INDIRECT_CMD_CLR : Z := 0.
(* drivers/base/regmap/regmap-indirect-register.c:17-17 INDIRECT_CMD_RD *)
Definition INDIRECT_CMD_RD : Z := Z.shiftl 1 0.
(* drivers/base/regmap/regmap-indirect-register.c:18-18 INDIRECT_CMD_WR *)
Definition INDIRECT_CMD_WR : Z := Z.shiftl 1 1.
(* drivers/base/regmap/regmap-indirect-register.c:19-19 INDIRECT_CMD_ACK *)
Definition INDIRECT_CMD_ACK : Z := Z.shiftl 1 2.
(* drivers/base/regmap/regmap-indirect-register.c:21-21 INDIRECT_ADDR_OFF *)
Definition INDIRECT_ADDR_OFF : Z := 0x4.
(* drivers/base/regmap/regmap-indirect-register.c:22-22 INDIRECT_RD_OFF *)
Definition INDIRECT_RD_OFF : Z := 0x8.
(* drivers/base/regmap/regmap-indirect-register.c:23-23 INDIRECT_WR_OFF *)
Definition INDIRECT_WR_OFF : Z := 0xc.

Section Indirect.
Context `{MmioHw}.
(** The mailbox ([ctx->base]), and how often a poll reads before its time is over. *)
Context (base : Z) (tries : nat).
Implicit Types s : mmst.

Definition cleared (cmd : Z) : bool := cmd =? INDIRECT_CMD_CLR.
Definition acknowledged (ack : Z) : bool := Z.land ack INDIRECT_CMD_ACK =? INDIRECT_CMD_ACK.
Definition readl_poll_timeout (addr : Z) (cond : Z → bool) : M mmst (Z * Z) :=
  read_poll_timeout (readl addr) cond tries.

(** The status. *)
(* drivers/base/regmap/regmap-indirect-register.c:33-47 indirect_bus_clear_cmd *)
Definition indirect_bus_clear_cmd : M mmst Z :=
  writel INDIRECT_CMD_CLR (base + INDIRECT_CMD_OFF) ;;
  r ← readl_poll_timeout (base + INDIRECT_CMD_OFF) cleared;
  mret (r : Z * Z).1.

(** [tmpval] has a value only when it was read. *)
(* drivers/base/regmap/regmap-indirect-register.c:49-79 indirect_bus_reg_read *)
Definition indirect_bus_reg_read (reg : Z) : M mmst Z :=
  _ ← readl (base + INDIRECT_CMD_OFF);
  writel reg (base + INDIRECT_ADDR_OFF) ;;
  writel INDIRECT_CMD_RD (base + INDIRECT_CMD_OFF) ;;
  r ← readl_poll_timeout (base + INDIRECT_CMD_OFF) acknowledged;
  let ret := (r : Z * Z).1 in
  tmpval ← (if negb (ret =? 0) then mret None else v ← readl (base + INDIRECT_RD_OFF); mret (Some v));
  ret2 ← indirect_bus_clear_cmd;
  rc ret ;;
  rc ret2 ;;
  access tmpval.

(* drivers/base/regmap/regmap-indirect-register.c:81-106 indirect_bus_reg_write *)
Definition indirect_bus_reg_write (reg val : Z) : M mmst unit :=
  _ ← readl (base + INDIRECT_CMD_OFF);
  writel val (base + INDIRECT_WR_OFF) ;;
  writel reg (base + INDIRECT_ADDR_OFF) ;;
  writel INDIRECT_CMD_WR (base + INDIRECT_CMD_OFF) ;;
  r ← readl_poll_timeout (base + INDIRECT_CMD_OFF) acknowledged;
  let ret := (r : Z * Z).1 in
  ret2 ← indirect_bus_clear_cmd;
  rc ret ;;
  rc ret2.

(** [alloc] is whether the context could be allocated; [init] is the result of
    [devm_regmap_init]. *)
(* drivers/base/regmap/regmap-indirect-register.c:121-139 devm_regmap_init_indirect_register *)
Definition devm_regmap_init_indirect_register {R} (alloc : bool) (init : R) : M mmst (option R) :=
  if negb alloc then mret None else
  _ ← indirect_bus_clear_cmd;
  mret (Some init).

(** ** Properties *)

Lemma writel_spec v a s (Q : unit → mmst → Prop) E :
  is_u32 v → (∀ d, Q tt (Mm d (mm_log s ++ [MmioWrite a v]))) → wp (writel v a) Q E s.
Proof. intros Hv HQ. unfold writel, writeq. rewrite u32_small by done. wsteps. apply HQ. Qed.

Lemma timed_out ret : ret = 0 ∨ ret = - ETIMEDOUT → (ret =? 0) = true ∧ ret = 0 ∨ (ret =? 0) = false ∧ ret = - ETIMEDOUT.
Proof. by intros [-> | ->]; [left|right]. Qed.

(** Clearing the command: whether the mailbox followed is [ok]. *)
Definition clear_log (ok : bool) (l : list mmio_io) : Prop :=
  ∃ p, l = MmioWrite (base + INDIRECT_CMD_OFF) INDIRECT_CMD_CLR :: p ∧ polled (base + INDIRECT_CMD_OFF) cleared ok p.
Lemma clear_cmd_spec s :
  wp indirect_bus_clear_cmd (λ ret s', ∃ l, mm_log s' = mm_log s ++ l ∧ clear_log (ret =? 0) l ∧ (ret = 0 ∨ ret = - ETIMEDOUT))
    (λ _ _, False) s.
Proof.
  unfold indirect_bus_clear_cmd. wstep. apply writel_spec; [done|]. intros d. wsteps.
  eapply wp_mono; [apply polll_spec| |done]. intros r s' (l & Hl & Hp & Hr & _). wsteps.
  eexists. split; [rewrite Hl; cbn [mm_log]; by rewrite <- app_assoc|]. split; [by exists l|exact Hr].
Qed.

(** The command [c] for the register [reg], whose data, if it is written, is [w]:
    the accesses until the mailbox acknowledges it or time is over. *)
Definition command_log (c reg : Z) (w : option Z) (ok : bool) (l : list mmio_io) : Prop :=
  ∃ cmd p, l = MmioRead (base + INDIRECT_CMD_OFF) cmd ::
      (match w with Some v => [MmioWrite (base + INDIRECT_WR_OFF) v] | None => [] end) ++
      MmioWrite (base + INDIRECT_ADDR_OFF) reg :: MmioWrite (base + INDIRECT_CMD_OFF) c :: p ∧
    polled (base + INDIRECT_CMD_OFF) acknowledged ok p.

(** Reading a register through the mailbox.  It succeeds when the mailbox
    acknowledges the read command and then the clear command, in time; the value is
    the one in the data register between the two.  Otherwise the result is
    [-ETIMEDOUT].  Whatever happens, the command is cleared at the end, and data is
    read only after an acknowledgement. *)
Lemma indirect_read_exact reg s :
  is_u32 reg →
  wp (indirect_bus_reg_read reg)
    (λ v s', ∃ l1 l2, mm_log s' = mm_log s ++ l1 ++ MmioRead (base + INDIRECT_RD_OFF) v :: l2 ∧
       command_log INDIRECT_CMD_RD reg None true l1 ∧ clear_log true l2 ∧ is_u32 v)
    (λ e s', e = - ETIMEDOUT ∧ ∃ l1 l2,
       (mm_log s' = mm_log s ++ l1 ++ l2 ∧ command_log INDIRECT_CMD_RD reg None false l1 ∧ ∃ ok, clear_log ok l2) ∨
       (∃ v, mm_log s' = mm_log s ++ l1 ++ MmioRead (base + INDIRECT_RD_OFF) v :: l2 ∧
          command_log INDIRECT_CMD_RD reg None true l1 ∧ clear_log false l2)) s.
Proof.
  intros Hreg. unfold indirect_bus_reg_read. wstep. apply readl_spec. intros cmd d Hcmd. wsteps.
  apply writel_spec; [done|]. intros d1. wsteps. apply writel_spec; [done|]. intros d2. wsteps.
  eapply wp_mono; [apply polll_spec| |done]. cbn [mm_log]. intros r s1 (p & Hl & Hp & Hr & _).
  assert (∃ l1, mm_log s1 = mm_log s ++ l1 ∧ command_log INDIRECT_CMD_RD reg None (r.1 =? 0) l1) as (l1 & Hl1 & Hc1).
  { eexists. split; [rewrite Hl; by rewrite <- !app_assoc|]. by exists cmd, p. }
  clear Hl Hp. destruct (timed_out _ Hr) as [[Hz ->]|[Hz ->]]; rewrite Hz in Hc1; wsteps; wif; wsteps.
  - apply readl_spec. intros v d3 Hv. wsteps. eapply wp_mono; [apply clear_cmd_spec| |done].
    intros ret2 s2 (l2 & Hl2 & Hc & Hr2). cbn [mm_log] in Hl2. rewrite Hl1, <- !app_assoc in Hl2.
    destruct (timed_out _ Hr2) as [[Hz2 ->]|[Hz2 ->]]; rewrite Hz2 in Hc; wsteps; intros Hret; try done; wsteps; intros Hret2; try done.
    + change (access (Some v)) with (mret v : M mmst Z). wsteps. by exists l1, l2.
    + split; [done|]. exists l1, l2. right. by exists v.
  - eapply wp_mono; [apply clear_cmd_spec| |done]. intros ret2 s2 (l2 & Hl2 & Hc & _). rewrite Hl1, <- app_assoc in Hl2.
    wsteps; intros Hret; [done|]. split; [done|]. exists l1, l2. left. split; [done|]. split; [done|]. by eexists.
Qed.

(** Writing one: the mailbox has acknowledged the command with the register and
    the value, and it was cleared. *)
Lemma indirect_write_exact reg val s :
  is_u32 reg → is_u32 val →
  wp (indirect_bus_reg_write reg val)
    (λ _ s', ∃ l1 l2, mm_log s' = mm_log s ++ l1 ++ l2 ∧ command_log INDIRECT_CMD_WR reg (Some val) true l1 ∧ clear_log true l2)
    (λ e s', e = - ETIMEDOUT ∧ ∃ ok ok2 l1 l2, mm_log s' = mm_log s ++ l1 ++ l2 ∧
       command_log INDIRECT_CMD_WR reg (Some val) ok l1 ∧ clear_log ok2 l2 ∧ ok && ok2 = false) s.
Proof.
  intros Hreg Hval. unfold indirect_bus_reg_write. wstep. apply readl_spec. intros cmd d Hcmd. wsteps.
  apply writel_spec; [done|]. intros d0. wsteps. apply writel_spec; [done|]. intros d1. wsteps.
  apply writel_spec; [done|]. intros d2. wsteps.
  eapply wp_mono; [apply polll_spec| |done]. cbn [mm_log]. intros r s1 (p & Hl & Hp & Hr & _).
  assert (∃ l1, mm_log s1 = mm_log s ++ l1 ∧ command_log INDIRECT_CMD_WR reg (Some val) (r.1 =? 0) l1) as (l1 & Hl1 & Hc1).
  { eexists. split; [rewrite Hl; by rewrite <- !app_assoc|]. by exists cmd, p. }
  clear Hl Hp. wsteps. eapply wp_mono; [apply clear_cmd_spec| |done].
  intros ret2 s2 (l2 & Hl2 & Hc & Hr2). rewrite Hl1, <- app_assoc in Hl2.
  destruct (timed_out _ Hr) as [[Hz ->]|[Hz ->]], (timed_out _ Hr2) as [[Hz2 ->]|[Hz2 ->]];
    rewrite Hz in Hc1; rewrite Hz2 in Hc; wsteps; intros Hret; try done; wsteps; intros; try done;
    first [by exists l1, l2|split; [done|]; by eexists _, _, l1, l2].
Qed.
End Indirect.
