(* ===== verification/Regmap.v ===== *)
(** * Register maps

    What a register driver sees of a register map of the kernel: registers that are
    read and written through a bus that may fail.  The drivers that give such a bus
    ([IndirectBus], [N3000Nios]) are instances of the class, the drivers above it are
    written for any of them. *)
From S2P Require Import Prelude.

(** A read gives a value or an error, a write gives its status. *)
Class Regmap := {
  rmap : Type;
  rm_read : Z → rmap → (Z + Z) * rmap;
  rm_write : Z → Z → rmap → Z * rmap;
}.

(** An access: a read with what it gave, a write with its status. *)
Inductive rm_io := RmRead (reg : Z) (r : Z + Z) | RmWrite (reg v ret : Z).
#[export] Instance rm_io_eq : EqDecision rm_io.
Proof. solve_decision. Defined.

Section Regmap.
Context `{Regmap}.
(** The accesses so far, which no code reads. *)
Record rmst := Rm {
  rm_dev : rmap;
  rm_log : list rm_io;
}.
Definition regmap_read (reg : Z) : M rmst Z := λ s,
  let (r, d) := rm_read reg (rm_dev s) in
  Done (match r with inr v => Val v | inl e => Err e end, Rm d (rm_log s ++ [RmRead reg r])).
Definition regmap_write (reg v : Z) : M rmst unit := λ s,
  let (ret, d) := rm_write reg v (rm_dev s) in
  Done (if ret =? 0 then Val tt else Err ret, Rm d (rm_log s ++ [RmWrite reg v ret])).
(** Reads until [cond] holds, a last time when the time is over; an error ends it. *)
Definition regmap_read_poll_timeout (reg : Z) (cond : Z → bool) (tries : nat) : M rmst (Z * Z) :=
  read_poll_timeout (regmap_read reg) cond tries.

Lemma regmap_read_spec reg s (Q : Z → rmst → Prop) (E : Z → rmst → Prop) :
  (∀ v d, Q v (Rm d (rm_log s ++ [RmRead reg (inr v)]))) → (∀ e d, E e (Rm d (rm_log s ++ [RmRead reg (inl e)]))) →
  wp (regmap_read reg) Q E s.
Proof. intros HQ HE. unfold wpg, regmap_read. destruct (rm_read reg (rm_dev s)) as [[e|v] d]; auto. Qed.
Lemma regmap_write_spec reg v s (Q : unit → rmst → Prop) (E : Z → rmst → Prop) :
  (∀ d, Q tt (Rm d (rm_log s ++ [RmWrite reg v 0]))) →
  (∀ e d, e ≠ 0 → E e (Rm d (rm_log s ++ [RmWrite reg v e]))) →
  wp (regmap_write reg v) Q E s.
Proof.
  intros HQ HE. unfold wpg, regmap_write. destruct (rm_write reg v (rm_dev s)) as [ret d].
  destruct (Z.eqb_spec ret 0) as [->|Hr]; auto.
Qed.
End Regmap.
#[global] Arguments rmst {_}.
