(* ===== verification/SpiAltera.v ===== *)
(** * SPI controller (drivers/spi/spi-altera-core.c)

    The controller shifts out one word at a time while it shifts in another.  It is
    reached through a register map and driven either by polling its status or by its
    interrupt.

    No result of a register access is looked at: a write that fails is lost, and a
    read that fails leaves the variable that it should set as it was. *)
From stdpp Require Import list.
From S2P Require Import Prelude Bytes Regmap.

(* drivers/spi/spi-altera-core.c:24-24 ALTERA_SPI_RXDATA *)
Definition ALTERA_SPI_RXDATA : Z := 0.
(* drivers/spi/spi-altera-core.c:25-25 ALTERA_SPI_TXDATA *)
Definition ALTERA_SPI_TXDATA : Z := 4.
(* drivers/spi/spi-altera-core.c:26-26 ALTERA_SPI_STATUS *)
Definition ALTERA_SPI_STATUS : Z := 8.
(* drivers/spi/spi-altera-core.c:27-27 ALTERA_SPI_CONTROL *)
Definition ALTERA_SPI_CONTROL : Z := 12.
(* drivers/spi/spi-altera-core.c:28-28 ALTERA_SPI_TARGET_SEL *)
Definition ALTERA_SPI_TARGET_SEL : Z := 20.
(* drivers/spi/spi-altera-core.c:34-34 ALTERA_SPI_STATUS_RRDY_MSK *)
Definition ALTERA_SPI_STATUS_RRDY_MSK : Z := 0x80.
(* drivers/spi/spi-altera-core.c:40-40 ALTERA_SPI_CONTROL_IRRDY_MSK *)
Definition ALTERA_SPI_CONTROL_IRRDY_MSK : Z := 0x80.
(* drivers/spi/spi-altera-core.c:42-42 ALTERA_SPI_CONTROL_SSO_MSK *)
Definition ALTERA_SPI_CONTROL_SSO_MSK : Z := 0x400.
(* include/linux/spi/altera.h:13-13 ALTERA_SPI_MAX_CS *)
Definition ALTERA_SPI_MAX_CS : Z := 32.

(** A transfer of the SPI core: the buffers, [None] for NULL. *)
Record spi_transfer := SpiTransfer {
  st_tx_buf : option (list Z);
  st_rx_buf : option (list Z);
  st_len : Z;
  st_bits_per_word : Z;
}.

Section SpiAltera.
Context `{Regmap}.
(** [as_final] is how often the current transfer was reported as finished. *)
(* include/linux/spi/altera.h:32-46 altera_spi *)
Record altera_spi := Aspi {
  as_irq : Z;
  as_len : Z;
  as_count : Z;
  as_bytes_per_word : Z;
  as_imr : Z;
  as_tx : option (list Z);
  as_rx : option (list Z);
  as_regoff : Z;
  as_map : rmap;
  as_final : Z;
}.
Implicit Types hw : altera_spi.
Definition set_as_imr x hw :=
  Aspi (as_irq hw) (as_len hw) (as_count hw) (as_bytes_per_word hw) x (as_tx hw) (as_rx hw) (as_regoff hw) (as_map hw) (as_final hw).
Definition set_as_rx x hw :=
  Aspi (as_irq hw) (as_len hw) (as_count hw) (as_bytes_per_word hw) (as_imr hw) (as_tx hw) x (as_regoff hw) (as_map hw) (as_final hw).
Definition set_as_count x hw :=
  Aspi (as_irq hw) (as_len hw) x (as_bytes_per_word hw) (as_imr hw) (as_tx hw) (as_rx hw) (as_regoff hw) (as_map hw) (as_final hw).
Definition set_as_map x hw :=
  Aspi (as_irq hw) (as_len hw) (as_count hw) (as_bytes_per_word hw) (as_imr hw) (as_tx hw) (as_rx hw) (as_regoff hw) x (as_final hw).
Definition spi_finalize_current_transfer : M altera_spi unit := modify (λ hw,
  Aspi (as_irq hw) (as_len hw) (as_count hw) (as_bytes_per_word hw) (as_imr hw) (as_tx hw) (as_rx hw) (as_regoff hw) (as_map hw) (as_final hw + 1)).

(** The status. *)
(* drivers/spi/spi-altera-core.c:44-55 altr_spi_writel *)
Definition altr_spi_writel (reg val : Z) : M altera_spi Z := λ hw,
  let (ret, d) := rm_write (as_regoff hw + reg) val (as_map hw) in Done (Val ret, set_as_map d hw).
(** What was read, if it was. *)
(* drivers/spi/spi-altera-core.c:57-67 altr_spi_readl *)
Definition altr_spi_readl (reg : Z) : M altera_spi (option Z) := λ hw,
  let (r, d) := rm_read (as_regoff hw + reg) (as_map hw) in
  Done (Val (match r with inr v => Some v | inl _ => None end), set_as_map d hw).

Definition SPI_BIT (n : Z) : Z := Z.shiftl 1 n.
(** [cs] is the number of the chip select of the device. *)
(* drivers/spi/spi-altera-core.c:74-88 altera_spi_set_cs *)
Definition altera_spi_set_cs (cs : Z) (is_high : bool) : M altera_spi unit :=
  if is_high then
    modify (λ hw, set_as_imr (Z.ldiff (as_imr hw) ALTERA_SPI_CONTROL_SSO_MSK) hw) ;;
    hw ← get;
    _ ← altr_spi_writel ALTERA_SPI_CONTROL (as_imr hw);
    _ ← altr_spi_writel ALTERA_SPI_TARGET_SEL 0;
    mret tt
  else
    _ ← altr_spi_writel ALTERA_SPI_TARGET_SEL (SPI_BIT cs);
    modify (λ hw, set_as_imr (Z.lor (as_imr hw) ALTERA_SPI_CONTROL_SSO_MSK) hw) ;;
    hw ← get;
    _ ← altr_spi_writel ALTERA_SPI_CONTROL (as_imr hw);
    mret tt.

(** ** One word *)
Definition tx_byte (tx : list Z) (i : Z) : M altera_spi Z := access (tx !! Z.to_nat i).
(** The word that is sent next. *)
Definition tx_value : M altera_spi Z :=
  hw ← get;
  match as_tx hw with
  | None => mret 0
  | Some tx =>
      let count := as_count hw in
      if as_bytes_per_word hw =? 1 then tx_byte tx count
      else if as_bytes_per_word hw =? 2 then
        b0 ← tx_byte tx (count * 2); b1 ← tx_byte tx (count * 2 + 1);
        mret (Z.lor b0 (Z.shiftl b1 8))
      else if as_bytes_per_word hw =? 4 then
        b0 ← tx_byte tx (count * 4); b1 ← tx_byte tx (count * 4 + 1);
        b2 ← tx_byte tx (count * 4 + 2); b3 ← tx_byte tx (count * 4 + 3);
        mret (Z.lor (Z.lor (Z.lor b0 (Z.shiftl b1 8)) (Z.shiftl b2 16)) (Z.shiftl b3 24))
      else mret 0
  end.
(* drivers/spi/spi-altera-core.c:90-114 altera_spi_tx_word *)
Definition altera_spi_tx_word : M altera_spi unit :=
  txd ← tx_value;
  _ ← altr_spi_writel ALTERA_SPI_TXDATA txd;
  mret tt.
Definition rx_store (i v : Z) : M altera_spi unit :=
  hw ← get;
  rx ← access (as_rx hw);
  _ ← access (rx !! Z.to_nat i);
  modify (set_as_rx (Some (<[Z.to_nat i := u8 v]> rx))).
(** A word that could not be read has no value. *)
(* drivers/spi/spi-altera-core.c:116-141 altera_spi_rx_word *)
Definition altera_spi_rx_word : M altera_spi unit :=
  rxd ← altr_spi_readl ALTERA_SPI_RXDATA;
  hw ← get;
  let count := as_count hw in
  match as_rx hw with
  | None => mret tt
  | Some _ =>
      if as_bytes_per_word hw =? 1 then
        rxd ← access rxd; rx_store count rxd
      else if as_bytes_per_word hw =? 2 then
        rxd ← access rxd; rx_store (count * 2) rxd ;; rx_store (count * 2 + 1) (Z.shiftr rxd 8)
      else if as_bytes_per_word hw =? 4 then
        rxd ← access rxd; rx_store (count * 4) rxd ;; rx_store (count * 4 + 1) (Z.shiftr rxd 8) ;;
        rx_store (count * 4 + 2) (Z.shiftr rxd 16) ;; rx_store (count * 4 + 3) (Z.shiftr rxd 24)
      else mret tt
  end ;;
  modify (λ hw, set_as_count (as_count hw + 1) hw).

(** ** Transfers *)

(** The inner loop: [val] keeps what was read before when a read fails. *)
Fixpoint wait_rrdy (fuel : nat) (val : option Z) : M altera_spi Z :=
  match fuel with
  | O => nofuel
  | S fuel =>
      r ← altr_spi_readl ALTERA_SPI_STATUS;
      let val := match r : option Z with Some v => Some v | None => val end in
      v ← access val;
      if negb (Z.land v ALTERA_SPI_STATUS_RRDY_MSK =? 0) then mret v else wait_rrdy fuel val
  end.
(** [words] bounds the rounds, [fuel] the polls of each. *)
Fixpoint txrx_loop (fuel words : nat) (val : option Z) : M altera_spi unit :=
  hw ← get;
  if as_count hw <? as_len hw then
    match words with
    | O => nofuel
    | S words =>
        altera_spi_tx_word ;;
        v ← wait_rrdy fuel val;
        altera_spi_rx_word ;;
        txrx_loop fuel words (Some v)
    end
  else mret tt.
(** 1 if the interrupt ends the transfer. *)
(* drivers/spi/spi-altera-core.c:143-182 altera_spi_txrx *)
Definition altera_spi_txrx (fuel : nat) (t : spi_transfer) : M altera_spi Z :=
  let bpw := (st_bits_per_word t + 7) / 8 in
  modify (λ hw, Aspi (as_irq hw) (st_len t / bpw) 0 bpw (as_imr hw) (st_tx_buf t) (st_rx_buf t) (as_regoff hw) (as_map hw) (as_final hw)) ;;
  hw ← get;
  if 0 <=? as_irq hw then
    modify (λ hw, set_as_imr (Z.lor (as_imr hw) ALTERA_SPI_CONTROL_IRRDY_MSK) hw) ;;
    hw ← get;
    _ ← altr_spi_writel ALTERA_SPI_CONTROL (as_imr hw);
    altera_spi_tx_word ;;
    mret 1
  else
    txrx_loop fuel (Z.to_nat (as_len hw)) None ;;
    spi_finalize_current_transfer ;;
    mret 0.
(* drivers/spi/spi-altera-core.c:184-202 altera_spi_irq *)
Definition altera_spi_irq : M altera_spi unit :=
  altera_spi_rx_word ;;
  hw ← get;
  if as_count hw <? as_len hw then altera_spi_tx_word
  else
    modify (λ hw, set_as_imr (Z.ldiff (as_imr hw) ALTERA_SPI_CONTROL_IRRDY_MSK) hw) ;;
    hw ← get;
    _ ← altr_spi_writel ALTERA_SPI_CONTROL (as_imr hw);
    spi_finalize_current_transfer.

(** [val] has no value when the status could not be read. *)
(* drivers/spi/spi-altera-core.c:205-220 altera_spi_init_host *)
Definition altera_spi_init_host : M altera_spi unit :=
  modify (set_as_imr 0) ;;
  _ ← altr_spi_writel ALTERA_SPI_CONTROL 0;
  _ ← altr_spi_writel ALTERA_SPI_STATUS 0;
  val ← altr_spi_readl ALTERA_SPI_STATUS;
  val ← access val;
  if negb (Z.land val ALTERA_SPI_STATUS_RRDY_MSK =? 0) then
    _ ← altr_spi_readl ALTERA_SPI_RXDATA; mret tt
  else mret tt.
End SpiAltera.

(** ** The controller behind its registers

    What the controller promises: a word that is written while it is idle is exchanged
    for one of the device; the status shows after a while that it came, or the
    interrupt does; then it can be read.  [Busy n] shows it with the read after [n] more. *)
Inductive spi_phase (S : Type) :=
  | Idle (sl : S)
  | Busy (n : nat) (r : Z) (sl : S)
  | Ready (r : Z) (sl : S).
Arguments Idle {S}.
Arguments Busy {S}.
Arguments Ready {S}.
Definition rrdy (v : Z) : bool := negb (Z.land v ALTERA_SPI_STATUS_RRDY_MSK =? 0).
Class SpiCore `{Regmap} (off : Z) := {
  slave : Type;
  exchange : Z → slave → Z * slave;
  core : rmap → spi_phase slave → Prop;
  core_tx w d sl : core d (Idle sl) →
    ∃ n d', rm_write (off + ALTERA_SPI_TXDATA) w d = (0, d') ∧ core d' (Busy n (exchange w sl).1 (exchange w sl).2);
  core_busy d n r sl : core d (Busy (S n) r sl) →
    ∃ v d', rm_read (off + ALTERA_SPI_STATUS) d = (inr v, d') ∧ rrdy v = false ∧ core d' (Busy n r sl);
  core_ready d r sl : core d (Busy 0 r sl) →
    ∃ v d', rm_read (off + ALTERA_SPI_STATUS) d = (inr v, d') ∧ rrdy v = true ∧ core d' (Ready r sl);
  core_rx d r sl : core d (Ready r sl) → ∃ d', rm_read (off + ALTERA_SPI_RXDATA) d = (inr r, d') ∧ core d' (Idle sl);
  core_control v d ph : core d ph → ∃ d', rm_write (off + ALTERA_SPI_CONTROL) v d = (0, d') ∧ core d' ph;
}.
(** The interrupt comes when the word did. *)
Class SpiIrq `{SpiCore} := {
  core_irq : rmap → rmap;
  core_interrupt d n r sl : core d (Busy n r sl) → core (core_irq d) (Ready r sl);
}.

(** The words of a buffer, and what the device makes of words. *)
Fixpoint words_of (bpw n : nat) (l : list Z) : list Z :=
  match n with O => [] | S n => le_word (take bpw l) :: words_of bpw n (drop bpw l) end.
Definition tx_words (bpw n : nat) (tx : option (list Z)) : list Z :=
  match tx with Some l => words_of bpw n l | None => replicate n 0 end.
Fixpoint exchange_words `{SpiCore} (ws : list Z) (sl : slave) : list Z * slave :=
  match ws with
  | [] => ([], sl)
  | w :: ws => let (r, sl) := exchange w sl in let (rs, sl) := exchange_words ws sl in (r :: rs, sl)
  end.
(** The buffer with the bytes of the words in front. *)
Definition rx_got (bpw : nat) (rs : list Z) (rx : option (list Z)) : option (list Z) :=
  (λ l, (rs ≫= le_split bpw) ++ drop (bpw * length rs) l) <$> rx.

Lemma run_bind {S A B} (m : M S A) (f : A → M S B) s a s' : m s = Done (Val a, s') → (m ≫= f) s = f a s'.
Proof. intros Hm. unfold mbind, M_bind. by rewrite Hm. Qed.

(** ** One word of a transfer *)
Lemma le_word_2 a b : is_u8 a → Z.lor a (Z.shiftl b 8) = le_word [a; b].
Proof. intros Ha. rewrite lor_shiftl by (unfold is_u8 in *; lia). cbn [le_word]. lia. Qed.
Lemma le_word_4 a b c d : is_u8 a → is_u8 b → is_u8 c →
  Z.lor (Z.lor (Z.lor a (Z.shiftl b 8)) (Z.shiftl c 16)) (Z.shiftl d 24) = le_word [a; b; c; d].
Proof.
  unfold is_u8. intros. rewrite (lor_shiftl a), (lor_shiftl (a + _)), (lor_shiftl (a + _ + _)) by lia. cbn [le_word]. lia.
Qed.

Lemma access_val {S A} (a : A) (Q : A → S → Prop) E s : Q a s → wp (access (Some a)) Q E s.
Proof. done. Qed.

Lemma le_split_u8 n w : le_split (Datatypes.S n) w = u8 w :: le_split n (Z.shiftr w 8).
Proof. cbn [le_split]. by rewrite Z.shiftr_div_pow2. Qed.

Section Access.
Context `{Regmap}.
Lemma rx_store_spec i v pre y post hw (Q : unit → altera_spi → Prop) E :
  i = Z.of_nat (length pre) → as_rx hw = Some (pre ++ y :: post) → Q tt (set_as_rx (Some (pre ++ u8 v :: post)) hw) → wp (rx_store i v) Q E hw.
Proof.
  intros -> Hrx HQ. unfold rx_store. wsteps. rewrite Hrx. apply access_val. wsteps.
  rewrite Nat2Z.id, list_lookup_middle by done. apply access_val. wsteps. by rewrite (insert_app_r_alt pre), Nat.sub_diag by lia.
Qed.
End Access.

Section Word.
Context `{SpiCore} (t : spi_transfer) (n bpw : nat).
Hypothesis bpw_ok : bpw = 1%nat ∨ bpw = 2%nat ∨ bpw = 4%nat.
Definition buf_ok (l : list Z) : Prop := (bpw * n ≤ length l)%nat ∧ Forall is_u8 l.
Hypothesis tx_ok : from_option buf_ok True (st_tx_buf t).
Hypothesis rx_ok : from_option (λ l, bpw * n ≤ length l)%nat True (st_rx_buf t).
(** After [k] words of the transfer, of which [rs] were received. *)
Definition at_word (irq imr fin : Z) (k : nat) (rs : list Z) (ph : spi_phase slave) (hw : altera_spi) : Prop :=
  ∃ d, core d ph ∧
    hw = Aspi irq (Z.of_nat n) (Z.of_nat k) (Z.of_nat bpw) imr (st_tx_buf t) (rx_got bpw rs (st_rx_buf t)) off d fin.
Definition word_at (k : nat) : Z := match st_tx_buf t with Some l => le_word (take bpw (drop (bpw * k) l)) | None => 0 end.

Lemma tx_byte_spec l i (j : nat) x hw (Q : Z → altera_spi → Prop) E :
  i = Z.of_nat j → l !! j = Some x → Q x hw → wp (tx_byte l i) Q E hw.
Proof. intros -> Hl HQ. unfold tx_byte. by rewrite Nat2Z.id, Hl. Qed.
Lemma altr_spi_writel_spec reg v hw ret d (Q : Z → altera_spi → Prop) E :
  rm_write (as_regoff hw + reg) v (as_map hw) = (ret, d) → Q ret (set_as_map d hw) → wp (altr_spi_writel reg v) Q E hw.
Proof. unfold wpg, altr_spi_writel. by intros ->. Qed.
Lemma writel_run reg v hw ret d : rm_write (as_regoff hw + reg) v (as_map hw) = (ret, d) → altr_spi_writel reg v hw = Done (Val ret, set_as_map d hw).
Proof. unfold altr_spi_writel. by intros ->. Qed.
Lemma altr_spi_readl_spec reg hw v d (Q : option Z → altera_spi → Prop) E :
  rm_read (as_regoff hw + reg) (as_map hw) = (inr v, d) → Q (Some v) (set_as_map d hw) → wp (altr_spi_readl reg) Q E hw.
Proof. unfold wpg, altr_spi_readl. by intros ->. Qed.
(** The bytes of a word of the buffer. *)
Lemma word_bytes (l : list Z) k : (bpw * n ≤ length l)%nat → (k < n)%nat →
  ∃ w rest, drop (bpw * k) l = w ++ rest ∧ length w = bpw ∧ take bpw (drop (bpw * k) l) = w ∧ drop (bpw * S k) l = rest.
Proof.
  intros Hl Hk. exists (take bpw (drop (bpw * k) l)), (drop bpw (drop (bpw * k) l)).
  rewrite take_drop, length_take, length_drop, drop_drop. split_and!; [done|nia|done|f_equal; lia].
Qed.
Lemma lookup_drop_app {A} (l w rest : list A) k i x : drop k l = w ++ rest → w !! i = Some x → l !! (k + i)%nat = Some x.
Proof. intros Hd Hx. rewrite <- lookup_drop, Hd. by apply lookup_app_l_Some. Qed.
Lemma tx_value_spec irq imr fin k rs ph hw (Q : Z → altera_spi → Prop) E :
  at_word irq imr fin k rs ph hw → (k < n)%nat → Q (word_at k) hw → wp tx_value Q E hw.
Proof.
  intros (d & Hd & ->) Hk HQ. unfold tx_value. wsteps. cbn [as_tx as_count as_bytes_per_word].
  unfold word_at in HQ. destruct (st_tx_buf t) as [l|]; [|by wsteps].
  destruct tx_ok as [Hlen Hu8]. destruct (word_bytes l k Hlen Hk) as (w & rest & Hw & Hwl & Htk & _). rewrite Htk in HQ.
  assert (Hb : ∀ i x, w !! i = Some x → l !! (bpw * k + i)%nat = Some x) by (intros; by eapply lookup_drop_app).
  assert (Hwu : Forall is_u8 w) by (rewrite <- Htk; by apply Forall_take, Forall_drop).
  destruct bpw_ok as [Hbw|[Hbw|Hbw]]; rewrite Hbw in *; repeat wif;
    destruct w as [|x0 [|x1 [|x2 [|x3 [|? ?]]]]]; try done; rewrite ?list.Forall_cons in Hwu; destruct_and?.
  - eapply (tx_byte_spec _ _ (1 * k + 0)); [lia|by apply Hb|]. cbn [le_word] in HQ. by rewrite Z.mul_0_r, Z.add_0_r in HQ.
  - wsteps. eapply (tx_byte_spec _ _ (2 * k + 0)); [lia|by apply Hb|]. wsteps.
    eapply (tx_byte_spec _ _ (2 * k + 1)); [lia|by apply Hb|]. wsteps. by rewrite le_word_2.
  - wsteps. eapply (tx_byte_spec _ _ (4 * k + 0)); [lia|by apply Hb|]. wsteps.
    eapply (tx_byte_spec _ _ (4 * k + 1)); [lia|by apply Hb|]. wsteps.
    eapply (tx_byte_spec _ _ (4 * k + 2)); [lia|by apply Hb|]. wsteps.
    eapply (tx_byte_spec _ _ (4 * k + 3)); [lia|by apply Hb|]. wsteps. by rewrite le_word_4.
Qed.
Lemma tx_word_spec irq imr fin k rs sl hw :
  at_word irq imr fin k rs (Idle sl) hw → (k < n)%nat →
  wp altera_spi_tx_word (λ _ hw', ∃ m, at_word irq imr fin k rs (Busy m (exchange (word_at k) sl).1 (exchange (word_at k) sl).2) hw') (λ _ _, False) hw.
Proof.
  intros Hat Hk. unfold altera_spi_tx_word. wsteps. eapply tx_value_spec; [done..|]. destruct Hat as (d & Hd & ->). wsteps.
  destruct (core_tx (word_at k) d sl Hd) as (m & d' & Hw & Hd'). eapply altr_spi_writel_spec; [exact Hw|].
  wsteps. exists m, d'. by split.
Qed.
(** ** Receiving *)
Lemma rx_word_spec irq imr fin k rs r sl hw :
  at_word irq imr fin k rs (Ready r sl) hw → (k < n)%nat → length rs = k →
  wp altera_spi_rx_word (λ _ hw', at_word irq imr fin (S k) (rs ++ [r]) (Idle sl) hw') (λ _ _, False) hw.
Proof.
  intros (d & Hd & ->) Hk Hrs. unfold altera_spi_rx_word. destruct (core_rx d r sl Hd) as (d' & Hr & Hd').
  wsteps. eapply altr_spi_readl_spec; [exact Hr|]. wsteps. cbn [as_rx set_as_map as_count as_bytes_per_word].
  destruct (st_rx_buf t) as [l|] eqn:Hrx.
  2: { cbn [rx_got fmap option_fmap option_map]. wsteps. exists d'. split; [done|]. unfold set_as_count. cbn. rewrite Hrx. cbn. f_equal. lia. }
  cbn in rx_ok. destruct (word_bytes l k rx_ok Hk) as (w & rest & Hw & Hwl & _ & Hrest).
  assert (Hgot : rx_got bpw rs (Some l) = Some ((rs ≫= le_split bpw) ++ w ++ rest)) by (cbn; by rewrite Hrs, Hw).
  assert (Hgot' : rx_got bpw (rs ++ [r]) (Some l) = Some ((rs ≫= le_split bpw) ++ le_split bpw r ++ rest)).
  { cbn. rewrite length_app, bind_app, bind_cons, Hrs, Nat.add_1_r, Hrest. cbn. by rewrite app_nil_r, <- app_assoc. }
  assert (Hend : ∀ got, got = rx_got bpw (rs ++ [r]) (Some l) → at_word irq imr fin (S k) (rs ++ [r]) (Idle sl)
    (set_as_count (Z.of_nat k + 1) (Aspi irq (Z.of_nat n) (Z.of_nat k) (Z.of_nat bpw) imr (st_tx_buf t) got off d' fin))).
  { intros got ->. exists d'. split; [done|]. rewrite Hrx. unfold set_as_count. cbn. f_equal. lia. }
  rewrite Hgot' in Hend. rewrite Hgot.
  assert (Hpre : length (rs ≫= le_split bpw) = (bpw * k)%nat).
  { rewrite <- Hrs. clear. induction rs as [|x l IH]; [cbn; lia|]. rewrite bind_cons, length_app, IH, length_le_split. cbn. lia. }
  destruct bpw_ok as [Hbw|[Hbw|Hbw]]; rewrite Hbw in *; repeat wif;
    destruct w as [|x0 [|x1 [|x2 [|x3 [|? ?]]]]]; try done; cbn [app] in *; rewrite !le_split_u8, ?Z.shiftr_shiftr in Hend by lia; wsteps; apply access_val.
  - eapply rx_store_spec; [|done|]; [lia|]. wsteps. by apply Hend.
  - wsteps. eapply rx_store_spec; [|done|]; [lia|]. wsteps.
    eapply (rx_store_spec _ _ ((rs ≫= le_split 2) ++ [u8 r])); [|cbn; by rewrite <- app_assoc|]; [rewrite length_app, Hpre; cbn [length]; lia|].
    wsteps. rewrite <- app_assoc. by apply Hend.
  - wsteps. eapply rx_store_spec; [|done|]; [lia|]. wsteps.
    eapply (rx_store_spec _ _ ((rs ≫= le_split 4) ++ [u8 r])); [|cbn; by rewrite <- app_assoc|]; [rewrite length_app, Hpre; cbn [length]; lia|]. wsteps.
    eapply (rx_store_spec _ _ ((rs ≫= le_split 4) ++ [u8 r; u8 (Z.shiftr r 8)])); [|cbn; by rewrite <- !app_assoc|]; [rewrite length_app, Hpre; cbn [length]; lia|]. wsteps.
    eapply (rx_store_spec _ _ ((rs ≫= le_split 4) ++ [u8 r; u8 (Z.shiftr r 8); u8 (Z.shiftr r 16)])); [|cbn; by rewrite <- !app_assoc|]; [rewrite length_app, Hpre; cbn [length]; lia|].
    wsteps. rewrite <- app_assoc. by apply Hend.
Qed.

(** ** Polling *)
Lemma wait_run irq imr fin k rs m r sl hw :
  at_word irq imr fin k rs (Busy m r sl) hw →
  ∃ v hw', (∀ fuel val, (m < fuel)%nat → wait_rrdy fuel val hw = Done (Val v, hw')) ∧ at_word irq imr fin k rs (Ready r sl) hw'.
Proof.
  revert hw. induction m as [|m IH]; intros hw (d & Hd & Hhw).
  - destruct (core_ready d r sl Hd) as (v & d' & Hr & Hv & Hd'). exists v, (set_as_map d' hw). split; [|exists d'; by subst].
    intros [|fuel] val Hf; [lia|]. cbn [wait_rrdy]. unfold altr_spi_readl. rewrite (run_bind _ _ _ (Some v) (set_as_map d' hw)) by (subst; cbn; by rewrite Hr).
    cbv zeta. rewrite (run_bind _ _ _ v (set_as_map d' hw)) by done. unfold rrdy in Hv. by rewrite Hv.
  - destruct (core_busy d m r sl Hd) as (v & d' & Hr & Hv & Hd'). destruct (IH (set_as_map d' hw)) as (v' & hw' & Hrun & Hat); [exists d'; by subst|].
    exists v', hw'. split; [|done]. intros [|fuel] val Hf; [lia|]. cbn [wait_rrdy]. unfold altr_spi_readl.
    rewrite (run_bind _ _ _ (Some v) (set_as_map d' hw)) by (subst; cbn; by rewrite Hr).
    cbv zeta. rewrite (run_bind _ _ _ v (set_as_map d' hw)) by done. unfold rrdy in Hv. rewrite Hv. apply Hrun. lia.
Qed.
Lemma loop_run w irq imr fin k rs sl hw :
  at_word irq imr fin k rs (Idle sl) hw → length rs = k → (k + w = n)%nat →
  let '(rs', sl') := exchange_words (word_at <$> seq k w) sl in
  ∃ F hw', (∀ fuel val, (F ≤ fuel)%nat → txrx_loop fuel w val hw = Done (Val tt, hw')) ∧ at_word irq imr fin n (rs ++ rs') (Idle sl') hw'.
Proof.
  revert k rs sl hw. induction w as [|w IH]; intros k rs sl hw Hat Hrs Hk.
  - cbn. exists O, hw. rewrite app_nil_r. replace n with k by lia. split; [|done]. intros fuel val _. destruct Hat as (d & Hd & ->).
    unfold txrx_loop. rewrite (run_bind _ _ _ _ _ eq_refl). cbn [as_count as_len]. destruct (Z.ltb_spec (Z.of_nat k) (Z.of_nat n)); [lia|done].
  - destruct (wp_run _ _ _ (tx_word_spec _ _ _ _ _ _ _ Hat ltac:(lia))) as ([] & hw1 & Htx & m & Hat1).
    destruct (wait_run _ _ _ _ _ _ _ _ _ Hat1) as (v & hw2 & Hw & Hat2).
    destruct (wp_run _ _ _ (rx_word_spec _ _ _ _ _ _ _ _ Hat2 ltac:(lia) Hrs)) as ([] & hw3 & Hrx & Hat3).
    specialize (IH (S k) _ _ _ Hat3 ltac:(rewrite length_app; cbn; lia) ltac:(lia)).
    cbn [seq fmap list_fmap exchange_words]. destruct (exchange (word_at k) sl) as [r sl1]. cbn [fst snd] in *.
    change (list_fmap nat Z word_at (seq (S k) w)) with (word_at <$> seq (S k) w). destruct (exchange_words (word_at <$> seq (S k) w) sl1) as [rs' sl'].
    destruct IH as (F & hw' & Hloop & Hat'). exists (F `max` S m)%nat, hw'. rewrite <- app_assoc in Hat'. split; [|done].
    intros fuel val Hf. cbn [txrx_loop]. rewrite (run_bind _ _ _ _ _ eq_refl). destruct Hat as (d & Hd & ->). cbn [as_count as_len].
    destruct (Z.ltb_spec (Z.of_nat k) (Z.of_nat n)); [|lia].
    rewrite (run_bind _ _ _ _ _ Htx), (run_bind _ _ _ _ _ (Hw fuel val ltac:(lia))), (run_bind _ _ _ _ _ Hrx). apply Hloop. lia.
Qed.

(** ** Interrupts *)

(** The device is done with the word and raises its interrupt. *)
Context `{!SpiIrq}.
Definition spi_interrupt : M altera_spi unit := modify (λ hw, set_as_map (core_irq (as_map hw)) hw) ;; altera_spi_irq.
Fixpoint spi_interrupts (j : nat) : M altera_spi unit :=
  match j with O => mret tt | S j => spi_interrupts j ;; spi_interrupt end.
Lemma exchange_snoc ws w sl rs sl1 :
  exchange_words ws sl = (rs, sl1) → exchange_words (ws ++ [w]) sl = (rs ++ [(exchange w sl1).1], (exchange w sl1).2).
Proof.
  revert sl rs. induction ws as [|x ws IH]; intros sl rs; cbn [app exchange_words].
  - intros [= <- <-]. by destruct (exchange w sl).
  - destruct (exchange x sl) as [r sl0]. destruct (exchange_words ws sl0) as [rs0 sl2] eqn:He. intros [= <- <-]. by rewrite (IH _ _ He).
Qed.
Lemma words_snoc k : word_at <$> seq 0 (S k) = (word_at <$> seq 0 k) ++ [word_at k].
Proof. by rewrite seq_S, fmap_app. Qed.
(** The words before [k] were exchanged, word [k] is on its way. *)
Definition sending irq imr fin (sl0 : slave) (k : nat) (hw : altera_spi) : Prop :=
  ∃ rs sl m, exchange_words (word_at <$> seq 0 k) sl0 = (rs, sl) ∧ length rs = k ∧
    at_word irq imr fin k rs (Busy m (exchange (word_at k) sl).1 (exchange (word_at k) sl).2) hw.
Definition transferred irq imr fin (sl0 : slave) (hw : altera_spi) : Prop :=
  ∃ rs sl, exchange_words (word_at <$> seq 0 n) sl0 = (rs, sl) ∧ at_word irq imr fin n rs (Idle sl) hw.
Lemma interrupt_spec irq imr fin sl0 k hw :
  sending irq imr fin sl0 k hw → (k < n)%nat →
  wp spi_interrupt (λ _ hw', if decide (S k < n)%nat then sending irq imr fin sl0 (S k) hw'
    else transferred irq (Z.ldiff imr ALTERA_SPI_CONTROL_IRRDY_MSK) (fin + 1) sl0 hw') (λ _ _, False) hw.
Proof.
  intros (rs & sl & m & He & Hrs & d & Hd & ->) Hk. unfold spi_interrupt, altera_spi_irq. wsteps.
  pose proof (exchange_snoc _ (word_at k) _ _ _ He) as He'. rewrite <- words_snoc in He'.
  destruct (exchange (word_at k) sl) as [r sl1]. cbn [fst snd] in *.
  eapply wp_mono; [eapply (rx_word_spec irq imr fin k rs r sl1); [|done..]|..].
  { exists (core_irq d). split; [by eapply core_interrupt|done]. }
  2: done. cbv beta. intros _ hw' Hat. pose proof Hat as (d' & Hd' & ->). wsteps. cbn [as_count as_len].
  destruct (decide (S k < n)%nat) as [Hlt|Hge].
  - destruct (Z.ltb_spec (Z.of_nat (S k)) (Z.of_nat n)); [|lia]. eapply wp_mono; [by apply (tx_word_spec _ _ _ _ _ _ _ Hat)| |done].
    intros _ hw' (m' & Hat'). exists (rs ++ [r]), sl1, m'. split_and!; [done|rewrite length_app; cbn; lia|done].
  - destruct (Z.ltb_spec (Z.of_nat (S k)) (Z.of_nat n)); [lia|]. wsteps. destruct (core_control (Z.ldiff imr ALTERA_SPI_CONTROL_IRRDY_MSK) d' _ Hd') as (d2 & Hw & Hd2).
    eapply altr_spi_writel_spec; [exact Hw|]. unfold spi_finalize_current_transfer. wsteps.
    assert (Hn : S k = n) by lia. rewrite Hn in He'. exists (rs ++ [r]), sl1. split; [done|]. exists d2. split; [done|].
    unfold set_as_map, set_as_imr. cbn [as_irq as_len as_count as_bytes_per_word as_tx as_rx as_regoff as_final as_imr]. by rewrite Hn.
Qed.
Lemma interrupts_run j irq imr fin sl0 hw :
  sending irq imr fin sl0 0 hw → (0 < n)%nat → (j ≤ n)%nat →
  ∃ hw', spi_interrupts j hw = Done (Val tt, hw') ∧
    if decide (j < n)%nat then sending irq imr fin sl0 j hw'
    else transferred irq (Z.ldiff imr ALTERA_SPI_CONTROL_IRRDY_MSK) (fin + 1) sl0 hw'.
Proof.
  intros Hs Hn. induction j as [|j IH]; intros Hj.
  - exists hw. split; [done|]. by rewrite decide_True.
  - destruct IH as (hw1 & Hrun & Hs1); [lia|]. rewrite decide_True in Hs1 by lia.
    destruct (wp_run _ _ _ (interrupt_spec _ _ _ _ _ _ Hs1 ltac:(lia))) as ([] & hw2 & Hi & Hs2).
    exists hw2. split; [|done]. cbn [spi_interrupts]. by rewrite (run_bind _ _ _ _ _ Hrun).
Qed.
Lemma words_of_seq l m k : (λ k, le_word (take bpw (drop (bpw * k) l))) <$> seq k m = words_of bpw m (drop (bpw * k) l).
Proof.
  clear. revert k. induction m as [|m IH]; intros k; cbn [seq words_of]; [done|]. rewrite fmap_cons, IH, drop_drop. do 3 f_equal. lia.
Qed.
Lemma words_at_tx : word_at <$> seq 0 n = tx_words bpw n (st_tx_buf t).
Proof.
  unfold word_at, tx_words. destruct (st_tx_buf t) as [l|]; [by rewrite words_of_seq, Nat.mul_0_r|].
  clear. generalize 0%nat. induction n as [|m IH]; intros k; cbn; [done|f_equal; apply IH].
Qed.
(** The transfer is over, and was reported as such once. *)
Definition transfer_done (hw : altera_spi) (rs : list Z) (sl : slave) (hw' : altera_spi) : Prop :=
  as_rx hw' = rx_got bpw rs (st_rx_buf t) ∧ core (as_map hw') (Idle sl) ∧ as_final hw' = as_final hw + 1 ∧
  as_irq hw' = as_irq hw ∧ as_regoff hw' = off ∧ as_count hw' = as_len hw'.
Lemma txrx_start hw :
  as_regoff hw = off → st_len t = Z.of_nat (bpw * n) → (st_bits_per_word t + 7) / 8 = Z.of_nat bpw →
  Aspi (as_irq hw) (st_len t / ((st_bits_per_word t + 7) / 8)) 0 ((st_bits_per_word t + 7) / 8) (as_imr hw) (st_tx_buf t) (st_rx_buf t)
    (as_regoff hw) (as_map hw) (as_final hw) =
  Aspi (as_irq hw) (Z.of_nat n) (Z.of_nat 0) (Z.of_nat bpw) (as_imr hw) (st_tx_buf t) (rx_got bpw [] (st_rx_buf t)) off (as_map hw) (as_final hw).
Proof.
  intros -> -> ->. rewrite Nat2Z.inj_mul, Z.mul_comm, Z.div_mul by lia. do 2 f_equal. destruct (st_rx_buf t); [|done]. cbn. by rewrite Nat.mul_0_r.
Qed.
Lemma polled_spec hw sl rs sl' :
  as_regoff hw = off → core (as_map hw) (Idle sl) → as_irq hw < 0 →
  st_len t = Z.of_nat (bpw * n) → (st_bits_per_word t + 7) / 8 = Z.of_nat bpw →
  exchange_words (tx_words bpw n (st_tx_buf t)) sl = (rs, sl') →
  ∃ F hw', (∀ fuel, (F ≤ fuel)%nat → altera_spi_txrx fuel t hw = Done (Val 0, hw')) ∧ transfer_done hw rs sl' hw' ∧ as_imr hw' = as_imr hw.
Proof.
  intros Hoff Hcore Hirq Hlen Hbits Hex. pose proof (txrx_start hw Hoff Hlen Hbits) as Hstart.
  pose proof (loop_run n (as_irq hw) (as_imr hw) (as_final hw) 0 [] sl _ ltac:(eexists; split; [exact Hcore|reflexivity]) eq_refl eq_refl) as Hl.
  rewrite words_at_tx, Hex in Hl. destruct Hl as (F & hw1 & Hrun & d & Hd & ->).
  exists F. eexists. split; [|split].
  - intros fuel HF. unfold altera_spi_txrx. cbv zeta. rewrite (run_bind _ _ _ _ _ eq_refl), (run_bind _ _ _ _ _ eq_refl), Hstart. cbn [as_irq as_len].
    destruct (Z.leb_spec 0 (as_irq hw)); [lia|]. rewrite Nat2Z.id, (run_bind _ _ _ _ _ (Hrun fuel None HF)). unfold spi_finalize_current_transfer.
    by rewrite (run_bind _ _ _ _ _ eq_refl).
  - by repeat split.
  - done.
Qed.
Lemma irq_spec hw sl rs sl' :
  as_regoff hw = off → core (as_map hw) (Idle sl) → 0 ≤ as_irq hw → (0 < n)%nat →
  st_len t = Z.of_nat (bpw * n) → (st_bits_per_word t + 7) / 8 = Z.of_nat bpw →
  exchange_words (tx_words bpw n (st_tx_buf t)) sl = (rs, sl') →
  ∀ fuel, ∃ hw1, altera_spi_txrx fuel t hw = Done (Val 1, hw1) ∧
    (∀ j, (j < n)%nat → ∃ hw2, spi_interrupts j hw1 = Done (Val tt, hw2) ∧ as_final hw2 = as_final hw) ∧
    ∃ hw2, spi_interrupts n hw1 = Done (Val tt, hw2) ∧ transfer_done hw rs sl' hw2 ∧
      as_imr hw2 = Z.ldiff (Z.lor (as_imr hw) ALTERA_SPI_CONTROL_IRRDY_MSK) ALTERA_SPI_CONTROL_IRRDY_MSK.
Proof.
  intros Hoff Hcore Hirq Hn Hlen Hbits Hex fuel. pose proof (txrx_start hw Hoff Hlen Hbits) as Hstart.
  set (imr := Z.lor (as_imr hw) ALTERA_SPI_CONTROL_IRRDY_MSK). destruct (core_control imr _ _ Hcore) as (d & Hw & Hd).
  destruct (wp_run _ _ _ (tx_word_spec (as_irq hw) imr (as_final hw) 0 [] sl _ ltac:(eexists; split; [exact Hd|reflexivity]) Hn)) as ([] & hw1 & Htx & m & Hat).
  assert (Hs : sending (as_irq hw) imr (as_final hw) sl 0 hw1) by (by exists [], sl, m).
  exists hw1. split_and!.
  - unfold altera_spi_txrx. cbv zeta. rewrite (run_bind _ _ _ _ _ eq_refl), (run_bind _ _ _ _ _ eq_refl), Hstart. cbn [as_irq].
    destruct (Z.leb_spec 0 (as_irq hw)); [|lia]. rewrite (run_bind _ _ _ _ _ eq_refl), (run_bind _ _ _ _ _ eq_refl).
    erewrite (run_bind (altr_spi_writel _ _)); [|by apply writel_run]. unfold set_as_imr. cbn [as_imr]. fold imr.
    by rewrite (run_bind _ _ _ _ _ Htx).
  - intros j Hj. destruct (interrupts_run j _ _ _ _ _ Hs Hn ltac:(lia)) as (hw2 & Hrun & Hs2). rewrite decide_True in Hs2 by done.
    exists hw2. split; [done|]. by destruct Hs2 as (?&?&?&?&?&?&?&->).
  - destruct (interrupts_run n _ _ _ _ _ Hs Hn ltac:(lia)) as (hw2 & Hrun & Hs2). rewrite decide_False in Hs2 by lia.
    exists hw2. split; [done|]. destruct Hs2 as (rs' & sl2 & He & d' & Hd' & ->). rewrite words_at_tx, Hex in He. injection He as <- <-. by repeat split.
Qed.
End Word.

Section Transfer.
Context `{SpiIrq}.

(** C33: A transfer of words of one, two or four bytes, whole words in buffers that are
    long enough, through the controller (words of 17 to 24 bits have three bytes,
    which the driver accepts but does not send) exchanges the words of its buffer, in order and
    little endian, with the words of the device, and leaves these in the receive
    buffer; it is reported as finished once, when it is.  This holds whether the
    driver polls, where it ends after finitely many reads of the status, or the
    interrupt drives it, where one interrupt per word is enough and no earlier one
    finishes it: both ways have the same effect. *)
Theorem transfer_exact t n bpw hw sl :
  bpw = 1%nat ∨ bpw = 2%nat ∨ bpw = 4%nat → (st_bits_per_word t + 7) / 8 = Z.of_nat bpw →
  (0 < n)%nat → st_len t = Z.of_nat (bpw * n) →
  from_option (buf_ok n bpw) True (st_tx_buf t) → from_option (λ l, bpw * n ≤ length l)%nat True (st_rx_buf t) →
  as_regoff hw = off → core (as_map hw) (Idle sl) →
  let '(rs, sl') := exchange_words (tx_words bpw n (st_tx_buf t)) sl in
  (as_irq hw < 0 →
    ∃ F hw', (∀ fuel, (F ≤ fuel)%nat → altera_spi_txrx fuel t hw = Done (Val 0, hw')) ∧ transfer_done t bpw hw rs sl' hw') ∧
  (0 ≤ as_irq hw → ∀ fuel,
    ∃ hw1, altera_spi_txrx fuel t hw = Done (Val 1, hw1) ∧
      (∀ j, (j < n)%nat → ∃ hw2, spi_interrupts j hw1 = Done (Val tt, hw2) ∧ as_final hw2 = as_final hw) ∧
      ∃ hw2, spi_interrupts n hw1 = Done (Val tt, hw2) ∧ transfer_done t bpw hw rs sl' hw2).
Proof.
  intros Hbpw Hbits Hn Hlen Htx Hrx Hoff Hcore.
  destruct (exchange_words (tx_words bpw n (st_tx_buf t)) sl) as [rs sl'] eqn:Hex. split; intros Hirq.
  - destruct (polled_spec t n bpw Hbpw Htx Hrx hw sl rs sl') as (F & hw' & Hrun & Hdone & _); [done..|by exists F, hw'].
  - intros fuel. destruct (irq_spec t n bpw Hbpw Htx Hrx hw sl rs sl' Hoff Hcore Hirq Hn Hlen Hbits Hex fuel) as (hw1 & Hrun & Hj & hw2 & Hi & Hdone & _).
    exists hw1. split; [done|]. split; [done|]. by exists hw2.
Qed.
End Transfer.

(** ** A concrete controller

    Its device answers a word with its complement and keeps what it was sent; a word
    takes two reads of the status.  [fails] are the registers that can not be read. *)
Definition demo_map (fails : Z → bool) : Regmap := {|
  rmap := spi_phase (list Z);
  rm_read reg d :=
    if fails reg then (inl (- ETIMEDOUT), d)
    else if reg =? ALTERA_SPI_STATUS then
      match d with Busy 0 r sl => (inr 0x80, Ready r sl) | Busy (S n) r sl => (inr 0, Busy n r sl) | Ready _ _ => (inr 0x80, d) | Idle _ => (inr 0, d) end
    else if reg =? ALTERA_SPI_RXDATA then
      match d with Ready r sl => (inr r, Idle sl) | _ => (inr 0, d) end
    else (inr 0, d);
  rm_write reg v d :=
    if reg =? ALTERA_SPI_TXDATA then
      match d with Idle sl => (0, Busy 2 (u32 (Z.lnot v)) (sl ++ [v])) | _ => (0, d) end
    else (0, d);
|}.
#[export] Instance demo_core : @SpiCore (demo_map (λ _, false)) 0.
Proof.
  refine (@Build_SpiCore (demo_map (λ _, false)) 0 (list Z) (λ w sl, (u32 (Z.lnot w), sl ++ [w])) (@eq (spi_phase (list Z))) _ _ _ _ _).
  - intros w d sl ->. cbn. eauto.
  - intros d n r sl ->. by eexists _, _.
  - intros d r sl ->. by eexists _, _.
  - intros d r sl ->. by eexists.
  - intros v d ph ->. by eexists.
Defined.
#[export] Instance demo_irq : @SpiIrq (demo_map (λ _, false)) 0 demo_core.
Proof.
  refine (@Build_SpiIrq (demo_map (λ _, false)) 0 demo_core (λ d : spi_phase (list Z), match d with Busy _ r sl => Ready r sl | _ => d end) _).
  by intros d n r sl ->.
Defined.
Definition demo_spi (fails : Z → bool) (irq : Z) : @altera_spi (demo_map fails) := @Aspi (demo_map fails) irq 0 0 0 0 None None 0 (Idle []) 0.
Definition demo_transfer (bits : Z) : spi_transfer := SpiTransfer (Some [1; 2; 3; 4; 5; 6]) (Some [0; 0; 0; 0; 0; 0]) 6 bits.
(** The receive buffer and the state of the controller. *)
Definition spi_view {fails} (r : exec (outcome Z * @altera_spi (demo_map fails))) : option (Z * option (list Z) * spi_phase (list Z)) :=
  match r with Done (Val ret, hw) => Some (ret, as_rx hw, as_map hw) | _ => None end.

Lemma transfer_exact_witness :
  ∃ F, ∀ fuel, (F ≤ fuel)%nat →
    spi_view (@altera_spi_txrx (demo_map (λ _, false)) fuel (demo_transfer 16) (demo_spi (λ _, false) (-22))) =
      Some (0, Some [254; 253; 252; 251; 250; 249], Idle [0x0201; 0x0403; 0x0605]).
Proof.
  pose proof (@transfer_exact (demo_map (λ _, false)) 0 demo_core demo_irq (demo_transfer 16) 3 2 (demo_spi (λ _, false) (-22)) []
    ltac:(auto) eq_refl ltac:(lia) eq_refl) as Hx.
  cbn [from_option demo_transfer st_tx_buf st_rx_buf] in Hx.
  specialize (Hx ltac:(split; [cbn; lia|repeat constructor; unfold is_u8; lia]) ltac:(cbn; lia) eq_refl eq_refl).
  destruct (exchange_words _ _) as [rs sl'] eqn:He in Hx. vm_compute in He. injection He as <- <-.
  destruct Hx as [Hp _]. destruct (Hp ltac:(cbn; lia)) as (F & hw' & Hrun & Hrx & Hcore & _).
  exists F. intros fuel HF. rewrite (Hrun fuel HF). cbn [spi_view]. rewrite Hrx. cbn in Hcore. rewrite Hcore. reflexivity.
Defined.
(** Words of 17 to 24 bits have three bytes, which no case handles: zeroes are sent
    and what comes is lost, and the transfer succeeds. *)
Example three_byte_words :
  spi_view (@altera_spi_txrx (demo_map (λ _, false)) 10 (demo_transfer 24) (demo_spi (λ _, false) (-22))) =
    Some (0, Some [0; 0; 0; 0; 0; 0], Idle [0; 0]).
Proof. vm_compute. reflexivity. Qed.
(** A received word that can not be read is what the stack has. *)
Example unread_word_stored :
  @altera_spi_txrx (demo_map (λ r, r =? ALTERA_SPI_RXDATA)) 10 (demo_transfer 8) (demo_spi _ (-22)) = Fault.
Proof. apply is_fault_eq. vm_compute. reflexivity. Qed.
