(* ===== verification/SpiDfl.v ===== *)
(** * SPI controllers of cards (drivers/spi/spi-altera-dfl.c, spi-altera-platform.c)

    The registers of the controller of a card are behind two words of the feature: an
    address with a command, and the data.  [indirect_regmap] is this bus as a register
    map, and what the controller promises of its registers holds again behind it.
    The probes set up the controller and its devices. *)
From stdpp Require Import list strings.
From S2P Require Import Prelude DflRegs Mmio Regmap SpiAltera.

(* drivers/spi/spi-altera-dfl.c:26-26 FME_FEATURE_REV_MAX10_SPI_N5010 *)
Definition FME_FEATURE_REV_MAX10_SPI_N5010 : Z := 0x1.
(* drivers/spi/spi-altera-dfl.c:27-27 FME_FEATURE_REV_MAX10_SPI_N5014 *)
Definition FME_FEATURE_REV_MAX10_SPI_N5014 : Z := 0x2.
(* drivers/spi/spi-altera-dfl.c:29-29 SPI_CORE_PARAMETER *)
Definition SPI_CORE_PARAMETER : Z := 0x8.
(* drivers/spi/spi-altera-dfl.c:33-33 DATA_WIDTH *)
Definition DATA_WIDTH : field := GENMASK_ULL 7 2.
(* drivers/spi/spi-altera-dfl.c:34-34 NUM_CHIPSELECT *)
Definition NUM_CHIPSELECT : field := GENMASK_ULL 13 8.
(* drivers/spi/spi-altera-dfl.c:35-35 CLK_POLARITY *)
Definition CLK_POLARITY : field := BIT_ULL 14.
(* drivers/spi/spi-altera-dfl.c:36-36 CLK_PHASE *)
Definition CLK_PHASE : field := BIT_ULL 15.
(* drivers/spi/spi-altera-dfl.c:41-41 INDIRECT_ADDR *)
Definition INDIRECT_ADDR : Z := 0x10 + 0x0.
(* drivers/spi/spi-altera-dfl.c:42-42 INDIRECT_WR *)
Definition INDIRECT_WR : Z := 2 ^ 8.
(* drivers/spi/spi-altera-dfl.c:43-43 INDIRECT_RD *)
Definition INDIRECT_RD : Z := 2 ^ 9.
(* drivers/spi/spi-altera-dfl.c:44-44 INDIRECT_RD_DATA *)
Definition INDIRECT_RD_DATA : Z := 0x10 + 0x8.
(* drivers/spi/spi-altera-dfl.c:45-45 INDIRECT_DATA_MASK *)
Definition INDIRECT_DATA_MASK : Z := 2 ^ 32 - 1.
(* drivers/spi/spi-altera-dfl.c:47-47 INDIRECT_WR_DATA *)
Definition INDIRECT_WR_DATA : Z := 0x10 + 0x10.
(* drivers/spi/spi-altera-dfl.c:48-48 INDIRECT_TIMEOUT *)
Definition INDIRECT_TIMEOUT : nat := 10000.
Definition ETIME : Z := 62.

(** ** The bus of the card *)
Section IndirectBus.
Context `{MmioHw} (base : Z).
(** The loop that waits for the command to be done, with [r] rounds to go: [loops]
    is how often it went round. *)
Fixpoint indirect_wait (bit : Z) (r loops : nat) : M mmst nat :=
  v ← readq (base + INDIRECT_ADDR);
  if Z.land v bit =? 0 then mret loops
  else match r with O => mret (S loops) | S r => indirect_wait bit r (S loops) end.
(* drivers/spi/spi-altera-dfl.c:50-74 indirect_bus_reg_read *)
Definition indirect_bus_reg_read (reg : Z) : M mmst Z :=
  writeq (Z.lor (Z.shiftr reg 2) INDIRECT_RD) (base + INDIRECT_ADDR) ;;
  loops ← indirect_wait INDIRECT_RD INDIRECT_TIMEOUT 0;
  if (INDIRECT_TIMEOUT <=? loops)%nat then throw (- ETIME) else
  v ← readq (base + INDIRECT_RD_DATA);
  mret (Z.land v INDIRECT_DATA_MASK).
(* drivers/spi/spi-altera-dfl.c:76-95 indirect_bus_reg_write *)
Definition indirect_bus_reg_write (reg val : Z) : M mmst unit :=
  writeq val (base + INDIRECT_WR_DATA) ;;
  writeq (Z.lor (Z.shiftr reg 2) INDIRECT_WR) (base + INDIRECT_ADDR) ;;
  loops ← indirect_wait INDIRECT_WR INDIRECT_TIMEOUT 0;
  if (INDIRECT_TIMEOUT <=? loops)%nat then throw (- ETIME) else mret tt.

(** The register map: what the two operations give. *)
(* drivers/spi/spi-altera-dfl.c:97-106 indirect_regbus_cfg *)
Definition indirect_regmap : Regmap := {|
  rmap := mmst;
  rm_read reg s := match indirect_bus_reg_read reg s with
    | Done (Val v, s) => (inr v, s) | Done (Err e, s) => (inl e, s) | _ => (inl 0, s) end;
  rm_write reg v s := match indirect_bus_reg_write reg v s with
    | Done (Val _, s) => (0, s) | Done (Err e, s) => (e, s) | _ => (0, s) end;
|}.
End IndirectBus.

(** ** The probes *)
Definition SPI_CPHA : Z := 1.
Definition SPI_CPOL : Z := 2.
Definition SPI_CS_HIGH : Z := 4.
(** A mask of the bits [min - 1] to [max - 1]; a shift by the width of a word is not
    defined. *)
Definition SPI_BPW_RANGE_MASK (min max : Z) : option Z :=
  if (1 <=? min) && (min <=? max) && (max <=? 64) then Some (u32 (Z.shiftl (Z.ones (max - min + 1)) (min - 1))) else None.

(** The kernel: whether a host can be allocated, and the status of each call; the
    interrupt of a device; whether a device can be created. *)
Class SpiKernel := {
  spik : Type;
  spi_alloc_host : spik → bool * spik;
  devm_ioremap_resource : spik → Z * spik;
  devm_regmap_init : spik → Z * spik;
  devm_spi_register_controller : spik → Z * spik;
  platform_get_irq : spik → Z * spik;
  devm_request_irq : Z → spik → Z * spik;
  spi_new_device : string → spik → bool * spik;
}.

Section Probe.
Context `{SpiKernel} {R : Regmap}.
(** The host, with its references, what was set up of it, and its devices. *)
Record spi_probe_st := SpiPr {
  sp_k : spik;
  sp_hw : @altera_spi R;
  sp_mode_bits : Z;
  sp_num_chipselect : Z;
  sp_bits_per_word_mask : Z;
  sp_refs : Z;
  sp_registered : bool;
  sp_devices : list string;
}.
Implicit Types s : spi_probe_st.
Definition sp_op {A} (f : spik → A * spik) : M spi_probe_st A := λ s,
  let (a, k) := f (sp_k s) in
  Done (Val a, SpiPr k (sp_hw s) (sp_mode_bits s) (sp_num_chipselect s) (sp_bits_per_word_mask s) (sp_refs s) (sp_registered s) (sp_devices s)).
Definition set_sp_hw h s :=
  SpiPr (sp_k s) h (sp_mode_bits s) (sp_num_chipselect s) (sp_bits_per_word_mask s) (sp_refs s) (sp_registered s) (sp_devices s).
Definition set_sp_config mode cs mask s :=
  SpiPr (sp_k s) (sp_hw s) mode cs mask (sp_refs s) (sp_registered s) (sp_devices s).
Definition set_sp_refs n s :=
  SpiPr (sp_k s) (sp_hw s) (sp_mode_bits s) (sp_num_chipselect s) (sp_bits_per_word_mask s) n (sp_registered s) (sp_devices s).
Definition set_sp_registered s :=
  SpiPr (sp_k s) (sp_hw s) (sp_mode_bits s) (sp_num_chipselect s) (sp_bits_per_word_mask s) (sp_refs s) true (sp_devices s).
Definition add_sp_device d s :=
  SpiPr (sp_k s) (sp_hw s) (sp_mode_bits s) (sp_num_chipselect s) (sp_bits_per_word_mask s) (sp_refs s) (sp_registered s) (sp_devices s ++ [d]).
Definition on_hw {A} (m : M (@altera_spi R) A) : M spi_probe_st A := zoom sp_hw set_sp_hw m.
Definition set_as_irq x (hw : @altera_spi R) :=
  Aspi x (as_len hw) (as_count hw) (as_bytes_per_word hw) (as_imr hw) (as_tx hw) (as_rx hw) (as_regoff hw) (as_map hw) (as_final hw).
Definition set_as_regoff x (hw : @altera_spi R) :=
  Aspi (as_irq hw) (as_len hw) (as_count hw) (as_bytes_per_word hw) (as_imr hw) (as_tx hw) (as_rx hw) x (as_map hw) (as_final hw).
Definition spi_controller_put : M spi_probe_st unit := modify (λ s, set_sp_refs (sp_refs s - 1) s).
(** A device that can not be created is only reported. *)
Definition new_device (name : string) : M spi_probe_st unit :=
  ok ← sp_op (spi_new_device name);
  if ok : bool then modify (add_sp_device name) else mret tt.
(** The hosts data of a board. *)
(* include/linux/spi/altera.h:24-30 altera_spi_platform_data *)
Record altera_spi_platform_data := SpiPdata {
  pd_mode_bits : Z;
  pd_num_chipselect : Z;
  pd_bits_per_word_mask : Z;
  pd_devices : list string;
}.
(* drivers/spi/spi-altera-platform.c:24-27 altera_spi_type *)
Inductive altera_spi_type := ALTERA_SPI_TYPE_UNKNOWN | ALTERA_SPI_TYPE_SUBDEV.
(** [parent] is whether the parent has a register map, [regoff] the resource with the
    offset of the registers. *)
(* drivers/spi/spi-altera-platform.c:36-140 altera_spi_probe *)
Definition altera_spi_probe (pdata : option altera_spi_platform_data) (type : altera_spi_type) (parent : bool) (regoff : option Z)
    : M spi_probe_st unit :=
  ok ← sp_op spi_alloc_host;
  if negb ok then throw (- ENODEV) else
  modify (set_sp_refs 1) ;;
  on_error (
    match pdata with
    | Some pdata =>
        if ALTERA_SPI_MAX_CS <? pd_num_chipselect pdata then throw (- EINVAL)
        else modify (set_sp_config (pd_mode_bits pdata) (pd_num_chipselect pdata) (pd_bits_per_word_mask pdata))
    | None =>
        mask ← access (SPI_BPW_RANGE_MASK 1 16);
        modify (set_sp_config SPI_CS_HIGH 16 mask)
    end ;;
    match type with
    | ALTERA_SPI_TYPE_SUBDEV =>
        if negb parent then throw (- ENODEV) else
        match regoff with Some o => on_hw (modify (set_as_regoff o)) | None => mret tt end
    | ALTERA_SPI_TYPE_UNKNOWN =>
        ret ← sp_op devm_ioremap_resource;
        rc ret ;;
        ret ← sp_op devm_regmap_init;
        rc ret
    end ;;
    on_hw altera_spi_init_host ;;
    irq ← sp_op platform_get_irq;
    on_hw (modify (set_as_irq irq)) ;;
    (if 0 <=? irq then ret ← sp_op (devm_request_irq irq); rc ret else mret tt) ;;
    ret ← sp_op devm_spi_register_controller;
    rc ret ;;
    modify set_sp_registered) spi_controller_put ;;
  match pdata with Some pdata => for_each (pd_devices pdata) new_device | None => mret tt end.
End Probe.

Section ProbeFacts.
Context `{SpiKernel} {R : Regmap}.
Implicit Types s : @spi_probe_st _ R.
(** Only what is not the registration of the host changes. *)
Definition same_host s s' : Prop := sp_refs s' = sp_refs s ∧ sp_registered s' = sp_registered s ∧ sp_devices s' = sp_devices s.
Lemma sp_op_spec {A} (f : spik → A * spik) s (Q : A → spi_probe_st → Prop) E :
  (∀ a s', same_host s s' → sp_hw s' = sp_hw s → Q a s') → wlp (sp_op f) Q E s.
Proof. intros HQ. unfold wpg, sp_op. destruct (f (sp_k s)). by apply HQ. Qed.
Lemma on_hw_spec {A} (m : M (@altera_spi R) A) s (Q : A → spi_probe_st → Prop) (E : Z → spi_probe_st → Prop) :
  (∀ a h, Q a (set_sp_hw h s)) → (∀ e h, E e (set_sp_hw h s)) → wlp (on_hw m) Q E s.
Proof. intros HQ HE. apply wp_zoom. destruct (m (sp_hw s)) as [[[a|e] h]| |]; auto. Qed.
(** A host that could not be set up is given back, one that could is registered and
    has the devices that could be created. *)
Definition probe_ok s (names : list string) s' : Prop :=
  sp_refs s' = 1 ∧ sp_registered s' = true ∧ ∃ made, sp_devices s' = sp_devices s ++ made ∧ made `sublist_of` names.
Definition probe_err s s' : Prop :=
  (sp_refs s' = sp_refs s ∨ sp_refs s' = 0) ∧ sp_registered s' = sp_registered s ∧ sp_devices s' = sp_devices s.
Lemma new_device_spec name s :
  wlp (new_device name) (λ _ s', sp_refs s' = sp_refs s ∧ sp_registered s' = sp_registered s ∧
    ∃ made, sp_devices s' = sp_devices s ++ made ∧ made `sublist_of` [name]) (λ _ _, False) s.
Proof.
  unfold new_device. wstep. apply sp_op_spec. intros ok s' (Hr & Hg & Hd) _. destruct ok; wsteps; (split; [done|split; [done|]]).
  - exists [name]. cbn. by rewrite Hd.
  - exists []. rewrite app_nil_r. split; [done|]. apply sublist_nil_l.
Qed.
Lemma new_devices_spec names s :
  wlp (for_each names new_device) (λ _ s', sp_refs s' = sp_refs s ∧ sp_registered s' = sp_registered s ∧
    ∃ made, sp_devices s' = sp_devices s ++ made ∧ made `sublist_of` names) (λ _ _, False) s.
Proof.
  revert s. induction names as [|name names IH]; intros s; cbn [for_each]; wsteps.
  - split; [done|]. split; [done|]. exists []. by rewrite app_nil_r.
  - eapply wp_mono; [apply new_device_spec| |done]. cbv beta. intros _ s1 (Hr & Hg & made & Hd & Hm).
    eapply wp_mono; [apply IH| |done]. cbv beta. intros _ s2 (Hr2 & Hg2 & made2 & Hd2 & Hm2).
    split; [congruence|]. split; [congruence|]. exists (made ++ made2). split; [by rewrite Hd2, Hd, app_assoc|]. by apply (sublist_app _ [name]).
Qed.
(** While the host is set up. *)
Definition host_held s s' : Prop := sp_refs s' = 1 ∧ sp_registered s' = sp_registered s ∧ sp_devices s' = sp_devices s.
Lemma sp_op_held {A} (f : spik → A * spik) s0 s (Q : A → spi_probe_st → Prop) E :
  host_held s0 s → (∀ a s', host_held s0 s' → Q a s') → wlp (sp_op f) Q E s.
Proof. intros (? & ? & ?) HQ. apply sp_op_spec. intros a s' (? & ? & ?) _. apply HQ. split_and!; congruence. Qed.
Lemma on_hw_held {A} (m : M (@altera_spi R) A) s0 s (Q : A → spi_probe_st → Prop) (E : Z → spi_probe_st → Prop) :
  host_held s0 s → (∀ a s', host_held s0 s' → Q a s') → (∀ e s', host_held s0 s' → E e s') → wlp (on_hw m) Q E s.
Proof. intros Hh HQ HE. apply on_hw_spec; intros; [apply HQ|apply HE]; done. Qed.
Lemma config_held s0 s mode cs mask : host_held s0 s → host_held s0 (set_sp_config mode cs mask s).
Proof. done. Qed.
(** The end of both probes. *)
Definition makes (m : M (@spi_probe_st _ R) unit) (names : list string) : Prop := ∀ s,
  wlp m (λ _ s', sp_refs s' = sp_refs s ∧ sp_registered s' = sp_registered s ∧
    ∃ made, sp_devices s' = sp_devices s ++ made ∧ made `sublist_of` names) (λ _ _, False) s.
Lemma probe_end (body m : M (@spi_probe_st _ R) unit) names s s1 :
  sp_registered s = false → makes m names →
  wlp body (λ _ s', sp_refs s' = 1 ∧ sp_registered s' = true ∧ sp_devices s' = sp_devices s) (λ _, host_held s) s1 →
  wlp (on_error body spi_controller_put ;; m) (λ _ s', probe_ok s names s') (λ _ s', probe_err s s') s1.
Proof.
  intros Hf Hm Hbody. wsteps. eapply wp_mono; [exact Hbody|..]; cbv beta.
  - intros _ s2 (Hr & Hg & Hd). eapply wp_mono; [apply Hm| |done]. cbv beta. intros _ s3 (Hr3 & Hg3 & made & Hm' & Hsub).
    split; [congruence|]. split; [congruence|]. exists made. by rewrite Hm', Hd.
  - intros e s2 (Hr & Hg & Hd). unfold spi_controller_put. wsteps. split; [right; cbn; lia|]. by split.
Qed.
End ProbeFacts.
Ltac held_step :=
  lazymatch goal with
  | |- ∀ _, _ => intros ?
  | |- _ → _ => intros ?
  | |- wpg _ _ (sp_op _) _ _ _ => eapply sp_op_held; [eassumption|]
  | |- wpg _ _ (on_hw _) _ _ _ => eapply on_hw_held; [eassumption| |by intros]
  | |- wpg _ _ (if ?b then _ else _) _ _ _ => destruct b
  | |- wpg _ _ (match ?o with _ => _ end) _ _ _ => destruct o
  | |- wpg _ _ (access ?o) _ _ _ => destruct o; [apply wp_access|done]
  | |- wpg _ _ _ _ _ _ => wstep; cbv beta
  | |- True => exact I
  | H : host_held ?s _ |- host_held ?s _ => exact H
  | H : host_held ?s _ |- _ ∧ _ => destruct H as (? & ? & ?); done
  end.
Section PlatformProbe.
Context `{SpiKernel} {R : Regmap}.
Implicit Types s : @spi_probe_st _ R.
Lemma platform_probe_balanced pdata type parent regoff s :
  sp_registered s = false →
  wlp (altera_spi_probe pdata type parent regoff)
    (λ _ s', probe_ok s (from_option pd_devices [] pdata) s') (λ _ s', probe_err s s') s.
Proof.
  intros Hf. unfold altera_spi_probe. wstep. apply sp_op_spec. intros ok s1 (Hr1 & Hg1 & Hd1) _. destruct ok; cbn [negb].
  2: { wsteps. split; [by left|by split]. }
  wstep. wstep. cbv beta. assert (H1 : host_held s (set_sp_refs 1 s1)) by (split; [done|split; [exact Hg1|exact Hd1]]).
  destruct pdata as [pd|]; cbn [from_option]; [apply (probe_end _ _ (pd_devices pd))|apply (probe_end _ _ [])];
    try done; try (intros ?; apply new_devices_spec); repeat held_step.
  intros s2. apply (new_devices_spec []).
Qed.
End PlatformProbe.

Section DflProbe.
Context `{SpiKernel} `{MmioHw} (base : Z).
Implicit Types s : @spi_probe_st _ (indirect_regmap base).
(* drivers/spi/spi-altera-dfl.c:108-123 config_spi_host *)
Definition config_spi_host : M (@spi_probe_st _ (indirect_regmap base)) unit :=
  v ← on_hw (zoom (S := @altera_spi (indirect_regmap base)) (T := mmst) as_map (λ (m : mmst) h, @set_as_map (indirect_regmap base) m h) (readq (base + SPI_CORE_PARAMETER)));
  let mode := SPI_CS_HIGH in
  let mode := if negb (FIELD_GET CLK_POLARITY v =? 0) then Z.lor mode SPI_CPOL else mode in
  let mode := if negb (FIELD_GET CLK_PHASE v =? 0) then Z.lor mode SPI_CPHA else mode in
  mask ← access (SPI_BPW_RANGE_MASK 1 (FIELD_GET DATA_WIDTH v));
  modify (set_sp_config mode (FIELD_GET NUM_CHIPSELECT v) mask).
Definition board_modalias (revision : Z) : string :=
  if revision =? FME_FEATURE_REV_MAX10_SPI_N5010 then "m10-n5010"
  else if revision =? FME_FEATURE_REV_MAX10_SPI_N5014 then "m10-n5014"
  else "m10-d5005".
(* drivers/spi/spi-altera-dfl.c:125-194 dfl_spi_altera_probe *)
Definition dfl_spi_altera_probe (revision : Z) : M (@spi_probe_st _ (indirect_regmap base)) unit :=
  ok ← sp_op spi_alloc_host;
  if negb ok then throw (- ENOMEM) else
  modify (set_sp_refs 1) ;;
  on_error (
    ret ← sp_op devm_ioremap_resource;
    rc ret ;;
    config_spi_host ;;
    ret ← sp_op devm_regmap_init;
    rc ret ;;
    on_hw (modify (set_as_irq (- EINVAL))) ;;
    on_hw altera_spi_init_host ;;
    ret ← sp_op devm_spi_register_controller;
    rc ret ;;
    modify set_sp_registered) spi_controller_put ;;
  new_device (board_modalias revision).
Lemma dfl_probe_balanced revision s :
  sp_registered s = false →
  wlp (dfl_spi_altera_probe revision) (λ _ s', probe_ok s [board_modalias revision] s') (λ _ s', probe_err s s') s.
Proof.
  intros Hf. unfold dfl_spi_altera_probe. wstep. apply sp_op_spec. intros ok s1 (Hr1 & Hg1 & Hd1) _. destruct ok; cbn [negb].
  2: { wsteps. split; [by left|by split]. }
  wstep. wstep. cbv beta. assert (H1 : host_held s (set_sp_refs 1 s1)) by (split; [done|split; [exact Hg1|exact Hd1]]).
  apply (probe_end _ _ [board_modalias revision]); [done|intros ?; apply new_device_spec|].
  unfold config_spi_host. repeat held_step.
Qed.
End DflProbe.

(** ** What is behind the bus

    The registers [R] of the controller, reached by the two words: a command is done
    after some reads of its word, and before the driver gives up. *)
Class IndirectHw `{MmioHw} (R : Regmap) (base : Z) := {
  ind : hw → @rmap R → Prop;
  ind_busy : hw → nat → Z → Z → @rmap R → Prop;
  ind_latch : hw → Z → @rmap R → Prop;
  ind_latched v d r : ind d r → ind_latch (hw_write (base + INDIRECT_WR_DATA) v d) v r;
  ind_write reg v d r : 0 ≤ reg < 2 ^ 10 → reg mod 4 = 0 → ind_latch d v r →
    ∃ n r', (n < INDIRECT_TIMEOUT)%nat ∧ rm_write reg v r = (0, r') ∧
      ind_busy (hw_write (base + INDIRECT_ADDR) (Z.lor (reg / 4) INDIRECT_WR) d) n INDIRECT_WR 0 r';
  ind_read reg d r : 0 ≤ reg < 2 ^ 10 → reg mod 4 = 0 → ind d r →
    ∃ n v r', (n < INDIRECT_TIMEOUT)%nat ∧ rm_read reg r = (inr v, r') ∧
      ind_busy (hw_write (base + INDIRECT_ADDR) (Z.lor (reg / 4) INDIRECT_RD) d) n INDIRECT_RD v r';
  ind_wait d n bit v r : ind_busy d (S n) bit v r →
    Z.land (hw_read (base + INDIRECT_ADDR) d).1 bit ≠ 0 ∧ ind_busy (hw_read (base + INDIRECT_ADDR) d).2 n bit v r;
  ind_done d bit v r : ind_busy d 0 bit v r →
    Z.land (hw_read (base + INDIRECT_ADDR) d).1 bit = 0 ∧ ind_busy (hw_read (base + INDIRECT_ADDR) d).2 0 bit v r;
  ind_idle d bit v r : ind_busy d 0 bit v r → ind d r;
  ind_data d v r : ind_busy d 0 INDIRECT_RD v r →
    Z.land (hw_read (base + INDIRECT_RD_DATA) d).1 INDIRECT_DATA_MASK = v ∧ ind (hw_read (base + INDIRECT_RD_DATA) d).2 r;
}.

Section Refines.
Context `{IndirectHw}.
Lemma indirect_wait_run bit n v r k loops s :
  ind_busy (mm_hw s) n bit v r → (n ≤ k)%nat →
  ∃ s', indirect_wait base bit k loops s = Done (Val (loops + n)%nat, s') ∧ ind_busy (mm_hw s') 0 bit v r.
Proof.
  revert k loops s. induction n as [|n IH]; intros k loops s Hb Hk.
  - destruct (ind_done _ _ _ _ Hb) as [Hz Hb']. destruct (hw_read (base + INDIRECT_ADDR) (mm_hw s)) as [x d] eqn:Hr. cbn [fst snd] in *.
    eexists. split; [|exact (Hb' : ind_busy (mm_hw (Mm d (mm_log s ++ [MmioRead (base + INDIRECT_ADDR) x]))) 0 bit v r)].
    destruct k; cbn [indirect_wait]; rewrite (run_bind _ _ _ x (Mm d (mm_log s ++ [MmioRead (base + INDIRECT_ADDR) x]))) by (unfold readq; by rewrite Hr);
      rewrite Hz, Nat.add_0_r; reflexivity.
  - destruct (ind_wait _ _ _ _ _ Hb) as [Hz Hb']. destruct (hw_read (base + INDIRECT_ADDR) (mm_hw s)) as [x d] eqn:Hr. cbn [fst snd] in *.
    destruct k as [|k]; [lia|]. destruct (IH k (S loops) (Mm d (mm_log s ++ [MmioRead (base + INDIRECT_ADDR) x])) Hb' ltac:(lia)) as (s' & Hrun & Hb2).
    exists s'. split; [|done]. cbn [indirect_wait]. rewrite (run_bind _ _ _ x (Mm d (mm_log s ++ [MmioRead (base + INDIRECT_ADDR) x]))) by (unfold readq; by rewrite Hr).
    destruct (Z.eqb_spec (Z.land x bit) 0); [done|]. rewrite Hrun. do 3 f_equal. lia.
Qed.

Lemma reg_word reg : 0 ≤ reg → Z.shiftr reg 2 = reg / 4.
Proof. intros. by rewrite Z.shiftr_div_pow2. Qed.
Lemma indirect_write_run reg v s r :
  0 ≤ reg < 2 ^ 10 → reg mod 4 = 0 → ind (mm_hw s) r →
  ∃ r' s', rm_write reg v r = (0, r') ∧ indirect_bus_reg_write base reg v s = Done (Val tt, s') ∧ ind (mm_hw s') r'.
Proof.
  intros Hreg Hmod Hi. destruct (ind_write reg v _ _ Hreg Hmod (ind_latched v _ _ Hi)) as (n & r' & Hn & Hw & Hb).
  set (s1 := Mm (hw_write (base + INDIRECT_WR_DATA) v (mm_hw s)) (mm_log s ++ [MmioWrite (base + INDIRECT_WR_DATA) v]) : mmst).
  set (s2 := Mm (hw_write (base + INDIRECT_ADDR) (Z.lor (reg / 4) INDIRECT_WR) (mm_hw s1))
    (mm_log s1 ++ [MmioWrite (base + INDIRECT_ADDR) (Z.lor (reg / 4) INDIRECT_WR)]) : mmst).
  destruct (indirect_wait_run INDIRECT_WR n 0 r' INDIRECT_TIMEOUT 0 s2 Hb ltac:(lia)) as (s' & Hrun & Hb').
  exists r', s'. split; [done|]. split; [|by eapply ind_idle].
  unfold indirect_bus_reg_write. rewrite reg_word by lia. rewrite (run_bind _ _ s tt s1) by reflexivity. rewrite (run_bind _ _ s1 tt s2) by reflexivity.
  rewrite (run_bind _ _ _ _ _ Hrun). destruct (Nat.leb_spec INDIRECT_TIMEOUT (0 + n)); [lia|done].
Qed.
Lemma indirect_read_run reg s r :
  0 ≤ reg < 2 ^ 10 → reg mod 4 = 0 → ind (mm_hw s) r →
  ∃ v r' s', rm_read reg r = (inr v, r') ∧ indirect_bus_reg_read base reg s = Done (Val v, s') ∧ ind (mm_hw s') r'.
Proof.
  intros Hreg Hmod Hi. destruct (ind_read reg _ _ Hreg Hmod Hi) as (n & v & r' & Hn & Hr & Hb).
  set (s2 := Mm (hw_write (base + INDIRECT_ADDR) (Z.lor (reg / 4) INDIRECT_RD) (mm_hw s))
    (mm_log s ++ [MmioWrite (base + INDIRECT_ADDR) (Z.lor (reg / 4) INDIRECT_RD)]) : mmst).
  destruct (indirect_wait_run INDIRECT_RD n v r' INDIRECT_TIMEOUT 0 s2 Hb ltac:(lia)) as (s3 & Hrun & Hb').
  destruct (ind_data _ _ _ Hb') as [Hv Hi']. destruct (hw_read (base + INDIRECT_RD_DATA) (mm_hw s3)) as [x d] eqn:Hx. cbn [fst snd] in *.
  exists v, r', (Mm d (mm_log s3 ++ [MmioRead (base + INDIRECT_RD_DATA) x])). split; [done|]. split; [|done].
  unfold indirect_bus_reg_read. rewrite reg_word by lia. rewrite (run_bind _ _ s tt s2) by reflexivity. rewrite (run_bind _ _ _ _ _ Hrun).
  destruct (Nat.leb_spec INDIRECT_TIMEOUT (0 + n)); [lia|].
  rewrite (run_bind _ _ s3 x (Mm d (mm_log s3 ++ [MmioRead (base + INDIRECT_RD_DATA) x]))) by (unfold readq; by rewrite Hx).
  by rewrite Hv.
Qed.
End Refines.

(** A controller whose registers are behind the bus is a controller again. *)
Section Behind.
Context `{!MmioHw, R : !Regmap, base : Z, !IndirectHw R base, off : Z, !SpiCore (H := R) off}.
Context (off_ok : 0 ≤ off < 1000 ∧ off mod 4 = 0).
(** The register [reg] of the controller. *)
Lemma core_reg reg : 0 ≤ reg ≤ ALTERA_SPI_TARGET_SEL → reg mod 4 = 0 → 0 ≤ off + reg < 2 ^ 10 ∧ (off + reg) mod 4 = 0.
Proof. unfold ALTERA_SPI_TARGET_SEL. intros. split; [lia|]. rewrite Z.add_mod by lia. destruct off_ok as [_ ->]. by replace (reg mod 4) with 0. Qed.
Definition behind (s : @rmap (indirect_regmap base)) (ph : spi_phase slave) : Prop := ∃ r, ind (mm_hw s) r ∧ core r ph.
Lemma behind_read reg s r ph :
  0 ≤ reg ≤ ALTERA_SPI_TARGET_SEL → reg mod 4 = 0 → ind (mm_hw s) r →
  ∀ v r', rm_read (Regmap := R) (off + reg) r = (inr v, r') → core r' ph →
  ∃ s', rm_read (Regmap := indirect_regmap base) (off + reg) s = (inr v, s') ∧ behind s' ph.
Proof.
  intros Hreg Hmod Hi v r' Hr Hc. destruct (core_reg reg Hreg Hmod) as [H1 H2].
  destruct (indirect_read_run (off + reg) s r H1 H2 Hi) as (v2 & r2 & s' & Hr2 & Hrun & Hi2). rewrite Hr in Hr2. injection Hr2 as <- <-.
  exists s'. cbn. rewrite Hrun. split; [done|]. by exists r'.
Qed.
Lemma behind_write reg v s r ph :
  0 ≤ reg ≤ ALTERA_SPI_TARGET_SEL → reg mod 4 = 0 → ind (mm_hw s) r →
  ∀ r', rm_write (Regmap := R) (off + reg) v r = (0, r') → core r' ph →
  ∃ s', rm_write (Regmap := indirect_regmap base) (off + reg) v s = (0, s') ∧ behind s' ph.
Proof.
  intros Hreg Hmod Hi r' Hr Hc. destruct (core_reg reg Hreg Hmod) as [H1 H2].
  destruct (indirect_write_run (off + reg) v s r H1 H2 Hi) as (r2 & s' & Hr2 & Hrun & Hi2). rewrite Hr in Hr2. injection Hr2 as <-.
  exists s'. cbn. rewrite Hrun. split; [done|]. by exists r'.
Qed.
Lemma indirect_core : SpiCore (H := indirect_regmap base) off.
Proof using All.
  refine (Build_SpiCore (indirect_regmap base) off slave exchange behind _ _ _ _ _).
  - intros w s sl (r & Hi & Hc). destruct (core_tx w r sl Hc) as (n & r' & Hw & Hc').
    destruct (behind_write ALTERA_SPI_TXDATA w s r _ ltac:(done) eq_refl Hi r' Hw Hc') as (s' & ? & ?). eauto.
  - intros s n x sl (r & Hi & Hc). destruct (core_busy r n x sl Hc) as (v & r' & Hr & Hv & Hc').
    destruct (behind_read ALTERA_SPI_STATUS s r _ ltac:(done) eq_refl Hi v r' Hr Hc') as (s' & ? & ?). eauto.
  - intros s x sl (r & Hi & Hc). destruct (core_ready r x sl Hc) as (v & r' & Hr & Hv & Hc').
    destruct (behind_read ALTERA_SPI_STATUS s r _ ltac:(done) eq_refl Hi v r' Hr Hc') as (s' & ? & ?). eauto.
  - intros s x sl (r & Hi & Hc). destruct (core_rx r x sl Hc) as (r' & Hr & Hc').
    destruct (behind_read ALTERA_SPI_RXDATA s r _ ltac:(done) eq_refl Hi x r' Hr Hc') as (s' & ? & ?). eauto.
  - intros v s ph (r & Hi & Hc). destruct (core_control v r ph Hc) as (r' & Hr & Hc').
    destruct (behind_write ALTERA_SPI_CONTROL v s r _ ltac:(done) eq_refl Hi r' Hr Hc') as (s' & ? & ?). eauto.
Defined.
Lemma exchange_behind ws sl : exchange_words (H0 := indirect_core) ws sl = exchange_words (H0 := SpiCore0) ws sl.
Proof. revert sl. induction ws as [|w ws IH]; intros sl; [done|].
  cbn [exchange_words]. set (p := @exchange R off SpiCore0 w sl). change (@exchange _ off indirect_core w sl) with p. destruct p as [r sl1].
  exact (f_equal (λ p : list Z * slave, let (rs, s) := p in (r :: rs, s)) (IH sl1)). Qed.
End Behind.

(** C34: A polled transfer, of words of one, two or four bytes (and not of the three that
    words of 17 to 24 bits have), whole words in buffers that are long enough, of a
    controller whose registers are at an offset below 1000 that is a multiple of 4
    behind the bus of a card: if the controller exchanges words when it is reached directly, and the bus does
    each command in time, then the transfer over the bus ends, exchanges the words of
    the buffer with those of the device, in order, and leaves these in the receive
    buffer. *)
Theorem bus_transfer_exact `{MmioHw} (R : Regmap) base (HI : IndirectHw R base) off (HC : SpiCore (H := R) off) (t : spi_transfer) n bpw
    (hw : @altera_spi (indirect_regmap base)) sl :
  0 ≤ off < 1000 → off mod 4 = 0 →
  bpw = 1%nat ∨ bpw = 2%nat ∨ bpw = 4%nat → (st_bits_per_word t + 7) / 8 = Z.of_nat bpw → st_len t = Z.of_nat (bpw * n) →
  from_option (buf_ok n bpw) True (st_tx_buf t) → from_option (λ l, bpw * n ≤ length l)%nat True (st_rx_buf t) →
  as_regoff hw = off → as_irq hw < 0 → behind (off := off) (as_map hw) (Idle sl) →
  let '(rs, sl') := exchange_words (tx_words bpw n (st_tx_buf t)) sl in
  ∃ F hw', (∀ fuel, (F ≤ fuel)%nat → altera_spi_txrx fuel t hw = Done (Val 0, hw')) ∧
    as_rx hw' = rx_got bpw rs (st_rx_buf t) ∧ behind (off := off) (as_map hw') (Idle sl') ∧ as_final hw' = as_final hw + 1.
Proof.
  intros Hoff Hmod Hbpw Hbits Hlen Htx Hrx Hreg Hirq Hcore.
  pose proof (polled_spec (H0 := indirect_core (conj Hoff Hmod)) t n bpw Hbpw Htx Hrx hw sl) as Hp.
  pose proof (exchange_behind (conj Hoff Hmod) (tx_words bpw n (st_tx_buf t)) sl) as He.
  destruct (exchange_words (tx_words bpw n (st_tx_buf t)) sl) as [rs sl'].
  destruct (Hp rs sl') as (F & hw' & Hrun & (Hr & Hc & Hf & _) & _); [exact Hreg|exact Hcore|exact Hirq|exact Hlen|exact Hbits|exact He|]. by exists F, hw'.
Qed.

(** ** A concrete bus

    The controller of [demo_map] behind it; a command takes one read. *)
Abbreviation demo_ctl := (demo_map (λ _, false)).
Record ind_hw := IndHw { ih_ctl : spi_phase (list Z); ih_latch : Z; ih_busy : nat; ih_cmd : Z; ih_data : Z }.
Definition demo_ind : MmioHw := {|
  hw := ind_hw;
  hw_read a d :=
    if a =? INDIRECT_ADDR then
      match ih_busy d with O => (0, d) | S n => (ih_cmd d, IndHw (ih_ctl d) (ih_latch d) n (ih_cmd d) (ih_data d)) end
    else if a =? INDIRECT_RD_DATA then (ih_data d, d) else (0, d);
  hw_write a v d :=
    if a =? INDIRECT_WR_DATA then IndHw (ih_ctl d) v (ih_busy d) (ih_cmd d) (ih_data d)
    else if a =? INDIRECT_ADDR then
      let reg := Z.land v 255 * 4 in
      if Z.testbit v 8 then IndHw (@rm_write demo_ctl reg (ih_latch d) (ih_ctl d)).2 (ih_latch d) 1 INDIRECT_WR (ih_data d)
      else match @rm_read demo_ctl reg (ih_ctl d) with (inr x, c) => IndHw c (ih_latch d) 1 INDIRECT_RD (u32 x) | (inl _, c) => d end
    else d;
|}.
Lemma command_word a : 0 ≤ a < 256 →
  Z.land (Z.lor a INDIRECT_WR) 255 = a ∧ Z.testbit (Z.lor a INDIRECT_WR) 8 = true ∧
  Z.land (Z.lor a INDIRECT_RD) 255 = a ∧ Z.testbit (Z.lor a INDIRECT_RD) 8 = false.
Proof.
  intros Ha. assert (Hall : Forall (λ a, Z.land (Z.lor a INDIRECT_WR) 255 = a ∧ Z.testbit (Z.lor a INDIRECT_WR) 8 = true ∧
    Z.land (Z.lor a INDIRECT_RD) 255 = a ∧ Z.testbit (Z.lor a INDIRECT_RD) 8 = false) (seqZ 0 256)) by (refine (bool_decide_unpack _ _); vm_compute; done).
  rewrite list.Forall_forall in Hall. apply Hall, elem_of_seqZ. lia.
Qed.
Lemma word_range reg : 0 ≤ reg < 2 ^ 10 → 0 ≤ reg / 4 < 256.
Proof. intros. split; [apply Z.div_pos; lia|apply Z.div_lt_upper_bound; lia]. Qed.
Definition ctl_wf (c : spi_phase (list Z)) : Prop := match c with Idle _ => True | Busy _ r _ | Ready r _ => is_u32 r end.
Lemma demo_ctl_read reg c : ctl_wf c → ∃ v c', @rm_read demo_ctl reg c = (inr v, c') ∧ is_u32 v ∧ ctl_wf c'.
Proof.
  intros Hc. cbn. unfold is_u32 in *. destruct (reg =? ALTERA_SPI_STATUS), (reg =? ALTERA_SPI_RXDATA), c as [|[]|]; eexists _, _; (split; [reflexivity|]); cbn [ctl_wf] in *; unfold is_u32 in *; by (split; [lia|]).
Qed.
Lemma demo_ctl_write reg v c : ctl_wf c → ∃ c', @rm_write demo_ctl reg v c = (0, c') ∧ ctl_wf c'.
Proof.
  intros Hc. cbn. destruct (reg =? ALTERA_SPI_TXDATA), c as [|[]|]; eexists; (split; [reflexivity|]); cbn in *; try done; apply u32_range.
Qed.
#[export] Instance demo_ind_ok : @IndirectHw demo_ind demo_ctl 0.
Proof.
  refine (@Build_IndirectHw demo_ind demo_ctl 0
    (λ d c, ih_ctl d = c ∧ ctl_wf c ∧ ih_busy d = O)
    (λ d n bit v c, ih_ctl d = c ∧ ctl_wf c ∧ ih_busy d = n ∧ ih_cmd d = bit ∧ (bit = INDIRECT_RD → ih_data d = v ∧ is_u32 v) ∧ Z.land bit bit ≠ 0)
    (λ d v c, ih_ctl d = c ∧ ctl_wf c ∧ ih_busy d = O ∧ ih_latch d = v) _ _ _ _ _ _ _).
  - intros v d c (? & ? & ?). by split_and!.
  - intros reg v d c Hreg Hmod (<- & Hc & Hb & <-). destruct (command_word _ (word_range _ Hreg)) as (Hw & Ht & _).
    destruct (demo_ctl_write reg (ih_latch d) _ Hc) as (c' & He & Hc'). exists 1%nat, c'. split; [by apply Nat.ltb_lt|]. split; [done|].
    cbn [hw_write demo_ind]. change (0 + INDIRECT_ADDR =? INDIRECT_WR_DATA) with false. change (0 + INDIRECT_ADDR =? INDIRECT_ADDR) with true.
    cbv iota zeta. rewrite Ht, Hw. replace (reg / 4 * 4) with reg by (pose proof (Z.div_mod reg 4 ltac:(lia)); lia). rewrite He. by split_and!.
  - intros reg d c Hreg Hmod (<- & Hc & Hb). destruct (command_word _ (word_range _ Hreg)) as (_ & _ & Hw & Ht).
    destruct (demo_ctl_read reg _ Hc) as (v & c' & He & Hv & Hc'). exists 1%nat, v, c'. split; [by apply Nat.ltb_lt|]. split; [done|].
    cbn [hw_write demo_ind]. change (0 + INDIRECT_ADDR =? INDIRECT_WR_DATA) with false. change (0 + INDIRECT_ADDR =? INDIRECT_ADDR) with true.
    cbv iota zeta. rewrite Ht, Hw. replace (reg / 4 * 4) with reg by (pose proof (Z.div_mod reg 4 ltac:(lia)); lia). rewrite He. cbn [ih_ctl ih_busy ih_cmd ih_data]. by rewrite u32_small.
  - intros d n bit v c (? & ? & Hn & ? & ? & ?). cbn [hw_read demo_ind]. change (0 + INDIRECT_ADDR =? INDIRECT_ADDR) with true. cbv iota. rewrite Hn. cbn [fst snd]. subst bit. by split_and!.
  - intros d bit v c (? & ? & Hn & ? & ? & ?). cbn [hw_read demo_ind]. change (0 + INDIRECT_ADDR =? INDIRECT_ADDR) with true. cbv iota. rewrite Hn. cbn [fst snd]. by rewrite Z.land_0_l.
  - by intros d bit v c (? & ? & ? & _).
  - intros d v c (? & ? & Hn & Hcmd & Hd & _). destruct (Hd eq_refl) as [Hv Hu]. cbn [hw_read demo_ind].
    change (0 + INDIRECT_RD_DATA =? INDIRECT_ADDR) with false. change (0 + INDIRECT_RD_DATA =? INDIRECT_RD_DATA) with true. cbv iota. cbn [fst snd].
    split; [|done]. rewrite Hv. change INDIRECT_DATA_MASK with (Z.ones 32). rewrite Z.land_ones by done. by apply u32_small.
Defined.
Definition demo_behind : @altera_spi (@indirect_regmap demo_ind 0) :=
  @Aspi (@indirect_regmap demo_ind 0) (-22) 0 0 0 0 None None 0 (@Mm demo_ind (IndHw (Idle []) 0 0 0 0) []) 0.
Lemma bus_transfer_exact_witness :
  ∃ F hw', (∀ fuel, (F ≤ fuel)%nat → altera_spi_txrx fuel (demo_transfer 16) demo_behind = Done (Val 0, hw')) ∧
    as_rx hw' = Some [254; 253; 252; 251; 250; 249].
Proof.
  pose proof (@bus_transfer_exact demo_ind demo_ctl 0 demo_ind_ok 0 demo_core (demo_transfer 16) 3 2 demo_behind [] ltac:(lia) eq_refl
    ltac:(auto) eq_refl eq_refl) as Hx.
  cbn [from_option demo_transfer st_tx_buf st_rx_buf] in Hx.
  specialize (Hx ltac:(split; [cbn; lia|repeat constructor; unfold is_u8; lia]) ltac:(cbn; lia) eq_refl eq_refl ltac:(exists (Idle []); repeat split)).
  destruct (exchange_words _ _) as [rs sl'] eqn:He in Hx. vm_compute in He. injection He as <- <-.
  destruct Hx as (F & hw' & Hrun & Hrx & _). exists F, hw'. split; [exact Hrun|]. rewrite Hrx. reflexivity.
Defined.
