(* ===== verification/N3000Nios.v ===== *)
(** * The Nios of the N3000 card (drivers/fpga/dfl-n3000-nios.c)

    A processor in the FPGA of the card sets up the Ethernet retimers and then leaves
    the SPI controller of the board to the driver.  Its registers are behind a command
    and a status word ([nios_regmap]); the rest of the driver sees a register map. *)
From stdpp Require Import list strings.
From S2P Require Import Prelude DflRegs Mmio Regmap SpiAltera SpiDfl.

(* drivers/fpga/dfl-n3000-nios.c:34-34 N3000_NS_PARAM *)
Definition N3000_NS_PARAM : Z := 0x8.
(* drivers/fpga/dfl-n3000-nios.c:38-38 N3000_NS_PARAM_DATA_WIDTH *)
Definition N3000_NS_PARAM_DATA_WIDTH : field := GENMASK_ULL 7 2.
(* drivers/fpga/dfl-n3000-nios.c:39-39 N3000_NS_PARAM_NUM_CS *)
Definition N3000_NS_PARAM_NUM_CS : field := GENMASK_ULL 13 8.
(* drivers/fpga/dfl-n3000-nios.c:40-40 N3000_NS_PARAM_CLK_POL *)
Definition N3000_NS_PARAM_CLK_POL : field := BIT_ULL 14.
(* drivers/fpga/dfl-n3000-nios.c:41-41 N3000_NS_PARAM_CLK_PHASE *)
Definition N3000_NS_PARAM_CLK_PHASE : field := BIT_ULL 15.
(* drivers/fpga/dfl-n3000-nios.c:44-44 N3000_NS_CTRL *)
Definition N3000_NS_CTRL : Z := 0x10.
(* drivers/fpga/dfl-n3000-nios.c:45-45 N3000_NS_CTRL_WR_DATA *)
Definition N3000_NS_CTRL_WR_DATA : field := GENMASK_ULL 31 0.
(* drivers/fpga/dfl-n3000-nios.c:46-46 N3000_NS_CTRL_ADDR *)
Definition N3000_NS_CTRL_ADDR : field := GENMASK_ULL 44 32.
(* drivers/fpga/dfl-n3000-nios.c:47-47 N3000_NS_CTRL_CMD_MSK *)
Definition N3000_NS_CTRL_CMD_MSK : field := GENMASK_ULL 63 62.
(* drivers/fpga/dfl-n3000-nios.c:49-49 N3000_NS_CTRL_CMD_RD *)
Definition N3000_NS_CTRL_CMD_RD : Z := 1.
(* drivers/fpga/dfl-n3000-nios.c:50-50 N3000_NS_CTRL_CMD_WR *)
Definition N3000_NS_CTRL_CMD_WR : Z := 2.
(* drivers/fpga/dfl-n3000-nios.c:52-52 N3000_NS_STAT *)
Definition N3000_NS_STAT : Z := 0x18.
(* drivers/fpga/dfl-n3000-nios.c:53-53 N3000_NS_STAT_RD_DATA *)
Definition N3000_NS_STAT_RD_DATA : field := GENMASK_ULL 31 0.
(* drivers/fpga/dfl-n3000-nios.c:54-54 N3000_NS_STAT_RW_VAL *)
Definition N3000_NS_STAT_RW_VAL : field := BIT_ULL 32.
(* drivers/fpga/dfl-n3000-nios.c:57-57 N3000_NIOS_INIT *)
Definition N3000_NIOS_INIT : Z := 0x1000.
(* drivers/fpga/dfl-n3000-nios.c:58-58 N3000_NIOS_INIT_DONE *)
Definition N3000_NIOS_INIT_DONE : Z := 1.
(* drivers/fpga/dfl-n3000-nios.c:59-59 N3000_NIOS_INIT_START *)
Definition N3000_NIOS_INIT_START : Z := 2.
(** The fields for the links of both retimers. *)
(* drivers/fpga/dfl-n3000-nios.c:61-68 N3000_NIOS_INIT_REQ_FEC_MODE_A0_MSK *)
Definition fec_fields : list field :=
  [GENMASK_ULL 9 8; GENMASK_ULL 11 10; GENMASK_ULL 13 12; GENMASK_ULL 15 14;
   GENMASK_ULL 17 16; GENMASK_ULL 19 18; GENMASK_ULL 21 20; GENMASK_ULL 23 22].
(* drivers/fpga/dfl-n3000-nios.c:69-69 N3000_NIOS_INIT_REQ_FEC_MODE_NO *)
Definition N3000_NIOS_INIT_REQ_FEC_MODE_NO : Z := 0x0.
(* drivers/fpga/dfl-n3000-nios.c:70-70 N3000_NIOS_INIT_REQ_FEC_MODE_KR *)
Definition N3000_NIOS_INIT_REQ_FEC_MODE_KR : Z := 0x1.
(* drivers/fpga/dfl-n3000-nios.c:71-71 N3000_NIOS_INIT_REQ_FEC_MODE_RS *)
Definition N3000_NIOS_INIT_REQ_FEC_MODE_RS : Z := 0x2.
(* drivers/fpga/dfl-n3000-nios.c:73-73 N3000_NIOS_FW_VERSION *)
Definition N3000_NIOS_FW_VERSION : Z := 0x1004.
(* drivers/fpga/dfl-n3000-nios.c:74-74 N3000_NIOS_FW_VERSION_PATCH *)
Definition N3000_NIOS_FW_VERSION_PATCH : field := GENMASK_ULL 23 20.
(* drivers/fpga/dfl-n3000-nios.c:75-75 N3000_NIOS_FW_VERSION_MINOR *)
Definition N3000_NIOS_FW_VERSION_MINOR : field := GENMASK_ULL 27 24.
(* drivers/fpga/dfl-n3000-nios.c:76-76 N3000_NIOS_FW_VERSION_MAJOR *)
Definition N3000_NIOS_FW_VERSION_MAJOR : field := GENMASK_ULL 31 28.
(* drivers/fpga/dfl-n3000-nios.c:79-79 N3000_NIOS_PKVL_A_MODE_STS *)
Definition N3000_NIOS_PKVL_A_MODE_STS : Z := 0x1020.
(* drivers/fpga/dfl-n3000-nios.c:80-80 N3000_NIOS_PKVL_B_MODE_STS *)
Definition N3000_NIOS_PKVL_B_MODE_STS : Z := 0x1024.
(* drivers/fpga/dfl-n3000-nios.c:81-81 N3000_NIOS_PKVL_MODE_STS_GROUP_MSK *)
Definition N3000_NIOS_PKVL_MODE_STS_GROUP_MSK : field := GENMASK_ULL 15 8.
(* drivers/fpga/dfl-n3000-nios.c:82-82 N3000_NIOS_PKVL_MODE_STS_GROUP_OK *)
Definition N3000_NIOS_PKVL_MODE_STS_GROUP_OK : Z := 0x0.
(* drivers/fpga/dfl-n3000-nios.c:83-83 N3000_NIOS_PKVL_MODE_STS_ID_MSK *)
Definition N3000_NIOS_PKVL_MODE_STS_ID_MSK : field := GENMASK_ULL 7 0.
(* drivers/fpga/dfl-n3000-nios.c:85-85 N3000_NIOS_PKVL_MODE_ID_RESET *)
Definition N3000_NIOS_PKVL_MODE_ID_RESET : Z := 0x0.
(* drivers/fpga/dfl-n3000-nios.c:86-86 N3000_NIOS_PKVL_MODE_ID_4X10G *)
Definition N3000_NIOS_PKVL_MODE_ID_4X10G : Z := 0x1.
(* drivers/fpga/dfl-n3000-nios.c:92-92 N3000_NIOS_REGBUS_RETRY_COUNT *)
Definition N3000_NIOS_REGBUS_RETRY_COUNT : nat := 10000.

(** The same mode in every field. *)
Definition fec_all (mode : Z) : Z := foldr (λ f v, Z.lor (FIELD_PREP f mode) v) 0 fec_fields.
(* drivers/fpga/dfl-n3000-nios.c:97-105 N3000_NIOS_INIT_REQ_FEC_MODE_MSK_ALL *)
Definition N3000_NIOS_INIT_REQ_FEC_MODE_MSK_ALL : Z := foldr (λ f v, Z.lor (mask f) v) 0 fec_fields.
(* drivers/fpga/dfl-n3000-nios.c:107-123 N3000_NIOS_INIT_REQ_FEC_MODE_NO_ALL *)
Definition N3000_NIOS_INIT_REQ_FEC_MODE_NO_ALL : Z := fec_all N3000_NIOS_INIT_REQ_FEC_MODE_NO.
(* drivers/fpga/dfl-n3000-nios.c:125-141 N3000_NIOS_INIT_REQ_FEC_MODE_KR_ALL *)
Definition N3000_NIOS_INIT_REQ_FEC_MODE_KR_ALL : Z := fec_all N3000_NIOS_INIT_REQ_FEC_MODE_KR.
(* drivers/fpga/dfl-n3000-nios.c:143-159 N3000_NIOS_INIT_REQ_FEC_MODE_RS_ALL *)
Definition N3000_NIOS_INIT_REQ_FEC_MODE_RS_ALL : Z := fec_all N3000_NIOS_INIT_REQ_FEC_MODE_RS.

(** ** The register bus *)
Section NiosBus.
Context `{MmioHw} (base : Z).
(** [None] when the loops are used up. *)
(* drivers/fpga/dfl-n3000-nios.c:464-484 n3000_nios_poll_stat_timeout *)
Fixpoint n3000_nios_poll_stat_timeout (loops : nat) : M mmst (option Z) :=
  match loops with
  | O => mret None
  | S loops =>
      v ← readq (base + N3000_NS_STAT);
      if has_bits N3000_NS_STAT_RW_VAL v then mret (Some v) else n3000_nios_poll_stat_timeout loops
  end.
(* drivers/fpga/dfl-n3000-nios.c:486-503 n3000_nios_reg_write *)
Definition n3000_nios_reg_write (reg val : Z) : M mmst unit :=
  let v := Z.lor (Z.lor (FIELD_PREP N3000_NS_CTRL_CMD_MSK N3000_NS_CTRL_CMD_WR) (FIELD_PREP N3000_NS_CTRL_ADDR reg))
             (FIELD_PREP N3000_NS_CTRL_WR_DATA val) in
  writeq v (base + N3000_NS_CTRL) ;;
  r ← n3000_nios_poll_stat_timeout N3000_NIOS_REGBUS_RETRY_COUNT;
  match r : option Z with Some _ => mret tt | None => throw (- ETIMEDOUT) end.
(* drivers/fpga/dfl-n3000-nios.c:505-522 n3000_nios_reg_read *)
Definition n3000_nios_reg_read (reg : Z) : M mmst Z :=
  let v := Z.lor (FIELD_PREP N3000_NS_CTRL_CMD_MSK N3000_NS_CTRL_CMD_RD) (FIELD_PREP N3000_NS_CTRL_ADDR reg) in
  writeq v (base + N3000_NS_CTRL) ;;
  r ← n3000_nios_poll_stat_timeout N3000_NIOS_REGBUS_RETRY_COUNT;
  match r with Some v => mret (FIELD_GET N3000_NS_STAT_RD_DATA v) | None => throw (- ETIMEDOUT) end.
(* drivers/fpga/dfl-n3000-nios.c:524-532 n3000_nios_regbus_cfg *)
Definition nios_regmap : Regmap := {|
  rmap := mmst;
  rm_read reg s := match n3000_nios_reg_read reg s with
    | Done (Val v, s) => (inr v, s) | Done (Err e, s) => (inl e, s) | _ => (inl 0, s) end;
  rm_write reg v s := match n3000_nios_reg_write reg v s with
    | Done (Val _, s) => (0, s) | Done (Err e, s) => (e, s) | _ => (0, s) end;
|}.
End NiosBus.

(** ** Attributes *)
Section Nios.
Context `{Regmap}.
(** Major, minor and patch version. *)
(* drivers/fpga/dfl-n3000-nios.c:168-183 nios_fw_version_show *)
Definition nios_fw_version_show : M rmst (Z * Z * Z) :=
  val ← regmap_read N3000_NIOS_FW_VERSION;
  mret (u8 (FIELD_GET N3000_NIOS_FW_VERSION_MAJOR val), u8 (FIELD_GET N3000_NIOS_FW_VERSION_MINOR val),
        u8 (FIELD_GET N3000_NIOS_FW_VERSION_PATCH val)).
(* drivers/fpga/dfl-n3000-nios.c:186-188 IS_MODE_STATUS_OK *)
Definition IS_MODE_STATUS_OK (mode_stat : Z) : bool :=
  FIELD_GET N3000_NIOS_PKVL_MODE_STS_GROUP_MSK mode_stat =? N3000_NIOS_PKVL_MODE_STS_GROUP_OK.
(* drivers/fpga/dfl-n3000-nios.c:190-192 IS_RETIMER_FEC_SUPPORTED *)
Definition IS_RETIMER_FEC_SUPPORTED (retimer_mode : Z) : bool :=
  negb (retimer_mode =? N3000_NIOS_PKVL_MODE_ID_RESET) && negb (retimer_mode =? N3000_NIOS_PKVL_MODE_ID_4X10G).
(* drivers/fpga/dfl-n3000-nios.c:194-210 get_retimer_mode *)
Definition get_retimer_mode (mode_stat_reg : Z) : M rmst Z :=
  val ← regmap_read mode_stat_reg;
  if negb (IS_MODE_STATUS_OK val) then throw (- EFAULT) else
  mret (FIELD_GET N3000_NIOS_PKVL_MODE_STS_ID_MSK val).
(* drivers/fpga/dfl-n3000-nios.c:212-224 retimer_A_mode_show *)
Definition retimer_A_mode_show : M rmst Z := get_retimer_mode N3000_NIOS_PKVL_A_MODE_STS.
(* drivers/fpga/dfl-n3000-nios.c:227-239 retimer_B_mode_show *)
Definition retimer_B_mode_show : M rmst Z := get_retimer_mode N3000_NIOS_PKVL_B_MODE_STS.
(* drivers/fpga/dfl-n3000-nios.c:242-288 fec_mode_show *)
Definition fec_mode_show : M rmst string :=
  val ← regmap_read N3000_NIOS_FW_VERSION;
  if FIELD_GET N3000_NIOS_FW_VERSION_MAJOR val <? 3 then mret "not supported" else
  retimer_a_mode ← get_retimer_mode N3000_NIOS_PKVL_A_MODE_STS;
  retimer_b_mode ← get_retimer_mode N3000_NIOS_PKVL_B_MODE_STS;
  if negb (IS_RETIMER_FEC_SUPPORTED retimer_a_mode) && negb (IS_RETIMER_FEC_SUPPORTED retimer_b_mode)
  then mret "not supported" else
  val ← regmap_read N3000_NIOS_INIT;
  let fec_modes := Z.land val N3000_NIOS_INIT_REQ_FEC_MODE_MSK_ALL in
  if fec_modes =? N3000_NIOS_INIT_REQ_FEC_MODE_NO_ALL then mret "no"
  else if fec_modes =? N3000_NIOS_INIT_REQ_FEC_MODE_KR_ALL then mret "kr"
  else if fec_modes =? N3000_NIOS_INIT_REQ_FEC_MODE_RS_ALL then mret "rs"
  else throw (- EFAULT).

(** ** Initialisation *)

(** The request for a mode of the module parameter. *)
Definition fec_request (fec_mode : string) : option Z :=
  if String.eqb fec_mode "no" then Some N3000_NIOS_INIT_REQ_FEC_MODE_NO_ALL
  else if String.eqb fec_mode "kr" then Some N3000_NIOS_INIT_REQ_FEC_MODE_KR_ALL
  else if String.eqb fec_mode "rs" then Some N3000_NIOS_INIT_REQ_FEC_MODE_RS_ALL
  else None.
Definition has (bits v : Z) : bool := negb (Z.land v bits =? 0).
(** The part for firmware that waits for the driver. *)
Definition nios_init_start (fec_mode : string) (ver : Z) : M rmst unit :=
  if 3 <=? FIELD_GET N3000_NIOS_FW_VERSION_MAJOR ver then
    val ← regmap_read N3000_NIOS_INIT;
    if has (Z.lor N3000_NIOS_INIT_DONE N3000_NIOS_INIT_START) val then mret tt
    else match fec_request fec_mode with
    | None => throw (- EINVAL)
    | Some req => regmap_write N3000_NIOS_INIT (Z.lor N3000_NIOS_INIT_START req)
    end
  else mret tt.
(** [tries] is how often the poll reads before its time is over. *)
(* drivers/fpga/dfl-n3000-nios.c:300-414 n3000_nios_init_done_check *)
Definition n3000_nios_init_done_check (tries : nat) (fec_mode : string) : M rmst unit :=
  val ← regmap_read N3000_NIOS_FW_VERSION;
  if val =? 0 then mret tt else
  nios_init_start fec_mode val ;;
  r ← attempt (regmap_read_poll_timeout N3000_NIOS_INIT (has N3000_NIOS_INIT_DONE) tries);
  let ret := match r : Z + Z * Z with inl e => e | inr (ret, _) => ret end in
  state_a ← regmap_read N3000_NIOS_PKVL_A_MODE_STS;
  state_b ← regmap_read N3000_NIOS_PKVL_B_MODE_STS;
  if (ret =? 0) && IS_MODE_STATUS_OK state_a && IS_MODE_STATUS_OK state_b then mret tt
  else rc ret.
End Nios.

(** ** The probe *)

(** The kernel: allocation and statuses; the platform device that is registered. *)
Class NiosKernel := {
  nk : Type;
  nk_kzalloc : nk → bool * nk;
  nk_ioremap_resource : nk → Z * nk;
  nk_regmap_init : nk → Z * nk;
  nk_register_full : altera_spi_platform_data → nk → Z * nk;
}.
Section NiosProbe.
Context `{NiosKernel} `{MmioHw} (base : Z).
(** [nn_spi] is the SPI controller device, if it is registered. *)
(* drivers/fpga/dfl-n3000-nios.c:161-166 n3000_nios *)
Record n3000_nios := Nn {
  nn_k : nk;
  nn_map : @rmst (nios_regmap base);
  nn_spi : option altera_spi_platform_data;
}.
Implicit Types s : n3000_nios.
Definition nn_op {A} (f : nk → A * nk) : M n3000_nios A := λ s,
  let (a, k) := f (nn_k s) in Done (Val a, Nn k (nn_map s) (nn_spi s)).
Definition set_nn_map m s := Nn (nn_k s) m (nn_spi s).
Definition on_map {A} (m : M (@rmst (nios_regmap base)) A) : M n3000_nios A := zoom nn_map set_nn_map m.
Definition on_dev {A} (m : M mmst A) : M (@rmst (nios_regmap base)) A :=
  zoom (T := mmst) (rm_dev : @rmst (nios_regmap base) → mmst) (λ (d : mmst) (r : @rmst (nios_regmap base)), @Rm (nios_regmap base) d (rm_log r)) m.
(* drivers/fpga/dfl-n3000-nios.c:416-421 m10_n3000_info *)
Definition m10_n3000_info : string := "m10-n3000".
(* drivers/fpga/dfl-n3000-nios.c:423-457 create_altera_spi_controller *)
Definition create_altera_spi_controller : M n3000_nios Z :=
  v ← on_map (on_dev (readq (base + N3000_NS_PARAM)));
  let mode := SPI_CS_HIGH in
  let mode := if negb (FIELD_GET N3000_NS_PARAM_CLK_POL v =? 0) then Z.lor mode SPI_CPOL else mode in
  let mode := if negb (FIELD_GET N3000_NS_PARAM_CLK_PHASE v =? 0) then Z.lor mode SPI_CPHA else mode in
  bits ← access (SPI_BPW_RANGE_MASK 1 (FIELD_GET N3000_NS_PARAM_DATA_WIDTH v));
  let pdata := SpiPdata mode (FIELD_GET N3000_NS_PARAM_NUM_CS v) bits [m10_n3000_info] in
  ret ← nn_op (nk_register_full pdata);
  if ret =? 0 then modify (λ s, Nn (nn_k s) (nn_map s) (Some pdata)) ;; mret 0 else mret ret.
(* drivers/fpga/dfl-n3000-nios.c:459-462 destroy_altera_spi_controller *)
Definition destroy_altera_spi_controller : M n3000_nios unit := modify (λ s, Nn (nn_k s) (nn_map s) None).
(* drivers/fpga/dfl-n3000-nios.c:534-569 n3000_nios_probe *)
Definition n3000_nios_probe (tries : nat) (fec_mode : string) : M n3000_nios unit :=
  ok ← nn_op nk_kzalloc;
  if negb ok then throw (- ENOMEM) else
  ret ← nn_op nk_ioremap_resource;
  rc ret ;;
  ret ← nn_op nk_regmap_init;
  rc ret ;;
  on_map (n3000_nios_init_done_check (H := nios_regmap base) tries fec_mode) ;;
  ret ← create_altera_spi_controller;
  rc ret.
(* drivers/fpga/dfl-n3000-nios.c:571-576 n3000_nios_remove *)
Definition n3000_nios_remove : M n3000_nios unit := destroy_altera_spi_controller.
End NiosProbe.

(** ** The initialisation, from the registers it reads and writes *)
Section InitFacts.
Context `{Regmap}.
Implicit Types s : @rmst H.
Abbreviation rd reg v := (RmRead reg (inr v)).
(** The reads of a poll. *)
Definition not_yet (l : list rm_io) : Prop := ∃ vs, l = (λ v, rd N3000_NIOS_INIT v) <$> vs ∧ Forall (λ v, has N3000_NIOS_INIT_DONE v = false) vs.
(** What is asked of the Nios before the poll: nothing by firmware before version 3 or
    when it was asked already, else once the mode of the module parameter. *)
Inductive nios_asked (fec_mode : string) (ver : Z) : list rm_io → Prop :=
  | asked_early : FIELD_GET N3000_NIOS_FW_VERSION_MAJOR ver < 3 → nios_asked fec_mode ver []
  | asked_before i : 3 ≤ FIELD_GET N3000_NIOS_FW_VERSION_MAJOR ver → has (Z.lor N3000_NIOS_INIT_DONE N3000_NIOS_INIT_START) i = true →
      nios_asked fec_mode ver [rd N3000_NIOS_INIT i]
  | asked_now i req : 3 ≤ FIELD_GET N3000_NIOS_FW_VERSION_MAJOR ver → has (Z.lor N3000_NIOS_INIT_DONE N3000_NIOS_INIT_START) i = false →
      fec_request fec_mode = Some req →
      nios_asked fec_mode ver [rd N3000_NIOS_INIT i; RmWrite N3000_NIOS_INIT (Z.lor N3000_NIOS_INIT_START req) 0].
(** The accesses of a check that succeeds. *)
Inductive nios_ready (fec_mode : string) : list rm_io → Prop :=
  | ready_missing : nios_ready fec_mode [rd N3000_NIOS_FW_VERSION 0]
  | ready_done ver asked polls v a b : ver ≠ 0 → nios_asked fec_mode ver asked → not_yet polls → has N3000_NIOS_INIT_DONE v = true →
      nios_ready fec_mode (rd N3000_NIOS_FW_VERSION ver :: asked ++ polls ++
        [rd N3000_NIOS_INIT v; rd N3000_NIOS_PKVL_A_MODE_STS a; rd N3000_NIOS_PKVL_B_MODE_STS b]).
(** The writes of an initialisation. *)
Definition rm_writes (l : list rm_io) : list (Z * Z) := omap (λ e, match e with RmWrite reg v _ => Some (reg, v) | _ => None end) l.

Definition writes_ok (fec_mode : string) (l : list rm_io) : Prop :=
  rm_writes l = [] ∨ ∃ req, fec_request fec_mode = Some req ∧ rm_writes l = [(N3000_NIOS_INIT, Z.lor N3000_NIOS_INIT_START req)].
Lemma writes_ok_app fec_mode l l' : rm_writes l' = [] → writes_ok fec_mode l → writes_ok fec_mode (l ++ l').
Proof. unfold writes_ok, rm_writes. intros Hl'. by rewrite omap_app, Hl', app_nil_r. Qed.
Lemma reads_no_writes reg vs l : rm_writes l = [] → rm_writes (((λ v, rd reg v) <$> vs) ++ l) = [].
Proof. induction vs as [|v vs IH]; [done|exact IH]. Qed.
Lemma asked_writes_ok fec_mode ver l : nios_asked fec_mode ver l → writes_ok fec_mode l.
Proof. intros []; [by left..|]. right. eauto. Qed.
Lemma regmap_read_ok reg s (Q : Z → rmst → Prop) (E : Z → rmst → Prop) :
  (∀ reg d, (rm_read reg d).1 ≠ inl 0) →
  (∀ v s', rm_log s' = rm_log s ++ [rd reg v] → Q v s') →
  (∀ e s', e ≠ 0 → rm_log s' = rm_log s ++ [RmRead reg (inl e)] → E e s') → wp (regmap_read reg) Q E s.
Proof.
  intros Herr HQ HE. unfold wpg, regmap_read. pose proof (Herr reg (rm_dev s)) as Hne. destruct (rm_read reg (rm_dev s)) as [[e|v] d]; cbn in Hne.
  - apply HE; [congruence|done].
  - by apply HQ.
Qed.
Context (read_error : ∀ reg d, (rm_read reg d).1 ≠ inl 0).
Lemma init_start_spec fec_mode ver s :
  wp (nios_init_start fec_mode ver) (λ _ s', ∃ l, rm_log s' = rm_log s ++ l ∧ nios_asked fec_mode ver l)
    (λ e s', ∃ l, rm_log s' = rm_log s ++ l ∧ e ≠ 0 ∧ writes_ok fec_mode l) s.
Proof.
  unfold nios_init_start. destruct (Z.leb_spec 3 (FIELD_GET N3000_NIOS_FW_VERSION_MAJOR ver)) as [Hv|Hv]; wsteps.
  2: { exists []. rewrite app_nil_r. split; [done|]. by constructor. }
  apply regmap_read_ok; [done|intros i s1 Hs1|intros e s1 He ->; eexists; split; [done|split; [done|by left]]].
  destruct (has _ i) eqn:Hi; wsteps; [eexists; split; [done|by apply asked_before]|].
  destruct (fec_request fec_mode) as [req|] eqn:Hreq; wsteps; [|rewrite Hs1; eexists; split; [done|split; [done|by left]]].
  apply regmap_write_spec.
  - intros d. cbn. rewrite Hs1, <- app_assoc. eexists; split; [done|]. by apply asked_now.
  - intros e d He. cbn. rewrite Hs1, <- app_assoc. eexists; split; [done|split; [done|]]. right. eauto.
Qed.

Lemma regmap_poll_spec cond reg tries s :
  wp (regmap_read_poll_timeout reg cond tries)
    (λ r s', ∃ vs, rm_log s' = rm_log s ++ ((λ v, rd reg v) <$> vs) ++ [rd reg r.2] ∧ Forall (λ v, cond v = false) vs ∧
       (if cond r.2 then r.1 = 0 else r.1 = - ETIMEDOUT))
    (λ e s', e ≠ 0 ∧ ∃ vs, rm_log s' = rm_log s ++ ((λ v, rd reg v) <$> vs) ++ [RmRead reg (inl e)]) s.
Proof.
  unfold regmap_read_poll_timeout. revert s. induction tries as [|n IH]; intros s; cbn [read_poll_timeout]; wsteps; (apply regmap_read_ok; [done| |]);
    try (intros e s1 He ->; split; [done|]; by exists []); intros v s1 Hs1; destruct (cond v) eqn:Hv; wsteps; try (exists []; cbn; rewrite Hv; by split_and!).
  - apply regmap_read_ok; [done|intros v2 s2 Hs2; wsteps; exists [v]; cbn; rewrite Hs2, Hs1, <- app_assoc; split_and!; [done|by repeat constructor|by destruct (cond v2)]|].
    intros e s2 He ->. split; [done|]. exists [v]. cbn. by rewrite Hs1, <- app_assoc.
  - eapply wp_mono; [apply IH|..]; cbv beta.
    + intros r s' (vs & -> & Hvs & Hr). exists (v :: vs). cbn. rewrite Hs1, <- !app_assoc. split_and!; [done|by constructor|done].
    + intros e s' (He & vs & ->). split; [done|]. exists (v :: vs). cbn. by rewrite Hs1, <- !app_assoc.
Qed.
(** The end of the check, after the poll. *)
Lemma init_end_spec fec_mode ver asked polls ret s s3 :
  ver ≠ 0 → nios_asked fec_mode ver asked → rm_log s3 = rm_log s ++ rd N3000_NIOS_FW_VERSION ver :: asked ++ polls → rm_writes polls = [] →
  (ret = 0 → ∃ vs v, polls = ((λ v, rd N3000_NIOS_INIT v) <$> vs) ++ [rd N3000_NIOS_INIT v] ∧
     Forall (λ v, has N3000_NIOS_INIT_DONE v = false) vs ∧ has N3000_NIOS_INIT_DONE v = true) →
  wp (state_a ← regmap_read N3000_NIOS_PKVL_A_MODE_STS; state_b ← regmap_read N3000_NIOS_PKVL_B_MODE_STS;
      if (ret =? 0) && IS_MODE_STATUS_OK state_a && IS_MODE_STATUS_OK state_b then mret tt else rc ret)
    (λ _ s', ∃ l, rm_log s' = rm_log s ++ l ∧ nios_ready fec_mode l)
    (λ e s', ∃ l, rm_log s' = rm_log s ++ l ∧ e ≠ 0 ∧ writes_ok fec_mode l) s3.
Proof.
  intros Hver Hask Hlog Hpolls Hret.
  assert (Hw : ∀ l', rm_writes l' = [] → writes_ok fec_mode (rd N3000_NIOS_FW_VERSION ver :: asked ++ polls ++ l')).
  { intros l' Hl'. apply (writes_ok_app _ (rd N3000_NIOS_FW_VERSION ver :: asked)); [unfold rm_writes in *; by rewrite omap_app, Hpolls, Hl'|].
    exact (asked_writes_ok _ _ _ Hask). }
  assert (Hlog2 : ∀ l1, rm_log s3 ++ l1 = rm_log s ++ rd N3000_NIOS_FW_VERSION ver :: asked ++ polls ++ l1) by (intros l1; rewrite Hlog; cbn; by rewrite <- !app_assoc; cbn; rewrite <- ?app_assoc).
  wstep. apply regmap_read_ok; [done| |intros e s4 He ->; rewrite Hlog2; eexists; split; [done|split; [done|by apply Hw]]].
  intros a s4 Hs4. wstep. apply regmap_read_ok; [done| |intros e s5 He ->; rewrite Hs4, <- app_assoc, Hlog2; eexists; split; [done|split; [done|by apply Hw]]].
  intros b s5 Hs5. rewrite Hs4, <- app_assoc, Hlog2 in Hs5. cbn [app] in Hs5.
  assert (Hready : ret = 0 → nios_ready fec_mode (rd N3000_NIOS_FW_VERSION ver :: asked ++ polls ++ [rd N3000_NIOS_PKVL_A_MODE_STS a; rd N3000_NIOS_PKVL_B_MODE_STS b])).
  { intros Hr. destruct (Hret Hr) as (vs & v & -> & Hvs & Hv). rewrite <- app_assoc. apply ready_done; [done|done|by exists vs|done]. }
  destruct (Z.eqb_spec ret 0) as [Hr|Hr]; cbn [andb].
  - destruct (IS_MODE_STATUS_OK a && IS_MODE_STATUS_OK b); wsteps; [|intros _|done]; rewrite Hs5; eexists; split; [done|by apply Hready|done|by apply Hready].
  - wsteps; [done|intros _]. rewrite Hs5. eexists. split; [done|split; [done|by apply Hw]].
Qed.
(** C36: The check that the Nios is done always ends.  When it succeeds, there is no Nios
    firmware and nothing else was read, or the mode of the module parameter was
    requested, once, and only of firmware from version 3 on that had not begun; and
    the last status read before the states of the retimers says that it is done.
    When it fails, it has an error, and has written no more than one request for a
    mode that the module parameter names. *)
Theorem nios_init_exact tries fec_mode s :
  wp (n3000_nios_init_done_check tries fec_mode)
    (λ _ s', ∃ l, rm_log s' = rm_log s ++ l ∧ nios_ready fec_mode l)
    (λ e s', ∃ l, rm_log s' = rm_log s ++ l ∧ e ≠ 0 ∧ writes_ok fec_mode l) s.
Proof.
  unfold n3000_nios_init_done_check. wstep. apply regmap_read_ok; [done|intros ver s1 Hs1|intros e s1 He ->; eexists; split; [done|split; [done|by left]]].
  destruct (Z.eqb_spec ver 0) as [->|Hver]; wsteps; [rewrite Hs1; eexists; split; [done|constructor]|].
  eapply wp_mono; [apply init_start_spec|..]; cbv beta.
  2: { intros e s2 (l & -> & He & Hl). rewrite Hs1, <- app_assoc. eexists. split; [done|split; [done|]]. exact Hl. }
  intros _ s2 (asked & Hs2 & Hask). wsteps.
  eapply wp_mono; [apply regmap_poll_spec|..]; cbv beta.
  - intros [ret v] s3 (vs & Hs3 & Hvs & Hr).
    eapply (init_end_spec _ ver asked (((λ v, rd N3000_NIOS_INIT v) <$> vs) ++ [rd N3000_NIOS_INIT v])); [done|done| |by apply reads_no_writes|].
    { rewrite Hs3, Hs2, Hs1, <- !app_assoc. done. }
    cbn [fst snd] in *. intros ->. exists vs, v. destruct (has N3000_NIOS_INIT_DONE v); done.
  - intros e s3 (He & vs & Hs3). eapply (init_end_spec _ ver asked (((λ v, rd N3000_NIOS_INIT v) <$> vs) ++ [RmRead N3000_NIOS_INIT (inl e)])); [done|done| |by apply reads_no_writes|done].
    rewrite Hs3, Hs2, Hs1, <- !app_assoc. done.
Qed.
End InitFacts.

(** ** The mode that is shown *)
Lemma fec_request_inv fec_mode req : fec_request fec_mode = Some req →
  (fec_mode = "no"%string ∧ req = N3000_NIOS_INIT_REQ_FEC_MODE_NO_ALL) ∨ (fec_mode = "kr"%string ∧ req = N3000_NIOS_INIT_REQ_FEC_MODE_KR_ALL) ∨
  (fec_mode = "rs"%string ∧ req = N3000_NIOS_INIT_REQ_FEC_MODE_RS_ALL).
Proof.
  unfold fec_request. destruct (String.eqb_spec fec_mode "no") as [->|]; [intros [= <-]; by left|].
  destruct (String.eqb_spec fec_mode "kr") as [->|]; [intros [= <-]; by right; left|].
  destruct (String.eqb_spec fec_mode "rs") as [->|]; [intros [= <-]; by right; right|done].
Qed.
Section FecFacts.
Context `{Regmap} (read_error : ∀ reg d, (rm_read reg d).1 ≠ inl 0).
(** A request is shown by its name as long as the register keeps it. *)
Lemma fec_shown fec_mode req s :
  fec_request fec_mode = Some req →
  wp fec_mode_show (λ t s', ∃ l, rm_log s' = rm_log s ++ l ∧
      ∀ v, RmRead N3000_NIOS_INIT (inr v) ∈ l → Z.land v N3000_NIOS_INIT_REQ_FEC_MODE_MSK_ALL = req → t = fec_mode)
    (λ _ _, True) s.
Proof.
  intros Hreq. unfold fec_mode_show, get_retimer_mode.
  assert (Hno : ∀ l : list rm_io, Forall (λ e, match e with RmRead reg _ => reg ≠ N3000_NIOS_INIT | _ => True end) l →
    ∀ v, RmRead N3000_NIOS_INIT (inr v) ∈ l → Z.land v N3000_NIOS_INIT_REQ_FEC_MODE_MSK_ALL = req → "not supported"%string = fec_mode).
  { intros l Hl v Hv. rewrite list.Forall_forall in Hl. by destruct (Hl _ Hv). }
  wstep. apply regmap_read_ok; [done| |done]. intros ver s1 Hs1. destruct (_ <? 3); wsteps.
  { eexists. split; [exact Hs1|]. apply Hno. by repeat constructor. }
  apply regmap_read_ok; [done| |done]. intros a s2 Hs2. destruct (IS_MODE_STATUS_OK a); cbn [negb]; wsteps; [|done].
  apply regmap_read_ok; [done| |done]. intros b s3 Hs3. destruct (IS_MODE_STATUS_OK b); cbn [negb]; wsteps; [|done].
  rewrite Hs2, Hs1, <- !app_assoc in Hs3. destruct (_ && _).
  { wsteps. eexists. split; [exact Hs3|]. apply Hno. by repeat constructor. }
  wstep. apply regmap_read_ok; [done| |done]. intros i s4 Hs4. rewrite Hs3, <- app_assoc in Hs4. cbn [app] in Hs4.
  assert (Hlast : ∀ t, (Z.land i N3000_NIOS_INIT_REQ_FEC_MODE_MSK_ALL = req → t = fec_mode) →
    ∃ l, rm_log s4 = rm_log s ++ l ∧ ∀ v, RmRead N3000_NIOS_INIT (inr v) ∈ l → Z.land v N3000_NIOS_INIT_REQ_FEC_MODE_MSK_ALL = req → t = fec_mode).
  { intros t Ht. eexists. split; [exact Hs4|]. intros v Hv. rewrite !elem_of_cons, elem_of_nil in Hv.
    destruct Hv as [[=]|[[=]|[[=]|[[= ->]|[]]]]]. exact Ht. }
  cbv zeta. apply fec_request_inv in Hreq as [[-> ->]|[[-> ->]|[-> ->]]];
    repeat (case_match; wsteps; [apply Hlast; intros Hx; rewrite Hx in *; try done|]); done.
Qed.
End FecFacts.

(** ** The register bus *)
Section NiosBusFacts.
Context `{MmioHw} (base : Z).
Implicit Types s : mmst.
Lemma nios_poll_spec loops s :
  wp (n3000_nios_poll_stat_timeout base loops)
    (λ r s', ∃ vs, mm_log s' = mm_log s ++ (MmioRead (base + N3000_NS_STAT) <$> vs) ++ (match r with Some v => [MmioRead (base + N3000_NS_STAT) v] | None => [] end) ∧
       Forall (λ v, has_bits N3000_NS_STAT_RW_VAL v = false) vs ∧
       match r with Some v => has_bits N3000_NS_STAT_RW_VAL v = true | None => length vs = loops end) (λ _ _, False) s.
Proof.
  revert s. induction loops as [|n IH]; intros s; cbn [n3000_nios_poll_stat_timeout]; wsteps.
  - exists []. rewrite app_nil_r. by split_and!.
  - apply readq_spec. intros v d. destruct (has_bits N3000_NS_STAT_RW_VAL v) eqn:Hv; wsteps; [exists []; by split_and!|].
    eapply wp_mono; [apply IH| |done]. cbv beta. cbn [mm_log]. intros r s' (vs & -> & Hvs & Hr). exists (v :: vs).
    rewrite fmap_cons, <- app_assoc. split_and!; [done|by constructor|]. destruct r; [done|]. cbn. by rewrite Hr.
Qed.
(** An access is one command with the address of the register, then reads of the status
    of which only the last is valid; the value read is the one of that status.  It
    times out after exactly the number of reads the driver has. *)
Definition nios_waited (vs : list Z) (r : option Z) : Prop :=
  Forall (λ v, has_bits N3000_NS_STAT_RW_VAL v = false) vs ∧
  match r with Some v => has_bits N3000_NS_STAT_RW_VAL v = true | None => length vs = N3000_NIOS_REGBUS_RETRY_COUNT end.
Definition nios_access (cmd : Z) (vs : list Z) (r : option Z) : list mmio_io :=
  MmioWrite (base + N3000_NS_CTRL) cmd :: (MmioRead (base + N3000_NS_STAT) <$> vs) ++ match r with Some v => [MmioRead (base + N3000_NS_STAT) v] | None => [] end.
Lemma nios_reg_read_exact reg s :
  wp (n3000_nios_reg_read base reg)
    (λ x s', ∃ vs v, mm_log s' = mm_log s ++ nios_access (Z.lor (FIELD_PREP N3000_NS_CTRL_CMD_MSK N3000_NS_CTRL_CMD_RD) (FIELD_PREP N3000_NS_CTRL_ADDR reg)) vs (Some v) ∧
       nios_waited vs (Some v) ∧ x = FIELD_GET N3000_NS_STAT_RD_DATA v)
    (λ e s', e = - ETIMEDOUT ∧ ∃ vs, nios_waited vs None ∧
       mm_log s' = mm_log s ++ nios_access (Z.lor (FIELD_PREP N3000_NS_CTRL_CMD_MSK N3000_NS_CTRL_CMD_RD) (FIELD_PREP N3000_NS_CTRL_ADDR reg)) vs None) s.
Proof.
  unfold n3000_nios_reg_read, writeq. wsteps. eapply wp_mono; [apply nios_poll_spec| |done]. cbv beta. cbn [mm_log].
  intros [v|] s' (vs & Hs' & Hvs & Hr); wsteps; rewrite Hs', <- app_assoc; [by exists vs, v|]. split; [done|]. by exists vs.
Qed.
Lemma nios_reg_write_exact reg val s :
  let cmd := Z.lor (Z.lor (FIELD_PREP N3000_NS_CTRL_CMD_MSK N3000_NS_CTRL_CMD_WR) (FIELD_PREP N3000_NS_CTRL_ADDR reg)) (FIELD_PREP N3000_NS_CTRL_WR_DATA val) in
  wp (n3000_nios_reg_write base reg val)
    (λ _ s', ∃ vs v, mm_log s' = mm_log s ++ nios_access cmd vs (Some v) ∧ nios_waited vs (Some v))
    (λ e s', e = - ETIMEDOUT ∧ ∃ vs, nios_waited vs None ∧ mm_log s' = mm_log s ++ nios_access cmd vs None) s.
Proof.
  intros cmd. unfold n3000_nios_reg_write, writeq. cbv zeta. wsteps. eapply wp_mono; [apply nios_poll_spec| |done]. cbv beta. cbn [mm_log].
  intros [v|] s' (vs & Hs' & Hvs & Hr); wsteps; rewrite Hs', <- app_assoc; [by exists vs, v|]. split; [done|]. by exists vs.
Qed.
(** An error of the bus is not 0. *)
Lemma nios_read_error reg d : (@rm_read (nios_regmap base) reg d).1 ≠ inl 0.
Proof.
  pose proof (nios_reg_read_exact reg d) as Hx. cbn. unfold wpg in Hx. destruct (n3000_nios_reg_read base reg d) as [[[v|e] s']| |]; try done.
  destruct Hx as [-> _]. done.
Qed.
End NiosBusFacts.

Section NiosProbeFacts.
Context `{NiosKernel} `{MmioHw} (base : Z).
Implicit Types s : n3000_nios base.
(** The controller is registered exactly when the probe succeeds. *)
Lemma nios_probe_exact tries fec_mode s :
  nn_spi _ s = None →
  wlp (n3000_nios_probe base tries fec_mode) (λ _ s', is_Some (nn_spi _ s')) (λ _ s', nn_spi _ s' = None) s.
Proof.
  intros Hs. assert (Hop : ∀ {A} (f : nk → A * nk) s (Q : A → n3000_nios base → Prop) E,
    (∀ a s', nn_spi _ s' = nn_spi _ s → Q a s') → wlp (nn_op base f) Q E s).
  { intros A f s0 Q E HQ. unfold wpg, nn_op. destruct (f (nn_k _ s0)). by apply HQ. }
  assert (Hmap : ∀ {A} (m : M (@rmst (nios_regmap base)) A) s (Q : A → n3000_nios base → Prop) (E : Z → n3000_nios base → Prop),
    (∀ a s', nn_spi _ s' = nn_spi _ s → Q a s') → (∀ e s', nn_spi _ s' = nn_spi _ s → E e s') → wlp (on_map base m) Q E s).
  { intros A m s0 Q E HQ HE. apply wp_zoom. destruct (m (nn_map _ s0)) as [[[a|e] r]| |]; [by apply HQ|by apply HE|done..]. }
  unfold n3000_nios_probe. wstep. apply Hop. intros ok s1 Hs1. destruct ok; cbn [negb]; wsteps; [|congruence].
  apply Hop. intros ret s2 Hs2. wsteps; intros _; [|congruence]. wstep. apply Hop. intros ret2 s3 Hs3. wsteps; intros _; [|congruence].
  wstep. apply Hmap; [intros [] s4 Hs4|intros; congruence]. unfold create_altera_spi_controller. wsteps. apply Hmap; [intros v s5 Hs5|intros; congruence].
  cbv zeta. wstep. apply wp_access; [intros bits _|done]. wstep. apply Hop. intros ret3 s6 Hs6.
  destruct (Z.eqb_spec ret3 0) as [->|Hret]; wsteps; try done; congruence.
Qed.
End NiosProbeFacts.

(** ** A concrete Nios

    Firmware version 3, whose initialisation is done when it is next looked at. *)
Definition demo_nios : Regmap := {|
  rmap := Z;
  rm_read reg init :=
    if reg =? N3000_NIOS_FW_VERSION then (inr 0x30000000, init)
    else if reg =? N3000_NIOS_INIT then (inr init, init)
    else (inr 0x02, init);
  rm_write reg v init := if reg =? N3000_NIOS_INIT then (0, Z.lor v N3000_NIOS_INIT_DONE) else (0, init);
|}.
Definition nios_start : @rmst demo_nios := @Rm demo_nios 0 [].
Definition nios_run (fec_mode : string) : option (list rm_io) :=
  match @n3000_nios_init_done_check demo_nios 3 fec_mode nios_start with Done (Val _, s) => Some (rm_log s) | _ => None end.
Lemma nios_init_exact_witness : ∃ l, nios_run "kr" = Some l ∧ nios_ready "kr" l.
Proof.
  pose proof (@nios_init_exact demo_nios ltac:(intros reg d; cbn; by repeat case_match) 3 "kr" nios_start) as Hx.
  destruct (wp_val _ _ _ _ tt Hx ltac:(vm_compute; reflexivity)) as (s' & He & l & Hl & Hr).
  exists l. split; [|exact Hr]. unfold nios_run. rewrite He, Hl. reflexivity.
Defined.
Example nios_fec_shown :
  match @n3000_nios_init_done_check demo_nios 3 "kr" nios_start with Done (Val _, s) => val_of (@fec_mode_show demo_nios s) | _ => None end = Some "kr"%string.
Proof. vm_compute. reflexivity. Qed.
Example nios_unknown_mode : err_of (@n3000_nios_init_done_check demo_nios 3 "off" nios_start) = Some (- EINVAL).
Proof. vm_compute. reflexivity. Qed.
