(* ===== verification/Emif.v ===== *)
(** * Memory interfaces (drivers/memory/dfl-emif.c)

    A feature with the state of up to eight memory interfaces, the attributes that
    show it, and one for each interface that clears its memory. *)
From Stdlib Require Import Ascii String.
From stdpp Require Import list strings.
From S2P Require Import Prelude Text DflRegs Mmio.

(* drivers/memory/dfl-emif.c:21-21 EMIF_STAT *)
Definition EMIF_STAT : Z := 0x8.
(* drivers/memory/dfl-emif.c:22-22 EMIF_STAT_INIT_DONE_SFT *)
Definition EMIF_STAT_INIT_DONE_SFT : Z := 0.
(* drivers/memory/dfl-emif.c:23-23 EMIF_STAT_CALC_FAIL_SFT *)
Definition EMIF_STAT_CALC_FAIL_SFT : Z := 8.
(* drivers/memory/dfl-emif.c:24-24 EMIF_STAT_CLEAR_BUSY_SFT *)
Definition EMIF_STAT_CLEAR_BUSY_SFT : Z := 16.
(* drivers/memory/dfl-emif.c:25-25 EMIF_CTRL *)
Definition EMIF_CTRL : Z := 0x10.
(* drivers/memory/dfl-emif.c:26-26 EMIF_CTRL_CLEAR_EN_SFT *)
Definition EMIF_CTRL_CLEAR_EN_SFT : Z := 0.
(* drivers/memory/dfl-emif.c:27-27 EMIF_CTRL_CLEAR_EN_MSK *)
Definition EMIF_CTRL_CLEAR_EN_MSK : field := GENMASK_ULL 7 0.
(* drivers/memory/dfl-emif.c:41-41 EMIF_CAPABILITY_BASE *)
Definition EMIF_CAPABILITY_BASE : Z := 0x10.
(* drivers/memory/dfl-emif.c:42-42 EMIF_CAPABILITY_CHN_MSK_V0 *)
Definition EMIF_CAPABILITY_CHN_MSK_V0 : field := GENMASK_ULL 3 0.
(* drivers/memory/dfl-emif.c:43-43 EMIF_CAPABILITY_CHN_MSK *)
Definition EMIF_CAPABILITY_CHN_MSK : field := GENMASK_ULL 7 0.

(** ** Attributes *)

(** 0444 and 0200 *)
Definition S_IRUGO : Z := 0x124.
Definition S_IWUSR : Z := 0x80.
(** An attribute has a function that shows it or one that stores it. *)
(* drivers/memory/dfl-emif.c:51-55 emif_attr *)
Record emif_attr := EmifAttr {
  ea_name : text;
  ea_mode : Z;
  ea_shift : Z;
  ea_index : Z;
}.
Definition inf_name (name : string) (index : Z) : text := lit "inf" ++ [hex_digit index] ++ lit "_" ++ lit name.
(* drivers/memory/dfl-emif.c:106-110 emif_state_attr *)
Definition emif_state_attr (name : string) (shift index : Z) : emif_attr := EmifAttr (inf_name name index) S_IRUGO shift index.
(* drivers/memory/dfl-emif.c:112-116 emif_clear_attr *)
Definition emif_clear_attr (index : Z) : emif_attr := EmifAttr (inf_name "clear" index) S_IWUSR 0 index.
(* drivers/memory/dfl-emif.c:118-181 dfl_emif_attrs *)
Definition dfl_emif_attrs : list emif_attr :=
  flat_map (λ i, [emif_state_attr "init_done" EMIF_STAT_INIT_DONE_SFT i; emif_state_attr "cal_fail" EMIF_STAT_CALC_FAIL_SFT i; emif_clear_attr i]) [0; 1; 2; 3; 4; 5; 6; 7].
(** Whether a text has another in it. *)
Fixpoint starts_with (needle s : text) : bool :=
  match needle, s with
  | [], _ => true
  | _ :: _, [] => false
  | c :: needle, d :: s => Ascii.eqb c d && starts_with needle s
  end.
Fixpoint strstr (s needle : text) : bool :=
  starts_with needle s || match s with [] => false | _ :: s => strstr s needle end.

Section Emif.
Context `{MmioHw} (base : Z) (tries : nat).
Implicit Types s : mmst.
(* drivers/memory/dfl-emif.c:60-71 emif_state_show *)
Definition emif_state_show (a : emif_attr) : M mmst Z :=
  val ← readq (base + EMIF_STAT);
  mret (if has_bits (BIT_ULL (ea_shift a + ea_index a)) val then 1 else 0).
(** The result is the number of characters taken. *)
(* drivers/memory/dfl-emif.c:73-104 emif_clear_store *)
Definition emif_clear_store (a : emif_attr) (buf : text) : M mmst Z :=
  if negb (sysfs_streq buf (lit "1")) then throw (- EINVAL) else
  let clear_busy_msk := BIT_ULL (EMIF_STAT_CLEAR_BUSY_SFT + ea_index a) in
  let clear_en_msk := BIT_ULL (EMIF_CTRL_CLEAR_EN_SFT + ea_index a) in
  val ← readq (base + EMIF_CTRL);
  let val := clear_field EMIF_CTRL_CLEAR_EN_MSK val in
  let val := Z.lor val (mask clear_en_msk) in
  writeq val (base + EMIF_CTRL) ;;
  r ← read_poll_timeout (readq (base + EMIF_STAT)) (λ val, negb (has_bits clear_busy_msk val)) tries;
  if negb ((r : Z * Z).1 =? 0) then throw (- ETIMEDOUT) else
  mret (Z.of_nat (length buf)).
(* drivers/memory/dfl-emif.c:183-209 dfl_emif_visible *)
Definition dfl_emif_visible (revision : Z) (a : emif_attr) : M mmst Z :=
  if (0 <? revision) && strstr (ea_name a) (lit "_clear") then mret 0 else
  v ← readq (base + EMIF_CAPABILITY_BASE);
  let val := FIELD_GET (if revision =? 0 then EMIF_CAPABILITY_CHN_MSK_V0 else EMIF_CAPABILITY_CHN_MSK) v in
  mret (if has_bits (BIT_ULL (ea_index a)) val then ea_mode a else 0).
(** Memory and the mapping are the kernel's: [false] and an error are failures. *)
(* drivers/memory/dfl-emif.c:221-243 dfl_emif_probe *)
Definition dfl_emif_probe {T} (kzalloc : bool) (ioremap : Z + Z) : M T Z :=
  if negb kzalloc then throw (- ENOMEM) else
  match ioremap with inl e => throw e | inr base => mret base end.

(** ** What they show and do *)

(** The attributes are named apart. *)
Lemma attrs_named_apart : NoDup (ea_name <$> dfl_emif_attrs).
Proof. apply (bool_decide_unpack _). vm_compute. exact I. Qed.
Definition is_clear (a : emif_attr) : bool := bool_decide (ea_mode a = S_IWUSR).
Lemma attrs_ok : Forall (λ a, 0 ≤ ea_index a < 8 ∧ 0 ≤ ea_shift a ∧ strstr (ea_name a) (lit "_clear") = is_clear a ∧ ea_mode a ≠ 0) dfl_emif_attrs.
Proof. apply (bool_decide_unpack _). vm_compute. exact I. Qed.
Lemma attr_ok a : a ∈ dfl_emif_attrs → 0 ≤ ea_index a < 8 ∧ 0 ≤ ea_shift a ∧ strstr (ea_name a) (lit "_clear") = is_clear a ∧ ea_mode a ≠ 0.
Proof. apply (proj1 (list.Forall_forall _ _) attrs_ok). Qed.
(** An interface is there when its bit of the capabilities is set, in revision 0 one of
    four, and its memory can be cleared in revision 0 only. *)
Lemma visible_exact revision a s :
  a ∈ dfl_emif_attrs → 0 ≤ revision →
  wp (dfl_emif_visible revision a)
    (λ mode s', (mode = 0 ∨ mode = ea_mode a) ∧
      if decide (0 < revision ∧ is_clear a = true) then mode = 0 ∧ s' = s else
      ∃ v, mm_log s' = mm_log s ++ [MmioRead (base + EMIF_CAPABILITY_BASE) v] ∧
        (mode ≠ 0 ↔ Z.testbit v (ea_index a) = true ∧ (revision = 0 → ea_index a < 4)))
    (λ _ _, False) s.
Proof.
  intros (Hi & _ & Hc & Hm)%attr_ok Hr. unfold dfl_emif_visible. rewrite Hc. destruct (decide _) as [[H0 Hb]|Hn].
  { rewrite Hb. replace (0 <? revision) with true by lia. cbn [andb]. wsteps. auto. }
  replace ((0 <? revision) && is_clear a) with false by (destruct (Z.ltb_spec 0 revision), (is_clear a); tauto).
  wsteps. apply readq_spec. intros v d. wsteps. rewrite has_bits_bit by lia.
  set (f := if revision =? 0 then _ else _). assert (Hf : f_lo f = 0 ∧ f_hi f = if revision =? 0 then 3 else 7) by (unfold f; by destruct (revision =? 0)).
  destruct Hf as [Hlo Hhi]. rewrite testbit_FIELD_GET by (unfold field_ok; destruct (revision =? 0); lia). rewrite Hlo, Z.add_0_r, Hhi.
  destruct (Z.eqb_spec revision 0) as [->|Hr0]; (split; [destruct (_ && _); auto|]); exists v; (split; [done|]).
  - destruct (Z.testbit v (ea_index a)), (Z.leb_spec (ea_index a) 3); cbn; split; try tauto; try lia; try done.
  - replace (ea_index a <=? 7) with true by lia. destruct (Z.testbit v (ea_index a)); cbn; (split; [intros ?|intros [? ?]]); try done.
Qed.
Lemma state_show_exact a s :
  a ∈ dfl_emif_attrs →
  wp (emif_state_show a) (λ x s', ∃ v, mm_log s' = mm_log s ++ [MmioRead (base + EMIF_STAT) v] ∧ x = if Z.testbit v (ea_shift a + ea_index a) then 1 else 0)
    (λ _ _, False) s.
Proof. intros (Hi & Hs & _)%attr_ok. unfold emif_state_show. wsteps. apply readq_spec. intros v d. wsteps. rewrite has_bits_bit by lia. by exists v. Qed.
(** The word that starts the clearing of one interface and of no other, with the rest
    as it was read. *)
Definition starts_clear (index v w : Z) : Prop :=
  ∀ k, 0 ≤ k < 64 → Z.testbit w k = if k <? 8 then k =? index else Z.testbit v k.
Lemma starts_clear_word index v : 0 ≤ index < 8 →
  starts_clear index v (Z.lor (clear_field EMIF_CTRL_CLEAR_EN_MSK v) (mask (BIT_ULL (EMIF_CTRL_CLEAR_EN_SFT + index)))).
Proof.
  intros Hi k Hk. unfold EMIF_CTRL_CLEAR_EN_MSK, EMIF_CTRL_CLEAR_EN_SFT. rewrite Z.lor_spec, testbit_clear_field, testbit_mask by (unfold field_ok; cbn; lia). cbn [f_lo f_hi].
  replace (0 <=? k) with true by lia. cbn [andb]. destruct (Z.ltb_spec k 8).
  - replace (k <=? 7) with true by lia. cbn [negb]. rewrite andb_false_r. cbn [orb]. lia.
  - replace (k <=? 7) with false by lia. cbn [negb]. rewrite andb_true_r. replace (_ && _) with false by lia. by rewrite orb_false_r.
Qed.
(** The memory of an interface is cleared when "1" is written to its attribute, and
    nothing is done for any other text: one write starts the clearing of this interface
    and of no other and changes nothing else of the register, and the store succeeds
    exactly when the device then stops saying that the interface is busy. *)
Lemma clear_store_exact a buf s :
  a ∈ dfl_emif_attrs →
  let started ok l := ∃ v w l', l = MmioRead (base + EMIF_CTRL) v :: MmioWrite (base + EMIF_CTRL) w :: l' ∧ starts_clear (ea_index a) v w ∧
    polled (base + EMIF_STAT) (λ v, negb (Z.testbit v (EMIF_STAT_CLEAR_BUSY_SFT + ea_index a))) ok l' in
  wp (emif_clear_store a buf)
    (λ n s', sysfs_streq buf (lit "1") = true ∧ n = Z.of_nat (length buf) ∧ ∃ l, mm_log s' = mm_log s ++ l ∧ started true l)
    (λ e s', (sysfs_streq buf (lit "1") = false ∧ e = - EINVAL ∧ s' = s) ∨
      (sysfs_streq buf (lit "1") = true ∧ e = - ETIMEDOUT ∧ ∃ l, mm_log s' = mm_log s ++ l ∧ started false l)) s.
Proof.
  intros (Hi & _)%attr_ok started. unfold emif_clear_store. destruct (sysfs_streq buf (lit "1")) eqn:Hb; cbn [negb]; [|wsteps; by left].
  wsteps. apply readq_spec. intros v d. cbv zeta. unfold writeq. wsteps. eapply wp_mono; [apply (poll_spec_of _ (base + EMIF_STAT)); intros; by apply readq_spec| |done].
  cbv beta. cbn [mm_log]. intros [ret w] s' (l & Hl & Hp & Hret & _). cbn [fst snd] in *.
  assert (Hst : ∀ ok, (ret =? 0) = ok → ∃ l', mm_log s' = mm_log s ++ l' ∧ started ok l').
  { intros ok <-. eexists. split; [rewrite Hl, <- !app_assoc; reflexivity|]. exists v. eexists. exists l. split; [reflexivity|].
    split; [by apply starts_clear_word|]. destruct Hp as (vs & x & -> & Hvs & Hx). exists vs, x. split; [done|].
    assert (Hbit : ∀ x, has_bits (BIT_ULL (EMIF_STAT_CLEAR_BUSY_SFT + ea_index a)) x = Z.testbit x (EMIF_STAT_CLEAR_BUSY_SFT + ea_index a))
      by (intros; apply has_bits_bit; unfold EMIF_STAT_CLEAR_BUSY_SFT; lia).
    split; [|by rewrite <- Hbit]. eapply Forall_impl; [|exact Hvs]. cbv beta. intros y Hy. by rewrite <- Hbit. }
  destruct (ret =? 0) eqn:Hr; cbn [negb]; wsteps; [by auto|]. right. auto.
Qed.
Lemma emif_probe_exact {T} kzalloc ioremap (t : T) :
  wp (dfl_emif_probe kzalloc ioremap) (λ b t', kzalloc = true ∧ ioremap = inr b ∧ t' = t)
    (λ e t', (kzalloc = false ∧ e = - ENOMEM ∨ kzalloc = true ∧ ioremap = inl e) ∧ t' = t) t.
Proof. unfold dfl_emif_probe. destruct kzalloc, ioremap; cbn; wsteps; auto. Qed.
End Emif.

(** ** Examples *)

(** A device whose third interface is busy for as many reads as its state says. *)
Definition demo_emif : MmioHw := {|
  hw := nat;
  hw_read addr n := if addr =? EMIF_STAT then (match n with O => 0x7 | S _ => 0x40007 end, Nat.pred n) else (0xff0f, n);
  hw_write _ _ n := n;
|}.
Definition emif_start (n : nat) : @mmst demo_emif := @Mm demo_emif n [].
Definition inf2_clear : emif_attr := emif_clear_attr 2.
Lemma clear_store_exact_witness :
  inf2_clear ∈ dfl_emif_attrs ∧
  ∃ s', @emif_clear_store demo_emif 0 5 inf2_clear (lit "1" ++ [newline]) (emif_start 2) = Done (Val 2, s') ∧ 
    ∃ v w l, mm_log s' = MmioRead EMIF_CTRL v :: MmioWrite EMIF_CTRL w :: l ∧ starts_clear 2 v w ∧
      polled EMIF_STAT (λ v, negb (Z.testbit v 18)) true l.
Proof.
  assert (Ha : inf2_clear ∈ dfl_emif_attrs) by (apply (list_elem_of_lookup_2 _ 8); reflexivity).
  split; [exact Ha|]. pose proof (@clear_store_exact demo_emif 0 5 inf2_clear (lit "1" ++ [newline]) (emif_start 2) Ha) as Hw.
  unfold wpg in Hw. destruct (@emif_clear_store demo_emif 0 5 inf2_clear (lit "1" ++ [newline]) (emif_start 2)) as [[[n|e] s']| |] eqn:He;
    try (exfalso; revert He; vm_compute; discriminate).
  destruct Hw as (_ & -> & l & Hl & v & w & l' & -> & Hw & Hp). exists s'. split; [done|]. exists v, w, l'. split; [exact Hl|]. split; [exact Hw|exact Hp].
Defined.
Example clear_times_out : match @emif_clear_store demo_emif 0 1 inf2_clear (lit "1") (emif_start 9) with Done (Err e, _) => e = - ETIMEDOUT | _ => False end.
Proof. vm_compute. reflexivity. Qed.
