(* ===== verification/PtpTod.v ===== *)
(** * The time of day clock (drivers/ptp/ptp_dfl_tod.c)

    A driver of a feature for the PTP clocks of the kernel: the clock is read and
    set by three registers, made faster or slower by its period, and moved by
    changing the period for a number of cycles or by setting it. *)
From stdpp Require Import list.
From S2P Require Import Prelude DflRegs Mmio.

(* drivers/ptp/ptp_dfl_tod.c:21-21 TOD_CLK_FREQ *)
Definition TOD_CLK_FREQ : Z := 0x038.
(* drivers/ptp/ptp_dfl_tod.c:32-32 TOD_SECONDSH *)
Definition TOD_SECONDSH : Z := 0x100.
(* drivers/ptp/ptp_dfl_tod.c:33-33 TOD_SECONDSL *)
Definition TOD_SECONDSL : Z := 0x104.
(* drivers/ptp/ptp_dfl_tod.c:34-34 TOD_NANOSEC *)
Definition TOD_NANOSEC : Z := 0x108.
(* drivers/ptp/ptp_dfl_tod.c:35-35 TOD_PERIOD *)
Definition TOD_PERIOD : Z := 0x110.
(* drivers/ptp/ptp_dfl_tod.c:36-36 TOD_ADJUST_PERIOD *)
Definition TOD_ADJUST_PERIOD : Z := 0x114.
(* drivers/ptp/ptp_dfl_tod.c:37-37 TOD_ADJUST_COUNT *)
Definition TOD_ADJUST_COUNT : Z := 0x118.
(* drivers/ptp/ptp_dfl_tod.c:38-38 TOD_DRIFT_ADJUST *)
Definition TOD_DRIFT_ADJUST : Z := 0x11c.
(* drivers/ptp/ptp_dfl_tod.c:39-39 TOD_DRIFT_ADJUST_RATE *)
Definition TOD_DRIFT_ADJUST_RATE : Z := 0x120.
(* drivers/ptp/ptp_dfl_tod.c:40-40 PERIOD_FRAC_OFFSET *)
Definition PERIOD_FRAC_OFFSET : Z := 16.
(* drivers/ptp/ptp_dfl_tod.c:41-41 SECONDS_MSB *)
Definition SECONDS_MSB : field := GENMASK_ULL 47 32.
(* drivers/ptp/ptp_dfl_tod.c:42-42 SECONDS_LSB *)
Definition SECONDS_LSB : field := GENMASK_ULL 31 0.
(* drivers/ptp/ptp_dfl_tod.c:43-43 TOD_SECONDSH_SEC_MSB *)
Definition TOD_SECONDSH_SEC_MSB : field := GENMASK_ULL 15 0.
(* drivers/ptp/ptp_dfl_tod.c:45-45 CAL_SECONDS *)
Definition CAL_SECONDS (m l : Z) : Z := Z.lor (Z.shiftl (FIELD_GET TOD_SECONDSH_SEC_MSB m) 32) l.
(** [FIELD_MAX] of the masks of 20 and of 16 bits. *)
(* drivers/ptp/ptp_dfl_tod.c:48-48 TOD_PERIOD_MAX *)
Definition TOD_PERIOD_MAX : Z := 0xfffff.
(* drivers/ptp/ptp_dfl_tod.c:49-49 TOD_PERIOD_MIN *)
Definition TOD_PERIOD_MIN : Z := 0.
(* drivers/ptp/ptp_dfl_tod.c:51-51 TOD_DRIFT_ADJUST_FNS_MAX *)
Definition TOD_DRIFT_ADJUST_FNS_MAX : Z := 0xffff.
(* drivers/ptp/ptp_dfl_tod.c:52-52 TOD_DRIFT_ADJUST_RATE_MAX *)
Definition TOD_DRIFT_ADJUST_RATE_MAX : Z := TOD_DRIFT_ADJUST_FNS_MAX.
(* drivers/ptp/ptp_dfl_tod.c:54-54 TOD_ADJUST_COUNT_MAX *)
Definition TOD_ADJUST_COUNT_MAX : Z := 0xfffff.
(* drivers/ptp/ptp_dfl_tod.c:60-60 TOD_MAX_ADJ *)
Definition TOD_MAX_ADJ : Z := 500 * 1000000.
Definition NSEC_PER_SEC : Z := 1000000000.
Definition GIGA : Z := 1000000000.
Definition ERANGE : Z := 34.

(** A division of 64 by 32 bits, with its remainder; dividing by 0 is a fault. *)
Definition div_u64_rem {S} (dividend divisor : Z) : M S (Z * Z) :=
  access (if divisor =? 0 then None else Some (dividend / divisor, dividend mod divisor)).

(** Seconds and nanoseconds. *)
Record timespec64 := Timespec { tv_sec : Z; tv_nsec : Z }.

Section Tod.
Context `{MmioHw} (tod_ctrl : Z).
Abbreviation base := tod_ctrl.
(** [tries] is how often the poll reads before its time is over. *)
(* drivers/ptp/ptp_dfl_tod.c:80-92 fine_adjust_tod_clock *)
Definition fine_adjust_tod_clock (tries : nat) (adjust_period adjust_count : Z) : M mmst unit :=
  writel adjust_period (base + TOD_ADJUST_PERIOD) ;;
  writel adjust_count (base + TOD_ADJUST_COUNT) ;;
  r ← read_poll_timeout (readl (base + TOD_ADJUST_COUNT)) (λ val, val =? 0) tries;
  rc (r : Z * Z).1.
(* drivers/ptp/ptp_dfl_tod.c:98-124 coarse_adjust_tod_clock *)
Definition coarse_adjust_tod_clock (delta : Z) : M mmst unit :=
  if delta =? 0 then mret tt else
  nanosec ← readl (base + TOD_NANOSEC);
  seconds_lsb ← readl (base + TOD_SECONDSL);
  seconds_msb ← readl (base + TOD_SECONDSH);
  let seconds := CAL_SECONDS seconds_msb seconds_lsb in
  let now := u64 (seconds * NSEC_PER_SEC + nanosec + delta) in
  qr ← div_u64_rem now NSEC_PER_SEC;
  let '(seconds, nanosec) := (qr : Z * Z) in
  let seconds_msb := FIELD_GET SECONDS_MSB seconds in
  let seconds_lsb := FIELD_GET SECONDS_LSB seconds in
  writel seconds_msb (base + TOD_SECONDSH) ;;
  writel seconds_lsb (base + TOD_SECONDSL) ;;
  writel nanosec (base + TOD_NANOSEC).
(** Both halves of the drift lose bits until they fit. *)
Fixpoint drift_loop (fuel : nat) (fns rate : Z) : M mmst (Z * Z) :=
  if (TOD_DRIFT_ADJUST_FNS_MAX <? fns) || (TOD_DRIFT_ADJUST_RATE_MAX <? rate) then
    match fuel with O => nofuel | S fuel => drift_loop fuel (Z.shiftr fns 1) (Z.shiftr rate 1) end
  else mret (fns, rate).
(** The kernel's conversion to parts per billion is a parameter. *)
(* drivers/ptp/ptp_dfl_tod.c:126-169 dfl_tod_adjust_fine *)
Definition dfl_tod_adjust_fine (scaled_ppm_to_ppb : Z → Z) (scaled_ppm : Z) : M mmst unit :=
  rate ← readl (base + TOD_CLK_FREQ);
  let ppb := u64 (scaled_ppm_to_ppb scaled_ppm + GIGA) in
  qr ← div_u64_rem (u64 (Z.shiftl ppb PERIOD_FRAC_OFFSET)) rate;
  let '(quot, tod_rem) := (qr : Z * Z) in
  let tod_period := u32 quot in
  if TOD_PERIOD_MAX <? tod_period then throw (- ERANGE) else
  let g := Z.gcd tod_rem rate in
  fr ← drift_loop 32 (tod_rem / g) (rate / g);
  let '(fns, drift_rate) := (fr : Z * Z) in
  let drift_rate := if fns =? 0 then 0 else drift_rate in
  writel tod_period (base + TOD_PERIOD) ;;
  writel 0 (base + TOD_ADJUST_PERIOD) ;;
  writel 0 (base + TOD_ADJUST_COUNT) ;;
  writel fns (base + TOD_DRIFT_ADJUST) ;;
  writel drift_rate (base + TOD_DRIFT_ADJUST_RATE).
(* drivers/ptp/ptp_dfl_tod.c:171-224 dfl_tod_adjust_time *)
Definition dfl_tod_adjust_time (tries : nat) (delta : Z) : M mmst unit :=
  let neg_adj := delta <? 0 in
  let delta := if neg_adj then s64 (- delta) else delta in
  period ← readl (base + TOD_PERIOD);
  let diff :=
    if neg_adj then Z.shiftr (u32 (period - TOD_PERIOD_MIN)) PERIOD_FRAC_OFFSET
    else u32 (Z.shiftr (u64 (TOD_PERIOD_MAX - period)) PERIOD_FRAC_OFFSET) in
  let adj_period := if neg_adj then u32 (period - Z.shiftl diff PERIOD_FRAC_OFFSET) else u32 (period + Z.shiftl diff PERIOD_FRAC_OFFSET) in
  cr ← div_u64_rem (u64 delta) diff;
  let '(count, rem) := (cr : Z * Z) in
  let rem_period := if neg_adj then u32 (period - Z.shiftl rem PERIOD_FRAC_OFFSET) else u32 (period + Z.shiftl rem PERIOD_FRAC_OFFSET) in
  if TOD_ADJUST_COUNT_MAX <? count then coarse_adjust_tod_clock delta else
  ret ← (if count =? 0 then mret 0 else status (fine_adjust_tod_clock tries adj_period (u32 count)));
  ret ← (if rem =? 0 then mret ret else status (fine_adjust_tod_clock tries rem_period 1));
  rc ret.
(* drivers/ptp/ptp_dfl_tod.c:226-253 dfl_tod_get_timex *)
Definition dfl_tod_get_timex : M mmst timespec64 :=
  nanosec ← readl (base + TOD_NANOSEC);
  seconds_lsb ← readl (base + TOD_SECONDSL);
  seconds_msb ← readl (base + TOD_SECONDSH);
  mret (Timespec (CAL_SECONDS seconds_msb seconds_lsb) nanosec).
(* drivers/ptp/ptp_dfl_tod.c:255-272 dfl_tod_set_time *)
Definition dfl_tod_set_time (ts : timespec64) : M mmst unit :=
  let seconds_msb := FIELD_GET SECONDS_MSB (u64 (tv_sec ts)) in
  let seconds_lsb := FIELD_GET SECONDS_LSB (u64 (tv_sec ts)) in
  let nanosec := FIELD_GET SECONDS_LSB (u64 (tv_nsec ts)) in
  writel seconds_msb (base + TOD_SECONDSH) ;;
  writel seconds_lsb (base + TOD_SECONDSL) ;;
  writel nanosec (base + TOD_NANOSEC).
End Tod.

(** ** Probe and removal

    The clock that is registered is a clock or an error. *)
Class TodKernel := {
  todk : Type;
  tk_kzalloc : todk → bool * todk;
  tk_ioremap_resource : todk → Z * todk;
  tk_ptp_clock_register : todk → Z * todk;
}.
Section TodProbe.
Context `{TodKernel}.
Record dfl_tod := Tod {
  dt_k : todk;
  dt_ptp_clock : option (Z + unit);
}.
Definition dt_op {A} (f : todk → A * todk) : M dfl_tod A := λ s,
  let (a, k) := f (dt_k s) in Done (Val a, Tod k (dt_ptp_clock s)).
(* drivers/ptp/ptp_dfl_tod.c:284-309 dfl_tod_probe *)
Definition dfl_tod_probe : M dfl_tod unit :=
  ok ← dt_op tk_kzalloc;
  if negb ok then throw (- ENOMEM) else
  ret ← dt_op tk_ioremap_resource;
  rc ret ;;
  ret ← dt_op tk_ptp_clock_register;
  modify (λ s, Tod (dt_k s) (Some (if ret =? 0 then inr tt else inl ret))).
(** Unregistering what is no clock is a fault. *)
(* drivers/ptp/ptp_dfl_tod.c:311-316 dfl_tod_remove *)
Definition dfl_tod_remove : M dfl_tod unit :=
  s ← get;
  access (match dt_ptp_clock s with Some (inr _) => Some tt | _ => None end) ;;
  modify (λ s, Tod (dt_k s) None).
End TodProbe.

(** ** The time *)

(** The time in nanoseconds from the three registers. *)
Definition tod_time (h l n : Z) : Z := (h mod 2 ^ 16 * 2 ^ 32 + l) * NSEC_PER_SEC + n.
Lemma CAL_SECONDS_eq h l : is_u32 l → CAL_SECONDS h l = h mod 2 ^ 16 * 2 ^ 32 + l.
Proof.
  intros Hl. unfold CAL_SECONDS. rewrite FIELD_GET_alt by (unfold field_ok; cbn; lia). cbn [f_hi f_lo f_width TOD_SECONDSH_SEC_MSB].
  rewrite Z.lor_comm, lor_shiftl by (unfold is_u32 in Hl; lia). rewrite Z.pow_0_r, Z.div_1_r. change (2 ^ f_width TOD_SECONDSH_SEC_MSB) with (2 ^ 16). lia.
Qed.
Lemma SECONDS_LSB_eq v : FIELD_GET SECONDS_LSB v = v mod 2 ^ 32.
Proof. rewrite FIELD_GET_alt by (unfold field_ok; cbn; lia). cbn [f_hi f_lo SECONDS_LSB]. by rewrite Z.pow_0_r, Z.div_1_r. Qed.
Lemma SECONDS_MSB_eq v : FIELD_GET SECONDS_MSB v = v / 2 ^ 32 mod 2 ^ 16.
Proof. by rewrite FIELD_GET_alt by (unfold field_ok; cbn; lia). Qed.
(** The seconds of a 64 bit number of nanoseconds fit the registers. *)
Lemma tod_time_split t : is_u64 t →
  tod_time (FIELD_GET SECONDS_MSB (t / NSEC_PER_SEC)) (FIELD_GET SECONDS_LSB (t / NSEC_PER_SEC)) (t mod NSEC_PER_SEC) = t.
Proof.
  intros Ht. unfold tod_time. rewrite SECONDS_MSB_eq, SECONDS_LSB_eq. unfold is_u64, NSEC_PER_SEC in *.
  pose proof (Z.div_mod t 1000000000 ltac:(lia)) as Hdm. assert (Hs : 0 ≤ t / 1000000000 < 2 ^ 48) by (split; [apply Z.div_pos; lia|apply Z.div_lt_upper_bound; lia]).
  set (sec := t / 1000000000) in *. pose proof (Z.div_mod sec (2 ^ 32) ltac:(lia)). assert (0 ≤ sec / 2 ^ 32 < 2 ^ 16) by (split; [apply Z.div_pos; lia|apply Z.div_lt_upper_bound; lia]).
  rewrite (Z.mod_small (_ mod _)) by (rewrite Z.mod_small; lia). rewrite (Z.mod_small (sec / 2 ^ 32)) by lia. lia.
Qed.

(** What is documented of the clock: reading the nanoseconds takes a snapshot, whose
    seconds the other registers then show; writing the nanoseconds sets the time,
    with the seconds that were written before. *)
Class TodClock `{MmioHw} (base : Z) := {
  now : hw → Z;
  snapshot : hw → Z;
  now_range : ∀ d, 0 ≤ now d < 2 ^ 48 * NSEC_PER_SEC;
  read_nanosec : ∀ d, (hw_read (base + TOD_NANOSEC) d).1 = now d mod NSEC_PER_SEC ∧ snapshot (hw_read (base + TOD_NANOSEC) d).2 = now d;
  read_secondsl : ∀ d, (hw_read (base + TOD_SECONDSL) d).1 = snapshot d / NSEC_PER_SEC mod 2 ^ 32 ∧ snapshot (hw_read (base + TOD_SECONDSL) d).2 = snapshot d;
  read_secondsh : ∀ d, (hw_read (base + TOD_SECONDSH) d).1 = snapshot d / NSEC_PER_SEC / 2 ^ 32;
  write_time : ∀ d h l n, 0 ≤ h < 2 ^ 16 → is_u32 l → 0 ≤ n < NSEC_PER_SEC →
    now (hw_write (base + TOD_NANOSEC) n (hw_write (base + TOD_SECONDSL) l (hw_write (base + TOD_SECONDSH) h d))) = tod_time h l n;
}.
Section TimeFacts.
Context `{TodClock}.
Implicit Types s : mmst.
Lemma seconds_of t : 0 ≤ t < 2 ^ 48 * NSEC_PER_SEC → CAL_SECONDS (u32 (t / NSEC_PER_SEC / 2 ^ 32)) (u32 (t / NSEC_PER_SEC mod 2 ^ 32)) = t / NSEC_PER_SEC.
Proof.
  intros Ht. assert (Hs : 0 ≤ t / NSEC_PER_SEC < 2 ^ 48) by (unfold NSEC_PER_SEC in *; split; [apply Z.div_pos; lia|apply Z.div_lt_upper_bound; lia]).
  set (sec := t / NSEC_PER_SEC) in *. assert (0 ≤ sec / 2 ^ 32 < 2 ^ 16) by (split; [apply Z.div_pos; lia|apply Z.div_lt_upper_bound; lia]).
  pose proof (Z.mod_pos_bound sec (2 ^ 32) ltac:(lia)). pose proof (Z.div_mod sec (2 ^ 32) ltac:(lia)).
  rewrite !u32_small by (unfold is_u32; lia). rewrite CAL_SECONDS_eq by (unfold is_u32; lia). rewrite (Z.mod_small (sec / _)) by lia. lia.
Qed.
(** Reading the time reads the time of the snapshot. *)
Lemma read_time_spec {A} (k : Z → Z → Z → M mmst A) s (Q : A → mmst → Prop) (E : Z → mmst → Prop) :
  (∀ n l h s', let t := now (mm_hw s) in
     CAL_SECONDS h l = t / NSEC_PER_SEC → n = t mod NSEC_PER_SEC → mm_log s' = mm_log s ++ [MmioRead (base + TOD_NANOSEC) n; MmioRead (base + TOD_SECONDSL) l; MmioRead (base + TOD_SECONDSH) h] →
     wp (k n l h) Q E s') →
  wp (n ← readl (base + TOD_NANOSEC); l ← readl (base + TOD_SECONDSL); h ← readl (base + TOD_SECONDSH); k n l h) Q E s.
Proof.
  intros Hk. unfold wpg at 1, mbind, M_bind, readl. destruct (read_nanosec (mm_hw s)) as [Hn Hsn].
  destruct (hw_read (base + TOD_NANOSEC) (mm_hw s)) as [n d1]. cbn [fst snd mm_hw mm_log] in *.
  destruct (read_secondsl d1) as [Hl Hsl]. destruct (hw_read (base + TOD_SECONDSL) d1) as [l d2]. cbn [fst snd mm_hw mm_log] in *.
  pose proof (read_secondsh d2) as Hh. destruct (hw_read (base + TOD_SECONDSH) d2) as [h d3]. cbn [fst snd mm_hw mm_log] in *.
  subst n l h. rewrite Hsl, Hsn. apply Hk.
  - apply seconds_of, now_range.
  - apply u32_small. pose proof (Z.mod_pos_bound (now (mm_hw s)) NSEC_PER_SEC eq_refl) as Hb. unfold is_u32, NSEC_PER_SEC in *. lia.
  - cbn [mm_log]. by rewrite <- !app_assoc.
Qed.
Lemma write_time_spec h l n s (Q : unit → mmst → Prop) E :
  0 ≤ h < 2 ^ 16 → is_u32 l → 0 ≤ n < NSEC_PER_SEC →
  (∀ s', now (mm_hw s') = tod_time h l n → mm_log s' = mm_log s ++ [MmioWrite (base + TOD_SECONDSH) h; MmioWrite (base + TOD_SECONDSL) l; MmioWrite (base + TOD_NANOSEC) n] → Q tt s') →
  wp (writel h (base + TOD_SECONDSH) ;; writel l (base + TOD_SECONDSL) ;; writel n (base + TOD_NANOSEC)) Q E s.
Proof.
  intros Hh Hl Hn HQ. assert (is_u32 h) by (unfold is_u32; lia). assert (is_u32 n) by (unfold is_u32, NSEC_PER_SEC in *; lia).
  unfold writel, writeq. rewrite !u32_small by done. wsteps. apply HQ; cbn; [by apply write_time|by rewrite <- !app_assoc].
Qed.
Lemma gettime_exact s :
  wp (dfl_tod_get_timex base) (λ ts _, ts = Timespec (now (mm_hw s) / NSEC_PER_SEC) (now (mm_hw s) mod NSEC_PER_SEC)) (λ _ _, False) s.
Proof. unfold dfl_tod_get_timex. apply read_time_spec. intros n l h s' t Hc -> _. wstep. by rewrite Hc. Qed.
Lemma settime_exact ts s :
  0 ≤ tv_sec ts < 2 ^ 48 → 0 ≤ tv_nsec ts < NSEC_PER_SEC →
  wp (dfl_tod_set_time base ts) (λ _ s', now (mm_hw s') = tv_sec ts * NSEC_PER_SEC + tv_nsec ts) (λ _ _, False) s.
Proof.
  intros Hs Hn. unfold dfl_tod_set_time. cbv zeta. rewrite SECONDS_MSB_eq, !SECONDS_LSB_eq. rewrite !u64_small by (unfold is_u64, NSEC_PER_SEC in *; lia).
  rewrite (Z.mod_small (tv_nsec ts)) by (unfold NSEC_PER_SEC in *; lia).
  assert (0 ≤ tv_sec ts / 2 ^ 32 < 2 ^ 16) by (split; [apply Z.div_pos; lia|apply Z.div_lt_upper_bound; lia]). rewrite (Z.mod_small (_ / _)) by lia.
  pose proof (Z.mod_pos_bound (tv_sec ts) (2 ^ 32) ltac:(lia)). pose proof (Z.div_mod (tv_sec ts) (2 ^ 32) ltac:(lia)).
  apply write_time_spec; [done|done|done|]. intros s' -> _. unfold tod_time. rewrite (Z.mod_small (_ / _)) by lia. lia.
Qed.
(** The clock is moved by the delta, in 64 bits. *)
Lemma coarse_spec delta s : delta ≠ 0 →
  wp (coarse_adjust_tod_clock base delta)
    (λ _ s', now (mm_hw s') = u64 (now (mm_hw s) + delta) ∧ ∃ l, mm_log s' = mm_log s ++ l) (λ _ _, False) s.
Proof.
  intros Hd. unfold coarse_adjust_tod_clock. destruct (Z.eqb_spec delta 0) as [|_]; [done|]. apply read_time_spec. cbv zeta. intros n l h s1 -> -> Hl.
  replace (now (mm_hw s) / NSEC_PER_SEC * NSEC_PER_SEC + now (mm_hw s) mod NSEC_PER_SEC) with (now (mm_hw s)) by (pose proof (Z.div_mod (now (mm_hw s)) NSEC_PER_SEC ltac:(done)); lia).
  set (t := u64 (now (mm_hw s) + delta)). pose proof (u64_range (now (mm_hw s) + delta) : is_u64 t) as Ht. wstep. unfold div_u64_rem. apply wp_access; [|done]. intros [q r] [= <- <-].
  pose proof (tod_time_split t Ht) as Hsplit. rewrite SECONDS_MSB_eq, SECONDS_LSB_eq in *.
  apply write_time_spec; [apply Z.mod_pos_bound; lia|unfold is_u32; apply Z.mod_pos_bound; lia|by apply Z.mod_pos_bound|].
  intros s2 -> Hl2. split; [done|]. rewrite Hl2, Hl, <- app_assoc. by eexists.
Qed.
End TimeFacts.

(** ** The rate *)
Section RateFacts.
Context `{MmioHw} (base : Z).
Implicit Types s : mmst.
Definition drift_fits (fns rate : Z) : Prop := fns ≤ TOD_DRIFT_ADJUST_FNS_MAX ∧ rate ≤ TOD_DRIFT_ADJUST_RATE_MAX.
Lemma drift_loop_spec fuel fns rate s :
  0 ≤ fns < 2 ^ (16 + Z.of_nat fuel) → 0 ≤ rate < 2 ^ (16 + Z.of_nat fuel) →
  wp (drift_loop fuel fns rate)
    (λ r s', s' = s ∧ ∃ k, 0 ≤ k ∧ r = (Z.shiftr fns k, Z.shiftr rate k) ∧ drift_fits r.1 r.2 ∧
       ∀ j, 0 ≤ j < k → ¬ drift_fits (Z.shiftr fns j) (Z.shiftr rate j)) (λ _ _, False) s.
Proof.
  unfold drift_fits. revert fns rate. induction fuel as [|fuel IH]; intros fns rate Hf Hr; cbn [drift_loop];
    destruct (Z.ltb_spec TOD_DRIFT_ADJUST_FNS_MAX fns) as [Hf'|Hf'], (Z.ltb_spec TOD_DRIFT_ADJUST_RATE_MAX rate) as [Hr'|Hr']; cbn [orb];
    try (change (2 ^ (16 + Z.of_nat 0)) with 65536 in *; unfold TOD_DRIFT_ADJUST_RATE_MAX, TOD_DRIFT_ADJUST_FNS_MAX in *; lia);
    try (wsteps; split; [done|]; exists 0; rewrite !Z.shiftr_0_r; split_and!; [lia|done|done|done|lia]).
  all: assert (Hpow : 2 ^ (16 + Z.of_nat (S fuel)) = 2 * 2 ^ (16 + Z.of_nat fuel)) by (rewrite <- Z.pow_succ_r by lia; f_equal; lia);
    eapply wp_mono; [apply IH; rewrite Z.shiftr_div_pow2 by lia; (split; [apply Z.div_pos; lia|apply Z.div_lt_upper_bound; lia])| |done];
    cbv beta; intros r s' (-> & k & Hk & Hrk & Hfit & Hleast); split; [done|]; exists (k + 1);
    rewrite !Z.shiftr_shiftr in Hrk by lia; rewrite (Z.add_comm k 1);
    (split_and!; [lia|done|apply Hfit|apply Hfit|intros j Hj]);
    (destruct (decide (j = 0)) as [->|Hj0]; [rewrite !Z.shiftr_0_r; lia|]);
    specialize (Hleast (j - 1) ltac:(lia)); rewrite !Z.shiftr_shiftr in Hleast by lia; by replace (1 + (j - 1)) with j in Hleast by lia.
Qed.
(** The part of the period that the drift makes up, in lowest terms. *)
Lemma drift_exact total rate : 0 < rate → 0 ≤ total →
  let g := Z.gcd (total mod rate) rate in
  (total / rate * (rate / g) + total mod rate / g) * rate = total * (rate / g).
Proof.
  intros Hr Ht g. assert (Hg : 0 < g).
  { destruct (Z.eq_dec g 0) as [Hz|]; [apply Z.gcd_eq_0 in Hz; lia|]. pose proof (Z.gcd_nonneg (total mod rate) rate). unfold g in *. lia. }
  destruct (Z.gcd_divide_l (total mod rate) rate) as [a Ha], (Z.gcd_divide_r (total mod rate) rate) as [b Hb]. fold g in Ha, Hb.
  assert (Hra : total mod rate / g = a) by (rewrite Ha; apply Z.div_mul; lia). assert (Hrb : rate / g = b) by (rewrite Hb at 1; apply Z.div_mul; lia).
  rewrite Hra, Hrb. pose proof (Z.div_mod total rate ltac:(lia)) as Hdm. rewrite Ha in Hdm. rewrite Hdm at 2. rewrite Hb at 2 3. ring.
Qed.
(** The registers of the rate, from the period, what is left of it and the rate of
    the clock. *)
Definition rate_io (period fns drift_rate : Z) : list mmio_io :=
  [MmioWrite (base + TOD_PERIOD) period; MmioWrite (base + TOD_ADJUST_PERIOD) 0; MmioWrite (base + TOD_ADJUST_COUNT) 0;
   MmioWrite (base + TOD_DRIFT_ADJUST) fns; MmioWrite (base + TOD_DRIFT_ADJUST_RATE) drift_rate].
(** What the registers are for a period of [total / rate]: the whole part, and a drift
    that makes up the rest exactly, unless its terms had to lose [k] bits to fit. *)
Definition rate_set (total rate period fns drift_rate : Z) : Prop :=
  period = total / rate ∧ 0 ≤ fns ≤ TOD_DRIFT_ADJUST_FNS_MAX ∧ 0 ≤ drift_rate ≤ TOD_DRIFT_ADJUST_RATE_MAX ∧
  let g := Z.gcd (total mod rate) rate in
  ∃ k, 0 ≤ k ∧ fns = Z.shiftr (total mod rate / g) k ∧ drift_rate = (if fns =? 0 then 0 else Z.shiftr (rate / g) k) ∧
    (∀ j, 0 ≤ j < k → ¬ drift_fits (Z.shiftr (total mod rate / g) j) (Z.shiftr (rate / g) j)) ∧
    (k = 0 → if fns =? 0 then period * rate = total else (period * drift_rate + fns) * rate = total * drift_rate).

(** The rate of the clock, for a clock of 32 kHz at least and an adjustment in the
    range that the driver announces: the period is written when it fits its
    register, with a drift that makes up the rest of the division, exactly when the
    drift fits its registers in lowest terms and else with the fewest bits lost that
    make it fit; a period that does not fit is refused with nothing written. *)
Lemma adjust_fine_exact (scaled_ppm_to_ppb : Z → Z) scaled_ppm rate d s :
  let total := (scaled_ppm_to_ppb scaled_ppm + GIGA) * 2 ^ 16 in
  - TOD_MAX_ADJ ≤ scaled_ppm_to_ppb scaled_ppm ≤ TOD_MAX_ADJ → 2 ^ 15 ≤ rate < 2 ^ 32 →
  hw_read (base + TOD_CLK_FREQ) (mm_hw s) = (rate, d) →
  wp (dfl_tod_adjust_fine base scaled_ppm_to_ppb scaled_ppm)
    (λ _ s', ∃ period fns drift_rate, rate_set total rate period fns drift_rate ∧ period ≤ TOD_PERIOD_MAX ∧
       mm_log s' = mm_log s ++ MmioRead (base + TOD_CLK_FREQ) rate :: rate_io period fns drift_rate)
    (λ e s', e = - ERANGE ∧ TOD_PERIOD_MAX < total / rate ∧ mm_log s' = mm_log s ++ [MmioRead (base + TOD_CLK_FREQ) rate]) s.
Proof.
  intros total Hp Hr Hd. unfold dfl_tod_adjust_fine. wstep. unfold wpg at 1, readl. rewrite Hd. cbv beta zeta. rewrite (u32_small rate) by (unfold is_u32; lia).
  set (s1 := Mm d _). unfold TOD_MAX_ADJ, GIGA, PERIOD_FRAC_OFFSET in *. rewrite (u64_small (_ + _)) by (unfold is_u64; lia). rewrite Z.shiftl_mul_pow2 by lia.
  fold total. assert (Ht : 0 ≤ total < 1500000001 * 2 ^ 16) by (unfold total; lia). rewrite u64_small by (unfold is_u64; lia).
  wstep. unfold div_u64_rem. destruct (Z.eqb_spec rate 0); [lia|]. apply wp_access; [|done]. intros ? [= <-].
  assert (Hq : 0 ≤ total / rate < 2 ^ 32) by (split; [apply Z.div_pos; lia|apply Z.div_lt_upper_bound; lia]). rewrite u32_small by done.
  destruct (Z.ltb_spec TOD_PERIOD_MAX (total / rate)) as [Hm|Hm]; wsteps; [done|].
  pose proof (Z.mod_pos_bound total rate ltac:(lia)) as Hrem. set (g := Z.gcd (total mod rate) rate).
  assert (Hg : 0 < g). { destruct (Z.eq_dec g 0) as [Hz|]; [apply Z.gcd_eq_0 in Hz; lia|]. pose proof (Z.gcd_nonneg (total mod rate) rate). unfold g in *. lia. }
  assert (Hdiv : ∀ x, 0 ≤ x < 2 ^ 32 → 0 ≤ x / g < 2 ^ (16 + Z.of_nat 32)).
  { intros x Hx. change (2 ^ (16 + Z.of_nat 32)) with (2 ^ 48). split; [apply Z.div_pos; lia|apply Z.div_lt_upper_bound; nia]. }
  assert (Hpos : ∀ x j, 0 ≤ x < 2 ^ 32 → 0 ≤ Z.shiftr (x / g) j) by (intros x j Hx; apply Z.shiftr_nonneg, Hdiv, Hx).
  eapply wp_mono; [apply drift_loop_spec; apply Hdiv; lia| |done]. cbv beta. intros r s2 (-> & k & Hk & -> & Hfit & Hleast). cbn [fst snd] in Hfit.
  pose proof (Hpos (total mod rate) k ltac:(lia)) as Hf0. pose proof (Hpos rate k ltac:(lia)) as Hr0.
  set (fns := Z.shiftr (total mod rate / g) k) in *. set (dr := if fns =? 0 then 0 else Z.shiftr (rate / g) k).
  destruct Hfit as [Hfit1 Hfit2]. assert (Hdr : 0 ≤ dr ≤ TOD_DRIFT_ADJUST_RATE_MAX) by (unfold dr; destruct (fns =? 0); [done|lia]).
  unfold writel, writeq. wsteps. exists (total / rate), fns, dr. split; [|split; [done|]].
  - split_and!; [done|done|done|apply Hdr|apply Hdr|]. exists k. split_and!; [done|done|done|done|].
    intros ->. unfold dr, fns. rewrite !Z.shiftr_0_r. pose proof (drift_exact total rate ltac:(lia) ltac:(lia)) as He. fold g in He. cbv zeta in He.
    destruct (Z.eqb_spec (total mod rate / g) 0) as [Hz|]; [|exact He]. rewrite Hz, Z.add_0_r in He.
    destruct (Z.gcd_divide_l (total mod rate) rate) as [a Ha]. fold g in Ha. rewrite Ha, Z.div_mul in Hz by lia. subst a. pose proof (Z.div_mod total rate ltac:(lia)). lia.
  - unfold TOD_DRIFT_ADJUST_RATE_MAX, TOD_DRIFT_ADJUST_FNS_MAX, TOD_PERIOD_MAX in *. rewrite !(u32_small fns), !(u32_small dr), !(u32_small (total / rate)), !(u32_small 0) by (unfold is_u32; lia).
    cbn [mm_log s1]. by rewrite <- !app_assoc.
Qed.
End RateFacts.

(** ** Moving the clock *)
Section AdjustFacts.
Context `{MmioHw} (base : Z).
Implicit Types s : mmst.
(** How far the counts in [l] are to move the clock, in units of the period register:
    for each cycle of a count the difference of the period that is set for it. *)
Fixpoint asked (period adj : Z) (l : list mmio_io) : Z :=
  match l with
  | [] => 0
  | MmioWrite a v :: l =>
      if a =? base + TOD_ADJUST_PERIOD then asked period v l
      else if a =? base + TOD_ADJUST_COUNT then (adj - period) * v + asked period adj l
      else asked period adj l
  | MmioRead _ _ :: l => asked period adj l
  end.
(** How far they have moved it, as far as one can tell from [l]: an adjustment [run]
    is under way until its count reads as zero.  Nothing is known once the period or
    the count is written over an adjustment that was not seen to end, nor when [l]
    leaves one under way. *)
Fixpoint adjusted (period adj : Z) (run : option Z) (l : list mmio_io) : option Z :=
  match l with
  | [] => match run with None => Some 0 | Some _ => None end
  | MmioWrite a v :: l =>
      if (a =? base + TOD_ADJUST_PERIOD) || (a =? base + TOD_ADJUST_COUNT) then
        match run with
        | Some _ => None
        | None => if a =? base + TOD_ADJUST_PERIOD then adjusted period v None l else adjusted period adj (Some ((adj - period) * v)) l
        end
      else adjusted period adj run l
  | MmioRead a v :: l =>
      if (a =? base + TOD_ADJUST_COUNT) && (v =? 0) then Z.add (default 0 run) <$> adjusted period adj None l
      else adjusted period adj run l
  end.
(** An adjustment is within the registers. *)
Definition adjust_io (e : mmio_io) : Prop :=
  match e with
  | MmioWrite a v => a = base + TOD_ADJUST_PERIOD ∧ 0 ≤ v ≤ TOD_PERIOD_MAX ∨ a = base + TOD_ADJUST_COUNT ∧ 0 < v ≤ TOD_ADJUST_COUNT_MAX
  | MmioRead a _ => a = base + TOD_ADJUST_COUNT
  end.
(** One adjustment, with what the count was while it was waited for. *)
Definition fine_io (p c : Z) (vs : list Z) : list mmio_io :=
  MmioWrite (base + TOD_ADJUST_PERIOD) p :: MmioWrite (base + TOD_ADJUST_COUNT) c :: (MmioRead (base + TOD_ADJUST_COUNT) <$> vs).
Definition running (vs : list Z) : Prop := Forall (λ v, v ≠ 0) vs.
(** The count became zero; the count never did, however often it was read. *)
Definition seen_to_end (l : list mmio_io) : Prop := ∃ p c vs, l = fine_io p c (vs ++ [0]) ∧ running vs.
Definition timed_out (tries : nat) (l : list mmio_io) : Prop := ∃ p c vs, l = fine_io p c vs ∧ running vs ∧ length vs = (2 + tries)%nat.

Lemma count_not_period : (base + TOD_ADJUST_COUNT =? base + TOD_ADJUST_PERIOD) = false.
Proof. apply Z.eqb_neq. unfold TOD_ADJUST_COUNT, TOD_ADJUST_PERIOD. lia. Qed.
Lemma asked_fine period adj p c vs l' : asked period adj (fine_io p c vs ++ l') = (p - period) * c + asked period p l'.
Proof. unfold fine_io. cbn [app asked]. rewrite Z.eqb_refl, count_not_period, Z.eqb_refl. f_equal. by induction vs. Qed.
Lemma adjusted_fine period adj p c vs l' :
  running vs → adjusted period adj None (fine_io p c (vs ++ [0]) ++ l') = Z.add ((p - period) * c) <$> adjusted period p None l'.
Proof.
  intros Hvs. unfold fine_io. cbn [app adjusted]. rewrite Z.eqb_refl, count_not_period, Z.eqb_refl. cbn [orb].
  induction Hvs as [|v vs Hv _ IH]; cbn [app fmap list_fmap adjusted]; rewrite Z.eqb_refl; cbn [andb]; [done|].
  by destruct (Z.eqb_spec v 0).
Qed.
Lemma fine_io_ok p c vs : 0 ≤ p ≤ TOD_PERIOD_MAX → 0 < c ≤ TOD_ADJUST_COUNT_MAX → Forall adjust_io (fine_io p c vs).
Proof.
  intros Hp Hc. constructor; [by left|]. constructor; [by right|]. apply Forall_fmap, list.Forall_forall. by intros.
Qed.

(** Waiting: the count becomes zero, or is read as often as the time allows. *)
Lemma wait_spec tries s :
  wp (read_poll_timeout (readl (base + TOD_ADJUST_COUNT)) (λ val, val =? 0) tries)
    (λ r s', ∃ vs, running vs ∧
       (r.1 = 0 ∧ mm_log s' = mm_log s ++ (MmioRead (base + TOD_ADJUST_COUNT) <$> vs ++ [0]) ∨
        r.1 = - ETIMEDOUT ∧ mm_log s' = mm_log s ++ (MmioRead (base + TOD_ADJUST_COUNT) <$> vs) ∧ length vs = (2 + tries)%nat))
    (λ _ _, False) s.
Proof.
  revert s. induction tries as [|n IH]; intros s; cbn [read_poll_timeout]; wsteps; apply readl_spec; intros v d _;
    destruct (Z.eqb_spec v 0) as [->|Hv]; wsteps; try (exists []; split; [constructor|by left]).
  - apply readl_spec. intros w d' _. wsteps. cbn [mm_log fst]. rewrite <- app_assoc.
    destruct (Z.eqb_spec w 0) as [->|Hw]; [exists [v]; split; [by constructor|by left]|].
    exists [v; w]. split; [by repeat constructor|by right].
  - eapply wp_mono; [apply IH| |done]. cbn [mm_log]. intros r s' (vs & Hvs & Hr). exists (v :: vs). split; [by constructor|].
    rewrite <- !app_assoc in Hr. destruct Hr as [[? ?]|(? & ? & Hlen)]; [by left|right]. split_and!; [done..|]. cbn. by rewrite Hlen.
Qed.
(** The adjustment is written, and waited for. *)
Definition waited (tries : nat) (p c ret : Z) (l : list mmio_io) : Prop :=
  ∃ vs, running vs ∧ (ret = 0 ∧ l = fine_io p c (vs ++ [0]) ∨ ret = - ETIMEDOUT ∧ l = fine_io p c vs ∧ length vs = (2 + tries)%nat).
Lemma fine_adjust_spec tries p c s :
  is_u32 p → is_u32 c →
  wp (fine_adjust_tod_clock base tries p c) (λ _ s', ∃ l, mm_log s' = mm_log s ++ l ∧ waited tries p c 0 l)
    (λ e s', ∃ l, mm_log s' = mm_log s ++ l ∧ waited tries p c e l) s.
Proof.
  intros Hp Hc. unfold fine_adjust_tod_clock, writel, writeq. rewrite !u32_small by done. wsteps.
  eapply wp_mono; [apply wait_spec| |done]. cbn [mm_log]. intros [ret x] s' (vs & Hvs & Hr). cbn [fst] in *.
  rewrite <- !app_assoc in Hr. cbn [app] in Hr.
  wsteps; intros Hz; (destruct Hr as [[-> Hl]|(-> & Hl & Hlen)]; [|]); try done;
    (eexists; split; [exact Hl|]); exists vs; (split; [done|]); [by left|by right].
Qed.
(** An adjustment is left out when there is nothing to adjust. *)
Definition stage (tries : nat) (x p c ret : Z) (l : list mmio_io) : Prop :=
  if x =? 0 then ret = 0 ∧ l = [] else 0 ≤ p ≤ TOD_PERIOD_MAX ∧ 0 < c ≤ TOD_ADJUST_COUNT_MAX ∧ waited tries p c ret l.
Lemma maybe_fine_spec tries p x c ret s :
  0 ≤ p ≤ TOD_PERIOD_MAX → (x ≠ 0 → 0 < c ≤ TOD_ADJUST_COUNT_MAX) →
  wp (if x =? 0 then mret ret else status (fine_adjust_tod_clock base tries p c))
    (λ r s', ∃ l r0, mm_log s' = mm_log s ++ l ∧ stage tries x p c r0 l ∧ r = if x =? 0 then ret else r0) (λ _ _, False) s.
Proof.
  intros Hp Hc. unfold stage. destruct (Z.eqb_spec x 0) as [->|Hx]; wsteps.
  - exists [], 0. by rewrite app_nil_r.
  - specialize (Hc Hx). eapply wp_mono; [apply (fine_adjust_spec tries p c); unfold is_u32, TOD_PERIOD_MAX, TOD_ADJUST_COUNT_MAX in *; lia|..]; cbv beta.
    + intros _ s' (l & Hl & Hio). by exists l, 0.
    + intros e s' (l & Hl & Hio). by exists l, e.
Qed.
Lemma stage_asked tries x p c r l period adj l' :
  stage tries x p c r l → ∃ adj', asked period adj (l ++ l') = (if x =? 0 then 0 else (p - period) * c) + asked period adj' l'.
Proof.
  unfold stage. destruct (x =? 0); [intros [_ ->]; by exists adj|].
  intros (_ & _ & vs & _ & [[_ ->]|(_ & -> & _)]); exists p; apply asked_fine.
Qed.
Lemma stage_adjusted tries x p c l period adj l' :
  stage tries x p c 0 l →
  ∃ adj', adjusted period adj None (l ++ l') = Z.add (if x =? 0 then 0 else (p - period) * c) <$> adjusted period adj' None l'.
Proof.
  unfold stage. destruct (x =? 0).
  - intros [_ ->]. exists adj. cbn [app]. by destruct (adjusted _ _ _ _).
  - intros (_ & _ & vs & Hvs & [[_ ->]|[Hr _]]); [|done]. exists p. by apply adjusted_fine.
Qed.
Lemma stage_ok tries x p c r l : stage tries x p c r l → Forall adjust_io l.
Proof.
  unfold stage. destruct (x =? 0); [by intros [_ ->]|].
  intros (Hp & Hc & vs & _ & [[_ ->]|(_ & -> & _)]); by apply fine_io_ok.
Qed.
Lemma stage_end tries x p c r l : stage tries x p c r l →
  r = 0 ∧ (x = 0 ∧ l = [] ∨ x ≠ 0 ∧ seen_to_end l) ∨ x ≠ 0 ∧ r = - ETIMEDOUT ∧ timed_out tries l.
Proof.
  unfold stage. destruct (Z.eqb_spec x 0) as [->|]; [intros [-> ->]; left; split; [done|by left]|].
  intros (_ & _ & vs & Hvs & [[-> ->]|(-> & -> & Hl)]).
  - left. split; [done|]. right. split; [done|]. by exists p, c, vs.
  - right. split_and!; [done..|]. by exists p, c, vs.
Qed.
(** Two adjustments, one after the other. *)
Lemma stages_adjusted tries x1 p1 c1 l1 x2 p2 c2 l2 period :
  stage tries x1 p1 c1 0 l1 → stage tries x2 p2 c2 0 l2 →
  adjusted period 0 None (l1 ++ l2) = Some ((if x1 =? 0 then 0 else (p1 - period) * c1) + (if x2 =? 0 then 0 else (p2 - period) * c2)).
Proof.
  intros H1 H2. destruct (stage_adjusted _ _ _ _ _ period 0 l2 H1) as [a1 ->].
  rewrite <- (app_nil_r l2). destruct (stage_adjusted _ _ _ _ _ period a1 [] H2) as [a2 ->]. cbn. f_equal. lia.
Qed.
Lemma stages_asked tries x1 p1 c1 r1 l1 x2 p2 c2 r2 l2 period :
  stage tries x1 p1 c1 r1 l1 → stage tries x2 p2 c2 r2 l2 →
  asked period 0 (l1 ++ l2) = (if x1 =? 0 then 0 else (p1 - period) * c1) + (if x2 =? 0 then 0 else (p2 - period) * c2).
Proof.
  intros H1 H2. destruct (stage_asked _ _ _ _ _ _ period 0 l2 H1) as [a1 ->].
  rewrite <- (app_nil_r l2). destruct (stage_asked _ _ _ _ _ _ period a1 [] H2) as [a2 ->]. cbn [asked]. lia.
Qed.
(** The nanoseconds of a cycle by which the period can be changed. *)
Definition headroom (delta period : Z) : Z := if delta <? 0 then period / 2 ^ 16 else (TOD_PERIOD_MAX - period) / 2 ^ 16.

(** C38: moving the clock by [delta] nanoseconds, when that takes at most as many cycles
    as the counter has, the period is one of the 20 bits that its register has and can
    be changed by a nanosecond at least, and [delta] is not the least number of 64
    bits, which has no absolute value.  At most two adjustments are made, each with a period and a count that fit their registers,
    and in any case what they ask for is [delta] altogether.  Each is waited for until
    its count is seen to be zero or the time is over.  On success all adjustments were
    seen to end, each before the next one was written, and have moved the clock by
    [delta] exactly; with one exception: when the first of two times out and the second does
    not, the call succeeds although the second was written over the first.  The only
    error is the timeout, and then the last adjustment was not seen to end, however
    often its count was read. *)
Theorem adjust_time_exact tries delta period d s :
  - 2 ^ 63 < delta < 2 ^ 63 → hw_read (base + TOD_PERIOD) (mm_hw s) = (period, d) → 0 ≤ period ≤ TOD_PERIOD_MAX →
  0 < headroom delta period → Z.abs delta / headroom delta period ≤ TOD_ADJUST_COUNT_MAX →
  let wrote s' l := mm_log s' = mm_log s ++ MmioRead (base + TOD_PERIOD) period :: l ∧ Forall adjust_io l ∧
    asked period 0 l = delta * 2 ^ 16 in
  wp (dfl_tod_adjust_time base tries delta)
    (λ _ s', ∃ l, wrote s' l ∧ (adjusted period 0 None l = Some (delta * 2 ^ 16) ∨
       ∃ l1 l2, l = l1 ++ l2 ∧ timed_out tries l1 ∧ seen_to_end l2))
    (λ e s', e = - ETIMEDOUT ∧ ∃ l1 l2, wrote s' (l1 ++ l2) ∧ timed_out tries l2 ∧
       (l1 = [] ∨ seen_to_end l1 ∨ timed_out tries l1)) s.
Proof.
  intros Hdelta Hd Hp Hroom Hcount wrote. unfold dfl_tod_adjust_time. cbv zeta. wstep. unfold wpg at 1, readl. rewrite Hd. cbv beta zeta.
  unfold headroom, TOD_PERIOD_MIN, PERIOD_FRAC_OFFSET in *. unfold TOD_PERIOD_MAX in *. rewrite (u32_small period) by (unfold is_u32; lia). set (s1 := Mm d _).
  set (diff := if delta <? 0 then period / 2 ^ 16 else (0xfffff - period) / 2 ^ 16) in *.
  assert (Hb : 0 ≤ diff < 16). { unfold diff. destruct (delta <? 0); (split; [apply Z.div_pos; lia|apply Z.div_lt_upper_bound; lia]). }
  assert (Hdiff : (if delta <? 0 then Z.shiftr (u32 (period - 0)) 16 else u32 (Z.shiftr (u64 (1048575 - period)) 16)) = diff).
  { unfold diff. destruct (delta <? 0); rewrite ?u64_small, ?Z.sub_0_r, Z.shiftr_div_pow2 by (unfold is_u64; lia); [by rewrite u32_small by (unfold is_u32; lia)|].
    apply u32_small. unfold is_u32. split; [apply Z.div_pos; lia|apply Z.div_lt_upper_bound; lia]. }
  rewrite Hdiff. set (a := if delta <? 0 then s64 (- delta) else delta).
  assert (Ha : a = Z.abs delta) by (unfold a; destruct (Z.ltb_spec delta 0); unfold s64; rewrite ?Z.mod_small by lia; lia). rewrite Ha, u64_small by (unfold is_u64; lia).
  wstep. unfold div_u64_rem. destruct (Z.eqb_spec diff 0); [lia|]. apply wp_access; [|done]. intros ? [= <-]. rewrite !Z.shiftl_mul_pow2 by lia.
  destruct (Z.ltb_spec TOD_ADJUST_COUNT_MAX (Z.abs delta / diff)) as [|_]; [lia|]. unfold TOD_ADJUST_COUNT_MAX in *.
  pose proof (Z.div_mod (Z.abs delta) diff ltac:(lia)) as Hdm. pose proof (Z.mod_pos_bound (Z.abs delta) diff ltac:(lia)) as Hrem.
  pose proof (Z.div_pos (Z.abs delta) diff ltac:(lia) ltac:(lia)) as Hq. set (count := Z.abs delta / diff) in *. set (rem := Z.abs delta mod diff) in *.
  rewrite (u32_small count) by (unfold is_u32; lia).
  assert (Hadj : ∀ x, 0 ≤ x ≤ diff → 0 ≤ (if delta <? 0 then u32 (period - x * 2 ^ 16) else u32 (period + x * 2 ^ 16)) ≤ 0xfffff ∧
    (if delta <? 0 then u32 (period - x * 2 ^ 16) else u32 (period + x * 2 ^ 16)) - period = (if delta <? 0 then - x else x) * 2 ^ 16).
  { intros x Hx. assert (Hd16 : diff * 2 ^ 16 ≤ if delta <? 0 then period else 0xfffff - period).
    { unfold diff. destruct (delta <? 0); [pose proof (Z.mul_div_le period (2 ^ 16) ltac:(lia))|pose proof (Z.mul_div_le (0xfffff - period) (2 ^ 16) ltac:(lia))]; lia. }
    destruct (delta <? 0); rewrite u32_small by (unfold is_u32; lia); lia. }
  destruct (Hadj diff ltac:(lia)) as [Hap1 Hap2], (Hadj rem ltac:(lia)) as [Hrp1 Hrp2].
  wstep. eapply wp_mono; [apply maybe_fine_spec; [done|unfold TOD_ADJUST_COUNT_MAX; lia]| |done]. cbv beta.
  intros ret1 s2 (l1 & r1 & Hl1 & Hs1 & ->). wstep.
  eapply wp_mono; [apply maybe_fine_spec; [done|unfold TOD_ADJUST_COUNT_MAX; lia]| |done]. cbv beta.
  intros ret2 s3 (l2 & r2 & Hl2 & Hs2 & ->).
  match type of Hs1 with stage _ _ ?p _ _ _ => set (p1 := p) in * end. match type of Hs2 with stage _ _ ?p _ _ _ => set (p2 := p) in * end.
  assert (Hsum : (if count =? 0 then 0 else (p1 - period) * count) + (if rem =? 0 then 0 else (p2 - period) * 1) = delta * 2 ^ 16).
  { rewrite Hap2, Hrp2. destruct (Z.ltb_spec delta 0), (Z.eqb_spec count 0), (Z.eqb_spec rem 0); nia. }
  assert (Hw : wrote s3 (l1 ++ l2)).
  { split_and!; [by rewrite Hl2, Hl1; cbn; rewrite <- !app_assoc|apply Forall_app; split; by eapply stage_ok|].
    rewrite <- Hsum. by eapply stages_asked. }
  assert (Hdone : r1 = 0 → r2 = 0 → adjusted period 0 None (l1 ++ l2) = Some (delta * 2 ^ 16)).
  { intros -> ->. rewrite <- Hsum. by eapply stages_adjusted. }
  apply stage_end in Hs1 as He1. apply stage_end in Hs2 as He2. clear Hsum Hs1 Hs2.
  replace (if count =? 0 then 0 else r1) with r1 by (destruct (Z.eqb_spec count 0); [|done]; destruct He1 as [[? _]|[? _]]; done).
  wsteps.
  - intros Hz. exists (l1 ++ l2). split; [done|].
    destruct He1 as [[-> _]|(_ & -> & Ht1)], (Z.eqb_spec rem 0) as [Hrem0|Hrem0]; try done.
    + destruct He2 as [[-> _]|[Hne _]]; [|done]. left. by apply Hdone.
    + subst r2. left. by apply Hdone.
    + subst r2. right. exists l1, l2. destruct He2 as [[_ [[? _]|[_ ?]]]|(_ & ? & _)]; done.
  - intros Hz. destruct (Z.eqb_spec rem 0) as [Hrem0|Hrem0].
    + destruct He2 as [[_ [[_ ->]|[? _]]]|[? _]]; [|done..]. destruct He1 as [[-> _]|(_ & -> & Ht1)]; [done|]. split; [done|].
      exists [], l1. rewrite app_nil_r in Hw. split_and!; [done|done|by left].
    + destruct He2 as [[-> _]|(_ & -> & Ht2)]; [done|]. split; [done|]. exists l1, l2. split_and!; [done..|].
      destruct He1 as [[_ [[_ ->]|[_ ?]]]|(_ & _ & ?)]; auto.
Qed.
End AdjustFacts.

Section TimeTheorems.
Context `{TodClock}.
Implicit Types s : mmst.
(** A time that the registers can hold, once set, is the time that is read next. *)
Lemma settime_gettime ts s :
  0 ≤ tv_sec ts < 2 ^ 48 → 0 ≤ tv_nsec ts < NSEC_PER_SEC →
  wp (dfl_tod_set_time base ts ;; dfl_tod_get_timex base) (λ r _, r = ts) (λ _ _, False) s.
Proof.
  intros Hs Hn. wstep. eapply wp_mono; [by apply settime_exact| |done]. cbv beta. intros _ s1 Hnow.
  eapply wp_mono; [apply gettime_exact| |done]. cbv beta. intros r s2 ->. rewrite Hnow. destruct ts as [sec nsec]. cbn [tv_sec tv_nsec] in *. unfold NSEC_PER_SEC in *.
  f_equal; [rewrite Z.div_add_l, Z.div_small by lia; lia|by rewrite Z.add_comm, Z.mod_add, Z.mod_small by lia].
Qed.
(** A delta that takes more cycles is added to the time, without its sign. *)
Lemma adjust_time_far tries delta period d s :
  - 2 ^ 63 < delta < 2 ^ 63 → hw_read (base + TOD_PERIOD) (mm_hw s) = (period, d) → 0 ≤ period ≤ TOD_PERIOD_MAX →
  0 < headroom delta period → TOD_ADJUST_COUNT_MAX < Z.abs delta / headroom delta period →
  wp (dfl_tod_adjust_time base tries delta) (λ _ s', now (mm_hw s') = u64 (now d + Z.abs delta)) (λ _ _, False) s.
Proof.
  intros Hdelta Hd Hp Hroom Hcount. unfold dfl_tod_adjust_time. cbv zeta. wstep. unfold wpg at 1, readl. rewrite Hd. cbv beta zeta.
  unfold headroom, TOD_PERIOD_MIN, PERIOD_FRAC_OFFSET in *. unfold TOD_PERIOD_MAX in *. rewrite (u32_small period) by (unfold is_u32; lia). set (s1 := Mm d _).
  set (diff := if delta <? 0 then period / 2 ^ 16 else (0xfffff - period) / 2 ^ 16) in *.
  assert (Hdiff : (if delta <? 0 then Z.shiftr (u32 (period - 0)) 16 else u32 (Z.shiftr (u64 (1048575 - period)) 16)) = diff).
  { unfold diff. destruct (delta <? 0); rewrite ?u64_small, ?Z.sub_0_r, Z.shiftr_div_pow2 by (unfold is_u64; lia); [by rewrite u32_small by (unfold is_u32; lia)|].
    apply u32_small. unfold is_u32. split; [apply Z.div_pos; lia|apply Z.div_lt_upper_bound; lia]. }
  rewrite Hdiff. set (a := if delta <? 0 then s64 (- delta) else delta).
  assert (Ha : a = Z.abs delta) by (unfold a; destruct (Z.ltb_spec delta 0); unfold s64; rewrite ?Z.mod_small by lia; lia). rewrite Ha, u64_small by (unfold is_u64; lia).
  wstep. unfold div_u64_rem. destruct (Z.eqb_spec diff 0); [lia|]. apply wp_access; [|done]. intros ? [= <-].
  destruct (Z.ltb_spec TOD_ADJUST_COUNT_MAX (Z.abs delta / diff)) as [_|]; [|lia].
  eapply wp_mono; [apply coarse_spec| |done].
  - intros Hz. rewrite Hz, Z.div_0_l in Hcount by lia. by vm_compute in Hcount.
  - by intros _ s2 [-> _].
Qed.
End TimeTheorems.

(** ** A concrete clock

    It ticks with every read of the time; [td_busy] is how often a count is read
    before it is seen to end, for each count that will be written. *)
Record tod_dev := TodDev { td_now : Z; td_snap : Z; td_h : Z; td_l : Z; td_period : Z; td_count : nat; td_busy : list nat }.
Definition demo_now (d : tod_dev) : Z := td_now d mod (2 ^ 48 * NSEC_PER_SEC).
Definition tick (snap : Z) (d : tod_dev) := TodDev (demo_now d + 10) snap (td_h d) (td_l d) (td_period d) (td_count d) (td_busy d).
Definition demo_tod : MmioHw := {|
  hw := tod_dev;
  hw_read a d :=
    if a =? TOD_NANOSEC then (demo_now d mod NSEC_PER_SEC, tick (demo_now d) d)
    else if a =? TOD_SECONDSL then (td_snap d / NSEC_PER_SEC mod 2 ^ 32, tick (td_snap d) d)
    else if a =? TOD_SECONDSH then (td_snap d / NSEC_PER_SEC / 2 ^ 32, tick (td_snap d) d)
    else if a =? TOD_PERIOD then (td_period d, d)
    else if a =? TOD_CLK_FREQ then (156250000, d)
    else (Z.of_nat (td_count d), TodDev (td_now d) (td_snap d) (td_h d) (td_l d) (td_period d) (pred (td_count d)) (td_busy d));
  hw_write a v d :=
    if a =? TOD_NANOSEC then TodDev (tod_time (td_h d) (td_l d) v) (td_snap d) (td_h d) (td_l d) (td_period d) (td_count d) (td_busy d)
    else if a =? TOD_SECONDSL then TodDev (td_now d) (td_snap d) (td_h d) v (td_period d) (td_count d) (td_busy d)
    else if a =? TOD_SECONDSH then TodDev (td_now d) (td_snap d) v (td_l d) (td_period d) (td_count d) (td_busy d)
    else if a =? TOD_ADJUST_COUNT then TodDev (td_now d) (td_snap d) (td_h d) (td_l d) (td_period d) (default 0%nat (head (td_busy d))) (tail (td_busy d))
    else d;
|}.
#[export] Instance demo_clock : @TodClock demo_tod 0.
Proof.
  refine (@Build_TodClock demo_tod 0 demo_now td_snap _ _ _ _ _); try by intros d; cbn.
  - intros d. by apply Z.mod_pos_bound.
  - intros d h l n Hh Hl Hn. unfold is_u32 in Hl. cbn. unfold demo_now. cbn [td_now]. apply Z.mod_small. unfold tod_time. rewrite Z.mod_small by lia. unfold NSEC_PER_SEC in *. lia.
Defined.
(** A clock of 6.4 ns in its second 1000. *)
Definition demo_dev (period : Z) (busy : list nat) : @mmst demo_tod := @Mm demo_tod (TodDev 1000000000000 0 0 0 period 0 busy) [].
Definition demo_ppb (ppm : Z) : Z := Z.shiftr ((1 + ppm) * 125) 13.
Definition time_after {A} (r : exec (outcome A * @mmst demo_tod)) : option (A * Z) :=
  match r with Done (Val a, s) => Some (a, demo_now (mm_hw s)) | _ => None end.

Lemma settime_gettime_witness :
  val_of ((@dfl_tod_set_time demo_tod 0 (Timespec 1700000000 5) ;; @dfl_tod_get_timex demo_tod 0) (demo_dev 419430 [])) = Some (Timespec 1700000000 5).
Proof.
  pose proof (settime_gettime (H := demo_tod) (base := 0) (Timespec 1700000000 5) (demo_dev 419430 []) ltac:(cbn; lia) ltac:(cbn; unfold NSEC_PER_SEC; lia)) as Hx.
  unfold wpg in Hx. match type of Hx with match ?x with _ => _ end => destruct x as [[[r|e] s']| |] end; try done. cbn. by rewrite Hx.
Defined.
Lemma adjust_fine_exact_witness :
  ∃ period fns drift_rate s', @dfl_tod_adjust_fine demo_tod 0 demo_ppb 65536 (demo_dev 419430 []) = Done (Val tt, s') ∧
    rate_set 65536065536000 156250000 period fns drift_rate ∧ mm_log s' = MmioRead TOD_CLK_FREQ 156250000 :: rate_io 0 period fns drift_rate.
Proof.
  pose proof (@adjust_fine_exact demo_tod 0 demo_ppb 65536 156250000 _ (demo_dev 419430 []) ltac:(vm_compute; by split) ltac:(lia) eq_refl) as Hx.
  destruct (wp_val _ _ _ _ tt Hx ltac:(vm_compute; reflexivity)) as (s' & He & p & f & r & Hr & _ & Hl).
  exists p, f, r, s'. split; [exact He|]. split; [exact Hr|exact Hl].
Defined.
Lemma adjust_time_exact_witness :
  ∃ l s', @dfl_tod_adjust_time demo_tod 0 3 (- 100) (demo_dev 419430 []) = Done (Val tt, s') ∧
    mm_log s' = MmioRead TOD_PERIOD 419430 :: l ∧ asked 0 419430 0 l = - 100 * 2 ^ 16.
Proof.
  pose proof (@adjust_time_exact demo_tod 0 3 (- 100) 419430 _ (demo_dev 419430 []) ltac:(lia) eq_refl ltac:(by vm_compute) ltac:(by vm_compute) ltac:(by vm_compute)) as Hx.
  destruct (wp_val _ _ _ _ tt Hx ltac:(vm_compute; reflexivity)) as (s' & He & l & (Hl & _ & Ha) & _).
  exists l, s'. split; [exact He|]. split; [exact Hl|exact Ha].
Defined.
(** Two adjustments that end: the first takes three reads, the second one. *)
Example both_adjusted :
  match @dfl_tod_adjust_time demo_tod 0 3 (- 100) (demo_dev 419430 [2]%nat) with
  | Done (Val _, s') => adjusted 0 419430 0 None (tail (mm_log s')) = Some (- 100 * 2 ^ 16) ∧ length (mm_log s') = 9%nat
  | _ => False
  end.
Proof. vm_compute. by split. Qed.
(** Moving the clock back by a second moves it forward by a second. *)
Example far_backwards :
  time_after (@dfl_tod_adjust_time demo_tod 0 3 (- 1000000000) (demo_dev 419430 [])) = Some (tt, 1001000000000).
Proof. vm_compute. reflexivity. Qed.
(** The first adjustment times out, the second does not: the whole succeeds, and how
    far the clock has moved is not known. *)
Example first_timeout_lost :
  match @dfl_tod_adjust_time demo_tod 0 3 100 (demo_dev 419430 [100; 0]%nat) with
  | Done (r, s') => r = Val tt ∧ adjusted 0 419430 0 None (tail (mm_log s')) = None
  | _ => False
  end.
Proof. vm_compute. by split. Qed.
(** A period below a nanosecond leaves nothing to divide by. *)
Example short_period_faults : @dfl_tod_adjust_time demo_tod 0 3 (- 100) (demo_dev 65535 []) = Fault.
Proof. apply is_fault_eq. vm_compute. reflexivity. Qed.
(** A clock that could not be registered leaves an error behind, which the removal
    takes for a clock. *)
Definition demo_todk : TodKernel := {| todk := unit; tk_kzalloc k := (true, k); tk_ioremap_resource k := (0, k); tk_ptp_clock_register k := (- ENOMEM, k) |}.
Example unregistered_clock_removed :
  (@dfl_tod_probe demo_todk ;; @dfl_tod_remove demo_todk) (@Tod demo_todk tt None) = Fault.
Proof. apply is_fault_eq. vm_compute. reflexivity. Qed.
