(* ===== verification/QsfpMem.v ===== *)
(** * QSFP modules (drivers/net/phy/qsfp-mem-core.c, qsfp-mem-dfl.c, qsfp-mem-platform.c)

    A controller copies the memory of a pluggable module into its registers.  A worker
    looks every half second whether a module is there, resets the controller for a
    new one, waits until the module answers on its I2C bus, and turns copying on. *)
From stdpp Require Import list relations.
From S2P Require Import Prelude DflRegs Mmio.

(* drivers/net/phy/qsfp-mem-core.c:19-19 CONF_OFF *)
Definition CONF_OFF : Z := 0x20.
(* drivers/net/phy/qsfp-mem-core.c:20-20 CONF_RST_MOD *)
Definition CONF_RST_MOD : Z := 1.
(* drivers/net/phy/qsfp-mem-core.c:21-21 CONF_RST_CON *)
Definition CONF_RST_CON : Z := 2.
(* drivers/net/phy/qsfp-mem-core.c:22-22 CONF_MOD_SEL *)
Definition CONF_MOD_SEL : Z := 4.
(* drivers/net/phy/qsfp-mem-core.c:24-24 CONF_POLL_EN *)
Definition CONF_POLL_EN : Z := 16.
(* drivers/net/phy/qsfp-mem-core.c:26-26 STAT_OFF *)
Definition STAT_OFF : Z := 0x28.
(* drivers/net/phy/qsfp-mem-core.c:28-28 MODPRSL *)
Definition MODPRSL : Z := 1.
(* drivers/net/phy/qsfp-mem-core.c:29-29 DELAY_REG *)
Definition DELAY_REG : Z := 0x38.
(* drivers/net/phy/qsfp-mem-core.c:30-30 DELAY_VALUE *)
Definition DELAY_VALUE : Z := 0xffffff.
(* drivers/net/phy/qsfp-mem-core.c:32-32 I2C_TX_FIFO *)
Definition I2C_TX_FIFO : Z := 0x40.
(* drivers/net/phy/qsfp-mem-core.c:33-33 I2C_TX_FIFO_START *)
Definition I2C_TX_FIFO_START : Z := 2 ^ 9.
(* drivers/net/phy/qsfp-mem-core.c:34-34 I2C_TX_FIFO_STOP *)
Definition I2C_TX_FIFO_STOP : Z := 2 ^ 8.
(* drivers/net/phy/qsfp-mem-core.c:35-35 I2C_TX_FIFO_WRITE *)
Definition I2C_TX_FIFO_WRITE : Z := 0.
(* drivers/net/phy/qsfp-mem-core.c:37-37 I2C_CTRL *)
Definition I2C_CTRL : Z := 0x48.
(* drivers/net/phy/qsfp-mem-core.c:38-38 I2C_CTRL_EN *)
Definition I2C_CTRL_EN : Z := 1.
(* drivers/net/phy/qsfp-mem-core.c:39-39 I2C_CTRL_BSP *)
Definition I2C_CTRL_BSP : Z := 2.
(* drivers/net/phy/qsfp-mem-core.c:40-40 I2C_CTRL_FIFO *)
Definition I2C_CTRL_FIFO : field := GENMASK_ULL 3 2.
(* drivers/net/phy/qsfp-mem-core.c:41-41 I2C_CTRL_FIFO_NOT_FULL *)
Definition I2C_CTRL_FIFO_NOT_FULL : Z := 3.
(* drivers/net/phy/qsfp-mem-core.c:43-43 I2C_ISER *)
Definition I2C_ISER : Z := 0x4c.
(* drivers/net/phy/qsfp-mem-core.c:44-44 I2C_ISER_TXRDY *)
Definition I2C_ISER_TXRDY : Z := 1.
(* drivers/net/phy/qsfp-mem-core.c:45-45 I2C_ISER_RXRDY *)
Definition I2C_ISER_RXRDY : Z := 2.
(* drivers/net/phy/qsfp-mem-core.c:47-47 I2C_ISR *)
Definition I2C_ISR : Z := 0x50.
(** The bits for no acknowledgement, lost arbitration and overflow. *)
(* drivers/net/phy/qsfp-mem-core.c:51-51 I2C_ISR_CLEAR_FLAGS *)
Definition I2C_ISR_CLEAR_FLAGS : Z := 0x1c.
(* drivers/net/phy/qsfp-mem-core.c:55-55 I2C_TX_FIFO_LVL *)
Definition I2C_TX_FIFO_LVL : Z := 0x58.
(* drivers/net/phy/qsfp-mem-core.c:57-57 I2C_SCL_LOW *)
Definition I2C_SCL_LOW : Z := 0x60.
(* drivers/net/phy/qsfp-mem-core.c:58-58 COUNT_PERIOD_LOW *)
Definition COUNT_PERIOD_LOW : Z := 170.
(* drivers/net/phy/qsfp-mem-core.c:59-59 I2C_SCL_HIGH *)
Definition I2C_SCL_HIGH : Z := 0x64.
(* drivers/net/phy/qsfp-mem-core.c:60-60 COUNT_PERIOD_HIGH *)
Definition COUNT_PERIOD_HIGH : Z := 80.
(* drivers/net/phy/qsfp-mem-core.c:61-61 I2C_SDA_HOLD *)
Definition I2C_SDA_HOLD : Z := 0x68.
(* drivers/net/phy/qsfp-mem-core.c:62-62 COUNT_PERIOD_HOLD *)
Definition COUNT_PERIOD_HOLD : Z := 60.
(* drivers/net/phy/qsfp-mem-core.c:70-70 QSFP_CHK_RDY_CNT *)
Definition QSFP_CHK_RDY_CNT : nat := 10.
(* drivers/net/phy/qsfp-mem-core.c:72-72 I2C_QFSP_ADDR *)
Definition I2C_QFSP_ADDR : Z := 0x50.

(* include/linux/phy/qsfp-mem.h:21-24 qsfp_init_status *)
Inductive qsfp_init_status := QSFP_INIT_RESET | QSFP_INIT_DONE.
#[export] Instance qsfp_init_status_eq : EqDecision qsfp_init_status.
Proof. solve_decision. Defined.

Section Controller.
Context `{MmioHw} (base : Z).
(** [tries] is how often a poll reads before its time is over. *)
Context (tries : nat).
(* drivers/net/phy/qsfp-mem-core.c:91-100 qsfp_init_i2c *)
Definition qsfp_init_i2c : M mmst unit :=
  writel (Z.lor I2C_ISER_TXRDY I2C_ISER_RXRDY) (base + I2C_ISER) ;;
  writel COUNT_PERIOD_LOW (base + I2C_SCL_LOW) ;;
  writel COUNT_PERIOD_HIGH (base + I2C_SCL_HIGH) ;;
  writel COUNT_PERIOD_HOLD (base + I2C_SDA_HOLD) ;;
  writel (Z.lor (Z.lor (FIELD_PREP I2C_CTRL_FIFO I2C_CTRL_FIFO_NOT_FULL) I2C_CTRL_EN) I2C_CTRL_BSP) (base + I2C_CTRL).
(* drivers/net/phy/qsfp-mem-core.c:111-117 i2c_txcmp *)
Definition i2c_txcmp : M mmst Z :=
  r ← read_poll_timeout (readl (base + I2C_TX_FIFO_LVL)) (λ fifo_lvl, fifo_lvl =? 0) tries;
  mret (r : Z * Z).1.
(* drivers/net/phy/qsfp-mem-core.c:119-128 i2c_send *)
Definition i2c_send (data : Z) : M mmst Z :=
  ret ← i2c_txcmp;
  if negb (ret =? 0) then mret ret else
  writel data (base + I2C_TX_FIFO) ;;
  mret 0.
(** The status register is only read for the debug message, which is off. *)
(* drivers/net/phy/qsfp-mem-core.c:130-152 send_qsfp_cmd_page0 *)
Definition send_qsfp_cmd_page0 : M mmst Z :=
  _ ← i2c_send (Z.lor (Z.lor I2C_TX_FIFO_START (Z.shiftl I2C_QFSP_ADDR 1)) I2C_TX_FIFO_WRITE);
  _ ← i2c_send 0x7f;
  _ ← i2c_send I2C_TX_FIFO_STOP;
  ret ← i2c_txcmp;
  if negb (ret =? 0) then mret ret else
  st ← readl (base + I2C_ISR);
  if negb (Z.land st I2C_ISR_CLEAR_FLAGS =? 0) then
    writel I2C_ISR_CLEAR_FLAGS (base + I2C_ISR) ;; mret 1
  else mret 0.
(** The rest of the attempts. *)
Fixpoint ready_loop (cnt : nat) : M mmst unit :=
  match cnt with
  | O => throw (- ETIMEDOUT)
  | S cnt =>
      ret ← send_qsfp_cmd_page0;
      if ret =? 0 then mret tt
      else if ret =? - ETIMEDOUT then throw ret
      else ready_loop cnt
  end.
(* drivers/net/phy/qsfp-mem-core.c:154-195 qsfp_init *)
Definition qsfp_init : M mmst unit :=
  writeq (Z.lor (Z.lor CONF_RST_MOD CONF_RST_CON) CONF_MOD_SEL) (base + CONF_OFF) ;;
  writeq CONF_MOD_SEL (base + CONF_OFF) ;;
  qsfp_init_i2c ;;
  writel I2C_ISR_CLEAR_FLAGS (base + I2C_ISR) ;;
  writeq DELAY_VALUE (base + DELAY_REG) ;;
  ready_loop QSFP_CHK_RDY_CNT ;;
  writeq (Z.lor CONF_POLL_EN CONF_MOD_SEL) (base + CONF_OFF).
(* drivers/net/phy/qsfp-mem-core.c:197-204 check_qsfp_plugin *)
Definition check_qsfp_plugin : M mmst bool :=
  status ← readq (base + STAT_OFF);
  mret (Z.land status MODPRSL =? 0).

(** [q_pending] is whether the worker will run. *)
(* include/linux/phy/qsfp-mem.h:35-42 qsfp *)
Record qsfp := Qsfp {
  q_dev : mmst;
  q_init : qsfp_init_status;
  q_pending : bool;
  q_regmap : bool;
}.
Implicit Types s : qsfp.
Definition set_q_dev d s := Qsfp d (q_init s) (q_pending s) (q_regmap s).
Definition set_q_init i s := Qsfp (q_dev s) i (q_pending s) (q_regmap s).
Definition set_pending b s := Qsfp (q_dev s) (q_init s) b (q_regmap s).
Definition set_q_regmap b s := Qsfp (q_dev s) (q_init s) (q_pending s) b.
Definition on_ctrl {A} (m : M mmst A) : M qsfp A := zoom q_dev set_q_dev m.
(** The number that is shown, 0 or 1. *)
(* drivers/net/phy/qsfp-mem-core.c:207-218 qsfp_connected_show *)
Definition qsfp_connected_show : M qsfp bool :=
  plugin ← on_ctrl check_qsfp_plugin;
  s ← get;
  mret ((plugin : bool) && bool_decide (q_init s = QSFP_INIT_DONE)).
(* drivers/net/phy/qsfp-mem-core.c:236-261 qsfp_check_hotplug *)
Definition qsfp_check_hotplug : M qsfp unit :=
  plugged_in ← on_ctrl check_qsfp_plugin;
  s ← get;
  (if (plugged_in : bool) && bool_decide (q_init s = QSFP_INIT_RESET) then
     ret ← status (on_ctrl qsfp_init);
     if ret =? 0 then modify (set_q_init QSFP_INIT_DONE) else mret tt
   else if negb plugged_in && bool_decide (q_init s = QSFP_INIT_DONE) then modify (set_q_init QSFP_INIT_RESET)
   else mret tt) ;;
  modify (set_pending true).
(* drivers/net/phy/qsfp-mem-core.c:263-268 qsfp_init_work *)
Definition qsfp_init_work : M qsfp unit := qsfp_check_hotplug.
(** Removal is two steps, between which the worker may run. *)
Definition qsfp_stop_polling : M qsfp unit := on_ctrl (writeq CONF_MOD_SEL (base + CONF_OFF)).
Definition cancel_delayed_work_sync : M qsfp unit := modify (set_pending false).
(* drivers/net/phy/qsfp-mem-core.c:283-287 qsfp_remove_device *)
Definition qsfp_remove_device : M qsfp unit := qsfp_stop_polling ;; cancel_delayed_work_sync.
(** [regmap_init] is the status of the register map of the kernel. *)
(* drivers/net/phy/qsfp-mem-core.c:271-280 qsfp_register_regmap *)
Definition qsfp_register_regmap (regmap_init : Z) : M qsfp unit := rc regmap_init ;; modify (set_q_regmap true).

(** [mapped] is whether the registers could be mapped.  The error that
    devm_ioremap_resource gives else is no NULL pointer: it passes the test of the
    code and is used as the base. *)
(* drivers/net/phy/qsfp-mem-dfl.c:11-52 qsfp_dfl_probe *)
Definition qsfp_dfl_probe (kzalloc mapped : bool) (regmap_init : Z) : M qsfp unit :=
  if negb kzalloc then throw (- ENOMEM) else
  access (if mapped then Some tt else None) ;;
  qsfp_init_work ;;
  on_error (qsfp_register_regmap regmap_init) qsfp_remove_device.
(* drivers/net/phy/qsfp-mem-dfl.c:54-64 qsfp_dfl_remove *)
Definition qsfp_dfl_remove : M qsfp unit := qsfp_remove_device.
(* drivers/net/phy/qsfp-mem-platform.c:18-76 qsfp_platform_probe *)
Definition qsfp_platform_probe (kzalloc resource region mapped : bool) (regmap_init : Z) : M qsfp unit :=
  if negb kzalloc then throw (- ENOMEM)
  else if negb resource then throw (- ENODEV)
  else if negb region then throw (- EBUSY)
  else if negb mapped then throw (- ENOMEM)
  else
  qsfp_init_work ;;
  on_error (qsfp_register_regmap regmap_init) qsfp_remove_device.
(* drivers/net/phy/qsfp-mem-platform.c:79-95 qsfp_platform_remove *)
Definition qsfp_platform_remove : M qsfp unit := qsfp_remove_device.
End Controller.

(** ** What the controller sees *)
Section ControllerFacts.
Context `{MmioHw} (base : Z) (tries : nat).
Abbreviation wr reg v := (MmioWrite (base + reg) v).
Abbreviation rd reg v := (MmioRead (base + reg) v).
(** A command on the bus: waiting for room and the bytes sent. *)
Definition cmd_io (e : mmio_io) : Prop := (∃ v, e = rd I2C_TX_FIFO_LVL v) ∨ (∃ v, e = wr I2C_TX_FIFO v).
(** A module that answers, and one that does not. *)
Definition answered (l : list mmio_io) : Prop :=
  ∃ l1 st, l = l1 ++ [rd I2C_ISR st] ∧ Forall cmd_io l1 ∧ Z.land st I2C_ISR_CLEAR_FLAGS = 0.
Definition unanswered (l : list mmio_io) : Prop :=
  ∃ l1 st, l = l1 ++ [rd I2C_ISR st; wr I2C_ISR I2C_ISR_CLEAR_FLAGS] ∧ Forall cmd_io l1 ∧ Z.land st I2C_ISR_CLEAR_FLAGS ≠ 0.
Definition reset_io : list mmio_io :=
  [wr CONF_OFF 7; wr CONF_OFF 4; wr I2C_ISER 3; wr I2C_SCL_LOW 170; wr I2C_SCL_HIGH 80; wr I2C_SDA_HOLD 60; wr I2C_CTRL 15;
   wr I2C_ISR I2C_ISR_CLEAR_FLAGS; wr DELAY_REG DELAY_VALUE].
(** A module that answers within the attempts is copied; else the attempts are all
    that follows the reset. *)
Definition initialised (l : list mmio_io) : Prop :=
  ∃ fails l1, l = reset_io ++ concat fails ++ l1 ++ [wr CONF_OFF 20] ∧ (length fails < QSFP_CHK_RDY_CNT)%nat ∧ Forall unanswered fails ∧ answered l1.
Definition gave_up (l : list mmio_io) : Prop :=
  ∃ fails l1, l = reset_io ++ concat fails ++ l1 ∧ Forall unanswered fails ∧ Forall cmd_io l1 ∧ (l1 = [] → length fails = QSFP_CHK_RDY_CNT).
Lemma i2c_txcmp_spec (s : mmst) (Q : Z → mmst → Prop) E :
  (∀ ret s' l, mm_log s' = mm_log s ++ l → Forall cmd_io l → l ≠ [] → ret = 0 ∨ ret = - ETIMEDOUT → Q ret s') → wp (i2c_txcmp base tries) Q E s.
Proof.
  intros HQ. unfold i2c_txcmp. wstep. eapply wp_mono; [apply polll_spec| |done]. cbv beta. intros [ret v] s' (l & Hl & (vs & w & -> & _) & Hret & _). wsteps.
  eapply HQ; [exact Hl| | |exact Hret]; [|by destruct vs]. apply Forall_app. split; [|by constructor; [left; eexists|]].
  apply Forall_fmap, list.Forall_forall. intros x _. left. by eexists.
Qed.
Lemma i2c_send_spec data (s : mmst) (Q : Z → mmst → Prop) E :
  is_u32 data → (∀ ret s' l, mm_log s' = mm_log s ++ l → Forall cmd_io l → Q ret s') → wp (i2c_send base tries data) Q E s.
Proof.
  intros Hd HQ. unfold i2c_send. wstep. apply i2c_txcmp_spec. intros ret s1 l Hl Hc _ _. destruct (negb (ret =? 0)); wsteps; [by eapply HQ|].
  unfold writel, writeq. rewrite u32_small by done. wsteps. eapply (HQ _ _ (l ++ [wr I2C_TX_FIFO data])); [cbn; by rewrite Hl, app_assoc|].
  apply Forall_app. split; [done|]. constructor; [right; by eexists|done].
Qed.
Lemma cmd_page0_spec (s : mmst) :
  wp (send_qsfp_cmd_page0 base tries)
    (λ ret s', ∃ l, mm_log s' = mm_log s ++ l ∧
       (ret = 0 ∧ answered l ∨ ret = 1 ∧ unanswered l ∨ ret = - ETIMEDOUT ∧ Forall cmd_io l ∧ l ≠ [])) (λ _ _, False) s.
Proof.
  unfold send_qsfp_cmd_page0. wstep. apply i2c_send_spec; [by vm_compute|]. intros r1 s1 l1 H1 C1. wstep. apply i2c_send_spec; [by vm_compute|]. intros r2 s2 l2 H2 C2.
  wstep. apply i2c_send_spec; [by vm_compute|]. intros r3 s3 l3 H3 C3. wstep. apply i2c_txcmp_spec. intros ret s4 l4 H4 C4 Hne Hret.
  assert (Hl : mm_log s4 = mm_log s ++ (l1 ++ l2 ++ l3 ++ l4)) by (rewrite H4, H3, H2, H1, <- !app_assoc; done).
  assert (Hc : Forall cmd_io (l1 ++ l2 ++ l3 ++ l4)) by (rewrite !Forall_app; done).
  destruct (Z.eqb_spec ret 0) as [Hz|Hz]; cbn [negb].
  - wstep. apply readl_spec. intros st d _. destruct (Z.eqb_spec (Z.land st I2C_ISR_CLEAR_FLAGS) 0) as [Hs|Hs]; cbn [negb].
    + wsteps. exists ((l1 ++ l2 ++ l3 ++ l4) ++ [rd I2C_ISR st]). cbn [mm_log]. split; [by rewrite Hl, <- !app_assoc|]. left. split; [done|]. by eexists _, st.
    + unfold writel, writeq. wsteps. exists ((l1 ++ l2 ++ l3 ++ l4) ++ [rd I2C_ISR st; wr I2C_ISR I2C_ISR_CLEAR_FLAGS]). cbn [mm_log]. split; [by rewrite Hl, <- !app_assoc|].
      right. left. split; [done|]. by eexists _, st.
  - wsteps. eexists. split; [exact Hl|]. right. right. destruct Hret; [done|]. split_and!; [done|done|]. intros [_ [_ [_ ?]%app_eq_nil]%app_eq_nil]%app_eq_nil. done.
Qed.
Lemma ready_loop_spec cnt (s : mmst) :
  wp (ready_loop base tries cnt)
    (λ _ s', ∃ fails l1, mm_log s' = mm_log s ++ concat fails ++ l1 ∧ (length fails < cnt)%nat ∧ Forall unanswered fails ∧ answered l1)
    (λ e s', e = - ETIMEDOUT ∧ ∃ fails l1, mm_log s' = mm_log s ++ concat fails ++ l1 ∧ Forall unanswered fails ∧ Forall cmd_io l1 ∧ (l1 = [] → length fails = cnt)) s.
Proof.
  revert s. induction cnt as [|cnt IH]; intros s; cbn [ready_loop]; wsteps.
  - split; [done|]. exists [], []. by rewrite app_nil_r.
  - eapply wp_mono; [apply cmd_page0_spec| |done]. cbv beta. intros ret s1 (l & Hl & [[-> Ha]|[[-> Hu]|(-> & Hc & Hne)]]).
    + wif. wsteps. exists [], l. split_and!; [done|cbn; lia|done|done].
    + wif. wif. eapply wp_mono; [apply IH|..]; cbv beta.
      * intros _ s2 (fails & l1 & Hl2 & Hn & Hf & Ha). exists (l :: fails), l1. cbn [concat]. rewrite Hl2, Hl, <- !app_assoc. split_and!; [done|cbn; lia|by constructor|done].
      * intros e s2 (-> & fails & l1 & Hl2 & Hf & Hc & Hn). split; [done|]. exists (l :: fails), l1. cbn [concat]. rewrite Hl2, Hl, <- !app_assoc.
        split_and!; [done|by constructor|done|]. intros Hz. cbn [length]. by rewrite Hn.
    + wif. wif. wsteps. split; [done|]. exists [], l. split_and!; [done|done|done|done].
Qed.
Lemma qsfp_init_spec (s : mmst) :
  wp (qsfp_init base tries) (λ _ s', ∃ l, mm_log s' = mm_log s ++ l ∧ initialised l)
    (λ e s', e = - ETIMEDOUT ∧ ∃ l, mm_log s' = mm_log s ++ l ∧ gave_up l) s.
Proof.
  unfold qsfp_init, qsfp_init_i2c, writel, writeq. wsteps. eapply wp_mono; [apply ready_loop_spec|..]; cbv beta; cbn [mm_log].
  - intros _ s1 (fails & l1 & Hl & Hn & Hf & Ha). wsteps. cbn [mm_log]. exists (reset_io ++ concat fails ++ l1 ++ [wr CONF_OFF 20]). split; [rewrite Hl, <- !app_assoc; reflexivity|]. by exists fails, l1.
  - intros e s1 (-> & fails & l1 & Hl & Hf & Hc & Hn). split; [done|]. exists (reset_io ++ concat fails ++ l1). split; [rewrite Hl, <- !app_assoc; reflexivity|]. by exists fails, l1.
Qed.
End ControllerFacts.

(** ** The worker *)
Section WorkerFacts.
Context `{MmioHw} (base : Z) (tries : nat).
Implicit Types s : qsfp.
Definition q_log s : list mmio_io := mm_log (q_dev s).
Definition present (st : Z) : bool := Z.land st MODPRSL =? 0.
Lemma check_plugin_spec s (Q : bool → qsfp → Prop) E :
  (∀ st d, Q (present st) (set_q_dev (Mm d (q_log s ++ [MmioRead (base + STAT_OFF) st])) s)) → wp (on_ctrl (check_qsfp_plugin base)) Q E s.
Proof.
  intros HQ. apply wp_zoom. unfold check_qsfp_plugin, mbind, M_bind, readq. specialize (HQ (hw_read (base + STAT_OFF) (mm_hw (q_dev s))).1 (hw_read (base + STAT_OFF) (mm_hw (q_dev s))).2).
  by destruct (hw_read (base + STAT_OFF) (mm_hw (q_dev s))).
Qed.
Lemma on_ctrl_spec (m : M mmst unit) s Q E :
  wp m (λ a d, Q a (set_q_dev d s)) (λ e d, E e (set_q_dev d s)) (q_dev s) → wp (on_ctrl m) Q E s.
Proof. intros Hm. apply wp_zoom. unfold wpg in Hm. by destruct (m (q_dev s)) as [[[]]| |]. Qed.

(** What the worker does, by the status [st] and the state it finds. *)
Definition hotplugged (st : Z) (i i' : qsfp_init_status) (l : list mmio_io) : Prop :=
  match present st, i with
  | true, QSFP_INIT_RESET => initialised base l ∧ i' = QSFP_INIT_DONE ∨ gave_up base l ∧ i' = QSFP_INIT_RESET
  | false, QSFP_INIT_DONE => l = [] ∧ i' = QSFP_INIT_RESET
  | _, _ => l = [] ∧ i' = i
  end.
(** One run of the worker: it ends without an error and will run again; a new
    module is reset and set up, and taken for ready exactly when it answered
    within ten attempts, in which case copying is turned on last; a module
    that was taken out is forgotten; else only the status is read. *)
Lemma hotplug_exact s :
  wp (qsfp_check_hotplug base tries)
    (λ _ s', q_pending s' = true ∧ q_regmap s' = q_regmap s ∧
       ∃ st l, q_log s' = q_log s ++ MmioRead (base + STAT_OFF) st :: l ∧ hotplugged st (q_init s) (q_init s') l) (λ _ _, False) s.
Proof.
  unfold qsfp_check_hotplug. wstep. apply check_plugin_spec. intros st d. set (s1 := set_q_dev _ s). wstep. wstep. cbv beta.
  assert (Hskip : hotplugged st (q_init s) (q_init s) [] → q_pending (set_pending true s1) = true ∧ q_regmap (set_pending true s1) = q_regmap s ∧
    ∃ st l, q_log (set_pending true s1) = q_log s ++ MmioRead (base + STAT_OFF) st :: l ∧ hotplugged st (q_init s) (q_init (set_pending true s1)) l).
  { intros Hh. split_and!; [done|done|]. by exists st, []. }
  unfold hotplugged in *. cbn [q_init s1 set_q_dev]. fold s1. wstep.
  destruct (present st) eqn:Hst, (q_init s) eqn:Hi; cbn [andb negb]; try (rewrite bool_decide_false by done); try (rewrite bool_decide_true by done); wsteps; try (by apply Hskip).
  - apply on_ctrl_spec. eapply wp_mono; [apply qsfp_init_spec|..]; cbv beta; cbn [s1 set_q_dev q_dev mm_log].
    + intros _ d1 (l & Hl & Hio). wif. wsteps. split_and!; [done|done|]. exists st, l. split; [unfold q_log; cbn; rewrite Hl, <- app_assoc; done|]. rewrite Hst. by left.
    + intros e d1 (-> & l & Hl & Hio). wif. wsteps. split_and!; [done|done|]. exists st, l. split; [unfold q_log; cbn; rewrite Hl, <- app_assoc; done|]. rewrite Hst. cbn. right. split; [done|exact Hi].
  - split_and!; [done|done|]. exists st, []. split; [done|]. by rewrite Hst.
Qed.

(** The value that was written to the configuration last. *)
Definition conf_now (l : list mmio_io) : option Z :=
  list.last (omap (λ e, match e with MmioWrite a v => if a =? base + CONF_OFF then Some v else None | _ => None end) l).
Lemma conf_now_write l v : conf_now (l ++ [MmioWrite (base + CONF_OFF) v]) = Some v.
Proof. unfold conf_now. rewrite omap_app. cbn. rewrite Z.eqb_refl. apply last_snoc. Qed.
Lemma conf_now_read l a v : conf_now (l ++ [MmioRead a v]) = conf_now l.
Proof. unfold conf_now. rewrite omap_app. cbn. by rewrite app_nil_r. Qed.
(** While a module is taken for ready its memory is copied. *)
Definition copying s : Prop := q_init s = QSFP_INIT_DONE → conf_now (q_log s) = Some (Z.lor CONF_POLL_EN CONF_MOD_SEL).
(** The worker runs and the attribute is read, in any order. *)
Inductive qsfp_step : qsfp → qsfp → Prop :=
  | step_work s s' : q_pending s = true → qsfp_check_hotplug base tries s = Done (Val tt, s') → qsfp_step s s'
  | step_show s b s' : qsfp_connected_show base s = Done (Val b, s') → qsfp_step s s'.
Lemma connected_show_spec s :
  wp (qsfp_connected_show base) (λ b s', ∃ st, q_init s' = q_init s ∧ q_log s' = q_log s ++ [MmioRead (base + STAT_OFF) st] ∧
    b = present st && bool_decide (q_init s = QSFP_INIT_DONE)) (λ _ _, False) s.
Proof. unfold qsfp_connected_show. wstep. apply check_plugin_spec. intros st d. wsteps. by exists st. Qed.
Lemma copying_work s s' : copying s → qsfp_check_hotplug base tries s = Done (Val tt, s') → copying s'.
Proof.
  intros Hc Hrun. destruct (wp_elim _ _ _ _ _ _ (hotplug_exact s) Hrun) as (_ & _ & st & l & Hl & Hh). unfold copying in *. rewrite Hl. intros Hd. rewrite Hd in Hh.
  replace (q_log s ++ MmioRead (base + STAT_OFF) st :: l) with ((q_log s ++ [MmioRead (base + STAT_OFF) st]) ++ l) by (by rewrite <- app_assoc).
  unfold hotplugged in Hh. destruct (present st), (q_init s); try (destruct Hh as [-> ?]; rewrite app_nil_r, conf_now_read; auto; done); try (by destruct Hh as [_ [=]]).
  destruct Hh as [[(fails & l1 & -> & _) _]|[_ ?]]; [|done]. rewrite !app_assoc. apply conf_now_write.
Qed.
Lemma copying_step s s' : copying s → qsfp_step s s' → copying s'.
Proof.
  intros Hc Hstep. revert Hc. destruct Hstep as [s1 s2 _ Hrun|s1 b s2 Hrun]; intros Hc; [by eapply copying_work|].
  destruct (wp_elim _ _ _ _ _ _ (connected_show_spec s1) Hrun) as (st & Hi & Hl & _). unfold copying in *. by rewrite Hi, Hl, conf_now_read.
Qed.

(** C37: between probe and removal, whatever the worker and the readers of the attribute
    did, a module is shown as connected only when it was there at that read and
    copying of its memory was what the controller was told last. *)
Theorem connected_is_copied s0 s :
  q_init s0 = QSFP_INIT_RESET → rtc qsfp_step s0 s →
  wp (qsfp_connected_show base)
    (λ b s', ∃ st, q_log s' = q_log s ++ [MmioRead (base + STAT_OFF) st] ∧
       (b = true → present st = true ∧ conf_now (q_log s') = Some (Z.lor CONF_POLL_EN CONF_MOD_SEL))) (λ _ _, False) s.
Proof.
  intros H0 Hsteps. assert (Hc : copying s).
  { assert (H1 : copying s0) by (unfold copying; by rewrite H0). clear H0. induction Hsteps; [done|eauto using copying_step]. }
  eapply wp_mono; [apply connected_show_spec| |done]. cbv beta. intros b s' (st & Hi & Hl & ->). exists st. split; [done|].
  intros [Hp Hd%bool_decide_eq_true]%andb_true_iff. split; [done|]. rewrite Hl, conf_now_read. by apply Hc.
Qed.
(** A probe that fails behind the worker stops it again; removal turns copying off. *)
Lemma remove_spec s (Q : unit → qsfp → Prop) E :
  (∀ s', q_pending s' = false → q_regmap s' = q_regmap s → conf_now (q_log s') = Some CONF_MOD_SEL → Q tt s') → wp (qsfp_remove_device base) Q E s.
Proof.
  intros HQ. unfold qsfp_remove_device, qsfp_stop_polling, cancel_delayed_work_sync. wstep. apply on_ctrl_spec. unfold writeq. wsteps.
  apply HQ; [done|done|]. apply conf_now_write.
Qed.
Lemma dfl_probe_exact kzalloc regmap_init s :
  q_pending s = false → q_regmap s = false →
  wp (qsfp_dfl_probe base tries kzalloc true regmap_init)
    (λ _ s', q_pending s' = true ∧ q_regmap s' = true)
    (λ e s', q_pending s' = false ∧ q_regmap s' = false ∧ (kzalloc = true → conf_now (q_log s') = Some CONF_MOD_SEL)) s.
Proof.
  intros Hp Hr. unfold qsfp_dfl_probe, qsfp_register_regmap. destruct kzalloc; cbn [negb]; wsteps; [|done]. apply wp_access; [|done]. intros _ _.
  wstep. unfold qsfp_init_work. eapply wp_mono; [apply hotplug_exact| |done]. cbv beta. intros _ s1 (Hp1 & Hr1 & _). wsteps; intros _; wsteps; [done|].
  apply remove_spec. intros s2 Hp2 Hr2 Hc. split_and!; [done|congruence|done].
Qed.
End WorkerFacts.

(** ** A concrete controller

    [qd_present] is whether there is a module, which answers after so many attempts. *)
Record qsfp_dev := QsfpDev { qd_present : bool; qd_answers : nat }.
Definition demo_qsfp : MmioHw := {|
  hw := qsfp_dev;
  hw_read a d :=
    if a =? STAT_OFF then (if qd_present d then 0 else 1, d)
    else if a =? I2C_ISR then match qd_answers d with O => (0, d) | S n => (4, QsfpDev (qd_present d) n) end
    else (0, d);
  hw_write a v d := d;
|}.
Definition qsfp_start (answers : nat) : @qsfp demo_qsfp := @Qsfp demo_qsfp (@Mm demo_qsfp (QsfpDev true answers) []) QSFP_INIT_RESET false false.
Definition q_view {A} (r : exec (outcome A * @qsfp demo_qsfp)) : option (A * qsfp_init_status * bool) :=
  match r with Done (Val a, s) => Some (a, q_init s, q_pending s) | _ => None end.
Lemma hotplug_exact_witness :
  q_view (@qsfp_check_hotplug demo_qsfp 0 5 (qsfp_start 3)) = Some (tt, QSFP_INIT_DONE, true) ∧
  ∃ s' l, @qsfp_check_hotplug demo_qsfp 0 5 (qsfp_start 3) = Done (Val tt, s') ∧ q_log s' = MmioRead STAT_OFF 0 :: l ∧ initialised 0 l.
Proof.
  split; [vm_compute; reflexivity|].
  pose proof (@hotplug_exact demo_qsfp 0 5 (qsfp_start 3)) as Hx.
  destruct (wp_val _ _ _ _ tt Hx ltac:(vm_compute; reflexivity)) as (s' & He & _ & _ & st & l & Hl & Hh).
  assert (Hst : MmioRead (0 + STAT_OFF) st = MmioRead STAT_OFF 0 ∧ q_init s' = QSFP_INIT_DONE).
  { assert (Hv : match @qsfp_check_hotplug demo_qsfp 0 5 (qsfp_start 3) with Done (_, s) => Some (head (q_log s), q_init s) | _ => None end = Some (Some (MmioRead STAT_OFF 0), QSFP_INIT_DONE)) by (vm_compute; reflexivity).
    rewrite He, Hl in Hv. injection Hv as Hv Hi. split; [exact (f_equal (MmioRead STAT_OFF) Hv)|exact Hi]. }
  destruct Hst as [[= Hst] Hi]. subst st. exists s', l. split; [exact He|]. split; [exact Hl|].
  unfold hotplugged in Hh. rewrite Hi in Hh. cbn in Hh. destruct Hh as [[Hio _]|[_ [=]]]. exact Hio.
Defined.
Lemma connected_is_copied_witness :
  ∃ s s', rtc (@qsfp_step demo_qsfp 0 5) (set_pending true (qsfp_start 3)) s ∧ @qsfp_connected_show demo_qsfp 0 s = Done (Val true, s') ∧
    conf_now 0 (q_log s') = Some 20.
Proof.
  destruct (@qsfp_check_hotplug demo_qsfp 0 5 (set_pending true (qsfp_start 3))) as [[[[]|e] s]| |] eqn:He; try (exfalso; revert He; vm_compute; discriminate).
  assert (Hsteps : rtc (@qsfp_step demo_qsfp 0 5) (set_pending true (qsfp_start 3)) s) by (apply rtc_once; by eapply step_work).
  pose proof (@connected_is_copied demo_qsfp 0 5 (set_pending true (qsfp_start 3)) s eq_refl Hsteps) as Hx.
  assert (Hv : val_of (@qsfp_connected_show demo_qsfp 0 s) = Some true).
  { assert (Hv : match @qsfp_check_hotplug demo_qsfp 0 5 (set_pending true (qsfp_start 3)) with Done (_, s) => val_of (@qsfp_connected_show demo_qsfp 0 s) | _ => None end = Some true) by (vm_compute; reflexivity).
    by rewrite He in Hv. }
  destruct (wp_val _ _ _ _ true Hx Hv) as (s' & Hs' & st & Hl & Hc). exists s, s'. split; [exact Hsteps|]. split; [exact Hs'|]. by destruct (Hc eq_refl).
Defined.
(** Ten attempts are not enough for a module that answers the eleventh; the next run
    of the worker resets it and tries again. *)
Example slow_module : q_view (@qsfp_check_hotplug demo_qsfp 0 5 (qsfp_start 10)) = Some (tt, QSFP_INIT_RESET, true).
Proof. vm_compute. reflexivity. Qed.
(** The worker may run between the two steps of the removal: copying stays on. *)
Example removed_still_copying :
  match (@qsfp_stop_polling demo_qsfp 0 ;; @qsfp_check_hotplug demo_qsfp 0 5 ;; cancel_delayed_work_sync) (qsfp_start 0) with
  | Done (Val _, s) => Some (q_pending s, conf_now 0 (q_log s))
  | _ => None
  end = Some (false, Some 20).
Proof. vm_compute. reflexivity. Qed.
(** Registers that can not be mapped are used all the same. *)
Example unmapped_probe_faults : @qsfp_dfl_probe demo_qsfp 0 5 true false 0 (qsfp_start 0) = Fault.
Proof. apply is_fault_eq. vm_compute. reflexivity. Qed.
