(* ===== verification/S10Phy.v ===== *)
(** * Ethernet interfaces of the Stratix 10 (drivers/fpga/dfl-hssi.c, drivers/net/phy/intel-s10-phy.c)

    A feature driver that creates a device for each interface, and the driver of these
    devices: attributes that tune the analog part of the four channels, whose registers
    are behind a command and a data word. *)
From Stdlib Require Import Ascii.
From stdpp Require Import list strings.
From S2P Require Import Prelude Text DflRegs Mmio.

(** ** The phy *)

(* drivers/net/phy/intel-s10-phy.c:18-18 QSFP_RCFG_CMD *)
Definition QSFP_RCFG_CMD : field := GENMASK_ULL 1 0.
(* drivers/net/phy/intel-s10-phy.c:19-19 QSFP_RCFG_CMD_CLR *)
Definition QSFP_RCFG_CMD_CLR : Z := 0.
(* drivers/net/phy/intel-s10-phy.c:20-20 QSFP_RCFG_CMD_RD *)
Definition QSFP_RCFG_CMD_RD : Z := 1.
(* drivers/net/phy/intel-s10-phy.c:21-21 QSFP_RCFG_CMD_WRT *)
Definition QSFP_RCFG_CMD_WRT : Z := 2.
(* drivers/net/phy/intel-s10-phy.c:22-22 QSFP_RCFG_CMD_SEL_XCVR *)
Definition QSFP_RCFG_CMD_SEL_XCVR : field := GENMASK_ULL 5 4.
(* drivers/net/phy/intel-s10-phy.c:23-23 QSFP_RCFG_XCVR_ADDR *)
Definition QSFP_RCFG_XCVR_ADDR : field := GENMASK_ULL 26 16.
(* drivers/net/phy/intel-s10-phy.c:24-24 QSFP_RCFG_XCVR_ACK *)
Definition QSFP_RCFG_XCVR_ACK : field := BIT_ULL 32.
(* drivers/net/phy/intel-s10-phy.c:27-27 XCVR_RCFG_RDATA *)
Definition XCVR_RCFG_RDATA : field := GENMASK_ULL 31 0.
(* drivers/net/phy/intel-s10-phy.c:28-28 XCVR_RCFG_WDATA *)
Definition XCVR_RCFG_WDATA : field := GENMASK_ULL 63 32.
(* drivers/net/phy/intel-s10-phy.c:75-75 PRE_TAP_ADDR *)
Definition PRE_TAP_ADDR : Z := 0x107.
(* drivers/net/phy/intel-s10-phy.c:76-76 PRE_TAP_MAGNITUDE_MASK *)
Definition PRE_TAP_MAGNITUDE_MASK : field := GENMASK_ULL 4 0.
(* drivers/net/phy/intel-s10-phy.c:77-77 PRE_TAP_MAX *)
Definition PRE_TAP_MAX : Z := 15.
(* drivers/net/phy/intel-s10-phy.c:78-78 PRE_TAP_POLARITY *)
Definition PRE_TAP_POLARITY : field := BIT_ULL 5.
(* drivers/net/phy/intel-s10-phy.c:80-80 POST_TAP_ADDR *)
Definition POST_TAP_ADDR : Z := 0x105.
(* drivers/net/phy/intel-s10-phy.c:81-81 POST_TAP_MAGNITUDE_MASK *)
Definition POST_TAP_MAGNITUDE_MASK : field := GENMASK_ULL 4 0.
(* drivers/net/phy/intel-s10-phy.c:82-82 POST_TAP_MAX *)
Definition POST_TAP_MAX : Z := 24.
(* drivers/net/phy/intel-s10-phy.c:83-83 POST_TAP_POLARITY *)
Definition POST_TAP_POLARITY : field := BIT_ULL 6.
(* drivers/net/phy/intel-s10-phy.c:85-85 VOD_COMP_ADDR *)
Definition VOD_COMP_ADDR : Z := 0x109.
(* drivers/net/phy/intel-s10-phy.c:86-86 VOD_MASK *)
Definition VOD_MASK : field := GENMASK_ULL 4 0.
(* drivers/net/phy/intel-s10-phy.c:87-87 VOD_MIN *)
Definition VOD_MIN : Z := 17.
(* drivers/net/phy/intel-s10-phy.c:88-88 VOD_MAX *)
Definition VOD_MAX : Z := 31.
(* drivers/net/phy/intel-s10-phy.c:90-90 COMPENSATION_FLAG *)
Definition COMPENSATION_FLAG : field := BIT_ULL 5.

Section Phy.
Context `{MmioHw}.
(** [csr_base + phy_offset], the tries of a poll, and the kernel's parser of numbers,
    an error or a number of 8 bits. *)
Context (phy : Z) (tries : nat) (kstrtou8 : text → Z + Z).
(* drivers/net/phy/intel-s10-phy.c:17-17 HSSI_QSFP_RCFG_CMD *)
Definition HSSI_QSFP_RCFG_CMD : Z := phy + 0x0.
(* drivers/net/phy/intel-s10-phy.c:26-26 HSSI_QSFP_RCFG_DATA *)
Definition HSSI_QSFP_RCFG_DATA : Z := phy + 0x8.
(* drivers/net/phy/intel-s10-phy.c:30-30 HSSI_QSFP_CTRL *)
Definition HSSI_QSFP_CTRL : Z := phy + 0x10.
(* drivers/net/phy/intel-s10-phy.c:49-49 HSSI_QSFP_STAT *)
Definition HSSI_QSFP_STAT : Z := phy + 0x18.
(* drivers/net/phy/intel-s10-phy.c:99-121 hssi_await_ack *)
Definition hssi_await_ack : M mmst unit :=
  r ← read_poll_timeout (readq HSSI_QSFP_RCFG_CMD) (has_bits QSFP_RCFG_XCVR_ACK) tries;
  rc (r : Z * Z).1 ;;
  v ← readq HSSI_QSFP_RCFG_CMD;
  writeq (set_field QSFP_RCFG_CMD v QSFP_RCFG_CMD_CLR) HSSI_QSFP_RCFG_CMD.
(** The command word for a register of a channel. *)
Definition rcfg_cmd (cmd chan_num addr : Z) : Z :=
  Z.lor (Z.lor (FIELD_PREP QSFP_RCFG_CMD cmd) (FIELD_PREP QSFP_RCFG_CMD_SEL_XCVR chan_num)) (FIELD_PREP QSFP_RCFG_XCVR_ADDR addr).
(* drivers/net/phy/intel-s10-phy.c:123-145 hssi_xcvr_read *)
Definition hssi_xcvr_read (chan_num addr : Z) : M mmst Z :=
  writeq (rcfg_cmd QSFP_RCFG_CMD_RD chan_num addr) HSSI_QSFP_RCFG_CMD ;;
  hssi_await_ack ;;
  v ← readq HSSI_QSFP_RCFG_DATA;
  mret (FIELD_GET XCVR_RCFG_RDATA v).
(* drivers/net/phy/intel-s10-phy.c:147-164 hssi_xcvr_write *)
Definition hssi_xcvr_write (chan_num addr data : Z) : M mmst unit :=
  writeq (FIELD_PREP XCVR_RCFG_WDATA data) HSSI_QSFP_RCFG_DATA ;;
  writeq (rcfg_cmd QSFP_RCFG_CMD_WRT chan_num addr) HSSI_QSFP_RCFG_CMD ;;
  hssi_await_ack.
(* drivers/net/phy/intel-s10-phy.c:166-180 hssi_xcvr_rmw *)
Definition hssi_xcvr_rmw (chan_num addr msk data : Z) : M mmst unit :=
  value ← hssi_xcvr_read chan_num addr;
  hssi_xcvr_write chan_num addr (Z.lor (Z.ldiff value msk) (Z.land data msk)).
(** A number; an error of the parser is the result. *)
Definition parse_u8 (buf : text) : M mmst Z := match kstrtou8 buf with inl e => throw e | inr v => mret v end.
(** The sign before a number, and what follows it. *)
Definition parse_sign (buf : text) : bool * text :=
  match buf with
  | "+"%char :: p => (false, p)
  | "-"%char :: p => (true, p)
  | _ => (false, buf)
  end.
(* drivers/net/phy/intel-s10-phy.c:182-218 tx_pre_tap_store *)
Definition tx_pre_tap_store (chan : Z) (buf : text) : M mmst unit :=
  let (negative, p) := parse_sign buf in
  let polarity := if negative then mask PRE_TAP_POLARITY else 0 in
  magnitude ← parse_u8 p;
  if PRE_TAP_MAX <? magnitude then throw (- EINVAL) else
  hssi_xcvr_rmw chan PRE_TAP_ADDR (Z.lor (mask PRE_TAP_POLARITY) (mask PRE_TAP_MAGNITUDE_MASK)) (Z.lor polarity magnitude).
(** A sign, which is the character 0 for the magnitude 0, and the magnitude. *)
Definition show_tap (pol mag : field) (v : Z) : ascii * Z :=
  let magnitude := FIELD_GET mag v in
  (if magnitude =? 0 then "000"%char else if has_bits pol v then "-"%char else "+"%char, magnitude).
(* drivers/net/phy/intel-s10-phy.c:220-246 tx_pre_tap_show *)
Definition tx_pre_tap_show (chan : Z) : M mmst (ascii * Z) :=
  pre_tap ← hssi_xcvr_read chan PRE_TAP_ADDR;
  mret (show_tap PRE_TAP_POLARITY PRE_TAP_MAGNITUDE_MASK pre_tap).
(* drivers/net/phy/intel-s10-phy.c:248-284 tx_post_tap_store *)
Definition tx_post_tap_store (chan : Z) (buf : text) : M mmst unit :=
  let (negative, p) := parse_sign buf in
  let polarity := if negative then mask POST_TAP_POLARITY else 0 in
  magnitude ← parse_u8 p;
  if POST_TAP_MAX <? magnitude then throw (- EINVAL) else
  hssi_xcvr_rmw chan POST_TAP_ADDR (Z.lor (mask POST_TAP_POLARITY) (mask POST_TAP_MAGNITUDE_MASK)) (Z.lor polarity magnitude).
(* drivers/net/phy/intel-s10-phy.c:286-312 tx_post_tap_show *)
Definition tx_post_tap_show (chan : Z) : M mmst (ascii * Z) :=
  post_tap ← hssi_xcvr_read chan POST_TAP_ADDR;
  mret (show_tap POST_TAP_POLARITY POST_TAP_MAGNITUDE_MASK post_tap).
(* drivers/net/phy/intel-s10-phy.c:314-342 tx_vod_store *)
Definition tx_vod_store (chan : Z) (buf : text) : M mmst unit :=
  vod ← parse_u8 buf;
  if (VOD_MAX <? vod) || (vod <? VOD_MIN) then throw (- EINVAL) else
  hssi_xcvr_rmw chan VOD_COMP_ADDR (mask VOD_MASK) vod.
(* drivers/net/phy/intel-s10-phy.c:344-361 tx_vod_show *)
Definition tx_vod_show (chan : Z) : M mmst Z :=
  vod ← hssi_xcvr_read chan VOD_COMP_ADDR;
  mret (Z.land vod (mask VOD_MASK)).
(* drivers/net/phy/intel-s10-phy.c:363-391 tx_comp_store *)
Definition tx_comp_store (chan : Z) (buf : text) : M mmst unit :=
  compensation ← parse_u8 buf;
  if 1 <? compensation then throw (- EINVAL) else
  hssi_xcvr_rmw chan VOD_COMP_ADDR (mask COMPENSATION_FLAG) (if compensation =? 0 then 0 else mask COMPENSATION_FLAG).
(* drivers/net/phy/intel-s10-phy.c:393-411 tx_comp_show *)
Definition tx_comp_show (chan : Z) : M mmst Z :=
  compensation ← hssi_xcvr_read chan VOD_COMP_ADDR;
  mret (if has_bits COMPENSATION_FLAG compensation then 1 else 0).
(** [v] is what the parser made of the text. *)
(* drivers/net/phy/intel-s10-phy.c:441-457 ctrl_store *)
Definition ctrl_store (v : Z + Z) : M mmst unit :=
  match v with inl e => throw e | inr v => writeq v HSSI_QSFP_CTRL end.
(* drivers/net/phy/intel-s10-phy.c:459-470 ctrl_show *)
Definition ctrl_show : M mmst Z := readq HSSI_QSFP_CTRL.
(* drivers/net/phy/intel-s10-phy.c:473-484 stat_show *)
Definition stat_show : M mmst Z := readq HSSI_QSFP_STAT.

(** The four attributes of a channel, what is stored in and what is shown of them. *)
Inductive tuning := PreTap | PostTap | Vod | Comp.
Definition tune_store (a : tuning) : Z → text → M mmst unit :=
  match a with PreTap => tx_pre_tap_store | PostTap => tx_post_tap_store | Vod => tx_vod_store | Comp => tx_comp_store end.
Definition tune_show (a : tuning) (chan : Z) : M mmst (ascii * Z) :=
  match a with
  | PreTap => tx_pre_tap_show chan
  | PostTap => tx_post_tap_show chan
  | Vod => v ← tx_vod_show chan; mret ("000"%char, v)
  | Comp => v ← tx_comp_show chan; mret ("000"%char, v)
  end.
End Phy.
#[export] Instance tuning_eq : EqDecision tuning.
Proof. solve_decision. Defined.

(** ** The feature driver *)

(* drivers/fpga/dfl-hssi.c:18-18 HSSI_CAPABILITY *)
Definition HSSI_CAPABILITY : Z := 0x8.
(* drivers/fpga/dfl-hssi.c:47-47 NUM_QSFP_INTERFACES *)
Definition NUM_QSFP_INTERFACES : field := GENMASK_ULL 39 32.
(* drivers/fpga/dfl-hssi.c:50-50 HSSI_QSFP_BASE *)
Definition HSSI_QSFP_BASE : Z := 0x10.
(* drivers/fpga/dfl-hssi.c:51-51 HSSI_QSFP_SIZE *)
Definition HSSI_QSFP_SIZE : Z := 0x20.
Definition ENOTSUPP : Z := 524.
(** What the kernel does: memory, the mapping of the registers, and the devices, which
    may fail to be registered. *)
Class HssiKernel := {
  hk : Type;
  hk_ioremap_resource : hk → Z * hk;
  hk_kzalloc : hk → bool * hk;
  hk_platform_device_register_full : Z → hk → Z * hk;
}.
Section Hssi.
Context `{MmioHw} `{HssiKernel} (csr_base : Z).
(** [h_phys] are the offsets of the devices that are registered, [h_qsfp_cnt] how
    many were. *)
(* drivers/fpga/dfl-hssi.c:53-58 dfl_hssi *)
Record dfl_hssi := Hssi {
  h_k : hk;
  h_dev : mmst;
  h_qsfp_cnt : nat;
  h_phys : list Z;
}.
Implicit Types s : dfl_hssi.
Definition h_op {A} (f : hk → A * hk) : M dfl_hssi A := λ s, let (a, k) := f (h_k s) in Done (Val a, Hssi k (h_dev s) (h_qsfp_cnt s) (h_phys s)).
Definition on_csr {A} (m : M mmst A) : M dfl_hssi A := zoom h_dev (λ d s, Hssi (h_k s) d (h_qsfp_cnt s) (h_phys s)) m.
Definition phy_offset (index : nat) : Z := HSSI_QSFP_BASE + Z.of_nat index * HSSI_QSFP_SIZE.
(* drivers/fpga/dfl-hssi.c:62-86 hssi_create_qsfp *)
Definition hssi_create_qsfp (index : nat) : M dfl_hssi unit :=
  ret ← h_op (hk_platform_device_register_full (phy_offset index));
  rc ret ;;
  modify (λ s, Hssi (h_k s) (h_dev s) (S (h_qsfp_cnt s)) (h_phys s ++ [phy_offset index])).
(** Unregistering a device that there is not is a fault. *)
(* drivers/fpga/dfl-hssi.c:88-91 hssi_destroy_qsfp *)
Definition hssi_destroy_qsfp (index : nat) : M dfl_hssi unit :=
  s ← get;
  access (if decide (phy_offset index ∈ h_phys s) then Some tt else None) ;;
  modify (λ s, Hssi (h_k s) (h_dev s) (h_qsfp_cnt s) (filter (λ o, o ≠ phy_offset index) (h_phys s))).
Definition destroy_all : M dfl_hssi unit := s ← get; for_each (seq 0 (h_qsfp_cnt s)) hssi_destroy_qsfp.
(* drivers/fpga/dfl-hssi.c:93-100 capability_show *)
Definition capability_show : M dfl_hssi Z := on_csr (readq (csr_base + HSSI_CAPABILITY)).
(* drivers/fpga/dfl-hssi.c:109-158 dfl_hssi_probe *)
Definition dfl_hssi_probe : M dfl_hssi unit :=
  ret ← h_op hk_ioremap_resource;
  rc ret ;;
  dfh ← on_csr (readq csr_base);
  if FIELD_GET DFH_REVISION dfh =? 0 then throw (- ENOTSUPP) else
  v ← on_csr (readq (csr_base + HSSI_CAPABILITY));
  let qsfp_cnt := FIELD_GET NUM_QSFP_INTERFACES v in
  ok ← h_op hk_kzalloc;
  if negb ok then throw (- ENOMEM) else
  modify (λ s, Hssi (h_k s) (h_dev s) 0 (h_phys s)) ;;
  on_error (for_each (seq 0 (Z.to_nat qsfp_cnt)) hssi_create_qsfp) destroy_all.
(* drivers/fpga/dfl-hssi.c:160-171 dfl_hssi_remove *)
Definition dfl_hssi_remove : M dfl_hssi unit := destroy_all.
End Hssi.

(** ** The registers of the channels

    The registers of the channels, by channel and address. *)
Definition xfile := Z → Z → Z.
Definition x_set (f : xfile) (chan addr v : Z) : xfile := λ c a, if (c =? chan) && (a =? addr) then v else f c a.
(** Idle, with the word to write and the word that was read; or doing a command, which
    is acknowledged after some reads of the command register. *)
Inductive xphase := XIdle (f : xfile) (wd rd : Z) | XBusy (n : nat) (f : xfile) (rd : Z).
(** What the code relies on: a command is done within [x_time] reads, reads or writes
    the register it names, and is acknowledged until the command is cleared. *)
Class S10Xcvr `{MmioHw} (phy : Z) := {
  xcvr : hw → xphase → Prop;
  x_time : nat;
  x_data_w : ∀ d f wd rd v, xcvr d (XIdle f wd rd) → xcvr (hw_write (HSSI_QSFP_RCFG_DATA phy) v d) (XIdle f (FIELD_GET XCVR_RCFG_WDATA v) rd);
  x_data_r : ∀ d f wd rd, xcvr d (XIdle f wd rd) →
    FIELD_GET XCVR_RCFG_RDATA (hw_read (HSSI_QSFP_RCFG_DATA phy) d).1 = rd ∧ xcvr (hw_read (HSSI_QSFP_RCFG_DATA phy) d).2 (XIdle f wd rd);
  x_cmd_rd : ∀ d f wd rd chan addr, xcvr d (XIdle f wd rd) → 0 ≤ chan < 4 → 0 ≤ addr < 2 ^ 11 →
    ∃ n, (n ≤ x_time)%nat ∧ xcvr (hw_write (HSSI_QSFP_RCFG_CMD phy) (rcfg_cmd QSFP_RCFG_CMD_RD chan addr) d) (XBusy n f (f chan addr));
  x_cmd_wrt : ∀ d f wd rd chan addr, xcvr d (XIdle f wd rd) → 0 ≤ chan < 4 → 0 ≤ addr < 2 ^ 11 →
    ∃ n, (n ≤ x_time)%nat ∧ xcvr (hw_write (HSSI_QSFP_RCFG_CMD phy) (rcfg_cmd QSFP_RCFG_CMD_WRT chan addr) d) (XBusy n (x_set f chan addr wd) rd);
  x_busy : ∀ d n f rd, xcvr d (XBusy (S n) f rd) →
    has_bits QSFP_RCFG_XCVR_ACK (hw_read (HSSI_QSFP_RCFG_CMD phy) d).1 = false ∧ xcvr (hw_read (HSSI_QSFP_RCFG_CMD phy) d).2 (XBusy n f rd);
  x_ack : ∀ d f rd, xcvr d (XBusy 0 f rd) →
    has_bits QSFP_RCFG_XCVR_ACK (hw_read (HSSI_QSFP_RCFG_CMD phy) d).1 = true ∧ xcvr (hw_read (HSSI_QSFP_RCFG_CMD phy) d).2 (XBusy 0 f rd);
  x_clear : ∀ d f rd v, xcvr d (XBusy 0 f rd) → FIELD_GET QSFP_RCFG_CMD v = QSFP_RCFG_CMD_CLR →
    ∃ wd, xcvr (hw_write (HSSI_QSFP_RCFG_CMD phy) v d) (XIdle f wd rd);
}.

(** The fields of the registers *)
Definition rmw (v msk data : Z) : Z := Z.lor (Z.ldiff v msk) (Z.land data msk).
Lemma testbit_rmw v msk data i : 0 ≤ i → Z.testbit (rmw v msk data) i = if Z.testbit msk i then Z.testbit data i else Z.testbit v i.
Proof.
  intros Hi. unfold rmw. rewrite Z.lor_spec, Z.ldiff_spec, Z.land_spec. destruct (Z.testbit msk i), (Z.testbit v i), (Z.testbit data i); done.
Qed.
Lemma rmw_u32 v msk data : is_u32 v → is_u32 data → is_u32 (rmw v msk data).
Proof.
  intros Hv Hd. assert (Hr : rmw v msk data mod 2 ^ 32 = rmw v msk data); [|unfold is_u32; rewrite <- Hr; apply Z.mod_pos_bound; lia].
  apply Z.bits_inj'. intros i Hi. destruct (Z.lt_ge_cases i 32); [by rewrite Z.mod_pow2_bits_low|]. rewrite Z.mod_pow2_bits_high by lia.
  rewrite testbit_rmw by done. rewrite <- (Z.mod_small v (2 ^ 32)), <- (Z.mod_small data (2 ^ 32)) by done. rewrite !Z.mod_pow2_bits_high by lia. by destruct (Z.testbit msk i).
Qed.
Lemma FIELD_GET_rmw fld v msk data b :
  field_ok fld → (∀ i, f_lo fld ≤ i ≤ f_hi fld → Z.testbit msk i = b) → FIELD_GET fld (rmw v msk data) = FIELD_GET fld (if b then data else v).
Proof.
  intros Hf Hm. apply Z.bits_inj'. intros i Hi. rewrite !testbit_FIELD_GET by done. destruct (Z.leb_spec (i + f_lo fld) (f_hi fld)); [|by rewrite !andb_false_r].
  rewrite testbit_rmw by (unfold field_ok in Hf; lia). rewrite Hm by lia. by destruct b.
Qed.
Lemma low5 m : FIELD_GET (GENMASK_ULL 4 0) m = m mod 32.
Proof. rewrite FIELD_GET_alt by (unfold field_ok; cbn; lia). cbn [f_lo f_hi]. by rewrite Z.pow_0_r, Z.div_1_r. Qed.
Lemma low5_testbit m n : 0 ≤ m < 32 → 5 ≤ n → Z.testbit m n = false.
Proof. intros Hm Hn. rewrite <- (Z.mod_small m (2 ^ 5)) by lia. apply Z.mod_pow2_bits_high. lia. Qed.
Section XcvrFacts.
Context `{S10Xcvr} (tries : nat) (Htries : (x_time ≤ tries)%nat).
Implicit Types s : mmst.
Definition x_idle s (f : xfile) (rd : Z) : Prop := ∃ wd, xcvr (mm_hw s) (XIdle f wd rd).
Lemma poll_ack_spec n tr f rd s :
  xcvr (mm_hw s) (XBusy n f rd) → (n ≤ tr)%nat →
  wp (read_poll_timeout (readq (HSSI_QSFP_RCFG_CMD phy)) (has_bits QSFP_RCFG_XCVR_ACK) tr)
    (λ r s', r.1 = 0 ∧ xcvr (mm_hw s') (XBusy 0 f rd)) (λ _ _, False) s.
Proof.
  revert n s. induction tr as [|tr IH]; intros n s Hx Hn; cbn [read_poll_timeout]; wstep; unfold wpg at 1, readq;
    (destruct n as [|n]; [destruct (x_ack _ _ _ Hx) as [Ha Hx']|destruct (x_busy _ _ _ _ Hx) as [Ha Hx']]);
    destruct (hw_read (HSSI_QSFP_RCFG_CMD phy) (mm_hw s)) as [v d]; cbn [fst snd] in *; rewrite Ha; try (by wsteps); [lia|].
  apply (IH n); [done|lia].
Qed.
Lemma await_ack_spec n f rd s :
  xcvr (mm_hw s) (XBusy n f rd) → (n ≤ x_time)%nat → wp (hssi_await_ack phy tries) (λ _ s', x_idle s' f rd) (λ _ _, False) s.
Proof.
  intros Hx Hn. unfold hssi_await_ack. wstep. eapply wp_mono; [apply (poll_ack_spec n); [done|lia]| |done]. cbv beta. intros [ret v] s1 [Hret Hx1]. cbn [fst] in *. subst ret.
  wstep. wstep; [|done]. intros _. wstep. unfold wpg at 1, readq. destruct (x_ack _ _ _ Hx1) as [_ Hx2]. destruct (hw_read (HSSI_QSFP_RCFG_CMD phy) (mm_hw s1)) as [w d]. cbn [fst snd] in *.
  unfold writeq. wsteps. destruct (x_clear _ _ _ (set_field QSFP_RCFG_CMD w QSFP_RCFG_CMD_CLR) Hx2) as [wd Hx3].
  - apply FIELD_GET_set_field; unfold field_ok; cbn; lia.
  - by exists wd.
Qed.
Lemma xcvr_read_spec chan addr f rd s :
  x_idle s f rd → 0 ≤ chan < 4 → 0 ≤ addr < 2 ^ 11 →
  wp (hssi_xcvr_read phy tries chan addr) (λ v s', v = f chan addr ∧ is_u32 v ∧ x_idle s' f v) (λ _ _, False) s.
Proof.
  intros [wd Hx] Hc Ha. unfold hssi_xcvr_read, writeq. wsteps. destruct (x_cmd_rd _ _ _ _ _ _ Hx Hc Ha) as (n & Hn & Hx1).
  eapply wp_mono; [apply (await_ack_spec n f (f chan addr)); [exact Hx1|done]| |done]. cbv beta. intros _ s1 [wd1 Hx2].
  wstep. unfold wpg at 1, readq. destruct (x_data_r _ _ _ _ Hx2) as [Hv Hx3]. destruct (hw_read (HSSI_QSFP_RCFG_DATA phy) (mm_hw s1)) as [v d]. cbn [fst snd] in *.
  wsteps. rewrite Hv. split; [done|]. split; [|by exists wd1]. rewrite <- Hv. apply (FIELD_GET_range XCVR_RCFG_RDATA). unfold field_ok; cbn; lia.
Qed.
Lemma xcvr_write_spec chan addr data f rd s :
  x_idle s f rd → 0 ≤ chan < 4 → 0 ≤ addr < 2 ^ 11 → is_u32 data →
  wp (hssi_xcvr_write phy tries chan addr data) (λ _ s', x_idle s' (x_set f chan addr data) rd) (λ _ _, False) s.
Proof.
  intros [wd Hx] Hc Ha Hd. unfold hssi_xcvr_write, writeq. wsteps. pose proof (x_data_w _ _ _ _ (FIELD_PREP XCVR_RCFG_WDATA data) Hx) as Hx1.
  assert (Hw : FIELD_GET XCVR_RCFG_WDATA (FIELD_PREP XCVR_RCFG_WDATA data) = data).
  { apply Z.bits_inj'. intros i Hi. rewrite testbit_FIELD_GET, testbit_FIELD_PREP by (unfold field_ok; cbn; lia). cbn [f_hi f_lo XCVR_RCFG_WDATA].
    replace (i + 32 - 32) with i by lia. destruct (Z.leb_spec (i + 32) 63), (Z.leb_spec 32 (i + 32)); rewrite ?andb_true_r, ?andb_false_r; [done|lia| |lia].
    rewrite <- (Z.mod_small data (2 ^ 32)) by done. by rewrite Z.mod_pow2_bits_high by lia. }
  rewrite Hw in Hx1. destruct (x_cmd_wrt _ _ _ _ _ _ Hx1 Hc Ha) as (n & Hn & Hx2). by apply (await_ack_spec n).
Qed.

Lemma xcvr_rmw_spec chan addr msk data f rd s :
  x_idle s f rd → 0 ≤ chan < 4 → 0 ≤ addr < 2 ^ 11 → is_u32 data →
  wp (hssi_xcvr_rmw phy tries chan addr msk data) (λ _ s', ∃ rd', x_idle s' (x_set f chan addr (rmw (f chan addr) msk data)) rd') (λ _ _, False) s.
Proof.
  intros Hx Hc Ha Hd. unfold hssi_xcvr_rmw. wstep. eapply wp_mono; [by eapply xcvr_read_spec| |done]. cbv beta. intros v s1 (-> & Hv & Hx1).
  eapply wp_mono; [apply (xcvr_write_spec _ _ (rmw (f chan addr) msk data)); [done|done|done|by apply rmw_u32]| |done]. cbv beta. intros _ s2 Hx2. by eexists.
Qed.
End XcvrFacts.

(** ** The attributes *)
Section TuneFacts.
Context `{S10Xcvr} (tries : nat) (Htries : (x_time ≤ tries)%nat).
Context (kstrtou8 : text → Z + Z) (Hparse : ∀ t v, kstrtou8 t = inr v → is_u8 v).
Implicit Types s : mmst.
(** What is shown of the registers. *)
Definition shown (f : xfile) (chan : Z) (a : tuning) : ascii * Z :=
  match a with
  | PreTap => show_tap PRE_TAP_POLARITY PRE_TAP_MAGNITUDE_MASK (f chan PRE_TAP_ADDR)
  | PostTap => show_tap POST_TAP_POLARITY POST_TAP_MAGNITUDE_MASK (f chan POST_TAP_ADDR)
  | Vod => ("000"%char, FIELD_GET VOD_MASK (f chan VOD_COMP_ADDR))
  | Comp => ("000"%char, if has_bits COMPENSATION_FLAG (f chan VOD_COMP_ADDR) then 1 else 0)
  end.
(** What a text means for an attribute, or the error. *)
Definition meaning (a : tuning) (buf : text) : Z + ascii * Z :=
  let tap max :=
    let (negative, p) := parse_sign buf in
    match kstrtou8 p with
    | inl e => inl e
    | inr m => if max <? m then inl (- EINVAL) else inr (if m =? 0 then "000"%char else if negative then "-"%char else "+"%char, m)
    end in
  let num lo hi := match kstrtou8 buf with inl e => inl e | inr v => if (hi <? v) || (v <? lo) then inl (- EINVAL) else inr ("000"%char, v) end in
  match a with PreTap => tap PRE_TAP_MAX | PostTap => tap POST_TAP_MAX | Vod => num VOD_MIN VOD_MAX | Comp => num 0 1 end.
Lemma show_exact a chan f rd s :
  x_idle s f rd → 0 ≤ chan < 4 → wp (tune_show phy tries a chan) (λ x s', x = shown f chan a ∧ ∃ rd', x_idle s' f rd') (λ _ _, False) s.
Proof.
  intros Hx Hc. destruct a; cbn [tune_show]; unfold tx_pre_tap_show, tx_post_tap_show, tx_vod_show, tx_comp_show; wsteps;
    (eapply wp_mono; [by eapply xcvr_read_spec|cbv beta; intros v s1 (-> & _ & Hx1); wsteps; split; [|by eexists]|done]); try done.
Qed.
(** The registers with one field changed show the same but for that attribute. *)
Lemma shown_set f chan addr v c a :
  shown (x_set f chan addr v) c a =
    if (c =? chan) && ((match a with PreTap => PRE_TAP_ADDR | PostTap => POST_TAP_ADDR | _ => VOD_COMP_ADDR end) =? addr)
    then shown (λ _ _, v) c a else shown f c a.
Proof. destruct a; cbn [shown]; unfold x_set; by destruct (_ && _). Qed.
Definition only_changed (f f' : xfile) (chan : Z) (a : tuning) (x : ascii * Z) : Prop :=
  ∀ c a', shown f' c a' = if (c =? chan) && bool_decide (a' = a) then x else shown f c a'.
(** A tap: five bits and a sign. *)
Lemma tap_set f chan (neg : bool) m max (pol mag : field) addr (a : tuning) n :
  (a = PreTap ∧ pol = PRE_TAP_POLARITY ∧ mag = PRE_TAP_MAGNITUDE_MASK ∧ addr = PRE_TAP_ADDR ∨
   a = PostTap ∧ pol = POST_TAP_POLARITY ∧ mag = POST_TAP_MAGNITUDE_MASK ∧ addr = POST_TAP_ADDR) → pol = BIT_ULL n → max ≤ 24 → 0 ≤ m ≤ max →
  only_changed f (x_set f chan addr (rmw (f chan addr) (Z.lor (mask pol) (mask mag)) (Z.lor (if neg then mask pol else 0) m))) chan a
    (if m =? 0 then "000"%char else if neg then "-"%char else "+"%char, m).
Proof.
  intros Ha Hn Hmax Hm c a'. rewrite shown_set. set (v := rmw _ _ _).
  assert (Hv : show_tap pol mag v = (if m =? 0 then "000"%char else if neg then "-"%char else "+"%char, m)).
  { assert (Hmag : mag = GENMASK_ULL 4 0) by (by destruct Ha as [(_&_&->&_)|(_&_&->&_)]). assert (Hn5 : 5 ≤ n ∧ n ≤ 6) by (destruct Ha as [(_&->&_)|(_&->&_)]; injection Hn; lia).
    assert (Hpol : ∀ i, 0 ≤ i → Z.testbit (mask pol) i = (n =? i)) by (intros i Hi; rewrite Hn, testbit_mask by (unfold field_ok; cbn; lia); cbn [f_hi f_lo]; lia).
    assert (Hmb : ∀ i, 0 ≤ i → Z.testbit (mask mag) i = (i <=? 4)) by (intros i Hi; rewrite Hmag, testbit_mask by (unfold field_ok; cbn; lia); cbn [f_hi f_lo]; lia).
    assert (Hg : FIELD_GET mag v = m).
    { unfold v. rewrite (FIELD_GET_rmw mag _ _ _ true).
      - rewrite Hmag. apply Z.bits_inj'. intros i Hi. rewrite testbit_FIELD_GET by (unfold field_ok; cbn; lia). cbn [f_hi f_lo]. rewrite Z.add_0_r, Z.lor_spec.
        destruct (Z.leb_spec i 4); [|rewrite andb_false_r; symmetry; apply low5_testbit; lia]. rewrite andb_true_r. destruct neg; [rewrite Hpol by done; by destruct (Z.eqb_spec n i); [lia|]|by rewrite Z.bits_0].
      - rewrite Hmag. unfold field_ok; cbn; lia.
      - intros i Hi. rewrite Hmag in Hi. cbn [f_hi f_lo] in Hi. rewrite Z.lor_spec, (Hmb i) by lia. destruct (Z.leb_spec i 4); [by rewrite orb_true_r|lia]. }
    assert (Hs : has_bits pol v = neg).
    { rewrite Hn, has_bits_bit by lia. unfold v. rewrite testbit_rmw, !Z.lor_spec, Hpol, Z.eqb_refl by lia. cbn [orb]. rewrite (low5_testbit m n) by lia. rewrite orb_false_r.
      destruct neg; [by rewrite Hpol, Z.eqb_refl by lia|by rewrite Z.bits_0]. }
    unfold show_tap. by rewrite Hg, Hs. }
  destruct Ha as [(-> & -> & -> & ->)|(-> & -> & -> & ->)], (Z.eqb_spec c chan), a'; try (cbn; done); by rewrite Z.eqb_refl; cbn; rewrite Hv.
Qed.
(** The other two share a register. *)
Lemma vod_set f chan m : 0 ≤ m < 32 → only_changed f (x_set f chan VOD_COMP_ADDR (rmw (f chan VOD_COMP_ADDR) (mask VOD_MASK) m)) chan Vod ("000"%char, m).
Proof.
  intros Hm c a'. rewrite shown_set. set (v := rmw _ _ _).
  assert (Hg : FIELD_GET VOD_MASK v = m).
  { unfold v. rewrite (FIELD_GET_rmw VOD_MASK _ _ _ true); [|unfold field_ok; cbn; lia|].
    - change VOD_MASK with (GENMASK_ULL 4 0). rewrite low5. by apply Z.mod_small.
    - intros i Hi. cbn [f_lo f_hi VOD_MASK] in Hi. rewrite testbit_mask by (unfold field_ok; cbn; lia). cbn [f_lo f_hi VOD_MASK]. lia. }
  assert (Hc : has_bits COMPENSATION_FLAG v = has_bits COMPENSATION_FLAG (f chan VOD_COMP_ADDR)).
  { unfold COMPENSATION_FLAG. rewrite !has_bits_bit by lia. unfold v. rewrite testbit_rmw by lia. done. }
  destruct (Z.eqb_spec c chan) as [->|], a'; try (cbn; done); by rewrite Z.eqb_refl; cbn; rewrite ?Hg, ?Hc.
Qed.
Lemma comp_set f chan m : 0 ≤ m ≤ 1 →
  only_changed f (x_set f chan VOD_COMP_ADDR (rmw (f chan VOD_COMP_ADDR) (mask COMPENSATION_FLAG) (if m =? 0 then 0 else mask COMPENSATION_FLAG))) chan Comp ("000"%char, m).
Proof.
  intros Hm c a'. rewrite shown_set. set (v := rmw _ _ _).
  assert (Hg : FIELD_GET VOD_MASK v = FIELD_GET VOD_MASK (f chan VOD_COMP_ADDR)).
  { unfold v. apply (FIELD_GET_rmw VOD_MASK _ _ _ false); [unfold field_ok; cbn; lia|].
    intros i Hi. cbn [f_lo f_hi VOD_MASK] in Hi. rewrite testbit_mask by (unfold field_ok; cbn; lia). cbn [f_lo f_hi COMPENSATION_FLAG]. lia. }
  assert (Hc : (if has_bits COMPENSATION_FLAG v then 1 else 0) = m).
  { unfold COMPENSATION_FLAG at 1. rewrite has_bits_bit by lia. unfold v. rewrite testbit_rmw by lia.
    change (Z.testbit (mask COMPENSATION_FLAG) 5) with true. cbv iota. destruct (Z.eqb_spec m 0); [by subst|]. change (Z.testbit (mask COMPENSATION_FLAG) 5) with true. cbv iota. lia. }
  destruct (Z.eqb_spec c chan) as [->|], a'; try (cbn; done); by rewrite Z.eqb_refl; cbn [andb shown bool_decide]; rewrite ?Hg, ?Hc.
Qed.
Lemma parse_u8_spec {A} (t : text) (k : Z → M mmst A) s (Q : A → mmst → Prop) (E : Z → mmst → Prop) :
  (∀ e, kstrtou8 t = inl e → E e s) → (∀ v, kstrtou8 t = inr v → is_u8 v → wp (k v) Q E s) → wp (v ← parse_u8 kstrtou8 t; k v) Q E s.
Proof.
  intros HE HQ. unfold parse_u8. wstep. destruct (kstrtou8 t) as [e|v] eqn:Hp; wsteps; [by apply HE|by apply HQ, (Hparse t)].
Qed.
(** A store is the meaning of its text, or an error that changes nothing. *)
Lemma store_exact a chan buf f rd s :
  x_idle s f rd → 0 ≤ chan < 4 →
  wp (tune_store phy tries kstrtou8 a chan buf)
    (λ _ s', ∃ x f' rd', meaning a buf = inr x ∧ x_idle s' f' rd' ∧ only_changed f f' chan a x)
    (λ e s', meaning a buf = inl e ∧ s' = s) s.
Proof.
  intros Hx Hc.
  assert (Hrmw : ∀ addr msk data x, 0 ≤ addr < 2 ^ 11 → is_u32 data → only_changed f (x_set f chan addr (rmw (f chan addr) msk data)) chan a x → meaning a buf = inr x →
    wp (hssi_xcvr_rmw phy tries chan addr msk data) (λ _ s', ∃ x f' rd', meaning a buf = inr x ∧ x_idle s' f' rd' ∧ only_changed f f' chan a x)
      (λ e s', meaning a buf = inl e ∧ s' = s) s).
  { intros addr msk data x Ha Hd Ho Hm. eapply wp_mono; [by eapply xcvr_rmw_spec| |done]. cbv beta. intros _ s' [rd' Hx']. by eexists x, _, rd'. }
  assert (Hu : ∀ m (neg : bool) (pol : field), 0 ≤ m < 32 → is_u32 (mask pol) → is_u32 (Z.lor (if neg then mask pol else 0) m)).
  { intros m neg pol Hm Hp. assert (Hl : Z.lor (if neg then mask pol else 0) m = rmw m (mask pol) (if neg then Z.lor (mask pol) m else m)).
    { apply Z.bits_inj'. intros i Hi. rewrite testbit_rmw, Z.lor_spec by done. destruct neg; [rewrite Z.lor_spec|rewrite Z.bits_0]; by destruct (Z.testbit (mask pol) i), (Z.testbit m i). }
    rewrite Hl. apply rmw_u32; [unfold is_u32; lia|]. destruct neg; [|unfold is_u32; lia].
    assert (Hr : Z.lor (mask pol) m mod 2 ^ 32 = Z.lor (mask pol) m); [|unfold is_u32; rewrite <- Hr; apply Z.mod_pos_bound; lia].
    apply Z.bits_inj'. intros i Hi. destruct (Z.lt_ge_cases i 32); [by rewrite Z.mod_pow2_bits_low|]. rewrite Z.mod_pow2_bits_high, Z.lor_spec by lia.
    rewrite <- (Z.mod_small (mask pol) (2 ^ 32)), Z.mod_pow2_bits_high by (done || lia). by rewrite low5_testbit by lia. }
  destruct a; cbn [tune_store meaning] in *; unfold tx_pre_tap_store, tx_post_tap_store, tx_vod_store, tx_comp_store.
  - destruct (parse_sign buf) as [neg p]. apply parse_u8_spec; [by intros e ->|]. intros m Hm Hm8. rewrite Hm in *. unfold is_u8, PRE_TAP_MAX in *. destruct (Z.ltb_spec 15 m); [by wsteps|].
    eapply Hrmw; [by vm_compute|apply Hu; [lia|by vm_compute]| |done]. apply (tap_set _ _ _ _ 15 _ _ _ _ 5); [by left|done|lia|lia].
  - destruct (parse_sign buf) as [neg p]. apply parse_u8_spec; [by intros e ->|]. intros m Hm Hm8. rewrite Hm in *. unfold is_u8, POST_TAP_MAX in *. destruct (Z.ltb_spec 24 m); [by wsteps|].
    eapply Hrmw; [by vm_compute|apply Hu; [lia|by vm_compute]| |done]. apply (tap_set _ _ _ _ 24 _ _ _ _ 6); [by right|done|lia|lia].
  - apply parse_u8_spec; [by intros e ->|]. intros m Hm Hm8. rewrite Hm in *. unfold VOD_MAX, VOD_MIN, is_u8 in *. destruct (Z.ltb_spec 31 m), (Z.ltb_spec m 17); cbn [orb] in *; try by wsteps.
    eapply Hrmw; [by vm_compute|unfold is_u32; lia| |done]. apply vod_set. lia.
  - apply parse_u8_spec; [by intros e ->|]. intros m Hm Hm8. rewrite Hm in *. unfold is_u8 in *. destruct (Z.ltb_spec 1 m), (Z.ltb_spec m 0); cbn [orb] in *; try lia; try by wsteps.
    eapply Hrmw; [by vm_compute|by destruct (m =? 0)| |done]. apply comp_set. lia.
Qed.

(** C39: an attribute of a channel, stored and shown: a text that is refused leaves the
    device as it was; else what is shown of this attribute is the value of the text,
    and any other attribute, of this and of the other channels, is shown as before:
    also the two that share a register. *)
Theorem store_show_roundtrip a chan buf a' chan' f rd s :
  x_idle s f rd → 0 ≤ chan < 4 → 0 ≤ chan' < 4 →
  wp (tune_store phy tries kstrtou8 a chan buf ;; tune_show phy tries a' chan')
    (λ x _, ∃ v, meaning a buf = inr v ∧ x = if (chan' =? chan) && bool_decide (a' = a) then v else shown f chan' a')
    (λ e s', meaning a buf = inl e ∧ s' = s) s.
Proof.
  intros Hx Hc Hc'. wstep. eapply wp_mono; [by eapply store_exact| |done]. cbv beta. intros _ s1 (v & f' & rd' & Hm & Hx' & Ho).
  eapply wp_mono; [by eapply show_exact| |done]. cbv beta. intros x s2 [-> _]. exists v. by rewrite Ho.
Qed.
End TuneFacts.

(** ** The devices of the feature driver *)
Section HssiFacts.
Context `{MmioHw} `{HssiKernel} (csr_base : Z).
Implicit Types s : dfl_hssi.
(** The devices from [i], [n] of them, are registered. *)
Definition phys_from (i n : nat) : list Z := phy_offset <$> seq i n.
Lemma phys_filter i n : filter (λ o, o ≠ phy_offset i) (phys_from i (S n)) = phys_from (S i) n.
Proof.
  unfold phys_from. cbn [seq fmap list_fmap]. rewrite filter_cons_False by (intros Hn; by apply Hn).
  assert (Hlt : ∀ j, (i < j)%nat → filter (λ o, o ≠ phy_offset i) (phy_offset <$> seq j n) = phy_offset <$> seq j n); [|apply Hlt; lia].
  induction n as [|n IH]; intros j Hj; [done|]. cbn [seq fmap list_fmap]. rewrite filter_cons_True by (unfold phy_offset, HSSI_QSFP_SIZE; lia).
  f_equal. apply IH. lia.
Qed.
Lemma destroy_spec i n s : h_phys s = phys_from i n → wp (for_each (seq i n) hssi_destroy_qsfp) (λ _ s', h_phys s' = []) (λ _ _, False) s.
Proof.
  revert i s. induction n as [|n IH]; intros i s Hp; cbn [seq for_each]; [by wsteps|]. wstep.
  apply wp_mono with (Q := λ _ s', h_phys s' = phys_from (S i) n) (E := λ _ _, False); [|by intros; apply IH|done].
  unfold hssi_destroy_qsfp. wstep. wstep. cbv beta. wstep. apply wp_access.
  - intros _ _. wsteps. cbn [h_phys]. rewrite Hp. apply phys_filter.
  - rewrite Hp. rewrite decide_True; [done|]. cbn. by left.
Qed.
Lemma create_one i s :
  h_phys s = phys_from 0 i → h_qsfp_cnt s = i →
  wp (hssi_create_qsfp i) (λ _ s', h_phys s' = phys_from 0 (S i) ∧ h_qsfp_cnt s' = S i) (λ e s', e ≠ 0 ∧ h_phys s' = phys_from 0 (h_qsfp_cnt s')) s.
Proof.
  intros Hp Hc. unfold hssi_create_qsfp. wstep. unfold wpg at 1, h_op. destruct (hk_platform_device_register_full (phy_offset i) (h_k s)) as [ret k].
  wsteps; intros Hret; [wsteps|split; [done|cbn; by rewrite Hc]]. cbn [h_phys h_qsfp_cnt]. rewrite Hp, Hc. unfold phys_from. by rewrite seq_S, fmap_app.
Qed.
Lemma create_spec i n s :
  h_phys s = phys_from 0 i → h_qsfp_cnt s = i →
  wp (for_each (seq i n) hssi_create_qsfp) (λ _ s', h_phys s' = phys_from 0 (i + n) ∧ h_qsfp_cnt s' = (i + n)%nat)
    (λ e s', e ≠ 0 ∧ h_phys s' = phys_from 0 (h_qsfp_cnt s')) s.
Proof.
  revert i s. induction n as [|n IH]; intros i s Hp Hc; cbn [seq for_each]; [wsteps; by rewrite Nat.add_0_r|]. wstep.
  eapply wp_mono; [by apply create_one| |done]. cbv beta. intros _ s1 [Hp1 Hc1]. replace (i + S n)%nat with (S i + n)%nat by lia. by apply IH.
Qed.
(** A probe registers a device for each interface, or none. *)
Lemma hssi_probe_exact s :
  h_phys s = [] →
  wp (dfl_hssi_probe csr_base) (λ _ s', ∃ n, h_qsfp_cnt s' = n ∧ h_phys s' = phys_from 0 n) (λ e s', e ≠ 0 ∧ h_phys s' = []) s.
Proof.
  intros Hp. unfold dfl_hssi_probe.
  assert (Hop : ∀ {A} (f : hk → A * hk) s (Q : A → dfl_hssi → Prop) E, (∀ a s', h_phys s' = h_phys s → Q a s') → wp (h_op f) Q E s).
  { intros A f s0 Q E HQ. unfold wpg, h_op. destruct (f (h_k s0)). by apply HQ. }
  assert (Hrd : ∀ a s (Q : Z → dfl_hssi → Prop) E, (∀ v s', h_phys s' = h_phys s → Q v s') → wp (on_csr (readq a)) Q E s).
  { intros a s0 Q E HQ. apply wp_zoom. unfold readq. destruct (hw_read a (mm_hw (h_dev s0))). by apply HQ. }
  wstep. apply Hop. intros ret s1 H1. wsteps; intros Hret; [|split; [done|congruence]]. wstep. apply Hrd. intros dfh s2 H2.
  destruct (FIELD_GET DFH_REVISION dfh =? 0); wsteps; [split; [done|congruence]|]. apply Hrd. intros v s3 H3. cbv zeta. wstep. apply Hop. intros ok s4 H4.
  destruct ok; cbn [negb]; wsteps; [|split; [done|congruence]]. eapply wp_mono; [apply (create_spec 0); [cbn; by rewrite H4, H3, H2, H1|done]|..]; cbv beta.
  - intros _ s5 [Hp5 Hc5]. by eexists.
  - intros e s5 [He Hp5]. unfold destroy_all. wsteps. eapply wp_mono; [by apply destroy_spec|..]; cbv beta; [by intros|done].
Qed.
Lemma hssi_remove_exact s n : h_qsfp_cnt s = n → h_phys s = phys_from 0 n → wp dfl_hssi_remove (λ _ s', h_phys s' = []) (λ _ _, False) s.
Proof. intros <- Hp. unfold dfl_hssi_remove, destroy_all. wsteps. by apply destroy_spec. Qed.
End HssiFacts.

(** ** A concrete phy

    Its state is its phase; a command takes two reads. *)
Lemma rcfg_cmd_fields cmd chan addr : 0 ≤ cmd < 4 → 0 ≤ chan < 4 → 0 ≤ addr < 2 ^ 11 →
  FIELD_GET QSFP_RCFG_CMD (rcfg_cmd cmd chan addr) = cmd ∧ FIELD_GET QSFP_RCFG_CMD_SEL_XCVR (rcfg_cmd cmd chan addr) = chan ∧
  FIELD_GET QSFP_RCFG_XCVR_ADDR (rcfg_cmd cmd chan addr) = addr.
Proof.
  intros Hcmd Hc Ha. unfold rcfg_cmd. rewrite !FIELD_GET_lor.
  rewrite (FIELD_GET_PREP QSFP_RCFG_CMD cmd), (FIELD_GET_PREP QSFP_RCFG_CMD_SEL_XCVR chan), (FIELD_GET_PREP QSFP_RCFG_XCVR_ADDR addr)
    by (exact Hcmd || exact Hc || exact Ha || (unfold field_ok; cbn; lia)).
  rewrite !FIELD_GET_PREP_ne by (unfold field_ok; cbn; lia). by rewrite ?Z.lor_0_r, ?Z.lor_0_l.
Qed.
Definition demo_phy : MmioHw := {|
  hw := xphase;
  hw_read a d :=
    if a =? HSSI_QSFP_RCFG_CMD 0 then match d with XBusy O _ _ => (2 ^ 32, d) | XBusy (S n) f rd => (0, XBusy n f rd) | XIdle _ _ _ => (0, d) end
    else match d with XIdle _ _ rd => (rd, d) | _ => (0, d) end;
  hw_write a v d :=
    if a =? HSSI_QSFP_RCFG_CMD 0 then
      match d with
      | XIdle f wd rd =>
          let chan := FIELD_GET QSFP_RCFG_CMD_SEL_XCVR v in let addr := FIELD_GET QSFP_RCFG_XCVR_ADDR v in
          if FIELD_GET QSFP_RCFG_CMD v =? QSFP_RCFG_CMD_RD then XBusy 2 f (f chan addr)
          else if FIELD_GET QSFP_RCFG_CMD v =? QSFP_RCFG_CMD_WRT then XBusy 2 (x_set f chan addr wd) rd else d
      | XBusy O f rd => if FIELD_GET QSFP_RCFG_CMD v =? QSFP_RCFG_CMD_CLR then XIdle f 0 rd else d
      | _ => d
      end
    else match d with XIdle f _ rd => XIdle f (FIELD_GET XCVR_RCFG_WDATA v) rd | _ => d end;
|}.
Definition x_wf (ph : xphase) : Prop :=
  match ph with XIdle f wd rd => (∀ c a, is_u32 (f c a)) ∧ is_u32 wd ∧ is_u32 rd | XBusy _ f rd => (∀ c a, is_u32 (f c a)) ∧ is_u32 rd end.
#[export] Instance demo_xcvr : @S10Xcvr demo_phy 0.
Proof.
  refine (@Build_S10Xcvr demo_phy 0 (λ d ph, d = ph ∧ x_wf ph) 2 _ _ _ _ _ _ _).
  - intros d f wd rd v [-> (Hf & Hw & Hr)]. split; [done|]. split_and!; [done| |done]. apply (FIELD_GET_range XCVR_RCFG_WDATA). unfold field_ok; cbn; lia.
  - intros d f wd rd [-> (Hf & Hw & Hr)]. split; [|by split]. cbn [fst hw_read demo_phy]. rewrite FIELD_GET_alt by (unfold field_ok; cbn; lia). cbn [f_lo f_hi XCVR_RCFG_RDATA].
    rewrite Z.pow_0_r, Z.div_1_r. by apply u32_small.
  - intros d f wd rd chan addr [-> (Hf & Hw & Hr)] Hc Ha. exists 2%nat. split; [done|]. cbn [hw_write demo_phy]. rewrite Z.eqb_refl.
    destruct (rcfg_cmd_fields QSFP_RCFG_CMD_RD chan addr ltac:(unfold QSFP_RCFG_CMD_RD; lia) Hc Ha) as (-> & -> & ->). cbv zeta. rewrite Z.eqb_refl. split; [done|]. by split.
  - intros d f wd rd chan addr [-> (Hf & Hw & Hr)] Hc Ha. exists 2%nat. split; [done|]. cbn [hw_write demo_phy]. rewrite Z.eqb_refl.
    destruct (rcfg_cmd_fields QSFP_RCFG_CMD_WRT chan addr ltac:(unfold QSFP_RCFG_CMD_WRT; lia) Hc Ha) as (-> & -> & ->). cbv zeta. rewrite Z.eqb_refl. split; [done|].
    split; [|done]. intros c a. unfold x_set. by destruct (_ && _).
  - by intros d n f rd [-> Hwf].
  - by intros d f rd [-> Hwf].
  - intros d f rd v [-> [Hf Hr]] Hv. exists 0. cbn [hw_write demo_phy]. rewrite Z.eqb_refl, Hv. split; [done|]. by split_and!.
Defined.
(** Decimal digits; the text ends with the number or a newline. *)
Fixpoint demo_digits (acc : Z) (t : text) : Z + Z :=
  match t with
  | [] => inr acc
  | c :: t =>
      let d := Z.of_nat (nat_of_ascii c) - 48 in
      if (0 <=? d) && (d <=? 9) && (acc * 10 + d <? 256) then demo_digits (acc * 10 + d) t else inl (- EINVAL)
  end.
Definition demo_parse (t : text) : Z + Z := match t with [] => inl (- EINVAL) | _ => demo_digits 0 t end.
Lemma demo_parse_u8 t v : demo_parse t = inr v → is_u8 v.
Proof.
  assert (Hd : ∀ t acc, is_u8 acc → demo_digits acc t = inr v → is_u8 v).
  { clear t. intros t. induction t as [|c t IH]; intros acc Hacc; cbn; [by intros [= <-]|]. destruct (_ && _) eqn:Hc; [|done]. apply IH. unfold is_u8 in *. lia. }
  destruct t as [|c t]; [done|]. apply Hd. unfold is_u8. lia.
Qed.
Definition phy_start : @mmst demo_phy := @Mm demo_phy (XIdle (λ _ _, 0) 0 0) [].
Definition demo_tune (a : tuning) (chan : Z) (t : string) (a' : tuning) (chan' : Z) : option (ascii * Z) :=
  val_of ((@tune_store demo_phy 0 2 demo_parse a chan (lit t) ;; @tune_show demo_phy 0 2 a' chan') phy_start).
Lemma store_show_roundtrip_witness : demo_tune Vod 1 "20" Vod 1 = Some ("000"%char, 20) ∧ demo_tune Vod 1 "20" Comp 1 = Some ("000"%char, 0).
Proof.
  assert (Hx : ∀ a', wp (@tune_store demo_phy 0 2 demo_parse Vod 1 (lit "20") ;; @tune_show demo_phy 0 2 a' 1)
    (λ x _, ∃ v, meaning demo_parse Vod (lit "20") = inr v ∧ x = if (1 =? 1) && bool_decide (a' = Vod) then v else shown (λ _ _, 0) 1 a')
    (λ e s', meaning demo_parse Vod (lit "20") = inl e ∧ s' = phy_start) phy_start).
  { intros a'. refine (@store_show_roundtrip demo_phy 0 demo_xcvr 2 ltac:(cbn; lia) demo_parse demo_parse_u8 Vod 1 (lit "20") a' 1 (λ _ _, 0) 0 phy_start _ ltac:(lia) ltac:(lia)).
    exists 0. split; [done|]. cbn. unfold is_u32. split_and!; intros; lia. }
  split; [destruct (wp_val _ _ _ _ ("000"%char, 20) (Hx Vod) ltac:(vm_compute; reflexivity)) as (s' & He & _)|
          destruct (wp_val _ _ _ _ ("000"%char, 0) (Hx Comp) ltac:(vm_compute; reflexivity)) as (s' & He & _)]; unfold demo_tune; by rewrite He.
Defined.
(** A magnitude of 0 is shown after the character 0. *)
Example zero_tap_shown : demo_tune PreTap 0 "-0" PreTap 0 = Some ("000"%char, 0).
Proof. vm_compute. reflexivity. Qed.
Example negative_tap_shown : demo_tune PostTap 3 "-24" PostTap 3 = Some ("-"%char, 24).
Proof. vm_compute. reflexivity. Qed.
