(* ===== verification/S10Hssi.v ===== *)
(** * Network devices of the Stratix 10 MAC (drivers/net/ethernet/intel/s10hssi.c)

    A feature driver with a network device that sends nothing: it shows the link and
    the statistics of the MAC, whose registers are a register map ([Regmap]) over the
    mailbox of [IndirectReg]. *)
From stdpp Require Import list strings relations.
From S2P Require Import Prelude DflRegs Mmio Regmap.

(* drivers/net/ethernet/intel/s10hssi.c:18-18 CAPABILITY_OFF *)
Definition CAPABILITY_OFF : Z := 0x08.
(* drivers/net/ethernet/intel/s10hssi.c:20-20 CAP_CONTAINS_PCS *)
Definition CAP_CONTAINS_PCS : field := GENMASK_ULL 15 8.
(* drivers/net/ethernet/intel/s10hssi.c:21-21 CAP_CONTAINS_FEC *)
Definition CAP_CONTAINS_FEC : field := GENMASK_ULL 23 16.
(* drivers/net/ethernet/intel/s10hssi.c:23-23 CAP_RATE_10G *)
Definition CAP_RATE_10G : Z := 2 ^ 1.
(* drivers/net/ethernet/intel/s10hssi.c:27-27 CAP_RATE_100G *)
Definition CAP_RATE_100G : Z := 2 ^ 5.
(* drivers/net/ethernet/intel/s10hssi.c:33-33 PHY_BASE_OFF *)
Definition PHY_BASE_OFF : Z := 0x2000.
(* drivers/net/ethernet/intel/s10hssi.c:34-34 PHY_RX_LOCKED_OFF *)
Definition PHY_RX_LOCKED_OFF : Z := 0x480.
(* drivers/net/ethernet/intel/s10hssi.c:35-35 PHY_RX_LOCKED_DATA *)
Definition PHY_RX_LOCKED_DATA : Z := 3.
(* drivers/net/ethernet/intel/s10hssi.c:37-37 PHY_RX_SER_LOOP_BACK *)
Definition PHY_RX_SER_LOOP_BACK : Z := 0x4e1.
(* drivers/net/ethernet/intel/s10hssi.c:38-38 PHY_MAX_OFF *)
Definition PHY_MAX_OFF : Z := 0x541.
(* drivers/net/ethernet/intel/s10hssi.c:40-40 ILL_10G_BASE_OFF *)
Definition ILL_10G_BASE_OFF : Z := 0.
(* drivers/net/ethernet/intel/s10hssi.c:41-41 ILL_10G_MAX_OFF *)
Definition ILL_10G_MAX_OFF : Z := 0x1d00.
(* drivers/net/ethernet/intel/s10hssi.c:42-42 ILL_10G_TX_STATS_CLR *)
Definition ILL_10G_TX_STATS_CLR : Z := 0x1c00.
(* drivers/net/ethernet/intel/s10hssi.c:43-43 ILL_10G_RX_STATS_CLR *)
Definition ILL_10G_RX_STATS_CLR : Z := 0x0c00.
(* drivers/net/ethernet/intel/s10hssi.c:45-45 ILL_100G_BASE_OFF *)
Definition ILL_100G_BASE_OFF : Z := 0x400.
(* drivers/net/ethernet/intel/s10hssi.c:46-46 ILL_100G_MAX_OFF *)
Definition ILL_100G_MAX_OFF : Z := 0x9ff.
(* drivers/net/ethernet/intel/s10hssi.c:47-47 ILL_100G_TX_STATS_CLR *)
Definition ILL_100G_TX_STATS_CLR : Z := 0x845.
(* drivers/net/ethernet/intel/s10hssi.c:48-48 ILL_100G_RX_STATS_CLR *)
Definition ILL_100G_RX_STATS_CLR : Z := 0x945.
(* drivers/net/ethernet/intel/s10hssi.c:50-50 ILL_100G_PHY_BASE_OFF *)
Definition ILL_100G_PHY_BASE_OFF : Z := 0x300.
(* drivers/net/ethernet/intel/s10hssi.c:51-51 ILL_100G_RX_PCS_ALN_OFF *)
Definition ILL_100G_RX_PCS_ALN_OFF : Z := 0x326.
(* drivers/net/ethernet/intel/s10hssi.c:52-52 ILL_100G_RX_RCS_ALIGNED *)
Definition ILL_100G_RX_RCS_ALIGNED : Z := 1.
(* drivers/net/ethernet/intel/s10hssi.c:54-54 ILL_100G_LPBK_OFF *)
Definition ILL_100G_LPBK_OFF : Z := 0x313.
(* drivers/net/ethernet/intel/s10hssi.c:55-55 ILL_100G_LPBK_EN_VAL *)
Definition ILL_100G_LPBK_EN_VAL : Z := 0xffff.
(* drivers/net/ethernet/intel/s10hssi.c:57-57 ILL_100G_PHY_MAX_OFF *)
Definition ILL_100G_PHY_MAX_OFF : Z := 0x3ff.
(* drivers/net/ethernet/intel/s10hssi.c:59-59 ILL_100G_TX_FEC_OFF *)
Definition ILL_100G_TX_FEC_OFF : Z := 0xc00.
(* drivers/net/ethernet/intel/s10hssi.c:60-60 ILL_100G_TX_FEC_MAX_OFF *)
Definition ILL_100G_TX_FEC_MAX_OFF : Z := 0xc07.
(* drivers/net/ethernet/intel/s10hssi.c:62-62 ILL_100G_RX_FEC_OFF *)
Definition ILL_100G_RX_FEC_OFF : Z := 0xd00.
(* drivers/net/ethernet/intel/s10hssi.c:63-63 ILL_100G_RX_FEC_ST *)
Definition ILL_100G_RX_FEC_ST : Z := 0xd06.
(* drivers/net/ethernet/intel/s10hssi.c:64-64 ILL_100G_RX_FEC_ST_ALN *)
Definition ILL_100G_RX_FEC_ST_ALN : Z := 2 ^ 4.
(* drivers/net/ethernet/intel/s10hssi.c:65-65 ILL_100G_RX_FEC_MAX_OFF *)
Definition ILL_100G_RX_FEC_MAX_OFF : Z := 0xd08.
(** Of the kernel. *)
Definition ETH_RESET_MGMT : Z := 1.
Definition NETIF_F_LOOPBACK : Z := 2 ^ 40.
Definition ETH_SS_STATS : Z := 1.

(** ** The tables *)
(** A counter: the address of its low word and its name. *)
(* drivers/net/ethernet/intel/s10hssi.c:182-185 stat_info *)
Definition stat_info : Type := Z * string.
(* drivers/net/ethernet/intel/s10hssi.c:190-254 stats_10g *)
Definition stats_10g : list stat_info :=
  [(0x1c02, "tx_frame_ok"); (0x1c04, "tx_frame_err"); (0x1c06, "tx_frame_crc_err"); (0x1c08, "tx_octets_ok"); (0x1c0a, "tx_pause_mac_ctrl_frames");
   (0x1c0c, "tx_if_err"); (0x1c0e, "tx_unicast_frame_ok"); (0x1c10, "tx_unicast_frame_err"); (0x1c12, "tx_multicast_frame_ok"); (0x1c14, "tx_multicast_frame_err");
   (0x1c16, "tx_broadcast_frame_ok"); (0x1c18, "tx_broadcast_frame_err"); (0x1c1a, "tx_ether_octets"); (0x1c1c, "tx_ether_pkts"); (0x1c1e, "tx_ether_undersize_pkts");
   (0x1c20, "tx_ether_oversize_pkts"); (0x1c22, "tx_ether_pkts_64_octets"); (0x1c24, "tx_ether_pkts_65_127_octets"); (0x1c26, "tx_ether_pkts_128_255_octets"); (0x1c28, "tx_ether_pkts_256_511_octets");
   (0x1c2a, "tx_ether_pkts_512_1023_octets"); (0x1c2c, "tx_ether_pkts_1024_1518_octets"); (0x1c2e, "tx_ether_pkts_1519_x_octets"); (0x1c30, "tx_ether_fragments"); (0x1c32, "tx_ether_jabbers");
   (0x1c34, "tx_ether_crc_err"); (0x1c36, "tx_unicast_mac_ctrl_frames"); (0x1c38, "tx_multicast_mac_ctrl_frames"); (0x1c3a, "tx_broadcast_mac_ctrl_frames"); (0x1c3c, "tx_pfc_mac_ctrl_frames");
   (0x0c02, "rx_frame_ok"); (0x0c04, "rx_frame_err"); (0x0c06, "rx_frame_crc_err"); (0x0c08, "rx_octets_ok"); (0x0c0a, "rx_pause_mac_ctrl_frames");
   (0x0c0c, "rx_if_err"); (0x0c0e, "rx_unicast_frame_ok"); (0x0c10, "rx_unicast_frame_err"); (0x0c12, "rx_multicast_frame_ok"); (0x0c14, "rx_multicast_frame_err");
   (0x0c16, "rx_broadcast_frame_ok"); (0x0c18, "rx_broadcast_frame_err"); (0x0c1a, "rx_ether_octets"); (0x0c1c, "rx_ether_pkts"); (0x0c1e, "rx_ether_undersize_pkts");
   (0x0c20, "rx_ether_oversize_pkts"); (0x0c22, "rx_ether_pkts_64_octets"); (0x0c24, "rx_ether_pkts_65_127_octets"); (0x0c26, "rx_ether_pkts_128_255_octets"); (0x0c28, "rx_ether_pkts_256_511_octets");
   (0x0c2a, "rx_ether_pkts_512_1023_octets"); (0x0c2c, "rx_ether_pkts_1024_1518_octets"); (0x0c2e, "rx_ether_pkts_1519_x_octets"); (0x0c30, "rx_ether_fragments"); (0x0c32, "rx_ether_jabbers");
   (0x0c34, "rx_ether_crc_err"); (0x0c36, "rx_unicast_mac_ctrl_frames"); (0x0c38, "rx_multicast_mac_ctrl_frames"); (0x0c3a, "rx_broadcast_mac_ctrl_frames"); (0x0c3c, "rx_pfc_mac_ctrl_frames")]%string.
(* drivers/net/ethernet/intel/s10hssi.c:376-438 stats_100g *)
Definition stats_100g : list stat_info :=
  [(0x800, "tx_fragments"); (0x802, "tx_jabbers"); (0x804, "tx_crcerr"); (0x806, "tx_crcerr_sizeok"); (0x808, "tx_mcast_data_err");
   (0x80a, "tx_bcast_data_err"); (0x80c, "tx_ucast_data_err"); (0x80e, "tx_mcast_ctrl_err"); (0x810, "tx_bcast_ctrl_err"); (0x812, "tx_ucast_ctrl_err");
   (0x814, "tx_pause_err"); (0x816, "tx_64b"); (0x818, "tx_65to127b"); (0x81a, "tx_128to255b"); (0x81c, "tx_256to511b");
   (0x81e, "tx_512to1023b"); (0x820, "tx_1024to1518b"); (0x822, "tx_1519tomaxb"); (0x824, "tx_oversize"); (0x836, "tx_st");
   (0x826, "tx_mcast_data_ok"); (0x828, "tx_bcast_data_ok"); (0x82a, "tx_ucast_data_ok"); (0x82c, "tx_mcast_ctrl_ok"); (0x82e, "tx_bcast_ctrl_ok");
   (0x830, "tx_ucast_ctrl_ok"); (0x832, "tx_pause"); (0x860, "tx_payload_octets_ok"); (0x862, "tx_frame_octets_ok"); (0x900, "rx_fragments");
   (0x902, "rx_jabbers"); (0x904, "rx_crcerr"); (0x906, "rx_crcerr_sizeok"); (0x908, "rx_mcast_data_err"); (0x90a, "rx_bcast_data_err");
   (0x90c, "rx_ucast_data_err"); (0x90e, "rx_mcast_ctrl_err"); (0x910, "rx_bcast_ctrl_err"); (0x912, "rx_ucast_ctrl_err"); (0x914, "rx_pause_err");
   (0x916, "rx_64b"); (0x918, "rx_65to127b"); (0x91a, "rx_128to255b"); (0x91c, "rx_256to511b"); (0x91e, "rx_512to1023b");
   (0x920, "rx_1024to1518b"); (0x922, "rx_1519tomaxb"); (0x924, "rx_oversize"); (0x936, "rx_st"); (0x926, "rx_mcast_data_ok");
   (0x928, "rx_bcast_data_ok"); (0x92a, "rx_ucast_data_ok"); (0x92c, "rx_mcast_ctrl_ok"); (0x92e, "rx_bcast_ctrl_ok"); (0x930, "rx_ucast_ctrl_ok");
   (0x932, "rx_pause"); (0x960, "rx_payload_octets_ok"); (0x962, "rx_frame_octets_ok")]%string.
(* drivers/net/ethernet/intel/s10hssi.c:76-85 s10hssi_ops_params *)
Record s10hssi_ops_params := OpsParams {
  op_stats : list stat_info;
  op_tx_clr_off : Z;
  op_rx_clr_off : Z;
  op_lpbk_off : Z;
  op_lpbk_en_val : Z;
  op_link_off : Z;
  op_link_mask : Z;
}.
(* drivers/net/ethernet/intel/s10hssi.c:355-364 s10hssi_params *)
Definition s10hssi_params : s10hssi_ops_params :=
  OpsParams stats_10g ILL_10G_TX_STATS_CLR ILL_10G_RX_STATS_CLR (PHY_BASE_OFF + PHY_RX_SER_LOOP_BACK) 1 (PHY_BASE_OFF + PHY_RX_LOCKED_OFF) PHY_RX_LOCKED_DATA.
(** The link is set by the probe. *)
(* drivers/net/ethernet/intel/s10hssi.c:440-447 intel_ll_100g_params *)
Definition intel_ll_100g_params (link_off link_mask : Z) : s10hssi_ops_params :=
  OpsParams stats_100g ILL_100G_TX_STATS_CLR ILL_100G_RX_STATS_CLR ILL_100G_LPBK_OFF ILL_100G_LPBK_EN_VAL link_off link_mask.
(** Ranges of registers, with both ends. *)
(* drivers/net/ethernet/intel/s10hssi.c:366-369 regmap_range_10g *)
Definition regmap_range_10g : list (Z * Z) := [(ILL_10G_BASE_OFF, ILL_10G_MAX_OFF); (PHY_BASE_OFF, PHY_BASE_OFF + PHY_MAX_OFF)].
(* drivers/net/ethernet/intel/s10hssi.c:449-454 regmap_range_100g *)
Definition regmap_range_100g : list (Z * Z) :=
  [(ILL_100G_PHY_BASE_OFF, ILL_100G_PHY_MAX_OFF); (ILL_100G_BASE_OFF, ILL_100G_MAX_OFF);
   (ILL_100G_TX_FEC_OFF, ILL_100G_TX_FEC_MAX_OFF); (ILL_100G_RX_FEC_OFF, ILL_100G_RX_FEC_MAX_OFF)].
(** What a map with a table of ranges and a last register lets through. *)
Definition reg_allowed (ranges : list (Z * Z)) (max_register reg : Z) : bool :=
  (0 <=? reg) && (reg <=? max_register) && existsb (λ r, (r.1 <=? reg) && (reg <=? r.2)) ranges.

Section S10Hssi.
Context `{Regmap} (tries : nat).
(** The device and what the driver keeps of it. *)
(* drivers/net/ethernet/intel/s10hssi.c:87-92 s10hssi_netdata *)
Record netdata := Netdata {
  np_regmap : rmst;
  np_ops_params : s10hssi_ops_params;
  np_link_status : Z;
  np_carrier : bool;
  np_mtu : Z;
  np_features : Z;
  np_dev_addr : list Z;
}.
Implicit Types s : netdata.
Definition set_np_regmap r s := Netdata r (np_ops_params s) (np_link_status s) (np_carrier s) (np_mtu s) (np_features s) (np_dev_addr s).
Definition set_np_link l c s := Netdata (np_regmap s) (np_ops_params s) l c (np_mtu s) (np_features s) (np_dev_addr s).
Definition on_map {A} (m : M rmst A) : M netdata A := zoom np_regmap set_np_regmap m.
(** A read whose result is not looked at: without a value the variable keeps what it
    had, here nothing. *)
Definition read_value (reg : Z) : M netdata (option Z) :=
  r ← attempt (on_map (regmap_read reg));
  mret (match (r : Z + Z) with inl _ => None | inr v => Some v end).
(* drivers/net/ethernet/intel/s10hssi.c:94-114 poll_work *)
Definition poll_work : M netdata unit :=
  s ← get;
  let params := np_ops_params s in
  v ← read_value (op_link_off params);
  let link_status := Z.land (default 0 (v : option Z)) (op_link_mask params) in
  if link_status =? np_link_status s then mret tt else
  modify (set_np_link link_status (link_status =? op_link_mask params)).
(* drivers/net/ethernet/intel/s10hssi.c:124-129 netdev_change_mtu *)
Definition netdev_change_mtu (new_mtu : Z) : M netdata unit :=
  modify (λ s, Netdata (np_regmap s) (np_ops_params s) (np_link_status s) (np_carrier s) new_mtu (np_features s) (np_dev_addr s)).
(* drivers/net/ethernet/intel/s10hssi.c:131-140 netdev_set_loopback *)
Definition netdev_set_loopback (en : bool) : M netdata unit :=
  s ← get;
  on_map (regmap_write (op_lpbk_off (np_ops_params s)) (if en then op_lpbk_en_val (np_ops_params s) else 0)).
(* drivers/net/ethernet/intel/s10hssi.c:142-151 netdev_set_features *)
Definition netdev_set_features (features : Z) : M netdata unit :=
  s ← get;
  let changed := Z.lxor (np_features s) features in
  if negb (Z.land changed NETIF_F_LOOPBACK =? 0) then netdev_set_loopback (negb (Z.land features NETIF_F_LOOPBACK =? 0)) else mret tt.
(* drivers/net/ethernet/intel/s10hssi.c:153-162 netdev_set_mac_address *)
Definition netdev_set_mac_address (sa_data : list Z) : M netdata unit :=
  modify (λ s, Netdata (np_regmap s) (np_ops_params s) (np_link_status s) (np_carrier s) (np_mtu s) (np_features s) (take 6 sa_data)).
(** The names, each for a slot of the buffer. *)
(* drivers/net/ethernet/intel/s10hssi.c:256-274 ethtool_get_strings *)
Definition ethtool_get_strings (stringset : Z) : M netdata (list string) :=
  s ← get; mret (if stringset =? ETH_SS_STATS then (op_stats (np_ops_params s)).*2 else []).
(* drivers/net/ethernet/intel/s10hssi.c:276-287 ethtool_get_sset_count *)
Definition ethtool_get_sset_count (stringset : Z) : M netdata Z :=
  s ← get; mret (if stringset =? ETH_SS_STATS then Z.of_nat (length (op_stats (np_ops_params s))) else 0).
(** Both words are variables without a value before they are read. *)
(* drivers/net/ethernet/intel/s10hssi.c:289-297 read_mac_stat *)
Definition read_mac_stat (addr : Z) : M netdata Z :=
  data_l ← read_value addr;
  data_h ← read_value (addr + 1);
  data_l ← access data_l;
  data_h ← access data_h;
  mret (u64 (u32 data_l + Z.shiftl (u32 data_h) 32)).
(** Clearing the counters of one direction. *)
Definition clear_stats (reg : Z) : M netdata unit :=
  _ ← status (on_map (regmap_write reg 1));
  r ← on_map (regmap_read_poll_timeout reg (λ val, val =? 0) tries);
  rc (r : Z * Z).1.
(* drivers/net/ethernet/intel/s10hssi.c:299-332 ethtool_reset *)
Definition ethtool_reset (flags : Z) : M netdata unit :=
  s ← get;
  if negb (Z.lor flags ETH_RESET_MGMT =? 0) then
    clear_stats (op_tx_clr_off (np_ops_params s)) ;;
    clear_stats (op_rx_clr_off (np_ops_params s))
  else mret tt.
Fixpoint stats_loop (stats : list stat_info) : M netdata (list Z) :=
  match stats with
  | [] => mret []
  | (addr, _) :: stats => v ← read_mac_stat addr; vs ← stats_loop stats; mret (v :: vs)
  end.
(* drivers/net/ethernet/intel/s10hssi.c:334-346 ethtool_get_stats *)
Definition ethtool_get_stats : M netdata (list Z) :=
  s ← get;
  data ← stats_loop (op_stats (np_ops_params s));
  _ ← status (ethtool_reset ETH_RESET_MGMT);
  mret data.
End S10Hssi.

(** ** Probe and removal

    [sk_ioremap] and the error of [sk_regmap] are error pointers, [None] is a NULL
    pointer; the code tests only for the latter. *)
Class S10Kernel `{Regmap} := {
  sk : Type;
  sk_kzalloc : sk → bool * sk;
  sk_ioremap : sk → bool * sk;
  sk_alloc_netdev : sk → bool * sk;
  sk_capability : sk → Z * sk;
  sk_kmalloc : sk → bool * sk;
  sk_regmap : sk → option (Z + rmap) * sk;
  sk_register_netdev : sk → Z * sk;
}.
Section S10Probe.
Context `{S10Kernel} (tries : nat).
(** The network device: allocated, registered; the timer that polls the link. *)
Record s10_probe := S10Probe {
  sp_k : sk;
  sp_allocated : bool;
  sp_net : option netdata;
  sp_registered : bool;
  sp_timer : bool;
}.
Implicit Types s : s10_probe.
Definition sp_op {A} (f : sk → A * sk) : M s10_probe A := λ s,
  let (a, k) := f (sp_k s) in Done (Val a, S10Probe k (sp_allocated s) (sp_net s) (sp_registered s) (sp_timer s)).
Definition on_net (m : M netdata unit) : M s10_probe unit := λ s,
  match sp_net s with
  | None => Fault
  | Some n =>
      match m n with
      | Done (r, n) => Done (r, S10Probe (sp_k s) (sp_allocated s) (Some n) (sp_registered s) (sp_timer s))
      | Fault => Fault
      | NoFuel => NoFuel
      end
  end.
(** What the capability register says of the MAC. *)
Definition params_of (val : Z) : option s10hssi_ops_params :=
  let pcs_speed := FIELD_GET CAP_CONTAINS_PCS val in
  if pcs_speed =? CAP_RATE_10G then Some s10hssi_params
  else if pcs_speed =? CAP_RATE_100G then
    Some (if negb (FIELD_GET CAP_CONTAINS_FEC val =? 0) then intel_ll_100g_params ILL_100G_RX_FEC_ST ILL_100G_RX_FEC_ST_ALN
          else intel_ll_100g_params ILL_100G_RX_PCS_ALN_OFF ILL_100G_RX_RCS_ALIGNED)
  else None.
(* drivers/net/ethernet/intel/s10hssi.c:475-582 s10hssi_mac_probe *)
Definition s10hssi_mac_probe : M s10_probe unit :=
  ok ← sp_op sk_kzalloc;
  if negb ok then throw (- ENOMEM) else
  mapped ← sp_op sk_ioremap;
  ok ← sp_op sk_alloc_netdev;
  if negb ok then throw (- ENOMEM) else
  modify (λ s, S10Probe (sp_k s) true (sp_net s) (sp_registered s) (sp_timer s)) ;;
  access (if mapped : bool then Some tt else None) ;;
  val ← sp_op sk_capability;
  match params_of val with
  | None => throw (- EINVAL)
  | Some params =>
      ok ← (if FIELD_GET CAP_CONTAINS_PCS val =? CAP_RATE_10G then mret true else sp_op sk_kmalloc);
      if negb ok then throw (- ENOMEM) else
      regmap ← sp_op sk_regmap;
      match (regmap : option (Z + rmap)) with
      | None => throw (- ENOMEM)
      | Some regmap =>
          regmap ← access (match regmap with inl _ => None | inr r => Some r end);
          modify (λ s, S10Probe (sp_k s) (sp_allocated s) (Some (Netdata (Rm regmap []) params 0 true 1500 0 (replicate 6 0))) (sp_registered s) (sp_timer s)) ;;
          _ ← status (on_net (ethtool_reset tries ETH_RESET_MGMT));
          ret ← sp_op sk_register_netdev;
          modify (λ s, S10Probe (sp_k s) (sp_allocated s) (sp_net s) (ret =? 0) (sp_timer s)) ;;
          on_net (modify (λ n, set_np_link (np_link_status n) false n)) ;;
          modify (λ s, S10Probe (sp_k s) (sp_allocated s) (sp_net s) (sp_registered s) true) ;;
          rc ret
      end
  end.
(** Unregistering the device frees it. *)
(* drivers/net/ethernet/intel/s10hssi.c:584-591 s10hssi_mac_remove *)
Definition s10hssi_mac_remove : M s10_probe unit :=
  modify (λ s, S10Probe (sp_k s) false None false (sp_timer s)) ;;
  modify (λ s, S10Probe (sp_k s) (sp_allocated s) (sp_net s) (sp_registered s) false).
End S10Probe.

(** ** The accesses of the operations *)
Section NetFacts.
Context `{Regmap} (tries : nat).
Implicit Types s : netdata.
Definition np_log s : list rm_io := rm_log (np_regmap s).
(** A variant of the hardware: the ranges that its register map lets through hold every
    register that its operations name. *)
Definition regs_of (params : s10hssi_ops_params) : list Z :=
  ((λ st, st.1) <$> op_stats params) ++ ((λ st, st.1 + 1) <$> op_stats params) ++
  [op_tx_clr_off params; op_rx_clr_off params; op_lpbk_off params; op_link_off params].
Definition io_reg (e : rm_io) : Z := match e with RmRead reg _ => reg | RmWrite reg _ _ => reg end.
Lemma variants_allowed :
  Forall (λ r, reg_allowed regmap_range_10g (PHY_BASE_OFF + PHY_MAX_OFF) r = true) (regs_of s10hssi_params) ∧
  Forall (λ r, reg_allowed regmap_range_100g ILL_100G_RX_FEC_MAX_OFF r = true) (regs_of (intel_ll_100g_params ILL_100G_RX_FEC_ST ILL_100G_RX_FEC_ST_ALN)) ∧
  Forall (λ r, reg_allowed regmap_range_100g ILL_100G_RX_FEC_MAX_OFF r = true) (regs_of (intel_ll_100g_params ILL_100G_RX_PCS_ALN_OFF ILL_100G_RX_RCS_ALIGNED)).
Proof. split_and!; apply (bool_decide_unpack _); vm_compute; exact I. Qed.
(** The names of the counters are different and fit their slots. *)
Lemma names_ok : Forall (λ t : list stat_info, NoDup t.*2 ∧ NoDup t.*1 ∧ Forall (λ n, (String.length n < 32)%nat) t.*2) [stats_10g; stats_100g].
Proof.
  assert (Hb : ∀ t : list stat_info, bool_decide (NoDup t.*2 ∧ NoDup t.*1 ∧ Forall (λ n, (String.length n < 32)%nat) t.*2) = true →
    NoDup t.*2 ∧ NoDup t.*1 ∧ Forall (λ n, (String.length n < 32)%nat) t.*2) by (by intros t ?%bool_decide_eq_true).
  constructor; [|constructor; [|constructor]]; apply Hb; vm_compute; reflexivity.
Qed.

(** What every operation keeps: the variant, that all accesses name its registers, and
    that the carrier is on just when the link was last seen with all its bits. *)
Definition accesses_in (params : s10hssi_ops_params) (l : list rm_io) : Prop := Forall (λ e, io_reg e ∈ regs_of params) l.
Definition kept s s' : Prop :=
  np_ops_params s' = np_ops_params s ∧ ∃ l, np_log s' = np_log s ++ l ∧ accesses_in (np_ops_params s) l.
Definition link_kept s s' : Prop := kept s s' ∧ np_link_status s' = np_link_status s ∧ np_carrier s' = np_carrier s.
Lemma link_kept_refl s : link_kept s s.
Proof. split_and!; [|done|done]. split; [done|]. exists []. rewrite app_nil_r. by split; [|constructor]. Qed.
Lemma kept_trans s1 s2 s3 : kept s1 s2 → kept s2 s3 → kept s1 s3.
Proof.
  intros [Hp1 (l1 & Hl1 & Ha1)] [Hp2 (l2 & Hl2 & Ha2)]. split; [congruence|]. exists (l1 ++ l2). rewrite Hl2, Hl1, app_assoc. split; [done|].
  apply Forall_app. split; [done|]. by rewrite <- Hp1.
Qed.
Lemma link_kept_trans s1 s2 s3 : link_kept s1 s2 → link_kept s2 s3 → link_kept s1 s3.
Proof. intros (K1 & L1 & C1) (K2 & L2 & C2). split_and!; [by eapply kept_trans|congruence|congruence]. Qed.
End NetFacts.
Section NetOps.
Context `{Regmap} (tries : nat) {F N : Prop}.
Implicit Types s : netdata.
Lemma map_read_spec reg s (Q : Z → netdata → Prop) (E : Z → netdata → Prop) :
  reg ∈ regs_of (np_ops_params s) → (∀ v s', link_kept s s' → Q v s') → (∀ e s', link_kept s s' → E e s') → wpg F N (on_map (regmap_read reg)) Q E s.
Proof.
  intros Hr HQ HE. apply wp_zoom. unfold regmap_read. destruct (rm_read reg (rm_dev (np_regmap s))) as [[e|v] d]; [apply HE|apply HQ];
    (split_and!; [|done|done]; split; [done|]; eexists; split; [done|by constructor]).
Qed.
Lemma map_write_spec reg v s (Q : unit → netdata → Prop) (E : Z → netdata → Prop) :
  reg ∈ regs_of (np_ops_params s) → (∀ s', link_kept s s' → Q tt s') → (∀ e s', link_kept s s' → E e s') → wpg F N (on_map (regmap_write reg v)) Q E s.
Proof.
  intros Hr HQ HE. apply wp_zoom. unfold regmap_write. destruct (rm_write reg v (rm_dev (np_regmap s))) as [ret d]. destruct (ret =? 0); [apply HQ|apply HE];
    (split_and!; [|done|done]; split; [done|]; eexists; split; [done|by constructor]).
Qed.
Lemma read_value_spec reg s (Q : option Z → netdata → Prop) E :
  reg ∈ regs_of (np_ops_params s) → (∀ v s', link_kept s s' → Q v s') → wpg F N (read_value reg) Q E s.
Proof. intros Hr HQ. unfold read_value. wsteps. apply map_read_spec; [done|..]; intros; wsteps; by apply HQ. Qed.
Lemma poll_kept reg n s :
  reg ∈ regs_of (np_ops_params s) → wpg F N (on_map (regmap_read_poll_timeout reg (λ val, val =? 0) n)) (λ _, link_kept s) (λ _, link_kept s) s.
Proof.
  intros Hr. apply wp_zoom. unfold regmap_read_poll_timeout. set (r := np_regmap s).
  assert (Hpoll : ∀ n (r : rmst), wp (read_poll_timeout (regmap_read reg) (λ val, val =? 0) n) (λ _ r', ∃ l, rm_log r' = rm_log r ++ l ∧ Forall (λ e, io_reg e = reg) l)
    (λ _ r', ∃ l, rm_log r' = rm_log r ++ l ∧ Forall (λ e, io_reg e = reg) l) r).
  { clear. intros n. induction n as [|n IH]; intros r; cbn [read_poll_timeout]; wstep; apply regmap_read_spec; intros v d; try (eexists; split; [done|by repeat constructor]);
      (destruct (v =? 0); wsteps; [eexists; split; [done|by repeat constructor]|]).
    - apply regmap_read_spec; intros w d'; wsteps; cbn [rm_log]; rewrite <- app_assoc; eexists; (split; [done|by repeat constructor]).
    - eapply wp_mono; [apply IH|..]; cbv beta; cbn [rm_log]; intros a r' (l & Hl & Ha); rewrite <- app_assoc in Hl; eexists; (split; [done|by constructor]). }
  specialize (Hpoll n r). unfold wpg in Hpoll. destruct (read_poll_timeout _ _ _ r) as [[[x|e] r']| |]; try done; destruct Hpoll as (l & Hl & Ha);
    (split_and!; [|done|done]; split; [done|]; exists l; split; [done|]; eapply Forall_impl; [|exact Ha]; cbv beta; by intros ? ->).
Qed.
Lemma clear_stats_kept reg s :
  reg ∈ regs_of (np_ops_params s) → wpg F N (clear_stats tries reg) (λ _, link_kept s) (λ _, link_kept s) s.
Proof.
  intros Hr. unfold clear_stats. wsteps. apply map_write_spec; [done|..]; [intros s1 H1|intros e s1 H1]; (wstep; eapply wp_mono; [apply poll_kept; by rewrite (proj1 (proj1 H1))|..]; cbv beta;
    [intros [ret v] s2 H2; wsteps; intros _; by eapply link_kept_trans|intros e2 s2 H2; by eapply link_kept_trans]).
Qed.
Lemma reset_kept flags s : wpg F N (ethtool_reset tries flags) (λ _, link_kept s) (λ _, link_kept s) s.
Proof.
  unfold ethtool_reset. wsteps. destruct (negb _); wsteps; [|apply link_kept_refl].
  assert (Hin : op_tx_clr_off (np_ops_params s) ∈ regs_of (np_ops_params s) ∧ op_rx_clr_off (np_ops_params s) ∈ regs_of (np_ops_params s)).
  { unfold regs_of. rewrite !elem_of_app. split; right; right; set_solver. }
  eapply wp_mono; [apply clear_stats_kept, Hin|..]; cbv beta; [|done]. intros _ s1 H1.
  eapply wp_mono; [apply clear_stats_kept; rewrite (proj1 (proj1 H1)); apply Hin|..]; cbv beta; [intros _ s2 H2|intros e s2 H2]; by eapply link_kept_trans.
Qed.
End NetOps.
Section StatFacts.
Context `{Regmap} (tries : nat).
Implicit Types s : netdata.
Lemma stats_kept stats s :
  Forall (λ st : stat_info, st.1 ∈ regs_of (np_ops_params s) ∧ st.1 + 1 ∈ regs_of (np_ops_params s)) stats →
  wlp (stats_loop stats) (λ _, link_kept s) (λ _, link_kept s) s.
Proof.
  intros Hs. remember (np_ops_params s) as params eqn:Hp. revert s Hp. induction Hs as [|[addr name] stats [H1 H2] _ IH]; intros s Hp; cbn [stats_loop]; wsteps; [apply link_kept_refl|].
  cbn [fst] in *. unfold read_mac_stat. wstep. apply read_value_spec; [by rewrite <- Hp|]. intros l s1 K1. wstep. apply read_value_spec; [by rewrite (proj1 (proj1 K1)), <- Hp|]. intros h s2 K2.
  wstep. apply wp_access; [|done]. intros x _. wstep. apply wp_access; [|done]. intros y _. wsteps.
  assert (K : link_kept s s2) by (by eapply link_kept_trans).
  eapply wp_mono; [apply IH; by rewrite (proj1 (proj1 K))|..]; cbv beta; [intros vs s3 K3; wsteps|intros e s3 K3]; by eapply link_kept_trans.
Qed.
Lemma get_stats_kept s : wlp (ethtool_get_stats tries) (λ _, link_kept s) (λ _, link_kept s) s.
Proof.
  unfold ethtool_get_stats. wsteps. eapply wp_mono; [apply stats_kept|..]; cbv beta; [|intros data s1 K1|done].
  - apply list.Forall_forall. intros st Hst. unfold regs_of. rewrite !elem_of_app, !list_elem_of_fmap. split; [left|right; left]; by exists st.
  - wsteps. eapply wp_mono; [apply reset_kept|..]; cbv beta; intros a s2 K2; wsteps; by eapply link_kept_trans.
Qed.
End StatFacts.

(** ** Sequences of operations *)
Section NetRuns.
Context `{Regmap} (tries : nat).
Implicit Types s : netdata.
Lemma poll_work_spec s :
  wlp poll_work (λ _ s', kept s s' ∧ ((np_link_status s' = np_link_status s ∧ np_carrier s' = np_carrier s) ∨
    np_carrier s' = (np_link_status s' =? op_link_mask (np_ops_params s)))) (λ _ _, False) s.
Proof.
  unfold poll_work. wstep. wstep. cbv beta zeta. wstep. apply read_value_spec; [unfold regs_of; rewrite !elem_of_app; right; right; set_solver|]. intros v s1 (K & Hl & Hc). rewrite <- Hl.
  destruct (_ =? np_link_status s1); wsteps; [by split; [|left]|]. split; [|by right]. destruct K as [Hp (l & Hlog & Ha)]. split; [done|]. by exists l.
Qed.
Lemma set_features_spec features s : wlp (netdev_set_features features) (λ _, link_kept s) (λ _, link_kept s) s.
Proof.
  unfold netdev_set_features, netdev_set_loopback. wsteps. destruct (negb _); wsteps; [|apply link_kept_refl].
  apply map_write_spec; [unfold regs_of; rewrite !elem_of_app; right; right; set_solver|done|done].
Qed.
(** What the kernel may call, in any order. *)
Inductive net_call := PollWork | SetFeatures (features : Z) | SetMac (addr : list Z) | ChangeMtu (mtu : Z) | Reset (flags : Z) | GetStats.
Definition run_call (c : net_call) : M netdata unit :=
  match c with
  | PollWork => poll_work
  | SetFeatures features => netdev_set_features features
  | SetMac addr => netdev_set_mac_address addr
  | ChangeMtu mtu => netdev_change_mtu mtu
  | Reset flags => ethtool_reset tries flags
  | GetStats => _ ← ethtool_get_stats tries; mret tt
  end.
Inductive net_step : netdata → netdata → Prop :=
  | net_step_run c s r s' : run_call c s = Done (r, s') → net_step s s'.
Definition carrier_ok s : Prop := np_carrier s = (np_link_status s =? op_link_mask (np_ops_params s)).
Lemma run_call_spec c s : wlp (run_call c) (λ _ s', kept s s' ∧ (carrier_ok s → carrier_ok s')) (λ _ s', kept s s' ∧ (carrier_ok s → carrier_ok s')) s.
Proof.
  assert (Hk : ∀ s', link_kept s s' → kept s s' ∧ (carrier_ok s → carrier_ok s')).
  { intros s' (K & Hl & Hc). split; [done|]. unfold carrier_ok. by rewrite Hl, Hc, (proj1 K). }
  assert (Hsame : ∀ s', np_ops_params s' = np_ops_params s → np_log s' = np_log s → np_link_status s' = np_link_status s → np_carrier s' = np_carrier s → kept s s' ∧ (carrier_ok s → carrier_ok s')).
  { intros s' Hp Hl H1 H2. apply Hk. split_and!; [|done|done]. split; [done|]. exists []. rewrite app_nil_r. split; [done|constructor]. }
  destruct c; cbn [run_call].
  - eapply wp_mono; [apply poll_work_spec| |done]. cbv beta. intros _ s' [K Hc]. split; [done|]. unfold carrier_ok. rewrite (proj1 K). by destruct Hc as [[-> ->]|Hc].
  - eapply wp_mono; [apply set_features_spec|..]; cbv beta; auto.
  - unfold netdev_set_mac_address. wsteps. by apply Hsame.
  - unfold netdev_change_mtu. wsteps. by apply Hsame.
  - eapply wp_mono; [apply reset_kept|..]; cbv beta; auto.
  - wsteps. eapply wp_mono; [apply get_stats_kept|..]; cbv beta; intros; wsteps; auto.
Qed.
(** Whatever the kernel calls, in any order and whether or not the calls succeed:
    each access names a register that belongs to the variant of the hardware, which
    its register map lets through, and the carrier is on exactly when the
    link was seen with all its bits when its status was last kept. *)
Lemma net_calls_safe params ranges max_register s0 s :
  np_ops_params s0 = params → np_log s0 = [] → carrier_ok s0 → rtc net_step s0 s →
  Forall (λ r, reg_allowed ranges max_register r = true) (regs_of params) →
  Forall (λ e, reg_allowed ranges max_register (io_reg e) = true) (np_log s) ∧ carrier_ok s.
Proof.
  intros Hp Hl Hc Hsteps Hr. assert (Hkept : kept s0 s ∧ (carrier_ok s0 → carrier_ok s)).
  { clear Hp Hl Hc. induction Hsteps as [s|s1 s2 s3 [c s1' r s2' Hrun] _ [K2 C2]].
    - split; [|done]. split; [done|]. exists []. rewrite app_nil_r. split; [done|constructor].
    - pose proof (wp_done _ _ _ _ _ _ (run_call_spec c s1') Hrun) as Hs. assert (kept s1' s2' ∧ (carrier_ok s1' → carrier_ok s2')) as [K1 C1] by (by destruct r).
      split; [by eapply kept_trans|auto]. }
  destruct Hkept as [[_ (l & Hlog & Ha)] Hco]. split; [|auto]. rewrite Hlog, Hl, Hp in *. cbn [app]. eapply Forall_impl; [|exact Ha]. cbv beta.
  intros e He. exact (proj1 (list.Forall_forall _ _) Hr _ He).
Qed.
End NetRuns.

(** ** The statistics *)

(** The counters of the MAC, which stand still while they are read. *)
Class MacCounters `{Regmap} (stats : list stat_info) := {
  counter : rmap → Z → Z;
  counter_range : ∀ d a, is_u64 (counter d a);
  read_low : ∀ d st, st ∈ stats → ∃ d', rm_read st.1 d = (inr (counter d st.1 mod 2 ^ 32), d') ∧ ∀ a, counter d' a = counter d a;
  read_high : ∀ d st, st ∈ stats → ∃ d', rm_read (st.1 + 1) d = (inr (counter d st.1 / 2 ^ 32), d') ∧ ∀ a, counter d' a = counter d a;
}.
Section Counters.
Context `{MacCounters} (tries : nat).
Implicit Types s : netdata.
Definition counters s (l : list stat_info) : list Z := (λ st, counter (rm_dev (np_regmap s)) st.1) <$> l.
Lemma map_read_run reg v d' s :
  rm_read reg (rm_dev (np_regmap s)) = (inr v, d') → read_value reg s = Done (Val (Some v), set_np_regmap (Rm d' (np_log s ++ [RmRead reg (inr v)])) s).
Proof. intros Hr. unfold read_value, attempt, on_map, zoom, regmap_read, mbind, M_bind. by rewrite Hr. Qed.
Lemma read_mac_stat_exact st s :
  st ∈ stats →
  wp (read_mac_stat st.1) (λ v s', v = counter (rm_dev (np_regmap s)) st.1 ∧ np_ops_params s' = np_ops_params s ∧ ∀ a, counter (rm_dev (np_regmap s')) a = counter (rm_dev (np_regmap s)) a)
    (λ _ _, False) s.
Proof.
  intros Hst. destruct (read_low (rm_dev (np_regmap s)) st Hst) as (d1 & H1 & C1). destruct (read_high d1 st Hst) as (d2 & H2 & C2).
  unfold read_mac_stat. wstep. apply (wp_eq _ _ _ _ _ _ (map_read_run _ _ _ s H1)). wstep. set (s1 := set_np_regmap _ s).
  apply (wp_eq _ _ _ _ _ _ (map_read_run _ _ _ s1 H2)). wstep. apply wp_access; [intros ? [= <-]|done]. wstep. apply wp_access; [intros ? [= <-]|done]. wsteps.
  rewrite C1. pose proof (counter_range (rm_dev (np_regmap s)) st.1) as Hr. unfold is_u64 in Hr. set (c := counter _ st.1) in *.
  pose proof (Z.mod_pos_bound c (2 ^ 32) ltac:(lia)). pose proof (Z.div_mod c (2 ^ 32) ltac:(lia)).
  assert (0 ≤ c / 2 ^ 32 < 2 ^ 32) by (split; [apply Z.div_pos; lia|apply Z.div_lt_upper_bound; lia]).
  split_and!; [|done|intros a; cbn; by rewrite C2, C1]. rewrite !u32_small by (unfold is_u32; lia). rewrite Z.shiftl_mul_pow2 by lia. rewrite u64_small by (unfold is_u64; lia). lia.
Qed.
Lemma stats_loop_exact l s :
  (∀ st, st ∈ l → st ∈ stats) →
  wp (stats_loop l) (λ vs s', vs = counters s l ∧ np_ops_params s' = np_ops_params s ∧ ∀ a, counter (rm_dev (np_regmap s')) a = counter (rm_dev (np_regmap s)) a) (λ _ _, False) s.
Proof.
  revert s. induction l as [|[addr name] l IH]; intros s Hl; cbn [stats_loop]; wsteps; [done|].
  eapply wp_mono; [apply (read_mac_stat_exact (addr, name)), Hl; by left| |done]. cbv beta. cbn [fst]. intros v s1 (-> & Hp1 & C1). wstep.
  eapply wp_mono; [apply IH; intros st Hst; apply Hl; by right| |done]. cbv beta. intros vs s2 (-> & Hp2 & C2). wsteps. unfold counters. cbn [fmap list_fmap fst].
  split_and!; [|congruence|intros a; by rewrite C2]. f_equal. apply list_fmap_ext. intros i st _. apply C1.
Qed.
(** The statistics: when the device has the counters of the table, the call ends, and
    gives for each entry of the table, in order, its counter of 64 bits from both
    words as it was before the call, which also clears the counters. *)
Lemma get_stats_exact s :
  op_stats (np_ops_params s) = stats →
  wp (ethtool_get_stats tries) (λ data s', data = counters s stats ∧
    ∃ l1 ret l2, np_log s' = l1 ++ RmWrite (op_tx_clr_off (np_ops_params s)) 1 ret :: l2) (λ _ _, False) s.
Proof.
  intros Hs. unfold ethtool_get_stats. wsteps. rewrite Hs. eapply wp_mono; [by apply stats_loop_exact| |done]. cbv beta. intros data s1 (-> & Hp & _).
  wsteps. unfold ethtool_reset. wstep. wstep. cbv beta. wif. rewrite Hp. wstep. unfold clear_stats at 1. wstep. wstep.
  unfold wpg at 1, on_map, zoom, regmap_write. destruct (rm_write (op_tx_clr_off (np_ops_params s)) 1 (rm_dev (np_regmap s1))) as [ret d].
  set (s2 := set_np_regmap _ s1).
  assert (Hrest : wp (r ← on_map (regmap_read_poll_timeout (op_tx_clr_off (np_ops_params s)) (λ val, val =? 0) tries); rc (r : Z * Z).1)
    (λ _ s3, wp (clear_stats tries (op_rx_clr_off (np_ops_params s))) (λ _ s', ∃ l, np_log s' = np_log s2 ++ l) (λ _ s', ∃ l, np_log s' = np_log s2 ++ l) s3)
    (λ _ s', ∃ l, np_log s' = np_log s2 ++ l) s2).
  { assert (Hin : op_tx_clr_off (np_ops_params s) ∈ regs_of (np_ops_params s2) ∧ op_rx_clr_off (np_ops_params s) ∈ regs_of (np_ops_params s2)).
    { cbn. rewrite Hp. unfold regs_of. rewrite !elem_of_app. split; right; right; set_solver. }
    wstep. eapply wp_mono; [apply poll_kept, Hin|..]; cbv beta; [|by intros e s3 [[_ (l & Hl & _)] _]; exists l].
    intros [r v] s3 K3. pose proof K3 as [[Hp3 (l3 & Hl3 & _)] _]. wsteps; intros _; [|by exists l3].
    eapply wp_mono; [apply clear_stats_kept; rewrite Hp3; apply Hin|..]; cbv beta; intros a s4 [[_ (l4 & Hl4 & _)] _]; exists (l3 ++ l4); by rewrite Hl4, Hl3, app_assoc. }
  assert (Hend : ∀ s', (∃ l, np_log s' = np_log s2 ++ l) → counters s stats = counters s stats ∧
    ∃ l1 ret l2, np_log s' = l1 ++ RmWrite (op_tx_clr_off (np_ops_params s)) 1 ret :: l2).
  { intros s' [l Hl]. split; [done|]. exists (np_log s1), ret, l. by rewrite Hl; cbn; rewrite <- app_assoc. }
  destruct (ret =? 0); (eapply wp_mono; [exact Hrest|..]; cbv beta; [intros _ s3 H3; eapply wp_mono; [exact H3|..]; cbv beta; intros a s4 H4; wsteps; by apply Hend|intros e s3 H3; wsteps; by apply Hend]).
Qed.
End Counters.

(** ** A concrete MAC

    Of 10G, whose counters are their address and 2^32; its state is that of the link,
    and a read of [fails] fails. *)
Definition demo_mac (fails : Z → bool) : Regmap := {|
  rmap := Z;
  rm_read reg link :=
    if fails reg then (inl (- ETIMEDOUT), link)
    else if (reg =? ILL_10G_TX_STATS_CLR) || (reg =? ILL_10G_RX_STATS_CLR) then (inr 0, link)
    else if reg =? PHY_BASE_OFF + PHY_RX_LOCKED_OFF then (inr link, link)
    else (inr (if Z.even reg then reg else 1), link);
  rm_write reg v link := (0, link);
|}.
Definition no_fail (_ : Z) : bool := false.
Lemma stats_even : Forall (λ st : stat_info, Z.even st.1 = true ∧ Z.even (st.1 + 1) = false ∧ 0 ≤ st.1 < 2 ^ 32 ∧
  ((st.1 =? ILL_10G_TX_STATS_CLR) || (st.1 =? ILL_10G_RX_STATS_CLR)) = false ∧ (st.1 =? PHY_BASE_OFF + PHY_RX_LOCKED_OFF) = false ∧
  ((st.1 + 1 =? ILL_10G_TX_STATS_CLR) || (st.1 + 1 =? ILL_10G_RX_STATS_CLR)) = false ∧ (st.1 + 1 =? PHY_BASE_OFF + PHY_RX_LOCKED_OFF) = false) stats_10g.
Proof. apply (bool_decide_unpack _). vm_compute. exact I. Qed.
#[export] Instance demo_counters : @MacCounters (demo_mac no_fail) stats_10g.
Proof.
  refine (@Build_MacCounters (demo_mac no_fail) stats_10g (λ _ a, a mod 2 ^ 32 + 2 ^ 32) _ _ _).
  - intros d a. unfold is_u64. pose proof (Z.mod_pos_bound a (2 ^ 32) ltac:(lia)). lia.
  - intros d st Hst. destruct (proj1 (list.Forall_forall _ _) stats_even _ Hst) as (E & _ & Hr & C & L & _). exists d. split; [|done].
    cbn [rm_read demo_mac no_fail]. rewrite C, L, E. do 2 f_equal. rewrite <- (Z.mul_1_l (2 ^ 32)) at 2. rewrite Z.mod_add, Z.mod_mod by lia. symmetry. by apply Z.mod_small.
  - intros d st Hst. destruct (proj1 (list.Forall_forall _ _) stats_even _ Hst) as (_ & E & Hr & _ & _ & C & L). exists d. split; [|done].
    cbn [rm_read demo_mac no_fail]. rewrite C, L, E. do 2 f_equal. rewrite (Z.mod_small st.1) by done. symmetry; symmetry. apply (Z.div_unique _ _ 1 st.1); lia.
Defined.
Definition mac_start (fails : Z → bool) (link : Z) : @netdata (demo_mac fails) := @Netdata (demo_mac fails) (@Rm (demo_mac fails) link []) s10hssi_params 0 false 1500 0 [].
Lemma get_stats_exact_witness :
  ∃ data s', @ethtool_get_stats (demo_mac no_fail) 3 (mac_start no_fail 0) = Done (Val data, s') ∧ data = counters (mac_start no_fail 0) stats_10g ∧
    ∃ l1 ret l2, np_log s' = l1 ++ RmWrite ILL_10G_TX_STATS_CLR 1 ret :: l2.
Proof. exact (wp_run _ _ _ (@get_stats_exact (demo_mac no_fail) stats_10g demo_counters 3 (mac_start no_fail 0) eq_refl)). Defined.
Lemma net_calls_safe_witness :
  ∃ s, rtc (@net_step (demo_mac no_fail) 3) (mac_start no_fail 3) s ∧ np_carrier s = true ∧
    Forall (λ e, reg_allowed regmap_range_10g (PHY_BASE_OFF + PHY_MAX_OFF) (io_reg e) = true) (np_log s).
Proof.
  destruct (@run_call (demo_mac no_fail) 3 PollWork (mac_start no_fail 3)) as [[r s]| |] eqn:He; try (exfalso; revert He; vm_compute; discriminate).
  assert (Hsteps : rtc (@net_step (demo_mac no_fail) 3) (mac_start no_fail 3) s) by (apply rtc_once; by eapply net_step_run).
  destruct (@net_calls_safe (demo_mac no_fail) 3 s10hssi_params regmap_range_10g (PHY_BASE_OFF + PHY_MAX_OFF) (mac_start no_fail 3) s eq_refl eq_refl eq_refl Hsteps (proj1 variants_allowed)) as [Ha Hc].
  exists s. split; [exact Hsteps|]. split; [|exact Ha]. rewrite Hc.
  assert (Hv : match @run_call (demo_mac no_fail) 3 PollWork (mac_start no_fail 3) with Done (_, s) => np_link_status s =? op_link_mask (np_ops_params s) | _ => false end = true) by (vm_compute; reflexivity).
  by rewrite He in Hv.
Defined.
(** A reset of nothing clears the counters. *)
Example reset_of_nothing :
  match @ethtool_reset (demo_mac no_fail) 3 0 (mac_start no_fail 0) with Done (_, s) => Some (head (np_log s)) | _ => None end = Some (Some (RmWrite ILL_10G_TX_STATS_CLR 1 0)).
Proof. vm_compute. reflexivity. Qed.
(** A counter that can not be read is what the stack has. *)
Example unread_counter : is_fault (@ethtool_get_stats (demo_mac (λ r, r =? 0x1c02)) 3 (mac_start _ 0)) = true.
Proof. vm_compute. reflexivity. Qed.
(** A kernel whose mapping, capability and registration are given. *)
Definition demo_s10 (mapped : bool) (cap reg : Z) : @S10Kernel (demo_mac no_fail) :=
  @Build_S10Kernel (demo_mac no_fail) unit (λ k, (true, k)) (λ k, (mapped, k)) (λ k, (true, k)) (λ k, (cap, k)) (λ k, (true, k))
    (λ k, (Some (inr 0), k)) (λ k, (reg, k)).
Definition probe_view (mapped : bool) (cap reg : Z) : option (option Z * bool * bool * bool) :=
  match @s10hssi_mac_probe (demo_mac no_fail) (demo_s10 mapped cap reg) 3 (@S10Probe (demo_mac no_fail) (demo_s10 mapped cap reg) tt false None false false) with
  | Done (r, s) => Some (match r with Val _ => None | Err e => Some e end, sp_allocated s, sp_registered s, sp_timer s)
  | _ => None
  end.
Example probe_10g : probe_view true 0x200 0 = Some (None, true, true, true).
Proof. vm_compute. reflexivity. Qed.
(** A failed registration leaves the timer running and the device allocated. *)
Example unregistered_still_polls : probe_view true 0x200 (- ENOMEM) = Some (Some (- ENOMEM), true, false, true).
Proof. vm_compute. reflexivity. Qed.
Example unsupported_rate_leaks : probe_view true 0x100 0 = Some (Some (- EINVAL), true, false, false).
Proof. vm_compute. reflexivity. Qed.
Example unmapped_mac_faults : probe_view false 0x200 0 = None.
Proof. vm_compute. reflexivity. Qed.
