(* ===== verification/M10Bmc.v ===== *)
(** * Board management controller (drivers/mfd/intel-m10-bmc-core.c, -spi.c)

    The MAX 10 BMC is reached through a register map.  During phases of a secure
    update its firmware does not serve some registers, which the core then refuses
    to access.  The register map, its error codes included, is a parameter; the
    state keeps the accesses so far, which no code reads. *)
From stdpp Require Import strings.
From S2P Require Import Prelude.

(** ** The register map

    An access gives a status, which is not 0 when it failed; what is read is
    meaningful only when it is 0.  Bulk accesses move bytes. *)
Class Regmap := {
  rm : Type;
  rm_read : Z → rm → Z * Z * rm;
  rm_write : Z → Z → rm → Z * rm;
  rm_update_bits : Z → Z → Z → rm → Z * rm;
  rm_bulk_write : Z → list Z → rm → Z * rm;
  rm_bulk_read : Z → Z → rm → Z * list Z * rm;
}.

(** An access with its status. *)
Inductive reg_io :=
| RegRead (reg ret val : Z)
| RegWrite (reg val ret : Z)
| RegUpdate (reg msk val ret : Z)
| RegBulkWrite (reg : Z) (bytes : list Z) (ret : Z)
| RegBulkRead (reg n ret : Z) (bytes : list Z).
#[export] Instance reg_io_eq : EqDecision reg_io.
Proof. solve_decision. Defined.

(** ** Registers *)

(* include/linux/mfd/intel-m10-bmc.h:16-16 M10BMC_N3000_LEGACY_BUILD_VER *)
Definition M10BMC_N3000_LEGACY_BUILD_VER : Z := 0x300468.
(* include/linux/mfd/intel-m10-bmc.h:17-17 M10BMC_N3000_SYS_BASE *)
Definition M10BMC_N3000_SYS_BASE : Z := 0x300800.
(* include/linux/mfd/intel-m10-bmc.h:23-23 M10BMC_STAGING_BASE *)
Definition M10BMC_STAGING_BASE : Z := 0x18000000.
(* include/linux/mfd/intel-m10-bmc.h:24-24 M10BMC_STAGING_SIZE *)
Definition M10BMC_STAGING_SIZE : Z := 0x3800000.
(* include/linux/mfd/intel-m10-bmc.h:27-27 NIOS2_N3000_FW_VERSION *)
Definition NIOS2_N3000_FW_VERSION : Z := 0x0.
(* include/linux/mfd/intel-m10-bmc.h:28-28 M10BMC_N3000_MAC_LOW *)
Definition M10BMC_N3000_MAC_LOW : Z := 0x10.
(* include/linux/mfd/intel-m10-bmc.h:29-29 M10BMC_N3000_MAC_BYTE4 *)
Definition M10BMC_N3000_MAC_BYTE4 : field := GENMASK_ULL 7 0.
(* include/linux/mfd/intel-m10-bmc.h:30-30 M10BMC_N3000_MAC_BYTE3 *)
Definition M10BMC_N3000_MAC_BYTE3 : field := GENMASK_ULL 15 8.
(* include/linux/mfd/intel-m10-bmc.h:31-31 M10BMC_N3000_MAC_BYTE2 *)
Definition M10BMC_N3000_MAC_BYTE2 : field := GENMASK_ULL 23 16.
(* include/linux/mfd/intel-m10-bmc.h:32-32 M10BMC_N3000_MAC_BYTE1 *)
Definition M10BMC_N3000_MAC_BYTE1 : field := GENMASK_ULL 31 24.
(* include/linux/mfd/intel-m10-bmc.h:33-33 M10BMC_N3000_MAC_HIGH *)
Definition M10BMC_N3000_MAC_HIGH : Z := 0x14.
(* include/linux/mfd/intel-m10-bmc.h:34-34 M10BMC_N3000_MAC_BYTE6 *)
Definition M10BMC_N3000_MAC_BYTE6 : field := GENMASK_ULL 7 0.
(* include/linux/mfd/intel-m10-bmc.h:35-35 M10BMC_N3000_MAC_BYTE5 *)
Definition M10BMC_N3000_MAC_BYTE5 : field := GENMASK_ULL 15 8.
(* include/linux/mfd/intel-m10-bmc.h:36-36 M10BMC_N3000_MAC_COUNT *)
Definition M10BMC_N3000_MAC_COUNT : field := GENMASK_ULL 23 16.
(* include/linux/mfd/intel-m10-bmc.h:38-38 M10BMC_N3000_BUILD_VER *)
Definition M10BMC_N3000_BUILD_VER : Z := 0x68.
(* include/linux/mfd/intel-m10-bmc.h:41-41 M10BMC_N3000_VER_LEGACY_INVALID *)
Definition M10BMC_N3000_VER_LEGACY_INVALID : Z := 0xffffffff.
(* include/linux/mfd/intel-m10-bmc.h:93-93 M10BMC_N3000_TELEM_START *)
Definition M10BMC_N3000_TELEM_START : Z := 0x100.
(* include/linux/mfd/intel-m10-bmc.h:94-94 M10BMC_N3000_TELEM_END *)
Definition M10BMC_N3000_TELEM_END : Z := 0x250.
(* include/linux/mfd/intel-m10-bmc.h:95-95 M10BMC_D5005_TELEM_END *)
Definition M10BMC_D5005_TELEM_END : Z := 0x300.
(* include/linux/mfd/intel-m10-bmc.h:98-98 M10BMC_N3000_DOORBELL *)
Definition M10BMC_N3000_DOORBELL : Z := 0x400.
(* include/linux/mfd/intel-m10-bmc.h:101-101 M10BMC_N3000_AUTH_RESULT *)
Definition M10BMC_N3000_AUTH_RESULT : Z := 0x404.
(* include/linux/mfd/intel-m10-bmc.h:189-189 M10BMC_N3000_BMC_REH_ADDR *)
Definition M10BMC_N3000_BMC_REH_ADDR : Z := 0x17ffc004.
(* include/linux/mfd/intel-m10-bmc.h:190-190 M10BMC_N3000_BMC_PROG_ADDR *)
Definition M10BMC_N3000_BMC_PROG_ADDR : Z := 0x17ffc000.
(* include/linux/mfd/intel-m10-bmc.h:191-191 M10BMC_N3000_BMC_PROG_MAGIC *)
Definition M10BMC_N3000_BMC_PROG_MAGIC : Z := 0x5746.
(* include/linux/mfd/intel-m10-bmc.h:193-193 M10BMC_N3000_SR_REH_ADDR *)
Definition M10BMC_N3000_SR_REH_ADDR : Z := 0x17ffd004.
(* include/linux/mfd/intel-m10-bmc.h:194-194 M10BMC_N3000_SR_PROG_ADDR *)
Definition M10BMC_N3000_SR_PROG_ADDR : Z := 0x17ffd000.
(* include/linux/mfd/intel-m10-bmc.h:195-195 M10BMC_N3000_SR_PROG_MAGIC *)
Definition M10BMC_N3000_SR_PROG_MAGIC : Z := 0x5253.
(* include/linux/mfd/intel-m10-bmc.h:197-197 M10BMC_N3000_PR_REH_ADDR *)
Definition M10BMC_N3000_PR_REH_ADDR : Z := 0x17ffe004.
(* include/linux/mfd/intel-m10-bmc.h:198-198 M10BMC_N3000_PR_PROG_ADDR *)
Definition M10BMC_N3000_PR_PROG_ADDR : Z := 0x17ffe000.
(* include/linux/mfd/intel-m10-bmc.h:199-199 M10BMC_N3000_PR_PROG_MAGIC *)
Definition M10BMC_N3000_PR_PROG_MAGIC : Z := 0x5250.
(* include/linux/mfd/intel-m10-bmc.h:202-202 M10BMC_N3000_STAGING_FLASH_COUNT *)
Definition M10BMC_N3000_STAGING_FLASH_COUNT : Z := 0x17ffb000.

(** ** Data *)

(* include/linux/mfd/intel-m10-bmc.h:342-365 m10bmc_csr_map *)
Record m10bmc_csr_map := CsrMap {
  base : Z;
  build_version : Z;
  fw_version : Z;
  mac_low : Z;
  mac_high : Z;
  doorbell : Z;
  auth_result : Z;
  bmc_prog_addr : Z;
  bmc_reh_addr : Z;
  bmc_magic : Z;
  sr_prog_addr : Z;
  sr_reh_addr : Z;
  sr_magic : Z;
  pr_prog_addr : Z;
  pr_reh_addr : Z;
  pr_magic : Z;
  rsu_update_counter : Z;
  pr_sdm_reh_reg : Z;
  pr_sdm_csk_reg : Z;
  sr_sdm_reh_reg : Z;
  sr_sdm_csk_reg : Z;
  staging_size : Z;
}.

(** A range is its two bounds, both included; the cells of the MFD are their names. *)
(* include/linux/mfd/intel-m10-bmc.h:375-381 intel_m10bmc_platform_info *)
Record intel_m10bmc_platform_info := PlatformInfo {
  cells : list string;
  handshake_sys_reg_ranges : list (Z * Z);
  csr_map : m10bmc_csr_map;
}.

(* include/linux/mfd/intel-m10-bmc.h:402-408 m10bmc_fw_state *)
Inductive m10bmc_fw_state :=
| M10BMC_FW_STATE_NORMAL
| M10BMC_FW_STATE_SEC_UPDATE_PREPARE
| M10BMC_FW_STATE_SEC_UPDATE_WRITE
| M10BMC_FW_STATE_SEC_UPDATE_PROGRAM
| M10BMC_FW_RETIMER_EEPROM_LOAD.
#[export] Instance m10bmc_fw_state_eq : EqDecision m10bmc_fw_state.
Proof. solve_decision. Defined.

(** The changing part of [struct intel_m10bmc], embedded in a structure whose other
    fields are [bm_ext] (what [container_of] gives access to). *)
(* include/linux/mfd/intel-m10-bmc.h:420-427 intel_m10bmc *)
Record bmc `{Regmap} {X : Type} := Bmc {
  bm_map : rm;
  bm_log : list reg_io;
  bmcfw_state : m10bmc_fw_state;
  bm_ext : X;
}.
Arguments bmc {_} X.

(** Reading takes a buffer with what it holds, an address and a size, and gives what
    the buffer holds then; writing takes a buffer, an offset in it and a size. *)
(* include/linux/mfd/intel-m10-bmc.h:395-400 intel_m10bmc_flash_bulk_ops *)
Record intel_m10bmc_flash_bulk_ops `{Regmap} (X : Type) := FlashBulkOps {
  fb_read : list Z → Z → Z → M (bmc X) (list Z);
  fb_write : list Z → Z → Z → M (bmc X) unit;
  fb_lock_write : M (bmc X) unit;
  fb_unlock_write : M (bmc X) unit;
}.
Arguments fb_read {_ X}.
Arguments fb_write {_ X}.
Arguments fb_lock_write {_ X}.
Arguments fb_unlock_write {_ X}.

Section Core.
Context `{Regmap} {X : Type} (info : intel_m10bmc_platform_info).
Implicit Types s : bmc X.

(** ** Accesses to the map *)

Definition accessed (io : reg_io) (d : rm) s : bmc X := Bmc _ _ d (bm_log s ++ [io]) (bmcfw_state s) (bm_ext s).
Definition regmap_read (reg : Z) : M (bmc X) Z := λ s,
  let '(ret, val, d) := rm_read reg (bm_map s) in
  Done (if ret =? 0 then Val val else Err ret, accessed (RegRead reg ret val) d s).
Definition regmap_write (reg val : Z) : M (bmc X) unit := λ s,
  let (ret, d) := rm_write reg val (bm_map s) in
  Done (if ret =? 0 then Val tt else Err ret, accessed (RegWrite reg val ret) d s).
Definition regmap_update_bits (reg msk val : Z) : M (bmc X) unit := λ s,
  let (ret, d) := rm_update_bits reg msk val (bm_map s) in
  Done (if ret =? 0 then Val tt else Err ret, accessed (RegUpdate reg msk val ret) d s).
Definition regmap_bulk_write (reg : Z) (bytes : list Z) : M (bmc X) unit := λ s,
  let (ret, d) := rm_bulk_write reg bytes (bm_map s) in
  Done (if ret =? 0 then Val tt else Err ret, accessed (RegBulkWrite reg bytes ret) d s).
Definition regmap_bulk_read (reg n : Z) : M (bmc X) (list Z) := λ s,
  let '(ret, bytes, d) := rm_bulk_read reg n (bm_map s) in
  Done (if ret =? 0 then Val bytes else Err ret, accessed (RegBulkRead reg n ret bytes) d s).

(** [regmap_read_poll_timeout]: a read that fails ends the polling with its error. *)
Definition regmap_read_poll_timeout (reg : Z) (cond : Z → bool) (tries : nat) : M (bmc X) (Z * (Z + Z)) :=
  r ← read_poll_timeout (attempt (regmap_read reg))
    (λ v, match v with inl _ => true | inr v => cond v end) tries;
  match r.2 with
  | inl e => mret (e, r.2)
  | inr _ => mret r
  end.

(** ** The core *)

(* drivers/mfd/intel-m10-bmc-core.c:15-24 m10bmc_fw_state_set *)
Definition m10bmc_fw_state_set (new_state : m10bmc_fw_state) : M (bmc X) unit :=
  match handshake_sys_reg_ranges info with
  | [] => mret tt
  | _ => modify (λ s, Bmc _ _ (bm_map s) (bm_log s) new_state (bm_ext s))
  end.

Definition regmap_reg_in_ranges (reg : Z) (ranges : list (Z * Z)) : bool :=
  existsb (λ r, (r.1 <=? reg) && (reg <=? r.2)) ranges.

(* drivers/mfd/intel-m10-bmc-core.c:31-38 m10bmc_reg_always_available *)
Definition m10bmc_reg_always_available (offset : Z) : bool :=
  match handshake_sys_reg_ranges info with
  | [] => true
  | ranges => negb (regmap_reg_in_ranges offset ranges)
  end.

(* drivers/mfd/intel-m10-bmc-core.c:49-54 m10bmc_handshake_reg_unavailable *)
Definition m10bmc_handshake_reg_unavailable (st : m10bmc_fw_state) : bool :=
  bool_decide (st = M10BMC_FW_STATE_SEC_UPDATE_PREPARE) ||
  bool_decide (st = M10BMC_FW_STATE_SEC_UPDATE_WRITE) ||
  bool_decide (st = M10BMC_FW_RETIMER_EEPROM_LOAD).

(* include/linux/mfd/intel-m10-bmc.h:436-448 m10bmc_raw_read *)
Definition m10bmc_raw_read (addr : Z) : M (bmc X) Z := regmap_read addr.

(* drivers/mfd/intel-m10-bmc-core.c:62-78 m10bmc_sys_read *)
Definition m10bmc_sys_read (offset : Z) : M (bmc X) Z :=
  let addr := u32 (base (csr_map info) + offset) in
  if m10bmc_reg_always_available offset then m10bmc_raw_read addr else
  st ← gets bmcfw_state;
  if m10bmc_handshake_reg_unavailable st then throw (- EBUSY) else m10bmc_raw_read addr.

(* drivers/mfd/intel-m10-bmc-core.c:81-98 m10bmc_sys_update_bits *)
Definition m10bmc_sys_update_bits (offset msk val : Z) : M (bmc X) unit :=
  let addr := u32 (base (csr_map info) + offset) in
  if m10bmc_reg_always_available offset then regmap_update_bits addr msk val else
  st ← gets bmcfw_state;
  if m10bmc_handshake_reg_unavailable st then throw (- EBUSY) else regmap_update_bits addr msk val.

(** ** Attributes: what is shown is a number, or the bytes of an address *)

(* drivers/mfd/intel-m10-bmc-core.c:101-113 bmc_version_show *)
Definition bmc_version_show : M (bmc X) Z := m10bmc_sys_read (build_version (csr_map info)).
(* drivers/mfd/intel-m10-bmc-core.c:116-128 bmcfw_version_show *)
Definition bmcfw_version_show : M (bmc X) Z := m10bmc_sys_read (fw_version (csr_map info)).
(* drivers/mfd/intel-m10-bmc-core.c:131-153 mac_address_show *)
Definition mac_address_show : M (bmc X) (list Z) :=
  macaddr_low ← m10bmc_sys_read (mac_low (csr_map info));
  macaddr_high ← m10bmc_sys_read (mac_high (csr_map info));
  mret [u8 (FIELD_GET M10BMC_N3000_MAC_BYTE1 macaddr_low); u8 (FIELD_GET M10BMC_N3000_MAC_BYTE2 macaddr_low);
        u8 (FIELD_GET M10BMC_N3000_MAC_BYTE3 macaddr_low); u8 (FIELD_GET M10BMC_N3000_MAC_BYTE4 macaddr_low);
        u8 (FIELD_GET M10BMC_N3000_MAC_BYTE5 macaddr_high); u8 (FIELD_GET M10BMC_N3000_MAC_BYTE6 macaddr_high)].
(* drivers/mfd/intel-m10-bmc-core.c:156-168 mac_count_show *)
Definition mac_count_show : M (bmc X) Z :=
  macaddr_high ← m10bmc_sys_read (mac_high (csr_map info));
  mret (u8 (FIELD_GET M10BMC_N3000_MAC_COUNT macaddr_high)).

(** ** Boards reached over SPI *)

(* drivers/mfd/intel-m10-bmc-spi.c:37-60 check_m10bmc_version *)
Definition check_m10bmc_version : M (bmc X) unit :=
  r ← attempt (m10bmc_raw_read M10BMC_N3000_LEGACY_BUILD_VER);
  match r with
  | inl _ => throw (- ENODEV)
  | inr v => if negb (v =? M10BMC_N3000_VER_LEGACY_INVALID) then throw (- ENODEV) else mret tt
  end.
End Core.

(* drivers/mfd/intel-m10-bmc-spi.c:101-120 m10bmc_n3000_csr_map *)
Definition m10bmc_n3000_csr_map : m10bmc_csr_map := {|
  base := M10BMC_N3000_SYS_BASE;
  build_version := M10BMC_N3000_BUILD_VER;
  fw_version := NIOS2_N3000_FW_VERSION;
  mac_low := M10BMC_N3000_MAC_LOW;
  mac_high := M10BMC_N3000_MAC_HIGH;
  doorbell := M10BMC_N3000_DOORBELL;
  auth_result := M10BMC_N3000_AUTH_RESULT;
  bmc_prog_addr := M10BMC_N3000_BMC_PROG_ADDR;
  bmc_reh_addr := M10BMC_N3000_BMC_REH_ADDR;
  bmc_magic := M10BMC_N3000_BMC_PROG_MAGIC;
  sr_prog_addr := M10BMC_N3000_SR_PROG_ADDR;
  sr_reh_addr := M10BMC_N3000_SR_REH_ADDR;
  sr_magic := M10BMC_N3000_SR_PROG_MAGIC;
  pr_prog_addr := M10BMC_N3000_PR_PROG_ADDR;
  pr_reh_addr := M10BMC_N3000_PR_REH_ADDR;
  pr_magic := M10BMC_N3000_PR_PROG_MAGIC;
  rsu_update_counter := M10BMC_N3000_STAGING_FLASH_COUNT;
  pr_sdm_reh_reg := 0;
  pr_sdm_csk_reg := 0;
  sr_sdm_reh_reg := 0;
  sr_sdm_csk_reg := 0;
  staging_size := M10BMC_STAGING_SIZE;
|}.

(* drivers/mfd/intel-m10-bmc-spi.c:122-125 m10bmc_d5005_subdevs *)
Definition m10bmc_d5005_subdevs : list string := ["d5005bmc-hwmon"; "d5005bmc-sec-update"].
(* drivers/mfd/intel-m10-bmc-spi.c:127-129 m10bmc_d5005_fw_handshake_regs *)
Definition m10bmc_d5005_fw_handshake_regs : list (Z * Z) := [(M10BMC_N3000_TELEM_START, M10BMC_D5005_TELEM_END)].
(* drivers/mfd/intel-m10-bmc-spi.c:131-135 m10bmc_pacn3000_subdevs *)
Definition m10bmc_pacn3000_subdevs : list string := ["n3000bmc-hwmon"; "n3000bmc-retimer"; "n3000bmc-sec-update"].
(* drivers/mfd/intel-m10-bmc-spi.c:137-139 m10bmc_n3000_fw_handshake_regs *)
Definition m10bmc_n3000_fw_handshake_regs : list (Z * Z) := [(M10BMC_N3000_TELEM_START, M10BMC_N3000_TELEM_END)].
(* drivers/mfd/intel-m10-bmc-spi.c:141-145 m10bmc_n5010_subdevs *)
Definition m10bmc_n5010_subdevs : list string := ["n5010bmc-hwmon"; "n5010bmc-sec-update"; "n5010bmc-phy"].
(* drivers/mfd/intel-m10-bmc-spi.c:147-151 m10bmc_n5014_subdevs *)
Definition m10bmc_n5014_subdevs : list string := ["n5014bmc-hwmon"; "n5010bmc-sec-update"; "n5010bmc-phy"].

(* drivers/mfd/intel-m10-bmc-spi.c:153-159 m10bmc_spi_n3000 *)
Definition m10bmc_spi_n3000 := PlatformInfo m10bmc_pacn3000_subdevs m10bmc_n3000_fw_handshake_regs m10bmc_n3000_csr_map.
(* drivers/mfd/intel-m10-bmc-spi.c:161-167 m10bmc_spi_d5005 *)
Definition m10bmc_spi_d5005 := PlatformInfo m10bmc_d5005_subdevs m10bmc_d5005_fw_handshake_regs m10bmc_n3000_csr_map.
(* drivers/mfd/intel-m10-bmc-spi.c:169-175 m10bmc_spi_n5010 *)
Definition m10bmc_spi_n5010 := PlatformInfo m10bmc_n5010_subdevs m10bmc_n3000_fw_handshake_regs m10bmc_n3000_csr_map.
(* drivers/mfd/intel-m10-bmc-spi.c:177-183 m10bmc_spi_n5014 *)
Definition m10bmc_spi_n5014 := PlatformInfo m10bmc_n5014_subdevs m10bmc_n3000_fw_handshake_regs m10bmc_n3000_csr_map.
(* drivers/mfd/intel-m10-bmc-spi.c:185-191 m10bmc_spi_id *)
Definition m10bmc_spi_id : list (string * intel_m10bmc_platform_info) :=
  [("m10-n3000", m10bmc_spi_n3000); ("m10-d5005", m10bmc_spi_d5005);
   ("m10-n5010", m10bmc_spi_n5010); ("m10-n5014", m10bmc_spi_n5014)]%string.

(** ** Accesses to the registers of the BMC

    What a computation does to the state of [M10Bmc] when all it does is to read and
    update registers. *)

(** ** Accesses that write nothing into flash *)
Definition plain (io : reg_io) : Prop :=
  match io with RegRead _ _ _ | RegUpdate _ _ _ _ => True | _ => False end.

Section Core.
Context `{Regmap} {X : Type} (info : intel_m10bmc_platform_info).
Implicit Types s : bmc X.

(** [s'] is [s] after the accesses [l] of the register map. *)
Definition after_io (l : list reg_io) s s' : Prop :=
  bm_ext s' = bm_ext s ∧ bmcfw_state s' = bmcfw_state s ∧ bm_log s' = bm_log s ++ l.
Definition quiet s s' : Prop := ∃ l, after_io l s s' ∧ Forall plain l.

Lemma after_io_refl s : after_io [] s s.
Proof. split_and!; try done. by rewrite app_nil_r. Qed.
Lemma after_io_trans l1 l2 s1 s2 s3 : after_io l1 s1 s2 → after_io l2 s2 s3 → after_io (l1 ++ l2) s1 s3.
Proof. intros (E1&F1&L1) (E2&F2&L2). split_and!; [congruence..|]. by rewrite L2, L1, app_assoc. Qed.
Lemma quiet_refl s : quiet s s.
Proof. exists []. split; [apply after_io_refl|constructor]. Qed.
Lemma quiet_trans s1 s2 s3 : quiet s1 s2 → quiet s2 s3 → quiet s1 s3.
Proof. intros (l1&H1&P1) (l2&H2&P2). exists (l1 ++ l2). split; [by eapply after_io_trans|by apply Forall_app]. Qed.
Lemma quiet_after l s s' : after_io l s s' → Forall plain l → quiet s s'.
Proof. by exists l. Qed.

Lemma read_spec reg s (Q : Z → bmc X → Prop) E :
  (∀ v s', after_io [RegRead reg 0 v] s s' → Q v s') → (∀ e s', quiet s s' → e ≠ 0 → E e s') →
  wp (regmap_read reg) Q E s.
Proof.
  intros HQ HE. unfold wpg, regmap_read. destruct (rm_read reg (bm_map s)) as [[ret v] d].
  destruct (Z.eqb_spec ret 0) as [->|Hne]; [apply HQ; by split_and!|].
  apply HE; [|done]. exists [RegRead reg ret v]. split; [by split_and!|by repeat constructor].
Qed.
Lemma update_spec reg msk v s (Q : unit → bmc X → Prop) E :
  (∀ s', after_io [RegUpdate reg msk v 0] s s' → Q tt s') → (∀ e s', quiet s s' → e ≠ 0 → E e s') →
  wp (regmap_update_bits reg msk v) Q E s.
Proof.
  intros HQ HE. unfold wpg, regmap_update_bits. destruct (rm_update_bits reg msk v (bm_map s)) as [ret d].
  destruct (Z.eqb_spec ret 0) as [->|Hne]; [apply HQ; by split_and!|].
  apply HE; [|done]. exists [RegUpdate reg msk v ret]. split; [by split_and!|by repeat constructor].
Qed.

Lemma sys_read_spec off s (Q : Z → bmc X → Prop) E :
  (∀ v s', after_io [RegRead (u32 (base (csr_map info) + off)) 0 v] s s' → Q v s') →
  (∀ e s', quiet s s' → e ≠ 0 → E e s') → wp (m10bmc_sys_read info off) Q E s.
Proof.
  intros HQ HE. unfold m10bmc_sys_read, m10bmc_raw_read. destruct (m10bmc_reg_always_available info off); [by apply read_spec|].
  wsteps. destruct (m10bmc_handshake_reg_unavailable _); wsteps; [|by apply read_spec].
  apply HE; [apply quiet_refl|done].
Qed.
Lemma sys_update_spec off msk v s (Q : unit → bmc X → Prop) E :
  (∀ s', after_io [RegUpdate (u32 (base (csr_map info) + off)) msk v 0] s s' → Q tt s') →
  (∀ e s', quiet s s' → e ≠ 0 → E e s') → wp (m10bmc_sys_update_bits info off msk v) Q E s.
Proof.
  intros HQ HE. unfold m10bmc_sys_update_bits. destruct (m10bmc_reg_always_available info off); [by apply update_spec|].
  wsteps. destruct (m10bmc_handshake_reg_unavailable _); wsteps; [|by apply update_spec].
  apply HE; [apply quiet_refl|done].
Qed.

(** Polling only reads. *)
Definition is_read (io : reg_io) : Prop := match io with RegRead _ _ _ => True | _ => False end.
(** An access makes one access of the map, or none while the firmware is not available. *)
Lemma sys_read_reads off s :
  wp (m10bmc_sys_read info off) (λ _ s', ∃ l, after_io l s s' ∧ Forall is_read l) (λ _ s', ∃ l, after_io l s s' ∧ Forall is_read l) s.
Proof.
  assert (∀ reg, wp (regmap_read (X := X) reg) (λ _ s', ∃ l, after_io l s s' ∧ Forall is_read l) (λ _ s', ∃ l, after_io l s s' ∧ Forall is_read l) s) as Hr.
  { intros reg. unfold wpg, regmap_read. destruct (rm_read reg (bm_map s)) as [[ret v] d].
    destruct (ret =? 0); (exists [RegRead reg ret v]; split; [by split_and!|by constructor]). }
  unfold m10bmc_sys_read, m10bmc_raw_read. destruct (m10bmc_reg_always_available info off); [apply Hr|].
  wsteps. destruct (m10bmc_handshake_reg_unavailable _); wsteps; [|apply Hr]. exists []. split; [apply after_io_refl|constructor].
Qed.
Lemma sys_update_once off msk v s :
  let io ret := RegUpdate (u32 (base (csr_map info) + off)) msk v ret in
  wp (m10bmc_sys_update_bits info off msk v) (λ _ s', after_io [io 0] s s') (λ _ s', s' = s ∨ ∃ ret, after_io [io ret] s s') s.
Proof.
  intros io. unfold m10bmc_sys_update_bits. destruct (m10bmc_reg_always_available info off).
  2: wsteps; destruct (m10bmc_handshake_reg_unavailable _); wsteps; [by left|].
  all: unfold wpg, regmap_update_bits; destruct (rm_update_bits _ _ _ _) as [ret d]; destruct (Z.eqb_spec ret 0) as [->|]; [by split_and!|]; right; exists ret; by split_and!.
Qed.
Lemma attempt_read_spec reg s (Q : Z + Z → bmc X → Prop) E :
  (∀ r io s', after_io [io] s s' → is_read io → Q r s') → wp (attempt (regmap_read reg)) Q E s.
Proof.
  intros HQ. wsteps. unfold wpg, regmap_read. destruct (rm_read reg (bm_map s)) as [[ret v] d].
  destruct (Z.eqb_spec ret 0) as [->|Hne]; (eapply HQ; [by split_and!|done]).
Qed.
Lemma poll_reads reg cond tries s :
  wp (read_poll_timeout (attempt (regmap_read reg)) cond tries)
    (λ _ s', ∃ l, after_io l s s' ∧ Forall is_read l) (λ _ _, False) s.
Proof.
  revert s. induction tries as [|n IH]; intros s; cbn [read_poll_timeout]; apply wp_bind, attempt_read_spec;
    intros v io s1 H1 Hr; destruct (cond v); try (wsteps; exists [io]; split; [done|by repeat constructor]).
  - apply wp_bind, attempt_read_spec. intros v2 io2 s2 H2 Hr2. wsteps. exists [io; io2].
    split; [exact (after_io_trans [_] [_] _ _ _ H1 H2)|by repeat constructor].
  - eapply wp_mono; [apply IH| |done]. intros r s2 (l & Hl & Hp). exists (io :: l).
    split; [exact (after_io_trans [_] _ _ _ _ H1 Hl)|by constructor].
Qed.
Lemma regmap_poll_reads reg cond tries s :
  wp (regmap_read_poll_timeout reg cond tries) (λ _ s', ∃ l, after_io l s s' ∧ Forall is_read l) (λ _ _, False) s.
Proof.
  unfold regmap_read_poll_timeout. wsteps. eapply wp_mono; [apply poll_reads| |done].
  intros [r [e|v]] s' Hs; by wsteps.
Qed.

(** A computation that only reads and updates registers, however it ends; whether it
    may end with an error code is [T]. *)
Definition Quiet {A} (T : Prop) (m : M (bmc X) A) : Prop := ∀ s, wp m (λ _, quiet s) (λ _ s', T ∧ quiet s s') s.
Lemma quiet_bind {A B} T (m : M (bmc X) A) (f : A → M (bmc X) B) :
  Quiet T m → (∀ a, Quiet T (f a)) → Quiet T (m ≫= f).
Proof.
  intros Hm Hf s. wsteps. eapply wp_mono; [apply Hm| |done]. intros a s1 H1.
  eapply wp_mono; [apply Hf|intros ? s2 H2|intros ? s2 [HT H2]]; [|split; [done|]]; exact (quiet_trans _ _ _ H1 H2).
Qed.
Lemma quiet_ret {A} T (a : A) : Quiet T (mret a : M (bmc X) A).
Proof. intros s. wsteps. apply quiet_refl. Qed.
Lemma quiet_attempt {A} T (m : M (bmc X) A) : Quiet True m → Quiet T (attempt m).
Proof. intros Hm s. wsteps. eapply wp_mono; [apply Hm|done|]. by intros e s' [_ ?]. Qed.
Lemma quiet_sys_read off : Quiet True (m10bmc_sys_read info off).
Proof. intros s. apply sys_read_spec; [|done]. intros. eapply quiet_after; [done|by repeat constructor]. Qed.
Lemma quiet_sys_update off msk v : Quiet True (m10bmc_sys_update_bits info off msk v).
Proof. intros s. apply sys_update_spec; [|done]. intros. eapply quiet_after; [done|by repeat constructor]. Qed.
Lemma quiet_read reg : Quiet True (regmap_read reg).
Proof. intros s. apply read_spec; [|done]. intros. eapply quiet_after; [done|by repeat constructor]. Qed.
Lemma quiet_poll {A} T (m : M (bmc X) A) cond tries : Quiet T m → Quiet T (read_poll_timeout m cond tries).
Proof.
  intros Hm. induction tries as [|n IH]; cbn [read_poll_timeout]; (apply quiet_bind; [done|]); intros v;
    destruct (cond v); auto using quiet_ret. apply quiet_bind; [done|]. intros. apply quiet_ret.
Qed.
Lemma quiet_regmap_poll T reg cond tries : Quiet T (regmap_read_poll_timeout reg cond tries).
Proof.
  apply quiet_bind; [apply quiet_poll, quiet_attempt, quiet_read|]. intros [r [e|v]]; apply quiet_ret.
Qed.
End Core.
Ltac quiets :=
  repeat first
    [ solve [auto 2] | apply quiet_ret | apply quiet_attempt | apply quiet_sys_read | apply quiet_sys_update
    | apply quiet_read | apply quiet_regmap_poll | apply quiet_poll | assumption
    | apply quiet_bind; [|intros ?]
    | match goal with
      | |- Quiet _ (if ?b then _ else _) => destruct b
      | |- Quiet _ (match ?x with inl _ => _ | inr _ => _ end) => destruct x
      | |- Quiet _ (let (_, _) := ?x in _) => destruct x
      | |- Quiet _ (match ?x with (_, _) => _ end) => destruct x
      end ].

