(* ===== verification/N5010Hssi.v ===== *)
(** * The network devices of the N5010 (drivers/net/ethernet/silicom/n5010-hssi.c, n5010-phy.c)

    A feature with a network device for each port, whose MAC and FEC are register maps,
    and the phy of a port, whose module and light are bits of registers of the BMC
    ([M10Bmc]). *)
From stdpp Require Import list strings.
From S2P Require Import Prelude DflRegs M10Bmc Regmap S10Hssi.

(** ** The phy *)

(* drivers/net/ethernet/silicom/n5010-phy.c:18-18 N5010_PHY_CSR_0 *)
Definition N5010_PHY_CSR_0 : Z := 0x40c.
(* drivers/net/ethernet/silicom/n5010-phy.c:19-19 N5010_PHY_CSR_1 *)
Definition N5010_PHY_CSR_1 : Z := 0x410.
(* drivers/net/ethernet/silicom/n5010-phy.c:21-21 N5010_PHY_ABSENT_0 *)
Definition N5010_PHY_ABSENT_0 : field := BIT_ULL 7.
(* drivers/net/ethernet/silicom/n5010-phy.c:22-22 N5010_PHY_ABSENT_1 *)
Definition N5010_PHY_ABSENT_1 : field := BIT_ULL 23.
(* drivers/net/ethernet/silicom/n5010-phy.c:24-24 N5010_PHY_LED_0 *)
Definition N5010_PHY_LED_0 : field := GENMASK_ULL 5 3.
(* drivers/net/ethernet/silicom/n5010-phy.c:25-25 N5010_PHY_LED_1 *)
Definition N5010_PHY_LED_1 : field := GENMASK_ULL 21 19.
Definition ENODATA : Z := 61.
(* drivers/net/ethernet/silicom/n5010-phy.c:31-37 n5010_port *)
Record n5010_port := Port {
  pt_num : Z;
  pt_sfp_in : bool;
}.
Section Phy.
Context `{M10Bmc.Regmap} (info : intel_m10bmc_platform_info).
Implicit Types s : bmc n5010_port.
Definition set_sfp_in (b : bool) s : bmc n5010_port := Bmc _ _ (bm_map s) (bm_log s) (bmcfw_state s) (Port (pt_num (bm_ext s)) b).
(** The register and the bit of a port that say that there is no module. *)
Definition absent_bit (num : Z) : option (Z * field) :=
  if num =? 0 then Some (N5010_PHY_CSR_1, N5010_PHY_ABSENT_0)
  else if num =? 1 then Some (N5010_PHY_CSR_1, N5010_PHY_ABSENT_1)
  else if num =? 2 then Some (N5010_PHY_CSR_0, N5010_PHY_ABSENT_0)
  else if num =? 3 then Some (N5010_PHY_CSR_0, N5010_PHY_ABSENT_1)
  else None.
Definition led_bits (num : Z) : option (Z * field) :=
  if num =? 0 then Some (N5010_PHY_CSR_1, N5010_PHY_LED_0)
  else if num =? 1 then Some (N5010_PHY_CSR_1, N5010_PHY_LED_1)
  else if num =? 2 then Some (N5010_PHY_CSR_0, N5010_PHY_LED_0)
  else if num =? 3 then Some (N5010_PHY_CSR_0, N5010_PHY_LED_1)
  else None.
(* drivers/net/ethernet/silicom/n5010-phy.c:45-78 n5010_phy_sfp_status *)
Definition n5010_phy_sfp_status : M (bmc n5010_port) unit :=
  s ← get;
  match absent_bit (pt_num (bm_ext s)) with
  | None => throw (- EINVAL)
  | Some (offset, bit) =>
      val ← m10bmc_sys_read info offset;
      modify (set_sfp_in (negb (has_bits bit val)))
  end.
(* drivers/net/ethernet/silicom/n5010-phy.c:80-108 n5010_phy_set_led *)
Definition n5010_phy_set_led (link : bool) : M (bmc n5010_port) unit :=
  s ← get;
  match led_bits (pt_num (bm_ext s)) with
  | None => throw (- EINVAL)
  | Some (offset, led) => m10bmc_sys_update_bits info offset (mask led) (if link then mask led else 0)
  end.
(** A failure is only reported. *)
(* drivers/net/ethernet/silicom/n5010-phy.c:110-121 n5010_phy_adjust_link *)
Definition n5010_phy_adjust_link (link : bool) : M (bmc n5010_port) unit := _ ← status (n5010_phy_set_led link); mret tt.
(** [get_link] is what the MAC says. *)
(* drivers/net/ethernet/silicom/n5010-phy.c:123-136 n5010_phy_update_link *)
Definition n5010_phy_update_link (get_link : bool) : M (bmc n5010_port) bool := _ ← status n5010_phy_sfp_status; mret get_link.
(* drivers/net/ethernet/silicom/n5010-phy.c:138-143 n5010_phy_module_info *)
Definition n5010_phy_module_info : M (bmc n5010_port) Z := s ← get; mret (if pt_sfp_in (bm_ext s) then - ENODATA else - ENODEV).
End Phy.
(** ** The MAC *)

(* drivers/net/ethernet/silicom/n5010-hssi.c:28-28 CAP_PORT_CNT *)
Definition CAP_PORT_CNT : field := GENMASK_ULL 43 40.
(* drivers/net/ethernet/silicom/n5010-hssi.c:38-38 MB_MAC_OFFSET *)
Definition MB_MAC_OFFSET : Z := 0x28.
(* drivers/net/ethernet/silicom/n5010-hssi.c:39-39 MB_FEC_OFFSET *)
Definition MB_FEC_OFFSET : Z := 0x68.
(* drivers/net/ethernet/silicom/n5010-hssi.c:40-40 MB_PHY_OFFSET *)
Definition MB_PHY_OFFSET : Z := 0xa8.
(* drivers/net/ethernet/silicom/n5010-hssi.c:41-41 MB_PORT_SIZE *)
Definition MB_PORT_SIZE : Z := 0x10.
(* drivers/net/ethernet/silicom/n5010-hssi.c:46-46 FEC_RX_STATUS *)
Definition FEC_RX_STATUS : Z := 0x180.
(* drivers/net/ethernet/silicom/n5010-hssi.c:47-47 FEC_RX_STATUS_LINK *)
Definition FEC_RX_STATUS_LINK : Z := 0.
(* drivers/net/ethernet/silicom/n5010-hssi.c:48-48 FEC_RX_STATUS_LINK_NO *)
Definition FEC_RX_STATUS_LINK_NO : Z := 3.
(* drivers/net/ethernet/silicom/n5010-hssi.c:50-50 MAC_TX_SRC_ADDR_LO *)
Definition MAC_TX_SRC_ADDR_LO : Z := 0x40c.
(* drivers/net/ethernet/silicom/n5010-hssi.c:51-51 MAC_TX_SRC_ADDR_HI *)
Definition MAC_TX_SRC_ADDR_HI : Z := 0x40d.
(* drivers/net/ethernet/silicom/n5010-hssi.c:52-52 MAC_RX_MTU *)
Definition MAC_RX_MTU : Z := 0x506.
(** The table is that of the other driver at 100G. *)
(* drivers/net/ethernet/silicom/n5010-hssi.c:286-348 stats_100g *)
Definition n5010_stats : list stat_info := stats_100g.

Section Mac.
Context `{Regmap} (tries : nat).
(* drivers/net/ethernet/silicom/n5010-hssi.c:74-81 n5010_hssi_netdata *)
Record n5010_hssi_netdata := N5Netdata {
  n5_mac : rmst;
  n5_fec : rmst;
  n5_mtu : Z;
  n5_dev_addr : list Z;
}.
Implicit Types s : n5010_hssi_netdata.
Definition on_mac {A} (m : M rmst A) : M n5010_hssi_netdata A := zoom n5_mac (λ r s, N5Netdata r (n5_fec s) (n5_mtu s) (n5_dev_addr s)) m.
Definition on_fec {A} (m : M rmst A) : M n5010_hssi_netdata A := zoom n5_fec (λ r s, N5Netdata (n5_mac s) r (n5_mtu s) (n5_dev_addr s)) m.
(* drivers/net/ethernet/silicom/n5010-hssi.c:90-98 n5010_hssi_update_link *)
Definition n5010_hssi_update_link : M n5010_hssi_netdata bool :=
  r ← attempt (on_fec (regmap_read FEC_RX_STATUS));
  let link_status := match (r : Z + Z) with inl _ => FEC_RX_STATUS_LINK_NO | inr v => v end in
  mret (link_status =? FEC_RX_STATUS_LINK).
(* drivers/net/ethernet/silicom/n5010-hssi.c:116-123 netdev_change_mtu *)
Definition n5_change_mtu (new_mtu : Z) : M n5010_hssi_netdata unit :=
  modify (λ s, N5Netdata (n5_mac s) (n5_fec s) new_mtu (n5_dev_addr s)) ;;
  on_mac (regmap_write MAC_RX_MTU (u32 new_mtu)).
(** The bytes of the address are of type [char], which is signed on some machines and
    not on others: [char] is its value for a byte. *)
(* drivers/net/ethernet/silicom/n5010-hssi.c:131-149 netdev_set_mac_address *)
Definition n5_set_mac_address (char : Z → Z) (sa_data : list Z) : M n5010_hssi_netdata unit :=
  modify (λ s, N5Netdata (n5_mac s) (n5_fec s) (n5_mtu s) (take 6 sa_data)) ;;
  let b i := char (nth i sa_data 0) in
  let mac_part1 := u32 (Z.lor (Z.shiftl (b 0%nat) 8) (b 1%nat)) in
  let mac_part2 := u32 (Z.lor (Z.lor (Z.lor (Z.shiftl (b 2%nat) 24) (Z.shiftl (b 3%nat) 16)) (Z.shiftl (b 4%nat) 8)) (b 5%nat)) in
  on_mac (regmap_write MAC_TX_SRC_ADDR_HI mac_part1) ;;
  on_mac (regmap_write MAC_TX_SRC_ADDR_LO mac_part2).
Definition n5_clear_stats (reg : Z) : M n5010_hssi_netdata unit :=
  on_mac (regmap_write reg 1) ;;
  on_mac (regmap_write reg 0) ;;
  r ← on_mac (regmap_read_poll_timeout reg (λ val, Z.land val 1 =? 0) tries);
  rc (r : Z * Z).1.
(* drivers/net/ethernet/silicom/n5010-hssi.c:212-258 ethtool_reset *)
Definition n5_ethtool_reset (flags : Z) : M n5010_hssi_netdata unit :=
  if negb (Z.lor flags ETH_RESET_MGMT =? 0) then
    n5_clear_stats ILL_100G_TX_STATS_CLR ;;
    n5_clear_stats ILL_100G_RX_STATS_CLR
  else mret tt.
Definition n5_read_value (reg : Z) : M n5010_hssi_netdata (option Z) :=
  r ← attempt (on_mac (regmap_read reg));
  mret (match (r : Z + Z) with inl _ => None | inr v => Some v end).
(* drivers/net/ethernet/silicom/n5010-hssi.c:202-210 read_mac_stat *)
Definition n5_read_mac_stat (addr : Z) : M n5010_hssi_netdata Z :=
  data_l ← n5_read_value addr;
  data_h ← n5_read_value (addr + 1);
  data_l ← access data_l;
  data_h ← access data_h;
  mret (u64 (u32 data_l + Z.shiftl (u32 data_h) 32)).
Fixpoint n5_stats_loop (stats : list stat_info) : M n5010_hssi_netdata (list Z) :=
  match stats with
  | [] => mret []
  | (addr, _) :: stats => v ← n5_read_mac_stat addr; vs ← n5_stats_loop stats; mret (v :: vs)
  end.
(** Here the counters are not cleared. *)
(* drivers/net/ethernet/silicom/n5010-hssi.c:260-269 ethtool_get_stats *)
Definition n5_ethtool_get_stats : M n5010_hssi_netdata (list Z) := n5_stats_loop n5010_stats.
(* drivers/net/ethernet/silicom/n5010-hssi.c:175-190 ethtool_get_strings *)
Definition n5_ethtool_get_strings (stringset : Z) : list string := if stringset =? ETH_SS_STATS then n5010_stats.*2 else [].
(* drivers/net/ethernet/silicom/n5010-hssi.c:192-200 ethtool_get_sset_count *)
Definition n5_ethtool_get_sset_count (stringset : Z) : Z := if stringset =? ETH_SS_STATS then Z.of_nat (length n5010_stats) else 0.
End Mac.

(** ** Probe and removal *)

(* drivers/net/ethernet/silicom/n5010-hssi.c:370-374 n5010_hssi_regmap *)
Inductive n5010_hssi_regmap := regmap_mac | regmap_fec | regmap_phy.
(** Where a map is, the width of its values and its last register. *)
Definition regmap_cfg (base port : Z) (type : n5010_hssi_regmap) : Z * Z * Z :=
  let base := base + port * MB_PORT_SIZE in
  match type with
  | regmap_mac => (base + MB_MAC_OFFSET, 32, 0xbbf)
  | regmap_fec => (base + MB_FEC_OFFSET, 8, 0x29c)
  | regmap_phy => (base + MB_PHY_OFFSET, 8, 0x40144)
  end.
(** The kernel: the two devices that are looked for, memory, the maps (NULL is
    [None]), the network devices and the phys, and the first reading of the module of a
    port, which is [n5010_phy_sfp_status] with its result dropped. *)
Class N5Kernel `{Regmap} := {
  n5k : Type;
  n5k_phy_master : n5k → bool * n5k;
  n5k_phy_dev : n5k → bool * n5k;
  n5k_ioremap_resource : n5k → Z * n5k;
  n5k_capability : n5k → Z * n5k;
  n5k_kzalloc : n5k → bool * n5k;
  n5k_alloc_netdev : n5k → bool * n5k;
  n5k_regmap : Z * Z * Z → n5k → option rmap * n5k;
  n5k_register_netdev : n5k → Z * n5k;
  n5k_phy_register : n5k → Z * n5k;
  n5k_phy_kzalloc : n5k → bool * n5k;
  n5k_phy_connect : n5k → Z * n5k;
  n5k_sfp_status : Z → n5k → unit * n5k;
}.
Section N5Probe.
Context `{N5Kernel} (base : Z) (tries : nat).
(** The ports whose device is allocated, whose device is registered, that have a fixed
    phy, and whose phy is connected; whether the kernel warned; the references to the
    devices that were looked for. *)
Record n5_probe := N5Probe {
  n5_k : n5k;
  n5_allocated : list Z;
  n5_registered : list Z;
  n5_phys : list Z;
  n5_connected : list Z;
  n5_warned : bool;
  n5_refs : Z;
}.
Implicit Types s : n5_probe.
Definition n5_op {A} (f : n5k → A * n5k) : M n5_probe A := λ s,
  let (a, k) := f (n5_k s) in Done (Val a, N5Probe k (n5_allocated s) (n5_registered s) (n5_phys s) (n5_connected s) (n5_warned s) (n5_refs s)).
Definition set_allocated l s := N5Probe (n5_k s) l (n5_registered s) (n5_phys s) (n5_connected s) (n5_warned s) (n5_refs s).
Definition set_registered l s := N5Probe (n5_k s) (n5_allocated s) l (n5_phys s) (n5_connected s) (n5_warned s) (n5_refs s).
Definition set_phys l s := N5Probe (n5_k s) (n5_allocated s) (n5_registered s) l (n5_connected s) (n5_warned s) (n5_refs s).
Definition set_connected l s := N5Probe (n5_k s) (n5_allocated s) (n5_registered s) (n5_phys s) l (n5_warned s) (n5_refs s).
Definition set_warned s := N5Probe (n5_k s) (n5_allocated s) (n5_registered s) (n5_phys s) (n5_connected s) true (n5_refs s).
Definition add_refs n s := N5Probe (n5_k s) (n5_allocated s) (n5_registered s) (n5_phys s) (n5_connected s) (n5_warned s) (n5_refs s + n).
Definition without (p : Z) (l : list Z) : list Z := filter (λ q, q ≠ p) l.
(** Unregistering frees the device; the kernel warns when it never was registered. *)
Definition unregister_netdev (port : Z) : M n5_probe unit :=
  modify (λ s, if decide (port ∈ n5_registered s) then set_allocated (without port (n5_allocated s)) (set_registered (without port (n5_registered s)) s)
               else set_warned s).
(* drivers/net/ethernet/silicom/n5010-phy.c:146-186 n5010_phy_attach *)
Definition n5010_phy_attach (port : Z) : M n5_probe unit :=
  ret ← n5_op n5k_phy_register;
  rc ret ;;
  modify (λ s, set_phys (n5_phys s ++ [port]) s) ;;
  ok ← n5_op n5k_phy_kzalloc;
  if negb ok then throw (- ENOMEM) else
  on_error (
    ret ← n5_op n5k_phy_connect;
    rc ret ;;
    modify (λ s, set_connected (n5_connected s ++ [port]) s) ;;
    n5_op (n5k_sfp_status port))
    (modify (λ s, set_phys (without port (n5_phys s)) s)).
(* drivers/net/ethernet/silicom/n5010-phy.c:189-198 n5010_phy_detach *)
Definition n5010_phy_detach (port : Z) : M n5_probe unit :=
  modify (λ s, set_phys (without port (n5_phys s)) (set_connected (without port (n5_connected s)) s)).
(* drivers/net/ethernet/silicom/n5010-hssi.c:383-420 n5010_hssi_create_regmap *)
Definition n5010_hssi_create_regmap (port : Z) (type : n5010_hssi_regmap) : M n5_probe rmap :=
  r ← n5_op (n5k_regmap (regmap_cfg base port type));
  match (r : option rmap) with None => throw (- ENOMEM) | Some r => mret r end.
(** The reset works on the maps that were just made. *)
(* drivers/net/ethernet/silicom/n5010-hssi.c:422-485 n5010_hssi_create_netdev *)
Definition n5010_hssi_create_netdev (port : Z) : M n5_probe unit :=
  ok ← n5_op n5k_alloc_netdev;
  if negb ok then throw (- ENOMEM) else
  modify (λ s, set_allocated (n5_allocated s ++ [port]) s) ;;
  on_error (
    mac ← n5010_hssi_create_regmap port regmap_mac;
    fec ← n5010_hssi_create_regmap port regmap_fec;
    _ ← n5010_hssi_create_regmap port regmap_phy;
    match n5_ethtool_reset tries ETH_RESET_MGMT (N5Netdata (Rm mac []) (Rm fec []) 1500 (replicate 6 0)) with
    | Done (Err e, _) => throw e
    | Done (Val _, _) => mret tt
    | Fault => fault
    | NoFuel => nofuel
    end ;;
    ret ← n5_op n5k_register_netdev;
    rc ret ;;
    modify (λ s, set_registered (n5_registered s ++ [port]) s) ;;
    n5010_phy_attach port)
    (unregister_netdev port).
Definition EPROBE_DEFER : Z := 517.
(** A device that was found is held, and put whatever the result. *)
Definition with_ref (m : M n5_probe unit) : M n5_probe unit :=
  modify (add_refs 1) ;;
  ret ← status m;
  modify (add_refs (-1)) ;;
  rc ret.
(* drivers/net/ethernet/silicom/n5010-hssi.c:522-583 n5010_hssi_probe *)
Definition n5010_hssi_probe : M n5_probe unit :=
  ok ← n5_op n5k_phy_master;
  if negb ok then throw (- EPROBE_DEFER) else
  with_ref (
    ok ← n5_op n5k_phy_dev;
    if negb ok then throw (- EPROBE_DEFER) else
    with_ref (
      ret ← n5_op n5k_ioremap_resource;
      rc ret ;;
      val ← n5_op n5k_capability;
      let port_cnt := FIELD_GET CAP_PORT_CNT val in
      ok ← n5_op n5k_kzalloc;
      if negb ok then throw (- ENOMEM) else
      for_each (seq 0 (Z.to_nat port_cnt)) (λ i, n5010_hssi_create_netdev (Z.of_nat i)))).
(* drivers/net/ethernet/silicom/n5010-hssi.c:585-594 n5010_hssi_remove *)
Definition n5010_hssi_remove (port_cnt : nat) : M n5_probe unit :=
  for_each (seq 0 port_cnt) (λ i, n5010_phy_detach (Z.of_nat i) ;; unregister_netdev (Z.of_nat i)).
End N5Probe.

(** ** Bits and maps *)

(** No two ports share a bit, and no light is the bit of a module. *)
Lemma port_bits_disjoint i j : i ∈ [0; 1; 2; 3] → j ∈ [0; 1; 2; 3] →
  match led_bits i, absent_bit j, led_bits j, absent_bit i with
  | Some (a, x), Some (b, y), Some (c, z), Some (d, w) =>
      (a = b → Z.land (mask x) (mask y) = 0) ∧ (i ≠ j → a = c → Z.land (mask x) (mask z) = 0) ∧ (i ≠ j → d = b → Z.land (mask w) (mask y) = 0)
  | _, _, _, _ => False
  end.
Proof. rewrite !elem_of_cons, !elem_of_nil. intros [->|[->|[->|[->|[]]]]] [->|[->|[->|[->|[]]]]]; vm_compute; split_and!; done. Qed.
(** Four ports have twelve maps in different places; a fifth has that of the first. *)
Lemma maps_apart base i j t u : 0 ≤ i < 4 → 0 ≤ j < 4 → (regmap_cfg base i t).1.1 = (regmap_cfg base j u).1.1 → i = j ∧ t = u.
Proof. unfold regmap_cfg, MB_PORT_SIZE, MB_MAC_OFFSET, MB_FEC_OFFSET, MB_PHY_OFFSET. destruct t, u; cbn; intros; split; lia || done. Qed.
Lemma fifth_port base : (regmap_cfg base 4 regmap_mac).1.1 = (regmap_cfg base 0 regmap_fec).1.1.
Proof. unfold regmap_cfg, MB_PORT_SIZE, MB_MAC_OFFSET, MB_FEC_OFFSET. cbn. lia. Qed.

(** ** The address *)
Section MacFacts.
Context `{Regmap}.
Lemma be16 a b : is_u8 a → is_u8 b → Z.lor (Z.shiftl a 8) b = a * 2 ^ 8 + b.
Proof. intros Ha Hb. rewrite Z.lor_comm, lor_shiftl by (unfold is_u8 in *; lia). lia. Qed.
Lemma be32 a b c d : is_u8 a → is_u8 b → is_u8 c → is_u8 d →
  Z.lor (Z.lor (Z.lor (Z.shiftl a 24) (Z.shiftl b 16)) (Z.shiftl c 8)) d = ((a * 2 ^ 8 + b) * 2 ^ 8 + c) * 2 ^ 8 + d.
Proof.
  intros Ha Hb Hc Hd. unfold is_u8 in *. rewrite (Z.lor_comm (Z.shiftl a 24)), (lor_shiftl (Z.shiftl b 16)); rewrite ?Z.shiftl_mul_pow2 by lia; try lia.
  replace (b * 2 ^ 16 + 2 ^ 24 * a) with (Z.shiftl (b + 2 ^ 8 * a) 16) by (rewrite Z.shiftl_mul_pow2; lia).
  rewrite (Z.lor_comm (Z.shiftl _ 16)), lor_shiftl by lia.
  replace (c * 2 ^ 8 + 2 ^ 16 * (b + 2 ^ 8 * a)) with (Z.shiftl (c + 2 ^ 8 * (b + 2 ^ 8 * a)) 8) by (rewrite Z.shiftl_mul_pow2; lia).
  rewrite Z.lor_comm, lor_shiftl by lia. lia.
Qed.
(** Where [char] is unsigned the registers get the six bytes, the first one first. *)
Lemma set_mac_address_exact a b c d e f s :
  Forall is_u8 [a; b; c; d; e; f] →
  let hi := a * 2 ^ 8 + b in let lo := ((c * 2 ^ 8 + d) * 2 ^ 8 + e) * 2 ^ 8 + f in
  wp (n5_set_mac_address (λ x, x) [a; b; c; d; e; f])
    (λ _ s', n5_dev_addr s' = [a; b; c; d; e; f] ∧ rm_log (n5_mac s') = rm_log (n5_mac s) ++ [RmWrite MAC_TX_SRC_ADDR_HI hi 0; RmWrite MAC_TX_SRC_ADDR_LO lo 0])
    (λ ret s', ret ≠ 0) s.
Proof.
  rewrite !list.Forall_cons. intros (Ha & Hb & Hc & Hd & He & Hf & _) hi lo. unfold n5_set_mac_address. wsteps. cbn [nth].
  rewrite (be16 a b), (be32 c d e f) by done. fold hi lo. rewrite !u32_small by (unfold hi, lo, is_u8, is_u32 in *; lia).
  apply wp_zoom. unfold regmap_write. destruct (rm_write MAC_TX_SRC_ADDR_HI hi _) as [ret r]. destruct (Z.eqb_spec ret 0) as [->|Hr]; [|done].
  apply wp_zoom. cbn [n5_mac rm_dev rm_log]. destruct (rm_write MAC_TX_SRC_ADDR_LO lo r) as [ret r']. destruct (Z.eqb_spec ret 0) as [->|Hr]; [|done].
  split; [done|]. cbn. by rewrite <- app_assoc.
Qed.
End MacFacts.

(** ** The probe *)
Section N5ProbeFacts.
Context `{N5Kernel} (base : Z) (tries : nat).
Implicit Types s : n5_probe.
Definition n5_same s s' : Prop := n5_registered s' = n5_registered s ∧ n5_connected s' = n5_connected s ∧ n5_refs s' = n5_refs s.
Lemma n5_op_spec {A} (f : n5k → A * n5k) s0 s (Q : A → n5_probe → Prop) E : n5_same s0 s → (∀ a s', n5_same s0 s' → Q a s') → wlp (n5_op f) Q E s.
Proof. intros Hs HQ. unfold wpg, n5_op. destruct (f (n5_k s)). by apply HQ. Qed.
Lemma create_regmap_spec port t s0 s (Q : rmap → n5_probe → Prop) (E : Z → n5_probe → Prop) :
  n5_same s0 s → (∀ r s', n5_same s0 s' → Q r s') → (∀ e s', n5_same s0 s' → E e s') → wlp (n5010_hssi_create_regmap base port t) Q E s.
Proof. intros Hs HQ HE. unfold n5010_hssi_create_regmap. wstep. eapply n5_op_spec; [exact Hs|]. intros [r|] s' Hs'; wsteps; auto. Qed.
Definition n5_added (port : Z) s s' : Prop :=
  n5_registered s' = n5_registered s ++ [port] ∧ n5_connected s' = n5_connected s ++ [port] ∧ n5_refs s' = n5_refs s.
Lemma without_new port l : port ∉ l → without port (l ++ [port]) = l.
Proof.
  intros Hp. unfold without. rewrite list.filter_app. rewrite filter_cons_False by (intros Hn; by apply Hn). rewrite filter_nil, app_nil_r.
  induction l as [|q l IH]; [done|]. apply not_elem_of_cons in Hp as [Hq Hp]. by rewrite filter_cons_True, IH by done.
Qed.
(** A port is added or it is not; nothing is kept of it but perhaps memory. *)
Lemma create_netdev_spec port s :
  port ∉ n5_registered s → wlp (n5010_hssi_create_netdev base tries port) (λ _, n5_added port s) (λ _, n5_same s) s.
Proof.
  intros Hp. unfold n5010_hssi_create_netdev. wstep. apply (n5_op_spec _ s); [done|]. intros ok s1 H1. destruct ok; cbn [negb]; wsteps; [|done].
  assert (Hun : ∀ e s', n5_same s s' → wlp (unregister_netdev port) (λ _, (λ (_ : Z) s', n5_same s s') e) (λ _, (λ (_ : Z) s', n5_same s s') e) s').
  { intros e s' Hs. unfold unregister_netdev. wsteps. rewrite decide_False by (by rewrite (proj1 Hs)). done. }
  set (s2 := set_allocated _ s1). assert (H2 : n5_same s s2) by done. clearbody s2.
  eapply create_regmap_spec; [exact H2|intros mac s3 H3; wstep|by apply Hun]. eapply create_regmap_spec; [exact H3|intros fec s4 H4; wstep|by apply Hun].
  eapply create_regmap_spec; [exact H4|intros r s5 H5; wstep|by apply Hun].
  destruct (n5_ethtool_reset _ _ _) as [[[x|e] n]| |]; wsteps; try done; [|by apply Hun].
  eapply n5_op_spec; [exact H5|]. intros ret s6 H6. wsteps; intros _; [wsteps|by apply Hun]. unfold n5010_phy_attach.
  set (s7 := set_registered _ s6). assert (H7 : n5_registered s7 = n5_registered s ++ [port] ∧ n5_connected s7 = n5_connected s ∧ n5_refs s7 = n5_refs s).
  { destruct H6 as (A & B & C). cbn. by rewrite A. }
  assert (Hreg : ∀ e s', (n5_registered s' = n5_registered s ++ [port] ∧ n5_connected s' = n5_connected s ∧ n5_refs s' = n5_refs s) →
    wlp (unregister_netdev port) (λ _, (λ (_ : Z) s', n5_same s s') e) (λ _, (λ (_ : Z) s', n5_same s s') e) s').
  { intros e s' (A & B & C). unfold unregister_netdev. wsteps. rewrite decide_True by (rewrite A, elem_of_app; right; by left). cbn.
    split_and!; [rewrite A; by apply without_new|done|done]. }
  clearbody s7. clear H6 s6 H5 s5 Hun.
  assert (Hop : ∀ {A} (f : n5k → A * n5k) s8 (Q : A → n5_probe → Prop) E,
    (n5_registered s8 = n5_registered s ++ [port] ∧ n5_connected s8 = n5_connected s ∧ n5_refs s8 = n5_refs s) →
    (∀ a s', (n5_registered s' = n5_registered s ++ [port] ∧ n5_connected s' = n5_connected s ∧ n5_refs s' = n5_refs s) → Q a s') → wlp (n5_op f) Q E s8).
  { intros A f s8 Q E Hs HQ. unfold wpg, n5_op. destruct (f (n5_k s8)). by apply HQ. }
  wstep. apply Hop; [exact H7|]. intros ret2 s8 H8. wsteps; intros _; [wsteps|by apply Hreg].
  apply Hop; [exact H8|]. intros ok s9 H9. destruct ok; cbn [negb]; wsteps; [|by apply Hreg].
  apply Hop; [exact H9|]. intros ret3 s10 (A & B & C). wsteps; intros _; wsteps; [|by apply Hreg].
  unfold wpg, n5_op. destruct (n5k_sfp_status port _) as [u k]. split_and!; cbn; [done|by rewrite B|done].
Qed.
Lemma create_all_spec n i s :
  n5_registered s = Z.of_nat <$> seq 0 i → n5_connected s = Z.of_nat <$> seq 0 i →
  wlp (for_each (seq i n) (λ i, n5010_hssi_create_netdev base tries (Z.of_nat i)))
    (λ _ s', n5_registered s' = Z.of_nat <$> seq 0 (i + n) ∧ n5_connected s' = Z.of_nat <$> seq 0 (i + n) ∧ n5_refs s' = n5_refs s)
    (λ _ s', (∃ k, (i ≤ k < i + n)%nat ∧ n5_registered s' = Z.of_nat <$> seq 0 k ∧ n5_connected s' = Z.of_nat <$> seq 0 k) ∧ n5_refs s' = n5_refs s) s.
Proof.
  revert i s. induction n as [|n IH]; intros i s Hr Hc; cbn [seq for_each]; wsteps; [by rewrite Nat.add_0_r|].
  eapply wp_mono; [apply create_netdev_spec|..]; cbv beta.
  - rewrite Hr, list_elem_of_fmap. intros (j & Hj & Hin%elem_of_seq). lia.
  - intros _ s1 (Hr1 & Hc1 & Href). eapply wp_mono; [apply (IH (S i))|..]; cbv beta.
    + by rewrite Hr1, Hr, seq_S, fmap_app.
    + by rewrite Hc1, Hc, seq_S, fmap_app.
    + intros _ s2. replace (S i + n)%nat with (i + S n)%nat by lia. by rewrite Href.
    + intros e s2 [(k & Hk & ?) ?]. split; [exists k; split; [lia|done]|congruence].
  - intros e s1 (Hr1 & Hc1 & Href). split; [|done]. exists i. split; [lia|]. by rewrite Hr1, Hc1.
Qed.
(** A probe gives the references back; it sets up every port, or stops at one and
    leaves those before it as they are. *)
Definition ports_set_up s : Prop := ∃ n, n5_registered s = Z.of_nat <$> seq 0 n ∧ n5_connected s = Z.of_nat <$> seq 0 n.
Definition n5_kept s s' : Prop := n5_refs s' = n5_refs s ∧ ports_set_up s'.
Lemma with_ref_spec m s :
  wlp m (λ _, n5_kept (add_refs 1 s)) (λ _, n5_kept (add_refs 1 s)) (add_refs 1 s) → wlp (with_ref m) (λ _, n5_kept s) (λ _, n5_kept s) s.
Proof.
  intros Hm. unfold with_ref. wsteps. eapply wp_mono; [exact Hm|..]; cbv beta; intros a s1 [Href Hp]; cbn [add_refs n5_refs] in Href;
    wsteps; intros _; (split; [cbn; lia|exact Hp]).
Qed.
Lemma n5_probe_exact s :
  n5_registered s = [] → n5_connected s = [] → wlp (n5010_hssi_probe base tries) (λ _, n5_kept s) (λ _, n5_kept s) s.
Proof.
  intros Hr Hc. assert (Hnone : ∀ s0 s', n5_registered s0 = [] → n5_connected s0 = [] → n5_same s0 s' → n5_kept s0 s').
  { intros s0 s' A0 B0 (A & B & C). split; [done|]. exists 0%nat. by rewrite A, B, A0, B0. }
  unfold n5010_hssi_probe. wstep. apply (n5_op_spec _ s); [done|]. intros ok s1 H1. destruct ok; cbn [negb]; wsteps; [|by apply Hnone].
  eapply wp_mono; [apply with_ref_spec|..]; cbv beta; [|intros _ s' [A B]; split; [by rewrite A, (proj2 (proj2 H1))|done]..].
  set (s2 := add_refs 1 s1). assert (A2 : n5_registered s2 = [] ∧ n5_connected s2 = []) by (destruct H1 as (A & B & _); cbn; by rewrite A, B). clearbody s2. destruct A2 as [A2 B2].
  wstep. apply (n5_op_spec _ s2); [done|]. intros ok s3 H3. destruct ok; cbn [negb]; wsteps; [|by apply Hnone].
  eapply wp_mono; [apply with_ref_spec|..]; cbv beta; [|intros _ s' [A B]; split; [by rewrite A, (proj2 (proj2 H3))|done]..].
  set (s4 := add_refs 1 s3). assert (A4 : n5_registered s4 = [] ∧ n5_connected s4 = []) by (destruct H3 as (A & B & _); cbn; by rewrite A, B). clearbody s4. destruct A4 as [A4 B4].
  wstep. apply (n5_op_spec _ s4); [done|]. intros ret s5 H5. wsteps; intros _; [|by apply Hnone]. wstep. apply (n5_op_spec _ s4); [done|]. intros val s6 H6. cbv zeta.
  wstep. apply (n5_op_spec _ s4); [done|]. intros ok s7 H7. destruct ok; cbn [negb]; wsteps; [|by apply Hnone].
  destruct H7 as (A7 & B7 & C7). eapply wp_mono; [apply (create_all_spec _ 0)|..]; cbv beta; [by rewrite A7, A4|by rewrite B7, B4|..].
  - intros _ s8 (A & B & C). split; [congruence|]. by eexists.
  - intros e s8 [(k & _ & A & B) C]. split; [congruence|]. by exists k.
Qed.
End N5ProbeFacts.

(** ** Examples *)

(** Registers that read zero. *)
Definition quiet_map : Regmap := {| rmap := unit; rm_read _ m := (inr 0, m); rm_write _ _ m := (0, m) |}.
(** Where [char] is signed a byte of the address with its top bit set spoils those before it. *)
Definition signed_char (b : Z) : Z := if b <? 128 then b else b - 256.
Definition mac_registers (char : Z → Z) : option (list rm_io) :=
  match @n5_set_mac_address quiet_map char [0x02; 0; 0; 0x11; 0x90; 0x01] (@N5Netdata quiet_map (@Rm quiet_map tt []) (@Rm quiet_map tt []) 1500 []) with
  | Done (Val _, s) => Some (rm_log (n5_mac s))
  | _ => None
  end.
Example unsigned_char_address : mac_registers (λ b, b) = Some [RmWrite MAC_TX_SRC_ADDR_HI 0x200 0; RmWrite MAC_TX_SRC_ADDR_LO 0x119001 0].
Proof. vm_compute. reflexivity. Qed.
Example signed_char_address : mac_registers signed_char = Some [RmWrite MAC_TX_SRC_ADDR_HI 0x200 0; RmWrite MAC_TX_SRC_ADDR_LO 0xffff9001 0].
Proof. vm_compute. reflexivity. Qed.
(** A kernel that has counted the phys it has made, the memory for them and the devices
    registered; the second of each may fail. *)
Definition second_fails (fails : bool) (err : Z) (n : Z) : Z := if fails && (n =? 1) then err else 0.
Definition demo_n5 (reg mem : bool) : @N5Kernel quiet_map :=
  @Build_N5Kernel quiet_map (Z * Z) (λ k, (true, k)) (λ k, (true, k)) (λ k, (0, k)) (λ k, (0x2 * 2 ^ 40, k)) (λ k, (true, k)) (λ k, (true, k))
    (λ _ k, (Some tt, k)) (λ k, (second_fails reg (- ENOMEM) k.1, (k.1 + 1, k.2))) (λ k, (0, k)) (λ k, (negb (mem && (k.2 =? 1)), (k.1, k.2 + 1))) (λ k, (0, k)) (λ _ k, (tt, k)).
(** The result, the devices allocated and registered, the phys, and whether the kernel warned. *)
Definition n5_view (reg mem : bool) : option (bool * list Z * list Z * list Z * bool) :=
  match @n5010_hssi_probe quiet_map (demo_n5 reg mem) 0 3 (@N5Probe quiet_map (demo_n5 reg mem) (0, 0) [] [] [] [] false 0) with
  | Done (r, s) => Some (match r with Val _ => true | Err _ => false end, n5_allocated s, n5_registered s, n5_phys s, n5_warned s)
  | _ => None
  end.
Example probe_two_ports : n5_view false false = Some (true, [0; 1], [0; 1], [0; 1], false).
Proof. vm_compute. reflexivity. Qed.
(** The second device cannot be registered: it is unregistered all the same, and not
    freed; the first one stays. *)
Example second_port_fails : n5_view true false = Some (false, [0; 1], [0], [0], true).
Proof. vm_compute. reflexivity. Qed.
(** No memory for the second phy: the phy stays. *)
Example second_phy_stays : n5_view false true = Some (false, [0], [0], [0; 1], false).
Proof. vm_compute. reflexivity. Qed.
