(* ===== verification/Pmci.v ===== *)
(** * Flash of a board behind the PMCI (drivers/mfd/intel-m10-bmc-pmci.c)

    On these boards the flash is read and written through a FIFO of the PMCI, words
    at a time; reading asks the board for the flash first, writing happens while the
    flash is locked for an update. *)
From stdpp Require Import strings.
From S2P Require Import Prelude Bytes Mmio M10Bmc.

(* include/linux/mfd/intel-m10-bmc.h:206-206 M10BMC_N6000_SYS_BASE *)
Definition M10BMC_N6000_SYS_BASE : Z := 0x0.
(* include/linux/mfd/intel-m10-bmc.h:221-221 M10BMC_N6000_DOORBELL *)
Definition M10BMC_N6000_DOORBELL : Z := 0x1c0.
(* include/linux/mfd/intel-m10-bmc.h:224-224 M10BMC_N6000_AUTH_RESULT *)
Definition M10BMC_N6000_AUTH_RESULT : Z := 0x1c4.
(* include/linux/mfd/intel-m10-bmc.h:259-259 M10BMC_PMCI_SR_RH0 *)
Definition M10BMC_PMCI_SR_RH0 : Z := 0x848.
(* include/linux/mfd/intel-m10-bmc.h:260-260 M10BMC_PMCI_SR_CSK *)
Definition M10BMC_PMCI_SR_CSK : Z := 0x878.
(* include/linux/mfd/intel-m10-bmc.h:261-261 M10BMC_PMCI_PR_RH0 *)
Definition M10BMC_PMCI_PR_RH0 : Z := 0x87c.
(* include/linux/mfd/intel-m10-bmc.h:262-262 M10BMC_PMCI_PR_CSK *)
Definition M10BMC_PMCI_PR_CSK : Z := 0x8ac.
(* include/linux/mfd/intel-m10-bmc.h:264-264 M10BMC_N6000_BUILD_VER *)
Definition M10BMC_N6000_BUILD_VER : Z := 0x0.
(* include/linux/mfd/intel-m10-bmc.h:265-265 NIOS2_N6000_FW_VERSION *)
Definition NIOS2_N6000_FW_VERSION : Z := 0x4.
(* include/linux/mfd/intel-m10-bmc.h:266-266 M10BMC_N6000_MAC_LOW *)
Definition M10BMC_N6000_MAC_LOW : Z := 0x20.
(* include/linux/mfd/intel-m10-bmc.h:267-267 M10BMC_N6000_MAC_HIGH *)
Definition M10BMC_N6000_MAC_HIGH : Z := M10BMC_N6000_MAC_LOW + 4.
(* include/linux/mfd/intel-m10-bmc.h:285-285 M10BMC_N6000_BMC_REH_ADDR *)
Definition M10BMC_N6000_BMC_REH_ADDR : Z := 0x7ffc004.
(* include/linux/mfd/intel-m10-bmc.h:286-286 M10BMC_N6000_BMC_PROG_ADDR *)
Definition M10BMC_N6000_BMC_PROG_ADDR : Z := 0x7ffc000.
(* include/linux/mfd/intel-m10-bmc.h:287-287 M10BMC_N6000_BMC_PROG_MAGIC *)
Definition M10BMC_N6000_BMC_PROG_MAGIC : Z := 0x5746.
(* include/linux/mfd/intel-m10-bmc.h:289-289 M10BMC_N6000_SR_REH_ADDR *)
Definition M10BMC_N6000_SR_REH_ADDR : Z := 0x7ffd004.
(* include/linux/mfd/intel-m10-bmc.h:290-290 M10BMC_N6000_SR_PROG_ADDR *)
Definition M10BMC_N6000_SR_PROG_ADDR : Z := 0x7ffd000.
(* include/linux/mfd/intel-m10-bmc.h:291-291 M10BMC_N6000_SR_PROG_MAGIC *)
Definition M10BMC_N6000_SR_PROG_MAGIC : Z := 0x5253.
(* include/linux/mfd/intel-m10-bmc.h:293-293 M10BMC_N6000_PR_REH_ADDR *)
Definition M10BMC_N6000_PR_REH_ADDR : Z := 0x7ffe004.
(* include/linux/mfd/intel-m10-bmc.h:294-294 M10BMC_N6000_PR_PROG_ADDR *)
Definition M10BMC_N6000_PR_PROG_ADDR : Z := 0x7ffe000.
(* include/linux/mfd/intel-m10-bmc.h:295-295 M10BMC_N6000_PR_PROG_MAGIC *)
Definition M10BMC_N6000_PR_PROG_MAGIC : Z := 0x5250.
(* include/linux/mfd/intel-m10-bmc.h:297-297 M10BMC_C6100_BMC_REH_ADDR *)
Definition M10BMC_C6100_BMC_REH_ADDR : Z := 0x00830004.
(* include/linux/mfd/intel-m10-bmc.h:298-298 M10BMC_C6100_BMC_PROG_ADDR *)
Definition M10BMC_C6100_BMC_PROG_ADDR : Z := 0x00830000.
(* include/linux/mfd/intel-m10-bmc.h:300-300 M10BMC_C6100_SR_REH_ADDR *)
Definition M10BMC_C6100_SR_REH_ADDR : Z := 0x00820004.
(* include/linux/mfd/intel-m10-bmc.h:301-301 M10BMC_C6100_SR_PROG_ADDR *)
Definition M10BMC_C6100_SR_PROG_ADDR : Z := 0x00820000.
(* include/linux/mfd/intel-m10-bmc.h:303-303 M10BMC_C6100_PR_REH_ADDR *)
Definition M10BMC_C6100_PR_REH_ADDR : Z := 0x00810004.
(* include/linux/mfd/intel-m10-bmc.h:304-304 M10BMC_C6100_PR_PROG_ADDR *)
Definition M10BMC_C6100_PR_PROG_ADDR : Z := 0x00810000.
(* include/linux/mfd/intel-m10-bmc.h:306-306 M10BMC_N6000_STAGING_FLASH_COUNT *)
Definition M10BMC_N6000_STAGING_FLASH_COUNT : Z := 0x7ff5000.
(* include/linux/mfd/intel-m10-bmc.h:308-308 M10BMC_C6100_STAGING_FLASH_COUNT *)
Definition M10BMC_C6100_STAGING_FLASH_COUNT : Z := 0x00860000.
(* include/linux/mfd/intel-m10-bmc.h:310-310 M10BMC_N6000_FLASH_MUX_CTRL *)
Definition M10BMC_N6000_FLASH_MUX_CTRL : Z := 0x1d0.
(* include/linux/mfd/intel-m10-bmc.h:311-311 M10BMC_N6000_FLASH_MUX_SELECTION *)
Definition M10BMC_N6000_FLASH_MUX_SELECTION : field := GENMASK_ULL 2 0.
(* include/linux/mfd/intel-m10-bmc.h:314-314 M10BMC_N6000_FLASH_MUX_HOST *)
Definition M10BMC_N6000_FLASH_MUX_HOST : Z := 2.
(* include/linux/mfd/intel-m10-bmc.h:316-316 get_flash_mux *)
Definition get_flash_mux (mux : Z) : Z := FIELD_GET M10BMC_N6000_FLASH_MUX_SELECTION mux.
(* include/linux/mfd/intel-m10-bmc.h:319-319 M10BMC_N6000_FLASH_HOST_REQUEST *)
Definition M10BMC_N6000_FLASH_HOST_REQUEST : field := BIT_ULL 5.
(* include/linux/mfd/intel-m10-bmc.h:321-321 M10BMC_N6000_FLASH_CTRL *)
Definition M10BMC_N6000_FLASH_CTRL : Z := 0x40.
(* include/linux/mfd/intel-m10-bmc.h:323-323 M10BMC_N6000_FLASH_RD_MODE *)
Definition M10BMC_N6000_FLASH_RD_MODE : field := BIT_ULL 1.
(* include/linux/mfd/intel-m10-bmc.h:324-324 M10BMC_N6000_FLASH_BUSY *)
Definition M10BMC_N6000_FLASH_BUSY : field := BIT_ULL 2.
(* include/linux/mfd/intel-m10-bmc.h:325-325 M10BMC_N6000_FLASH_FIFO_SPACE *)
Definition M10BMC_N6000_FLASH_FIFO_SPACE : field := GENMASK_ULL 13 4.
(* include/linux/mfd/intel-m10-bmc.h:326-326 M10BMC_N6000_FLASH_READ_COUNT *)
Definition M10BMC_N6000_FLASH_READ_COUNT : field := GENMASK_ULL 25 16.
(* include/linux/mfd/intel-m10-bmc.h:328-328 M10BMC_N6000_FLASH_ADDR *)
Definition M10BMC_N6000_FLASH_ADDR : Z := 0x44.
(* include/linux/mfd/intel-m10-bmc.h:329-329 M10BMC_N6000_FLASH_FIFO *)
Definition M10BMC_N6000_FLASH_FIFO : Z := 0x800.
(* include/linux/mfd/intel-m10-bmc.h:330-330 M10BMC_N6000_READ_BLOCK_SIZE *)
Definition M10BMC_N6000_READ_BLOCK_SIZE : Z := 0x800.
(* include/linux/mfd/intel-m10-bmc.h:331-331 M10BMC_N6000_FIFO_MAX_BYTES *)
Definition M10BMC_N6000_FIFO_MAX_BYTES : Z := 0x800.
(* include/linux/mfd/intel-m10-bmc.h:332-332 M10BMC_N6000_FIFO_WORD_SIZE *)
Definition M10BMC_N6000_FIFO_WORD_SIZE : Z := 4.
(* include/linux/mfd/intel-m10-bmc.h:333-334 M10BMC_N6000_FIFO_MAX_WORDS *)
Definition M10BMC_N6000_FIFO_MAX_WORDS : Z := M10BMC_N6000_FIFO_MAX_BYTES / M10BMC_N6000_FIFO_WORD_SIZE.

Section Pmci.
Context `{Regmap} `{MmioHw} (tries : nat).

(** The fields of the PMCI beside the embedded [m10bmc]. *)
(* drivers/mfd/intel-m10-bmc-pmci.c:19-24 m10bmc_pmci_device *)
Record m10bmc_pmci_device := PmciDev {
  pmci_base : Z;
  pmci_mm : mmst;
  flash_busy : bool;
}.
Abbreviation pmci := (bmc m10bmc_pmci_device).
Definition on_mm {A} : M mmst A → M pmci A :=
  zoom (λ s, pmci_mm (bm_ext s))
    (λ m s, Bmc _ _ (bm_map s) (bm_log s) (bmcfw_state s) (PmciDev (pmci_base (bm_ext s)) m (flash_busy (bm_ext s)))).
Definition set_flash_busy (b : bool) : M pmci unit := modify (λ s,
  Bmc _ _ (bm_map s) (bm_log s) (bmcfw_state s) (PmciDev (pmci_base (bm_ext s)) (pmci_mm (bm_ext s)) b)).
Definition pmci_readl (off : Z) : M pmci Z := base ← gets (λ s, pmci_base (bm_ext s)); on_mm (readl (base + off)).
Definition pmci_writel (v off : Z) : M pmci unit :=
  base ← gets (λ s, pmci_base (bm_ext s)); on_mm (writel v (base + off)).
Definition pmci_poll (off : Z) (cond : Z → bool) : M pmci (Z * Z) :=
  base ← gets (λ s, pmci_base (bm_ext s)); on_mm (read_poll_timeout (readl (base + off)) cond tries).

(* drivers/mfd/intel-m10-bmc-pmci.c:26-30 pmci_write_fifo *)
Definition pmci_write_fifo (words : list Z) : M pmci unit :=
  for_each words (λ w, pmci_writel w M10BMC_N6000_FLASH_FIFO).

(* drivers/mfd/intel-m10-bmc-pmci.c:32-36 pmci_read_fifo *)
Fixpoint pmci_read_fifo (count : nat) : M pmci (list Z) :=
  match count with
  | O => mret []
  | S count =>
      w ← pmci_readl M10BMC_N6000_FLASH_FIFO;
      ws ← pmci_read_fifo count;
      mret (w :: ws)
  end.

(* drivers/mfd/intel-m10-bmc-pmci.c:38-52 pmci_get_write_space *)
Definition pmci_get_write_space : M pmci Z :=
  r ← pmci_poll M10BMC_N6000_FLASH_CTRL
    (λ val, FIELD_GET M10BMC_N6000_FLASH_FIFO_SPACE val =? M10BMC_N6000_FIFO_MAX_WORDS);
  if r.1 =? - ETIMEDOUT then mret 0
  else mret (u32 (FIELD_GET M10BMC_N6000_FLASH_FIFO_SPACE r.2 * M10BMC_N6000_FIFO_WORD_SIZE)).

(** The loop ends with the size and the offset that are left. *)
(* drivers/mfd/intel-m10-bmc-pmci.c:59-75 pmci_flash_bulk_write *)
Fixpoint bulk_write_loop (fuel : nat) (buf : list Z) (size offset : Z) : M pmci (Z * Z) :=
  match fuel with
  | O => nofuel
  | S fuel =>
      if size =? 0 then mret (size, offset) else
      space ← pmci_get_write_space;
      let blk_size := Z.min space size in
      if blk_size =? 0 then throw (- EIO) else
      if size <? M10BMC_N6000_FIFO_WORD_SIZE then mret (size, offset) else
      let write_count := blk_size / M10BMC_N6000_FIFO_WORD_SIZE in
      part ← access (slice offset (write_count * 4) buf);
      pmci_write_fifo (le_words (Z.to_nat write_count) part) ;;
      bulk_write_loop fuel buf (size - blk_size) (offset + blk_size)
  end.
(* drivers/mfd/intel-m10-bmc-pmci.c:54-86 pmci_flash_bulk_write *)
Definition pmci_flash_bulk_write (buf : list Z) (size : Z) : M pmci unit :=
  r ← bulk_write_loop (S (Z.to_nat size)) buf size 0;
  if negb ((r : Z * Z).1 =? 0) then
    part ← access (slice r.2 r.1 buf);
    pmci_write_fifo [le_word part]
  else mret tt.

(** The loop ends with the buffer and the size and the offset that are left. *)
(* drivers/mfd/intel-m10-bmc-pmci.c:94-125 pmci_flash_bulk_read *)
Fixpoint bulk_read_loop (fuel : nat) (buf : list Z) (addr size offset : Z) : M pmci (list Z * Z * Z) :=
  match fuel with
  | O => nofuel
  | S fuel =>
      if size =? 0 then mret (buf, size, offset) else
      let blk_size := Z.min size M10BMC_N6000_READ_BLOCK_SIZE in
      let full_read_count := blk_size / M10BMC_N6000_FIFO_WORD_SIZE in
      let read_count := if full_read_count * M10BMC_N6000_FIFO_WORD_SIZE <? blk_size
                        then full_read_count + 1 else full_read_count in
      pmci_writel (addr + offset) M10BMC_N6000_FLASH_ADDR ;;
      pmci_writel (Z.lor (FIELD_PREP M10BMC_N6000_FLASH_READ_COUNT read_count) (mask M10BMC_N6000_FLASH_RD_MODE))
        M10BMC_N6000_FLASH_CTRL ;;
      r ← pmci_poll M10BMC_N6000_FLASH_CTRL (λ val, negb (has_bits M10BMC_N6000_FLASH_BUSY val));
      rc ((r : Z * Z).1) ;;
      ws ← pmci_read_fifo (Z.to_nat full_read_count);
      buf ← access (splice offset (ws ≫= le_split 4) buf);
      let size := size - blk_size in
      let offset := offset + blk_size in
      if full_read_count <? read_count then mret (buf, size, offset) else
      pmci_writel 0 M10BMC_N6000_FLASH_CTRL ;;
      bulk_read_loop fuel buf addr size offset
  end.
(* drivers/mfd/intel-m10-bmc-pmci.c:88-138 pmci_flash_bulk_read *)
Definition pmci_flash_bulk_read (buf : list Z) (addr size : Z) : M pmci (list Z) :=
  r ← bulk_read_loop (S (Z.to_nat size)) buf addr size 0;
  let '(buf, size, offset) := (r : list Z * Z * Z) in
  if negb (size =? 0) then
    ws ← pmci_read_fifo 1;
    buf ← access (splice offset (take (Z.to_nat size) (ws ≫= le_split 4)) buf);
    pmci_writel 0 M10BMC_N6000_FLASH_CTRL ;;
    mret buf
  else mret buf.

(* drivers/mfd/intel-m10-bmc-pmci.c:140-157 m10bmc_pmci_set_flash_host_mux *)
Definition m10bmc_pmci_set_flash_host_mux (request : bool) : M pmci unit :=
  regmap_update_bits M10BMC_N6000_FLASH_MUX_CTRL (mask M10BMC_N6000_FLASH_HOST_REQUEST)
    (FIELD_PREP M10BMC_N6000_FLASH_HOST_REQUEST (Z.b2z request)) ;;
  r ← regmap_read_poll_timeout M10BMC_N6000_FLASH_MUX_CTRL
    (λ ctrl, if request then get_flash_mux ctrl =? M10BMC_N6000_FLASH_MUX_HOST
             else negb (get_flash_mux ctrl =? M10BMC_N6000_FLASH_MUX_HOST)) tries;
  rc r.1.

(** The four operations run under [flash_mutex]. *)
(* drivers/mfd/intel-m10-bmc-pmci.c:159-184 m10bmc_pmci_flash_read *)
Definition m10bmc_pmci_flash_read (buf : list Z) (addr size : Z) : M pmci (list Z) :=
  busy ← gets (λ s, flash_busy (bm_ext s));
  if (busy : bool) then throw (- EBUSY) else
  r ← attempt (m10bmc_pmci_set_flash_host_mux true ;; pmci_flash_bulk_read buf addr size);
  ret2 ← status (m10bmc_pmci_set_flash_host_mux false);
  match r with
  | inl ret => throw ret
  | inr buf => rc ret2 ;; mret buf
  end.

(* drivers/mfd/intel-m10-bmc-pmci.c:186-198 m10bmc_pmci_flash_write *)
Definition m10bmc_pmci_flash_write (buf : list Z) (offset size : Z) : M pmci unit :=
  pmci_flash_bulk_write (drop (Z.to_nat offset) buf) size.

(* drivers/mfd/intel-m10-bmc-pmci.c:200-216 m10bmc_pmci_flash_lock *)
Definition m10bmc_pmci_flash_lock : M pmci unit :=
  busy ← gets (λ s, flash_busy (bm_ext s));
  if (busy : bool) then throw (- EBUSY) else set_flash_busy true.

(* drivers/mfd/intel-m10-bmc-pmci.c:218-226 m10bmc_pmci_flash_unlock *)
Definition m10bmc_pmci_flash_unlock : M pmci unit := set_flash_busy false.

(* drivers/mfd/intel-m10-bmc-pmci.c:228-233 m10bmc_pmci_flash_bulk_ops *)
Definition m10bmc_pmci_flash_bulk_ops : intel_m10bmc_flash_bulk_ops m10bmc_pmci_device := {|
  fb_read := m10bmc_pmci_flash_read;
  fb_write := m10bmc_pmci_flash_write;
  fb_lock_write := m10bmc_pmci_flash_lock;
  fb_unlock_write := m10bmc_pmci_flash_unlock;
|}.
End Pmci.

(** ** Boards *)

(* drivers/mfd/intel-m10-bmc-pmci.c:253-257 m10bmc_pmci_n6000_bmc_subdevs *)
Definition m10bmc_pmci_n6000_bmc_subdevs : list string := ["n6000bmc-hwmon"; "n6000bmc-sec-update"; "n6000bmc-log"].
(* drivers/mfd/intel-m10-bmc-pmci.c:259-263 m10bmc_pmci_c6100_bmc_subdevs *)
Definition m10bmc_pmci_c6100_bmc_subdevs : list string := ["c6100bmc-hwmon"; "n6000bmc-sec-update"; "c6100bmc-log"].
(* drivers/mfd/intel-m10-bmc-pmci.c:265-269 m10bmc_pmci_cmc_bmc_subdevs *)
Definition m10bmc_pmci_cmc_bmc_subdevs : list string := ["cmcbmc-hwmon"; "n6000bmc-sec-update"; "cmcbmc-log"].

(* drivers/mfd/intel-m10-bmc-pmci.c:271-294 m10bmc_n6000_csr_map *)
Definition m10bmc_n6000_csr_map : m10bmc_csr_map := {|
  base := M10BMC_N6000_SYS_BASE;
  build_version := M10BMC_N6000_BUILD_VER;
  fw_version := NIOS2_N6000_FW_VERSION;
  mac_low := M10BMC_N6000_MAC_LOW;
  mac_high := M10BMC_N6000_MAC_HIGH;
  doorbell := M10BMC_N6000_DOORBELL;
  auth_result := M10BMC_N6000_AUTH_RESULT;
  bmc_prog_addr := M10BMC_N6000_BMC_PROG_ADDR;
  bmc_reh_addr := M10BMC_N6000_BMC_REH_ADDR;
  bmc_magic := M10BMC_N6000_BMC_PROG_MAGIC;
  sr_prog_addr := M10BMC_N6000_SR_PROG_ADDR;
  sr_reh_addr := M10BMC_N6000_SR_REH_ADDR;
  sr_magic := M10BMC_N6000_SR_PROG_MAGIC;
  pr_prog_addr := M10BMC_N6000_PR_PROG_ADDR;
  pr_reh_addr := M10BMC_N6000_PR_REH_ADDR;
  pr_magic := M10BMC_N6000_PR_PROG_MAGIC;
  rsu_update_counter := M10BMC_N6000_STAGING_FLASH_COUNT;
  pr_sdm_reh_reg := M10BMC_PMCI_PR_RH0;
  pr_sdm_csk_reg := M10BMC_PMCI_PR_CSK;
  sr_sdm_reh_reg := M10BMC_PMCI_SR_RH0;
  sr_sdm_csk_reg := M10BMC_PMCI_SR_CSK;
  staging_size := M10BMC_STAGING_SIZE;
|}.
(* drivers/mfd/intel-m10-bmc-pmci.c:296-319 m10bmc_c6100_csr_map *)
Definition m10bmc_c6100_csr_map : m10bmc_csr_map := {|
  base := M10BMC_N6000_SYS_BASE;
  build_version := M10BMC_N6000_BUILD_VER;
  fw_version := NIOS2_N6000_FW_VERSION;
  mac_low := M10BMC_N6000_MAC_LOW;
  mac_high := M10BMC_N6000_MAC_HIGH;
  doorbell := M10BMC_N6000_DOORBELL;
  auth_result := M10BMC_N6000_AUTH_RESULT;
  bmc_prog_addr := M10BMC_C6100_BMC_PROG_ADDR;
  bmc_reh_addr := M10BMC_C6100_BMC_REH_ADDR;
  bmc_magic := M10BMC_N6000_BMC_PROG_MAGIC;
  sr_prog_addr := M10BMC_C6100_SR_PROG_ADDR;
  sr_reh_addr := M10BMC_C6100_SR_REH_ADDR;
  sr_magic := M10BMC_N6000_SR_PROG_MAGIC;
  pr_prog_addr := M10BMC_C6100_PR_PROG_ADDR;
  pr_reh_addr := M10BMC_C6100_PR_REH_ADDR;
  pr_magic := M10BMC_N6000_PR_PROG_MAGIC;
  rsu_update_counter := M10BMC_C6100_STAGING_FLASH_COUNT;
  pr_sdm_reh_reg := M10BMC_PMCI_PR_RH0;
  pr_sdm_csk_reg := M10BMC_PMCI_PR_CSK;
  sr_sdm_reh_reg := M10BMC_PMCI_SR_RH0;
  sr_sdm_csk_reg := M10BMC_PMCI_SR_CSK;
  staging_size := M10BMC_STAGING_SIZE;
|}.
(* drivers/mfd/intel-m10-bmc-pmci.c:321-325 m10bmc_pmci_n6000 *)
Definition m10bmc_pmci_n6000 := PlatformInfo m10bmc_pmci_n6000_bmc_subdevs [] m10bmc_n6000_csr_map.
(* drivers/mfd/intel-m10-bmc-pmci.c:327-331 m10bmc_pmci_c6100 *)
Definition m10bmc_pmci_c6100 := PlatformInfo m10bmc_pmci_c6100_bmc_subdevs [] m10bmc_c6100_csr_map.
(* drivers/mfd/intel-m10-bmc-pmci.c:333-337 m10bmc_pmci_cmc *)
Definition m10bmc_pmci_cmc := PlatformInfo m10bmc_pmci_cmc_bmc_subdevs [] m10bmc_c6100_csr_map.

(** The board of a revision of the PMCI feature. *)
(* drivers/mfd/intel-m10-bmc-pmci.c:346-358 m10bmc_pmci_probe *)
Definition m10bmc_pmci_pinfo (revision : Z) : option intel_m10bmc_platform_info :=
  if revision =? 1 then Some m10bmc_pmci_n6000
  else if revision =? 2 then Some m10bmc_pmci_c6100
  else if revision =? 3 then Some m10bmc_pmci_cmc
  else None.

(** ** Properties of the flash behind the PMCI

    What a bulk write puts into the FIFO and what a bulk read makes of it, for every
    device; both for sizes that are a multiple of the word. *)

Section Facts.
Context `{Regmap} `{MmioHw} (tries : nat).
Abbreviation pmci := (bmc m10bmc_pmci_device).
Implicit Types s : pmci.

(** [s'] is [s] after the accesses [l] of the PMCI. *)
Definition after_mm (l : list mmio_io) s s' : Prop :=
  bm_map s' = bm_map s ∧ bm_log s' = bm_log s ∧ bmcfw_state s' = bmcfw_state s ∧
  pmci_base (bm_ext s') = pmci_base (bm_ext s) ∧ flash_busy (bm_ext s') = flash_busy (bm_ext s) ∧
  mm_log (pmci_mm (bm_ext s')) = mm_log (pmci_mm (bm_ext s)) ++ l.
Lemma after_mm_refl s : after_mm [] s s.
Proof. split_and!; try done. by rewrite app_nil_r. Qed.
Lemma after_mm_trans l1 l2 s1 s2 s3 : after_mm l1 s1 s2 → after_mm l2 s2 s3 → after_mm (l1 ++ l2) s1 s3.
Proof. intros (?&?&?&?&?&L1) (?&?&?&?&?&L2). split_and!; try congruence. by rewrite L2, L1, app_assoc. Qed.

Lemma on_mm_spec {A} (m : M mmst A) s (Q : A → pmci → Prop) E :
  wp m (λ a m', ∀ s', (∀ l, mm_log m' = mm_log (pmci_mm (bm_ext s)) ++ l → after_mm l s s') → Q a s')
       (λ e m', ∀ s', (∀ l, mm_log m' = mm_log (pmci_mm (bm_ext s)) ++ l → after_mm l s s') → E e s')
    (pmci_mm (bm_ext s)) → wp (on_mm m) Q E s.
Proof.
  intros Hm. apply wp_zoom. unfold wpg in Hm. destruct (m (pmci_mm (bm_ext s))) as [[[] m']| |]; try done;
    apply Hm; intros l Hl; by split_and!.
Qed.
Lemma readl_step off s (Q : Z → pmci → Prop) E :
  (∀ v s', is_u32 v → after_mm [MmioRead (pmci_base (bm_ext s) + off) v] s s' → Q v s') → wp (pmci_readl off) Q E s.
Proof. intros HQ. unfold pmci_readl. wsteps. apply on_mm_spec, readl_spec. intros v d Hv s' Hs. apply HQ; auto. Qed.
Lemma writel_step v off s (Q : unit → pmci → Prop) E :
  (∀ s', after_mm [MmioWrite (pmci_base (bm_ext s) + off) (u32 v)] s s' → Q tt s') → wp (pmci_writel v off) Q E s.
Proof. intros HQ. unfold pmci_writel. wsteps. apply on_mm_spec. unfold writel, writeq. wsteps. intros s' Hs. apply HQ, Hs. done. Qed.
Lemma poll_step off cond s (Q : Z * Z → pmci → Prop) E :
  (∀ r l s', after_mm l s s' → polled (pmci_base (bm_ext s) + off) cond (r.1 =? 0) l → (r.1 = 0 ∨ r.1 = - ETIMEDOUT) →
     cond r.2 = (r.1 =? 0) → Q r s') → wp (pmci_poll tries off cond) Q E s.
Proof.
  intros HQ. unfold pmci_poll. wsteps. apply on_mm_spec. eapply wp_mono; [apply polll_spec| |done].
  intros r m' (l & Hl & Hp & Hr & Hc) s' Hs. eapply HQ; eauto.
Qed.

(** ** Writing *)

(** The bytes that went into the FIFO of a PMCI at [b]. *)
Definition fifo_in (b : Z) (io : mmio_io) : list Z :=
  match io with
  | MmioWrite a v => if a =? b + M10BMC_N6000_FLASH_FIFO then le_split 4 v else []
  | _ => []
  end.
Lemma polled_fifo b a cond ok l : polled a cond ok l → l ≫= fifo_in b = [].
Proof.
  intros (vs & v & -> & _). rewrite bind_app. cbn. rewrite app_nil_r. induction vs as [|w vs IH]; [done|]. exact IH.
Qed.

Lemma write_fifo_spec ws s (Q : unit → pmci → Prop) E :
  Forall is_u32 ws →
  (∀ l s', after_mm l s s' → l ≫= fifo_in (pmci_base (bm_ext s)) = ws ≫= le_split 4 → Q tt s') →
  wp (pmci_write_fifo ws) Q E s.
Proof.
  intros Hws. unfold pmci_write_fifo. revert s. induction Hws as [|w ws Hw _ IH]; intros s HQ; cbn [for_each]; wsteps.
  { apply (HQ []); [apply after_mm_refl|done]. }
  apply writel_step. intros s1 H1. apply IH. intros l s2 H2 Hl. pose proof H1 as (_&_&_&Hb&_).
  eapply HQ; [exact (after_mm_trans _ _ _ _ _ H1 H2)|]. rewrite Hb in Hl. rewrite bind_app, Hl. cbn.
  rewrite Z.eqb_refl, u32_small by done. by rewrite app_nil_r.
Qed.

Lemma write_space_spec s (Q : Z → pmci → Prop) E :
  (∀ l n s', after_mm l s s' → l ≫= fifo_in (pmci_base (bm_ext s)) = [] → n = 0 ∨ n = M10BMC_N6000_FIFO_MAX_BYTES → Q n s') →
  wp (pmci_get_write_space tries) Q E s.
Proof.
  intros HQ. unfold pmci_get_write_space. wsteps. apply poll_step. intros r l s' Hs Hl Hr Hc.
  destruct (Z.eqb_spec (r.1) (- ETIMEDOUT)) as [He|He]; wsteps; (eapply HQ; [exact Hs|by eapply polled_fifo|]).
  - by left.
  - right. destruct Hr as [Hr|Hr]; [|done]. rewrite Hr in Hc. apply Z.eqb_eq in Hc. by rewrite Hc.
Qed.

Lemma bulk_write_spec fuel buf : ∀ size offset s,
  Forall is_u8 buf → (Z.to_nat size < fuel)%nat → size mod 4 = 0 → 0 ≤ size → 0 ≤ offset →
  offset + size ≤ Z.of_nat (length buf) →
  wp (bulk_write_loop tries fuel buf size offset)
    (λ r s', r.1 = 0 ∧ ∃ l, after_mm l s s' ∧
       l ≫= fifo_in (pmci_base (bm_ext s)) = take (Z.to_nat size) (drop (Z.to_nat offset) buf))
    (λ e s', e = - EIO ∧ ∃ l, after_mm l s s') s.
Proof.
  induction fuel as [|fuel IH]; intros size offset s Hb Hf Hm Hs Ho Hl; [lia|]. cbn [bulk_write_loop].
  destruct (Z.eqb_spec size 0) as [->|Hne]; wsteps.
  { split; [done|]. exists []. split; [apply after_mm_refl|done]. }
  apply write_space_spec. intros l1 n s1 H1 Hl1 Hn. pose proof H1 as (_&_&_&Hb1&_).
  assert (4 ≤ size) as H4 by (pose proof (Z.div_mod size 4); lia).
  destruct (Z.eqb_spec (Z.min n size) 0) as [Hz|Hz]; wsteps; [split; [done|by exists l1]|].
  destruct Hn as [Hn|Hn]; subst n; [lia|]. change M10BMC_N6000_FIFO_MAX_BYTES with 2048 in *.
  change M10BMC_N6000_FIFO_WORD_SIZE with 4. destruct (Z.ltb_spec size 4) as [Hlt|Hge]; [lia|]. set (blk := Z.min 2048 size) in *.
  assert (blk mod 4 = 0) as Hbm by (unfold blk; destruct (Z.min_spec 2048 size) as [[_ ->]|[_ ->]]; done).
  assert (blk / 4 * 4 = blk) as Hbd by (pose proof (Z.div_mod blk 4); lia).
  wsteps. apply wp_access; [|rewrite slice_Some by lia; done]. rewrite Hbd, slice_Some by lia. intros part [= <-].
  set (part := take _ _). assert (Z.of_nat (length part) = blk) as Hpl.
  { unfold part. rewrite length_take, length_drop. lia. }
  assert (Forall is_u8 part) as Hp by by apply Forall_take, Forall_drop.
  wsteps. apply write_fifo_spec; [by apply le_words_u32|]. intros l2 s2 H2 Hl2. pose proof H2 as (_&_&_&Hb2&_).
  eapply wp_mono; [apply IH; try lia; [done|]| |].
  - rewrite Zminus_mod, Hm, Hbm. done.
  - intros r s3 (Hr & l3 & H3 & Hl3). split; [done|]. exists (l1 ++ l2 ++ l3).
    split; [exact (after_mm_trans _ _ _ _ _ H1 (after_mm_trans _ _ _ _ _ H2 H3))|].
    rewrite Hb2, Hb1 in Hl3. rewrite Hb1 in Hl2. rewrite !bind_app, Hl1, Hl2, Hl3, le_words_exact by (done || lia).
    cbn [app]. unfold part.
    replace (Z.to_nat (offset + blk)) with (Z.to_nat offset + Z.to_nat blk)%nat by lia.
    pose proof (slice_app (Z.to_nat offset) (Z.to_nat offset + Z.to_nat blk) (Z.to_nat offset + Z.to_nat size) buf
      ltac:(lia)) as Hsl.
    replace (Z.to_nat offset + Z.to_nat blk - Z.to_nat offset)%nat with (Z.to_nat blk) in Hsl by lia.
    replace (Z.to_nat offset + Z.to_nat size - Z.to_nat offset)%nat with (Z.to_nat size) in Hsl by lia.
    rewrite <- Hsl. f_equal. f_equal. lia.
  - intros e s3 (-> & l3 & H3). split; [done|]. exists (l1 ++ l2 ++ l3).
    exact (after_mm_trans _ _ _ _ _ H1 (after_mm_trans _ _ _ _ _ H2 H3)).
Qed.
Lemma flash_write_spec buf off size s :
  Forall is_u8 buf → size mod 4 = 0 → 0 ≤ size → 0 ≤ off → off + size ≤ Z.of_nat (length buf) →
  wp (m10bmc_pmci_flash_write tries buf off size)
    (λ _ s', ∃ l, after_mm l s s' ∧
       l ≫= fifo_in (pmci_base (bm_ext s)) = take (Z.to_nat size) (drop (Z.to_nat off) buf))
    (λ e s', e = - EIO ∧ ∃ l, after_mm l s s') s.
Proof.
  intros Hb Hm Hs Ho Hl. unfold m10bmc_pmci_flash_write, pmci_flash_bulk_write. wsteps.
  eapply wp_mono; [apply bulk_write_spec; try lia; [by apply Forall_drop|rewrite length_drop; lia]| |done].
  intros r s' (Hr & l & Hl1 & Hl2). rewrite Hr. cbn. wsteps. exists l. split; [done|]. by rewrite Hl2.
Qed.

(** Of any size, the write returns. *)
Lemma bulk_write_total fuel buf : ∀ size offset s,
  (Z.to_nat size < fuel)%nat → 0 ≤ size → 0 ≤ offset → offset + size ≤ Z.of_nat (length buf) →
  wp (bulk_write_loop tries fuel buf size offset)
    (λ r _, 0 ≤ r.1 ∧ 0 ≤ r.2 ∧ r.2 + r.1 ≤ Z.of_nat (length buf)) (λ _ _, True) s.
Proof.
  induction fuel as [|fuel IH]; intros size offset s Hf Hs Ho Hl; [lia|]. cbn [bulk_write_loop].
  destruct (Z.eqb_spec size 0) as [->|Hne]; wsteps; [cbn; lia|].
  apply write_space_spec. intros l1 n s1 _ _ Hn. destruct (Z.eqb_spec (Z.min n size) 0) as [Hz|Hz]; wsteps; [done|].
  destruct Hn as [Hn|Hn]; subst n; [lia|]. change M10BMC_N6000_FIFO_MAX_BYTES with 2048 in *.
  change M10BMC_N6000_FIFO_WORD_SIZE with 4. destruct (Z.ltb_spec size 4) as [Hlt|Hge]; wsteps; [cbn; lia|].
  set (blk := Z.min 2048 size) in *. pose proof (Z.div_mod blk 4 ltac:(done)). pose proof (Z.mod_pos_bound blk 4 ltac:(done)).
  apply wp_access; [|rewrite slice_Some by lia; done]. intros part _. wsteps.
  assert (∀ ws s, wp (pmci_write_fifo ws) (λ _ _, True) (λ _ _, False) s) as Hw.
  { intros ws. unfold pmci_write_fifo. induction ws as [|w ws IHw]; intros s2; cbn [for_each]; wsteps; [done|].
    apply writel_step. intros. apply IHw. }
  eapply wp_mono; [apply Hw| |done]. intros ? s2 _. apply IH; lia.
Qed.
Lemma flash_write_total buf off size s :
  0 ≤ off → 0 ≤ size → off + size ≤ Z.of_nat (length buf) →
  wp (m10bmc_pmci_flash_write tries buf off size) (λ _ _, True) (λ _ _, True) s.
Proof.
  intros Ho Hs Hl. unfold m10bmc_pmci_flash_write, pmci_flash_bulk_write. wsteps.
  eapply wp_mono; [apply bulk_write_total; try lia; rewrite length_drop; lia| |done].
  intros [n o] s1 (H1 & H2 & H3). cbn [fst snd] in *. destruct (negb (n =? 0)); wsteps; [|done].
  apply wp_access; [|rewrite slice_Some by lia; done]. intros part _. wsteps. unfold pmci_write_fifo. cbn [for_each]. wsteps.
  apply writel_step. intros. wsteps. done.
Qed.

(** ** Reading *)

(** The bytes that came out of the FIFO of a PMCI at [b]. *)
Definition fifo_out (b : Z) (io : mmio_io) : list Z :=
  match io with
  | MmioRead a v => if a =? b + M10BMC_N6000_FLASH_FIFO then le_split 4 v else []
  | _ => []
  end.
Lemma polled_out b off cond ok l :
  off ≠ M10BMC_N6000_FLASH_FIFO → polled (b + off) cond ok l → l ≫= fifo_out b = [].
Proof.
  intros Hne (vs & v & -> & _). assert ((b + off =? b + M10BMC_N6000_FLASH_FIFO) = false) as Hf by (apply Z.eqb_neq; lia).
  rewrite bind_app. cbn. rewrite Hf. cbn. rewrite app_nil_r. induction vs as [|w vs IH]; [done|]. cbn. by rewrite Hf.
Qed.

Lemma read_fifo_spec n s (Q : list Z → pmci → Prop) E :
  (∀ ws l s', after_mm l s s' → l ≫= fifo_out (pmci_base (bm_ext s)) = ws ≫= le_split 4 → length ws = n → Q ws s') →
  wp (pmci_read_fifo n) Q E s.
Proof.
  revert s Q. induction n as [|n IH]; intros s Q HQ; cbn [pmci_read_fifo]; wsteps.
  { apply (HQ [] []); [apply after_mm_refl|done..]. }
  apply readl_step. intros w s1 _ H1. wsteps. apply IH. intros ws l s2 H2 Hl Hn. wsteps. pose proof H1 as (_&_&_&Hb&_).
  eapply HQ; [exact (after_mm_trans _ _ _ _ _ H1 H2)| |by cbn; rewrite Hn].
  rewrite Hb in Hl. rewrite bind_app, Hl. cbn. rewrite Z.eqb_refl. by rewrite app_nil_r.
Qed.

(** The buffer after a read of [size] bytes at [offset]: they come from the FIFO. *)
Definition read_into (buf : list Z) (offset size : Z) (bytes buf' : list Z) : Prop :=
  Z.of_nat (length bytes) = size ∧
  buf' = take (Z.to_nat offset) buf ++ bytes ++ drop (Z.to_nat (offset + size)) buf.
Lemma length_words ws : length (ws ≫= le_split 4) = (4 * length ws)%nat.
Proof. induction ws as [|w ws IH]; [done|]. rewrite bind_cons, length_app, IH, length_le_split. cbn. lia. Qed.
Lemma read_into_length buf offset size bytes buf' :
  0 ≤ offset → offset + size ≤ Z.of_nat (length buf) → read_into buf offset size bytes buf' → length buf' = length buf.
Proof. intros ?? [Hl ->]. rewrite !length_app, length_take, length_drop. lia. Qed.
Lemma read_into_trans buf offset n m b1 b2 buf1 buf2 :
  0 ≤ offset → 0 ≤ n → 0 ≤ m → offset + n + m ≤ Z.of_nat (length buf) →
  read_into buf offset n b1 buf1 → read_into buf1 (offset + n) m b2 buf2 → read_into buf offset (n + m) (b1 ++ b2) buf2.
Proof.
  intros Ho Hn Hm Hl [L1 ->] [L2 ->]. split; [rewrite length_app; lia|].
  assert (length (take (Z.to_nat offset) buf) = Z.to_nat offset) as Ht by (rewrite length_take; lia).
  rewrite take_app, take_ge by lia. rewrite (take_app_le b1) by lia.
  rewrite (take_ge b1) by lia. rewrite <- !app_assoc. f_equal. f_equal. f_equal.
  rewrite drop_app_ge by lia. rewrite drop_app_ge by lia. rewrite drop_drop. f_equal. lia.
Qed.

Lemma bulk_read_spec fuel : ∀ buf addr size offset s,
  (Z.to_nat size < fuel)%nat → size mod 4 = 0 → 0 ≤ size → 0 ≤ offset → offset + size ≤ Z.of_nat (length buf) →
  wp (bulk_read_loop tries fuel buf addr size offset)
    (λ r s', r.1.2 = 0 ∧ ∃ l, after_mm l s s' ∧ read_into buf offset size (l ≫= fifo_out (pmci_base (bm_ext s))) r.1.1)
    (λ e s', e = - ETIMEDOUT ∧ ∃ l, after_mm l s s') s.
Proof.
  induction fuel as [|fuel IH]; intros buf addr size offset s Hf Hm Hs Ho Hl; [lia|]. cbn [bulk_read_loop].
  destruct (Z.eqb_spec size 0) as [->|Hne]; wsteps.
  { split; [done|]. exists []. split; [apply after_mm_refl|]. split; [done|]. cbn. by rewrite Z.add_0_r, take_drop. }
  change M10BMC_N6000_READ_BLOCK_SIZE with 2048. change M10BMC_N6000_FIFO_WORD_SIZE with 4. set (blk := Z.min size 2048) in *.
  assert (4 ≤ size) as H4 by (pose proof (Z.div_mod size 4); lia).
  assert (blk mod 4 = 0) as Hbm by (unfold blk; destruct (Z.min_spec size 2048) as [[_ ->]|[_ ->]]; done).
  assert (blk / 4 * 4 = blk) as Hbd by (pose proof (Z.div_mod blk 4); lia).
  rewrite Hbd, Z.ltb_irrefl. apply writel_step. intros s1 H1. wsteps. apply writel_step. intros s2 H2. wsteps.
  pose proof (after_mm_trans _ _ _ _ _ H1 H2) as H12. clear H1 H2. pose proof H12 as (_&_&_&Hb2&_).
  apply poll_step. intros [r v] p s3 H3 Hp Hr _. pose proof (after_mm_trans _ _ _ _ _ H12 H3) as H13.
  pose proof H13 as (_&_&_&Hb3&_). cbn [fst] in *. wsteps.
  2: { intros Hz. destruct Hr; [lia|]. split; [done|]. by eexists. }
  intros _. wsteps. apply read_fifo_spec. intros ws l4 s4 H4' Hl4 Hn. pose proof (after_mm_trans _ _ _ _ _ H13 H4') as H14.
  pose proof H14 as (_&_&_&Hb4&_). rewrite Hb3 in Hl4. pose proof (length_words ws) as Hw. rewrite Hn in Hw.
  wsteps. apply wp_access; [|rewrite splice_Some by lia; done]. rewrite splice_Some by lia. intros buf1 Hbuf1.
  assert (Z.of_nat (length (ws ≫= le_split 4)) = blk) as Hwl by lia.
  assert (read_into buf offset blk (ws ≫= le_split 4) buf1) as Hinto.
  { injection Hbuf1 as <-. split; [done|]. by replace (Z.to_nat offset + length (ws ≫= le_split 4))%nat with (Z.to_nat (offset + blk)) by lia. }
  wsteps. rewrite Z.ltb_irrefl. wsteps. apply writel_step. intros s5 H5. pose proof (after_mm_trans _ _ _ _ _ H14 H5) as H15.
  pose proof H15 as (_&_&_&Hb5&_).
  eapply wp_mono; [apply IH; [lia| |lia|lia|]| |].
  - rewrite Zminus_mod, Hm, Hbm. done.
  - rewrite (read_into_length buf offset blk _ _ Ho ltac:(lia) Hinto). lia.
  - intros [[buf2 sz] off] s6 (Hz & l6 & H6 & Hr6). cbn [fst snd] in *. split; [done|].
    eexists. split; [exact (after_mm_trans _ _ _ _ _ H15 H6)|]. rewrite Hb5 in Hr6.
    assert (p ≫= fifo_out (pmci_base (bm_ext s)) = []) as Hp0.
    { eapply polled_out; [|rewrite <- Hb2; exact Hp]. done. }
    rewrite !bind_app, Hl4, Hp0. cbn. rewrite !app_nil_r. replace size with (blk + (size - blk)) by lia.
    apply (read_into_trans buf offset blk (size - blk) _ _ buf1); [lia..|done|done].
  - intros e s6 (-> & l6 & H6). split; [done|]. eexists. exact (after_mm_trans _ _ _ _ _ H15 H6).
Qed.

Definition mux_request (b : bool) (ret : Z) : reg_io :=
  RegUpdate M10BMC_N6000_FLASH_MUX_CTRL (mask M10BMC_N6000_FLASH_HOST_REQUEST)
    (FIELD_PREP M10BMC_N6000_FLASH_HOST_REQUEST (Z.b2z b)) ret.
(** The request is made; what follows only reads. *)
Lemma mux_spec b s :
  wp (m10bmc_pmci_set_flash_host_mux tries b)
    (λ _ s', ∃ l, after_io (mux_request b 0 :: l) s s' ∧ Forall is_read l)
    (λ e s', e ≠ 0 ∧ ∃ ret l, after_io (mux_request b ret :: l) s s' ∧ Forall is_read l) s.
Proof.
  unfold m10bmc_pmci_set_flash_host_mux. wsteps. unfold wpg at 1, regmap_update_bits.
  destruct (rm_update_bits _ _ _ (bm_map s)) as [ret d]. set (s1 := accessed _ d s).
  assert (after_io [mux_request b ret] s s1) as H1 by by split_and!.
  destruct (Z.eqb_spec ret 0) as [->|Hne].
  2: { split; [done|]. exists ret, []. by split. }
  wsteps. eapply wp_mono; [apply regmap_poll_reads| |done]. intros r s2 (l & Hl & Hp).
  pose proof (after_io_trans _ _ _ _ _ H1 Hl) as H2. wstep; [intros _|intros Hr; split; [done|]].
  - by exists l.
  - by exists 0, l.
Qed.

(** C10: reading flash, of any size that is a multiple of the word, for every device:
    on success the buffer holds, from its start, exactly the bytes that came out of
    the FIFO, as many as were asked for, and behind them what it held before; the lock
    is not touched, a locked flash is not accessed at all, and in every other case,
    errors included, the request for the flash is withdrawn at the end. *)
Theorem flash_read_exact buf addr size s :
  size mod 4 = 0 → 0 ≤ size ≤ Z.of_nat (length buf) →
  let released s' := flash_busy (bm_ext s') = flash_busy (bm_ext s) ∧ bmcfw_state s' = bmcfw_state s ∧
    ∃ l1 ret l2, bm_log s' = bm_log s ++ l1 ++ mux_request false ret :: l2 ∧ Forall is_read l2 in
  wp (m10bmc_pmci_flash_read tries buf addr size)
    (λ buf' s', released s' ∧ flash_busy (bm_ext s) = false ∧
       ∃ l, mm_log (pmci_mm (bm_ext s')) = mm_log (pmci_mm (bm_ext s)) ++ l ∧
         let bytes := l ≫= fifo_out (pmci_base (bm_ext s)) in
         Z.of_nat (length bytes) = size ∧ buf' = bytes ++ drop (Z.to_nat size) buf)
    (λ e s', if flash_busy (bm_ext s) then e = - EBUSY ∧ s' = s else released s') s.
Proof.
  intros Hm Hs released. unfold m10bmc_pmci_flash_read. wsteps. destruct (flash_busy (bm_ext s)) eqn:Hbusy; wsteps; [done|].
  assert (∀ s1 s2 ret l1 l2, after_io (mux_request false ret :: l2) s1 s2 → Forall is_read l2 →
    flash_busy (bm_ext s1) = flash_busy (bm_ext s) → bmcfw_state s1 = bmcfw_state s → bm_log s1 = bm_log s ++ l1 → released s2) as Hrel.
  { intros s1 s2 ret l1 l2 (He & Hf & Hl) Hr Hb1 Hf1 Hl1. split_and!; [congruence..|].
    exists l1, ret, l2. by rewrite Hl, Hl1, <- app_assoc. }
  eapply wp_mono; [apply mux_spec| |].
  - intros ? s1 (l1 & (He1 & Hf1 & Hl1) & _). unfold pmci_flash_bulk_read. wsteps.
    eapply wp_mono; [apply (bulk_read_spec (S (Z.to_nat size))); lia| |].
    + intros [[buf1 sz] off] s2 (Hz & l & (_ & Hl2 & Hf2 & _ & Hb2 & Hml) & Hlen & Hbuf). cbn [fst snd] in *. subst sz. cbn [Z.eqb negb].
      wsteps. eapply wp_mono; [apply mux_spec| |].
      * intros ? s3 (l3 & H3 & Hr3). wsteps; [intros _; wsteps|done]. assert (released s3) as H4.
        { eapply Hrel; [exact H3|done|by rewrite Hb2, He1|by rewrite Hf2|by rewrite Hl2, Hl1]. }
        destruct H3 as (He3 & _). split; [done|]. split; [done|]. rewrite He1 in Hml, Hbuf, Hlen. exists l.
        rewrite He3. split_and!; [done..|]. by rewrite Hbuf, Z.add_0_l.
      * intros e s3 (He & ret & l3 & H3 & Hr3). wsteps; [done|intros _].
        eapply Hrel; [exact H3|done|by rewrite Hb2, He1|by rewrite Hf2|by rewrite Hl2, Hl1].
    + intros e s2 (-> & l & (_ & Hl2 & Hf2 & _ & Hb2 & Hml)). wsteps. eapply wp_mono; [apply mux_spec| |].
      * intros ? s3 (l3 & H3 & Hr3). wsteps. eapply Hrel; [exact H3|done|by rewrite Hb2, He1|by rewrite Hf2|by rewrite Hl2, Hl1].
      * intros e s3 (He & ret & l3 & H3 & Hr3). wsteps.
        eapply Hrel; [exact H3|done|by rewrite Hb2, He1|by rewrite Hf2|by rewrite Hl2, Hl1].
  - intros e s1 (He & ret & l1 & (He1 & Hf1 & Hl1) & _). wsteps. eapply wp_mono; [apply mux_spec| |].
    + intros ? s3 (l3 & H3 & Hr3). wsteps. by eapply Hrel; [exact H3|done|by rewrite He1|by rewrite Hf1|].
    + intros e' s3 (He' & ret' & l3 & H3 & Hr3). wsteps. by eapply Hrel; [exact H3|done|by rewrite He1|by rewrite Hf1|].
Qed.
End Facts.
