(* ===== verification/ImageLoad.v ===== *)
(** * FPGA image load framework (drivers/fpga/fpga-image-load.c)

    User space writes an image to a device file; a worker hands it, in the
    background, to the driver of a card through the operations the driver
    registered, records the progress, and signals an eventfd at the end.  The
    worker is given in the pieces between which user space can act, and as a whole. *)
From stdpp Require Import gmap gmultiset strings.
From S2P Require Import Prelude.

(* drivers/fpga/fpga-image-load.c:35-42 fw_upload_prog *)
Inductive fw_upload_prog :=
| FW_UPLOAD_PROG_IDLE
| FW_UPLOAD_PROG_RECEIVING
| FW_UPLOAD_PROG_PREPARING
| FW_UPLOAD_PROG_TRANSFERRING
| FW_UPLOAD_PROG_PROGRAMMING
| FW_UPLOAD_PROG_MAX.
#[export] Instance fw_upload_prog_eq : EqDecision fw_upload_prog.
Proof. solve_decision. Defined.

(* include/linux/fpga/fpga-image-load.h:28-38 fw_upload_err *)
Inductive fw_upload_err :=
| FW_UPLOAD_ERR_NONE
| FW_UPLOAD_ERR_HW_ERROR
| FW_UPLOAD_ERR_TIMEOUT
| FW_UPLOAD_ERR_CANCELED
| FW_UPLOAD_ERR_BUSY
| FW_UPLOAD_ERR_INVALID_SIZE
| FW_UPLOAD_ERR_RW_ERROR
| FW_UPLOAD_ERR_WEAROUT
| FW_UPLOAD_ERR_MAX.
#[export] Instance fw_upload_err_eq : EqDecision fw_upload_err.
Proof. solve_decision. Defined.

(** The operations of a driver with state [D].  Writing gets the data, an offset, the
    size that is left and what [*written] holds, and gives what it holds then. *)
(* include/linux/fpga/fpga-image-load.h:63-72 fw_upload_ops *)
Record fw_upload_ops (D : Type) := FwOps {
  fo_prepare : list Z → Z → M D fw_upload_err;
  fo_write : list Z → Z → Z → Z → M D (fw_upload_err * Z);
  fo_poll_complete : M D fw_upload_err;
  fo_cancel : M D unit;
  fo_cleanup : option (M D unit);
}.
Arguments fo_prepare {D}.
Arguments fo_write {D}.
Arguments fo_poll_complete {D}.
Arguments fo_cancel {D}.
Arguments fo_cleanup {D}.

Definition ENOTTY : Z := 25.

(** Memory, and the contexts behind file descriptors. *)
Class ImgKernel := {
  imk : Type;
  img_vzalloc : Z → imk → bool * imk;
  img_eventfd_ctx_fdget : Z → imk → (Z + Z) * imk;
}.

(* drivers/fpga/fpga-image-load.c:44-57 fw_upload_priv *)
Record fw_upload_priv := Fwlp {
  fw_data : option (list Z);
  fw_remaining_size : Z;
  fw_progress : fw_upload_prog;
  fw_err_progress : fw_upload_prog;
  fw_err_code : fw_upload_err;
  fw_finished : option Z;
}.

(** What an upload holds: buffers, references to eventfd contexts and to the parent
    device. *)
Record held := Held { h_bufs : Z; h_ctxs : gmultiset Z; h_parent : Z }.

(** [il_queued]: the work is queued; [il_signals]: the contexts signalled so far. *)
(* drivers/fpga/fpga-image-load.c:59-64 fpga_image_load *)
Record fpga_image_load `{ImgKernel} {D : Type} := Imgld {
  il_k : imk;
  il_opened : bool;
  il_fwlp : fw_upload_priv;
  il_queued : bool;
  il_held : held;
  il_signals : list Z;
  il_dd : D;
}.
Arguments fpga_image_load {_} D.

(** What user space passes to a write. *)
(* include/uapi/linux/fpga-image-load.h:44-50 fpga_image_write *)
Record fpga_image_write := ImgWrite {
  wb_flags : Z;
  wb_size : Z;
  wb_evtfd : Z;
  wb_buf : Z;
}.
(* include/uapi/linux/fpga-image-load.h:62-68 fpga_image_status *)
Record fpga_image_status := ImgStatus {
  st_remaining_size : Z;
  st_progress : Z;
  st_err_progress : Z;
  st_err_code : Z;
}.

(** Progress and error codes of the user interface. *)
(* include/uapi/linux/fpga-image-load.h:18-18 FPGA_IMAGE_PROG_IDLE *)
Definition FPGA_IMAGE_PROG_IDLE : Z := 0.
(* include/uapi/linux/fpga-image-load.h:19-19 FPGA_IMAGE_PROG_STARTING *)
Definition FPGA_IMAGE_PROG_STARTING : Z := 1.
(* include/uapi/linux/fpga-image-load.h:20-20 FPGA_IMAGE_PROG_PREPARING *)
Definition FPGA_IMAGE_PROG_PREPARING : Z := 2.
(* include/uapi/linux/fpga-image-load.h:21-21 FPGA_IMAGE_PROG_WRITING *)
Definition FPGA_IMAGE_PROG_WRITING : Z := 3.
(* include/uapi/linux/fpga-image-load.h:22-22 FPGA_IMAGE_PROG_PROGRAMMING *)
Definition FPGA_IMAGE_PROG_PROGRAMMING : Z := 4.
(* include/uapi/linux/fpga-image-load.h:23-23 FPGA_IMAGE_PROG_MAX *)
Definition FPGA_IMAGE_PROG_MAX : Z := 5.
(* include/uapi/linux/fpga-image-load.h:26-26 FPGA_IMAGE_ERR_HW_ERROR *)
Definition FPGA_IMAGE_ERR_HW_ERROR : Z := 1.
(* include/uapi/linux/fpga-image-load.h:27-27 FPGA_IMAGE_ERR_TIMEOUT *)
Definition FPGA_IMAGE_ERR_TIMEOUT : Z := 2.
(* include/uapi/linux/fpga-image-load.h:28-28 FPGA_IMAGE_ERR_CANCELED *)
Definition FPGA_IMAGE_ERR_CANCELED : Z := 3.
(* include/uapi/linux/fpga-image-load.h:29-29 FPGA_IMAGE_ERR_BUSY *)
Definition FPGA_IMAGE_ERR_BUSY : Z := 4.
(* include/uapi/linux/fpga-image-load.h:30-30 FPGA_IMAGE_ERR_INVALID_SIZE *)
Definition FPGA_IMAGE_ERR_INVALID_SIZE : Z := 5.
(* include/uapi/linux/fpga-image-load.h:31-31 FPGA_IMAGE_ERR_RW_ERROR *)
Definition FPGA_IMAGE_ERR_RW_ERROR : Z := 6.
(* include/uapi/linux/fpga-image-load.h:32-32 FPGA_IMAGE_ERR_WEAROUT *)
Definition FPGA_IMAGE_ERR_WEAROUT : Z := 7.
(* include/uapi/linux/fpga-image-load.h:33-33 FPGA_IMAGE_ERR_MAX *)
Definition FPGA_IMAGE_ERR_MAX : Z := 8.

(** The number of an enumerator, with which the tables below are indexed. *)
(* drivers/fpga/fpga-image-load.c:233-243 fw_upload_progress *)
Definition fw_upload_progress (prog : fw_upload_prog) : Z :=
  match prog with
  | FW_UPLOAD_PROG_IDLE => FPGA_IMAGE_PROG_IDLE
  | FW_UPLOAD_PROG_RECEIVING => FPGA_IMAGE_PROG_STARTING
  | FW_UPLOAD_PROG_PREPARING => FPGA_IMAGE_PROG_PREPARING
  | FW_UPLOAD_PROG_TRANSFERRING => FPGA_IMAGE_PROG_WRITING
  | FW_UPLOAD_PROG_PROGRAMMING => FPGA_IMAGE_PROG_PROGRAMMING
  | FW_UPLOAD_PROG_MAX => FPGA_IMAGE_PROG_MAX
  end.
(* drivers/fpga/fpga-image-load.c:245-256 fw_upload_error *)
Definition fw_upload_error (err_code : fw_upload_err) : Z :=
  match err_code with
  | FW_UPLOAD_ERR_NONE => 0
  | FW_UPLOAD_ERR_HW_ERROR => FPGA_IMAGE_ERR_HW_ERROR
  | FW_UPLOAD_ERR_TIMEOUT => FPGA_IMAGE_ERR_TIMEOUT
  | FW_UPLOAD_ERR_CANCELED => FPGA_IMAGE_ERR_CANCELED
  | FW_UPLOAD_ERR_BUSY => FPGA_IMAGE_ERR_BUSY
  | FW_UPLOAD_ERR_INVALID_SIZE => FPGA_IMAGE_ERR_INVALID_SIZE
  | FW_UPLOAD_ERR_RW_ERROR => FPGA_IMAGE_ERR_RW_ERROR
  | FW_UPLOAD_ERR_WEAROUT => FPGA_IMAGE_ERR_WEAROUT
  | FW_UPLOAD_ERR_MAX => FPGA_IMAGE_ERR_MAX
  end.

Section ImageLoad.
Context `{ImgKernel} {D : Type} (ops : fw_upload_ops D).
Abbreviation imgld := (fpga_image_load D).
Implicit Types s : imgld.

Definition upd_fwlp (f : fw_upload_priv → fw_upload_priv) : M imgld unit := modify (λ s,
  Imgld _ _ (il_k s) (il_opened s) (f (il_fwlp s)) (il_queued s) (il_held s) (il_signals s) (il_dd s)).
Definition upd_held (f : held → held) : M imgld unit := modify (λ s,
  Imgld _ _ (il_k s) (il_opened s) (il_fwlp s) (il_queued s) (f (il_held s)) (il_signals s) (il_dd s)).
Definition set_queued (b : bool) : M imgld unit := modify (λ s,
  Imgld _ _ (il_k s) (il_opened s) (il_fwlp s) b (il_held s) (il_signals s) (il_dd s)).
Definition set_opened (b : bool) : M imgld unit := modify (λ s,
  Imgld _ _ (il_k s) b (il_fwlp s) (il_queued s) (il_held s) (il_signals s) (il_dd s)).
Definition ikernel {A} (f : imk → A * imk) : M imgld A := λ s,
  let (a, k) := f (il_k s) in
  Done (Val a, Imgld _ _ k (il_opened s) (il_fwlp s) (il_queued s) (il_held s) (il_signals s) (il_dd s)).
Definition on_dd {A} : M D A → M imgld A :=
  zoom il_dd (λ d s, Imgld _ _ (il_k s) (il_opened s) (il_fwlp s) (il_queued s) (il_held s) (il_signals s) d).

Definition set_progress p f := Fwlp (fw_data f) (fw_remaining_size f) p (fw_err_progress f) (fw_err_code f) (fw_finished f).
Definition set_finished c f :=
  Fwlp (fw_data f) (fw_remaining_size f) (fw_progress f) (fw_err_progress f) (fw_err_code f) c.
Definition set_data d f :=
  Fwlp d (fw_remaining_size f) (fw_progress f) (fw_err_progress f) (fw_err_code f) (fw_finished f).
Definition set_remaining n f := Fwlp (fw_data f) n (fw_progress f) (fw_err_progress f) (fw_err_code f) (fw_finished f).

(** The kernel services, with what they hold. *)
Definition vzalloc (n : Z) : M imgld bool :=
  ok ← ikernel (img_vzalloc n);
  (if (ok : bool) then upd_held (λ h, Held (h_bufs h + 1) (h_ctxs h) (h_parent h)) else mret tt) ;;
  mret ok.
Definition vfree (p : option (list Z)) : M imgld unit :=
  match p with
  | Some _ => upd_held (λ h, Held (h_bufs h - 1) (h_ctxs h) (h_parent h))
  | None => mret tt
  end.
Definition eventfd_ctx_fdget (fd : Z) : M imgld (Z + Z) :=
  r ← ikernel (img_eventfd_ctx_fdget fd);
  match r with
  | inl c => upd_held (λ h, Held (h_bufs h) ({[+ c +]} ⊎ h_ctxs h) (h_parent h)) ;; mret (inl c)
  | inr e => mret (inr e)
  end.
Definition eventfd_ctx_put (c : option Z) : M imgld unit :=
  c ← access c;
  upd_held (λ h, Held (h_bufs h) (h_ctxs h ∖ {[+ c +]}) (h_parent h)).
Definition eventfd_signal (c : option Z) : M imgld unit :=
  c ← access c;
  modify (λ s, Imgld _ _ (il_k s) (il_opened s) (il_fwlp s) (il_queued s) (il_held s) (il_signals s ++ [c]) (il_dd s)).
Definition add_parent (n : Z) : M imgld unit := upd_held (λ h, Held (h_bufs h) (h_ctxs h) (h_parent h + n)).

(** ** The worker *)

(* drivers/fpga/fpga-image-load.c:66-72 fw_upload_update_progress *)
Definition fw_upload_update_progress (new_progress : fw_upload_prog) : M imgld unit :=
  upd_fwlp (set_progress new_progress).

(* drivers/fpga/fpga-image-load.c:74-81 fw_upload_set_error *)
Definition fw_upload_set_error (err_code : fw_upload_err) : M imgld unit := upd_fwlp (λ f,
  Fwlp (fw_data f) (fw_remaining_size f) (fw_progress f) (fw_progress f) err_code (fw_finished f)).

(* drivers/fpga/fpga-image-load.c:83-89 fw_upload_prog_complete *)
Definition fw_upload_prog_complete : M imgld unit :=
  upd_fwlp (set_progress FW_UPLOAD_PROG_IDLE) ;;
  f ← gets il_fwlp;
  eventfd_signal (fw_finished f).

(** Where the worker is: not running; preparing; in the loop at an offset, with what
    [written] holds; programming; cleaning up; freeing; signalling; dropping the
    context. *)
Inductive worker_pc :=
| PcIdle
| PcPrepare
| PcLoop (offset written : Z)
| PcPoll
| PcCleanup
| PcPutdev
| PcComplete
| PcCtxPut.
#[export] Instance worker_pc_eq : EqDecision worker_pc.
Proof. solve_decision. Defined.

(* drivers/fpga/fpga-image-load.c:105-112 fw_upload_main *)
Definition main_prepare : M imgld worker_pc :=
  fw_upload_update_progress FW_UPLOAD_PROG_PREPARING ;;
  f ← gets il_fwlp;
  data ← access (fw_data f);
  ret ← on_dd (fo_prepare ops data (fw_remaining_size f));
  if negb (bool_decide (ret = FW_UPLOAD_ERR_NONE)) then
    fw_upload_set_error ret ;;
    mret PcPutdev
  else
    fw_upload_update_progress FW_UPLOAD_PROG_TRANSFERRING ;;
    mret (PcLoop 0 0).

(* drivers/fpga/fpga-image-load.c:113-127 fw_upload_main *)
Definition main_loop (offset written : Z) : M imgld worker_pc :=
  f ← gets il_fwlp;
  if fw_remaining_size f =? 0 then mret PcPoll else
  data ← access (fw_data f);
  r ← on_dd (fo_write ops data offset (fw_remaining_size f) written);
  let (ret, written) := (r : fw_upload_err * Z) in
  if negb (bool_decide (ret = FW_UPLOAD_ERR_NONE)) || (written =? 0) then
    fw_upload_set_error (if bool_decide (ret = FW_UPLOAD_ERR_NONE) then FW_UPLOAD_ERR_RW_ERROR else ret) ;;
    mret PcCleanup
  else
    upd_fwlp (λ f, set_remaining (u32 (fw_remaining_size f - written)) f) ;;
    mret (PcLoop (u32 (offset + written)) written).

(* drivers/fpga/fpga-image-load.c:129-132 fw_upload_main *)
Definition main_poll : M imgld worker_pc :=
  fw_upload_update_progress FW_UPLOAD_PROG_PROGRAMMING ;;
  ret ← on_dd (fo_poll_complete ops);
  (if negb (bool_decide (ret = FW_UPLOAD_ERR_NONE)) then fw_upload_set_error ret else mret tt) ;;
  mret PcCleanup.

(* drivers/fpga/fpga-image-load.c:134-136 fw_upload_main *)
Definition main_cleanup : M imgld worker_pc :=
  (match fo_cleanup ops with Some cleanup => on_dd cleanup | None => mret tt end) ;;
  mret PcPutdev.

(* drivers/fpga/fpga-image-load.c:138-147 fw_upload_main *)
Definition main_putdev : M imgld worker_pc :=
  add_parent (-1) ;;
  f ← gets il_fwlp;
  vfree (fw_data f) ;;
  upd_fwlp (set_data None) ;;
  mret PcComplete.

(* drivers/fpga/fpga-image-load.c:149-150 fw_upload_main *)
Definition main_ctx_put : M imgld worker_pc :=
  f ← gets il_fwlp;
  eventfd_ctx_put (fw_finished f) ;;
  upd_fwlp (set_finished None) ;;
  mret PcIdle.

Definition worker_step (pc : worker_pc) : M imgld worker_pc :=
  match pc with
  | PcIdle => mret PcIdle
  | PcPrepare => main_prepare
  | PcLoop offset written => main_loop offset written
  | PcPoll => main_poll
  | PcCleanup => main_cleanup
  | PcPutdev => main_putdev
  | PcComplete => fw_upload_prog_complete ;; mret PcCtxPut
  | PcCtxPut => main_ctx_put
  end.

(** The whole worker, by what is left of it; [fuel] bounds the pieces. *)
Fixpoint run_worker (fuel : nat) (pc : worker_pc) : M imgld unit :=
  match pc, fuel with
  | PcIdle, _ => mret tt
  | _, O => nofuel
  | _, S fuel => worker_step pc ≫= run_worker fuel
  end.
(* drivers/fpga/fpga-image-load.c:91-151 fw_upload_main *)
Definition fw_upload_main (fuel : nat) : M imgld unit := run_worker fuel PcPrepare.

(** ** The device file *)

(** [wb] is what [copy_from_user] gives of the argument, [user buf size] of the
    image. *)
(* drivers/fpga/fpga-image-load.c:153-210 fpga_image_load_ioctl_write *)
Definition fpga_image_load_ioctl_write (wb : option fpga_image_write) (user : Z → Z → option (list Z)) : M imgld unit :=
  match wb with
  | None => throw (- EFAULT)
  | Some wb =>
      if negb (wb_flags wb =? 0) then throw (- EINVAL) else
      if wb_size wb =? 0 then throw (- EINVAL) else
      if wb_evtfd wb <? 0 then throw (- EINVAL) else
      ok ← vzalloc (wb_size wb);
      if negb ok then throw (- ENOMEM) else
      match user (wb_buf wb) (wb_size wb) with
      | None => vfree (Some []) ;; throw (- EFAULT)
      | Some buf =>
          r ← eventfd_ctx_fdget (wb_evtfd wb);
          match r with
          | inr ret => upd_fwlp (set_finished None) ;; vfree (Some buf) ;; throw ret
          | inl c =>
              upd_fwlp (set_finished (Some c)) ;;
              add_parent 1 ;;
              upd_fwlp (λ f, Fwlp (Some buf) (wb_size wb) FW_UPLOAD_PROG_RECEIVING (fw_err_progress f)
                               FW_UPLOAD_ERR_NONE (fw_finished f)) ;;
              set_queued true
          end
      end
  end.

(** [writable]: the status can be copied to user space. *)
(* drivers/fpga/fpga-image-load.c:258-280 fpga_image_load_ioctl_status *)
Definition fpga_image_load_ioctl_status (writable : bool) : M imgld fpga_image_status :=
  f ← gets il_fwlp;
  let status := {| st_remaining_size := fw_remaining_size f;
                   st_progress := fw_upload_progress (fw_progress f);
                   st_err_progress := fw_upload_progress (fw_err_progress f);
                   st_err_code := fw_upload_error (fw_err_code f) |} in
  if writable then mret status else throw (- EFAULT).

(* drivers/fpga/fpga-image-load.c:282-290 fpga_image_load_ioctl_cancel *)
Definition fpga_image_load_ioctl_cancel : M imgld unit :=
  f ← gets il_fwlp;
  if bool_decide (fw_progress f = FW_UPLOAD_PROG_IDLE) then throw (- ENODEV) else
  on_dd (fo_cancel ops).

(** The requests, with what they find in user memory. *)
Inductive image_ioctl :=
| FPGA_IMAGE_LOAD_WRITE (wb : option fpga_image_write) (user : Z → Z → option (list Z))
| FPGA_IMAGE_LOAD_STATUS (writable : bool)
| FPGA_IMAGE_LOAD_CANCEL
| OTHER_CMD.
(** What a status request writes to user space. *)
(* drivers/fpga/fpga-image-load.c:292-321 fpga_image_load_ioctl *)
Definition fpga_image_load_ioctl (cmd : image_ioctl) : M imgld (option fpga_image_status) :=
  match cmd with
  | FPGA_IMAGE_LOAD_WRITE wb user => fpga_image_load_ioctl_write wb user ;; mret None
  | FPGA_IMAGE_LOAD_STATUS writable => st ← fpga_image_load_ioctl_status writable; mret (Some st)
  | FPGA_IMAGE_LOAD_CANCEL => fpga_image_load_ioctl_cancel ;; mret None
  | OTHER_CMD => throw (- ENOTTY)
  end.

(* drivers/fpga/fpga-image-load.c:323-334 fpga_image_load_open *)
Definition fpga_image_load_open : M imgld unit :=
  opened ← gets il_opened;
  if (opened : bool) then throw (- EBUSY) else set_opened true.

(** Closing the file, until it waits for the worker: whether it does. *)
(* drivers/fpga/fpga-image-load.c:343-351 fpga_image_load_release *)
Definition release_cancel : M imgld bool :=
  f ← gets il_fwlp;
  if bool_decide (fw_progress f = FW_UPLOAD_PROG_IDLE) then mret false else
  on_dd (fo_cancel ops) ;;
  mret true.
(** The whole, when the worker [pc] then runs undisturbed, and once more if its work
    is queued. *)
(* drivers/fpga/fpga-image-load.c:336-358 fpga_image_load_release *)
Definition fpga_image_load_release (fuel : nat) (pc : worker_pc) : M imgld unit :=
  wait ← release_cancel;
  (if (wait : bool) then
     run_worker fuel pc ;;
     queued ← gets il_queued;
     if (queued : bool) then set_queued false ;; fw_upload_main fuel else mret tt
   else mret tt) ;;
  set_opened false.

(** ** User and worker together

    A system is the device, the worker, and the file: closed, open, or being closed
    and waiting for the worker.  Requests come one at a time, under the lock; the
    worker runs one piece at a time. *)
Inductive file_state := FileClosed | FileOpen | FileClosing.
Record system := Sys { sys_dev : imgld; sys_pc : worker_pc; sys_file : file_state }.
Inductive label :=
| LOpen
| LIoctl (cmd : image_ioctl)
| LRelease
| LFlushed
| LStart
| LWork.
Inductive istep : label → system → system → Prop :=
| step_open s pc s' :
    fpga_image_load_open s = Done (Val tt, s') → istep LOpen (Sys s pc FileClosed) (Sys s' pc FileOpen)
| step_ioctl cmd r s pc s' :
    fpga_image_load_ioctl cmd s = Done (r, s') → istep (LIoctl cmd) (Sys s pc FileOpen) (Sys s' pc FileOpen)
| step_release_now s pc s' s'' :
    release_cancel s = Done (Val false, s') → set_opened false s' = Done (Val tt, s'') →
    istep LRelease (Sys s pc FileOpen) (Sys s'' pc FileClosed)
| step_release_wait s pc s' :
    release_cancel s = Done (Val true, s') → istep LRelease (Sys s pc FileOpen) (Sys s' pc FileClosing)
| step_flushed s s' :
    il_queued s = false → set_opened false s = Done (Val tt, s') →
    istep LFlushed (Sys s PcIdle FileClosing) (Sys s' PcIdle FileClosed)
| step_start s s' file :
    il_queued s = true → set_queued false s = Done (Val tt, s') →
    istep LStart (Sys s PcIdle file) (Sys s' PcPrepare file)
| step_work s pc pc' s' file :
    pc ≠ PcIdle → worker_step pc s = Done (Val pc', s') → istep LWork (Sys s pc file) (Sys s' pc' file).
End ImageLoad.
Arguments system {_} D.
