(* ===== verification/ImageLoadFacts.v ===== *)
(** * Properties of the image load framework

    What a driver must do for the framework ([FwUploadOk], [FwOpsSafe]), that the
    worker then ends, hands over the image and gives everything back, and that this
    holds for users and worker together as long as a write waits for the worker. *)
From stdpp Require Import gmap gmultiset strings.
From S2P Require Import Prelude ImageLoad.

#[local] Arguments gmultiset_difference : simpl never.
#[local] Arguments gmultiset_disj_union : simpl never.
Lemma ctx_drop (c : Z) : ({[+ c +]} ∖ {[+ c +]} : gmultiset Z) = ∅.
Proof. multiset_solver. Qed.

Lemma ctx_add (c : Z) : ({[+ c +]} ⊎ ∅ : gmultiset Z) = {[+ c +]}.
Proof. multiset_solver. Qed.

(** Steps of a request, with the state kept in the form of a record. *)
Ltac isteps :=
  repeat (wstep; cbv beta;
          cbn [il_k il_opened il_fwlp il_queued il_held il_signals il_dd h_bufs h_ctxs h_parent]).

(** ** What a driver promises

    Between uploads it is [fu_ready]; while [data] is loaded it is [fu_loading n],
    with [n] bytes taken; then it has them all ([fu_complete]) or has failed, until
    the cleanup; [fu_committed] is what a successful upload leaves. *)
Class FwUploadOk {D} (ops : fw_upload_ops D) (data : list Z) := {
  fu_ready : D → Prop;
  fu_loading : Z → D → Prop;
  fu_failed : D → Prop;
  fu_complete : D → Prop;
  fu_committed : D → Prop;
  fu_prepare d : fu_ready d →
    wp (fo_prepare ops data (Z.of_nat (length data)))
      (λ ret d', if decide (ret = FW_UPLOAD_ERR_NONE) then fu_loading 0 d' else fu_ready d') (λ _ _, False) d;
  fu_write n w d : fu_loading n d → 0 ≤ n < Z.of_nat (length data) →
    wp (fo_write ops data n (Z.of_nat (length data) - n) w)
      (λ r d', if decide (r.1 = FW_UPLOAD_ERR_NONE)
               then 0 ≤ r.2 ≤ Z.of_nat (length data) - n ∧ (r.2 = 0 → fu_failed d') ∧ (0 < r.2 → fu_loading (n + r.2) d')
               else fu_failed d') (λ _ _, False) d;
  fu_poll d : fu_loading (Z.of_nat (length data)) d →
    wp (fo_poll_complete ops)
      (λ ret d', if decide (ret = FW_UPLOAD_ERR_NONE) then fu_complete d' else fu_failed d') (λ _ _, False) d;
  fu_cleanup_failed d : fu_failed d →
    match fo_cleanup ops with
    | Some m => wp m (λ _, fu_ready) (λ _ _, False) d
    | None => fu_ready d
    end;
  fu_cleanup_complete d : fu_complete d →
    match fo_cleanup ops with
    | Some m => wp m (λ _ d', fu_ready d' ∧ fu_committed d') (λ _ _, False) d
    | None => fu_ready d ∧ fu_committed d
    end;
}.

Section Worker.
Context `{ImgKernel} {D : Type} (ops : fw_upload_ops D).
Abbreviation imgld := (fpga_image_load D).
Implicit Types s : imgld.

Lemma on_dd_spec {A} (m : M D A) s (Q : A → imgld → Prop) E :
  wp m (λ a d, Q a (Imgld _ _ (il_k s) (il_opened s) (il_fwlp s) (il_queued s) (il_held s) (il_signals s) d))
       (λ e d, E e (Imgld _ _ (il_k s) (il_opened s) (il_fwlp s) (il_queued s) (il_held s) (il_signals s) d)) (il_dd s) →
  wp (on_dd m) Q E s.
Proof. intros Hm. apply wp_zoom. unfold wpg in Hm. by destruct (m (il_dd s)) as [[[] ?]| |]. Qed.

(** An upload in progress: one buffer, one context, one reference to the parent. *)
Definition live (c : Z) (data : list Z) s : Prop :=
  fw_data (il_fwlp s) = Some data ∧ fw_finished (il_fwlp s) = Some c ∧ il_held s = Held 1 {[+ c +]} 1.
(** What the worker does not touch. *)
Definition same_file s s' : Prop := il_opened s' = il_opened s ∧ il_queued s' = il_queued s ∧ il_k s' = il_k s.
Definition idle s : Prop :=
  fw_data (il_fwlp s) = None ∧ fw_finished (il_fwlp s) = None ∧ fw_progress (il_fwlp s) = FW_UPLOAD_PROG_IDLE ∧
  il_held s = Held 0 ∅ 0.

Context (data : list Z) `{!FwUploadOk ops data}.
Abbreviation len := (Z.of_nat (length data)).

(** How the worker ends, from a state with the signals [sg] given: idle, with the
    context signalled once more, the driver ready; and when no error is recorded
    nothing remains and the upload is committed. *)
Definition finished (c : Z) (sg : list Z) s s' : Prop :=
  idle s' ∧ same_file s s' ∧ il_signals s' = sg ++ [c] ∧ fu_ready (il_dd s') ∧
  (fw_err_code (il_fwlp s') = FW_UPLOAD_ERR_NONE → fw_remaining_size (il_fwlp s') = 0 ∧ fu_committed (il_dd s')).

Lemma same_file_trans s1 s2 s3 : same_file s1 s2 → same_file s2 s3 → same_file s1 s3.
Proof. intros (?&?&?) (?&?&?). split_and!; congruence. Qed.

(** The last pieces. *)
Lemma finish_spec fuel c s :
  (3 ≤ fuel)%nat → live c data s → fu_ready (il_dd s) →
  (fw_err_code (il_fwlp s) = FW_UPLOAD_ERR_NONE → fw_remaining_size (il_fwlp s) = 0 ∧ fu_committed (il_dd s)) →
  wp (run_worker ops fuel PcPutdev) (λ _, finished c (il_signals s) s) (λ _ _, False) s.
Proof.
  intros Hf (Hd & Hc & Hh) Hr He. do 3 (destruct fuel as [|fuel]; [lia|]).
  cbn [run_worker worker_step]. unfold main_putdev, add_parent, upd_held, upd_fwlp. wsteps. cbn. rewrite Hd. cbn. wsteps.
  cbn. unfold fw_upload_prog_complete, fw_upload_update_progress, upd_fwlp. wsteps. cbn. rewrite Hc. unfold eventfd_signal.
  wsteps. apply wp_access; [|done]. intros ? [= <-]. wsteps. cbn. unfold main_ctx_put. wsteps. cbn. rewrite Hc.
  unfold eventfd_ctx_put. wsteps. apply wp_access; [|done]. intros ? [= <-]. unfold upd_held. wsteps. cbn.
  unfold upd_fwlp. wsteps. destruct fuel; cbn; wsteps; (split_and!; [|done| |done|]); cbn; try done;
    (split_and!; try done; cbn; rewrite Hh; cbn; f_equal; apply ctx_drop).
Qed.

Lemma cleanup_spec fuel c s (ok : bool) :
  (4 ≤ fuel)%nat → live c data s → (if ok then fu_complete (il_dd s) else fu_failed (il_dd s)) →
  (fw_err_code (il_fwlp s) = FW_UPLOAD_ERR_NONE → ok = true ∧ fw_remaining_size (il_fwlp s) = 0) →
  wp (run_worker ops fuel PcCleanup) (λ _, finished c (il_signals s) s) (λ _ _, False) s.
Proof.
  intros Hf Hl Hd He. destruct fuel as [|fuel]; [lia|]. cbn [run_worker worker_step]. unfold main_cleanup. wsteps.
  assert (∀ d', fu_ready d' → (ok = true → fu_committed d') →
    wp (run_worker ops fuel PcPutdev) (λ _, finished c (il_signals s) s) (λ _ _, False)
      (Imgld _ _ (il_k s) (il_opened s) (il_fwlp s) (il_queued s) (il_held s) (il_signals s) d')) as Hfin.
  { intros d' Hr Hc. eapply wp_mono; [apply (finish_spec fuel c); [lia|exact Hl|exact Hr|]| |done].
    - cbn. intros Hn. destruct (He Hn) as [? ?]. auto.
    - intros ? s' (?&(?&?&?)&?&?&?); by split_and!. }
  destruct ok.
  - pose proof (fu_cleanup_complete _ Hd) as Hcl. destruct (fo_cleanup ops) as [m|].
    + apply on_dd_spec. eapply wp_mono; [exact Hcl| |done]. intros ? d' [Hr Hcm]. wsteps. by apply Hfin.
    + wsteps. destruct Hcl. pose proof (Hfin (il_dd s)) as Hs. destruct s. by apply Hs.
  - pose proof (fu_cleanup_failed _ Hd) as Hcl. destruct (fo_cleanup ops) as [m|].
    + apply on_dd_spec. eapply wp_mono; [exact Hcl| |done]. intros ? d' Hr. wsteps. by apply Hfin.
    + wsteps. pose proof (Hfin (il_dd s)) as Hs. destruct s. by apply Hs.
Qed.

Lemma poll_step_spec fuel c s :
  (5 ≤ fuel)%nat → live c data s → fu_loading len (il_dd s) → fw_remaining_size (il_fwlp s) = 0 →
  wp (run_worker ops fuel PcPoll) (λ _, finished c (il_signals s) s) (λ _ _, False) s.
Proof.
  intros Hf Hl Hd Hz. destruct fuel as [|fuel]; [lia|]. cbn [run_worker worker_step]. unfold main_poll, fw_upload_update_progress, upd_fwlp.
  wsteps. apply on_dd_spec. eapply wp_mono; [apply fu_poll, Hd| |done]. intros ret d' Hr. cbv beta in Hr. wsteps.
  destruct (bool_decide_reflect (ret = FW_UPLOAD_ERR_NONE)) as [He|He]; cbn [negb].
  - rewrite decide_True in Hr by done. wsteps.
    eapply wp_mono; [apply (cleanup_spec fuel c _ true); [lia|exact Hl|exact Hr|by intros]| |done].
    intros ? s' (?&(?&?&?)&?&?&?); by split_and!.
  - rewrite decide_False in Hr by done. unfold fw_upload_set_error, upd_fwlp. wsteps.
    eapply wp_mono; [apply (cleanup_spec fuel c _ false); [lia|exact Hl|exact Hr|by intros]| |done].
    intros ? s' (?&(?&?&?)&?&?&?); by split_and!.
Qed.

Lemma loop_spec fuel c n w s :
  is_u32 len → (Z.to_nat (len - n) + 6 ≤ fuel)%nat → 0 ≤ n ≤ len →
  live c data s → fu_loading n (il_dd s) → fw_remaining_size (il_fwlp s) = len - n →
  wp (run_worker ops fuel (PcLoop n w)) (λ _, finished c (il_signals s) s) (λ _ _, False) s.
Proof.
  intros H32. unfold is_u32 in H32. revert n w s. induction fuel as [|fuel IH]; intros n w s Hf Hn Hl Hd Hr; [lia|].
  cbn [run_worker worker_step]. unfold main_loop. wsteps. rewrite Hr.
  destruct (Z.eqb_spec (len - n) 0) as [Hz|Hz]; wsteps.
  { apply poll_step_spec; [lia|done| |lia]. by replace len with n by lia. }
  apply wp_access; [|intros Hno; by destruct Hl as (? & _); congruence].
  intros dat Hdat. assert (dat = data) as -> by (destruct Hl as (Hl & _); congruence). wsteps.
  apply on_dd_spec. eapply wp_mono; [apply fu_write; [exact Hd|lia]| |done].
  intros [ret w'] d' Hw. cbv beta in Hw. cbn [fst snd] in Hw. wsteps.
  destruct (bool_decide_reflect (ret = FW_UPLOAD_ERR_NONE)) as [He|He]; cbn [negb orb].
  - rewrite decide_True in Hw by done. destruct Hw as (Hw' & Hw0 & Hwp).
    destruct (Z.eqb_spec w' 0) as [Hz'|Hz'].
    + unfold fw_upload_set_error, upd_fwlp. wsteps.
      eapply wp_mono; [apply (cleanup_spec fuel c _ false); [lia|exact Hl|by apply Hw0|by intros]| |done].
      intros ? s' (?&(?&?&?)&?&?&?); by split_and!.
    + unfold upd_fwlp. wsteps. cbn. rewrite Hr, !u32_small by (unfold is_u32; lia).
      eapply wp_mono; [apply IH; [lia|lia|exact Hl|apply Hwp; lia|cbn; lia]| |done].
      intros ? s' (?&(?&?&?)&?&?&?); by split_and!.
  - rewrite decide_False in Hw by done. unfold fw_upload_set_error, upd_fwlp. wsteps.
    eapply wp_mono; [apply (cleanup_spec fuel c _ false); [lia|exact Hl|exact Hw|by intros]| |done].
    intros ? s' (?&(?&?&?)&?&?&?); by split_and!.
Qed.

Lemma main_spec fuel c s :
  is_u32 len → (length data + 7 ≤ fuel)%nat → live c data s → fu_ready (il_dd s) →
  fw_remaining_size (il_fwlp s) = len → fw_err_code (il_fwlp s) = FW_UPLOAD_ERR_NONE →
  wp (fw_upload_main ops fuel) (λ _, finished c (il_signals s) s) (λ _ _, False) s.
Proof.
  intros H32 Hf Hl Hd Hr Hok. unfold fw_upload_main. destruct fuel as [|fuel]; [lia|]. cbn [run_worker worker_step].
  unfold main_prepare, fw_upload_update_progress, upd_fwlp. wsteps.
  apply wp_access; [|intros Hno; by destruct Hl as (? & _); cbn in *; congruence].
  intros dat Hdat. assert (dat = data) as -> by (destruct Hl as (Hl & _); cbn in *; congruence). wsteps. cbn. rewrite Hr.
  apply on_dd_spec. eapply wp_mono; [apply fu_prepare, Hd| |done]. intros ret d' Hret. cbv beta in Hret. wsteps.
  destruct (bool_decide_reflect (ret = FW_UPLOAD_ERR_NONE)) as [He|He]; cbn [negb].
  - rewrite decide_True in Hret by done. wsteps.
    eapply wp_mono; [apply (loop_spec fuel c 0 0); [done|lia|lia|exact Hl|exact Hret|cbn; lia]| |done].
    intros ? s' (?&(?&?&?)&?&?&?); by split_and!.
  - rewrite decide_False in Hret by done. unfold fw_upload_set_error, upd_fwlp. wsteps.
    eapply wp_mono; [apply (finish_spec fuel c); [lia|exact Hl|exact Hret|by intros]| |done].
    intros ? s' (?&(?&?&?)&?&?&?); by split_and!.
Qed.
End Worker.

(** ** One upload, from the request to the signal *)
Section Upload.
Context `{ImgKernel} {D : Type} (ops : fw_upload_ops D).
Implicit Types s : fpga_image_load D.

(** A request that is refused changes nothing that is held; one that is accepted
    leaves an upload in progress. *)
Lemma write_spec wb user s :
  idle s →
  wp (fpga_image_load_ioctl_write wb user)
    (λ _ s', ∃ w data c, wb = Some w ∧ user (wb_buf w) (wb_size w) = Some data ∧ live c data s' ∧
       fw_progress (il_fwlp s') = FW_UPLOAD_PROG_RECEIVING ∧ fw_err_code (il_fwlp s') = FW_UPLOAD_ERR_NONE ∧
       fw_remaining_size (il_fwlp s') = wb_size w ∧ il_queued s' = true ∧
       il_opened s' = il_opened s ∧ il_dd s' = il_dd s ∧ il_signals s' = il_signals s)
    (λ e s', idle s' ∧ il_queued s' = il_queued s ∧
       il_opened s' = il_opened s ∧ il_dd s' = il_dd s ∧ il_signals s' = il_signals s) s.
Proof.
  intros (Hd & Hc & Hp & Hh). unfold fpga_image_load_ioctl_write. destruct wb as [w|]; isteps; [|by split_and!].
  destruct (negb (wb_flags w =? 0)); isteps; [by split_and!|].
  destruct (wb_size w =? 0); isteps; [by split_and!|].
  destruct (wb_evtfd w <? 0); isteps; [by split_and!|].
  unfold vzalloc, ikernel. isteps. unfold wpg at 1. destruct (img_vzalloc (wb_size w) (il_k s)) as [[] k].
  2: { isteps. by split_and!. }
  unfold upd_held. isteps. cbn [negb]. destruct (user (wb_buf w) (wb_size w)) as [data|] eqn:Hu.
  2: { unfold vfree, upd_held. isteps. split; [|split_and!; exact eq_refl].
       split; [exact Hd|]. split; [first [exact Hc|exact eq_refl]|]. split; [exact Hp|].
       cbn [il_held h_bufs h_ctxs h_parent]. rewrite Hh. exact eq_refl. }
  unfold eventfd_ctx_fdget, ikernel. isteps. unfold wpg at 1. cbn [il_k].
  destruct (img_eventfd_ctx_fdget (wb_evtfd w) k) as [[c|e] k'].
  2: { isteps. unfold upd_fwlp, vfree, upd_held. isteps. split; [|split_and!; exact eq_refl].
       split; [exact Hd|]. split; [first [exact Hc|exact eq_refl]|]. split; [exact Hp|].
       cbn [il_held h_bufs h_ctxs h_parent]. rewrite Hh. exact eq_refl. }
  unfold upd_held. isteps. unfold upd_fwlp, add_parent, upd_held, set_queued. isteps.
  exists w, data, c. split; [exact eq_refl|]. split; [exact Hu|]. split; [|split_and!; exact eq_refl].
  split; [exact eq_refl|]. split; [exact eq_refl|]. cbn [il_held h_bufs h_ctxs h_parent]. rewrite Hh. cbn [h_bufs h_ctxs h_parent].
  by rewrite ctx_add.
Qed.

Context (data : list Z) `{!FwUploadOk ops data}.

(** C9: an upload that user space requests from an idle device either is refused, for
    its arguments, for want of memory, or because the request or the image can not be
    read from user memory, and then nothing is held and the driver of the card was not called; or the worker
    ends, for every driver that keeps the promises of [FwUploadOk]: the buffer, the
    eventfd context and the parent device are given back, the context is signalled
    exactly once, the driver is ready for the next upload, and when the status shows
    no error, nothing remains to be transferred and the upload took effect. *)
Theorem upload_ends wb user fuel s :
  idle s → fu_ready (il_dd s) → is_u32 (Z.of_nat (length data)) → (length data + 7 ≤ fuel)%nat →
  (∀ w dat, wb = Some w → user (wb_buf w) (wb_size w) = Some dat → dat = data ∧ wb_size w = Z.of_nat (length data)) →
  wp (fpga_image_load_ioctl_write wb user ;; set_queued false ;; fw_upload_main ops fuel)
    (λ _ s', idle s' ∧ il_opened s' = il_opened s ∧ il_queued s' = false ∧ fu_ready (il_dd s') ∧
       (∃ c, il_signals s' = il_signals s ++ [c]) ∧
       (fw_err_code (il_fwlp s') = FW_UPLOAD_ERR_NONE → fw_remaining_size (il_fwlp s') = 0 ∧ fu_committed (il_dd s')))
    (λ _ s', idle s' ∧ il_opened s' = il_opened s ∧ il_dd s' = il_dd s ∧ il_signals s' = il_signals s) s.
Proof.
  intros Hi Hr H32 Hf Hwb. wsteps. eapply wp_mono; [apply write_spec, Hi| |].
  - intros ? s1 (w & dat & c & Hw & Hu & Hl & Hp & He & Hn & Hq & Ho & Hd & Hs).
    destruct (Hwb w dat Hw Hu) as [-> Hsz].
    unfold set_queued. wsteps. eapply wp_mono; [apply (main_spec ops data fuel c); try done| |done].
    + cbn. by rewrite Hd.
    + cbn. congruence.
    + intros ? s2 (H1 & (H2 & H3 & H4) & H5 & H6 & H7). split_and!; try done; [by rewrite H2|].
      exists c. rewrite H5. cbn. by rewrite Hs.
  - intros e s1 (?&?&?&?&?). by split_and!.
Qed.
End Upload.

(** ** Users and worker together *)

(** What is needed of a driver for that: its operations return, whatever happened
    before, and never claim to have written more than they got. *)
Class FwOpsSafe {D} (ops : fw_upload_ops D) := {
  fs_inv : D → Prop;
  fs_prepare data d : fs_inv d → wp (fo_prepare ops data (Z.of_nat (length data))) (λ _, fs_inv) (λ _ _, False) d;
  fs_write data off n w d : fs_inv d → 0 ≤ off → 0 < n → off + n = Z.of_nat (length data) →
    wp (fo_write ops data off n w) (λ r d', fs_inv d' ∧ (r.1 = FW_UPLOAD_ERR_NONE → 0 ≤ r.2 ≤ n)) (λ _ _, False) d;
  fs_poll d : fs_inv d → wp (fo_poll_complete ops) (λ _, fs_inv) (λ _ _, False) d;
  fs_cancel d : fs_inv d → wp (fo_cancel ops) (λ _, fs_inv) (λ _ _, False) d;
  fs_cleanup d m : fo_cleanup ops = Some m → fs_inv d → wp m (λ _, fs_inv) (λ _ _, False) d;
}.

Section System.
Context `{ImgKernel} {D : Type} (ops : fw_upload_ops D) `{!FwOpsSafe ops}.
Implicit Types s : fpga_image_load D.
Implicit Types y : system D.

Definition busy_progress s : Prop := fw_progress (il_fwlp s) ≠ FW_UPLOAD_PROG_IDLE.
(** What holds of the device, by where the worker is. *)
Definition pc_inv (pc : worker_pc) s : Prop :=
  match pc with
  | PcIdle =>
      if il_queued s
      then busy_progress s ∧ ∃ c data, live c data s ∧ fw_remaining_size (il_fwlp s) = Z.of_nat (length data) ∧
             is_u32 (Z.of_nat (length data))
      else idle s
  | PcPrepare =>
      il_queued s = false ∧ busy_progress s ∧ ∃ c data, live c data s ∧
        fw_remaining_size (il_fwlp s) = Z.of_nat (length data) ∧ is_u32 (Z.of_nat (length data))
  | PcLoop off _ =>
      il_queued s = false ∧ busy_progress s ∧ ∃ c data, live c data s ∧ 0 ≤ off ∧ 0 ≤ fw_remaining_size (il_fwlp s) ∧
        off + fw_remaining_size (il_fwlp s) = Z.of_nat (length data) ∧ is_u32 (Z.of_nat (length data))
  | PcPoll | PcCleanup | PcPutdev => il_queued s = false ∧ busy_progress s ∧ ∃ c data, live c data s
  | PcComplete =>
      il_queued s = false ∧ busy_progress s ∧ fw_data (il_fwlp s) = None ∧
      ∃ c, fw_finished (il_fwlp s) = Some c ∧ il_held s = Held 0 {[+ c +]} 0
  | PcCtxPut =>
      il_queued s = false ∧ fw_progress (il_fwlp s) = FW_UPLOAD_PROG_IDLE ∧ fw_data (il_fwlp s) = None ∧
      ∃ c, fw_finished (il_fwlp s) = Some c ∧ il_held s = Held 0 {[+ c +]} 0
  end.
(** What holds of the file: nothing is in progress behind a closed one. *)
Definition file_inv (f : file_state) (pc : worker_pc) s : Prop :=
  match f with
  | FileClosed => il_opened s = false ∧ fw_progress (il_fwlp s) = FW_UPLOAD_PROG_IDLE ∧ (pc = PcIdle ∨ pc = PcCtxPut)
  | _ => il_opened s = true
  end.
Definition sys_inv y : Prop :=
  fs_inv (il_dd (sys_dev y)) ∧ pc_inv (sys_pc y) (sys_dev y) ∧ file_inv (sys_file y) (sys_pc y) (sys_dev y).

(** Requests to write come only while the worker has nothing to do, and pass as many
    bytes as they say. *)
Definition label_ok y (l : label) : Prop :=
  match l with
  | LIoctl (FPGA_IMAGE_LOAD_WRITE wb user) =>
      sys_pc y = PcIdle ∧ il_queued (sys_dev y) = false ∧
      ∀ w data, wb = Some w → user (wb_buf w) (wb_size w) = Some data →
        wb_size w = Z.of_nat (length data) ∧ is_u32 (wb_size w)
  | _ => True
  end.
Inductive reachable (y0 : system D) : system D → Prop :=
| reach_init : reachable y0 y0
| reach_step l y y' : reachable y0 y → label_ok y l → istep ops l y y' → reachable y0 y'.

Lemma work_spec pc s :
  fs_inv (il_dd s) → pc_inv pc s → pc ≠ PcIdle →
  wp (worker_step ops pc)
    (λ pc' s', fs_inv (il_dd s') ∧ pc_inv pc' s' ∧ il_opened s' = il_opened s ∧
       (pc = PcCtxPut → pc' = PcIdle ∧ il_queued s' = false ∧ fw_progress (il_fwlp s') = FW_UPLOAD_PROG_IDLE))
    (λ _ _, False) s.
Proof.
  intros Hi Hp Hne. destruct pc; try done; cbn [worker_step].
  - destruct Hp as (Hq & Hb & c & data & Hl & Hr & H32). unfold main_prepare, fw_upload_update_progress, upd_fwlp. wsteps.
    apply wp_access; [|intros Hno; by destruct Hl as (? & _); cbn in *; congruence].
    intros dat Hdat. assert (dat = data) as -> by (destruct Hl as (Hl & _); cbn in *; congruence). wsteps. cbn. rewrite Hr.
    apply on_dd_spec. eapply wp_mono; [apply fs_prepare, Hi| |done]. intros ret d' Hd. wsteps.
    destruct (bool_decide_reflect (ret = FW_UPLOAD_ERR_NONE)); cbn [negb]; unfold fw_upload_set_error, upd_fwlp; wsteps.
    + split_and!; try done. cbn. split_and!; try done. exists c, data. split_and!; try done; cbn; lia.
    + split_and!; try done. cbn. split_and!; try done. by exists c, data.
  - destruct Hp as (Hq & Hb & c & data & Hl & Ho & Hr & Hs & H32). unfold main_loop. wsteps.
    destruct (Z.eqb_spec (fw_remaining_size (il_fwlp s)) 0) as [Hz|Hz]; wsteps.
    { split_and!; try done. cbn. split_and!; try done. by exists c, data. }
    apply wp_access; [|intros Hno; by destruct Hl as (? & _); cbn in *; congruence].
    intros dat Hdat. assert (dat = data) as -> by (destruct Hl as (Hl & _); cbn in *; congruence). wsteps.
    apply on_dd_spec. eapply wp_mono; [apply fs_write; [exact Hi|done|lia|exact Hs]| |done]. intros [ret w'] d' [Hd Hw]. cbn [fst snd] in Hw.
    wsteps. destruct (bool_decide_reflect (ret = FW_UPLOAD_ERR_NONE)) as [He|He]; cbn [negb orb].
    2: { unfold fw_upload_set_error, upd_fwlp. wsteps. split_and!; try done. cbn. split_and!; try done. by exists c, data. }
    specialize (Hw He). destruct (Z.eqb_spec w' 0); unfold fw_upload_set_error, upd_fwlp; wsteps.
    { split_and!; try done. cbn. split_and!; try done. by exists c, data. }
    unfold is_u32 in H32. split_and!; try done. cbn. rewrite !u32_small by (unfold is_u32; lia). split_and!; try done.
    exists c, data. split_and!; try done; cbn; try lia; unfold is_u32; lia.
  - destruct Hp as (Hq & Hb & c & data & Hl). unfold main_poll, fw_upload_update_progress, upd_fwlp. wsteps.
    apply on_dd_spec. eapply wp_mono; [apply fs_poll, Hi| |done]. intros ret d' Hd. wsteps.
    destruct (bool_decide_reflect (ret = FW_UPLOAD_ERR_NONE)); cbn [negb]; unfold fw_upload_set_error, upd_fwlp; wsteps;
      (split_and!; [done| |done|done]); cbn; (split_and!; [done|done|]); by exists c, data.
  - destruct Hp as (Hq & Hb & c & data & Hl). unfold main_cleanup. wsteps.
    destruct (fo_cleanup ops) as [m|] eqn:Hm; wsteps.
    + apply on_dd_spec. eapply wp_mono; [by eapply fs_cleanup| |done]. intros ? d' Hd. wsteps.
      split_and!; try done. cbn. split_and!; try done. by exists c, data.
    + split_and!; try done. cbn. split_and!; try done. by exists c, data.
  - destruct Hp as (Hq & Hb & c & data & Hd & Hc & Hh). unfold main_putdev, add_parent, upd_held, upd_fwlp. wsteps. cbn.
    rewrite Hd. cbn. wsteps. split_and!; try done. cbn. split_and!; try done. exists c. split; [done|]. by rewrite Hh.
  - destruct Hp as (Hq & Hb & Hd & c & Hc & Hh). unfold fw_upload_prog_complete, fw_upload_update_progress, upd_fwlp. wsteps. cbn.
    rewrite Hc. unfold eventfd_signal. wsteps. apply wp_access; [|done]. intros ? [= <-]. wsteps.
    split_and!; try done. by exists c.
  - destruct Hp as (Hq & Hb & Hd & c & Hc & Hh). unfold main_ctx_put, eventfd_ctx_put. wsteps. rewrite Hc.
    apply wp_access; [|done]. intros ? [= <-]. unfold upd_held, upd_fwlp. wsteps.
    split_and!; try done. cbn. rewrite Hq. split_and!; try done. cbn. rewrite Hh. cbn. by rewrite ctx_drop.
Qed.

(** Requests leave the worker's part of the invariant as it is, or start an upload. *)
Lemma ioctl_spec cmd s pc :
  fs_inv (il_dd s) → pc_inv pc s → label_ok (Sys s pc FileOpen) (LIoctl cmd) →
  wp (fpga_image_load_ioctl ops cmd)
    (λ _ s', fs_inv (il_dd s') ∧ pc_inv pc s' ∧ il_opened s' = il_opened s)
    (λ _ s', fs_inv (il_dd s') ∧ pc_inv pc s' ∧ il_opened s' = il_opened s) s.
Proof.
  intros Hi Hp Hok. destruct cmd as [wb user|w| |]; cbn [fpga_image_load_ioctl].
  - destruct Hok as (Hpc & Hq & Hwb). cbn in Hpc, Hq. subst pc. cbn in Hp. rewrite Hq in Hp. wsteps.
    eapply wp_mono; [apply write_spec, Hp| |].
    + intros ? s' (w & data & c & Hw & Hu & Hl & Hpr & _ & Hn & Hq' & Ho & Hd & _). wsteps.
      destruct (Hwb w data Hw Hu) as [Hs H32]. split_and!; [by rewrite Hd| |done]. cbn. rewrite Hq'. unfold busy_progress.
      rewrite Hpr. split; [done|]. exists c, data. rewrite <- Hs. by split_and!.
    + intros e s' (Hid & Hq' & Ho & Hd & _). split_and!; [by rewrite Hd| |done]. cbn. by rewrite Hq', Hq.
  - unfold fpga_image_load_ioctl_status. wsteps. destruct w; wsteps; by split_and!.
  - unfold fpga_image_load_ioctl_cancel. wsteps. destruct (bool_decide (_ = _)); wsteps; [by split_and!|].
    apply on_dd_spec. eapply wp_mono; [apply fs_cancel, Hi| |done]. intros ? d' Hd. wsteps.
    split_and!; [done| |done]. by destruct pc.
  - wsteps. by split_and!.
Qed.
Lemma release_spec s pc :
  fs_inv (il_dd s) → pc_inv pc s →
  wp (release_cancel ops)
    (λ wait s', fs_inv (il_dd s') ∧ pc_inv pc s' ∧ il_opened s' = il_opened s ∧
       (wait = false → s' = s ∧ fw_progress (il_fwlp s) = FW_UPLOAD_PROG_IDLE)) (λ _ _, False) s.
Proof.
  intros Hi Hp. unfold release_cancel. wsteps. destruct (bool_decide_reflect (fw_progress (il_fwlp s) = FW_UPLOAD_PROG_IDLE)); wsteps.
  { by split_and!. }
  apply on_dd_spec. eapply wp_mono; [apply fs_cancel, Hi| |done]. intros ? d' Hd. wsteps.
  split_and!; [done| |done|done]. by destruct pc.
Qed.

Lemma pc_inv_opened b pc s :
  pc_inv pc s →
  pc_inv pc (Imgld _ _ (il_k s) b (il_fwlp s) (il_queued s) (il_held s) (il_signals s) (il_dd s)).
Proof. by destruct pc. Qed.
Lemma idle_pc pc s :
  pc_inv pc s → fw_progress (il_fwlp s) = FW_UPLOAD_PROG_IDLE → pc = PcIdle ∨ pc = PcCtxPut.
Proof. unfold pc_inv, busy_progress. intros Hp He. destruct pc; eauto; exfalso; intuition. Qed.

Lemma istep_inv l y y' : sys_inv y → label_ok y l → istep ops l y y' → sys_inv y'.
Proof.
  intros (Hi & Hp & Hf) Hok Hstep. destruct Hstep as [s pc s' Hm|cmd r s pc s' Hm|s pc s' s'' Hm Hm'|s pc s' Hm|s s' Hq Hm|s s' f Hq Hm|s pc pc' s' f Hne Hm];
    cbn in Hi, Hp, Hf |- *; unfold sys_inv; cbn [sys_dev sys_pc sys_file].
  - unfold fpga_image_load_open in Hm. destruct Hf as (Ho & Hpr & Hpc). unfold mbind, M_bind, gets in Hm. rewrite Ho in Hm. injection Hm as <-.
    split_and!; [done|by apply pc_inv_opened|done].
  - pose proof (wp_done _ _ _ _ _ _ (ioctl_spec cmd s pc Hi Hp Hok) Hm) as Hr. destruct r; destruct Hr as (?&?&Ho);
      (split_and!; [done..|cbn; by rewrite Ho]).
  - pose proof (wp_done _ _ _ _ _ _ (release_spec s pc Hi Hp) Hm) as (?&?&?&Hn). destruct (Hn eq_refl) as [-> Hpr].
    injection Hm' as <-. split_and!; [done|by apply pc_inv_opened|]. cbn. split_and!; [done..|by eapply idle_pc].
  - pose proof (wp_done _ _ _ _ _ _ (release_spec s pc Hi Hp) Hm) as (?&?&Ho&_). split_and!; [done..|cbn; by rewrite Ho].
  - injection Hm as <-. split_and!; [done|by apply pc_inv_opened|]. cbn in Hp. rewrite Hq in Hp. destruct Hp as (?&?&?&?).
    cbn. split_and!; [done..|by left].
  - injection Hm as <-. cbn in Hp. rewrite Hq in Hp. destruct Hp as (Hb & c & data & Hl & Hr & H32).
    split_and!; [done| |].
    + cbn. split_and!; [done..|]. by exists c, data.
    + destruct f; cbn in *; try done. by destruct Hf as (_ & ? & _).
  - pose proof (wp_done _ _ _ _ _ _ (work_spec pc s Hi Hp Hne) Hm) as (?&Hp'&Ho&Hlast). split_and!; [done..|].
    destruct f; cbn in *; try by rewrite Ho. destruct Hf as (Hc & Hpr & [?|Hpc]); [done|].
    destruct (Hlast Hpc) as (->&_&?). rewrite Ho. split_and!; [done..|by left].
Qed.

(** C8: users and the worker together, in every order of their steps, as long as a
    request to write comes only while the worker has nothing to do: the worker never
    uses a buffer or an eventfd context that is gone; an upload in progress holds
    one buffer, one context and one reference to the parent, which are dropped
    exactly once; when the worker is idle nothing is held, and a closed file leaves
    no upload in progress behind. *)
Theorem uploads_interleaved y0 y :
  sys_inv y0 → reachable y0 y →
  sys_inv y ∧
  (sys_pc y ≠ PcIdle → ∃ pc' s', worker_step ops (sys_pc y) (sys_dev y) = Done (Val pc', s')) ∧
  (sys_pc y = PcIdle → il_queued (sys_dev y) = false → il_held (sys_dev y) = Held 0 ∅ 0).
Proof.
  intros H0 Hr. assert (sys_inv y) as Hy.
  { induction Hr as [|l y y' _ IH Hl Hs]; [done|]. by eapply istep_inv. }
  destruct Hy as (Hi & Hp & Hf). split; [done|]. split.
  - intros Hne. pose proof (work_spec _ _ Hi Hp Hne) as Hw. unfold wpg in Hw.
    destruct (worker_step ops (sys_pc y) (sys_dev y)) as [[[pc'|e] s']| |]; try done. eauto.
  - intros Hpc Hq. rewrite Hpc in Hp. cbn in Hp. rewrite Hq in Hp. by destruct Hp as (_&_&_&?).
Qed.
End System.
