(* ===== verification/SecUpdate.v ===== *)
(** * Secure update of a card (drivers/fpga/intel-m10-bmc-sec-update.c)

    The driver under the image load framework: it asks the firmware of the BMC to
    prepare, stages the image in flash, tells the firmware that all is written and
    waits until it has authenticated and copied the image.  A user may ask to cancel
    at any time; the driver looks at the request at the points where it can stop. *)
From stdpp Require Import strings.
From S2P Require Import Prelude Text Bytes M10Bmc ImageLoad.

(* include/linux/mfd/intel-m10-bmc.h:104-104 DRBL_RSU_REQUEST *)
Definition DRBL_RSU_REQUEST : field := BIT_ULL 0.
(* include/linux/mfd/intel-m10-bmc.h:105-105 DRBL_RSU_PROGRESS *)
Definition DRBL_RSU_PROGRESS : field := GENMASK_ULL 7 4.
(* include/linux/mfd/intel-m10-bmc.h:106-106 DRBL_HOST_STATUS *)
Definition DRBL_HOST_STATUS : field := GENMASK_ULL 11 8.
(* include/linux/mfd/intel-m10-bmc.h:107-107 DRBL_RSU_STATUS *)
Definition DRBL_RSU_STATUS : field := GENMASK_ULL 23 16.
(* include/linux/mfd/intel-m10-bmc.h:116-116 RSU_PROG_IDLE *)
Definition RSU_PROG_IDLE : Z := 0x0.
(* include/linux/mfd/intel-m10-bmc.h:117-117 RSU_PROG_PREPARE *)
Definition RSU_PROG_PREPARE : Z := 0x1.
(* include/linux/mfd/intel-m10-bmc.h:118-118 RSU_PROG_READY *)
Definition RSU_PROG_READY : Z := 0x3.
(* include/linux/mfd/intel-m10-bmc.h:119-119 RSU_PROG_AUTHENTICATING *)
Definition RSU_PROG_AUTHENTICATING : Z := 0x4.
(* include/linux/mfd/intel-m10-bmc.h:120-120 RSU_PROG_COPYING *)
Definition RSU_PROG_COPYING : Z := 0x5.
(* include/linux/mfd/intel-m10-bmc.h:121-121 RSU_PROG_UPDATE_CANCEL *)
Definition RSU_PROG_UPDATE_CANCEL : Z := 0x6.
(* include/linux/mfd/intel-m10-bmc.h:122-122 RSU_PROG_PROGRAM_KEY_HASH *)
Definition RSU_PROG_PROGRAM_KEY_HASH : Z := 0x7.
(* include/linux/mfd/intel-m10-bmc.h:123-123 RSU_PROG_RSU_DONE *)
Definition RSU_PROG_RSU_DONE : Z := 0x8.
(* include/linux/mfd/intel-m10-bmc.h:127-127 RSU_STAT_NORMAL *)
Definition RSU_STAT_NORMAL : Z := 0x0.
(* include/linux/mfd/intel-m10-bmc.h:134-134 RSU_STAT_ERASE_FAIL *)
Definition RSU_STAT_ERASE_FAIL : Z := 0x7.
(* include/linux/mfd/intel-m10-bmc.h:135-135 RSU_STAT_WEAROUT *)
Definition RSU_STAT_WEAROUT : Z := 0x8.
(* include/linux/mfd/intel-m10-bmc.h:147-147 RSU_STAT_SDM_PR_FAILED *)
Definition RSU_STAT_SDM_PR_FAILED : Z := 0x23.
(* include/linux/mfd/intel-m10-bmc.h:153-153 RSU_STAT_SDM_SR_SDM_FAILED *)
Definition RSU_STAT_SDM_SR_SDM_FAILED : Z := 0x33.
(* include/linux/mfd/intel-m10-bmc.h:159-159 RSU_STAT_SDM_KEY_FAILED *)
Definition RSU_STAT_SDM_KEY_FAILED : Z := 0x43.
(* include/linux/mfd/intel-m10-bmc.h:162-162 RSU_STAT_NIOS_OK *)
Definition RSU_STAT_NIOS_OK : Z := 0x80.
(* include/linux/mfd/intel-m10-bmc.h:163-163 RSU_STAT_USER_OK *)
Definition RSU_STAT_USER_OK : Z := 0x81.
(* include/linux/mfd/intel-m10-bmc.h:164-164 RSU_STAT_FACTORY_OK *)
Definition RSU_STAT_FACTORY_OK : Z := 0x82.
(* include/linux/mfd/intel-m10-bmc.h:170-170 HOST_STATUS_IDLE *)
Definition HOST_STATUS_IDLE : Z := 0x0.
(* include/linux/mfd/intel-m10-bmc.h:171-171 HOST_STATUS_WRITE_DONE *)
Definition HOST_STATUS_WRITE_DONE : Z := 0x1.
(* include/linux/mfd/intel-m10-bmc.h:172-172 HOST_STATUS_ABORT_RSU *)
Definition HOST_STATUS_ABORT_RSU : Z := 0x2.
(* include/linux/mfd/intel-m10-bmc.h:225-225 AUTH_RESULT_RSU_STATUS *)
Definition AUTH_RESULT_RSU_STATUS : field := GENMASK_ULL 23 16.
(* include/linux/mfd/intel-m10-bmc.h:255-255 M10BMC_PMCI_SDM_PR_STS *)
Definition M10BMC_PMCI_SDM_PR_STS : Z := 0x820.
(* include/linux/mfd/intel-m10-bmc.h:256-256 M10BMC_PMCI_CERT_PROG_STS *)
Definition M10BMC_PMCI_CERT_PROG_STS : Z := 0x824.
(* include/linux/mfd/intel-m10-bmc.h:257-257 M10BMC_PMCI_CERT_SPEC_STS *)
Definition M10BMC_PMCI_CERT_SPEC_STS : Z := 0x828.
(* include/linux/mfd/intel-m10-bmc.h:174-174 rsu_prog *)
Definition rsu_prog (doorbell : Z) : Z := FIELD_GET DRBL_RSU_PROGRESS doorbell.

(** The configuration of the register map, the same on all boards. *)
(* drivers/mfd/intel-m10-bmc-spi.c:28-35 intel_m10bmc_regmap_config *)
Definition reg_stride : Z := 4.

(** ** Data *)

(* drivers/fpga/intel-m10-bmc-sec-update.c:28-33 fpga_image *)
Inductive fpga_image := FPGA_FACTORY | FPGA_USER1 | FPGA_USER2 | FPGA_MAX.
#[export] Instance fpga_image_eq : EqDecision fpga_image.
Proof. solve_decision. Defined.

(* drivers/fpga/intel-m10-bmc-sec-update.c:41-45 fpga_power_on *)
Record fpga_power_on `{Regmap} (X : Type) := PowerOn {
  avail_image_mask : Z;
  get_sequence : M (bmc X) text;
  set_sequence : list fpga_image → M (bmc X) unit;
}.
Arguments avail_image_mask {_ X}.
Arguments get_sequence {_ X}.
Arguments set_sequence {_ X}.

(** The images are the keywords with what they load. *)
(* drivers/fpga/intel-m10-bmc-sec-update.c:52-57 m10bmc_sec_ops *)
Record m10bmc_sec_ops `{Regmap} (X : Type) := SecOps {
  rsu_status : M (bmc X) Z;
  image_load : list (text * M (bmc X) unit);
  poc : option (fpga_power_on X);
  sec_visible : bool;
}.
Arguments rsu_status {_ X}.
Arguments image_load {_ X}.
Arguments poc {_ X}.
Arguments sec_visible {_ X}.

(** [sec_async] says, for each time the driver will look at the request to cancel,
    whether a user asks in the time before it. *)
(* drivers/fpga/intel-m10-bmc-sec-update.c:59-68 m10bmc_sec *)
Record m10bmc_sec `{Regmap} {X : Type} := Sec {
  sec_m10bmc : bmc X;
  sec_cancel_request : bool;
  sec_async : list bool;
}.
Arguments m10bmc_sec {_} X.

(* drivers/fpga/intel-m10-bmc-sec-update.c:1226-1232 rsu_status_ok *)
Definition rsu_status_ok (status : Z) : bool :=
  (status =? RSU_STAT_NORMAL) || (status =? RSU_STAT_NIOS_OK) ||
  (status =? RSU_STAT_USER_OK) || (status =? RSU_STAT_FACTORY_OK).
(* drivers/fpga/intel-m10-bmc-sec-update.c:1234-1238 rsu_progress_done *)
Definition rsu_progress_done (progress : Z) : bool :=
  (progress =? RSU_PROG_IDLE) || (progress =? RSU_PROG_RSU_DONE).
(* drivers/fpga/intel-m10-bmc-sec-update.c:1240-1246 rsu_progress_busy *)
Definition rsu_progress_busy (progress : Z) : bool :=
  (progress =? RSU_PROG_AUTHENTICATING) || (progress =? RSU_PROG_COPYING) ||
  (progress =? RSU_PROG_UPDATE_CANCEL) || (progress =? RSU_PROG_PROGRAM_KEY_HASH).
(* drivers/fpga/intel-m10-bmc-sec-update.c:1266-1278 rsu_start_done *)
Definition rsu_start_done (doorbell_reg progress status : Z) : bool :=
  if has_bits DRBL_RSU_REQUEST doorbell_reg then false else
  if (status =? RSU_STAT_ERASE_FAIL) || (status =? RSU_STAT_WEAROUT) then true else
  negb (rsu_progress_done progress).

Section Sec.
Context `{Regmap} {X : Type} (info : intel_m10bmc_platform_info)
  (fbops : option (intel_m10bmc_flash_bulk_ops X)) (ops : m10bmc_sec_ops X) (tries : nat).
Abbreviation sys_read := (m10bmc_sys_read (X := X) info).
Abbreviation sys_update_bits := (m10bmc_sys_update_bits (X := X) info).
Abbreviation csr := (csr_map info).
Abbreviation doorbell_addr := (u32 (base csr + doorbell csr)).

(** ** The handshake with the firmware

    The error codes of register accesses are negative. *)

(* drivers/fpga/intel-m10-bmc-sec-update.c:70-95 log_error_regs *)
Definition log_error_regs (doorbell : Z) : M (bmc X) unit :=
  _ ← attempt (sys_read (auth_result csr));
  status ← attempt (rsu_status ops);
  match status with
  | inl _ => mret tt
  | inr status =>
      if status =? RSU_STAT_SDM_PR_FAILED then
        _ ← attempt (sys_read M10BMC_PMCI_SDM_PR_STS); mret tt
      else if (status =? RSU_STAT_SDM_SR_SDM_FAILED) || (status =? RSU_STAT_SDM_KEY_FAILED) then
        _ ← attempt (sys_read M10BMC_PMCI_CERT_PROG_STS);
        _ ← attempt (sys_read M10BMC_PMCI_CERT_SPEC_STS);
        mret tt
      else mret tt
  end.

(** The doorbell, the progress and the status. *)
(* drivers/fpga/intel-m10-bmc-sec-update.c:97-115 m10bmc_sec_progress_status *)
Definition m10bmc_sec_progress_status : M (bmc X) (Z * Z * Z) :=
  doorbell_reg ← sys_read (doorbell csr);
  status ← rsu_status ops;
  mret (doorbell_reg, rsu_prog doorbell_reg, status).

(* drivers/fpga/intel-m10-bmc-sec-update.c:1248-1264 rsu_check_idle *)
Definition rsu_check_idle : M (bmc X) fw_upload_err :=
  r ← attempt (sys_read (doorbell csr));
  match r with
  | inl _ => mret FW_UPLOAD_ERR_RW_ERROR
  | inr doorbell =>
      if negb (rsu_progress_done (rsu_prog doorbell)) then
        log_error_regs doorbell ;;
        mret FW_UPLOAD_ERR_BUSY
      else mret FW_UPLOAD_ERR_NONE
  end.

(* drivers/fpga/intel-m10-bmc-sec-update.c:1280-1317 rsu_update_init *)
Definition rsu_update_init : M (bmc X) fw_upload_err :=
  r ← attempt (sys_update_bits (doorbell csr) (Z.lor (mask DRBL_RSU_REQUEST) (mask DRBL_HOST_STATUS))
                 (Z.lor (mask DRBL_RSU_REQUEST) (FIELD_PREP DRBL_HOST_STATUS HOST_STATUS_IDLE)));
  match r with
  | inl _ => mret FW_UPLOAD_ERR_RW_ERROR
  | inr _ =>
      r ← read_poll_timeout (attempt m10bmc_sec_progress_status)
        (λ v, match v with inl _ => true | inr (d, p, s) => rsu_start_done d p s end) tries;
      match r.2 with
      | inl _ => mret FW_UPLOAD_ERR_RW_ERROR
      | inr (doorbell_reg, progress, status) =>
          if r.1 =? - ETIMEDOUT then log_error_regs doorbell_reg ;; mret FW_UPLOAD_ERR_TIMEOUT
          else if status =? RSU_STAT_WEAROUT then mret FW_UPLOAD_ERR_WEAROUT
          else if status =? RSU_STAT_ERASE_FAIL then log_error_regs doorbell_reg ;; mret FW_UPLOAD_ERR_HW_ERROR
          else mret FW_UPLOAD_ERR_NONE
      end
  end.

(** Waiting while the firmware prepares: the last value of the doorbell. *)
(* drivers/fpga/intel-m10-bmc-sec-update.c:1330-1339 rsu_prog_ready *)
Fixpoint wait_prepared (tries : nat) (doorbell_reg : Z) : M (bmc X) Z :=
  if rsu_prog doorbell_reg =? RSU_PROG_PREPARE then
    match tries with
    | O => mret doorbell_reg
    | S tries =>
        doorbell_reg ← sys_read (doorbell csr);
        wait_prepared tries doorbell_reg
    end
  else mret doorbell_reg.
(* drivers/fpga/intel-m10-bmc-sec-update.c:1319-1351 rsu_prog_ready *)
Definition rsu_prog_ready : M (bmc X) fw_upload_err :=
  r ← attempt (doorbell_reg ← sys_read (doorbell csr); wait_prepared tries doorbell_reg);
  match r with
  | inl _ => mret FW_UPLOAD_ERR_RW_ERROR
  | inr doorbell =>
      let progress := rsu_prog doorbell in
      if progress =? RSU_PROG_PREPARE then log_error_regs doorbell ;; mret FW_UPLOAD_ERR_TIMEOUT
      else if negb (progress =? RSU_PROG_READY) then log_error_regs doorbell ;; mret FW_UPLOAD_ERR_HW_ERROR
      else mret FW_UPLOAD_ERR_NONE
  end.

(** A read that fails with [-ETIMEDOUT] is taken for the end of the polling; the
    doorbell that is logged, but not looked at, was not read then. *)
(* drivers/fpga/intel-m10-bmc-sec-update.c:1353-1391 rsu_send_data *)
Definition rsu_send_data : M (bmc X) fw_upload_err :=
  r ← attempt (sys_update_bits (doorbell csr) (mask DRBL_HOST_STATUS) (FIELD_PREP DRBL_HOST_STATUS HOST_STATUS_WRITE_DONE));
  match r with
  | inl _ => mret FW_UPLOAD_ERR_RW_ERROR
  | inr _ =>
      r ← regmap_read_poll_timeout doorbell_addr (λ d, negb (rsu_prog d =? RSU_PROG_READY)) tries;
      if r.1 =? - ETIMEDOUT then
        log_error_regs (match r.2 with inl _ => 0 | inr doorbell_reg => doorbell_reg end) ;; mret FW_UPLOAD_ERR_TIMEOUT
      else
      match r.2 with
      | inl _ => mret FW_UPLOAD_ERR_RW_ERROR
      | inr doorbell_reg =>
          status ← attempt (rsu_status ops);
          match status with
          | inl _ => mret FW_UPLOAD_ERR_HW_ERROR
          | inr status =>
              if negb (rsu_status_ok status) then log_error_regs doorbell_reg ;; mret FW_UPLOAD_ERR_HW_ERROR
              else mret FW_UPLOAD_ERR_NONE
          end
      end
  end.

(** The status, and the doorbell if it was read. *)
(* drivers/fpga/intel-m10-bmc-sec-update.c:1393-1410 rsu_check_complete *)
Definition rsu_check_complete : M (bmc X) (Z * Z) :=
  r ← attempt m10bmc_sec_progress_status;
  match r with
  | inl _ => mret (- EIO, 0)
  | inr (doorbell_reg, progress, status) =>
      mret (if negb (rsu_status_ok status) then - EINVAL
            else if rsu_progress_done progress then 0
            else if rsu_progress_busy progress then - EAGAIN
            else - EINVAL, doorbell_reg)
  end.

(* drivers/fpga/intel-m10-bmc-sec-update.c:1412-1433 rsu_cancel *)
Definition rsu_cancel : M (bmc X) fw_upload_err :=
  r ← attempt (sys_read (doorbell csr));
  match r with
  | inl _ => mret FW_UPLOAD_ERR_RW_ERROR
  | inr doorbell_reg =>
      if negb (rsu_prog doorbell_reg =? RSU_PROG_READY) then mret FW_UPLOAD_ERR_BUSY else
      r ← attempt (sys_update_bits (doorbell csr) (mask DRBL_HOST_STATUS)
                     (FIELD_PREP DRBL_HOST_STATUS HOST_STATUS_ABORT_RSU));
      match r with
      | inl _ => mret FW_UPLOAD_ERR_RW_ERROR
      | inr _ => mret FW_UPLOAD_ERR_CANCELED
      end
  end.

(** ** Flash *)

(* drivers/fpga/intel-m10-bmc-sec-update.c:482-513 m10bmc_sec_write *)
Definition m10bmc_sec_write (buf : list Z) (offset size : Z) : M (bmc X) unit :=
  let stride := reg_stride in
  let write_count := size / stride in
  let leftover_offset := write_count * stride in
  let leftover_size := size - leftover_offset in
  match fbops with
  | Some fb => fb_write fb buf offset size
  | None =>
      part ← access (slice offset (write_count * 4) buf);
      regmap_bulk_write (u32 (M10BMC_STAGING_BASE + offset)) part ;;
      if negb (leftover_size =? 0) then
        part ← access (slice leftover_offset leftover_size buf);
        regmap_write (u32 (M10BMC_STAGING_BASE + offset + leftover_offset)) (le_word part)
      else mret tt
  end.

(** [buf] is what the buffer holds before. *)
(* drivers/fpga/intel-m10-bmc-sec-update.c:515-544 m10bmc_sec_read *)
Definition m10bmc_sec_read (buf : list Z) (addr size : Z) : M (bmc X) (list Z) :=
  let stride := reg_stride in
  let read_count := size / stride in
  let leftover_offset := read_count * stride in
  let leftover_size := size - leftover_offset in
  match fbops with
  | Some fb => fb_read fb buf addr size
  | None =>
      bytes ← regmap_bulk_read addr (read_count * 4);
      buf ← access (splice 0 bytes buf);
      if negb (leftover_size =? 0) then
        leftover_tmp ← regmap_read (u32 (addr + leftover_offset));
        access (splice leftover_offset (take (Z.to_nat leftover_size) (le_split 4 leftover_tmp)) buf)
      else mret buf
  end.

(** ** The operations of the image load framework *)
Abbreviation sec := (m10bmc_sec X).
Definition on_bmc {A} : M (bmc X) A → M sec A :=
  zoom sec_m10bmc (λ b s, Sec _ _ b (sec_cancel_request s) (sec_async s)).
Definition set_cancel_request (b : bool) : M sec unit :=
  modify (λ s, Sec _ _ (sec_m10bmc s) b (sec_async s)).
(** [sec->cancel_request], which a user may have set until now. *)
Definition cancel_requested : M sec bool := λ s,
  let b := sec_cancel_request s || default false (head (sec_async s)) in
  Done (Val b, Sec _ _ (sec_m10bmc s) b (tail (sec_async s))).

Definition unlock_flash : M sec unit :=
  match fbops with Some fb => on_bmc (fb_unlock_write fb) | None => mret tt end.
Definition lock_flash : M sec Z :=
  match fbops with Some fb => status (on_bmc (fb_lock_write fb)) | None => mret 0 end.

(* drivers/fpga/intel-m10-bmc-sec-update.c:1435-1481 m10bmc_sec_prepare *)
Definition m10bmc_sec_prepare (size : Z) : M sec fw_upload_err :=
  set_cancel_request false ;;
  if (size =? 0) || (staging_size csr <? size) then mret FW_UPLOAD_ERR_INVALID_SIZE else
  locked ← lock_flash;
  if negb (locked =? 0) then mret FW_UPLOAD_ERR_BUSY else
  let fw_state_exit (ret : fw_upload_err) : M sec fw_upload_err :=
    on_bmc (m10bmc_fw_state_set info M10BMC_FW_STATE_NORMAL) ;; unlock_flash ;; mret ret in
  ret ← on_bmc rsu_check_idle;
  if negb (bool_decide (ret = FW_UPLOAD_ERR_NONE)) then unlock_flash ;; mret ret else
  on_bmc (m10bmc_fw_state_set info M10BMC_FW_STATE_SEC_UPDATE_PREPARE) ;;
  ret ← on_bmc rsu_update_init;
  if negb (bool_decide (ret = FW_UPLOAD_ERR_NONE)) then fw_state_exit ret else
  ret ← on_bmc rsu_prog_ready;
  if negb (bool_decide (ret = FW_UPLOAD_ERR_NONE)) then fw_state_exit ret else
  cancel ← cancel_requested;
  if (cancel : bool) then
    ret ← on_bmc rsu_cancel;
    fw_state_exit ret
  else
    on_bmc (m10bmc_fw_state_set info M10BMC_FW_STATE_SEC_UPDATE_WRITE) ;;
    mret FW_UPLOAD_ERR_NONE.

(* drivers/fpga/intel-m10-bmc-sec-update.c:1483-1483 WRITE_BLOCK_SIZE *)
Definition WRITE_BLOCK_SIZE : Z := 0x4000.

(* drivers/fpga/intel-m10-bmc-sec-update.c:1485-1513 m10bmc_sec_fw_write *)
Definition m10bmc_sec_fw_write (data : list Z) (offset size written : Z) : M sec (fw_upload_err * Z) :=
  cancel ← cancel_requested;
  if (cancel : bool) then ret ← on_bmc rsu_cancel; mret (ret, written) else
  r ← attempt (on_bmc (sys_read (doorbell csr)));
  match r with
  | inl _ => mret (FW_UPLOAD_ERR_RW_ERROR, written)
  | inr doorbell =>
      if negb (rsu_prog doorbell =? RSU_PROG_READY) then
        on_bmc (log_error_regs doorbell) ;;
        mret (FW_UPLOAD_ERR_HW_ERROR, written)
      else
        let blk_size := Z.min WRITE_BLOCK_SIZE size in
        r ← attempt (on_bmc (m10bmc_sec_write data offset blk_size));
        match r with
        | inl _ => mret (FW_UPLOAD_ERR_RW_ERROR, written)
        | inr _ => mret (FW_UPLOAD_ERR_NONE, blk_size)
        end
  end.

(* drivers/fpga/intel-m10-bmc-sec-update.c:1531-1535 m10bmc_sec_poll_complete *)
Fixpoint check_complete_loop (tries : nat) : M (bmc X) (Z * Z) :=
  r ← rsu_check_complete;
  match tries with
  | S tries => if r.1 =? - EAGAIN then check_complete_loop tries else mret r
  | O => mret r
  end.
(* drivers/fpga/intel-m10-bmc-sec-update.c:1515-1548 m10bmc_sec_poll_complete *)
Definition m10bmc_sec_poll_complete : M sec fw_upload_err :=
  cancel ← cancel_requested;
  if (cancel : bool) then on_bmc rsu_cancel else
  on_bmc (m10bmc_fw_state_set info M10BMC_FW_STATE_SEC_UPDATE_PROGRAM) ;;
  result ← on_bmc rsu_send_data;
  if negb (bool_decide (result = FW_UPLOAD_ERR_NONE)) then mret result else
  r ← on_bmc (check_complete_loop tries);
  let (ret, doorbell) := (r : Z * Z) in
  if ret =? - EAGAIN then on_bmc (log_error_regs doorbell) ;; mret FW_UPLOAD_ERR_TIMEOUT
  else if ret =? - EIO then mret FW_UPLOAD_ERR_RW_ERROR
  else if negb (ret =? 0) then on_bmc (log_error_regs doorbell) ;; mret FW_UPLOAD_ERR_HW_ERROR
  else mret FW_UPLOAD_ERR_NONE.

(* drivers/fpga/intel-m10-bmc-sec-update.c:1557-1562 m10bmc_sec_cancel *)
Definition m10bmc_sec_cancel : M sec unit := set_cancel_request true.

(* drivers/fpga/intel-m10-bmc-sec-update.c:1564-1574 m10bmc_sec_cleanup *)
Definition m10bmc_sec_cleanup : M sec unit :=
  _ ← on_bmc rsu_cancel;
  on_bmc (m10bmc_fw_state_set info M10BMC_FW_STATE_NORMAL) ;;
  unlock_flash.

(* drivers/fpga/intel-m10-bmc-sec-update.c:1576-1582 m10bmc_ops *)
Definition m10bmc_ops : fw_upload_ops sec := {|
  fo_prepare := λ _ size, m10bmc_sec_prepare size;
  fo_write := m10bmc_sec_fw_write;
  fo_poll_complete := m10bmc_sec_poll_complete;
  fo_cancel := m10bmc_sec_cancel;
  fo_cleanup := Some m10bmc_sec_cleanup;
|}.

(** ** Where a board has its status *)

(* drivers/fpga/intel-m10-bmc-sec-update.c:1200-1211 m10bmc_sec_n3000_rsu_status *)
Definition m10bmc_sec_n3000_rsu_status : M (bmc X) Z :=
  doorbell ← sys_read (doorbell csr);
  mret (FIELD_GET DRBL_RSU_STATUS doorbell).
(* drivers/fpga/intel-m10-bmc-sec-update.c:1213-1224 m10bmc_sec_n6000_rsu_status *)
Definition m10bmc_sec_n6000_rsu_status : M (bmc X) Z :=
  auth_result ← sys_read (auth_result csr);
  mret (FIELD_GET AUTH_RESULT_RSU_STATUS auth_result).
End Sec.
