(* ===== verification/SecUpload.v ===== *)
(** * A secure update under the image load framework

    The operations of [SecUpdate] keep the promises of [FwUploadOk] and [FwOpsSafe],
    for every flash interface that satisfies [SecFlashOk]; so the theorems of
    [ImageLoadFacts] hold of secure updates. *)
From stdpp Require Import strings.
From S2P Require Import Prelude Text Bytes M10Bmc ImageLoad ImageLoadFacts SecUpdate.

(** ** Properties of a secure update

    What the handshake does to the registers, what is staged in flash, and that the
    driver of [SecUpdate] keeps the promises the image load framework relies on, for
    every flash interface that satisfies [SecFlashOk]. *)

(** ** The handshake *)
Section Handshake.
Context `{Regmap} {X : Type} (info : intel_m10bmc_platform_info) (ops : m10bmc_sec_ops X) (tries : nat).
Implicit Types s : bmc X.

(** The status is a field of a system register, on every board. *)
Definition status_in (reg : Z) (f : field) : Prop :=
  rsu_status ops = (v ← m10bmc_sys_read info reg; mret (FIELD_GET f v)).
Context (sreg : Z) (sfld : field) (Hstatus : status_in sreg sfld).
Abbreviation csr := (csr_map info).
Abbreviation addr off := (u32 (base csr + off)).

Lemma quiet_status : Quiet True (rsu_status ops).
Proof. rewrite Hstatus. quiets. Qed.
Lemma quiet_log T d : Quiet T (log_error_regs info ops d).
Proof. pose proof quiet_status. unfold log_error_regs. quiets. Qed.
Lemma quiet_progress : Quiet True (m10bmc_sec_progress_status info ops).
Proof. pose proof quiet_status. unfold m10bmc_sec_progress_status. quiets. Qed.
Lemma quiet_check_idle : Quiet False (rsu_check_idle info ops).
Proof. pose proof quiet_log. unfold rsu_check_idle. quiets. Qed.
Lemma quiet_update_init : Quiet False (rsu_update_init info ops tries).
Proof. pose proof quiet_log. pose proof quiet_progress. unfold rsu_update_init. quiets. Qed.
Lemma quiet_wait n d : Quiet True (wait_prepared (X := X) info n d).
Proof. revert d. induction n as [|n IH]; intros d; cbn [wait_prepared]; quiets. Qed.
Lemma quiet_prog_ready : Quiet False (rsu_prog_ready info ops tries).
Proof. pose proof quiet_log. pose proof quiet_wait. unfold rsu_prog_ready. quiets. Qed.
Lemma quiet_cancel : Quiet False (rsu_cancel (X := X) info).
Proof. unfold rsu_cancel. quiets. Qed.

(** The firmware was told that the image is written, and later reported that it is
    done and well. *)
Definition write_done : reg_io :=
  RegUpdate (addr (doorbell csr)) (mask DRBL_HOST_STATUS) (FIELD_PREP DRBL_HOST_STATUS HOST_STATUS_WRITE_DONE) 0.
Definition reported_ok (l : list reg_io) : Prop :=
  ∃ l1 d v l2, l = l1 ++ [RegRead (addr (doorbell csr)) 0 d; RegRead (addr sreg) 0 v] ++ l2 ∧
    rsu_progress_done (rsu_prog d) = true ∧ rsu_status_ok (FIELD_GET sfld v) = true.
Lemma reported_app l1 l l2 : reported_ok l → reported_ok (l1 ++ l ++ l2).
Proof.
  intros (a & d & v & b & -> & Hd). exists (l1 ++ a), d, v, (b ++ l2). split; [|done]. by rewrite <- !app_assoc.
Qed.

Lemma check_complete_spec s :
  wp (rsu_check_complete info ops)
    (λ r s', ∃ l, after_io l s s' ∧ Forall plain l ∧ (r.1 = 0 → reported_ok l)) (λ _ _, False) s.
Proof.
  unfold rsu_check_complete, m10bmc_sec_progress_status. wsteps.
  assert (∀ e s', quiet s s' → e ≠ 0 →
    wp (mret (- EIO, 0)) (λ r s', ∃ l, after_io l s s' ∧ Forall plain l ∧ (r.1 = 0 → reported_ok l)) (λ _ _, False) s') as Herr.
  { intros e s' (l & Hl & Hp) _. wsteps. by exists l. }
  apply sys_read_spec; [|exact Herr]. intros d s1 H1. wsteps. rewrite Hstatus. wsteps. apply sys_read_spec.
  2: { intros e s2 H2 He. apply (Herr e); [|done]. eapply quiet_trans; [eapply quiet_after; [exact H1|by repeat constructor]|done]. }
  intros v s2 H2. wsteps. eexists. split; [exact (after_io_trans _ _ _ _ _ H1 H2)|]. split; [by repeat constructor|].
  cbn [fst]. destruct (rsu_status_ok (FIELD_GET sfld v)) eqn:Hs; cbn [negb]; [|done].
  destruct (rsu_progress_done (rsu_prog d)) eqn:Hd; [|by destruct (rsu_progress_busy _)].
  intros _. by exists [], d, v, [].
Qed.
Lemma complete_loop_spec n s :
  wp (check_complete_loop info ops n)
    (λ r s', ∃ l, after_io l s s' ∧ Forall plain l ∧ (r.1 = 0 → reported_ok l)) (λ _ _, False) s.
Proof.
  revert s. induction n as [|n IH]; intros s; cbn [check_complete_loop]; wsteps;
    (eapply wp_mono; [apply check_complete_spec| |done]); intros r s1 (l & Hl & Hp & Hr).
  - wsteps. by exists l.
  - destruct (r.1 =? - EAGAIN); [|wsteps; by exists l].
    eapply wp_mono; [apply IH| |done]. intros r2 s2 (l2 & Hl2 & Hp2 & Hr2). exists (l ++ l2).
    split; [by eapply after_io_trans|]. split; [by apply Forall_app|]. intros He.
    rewrite <- (app_nil_r l2). by apply reported_app, Hr2.
Qed.
Lemma send_data_spec s :
  wp (rsu_send_data info ops tries)
    (λ ret s', quiet s s' ∧ (ret = FW_UPLOAD_ERR_NONE → ∃ l, after_io (write_done :: l) s s' ∧ Forall plain l))
    (λ _ _, False) s.
Proof.
  unfold rsu_send_data. apply wp_bind, wp_attempt. apply sys_update_spec; [|intros; wsteps; by split].
  intros s1 H1. cbv beta iota. pose proof quiet_log. pose proof quiet_status.
  match goal with |- wpg _ _ (_ ≫= ?f) _ _ _ => assert (Quiet False (regmap_read_poll_timeout (addr (doorbell csr))
    (λ d, negb (rsu_prog d =? RSU_PROG_READY)) tries ≫= f)) as Hq by quiets end.
  eapply wp_mono; [apply Hq| |by intros ? ? []]. intros ret s2 (l & Hl & Hp). split.
  - exists (write_done :: l). split; [exact (after_io_trans [_] _ _ _ _ H1 Hl)|by constructor].
  - intros _. exists l. split; [exact (after_io_trans [_] _ _ _ _ H1 Hl)|done].
Qed.
End Handshake.

(** ** The operations under the framework *)

(** ** What an update needs of the flash

    [fl_held b]: the flash is locked for the update or not; [fl_has n]: what was
    staged last is the first [n] bytes of [data], where they belong.  Neither depends
    on the firmware state or on handshakes. *)
Class SecFlashOk `{Regmap} {X} (fbops : option (intel_m10bmc_flash_bulk_ops X)) (data : list Z) := {
  fl_held : bool → bmc X → Prop;
  fl_has : Z → bmc X → Prop;
  fl_frame (s s' : bmc X) l : bm_ext s' = bm_ext s → bm_log s' = bm_log s ++ l → Forall plain l →
    (∀ b, fl_held b s → fl_held b s') ∧ (∀ n, fl_has n s → fl_has n s');
  fl_none (s : bmc X) : fl_has 0 s;
  fl_lock (s : bmc X) : fl_held false s →
    match fbops with
    | None => fl_held true s
    | Some fb => wp (fb_lock_write fb)
        (λ _ s', fl_held true s' ∧ bmcfw_state s' = bmcfw_state s)
        (λ e s', e ≠ 0 ∧ fl_held false s' ∧ bmcfw_state s' = bmcfw_state s) s
    end;
  fl_unlock (s : bmc X) : fl_held true s →
    match fbops with
    | None => fl_held false s
    | Some fb => wp (fb_unlock_write fb)
        (λ _ s', fl_held false s' ∧ (∀ n, fl_has n s → fl_has n s') ∧ bm_log s' = bm_log s ∧
           bmcfw_state s' = bmcfw_state s) (λ _ _, False) s
    end;
  fl_write (s : bmc X) n : fl_held true s → fl_has n s → 0 ≤ n < Z.of_nat (length data) → n mod WRITE_BLOCK_SIZE = 0 →
    let size := Z.min WRITE_BLOCK_SIZE (Z.of_nat (length data) - n) in
    wp (m10bmc_sec_write fbops data n size)
      (λ _ s', fl_held true s' ∧ fl_has (n + size) s' ∧ bmcfw_state s' = bmcfw_state s)
      (λ _ s', fl_held true s' ∧ bmcfw_state s' = bmcfw_state s) s;
}.

Section Upload.
Context `{Regmap} {X : Type} (info : intel_m10bmc_platform_info)
  (fbops : option (intel_m10bmc_flash_bulk_ops X)) (ops : m10bmc_sec_ops X) (tries : nat).
Abbreviation sec := (m10bmc_sec X).
Context (data : list Z) `{!SecFlashOk fbops data} (sreg : Z) (sfld : field) (Hstatus : status_in info ops sreg sfld).
Abbreviation len := (Z.of_nat (length data)).
Implicit Types d : sec.

Lemma on_bmc_spec {A} (m : M (bmc X) A) d (Q : A → sec → Prop) E :
  wp m (λ a b, Q a (Sec _ _ b (sec_cancel_request d) (sec_async d)))
       (λ e b, E e (Sec _ _ b (sec_cancel_request d) (sec_async d))) (sec_m10bmc d) → wp (on_bmc m) Q E d.
Proof. intros Hm. apply wp_zoom. unfold wpg in Hm. by destruct (m (sec_m10bmc d)) as [[[] ?]| |]. Qed.

(** The state of the firmware, on boards that keep it. *)
Definition fw_is (st : m10bmc_fw_state) (s : bmc X) : Prop :=
  match handshake_sys_reg_ranges info with [] => True | _ => bmcfw_state s = st end.
Lemma fw_set_spec st d (Q : unit → sec → Prop) E :
  (∀ s', bm_ext s' = bm_ext (sec_m10bmc d) → bm_log s' = bm_log (sec_m10bmc d) → fw_is st s' →
     Q tt (Sec _ _ s' (sec_cancel_request d) (sec_async d))) →
  wp (on_bmc (m10bmc_fw_state_set info st)) Q E d.
Proof.
  intros HQ. apply on_bmc_spec. unfold m10bmc_fw_state_set, fw_is in *. destruct (handshake_sys_reg_ranges info); wsteps; auto.
Qed.
Lemma fw_is_eq st (s s' : bmc X) : bmcfw_state s' = bmcfw_state s → fw_is st s → fw_is st s'.
Proof. unfold fw_is. by intros ->. Qed.

(** A handshake that never fails as a call keeps lock, staged bytes and state. *)
Lemma quiet_step {A} (m : M (bmc X) A) d (Q : A → sec → Prop) E :
  Quiet False m →
  (∀ a s' l, after_io l (sec_m10bmc d) s' → Forall plain l →
     (∀ b, fl_held b (sec_m10bmc d) → fl_held b s') → (∀ n, fl_has n (sec_m10bmc d) → fl_has n s') →
     (∀ st, fw_is st (sec_m10bmc d) → fw_is st s') →
     Q a (Sec _ _ s' (sec_cancel_request d) (sec_async d))) →
  wp (on_bmc m) Q E d.
Proof.
  intros Hm HQ. apply on_bmc_spec. eapply wp_mono; [apply Hm| |by intros ? ? []].
  intros a s' (l & Hl & Hp). pose proof Hl as (He & Hf & Hlog).
  destruct (fl_frame _ _ l He Hlog Hp). eapply HQ; eauto. intros st. by apply fw_is_eq.
Qed.
(** A cancellation never counts as success. *)
Lemma cancel_spec (s : bmc X) :
  wp (rsu_cancel info) (λ ret s', quiet s s' ∧ ret ≠ FW_UPLOAD_ERR_NONE) (λ _ _, False) s.
Proof.
  eapply wp_mono; [eapply (wp_conj _ _ (λ ret _, ret ≠ FW_UPLOAD_ERR_NONE) _ (λ _ _, True));
    [apply quiet_cancel|]|done|by intros ? ? [[[] _] _]].
  unfold rsu_cancel. wsteps. apply sys_read_spec; [|intros; wsteps; done]. intros v s1 _. wsteps.
  destruct (negb _); wsteps; [done|]. apply sys_update_spec; intros; wsteps; done.
Qed.
Lemma cancel_step d (Q : fw_upload_err → sec → Prop) E :
  (∀ ret s', ret ≠ FW_UPLOAD_ERR_NONE → (∀ b, fl_held b (sec_m10bmc d) → fl_held b s') →
     (∀ st, fw_is st (sec_m10bmc d) → fw_is st s') → Q ret (Sec _ _ s' (sec_cancel_request d) (sec_async d))) →
  wp (on_bmc (rsu_cancel info)) Q E d.
Proof.
  intros HQ. apply on_bmc_spec. eapply wp_mono; [apply cancel_spec| |done].
  intros ret s' [(l & Hl & Hp) Hr]. pose proof Hl as (He & Hf & Hlog).
  destruct (fl_frame _ _ l He Hlog Hp). eapply HQ; eauto. intros st. by apply fw_is_eq.
Qed.
Lemma fw_frame s s' :
  bm_ext s' = bm_ext s → bm_log s' = bm_log s → (∀ b, fl_held b s → fl_held b s') ∧ (∀ n, fl_has n s → fl_has n s').
Proof. intros He Hl. apply (fl_frame s s' []); [done|by rewrite app_nil_r|constructor]. Qed.

Lemma requested_spec d (Q : bool → sec → Prop) E :
  (∀ b, Q b (Sec _ _ (sec_m10bmc d) b (tail (sec_async d)))) → wp cancel_requested Q E d.
Proof. intros HQ. exact (HQ _). Qed.
Lemma lock_spec d (Q : Z → sec → Prop) E :
  fl_held false (sec_m10bmc d) →
  (∀ s', fl_held true s' → bmcfw_state s' = bmcfw_state (sec_m10bmc d) →
     Q 0 (Sec _ _ s' (sec_cancel_request d) (sec_async d))) →
  (∀ e s', e ≠ 0 → fl_held false s' → bmcfw_state s' = bmcfw_state (sec_m10bmc d) →
     Q e (Sec _ _ s' (sec_cancel_request d) (sec_async d))) →
  wp (lock_flash fbops) Q E d.
Proof.
  intros Hh HQ HF. pose proof (fl_lock _ Hh) as Hl. unfold lock_flash. destruct fbops as [fb|]; wsteps.
  - apply on_bmc_spec. eapply wp_mono; [exact Hl| |].
    + intros ? s' [? ?]. by apply HQ.
    + intros e s' (?&?&?). by apply HF.
  - specialize (HQ (sec_m10bmc d) Hl eq_refl). by destruct d.
Qed.
Lemma unlock_spec d (Q : unit → sec → Prop) E :
  fl_held true (sec_m10bmc d) →
  (∀ s', fl_held false s' → (∀ n, fl_has n (sec_m10bmc d) → fl_has n s') → bm_log s' = bm_log (sec_m10bmc d) →
     bmcfw_state s' = bmcfw_state (sec_m10bmc d) → Q tt (Sec _ _ s' (sec_cancel_request d) (sec_async d))) →
  wp (unlock_flash fbops) Q E d.
Proof.
  intros Hh HQ. pose proof (fl_unlock _ Hh) as Hl. unfold unlock_flash. destruct fbops as [fb|]; wsteps.
  - apply on_bmc_spec. eapply wp_mono; [exact Hl| |done]. intros [] s' (?&?&?&?). by apply HQ.
  - specialize (HQ (sec_m10bmc d) Hl (λ _ x, x) eq_refl eq_refl). by destruct d.
Qed.

(** What the image load framework sees of the driver. *)
Definition sec_ready d : Prop := fl_held false (sec_m10bmc d) ∧ fw_is M10BMC_FW_STATE_NORMAL (sec_m10bmc d).
Definition sec_loading (n : Z) d : Prop :=
  fl_held true (sec_m10bmc d) ∧ fl_has n (sec_m10bmc d) ∧ (n mod WRITE_BLOCK_SIZE = 0 ∨ n = len).
Definition sec_failed d : Prop := fl_held true (sec_m10bmc d).
(** The image is staged, after that the firmware was told so, and after that it
    reported that it is done and well. *)
Definition committed (s : bmc X) : Prop :=
  fl_has len s ∧ ∃ s1 l, fl_has len s1 ∧ bm_log s = bm_log s1 ++ write_done info :: l ∧ Forall plain l ∧
    reported_ok info sreg sfld l.
Definition sec_complete d : Prop := fl_held true (sec_m10bmc d) ∧ committed (sec_m10bmc d).

Lemma prepare_spec d size :
  sec_ready d →
  wp (m10bmc_sec_prepare info fbops ops tries size)
    (λ ret d', if decide (ret = FW_UPLOAD_ERR_NONE) then sec_loading 0 d' else sec_ready d') (λ _ _, False) d.
Proof.
  intros [Hh Hw]. unfold m10bmc_sec_prepare, set_cancel_request. wsteps.
  destruct ((size =? 0) || _); wsteps; [by split|].
  apply lock_spec; [done| |].
  2: { intros e s' He Hl Hf. destruct (Z.eqb_spec e 0); [done|]. cbn [negb]. wsteps. split; [done|]. by eapply fw_is_eq. }
  intros s1 Hl1 Hf1. cbn [negb Z.eqb]. wsteps.
  assert (∀ ret d', fl_held true (sec_m10bmc d') → ret ≠ FW_UPLOAD_ERR_NONE →
    wp (on_bmc (m10bmc_fw_state_set info M10BMC_FW_STATE_NORMAL) ;; unlock_flash fbops ;; mret ret)
      (λ ret d', if decide (ret = FW_UPLOAD_ERR_NONE) then sec_loading 0 d' else sec_ready d') (λ _ _, False) d') as Hexit.
  { intros ret d' Hd' Hr. wsteps. apply fw_set_spec. intros s2 He2 Hl2 Hf2. wsteps. apply unlock_spec.
    - cbn. by apply (fw_frame _ _ He2 Hl2).
    - intros s3 H3 _ _ Hf3. wsteps. rewrite decide_False by done. split; [done|]. by eapply fw_is_eq. }
  apply quiet_step; [by eapply quiet_check_idle|]. intros ret s2 l2 _ _ Hk2 _ Hw2. wsteps.
  destruct (bool_decide_reflect (ret = FW_UPLOAD_ERR_NONE)) as [->|Hn]; cbn [negb].
  2: { wsteps. apply unlock_spec; [by apply Hk2|]. intros s3 H3 _ _ Hf3. wsteps. rewrite decide_False by done.
       split; [done|]. eapply fw_is_eq; [exact Hf3|]. apply Hw2. by eapply fw_is_eq. }
  wsteps. apply fw_set_spec. intros s3 He3 Hl3 _. cbn [sec_m10bmc sec_cancel_request sec_async] in *. wsteps.
  apply quiet_step; [by eapply quiet_update_init|]. intros ret s4 l4 _ _ Hk4 _ _. cbn [sec_m10bmc sec_cancel_request sec_async] in *.
  assert (fl_held true s4) as H4 by (apply Hk4, (fw_frame _ _ He3 Hl3), Hk2, Hl1).
  wsteps. destruct (bool_decide_reflect (ret = FW_UPLOAD_ERR_NONE)) as [->|Hn]; cbn [negb]; [|by apply Hexit].
  wsteps. apply quiet_step; [by eapply quiet_prog_ready|]. intros ret s5 l5 _ _ Hk5 _ _. cbn [sec_m10bmc sec_cancel_request sec_async] in *.
  wsteps. destruct (bool_decide_reflect (ret = FW_UPLOAD_ERR_NONE)) as [->|Hn]; cbn [negb]; [|apply Hexit; [by apply Hk5|done]].
  wsteps. apply requested_spec. intros [].
  { wsteps. apply cancel_step. intros ret s6 Hr Hk6 _. cbn in Hk6. cbv beta. apply Hexit; [by apply Hk6, Hk5|done]. }
  wsteps. apply fw_set_spec. intros s6 He6 Hl6 _. cbn in He6, Hl6. wsteps.
  rewrite decide_True by done. split_and!; [|apply fl_none|by left]. cbn. apply (fw_frame _ _ He6 Hl6). by apply Hk5.
Qed.

Lemma sec_write_spec d n w :
  sec_loading n d → 0 ≤ n < len →
  wp (m10bmc_sec_fw_write info fbops ops data n (len - n) w)
    (λ r d', if decide (r.1 = FW_UPLOAD_ERR_NONE)
             then 0 ≤ r.2 ≤ len - n ∧ (r.2 = 0 → sec_failed d') ∧ (0 < r.2 → sec_loading (n + r.2) d')
             else sec_failed d') (λ _ _, False) d.
Proof.
  intros (Hh & Hn & Hm) Hlen. unfold m10bmc_sec_fw_write. wsteps. apply requested_spec. intros [].
  { wsteps. apply cancel_step. intros ret s1 Hr Hk _. wsteps. cbn [fst]. rewrite decide_False by done. by apply Hk. }
  wsteps. apply on_bmc_spec. apply sys_read_spec.
  2: { intros e s1 (l & (He & _ & Hl) & Hp) _. wsteps. rewrite decide_False by done. by apply (fl_frame _ _ _ He Hl Hp). }
  intros v s1 (He & Hf & Hl). destruct (fl_frame _ _ _ He Hl ltac:(by repeat constructor)) as [Hk Hk'].
  wsteps. destruct (negb _).
  { wsteps. apply quiet_step; [by eapply quiet_log|]. intros ? s2 l2 _ _ Hk2 _ _. wsteps. rewrite decide_False by done. by apply Hk2, Hk. }
  assert (n mod WRITE_BLOCK_SIZE = 0) as Hmod by (destruct Hm; [done|lia]).
  wsteps. apply on_bmc_spec. eapply wp_mono; [apply (fl_write s1 n (Hk _ Hh) (Hk' _ Hn) Hlen Hmod)| |].
  2: { intros e s2 [H2 _]. wsteps. by rewrite decide_False. }
  intros ? s2 (H2 & H3 & _). wsteps. cbn [fst snd]. rewrite decide_True by done.
  assert (0 < WRITE_BLOCK_SIZE) as Hpos by done.
  split_and!; [lia|lia| |].
  - intros Hz. lia.
  - intros _. split_and!; [done|done|]. destruct (Z.le_gt_cases WRITE_BLOCK_SIZE (len - n)).
    + left. rewrite Z.min_l, Z.add_mod, Hmod, Z.mod_same by lia. done.
    + right. lia.
Qed.

Lemma sec_poll_spec d :
  sec_loading len d →
  wp (m10bmc_sec_poll_complete info ops tries)
    (λ ret d', if decide (ret = FW_UPLOAD_ERR_NONE) then sec_complete d' else sec_failed d') (λ _ _, False) d.
Proof.
  intros (Hh & Hn & _). unfold m10bmc_sec_poll_complete. wsteps. apply requested_spec. intros [].
  { wsteps. apply cancel_step. intros ret s1 Hr Hk _. rewrite decide_False by done. by apply Hk. }
  wsteps. apply fw_set_spec. intros s1 He1 Hl1 _. cbn [sec_m10bmc sec_cancel_request sec_async] in *. wsteps.
  destruct (fw_frame _ _ He1 Hl1) as [Hk1 Hk1']. apply on_bmc_spec. cbn [sec_m10bmc sec_cancel_request sec_async] in *.
  eapply wp_mono; [by eapply send_data_spec| |done]. intros ret s2 [(l & (He & _ & Hl) & Hp) Hok].
  destruct (fl_frame _ _ _ He Hl Hp) as [Hk2 Hk2']. wsteps.
  destruct (bool_decide_reflect (ret = FW_UPLOAD_ERR_NONE)) as [->|Hne]; cbn [negb]; wsteps.
  2: { rewrite decide_False by done. by apply Hk2, Hk1. }
  destruct (Hok eq_refl) as (l2 & (_ & _ & Hl2) & Hp2). apply on_bmc_spec. cbn [sec_m10bmc sec_cancel_request sec_async].
  eapply wp_mono; [by eapply complete_loop_spec| |done]. intros [r drbl] s3 (l3 & (He3 & _ & Hl3) & Hp3 & Hrep).
  destruct (fl_frame _ _ _ He3 Hl3 Hp3) as [Hk3 Hk3']. cbn [fst] in Hrep. wsteps.
  assert (fl_held true s3) as Hh3 by by apply Hk3, Hk2, Hk1.
  destruct (r =? - EAGAIN).
  { wsteps. apply quiet_step; [by eapply quiet_log|]. intros ? s4 l4 _ _ Hk4 _ _. wsteps. rewrite decide_False by done. by apply Hk4. }
  destruct (r =? - EIO); wsteps; [by rewrite decide_False|].
  destruct (Z.eqb_spec r 0) as [Hz|Hz]; cbn [negb]; wsteps.
  2: { apply quiet_step; [by eapply quiet_log|]. intros ? s4 l4 _ _ Hk4 _ _. wsteps. rewrite decide_False by done. by apply Hk4. }
  rewrite decide_True by done. split; [done|]. split; [by apply Hk3', Hk2', Hk1'|].
  exists s1, (l2 ++ l3). split; [by apply Hk1'|]. cbn [sec_m10bmc]. split_and!.
  - by rewrite Hl3, Hl2, <- app_assoc.
  - by apply Forall_app.
  - rewrite <- (app_nil_r l3). by apply reported_app, Hrep.
Qed.

Lemma committed_frame (s s' : bmc X) l :
  (∀ n, fl_has n s → fl_has n s') → bm_log s' = bm_log s ++ l → Forall plain l → committed s → committed s'.
Proof.
  intros Hk Hl Hp (Hn & s1 & l1 & H1 & Hl1 & Hp1 & Hr). split; [by apply Hk|]. exists s1, (l1 ++ l). split_and!; [done| | |].
  - by rewrite Hl, Hl1, <- app_assoc.
  - by apply Forall_app.
  - by apply (reported_app _ _ _ []).
Qed.
Lemma sec_cleanup_spec d :
  fl_held true (sec_m10bmc d) →
  wp (m10bmc_sec_cleanup info fbops)
    (λ _ d', sec_ready d' ∧ (committed (sec_m10bmc d) → committed (sec_m10bmc d'))) (λ _ _, False) d.
Proof.
  intros Hh. unfold m10bmc_sec_cleanup. wsteps. apply quiet_step; [apply quiet_cancel|].
  intros ret s1 l1 (_ & _ & Hl1) Hp1 Hk1 Hk1' _. wsteps. apply fw_set_spec. intros s2 He2 Hl2 Hf2.
  cbn [sec_m10bmc sec_cancel_request sec_async] in *. destruct (fw_frame _ _ He2 Hl2) as [Hk2 Hk2'].
  wsteps. apply unlock_spec; [by apply Hk2, Hk1|]. intros s3 H3 Hk3' Hl3 Hf3. cbn [sec_m10bmc sec_cancel_request sec_async] in *.
  split; [split; [done|by eapply fw_is_eq]|]. cbn [sec_m10bmc]. apply (committed_frame _ _ l1); [|by rewrite Hl3, Hl2, Hl1|done].
  intros n Hn. by apply Hk3', Hk2', Hk1'.
Qed.

#[export] Instance sec_upload_ok : FwUploadOk (m10bmc_ops info fbops ops tries) data.
Proof.
  refine {| fu_ready := sec_ready; fu_loading := sec_loading; fu_failed := sec_failed;
            fu_complete := sec_complete; fu_committed := λ d, committed (sec_m10bmc d) |}; cbn [m10bmc_ops fo_prepare fo_write fo_poll_complete fo_cleanup].
  - intros d. apply prepare_spec.
  - intros n w d. apply sec_write_spec.
  - apply sec_poll_spec.
  - intros d Hd. eapply wp_mono; [by apply sec_cleanup_spec| |done]. by intros ? d' [].
  - intros d [Hd Hc]. eapply wp_mono; [by apply sec_cleanup_spec| |done]. intros ? d' []. auto.
Defined.
End Upload.

(** ** From every state *)

(** Flash operations that return, whatever happened before. *)
Class FlashTotal `{Regmap} {X} (fbops : option (intel_m10bmc_flash_bulk_ops X)) := {
  ft_lock fb (s : bmc X) : fbops = Some fb → wp (fb_lock_write fb) (λ _ _, True) (λ _ _, True) s;
  ft_unlock fb (s : bmc X) : fbops = Some fb → wp (fb_unlock_write fb) (λ _ _, True) (λ _ _, False) s;
  ft_write data off size (s : bmc X) :
    0 ≤ off → 0 ≤ size → off + size ≤ Z.of_nat (length data) →
    wp (m10bmc_sec_write fbops data off size) (λ _ _, True) (λ _ _, True) s;
}.

Section Total.
Context `{Regmap} {X : Type} (info : intel_m10bmc_platform_info)
  (fbops : option (intel_m10bmc_flash_bulk_ops X)) (ops : m10bmc_sec_ops X) (tries : nat) `{!FlashTotal fbops}
  (sreg : Z) (sfld : field) (Hstatus : status_in info ops sreg sfld).
Abbreviation sec := (m10bmc_sec X).

(** [m] returns a value, in every state. *)
Definition total {A} (m : M sec A) : Prop := ∀ d, wp m (λ _ _, True) (λ _ _, False) d.
Lemma total_bind {A B} (m : M sec A) (f : A → M sec B) : total m → (∀ a, total (f a)) → total (m ≫= f).
Proof. intros Hm Hf d. wsteps. eapply wp_mono; [apply Hm| |done]. intros a d' _. apply Hf. Qed.
Lemma total_ret {A} (a : A) : total (mret a).
Proof. intros d. by wsteps. Qed.
Lemma total_quiet {A} (m : M (bmc X) A) : Quiet False m → total (on_bmc m).
Proof. intros Hm d. apply on_bmc_spec. eapply wp_mono; [apply Hm|done|by intros ? ? []]. Qed.
Lemma total_attempt {A} (m : M (bmc X) A) :
  (∀ s, wp m (λ _ _, True) (λ _ _, True) s) → total (attempt (on_bmc m)).
Proof. intros Hm d. wsteps. apply on_bmc_spec. eapply wp_mono; [apply Hm|done|done]. Qed.
Lemma total_fw st : total (on_bmc (m10bmc_fw_state_set info st)).
Proof. intros d. by apply fw_set_spec. Qed.
Lemma total_unlock : total (unlock_flash fbops).
Proof.
  unfold unlock_flash. pose proof ft_unlock as Hu. destruct fbops as [fb|]; [|apply total_ret].
  intros d. apply on_bmc_spec. eapply wp_mono; [by apply Hu|done|done].
Qed.
Lemma total_lock : total (lock_flash fbops).
Proof.
  unfold lock_flash. pose proof ft_lock as Hl. destruct fbops as [fb|]; [|apply total_ret].
  intros d. wsteps. apply on_bmc_spec. eapply wp_mono; [by apply Hl|done|done].
Qed.
Lemma total_requested : total cancel_requested.
Proof. intros d. by apply requested_spec. Qed.
Lemma total_set b : total (set_cancel_request b).
Proof. intros d. unfold set_cancel_request. by wsteps. Qed.
Ltac totals :=
  repeat first
    [ apply total_bind; [|intros ?] | apply total_ret | apply total_fw | apply total_unlock | apply total_lock
    | apply total_requested | apply total_set
    | apply total_quiet; first [ apply quiet_cancel | by eapply quiet_check_idle | by eapply quiet_update_init
                               | by eapply quiet_prog_ready | by eapply quiet_log ]
    | match goal with
      | |- total (if ?b then _ else _) => destruct b
      | |- total (match ?x with inl _ => _ | inr _ => _ end) => destruct x
      | |- total (let (_, _) := ?x in _) => destruct x
      end ].

#[export] Instance sec_ops_safe : FwOpsSafe (m10bmc_ops info fbops ops tries).
Proof.
  refine {| fs_inv := λ _, True |}; cbn [m10bmc_ops fo_prepare fo_write fo_poll_complete fo_cancel fo_cleanup].
  - intros data d _. revert d. unfold m10bmc_sec_prepare. totals.
  - intros data off n w d _ Ho Hn Hl. unfold m10bmc_sec_fw_write. wsteps. apply requested_spec. intros [].
    { wsteps. apply on_bmc_spec. eapply wp_mono; [apply cancel_spec| |done]. intros ret s1 [_ Hr]. wsteps. by split. }
    wsteps. apply on_bmc_spec. apply sys_read_spec; [|intros; wsteps; by split]. intros v s1 _. wsteps. destruct (negb _).
    { wsteps. apply on_bmc_spec. eapply wp_mono; [exact (quiet_log info ops sreg sfld Hstatus False v s1)| |by intros ? ? []].
      intros. wsteps. by split. }
    wsteps. apply on_bmc_spec. assert (0 < WRITE_BLOCK_SIZE) by done. eapply wp_mono; [apply ft_write; lia| |].
    + intros ? s2 _. wsteps. cbn [fst snd]. split; [done|]. lia.
    + intros e s2 _. wsteps. by split.
  - intros d _. revert d. unfold m10bmc_sec_poll_complete. totals.
    + intros d. apply on_bmc_spec. eapply wp_mono; [by eapply send_data_spec|done|done].
    + intros d. apply on_bmc_spec. eapply wp_mono; [by eapply complete_loop_spec|done|done].
  - intros d _. revert d. unfold m10bmc_sec_cancel. totals.
  - intros d m [= <-] _. revert d. unfold m10bmc_sec_cleanup. totals.
Defined.
End Total.
