(* ===== verification/SecFlash.v ===== *)
(** * Secure updates on real boards

    The two ways to stage an image, over the register map of the SPI boards and
    through the FIFO of the PMCI, satisfy [SecFlashOk] for images that are a whole
    number of words; what an upload that ends without an error has then staged. *)
From stdpp Require Import gmap gmultiset strings.
From S2P Require Import Prelude Text Bytes Mmio M10Bmc Pmci ImageLoad ImageLoadFacts SecUpdate SecUpload.

(** ** Over the register map *)

(** The bytes that an access puts into flash, with their addresses. *)
Definition staged_by (io : reg_io) : list (Z * Z) :=
  match io with
  | RegBulkWrite reg bytes 0 => zip (seqZ reg (Z.of_nat (length bytes))) bytes
  | RegWrite reg v 0 => zip (seqZ reg 4) (le_split 4 v)
  | _ => []
  end.
(** The first [n] bytes of an image at the start of the staging area. *)
Definition image_at (data : list Z) (n : Z) : list (Z * Z) :=
  zip (seqZ M10BMC_STAGING_BASE n) (take (Z.to_nat n) data).

Lemma plain_staged l : Forall plain l → l ≫= staged_by = [].
Proof. induction 1 as [|[] l Hio _ IH]; done. Qed.
Lemma image_at_app data n m :
  0 ≤ n → 0 ≤ m → n + m ≤ Z.of_nat (length data) →
  image_at data n ++ zip (seqZ (M10BMC_STAGING_BASE + n) m) (take (Z.to_nat m) (drop (Z.to_nat n) data)) = image_at data (n + m).
Proof.
  intros Hn Hm Hl. unfold image_at. rewrite seqZ_app by lia.
  pose proof (slice_app 0 (Z.to_nat n) (Z.to_nat (n + m)) data ltac:(lia)) as Hsl. rewrite drop_0, !Nat.sub_0_r in Hsl.
  replace (Z.to_nat (n + m) - Z.to_nat n)%nat with (Z.to_nat m) in Hsl by lia.
  rewrite <- Hsl, zip_with_app by (rewrite length_seqZ, length_take; lia). done.
Qed.

Section Spi.
Context `{Regmap} {X : Type} (data : list Z).
Abbreviation len := (Z.of_nat (length data)).

Lemma sec_write_spi (s : bmc X) n size :
  size mod 4 = 0 → 0 ≤ n → 0 ≤ size → n + size ≤ len → M10BMC_STAGING_BASE + len < 2 ^ 32 →
  wp (m10bmc_sec_write None data n size)
    (λ _ s', bmcfw_state s' = bmcfw_state s ∧ ∃ l, bm_log s' = bm_log s ++ l ∧
       l ≫= staged_by = zip (seqZ (M10BMC_STAGING_BASE + n) size) (take (Z.to_nat size) (drop (Z.to_nat n) data)))
    (λ _ s', bmcfw_state s' = bmcfw_state s) s.
Proof.
  intros Hm Hn Hs Hl H32. unfold m10bmc_sec_write. change reg_stride with 4.
  assert (size / 4 * 4 = size) as Hd by (pose proof (Z.div_mod size 4); lia). rewrite Hd.
  wsteps. apply wp_access; [|rewrite slice_Some by lia; done]. rewrite slice_Some by lia. intros part [= <-].
  set (part := take _ _). assert (Z.of_nat (length part) = size) as Hp by (unfold part; rewrite length_take, length_drop; lia).
  wsteps. unfold wpg at 1, regmap_bulk_write. destruct (rm_bulk_write _ part (bm_map s)) as [ret d].
  destruct (Z.eqb_spec ret 0) as [->|Hne]; [|done]. rewrite Z.sub_diag. cbn [Z.eqb negb]. wsteps. split; [done|].
  eexists. split; [done|]. cbn. rewrite Hp, app_nil_r. unfold M10BMC_STAGING_BASE in *. by width_norm.
Qed.

(** The image must be a whole number of words, and fit. *)
Lemma spi_flash_ok :
  len mod 4 = 0 → M10BMC_STAGING_BASE + len < 2 ^ 32 → SecFlashOk (X := X) None data.
Proof.
  intros Hm H32.
  refine {| fl_held := λ _ _, True;
            fl_has := λ n s, ∃ pre l, bm_log s = pre ++ l ∧ l ≫= staged_by = image_at data n |}.
  - intros s s' l _ Hl Hp. split; [done|]. intros n (pre & l0 & Hs & Hst). exists pre, (l0 ++ l).
    split; [by rewrite Hl, Hs, app_assoc|]. by rewrite bind_app, Hst, plain_staged, app_nil_r.
  - intros s. exists (bm_log s), []. split; [by rewrite app_nil_r|done].
  - done.
  - done.
  - intros s n _ (pre & l & Hs & Hst) Hn Hb size.
    assert (n mod 4 = 0) as Hn4.
    { apply Z.div_exact in Hb; [|done]. rewrite Hb. change WRITE_BLOCK_SIZE with (4 * 4096).
      rewrite <- Z.mul_assoc, Z.mul_comm. by apply Z.mod_mul. }
    assert (size mod 4 = 0) as Hs4.
    { unfold size. change WRITE_BLOCK_SIZE with 16384. destruct (Z.min_spec 16384 (len - n)) as [[_ ->]|[_ ->]]; [done|].
      by rewrite Zminus_mod, Hm, Hn4. }
    assert (0 ≤ size ∧ n + size ≤ len) as [? ?] by (unfold size; change WRITE_BLOCK_SIZE with 16384; lia).
    eapply wp_mono; [apply sec_write_spi; (done || lia)| |].
    + intros ? s1 (Hf & l1 & Hl1 & Hst1). split_and!; [done| |done]. exists pre, (l ++ l1).
      split; [by rewrite Hl1, Hs, app_assoc|]. rewrite bind_app, Hst, Hst1. apply image_at_app; lia.
    + intros e s1 Hf. done.
Defined.
End Spi.

(** ** Through the PMCI *)
Section PmciFlash.
Context `{Regmap} `{MmioHw} (tries : nat) (data : list Z).
Abbreviation len := (Z.of_nat (length data)).
Abbreviation pmci := (bmc m10bmc_pmci_device).

Definition fifo_has (n : Z) (s : pmci) : Prop :=
  ∃ pre l, mm_log (pmci_mm (bm_ext s)) = pre ++ l ∧ l ≫= fifo_in (pmci_base (bm_ext s)) = take (Z.to_nat n) data.

Lemma fifo_has_ext n (s s' : pmci) :
  pmci_mm (bm_ext s') = pmci_mm (bm_ext s) → pmci_base (bm_ext s') = pmci_base (bm_ext s) → fifo_has n s → fifo_has n s'.
Proof. unfold fifo_has. by intros -> ->. Qed.

Lemma pmci_flash_ok :
  len mod 4 = 0 → Forall is_u8 data → SecFlashOk (Some (m10bmc_pmci_flash_bulk_ops tries)) data.
Proof.
  intros Hm H8.
  refine {| fl_held := λ b (s : pmci), flash_busy (bm_ext s) = b; fl_has := fifo_has |}.
  - intros s s' l He _ _. split; [by rewrite He|]. intros n. apply fifo_has_ext; by rewrite He.
  - intros s. exists (mm_log (pmci_mm (bm_ext s))), []. split; [by rewrite app_nil_r|done].
  - intros s Hs. cbn [m10bmc_pmci_flash_bulk_ops fb_lock_write]. unfold m10bmc_pmci_flash_lock, set_flash_busy. wsteps.
    rewrite Hs. wsteps. done.
  - intros s Hs. cbn [m10bmc_pmci_flash_bulk_ops fb_unlock_write]. unfold m10bmc_pmci_flash_unlock, set_flash_busy. wsteps.
    split_and!; [done| |done|done]. intros n. by apply fifo_has_ext.
  - intros s n Hs (pre & l & Hpre & Hl) Hn Hb size. cbn [m10bmc_sec_write m10bmc_pmci_flash_bulk_ops fb_write].
    assert (n mod 4 = 0) as Hn4.
    { apply Z.div_exact in Hb; [|done]. rewrite Hb. change WRITE_BLOCK_SIZE with (4 * 4096).
      rewrite <- Z.mul_assoc, Z.mul_comm. by apply Z.mod_mul. }
    assert (size mod 4 = 0) as Hs4.
    { unfold size. change WRITE_BLOCK_SIZE with 16384. destruct (Z.min_spec 16384 (len - n)) as [[_ ->]|[_ ->]]; [done|].
      by rewrite Zminus_mod, Hm, Hn4. }
    assert (0 ≤ size ∧ n + size ≤ len) as [? ?] by (unfold size; change WRITE_BLOCK_SIZE with 16384; lia).
    eapply wp_mono; [apply flash_write_spec; (done || lia)| |].
    + intros ? s1 (l1 & (_&_&Hf&Hbase&Hbusy&Hlog) & Hl1). split_and!; [congruence| |done].
      exists pre, (l ++ l1). rewrite Hbase. split; [by rewrite Hlog, Hpre, app_assoc|]. rewrite bind_app, Hl, Hl1.
      pose proof (slice_app 0 (Z.to_nat n) (Z.to_nat (n + size)) data ltac:(lia)) as Hsl. rewrite drop_0, !Nat.sub_0_r in Hsl.
      by replace (Z.to_nat (n + size) - Z.to_nat n)%nat with (Z.to_nat size) in Hsl by lia.
    + intros e s1 (_ & l1 & (_&_&Hf&_&Hbusy&_)). split; congruence.
Defined.
(** The operations with a check: writing, or unlocking, a flash that is not locked is a fault. *)
Definition when_locked (fb : intel_m10bmc_flash_bulk_ops m10bmc_pmci_device) : intel_m10bmc_flash_bulk_ops m10bmc_pmci_device := {|
  fb_read := fb_read fb;
  fb_write buf off size := s ← get; if flash_busy (bm_ext s) then fb_write fb buf off size else fault;
  fb_lock_write := fb_lock_write fb;
  fb_unlock_write := s ← get; if flash_busy (bm_ext s) then fb_unlock_write fb else fault;
|}.
(** The check is passed by operations that are called as [SecFlashOk] has them called. *)
Lemma when_locked_ok fb (Hfl : SecFlashOk (Some fb) data) :
  (∀ b (s : pmci), fl_held b s → flash_busy (bm_ext s) = b) → SecFlashOk (Some (when_locked fb)) data.
Proof.
  intros Hb. refine {| fl_held := fl_held (SecFlashOk := Hfl); fl_has := fl_has (SecFlashOk := Hfl) |}.
  - apply fl_frame.
  - apply fl_none.
  - exact (fl_lock (SecFlashOk := Hfl)).
  - intros s Hs. cbn [when_locked fb_unlock_write]. wsteps. rewrite (Hb _ _ Hs). exact (fl_unlock (SecFlashOk := Hfl) s Hs).
  - intros s n Hs Hn Hl Hm. cbn [m10bmc_sec_write when_locked fb_write]. wsteps. rewrite (Hb _ _ Hs). exact (fl_write (SecFlashOk := Hfl) s n Hs Hn Hl Hm).
Defined.
End PmciFlash.

(** ** Both return, for images of any size *)
#[export] Instance spi_flash_total `{Regmap} {X} : FlashTotal (X := X) None.
Proof.
  split; [done|done|]. intros data off size s Ho Hs Hl. unfold m10bmc_sec_write. change reg_stride with 4.
  pose proof (Z.div_mod size 4 ltac:(done)). pose proof (Z.mod_pos_bound size 4 ltac:(done)).
  wsteps. apply wp_access; [|rewrite slice_Some by lia; done]. intros part _. wsteps.
  unfold wpg at 1, regmap_bulk_write. destruct (rm_bulk_write _ part (bm_map s)) as [ret d].
  destruct (ret =? 0); [|done]. destruct (negb _); wsteps; [|done].
  apply wp_access; [|rewrite slice_Some by lia; done]. intros part2 _. wsteps.
  unfold wpg at 1, regmap_write. destruct (rm_write _ _ _) as [ret2 d2]. by destruct (ret2 =? 0).
Qed.
#[export] Instance pmci_flash_total `{Regmap} `{MmioHw} tries : FlashTotal (Some (m10bmc_pmci_flash_bulk_ops tries)).
Proof.
  split.
  - intros fb s [= <-]. cbn. unfold m10bmc_pmci_flash_lock, set_flash_busy. wsteps. by destruct (flash_busy _); wsteps.
  - intros fb s [= <-]. cbn. unfold m10bmc_pmci_flash_unlock, set_flash_busy. by wsteps.
  - intros data off size s. cbn [m10bmc_sec_write m10bmc_pmci_flash_bulk_ops fb_write]. apply flash_write_total.
Qed.

(** ** Whole uploads *)
Section Whole.
Context `{Regmap} `{ImgKernel}.

(** C6: a secure update over SPI.  User space asks an idle device for the upload of an
    image that is a whole number of words; every register access may fail, the
    firmware may answer anything or nothing, and a user may ask to cancel at any time.
    The upload ends, with the eventfd signalled once, everything given back and the
    firmware marked as available again; and when the status then shows no error, then
    the bytes of the image were put into the staging area, each once and at its
    place, after that the firmware was told that the image is written, and after that
    it reported to be done with a good status. *)
Theorem spi_update_exact {X} info (ops : m10bmc_sec_ops X) tries data sreg sfld wb user fuel
    (s : fpga_image_load (m10bmc_sec X)) :
  status_in info ops sreg sfld → Z.of_nat (length data) mod 4 = 0 →
  M10BMC_STAGING_BASE + Z.of_nat (length data) < 2 ^ 32 → (length data + 7 ≤ fuel)%nat →
  idle s → fw_is info M10BMC_FW_STATE_NORMAL (sec_m10bmc (il_dd s)) →
  user (wb_buf wb) (wb_size wb) = Some data → wb_size wb = Z.of_nat (length data) →
  wp (fpga_image_load_ioctl_write (Some wb) user ;; set_queued false ;; fw_upload_main (m10bmc_ops info None ops tries) fuel)
    (λ _ s', idle s' ∧ fw_is info M10BMC_FW_STATE_NORMAL (sec_m10bmc (il_dd s')) ∧
       (∃ c, il_signals s' = il_signals s ++ [c]) ∧
       (fw_err_code (il_fwlp s') = FW_UPLOAD_ERR_NONE →
        ∃ l1 l2 l3, bm_log (sec_m10bmc (il_dd s')) = l1 ++ l2 ++ write_done info :: l3 ∧
          l2 ≫= staged_by = image_at data (Z.of_nat (length data)) ∧ l3 ≫= staged_by = [] ∧
          reported_ok info sreg sfld l3))
    (λ _ s', idle s' ∧ il_dd s' = il_dd s ∧ il_signals s' = il_signals s) s.
Proof.
  intros Hst Hm H32 Hf Hi Hfw Hu Hw. set (Hfl := spi_flash_ok (X := X) data Hm H32).
  set (Hup := sec_upload_ok info None ops tries data sreg sfld Hst).
  assert (0 < M10BMC_STAGING_BASE) as Hbase by done.
  wsteps. eapply wp_mono; [apply ImageLoadFacts.write_spec, Hi| |].
  - intros ? s1 (w & dat & c & [= <-] & Hu' & Hl & _ & He & Hn & _ & _ & Hd & Hs).
    assert (dat = data) as -> by congruence. unfold set_queued. wsteps.
    eapply wp_mono; [apply (main_spec _ data fuel c); try done| |done].
    + unfold is_u32. lia.
    + cbn. rewrite Hd. by split.
    + cbn. congruence.
    + intros ? s2 (H1 & _ & Hsg & [_ Hfw2] & Hok). split_and!; [done|done|exists c; by rewrite Hsg, <- Hs|].
      intros Hnone. destruct (Hok Hnone) as (_ & _ & s3 & l & (pre & l0 & Hs3 & Hst3) & Hlog & Hp & Hrep).
      exists pre, l0, l. split_and!; [by rewrite Hlog, Hs3, <- app_assoc|done|by apply plain_staged|done].
  - intros e s1 (?&_&_&?&?). by split_and!.
Qed.

(** Flash operations that lock with [flash_busy] and put what they write into the FIFO. *)
Lemma pmci_update_with `{MmioHw} fb info (ops : m10bmc_sec_ops m10bmc_pmci_device) tries data sreg sfld wb user fuel
    (s : fpga_image_load (m10bmc_sec m10bmc_pmci_device)) (Hfl : SecFlashOk (Some fb) data) :
  (∀ b (d : bmc m10bmc_pmci_device), fl_held b d ↔ flash_busy (bm_ext d) = b) → (∀ n d, fl_has n d → fifo_has data n d) →
  status_in info ops sreg sfld → Z.of_nat (length data) mod 4 = 0 → Forall is_u8 data →
  is_u32 (Z.of_nat (length data)) → (length data + 7 ≤ fuel)%nat →
  idle s → fw_is info M10BMC_FW_STATE_NORMAL (sec_m10bmc (il_dd s)) → flash_busy (bm_ext (sec_m10bmc (il_dd s))) = false →
  user (wb_buf wb) (wb_size wb) = Some data → wb_size wb = Z.of_nat (length data) →
  wp (fpga_image_load_ioctl_write (Some wb) user ;; set_queued false ;; fw_upload_main (m10bmc_ops info (Some fb) ops tries) fuel)
    (λ _ s', let b := sec_m10bmc (il_dd s') in
       idle s' ∧ fw_is info M10BMC_FW_STATE_NORMAL b ∧ flash_busy (bm_ext b) = false ∧
       (∃ c, il_signals s' = il_signals s ++ [c]) ∧
       (fw_err_code (il_fwlp s') = FW_UPLOAD_ERR_NONE →
        (∃ l1 l2, mm_log (pmci_mm (bm_ext b)) = l1 ++ l2 ∧ l2 ≫= fifo_in (pmci_base (bm_ext b)) = data) ∧
        ∃ l1 l2, bm_log b = l1 ++ write_done info :: l2 ∧ reported_ok info sreg sfld l2))
    (λ _ s', idle s' ∧ il_dd s' = il_dd s ∧ il_signals s' = il_signals s) s.
Proof.
  intros Hheld Hhas Hst Hm H8 H32 Hf Hi Hfw Hbusy Hu Hw.
  set (Hup := sec_upload_ok info (Some fb) ops tries data sreg sfld Hst).
  wsteps. eapply wp_mono; [apply ImageLoadFacts.write_spec, Hi| |].
  - intros ? s1 (w & dat & c & [= <-] & Hu' & Hl & _ & He & Hn & _ & _ & Hd & Hs).
    assert (dat = data) as -> by congruence. unfold set_queued. wsteps.
    eapply wp_mono; [apply (main_spec _ data fuel c); try done| |done].
    + cbn. rewrite Hd. split; [by apply Hheld|done].
    + cbn. congruence.
    + intros ? s2 (H1' & _ & Hsg & [Hb2 Hfw2] & Hok). split_and!; [done|done|by apply Hheld|exists c; by rewrite Hsg, <- Hs|].
      intros Hnone. destruct (Hok Hnone) as (_ & Hall & s3 & l & _ & Hlog & _ & Hrep). apply Hhas in Hall as (pre & l0 & Hpre & Hl0). split.
      * exists pre, l0. split; [done|]. by rewrite Hl0, Nat2Z.id, take_ge by done.
      * by exists (bm_log s3), l.
  - intros e s1 (?&_&_&?&?). by split_and!.
Qed.

(** C7: a secure update of a board behind the PMCI, for an image that is a whole
    number of words.  The flash is locked whenever it is written and whenever it is
    unlocked: the update does not fault, also with flash operations that check this
    and fault when it is not so, and what follows holds of both.  At the end the
    flash is unlocked in every case; the upload ends as the one over SPI does, and
    when the status shows no error, the bytes that went into the FIFO last are
    exactly the image, with nothing left out and nothing between them, and the
    firmware reported success after it was told that all is written. *)
Theorem pmci_update_exact `{MmioHw} fb info (ops : m10bmc_sec_ops m10bmc_pmci_device) tries data sreg sfld wb user fuel
    (s : fpga_image_load (m10bmc_sec m10bmc_pmci_device)) :
  fb = m10bmc_pmci_flash_bulk_ops tries ∨ fb = when_locked (m10bmc_pmci_flash_bulk_ops tries) →
  status_in info ops sreg sfld → Z.of_nat (length data) mod 4 = 0 → Forall is_u8 data →
  is_u32 (Z.of_nat (length data)) → (length data + 7 ≤ fuel)%nat →
  idle s → fw_is info M10BMC_FW_STATE_NORMAL (sec_m10bmc (il_dd s)) → flash_busy (bm_ext (sec_m10bmc (il_dd s))) = false →
  user (wb_buf wb) (wb_size wb) = Some data → wb_size wb = Z.of_nat (length data) →
  wp (fpga_image_load_ioctl_write (Some wb) user ;; set_queued false ;; fw_upload_main (m10bmc_ops info (Some fb) ops tries) fuel)
    (λ _ s', let b := sec_m10bmc (il_dd s') in
       idle s' ∧ fw_is info M10BMC_FW_STATE_NORMAL b ∧ flash_busy (bm_ext b) = false ∧
       (∃ c, il_signals s' = il_signals s ++ [c]) ∧
       (fw_err_code (il_fwlp s') = FW_UPLOAD_ERR_NONE →
        (∃ l1 l2, mm_log (pmci_mm (bm_ext b)) = l1 ++ l2 ∧ l2 ≫= fifo_in (pmci_base (bm_ext b)) = data) ∧
        ∃ l1 l2, bm_log b = l1 ++ write_done info :: l2 ∧ reported_ok info sreg sfld l2))
    (λ _ s', idle s' ∧ il_dd s' = il_dd s ∧ il_signals s' = il_signals s) s.
Proof.
  intros Hfb Hst Hm H8. set (Hfl := pmci_flash_ok tries data Hm H8).
  destruct Hfb as [-> | ->]; [apply (pmci_update_with _ _ _ _ _ _ _ _ _ _ _ Hfl)|apply (pmci_update_with _ _ _ _ _ _ _ _ _ _ _ (when_locked_ok _ _ Hfl ltac:(done)))]; done.
Qed.
End Whole.
