(* ===== verification/SecImages.v ===== *)
(** * Images of a card (drivers/fpga/intel-m10-bmc-sec-update.c)

    The attributes of the secure update driver beside the update itself: which image
    is loaded now and which one when the card is powered on, the hashes of the root
    keys, the canceled signing keys, the count of flash updates. *)
From Stdlib Require Import Ascii String.
From stdpp Require Import strings list sets.
From S2P Require Import Prelude Text Bytes M10Bmc ImageLoad SecUpdate SecUpload.

(* include/linux/mfd/intel-m10-bmc.h:44-44 M10BMC_PKVL_POLL_CTRL *)
Definition M10BMC_PKVL_POLL_CTRL : Z := 0x80.
(* include/linux/mfd/intel-m10-bmc.h:45-45 M10BMC_PKVL_A_PRELOAD *)
Definition M10BMC_PKVL_A_PRELOAD : field := BIT_ULL 16.
(* include/linux/mfd/intel-m10-bmc.h:46-46 M10BMC_PKVL_A_PRELOAD_TO *)
Definition M10BMC_PKVL_A_PRELOAD_TO : field := BIT_ULL 17.
(* include/linux/mfd/intel-m10-bmc.h:47-47 M10BMC_PKVL_A_DATA_TOO_BIG *)
Definition M10BMC_PKVL_A_DATA_TOO_BIG : field := BIT_ULL 18.
(* include/linux/mfd/intel-m10-bmc.h:48-48 M10BMC_PKVL_A_HDR_CKSUM *)
Definition M10BMC_PKVL_A_HDR_CKSUM : field := BIT_ULL 20.
(* include/linux/mfd/intel-m10-bmc.h:49-49 M10BMC_PKVL_B_PRELOAD *)
Definition M10BMC_PKVL_B_PRELOAD : field := BIT_ULL 24.
(* include/linux/mfd/intel-m10-bmc.h:50-50 M10BMC_PKVL_B_PRELOAD_TO *)
Definition M10BMC_PKVL_B_PRELOAD_TO : field := BIT_ULL 25.
(* include/linux/mfd/intel-m10-bmc.h:51-51 M10BMC_PKVL_B_DATA_TOO_BIG *)
Definition M10BMC_PKVL_B_DATA_TOO_BIG : field := BIT_ULL 26.
(* include/linux/mfd/intel-m10-bmc.h:52-52 M10BMC_PKVL_B_HDR_CKSUM *)
Definition M10BMC_PKVL_B_HDR_CKSUM : field := BIT_ULL 28.
(* include/linux/mfd/intel-m10-bmc.h:74-74 M10BMC_PMCI_FPGA_CONF_STS *)
Definition M10BMC_PMCI_FPGA_CONF_STS : Z := 0xa0.
(* include/linux/mfd/intel-m10-bmc.h:75-75 PMCI_FPGA_BOOT_PAGE *)
Definition PMCI_FPGA_BOOT_PAGE : field := GENMASK_ULL 2 0.
(* include/linux/mfd/intel-m10-bmc.h:76-76 PMCI_FPGA_CONFIGED *)
Definition PMCI_FPGA_CONFIGED : field := BIT_ULL 3.
(* include/linux/mfd/intel-m10-bmc.h:78-78 M10BMC_PMCI_FPGA_POC *)
Definition M10BMC_PMCI_FPGA_POC : Z := 0x0b0.
(* include/linux/mfd/intel-m10-bmc.h:79-79 PMCI_FPGA_POC *)
Definition PMCI_FPGA_POC : field := BIT_ULL 0.
(* include/linux/mfd/intel-m10-bmc.h:81-81 PMCI_NIOS_STATUS *)
Definition PMCI_NIOS_STATUS : field := GENMASK_ULL 5 4.
(* include/linux/mfd/intel-m10-bmc.h:83-83 NIOS_STATUS_SUCCESS *)
Definition NIOS_STATUS_SUCCESS : Z := 1.
(* include/linux/mfd/intel-m10-bmc.h:85-85 PMCI_USER_IMAGE_PAGE *)
Definition PMCI_USER_IMAGE_PAGE : field := GENMASK_ULL 10 8.
(* include/linux/mfd/intel-m10-bmc.h:86-86 POC_USER_IMAGE_1 *)
Definition POC_USER_IMAGE_1 : Z := 1.
(* include/linux/mfd/intel-m10-bmc.h:87-87 POC_USER_IMAGE_2 *)
Definition POC_USER_IMAGE_2 : Z := 2.
(* include/linux/mfd/intel-m10-bmc.h:88-88 PMCI_FACTORY_IMAGE_SEL *)
Definition PMCI_FACTORY_IMAGE_SEL : field := BIT_ULL 31.
(* include/linux/mfd/intel-m10-bmc.h:90-90 M10BMC_PMCI_FPGA_POC_STS_BL *)
Definition M10BMC_PMCI_FPGA_POC_STS_BL : Z := 0x0b4.
(* include/linux/mfd/intel-m10-bmc.h:108-108 DRBL_PKVL_EEPROM_LOAD_SEC *)
Definition DRBL_PKVL_EEPROM_LOAD_SEC : field := BIT_ULL 24.
(* include/linux/mfd/intel-m10-bmc.h:111-111 DRBL_CONFIG_SEL *)
Definition DRBL_CONFIG_SEL : field := BIT_ULL 28.
(* include/linux/mfd/intel-m10-bmc.h:112-112 DRBL_REBOOT_REQ *)
Definition DRBL_REBOOT_REQ : field := BIT_ULL 29.
(* include/linux/mfd/intel-m10-bmc.h:113-113 DRBL_REBOOT_DISABLED *)
Definition DRBL_REBOOT_DISABLED : field := BIT_ULL 30.
(* include/linux/mfd/intel-m10-bmc.h:124-124 RSU_PROG_PKVL_PROM_DONE *)
Definition RSU_PROG_PKVL_PROM_DONE : Z := 0x9.
(* include/linux/mfd/intel-m10-bmc.h:132-132 RSU_STAT_PKVL_REJECT *)
Definition RSU_STAT_PKVL_REJECT : Z := 0x5.
(* include/linux/mfd/intel-m10-bmc.h:209-209 M10BMC_PMCI_FPGA_RECONF *)
Definition M10BMC_PMCI_FPGA_RECONF : Z := 0x0b8.
(* include/linux/mfd/intel-m10-bmc.h:210-210 PMCI_FPGA_RECONF_PAGE *)
Definition PMCI_FPGA_RECONF_PAGE : field := GENMASK_ULL 22 20.
(* include/linux/mfd/intel-m10-bmc.h:211-211 PMCI_FPGA_RP_LOAD *)
Definition PMCI_FPGA_RP_LOAD : field := BIT_ULL 23.
(* include/linux/mfd/intel-m10-bmc.h:213-213 M10BMC_PMCI_MAX10_RECONF *)
Definition M10BMC_PMCI_MAX10_RECONF : Z := 0x0fc.
(* include/linux/mfd/intel-m10-bmc.h:214-214 PMCI_MAX10_REBOOT_REQ *)
Definition PMCI_MAX10_REBOOT_REQ : field := BIT_ULL 0.
(* include/linux/mfd/intel-m10-bmc.h:215-215 PMCI_MAX10_REBOOT_PAGE *)
Definition PMCI_MAX10_REBOOT_PAGE : field := BIT_ULL 1.
(* include/linux/mfd/intel-m10-bmc.h:222-222 PMCI_DRBL_REBOOT_DISABLED *)
Definition PMCI_DRBL_REBOOT_DISABLED : field := BIT_ULL 1.
(* include/linux/mfd/intel-m10-bmc.h:227-227 M10BMC_PMCI_SDM_SR_CTRL_STS *)
Definition M10BMC_PMCI_SDM_SR_CTRL_STS : Z := 0x230.
(* include/linux/mfd/intel-m10-bmc.h:228-228 PMCI_SDM_SR_IMG_REQ *)
Definition PMCI_SDM_SR_IMG_REQ : field := BIT_ULL 0.
(* include/linux/mfd/intel-m10-bmc.h:229-229 PMCI_SDM_SR_PGM_ERROR *)
Definition PMCI_SDM_SR_PGM_ERROR : field := GENMASK_ULL 23 16.
(* include/linux/mfd/intel-m10-bmc.h:231-231 M10BMC_PMCI_SDM_CTRL *)
Definition M10BMC_PMCI_SDM_CTRL : Z := 0x234.
(* include/linux/mfd/intel-m10-bmc.h:232-232 SDM_CMD_TRIGGER *)
Definition SDM_CMD_TRIGGER : field := BIT_ULL 0.
(* include/linux/mfd/intel-m10-bmc.h:233-233 SDM_CMD_DONE *)
Definition SDM_CMD_DONE : field := BIT_ULL 2.
(* include/linux/mfd/intel-m10-bmc.h:234-234 SDM_CMD_SELECT *)
Definition SDM_CMD_SELECT : field := GENMASK_ULL 11 4.
(* include/linux/mfd/intel-m10-bmc.h:235-235 SDM_CMD_PROV_DATA *)
Definition SDM_CMD_PROV_DATA : Z := 0x3.
(* include/linux/mfd/intel-m10-bmc.h:236-236 SDM_CMD_STATUS *)
Definition SDM_CMD_STATUS : field := GENMASK_ULL 15 12.
(* include/linux/mfd/intel-m10-bmc.h:238-238 SDM_CMD_STATUS_IDLE *)
Definition SDM_CMD_STATUS_IDLE : Z := 0x0.
(* include/linux/mfd/intel-m10-bmc.h:239-239 SDM_CMD_ERROR *)
Definition SDM_CMD_ERROR : field := GENMASK_ULL 23 16.
(* include/linux/mfd/intel-m10-bmc.h:241-241 SDM_CMD_SUCC *)
Definition SDM_CMD_SUCC : Z := 0x0.
(* include/linux/mfd/intel-m10-bmc.h:243-243 M10BMC_PMCI_SDM_PR_CTRL_STS *)
Definition M10BMC_PMCI_SDM_PR_CTRL_STS : Z := 0x238.
(* include/linux/mfd/intel-m10-bmc.h:244-244 PMCI_SDM_PR_IMG_REQ *)
Definition PMCI_SDM_PR_IMG_REQ : field := BIT_ULL 0.
(* include/linux/mfd/intel-m10-bmc.h:245-245 PMCI_SDM_PR_PGM_ERROR *)
Definition PMCI_SDM_PR_PGM_ERROR : field := GENMASK_ULL 23 16.
(* include/linux/mfd/intel-m10-bmc.h:247-247 M10BMC_PMCI_SDM_SR_CNCL_CTRL_STS *)
Definition M10BMC_PMCI_SDM_SR_CNCL_CTRL_STS : Z := 0x23c.
(* include/linux/mfd/intel-m10-bmc.h:248-248 PMCI_SDM_SR_CNCL_REQ *)
Definition PMCI_SDM_SR_CNCL_REQ : field := BIT_ULL 0.
(* include/linux/mfd/intel-m10-bmc.h:249-249 PMCI_SDM_SR_CNCL_ERROR *)
Definition PMCI_SDM_SR_CNCL_ERROR : field := GENMASK_ULL 18 8.
(* include/linux/mfd/intel-m10-bmc.h:251-251 M10BMC_PMCI_SDM_PR_CNCL_CTRL_STS *)
Definition M10BMC_PMCI_SDM_PR_CNCL_CTRL_STS : Z := 0x240.
(* include/linux/mfd/intel-m10-bmc.h:252-252 PMCI_SDM_PR_CNCL_REQ *)
Definition PMCI_SDM_PR_CNCL_REQ : field := BIT_ULL 0.
(* include/linux/mfd/intel-m10-bmc.h:253-253 PMCI_SDM_PR_CNCL_ERROR *)
Definition PMCI_SDM_PR_CNCL_ERROR : field := GENMASK_ULL 18 8.
(* include/linux/mfd/intel-m10-bmc.h:54-54 M10BMC_PKVL_PRELOAD *)
Definition M10BMC_PKVL_PRELOAD : Z := Z.lor (mask M10BMC_PKVL_A_PRELOAD) (mask M10BMC_PKVL_B_PRELOAD).
(* include/linux/mfd/intel-m10-bmc.h:55-56 M10BMC_PKVL_PRELOAD_TIMEOUT *)
Definition M10BMC_PKVL_PRELOAD_TIMEOUT : Z := Z.lor (mask M10BMC_PKVL_A_PRELOAD_TO) (mask M10BMC_PKVL_B_PRELOAD_TO).
(* include/linux/mfd/intel-m10-bmc.h:57-58 M10BMC_PKVL_DATA_TOO_BIG *)
Definition M10BMC_PKVL_DATA_TOO_BIG : Z := Z.lor (mask M10BMC_PKVL_A_DATA_TOO_BIG) (mask M10BMC_PKVL_B_DATA_TOO_BIG).
(* include/linux/mfd/intel-m10-bmc.h:59-60 M10BMC_PKVL_HDR_CHECKSUM *)
Definition M10BMC_PKVL_HDR_CHECKSUM : Z := Z.lor (mask M10BMC_PKVL_A_HDR_CKSUM) (mask M10BMC_PKVL_B_HDR_CKSUM).
(* include/linux/mfd/intel-m10-bmc.h:62-63 M10BMC_PKVL_UPG_STATUS_MASK *)
Definition M10BMC_PKVL_UPG_STATUS_MASK : Z :=
  Z.lor (Z.lor (Z.lor M10BMC_PKVL_PRELOAD M10BMC_PKVL_PRELOAD_TIMEOUT) M10BMC_PKVL_DATA_TOO_BIG) M10BMC_PKVL_HDR_CHECKSUM.
(* include/linux/mfd/intel-m10-bmc.h:64-64 M10BMC_PKVL_UPG_STATUS_GOOD *)
Definition M10BMC_PKVL_UPG_STATUS_GOOD : Z := Z.lor M10BMC_PKVL_PRELOAD M10BMC_PKVL_HDR_CHECKSUM.
(* include/linux/mfd/intel-m10-bmc.h:237-237 sdm_status *)
Definition sdm_status (cmd : Z) : Z := FIELD_GET SDM_CMD_STATUS cmd.
(* include/linux/mfd/intel-m10-bmc.h:240-240 sdm_error *)
Definition sdm_error (cmd : Z) : Z := FIELD_GET SDM_CMD_ERROR cmd.

(* drivers/fpga/intel-m10-bmc-sec-update.c:35-39 fpga_image_names *)
Definition fpga_image_names (i : fpga_image) : text :=
  match i with
  | FPGA_FACTORY => lit "fpga_factory"
  | FPGA_USER1 => lit "fpga_user1"
  | FPGA_USER2 => lit "fpga_user2"
  | FPGA_MAX => []
  end.
(** The number of an enumerator. *)
Definition image_no (i : fpga_image) : Z :=
  match i with FPGA_FACTORY => 0 | FPGA_USER1 => 1 | FPGA_USER2 => 2 | FPGA_MAX => 3 end.
Definition all_images : list fpga_image := [FPGA_FACTORY; FPGA_USER1; FPGA_USER2].
Definition PAGE_SIZE : Z := 4096.
Definition ECANCELED : Z := 125.

(* drivers/fpga/intel-m10-bmc-sec-update.c:930-940 fpga_image_by_name *)
Definition fpga_image_by_name (image_name : text) : fpga_image :=
  match filter (λ i, sysfs_streq image_name (fpga_image_names i) = true) all_images with
  | i :: _ => i
  | [] => FPGA_MAX
  end.

Section Images.
Context `{Regmap} {X : Type} (info : intel_m10bmc_platform_info)
  (fbops : option (intel_m10bmc_flash_bulk_ops X)) (tries : nat).
Abbreviation sys_read := (m10bmc_sys_read (X := X) info).
Abbreviation sys_update_bits := (m10bmc_sys_update_bits (X := X) info).
Abbreviation csr := (csr_map info).
Abbreviation at_base off := (u32 (base csr + off)).

(** ** Loading an image now *)

(* drivers/fpga/intel-m10-bmc-sec-update.c:117-139 m10bmc_sec_bmc_image_load *)
Definition m10bmc_sec_bmc_image_load (val : Z) : M (bmc X) unit :=
  if 1 <? val then throw (- EINVAL) else
  drbl ← sys_read (doorbell csr);
  if has_bits DRBL_REBOOT_DISABLED drbl then throw (- EBUSY) else
  sys_update_bits (doorbell csr) (Z.lor (mask DRBL_CONFIG_SEL) (mask DRBL_REBOOT_REQ))
    (Z.lor (FIELD_PREP DRBL_CONFIG_SEL val) (mask DRBL_REBOOT_REQ)).

(* drivers/fpga/intel-m10-bmc-sec-update.c:141-164 m10bmc_n6000_sec_bmc_image_load *)
Definition m10bmc_n6000_sec_bmc_image_load (val : Z) : M (bmc X) unit :=
  if 1 <? val then throw (- EINVAL) else
  drbl ← sys_read (doorbell csr);
  if has_bits PMCI_DRBL_REBOOT_DISABLED drbl then throw (- EBUSY) else
  regmap_update_bits (at_base M10BMC_PMCI_MAX10_RECONF) (Z.lor (mask PMCI_MAX10_REBOOT_REQ) (mask PMCI_MAX10_REBOOT_PAGE))
    (Z.lor (FIELD_PREP PMCI_MAX10_REBOOT_PAGE val) (mask PMCI_MAX10_REBOOT_REQ)).

(* drivers/fpga/intel-m10-bmc-sec-update.c:166-187 pmci_sec_fpga_image_load *)
Definition pmci_sec_fpga_image_load (val : Z) : M (bmc X) unit :=
  if 2 <? val then throw (- EINVAL) else
  regmap_update_bits (at_base M10BMC_PMCI_FPGA_RECONF) (mask PMCI_FPGA_RP_LOAD) 0 ;;
  regmap_update_bits (at_base M10BMC_PMCI_FPGA_RECONF) (Z.lor (mask PMCI_FPGA_RECONF_PAGE) (mask PMCI_FPGA_RP_LOAD))
    (Z.lor (FIELD_PREP PMCI_FPGA_RECONF_PAGE val) (mask PMCI_FPGA_RP_LOAD)).

Definition request_bit (reg : Z) (bit : field) : M (bmc X) unit :=
  regmap_update_bits (at_base reg) (mask bit) (mask bit).
(* drivers/fpga/intel-m10-bmc-sec-update.c:189-196 pmci_sec_sdm_sr_image_load *)
Definition pmci_sec_sdm_sr_image_load := request_bit M10BMC_PMCI_SDM_SR_CTRL_STS PMCI_SDM_SR_IMG_REQ.
(* drivers/fpga/intel-m10-bmc-sec-update.c:198-205 pmci_sec_sdm_sr_cancel *)
Definition pmci_sec_sdm_sr_cancel := request_bit M10BMC_PMCI_SDM_SR_CNCL_CTRL_STS PMCI_SDM_SR_CNCL_REQ.
(* drivers/fpga/intel-m10-bmc-sec-update.c:207-214 pmci_sec_sdm_pr_image_load *)
Definition pmci_sec_sdm_pr_image_load := request_bit M10BMC_PMCI_SDM_PR_CTRL_STS PMCI_SDM_PR_IMG_REQ.
(* drivers/fpga/intel-m10-bmc-sec-update.c:216-223 pmci_sec_sdm_pr_cancel *)
Definition pmci_sec_sdm_pr_cancel := request_bit M10BMC_PMCI_SDM_PR_CNCL_CTRL_STS PMCI_SDM_PR_CNCL_REQ.

(* drivers/fpga/intel-m10-bmc-sec-update.c:225-228 m10bmc_sec_bmc_image_load_0 *)
Definition m10bmc_sec_bmc_image_load_0 := m10bmc_sec_bmc_image_load 0.
(* drivers/fpga/intel-m10-bmc-sec-update.c:230-233 m10bmc_sec_bmc_image_load_1 *)
Definition m10bmc_sec_bmc_image_load_1 := m10bmc_sec_bmc_image_load 1.
(* drivers/fpga/intel-m10-bmc-sec-update.c:235-238 pmci_sec_bmc_image_load_0 *)
Definition pmci_sec_bmc_image_load_0 := m10bmc_n6000_sec_bmc_image_load 0.
(* drivers/fpga/intel-m10-bmc-sec-update.c:240-243 pmci_sec_bmc_image_load_1 *)
Definition pmci_sec_bmc_image_load_1 := m10bmc_n6000_sec_bmc_image_load 1.
(* drivers/fpga/intel-m10-bmc-sec-update.c:245-248 pmci_sec_fpga_image_load_0 *)
Definition pmci_sec_fpga_image_load_0 := pmci_sec_fpga_image_load 0.
(* drivers/fpga/intel-m10-bmc-sec-update.c:250-253 pmci_sec_fpga_image_load_1 *)
Definition pmci_sec_fpga_image_load_1 := pmci_sec_fpga_image_load 1.
(* drivers/fpga/intel-m10-bmc-sec-update.c:255-258 pmci_sec_fpga_image_load_2 *)
Definition pmci_sec_fpga_image_load_2 := pmci_sec_fpga_image_load 2.

(** *** The firmware of the retimers *)

Section Retimer.
Context (ops : m10bmc_sec_ops X).

(* drivers/fpga/intel-m10-bmc-sec-update.c:260-278 retimer_check_idle *)
Definition retimer_check_idle : M (bmc X) unit :=
  r ← attempt (sys_read (doorbell csr));
  match r with
  | inl _ => throw (- EIO)
  | inr doorbell =>
      if negb (rsu_prog doorbell =? RSU_PROG_IDLE) && negb (rsu_prog doorbell =? RSU_PROG_RSU_DONE) &&
         negb (rsu_prog doorbell =? RSU_PROG_PKVL_PROM_DONE)
      then log_error_regs info ops doorbell ;; throw (- EBUSY)
      else mret tt
  end.

(* drivers/fpga/intel-m10-bmc-sec-update.c:280-315 trigger_retimer_eeprom_load *)
Definition trigger_retimer_eeprom_load : M (bmc X) unit :=
  sys_update_bits (doorbell csr) (mask DRBL_PKVL_EEPROM_LOAD_SEC) (mask DRBL_PKVL_EEPROM_LOAD_SEC) ;;
  r ← regmap_read_poll_timeout (at_base (doorbell csr)) (λ val, negb (has_bits DRBL_PKVL_EEPROM_LOAD_SEC val)) tries;
  if (r : Z * (Z + Z)).1 =? - ETIMEDOUT then
    _ ← status (sys_update_bits (doorbell csr) (mask DRBL_PKVL_EEPROM_LOAD_SEC) 0);
    throw (- ENODEV)
  else rc r.1.

(** [ret] is what [read_poll_timeout] gives, [err] the last status of the reading. *)
(* drivers/fpga/intel-m10-bmc-sec-update.c:317-350 poll_retimer_eeprom_load_done *)
Definition poll_retimer_eeprom_load_done : M (bmc X) unit :=
  r ← read_poll_timeout (attempt (m10bmc_sec_progress_status info ops))
    (λ v, match v with
          | inl _ => true
          | inr (_, progress, status) => (progress =? RSU_PROG_PKVL_PROM_DONE) || (status =? RSU_STAT_PKVL_REJECT)
          end) tries;
  let ret := r.1 in
  if ret =? - ETIMEDOUT then throw ret else
  match r.2 with
  | inl _ => rc ret
  | inr (_, _, status) => if status =? RSU_STAT_PKVL_REJECT then throw (- ECANCELED) else mret tt
  end.

(* drivers/fpga/intel-m10-bmc-sec-update.c:352-379 poll_retimer_preload_done *)
Definition poll_retimer_preload_done : M (bmc X) unit :=
  r ← regmap_read_poll_timeout (at_base M10BMC_PKVL_POLL_CTRL)
    (λ val, Z.land val M10BMC_PKVL_PRELOAD =? M10BMC_PKVL_PRELOAD) tries;
  rc (r : Z * (Z + Z)).1 ;;
  match r.2 with
  | inl e => throw e
  | inr val =>
      if negb (Z.land val M10BMC_PKVL_UPG_STATUS_MASK =? M10BMC_PKVL_UPG_STATUS_GOOD) then throw (- EIO) else mret tt
  end.

(* drivers/fpga/intel-m10-bmc-sec-update.c:381-404 m10bmc_sec_retimer_eeprom_load *)
Definition m10bmc_sec_retimer_eeprom_load : M (bmc X) unit :=
  m10bmc_fw_state_set info M10BMC_FW_RETIMER_EEPROM_LOAD ;;
  ret ← status (
    retimer_check_idle ;;
    trigger_retimer_eeprom_load ;;
    poll_retimer_eeprom_load_done ;;
    poll_retimer_preload_done);
  m10bmc_fw_state_set info M10BMC_FW_STATE_NORMAL ;;
  rc ret.
End Retimer.

(* drivers/fpga/intel-m10-bmc-sec-update.c:406-420 n3000_image_load_hndlrs *)
Definition n3000_image_load_hndlrs (ops : m10bmc_sec_ops X) : list (text * M (bmc X) unit) :=
  [(lit "bmc_factory", m10bmc_sec_bmc_image_load_1); (lit "bmc_user", m10bmc_sec_bmc_image_load_0);
   (lit "retimer_fw", m10bmc_sec_retimer_eeprom_load ops)].
(* drivers/fpga/intel-m10-bmc-sec-update.c:422-432 d5005_image_load_hndlrs *)
Definition d5005_image_load_hndlrs : list (text * M (bmc X) unit) :=
  [(lit "bmc_factory", m10bmc_sec_bmc_image_load_0); (lit "bmc_user", m10bmc_sec_bmc_image_load_1)].
(* drivers/fpga/intel-m10-bmc-sec-update.c:434-472 n6000_image_load_hndlrs *)
Definition n6000_image_load_hndlrs : list (text * M (bmc X) unit) :=
  [(lit "bmc_factory", pmci_sec_bmc_image_load_0); (lit "bmc_user", pmci_sec_bmc_image_load_1);
   (lit "fpga_factory", pmci_sec_fpga_image_load_0); (lit "fpga_user1", pmci_sec_fpga_image_load_1);
   (lit "fpga_user2", pmci_sec_fpga_image_load_2); (lit "sdm_sr", pmci_sec_sdm_sr_image_load);
   (lit "sdm_sr_cancel", pmci_sec_sdm_sr_cancel); (lit "sdm_pr", pmci_sec_sdm_pr_image_load);
   (lit "sdm_pr_cancel", pmci_sec_sdm_pr_cancel)].

(** Names one after the other, each with a space; a newline over the last one. *)
Fixpoint print_names (names : list text) (out : text) : M (bmc X) text :=
  match names with
  | [] => mret out
  | n :: names =>
      let count := Z.of_nat (length out) in
      t ← scnprintf PAGE_SIZE count (PAGE_SIZE - count) (n ++ lit " ");
      print_names names (out ++ t)
  end.
Definition end_line (out : text) : M (bmc X) text :=
  if (length out =? 0)%nat then fault else mret (take (length out - 1) out ++ [newline]).
(* drivers/fpga/intel-m10-bmc-sec-update.c:1130-1143 available_images_show *)
Definition available_images_show (ops : m10bmc_sec_ops X) : M (bmc X) text :=
  out ← print_names (fst <$> image_load ops) [];
  end_line out.

(* drivers/fpga/intel-m10-bmc-sec-update.c:1146-1162 image_load_store *)
Definition image_load_store (ops : m10bmc_sec_ops X) (buf : text) : M (bmc X) Z :=
  match filter (λ h, sysfs_streq buf h.1 = true) (image_load ops) with
  | [] => throw (- EINVAL)
  | hndlr :: _ => hndlr.2 ;; mret (Z.of_nat (length buf))
  end.

(** ** The image at power on *)

Definition in_mask (m : Z) (i : fpga_image) : bool := Z.testbit m (image_no i).
(** The array [images] is given as its contents. *)
(* drivers/fpga/intel-m10-bmc-sec-update.c:950-957 fpga_images *)
Fixpoint fpga_images_loop (tokens : list text) (image_mask : Z) (i : nat) (images : list fpga_image)
    : M (bmc X) (nat * list fpga_image) :=
  match tokens with
  | [] => mret (i, images)
  | image_name :: tokens =>
      let image := fpga_image_by_name image_name in
      if bool_decide (image = FPGA_MAX) || negb (in_mask image_mask image) then throw (- EINVAL) else
      if (length images <=? i)%nat then fault else
      fpga_images_loop tokens (Z.ldiff image_mask (Z.shiftl 1 (image_no image))) (S i) (<[i := image]> images)
  end.
Definition is_sep (c : ascii) : bool := Ascii.eqb c " "%char || Ascii.eqb c newline.
(* drivers/fpga/intel-m10-bmc-sec-update.c:942-960 fpga_images *)
Definition fpga_images (avail : Z) (names : text) (images : list fpga_image) : M (bmc X) (list fpga_image) :=
  r ← fpga_images_loop (strsep_all is_sep names) avail 0 images;
  if (r.1 =? 0)%nat then throw (- EINVAL) else mret r.2.

(* drivers/fpga/intel-m10-bmc-sec-update.c:962-1018 pmci_set_power_on_image *)
Definition pmci_set_power_on_image (images : list fpga_image) : M (bmc X) unit :=
  let poc_mask := Z.lor (mask PMCI_FACTORY_IMAGE_SEL) (mask PMCI_USER_IMAGE_PAGE) in
  image0 ← access (images !! 0%nat);
  image1 ← access (images !! 1%nat);
  if bool_decide (image1 = FPGA_FACTORY) then throw (- EINVAL) else
  let poc := if bool_decide (image0 = FPGA_FACTORY) then mask PMCI_FACTORY_IMAGE_SEL else 0 in
  let first_user := if bool_decide (image0 = FPGA_FACTORY) then image1 else image0 in
  let page n := Z.lor poc (FIELD_PREP PMCI_USER_IMAGE_PAGE n) in
  poc ← (if bool_decide (first_user = FPGA_USER1) then mret (page POC_USER_IMAGE_1)
         else if bool_decide (first_user = FPGA_USER2) then mret (page POC_USER_IMAGE_2)
         else
           val ← sys_read M10BMC_PMCI_FPGA_POC_STS_BL;
           if FIELD_GET PMCI_USER_IMAGE_PAGE val =? POC_USER_IMAGE_1
           then mret (page POC_USER_IMAGE_1) else mret (page POC_USER_IMAGE_2));
  sys_update_bits (u32 (base csr + M10BMC_PMCI_FPGA_POC)) (Z.lor poc_mask (mask PMCI_FPGA_POC)) (Z.lor poc (mask PMCI_FPGA_POC)) ;;
  r ← regmap_read_poll_timeout (at_base M10BMC_PMCI_FPGA_POC) (λ poc, negb (has_bits PMCI_FPGA_POC poc)) tries;
  match r with
  | (0, inr poc) => if FIELD_GET PMCI_NIOS_STATUS poc =? NIOS_STATUS_SUCCESS then mret tt else throw (- EIO)
  | _ => throw (- EIO)
  end.

(** The three names in their order. *)
(* drivers/fpga/intel-m10-bmc-sec-update.c:1030-1042 pmci_get_power_on_image *)
Definition power_on_sequence (poc : Z) : list fpga_image :=
  let factory := has_bits PMCI_FACTORY_IMAGE_SEL poc in
  (if factory then [FPGA_FACTORY] else []) ++
  (if FIELD_GET PMCI_USER_IMAGE_PAGE poc =? POC_USER_IMAGE_1 then [FPGA_USER1; FPGA_USER2] else [FPGA_USER2; FPGA_USER1]) ++
  (if factory then [] else [FPGA_FACTORY]).
(* drivers/fpga/intel-m10-bmc-sec-update.c:1020-1045 pmci_get_power_on_image *)
Definition pmci_get_power_on_image : M (bmc X) text :=
  poc ← sys_read M10BMC_PMCI_FPGA_POC_STS_BL;
  mret (join " "%char (fpga_image_names <$> power_on_sequence poc) ++ [newline]).

(* drivers/fpga/intel-m10-bmc-sec-update.c:1124-1128 pmci_power_on_image *)
Definition pmci_power_on_image : fpga_power_on X := {|
  avail_image_mask := Z.lor (Z.lor (Z.shiftl 1 0) (Z.shiftl 1 1)) (Z.shiftl 1 2);
  get_sequence := pmci_get_power_on_image;
  set_sequence := pmci_set_power_on_image;
|}.

(* drivers/fpga/intel-m10-bmc-sec-update.c:1047-1062 available_power_on_images_show *)
Definition available_power_on_images_show (p : fpga_power_on X) : M (bmc X) text :=
  out ← print_names (fpga_image_names <$> filter (λ i, in_mask (avail_image_mask p) i = true) all_images) [];
  end_line out.
(* drivers/fpga/intel-m10-bmc-sec-update.c:1065-1072 power_on_image_show *)
Definition power_on_image_show (p : fpga_power_on X) : M (bmc X) text := get_sequence p.
(** [alloc]: the copy of the text is allocated. *)
(* drivers/fpga/intel-m10-bmc-sec-update.c:1074-1096 power_on_image_store *)
Definition power_on_image_store (p : fpga_power_on X) (alloc : bool) (buf : text) : M (bmc X) Z :=
  if negb alloc then throw (- ENOMEM) else
  images ← fpga_images (avail_image_mask p) buf [FPGA_MAX; FPGA_MAX; FPGA_MAX];
  set_sequence p images ;;
  mret (Z.of_nat (length buf)).
(* drivers/fpga/intel-m10-bmc-sec-update.c:1099-1121 fpga_boot_image_show *)
Definition fpga_boot_image_show : M (bmc X) text :=
  status ← sys_read (u32 (base csr + M10BMC_PMCI_FPGA_CONF_STS));
  if FIELD_GET PMCI_FPGA_CONFIGED status =? 0 then throw (- EINVAL) else
  match all_images !! Z.to_nat (FIELD_GET PMCI_FPGA_BOOT_PAGE status) with
  | None => throw (- EINVAL)
  | Some i => mret (fpga_image_names i ++ [newline])
  end.
End Images.

(** ** Properties of the image selection

    What user space may write as the order of the images at power on, what is then
    asked of the board, and that this is what is shown afterwards; loading the
    firmware of the retimers leaves the state of the BMC's firmware as it should. *)

(** ** Names *)
Lemma image_by_name_spec t :
  Forall (λ c, is_sep c = false) t →
  match fpga_image_by_name t with FPGA_MAX => ∀ i, i ≠ FPGA_MAX → t ≠ fpga_image_names i | i => t = fpga_image_names i end.
Proof.
  intros Ht. assert (Forall (λ c, c ≠ newline) t) as Hn.
  { eapply Forall_impl; [|exact Ht]. by intros c Hc ->. }
  assert (∀ i, i ≠ FPGA_MAX → sysfs_streq t (fpga_image_names i) = true ↔ t = fpga_image_names i) as Heq.
  { intros i Hi. split; [|intros ->; apply sysfs_streq_refl]. apply sysfs_streq_plain; [done|].
    destruct i; try done; cbn; repeat constructor; done. }
  unfold fpga_image_by_name. cbn [filter list_filter all_images].
  pose proof (Heq FPGA_FACTORY ltac:(done)) as H0. pose proof (Heq FPGA_USER1 ltac:(done)) as H1. pose proof (Heq FPGA_USER2 ltac:(done)) as H2.
  repeat case_decide; cbn; try tauto. intros [] Hi; tauto.
Qed.

Definition real_image (i : fpga_image) : Prop := i ≠ FPGA_MAX.
Lemma distinct_images l : NoDup l → Forall real_image l → (length l ≤ 3)%nat.
Proof.
  intros Hl Hr. change 3%nat with (length all_images). apply submseteq_length, NoDup_submseteq; [done|].
  intros i Hi. apply (proj1 (list.Forall_forall _ _) Hr) in Hi. destruct i; [set_solver..|by destruct Hi].
Qed.
Lemma in_mask_clear m i j :
  real_image i → real_image j → in_mask (Z.ldiff m (Z.shiftl 1 (image_no i))) j = in_mask m j && negb (bool_decide (i = j)).
Proof.
  intros Hi Hj. unfold in_mask. rewrite Z.ldiff_spec, Z.shiftl_1_l, Z.pow2_bits_eqb by (destruct i; cbn; lia).
  f_equal. f_equal. by destruct i, j.
Qed.

(** The texts that name different images, with separators between them. *)
Definition names_images (tokens : list text) (imgs : list fpga_image) : Prop :=
  tokens = fpga_image_names <$> imgs ∧ NoDup imgs ∧ Forall real_image imgs.
Lemma names_functional i j : real_image i → real_image j → fpga_image_names i = fpga_image_names j → i = j.
Proof. by destruct i, j. Qed.

Lemma names_inj l1 l2 :
  Forall real_image l1 → Forall real_image l2 → fpga_image_names <$> l1 = fpga_image_names <$> l2 → l1 = l2.
Proof.
  intros H1. revert l2. induction H1 as [|i l1 Hi _ IH]; intros [|j l2] H2 Heq; try done.
  inversion H2; subst. injection Heq as Hij Heq. f_equal; [by apply names_functional|by apply IH].
Qed.
Lemma names_plain l : Forall (Forall (λ c, is_sep c = false)) (fpga_image_names <$> l).
Proof. apply Forall_fmap, Forall_true. intros []; by repeat constructor. Qed.
Lemma sequence_cases sts :
  power_on_sequence sts = [FPGA_FACTORY; FPGA_USER1; FPGA_USER2] ∨ power_on_sequence sts = [FPGA_FACTORY; FPGA_USER2; FPGA_USER1] ∨
  power_on_sequence sts = [FPGA_USER1; FPGA_USER2; FPGA_FACTORY] ∨ power_on_sequence sts = [FPGA_USER2; FPGA_USER1; FPGA_FACTORY].
Proof. unfold power_on_sequence. destruct (has_bits _ _), (_ =? _); cbn; auto. Qed.

Section Images.
Context `{Regmap} {X : Type} (info : intel_m10bmc_platform_info) (tries : nat).
Implicit Types s : bmc X.

Lemma images_loop_spec tokens mask l s :
  Forall (Forall (λ c, is_sep c = false)) tokens → NoDup l → Forall real_image l →
  (∀ j, real_image j → in_mask mask j = true ↔ j ∉ l) →
  wp (fpga_images_loop tokens mask (length l) (l ++ replicate (3 - length l) FPGA_MAX))
    (λ r s', s' = s ∧ ∃ imgs, tokens = fpga_image_names <$> imgs ∧ NoDup (l ++ imgs) ∧ Forall real_image imgs ∧
       r = ((length l + length imgs)%nat, l ++ imgs ++ replicate (3 - length l - length imgs) FPGA_MAX))
    (λ e s', s' = s ∧ e = - EINVAL ∧ ∀ imgs, tokens = fpga_image_names <$> imgs → NoDup (l ++ imgs) → ¬ Forall real_image imgs) s.
Proof.
  revert mask l. induction tokens as [|t tokens IH]; intros mask l Hs Hl Hr Hm; cbn [fpga_images_loop]; cbv zeta.
  { wsteps. split; [done|]. exists []. split_and!; [done|by rewrite app_nil_r|constructor|]. by rewrite Nat.add_0_r, Nat.sub_0_r. }
  inversion Hs as [|? ? Ht Hs']; subst. pose proof (image_by_name_spec t Ht) as Hn. destruct (decide (fpga_image_by_name t = FPGA_MAX)) as [E|E].
  { rewrite bool_decide_true by done. cbn [orb]. wsteps. split_and!; [done..|]. intros [|i imgs] Heq Hd Hri; [done|].
    rewrite E in Hn. inversion Hri; subst. injection Heq as Hti _. by eapply Hn. }
  rewrite bool_decide_false by done. cbn [orb]. remember (fpga_image_by_name t) as i eqn:Hi0. clear Hi0.
  assert (t = fpga_image_names i) as Hti by by destruct i. destruct (in_mask mask i) eqn:Him; cbn [negb].
  2: { wsteps. split_and!; [done..|]. intros [|j imgs] Heq Hd Hri; [done|]. inversion Hri; subst. injection Heq as Hti' _.
       assert (j = i) as -> by (apply names_functional; [done..|congruence]). apply Hm in E as Hx.
       apply list.NoDup_app in Hd as (_ & Hd & _). assert (i ∉ l) as Hil by (intros Hil; apply (Hd i); set_solver).
       apply Hx in Hil. congruence. }
  apply Hm in Him as Hil; [|done]. pose proof (distinct_images (i :: l) ltac:(by constructor) ltac:(by constructor)) as Hlen. cbn in Hlen.
  rewrite length_app, length_replicate. replace (length l + (3 - length l))%nat with 3%nat by lia.
  assert ((3 <=? length l)%nat = false) as -> by (apply Nat.leb_gt; lia).
  assert (<[length l:=i]> (l ++ replicate (3 - length l) FPGA_MAX) = (l ++ [i]) ++ replicate (3 - length (l ++ [i])) FPGA_MAX) as ->.
  { rewrite insert_app_r_alt, Nat.sub_diag by lia. rewrite <- app_assoc. f_equal. rewrite length_app. cbn [length].
    replace (3 - length l)%nat with (S (3 - (length l + 1))) by lia. done. }
  replace (S (length l)) with (length (l ++ [i])) by (rewrite length_app; cbn; lia).
  eapply wp_mono; [apply IH; [done| | |]| |].
  - apply list.NoDup_app. split_and!; [done|set_solver|by apply NoDup_singleton].
  - apply Forall_app. by split; [|repeat constructor].
  - intros j Hj. rewrite in_mask_clear, andb_true_iff, Hm, negb_true_iff, bool_decide_eq_false by done. set_solver.
  - intros r s' (-> & imgs & -> & Hd & Hri & ->). split; [done|]. exists (i :: imgs). rewrite length_app in *. cbn [length].
    rewrite <- app_assoc in Hd. split_and!; [by rewrite fmap_cons, Hti|done|by constructor|].
    f_equal; [lia|]. rewrite <- !app_assoc. cbn. do 4 f_equal. lia.
  - intros e s' (-> & -> & Hno). split_and!; [done..|]. intros [|j imgs] Heq Hd Hri; [done|]. inversion Hri; subst.
    injection Heq as Hti' ->. assert (j = i) as -> by (apply names_functional; [done..|congruence]).
    eapply (Hno imgs); [done| |done]. by rewrite <- app_assoc.
Qed.

(** *** What is asked of the board *)
Definition selection : Z := Z.lor (mask PMCI_FACTORY_IMAGE_SEL) (mask PMCI_USER_IMAGE_PAGE).
Lemma sequence_selection sts : power_on_sequence sts = power_on_sequence (Z.land sts selection).
Proof.
  unfold power_on_sequence, has_bits, FIELD_GET. rewrite <- !Z.land_assoc.
  by change (Z.land selection (mask PMCI_FACTORY_IMAGE_SEL)) with (mask PMCI_FACTORY_IMAGE_SEL);
    change (Z.land selection (mask PMCI_USER_IMAGE_PAGE)) with (mask PMCI_USER_IMAGE_PAGE).
Qed.
(** The order that a request for [v] asks for: whatever the board reports later, if
    its selection is that of the request. *)
Definition asks_for (v : Z) (imgs : list fpga_image) : Prop :=
  ∀ sts, Z.land sts selection = Z.land v selection → imgs `prefix_of` power_on_sequence sts.
Lemma asks_for_eq v imgs : imgs `prefix_of` power_on_sequence v → asks_for v imgs.
Proof. intros Hp sts Heq. by rewrite sequence_selection, Heq, <- sequence_selection. Qed.

Definition poc_request (v ret : Z) : reg_io :=
  RegUpdate (u32 (base (csr_map info) + u32 (base (csr_map info) + M10BMC_PMCI_FPGA_POC)))
    (Z.lor selection (mask PMCI_FPGA_POC)) v ret.
(** One request, with the status of its access, and reads before and after it. *)
Definition requested (imgs : list fpga_image) (ret : Z) s s' : Prop :=
  ∃ l1 v l2, after_io (l1 ++ poc_request v ret :: l2) s s' ∧ Forall is_read (l1 ++ l2) ∧ asks_for v imgs.
Definition only_reads s s' : Prop := ∃ l, after_io l s s' ∧ Forall is_read l.
Lemma reads_plain l : Forall is_read l → Forall plain l.
Proof. intros Hl. eapply Forall_impl; [|exact Hl]. by intros []. Qed.
Lemma only_reads_quiet s s' : only_reads s s' → quiet s s'.
Proof. intros (l & H1 & Hl). exists l. split; [exact H1|by apply reads_plain]. Qed.
Lemma requested_quiet imgs ret s s' : requested imgs ret s s' → quiet s s'.
Proof.
  intros (l1 & v & l2 & H1 & [Hr1 Hr2]%Forall_app & _). eexists. split; [exact H1|].
  apply Forall_app. split; [by apply reads_plain|]. constructor; [done|by apply reads_plain].
Qed.
Lemma reads_only_refl s : only_reads s s.
Proof. exists []. split; [apply after_io_refl|constructor]. Qed.

Abbreviation order_finish poc :=
  (m10bmc_sys_update_bits info (u32 (base (csr_map info) + M10BMC_PMCI_FPGA_POC)) (Z.lor selection (mask PMCI_FPGA_POC)) (Z.lor poc (mask PMCI_FPGA_POC)) ;;
   r ← regmap_read_poll_timeout (u32 (base (csr_map info) + M10BMC_PMCI_FPGA_POC)) (λ poc, negb (has_bits PMCI_FPGA_POC poc)) tries;
   match r with
   | (0, inr poc) => if FIELD_GET PMCI_NIOS_STATUS poc =? NIOS_STATUS_SUCCESS then mret tt else throw (- EIO)
   | _ => throw (- EIO)
   end).
Lemma finish_order poc imgs l1 s0 s :
  after_io l1 s0 s → Forall is_read l1 → imgs `prefix_of` power_on_sequence (Z.lor poc (mask PMCI_FPGA_POC)) →
  wp (order_finish poc) (λ _ s', requested imgs 0 s0 s') (λ _ s', only_reads s0 s' ∨ ∃ ret, requested imgs ret s0 s') s.
Proof.
  intros H1 Hr1 Hp. wsteps. eapply wp_mono; [apply sys_update_once|..]; cbv beta zeta.
  2: { intros e s1 [->|[ret H2]]; [left; by exists l1|right]. exists ret, l1, (Z.lor poc (mask PMCI_FPGA_POC)), [].
       rewrite app_nil_r. split_and!; [exact (after_io_trans _ _ _ _ _ H1 H2)|done|by apply asks_for_eq]. }
  intros _ s1 H2. wsteps. eapply wp_mono; [apply regmap_poll_reads| |done]. intros r s2 (l2 & H3 & Hr2).
  assert (requested imgs 0 s0 s2) as Hreq.
  { exists l1, (Z.lor poc (mask PMCI_FPGA_POC)), l2.
    split_and!; [exact (after_io_trans _ _ _ _ _ H1 (after_io_trans _ _ _ _ _ H2 H3))|by apply Forall_app|by apply asks_for_eq]. }
  destruct r as [[] [|v]]; wsteps; try (right; by exists 0). destruct (_ =? _); wsteps; [done|right; by exists 0].
Qed.

(** The board was at most asked for the order, and only for one that is possible. *)
Definition order_failed (imgs : list fpga_image) s (e : Z) s' : Prop :=
  (only_reads s s' ∨ ∃ ret, requested imgs ret s s') ∧ (imgs !! 1%nat = Some FPGA_FACTORY → e = - EINVAL ∧ s' = s).
Lemma set_order_spec imgs s :
  imgs ≠ [] → NoDup imgs → Forall real_image imgs →
  wp (pmci_set_power_on_image info tries (imgs ++ replicate (3 - length imgs) FPGA_MAX))
    (λ _ s', imgs !! 1%nat ≠ Some FPGA_FACTORY ∧ requested imgs 0 s s') (order_failed imgs s) s.
Proof.
  intros Hne Hd Hr. pose proof (distinct_images _ Hd Hr) as Hlen.
  assert (∀ poc l1 s1, after_io l1 s s1 → Forall is_read l1 → imgs !! 1%nat ≠ Some FPGA_FACTORY →
    imgs `prefix_of` power_on_sequence (Z.lor poc (mask PMCI_FPGA_POC)) →
    wp (order_finish poc) (λ _ s', imgs !! 1%nat ≠ Some FPGA_FACTORY ∧ requested imgs 0 s s') (order_failed imgs s) s1) as Hfin.
  { intros poc l1 s1 H1 Hl1 Hn Hp. eapply wp_mono; [by eapply finish_order|by intros|]. intros e s2 H2. by split; [destruct H2; [left|right]|]. }
  assert (bool_decide (NoDup imgs) = true) as Hd' by by apply bool_decide_eq_true.
  assert (existsb (λ i, bool_decide (i = FPGA_MAX)) imgs = false) as Hr'.
  { clear -Hr. induction Hr as [|i imgs Hi _ IH]; [done|]. cbn. by rewrite bool_decide_false. }
  unfold pmci_set_power_on_image. cbv zeta. change (Z.lor (mask PMCI_FACTORY_IMAGE_SEL) (mask PMCI_USER_IMAGE_PAGE)) with selection.
  destruct imgs as [|i [|j [|k [|]]]]; [done| | | |cbn in Hlen; lia]; clear Hd Hr Hlen Hne;
    destruct i; try discriminate Hr'; try (destruct j; try discriminate Hr'; try discriminate Hd');
    try (destruct k; try discriminate Hr'; try discriminate Hd').
  all: wsteps; apply wp_access; [intros i0 [= <-]|done]; wsteps; apply wp_access; [intros i1 [= <-]|done]; wif; wsteps; try done.
  all: try (split; [left; apply reads_only_refl|done]).
  all: repeat wif.
  all: try (apply wp_ret; apply (Hfin _ [] s); [apply after_io_refl|constructor|done|apply (bool_decide_unpack _); vm_compute; exact I]).
  apply wp_bind. eapply wp_mono; [apply sys_read_reads|..]; cbv beta; [intros v s1 (l1 & H1 & Hl1)|intros e s1 H1; by split; [left|]].
  destruct (_ =? _); apply wp_ret;
    (eapply (Hfin _ l1 s1); [exact H1|exact Hl1|done|apply (bool_decide_unpack _); vm_compute; exact I]).
Qed.

Lemma power_on_store_spec buf s :
  let tokens := strsep_all is_sep buf in
  let valid imgs := names_images tokens imgs ∧ imgs !! 1%nat ≠ Some FPGA_FACTORY in
  wp (power_on_image_store (pmci_power_on_image info tries) true buf)
    (λ n s', n = Z.of_nat (length buf) ∧ ∃ imgs, valid imgs ∧ requested imgs 0 s s')
    (λ e s', ((∀ imgs, ¬ valid imgs) ∧ e = - EINVAL ∧ s' = s) ∨ ∃ imgs, valid imgs ∧ (only_reads s s' ∨ ∃ ret, requested imgs ret s s')) s.
Proof.
  intros tokens valid. unfold power_on_image_store. cbn [negb]. wsteps. unfold fpga_images. wsteps.
  eapply wp_mono; [apply (images_loop_spec tokens 7 [] s)| |].
  - apply strsep_all_pieces.
  - constructor.
  - constructor.
  - intros [] Hj; try done; (split; [intros _; apply not_elem_of_nil|done]).
  - intros r s1 (-> & imgs & Hn & Hd & Hr & ->). cbn [fst snd app length Nat.add].
    assert (imgs ≠ []) as Hne by (intros ->; by eapply strsep_all_nonempty).
    destruct imgs as [|i imgs']; [done|]. cbn [length Nat.eqb]. wsteps. set (imgs := i :: imgs') in *.
    eapply wp_mono; [exact (set_order_spec imgs s Hne Hd Hr)| |].
    + intros ? s2 [Hf Hreq]. wsteps. split; [done|]. by exists imgs.
    + intros e s2 [Hq He]. destruct (decide (imgs !! 1%nat = Some FPGA_FACTORY)) as [Hx|Hf]; [left|right; by exists imgs].
      split; [|by apply He]. intros imgs2 [(Hn2 & Hd2 & Hr2) Hf2]. destruct Hf2. rewrite <- Hx. f_equal. apply names_inj; [done..|congruence].
  - intros e s1 (-> & -> & Hno). left. split; [|done]. intros imgs [(Hn & Hd & Hr) _]. by eapply Hno.
Qed.

(** C11: for every text user space writes as the order of the images at power on, and
    every board: the text is accepted only if the pieces between its separators are
    the names of different images, the second one not the factory image; then one
    request is made of the board, with only reads around it, and whatever the board
    reports later with that selection, the images it then lists begin with those of
    the text, in their order.  Every other text is refused with [-EINVAL], and nothing
    is accessed.  When it fails for a text that could be accepted, then the board was
    only read, or that same request was made once, with only reads around it. *)
Theorem power_on_store_exact buf s :
  let tokens := strsep_all is_sep buf in
  let valid imgs := names_images tokens imgs ∧ imgs !! 1%nat ≠ Some FPGA_FACTORY in
  wp (power_on_image_store (pmci_power_on_image info tries) true buf)
    (λ n s', n = Z.of_nat (length buf) ∧ ∃ imgs, valid imgs ∧ requested imgs 0 s s')
    (λ e s', ((∀ imgs, ¬ valid imgs) ∧ e = - EINVAL ∧ s' = s) ∨ ∃ imgs, valid imgs ∧ (only_reads s s' ∨ ∃ ret, requested imgs ret s s')) s.
Proof. apply power_on_store_spec. Qed.

(** A text that ends with a newline, as a line of a shell does, is always refused. *)
Lemma newline_refused t s :
  power_on_image_store (pmci_power_on_image info tries) true (t ++ [newline]) s = Done (Err (- EINVAL), s).
Proof.
  assert (wp (power_on_image_store (pmci_power_on_image info tries) true (t ++ [newline])) (λ _ _, False)
    (λ e s', e = - EINVAL ∧ s' = s) s) as Hw.
  { unfold power_on_image_store. cbn [negb]. wsteps. unfold fpga_images. wsteps.
    eapply wp_mono; [apply (images_loop_spec (strsep_all is_sep (t ++ [newline])) 7 [] s)| |].
    - apply strsep_all_pieces.
    - constructor.
    - constructor.
    - intros [] Hj; try done; (split; [intros _; apply not_elem_of_nil|done]).
    - intros r s1 (-> & imgs & Hn & _ & Hr & _). rewrite strsep_all_end in Hn by done.
      assert ([] ∈ fpga_image_names <$> imgs) as Hin by (rewrite <- Hn; set_solver).
      apply list_elem_of_fmap in Hin as (i & Hi & Hin). apply (proj1 (list.Forall_forall _ _) Hr) in Hin. by destruct i.
    - by intros e s1 (-> & -> & _). }
  unfold wpg in Hw. destruct (power_on_image_store _ _ _ _) as [[[]]| |]; try done. by destruct Hw as [-> ->].
Qed.

(** What is shown as the order of the images can be written back, without its
    newline: the text is accepted, and if the board takes the selection over, the
    same order is shown again. *)
Lemma power_on_shown_again sts s :
  wp (power_on_image_store (pmci_power_on_image info tries) true (join " "%char (fpga_image_names <$> power_on_sequence sts)))
    (λ _ s', ∃ l1 v l2, after_io (l1 ++ poc_request v 0 :: l2) s s' ∧
       ∀ sts', Z.land sts' selection = Z.land v selection → power_on_sequence sts' = power_on_sequence sts)
    (λ _ s', quiet s s') s.
Proof.
  eapply wp_mono; [apply power_on_store_spec| |].
  2: { intros e s' [(_ & _ & ->)|(imgs & _ & [Hr|[ret Hr]])]; [apply quiet_refl|by apply only_reads_quiet|by eapply requested_quiet]. }
  intros n s' (_ & imgs & [(Htok & Hd & Hr) _] & l1 & v & l2 & Hl & _ & Hask). exists l1, v, l2. split; [done|].
  rewrite strsep_join in Htok; [|done|by destruct (sequence_cases sts) as [-> | [-> | [-> | ->]]]|by apply names_plain].
  assert (imgs = power_on_sequence sts) as ->.
  { apply (names_inj imgs); [done| |done]. destruct (sequence_cases sts) as [-> | [-> | [-> | ->]]]; by repeat constructor. }
  intros sts' Hs. destruct (Hask sts' Hs) as [k Hk].
  destruct (sequence_cases sts) as [E|[E|[E|E]]], (sequence_cases sts') as [E'|[E'|[E'|E']]]; rewrite E, E' in *; destruct k; done.
Qed.

(** *** Loading the firmware of the retimers *)
Context (ops : m10bmc_sec_ops X) (sreg : Z) (sfld : field) (Hstatus : status_in info ops sreg sfld).

Lemma quiet_throw {A} e : Quiet (X := X) True (throw e : M _ A).
Proof. intros s. wsteps. split; [done|apply quiet_refl]. Qed.
Lemma quiet_rc e : Quiet (X := X) True (rc e).
Proof. intros s. wsteps; intros _; [|split; [done|]]; apply quiet_refl. Qed.
Lemma quiet_status_of T (m : M (bmc X) unit) : Quiet True m → Quiet T (status m).
Proof. intros Hm s. wsteps. eapply wp_mono; [apply Hm|done|]. by intros e s' [_ ?]. Qed.

(** Whatever the board does, afterwards the registers of the BMC are available again,
    and all that was done to it was to read and update registers. *)
Lemma retimer_load_restores s :
  let restored s' := fw_is info M10BMC_FW_STATE_NORMAL s' ∧ ∃ l, bm_log s' = bm_log s ++ l ∧ Forall plain l in
  wp (m10bmc_sec_retimer_eeprom_load info tries ops) (λ _, restored) (λ e s', e ≠ 0 ∧ restored s') s.
Proof.
  intros restored. unfold m10bmc_sec_retimer_eeprom_load. wsteps.
  assert (∀ st s0, wp (m10bmc_fw_state_set info st) (λ _ s1, bm_log s1 = bm_log s0 ∧ fw_is info st s1) (λ _ _, False) s0) as Hset.
  { intros st s0. unfold m10bmc_fw_state_set, fw_is. by destruct (handshake_sys_reg_ranges info); wsteps. }
  assert (Quiet True (retimer_check_idle info ops ;; trigger_retimer_eeprom_load info tries ;;
    poll_retimer_eeprom_load_done info tries ops ;; poll_retimer_preload_done (X := X) info tries)) as Hq.
  { pose proof (quiet_log info ops sreg sfld Hstatus) as Hlog. pose proof (quiet_progress info ops sreg sfld Hstatus) as Hpr.
    unfold retimer_check_idle, trigger_retimer_eeprom_load, poll_retimer_eeprom_load_done, poll_retimer_preload_done.
    repeat first [progress quiets | apply quiet_throw | apply quiet_rc | apply quiet_status_of]. }
  assert (∀ ret s2, (∃ l, bm_log s2 = bm_log s ++ l ∧ Forall plain l) →
    wp (m10bmc_fw_state_set info M10BMC_FW_STATE_NORMAL ;; rc ret) (λ _, restored) (λ e s', e ≠ 0 ∧ restored s') s2) as Hend.
  { intros ret s2 H2. wsteps. eapply wp_mono; [apply Hset| |done]. intros ? s3 [H3 Hf]. wsteps; intros Hz; [|split; [done|]];
      (split; [exact Hf|by rewrite H3]). }
  wsteps. eapply wp_mono; [apply Hset| |done]. intros ? s1 [H1 _]. apply wp_bind, wp_status.
  eapply wp_mono; [apply Hq| |]; [intros ? s2 (l & (_ & _ & Hl) & Hp)|intros e s2 [_ (l & (_ & _ & Hl) & Hp)]];
    apply Hend; exists l; by rewrite Hl, H1.
Qed.
End Images.
