(* ===== verification/SecHash.v ===== *)
(** * Keys and counters of a card (drivers/fpga/intel-m10-bmc-sec-update.c)

    The attributes that show the hashes of the root keys, the canceled signing keys,
    the number of flash updates and the state of the device manager, and which of
    them a board has. *)
From Stdlib Require Import Ascii String.
From stdpp Require Import strings.
From S2P Require Import Prelude Text Bytes M10Bmc ImageLoad SecUpdate SecImages.

(* drivers/fpga/intel-m10-bmc-sec-update.c:477-477 REH_SHA256_SIZE *)
Definition REH_SHA256_SIZE : Z := 32.
(* drivers/fpga/intel-m10-bmc-sec-update.c:478-478 REH_SHA384_SIZE *)
Definition REH_SHA384_SIZE : Z := 48.
(* drivers/fpga/intel-m10-bmc-sec-update.c:479-479 REH_MAGIC *)
Definition REH_MAGIC : field := GENMASK_ULL 15 0.
(* drivers/fpga/intel-m10-bmc-sec-update.c:480-480 REH_SHA_NUM_BYTES *)
Definition REH_SHA_NUM_BYTES : field := GENMASK_ULL 31 16.
(* drivers/fpga/intel-m10-bmc-sec-update.c:603-603 SDM_ROOT_HASH_REG_NUM *)
Definition SDM_ROOT_HASH_REG_NUM : nat := 12.
(* drivers/fpga/intel-m10-bmc-sec-update.c:712-712 CSK_BIT_LEN *)
Definition CSK_BIT_LEN : Z := 128.
(* drivers/fpga/intel-m10-bmc-sec-update.c:713-713 CSK_32ARRAY_SIZE *)
Definition CSK_32ARRAY_SIZE : Z := (CSK_BIT_LEN + 32 - 1) / 32.
(* drivers/fpga/intel-m10-bmc-sec-update.c:753-753 CSK_VEC_OFFSET *)
Definition CSK_VEC_OFFSET : Z := 0x34.
(* drivers/fpga/intel-m10-bmc-sec-update.c:788-788 FLASH_COUNT_SIZE *)
Definition FLASH_COUNT_SIZE : Z := 4096.

(** Bits of a buffer, the lowest bit of the first byte first. *)
Definition bits_of (buf : list Z) : list bool := buf ≫= λ b, (Z.testbit b) <$> seqZ 0 8.
Definition count_true (l : list bool) : Z := Z.of_nat (length (filter (λ b, b = true) l)).

Section Hash.
Context `{Regmap} {X : Type} (info : intel_m10bmc_platform_info)
  (fbops : option (intel_m10bmc_flash_bulk_ops X)) (tries : nat).
Abbreviation sys_read := (m10bmc_sys_read (X := X) info).
Abbreviation csr := (csr_map info).
Abbreviation at_base off := (u32 (base csr + off)).
(** What memory of a size holds before it is written. *)
Context (uninit : Z → list Z).
Abbreviation sec_read := (m10bmc_sec_read fbops).

(** The bytes that are printed; [None] when no hash is programmed. *)
(* drivers/fpga/intel-m10-bmc-sec-update.c:547-582 show_root_entry_hash *)
Definition show_root_entry_hash (exp_magic prog_addr reh_addr : Z) : M (bmc X) (option (list Z)) :=
  magic ← sec_read (uninit 4) prog_addr 4;
  let magic := le_word magic in
  if negb (FIELD_GET REH_MAGIC magic =? exp_magic) then mret None else
  let sha_num_bytes := FIELD_GET REH_SHA_NUM_BYTES magic / 8 in
  if negb (sha_num_bytes =? REH_SHA256_SIZE) && negb (sha_num_bytes =? REH_SHA384_SIZE) then throw (- EINVAL) else
  hash ← sec_read (uninit REH_SHA384_SIZE) reh_addr sha_num_bytes;
  shown ← access (slice 0 sha_num_bytes hash);
  mret (Some shown).
(* drivers/fpga/intel-m10-bmc-sec-update.c:584-597 DEVICE_ATTR_SEC_REH_RO *)
Definition bmc_root_entry_hash_show := show_root_entry_hash (bmc_magic csr) (bmc_prog_addr csr) (bmc_reh_addr csr).
(* drivers/fpga/intel-m10-bmc-sec-update.c:584-597 DEVICE_ATTR_SEC_REH_RO *)
Definition sr_root_entry_hash_show := show_root_entry_hash (sr_magic csr) (sr_prog_addr csr) (sr_reh_addr csr).
(* drivers/fpga/intel-m10-bmc-sec-update.c:584-597 DEVICE_ATTR_SEC_REH_RO *)
Definition pr_root_entry_hash_show := show_root_entry_hash (pr_magic csr) (pr_prog_addr csr) (pr_reh_addr csr).

(* drivers/fpga/intel-m10-bmc-sec-update.c:605-616 sdm_check_config_status *)
Definition sdm_check_config_status : M (bmc X) Z :=
  r ← attempt (sys_read M10BMC_PMCI_SDM_CTRL);
  match r with
  | inl _ => mret (- EIO)
  | inr val => mret (FIELD_GET SDM_CMD_DONE val)
  end.

(* drivers/fpga/intel-m10-bmc-sec-update.c:618-662 sdm_trigger_prov_data *)
Definition sdm_trigger_prov_data : M (bmc X) unit :=
  m10bmc_sys_update_bits info M10BMC_PMCI_SDM_CTRL (mask SDM_CMD_SELECT) (FIELD_PREP SDM_CMD_SELECT SDM_CMD_PROV_DATA) ;;
  m10bmc_sys_update_bits info M10BMC_PMCI_SDM_CTRL (mask SDM_CMD_TRIGGER) (mask SDM_CMD_TRIGGER) ;;
  r ← regmap_read_poll_timeout (at_base M10BMC_PMCI_SDM_CTRL) (λ cmd, sdm_status cmd =? SDM_CMD_STATUS_IDLE) tries;
  rc (r : Z * (Z + Z)).1 ;;
  match r.2 with
  | inl e => throw e
  | inr cmd =>
      if negb (sdm_error cmd =? SDM_CMD_SUCC) then throw (- EIO) else
      r ← regmap_read_poll_timeout (at_base M10BMC_PMCI_SDM_CTRL) (λ cmd, has_bits SDM_CMD_DONE cmd) (2 * tries);
      rc (r : Z * (Z + Z)).1
  end.

(* drivers/fpga/intel-m10-bmc-sec-update.c:664-669 sdm_work *)
Definition sdm_work : M (bmc X) unit := _ ← status sdm_trigger_prov_data; mret tt.

Fixpoint read_regs (n : nat) (off : Z) : M (bmc X) (list Z) :=
  match n with
  | O => mret []
  | S n =>
      key ← sys_read off;
      keys ← read_regs n (u32 (off + 4));
      mret (key :: keys)
  end.
(** The words that are printed, when the work of [sdm_work] has run. *)
(* drivers/fpga/intel-m10-bmc-sec-update.c:671-695 show_sdm_root_entry_hash *)
Definition show_sdm_root_entry_hash (start : Z) : M (bmc X) (list Z) :=
  st ← sdm_check_config_status;
  if st <=? 0 then throw (- EIO) else
  read_regs SDM_ROOT_HASH_REG_NUM (u32 (base csr + start)).
(* drivers/fpga/intel-m10-bmc-sec-update.c:697-707 DEVICE_ATTR_SDM_SEC_REH_RO *)
Definition pr_sdm_root_entry_hash_show := show_sdm_root_entry_hash (pr_sdm_reh_reg csr).
(* drivers/fpga/intel-m10-bmc-sec-update.c:697-707 DEVICE_ATTR_SDM_SEC_REH_RO *)
Definition sr_sdm_root_entry_hash_show := show_sdm_root_entry_hash (sr_sdm_reh_reg csr).

(** The numbers of the keys that are printed: those whose bit is clear. *)
(* drivers/fpga/intel-m10-bmc-sec-update.c:715-737 show_canceled_csk *)
Definition show_canceled_csk (addr : Z) : M (bmc X) (list Z) :=
  let size := CSK_32ARRAY_SIZE * 4 in
  csk_le32 ← sec_read (uninit size) addr size;
  let csk_map := (λ i, negb (default false (bits_of csk_le32 !! Z.to_nat i))) in
  mret (filter (λ i, csk_map i = true) (seqZ 0 CSK_BIT_LEN)).
(* drivers/fpga/intel-m10-bmc-sec-update.c:739-751 DEVICE_ATTR_SEC_CSK_RO *)
Definition bmc_canceled_csks_show := show_canceled_csk (u32 (bmc_prog_addr csr + CSK_VEC_OFFSET)).
(* drivers/fpga/intel-m10-bmc-sec-update.c:739-751 DEVICE_ATTR_SEC_CSK_RO *)
Definition sr_canceled_csks_show := show_canceled_csk (u32 (sr_prog_addr csr + CSK_VEC_OFFSET)).
(* drivers/fpga/intel-m10-bmc-sec-update.c:739-751 DEVICE_ATTR_SEC_CSK_RO *)
Definition pr_canceled_csks_show := show_canceled_csk (u32 (pr_prog_addr csr + CSK_VEC_OFFSET)).

(* drivers/fpga/intel-m10-bmc-sec-update.c:759-772 show_sdm_canceled_csk *)
Definition show_sdm_canceled_csk (addr : Z) : M (bmc X) Z := sys_read (at_base addr).
(* drivers/fpga/intel-m10-bmc-sec-update.c:774-783 DEVICE_ATTR_SDM_SEC_CSK_RO *)
Definition pr_sdm_canceled_csks_show := show_sdm_canceled_csk (pr_sdm_csk_reg csr).
(* drivers/fpga/intel-m10-bmc-sec-update.c:774-783 DEVICE_ATTR_SDM_SEC_CSK_RO *)
Definition sr_sdm_canceled_csks_show := show_sdm_canceled_csk (sr_sdm_csk_reg csr).

(** [alloc]: the buffer is allocated. *)
(* drivers/fpga/intel-m10-bmc-sec-update.c:790-817 flash_count_show *)
Definition flash_count_show (alloc : bool) : M (bmc X) Z :=
  let num_bits := FLASH_COUNT_SIZE * 8 in
  if negb alloc then throw (- ENOMEM) else
  flash_buf ← sec_read (uninit FLASH_COUNT_SIZE) (rsu_update_counter csr) FLASH_COUNT_SIZE;
  mret (num_bits - count_true (bits_of flash_buf)).

Definition show_sdm_field (reg : Z) (f : field) : M (bmc X) Z :=
  status ← sys_read (at_base reg);
  mret (FIELD_GET f status).
(* drivers/fpga/intel-m10-bmc-sec-update.c:820-833 sdm_sr_provision_status_show *)
Definition sdm_sr_provision_status_show := show_sdm_field M10BMC_PMCI_SDM_SR_CTRL_STS PMCI_SDM_SR_PGM_ERROR.
(* drivers/fpga/intel-m10-bmc-sec-update.c:836-850 sdm_sr_cancel_status_show *)
Definition sdm_sr_cancel_status_show := show_sdm_field M10BMC_PMCI_SDM_SR_CNCL_CTRL_STS PMCI_SDM_SR_CNCL_ERROR.
(* drivers/fpga/intel-m10-bmc-sec-update.c:853-866 sdm_pr_provision_status_show *)
Definition sdm_pr_provision_status_show := show_sdm_field M10BMC_PMCI_SDM_PR_CTRL_STS PMCI_SDM_PR_PGM_ERROR.
(* drivers/fpga/intel-m10-bmc-sec-update.c:869-883 sdm_pr_cancel_status_show *)
Definition sdm_pr_cancel_status_show := show_sdm_field M10BMC_PMCI_SDM_PR_CNCL_CTRL_STS PMCI_SDM_PR_CNCL_ERROR.

(** ** Which attributes a board has: the mode of each *)

(* drivers/fpga/intel-m10-bmc-sec-update.c:905-922 m10bmc_security_attrs *)
Definition m10bmc_security_attrs : list string :=
  ["flash_count"; "bmc_root_entry_hash"; "sr_root_entry_hash"; "pr_root_entry_hash"; "sr_canceled_csks";
   "pr_canceled_csks"; "bmc_canceled_csks"; "sdm_sr_provision_status"; "sdm_sr_cancel_status";
   "sdm_pr_provision_status"; "sdm_pr_cancel_status"; "pr_sdm_root_entry_hash"; "pr_sdm_canceled_csks";
   "sr_sdm_root_entry_hash"; "sr_sdm_canceled_csks"]%string.
(* drivers/fpga/intel-m10-bmc-sec-update.c:886-903 m10bmc_security_is_visible *)
Definition m10bmc_security_is_visible (ops : m10bmc_sec_ops X) (attr : string) (mode : Z) : Z :=
  if negb (sec_visible ops) &&
     bool_decide (attr ∈ (["sdm_sr_provision_status"; "sdm_sr_cancel_status"; "sdm_pr_provision_status";
       "sdm_pr_cancel_status"; "pr_sdm_root_entry_hash"; "pr_sdm_canceled_csks"; "sr_sdm_root_entry_hash";
       "sr_sdm_canceled_csks"]%string : list string))
  then 0 else mode.
(* drivers/fpga/intel-m10-bmc-sec-update.c:1179-1186 m10bmc_control_attrs *)
Definition m10bmc_control_attrs : list string :=
  ["available_images"; "image_load"; "power_on_image"; "available_power_on_images"; "fpga_boot_image"]%string.
(* drivers/fpga/intel-m10-bmc-sec-update.c:1165-1177 m10bmc_image_is_visible *)
Definition m10bmc_image_is_visible (ops : m10bmc_sec_ops X) (attr : string) (mode : Z) : Z :=
  match poc ops with
  | None =>
      if bool_decide (attr ∈ (["power_on_image"; "available_power_on_images"; "fpga_boot_image"]%string : list string))
      then 0 else mode
  | Some _ => mode
  end.

(** ** The boards *)

(* drivers/fpga/intel-m10-bmc-sec-update.c:1584-1587 m10sec_n3000_ops *)
Definition m10sec_n3000_ops : m10bmc_sec_ops X :=
  let status_ops := SecOps _ _ (m10bmc_sec_n3000_rsu_status info) [] None false in
  {| rsu_status := m10bmc_sec_n3000_rsu_status info; image_load := n3000_image_load_hndlrs info tries status_ops;
     poc := None; sec_visible := false |}.
(* drivers/fpga/intel-m10-bmc-sec-update.c:1589-1592 m10sec_d5005_ops *)
Definition m10sec_d5005_ops : m10bmc_sec_ops X :=
  {| rsu_status := m10bmc_sec_n3000_rsu_status info; image_load := d5005_image_load_hndlrs info;
     poc := None; sec_visible := false |}.
(* drivers/fpga/intel-m10-bmc-sec-update.c:1594-1599 m10sec_n6000_ops *)
Definition m10sec_n6000_ops : m10bmc_sec_ops X :=
  {| rsu_status := m10bmc_sec_n6000_rsu_status info; image_load := n6000_image_load_hndlrs info;
     poc := Some (pmci_power_on_image info tries); sec_visible := true |}.
(* drivers/fpga/intel-m10-bmc-sec-update.c:1691-1709 intel_m10bmc_sec_ids *)
Definition intel_m10bmc_sec_ids : list (string * m10bmc_sec_ops X) :=
  [("n3000bmc-sec-update", m10sec_n3000_ops); ("d5005bmc-sec-update", m10sec_d5005_ops);
   ("n5010bmc-sec-update", m10sec_d5005_ops); ("n6000bmc-sec-update", m10sec_n6000_ops)]%string.
End Hash.
