(* ===== verification/SecExamples.v ===== *)
(** * Secure updates: concrete runs

    A small device with its firmware, for which the theorems of [ImageLoadFacts],
    [Pmci], [SecFlash] and [SecImages] are applied; and runs that show what
    happens where their hypotheses do not hold. *)
From stdpp Require Import gmap gmultiset strings.
From S2P Require Import Prelude Text Bytes Mmio M10Bmc Pmci ImageLoad ImageLoadFacts SecUpdate SecUpload SecFlash SecImages SecHash.

(** ** A device

    A register map of two registers: the doorbell, whose firmware is ready at once
    and done as soon as it is told that the image is written; and the multiplexer of
    the flash, which follows the request. *)
Definition demo_firmware (v : Z) : Z :=
  if has_bits DRBL_RSU_REQUEST v then FIELD_PREP DRBL_RSU_PROGRESS RSU_PROG_READY
  else if FIELD_GET DRBL_HOST_STATUS v =? HOST_STATUS_WRITE_DONE then FIELD_PREP DRBL_RSU_PROGRESS RSU_PROG_RSU_DONE
  else if FIELD_GET DRBL_HOST_STATUS v =? HOST_STATUS_ABORT_RSU then 0
  else v.
Definition demo_mux (v : Z) : Z :=
  if has_bits M10BMC_N6000_FLASH_HOST_REQUEST v then FIELD_PREP M10BMC_N6000_FLASH_MUX_SELECTION M10BMC_N6000_FLASH_MUX_HOST else 0.
Definition demo_update (reg msk val : Z) (d : Z * Z) : Z * (Z * Z) :=
  if reg =? M10BMC_N6000_FLASH_MUX_CTRL then (0, (d.1, demo_mux val))
  else (0, (demo_firmware (Z.lor (Z.land d.1 (Z.lnot msk)) val), d.2)).
#[local] Instance demo_map : Regmap := {|
  rm := Z * Z;
  rm_read reg d := (0, if reg =? M10BMC_N6000_FLASH_MUX_CTRL then d.2 else d.1, d);
  rm_write reg v d := (0, d);
  rm_update_bits := demo_update;
  rm_bulk_write reg bytes d := (0, d);
  rm_bulk_read reg n d := (0, replicate (Z.to_nat n) 7, d);
|}.
#[local] Instance demo_img : ImgKernel := {|
  imk := unit;
  img_vzalloc _ k := (true, k);
  img_eventfd_ctx_fdget fd k := (if fd =? 9 then inr (-9) else inl (100 + fd), k);
|}.
(** A PMCI whose FIFO is always empty and gives the same word at each read. *)
#[local] Instance demo_pmci : MmioHw := {|
  hw := unit;
  hw_read addr d := (if addr =? 0x1000 + M10BMC_N6000_FLASH_FIFO then 0x04030201
                     else FIELD_PREP M10BMC_N6000_FLASH_FIFO_SPACE M10BMC_N6000_FIFO_MAX_WORDS, d);
  hw_write addr v d := d;
|}.

Definition demo_bmc {X} (x : X) : bmc X := Bmc _ _ ((0, 0) : rm) [] M10BMC_FW_STATE_NORMAL x.
Definition demo_flash (busy : bool) : m10bmc_pmci_device := PmciDev 0x1000 (Mm tt []) busy.
Definition demo_sec {X} (x : X) (async : list bool) : m10bmc_sec X := Sec _ _ (demo_bmc x) false async.
Definition demo_load {D} (d : D) : fpga_image_load D :=
  Imgld _ _ (tt : imk) false (Fwlp None 0 FW_UPLOAD_PROG_IDLE FW_UPLOAD_PROG_IDLE FW_UPLOAD_ERR_NONE None) false
    (Held 0 ∅ 0) [] d.
Definition demo_image : list Z := [1; 2; 3; 4; 5; 6; 7; 8].
Definition demo_user (data : list Z) (_ _ : Z) : option (list Z) := Some data.
Definition demo_write (data : list Z) : fpga_image_write := ImgWrite 0 (Z.of_nat (length data)) 3 0.
Definition d5005 {X} : m10bmc_sec_ops X := m10sec_d5005_ops m10bmc_spi_d5005.
Definition n6000 : m10bmc_sec_ops m10bmc_pmci_device := m10sec_n6000_ops m10bmc_pmci_n6000 3.
Definition run_state {S A} (s0 : S) (r : exec (outcome A * S)) : S := match r with Done (_, s) => s | _ => s0 end.

Lemma demo_bytes : Forall is_u8 demo_image.
Proof. apply Forall_forall. unfold demo_image, is_u8. intros b Hb. set_unfold. lia. Qed.
Lemma demo_idle {D} (d : D) : idle (demo_load d).
Proof. done. Qed.
Lemma d5005_status {X} : status_in m10bmc_spi_d5005 (d5005 (X := X)) M10BMC_N3000_DOORBELL DRBL_RSU_STATUS.
Proof. done. Qed.
Lemma n6000_status : status_in m10bmc_pmci_n6000 n6000 (auth_result m10bmc_n6000_csr_map) AUTH_RESULT_RSU_STATUS.
Proof. done. Qed.

(** ** Reading flash *)
Definition read_demo := m10bmc_pmci_flash_read 3 [9; 9; 9; 9; 9; 9] 0x400 4 (demo_bmc (demo_flash false)).

Lemma flash_read_exact_witness :
  ∃ s', read_demo = Done (Val [1; 2; 3; 4; 9; 9], s') ∧ flash_busy (bm_ext s') = false ∧
    ∃ l, mm_log (pmci_mm (bm_ext s')) = [] ++ l ∧ [1; 2; 3; 4; 9; 9] = (l ≫= fifo_out 0x1000) ++ [9; 9].
Proof.
  pose proof (flash_read_exact 3 [9; 9; 9; 9; 9; 9] 0x400 4 (demo_bmc (demo_flash false)) eq_refl ltac:(done)) as Hx. cbv zeta in Hx.
  destruct (wp_val _ _ _ _ [1; 2; 3; 4; 9; 9] Hx ltac:(vm_compute; reflexivity)) as (s' & He & (Hb & _) & _ & l & Hl & _ & Hbuf).
  exists s'. split; [exact He|]. split; [exact Hb|]. exists l. by split.
Defined.

(** ** Uploads *)
Definition spi_run (data : list Z) (async : list bool) :=
  (fpga_image_load_ioctl_write (Some (demo_write data)) (demo_user data) ;; set_queued false ;;
   fw_upload_main (m10bmc_ops m10bmc_spi_d5005 None d5005 3) 40) (demo_load (demo_sec tt async)).
Definition pmci_run (data : list Z) (async : list bool) :=
  (fpga_image_load_ioctl_write (Some (demo_write data)) (demo_user data) ;; set_queued false ;;
   fw_upload_main (m10bmc_ops m10bmc_pmci_n6000 (Some (m10bmc_pmci_flash_bulk_ops 3)) n6000 3) 40)
   (demo_load (demo_sec (demo_flash false) async)).
Definition err_code {D} (s : fpga_image_load D) := fw_err_code (il_fwlp s).

Example spi_run_good : err_code (run_state (demo_load (demo_sec tt [])) (spi_run demo_image [])) = FW_UPLOAD_ERR_NONE.
Proof. vm_compute. reflexivity. Qed.
Example pmci_run_good :
  err_code (run_state (demo_load (demo_sec (demo_flash false) [])) (pmci_run demo_image [])) = FW_UPLOAD_ERR_NONE.
Proof. vm_compute. reflexivity. Qed.
(** A user asks to cancel during the first write. *)
Example spi_run_canceled :
  err_code (run_state (demo_load (demo_sec tt [])) (spi_run demo_image [false; true])) = FW_UPLOAD_ERR_CANCELED.
Proof. vm_compute. reflexivity. Qed.

Lemma spi_update_exact_witness :
  ∃ s', spi_run demo_image [] = Done (Val tt, s') ∧ idle s' ∧
    ∃ l1 l2 l3, bm_log (sec_m10bmc (il_dd s')) = l1 ++ l2 ++ write_done m10bmc_spi_d5005 :: l3 ∧
      l2 ≫= staged_by = image_at demo_image 8 ∧ l3 ≫= staged_by = [] ∧
      reported_ok m10bmc_spi_d5005 M10BMC_N3000_DOORBELL DRBL_RSU_STATUS l3.
Proof.
  pose proof (spi_update_exact m10bmc_spi_d5005 d5005 3 demo_image M10BMC_N3000_DOORBELL DRBL_RSU_STATUS
    (demo_write demo_image) (demo_user demo_image) 40 (demo_load (demo_sec tt [])) d5005_status eq_refl ltac:(done)
    ltac:(cbn; lia) (demo_idle _) eq_refl eq_refl eq_refl) as Hx.
  destruct (wp_val _ _ _ _ tt Hx ltac:(vm_compute; reflexivity)) as (s' & He & Hi & _ & _ & Hok).
  exists s'. split; [exact He|]. split; [exact Hi|]. apply Hok. change (err_code s' = FW_UPLOAD_ERR_NONE).
  rewrite <- spi_run_good. unfold run_state. by rewrite (He : spi_run demo_image [] = _).
Defined.

Lemma pmci_update_exact_witness :
  ∃ s', pmci_run demo_image [] = Done (Val tt, s') ∧ let b := sec_m10bmc (il_dd s') in
    idle s' ∧ flash_busy (bm_ext b) = false ∧
    ∃ l1 l2, mm_log (pmci_mm (bm_ext b)) = l1 ++ l2 ∧ l2 ≫= fifo_in (pmci_base (bm_ext b)) = demo_image.
Proof.
  pose proof (pmci_update_exact (m10bmc_pmci_flash_bulk_ops 3) m10bmc_pmci_n6000 n6000 3 demo_image (auth_result m10bmc_n6000_csr_map) AUTH_RESULT_RSU_STATUS
    (demo_write demo_image) (demo_user demo_image) 40 (demo_load (demo_sec (demo_flash false) [])) (or_introl eq_refl) n6000_status eq_refl
    demo_bytes ltac:(done) ltac:(cbn; lia) (demo_idle _) I eq_refl eq_refl eq_refl) as Hx. cbv zeta in Hx.
  destruct (wp_val _ _ _ _ tt Hx ltac:(vm_compute; reflexivity)) as (s' & He & Hi & _ & Hb & _ & Hok).
  exists s'. split; [exact He|]. split_and!; [exact Hi|exact Hb|]. apply Hok. change (err_code s' = FW_UPLOAD_ERR_NONE).
  rewrite <- pmci_run_good. unfold run_state. by rewrite (He : pmci_run demo_image [] = _).
Defined.

#[local] Instance demo_flash_ok : SecFlashOk (X := unit) None demo_image := spi_flash_ok demo_image eq_refl eq_refl.
#[local] Instance demo_upload_ok : FwUploadOk (m10bmc_ops m10bmc_spi_d5005 None d5005 3) demo_image :=
  sec_upload_ok m10bmc_spi_d5005 None d5005 3 demo_image M10BMC_N3000_DOORBELL DRBL_RSU_STATUS d5005_status.
Lemma upload_ends_witness :
  ∃ s', spi_run demo_image [] = Done (Val tt, s') ∧ idle s' ∧ fu_ready (il_dd s') ∧ ∃ c, il_signals s' = [c].
Proof.
  pose proof (upload_ends (m10bmc_ops m10bmc_spi_d5005 None d5005 3) demo_image (Some (demo_write demo_image)) (demo_user demo_image) 40
    (demo_load (demo_sec tt [])) (demo_idle _) (conj I eq_refl) ltac:(done) ltac:(cbn; lia)
    ltac:(intros w dat [= <-] Hdat; vm_compute in Hdat; by injection Hdat as <-)) as Hx.
  destruct (wp_val _ _ _ _ tt Hx ltac:(vm_compute; reflexivity)) as (s' & He & Hi & _ & _ & Hr & (c & Hc) & _).
  exists s'. split_and!; [exact He|exact Hi|exact Hr|]. exists c. exact Hc.
Defined.

(** ** Users and worker together *)
Definition after {S A} (m : M S A) (s : S) : S := run_state s (m s).
Lemma run_val {S A} (m : M S A) (s : S) a : val_of (m s) = Some a → m s = Done (Val a, after m s).
Proof. unfold after. destruct (m s) as [[[] ?]| |]; cbn; congruence. Qed.

Definition demo_ops : fw_upload_ops (m10bmc_sec unit) := m10bmc_ops m10bmc_spi_d5005 None d5005 3.
#[local] Instance demo_safe : FwOpsSafe demo_ops :=
  sec_ops_safe m10bmc_spi_d5005 None d5005 3 M10BMC_N3000_DOORBELL DRBL_RSU_STATUS d5005_status.
Definition write_cmd (data : list Z) (fd : Z) : image_ioctl :=
  FPGA_IMAGE_LOAD_WRITE (Some (ImgWrite 0 (Z.of_nat (length data)) fd 0)) (demo_user data).
Definition ioctl (cmd : image_ioctl) : M (fpga_image_load (m10bmc_sec unit)) _ := fpga_image_load_ioctl demo_ops cmd.

Definition dev0 : fpga_image_load (m10bmc_sec unit) := demo_load (demo_sec tt []).
Definition dev_open := after fpga_image_load_open dev0.
Definition dev_written := after (ioctl (write_cmd demo_image 3)) dev_open.
Definition dev_started := after (set_queued false) dev_written.
Definition dev_prepared := after (worker_step demo_ops PcPrepare) dev_started.
Definition sys0 : system (m10bmc_sec unit) := Sys dev0 PcIdle FileClosed.

Lemma open_step : fpga_image_load_open dev0 = Done (Val tt, dev_open).
Proof. exact (run_val fpga_image_load_open dev0 tt eq_refl). Qed.
Lemma write_val : val_of (ioctl (write_cmd demo_image 3) dev_open) = Some None.
Proof. vm_compute. reflexivity. Qed.
Lemma write_step : ioctl (write_cmd demo_image 3) dev_open = Done (Val None, dev_written).
Proof. exact (run_val _ _ _ write_val). Qed.
Lemma written_queued : il_queued dev_written = true.
Proof. vm_compute. reflexivity. Qed.
Lemma start_step : set_queued false dev_written = Done (Val tt, dev_started).
Proof. exact (run_val (set_queued false) dev_written tt eq_refl). Qed.
Lemma prepare_val : val_of (worker_step demo_ops PcPrepare dev_started) = Some (PcLoop 0 0).
Proof. vm_compute. reflexivity. Qed.
Lemma prepare_step : worker_step demo_ops PcPrepare dev_started = Done (Val (PcLoop 0 0), dev_prepared).
Proof. exact (run_val _ _ _ prepare_val). Qed.
Lemma open_idle : il_queued dev_open = false.
Proof. vm_compute. reflexivity. Qed.

Definition sys_prepared : system (m10bmc_sec unit) := Sys dev_prepared (PcLoop 0 0) FileOpen.

Lemma write_ok (s : fpga_image_load (m10bmc_sec unit)) f :
  il_queued s = false → label_ok (Sys s PcIdle f) (LIoctl (write_cmd demo_image 3)).
Proof. intros Hq. split; [done|]. split; [done|]. by intros w data [= <-] [= <-]. Qed.
Lemma prepared_reachable : reachable demo_ops sys0 sys_prepared.
Proof.
  eapply (reach_step _ _ LWork); [|done|exact (step_work _ dev_started PcPrepare (PcLoop 0 0) dev_prepared FileOpen ltac:(discriminate) prepare_step)].
  eapply (reach_step _ _ LStart); [|done|exact (step_start _ _ _ FileOpen written_queued start_step)].
  eapply (reach_step _ _ (LIoctl (write_cmd demo_image 3)));
    [| |exact (step_ioctl _ (write_cmd demo_image 3) _ _ PcIdle _ write_step)].
  - eapply (reach_step _ _ LOpen); [constructor|done|exact (step_open _ _ PcIdle _ open_step)].
  - exact (write_ok _ _ open_idle).
Qed.
Lemma uploads_interleaved_witness :
  sys_inv demo_ops sys0 ∧ sys_inv demo_ops sys_prepared ∧ sys_pc sys_prepared = PcLoop 0 0 ∧
  ∃ pc' s', worker_step demo_ops (sys_pc sys_prepared) (sys_dev sys_prepared) = Done (Val pc', s').
Proof.
  assert (sys_inv demo_ops sys0) as H0. { repeat split. by left. }
  pose proof (uploads_interleaved demo_ops sys0 sys_prepared H0 prepared_reachable) as Hx.
  exact (conj H0 (conj (proj1 Hx) (conj eq_refl (proj1 (proj2 Hx) ltac:(discriminate))))).
Defined.

(** *** Requests to write that come while the worker is not done

    The device after a sequence of requests and pieces of the worker. *)
Inductive demo_event := EvIoctl (cmd : image_ioctl) | EvStart | EvWork.
Fixpoint demo_run (l : list demo_event) (y : fpga_image_load (m10bmc_sec unit) * worker_pc) :
    option (fpga_image_load (m10bmc_sec unit) * worker_pc) :=
  match l with
  | [] => Some y
  | e :: l =>
      match e with
      | EvIoctl cmd => demo_run l (after (ioctl cmd) y.1, y.2)
      | EvStart => demo_run l (after (set_queued false) y.1, PcPrepare)
      | EvWork =>
          match worker_step demo_ops y.2 y.1 with
          | Done (Val pc, s) => demo_run l (s, pc)
          | _ => None
          end
      end
  end.
Definition demo_events (l : list demo_event) := demo_run l (dev_open, PcIdle).
Definition show (r : option (fpga_image_load (m10bmc_sec unit) * worker_pc)) :=
  r ≫= λ y, Some (y.2, il_queued y.1, h_bufs (il_held y.1), size (h_ctxs (il_held y.1)), h_parent (il_held y.1),
    fw_finished (il_fwlp y.1), il_signals y.1).
Abbreviation upload := [EvStart; EvWork; EvWork; EvWork; EvWork; EvWork; EvWork; EvWork; EvWork].

(** One upload, undisturbed: everything is given back. *)
Example one_upload :
  show (demo_events (EvIoctl (write_cmd demo_image 3) :: upload)) = Some (PcIdle, false, 0, 0%nat, 0, None, [103]).
Proof. vm_compute. reflexivity. Qed.

(** A second write while the first is queued: its data replace those of the first,
    whose buffer, context and reference to the parent are never given back. *)
Example second_write_leaks :
  show (demo_events (EvIoctl (write_cmd demo_image 3) :: EvIoctl (write_cmd demo_image 4) :: upload)) =
    Some (PcIdle, false, 1, 1%nat, 1, None, [104]).
Proof. vm_compute. reflexivity. Qed.

(** A second write that fails, with a bad descriptor, takes away the context of the
    upload that is in progress: its completion uses a null pointer. *)
Example failing_write_faults :
  show (demo_events [EvIoctl (write_cmd demo_image 3); EvStart; EvWork; EvWork; EvIoctl (write_cmd demo_image 9);
    EvWork; EvWork; EvWork; EvWork]) = Some (PcComplete, false, 0, 1%nat, 0, None, []) ∧
  demo_events [EvIoctl (write_cmd demo_image 3); EvStart; EvWork; EvWork; EvIoctl (write_cmd demo_image 9);
    EvWork; EvWork; EvWork; EvWork; EvWork] = None.
Proof. vm_compute. by split. Qed.

(** A write that comes when the completion has been signalled, and before the worker
    drops its context: the worker drops the new one, and the next upload faults. *)
Example early_write_faults :
  let early := [EvIoctl (write_cmd demo_image 3); EvStart; EvWork; EvWork; EvWork; EvWork; EvWork; EvWork; EvWork;
    EvIoctl (write_cmd demo_image 4); EvWork] in
  show (demo_events early) = Some (PcIdle, true, 1, 1%nat, 1, None, [103]) ∧
  show (demo_events (early ++ take 7 upload)) = Some (PcComplete, false, 0, 1%nat, 0, None, [103]) ∧
  demo_events (early ++ take 8 upload) = None.
Proof. vm_compute. by split_and!. Qed.

(** A user asks to cancel after the write and before the worker starts: the request
    is accepted and forgotten. *)
Example early_cancel_is_lost :
  let run := demo_events (EvIoctl (write_cmd demo_image 3) :: EvIoctl FPGA_IMAGE_LOAD_CANCEL :: upload) in
  val_of (ioctl FPGA_IMAGE_LOAD_CANCEL dev_written) = Some None ∧
  run ≫= (λ y, Some (fw_err_code (il_fwlp y.1))) = Some FW_UPLOAD_ERR_NONE.
Proof. vm_compute. by split. Qed.

(** ** Images that are not a whole number of words *)

(** What is staged by the write of the second block of an image of one block and
    three bytes: its bytes come from the start of the image. *)
Definition tagged_image : list Z := replicate (Z.to_nat 0x4000) 0xaa ++ [0x11; 0x22; 0x33].
Example spi_tail_from_start :
  let s := run_state (demo_bmc tt) (m10bmc_sec_write None tagged_image 0x4000 3 (demo_bmc tt)) in
  bm_log s ≫= staged_by = zip (seqZ (M10BMC_STAGING_BASE + 0x4000) 4) [0xaa; 0xaa; 0xaa; 0].
Proof. vm_compute. reflexivity. Qed.

(** Through the PMCI the last byte of five is not written at all, and the call
    succeeds. *)
Example pmci_write_drops_tail :
  let r := m10bmc_pmci_flash_write 3 [1; 2; 3; 4; 5] 0 5 (demo_bmc (demo_flash true)) in
  val_of r = Some tt ∧
  mm_log (pmci_mm (bm_ext (run_state (demo_bmc (demo_flash true)) r))) ≫= fifo_in 0x1000 = [1; 2; 3; 4].
Proof. vm_compute. by split. Qed.

(** The last byte of five is not read, and the flash stays in read mode. *)
Example pmci_read_drops_tail :
  let r := m10bmc_pmci_flash_read 3 [9; 9; 9; 9; 9] 0 5 (demo_bmc (demo_flash false)) in
  val_of r = Some [1; 2; 3; 4; 9] ∧
  bool_decide (MmioWrite (0x1000 + M10BMC_N6000_FLASH_CTRL) 0 ∈
    mm_log (pmci_mm (bm_ext (run_state (demo_bmc (demo_flash false)) r)))) = false.
Proof. vm_compute. by split. Qed.

(** ** Images at power on and retimers *)

(** Registers that serve both: a request for an order of images is granted at once;
    the retimers are loaded at once, and the doorbell can be read only twice. *)
#[local] Instance worn_map : Regmap := {|
  rm := nat;
  rm_read reg n :=
    if reg =? M10BMC_PMCI_FPGA_POC then (0, FIELD_PREP PMCI_NIOS_STATUS NIOS_STATUS_SUCCESS, n)
    else if reg =? M10BMC_N3000_SYS_BASE + M10BMC_PKVL_POLL_CTRL then (0, M10BMC_PKVL_UPG_STATUS_GOOD, n)
    else match n with S n => (0, 0, n) | O => (-5, 0, n) end;
  rm_write reg v n := (0, n);
  rm_update_bits reg msk v n := (0, n);
  rm_bulk_write reg bytes n := (0, n);
  rm_bulk_read reg k n := (0, [], n);
|}.
Definition worn_bmc : bmc unit := Bmc _ _ (2%nat : rm) [] M10BMC_FW_STATE_NORMAL tt.
Definition poc_store (t : text) : M (bmc unit) Z := power_on_image_store (pmci_power_on_image m10bmc_pmci_n6000 3) true t.

Example power_on_accepted :
  val_of (poc_store (lit "fpga_user2 fpga_user1") worn_bmc) = Some 21 ∧
  bm_log (run_state worn_bmc (poc_store (lit "fpga_user2 fpga_user1") worn_bmc)) =
    [poc_request m10bmc_pmci_n6000 (Z.lor (FIELD_PREP PMCI_USER_IMAGE_PAGE POC_USER_IMAGE_2) (mask PMCI_FPGA_POC)) 0;
     RegRead M10BMC_PMCI_FPGA_POC 0 (FIELD_PREP PMCI_NIOS_STATUS NIOS_STATUS_SUCCESS)] ∧
  err_of (poc_store (lit "fpga_user2 fpga_factory") worn_bmc) = Some (- EINVAL) ∧
  err_of (poc_store (lit "fpga_user2 fpga_user2") worn_bmc) = Some (- EINVAL).
Proof. vm_compute. by split_and!. Qed.

(** The same text as a line is refused. *)
Example power_on_line_refused : err_of (poc_store (lit "fpga_user2 fpga_user1" ++ [newline]) worn_bmc) = Some (- EINVAL).
Proof. vm_compute. reflexivity. Qed.

(** The doorbell can not be read any more while the retimers load: the load is
    reported as a success all the same. *)
Definition n3000 : m10bmc_sec_ops unit := m10sec_n3000_ops m10bmc_spi_n3000 3.
Definition failed_load := run_state worn_bmc (m10bmc_sec_retimer_eeprom_load m10bmc_spi_n3000 3 n3000 worn_bmc).
Example retimer_load_unread :
  val_of (m10bmc_sec_retimer_eeprom_load m10bmc_spi_n3000 3 n3000 worn_bmc) = Some tt ∧
  bm_log failed_load !! 3%nat = Some (RegRead (M10BMC_N3000_SYS_BASE + M10BMC_N3000_DOORBELL) (-5) 0).
Proof. vm_compute. by split. Qed.
