(* ===== verification/Hwmon.v ===== *)
(** * Sensors of a card (drivers/hwmon/intel-m10-bmc-hwmon.c)

    The sensors are registers of the BMC; a table per board says which, and a list of
    channels which of their attributes user space sees. *)
From Stdlib Require Import Ascii String.
From stdpp Require Import strings.
From S2P Require Import Prelude Text M10Bmc.

Definition ENODATA : Z := 61.

(** ** Data *)

(** The types of sensors that the driver knows, and all others by number. *)
Inductive hwmon_sensor_types := hwmon_temp | hwmon_in | hwmon_curr | hwmon_power | hwmon_type (n : nat).
#[export] Instance hwmon_sensor_types_eq : EqDecision hwmon_sensor_types.
Proof. solve_decision. Defined.
(** The attributes of a sensor, by what their names of the different types have in
    common, and all others by number. *)
Inductive hwmon_attr := HInput | HMax | HMaxHyst | HCrit | HCritHyst | HMin | HLabel | HAttr (n : nat).
#[export] Instance hwmon_attr_eq : EqDecision hwmon_attr.
Proof. solve_decision. Defined.

(* drivers/hwmon/intel-m10-bmc-hwmon.c:15-23 m10bmc_sdata *)
Record m10bmc_sdata := SData {
  reg_input : Z;
  reg_max : Z;
  reg_crit : Z;
  reg_hyst : Z;
  reg_min : Z;
  multiplier : Z;
  label : string;
}.

(** The channels of a type, by the attributes each has. *)
Record hwmon_channel_info := HWMON_CHANNEL_INFO { hc_type : hwmon_sensor_types; hc_config : list (list hwmon_attr) }.

(** The tables are listed with their index. *)
(* drivers/hwmon/intel-m10-bmc-hwmon.c:25-28 m10bmc_hwmon_board_data *)
Record m10bmc_hwmon_board_data := BoardData {
  tables : list (hwmon_sensor_types * list m10bmc_sdata);
  hinfo : list hwmon_channel_info;
}.
Definition table (b : m10bmc_hwmon_board_data) (type : hwmon_sensor_types) : option (list m10bmc_sdata) :=
  snd <$> head (filter (λ t, t.1 = type) (tables b)).

(** ** Operations *)
Section Hwmon.
Context `{Regmap} {X : Type} (info : intel_m10bmc_platform_info) (bdata : m10bmc_hwmon_board_data).

(** 0444 *)
(* drivers/hwmon/intel-m10-bmc-hwmon.c:957-962 m10bmc_hwmon_is_visible *)
Definition m10bmc_hwmon_is_visible (type : hwmon_sensor_types) (attr : hwmon_attr) (channel : nat) : Z := 292.

(** A pointer into the table, which the users of it read through. *)
(* drivers/hwmon/intel-m10-bmc-hwmon.c:964-975 find_sensor_data *)
Definition find_sensor_data (type : hwmon_sensor_types) (channel : nat) : M (bmc X) (option m10bmc_sdata) :=
  match table bdata type with
  | None => throw (- EOPNOTSUPP)
  | Some tbl => mret (tbl !! channel)
  end.

(* drivers/hwmon/intel-m10-bmc-hwmon.c:977-1001 do_sensor_read *)
Definition do_sensor_read (data : m10bmc_sdata) (regoff : Z) : M (bmc X) Z :=
  regval ← m10bmc_sys_read info regoff;
  if regval =? 0xdeadbeef then throw (- ENODATA) else
  mret (u32 (regval * multiplier data)).

(** The field with the register of an attribute, and whether the hysteresis is
    subtracted. *)
(* drivers/hwmon/intel-m10-bmc-hwmon.c:1016-1082 m10bmc_hwmon_read *)
Definition sensor_field (type : hwmon_sensor_types) (attr : hwmon_attr) : option ((m10bmc_sdata → Z) * bool) :=
  match type with
  | hwmon_temp =>
      match attr with
      | HInput => Some (reg_input, false)
      | HMaxHyst => Some (reg_max, true)
      | HMax => Some (reg_max, false)
      | HCritHyst => Some (reg_crit, true)
      | HCrit => Some (reg_crit, false)
      | _ => None
      end
  | hwmon_in =>
      match attr with
      | HInput => Some (reg_input, false)
      | HMax => Some (reg_max, false)
      | HCrit => Some (reg_crit, false)
      | HMin => Some (reg_min, false)
      | _ => None
      end
  | hwmon_curr =>
      match attr with
      | HInput => Some (reg_input, false)
      | HMax => Some (reg_max, false)
      | HCrit => Some (reg_crit, false)
      | _ => None
      end
  | hwmon_power => match attr with HInput => Some (reg_input, false) | _ => None end
  | hwmon_type _ => None
  end.
(* drivers/hwmon/intel-m10-bmc-hwmon.c:1003-1102 m10bmc_hwmon_read *)
Definition m10bmc_hwmon_read (type : hwmon_sensor_types) (attr : hwmon_attr) (channel : nat) : M (bmc X) Z :=
  data ← find_sensor_data type channel;
  match sensor_field type attr with
  | None => throw (- EOPNOTSUPP)
  | Some (field, with_hyst) =>
      data ← access data;
      let reg := field data in
      let hyst := if (with_hyst : bool) then reg_hyst data else 0 in
      if reg =? 0 then throw (- EOPNOTSUPP) else
      value ← do_sensor_read data reg;
      if negb (hyst =? 0) then
        hyst ← do_sensor_read data hyst;
        mret (value - hyst)
      else mret value
  end.

(* drivers/hwmon/intel-m10-bmc-hwmon.c:1104-1118 m10bmc_hwmon_read_string *)
Definition m10bmc_hwmon_read_string (type : hwmon_sensor_types) (attr : hwmon_attr) (channel : nat) : M (bmc X) string :=
  data ← find_sensor_data type channel;
  data ← access data;
  mret (label data).

(** What user space may ask for. *)
Definition advertised (type : hwmon_sensor_types) (attr : hwmon_attr) (channel : nat) : bool :=
  existsb (λ h, bool_decide (hc_type h = type) &&
    match hc_config h !! channel with Some attrs => bool_decide (attr ∈ attrs) | None => false end) (hinfo bdata).
End Hwmon.

(** The name of the device, with [hwmon_is_bad_char]. *)
(* drivers/hwmon/intel-m10-bmc-hwmon.c:1145-1151 m10bmc_hwmon_probe *)
Definition hwmon_name (hwmon_is_bad_char : ascii → bool) (name : text) : text :=
  (λ c, if hwmon_is_bad_char c then "_"%char else c) <$> name.
