(* ===== verification/HwmonBoards.v ===== *)
(** * Sensors of the boards (drivers/hwmon/intel-m10-bmc-hwmon.c)

    The tables of the sensors and of their channels. *)
From stdpp Require Import strings list sets.
From S2P Require Import Prelude Text M10Bmc Hwmon.

(* drivers/hwmon/intel-m10-bmc-hwmon.c:38-47 n3000bmc_temp_tbl *)
Definition n3000bmc_temp_tbl : list m10bmc_sdata := [
   SData 0x100 0x104 0x108 0x10c 0 500 "Board Temperature";
   SData 0x110 0x114 0x118 0 0 500 "FPGA Die Temperature";
   SData 0x11c 0x124 0x120 0 0 500 "QSFP0 Temperature";
   SData 0x12c 0x134 0x130 0 0 500 "QSFP1 Temperature";
   SData 0x168 0 0 0 0 500 "Retimer A Temperature";
   SData 0x16c 0 0 0 0 500 "Retimer A SerDes Temperature";
   SData 0x170 0 0 0 0 500 "Retimer B Temperature";
   SData 0x174 0 0 0 0 500 "Retimer B SerDes Temperature"]%string.

(* drivers/hwmon/intel-m10-bmc-hwmon.c:49-58 n3000bmc_in_tbl *)
Definition n3000bmc_in_tbl : list m10bmc_sdata := [
   SData 0x128 0 0 0 0 1 "QSFP0 Supply Voltage";
   SData 0x138 0 0 0 0 1 "QSFP1 Supply Voltage";
   SData 0x13c 0 0 0 0 1 "FPGA Core Voltage";
   SData 0x144 0 0 0 0 1 "12V Backplane Voltage";
   SData 0x14c 0 0 0 0 1 "1.2V Voltage";
   SData 0x150 0 0 0 0 1 "12V AUX Voltage";
   SData 0x158 0 0 0 0 1 "1.8V Voltage";
   SData 0x15c 0 0 0 0 1 "3.3V Voltage"]%string.

(* drivers/hwmon/intel-m10-bmc-hwmon.c:60-64 n3000bmc_curr_tbl *)
Definition n3000bmc_curr_tbl : list m10bmc_sdata := [
   SData 0x140 0 0 0 0 1 "FPGA Core Current";
   SData 0x148 0 0 0 0 1 "12V Backplane Current";
   SData 0x154 0 0 0 0 1 "12V AUX Current"]%string.

(* drivers/hwmon/intel-m10-bmc-hwmon.c:66-68 n3000bmc_power_tbl *)
Definition n3000bmc_power_tbl : list m10bmc_sdata := [
   SData 0x160 0 0 0 0 1000 "Board Power"]%string.

(* drivers/hwmon/intel-m10-bmc-hwmon.c:70-100 n3000bmc_hinfo *)
Definition n3000bmc_hinfo : list hwmon_channel_info := [
   HWMON_CHANNEL_INFO hwmon_temp [
     [HInput; HMax; HMaxHyst; HCrit; HCritHyst; HLabel]; [HInput; HMax; HCrit; HLabel];
     [HInput; HMax; HCrit; HLabel]; [HInput; HMax; HCrit; HLabel]; [HInput; HLabel]; [HInput; HLabel];
     [HInput; HLabel]; [HInput; HLabel]];
   HWMON_CHANNEL_INFO hwmon_in [
     [HInput; HLabel]; [HInput; HLabel]; [HInput; HLabel]; [HInput; HLabel]; [HInput; HLabel];
     [HInput; HLabel]; [HInput; HLabel]; [HInput; HLabel]];
   HWMON_CHANNEL_INFO hwmon_curr [
     [HInput; HLabel]; [HInput; HLabel]; [HInput; HLabel]];
   HWMON_CHANNEL_INFO hwmon_power [
     [HInput; HLabel]]].

(* drivers/hwmon/intel-m10-bmc-hwmon.c:102-120 d5005bmc_temp_tbl *)
Definition d5005bmc_temp_tbl : list m10bmc_sdata := [
   SData 0x100 0x104 0x108 0x10c 0 500 "Board Inlet Air Temperature";
   SData 0x110 0x114 0x118 0 0 500 "FPGA Core Temperature";
   SData 0x11c 0x120 0x124 0x128 0 500 "Board Exhaust Air Temperature";
   SData 0x12c 0x130 0x134 0 0 500 "FPGA Transceiver Temperature";
   SData 0x138 0x13c 0x140 0x144 0 500 "RDIMM0 Temperature";
   SData 0x148 0x14c 0x150 0x154 0 500 "RDIMM1 Temperature";
   SData 0x158 0x15c 0x160 0x164 0 500 "RDIMM2 Temperature";
   SData 0x168 0x16c 0x170 0x174 0 500 "RDIMM3 Temperature";
   SData 0x178 0x17c 0x180 0 0 500 "QSFP0 Temperature";
   SData 0x188 0x18c 0x190 0 0 500 "QSFP1 Temperature";
   SData 0x1a0 0x1a4 0x1a8 0 0 500 "3.3v Temperature";
   SData 0x1bc 0x1c0 0x1c4 0 0 500 "VCCERAM Temperature";
   SData 0x1d8 0x1dc 0x1e0 0 0 500 "VCCR Temperature";
   SData 0x1f4 0x1f8 0x1fc 0 0 500 "VCCT Temperature";
   SData 0x210 0x214 0x218 0 0 500 "1.8v Temperature";
   SData 0x22c 0x230 0x234 0 0 500 "12v Backplane Temperature";
   SData 0x248 0x24c 0x250 0 0 500 "12v AUX Temperature"]%string.

(* drivers/hwmon/intel-m10-bmc-hwmon.c:122-133 d5005bmc_in_tbl *)
Definition d5005bmc_in_tbl : list m10bmc_sdata := [
   SData 0x184 0 0 0 0 1 "QSFP0 Supply Voltage";
   SData 0x194 0 0 0 0 1 "QSFP1 Supply Voltage";
   SData 0x198 0 0 0 0 1 "FPGA Core Voltage";
   SData 0x1ac 0x1b0 0x1b4 0 0 1 "3.3v Voltage";
   SData 0x1c8 0x1cc 0x1d0 0 0 1 "VCCERAM Voltage";
   SData 0x1e4 0x1e8 0x1ec 0 0 1 "VCCR Voltage";
   SData 0x200 0x204 0x208 0 0 1 "VCCT Voltage";
   SData 0x21c 0x220 0x224 0 0 1 "1.8v Voltage";
   SData 0x238 0 0 0 0x23c 1 "12v Backplane Voltage";
   SData 0x254 0 0 0 0x258 1 "12v AUX Voltage"]%string.

(* drivers/hwmon/intel-m10-bmc-hwmon.c:135-144 d5005bmc_curr_tbl *)
Definition d5005bmc_curr_tbl : list m10bmc_sdata := [
   SData 0x19c 0 0 0 0 1 "FPGA Core Current";
   SData 0x1b8 0 0 0 0 1 "3.3v Current";
   SData 0x1d4 0 0 0 0 1 "VCCERAM Current";
   SData 0x1f0 0 0 0 0 1 "VCCR Current";
   SData 0x20c 0 0 0 0 1 "VCCT Current";
   SData 0x228 0 0 0 0 1 "1.8v Current";
   SData 0x240 0x244 0 0 0 1 "12v Backplane Current";
   SData 0x25c 0x260 0 0 0 1 "12v AUX Current"]%string.

(* drivers/hwmon/intel-m10-bmc-hwmon.c:146-155 n3000bmc_hwmon_bdata *)
Definition n3000bmc_hwmon_bdata : m10bmc_hwmon_board_data :=
  BoardData [(hwmon_temp, n3000bmc_temp_tbl); (hwmon_in, n3000bmc_in_tbl); (hwmon_curr, n3000bmc_curr_tbl); (hwmon_power, n3000bmc_power_tbl)] n3000bmc_hinfo.

(* drivers/hwmon/intel-m10-bmc-hwmon.c:157-219 d5005bmc_hinfo *)
Definition d5005bmc_hinfo : list hwmon_channel_info := [
   HWMON_CHANNEL_INFO hwmon_temp [
     [HInput; HMax; HMaxHyst; HCrit; HCritHyst; HLabel]; [HInput; HMax; HCrit; HLabel];
     [HInput; HMax; HMaxHyst; HCrit; HCritHyst; HLabel]; [HInput; HMax; HCrit; HLabel];
     [HInput; HMax; HMaxHyst; HCrit; HCritHyst; HLabel]; [HInput; HMax; HMaxHyst; HCrit; HCritHyst; HLabel];
     [HInput; HMax; HMaxHyst; HCrit; HCritHyst; HLabel]; [HInput; HMax; HMaxHyst; HCrit; HCritHyst; HLabel];
     [HInput; HMax; HCrit; HLabel]; [HInput; HMax; HCrit; HLabel]; [HInput; HMax; HCrit; HLabel];
     [HInput; HMax; HCrit; HLabel]; [HInput; HMax; HCrit; HLabel]; [HInput; HMax; HCrit; HLabel];
     [HInput; HMax; HCrit; HLabel]; [HInput; HMax; HCrit; HLabel]; [HInput; HMax; HCrit; HLabel]];
   HWMON_CHANNEL_INFO hwmon_in [
     [HInput; HLabel]; [HInput; HLabel]; [HInput; HLabel]; [HInput; HMax; HCrit; HLabel];
     [HInput; HMax; HCrit; HLabel]; [HInput; HMax; HCrit; HLabel]; [HInput; HMax; HCrit; HLabel];
     [HInput; HMax; HCrit; HLabel]; [HInput; HMin; HLabel]; [HInput; HMin; HLabel]];
   HWMON_CHANNEL_INFO hwmon_curr [
     [HInput; HLabel]; [HInput; HLabel]; [HInput; HLabel]; [HInput; HLabel]; [HInput; HLabel];
     [HInput; HLabel]; [HInput; HMax; HLabel]; [HInput; HMax; HLabel]]].

(* drivers/hwmon/intel-m10-bmc-hwmon.c:221-229 d5005bmc_hwmon_bdata *)
Definition d5005bmc_hwmon_bdata : m10bmc_hwmon_board_data :=
  BoardData [(hwmon_temp, d5005bmc_temp_tbl); (hwmon_in, d5005bmc_in_tbl); (hwmon_curr, d5005bmc_curr_tbl)] d5005bmc_hinfo.

(* drivers/hwmon/intel-m10-bmc-hwmon.c:231-249 n5010bmc_temp_tbl *)
Definition n5010bmc_temp_tbl : list m10bmc_sdata := [
   SData 0x100 0 0x104 0 0 1000 "Board Local Temperature";
   SData 0x108 0 0x10c 0 0 1000 "FPGA 1 Temperature";
   SData 0x110 0 0x114 0 0 1000 "FPGA 2 Temperature";
   SData 0x118 0 0 0 0 1000 "Card Top Temperature";
   SData 0x11c 0 0 0 0 1000 "Card Bottom Temperature";
   SData 0x128 0 0 0 0 1000 "FPGA 1.2V Temperature";
   SData 0x134 0 0 0 0 1000 "FPGA 5V Temperature";
   SData 0x140 0 0 0 0 1000 "FPGA 0.9V Temperature";
   SData 0x14c 0 0 0 0 1000 "FPGA 0.85V Temperature";
   SData 0x158 0 0 0 0 1000 "AUX 12V Temperature";
   SData 0x164 0 0 0 0 1000 "Backplane 12V Temperature";
   SData 0x1a8 0 0 0 0 1000 "QSFP28-1 Temperature";
   SData 0x1ac 0 0 0 0 1000 "QSFP28-2 Temperature";
   SData 0x1b0 0 0 0 0 1000 "QSFP28-3 Temperature";
   SData 0x1b4 0 0 0 0 1000 "QSFP28-4 Temperature";
   SData 0x1b8 0 0 0 0 1000 "CVL1 Internal Temperature";
   SData 0x1bc 0 0 0 0 1000 "CVL2 Internal Temperature"]%string.

(* drivers/hwmon/intel-m10-bmc-hwmon.c:251-265 n5010bmc_in_tbl *)
Definition n5010bmc_in_tbl : list m10bmc_sdata := [
   SData 0x120 0 0 0 0 1 "FPGA 1.2V Voltage";
   SData 0x12c 0 0 0 0 1 "FPGA 5V Voltage";
   SData 0x138 0 0 0 0 1 "FPGA 0.9V Voltage";
   SData 0x144 0 0 0 0 1 "FPGA 0.85V Voltage";
   SData 0x150 0 0 0 0 1 "AUX 12V Voltage";
   SData 0x15c 0 0 0 0 1 "Backplane 12V Voltage";
   SData 0x16c 0 0 0 0 1 "DDR4 1.2V Voltage";
   SData 0x17c 0 0 0 0 1 "FPGA 1.8V Voltage";
   SData 0x184 0 0 0 0 1 "QDR 1.3V Voltage";
   SData 0x18c 0 0 0 0 1 "CVL1 0.8V Voltage";
   SData 0x194 0 0 0 0 1 "CVL1 1.05V Voltage";
   SData 0x19c 0 0 0 0 1 "CVL2 1.05V Voltage";
   SData 0x1a4 0 0 0 0 1 "CVL2 0.8V Voltage"]%string.

(* drivers/hwmon/intel-m10-bmc-hwmon.c:267-281 n5010bmc_curr_tbl *)
Definition n5010bmc_curr_tbl : list m10bmc_sdata := [
   SData 0x124 0 0 0 0 1 "FPGA 1.2V Current";
   SData 0x130 0 0 0 0 1 "FPGA 5V Current";
   SData 0x13c 0 0 0 0 1 "FPGA 0.9V Current";
   SData 0x148 0 0 0 0 1 "FPGA 0.85V Current";
   SData 0x154 0 0 0 0 1 "AUX 12V Current";
   SData 0x160 0 0 0 0 1 "Backplane 12V Current";
   SData 0x168 0 0 0 0 1 "DDR4 1.2V Current";
   SData 0x178 0 0 0 0 1 "FPGA 1.8V Current";
   SData 0x180 0 0 0 0 1 "QDR 1.3V Current";
   SData 0x188 0 0 0 0 1 "CVL1 0.8V Current";
   SData 0x190 0 0 0 0 1 "CVL1 1.05V Current";
   SData 0x198 0 0 0 0 1 "CVL2 1.05V Current";
   SData 0x1a0 0 0 0 0 1 "CVL2 0.8V Current"]%string.

(* drivers/hwmon/intel-m10-bmc-hwmon.c:283-331 n5010bmc_hinfo *)
Definition n5010bmc_hinfo : list hwmon_channel_info := [
   HWMON_CHANNEL_INFO hwmon_temp [
     [HInput; HCrit; HLabel]; [HInput; HCrit; HLabel]; [HInput; HCrit; HLabel]; [HInput; HLabel];
     [HInput; HLabel]; [HInput; HLabel]; [HInput; HLabel]; [HInput; HLabel]; [HInput; HLabel];
     [HInput; HLabel]; [HInput; HLabel]; [HInput; HLabel]; [HInput; HLabel]; [HInput; HLabel];
     [HInput; HLabel]; [HInput; HLabel]; [HInput; HLabel]];
   HWMON_CHANNEL_INFO hwmon_in [
     [HInput; HLabel]; [HInput; HLabel]; [HInput; HLabel]; [HInput; HLabel]; [HInput; HLabel];
     [HInput; HLabel]; [HInput; HLabel]; [HInput; HLabel]; [HInput; HLabel]; [HInput; HLabel];
     [HInput; HLabel]; [HInput; HLabel]; [HInput; HLabel]];
   HWMON_CHANNEL_INFO hwmon_curr [
     [HInput; HLabel]; [HInput; HLabel]; [HInput; HLabel]; [HInput; HLabel]; [HInput; HLabel];
     [HInput; HLabel]; [HInput; HLabel]; [HInput; HLabel]; [HInput; HLabel]; [HInput; HLabel];
     [HInput; HLabel]; [HInput; HLabel]; [HInput; HLabel]]].

(* drivers/hwmon/intel-m10-bmc-hwmon.c:333-341 n5010bmc_hwmon_bdata *)
Definition n5010bmc_hwmon_bdata : m10bmc_hwmon_board_data :=
  BoardData [(hwmon_temp, n5010bmc_temp_tbl); (hwmon_in, n5010bmc_in_tbl); (hwmon_curr, n5010bmc_curr_tbl)] n5010bmc_hinfo.

(* drivers/hwmon/intel-m10-bmc-hwmon.c:343-362 n5014bmc_temp_tbl *)
Definition n5014bmc_temp_tbl : list m10bmc_sdata := [
   SData 0x100 0 0x104 0 0 125 "Board Front Temperature";
   SData 0x108 0 0x10c 0 0 125 "FPGA Core Temperature";
   SData 0x110 0 0x114 0 0 125 "FPGA P-TILE Temperature";
   SData 0x118 0 0x11c 0 0 125 "FPGA E-TILE Temperature";
   SData 0x120 0 0 0 0 1000 "Board Middle Temperature";
   SData 0x124 0 0 0 0 1000 "Board Rear Temperature";
   SData 0x130 0 0 0 0 1000 "1V2 FPGA Temperature";
   SData 0x13c 0 0 0 0 1000 "5V FPGA Temperature";
   SData 0x148 0 0 0 0 1000 "0V9 FPGA Temperature";
   SData 0x154 0 0 0 0 1000 "0V85 FPGA Temperature";
   SData 0x160 0 0 0 0 1000 "12V AUX Temperature";
   SData 0x16c 0 0 0 0 1000 "12V PCIE Temperature";
   SData 0x1b0 0 0 0 0 1000 "QSFP28-1 Temperature";
   SData 0x1b4 0 0 0 0 1000 "QSFP28-2 Temperature";
   SData 0x1b8 0 0 0 0 1000 "QSFP28-3 Temperature";
   SData 0x1bc 0 0 0 0 1000 "QSFP28-4 Temperature";
   SData 0x1c0 0 0 0 0 1000 "CVL1 Internal Temperature";
   SData 0x1c4 0 0 0 0 1000 "CVL2 Internal Temperature"]%string.

(* drivers/hwmon/intel-m10-bmc-hwmon.c:364-378 n5014bmc_in_tbl *)
Definition n5014bmc_in_tbl : list m10bmc_sdata := [
   SData 0x128 0 0 0 0 1 "1V2 FPGA Voltage";
   SData 0x134 0 0 0 0 1 "5V FPGA Voltage";
   SData 0x140 0 0 0 0 1 "0V9 FPGA Voltage";
   SData 0x14c 0 0 0 0 1 "0V85 FPGA Voltage";
   SData 0x158 0 0 0 0 1 "12V AUX Voltage";
   SData 0x164 0 0 0 0 1 "12V PCIE Voltage";
   SData 0x174 0 0 0 0 1 "CVL2 0V9 Voltage";
   SData 0x17c 0 0 0 0 1 "1V2 Voltage";
   SData 0x184 0 0 0 0 1 "FPGA 1V8 Voltage";
   SData 0x194 0 0 0 0 1 "CVL1 0V8 Voltage";
   SData 0x19c 0 0 0 0 1 "CVL1 0V9 Voltage";
   SData 0x1a4 0 0 0 0 1 "CVL2 0V8 Voltage";
   SData 0x1ac 0 0 0 0 1 "CVL1/2 AVDD_ETH 0V9 Voltage"]%string.

(* drivers/hwmon/intel-m10-bmc-hwmon.c:380-394 n5014bmc_curr_tbl *)
Definition n5014bmc_curr_tbl : list m10bmc_sdata := [
   SData 0x12c 0 0 0 0 1 "1V2 FPGA Current";
   SData 0x138 0 0 0 0 1 "5V FPGA Current";
   SData 0x144 0 0 0 0 1 "0V9 FPGA Current";
   SData 0x150 0 0 0 0 1 "0V85 FPGA Current";
   SData 0x15c 0 0 0 0 1 "12V AUX Current";
   SData 0x168 0 0 0 0 1 "12V PCIE Current";
   SData 0x170 0 0 0 0 1 "CVL2 0V9 Current";
   SData 0x178 0 0 0 0 1 "1V2 Current";
   SData 0x180 0 0 0 0 1 "FPGA 1V8 Current";
   SData 0x190 0 0 0 0 1 "CVL1 0V8 Current";
   SData 0x198 0 0 0 0 1 "CVL1 0V9 Current";
   SData 0x1a0 0 0 0 0 1 "CVL2 0V8 Current";
   SData 0x1a8 0 0 0 0 1 "CVL1/2 AVDD_ETH 0V9 Current"]%string.

(* drivers/hwmon/intel-m10-bmc-hwmon.c:396-445 n5014bmc_hinfo *)
Definition n5014bmc_hinfo : list hwmon_channel_info := [
   HWMON_CHANNEL_INFO hwmon_temp [
     [HInput; HCrit; HLabel]; [HInput; HCrit; HLabel]; [HInput; HCrit; HLabel]; [HInput; HCrit; HLabel];
     [HInput; HLabel]; [HInput; HLabel]; [HInput; HLabel]; [HInput; HLabel]; [HInput; HLabel];
     [HInput; HLabel]; [HInput; HLabel]; [HInput; HLabel]; [HInput; HLabel]; [HInput; HLabel];
     [HInput; HLabel]; [HInput; HLabel]; [HInput; HLabel]; [HInput; HLabel]];
   HWMON_CHANNEL_INFO hwmon_in [
     [HInput; HLabel]; [HInput; HLabel]; [HInput; HLabel]; [HInput; HLabel]; [HInput; HLabel];
     [HInput; HLabel]; [HInput; HLabel]; [HInput; HLabel]; [HInput; HLabel]; [HInput; HLabel];
     [HInput; HLabel]; [HInput; HLabel]; [HInput; HLabel]];
   HWMON_CHANNEL_INFO hwmon_curr [
     [HInput; HLabel]; [HInput; HLabel]; [HInput; HLabel]; [HInput; HLabel]; [HInput; HLabel];
     [HInput; HLabel]; [HInput; HLabel]; [HInput; HLabel]; [HInput; HLabel]; [HInput; HLabel];
     [HInput; HLabel]; [HInput; HLabel]; [HInput; HLabel]]].

(* drivers/hwmon/intel-m10-bmc-hwmon.c:447-455 n5014bmc_hwmon_bdata *)
Definition n5014bmc_hwmon_bdata : m10bmc_hwmon_board_data :=
  BoardData [(hwmon_temp, n5014bmc_temp_tbl); (hwmon_in, n5014bmc_in_tbl); (hwmon_curr, n5014bmc_curr_tbl)] n5014bmc_hinfo.

(* drivers/hwmon/intel-m10-bmc-hwmon.c:457-493 n6000bmc_temp_tbl *)
Definition n6000bmc_temp_tbl : list m10bmc_sdata := [
   SData 0x444 0x448 0x44c 0 0 500 "FPGA E-TILE Temperature #1";
   SData 0x450 0x454 0x458 0 0 500 "FPGA E-TILE Temperature #2";
   SData 0x45c 0x460 0x464 0 0 500 "FPGA E-TILE Temperature #3";
   SData 0x468 0x46c 0x470 0 0 500 "FPGA E-TILE Temperature #4";
   SData 0x474 0x478 0x47c 0 0 500 "FPGA P-TILE Temperature";
   SData 0x484 0x488 0x48c 0 0 500 "FPGA FABRIC Digital Temperature #1";
   SData 0x490 0x494 0x498 0 0 500 "FPGA FABRIC Digital Temperature #2";
   SData 0x49c 0x4a0 0x4a4 0 0 500 "FPGA FABRIC Digital Temperature #3";
   SData 0x4a8 0x4ac 0x4b0 0 0 500 "FPGA FABRIC Digital Temperature #4";
   SData 0x4b4 0x4b8 0x4bc 0 0 500 "FPGA FABRIC Digital Temperature #5";
   SData 0x4c0 0x4c4 0x4c8 0 0 500 "FPGA FABRIC Remote Digital Temperature #1";
   SData 0x4cc 0x4d0 0x4d4 0 0 500 "FPGA FABRIC Remote Digital Temperature #2";
   SData 0x4d8 0x4dc 0x4e0 0 0 500 "FPGA FABRIC Remote Digital Temperature #3";
   SData 0x4e4 0x4e8 0x4ec 0 0 500 "FPGA FABRIC Remote Digital Temperature #4";
   SData 0x4f0 0x4f4 0x4f8 0x52c 0 500 "Board Top Near FPGA Temperature";
   SData 0x4fc 0x500 0x504 0x52c 0 500 "Board Bottom Near CVL Temperature";
   SData 0x508 0x50c 0x510 0x52c 0 500 "Board Top East Near VRs Temperature";
   SData 0x514 0x518 0x51c 0x52c 0 500 "CVL Die Temperature";
   SData 0x520 0x524 0x528 0x52c 0 500 "Board Rear Side Temperature";
   SData 0x530 0x534 0x538 0x52c 0 500 "Board Front Side Temperature";
   SData 0x53c 0x540 0x544 0 0 500 "QSFP1 Case Temperature";
   SData 0x548 0x54c 0x550 0 0 500 "QSFP2 Case Temperature";
   SData 0x554 0 0 0 0 500 "FPGA Core Voltage Phase 0 VR Temperature";
   SData 0x560 0 0 0 0 500 "FPGA Core Voltage Phase 1 VR Temperature";
   SData 0x56c 0 0 0 0 500 "FPGA Core Voltage Phase 2 VR Temperature";
   SData 0x578 0 0 0 0 500 "FPGA Core Voltage VR Controller Temperature";
   SData 0x584 0 0 0 0 500 "FPGA VCCH VR Temperature";
   SData 0x590 0 0 0 0 500 "FPGA VCC_1V2 VR Temperature";
   SData 0x59c 0 0 0 0 500 "FPGA VCCH, VCC_1V2 VR Controller Temperature";
   SData 0x5a8 0 0 0 0 500 "3V3 VR Temperature";
   SData 0x5b4 0 0 0 0 500 "CVL Core Voltage VR Temperature";
   SData 0x5c4 0x5c8 0x5cc 0x5c0 0 500 "FPGA P-Tile Temperature [Remote]";
   SData 0x5d0 0x5d4 0x5d8 0x5c0 0 500 "FPGA E-Tile Temperature [Remote]";
   SData 0x5dc 0x5e0 0x5e4 0x5c0 0 500 "FPGA SDM Temperature [Remote]";
   SData 0x5e8 0x5ec 0x5f0 0x5c0 0 500 "FPGA Corner Temperature [Remote]"]%string.

(* drivers/hwmon/intel-m10-bmc-hwmon.c:495-527 n6000bmc_in_tbl *)
Definition n6000bmc_in_tbl : list m10bmc_sdata := [
   SData 0x5f4 0 0 0 0 1 "Inlet 12V PCIe Rail Voltage";
   SData 0x60c 0 0 0 0 1 "Inlet 12V Aux Rail Voltage";
   SData 0x624 0 0 0 0 1 "Inlet 3V3 PCIe Rail Voltage";
   SData 0x63c 0 0 0 0 1 "FPGA Core Voltage Rail Voltage";
   SData 0x644 0 0 0 0 1 "FPGA VCCH Rail Voltage";
   SData 0x64c 0 0 0 0 1 "FPGA VCC_1V2 Rail Voltage";
   SData 0x654 0 0 0 0 1 "FPGA VCCH_GXER_1V1, VCCA_1V8 Voltage";
   SData 0x664 0 0 0 0 1 "FPGA VCCIO_1V2 Voltage";
   SData 0x674 0 0 0 0 1 "CVL Non Core Rails Inlet Voltage";
   SData 0x684 0 0 0 0 1 "MAX10 & Board CLK PWR 3V3 Inlet Voltage";
   SData 0x694 0 0 0 0 1 "CVL Core Voltage Rail Voltage";
   SData 0x6ac 0 0 0 0 1 "Board 3V3 VR Voltage";
   SData 0x6b4 0 0 0 0 1 "QSFP 3V3 Rail Voltage";
   SData 0x6c4 0 0 0 0 1 "QSFP (Primary) Supply Rail Voltage";
   SData 0x6c8 0 0 0 0 1 "QSFP (Secondary) Supply Rail Voltage";
   SData 0x6cc 0 0 0 0 1 "VCCCLK_GXER_2V5 Voltage";
   SData 0x6d0 0 0 0 0 1 "AVDDH_1V1_CVL Voltage";
   SData 0x6d4 0 0 0 0 1 "VDDH_1V8_CVL Voltage";
   SData 0x6d8 0 0 0 0 1 "VCCA_PLL Voltage";
   SData 0x6e0 0 0 0 0 1 "VCCRT_GXER_0V9 Voltage";
   SData 0x6e8 0 0 0 0 1 "VCCRT_GXPL_0V9 Voltage";
   SData 0x6f0 0 0 0 0 1 "VCCH_GXPL_1V8 Voltage";
   SData 0x6f4 0 0 0 0 1 "VCCPT_1V8 Voltage";
   SData 0x6fc 0 0 0 0 1 "VCC_3V3_M10 Voltage";
   SData 0x700 0 0 0 0 1 "VCC_1V8_M10 Voltage";
   SData 0x704 0 0 0 0 1 "VCC_1V2_EMIF1_2_3 Voltage";
   SData 0x70c 0 0 0 0 1 "VCC_1V2_EMIF4_5 Voltage";
   SData 0x714 0 0 0 0 1 "VCCA_1V8 Voltage";
   SData 0x718 0 0 0 0 1 "VCCH_GXER_1V1 Voltage";
   SData 0x71c 0 0 0 0 1 "AVDD_ETH_0V9_CVL Voltage";
   SData 0x720 0 0 0 0 1 "AVDD_PCIE_0V9_CVL Voltage"]%string.

(* drivers/hwmon/intel-m10-bmc-hwmon.c:529-543 n6000bmc_curr_tbl *)
Definition n6000bmc_curr_tbl : list m10bmc_sdata := [
   SData 0x600 0x604 0x608 0 0 1 "Inlet 12V PCIe Rail Current";
   SData 0x618 0x61c 0x620 0 0 1 "Inlet 12V Aux Rail Current";
   SData 0x630 0x634 0x638 0 0 1 "Inlet 3V3 PCIe Rail Current";
   SData 0x640 0 0 0 0 1 "FPGA Core Voltage Rail Current";
   SData 0x648 0 0 0 0 1 "FPGA VCCH Rail Current";
   SData 0x650 0 0 0 0 1 "FPGA VCC_1V2 Rail Current";
   SData 0x658 0x65c 0x660 0 0 1 "FPGA VCCH_GXER_1V1, VCCA_1V8 Current";
   SData 0x668 0x66c 0x670 0 0 1 "FPGA VCCIO_1V2 Current";
   SData 0x678 0x67c 0x680 0 0 1 "CVL Non Core Rails Inlet Current";
   SData 0x688 0x68c 0x690 0 0 1 "MAX10 & Board CLK PWR 3V3 Inlet Current";
   SData 0x698 0 0 0 0 1 "CVL Core Voltage Rail Current";
   SData 0x6b0 0 0 0 0 1 "Board 3V3 VR Current";
   SData 0x6b8 0x6bc 0x6c0 0 0 1 "QSFP 3V3 Rail Current"]%string.

(* drivers/hwmon/intel-m10-bmc-hwmon.c:545-547 n6000bmc_power_tbl *)
Definition n6000bmc_power_tbl : list m10bmc_sdata := [
   SData 0x724 0 0 0 0 1000 "Board Power"]%string.

(* drivers/hwmon/intel-m10-bmc-hwmon.c:549-669 n6000bmc_hinfo *)
Definition n6000bmc_hinfo : list hwmon_channel_info := [
   HWMON_CHANNEL_INFO hwmon_temp [
     [HInput; HMax; HCrit; HLabel]; [HInput; HMax; HCrit; HLabel]; [HInput; HMax; HCrit; HLabel];
     [HInput; HMax; HCrit; HLabel]; [HInput; HMax; HCrit; HLabel]; [HInput; HMax; HCrit; HLabel];
     [HInput; HMax; HCrit; HLabel]; [HInput; HMax; HCrit; HLabel]; [HInput; HMax; HCrit; HLabel];
     [HInput; HMax; HCrit; HLabel]; [HInput; HMax; HCrit; HLabel]; [HInput; HMax; HCrit; HLabel];
     [HInput; HMax; HCrit; HLabel]; [HInput; HMax; HCrit; HLabel];
     [HInput; HMax; HMaxHyst; HCrit; HCritHyst; HLabel]; [HInput; HMax; HMaxHyst; HCrit; HCritHyst; HLabel];
     [HInput; HMax; HMaxHyst; HCrit; HCritHyst; HLabel]; [HInput; HMax; HMaxHyst; HCrit; HCritHyst; HLabel];
     [HInput; HMax; HMaxHyst; HCrit; HCritHyst; HLabel]; [HInput; HMax; HMaxHyst; HCrit; HCritHyst; HLabel];
     [HInput; HMax; HCrit; HLabel]; [HInput; HMax; HCrit; HLabel]; [HInput; HLabel]; [HInput; HLabel];
     [HInput; HLabel]; [HInput; HLabel]; [HInput; HLabel]; [HInput; HLabel]; [HInput; HLabel];
     [HInput; HLabel]; [HInput; HLabel]; [HInput; HMax; HMaxHyst; HCrit; HCritHyst; HLabel];
     [HInput; HMax; HMaxHyst; HCrit; HCritHyst; HLabel]; [HInput; HMax; HMaxHyst; HCrit; HCritHyst; HLabel];
     [HInput; HMax; HMaxHyst; HCrit; HCritHyst; HLabel]];
   HWMON_CHANNEL_INFO hwmon_in [
     [HInput; HLabel]; [HInput; HLabel]; [HInput; HLabel]; [HInput; HLabel]; [HInput; HLabel];
     [HInput; HLabel]; [HInput; HLabel]; [HInput; HLabel]; [HInput; HLabel]; [HInput; HLabel];
     [HInput; HLabel]; [HInput; HLabel]; [HInput; HLabel]; [HInput; HLabel]; [HInput; HLabel];
     [HInput; HLabel]; [HInput; HLabel]; [HInput; HLabel]; [HInput; HLabel]; [HInput; HLabel];
     [HInput; HLabel]; [HInput; HLabel]; [HInput; HLabel]; [HInput; HLabel]; [HInput; HLabel];
     [HInput; HLabel]; [HInput; HLabel]; [HInput; HLabel]; [HInput; HLabel]; [HInput; HLabel];
     [HInput; HLabel]];
   HWMON_CHANNEL_INFO hwmon_curr [
     [HInput; HMax; HCrit; HLabel]; [HInput; HMax; HCrit; HLabel]; [HInput; HMax; HCrit; HLabel];
     [HInput; HLabel]; [HInput; HLabel]; [HInput; HLabel]; [HInput; HMax; HCrit; HLabel];
     [HInput; HMax; HCrit; HLabel]; [HInput; HMax; HCrit; HLabel]; [HInput; HMax; HCrit; HLabel];
     [HInput; HLabel]; [HInput; HLabel]; [HInput; HMax; HCrit; HLabel]];
   HWMON_CHANNEL_INFO hwmon_power [
     [HInput; HLabel]]].

(* drivers/hwmon/intel-m10-bmc-hwmon.c:671-680 n6000bmc_hwmon_bdata *)
Definition n6000bmc_hwmon_bdata : m10bmc_hwmon_board_data :=
  BoardData [(hwmon_temp, n6000bmc_temp_tbl); (hwmon_in, n6000bmc_in_tbl); (hwmon_curr, n6000bmc_curr_tbl); (hwmon_power, n6000bmc_power_tbl)] n6000bmc_hinfo.

(* drivers/hwmon/intel-m10-bmc-hwmon.c:682-712 c6100bmc_temp_tbl *)
Definition c6100bmc_temp_tbl : list m10bmc_sdata := [
   SData 0x440 0 0 0 0 500 "FPGA E-TILE Max Temperature";
   SData 0x444 0x448 0x44c 0 0 500 "FPGA E-TILE Temperature #1";
   SData 0x450 0x454 0x458 0 0 500 "FPGA E-TILE Temperature #2";
   SData 0x45c 0x460 0x464 0 0 500 "FPGA E-TILE Temperature #3";
   SData 0x468 0x46c 0x470 0 0 500 "FPGA E-TILE Temperature #4";
   SData 0x474 0x478 0x47c 0 0 500 "FPGA P-TILE Temperature";
   SData 0x5b4 0x5b8 0x5bc 0 0 500 "FPGA P-TILE2 DTS Temperature";
   SData 0x480 0 0 0 0 500 "FPGA FABRIC Max Temperature";
   SData 0x484 0x488 0x48c 0 0 500 "FPGA FABRIC Digital Temperature#1";
   SData 0x490 0x494 0x498 0 0 500 "FPGA FABRIC Digital Temperature#2";
   SData 0x49c 0x4a0 0x4a4 0 0 500 "FPGA FABRIC Digital Temperature#3";
   SData 0x4a8 0x4ac 0x4b0 0 0 500 "FPGA FABRIC Digital Temperature#4";
   SData 0x4b4 0x4b8 0x4bc 0 0 500 "FPGA FABRIC Digital Temperature#5";
   SData 0x4d8 0x4dc 0x4e0 0 0 500 "FPGA FABRIC Remote Digital Temperature#3";
   SData 0x4e4 0x4e8 0x4ec 0 0 500 "FPGA FABRIC Remote Digital Temperature#4";
   SData 0x4fc 0x500 0x504 0x5c0 0 500 "Board Bottom Temperature";
   SData 0x5e8 0x5ec 0x5f0 0x5c0 0 500 "FPGA Corner (SDM) Temperature [Remote]";
   SData 0x5dc 0x5e0 0x5e4 0x5c0 0 500 "FPGA Core Fabric Temperature [Remote]";
   SData 0x5c4 0x5c8 0x5cc 0x5c0 0 500 "FPGA P-Tile Temperature [Remote]";
   SData 0x5d0 0x5d4 0x5d8 0x5c0 0 500 "FPGA E-Tile Temperature [Remote]";
   SData 0x4f0 0x4f4 0x4f8 0x52c 0 500 "Board Top Temperature";
   SData 0x520 0x524 0x528 0x52c 0 500 "Board Rear Side Temperature";
   SData 0x530 0x534 0x538 0x52c 0 500 "Board Front Side Temperature";
   SData 0x508 0x50c 0x510 0x52c 0 500 "FPGA Ambient Temperature";
   SData 0x514 0x518 0x51c 0x52c 0 500 "FPGA PTILE2 External Temperature";
   SData 0x53c 0x540 0x544 0 0 500 "QSFP1 Temperature";
   SData 0x548 0x54c 0x550 0 0 500 "QSFP2 Temperature";
   SData 0x728 0x72c 0x730 0 0 500 "Virt FPGA Temperature";
   SData 0x758 0x750 0x754 0 0 15 "SOC Package Temperature"]%string.

(* drivers/hwmon/intel-m10-bmc-hwmon.c:714-721 c6100bmc_in_tbl *)
Definition c6100bmc_in_tbl : list m10bmc_sdata := [
   SData 0x5f4 0 0 0 0 1 "Inlet 12V PCIe Rail Voltage";
   SData 0x60c 0 0 0 0 1 "Inlet 12V Aux Rail Voltage";
   SData 0x624 0 0 0 0 1 "Inlet 3V3 PCIe Rail Voltage";
   SData 0x6b4 0 0 0 0 1 "QSFP 3V3 Rail Voltage";
   SData 0x6c4 0 0 0 0 1 "QSFP (Primary) Supply Rail Voltage";
   SData 0x6c8 0 0 0 0 1 "QSFP (Secondary) Supply Rail Voltage"]%string.

(* drivers/hwmon/intel-m10-bmc-hwmon.c:723-728 c6100bmc_curr_tbl *)
Definition c6100bmc_curr_tbl : list m10bmc_sdata := [
   SData 0x600 0x604 0x608 0 0 1 "Inlet 12V PCIe Rail Current";
   SData 0x618 0x61c 0x620 0 0 1 "Inlet 12V Aux Rail Current";
   SData 0x630 0x634 0x638 0 0 1 "Inlet 3V3 PCIe Rail Current";
   SData 0x6b8 0x6bc 0x6c0 0 0 1 "QSFP 3V3 Rail Current"]%string.

(* drivers/hwmon/intel-m10-bmc-hwmon.c:730-734 c6100bmc_power_tbl *)
Definition c6100bmc_power_tbl : list m10bmc_sdata := [
   SData 0x724 0 0 0 0 1 "Board Power";
   SData 0x788 0 0 0 0 1 "SOC Package Power";
   SData 0x694 0 0 0 0 1 "FPGA Package Power"]%string.

(* drivers/hwmon/intel-m10-bmc-hwmon.c:736-811 c6100bmc_hinfo *)
Definition c6100bmc_hinfo : list hwmon_channel_info := [
   HWMON_CHANNEL_INFO hwmon_temp [
     [HInput; HLabel]; [HInput; HMax; HCrit; HLabel]; [HInput; HMax; HCrit; HLabel];
     [HInput; HMax; HCrit; HLabel]; [HInput; HMax; HCrit; HLabel]; [HInput; HMax; HCrit; HLabel];
     [HInput; HMax; HCrit; HLabel]; [HInput; HLabel]; [HInput; HMax; HCrit; HLabel];
     [HInput; HMax; HCrit; HLabel]; [HInput; HMax; HCrit; HLabel]; [HInput; HMax; HCrit; HLabel];
     [HInput; HMax; HCrit; HLabel]; [HInput; HMax; HCrit; HLabel]; [HInput; HMax; HCrit; HLabel];
     [HInput; HMax; HMaxHyst; HCrit; HCritHyst; HLabel]; [HInput; HMax; HMaxHyst; HCrit; HCritHyst; HLabel];
     [HInput; HMax; HMaxHyst; HCrit; HCritHyst; HLabel]; [HInput; HMax; HMaxHyst; HCrit; HCritHyst; HLabel];
     [HInput; HMax; HMaxHyst; HCrit; HCritHyst; HLabel]; [HInput; HMax; HMaxHyst; HCrit; HCritHyst; HLabel];
     [HInput; HMax; HMaxHyst; HCrit; HCritHyst; HLabel]; [HInput; HMax; HMaxHyst; HCrit; HCritHyst; HLabel];
     [HInput; HMax; HMaxHyst; HCrit; HCritHyst; HLabel]; [HInput; HMax; HMaxHyst; HCrit; HCritHyst; HLabel];
     [HInput; HLabel]; [HInput; HLabel]; [HInput; HLabel]; [HInput; HLabel]];
   HWMON_CHANNEL_INFO hwmon_in [
     [HInput; HLabel]; [HInput; HLabel]; [HInput; HLabel]; [HInput; HLabel]; [HInput; HLabel];
     [HInput; HLabel]];
   HWMON_CHANNEL_INFO hwmon_curr [
     [HInput; HMax; HCrit; HLabel]; [HInput; HMax; HCrit; HLabel]; [HInput; HMax; HCrit; HLabel];
     [HInput; HMax; HCrit; HLabel]];
   HWMON_CHANNEL_INFO hwmon_power [
     [HInput; HLabel]; [HInput; HLabel]; [HInput; HLabel]]].

(* drivers/hwmon/intel-m10-bmc-hwmon.c:813-822 c6100bmc_hwmon_bdata *)
Definition c6100bmc_hwmon_bdata : m10bmc_hwmon_board_data :=
  BoardData [(hwmon_temp, c6100bmc_temp_tbl); (hwmon_in, c6100bmc_in_tbl); (hwmon_curr, c6100bmc_curr_tbl); (hwmon_power, c6100bmc_power_tbl)] c6100bmc_hinfo.

(* drivers/hwmon/intel-m10-bmc-hwmon.c:824-859 cmcbmc_temp_tbl *)
Definition cmcbmc_temp_tbl : list m10bmc_sdata := [
   SData 0x440 0 0 0 0 500 "FPGA R-TILE Max Temperature";
   SData 0x444 0x448 0x44c 0 0 500 "FPGA R-TILE Temperature #1";
   SData 0x450 0x454 0x458 0 0 500 "FPGA R-TILE Temperature #2";
   SData 0x45c 0x460 0x464 0 0 500 "FPGA R-TILE Temperature #3";
   SData 0x468 0x46c 0x470 0 0 500 "FPGA R-TILE Temperature #4";
   SData 0x474 0x478 0x47c 0 0 500 "FPGA R-TILE Temperature #5";
   SData 0x480 0x484 0x488 0 0 500 "FPGA R-TILE Temperature #6";
   SData 0x48c 0 0 0 0 500 "FPGA F-TILE Max Temperature";
   SData 0x490 0x494 0x498 0 0 500 "FPGA F-TILE Temperature #1";
   SData 0x49c 0x4a0 0x4a4 0 0 500 "FPGA F-TILE Temperature #2";
   SData 0x4a8 0x4ac 0x4b0 0 0 500 "FPGA F-TILE Temperature #3";
   SData 0x4b4 0x4b8 0x4bc 0 0 500 "FPGA F-TILE Temperature #4";
   SData 0x4c0 0x4c4 0x4c8 0 0 500 "FPGA F-TILE Temperature #5";
   SData 0x4cc 0 0 0 0 500 "FPGA FABRIC Max Temperature";
   SData 0x4d0 0x4d4 0x4d8 0 0 500 "FPGA FABRIC Digital Temperature#1";
   SData 0x4dc 0x4e0 0x4e4 0 0 500 "FPGA FABRIC Digital Temperature#2";
   SData 0x4e8 0x4ec 0x4f0 0 0 500 "FPGA FABRIC Digital Temperature#3";
   SData 0x4f4 0x4f8 0x4fc 0 0 500 "FPGA FABRIC Digital Temperature#4";
   SData 0x500 0x504 0x508 0 0 500 "FPGA FABRIC Digital Temperature#5";
   SData 0x50c 0x510 0x514 0 0 500 "FPGA FABRIC Remote Digital Temperature#1";
   SData 0x518 0x51c 0x520 0 0 500 "FPGA FABRIC Remote Digital Temperature#2";
   SData 0x524 0x528 0x52c 0 0 500 "FPGA FABRIC Remote Digital Temperature#3";
   SData 0x530 0x534 0x538 0 0 500 "FPGA FABRIC Remote Digital Temperature#4";
   SData 0x588 0x58c 0x590 0 0 500 "FPGA Core A (SDM) Temperature [Remote]";
   SData 0x594 0x598 0x59c 0 0 500 "FPGA Core C Temperature [Remote]";
   SData 0x5a0 0x5a4 0x5a8 0 0 500 "FPGA F-Tile Temperature [Remote]";
   SData 0x5ac 0x5b0 0x5b4 0 0 500 "Board Temperature #1";
   SData 0x5d0 0x5d4 0x5d8 0 0 500 "FPGA R-Tile 14C Temperature [Remote]";
   SData 0x5dc 0x5e0 0x5e4 0 0 500 "FPGA R-Tile 15C Temperature [Remote]";
   SData 0x5f4 0x5f8 0x5fc 0 0 500 "Board Temperature #2";
   SData 0x600 0 0 0 0 500 "FPGA VCC_HSSI_GXR VR Temperature";
   SData 0x60c 0 0 0 0 500 "FPGA VCCR_CORE VR Temperature";
   SData 0x618 0 0 0 0 500 "FPGA VCC_HSSI_GXF Temperature";
   SData 0x728 0x72c 0x730 0 0 500 "FPGA Virtual Sensor Temperature"]%string.

(* drivers/hwmon/intel-m10-bmc-hwmon.c:861-865 cmcbmc_in_tbl *)
Definition cmcbmc_in_tbl : list m10bmc_sdata := [
   SData 0x624 0 0 0 0 1 "FPGA VCC_HSSI_GXR Rail Voltage";
   SData 0x63c 0 0 0 0 1 "FPGA VCCR_CORE Rail Voltage";
   SData 0x654 0 0 0 0 1 "FPGA VCC_HSSI_GXF Rail Voltage"]%string.

(* drivers/hwmon/intel-m10-bmc-hwmon.c:867-871 cmcbmc_curr_tbl *)
Definition cmcbmc_curr_tbl : list m10bmc_sdata := [
   SData 0x630 0 0 0 0 1 "FPGA VCC_HSSI_GXR Voltage Rail Current";
   SData 0x648 0 0 0 0 1 "FPGA VCCR_CORE Voltage Rail Current";
   SData 0x660 0 0 0 0 1 "FPGA VCC_HSSI_GXF Voltage Rail Current"]%string.

(* drivers/hwmon/intel-m10-bmc-hwmon.c:873-946 cmcbmc_hinfo *)
Definition cmcbmc_hinfo : list hwmon_channel_info := [
   HWMON_CHANNEL_INFO hwmon_temp [
     [HInput; HLabel]; [HInput; HMax; HCrit; HLabel]; [HInput; HMax; HCrit; HLabel];
     [HInput; HMax; HCrit; HLabel]; [HInput; HMax; HCrit; HLabel]; [HInput; HMax; HCrit; HLabel];
     [HInput; HMax; HCrit; HLabel]; [HInput; HLabel]; [HInput; HMax; HCrit; HLabel];
     [HInput; HMax; HCrit; HLabel]; [HInput; HMax; HCrit; HLabel]; [HInput; HMax; HCrit; HLabel];
     [HInput; HMax; HCrit; HLabel]; [HInput; HLabel]; [HInput; HMax; HCrit; HLabel];
     [HInput; HMax; HCrit; HLabel]; [HInput; HMax; HCrit; HLabel]; [HInput; HMax; HCrit; HLabel];
     [HInput; HMax; HCrit; HLabel]; [HInput; HMax; HCrit; HLabel]; [HInput; HMax; HCrit; HLabel];
     [HInput; HMax; HCrit; HLabel]; [HInput; HMax; HCrit; HLabel]; [HInput; HMax; HCrit; HLabel];
     [HInput; HMax; HCrit; HLabel]; [HInput; HMax; HCrit; HLabel]; [HInput; HMax; HCrit; HLabel];
     [HInput; HMax; HCrit; HLabel]; [HInput; HMax; HCrit; HLabel]; [HInput; HMax; HCrit; HLabel];
     [HInput; HLabel]; [HInput; HLabel]; [HInput; HLabel]; [HInput; HMax; HCrit; HLabel]];
   HWMON_CHANNEL_INFO hwmon_in [
     [HInput; HLabel]; [HInput; HLabel]; [HInput; HLabel]];
   HWMON_CHANNEL_INFO hwmon_curr [
     [HInput; HLabel]; [HInput; HLabel]; [HInput; HLabel]]].

(* drivers/hwmon/intel-m10-bmc-hwmon.c:947-955 cmcbmc_hwmon_bdata *)
Definition cmcbmc_hwmon_bdata : m10bmc_hwmon_board_data :=
  BoardData [(hwmon_temp, cmcbmc_temp_tbl); (hwmon_in, cmcbmc_in_tbl); (hwmon_curr, cmcbmc_curr_tbl)] cmcbmc_hinfo.

(* drivers/hwmon/intel-m10-bmc-hwmon.c:1158-1188 intel_m10bmc_hwmon_ids *)
Definition intel_m10bmc_hwmon_ids : list (string * m10bmc_hwmon_board_data) :=
  [("n3000bmc-hwmon", n3000bmc_hwmon_bdata); ("d5005bmc-hwmon", d5005bmc_hwmon_bdata);
   ("n5010bmc-hwmon", n5010bmc_hwmon_bdata); ("n5014bmc-hwmon", n5014bmc_hwmon_bdata);
   ("n6000bmc-hwmon", n6000bmc_hwmon_bdata); ("c6100bmc-hwmon", c6100bmc_hwmon_bdata);
   ("cmcbmc-hwmon", cmcbmc_hwmon_bdata)]%string.

(** ** Properties of the sensors

    Every attribute that a board advertises has a register, a read of it gives what
    the register holds, and no sensor is read while the firmware of the BMC does not
    serve its registers. *)

(** ** The tables *)

(** What must be there for an attribute of a channel: an entry of the table, and
    unless it is the label, a register, with the one of the hysteresis if that is
    subtracted. *)
Definition backed (b : m10bmc_hwmon_board_data) (type : hwmon_sensor_types) (attr : hwmon_attr) (channel : nat) : bool :=
  match table b type ≫= λ tbl, tbl !! channel with
  | None => false
  | Some d =>
      if decide (attr = HLabel) then true else
      match sensor_field type attr with
      | None => false
      | Some (field, with_hyst) => negb (field d =? 0) && (if (with_hyst : bool) then negb (reg_hyst d =? 0) else true)
      end
  end.
(** A test of all the attributes that a board advertises. *)
Definition for_attrs (p : hwmon_sensor_types → hwmon_attr → nat → bool) (b : m10bmc_hwmon_board_data) : bool :=
  forallb (λ h, forallb (λ c, forallb (λ a, p (hc_type h) a c.1) c.2) (imap pair (hc_config h))) (hinfo b).

Lemma for_attrs_spec p b type attr channel :
  for_attrs p b = true → advertised b type attr channel = true → p type attr channel = true.
Proof.
  unfold for_attrs, advertised. rewrite forallb_forall, existsb_exists. intros Hp (h & Hh & Ha).
  apply andb_true_iff in Ha as [Ht Ha]. apply bool_decide_eq_true in Ht as <-.
  destruct (hc_config h !! channel) as [attrs|] eqn:Hc; [|done]. apply bool_decide_eq_true in Ha.
  specialize (Hp h Hh). rewrite forallb_forall in Hp. specialize (Hp (channel, attrs)).
  rewrite forallb_forall in Hp. apply Hp; [|by apply list_elem_of_In]. apply list_elem_of_In, list_elem_of_lookup.
  exists channel. by rewrite list_lookup_imap, Hc.
Qed.

Lemma boards_backed name b type attr channel :
  (name, b) ∈ intel_m10bmc_hwmon_ids → advertised b type attr channel = true → backed b type attr channel = true.
Proof.
  intros Hb. apply for_attrs_spec.
  assert (forallb (λ x, for_attrs (backed x.2) x.2) intel_m10bmc_hwmon_ids = true) as Hall by (vm_compute; reflexivity).
  rewrite forallb_forall in Hall. apply (Hall (name, b)). by apply list_elem_of_In.
Qed.

(** On the boards reached over SPI the registers of all sensors are among those the
    firmware does not serve during a handshake. *)
Definition in_handshake (info : intel_m10bmc_platform_info) (b : m10bmc_hwmon_board_data) type attr channel : bool :=
  if decide (attr = HLabel) then true else
  match table b type ≫= λ tbl, tbl !! channel, sensor_field type attr with
  | Some d, Some (field, _) => negb (m10bmc_reg_always_available info (field d))
  | _, _ => false
  end.
Lemma spi_sensors_in_handshake id info name b type attr channel :
  (id, info) ∈ m10bmc_spi_id → name ∈ cells info → (name, b) ∈ intel_m10bmc_hwmon_ids →
  advertised b type attr channel = true → in_handshake info b type attr channel = true.
Proof.
  intros Hi Hc Hb. apply for_attrs_spec.
  assert (forallb (λ x, forallb (λ n, forallb (λ y, negb (bool_decide (y.1 = n)) || for_attrs (in_handshake x.2 y.2) y.2)
    intel_m10bmc_hwmon_ids) (cells x.2)) m10bmc_spi_id = true) as Hall by (vm_compute; reflexivity).
  rewrite forallb_forall in Hall. apply list_elem_of_In in Hi, Hc, Hb.
  specialize (Hall _ Hi). rewrite forallb_forall in Hall. specialize (Hall _ Hc). rewrite forallb_forall in Hall.
  specialize (Hall _ Hb). cbn [fst snd] in Hall. by rewrite bool_decide_true in Hall.
Qed.

(** ** Reading *)
Section Read.
Context `{Regmap} {X : Type} (info : intel_m10bmc_platform_info).
Implicit Types s : bmc X.
Abbreviation addr r := (u32 (base (csr_map info) + r)).

(** What the register of a sensor holds, in units of the sensor; a mark instead when
    there is no value. *)
Definition sensed (d : m10bmc_sdata) (raw value : Z) : Prop := raw ≠ 0xdeadbeef ∧ value = u32 (raw * multiplier d).

Lemma do_read_spec d r s (Q : Z → bmc X → Prop) E :
  (∀ raw v s', after_io [RegRead (addr r) 0 raw] s s' → sensed d raw v → Q v s') →
  (∀ e s', quiet s s' → e ≠ 0 → E e s') → wp (do_sensor_read info d r) Q E s.
Proof.
  intros HQ HE. unfold do_sensor_read. wsteps. apply sys_read_spec; [|done]. intros raw s1 H1.
  destruct (Z.eqb_spec raw 0xdeadbeef) as [->|Hne]; wsteps.
  - apply HE; [|done]. eapply quiet_after; [exact H1|by repeat constructor].
  - by eapply HQ.
Qed.

(** Every attribute that any board shows to user space, except the labels, has a
    register in the board's table; a read of it reads that register, once, and for
    the hysteresis attributes the register of the hysteresis after it, and gives the
    values in the unit of the sensor, subtracted.  Nothing else is accessed, the
    tables are never read out of bounds, and a label is there without any access. *)
Lemma sensor_read_exact name b type attr channel s :
  (name, b) ∈ intel_m10bmc_hwmon_ids → advertised b type attr channel = true →
  ∃ tbl d, table b type = Some tbl ∧ tbl !! channel = Some d ∧
  if decide (attr = HLabel) then m10bmc_hwmon_read_string b type attr channel s = Done (Val (label d), s)
  else ∃ field with_hyst, sensor_field type attr = Some (field, with_hyst) ∧ field d ≠ 0 ∧
    wp (m10bmc_hwmon_read info b type attr channel)
      (λ value s', ∃ raw v, sensed d raw v ∧
         if (with_hyst : bool)
         then ∃ raw' v', sensed d raw' v' ∧ value = v - v' ∧
                after_io [RegRead (addr (field d)) 0 raw; RegRead (addr (reg_hyst d)) 0 raw'] s s'
         else value = v ∧ after_io [RegRead (addr (field d)) 0 raw] s s')
      (λ e s', e ≠ 0 ∧ quiet s s') s.
Proof.
  intros Hb Ha. pose proof (boards_backed _ _ _ _ _ Hb Ha) as Hk. unfold backed in Hk.
  destruct (table b type) as [tbl|] eqn:Ht; [|done]. cbn in Hk. destruct (tbl !! channel) as [d|] eqn:Hd; [|done].
  exists tbl, d. split; [done|]. split; [done|]. destruct (decide (attr = HLabel)) as [->|Hne].
  { unfold m10bmc_hwmon_read_string, find_sensor_data. rewrite Ht. cbn. by rewrite Hd. }
  destruct (sensor_field type attr) as [[field with_hyst]|] eqn:Hf; [|done]. apply andb_true_iff in Hk as [Hr Hh].
  apply negb_true_iff, Z.eqb_neq in Hr. exists field, with_hyst. split; [done|]. split; [done|].
  unfold m10bmc_hwmon_read, find_sensor_data. rewrite Ht, Hd, Hf. wsteps. apply wp_access; [|done]. intros ? [= <-].
  rewrite (proj2 (Z.eqb_neq _ _) Hr). wsteps. apply do_read_spec; [|by intros]. intros raw v s1 H1 Hv.
  destruct with_hyst; cbn [Z.eqb negb].
  - rewrite Hh. wsteps. apply do_read_spec.
    + intros raw' v' s2 H2 Hv'. wsteps. exists raw, v. split; [done|]. exists raw', v'. split_and!; [done..|].
      exact (after_io_trans _ _ _ _ _ H1 H2).
    + intros e s2 Hq He. split; [done|]. eapply quiet_trans; [eapply quiet_after; [exact H1|by repeat constructor]|done].
  - wsteps. exists raw, v. by split_and!.
Qed.

(** C12: on every board reached over SPI, while the firmware is in the phases of an
    update in which it does not serve its telemetry registers, every read of a sensor
    is refused with EBUSY and nothing is accessed. *)
Theorem sensors_during_update id name b type attr channel s :
  (id, info) ∈ m10bmc_spi_id → name ∈ cells info → (name, b) ∈ intel_m10bmc_hwmon_ids →
  advertised b type attr channel = true → attr ≠ HLabel → m10bmc_handshake_reg_unavailable (bmcfw_state s) = true →
  m10bmc_hwmon_read info b type attr channel s = Done (Err (- EBUSY), s).
Proof.
  intros Hi Hc Hb Ha Hl Hst. pose proof (boards_backed _ _ _ _ _ Hb Ha) as Hk.
  pose proof (spi_sensors_in_handshake _ _ _ _ _ _ _ Hi Hc Hb Ha) as Hs. unfold backed, in_handshake in *.
  destruct (decide (attr = HLabel)) as [|_]; [done|].
  destruct (table b type) as [tbl|] eqn:Ht; [|done]. cbn in Hk, Hs. destruct (tbl !! channel) as [d|] eqn:Hd; [|done].
  destruct (sensor_field type attr) as [[field with_hyst]|] eqn:Hf; [|done]. apply andb_true_iff in Hk as [Hr _].
  unfold m10bmc_hwmon_read, find_sensor_data. rewrite Ht. cbn. rewrite Hd, Hf.
  unfold mbind, M_bind, mret, M_ret. cbn -[Z.eqb]. rewrite (proj1 (negb_true_iff _) Hr). apply negb_true_iff in Hs.
  unfold do_sensor_read, m10bmc_sys_read, mbind, M_bind, gets. rewrite Hs. by rewrite Hst.
Qed.
End Read.

(** ** Sensors: concrete reads *)

(** A register map in which every register but one holds its own offset. *)
#[local] Instance echo_map : Regmap := {|
  rm := unit;
  rm_read reg d := (0, if reg =? M10BMC_N3000_SYS_BASE + 0x11c then 0xdeadbeef else reg - M10BMC_N3000_SYS_BASE, d);
  rm_write reg v d := (0, d);
  rm_update_bits reg msk v d := (0, d);
  rm_bulk_write reg bytes d := (0, d);
  rm_bulk_read reg n d := (0, [], d);
|}.
Definition echo_bmc (st : m10bmc_fw_state) : bmc unit := Bmc _ _ (tt : rm) [] st tt.
Definition read_n3000 := m10bmc_hwmon_read (X := unit) m10bmc_spi_n3000 n3000bmc_hwmon_bdata.

Lemma sensor_read_exact_witness :
  ∃ s', read_n3000 hwmon_temp HMaxHyst 0 (echo_bmc M10BMC_FW_STATE_NORMAL) = Done (Val (500 * 0x104 - 500 * 0x10c), s') ∧
    ∃ raw raw', bm_log s' = [RegRead 0x300904 0 raw; RegRead 0x30090c 0 raw'].
Proof.
  destruct (sensor_read_exact m10bmc_spi_n3000 "n3000bmc-hwmon" n3000bmc_hwmon_bdata hwmon_temp HMaxHyst 0
    (echo_bmc M10BMC_FW_STATE_NORMAL) ltac:(left) ltac:(vm_compute; reflexivity)) as (tbl & d & Ht & Hd & Hx).
  injection Ht as <-. injection Hd as <-. cbn [decide] in Hx.
  destruct (decide (HMaxHyst = HLabel)) as [|_]; [done|]. destruct Hx as (field & h & Hf & _ & Hw). injection Hf as <- <-.
  destruct (wp_val _ _ _ _ (500 * 0x104 - 500 * 0x10c) Hw ltac:(vm_compute; reflexivity))
    as (s' & He & raw & v & _ & raw' & v' & _ & _ & (_ & _ & Hl)).
  exists s'. split; [exact He|]. exists raw, raw'. exact Hl.
Defined.

Lemma sensors_during_update_witness :
  read_n3000 hwmon_temp HInput 0 (echo_bmc M10BMC_FW_STATE_SEC_UPDATE_WRITE) =
    Done (Err (- EBUSY), echo_bmc M10BMC_FW_STATE_SEC_UPDATE_WRITE).
Proof.
  apply (sensors_during_update m10bmc_spi_n3000 "m10-n3000" "n3000bmc-hwmon"); try (vm_compute; reflexivity).
  - left.
  - left.
  - left.
  - discriminate.
Defined.

(** A module that is not plugged in: no value. *)
Example no_module : err_of (read_n3000 hwmon_temp HInput 2 (echo_bmc M10BMC_FW_STATE_NORMAL)) = Some (- ENODATA).
Proof. vm_compute. reflexivity. Qed.
(** An attribute the board does not have, and a channel behind the table, which
    nothing but the list of channels keeps user space from asking for. *)
Example not_there :
  err_of (read_n3000 hwmon_in HMax 0 (echo_bmc M10BMC_FW_STATE_NORMAL)) = Some (- EOPNOTSUPP) ∧
  is_fault (read_n3000 hwmon_in HInput 8 (echo_bmc M10BMC_FW_STATE_NORMAL)) = true.
Proof. vm_compute. by split. Qed.
