(* ===== verification/FeatureIrqs.v ===== *)
(** * The interrupts of all features of a device (drivers/fpga/dfl.h, dfl.c)

    The device file of a port or of the management engine reaches the interrupts of
    every feature of its device: one feature at a time from an ioctl, all of them
    when the last file is closed.  [DflIrq] is the table of one feature; here are
    the tables of the features of a device, each with an account of what it holds. *)
From stdpp Require Import gmap strings.
From S2P Require Import Prelude DflRegs DflTypes DflIrq.

(** What the interrupts of one feature have registered and referenced. *)
Record irq_account := IrqAcc {
  ia_handlers : Z → Z → Z;
  ia_refs : Z → Z;
  ia_names : Z;
}.

Section FeatureIrqs.
Context `{IrqKernel}.

Record fist := FiSt {
  fi_features : list dfl_feature;
  fi_k : ik;
  fi_accs : list irq_account;
}.
Implicit Types s : fist.
Definition irq_table (f : dfl_feature) (acc : irq_account) s : qst :=
  QSt (fi_k s) (f_irq_ctx f) (ia_handlers acc) (ia_refs acc) (ia_names acc).
Definition put_table (i : nat) (q : qst) s : fist :=
  FiSt (alter (set_f_irq_ctx (q_ctx q)) i (fi_features s)) (q_k q)
    (<[i := IrqAcc (q_handlers q) (q_refs q) (q_names q)]> (fi_accs s)).
(** On the interrupts of feature [i]. *)
Definition on_table {A} (i : nat) (m : dfl_feature → M qst A) : M fist A := λ s,
  match fi_features s !! i, fi_accs s !! i with
  | Some f, Some acc =>
      match m f (irq_table f acc s) with
      | Done (r, q) => Done (r, put_table i q s)
      | Fault => Fault
      | NoFuel => NoFuel
      end
  | _, _ => Fault
  end.

(** Unbinding the interrupts of the features from number [i] on, [n] of them. *)
(* drivers/fpga/dfl-afu-main.c:718-720 afu_release *)
Fixpoint unbind_features (i n : nat) : M fist unit :=
  match n with
  | O => mret tt
  | S n =>
      status (on_table i (λ f, dfl_fpga_set_irq_triggers (f_nr_irqs f) 0 (f_nr_irqs f) None)) ;;
      unbind_features (S i) n
  end.

(** ** Properties *)

(** Every feature has an account, and its table is in order. *)
Definition tables_ok s : Prop :=
  length (fi_accs s) = length (fi_features s) ∧
  ∀ i f acc, fi_features s !! i = Some f → fi_accs s !! i = Some acc → table_ok (f_nr_irqs f) (irq_table f acc s).
(** No interrupt of the feature is bound, and nothing is held for it. *)
Definition quiet (f : dfl_feature) (acc : irq_account) : Prop :=
  Forall (λ c, ic_trigger c = None) (f_irq_ctx f) ∧ ia_names acc = 0 ∧
  (∀ t, ia_refs acc t = 0) ∧ (∀ irq t, ia_handlers acc irq t = 0).
Definition quiet_tables (i j : nat) s : Prop := ∀ k f acc, (i ≤ k < j)%nat →
  fi_features s !! k = Some f → fi_accs s !! k = Some acc → quiet f acc.
(** The same features but for their interrupts. *)
Definition same_features s s' : Prop :=
  (set_f_irq_ctx [] <$> fi_features s') = (set_f_irq_ctx [] <$> fi_features s).
#[export] Instance same_features_equiv : Equivalence same_features.
Proof. split; unfold same_features; congruence. Qed.
Lemma same_features_length s s' : same_features s s' → length (fi_features s') = length (fi_features s).
Proof. intros Hs. apply (f_equal length) in Hs. by rewrite !length_fmap in Hs. Qed.

Lemma put_table_same i q s : same_features s (put_table i q s).
Proof.
  apply list_eq. intros j. cbn. rewrite !list_lookup_fmap. destruct (decide (i = j)) as [->|].
  - rewrite list_lookup_alter_eq. by destruct (fi_features s !! j).
  - by rewrite list_lookup_alter_ne.
Qed.
Lemma put_table_other i j q s : j ≠ i →
  fi_features (put_table i q s) !! j = fi_features s !! j ∧ fi_accs (put_table i q s) !! j = fi_accs s !! j.
Proof. intros Hj. cbn. by rewrite list_lookup_alter_ne, list_lookup_insert_ne. Qed.
Lemma put_table_at i q f acc s g acc' :
  fi_features s !! i = Some f → fi_accs s !! i = Some acc →
  fi_features (put_table i q s) !! i = Some g → fi_accs (put_table i q s) !! i = Some acc' →
  g = set_f_irq_ctx (q_ctx q) f ∧ acc' = IrqAcc (q_handlers q) (q_refs q) (q_names q).
Proof.
  cbn. intros Hf Ha. rewrite list_lookup_alter_eq, Hf, list_lookup_insert_eq by by eapply lookup_lt_Some.
  cbn. by intros [= <-] [= <-].
Qed.

(** An operation that keeps the table of its feature in order keeps all of them. *)
Lemma on_table_spec {A} i (m : dfl_feature → M qst A) (P : A → qst → Prop) (PE : Z → qst → Prop) s :
  tables_ok s → (i < length (fi_features s))%nat →
  (∀ f acc, fi_features s !! i = Some f → table_ok (f_nr_irqs f) (irq_table f acc s) →
     wp (m f) (λ a q, table_ok (f_nr_irqs f) q ∧ P a q) (λ e q, table_ok (f_nr_irqs f) q ∧ PE e q) (irq_table f acc s)) →
  wp (on_table i m) (λ a s', tables_ok s' ∧ ∃ q, s' = put_table i q s ∧ P a q)
    (λ e s', tables_ok s' ∧ ∃ q, s' = put_table i q s ∧ PE e q) s.
Proof.
  intros (Hlen & Hok) Hi Hm.
  destruct (lookup_lt_is_Some_2 (fi_features s) i Hi) as [f Hf].
  destruct (lookup_lt_is_Some_2 (fi_accs s) i) as [acc Ha]; [lia|].
  specialize (Hm f acc Hf (Hok _ _ _ Hf Ha)). unfold wpg, on_table in *. rewrite Hf, Ha.
  assert (∀ q, table_ok (f_nr_irqs f) q → tables_ok (put_table i q s)) as Hput.
  { intros q Hq. split; [cbn; by rewrite length_insert, length_alter|].
    intros j g acc' Hg Hacc. destruct (decide (j = i)) as [->|Hne].
    - destruct (put_table_at _ _ _ _ _ _ _ Hf Ha Hg Hacc) as [-> ->]. by destruct q.
    - destruct (put_table_other i j q s Hne) as [Hg' Ha']. rewrite Hg' in Hg. rewrite Ha' in Hacc.
      exact (Hok _ _ _ Hg Hacc). }
  destruct (m f _) as [[[a|e] q]| |]; try done; destruct Hm as [Hq HP]; (split; [by apply Hput|by exists q]).
Qed.

Lemma unbind_features_spec n : ∀ i s,
  tables_ok s → (i + n = length (fi_features s))%nat → quiet_tables 0 i s →
  wp (unbind_features i n) (λ _ s', tables_ok s' ∧ same_features s s' ∧ quiet_tables 0 (i + n) s') (λ _ _, False) s.
Proof.
  induction n as [|n IH]; intros i s Hok Hn Hq; cbn [unbind_features].
  { wsteps. rewrite Nat.add_0_r. by split_and!. }
  wsteps. eapply wp_mono; [apply (on_table_spec i _ (λ _ q, quiet (set_f_irq_ctx (q_ctx q) zero_feature)
    (IrqAcc (q_handlers q) (q_refs q) (q_names q))) (λ _ _, False) s Hok); [lia|]| |by intros ? ? (_ & ? & _ & [])].
  { intros f acc _ Ht. eapply wp_mono; [by apply unset_all_spec| |done].
    intros _ q (Hq' & Htr & Hnm & Hr & Hh). by split_and!. }
  intros _ s1 (Hok1 & q & -> & Hqu). wsteps.
  eapply wp_mono; [apply (IH (S i) _ Hok1)| |done].
  - rewrite (same_features_length s) by apply put_table_same. lia.
  - intros k g acc' Hk Hg Hacc. destruct (decide (k = i)) as [->|Hne].
    + destruct (lookup_lt_is_Some_2 (fi_features s) i) as [f Hf]; [lia|].
      destruct (lookup_lt_is_Some_2 (fi_accs s) i) as [acc Ha]; [destruct Hok; lia|].
      destruct (put_table_at _ _ _ _ _ _ _ Hf Ha Hg Hacc) as [-> ->]. exact Hqu.
    + destruct (put_table_other i k q s Hne) as [Hg' Ha']. eapply (Hq k); [lia|by rewrite <- Hg'|by rewrite <- Ha'].
  - intros _ s2 (Hok2 & Hs2 & Hq2). split_and!; [done| |by replace (i + S n)%nat with (S i + n)%nat by lia].
    etrans; [apply put_table_same|exact Hs2].
Qed.
End FeatureIrqs.
