(* ===== verification/AfuPort.v ===== *)
(** * The port of an accelerator (drivers/fpga/dfl-afu-main.c, dfl-afu-error.c)

    Enabling and disabling a port by its soft reset, counted; the reset; the port's
    header and error registers and the attributes that show and set them.  Each
    operation runs under the lock of the feature device in the code. *)
From stdpp Require Import gmap strings.
From S2P Require Import Prelude DflRegs DflTypes DflPorts Mmio.

(* drivers/fpga/dfl.h:170-170 PORT_HDR_CAP *)
Definition PORT_HDR_CAP : Z := 0x30.
(* drivers/fpga/dfl.h:171-171 PORT_HDR_CTRL *)
Definition PORT_HDR_CTRL : Z := 0x38.
(* drivers/fpga/dfl.h:172-172 PORT_HDR_STS *)
Definition PORT_HDR_STS : Z := 0x40.
(* drivers/fpga/dfl.h:173-173 PORT_HDR_USRCLK_CMD0 *)
Definition PORT_HDR_USRCLK_CMD0 : Z := 0x50.
(* drivers/fpga/dfl.h:174-174 PORT_HDR_USRCLK_CMD1 *)
Definition PORT_HDR_USRCLK_CMD1 : Z := 0x58.
(* drivers/fpga/dfl.h:175-175 PORT_HDR_USRCLK_STS0 *)
Definition PORT_HDR_USRCLK_STS0 : Z := 0x60.
(* drivers/fpga/dfl.h:176-176 PORT_HDR_USRCLK_STS1 *)
Definition PORT_HDR_USRCLK_STS1 : Z := 0x68.
(* drivers/fpga/dfl.h:179-179 PORT_CAP_PORT_NUM *)
Definition PORT_CAP_PORT_NUM : field := GENMASK_ULL 1 0.
(* drivers/fpga/dfl.h:184-184 PORT_CTRL_SFTRST *)
Definition PORT_CTRL_SFTRST : field := BIT_ULL 0.
(* drivers/fpga/dfl.h:186-186 PORT_CTRL_LATENCY *)
Definition PORT_CTRL_LATENCY : field := BIT_ULL 2.
(* drivers/fpga/dfl.h:187-187 PORT_CTRL_SFTRST_ACK *)
Definition PORT_CTRL_SFTRST_ACK : field := BIT_ULL 4.
(* drivers/fpga/dfl.h:190-190 PORT_STS_AP2_EVT *)
Definition PORT_STS_AP2_EVT : field := BIT_ULL 13.
(* drivers/fpga/dfl.h:191-191 PORT_STS_AP1_EVT *)
Definition PORT_STS_AP1_EVT : field := BIT_ULL 12.
(* drivers/fpga/dfl.h:192-192 PORT_STS_PWR_STATE *)
Definition PORT_STS_PWR_STATE : field := GENMASK_ULL 11 8.
(* drivers/fpga/dfl.h:196-196 PORT_STS_PWR_STATE_AP6 *)
Definition PORT_STS_PWR_STATE_AP6 : Z := 6.
(* drivers/fpga/dfl-afu-error.c:23-23 PORT_ERROR_MASK *)
Definition PORT_ERROR_MASK : Z := 0x8.
(* drivers/fpga/dfl-afu-error.c:24-24 PORT_ERROR *)
Definition PORT_ERROR : Z := 0x10.
(* drivers/fpga/dfl-afu-error.c:25-25 PORT_FIRST_ERROR *)
Definition PORT_FIRST_ERROR : Z := 0x18.
(* drivers/fpga/dfl-afu-error.c:26-26 PORT_MALFORMED_REQ0 *)
Definition PORT_MALFORMED_REQ0 : Z := 0x20.
(* drivers/fpga/dfl-afu-error.c:27-27 PORT_MALFORMED_REQ1 *)
Definition PORT_MALFORMED_REQ1 : Z := 0x28.
(* drivers/fpga/dfl-afu-error.c:29-29 ERROR_MASK *)
Definition ERROR_MASK : field := GENMASK_ULL 63 0.

Section Port.
Context `{MmioHw}.
(** How often a poll reads before its time is over. *)
Context (tries : nat).

Record prt := Prt {
  pt_fd : dfl_feature_dev_data;
  pt_mm : mmst;
}.
Definition on_regs {A} (m : M mmst A) : M prt A := zoom pt_mm (λ r s, Prt (pt_fd s) r) m.
Definition upd_fd (f : dfl_feature_dev_data → dfl_feature_dev_data) : M prt unit :=
  modify (λ s, Prt (f (pt_fd s)) (pt_mm s)).
(** The address of a feature; using NULL as one is a fault. *)
Definition feature_base (id : Z) : M prt Z :=
  s ← get; access (dfl_get_feature_ioaddr_by_id (pt_fd s) id).

(** ** Reset *)

(* drivers/fpga/dfl-afu-main.c:40-70 __afu_port_enable *)
Definition __afu_port_enable : M prt unit :=
  s ← get;
  let n := u32 (fd_disable_count (pt_fd s) - 1) in
  upd_fd (set_fd_disable_count n) ;;
  if negb (n =? 0) then mret tt else
  base ← feature_base PORT_FEATURE_ID_HEADER;
  v ← on_regs (readq (base + PORT_HDR_CTRL));
  on_regs (writeq (clear_field PORT_CTRL_SFTRST v) (base + PORT_HDR_CTRL)) ;;
  r ← on_regs (read_poll_timeout (readq (base + PORT_HDR_CTRL)) (λ v, negb (has_bits PORT_CTRL_SFTRST_ACK v)) tries);
  if negb ((r : Z * Z).1 =? 0) then throw (- ETIMEDOUT) else mret tt.

(* drivers/fpga/dfl-afu-main.c:80-109 __afu_port_disable *)
Definition __afu_port_disable : M prt unit :=
  s ← get;
  let n := fd_disable_count (pt_fd s) in
  upd_fd (set_fd_disable_count (u32 (n + 1))) ;;
  if negb (n =? 0) then mret tt else
  base ← feature_base PORT_FEATURE_ID_HEADER;
  v ← on_regs (readq (base + PORT_HDR_CTRL));
  on_regs (writeq (Z.lor v (mask PORT_CTRL_SFTRST)) (base + PORT_HDR_CTRL)) ;;
  r ← on_regs (read_poll_timeout (readq (base + PORT_HDR_CTRL)) (has_bits PORT_CTRL_SFTRST_ACK) tries);
  if negb ((r : Z * Z).1 =? 0) then throw (- ETIMEDOUT) else mret tt.

(* drivers/fpga/dfl-afu-main.c:123-132 __port_reset *)
Definition __port_reset : M prt unit :=
  __afu_port_disable ;; __afu_port_enable.

(* drivers/fpga/dfl.h:505-508 dfl_feature_revision *)
Definition dfl_feature_revision (base : Z) : M prt Z :=
  v ← on_regs (readq (base + DFH)); mret (u8 (FIELD_GET DFH_REVISION v)).

(** [~0] as a [u8]. *)
(* drivers/fpga/dfl-afu-main.c:134-144 get_port_rev *)
Definition get_port_rev : M prt Z :=
  s ← get;
  match dfl_get_feature_ioaddr_by_id (pt_fd s) PORT_FEATURE_ID_HEADER with
  | None => mret (u8 (-1))
  | Some base => dfl_feature_revision base
  end.

(* drivers/fpga/dfl-afu-main.c:146-167 port_reset *)
Definition port_reset : M prt unit :=
  rev ← get_port_rev;
  if rev =? 2 then mret tt
  else if 2 <? rev then mret tt
  else __port_reset.

(* drivers/fpga/dfl-afu-main.c:169-176 port_get_id *)
Definition port_get_id : M prt Z :=
  base ← feature_base PORT_FEATURE_ID_HEADER;
  v ← on_regs (readq (base + PORT_HDR_CAP));
  mret (FIELD_GET PORT_CAP_PORT_NUM v).

(* drivers/fpga/dfl-afu-main.c:971-983 port_enable_set *)
Definition port_enable_set (enable : bool) : M prt unit :=
  if enable then __afu_port_enable else __afu_port_disable.

(** ** Attributes of the header

    What is shown is a number, printed by the library; what is stored was parsed by
    it, [None] is a text it refuses. *)

(* drivers/fpga/dfl-afu-main.c:178-185 id_show *)
Definition id_show : M prt Z := port_get_id.

Definition show_field (reg : Z) (f : field) : M prt Z :=
  base ← feature_base PORT_FEATURE_ID_HEADER;
  v ← on_regs (readq (base + reg));
  mret (FIELD_GET f v).
Definition store_reg (reg : Z) (v : option Z) : M prt unit :=
  match v with
  | None => throw (- EINVAL)
  | Some v =>
      base ← feature_base PORT_FEATURE_ID_HEADER;
      on_regs (writeq v (base + reg))
  end.
Definition show_reg (reg : Z) : M prt Z :=
  base ← feature_base PORT_FEATURE_ID_HEADER;
  on_regs (readq (base + reg)).

(* drivers/fpga/dfl-afu-main.c:188-202 ltr_show *)
Definition ltr_show : M prt Z := show_field PORT_HDR_CTRL PORT_CTRL_LATENCY.
(* drivers/fpga/dfl-afu-main.c:204-226 ltr_store *)
Definition ltr_store (ltr : option bool) : M prt unit :=
  match ltr with
  | None => throw (- EINVAL)
  | Some ltr =>
      base ← feature_base PORT_FEATURE_ID_HEADER;
      v ← on_regs (readq (base + PORT_HDR_CTRL));
      let v := clear_field PORT_CTRL_LATENCY v in
      let v := Z.lor v (FIELD_PREP PORT_CTRL_LATENCY (if ltr then 1 else 0)) in
      on_regs (writeq v (base + PORT_HDR_CTRL))
  end.
(* drivers/fpga/dfl-afu-main.c:229-243 ap1_event_show *)
Definition ap1_event_show : M prt Z := show_field PORT_HDR_STS PORT_STS_AP1_EVT.
(* drivers/fpga/dfl-afu-main.c:245-263 ap1_event_store *)
Definition ap1_event_store (clear : option bool) : M prt unit :=
  match clear with
  | Some true => store_reg PORT_HDR_STS (Some (mask PORT_STS_AP1_EVT))
  | _ => throw (- EINVAL)
  end.
(* drivers/fpga/dfl-afu-main.c:266-281 ap2_event_show *)
Definition ap2_event_show : M prt Z := show_field PORT_HDR_STS PORT_STS_AP2_EVT.
(* drivers/fpga/dfl-afu-main.c:283-301 ap2_event_store *)
Definition ap2_event_store (clear : option bool) : M prt unit :=
  match clear with
  | Some true => store_reg PORT_HDR_STS (Some (mask PORT_STS_AP2_EVT))
  | _ => throw (- EINVAL)
  end.
(* drivers/fpga/dfl-afu-main.c:304-318 power_state_show *)
Definition power_state_show : M prt Z := show_field PORT_HDR_STS PORT_STS_PWR_STATE.
(* drivers/fpga/dfl-afu-main.c:321-339 userclk_freqcmd_store *)
Definition userclk_freqcmd_store (cmd : option Z) : M prt unit := store_reg PORT_HDR_USRCLK_CMD0 cmd.
(* drivers/fpga/dfl-afu-main.c:342-360 userclk_freqcntrcmd_store *)
Definition userclk_freqcntrcmd_store (cmd : option Z) : M prt unit := store_reg PORT_HDR_USRCLK_CMD1 cmd.
(* drivers/fpga/dfl-afu-main.c:363-378 userclk_freqsts_show *)
Definition userclk_freqsts_show : M prt Z := show_reg PORT_HDR_USRCLK_STS0.
(* drivers/fpga/dfl-afu-main.c:381-396 userclk_freqcntrsts_show *)
Definition userclk_freqcntrsts_show : M prt Z := show_reg PORT_HDR_USRCLK_STS1.

(* drivers/fpga/dfl-afu-main.c:399-410 port_hdr_attrs *)
Inductive port_hdr_attr :=
| attr_id | attr_ltr | attr_ap1_event | attr_ap2_event | attr_power_state
| attr_userclk_freqcmd | attr_userclk_freqcntrcmd | attr_userclk_freqsts | attr_userclk_freqcntrsts.
(** The mode 0 hides an attribute. *)
(* drivers/fpga/dfl-afu-main.c:412-437 port_hdr_attrs_visible *)
Definition port_hdr_attrs_visible (attr : port_hdr_attr) (mode : Z) : M prt Z :=
  base ← feature_base PORT_FEATURE_ID_HEADER;
  rev ← dfl_feature_revision base;
  mret (if 0 <? rev then
          match attr with
          | attr_userclk_freqcmd | attr_userclk_freqcntrcmd | attr_userclk_freqsts | attr_userclk_freqcntrsts => 0
          | _ => mode
          end
        else mode).
(* drivers/fpga/dfl-afu-main.c:542-557 port_afu_attrs_visible *)
Definition port_afu_attrs_visible (mode : Z) : M prt Z :=
  s ← get;
  mret (if dfl_get_feature_by_id (pt_fd s) PORT_FEATURE_ID_AFU is Some _ then mode else 0).

(** The GUID, high word first, unless the port is in reset. *)
(* drivers/fpga/dfl-afu-main.c:514-534 afu_id_show *)
Definition afu_id_show : M prt (Z * Z) :=
  s ← get;
  let o := dfl_get_feature_ioaddr_by_id (pt_fd s) PORT_FEATURE_ID_AFU in
  if negb (fd_disable_count (pt_fd s) =? 0) then throw (- EBUSY) else
  base ← access o;
  guidl ← on_regs (readq (base + GUID_L));
  guidh ← on_regs (readq (base + GUID_H));
  mret (guidh, guidl).

(* drivers/fpga/dfl-afu-main.c:447-470 port_hdr_init *)
Definition port_hdr_init : M prt unit :=
  base ← feature_base PORT_FEATURE_ID_HEADER;
  rev ← dfl_feature_revision base;
  if rev <? 2 then status port_reset ;; mret tt else mret tt.

(* include/uapi/linux/fpga-dfl.h:69-69 DFL_FPGA_PORT_RESET *)
Definition DFL_FPGA_PORT_RESET : Z := 0xB640.
(* drivers/fpga/dfl-afu-main.c:480-499 port_hdr_ioctl *)
Definition port_hdr_ioctl (cmd arg : Z) : M prt unit :=
  if cmd =? DFL_FPGA_PORT_RESET
  then if arg =? 0 then port_reset else throw (- EINVAL)
  else throw (- ENODEV).

(** ** Errors *)

(* drivers/fpga/dfl-afu-error.c:32-39 __afu_port_err_mask *)
Definition __afu_port_err_mask (masked : bool) : M prt unit :=
  base ← feature_base PORT_FEATURE_ID_ERROR;
  on_regs (writeq (if masked then mask ERROR_MASK else 0) (base + PORT_ERROR_MASK)).
(* drivers/fpga/dfl-afu-error.c:41-48 afu_port_err_mask *)
Definition afu_port_err_mask (masked : bool) : M prt unit := __afu_port_err_mask masked.

(** From masking the errors to unmasking them. *)
(* drivers/fpga/dfl-afu-error.c:87-105 afu_port_err_clear *)
Definition err_session (err : Z) : M prt Z :=
  __afu_port_err_mask true ;;
  base_err ← feature_base PORT_FEATURE_ID_ERROR;
  v ← on_regs (readq (base_err + PORT_ERROR));
  ret ← (if v =? err then
           on_regs (writeq v (base_err + PORT_ERROR)) ;;
           v ← on_regs (readq (base_err + PORT_FIRST_ERROR));
           on_regs (writeq v (base_err + PORT_FIRST_ERROR)) ;;
           mret 0
         else mret (- EINVAL));
  __afu_port_err_mask false ;;
  mret ret.
(* drivers/fpga/dfl-afu-error.c:51-113 afu_port_err_clear *)
Definition afu_port_err_clear (err : Z) : M prt unit :=
  base_hdr ← feature_base PORT_FEATURE_ID_HEADER;
  v ← on_regs (readq (base_hdr + PORT_HDR_STS));
  if FIELD_GET PORT_STS_PWR_STATE v =? PORT_STS_PWR_STATE_AP6 then throw (- EBUSY) else
  __afu_port_disable ;;
  ret ← err_session err;
  enable_ret ← status __afu_port_enable;
  rc (if negb (enable_ret =? 0) then enable_ret else ret).

Definition show_err (reg : Z) : M prt Z :=
  base ← feature_base PORT_FEATURE_ID_ERROR;
  on_regs (readq (base + reg)).
(* drivers/fpga/dfl-afu-error.c:115-129 errors_show *)
Definition errors_show : M prt Z := show_err PORT_ERROR.
(* drivers/fpga/dfl-afu-error.c:131-143 errors_store *)
Definition errors_store (value : option Z) : M prt unit :=
  match value with
  | None => throw (- EINVAL)
  | Some value => afu_port_err_clear value
  end.
(* drivers/fpga/dfl-afu-error.c:146-160 first_error_show *)
Definition first_error_show : M prt Z := show_err PORT_FIRST_ERROR.
(* drivers/fpga/dfl-afu-error.c:163-179 first_malformed_req_show *)
Definition first_malformed_req_show : M prt (Z * Z) :=
  base ← feature_base PORT_FEATURE_ID_ERROR;
  req0 ← on_regs (readq (base + PORT_MALFORMED_REQ0));
  req1 ← on_regs (readq (base + PORT_MALFORMED_REQ1));
  mret (req1, req0).
(* drivers/fpga/dfl-afu-error.c:182-193 revision_show *)
Definition revision_show : M prt Z :=
  base ← feature_base PORT_FEATURE_ID_ERROR;
  dfh ← on_regs (readq base);
  mret (FIELD_GET DFH_REVISION dfh).
(* drivers/fpga/dfl-afu-error.c:204-219 port_err_attrs_visible *)
Definition port_err_attrs_visible (mode : Z) : M prt Z :=
  s ← get;
  mret (if dfl_get_feature_by_id (pt_fd s) PORT_FEATURE_ID_ERROR is Some _ then mode else 0).
(* drivers/fpga/dfl-afu-error.c:233-239 port_err_init *)
Definition port_err_init : M prt unit := afu_port_err_mask false.
(* drivers/fpga/dfl-afu-error.c:241-245 port_err_uinit *)
Definition port_err_uinit : M prt unit := afu_port_err_mask true.
End Port.

(** ** Properties of a port: reset and errors

    What the operations of [AfuPort] do to the registers, for every device behind
    them. *)

Section Facts.
Context `{MmioHw} (tries : nat).
Implicit Types s : prt.

Lemma on_regs_spec {A} (m : M mmst A) s (Q : A → prt → Prop) E :
  wp m (λ a r, Q a (Prt (pt_fd s) r)) (λ e r, E e (Prt (pt_fd s) r)) (pt_mm s) → wp (on_regs m) Q E s.
Proof. intros Hm. apply wp_zoom. unfold wpg in Hm. by destruct (m (pt_mm s)) as [[[] ?]| |]. Qed.
Lemma on_readq_spec a s (Q : Z → prt → Prop) E :
  (∀ v d, Q v (Prt (pt_fd s) (Mm d (mm_log (pt_mm s) ++ [MmioRead a v])))) → wp (on_regs (readq a)) Q E s.
Proof. intros HQ. apply on_regs_spec, readq_spec, HQ. Qed.
Lemma feature_base_spec id b s (Q : Z → prt → Prop) E :
  dfl_get_feature_ioaddr_by_id (pt_fd s) id = Some b → Q b s → wp (feature_base id) Q E s.
Proof. intros Hb HQ. unfold feature_base. wsteps. rewrite Hb. done. Qed.

Definition count s : Z := fd_disable_count (pt_fd s).
(** [s'] is [s] with the count [n], after the accesses [l]. *)
Definition became (n : Z) (l : list mmio_io) s s' : Prop :=
  pt_fd s' = set_fd_disable_count n (pt_fd s) ∧ mm_log (pt_mm s') = mm_log (pt_mm s) ++ l.
Lemma ioaddr_count n fd id :
  dfl_get_feature_ioaddr_by_id (set_fd_disable_count n fd) id = dfl_get_feature_ioaddr_by_id fd id.
Proof. done. Qed.
Lemma became_trans n l m l' s s1 s2 : became n l s s1 → became m l' s1 s2 → became m (l ++ l') s s2.
Proof. intros [Hf Hl] [Hf' Hl']. split; [by rewrite Hf', Hf|]. by rewrite Hl', Hl, app_assoc. Qed.

(** The accesses that set the reset bit to [b] and wait for the acknowledgement to
    become [b]; whether it did is [ok]. *)
Definition reset_to (b ok : bool) (base : Z) (l : list mmio_io) : Prop :=
  let ctrl := base + PORT_HDR_CTRL in
  ∃ v p, l = MmioRead ctrl v ::
    MmioWrite ctrl (if b then Z.lor v (mask PORT_CTRL_SFTRST) else clear_field PORT_CTRL_SFTRST v) :: p ∧
    polled ctrl (λ v, Bool.eqb (has_bits PORT_CTRL_SFTRST_ACK v) b) ok p.

Lemma polled_ext a c c' ok l : (∀ v, c v = c' v) → polled a c ok l → polled a c' ok l.
Proof.
  intros Hc (vs & v & -> & Hvs & Hv). exists vs, v. split_and!; [done| |by rewrite <- Hc].
  eapply list.Forall_impl; [exact Hvs|]. intros w Hw. by rewrite <- Hc.
Qed.

(** Only the first disable, and the last enable, touches the port. *)
Lemma disable_spec base s :
  dfl_get_feature_ioaddr_by_id (pt_fd s) PORT_FEATURE_ID_HEADER = Some base → 0 ≤ count s < 2 ^ 32 - 1 →
  wp (__afu_port_disable tries)
    (λ _ s', ∃ l, became (count s + 1) l s s' ∧ if count s =? 0 then reset_to true true base l else l = [])
    (λ e s', e = - ETIMEDOUT ∧ count s = 0 ∧ ∃ l, became 1 l s s' ∧ reset_to true false base l) s.
Proof.
  intros Hb Hc. unfold __afu_port_disable, upd_fd. wsteps. fold (count s).
  rewrite u32_small by (unfold is_u32; lia). set (s1 := Prt _ _).
  destruct (Z.eqb_spec (count s) 0) as [Hz|Hz]; cbn [negb]; wsteps.
  2: { exists []. split; [|done]. split; [done|]. by rewrite app_nil_r. }
  eapply feature_base_spec; [by apply Hb|]. wsteps. apply on_readq_spec. intros v d. wsteps.
  apply on_regs_spec. unfold writeq. wsteps. apply on_regs_spec.
  eapply wp_mono; [apply poll_spec| |done]. cbn [mm_log pt_mm pt_fd]. intros r s' (p & Hl & Hp & _).
  assert (reset_to true (r.1 =? 0) base (MmioRead (base + PORT_HDR_CTRL) v ::
    MmioWrite (base + PORT_HDR_CTRL) (Z.lor v (mask PORT_CTRL_SFTRST)) :: p)) as Hr.
  { exists v, p. split; [done|]. eapply polled_ext; [|exact Hp]. intros w. cbn. by destruct (has_bits _ _). }
  rewrite <- !app_assoc in Hl.
  destruct (r.1 =? 0); cbn [negb]; wsteps; [|split_and!; [done..|]]; (eexists; split; [|exact Hr]); split; try done.
  cbn. by rewrite Hz.
Qed.
Lemma enable_spec base s :
  dfl_get_feature_ioaddr_by_id (pt_fd s) PORT_FEATURE_ID_HEADER = Some base → 0 < count s < 2 ^ 32 →
  wp (__afu_port_enable tries)
    (λ _ s', ∃ l, became (count s - 1) l s s' ∧ if count s =? 1 then reset_to false true base l else l = [])
    (λ e s', e = - ETIMEDOUT ∧ count s = 1 ∧ ∃ l, became 0 l s s' ∧ reset_to false false base l) s.
Proof.
  intros Hb Hc. unfold __afu_port_enable, upd_fd. wsteps. fold (count s).
  rewrite u32_small by (unfold is_u32; lia). set (s1 := Prt _ _).
  destruct (Z.eqb_spec (count s) 1) as [Hz|Hz].
  2: { destruct (Z.eqb_spec (count s - 1) 0); [lia|]. cbn [negb]. wsteps. exists []. split; [|done]. split; [done|].
       by rewrite app_nil_r. }
  rewrite Hz. cbn [Z.sub Z.eqb negb]. change (1 - 1 =? 0) with true. cbn [negb]. wsteps.
  eapply feature_base_spec; [by apply Hb|]. wsteps. apply on_readq_spec. intros v d. wsteps.
  apply on_regs_spec. unfold writeq. wsteps. apply on_regs_spec.
  eapply wp_mono; [apply poll_spec| |done]. cbn [mm_log pt_mm pt_fd]. intros r s' (p & Hl & Hp & _).
  assert (reset_to false (r.1 =? 0) base (MmioRead (base + PORT_HDR_CTRL) v ::
    MmioWrite (base + PORT_HDR_CTRL) (clear_field PORT_CTRL_SFTRST v) :: p)) as Hr.
  { exists v, p. split; [done|]. eapply polled_ext; [|exact Hp]. intros w. cbn. by destruct (has_bits _ _). }
  rewrite <- !app_assoc in Hl.
  destruct (r.1 =? 0); cbn [negb]; wsteps; [|split_and!; [done..|]]; (eexists; split; [|exact Hr]); split; try done;
    unfold s1; cbn; by rewrite Hz.
Qed.

(** The accesses of a disable or an enable that succeeds: none when others keep the
    port disabled. *)
Definition switched_port (b : bool) (base : Z) s (l : list mmio_io) : Prop :=
  if count s =? 0 then reset_to b true base l else l = [].

Lemma reset_spec base s :
  dfl_get_feature_ioaddr_by_id (pt_fd s) PORT_FEATURE_ID_HEADER = Some base → 0 ≤ count s < 2 ^ 32 - 1 →
  wp (__port_reset tries)
    (λ _ s', ∃ l1 l2, became (count s) (l1 ++ l2) s s' ∧ switched_port true base s l1 ∧ switched_port false base s l2)
    (λ e s', e = - ETIMEDOUT ∧ count s = 0 ∧
       ((∃ l, became 1 l s s' ∧ reset_to true false base l) ∨
        (∃ l1 l2, became 0 (l1 ++ l2) s s' ∧ reset_to true true base l1 ∧ reset_to false false base l2))) s.
Proof.
  intros Hb Hc. unfold __port_reset. wsteps.
  eapply wp_mono; [by apply disable_spec| |].
  - intros _ s1 (l1 & H1 & Hl1). pose proof H1 as [Hf1 _].
    assert (count s1 = count s + 1) as Hn by (unfold count at 1; by rewrite Hf1).
    eapply wp_mono; [apply (enable_spec base); [by rewrite Hf1|lia]| |].
    + intros _ s2 (l2 & H2 & Hl2). exists l1, l2. split; [|unfold switched_port; split; [done|]].
      * replace (count s) with (count s1 - 1) by lia. by eapply became_trans.
      * revert Hl2. rewrite Hn. destruct (Z.eqb_spec (count s) 0), (Z.eqb_spec (count s + 1) 1); by try lia.
    + intros e s2 (-> & H1c & l2 & H2 & Hl2). assert (count s = 0) as Hz by lia. split_and!; [done..|]. right.
      rewrite Hz in Hl1. exists l1, l2. split_and!; [by eapply became_trans|done..].
  - intros e s1 (-> & Hz & l & Hl). split_and!; [done..|]. left. by exists l.
Qed.

(** C25: a reset of the port, requested by user space, works as follows.  A port of
    revision 2 or later is left alone; one that something else keeps disabled too
    is not touched either, but for reading its revision.  Otherwise the soft reset
    bit is set, the port acknowledges, the bit is cleared and the acknowledgement
    goes away, in this order and with the count of disables back at 0.  It fails only
    when the port does not react in time, with [-ETIMEDOUT]: at the second wait the
    reset bit is clear again, at the first one the port is left in reset and
    counted as disabled. *)
Theorem port_reset_exact base s :
  dfl_get_feature_ioaddr_by_id (pt_fd s) PORT_FEATURE_ID_HEADER = Some base → 0 ≤ count s < 2 ^ 32 - 1 →
  wp (port_reset tries)
    (λ _ s', ∃ h l1 l2, became (count s) (MmioRead (base + DFH) h :: l1 ++ l2) s s' ∧
       if FIELD_GET DFH_REVISION h <? 2 then switched_port true base s l1 ∧ switched_port false base s l2
       else l1 ++ l2 = [])
    (λ e s', e = - ETIMEDOUT ∧ count s = 0 ∧ ∃ h, FIELD_GET DFH_REVISION h < 2 ∧
       ((∃ l, became 1 (MmioRead (base + DFH) h :: l) s s' ∧ reset_to true false base l) ∨
        (∃ l1 l2, became 0 (MmioRead (base + DFH) h :: l1 ++ l2) s s' ∧
           reset_to true true base l1 ∧ reset_to false false base l2))) s.
Proof.
  intros Hb Hc. unfold port_reset, get_port_rev. wsteps. rewrite Hb. unfold dfl_feature_revision. wsteps.
  apply on_readq_spec. intros h d. wsteps.
  assert (0 ≤ FIELD_GET DFH_REVISION h < 2 ^ 4) as Hr by (apply (FIELD_GET_range DFH_REVISION); unfold field_ok; cbn; lia).
  rewrite u8_small by (unfold is_u8; lia). set (s1 := Prt _ _).
  assert (became (count s) [MmioRead (base + DFH) h] s s1) as H1.
  { split; [|done]. unfold s1, count. cbn. by destruct (pt_fd s). }
  assert (count s1 = count s) as Hn by done.
  destruct (Z.eqb_spec (FIELD_GET DFH_REVISION h) 2) as [He|He]; wsteps.
  { exists h, [], []. split; [done|]. by rewrite He. }
  destruct (Z.ltb_spec 2 (FIELD_GET DFH_REVISION h)); wsteps.
  { exists h, [], []. split; [done|]. destruct (Z.ltb_spec (FIELD_GET DFH_REVISION h) 2); [lia|done]. }
  eapply wp_mono; [apply (reset_spec base); done| |]; rewrite Hn.
  - intros _ s2 (l1 & l2 & H2 & Hl1 & Hl2). exists h, l1, l2. split; [by apply (became_trans _ _ _ _ _ _ _ H1)|].
    destruct (Z.ltb_spec (FIELD_GET DFH_REVISION h) 2); [done|lia].
  - intros e s2 (-> & Hz & Hl). split_and!; [done..|]. exists h. split; [lia|].
    destruct Hl as [(l & H2 & Hl)|(l1 & l2 & H2 & Hl)]; [left; exists l|right; exists l1, l2];
      (split; [by apply (became_trans _ _ _ _ _ _ _ H1)|done]).
Qed.

(** Once a reset has timed out at the first wait, every reset afterwards reports a
    success and does nothing. *)
Lemma reset_stuck base n s :
  dfl_get_feature_ioaddr_by_id (pt_fd s) PORT_FEATURE_ID_HEADER = Some base → 0 < count s < 2 ^ 32 - 1 →
  wp (for_each (replicate n tt) (λ _, __port_reset tries)) (λ _ s', became (count s) [] s s') (λ _ _, False) s.
Proof.
  intros Hb Hc. apply wp_for_each.
  { split; [unfold count; by destruct (pt_fd s)|by rewrite app_nil_r]. }
  intros _ s1 _ H1. pose proof H1 as [Hf1 _].
  assert (count s1 = count s) as Hn by (unfold count at 1; by rewrite Hf1).
  eapply wp_mono; [apply (reset_spec base); [by rewrite Hf1|lia]| |intros e s2 (_ & ? & _); lia].
  intros _ s2 (l1 & l2 & H2 & Hl1 & Hl2). unfold switched_port in *. rewrite Hn in *.
  destruct (Z.eqb_spec (count s) 0); [lia|]. subst l1 l2. by apply (became_trans _ _ _ _ _ _ _ H1).
Qed.

(** ** Clearing errors *)

(** The accesses to the error registers: errors are masked meanwhile, and cleared
    only when they are still the ones that were asked for. *)
Inductive err_log (base err : Z) : bool → list mmio_io → Prop :=
| err_cleared f :
    err_log base err true
      [MmioWrite (base + PORT_ERROR_MASK) (Z.ones 64); MmioRead (base + PORT_ERROR) err;
       MmioWrite (base + PORT_ERROR) err; MmioRead (base + PORT_FIRST_ERROR) f;
       MmioWrite (base + PORT_FIRST_ERROR) f; MmioWrite (base + PORT_ERROR_MASK) 0]
| err_other v :
    v ≠ err →
    err_log base err false
      [MmioWrite (base + PORT_ERROR_MASK) (Z.ones 64); MmioRead (base + PORT_ERROR) v;
       MmioWrite (base + PORT_ERROR_MASK) 0].

Lemma err_session_spec base err s :
  dfl_get_feature_ioaddr_by_id (pt_fd s) PORT_FEATURE_ID_ERROR = Some base →
  wp (err_session err) (λ ret s', ∃ ok l, ret = (if ok : bool then 0 else - EINVAL) ∧ err_log base err ok l ∧
    became (count s) l s s') (λ _ _, False) s.
Proof.
  intros Hb. unfold err_session, __afu_port_err_mask. wsteps. eapply feature_base_spec; [done|].
  apply on_regs_spec. unfold writeq. wsteps. eapply feature_base_spec; [done|]. wsteps.
  apply on_readq_spec. intros v d.
  assert (∀ l mm, mm_log mm = mm_log (pt_mm s) ++ l → became (count s) l s (Prt (pt_fd s) mm)) as Hbec.
  { intros l mm Hl. split; [|done]. cbn. unfold count. by destruct (pt_fd s). }
  destruct (Z.eqb_spec v err) as [->|Hne]; wsteps.
  - apply on_regs_spec. wsteps. apply on_readq_spec. intros f d'. wsteps. apply on_regs_spec. wsteps.
    eapply feature_base_spec; [done|]. apply on_regs_spec. wsteps. cbn [pt_fd pt_mm mm_log].
    exists true. eexists. split_and!; [done|apply (err_cleared _ _ f)|]. apply Hbec. cbn. by rewrite <- !app_assoc.
  - eapply feature_base_spec; [done|]. apply on_regs_spec. wsteps. cbn [pt_fd pt_mm mm_log].
    exists false. eexists. split_and!; [done|by apply (err_other _ _ v)|]. apply Hbec. cbn. by rewrite <- !app_assoc.
Qed.

(** Clearing the errors of a port.  Nothing is touched in power state AP6
    ([-EBUSY]).  Otherwise the port is held in reset around the whole session, the
    errors are masked meanwhile, and they are cleared exactly when the error
    register still shows the value that was asked for ([-EINVAL] if it does not);
    the errors are unmasked and the port is enabled again in both cases.  Only when
    the port does not acknowledge the disable is it left disabled. *)
Lemma err_clear_exact bh be err s :
  dfl_get_feature_ioaddr_by_id (pt_fd s) PORT_FEATURE_ID_HEADER = Some bh →
  dfl_get_feature_ioaddr_by_id (pt_fd s) PORT_FEATURE_ID_ERROR = Some be → 0 ≤ count s < 2 ^ 32 - 1 →
  let sts v := MmioRead (bh + PORT_HDR_STS) v in
  let ap6 v := FIELD_GET PORT_STS_PWR_STATE v = PORT_STS_PWR_STATE_AP6 in
  let session ok v l1 m l2 s' := ¬ ap6 v ∧ became (count s) (sts v :: l1 ++ m ++ l2) s s' ∧
    switched_port true bh s l1 ∧ err_log be err ok m in
  wp (afu_port_err_clear tries err)
    (λ _ s', ∃ v l1 m l2, session true v l1 m l2 s' ∧ switched_port false bh s l2)
    (λ e s', ∃ v,
       ap6 v ∧ e = - EBUSY ∧ became (count s) [sts v] s s' ∨
       ¬ ap6 v ∧ e = - ETIMEDOUT ∧ count s = 0 ∧ (∃ l, became 1 (sts v :: l) s s' ∧ reset_to true false bh l) ∨
       (∃ l1 m l2, session false v l1 m l2 s' ∧ switched_port false bh s l2) ∧ e = - EINVAL ∨
       (∃ ok l1 m l2, session ok v l1 m l2 s' ∧ reset_to false false bh l2) ∧ e = - ETIMEDOUT ∧ count s = 0) s.
Proof.
  intros Hbh Hbe Hc sts ap6 session. unfold afu_port_err_clear. wsteps. eapply feature_base_spec; [done|]. wsteps.
  apply on_readq_spec. intros v d. set (s0 := Prt _ _).
  assert (became (count s) [sts v] s s0) as H0 by (split; [unfold count; by destruct (pt_fd s)|done]).
  destruct (Z.eqb_spec (FIELD_GET PORT_STS_PWR_STATE v) PORT_STS_PWR_STATE_AP6) as [Ha|Ha]; wsteps.
  { exists v. by left. }
  eapply wp_mono; [apply (disable_spec bh s0); done| |].
  2: { intros e s1 (-> & Hz & l & H1 & Hl). exists v. right; left. split_and!; [done..|].
       exists l. split; [by apply (became_trans _ _ _ _ _ _ _ H0)|done]. }
  intros _ s1 (l1 & H1 & Hl1). pose proof (became_trans _ _ _ _ _ _ _ H0 H1) as H01. pose proof H01 as [Hf1 _].
  change (count s0) with (count s) in *.
  assert (count s1 = count s + 1) as Hn1 by (unfold count at 1; by rewrite Hf1).
  wsteps. eapply wp_mono; [apply (err_session_spec be); by rewrite Hf1| |done].
  intros ret s2 (ok & m & -> & Hm & H2). wsteps. pose proof (became_trans _ _ _ _ _ _ _ H01 H2) as H02. pose proof H02 as [Hf2 _].
  assert (count s2 = count s + 1) as Hn2 by (unfold count at 1; by rewrite Hf2, Hn1).
  assert (∀ l2 n s3, became n l2 s2 s3 → became n (sts v :: l1 ++ m ++ l2) s s3) as Hall.
  { intros l2 n s3 H3. pose proof (became_trans _ _ _ _ _ _ _ H02 H3) as H03. by rewrite <- !app_assoc in H03. }
  eapply wp_mono; [apply (enable_spec bh); [by rewrite Hf2|lia]| |].
  - intros _ s3 (l2 & H3 & Hl2). replace (count s2 - 1) with (count s) in H3 by lia.
    assert (switched_port false bh s l2) as Hs2.
    { unfold switched_port. revert Hl2. rewrite Hn2.
      destruct (Z.eqb_spec (count s) 0), (Z.eqb_spec (count s + 1) 1); by try lia. }
    cbn. destruct ok; wsteps; [intros _|done|intros [=]|intros _]; exists v; [|do 2 right; left; split; [|done]];
      (exists l1, m, l2; split; [|done]); (split_and!; [done|by apply Hall|done|done]).
  - intros e s3 (-> & Hn & l2 & H3 & Hl2). assert (count s = 0) as Hz by lia.
    cbn. wsteps; [intros [=]|intros _]. exists v. do 3 right. split_and!; [|done..].
    exists ok, l1, m, l2. split; [|done]. split_and!; [done| |done|done]. rewrite Hz. by apply Hall.
Qed.

(** ** Attributes *)

(** Storing the latency changes no other bit of the control register. *)
Lemma ltr_store_spec base b s :
  dfl_get_feature_ioaddr_by_id (pt_fd s) PORT_FEATURE_ID_HEADER = Some base →
  wp (ltr_store (Some b))
    (λ _ s', ∃ v w, became (count s) [MmioRead (base + PORT_HDR_CTRL) v; MmioWrite (base + PORT_HDR_CTRL) w] s s' ∧
       FIELD_GET PORT_CTRL_LATENCY w = Z.b2z b ∧ ∀ i, 0 ≤ i < 64 → i ≠ 2 → Z.testbit w i = Z.testbit v i)
    (λ _ _, False) s.
Proof.
  intros Hb. unfold ltr_store. wsteps. eapply feature_base_spec; [done|]. wsteps. apply on_readq_spec. intros v d.
  apply on_regs_spec. unfold writeq. wsteps. cbn. exists v. eexists. split.
  - split; [unfold count; by destruct (pt_fd s)|]. cbn. by rewrite <- app_assoc.
  - change (Z.lor (clear_field PORT_CTRL_LATENCY v) (FIELD_PREP PORT_CTRL_LATENCY (if b then 1 else 0)))
      with (set_field PORT_CTRL_LATENCY v (if b then 1 else 0)).
    assert (field_ok PORT_CTRL_LATENCY) as Hok by (unfold field_ok; cbn; lia). split.
    + rewrite FIELD_GET_set_field by (done || cbn; lia). by destruct b.
    + intros i Hi Hne. apply testbit_set_field_out; cbn; [done|done|lia].
Qed.
(** An accelerator in reset is not asked for its identity. *)
Lemma afu_id_busy s :
  count s ≠ 0 → afu_id_show s = Done (Err (- EBUSY), s).
Proof. intros Hc. unfold afu_id_show, mbind, M_bind. cbn. fold (count s). by destruct (Z.eqb_spec (count s) 0). Qed.
End Facts.
