(* ===== verification/AfuRegion.v ===== *)
(** * MMIO regions of an accelerator (drivers/fpga/dfl-afu-region.c, afu_mmap)

    The regions of a port are laid out one after another in the file of the device,
    each on a page boundary; user space asks for one by its index and maps parts of
    it by the offset in the file. *)
From stdpp Require Import gmap gmultiset.
From S2P Require Import Prelude AreaTree DmaPages AfuDma.

(* drivers/fpga/dfl-afu.h:35-42 dfl_afu_mmio_region *)
Record dfl_afu_mmio_region := MmioRegion {
  mr_index : Z;
  mr_flags : Z;
  mr_size : Z;
  mr_offset : Z;
  mr_phys : Z;
}.
#[export] Instance dfl_afu_mmio_region_eq_dec : EqDecision dfl_afu_mmio_region.
Proof. solve_decision. Defined.
(** The DMA regions are part of the state in [AfuDma]. *)
(* drivers/fpga/dfl-afu.h:74-80 dfl_afu *)
Record dfl_afu := Afu {
  af_region_cur_offset : Z;
  af_num_regions : Z;
  af_num_umsgs : Z;
  af_regions : list dfl_afu_mmio_region;
}.
Definition set_af_regions l (a : dfl_afu) := Afu (af_region_cur_offset a) (af_num_regions a) (af_num_umsgs a) l.

(* include/uapi/linux/fpga-dfl.h:104-104 DFL_PORT_REGION_READ *)
Definition DFL_PORT_REGION_READ : field := BIT_ULL 0.
(* include/uapi/linux/fpga-dfl.h:105-105 DFL_PORT_REGION_WRITE *)
Definition DFL_PORT_REGION_WRITE : field := BIT_ULL 1.
(* include/uapi/linux/fpga-dfl.h:106-106 DFL_PORT_REGION_MMAP *)
Definition DFL_PORT_REGION_MMAP : field := BIT_ULL 2.
(* include/uapi/linux/fpga-dfl.h:109-109 DFL_PORT_REGION_INDEX_AFU *)
Definition DFL_PORT_REGION_INDEX_AFU : Z := 0.
(* include/uapi/linux/fpga-dfl.h:110-110 DFL_PORT_REGION_INDEX_STP *)
Definition DFL_PORT_REGION_INDEX_STP : Z := 1.
(** Flags of a mapping, from the kernel. *)
Definition VM_READ : field := BIT_ULL 0.
Definition VM_WRITE : field := BIT_ULL 1.
Definition VM_SHARED : field := BIT_ULL 3.
Definition EPERM : Z := 1.

Section Region.
Context `{DmaKernel}.
(** [remap_pfn_range] for an address, a frame number and a size: a status. *)
Context (remap_pfn_range : Z → Z → Z → Z).

(** [m_afu] is the private data, [m_live] the regions that are allocated and
    [m_maps] the mappings that were made: address, frame number and size. *)
Record mrst := MrSt {
  m_k : dk;
  m_afu : option dfl_afu;
  m_live : Z;
  m_maps : list (Z * Z * Z);
}.
Implicit Types s : mrst.
Definition set_m_afu x s := MrSt (m_k s) x (m_live s) (m_maps s).
Definition the_afu : M mrst dfl_afu := s ← get; access (m_afu s).
Definition region_kzalloc : M mrst bool := λ s,
  let (ok, k) := dk_alloc (m_k s) in
  Done (Val ok, MrSt k (m_afu s) (m_live s + (if ok then 1 else 0)) (m_maps s)).
Definition region_kfree : M mrst unit := modify (λ s, MrSt (m_k s) (m_afu s) (m_live s - 1) (m_maps s)).

Definition PAGE_SIZE : Z := Z.shiftl 1 PAGE_SHIFT.
(** [PAGE_ALIGN] and [PFN_PHYS] of 64-bit values. *)
Definition PAGE_ALIGN (x : Z) : Z := Z.land (u64 (x + (PAGE_SIZE - 1))) (Z.lxor (Z.ones 64) (Z.ones PAGE_SHIFT)).
Definition PFN_PHYS (x : Z) : Z := u64 (Z.shiftl x PAGE_SHIFT).

(* drivers/fpga/dfl-afu-region.c:17-22 afu_mmio_region_init *)
Definition afu_mmio_region_init : M mrst unit :=
  afu ← the_afu; modify (set_m_afu (Some (set_af_regions [] afu))).

(* drivers/fpga/dfl-afu-region.c:27-37 get_region_by_index *)
Fixpoint get_region_by_index (l : list dfl_afu_mmio_region) (region_index : Z) : option dfl_afu_mmio_region :=
  match l with
  | [] => None
  | region :: l => if mr_index region =? region_index then Some region else get_region_by_index l region_index
  end.

(* drivers/fpga/dfl-afu-region.c:50-91 afu_mmio_region_add *)
Definition afu_mmio_region_add (region_index region_size phys flags : Z) : M mrst unit :=
  ok ← region_kzalloc;
  if negb ok then throw (- ENOMEM) else
  afu ← the_afu;
  match get_region_by_index (af_regions afu) region_index with
  | Some _ => region_kfree ;; throw (- EEXIST)
  | None =>
      let offset := af_region_cur_offset afu in
      let region := MmioRegion region_index flags region_size offset phys in
      modify (set_m_afu (Some (Afu (u64 (offset + PAGE_ALIGN region_size)) (s32 (af_num_regions afu + 1))
        (af_num_umsgs afu) (region :: af_regions afu))))
  end.

(** The list keeps its entries. *)
(* drivers/fpga/dfl-afu-region.c:97-104 afu_mmio_region_destroy *)
Definition afu_mmio_region_destroy : M mrst unit :=
  afu ← the_afu; for_each (af_regions afu) (λ _, region_kfree).

(* drivers/fpga/dfl-afu-region.c:114-133 afu_mmio_region_get_by_index *)
Definition afu_mmio_region_get_by_index (region_index : Z) : M mrst dfl_afu_mmio_region :=
  afu ← the_afu;
  match get_region_by_index (af_regions afu) region_index with
  | None => throw (- EINVAL)
  | Some region => mret region
  end.

(* drivers/fpga/dfl-afu-region.c:158-163 afu_mmio_region_get_by_offset *)
Fixpoint by_offset (l : list dfl_afu_mmio_region) (offset size : Z) : option dfl_afu_mmio_region :=
  match l with
  | [] => None
  | region :: l =>
      if (mr_offset region <=? offset) && (u64 (offset + size) <=? u64 (mr_offset region + mr_size region))
      then Some region else by_offset l offset size
  end.
(* drivers/fpga/dfl-afu-region.c:148-168 afu_mmio_region_get_by_offset *)
Definition afu_mmio_region_get_by_offset (offset size : Z) : M mrst dfl_afu_mmio_region :=
  afu ← the_afu;
  match by_offset (af_regions afu) offset size with
  | None => throw (- EINVAL)
  | Some region => mret region
  end.

(** The part of [struct vm_area_struct] that is used. *)
Record vma := Vma {
  vm_start : Z;
  vm_end : Z;
  vm_pgoff : Z;
  vm_flags : Z;
}.
(* drivers/fpga/dfl-afu-main.c:893-930 afu_mmap *)
Definition afu_mmap (v : vma) : M mrst unit :=
  let size := u64 (vm_end v - vm_start v) in
  if negb (has_bits VM_SHARED (vm_flags v)) then throw (- EINVAL) else
  let offset := PFN_PHYS (vm_pgoff v) in
  region ← afu_mmio_region_get_by_offset offset size;
  if negb (has_bits DFL_PORT_REGION_MMAP (mr_flags region)) then throw (- EINVAL) else
  if has_bits VM_READ (vm_flags v) && negb (has_bits DFL_PORT_REGION_READ (mr_flags region)) then throw (- EPERM) else
  if has_bits VM_WRITE (vm_flags v) && negb (has_bits DFL_PORT_REGION_WRITE (mr_flags region)) then throw (- EPERM) else
  let pfn := PFN_DOWN (u64 (mr_phys region + u64 (offset - mr_offset region))) in
  let ret := remap_pfn_range (vm_start v) pfn size in
  rc ret ;;
  modify (λ s, MrSt (m_k s) (m_afu s) (m_live s) (m_maps s ++ [(vm_start v, pfn, size)])).
End Region.

(** ** Properties of the MMIO regions

    The layout of the regions in the file, and that a mapping stays inside the
    region it was made from. *)

Section Facts.
Context `{DmaKernelOk} (remap : Z → Z → Z → Z).
Implicit Types s : mrst.
Implicit Types r : dfl_afu_mmio_region.

Lemma page_size_pos : 0 < PAGE_SIZE.
Proof. unfold PAGE_SIZE. rewrite Z.shiftl_1_l. apply Z.pow_pos_nonneg; [lia|apply page_shift_pos]. Qed.

(** Rounding up to whole pages. *)
Definition page_up (x : Z) : Z := (x + (PAGE_SIZE - 1)) / PAGE_SIZE * PAGE_SIZE.
Lemma page_up_ge x : x ≤ page_up x.
Proof. unfold page_up. pose proof page_size_pos. pose proof (Z.div_mod (x + (PAGE_SIZE - 1)) PAGE_SIZE). pose proof (Z.mod_pos_bound (x + (PAGE_SIZE - 1)) PAGE_SIZE). nia. Qed.
Lemma PAGE_ALIGN_up x : 0 ≤ x → x + (PAGE_SIZE - 1) < 2 ^ 64 → PAGE_ALIGN x = page_up x.
Proof.
  intros Hx Hb. pose proof page_size_pos as Hp. unfold PAGE_ALIGN, page_up. rewrite u64_small by (unfold is_u64; lia).
  set (y := x + _) in *. pose proof page_shift_pos as Hs. unfold PAGE_SIZE. rewrite Z.shiftl_1_l.
  apply Z.bits_inj'. intros i Hi. rewrite Z.land_spec, Z.lxor_spec.
  rewrite <- Z.shiftr_div_pow2, <- Z.shiftl_mul_pow2 by lia.
  rewrite Z.shiftl_spec by done.
  destruct (Z.lt_ge_cases i PAGE_SHIFT).
  - rewrite !Z.ones_spec_low by lia. rewrite (Z.testbit_neg_r _ (i - PAGE_SHIFT)) by lia. apply andb_false_r.
  - rewrite Z.shiftr_spec, (Z.ones_spec_high PAGE_SHIFT) by lia. replace (i - PAGE_SHIFT + PAGE_SHIFT) with i by lia.
    destruct (Z.lt_ge_cases i 64); [rewrite Z.ones_spec_low by lia; by rewrite andb_true_r|].
    rewrite (Z.bits_above_log2 y i); [done|lia|]. destruct (decide (y = 0)) as [->|]; [cbn; lia|].
    apply Z.log2_lt_pow2; [lia|]. eapply Z.lt_le_trans; [exact Hb|]. apply Z.pow_le_mono_r; lia.
Qed.

(** ** The layout *)

(** The regions, the newest first, fill the file up to [cur]. *)
Fixpoint tiled (cur : Z) (l : list dfl_afu_mmio_region) : Prop :=
  match l with
  | [] => cur = 0
  | r :: l => mr_offset r + page_up (mr_size r) = cur ∧ 0 ≤ mr_size r ∧ tiled (mr_offset r) l
  end.
Record afu_wf (a : dfl_afu) : Prop := {
  wf_count : af_num_regions a = Z.of_nat (length (af_regions a));
  wf_index : NoDup (mr_index <$> af_regions a);
  wf_tiled : tiled (af_region_cur_offset a) (af_regions a);
}.
(** The private data is well-formed, and exactly its regions are allocated. *)
Definition regions_inv s : Prop := ∃ a, m_afu s = Some a ∧ afu_wf a ∧ m_live s = Z.of_nat (length (af_regions a)).

Lemma tiled_nonneg cur l : tiled cur l → 0 ≤ cur ∧ Forall (λ r, 0 ≤ mr_offset r ∧ 0 ≤ mr_size r ∧ mr_offset r + mr_size r ≤ cur) l.
Proof.
  revert cur. induction l as [|r l IH]; intros cur; cbn; [by intros ->|].
  intros (<- & Hs & Ht). destruct (IH _ Ht) as [Ho Hl]. pose proof (page_up_ge (mr_size r)). split; [lia|].
  constructor; [lia|]. eapply list.Forall_impl; [exact Hl|]. cbn. intros x Hx. lia.
Qed.
(** Two regions have no byte of the file in common. *)
Lemma tiled_disjoint cur l r1 r2 o :
  tiled cur l → r1 ∈ l → r2 ∈ l →
  mr_offset r1 ≤ o < mr_offset r1 + mr_size r1 → mr_offset r2 ≤ o < mr_offset r2 + mr_size r2 → r1 = r2.
Proof.
  revert cur. induction l as [|r l IH]; intros cur; cbn; [by intros _ ?%elem_of_nil|].
  intros (_ & _ & Ht) [->|H1]%elem_of_cons [->|H2]%elem_of_cons Ho1 Ho2; [done|..|by eapply IH];
    destruct (tiled_nonneg _ _ Ht) as [_ Hf]; rewrite list.Forall_forall in Hf; [specialize (Hf _ H2)|specialize (Hf _ H1)]; cbn in Hf; lia.
Qed.
Lemma tiled_aligned cur l r : tiled cur l → r ∈ l → ∃ k, mr_offset r = k * PAGE_SIZE.
Proof.
  assert (∀ l cur, tiled cur l → ∃ k, cur = k * PAGE_SIZE) as Hc.
  { clear cur l. induction l as [|x l IH]; intros cur; cbn; [intros ->; by exists 0|].
    intros (<- & _ & Ht). destruct (IH _ Ht) as [k ->]. unfold page_up.
    exists (k + (mr_size x + (PAGE_SIZE - 1)) / PAGE_SIZE). lia. }
  revert cur. induction l as [|x l IH]; intros cur; cbn; [by intros _ ?%elem_of_nil|].
  intros (_ & _ & Ht) [->|Hr]%elem_of_cons; [by eapply Hc|by eapply IH].
Qed.

Lemma get_by_index_spec l i :
  NoDup (mr_index <$> l) →
  match get_region_by_index l i with Some r => r ∈ l ∧ mr_index r = i | None => i ∉ mr_index <$> l end.
Proof.
  induction l as [|r l IH]; cbn; [intros _; apply not_elem_of_nil|]. intros [Hn Hd]%list.NoDup_cons.
  destruct (Z.eqb_spec (mr_index r) i) as [<-|Hne]; [by split; [left|]|].
  specialize (IH Hd). destruct (get_region_by_index l i); [destruct IH; by split; [right|]|].
  rewrite not_elem_of_cons. split; [congruence|done].
Qed.

(** ** Operations *)

Lemma the_afu_spec a s (Q : dfl_afu → mrst → Prop) E : m_afu s = Some a → Q a s → wp the_afu Q E s.
Proof. intros Ha HQ. unfold the_afu. wsteps. by rewrite Ha. Qed.

(** [s'] has the region [r] besides those of [s], behind them in the file. *)
Definition added r s s' : Prop :=
  ∃ a a', m_afu s = Some a ∧ m_afu s' = Some a' ∧ af_regions a' = r :: af_regions a ∧
    mr_offset r = af_region_cur_offset a ∧ mr_index r ∉ mr_index <$> af_regions a.

(** C27: adding a region keeps the table of regions well-formed: the count is the
    number of regions, no two have the same index, they fill the file one after
    another on page boundaries without a gap or an overlap, and exactly they are
    allocated.  The region is new, and the operation fails, changing nothing, only
    without memory or if its index is taken. *)
Theorem region_add_wf index size phys flags s :
  regions_inv s → 0 ≤ size →
  (∀ a, m_afu s = Some a → af_region_cur_offset a + page_up size < 2 ^ 64 ∧ Z.of_nat (length (af_regions a)) < 2 ^ 31 - 1) →
  size + (PAGE_SIZE - 1) < 2 ^ 64 →
  wp (afu_mmio_region_add index size phys flags)
    (λ _ s', regions_inv s' ∧ ∃ o, added (MmioRegion index flags size o phys) s s')
    (λ e s', regions_inv s' ∧ m_afu s' = m_afu s ∧
       (e = - ENOMEM ∨ e = - EEXIST ∧ ∃ a r, m_afu s = Some a ∧ r ∈ af_regions a ∧ mr_index r = index)) s.
Proof.
  intros (a & Ha & Hwf & Hlive) Hsize Hroom Hpage. destruct (Hroom _ Ha) as [Hcur Hlen]. pose proof Hwf as [Hn Hi Ht].
  destruct (tiled_nonneg _ _ Ht) as [Hz _]. pose proof (page_up_ge size).
  unfold afu_mmio_region_add. wsteps. unfold wpg at 1, region_kzalloc.
  destruct (dk_alloc (m_k s)) as [[] k]; cbn [negb]; wsteps.
  2: { split; [|by auto]. exists a. split_and!; [done|done|]. cbn. lia. }
  eapply the_afu_spec; [done|]. pose proof (get_by_index_spec _ index Hi) as Hg.
  destruct (get_region_by_index (af_regions a) index) as [r|].
  - unfold region_kfree. wsteps. split; [|split; [done|]].
    + exists a. split_and!; [done|done|]. cbn. lia.
    + right. split; [done|]. destruct Hg. by exists a, r.
  - wsteps. rewrite PAGE_ALIGN_up, u64_small, s32_small by (done || unfold is_u64; lia). split.
    + eexists. split; [done|]. split; [|cbn; lia]. constructor; cbn; [lia| |by split_and!].
      by apply list.NoDup_cons.
    + eexists. exists a. eexists. split_and!; done.
Qed.

Lemma by_offset_spec l offset size cur :
  tiled cur l → cur < 2 ^ 64 → 0 ≤ offset → 0 ≤ size → offset + size < 2 ^ 64 →
  match by_offset l offset size with
  | Some r => r ∈ l ∧ mr_offset r ≤ offset ∧ offset + size ≤ mr_offset r + mr_size r
  | None => ∀ r, r ∈ l → ¬ (mr_offset r ≤ offset ∧ offset + size ≤ mr_offset r + mr_size r)
  end.
Proof.
  intros Ht Hc Ho Hs Hb. destruct (tiled_nonneg _ _ Ht) as [_ Hf]. clear Ht. induction Hf as [|r l Hr _ IH]; cbn.
  { by intros r ?%elem_of_nil. }
  rewrite !u64_small by (unfold is_u64; lia).
  destruct (Z.leb_spec (mr_offset r) offset); cbn [andb];
    [destruct (Z.leb_spec (offset + size) (mr_offset r + mr_size r)); [by split; [left|]|]|];
    (destruct (by_offset l offset size); [destruct IH; by split; [right|]|]; intros x [->|Hx]%elem_of_cons; [lia|by apply IH]).
Qed.

(** The region is found by its index. *)
Lemma get_by_index_op_spec i s a :
  m_afu s = Some a → NoDup (mr_index <$> af_regions a) →
  wp (afu_mmio_region_get_by_index i) (λ r s', s' = s ∧ r ∈ af_regions a ∧ mr_index r = i)
    (λ e s', s' = s ∧ e = - EINVAL ∧ i ∉ mr_index <$> af_regions a) s.
Proof.
  intros Ha Hi. unfold afu_mmio_region_get_by_index. wsteps. eapply the_afu_spec; [done|].
  pose proof (get_by_index_spec _ i Hi) as Hg. destruct (get_region_by_index _ _); by wsteps.
Qed.

(** ** Mappings *)

(** The size of a mapping and its offset in the file. *)
Definition vma_size (v : vma) : Z := vm_end v - vm_start v.
Definition vma_offset (v : vma) : Z := vm_pgoff v * PAGE_SIZE.
(** A mapping that is not empty or reversed, whose part of the file ends before 2^64.
    The kernel guarantees the former but not the latter, since the user chooses the
    offset; [mmap_wraps] is what happens without it. *)
Definition vma_ok (v : vma) : Prop :=
  0 ≤ vm_start v ∧ 0 < vma_size v ∧ vm_end v < 2 ^ 64 ∧ 0 ≤ vm_pgoff v ∧ vma_offset v + vma_size v < 2 ^ 64.
(** The physical addresses of a region, which start at a page. *)
Definition phys_ok r : Prop := 0 ≤ mr_phys r ∧ mr_phys r + mr_size r < 2 ^ 64 ∧ ∃ k, mr_phys r = k * PAGE_SIZE.
(** The region [r] allows what the mapping asks for. *)
Definition allows r (v : vma) : Prop :=
  has_bits VM_SHARED (vm_flags v) = true ∧ has_bits DFL_PORT_REGION_MMAP (mr_flags r) = true ∧
  (has_bits VM_READ (vm_flags v) = true → has_bits DFL_PORT_REGION_READ (mr_flags r) = true) ∧
  (has_bits VM_WRITE (vm_flags v) = true → has_bits DFL_PORT_REGION_WRITE (mr_flags r) = true).

(** C26: a mapping of the device file whose offset and size add up to less than 2^64
    shows physical addresses of one region only, provided the regions follow one
    another in the file, and their physical addresses start at a page and end before
    2^64.  (A mapping whose offset and size add up to more is accepted though it is
    outside all regions.)  If [mmap] succeeds, one region contains the part of the file that is mapped and
    allows the kind of access, and exactly the physical pages at the same distance
    from the start of the region are mapped, all of which lie in it.  If it fails,
    nothing was mapped; it fails with [-EINVAL] when no region contains that part. *)
Theorem mmap_inside v a s :
  m_afu s = Some a → tiled (af_region_cur_offset a) (af_regions a) → af_region_cur_offset a < 2 ^ 64 →
  Forall phys_ok (af_regions a) → vma_ok v →
  let inside r := r ∈ af_regions a ∧ mr_offset r ≤ vma_offset v ∧ vma_offset v + vma_size v ≤ mr_offset r + mr_size r in
  wp (afu_mmap remap v)
    (λ _ s', ∃ r pfn, inside r ∧ allows r v ∧ m_afu s' = m_afu s ∧ m_maps s' = m_maps s ++ [(vm_start v, pfn, vma_size v)] ∧
       pfn * PAGE_SIZE = mr_phys r + (vma_offset v - mr_offset r) ∧
       mr_phys r ≤ pfn * PAGE_SIZE ∧ pfn * PAGE_SIZE + vma_size v ≤ mr_phys r + mr_size r)
    (λ e s', s' = s ∧ e ≠ 0 ∧ ((∀ r, ¬ inside r) → e = - EINVAL)) s.
Proof.
  intros Ha Ht Hcur Hphys (Hv0 & Hv1 & Hv2 & Hv3 & Hv4) inside. pose proof page_size_pos as Hps.
  unfold vma_offset, vma_size in *. unfold afu_mmap.
  rewrite (u64_small (vm_end v - vm_start v)) by (unfold is_u64; nia).
  destruct (has_bits VM_SHARED _) eqn:Hsh; cbn [negb]; wsteps; [|done].
  assert (PFN_PHYS (vm_pgoff v) = vm_pgoff v * PAGE_SIZE) as ->.
  { unfold PFN_PHYS. rewrite Z.shiftl_mul_pow2 by apply page_shift_pos. rewrite <- Z.shiftl_1_l. fold PAGE_SIZE.
    rewrite u64_small; [done|]. unfold is_u64. nia. }
  unfold afu_mmio_region_get_by_offset. wsteps. eapply the_afu_spec; [done|].
  pose proof (by_offset_spec (af_regions a) (vm_pgoff v * PAGE_SIZE) (vm_end v - vm_start v) _ Ht Hcur) as Hb.
  destruct (by_offset _ _ _) as [r|]; wsteps; [|split_and!; [done|done|done]].
  assert (inside r) as Hin by (apply Hb; nia). pose proof Hin as (Hr & Hlo & Hhi).
  assert ((∀ r, ¬ inside r) → ∀ e, e = - EINVAL) as Hno by (intros Hx; by destruct (Hx r)).
  destruct (has_bits DFL_PORT_REGION_MMAP _) eqn:Hm; cbn [negb]; wsteps; [|by split_and!; [..|intros; apply Hno]].
  destruct (has_bits VM_READ _ && _) eqn:Hrd; wsteps; [by split_and!; [..|intros; apply Hno]|].
  destruct (has_bits VM_WRITE _ && _) eqn:Hwr; [wsteps; by split_and!; [..|intros; apply Hno]|]. wsteps.
  2: { intros Hne. by split_and!; [..|intros; apply Hno]. }
  intros _. rewrite list.Forall_forall in Hphys. destruct (Hphys _ Hr) as (Hp0 & Hp1 & k & Hk).
  destruct (tiled_aligned _ _ _ Ht Hr) as [j Hj].
  assert (0 ≤ mr_offset r) as Ho by (destruct (tiled_nonneg _ _ Ht) as [_ Hf]; rewrite list.Forall_forall in Hf; by apply Hf).
  rewrite (u64_small (_ - mr_offset r)) by (unfold is_u64; nia). rewrite u64_small by (unfold is_u64; nia).
  unfold PFN_DOWN. exists r. eexists. split; [done|]. split.
  { split_and!; [done|done|..]; intros Hx; [rewrite Hx in Hrd|rewrite Hx in Hwr]; by apply negb_false_iff. }
  split_and!; [done|done|..]; rewrite Z.shiftr_div_pow2, <- Z.shiftl_1_l by apply page_shift_pos; fold PAGE_SIZE;
    (replace (mr_phys r + (vm_pgoff v * PAGE_SIZE - mr_offset r)) with ((k + vm_pgoff v - j) * PAGE_SIZE) by lia;
     rewrite Z.div_mul by lia); nia.
Qed.
End Facts.
