(* ===== verification/AfuMain.v ===== *)
(** * The accelerator driver (drivers/fpga/dfl-afu-main.c)

    The device file of a port: opening, closing, the ioctls; and the features of a
    port.  The state puts together the feature device with its registers, the DMA
    and MMIO regions and the interrupts of the features. *)
From stdpp Require Import gmap gmultiset strings.
From S2P Require Import Prelude DflRegs DflTypes DflPorts DflIrq DflBus AreaTree DmaPages AfuDma AfuDmaOps Mmio FeatureIrqs AfuPort AfuRegion.

(** ** What user space passes *)

(* include/uapi/linux/fpga-dfl.h:79-86 dfl_fpga_port_info *)
Record dfl_fpga_port_info := PortInfo {
  pi_argsz : Z;
  pi_flags : Z;
  pi_num_regions : Z;
  pi_num_umsgs : Z;
}.
(* include/uapi/linux/fpga-dfl.h:99-115 dfl_fpga_port_region_info *)
Record dfl_fpga_port_region_info := RegionInfo {
  ri_argsz : Z;
  ri_flags : Z;
  ri_index : Z;
  ri_padding : Z;
  ri_size : Z;
  ri_offset : Z;
}.
(* include/uapi/linux/fpga-dfl.h:134-144 dfl_fpga_port_dma_map *)
Record dfl_fpga_port_dma_map := DmaMap {
  dm_argsz : Z;
  dm_flags : Z;
  dm_user_addr : Z;
  dm_length : Z;
  dm_iova : Z;
}.
(* include/uapi/linux/fpga-dfl.h:155-160 dfl_fpga_port_dma_unmap *)
Record dfl_fpga_port_dma_unmap := DmaUnmap {
  du_argsz : Z;
  du_flags : Z;
  du_iova : Z;
}.
(** What is written to user space. *)
Inductive user_out :=
| OutInfo (i : dfl_fpga_port_info)
| OutRegion (r : dfl_fpga_port_region_info)
| OutMap (m : dfl_fpga_port_dma_map)
| OutNum (n : Z).

(** The memory of the process: what can be copied from an address, and whether it
    can be written there; interrupt descriptors are as in [DflIrq]. *)
Class AfuUser := {
  copy_port_info : Z → option dfl_fpga_port_info;
  copy_region_info : Z → option dfl_fpga_port_region_info;
  copy_dma_map : Z → option dfl_fpga_port_dma_map;
  copy_dma_unmap : Z → option dfl_fpga_port_dma_unmap;
  copy_irq_set : Z → option (Z * Z);
  copy_evtfds : Z → Z → list Z + Z;
  writable : Z → bool;
}.

(* include/uapi/linux/fpga-dfl.h:20-20 DFL_FPGA_API_VERSION *)
Definition DFL_FPGA_API_VERSION : Z := 0.
(* include/uapi/linux/fpga-dfl.h:46-46 DFL_FPGA_GET_API_VERSION *)
Definition DFL_FPGA_GET_API_VERSION : Z := 0xB600.
(* include/uapi/linux/fpga-dfl.h:55-55 DFL_FPGA_CHECK_EXTENSION *)
Definition DFL_FPGA_CHECK_EXTENSION : Z := 0xB601.
(* include/uapi/linux/fpga-dfl.h:88-88 DFL_FPGA_PORT_GET_INFO *)
Definition DFL_FPGA_PORT_GET_INFO : Z := 0xB641.
(* include/uapi/linux/fpga-dfl.h:117-117 DFL_FPGA_PORT_GET_REGION_INFO *)
Definition DFL_FPGA_PORT_GET_REGION_INFO : Z := 0xB642.
(* include/uapi/linux/fpga-dfl.h:146-146 DFL_FPGA_PORT_DMA_MAP *)
Definition DFL_FPGA_PORT_DMA_MAP : Z := 0xB643.
(* include/uapi/linux/fpga-dfl.h:162-162 DFL_FPGA_PORT_DMA_UNMAP *)
Definition DFL_FPGA_PORT_DMA_UNMAP : Z := 0xB644.
(* include/uapi/linux/fpga-dfl.h:185-186 DFL_FPGA_PORT_ERR_GET_IRQ_NUM *)
Definition DFL_FPGA_PORT_ERR_GET_IRQ_NUM : Z := 0x8004B645.
(* include/uapi/linux/fpga-dfl.h:196-198 DFL_FPGA_PORT_ERR_SET_IRQ *)
Definition DFL_FPGA_PORT_ERR_SET_IRQ : Z := 0x4008B646.
(* include/uapi/linux/fpga-dfl.h:208-209 DFL_FPGA_PORT_UINT_GET_IRQ_NUM *)
Definition DFL_FPGA_PORT_UINT_GET_IRQ_NUM : Z := 0x8004B647.
(* include/uapi/linux/fpga-dfl.h:219-221 DFL_FPGA_PORT_UINT_SET_IRQ *)
Definition DFL_FPGA_PORT_UINT_SET_IRQ : Z := 0x4008B648.

(** ** Feature drivers *)

(** The operations of the feature drivers, and the handles [dfl_feature] has for
    them. *)
Inductive port_feature_ops := port_hdr_ops | port_afu_ops | port_err_ops | port_stp_ops | port_uint_ops.
#[export] Instance port_feature_ops_eq : EqDecision port_feature_ops.
Proof. solve_decision. Defined.
Definition ops_handle (o : port_feature_ops) : Z :=
  match o with port_hdr_ops => 1 | port_afu_ops => 2 | port_err_ops => 3 | port_stp_ops => 4 | port_uint_ops => 5 end.
Definition ops_of (h : Z) : option port_feature_ops :=
  match h with 1 => Some port_hdr_ops | 2 => Some port_afu_ops | 3 => Some port_err_ops
             | 4 => Some port_stp_ops | 5 => Some port_uint_ops | _ => None end.
(** An id table ends with an entry of zeroes. *)
Definition one_id (id : Z) : list dfl_feature_id := [FeatureId id guid_null; FeatureId 0 guid_null].
(* drivers/fpga/dfl-afu-main.c:660-684 port_feature_drvs *)
Definition port_feature_drvs : list dfl_feature_driver :=
  [FeatureDriver (Some (one_id PORT_FEATURE_ID_HEADER)) (Some (ops_handle port_hdr_ops));
   FeatureDriver (Some (one_id PORT_FEATURE_ID_AFU)) (Some (ops_handle port_afu_ops));
   FeatureDriver (Some (one_id PORT_FEATURE_ID_ERROR)) (Some (ops_handle port_err_ops));
   FeatureDriver (Some (one_id PORT_FEATURE_ID_STP)) (Some (ops_handle port_stp_ops));
   FeatureDriver (Some (one_id PORT_FEATURE_ID_UINT)) (Some (ops_handle port_uint_ops));
   FeatureDriver None None].

Section Afu.
Context `{MmioHw} `{DmaKernel} `{IrqKernel} `{AfuUser}.
(** The bound of the polls of a reset. *)
Context (tries : nat).

(** [a_irqs] has an account for each feature; [a_out] is what was written to user
    space, with the address. *)
Record ast := ASt {
  a_port : prt;
  a_dma : dst;
  a_afu : option dfl_afu;
  a_live : Z;
  a_maps : list (Z * Z * Z);
  a_ik : ik;
  a_irqs : list irq_account;
  a_out : list (Z * user_out);
}.
Implicit Types s : ast.
Definition a_fd s : dfl_feature_dev_data := pt_fd (a_port s).
Definition set_a_port x s := ASt x (a_dma s) (a_afu s) (a_live s) (a_maps s) (a_ik s) (a_irqs s) (a_out s).
Definition set_a_fd x s := set_a_port (Prt x (pt_mm (a_port s))) s.
Definition set_a_dma x s := ASt (a_port s) x (a_afu s) (a_live s) (a_maps s) (a_ik s) (a_irqs s) (a_out s).
Definition set_a_afu x s := ASt (a_port s) (a_dma s) x (a_live s) (a_maps s) (a_ik s) (a_irqs s) (a_out s).
Definition get_regions s : mrst := MrSt (d_k (a_dma s)) (a_afu s) (a_live s) (a_maps s).
Definition put_regions (r : mrst) s :=
  ASt (a_port s) (DSt (m_k r) (d_tree (a_dma s)) (d_locked (a_dma s)) (d_pins (a_dma s)) (d_maps (a_dma s)))
    (m_afu r) (m_live r) (m_maps r) (a_ik s) (a_irqs s) (a_out s).
Definition on_port {A} (m : M prt A) : M ast A := zoom a_port set_a_port m.
Definition on_dma {A} (m : M dst A) : M ast A := zoom a_dma set_a_dma m.
Definition on_regions {A} (m : M mrst A) : M ast A := zoom get_regions put_regions m.
Definition get_irqs s : fist := FiSt (fd_features (a_fd s)) (a_ik s) (a_irqs s).
Definition put_irqs (q : fist) s :=
  ASt (Prt (set_fd_features (fi_features q) (a_fd s)) (pt_mm (a_port s)))
    (a_dma s) (a_afu s) (a_live s) (a_maps s) (fi_k q) (fi_accs q) (a_out s).
Definition on_irqs {A} (m : M fist A) : M ast A := zoom get_irqs put_irqs m.
Definition copy_to_user (arg : Z) (o : user_out) : M ast bool :=
  if writable arg
  then modify (λ s, ASt (a_port s) (a_dma s) (a_afu s) (a_live s) (a_maps s) (a_ik s) (a_irqs s) (a_out s ++ [(arg, o)])) ;; mret true
  else mret false.

(** ** Features *)

Definition port_region_flags : Z :=
  Z.lor (Z.lor (mask DFL_PORT_REGION_MMAP) (mask DFL_PORT_REGION_READ)) (mask DFL_PORT_REGION_WRITE).
Definition resource_size (r : resource) : Z := u64 (r_end r - r_start r + 1).
Definition add_feature_region (index : Z) (feature : dfl_feature) : M ast unit :=
  s ← get;
  res ← access (pdev_resource (a_fd s) (f_resource_index feature));
  on_regions (afu_mmio_region_add index (resource_size res) (r_start res) port_region_flags).
(* drivers/fpga/dfl-afu-main.c:567-591 port_afu_init *)
Definition port_afu_init (feature : dfl_feature) : M ast unit := add_feature_region DFL_PORT_REGION_INDEX_AFU feature.
(* drivers/fpga/dfl-afu-main.c:614-625 port_stp_init *)
Definition port_stp_init (feature : dfl_feature) : M ast unit := add_feature_region DFL_PORT_REGION_INDEX_STP feature.

(** [put_user] of the number of interrupts. *)
Definition ioctl_get_num_irqs (i : nat) (arg : Z) : M ast unit :=
  s ← get;
  feature ← access (fd_features (a_fd s) !! i);
  ok ← copy_to_user arg (OutNum (f_nr_irqs feature));
  rc (dfl_feature_ioctl_get_num_irqs (λ _, if (ok : bool) then 0 else - EFAULT) (f_nr_irqs feature)).
Definition ioctl_set_irq (i : nat) (arg : Z) : M ast unit :=
  on_irqs (on_table i (λ f, dfl_feature_ioctl_set_irq (f_nr_irqs f) (copy_irq_set arg) (copy_evtfds arg))).

(* drivers/fpga/dfl-afu-main.c:636-649 port_uint_ioctl *)
Definition port_uint_ioctl (i : nat) (cmd arg : Z) : M ast unit :=
  if cmd =? DFL_FPGA_PORT_UINT_GET_IRQ_NUM then ioctl_get_num_irqs i arg
  else if cmd =? DFL_FPGA_PORT_UINT_SET_IRQ then ioctl_set_irq i arg
  else throw (- ENODEV).
(* drivers/fpga/dfl-afu-error.c:247-260 port_err_ioctl *)
Definition port_err_ioctl (i : nat) (cmd arg : Z) : M ast unit :=
  if cmd =? DFL_FPGA_PORT_ERR_GET_IRQ_NUM then ioctl_get_num_irqs i arg
  else if cmd =? DFL_FPGA_PORT_ERR_SET_IRQ then ioctl_set_irq i arg
  else throw (- ENODEV).

(** [f->ops->ioctl], where the operations have one. *)
Definition feature_ioctl (o : port_feature_ops) : option (nat → Z → Z → M ast unit) :=
  match o with
  | port_hdr_ops => Some (λ _ cmd arg, on_port (port_hdr_ioctl tries cmd arg))
  | port_err_ops => Some port_err_ioctl
  | port_uint_ops => Some port_uint_ioctl
  | _ => None
  end.

(** ** The device file *)

(* drivers/fpga/dfl-afu-main.c:686-702 afu_open *)
Definition afu_open (excl : bool) : M ast unit :=
  s ← get;
  let (fd, ret) := dfl_feature_dev_use_begin excl (a_fd s) in
  modify (set_a_fd fd) ;;
  rc ret.

(** [fuel] bounds the DMA regions. *)
(* drivers/fpga/dfl-afu-main.c:704-729 afu_release *)
Definition afu_release (fuel : nat) : M ast unit :=
  modify (λ s, set_a_fd (dfl_feature_dev_use_end (a_fd s)) s) ;;
  s ← get;
  if negb (dfl_feature_dev_use_count (a_fd s) =? 0) then mret tt else
  on_irqs (unbind_features 0 (Z.to_nat (fd_num (a_fd s)))) ;;
  rev ← on_port get_port_rev;
  (if rev <? 2 then status (on_port (__port_reset tries)) ;; mret tt else mret tt) ;;
  on_dma (afu_dma_region_destroy fuel).

(* drivers/fpga/dfl-afu-main.c:731-736 afu_ioctl_check_extension *)
Definition afu_ioctl_check_extension (arg : Z) : M ast unit := mret tt.

(* drivers/fpga/dfl-afu-main.c:738-764 afu_ioctl_get_info *)
Definition afu_ioctl_get_info (arg : Z) : M ast unit :=
  match copy_port_info arg with
  | None => throw (- EFAULT)
  | Some info =>
      if pi_argsz info <? 16 then throw (- EINVAL) else
      afu ← on_regions the_afu;
      ok ← copy_to_user arg (OutInfo (PortInfo (pi_argsz info) 0 (u32 (af_num_regions afu)) (af_num_umsgs afu)));
      if (ok : bool) then mret tt else throw (- EFAULT)
  end.

(* drivers/fpga/dfl-afu-main.c:766-794 afu_ioctl_get_region_info *)
Definition afu_ioctl_get_region_info (arg : Z) : M ast unit :=
  match copy_region_info arg with
  | None => throw (- EFAULT)
  | Some rinfo =>
      if (ri_argsz rinfo <? 32) || negb (ri_padding rinfo =? 0) then throw (- EINVAL) else
      region ← on_regions (afu_mmio_region_get_by_index (ri_index rinfo));
      ok ← copy_to_user arg (OutRegion (RegionInfo (ri_argsz rinfo) (mr_flags region) (ri_index rinfo) 0
             (mr_size region) (mr_offset region)));
      if (ok : bool) then mret tt else throw (- EFAULT)
  end.

(* drivers/fpga/dfl-afu-main.c:796-826 afu_ioctl_dma_map *)
Definition afu_ioctl_dma_map (arg : Z) : M ast unit :=
  let dma_mask := Z.lor DFL_DMA_MAP_FLAG_READ DFL_DMA_MAP_FLAG_WRITE in
  match copy_dma_map arg with
  | None => throw (- EFAULT)
  | Some map =>
      if (dm_argsz map <? 32) || negb (Z.land (dm_flags map) (Z.lxor (Z.ones 32) dma_mask) =? 0) then throw (- EINVAL) else
      iova ← on_dma (afu_dma_map_region (dm_user_addr map) (dm_length map) (dm_flags map));
      ok ← copy_to_user arg (OutMap (DmaMap (dm_argsz map) (dm_flags map) (dm_user_addr map) (dm_length map) iova));
      if (ok : bool) then mret tt
      else status (on_dma (afu_dma_unmap_region iova)) ;; throw (- EFAULT)
  end.

(* drivers/fpga/dfl-afu-main.c:828-843 afu_ioctl_dma_unmap *)
Definition afu_ioctl_dma_unmap (arg : Z) : M ast unit :=
  match copy_dma_unmap arg with
  | None => throw (- EFAULT)
  | Some unmap =>
      if (du_argsz unmap <? 16) || negb (du_flags unmap =? 0) then throw (- EINVAL) else
      on_dma (afu_dma_unmap_region (du_iova unmap))
  end.

(** Asking the features from number [i] on, [n] of them. *)
(* drivers/fpga/dfl-afu-main.c:876-881 afu_ioctl *)
Fixpoint ioctl_loop (cmd arg : Z) (i n : nat) : M ast unit :=
  match n with
  | O => throw (- EINVAL)
  | S n =>
      s ← get;
      f ← access (fd_features (a_fd s) !! i);
      match f_ops f ≫= (λ h, ops_of h ≫= feature_ioctl) with
      | Some ioctl =>
          ret ← status (ioctl i cmd arg);
          if negb (ret =? - ENODEV) then rc ret else ioctl_loop cmd arg (S i) n
      | None => ioctl_loop cmd arg (S i) n
      end
  end.
(* drivers/fpga/dfl-afu-main.c:845-885 afu_ioctl *)
Definition afu_ioctl (cmd arg : Z) : M ast unit :=
  if cmd =? DFL_FPGA_GET_API_VERSION then rc DFL_FPGA_API_VERSION
  else if cmd =? DFL_FPGA_CHECK_EXTENSION then afu_ioctl_check_extension arg
  else if cmd =? DFL_FPGA_PORT_GET_INFO then afu_ioctl_get_info arg
  else if cmd =? DFL_FPGA_PORT_GET_REGION_INFO then afu_ioctl_get_region_info arg
  else if cmd =? DFL_FPGA_PORT_DMA_MAP then afu_ioctl_dma_map arg
  else if cmd =? DFL_FPGA_PORT_DMA_UNMAP then afu_ioctl_dma_unmap arg
  else s ← get; ioctl_loop cmd arg 0 (Z.to_nat (fd_num (a_fd s))).

(** ** The device *)

(* drivers/fpga/dfl-afu-main.c:940-956 afu_dev_init *)
Definition afu_dev_init : M ast unit :=
  ok ← on_dma kalloc_ok;
  if negb ok then throw (- ENOMEM) else
  modify (set_a_afu (Some (Afu 0 0 0 []))) ;;
  on_regions afu_mmio_region_init ;;
  on_dma afu_dma_region_init.

(* drivers/fpga/dfl-afu-main.c:958-969 afu_dev_destroy *)
Definition afu_dev_destroy (fuel : nat) : M ast unit :=
  on_regions afu_mmio_region_destroy ;;
  on_dma (afu_dma_region_destroy fuel) ;;
  modify (set_a_afu None).
End Afu.

(** ** Properties of the accelerator driver

    The composition: closing the last file of a port gives everything back that its
    users took; a DMA mapping that cannot be reported is undone; and which ioctl
    does what. *)

Section Facts.
Context `{MmioHw} `{DmaKernelOk} `{IrqKernel} `{AfuUser} (tries : nat).
Implicit Types s : ast.

Lemma on_port_spec {A} (m : M prt A) s (Q : A → ast → Prop) E :
  wp m (λ a p, Q a (set_a_port p s)) (λ e p, E e (set_a_port p s)) (a_port s) → wp (on_port m) Q E s.
Proof. apply wp_zoom. Qed.
Lemma on_dma_spec {A} (m : M dst A) s (Q : A → ast → Prop) E :
  wp m (λ a d, Q a (set_a_dma d s)) (λ e d, E e (set_a_dma d s)) (a_dma s) → wp (on_dma m) Q E s.
Proof. apply wp_zoom. Qed.
Lemma on_regions_spec {A} (m : M mrst A) s (Q : A → ast → Prop) E :
  wp m (λ a r, Q a (put_regions r s)) (λ e r, E e (put_regions r s)) (get_regions s) → wp (on_regions m) Q E s.
Proof. apply wp_zoom. Qed.
Lemma put_get_regions s : put_regions (get_regions s) s = s.
Proof. by destruct s as [? []]. Qed.
Lemma set_a_port_id s : set_a_port (a_port s) s = s.
Proof. by destruct s. Qed.
Lemma copy_to_user_spec arg o s (Q : bool → ast → Prop) E :
  (writable arg = true → Q true (ASt (a_port s) (a_dma s) (a_afu s) (a_live s) (a_maps s) (a_ik s) (a_irqs s) (a_out s ++ [(arg, o)]))) →
  (writable arg = false → Q false s) → wp (copy_to_user arg o) Q E s.
Proof. intros Ht Hf. unfold copy_to_user. destruct (writable arg); wsteps; auto. Qed.

(** ** Interrupts *)

(** Every feature has an account, and its table is in order. *)
Definition irqs_ok s : Prop :=
  fd_num (a_fd s) = Z.of_nat (length (fd_features (a_fd s))) ∧ tables_ok (get_irqs s).
(** The same but for the interrupts of the features. *)
Definition same_but_irqs s s' : Prop :=
  pt_mm (a_port s') = pt_mm (a_port s) ∧ a_dma s' = a_dma s ∧ a_afu s' = a_afu s ∧ a_live s' = a_live s ∧
  a_maps s' = a_maps s ∧ a_out s' = a_out s ∧
  set_fd_features [] (a_fd s') = set_fd_features [] (a_fd s) ∧ same_features (get_irqs s) (get_irqs s').
Lemma get_put_irqs q s : get_irqs (put_irqs q s) = q.
Proof. by destruct q. Qed.

Lemma release_irqs_spec s :
  irqs_ok s →
  wp (on_irqs (unbind_features 0 (length (fd_features (a_fd s)))))
    (λ _ s', irqs_ok s' ∧ same_but_irqs s s' ∧ quiet_tables 0 (length (fd_features (a_fd s))) (get_irqs s'))
    (λ _ _, False) s.
Proof.
  intros [Hnum Hok]. apply wp_zoom.
  pose proof (unbind_features_spec (length (fd_features (a_fd s))) 0 (get_irqs s) Hok eq_refl) as Hun. unfold wpg in Hun.
  destruct (unbind_features _ _ _) as [[[u|e] q]| |]; try (apply Hun; intros k ? ? ?; lia).
  destruct Hun as (Hq & Hs & Hqu); [intros k ? ? ?; lia|]. pose proof (same_features_length _ _ Hs) as Hl.
  unfold irqs_ok, same_but_irqs. rewrite get_put_irqs. cbn in Hl |- *. rewrite Hl. by split_and!.
Qed.

(** ** Closing the file *)

Lemma feature_by_id_irqs l id :
  feature_by_id (set_f_irq_ctx [] <$> l) id = set_f_irq_ctx [] <$> feature_by_id l id.
Proof. induction l as [|f l IH]; cbn; [done|]. by destruct (f_id f =? id). Qed.
Lemma same_ioaddr s s' id :
  same_but_irqs s s' → dfl_get_feature_ioaddr_by_id (a_fd s') id = dfl_get_feature_ioaddr_by_id (a_fd s) id.
Proof.
  intros (_ & _ & _ & _ & _ & _ & _ & Hl). unfold same_features in Hl. cbn in Hl. apply (f_equal (λ l, feature_by_id l id)) in Hl.
  rewrite !feature_by_id_irqs in Hl. unfold dfl_get_feature_ioaddr_by_id, dfl_get_feature_by_id.
  destruct (feature_by_id (fd_features (a_fd s')) id), (feature_by_id (fd_features (a_fd s)) id); try done.
  cbn in Hl. by injection Hl.
Qed.
Lemma same_scalars s s' :
  same_but_irqs s s' → fd_open_count (a_fd s') = fd_open_count (a_fd s) ∧ fd_excl_open (a_fd s') = fd_excl_open (a_fd s) ∧
    count (a_port s') = count (a_port s) ∧ length (fd_features (a_fd s')) = length (fd_features (a_fd s)).
Proof.
  intros (_ & _ & _ & _ & _ & _ & Hf & Hl). apply same_features_length in Hl.
  injection Hf as ? ? ? ? ? Hd He Ho. by split_and!.
Qed.

Definition reset_timeout (base : Z) (l : list mmio_io) : Prop :=
  reset_to true false base l ∨ ∃ l1 l2, l = l1 ++ l2 ∧ reset_to true true base l1 ∧ reset_to false false base l2.
(** The accesses of a reset of the port [p], done or timed out, if its revision, in
    the header [h], has one. *)
Definition reset_tried (base h : Z) (p : prt) (l : list mmio_io) : Prop :=
  if FIELD_GET DFH_REVISION h <? 2
  then (∃ l1 l2, l = l1 ++ l2 ∧ switched_port true base p l1 ∧ switched_port false base p l2) ∨ reset_timeout base l
  else l = [].

Lemma try_reset_spec base p :
  dfl_get_feature_ioaddr_by_id (pt_fd p) PORT_FEATURE_ID_HEADER = Some base → 0 ≤ count p < 2 ^ 32 - 1 →
  wp (rev ← get_port_rev; if rev <? 2 then status (__port_reset tries) ;; mret tt else mret tt)
    (λ _ p', ∃ h l n, became n (MmioRead (base + DFH) h :: l) p p' ∧ reset_tried base h p l) (λ _ _, False) p.
Proof.
  intros Hb Hc. unfold get_port_rev. wsteps. rewrite Hb. unfold dfl_feature_revision. wsteps.
  apply on_readq_spec. intros h d. wsteps.
  assert (0 ≤ FIELD_GET DFH_REVISION h < 2 ^ 4) as Hr by (apply (FIELD_GET_range DFH_REVISION); unfold field_ok; cbn; lia).
  rewrite u8_small by (unfold is_u8; lia). set (p1 := Prt _ _).
  assert (became (count p) [MmioRead (base + DFH) h] p p1) as Hp1.
  { split; [|done]. unfold p1, count. cbn. by destruct (pt_fd p). }
  unfold reset_tried. destruct (Z.ltb_spec (FIELD_GET DFH_REVISION h) 2); wsteps.
  2: { exists h, [], (count p). split; [done|]. by destruct (Z.ltb_spec (FIELD_GET DFH_REVISION h) 2); [lia|]. }
  eapply wp_mono; [apply (reset_spec tries base); done| |].
  - intros _ p2 (l1 & l2 & Hp2 & Hl1 & Hl2). wsteps. exists h, (l1 ++ l2), (count p1).
    split; [by apply (became_trans _ _ _ _ _ _ _ Hp1)|]. destruct (Z.ltb_spec (FIELD_GET DFH_REVISION h) 2); [|lia].
    left. by exists l1, l2.
  - intros e p2 (-> & Hz & Hl). wsteps. exists h.
    destruct Hl as [(l & Hp2 & Hl)|(l1 & l2 & Hp2 & Hl1 & Hl2)]; do 2 eexists;
      (split; [by apply (became_trans _ _ _ _ _ _ _ Hp1)|]);
      (destruct (Z.ltb_spec (FIELD_GET DFH_REVISION h) 2); [right|lia]); [by left|right; by exists l1, l2].
Qed.

Lemma on_port_try (a : M prt Z) (b : M prt unit) (k : M ast unit) (Q : unit → ast → Prop) E s :
  wp (rev ← a; if rev <? 2 then status b ;; mret tt else mret tt)
    (λ _ p, wp k Q E (set_a_port p s)) (λ e p, E e (set_a_port p s)) (a_port s) →
  wp (rev ← on_port a; (if rev <? 2 then status (on_port b) ;; mret tt else mret tt) ;; k) Q E s.
Proof.
  unfold wpg, mbind, M_bind, status, on_port, zoom. destruct (a (a_port s)) as [[[rev|e] p1]| |]; try done.
  destruct (rev <? 2); [|done]. cbn. by destruct (b p1) as [[[[]|e] p2]| |].
Qed.

(** C24: closing a file of the port.  While others have the port open, only its use
    count goes down.  The last close gives back everything: the use count is 0 and
    the port is no longer exclusive, no interrupt of any feature is bound to an
    eventfd and none is held for one, no DMA region is left, and the pages that were
    pinned and accounted for them are given back; the port is reset, if its revision
    has a reset.  Closing does not fail.  (The DMA mappings that the destruction does
    not undo are those of [region_destroy_exact].) *)
Theorem release_gives_back L P base s :
  irqs_ok s → dma_inv L P (a_dma s) →
  dfl_get_feature_ioaddr_by_id (a_fd s) PORT_FEATURE_ID_HEADER = Some base → 0 ≤ count (a_port s) < 2 ^ 32 - 1 →
  0 < fd_open_count (a_fd s) →
  wp (afu_release tries (length (inorder (d_tree (a_dma s)))))
    (λ _ s', fd_open_count (a_fd s') = fd_open_count (a_fd s) - 1 ∧ fd_excl_open (a_fd s') = false ∧
       if fd_open_count (a_fd s) =? 1 then
         irqs_ok s' ∧ quiet_tables 0 (length (fd_features (a_fd s'))) (get_irqs s') ∧
         inorder (d_tree (a_dma s')) = [] ∧ d_locked (a_dma s') = L ∧ d_pins (a_dma s') = P ∧
         d_maps (a_dma s') = left_mapped (inorder (d_tree (a_dma s))) ∧
         ∃ h l, mm_log (pt_mm (a_port s')) = mm_log (pt_mm (a_port s)) ++ MmioRead (base + DFH) h :: l ∧
           reset_tried base h (a_port s) l
       else s' = set_a_fd (dfl_feature_dev_use_end (a_fd s)) s)
    (λ _ _, False) s.
Proof.
  intros Hok Hdma Hb Hc Ho. unfold afu_release. wsteps. set (s0 := set_a_fd _ s).
  assert (a_fd s0 = set_fd_open_count (fd_open_count (a_fd s) - 1) (set_fd_excl_open false (a_fd s))) as Hfd0.
  { cbn. unfold dfl_feature_dev_use_end. cbn. destruct (Z.leb_spec (fd_open_count (a_fd s)) 0); [lia|done]. }
  assert (fd_open_count (a_fd s0) = fd_open_count (a_fd s) - 1) as Ho0 by by rewrite Hfd0.
  assert (fd_excl_open (a_fd s0) = false) as He0 by by rewrite Hfd0.
  unfold dfl_feature_dev_use_count. rewrite Ho0.
  destruct (Z.eqb_spec (fd_open_count (a_fd s)) 1) as [Hone|Hone].
  2: { destruct (Z.eqb_spec (fd_open_count (a_fd s) - 1) 0); [lia|]. cbn [negb]. wsteps. by rewrite Ho0, He0. }
  rewrite Hone. cbn [Z.sub Z.eqb Z.add Z.pos_sub negb]. change (1 - 1 =? 0) with true. cbn [negb]. wsteps.
  assert (irqs_ok s0) as Hok0. { unfold irqs_ok, get_irqs. rewrite Hfd0. exact Hok. }
  pose proof Hok0 as [Hnum0 _]. rewrite Hnum0, Nat2Z.id.
  eapply wp_mono; [apply (release_irqs_spec s0 Hok0)| |done].
  intros _ s1 (Hok1 & Hs1 & Hq1).
  destruct (same_scalars _ _ Hs1) as (Ho1 & He1 & Hc1 & Hl1). pose proof Hs1 as (Hmm1 & Hdma1 & _).
  assert (count (a_port s0) = count (a_port s)) as Hc0 by (unfold count; fold (a_fd s0); by rewrite Hfd0).
  apply on_port_try.
  eapply wp_mono; [apply (try_reset_spec base)| |done].
  { fold (a_fd s1). by rewrite (same_ioaddr _ _ _ Hs1), Hfd0. }
  { by rewrite Hc1, Hc0. }
  intros _ p2 (h & l & n & [Hf2 Hl2] & Htried). apply on_dma_spec. cbn [a_dma set_a_port]. rewrite Hdma1.
  eapply wp_mono; [by apply (region_destroy_spec L P)| |done]. intros _ d (Ht & Hlk & Hpn & Hmp).
  set (s3 := set_a_dma d (set_a_port p2 s1)).
  assert (a_fd s3 = set_fd_disable_count n (a_fd s1)) as Hfd3 by exact Hf2. rewrite Hfd3.
  split; [cbn; lia|]. split; [cbn; by rewrite He1|]. split.
  { unfold irqs_ok, get_irqs. rewrite Hfd3. exact Hok1. }
  split. { unfold get_irqs. rewrite Hfd3, <- Hl1 in *. exact Hq1. }
  split_and!; [done..|]. exists h, l. split; [cbn; by rewrite Hl2, Hmm1|].
  revert Htried. unfold reset_tried, switched_port. by rewrite Hc1, Hc0.
Qed.

(** ** Ioctls *)

(** The same regions, pages and mappings. *)
Definition same_dma (d d' : dst) : Prop :=
  inorder (d_tree d') = inorder (d_tree d) ∧ d_locked d' = d_locked d ∧ d_pins d' = d_pins d ∧ d_maps d' = d_maps d.
Lemma same_dma_inv L P d d' : same_dma d d' → dma_inv L P d → dma_inv L P d'.
Proof. intros (Ht & Hl & Hp & Hm) []. constructor; rewrite ?Ht, ?Hl, ?Hp, ?Hm; done. Qed.
(** The state but for the DMA part and what was written to user space. *)
Definition dma_frame s s' : Prop := s' = ASt (a_port s) (a_dma s') (a_afu s) (a_live s) (a_maps s) (a_ik s) (a_irqs s) (a_out s').

(** The ioctl that maps a buffer for DMA is all or nothing, up to user space.
    When it succeeds, the buffer is mapped as it was asked for, and the address of
    this mapping was written back to user space.  When it fails, also because user
    space cannot be written any more, nothing is pinned, accounted or mapped and no
    region is there that was not before, and nothing was written. *)
Lemma ioctl_dma_map_exact L P arg s :
  dma_inv L P (a_dma s) →
  (∀ m, copy_dma_map arg = Some m → is_u64 (dm_length m) ∧ PFN_DOWN (dm_length m) < 2 ^ 31) →
  wp (afu_ioctl_dma_map arg)
    (λ _ s', dma_frame s s' ∧ dma_inv L P (a_dma s') ∧ ∃ m iova, copy_dma_map arg = Some m ∧
       mapped (dm_user_addr m) (dm_length m) (dm_flags m) iova (a_dma s) (a_dma s') ∧
       a_out s' = a_out s ++ [(arg, OutMap (DmaMap (dm_argsz m) (dm_flags m) (dm_user_addr m) (dm_length m) iova))])
    (λ e s', dma_frame s s' ∧ dma_inv L P (a_dma s') ∧ same_dma (a_dma s) (a_dma s') ∧ a_out s' = a_out s) s.
Proof.
  intros Hinv Harg. unfold afu_ioctl_dma_map.
  assert (dma_frame s s ∧ dma_inv L P (a_dma s) ∧ same_dma (a_dma s) (a_dma s) ∧ a_out s = a_out s) as Hid.
  { split_and!; try done. unfold dma_frame. by destruct s. }
  destruct (copy_dma_map arg) as [m|]; [|by wsteps]. destruct (Harg m eq_refl) as [Hlen Hpages].
  destruct (_ || _); [by wsteps|]. wstep. apply on_dma_spec.
  eapply wp_mono; [apply map_region_spec; [apply Hinv|done..]| |].
  2: { intros e d Hd. unfold same_but_kernel in Hd. split_and!; [done| | |done].
       - by eapply same_but_kernel_inv.
       - rewrite Hd. done. }
  intros iova d Hm. wstep. apply copy_to_user_spec; intros Hw; wsteps.
  - split; [done|]. split; [eapply mapped_inv; [exact Hm|exact Hinv]|]. by exists m, iova.
  - apply on_dma_spec. cbn [a_dma set_a_dma]. eapply wp_mono; [eapply (unmap_mapped L P); [exact Hinv|exact Hm]| |done].
    intros ? d' Hd'. wsteps. split_and!; [done| |done|done]. eapply same_dma_inv; [exact Hd'|exact Hinv].
Qed.

(** An ioctl that the driver does not know fails with [-EINVAL] and changes
    nothing, whatever features the port has. *)
Lemma ioctl_unknown cmd arg s :
  fd_num (a_fd s) = Z.of_nat (length (fd_features (a_fd s))) →
  cmd ∉ [DFL_FPGA_GET_API_VERSION; DFL_FPGA_CHECK_EXTENSION; DFL_FPGA_PORT_GET_INFO; DFL_FPGA_PORT_GET_REGION_INFO;
         DFL_FPGA_PORT_DMA_MAP; DFL_FPGA_PORT_DMA_UNMAP; DFL_FPGA_PORT_RESET; DFL_FPGA_PORT_ERR_GET_IRQ_NUM;
         DFL_FPGA_PORT_ERR_SET_IRQ; DFL_FPGA_PORT_UINT_GET_IRQ_NUM; DFL_FPGA_PORT_UINT_SET_IRQ] →
  afu_ioctl tries cmd arg s = Done (Err (- EINVAL), s).
Proof.
  intros Hnum Hc. rewrite !not_elem_of_cons in Hc.
  assert (∀ c, c ∈ [DFL_FPGA_GET_API_VERSION; DFL_FPGA_CHECK_EXTENSION; DFL_FPGA_PORT_GET_INFO; DFL_FPGA_PORT_GET_REGION_INFO;
    DFL_FPGA_PORT_DMA_MAP; DFL_FPGA_PORT_DMA_UNMAP; DFL_FPGA_PORT_RESET; DFL_FPGA_PORT_ERR_GET_IRQ_NUM;
    DFL_FPGA_PORT_ERR_SET_IRQ; DFL_FPGA_PORT_UINT_GET_IRQ_NUM; DFL_FPGA_PORT_UINT_SET_IRQ] → (cmd =? c) = false) as Hne.
  { intros c Hi. apply Z.eqb_neq. rewrite !elem_of_cons, elem_of_nil in Hi. naive_solver. }
  assert (∀ n i, (i + n = length (fd_features (a_fd s)))%nat → ioctl_loop tries cmd arg i n s = Done (Err (- EINVAL), s)) as Hloop.
  { induction n as [|n IH]; intros i Hi; [done|]. cbn [ioctl_loop]. unfold mbind, M_bind at 1. cbn [get].
    destruct (lookup_lt_is_Some_2 (fd_features (a_fd s)) i) as [f Hf]; [lia|]. rewrite Hf. cbn.
    destruct (f_ops f) as [h|]; cbn; [|apply IH; lia]. destruct (ops_of h) as [[]|]; cbn; try (apply IH; lia).
    - unfold port_hdr_ioctl. rewrite Hne by set_solver. unfold on_port, zoom, status, throw, M_bind.
      rewrite set_a_port_id. cbn. apply IH. lia.
    - unfold port_err_ioctl. rewrite !Hne by set_solver. unfold status, throw. cbn. apply IH. lia.
    - unfold port_uint_ioctl. rewrite !Hne by set_solver. unfold status, throw. cbn. apply IH. lia. }
  unfold afu_ioctl. rewrite !Hne by set_solver. unfold mbind, M_bind at 1. cbn [get]. apply Hloop. rewrite Hnum, Nat2Z.id. lia.
Qed.
End Facts.
