(* ===== verification/CxlCache.v ===== *)
(** * The buffers of a CXL cache exerciser (drivers/fpga/dfl-cxl-cache.c)

    User space pins buffers of consecutive pages, whose physical address the driver
    writes to registers that user space names, maps the registers, and gives the
    buffers back; one process at a time has the device open. *)
From stdpp Require Import gmap gmultiset sorting.
From S2P Require Import Prelude DflRegs DflTypes AreaTree DmaPages AfuDma AfuDmaOps Mmio AfuRegion.

(* include/uapi/linux/fpga-dfl.h:351-351 DFL_ARRAY_MAX_SIZE *)
Definition DFL_ARRAY_MAX_SIZE : Z := 0x10.
(* include/uapi/linux/fpga-dfl.h:331-331 DFL_CXL_CACHE_REGION_READ *)
Definition DFL_CXL_CACHE_REGION_READ : field := BIT_ULL 0.
(* include/uapi/linux/fpga-dfl.h:332-332 DFL_CXL_CACHE_REGION_WRITE *)
Definition DFL_CXL_CACHE_REGION_WRITE : field := BIT_ULL 1.
(* include/uapi/linux/fpga-dfl.h:333-333 DFL_CXL_CACHE_REGION_MMAP *)
Definition DFL_CXL_CACHE_REGION_MMAP : field := BIT_ULL 2.
(* include/uapi/linux/fpga-dfl.h:367-367 DFL_CXL_BUFFER_MAP_WRITABLE *)
Definition DFL_CXL_BUFFER_MAP_WRITABLE : field := BIT_ULL 0.
(* include/uapi/linux/fpga-dfl.h:317-317 DFL_CXL_CACHE_GET_REGION_INFO *)
Definition DFL_CXL_CACHE_GET_REGION_INFO : Z := 0xB6A0.
(* include/uapi/linux/fpga-dfl.h:353-353 DFL_CXL_CACHE_NUMA_BUFFER_MAP *)
Definition DFL_CXL_CACHE_NUMA_BUFFER_MAP : Z := 0xB6A1.
(* include/uapi/linux/fpga-dfl.h:384-384 DFL_CXL_CACHE_NUMA_BUFFER_UNMAP *)
Definition DFL_CXL_CACHE_NUMA_BUFFER_UNMAP : Z := 0xB6A2.
(* include/uapi/linux/fpga-dfl.h:46-46 DFL_FPGA_GET_API_VERSION *)
Definition CXL_GET_API_VERSION : Z := 0xB600.
(* include/uapi/linux/fpga-dfl.h:55-55 DFL_FPGA_CHECK_EXTENSION *)
Definition CXL_CHECK_EXTENSION : Z := 0xB601.

(* include/uapi/linux/fpga-dfl.h:328-336 dfl_cxl_cache_region_info *)
Record dfl_cxl_cache_region_info := CxlInfo {
  xi_argsz : Z;
  xi_flags : Z;
  xi_size : Z;
  xi_offset : Z;
}.
(* include/uapi/linux/fpga-dfl.h:365-372 dfl_cxl_cache_buffer_map *)
Record dfl_cxl_cache_buffer_map := CxlMap {
  xm_argsz : Z;
  xm_flags : Z;
  xm_user_addr : Z;
  xm_length : Z;
  xm_csr_array : list Z;
}.
(* include/uapi/linux/fpga-dfl.h:396-402 dfl_cxl_cache_buffer_unmap *)
Record dfl_cxl_cache_buffer_unmap := CxlUnmap {
  xu_argsz : Z;
  xu_flags : Z;
  xu_user_addr : Z;
  xu_length : Z;
  xu_csr_array : list Z;
}.
(** [offsetofend(..., csr_array)]: two words of 32 bits and eighteen of 64. *)
Definition cxl_buffer_minsz : Z := 152.

(** [None] is a NULL array of pages; the array [offset] is never used. *)
(* drivers/fpga/dfl-cxl-cache.c:40-48 dfl_cxl_cache_buffer_region *)
Record dfl_cxl_cache_buffer_region := CxlRegion {
  cr_flags : Z;
  cr_user_addr : Z;
  cr_length : Z;
  cr_pages : option (list Z);
  cr_phys : Z;
}.
#[export] Instance cxl_region_eq_dec : EqDecision dfl_cxl_cache_buffer_region.
Proof. solve_decision. Defined.
Definition set_cr_phys x (r : dfl_cxl_cache_buffer_region) :=
  CxlRegion (cr_flags r) (cr_user_addr r) (cr_length r) (cr_pages r) x.
Fixpoint rb_map {R} (f : R → R) (t : rb_tree R) : rb_tree R :=
  match t with
  | RbLeaf => RbLeaf
  | RbNode l this r => RbNode (rb_map f l) (f this) (rb_map f r)
  end.

(** The memory of the process: what can be copied from an address, whether it can be
    written there, and the mapping that an address belongs to. *)
Class CxlUser := {
  cx_copy_info : Z → option dfl_cxl_cache_region_info;
  cx_copy_map : Z → option dfl_cxl_cache_buffer_map;
  cx_copy_unmap : Z → option dfl_cxl_cache_buffer_unmap;
  cx_writable : Z → bool;
  cx_vma_lookup : Z → option Z;
}.

Abbreviation cdst := (dst_of dfl_cxl_cache_buffer_region).

Section Cxl.
Context `{MmioHw} `{DmaKernel} `{CxlUser}.
(** [remap_pfn_range] for an address, a frame number and a size: a status. *)
Context (remap_pfn_range : Z → Z → Z → Z).

(** The device: [x_dma] has the tree of the buffers and what is accounted and
    pinned; [x_protected] are the mappings of the process that were made read-only,
    [x_maps] those of the registers, [x_out] what was written to user space. *)
(* drivers/fpga/dfl-cxl-cache.c:50-60 dfl_cxl_cache *)
Record dfl_cxl_cache := Cxl {
  x_opened : Z;
  x_mmio_base : Z;
  x_res_start : Z;
  x_rinfo : dfl_cxl_cache_region_info;
  x_dma : dst_of dfl_cxl_cache_buffer_region;
  x_mm : mmst;
  x_protected : list Z;
  x_maps : list (Z * Z * Z);
  x_out : list (Z * dfl_cxl_cache_region_info);
}.
Implicit Types s : dfl_cxl_cache.
Definition set_x_opened x s := Cxl x (x_mmio_base s) (x_res_start s) (x_rinfo s) (x_dma s) (x_mm s) (x_protected s) (x_maps s) (x_out s).
Definition set_x_dma x s := Cxl (x_opened s) (x_mmio_base s) (x_res_start s) (x_rinfo s) x (x_mm s) (x_protected s) (x_maps s) (x_out s).
Definition set_x_mm x s := Cxl (x_opened s) (x_mmio_base s) (x_res_start s) (x_rinfo s) (x_dma s) x (x_protected s) (x_maps s) (x_out s).
Definition set_x_protected x s := Cxl (x_opened s) (x_mmio_base s) (x_res_start s) (x_rinfo s) (x_dma s) (x_mm s) x (x_maps s) (x_out s).
Definition set_x_maps x s := Cxl (x_opened s) (x_mmio_base s) (x_res_start s) (x_rinfo s) (x_dma s) (x_mm s) (x_protected s) x (x_out s).
Definition set_x_out x s := Cxl (x_opened s) (x_mmio_base s) (x_res_start s) (x_rinfo s) (x_dma s) (x_mm s) (x_protected s) (x_maps s) x.
Definition on_pages {A} (m : M cdst A) : M dfl_cxl_cache A := zoom x_dma set_x_dma m.
Definition on_csrs {A} (m : M mmst A) : M dfl_cxl_cache A := zoom x_mm set_x_mm m.

(** ** Opening *)

(* drivers/fpga/dfl-cxl-cache.c:67-77 dfl_cxl_cache_open *)
Definition dfl_cxl_cache_open : M dfl_cxl_cache unit :=
  s ← get;
  if negb (x_opened s =? 0) then throw (- EBUSY)
  else modify (set_x_opened 1).

(* drivers/fpga/dfl-cxl-cache.c:79-83 cxl_cache_ioctl_check_extension *)
Definition cxl_cache_ioctl_check_extension (arg : Z) : M dfl_cxl_cache unit := mret tt.

(* drivers/fpga/dfl-cxl-cache.c:85-105 cxl_cache_ioctl_get_region_info *)
Definition cxl_cache_ioctl_get_region_info (arg : Z) : M dfl_cxl_cache unit :=
  match cx_copy_info arg with
  | None => throw (- EFAULT)
  | Some rinfo =>
      if xi_argsz rinfo <? 24 then throw (- EINVAL) else
      s ← get;
      if cx_writable arg then
        modify (set_x_out (x_out s ++ [(arg, CxlInfo (xi_argsz rinfo) (xi_flags (x_rinfo s)) (xi_size (x_rinfo s)) (xi_offset (x_rinfo s)))]))
      else throw (- EFAULT)
  end.

(** ** Pages *)

(** The array becomes NULL, in a region that is freed. *)
(* drivers/fpga/dfl-cxl-cache.c:107-123 cxl_cache_unpin_pages *)
Definition cxl_cache_unpin_pages (pages : option (list Z)) (length_ : Z) : M cdst unit :=
  let npages := PFN_DOWN length_ in
  match pages with
  | None => mret tt
  | Some pages =>
      unpin_user_pages pages npages ;;
      _ ← account_locked_vm npages false;
      mret tt
  end.
(* drivers/fpga/dfl-cxl-cache.c:125-135 cxl_cache_check_continuous_pages *)
Definition cxl_cache_check_continuous_pages (pages : list Z) (length_ : Z) : M cdst bool :=
  continuous_loop pages 0 (Z.to_nat (s32 (PFN_DOWN length_) - 1)).
(** The pages pinned become those of the region. *)
(* drivers/fpga/dfl-cxl-cache.c:137-179 cxl_cache_dma_pin_pages *)
Definition cxl_cache_dma_pin_pages (region : dfl_cxl_cache_buffer_region) : M cdst (list Z) :=
  let npages := s32 (PFN_DOWN (cr_length region)) in
  ret ← account_locked_vm npages true;
  rc ret ;;
  on_error (
    ok ← kalloc_ok;
    if negb ok then throw (- ENOMEM) else
    pinned ← pin_user_pages_fast (cr_user_addr region) npages (has_bits DFL_CXL_BUFFER_MAP_WRITABLE (cr_flags region));
    match (pinned : list Z + Z) with
    | inr _ => throw (- EFAULT)
    | inl pages =>
        if Z.of_nat (length pages) =? npages then mret pages
        else
          (if 0 <? Z.of_nat (length pages) then unpin_user_pages pages (Z.of_nat (length pages)) else mret tt) ;;
          throw (- EFAULT)
    end)
    (_ ← account_locked_vm npages false; mret tt).

(** ** The tree of buffers *)

(* drivers/fpga/dfl-cxl-cache.c:181-185 cxl_cache_dma_region_remove *)
Definition cxl_cache_dma_region_remove (node : nat) : M cdst unit :=
  s ← get;
  set_tree (rb_erase node (d_tree s)).
(* drivers/fpga/dfl-cxl-cache.c:187-195 dma_region_check_user_addr *)
Definition dma_region_check_user_addr (region : dfl_cxl_cache_buffer_region) (user_addr size : Z) : bool :=
  area_check cr_user_addr cr_length region user_addr size.
(** The node is known by its position in the order of the tree. *)
(* drivers/fpga/dfl-cxl-cache.c:197-219 cxl_cache_dma_region_find *)
Definition cxl_cache_dma_region_find (user_addr size : Z) : M cdst (option (nat * dfl_cxl_cache_buffer_region)) :=
  s ← get;
  mret (area_find cr_user_addr cr_length (d_tree s) user_addr size 0).
(* drivers/fpga/dfl-cxl-cache.c:221-249 cxl_cache_dma_region_add *)
Definition cxl_cache_dma_region_add (region : dfl_cxl_cache_buffer_region) : M cdst unit :=
  s ← get;
  match area_link cr_user_addr cr_length (d_tree s) region with
  | None => throw (- EEXIST)
  | Some t => set_tree (rb_insert_color t)
  end.

(** ** Mapping and unmapping *)

(** On kernels from 5.13 on; of the effects on the mapping of the process only that
    there are some. *)
(* drivers/fpga/dfl-cxl-cache.c:283-318 cxl_cache_set_region_read_only *)
Definition cxl_cache_set_region_read_only (region : dfl_cxl_cache_buffer_region) : M dfl_cxl_cache unit :=
  match cx_vma_lookup (cr_user_addr region) with
  | None => throw (- EINVAL)
  | Some vma =>
      modify (λ s, set_x_protected (x_protected s ++ [vma]) s) ;;
      pages ← access (cr_pages region);
      _ ← access (pages !! 0%nat);
      mret tt
  end.

(** The value goes to the registers of the array that are inside the region. *)
(* drivers/fpga/dfl-cxl-cache.c:387-390 cxl_cache_ioctl_numa_buffer_map *)
Fixpoint write_csrs (v : Z) (csr_array : list Z) : M dfl_cxl_cache unit :=
  match csr_array with
  | [] => mret tt
  | csr :: csr_array =>
      s ← get;
      (if negb (csr =? 0) && (csr <? xi_size (x_rinfo s)) then on_csrs (writeq v (x_mmio_base s + csr)) else mret tt) ;;
      write_csrs v csr_array
  end.
Definition page_to_phys (pfn : Z) : Z := u64 (Z.shiftl pfn PAGE_SHIFT).

(* drivers/fpga/dfl-cxl-cache.c:320-399 cxl_cache_ioctl_numa_buffer_map *)
Definition cxl_cache_ioctl_numa_buffer_map (arg : Z) : M dfl_cxl_cache unit :=
  match cx_copy_map arg with
  | None => throw (- EFAULT)
  | Some dma_map =>
      if xm_argsz dma_map <? cxl_buffer_minsz then throw (- EINVAL) else
      if negb (PAGE_ALIGNED (xm_user_addr dma_map)) || negb (PAGE_ALIGNED (xm_length dma_map)) || (xm_length dma_map =? 0)
      then throw (- EINVAL) else
      if u64 (xm_user_addr dma_map + xm_length dma_map) <? xm_user_addr dma_map then throw (- EINVAL) else
      ok ← on_pages kalloc_ok;
      if negb ok then throw (- ENOMEM) else
      let region := CxlRegion (xm_flags dma_map) (xm_user_addr dma_map) (xm_length dma_map) None 0 in
      pages ← on_pages (cxl_cache_dma_pin_pages region);
      let region := CxlRegion (cr_flags region) (cr_user_addr region) (cr_length region) (Some pages) 0 in
      on_error (
        cont ← on_pages (cxl_cache_check_continuous_pages pages (cr_length region));
        if negb cont then throw (- EINVAL) else
        (if negb (has_bits DFL_CXL_BUFFER_MAP_WRITABLE (cr_flags region))
         then cxl_cache_set_region_read_only region else mret tt) ;;
        on_pages (cxl_cache_dma_region_add region))
        (on_pages (cxl_cache_unpin_pages (cr_pages region) (cr_length region))) ;;
      page0 ← access (pages !! 0%nat);
      on_pages (modify (λ d, DSt (d_k d)
        (rb_map (λ r, if cr_user_addr r =? cr_user_addr region then set_cr_phys (page_to_phys page0) r else r) (d_tree d))
        (d_locked d) (d_pins d) (d_maps d))) ;;
      write_csrs (page_to_phys page0) (xm_csr_array dma_map)
  end.

(* drivers/fpga/dfl-cxl-cache.c:401-435 cxl_cache_ioctl_numa_buffer_unmap *)
Definition cxl_cache_ioctl_numa_buffer_unmap (arg : Z) : M dfl_cxl_cache unit :=
  match cx_copy_unmap arg with
  | None => throw (- EFAULT)
  | Some dma_unmap =>
      if xu_argsz dma_unmap <? cxl_buffer_minsz then throw (- EINVAL) else
      region ← on_pages (cxl_cache_dma_region_find (xu_user_addr dma_unmap) (xu_length dma_unmap));
      match (region : option (nat * dfl_cxl_cache_buffer_region)) with
      | None => throw (- EINVAL)
      | Some (node, region) =>
          on_pages (cxl_cache_dma_region_remove node) ;;
          on_pages (cxl_cache_unpin_pages (cr_pages region) (cr_length region)) ;;
          write_csrs 0 (xu_csr_array dma_unmap)
      end
  end.

(** The result of the first command is its own number. *)
(* drivers/fpga/dfl-cxl-cache.c:437-455 dfl_cxl_cache_ioctl *)
Definition dfl_cxl_cache_ioctl (cmd arg : Z) : M dfl_cxl_cache unit :=
  if cmd =? CXL_GET_API_VERSION then rc CXL_GET_API_VERSION
  else if cmd =? CXL_CHECK_EXTENSION then cxl_cache_ioctl_check_extension arg
  else if cmd =? DFL_CXL_CACHE_GET_REGION_INFO then cxl_cache_ioctl_get_region_info arg
  else if cmd =? DFL_CXL_CACHE_NUMA_BUFFER_MAP then cxl_cache_ioctl_numa_buffer_map arg
  else if cmd =? DFL_CXL_CACHE_NUMA_BUFFER_UNMAP then cxl_cache_ioctl_numa_buffer_unmap arg
  else throw (- EINVAL).

(** ** The registers in user space *)

(* drivers/fpga/dfl-cxl-cache.c:463-492 dfl_cxl_cache_mmap *)
Definition dfl_cxl_cache_mmap (v : vma) : M dfl_cxl_cache unit :=
  let size := u64 (vm_end v - vm_start v) in
  if negb (has_bits VM_SHARED (vm_flags v)) then throw (- EINVAL) else
  s ← get;
  let flags := xi_flags (x_rinfo s) in
  if negb (has_bits DFL_CXL_CACHE_REGION_MMAP flags) then throw (- EINVAL) else
  if has_bits VM_READ (vm_flags v) && negb (has_bits DFL_CXL_CACHE_REGION_READ flags) then throw (- EPERM) else
  if has_bits VM_WRITE (vm_flags v) && negb (has_bits DFL_CXL_CACHE_REGION_WRITE flags) then throw (- EPERM) else
  let offset := PFN_PHYS (vm_pgoff v) in
  let pfn := PFN_DOWN (u64 (x_res_start s + u64 (offset - xi_offset (x_rinfo s)))) in
  rc (remap_pfn_range (vm_start v) pfn size) ;;
  modify (set_x_maps (x_maps s ++ [(vm_start v, pfn, size)])).

(** ** Closing *)

(** From the first node on, which is erased before [rb_next] leaves it: the next
    one is the first of what is left. *)
(* drivers/fpga/dfl-cxl-cache.c:494-510 cxl_cache_dma_region_destroy *)
Fixpoint cxl_cache_dma_region_destroy (fuel : nat) : M cdst unit :=
  s ← get;
  match inorder (d_tree s) with
  | [] => mret tt
  | region :: _ =>
      match fuel with
      | O => nofuel
      | S fuel =>
          cxl_cache_dma_region_remove 0 ;;
          (match cr_pages region with
           | Some pages => cxl_cache_unpin_pages (Some pages) (cr_length region)
           | None => mret tt
           end) ;;
          cxl_cache_dma_region_destroy fuel
      end
  end.
(* drivers/fpga/dfl-cxl-cache.c:512-519 dfl_cxl_cache_release *)
Definition dfl_cxl_cache_release (fuel : nat) : M dfl_cxl_cache unit :=
  on_pages (cxl_cache_dma_region_destroy fuel) ;;
  modify (set_x_opened 0).
End Cxl.

(** ** The devices

    The class and the numbers of the character devices are there from the first
    probe on. *)

(** The results of the kernel: a status each. *)
Class CxlKernel := {
  ck : Type;
  ck_class_create : ck → Z * ck;
  ck_alloc_chrdev_region : ck → Z * ck;
  ck_ioremap : ck → Z * ck;
  ck_kzalloc : ck → bool * ck;
  ck_device_create : list Z → Z → ck → Z * ck;
  ck_cdev_add : Z → ck → Z * ck;
}.

Section CxlProbe.
Context `{CxlKernel}.
(** [cg_class] and [cg_devt] are whether they are there, [cg_created] the numbers of
    the devices that were created. *)
Record cgst := CgSt {
  cg_k : ck;
  cg_class : bool;
  cg_devt : bool;
  cg_devices : Z;
  cg_created : list Z;
}.
Implicit Types s : cgst.
Definition ck_op {A} (f : ck → A * ck) : M cgst A := λ s,
  let (a, k) := f (cg_k s) in Done (Val a, CgSt k (cg_class s) (cg_devt s) (cg_devices s) (cg_created s)).
Definition set_class x s := CgSt (cg_k s) x (cg_devt s) (cg_devices s) (cg_created s).
Definition set_devt x s := CgSt (cg_k s) (cg_class s) x (cg_devices s) (cg_created s).
Definition set_devices x s := CgSt (cg_k s) (cg_class s) (cg_devt s) x (cg_created s).
Definition set_created x s := CgSt (cg_k s) (cg_class s) (cg_devt s) (cg_devices s) x.

(** The number of the device, and the status. *)
(* drivers/fpga/dfl-cxl-cache.c:542-582 cxl_cache_chardev_init *)
Definition cxl_cache_chardev_init : M cgst (Z * Z) :=
  s ← get;
  let id := cg_devices s in
  modify (λ s, set_devices (s32 (cg_devices s + 1)) s) ;;
  s ← get;
  ret ← ck_op (ck_device_create (cg_created s) id);
  if negb (ret =? 0) then mret (id, ret) else
  modify (λ s, set_created (id :: cg_created s) s) ;;
  ret ← ck_op (ck_cdev_add id);
  mret (id, ret).
(* drivers/fpga/dfl-cxl-cache.c:536-540 cxl_cache_chardev_uinit *)
Definition cxl_cache_chardev_uinit (id : Z) : M cgst unit :=
  modify (λ s, set_created (base.filter (λ i, i ≠ id) (cg_created s)) s).
(** The number of the device. *)
(* drivers/fpga/dfl-cxl-cache.c:584-633 dfl_cxl_cache_probe *)
Definition dfl_cxl_cache_probe : M cgst Z :=
  s ← get;
  (if negb (cg_class s) then
     ret ← ck_op ck_class_create;
     rc ret ;;
     modify (set_class true)
   else mret tt) ;;
  s ← get;
  (if negb (cg_devt s) then
     ret ← ck_op ck_alloc_chrdev_region;
     rc ret ;;
     modify (set_devt true)
   else mret tt) ;;
  ret ← ck_op ck_ioremap;
  rc ret ;;
  ok ← ck_op ck_kzalloc;
  if negb ok then throw (- ENOMEM) else
  r ← cxl_cache_chardev_init;
  rc (r : Z * Z).2 ;;
  mret r.1.
(** The count is compared before it is decremented. *)
(* drivers/fpga/dfl-cxl-cache.c:635-655 dfl_cxl_cache_remove *)
Definition dfl_cxl_cache_remove (id : Z) : M cgst unit :=
  cxl_cache_chardev_uinit id ;;
  s ← get;
  let devices := cg_devices s in
  modify (set_devices (s32 (devices - 1))) ;;
  if devices =? 0 then
    modify (set_class false) ;;
    modify (set_devt false)
  else mret tt.
End CxlProbe.

(** ** Properties of the buffers of [CxlCache]

    Every page that is accounted and pinned belongs to one buffer of the tree; a
    buffer is mapped all or not at all, and closing the device gives every page
    back. *)

Section Facts.
Context `{MmioHw} `{DmaKernelOk} `{CxlUser}.
Implicit Types (r : dfl_cxl_cache_buffer_region) (l : list dfl_cxl_cache_buffer_region) (d : cdst) (s : dfl_cxl_cache).

(** ** The invariant *)

Definition buffer_pages r : list Z := default [] (cr_pages r).
(** A buffer as the code makes it: all its pages are there and it does not wrap. *)
Record buffer_ok r : Prop := {
  bo_pages : cr_pages r = Some (buffer_pages r);
  bo_count : Z.of_nat (length (buffer_pages r)) = PFN_DOWN (cr_length r);
  bo_range : PFN_DOWN (cr_length r) < 2 ^ 64;
  bo_area : area_ok cr_user_addr cr_length r;
}.
Abbreviation locked_of := (locked_by cr_length).
Abbreviation pins_of := (pinned_by buffer_pages).
(** [L] pages are accounted and [P] pinned by others. *)
Record cxl_inv (L : Z) (P : gmultiset Z) d : Prop := {
  ci_sorted : key_sorted cr_user_addr (inorder (d_tree d));
  ci_buffers : Forall buffer_ok (inorder (d_tree d));
  ci_locked : d_locked d = L + locked_of (inorder (d_tree d));
  ci_pins : d_pins d = P ⊎ pins_of (inorder (d_tree d));
}.
(** The same but for the kernel's own state. *)
Lemma same_inv L P d d' : same_but_kernel d d' → cxl_inv L P d → cxl_inv L P d'.
Proof. intros -> []. by constructor. Qed.

Lemma cxl_inv_insert L P k d t l1 r l2 m :
  cxl_inv L P d → inorder (d_tree d) = l1 ++ l2 → inorder t = l1 ++ r :: l2 →
  key_sorted cr_user_addr (inorder t) → buffer_ok r →
  cxl_inv L P (DSt k t (d_locked d + PFN_DOWN (cr_length r)) (d_pins d ⊎ list_to_set_disj (buffer_pages r)) m).
Proof.
  intros [_ Hb Hl Hp] He He' Hs Hr. constructor; cbn [d_tree d_locked d_pins]; [done|rewrite He'; rewrite He in *..].
  - apply list.Forall_app in Hb as [Hb1 Hb2]. apply list.Forall_app. split; [done|]. by constructor.
  - rewrite (locked_by_middle cr_length). lia.
  - rewrite (pinned_by_middle cr_length buffer_pages), Hp. multiset_solver.
Qed.
Lemma cxl_inv_delete L P k d t i r m :
  cxl_inv L P d → inorder (d_tree d) !! i = Some r → inorder t = delete i (inorder (d_tree d)) →
  cxl_inv L P (DSt k t (d_locked d - PFN_DOWN (cr_length r)) (d_pins d ∖ list_to_set_disj (buffer_pages r)) m).
Proof.
  intros [Hs Hb Hl Hp] Hi He. pose proof (key_sorted_delete _ _ _ _ Hi Hs) as Hs'.
  pose proof (take_drop_middle _ _ _ Hi) as Hmid. rewrite delete_take_drop in *.
  rewrite <- Hmid in Hb, Hl, Hp. constructor; cbn [d_tree d_locked d_pins]; rewrite ?He; [done|..].
  - apply list.Forall_app in Hb as [Hb1 [_ Hb2]%list.Forall_cons]. by apply list.Forall_app.
  - rewrite (locked_by_middle cr_length) in Hl. lia.
  - rewrite (pinned_by_middle cr_length buffer_pages) in Hp. rewrite Hp. multiset_solver.
Qed.

(** ** Pages *)

Lemma cxl_pin_spec r d :
  0 ≤ PFN_DOWN (cr_length r) < 2 ^ 31 →
  wp (cxl_cache_dma_pin_pages r)
     (λ ps d', Z.of_nat (length ps) = PFN_DOWN (cr_length r) ∧
        ∃ k, d' = DSt k (d_tree d) (d_locked d + PFN_DOWN (cr_length r)) (d_pins d ⊎ list_to_set_disj ps) (d_maps d))
     (λ _ d', same_but_kernel d d') d.
Proof.
  intros Hn. unfold cxl_cache_dma_pin_pages. rewrite s32_small by lia.
  wstep. apply account_up_spec. intros ret k.
  wsteps; cycle 1. { intros Hr%Z.eqb_neq. by rewrite Hr. }
  intros ->. cbn [Z.eqb]. wsteps. unfold kalloc_ok. apply dk_op_spec. intros k1.
  destruct (dk_alloc _).1; cbn [negb]; wsteps; cycle 1.
  { apply account_down_spec. cbn. unfold same_but_kernel. cbn. f_equal. lia. }
  apply pin_fast_spec; [lia| |]; cbn.
  - intros ps k2 Hl. destruct (Z.eqb_spec (Z.of_nat (length ps)) (PFN_DOWN (cr_length r))) as [He|He]; wsteps; [by eauto|].
    destruct (Z.ltb_spec 0 (Z.of_nat (length ps))) as [Hz|Hz]; wsteps.
    + apply unpin_spec; [lia|]. wsteps. apply account_down_spec. cbn.
      rewrite disj_union_difference_r. unfold same_but_kernel. cbn. f_equal. lia.
    + destruct ps as [|p ps]; [|cbn in Hz; lia]. apply account_down_spec. cbn. unfold same_but_kernel. cbn.
      f_equal; [lia|multiset_solver].
  - intros e k2 _. wsteps. apply account_down_spec. unfold same_but_kernel. cbn. f_equal. lia.
Qed.
Lemma cxl_unpin_spec r d (Q : unit → cdst → Prop) E :
  buffer_ok r →
  Q tt (DSt (d_k d) (d_tree d) (d_locked d - PFN_DOWN (cr_length r)) (d_pins d ∖ list_to_set_disj (buffer_pages r)) (d_maps d)) →
  wp (cxl_cache_unpin_pages (cr_pages r) (cr_length r)) Q E d.
Proof.
  intros [Hp Hc Hr _] HQ. unfold cxl_cache_unpin_pages. rewrite Hp. wstep. rewrite <- Hc in *. apply unpin_spec; [done|].
  by apply account_down_spec.
Qed.
Lemma cxl_continuous_spec ps len d :
  0 < PFN_DOWN len < 2 ^ 31 → Z.of_nat (length ps) = PFN_DOWN len →
  wp (cxl_cache_check_continuous_pages ps len) (λ b d', d' = d ∧ (b = true → consecutive ps)) (λ _ _, False) d.
Proof.
  intros Hn Hl. unfold cxl_cache_check_continuous_pages. rewrite s32_small by lia.
  eapply wp_mono; [apply continuous_loop_spec; lia| |done]. intros b d' (-> & Ht & _). split; [done|].
  intros Hb j p q Hp Hq. apply (Ht Hb j p q); [|done..]. apply lookup_lt_Some in Hq. lia.
Qed.

(** ** Closing the device *)

Lemma buffers_destroy_spec L P n : ∀ d,
  cxl_inv L P d → length (inorder (d_tree d)) = n →
  wp (cxl_cache_dma_region_destroy n)
     (λ _ d', cxl_inv L P d' ∧ inorder (d_tree d') = [] ∧ d_locked d' = L ∧ d_pins d' = P) (λ _ _, False) d.
Proof.
  induction n as [|n IH]; intros d Hinv Hlen; cbn [cxl_cache_dma_region_destroy]; wsteps; pose proof Hinv as [_ Hb Hl Hp].
  { destruct (inorder (d_tree d)) as [|r l] eqn:He; [|done]. wsteps. rewrite He in *. cbn in Hl.
    split_and!; [done|done|lia|]. rewrite Hp. unfold pinned_by. cbn. multiset_solver. }
  destruct (inorder (d_tree d)) as [|r l] eqn:He; [done|]. apply list.Forall_cons in Hb as [Hr Hb].
  unfold cxl_cache_dma_region_remove, set_tree. wsteps.
  pose proof (bo_pages _ Hr) as Hpg. rewrite Hpg, <- Hpg. apply cxl_unpin_spec; [done|]. cbn. wsteps.
  apply IH; [|cbn; rewrite rb_erase_order, He; cbn; by injection Hlen].
  apply (cxl_inv_delete L P _ d _ 0); [done|by rewrite He|by rewrite rb_erase_order].
Qed.

(** ** Mapping *)

Lemma on_pages_spec {A} (m : M cdst A) s (Q : A → dfl_cxl_cache → Prop) E :
  wp m (λ a d, Q a (set_x_dma d s)) (λ e d, E e (set_x_dma d s)) (x_dma s) → wp (on_pages m) Q E s.
Proof. intros Hm. apply wp_zoom. unfold wpg in Hm. by destruct (m (x_dma s)) as [[[] ?]| |]. Qed.

(** What goes to the registers. *)
Definition csr_writes s (v : Z) (csrs : list Z) : list mmio_io :=
  (λ csr, MmioWrite (x_mmio_base s + csr) v) <$>
    base.filter (λ csr, negb (csr =? 0) && (csr <? xi_size (x_rinfo s)) = true) csrs.
Lemma write_csrs_spec v csrs : ∀ s,
  wp (write_csrs v csrs)
     (λ _ s', s' = set_x_mm (x_mm s') s ∧ mm_log (x_mm s') = mm_log (x_mm s) ++ csr_writes s v csrs)
     (λ _ _, False) s.
Proof.
  induction csrs as [|csr csrs IH]; intros s; cbn [write_csrs]; wsteps.
  { split; [by destruct s|]. by rewrite app_nil_r. }
  unfold csr_writes. rewrite filter_cons. destruct (_ && _) eqn:Hc; cbn [decide decide_rel bool_decide].
  - apply wp_zoom. cbn. wsteps. eapply wp_mono; [apply IH| |done]. cbn. intros _ s' [-> ->]. split; [done|].
    cbn. by rewrite <- app_assoc.
  - wsteps. apply IH.
Qed.

Lemma inorder_map f (t : rb_tree dfl_cxl_cache_buffer_region) : inorder (rb_map f t) = f <$> inorder t.
Proof. induction t as [|l IHl x r IHr]; cbn; [done|]. by rewrite IHl, IHr, fmap_app. Qed.
Lemma fmap_not_key a f (l : list dfl_cxl_cache_buffer_region) :
  (∀ q, q ∈ l → cr_user_addr q ≠ a) → (λ q, if cr_user_addr q =? a then f q else q) <$> l = l.
Proof.
  induction l as [|q l IH]; intros Hl; [done|]. rewrite fmap_cons, IH by (intros; apply Hl; by right).
  by rewrite (proj2 (Z.eqb_neq _ _) (Hl q ltac:(by left))).
Qed.
(** In a sorted list only the one region has its address. *)
Lemma map_at_key l1 r l2 x :
  key_sorted cr_user_addr (l1 ++ r :: l2) →
  (λ q, if cr_user_addr q =? cr_user_addr r then set_cr_phys x q else q) <$> (l1 ++ r :: l2) =
  l1 ++ set_cr_phys x r :: l2.
Proof.
  intros (_ & _ & Hlt & Hgt)%key_sorted_node. rewrite fmap_app, fmap_cons. f_equal; [|f_equal].
  - apply fmap_not_key. intros q Hq. specialize (Hlt q Hq). lia.
  - by rewrite Z.eqb_refl.
  - apply fmap_not_key. intros q Hq. specialize (Hgt q Hq). lia.
Qed.

(** The region with its pages is in the tree, its address in the registers. *)
Record buffer_mapped (m : dfl_cxl_cache_buffer_map) s s' (l1 l2 : list dfl_cxl_cache_buffer_region) (pages : list Z) (p : Z) : Prop := {
  bm_before : inorder (d_tree (x_dma s)) = l1 ++ l2;
  bm_after : inorder (d_tree (x_dma s')) =
    l1 ++ CxlRegion (xm_flags m) (xm_user_addr m) (xm_length m) (Some pages) (page_to_phys p) :: l2;
  bm_consecutive : consecutive pages;
  bm_first : pages !! 0%nat = Some p;
  bm_csrs : mm_log (x_mm s') = mm_log (x_mm s) ++ csr_writes s (page_to_phys p) (xm_csr_array m);
}.
(** What the sizes of the argument have to satisfy. *)
Definition cxl_map_ok (m : dfl_cxl_cache_buffer_map) : Prop :=
  cxl_buffer_minsz ≤ xm_argsz m ∧ PAGE_ALIGNED (xm_user_addr m) = true ∧ PAGE_ALIGNED (xm_length m) = true ∧
  0 < xm_length m ∧ xm_user_addr m + xm_length m < 2 ^ 64.

(** The mapping of the process that a buffer which is not to be written protects. *)
Definition protects (flags addr : Z) : list Z :=
  if has_bits DFL_CXL_BUFFER_MAP_WRITABLE flags then [] else match cx_vma_lookup addr with Some vma => [vma] | None => [] end.
Lemma set_read_only_spec r s :
  buffer_pages r ≠ [] → cr_pages r = Some (buffer_pages r) →
  wp (if negb (has_bits DFL_CXL_BUFFER_MAP_WRITABLE (cr_flags r)) then cxl_cache_set_region_read_only r else mret tt)
     (λ _ s', s' = set_x_protected (x_protected s ++ protects (cr_flags r) (cr_user_addr r)) s) (λ _ s', s' = s) s.
Proof.
  intros Hn Hp. unfold protects. destruct (has_bits _ _); cbn [negb].
  { wsteps. rewrite app_nil_r. by destruct s. }
  unfold cxl_cache_set_region_read_only. destruct (cx_vma_lookup _); wsteps; [|done].
  rewrite Hp. cbn [access]. wsteps. destruct (buffer_pages r); [done|]. cbn [lookup list_lookup access]. by wsteps.
Qed.
(** Nothing of a buffer is left in [s'], except that the mapping of the process may
    have been protected. *)
Definition nothing_left (flags addr : Z) d s s' : Prop :=
  same_but_kernel d (x_dma s') ∧ x_mm s' = x_mm s ∧
  (x_protected s' = x_protected s ∨ x_protected s' = x_protected s ++ protects flags addr).
(** From the pinned pages to the region in the tree. *)
Lemma cxl_register_spec L P d0 k r s :
  x_dma s = DSt k (d_tree d0) (d_locked d0 + PFN_DOWN (cr_length r)) (d_pins d0 ⊎ list_to_set_disj (buffer_pages r)) (d_maps d0) →
  cxl_inv L P d0 → buffer_ok r → 0 < PFN_DOWN (cr_length r) < 2 ^ 31 →
  wp (on_error (
        cont ← on_pages (cxl_cache_check_continuous_pages (buffer_pages r) (cr_length r));
        if negb cont then throw (- EINVAL) else
        (if negb (has_bits DFL_CXL_BUFFER_MAP_WRITABLE (cr_flags r))
         then cxl_cache_set_region_read_only r else mret tt) ;;
        on_pages (cxl_cache_dma_region_add r))
        (on_pages (cxl_cache_unpin_pages (cr_pages r) (cr_length r))))
     (λ _ s', ∃ t l1 l2, x_dma s' = DSt k t (d_locked (x_dma s)) (d_pins (x_dma s)) (d_maps d0) ∧
        inorder (d_tree d0) = l1 ++ l2 ∧ inorder t = l1 ++ r :: l2 ∧ key_sorted cr_user_addr (inorder t) ∧
        consecutive (buffer_pages r) ∧ x_mm s' = x_mm s ∧ x_rinfo s' = x_rinfo s ∧ x_mmio_base s' = x_mmio_base s ∧
        x_protected s' = x_protected s ++ protects (cr_flags r) (cr_user_addr r))
     (λ _ s', nothing_left (cr_flags r) (cr_user_addr r) d0 s s') s.
Proof.
  intros Hd Hinv Hr Hn. pose proof Hr as [Hp Hc _ _].
  set (prot := λ s', x_protected s' = x_protected s ∨ x_protected s' = x_protected s ++ protects (cr_flags r) (cr_user_addr r)).
  assert (∀ s', x_dma s' = x_dma s → x_mm s' = x_mm s → prot s' →
    wp (on_pages (cxl_cache_unpin_pages (cr_pages r) (cr_length r)))
      (λ _ s', nothing_left (cr_flags r) (cr_user_addr r) d0 s s') (λ _ s', nothing_left (cr_flags r) (cr_user_addr r) d0 s s') s') as Hun.
  { intros s' He Hm Hpr. apply on_pages_spec, cxl_unpin_spec; [done|]. rewrite He, Hd. cbn. split; [|by split].
    rewrite disj_union_difference_r. unfold same_but_kernel. cbn. f_equal. lia. }
  wsteps. apply on_pages_spec. eapply wp_mono; [by apply cxl_continuous_spec| |done]. cbn. intros b d' [-> Hb].
  destruct b; cbn [negb]; wsteps; [|by apply Hun; [..|left]].
  assert (buffer_pages r ≠ []) by (intros He; rewrite He in Hc; cbn in Hc; lia).
  eapply wp_mono; [by apply set_read_only_spec|..].
  - cbn. intros _ s' ->. apply on_pages_spec. unfold cxl_cache_dma_region_add, set_tree. wsteps. cbn.
    rewrite Hd. cbn [d_tree].
    destruct (area_link _ _ _ _) as [t|] eqn:Hl; wsteps; [|by apply Hun; [..|right]].
    destruct (area_link_spec _ _ _ _ _ (ci_sorted _ _ _ Hinv) Hl) as (l1 & l2 & Hb1 & Ha & Hs).
    exists (rb_insert_color t), l1, l2. rewrite rb_insert_color_order. cbn. by split_and!; auto.
  - cbn. intros e s' ->. by apply Hun; [..|left].
Qed.
(** C21: Mapping a buffer of fewer than 2^31 pages for the cache is all or nothing for
    the driver and the device.  If it succeeds, the argument was aligned and did not
    wrap, the pages of the buffer are all pinned, accounted and consecutive, the
    buffer is in the tree, in order, with the physical address of its first page, and
    exactly the registers of the array that are not zero and inside the region were
    given that address, in order; the mapping of the process was made read-only if
    the buffer is not to be written.  If it fails, the tree, the accounting and the
    pins are those before, and no register was written; the only thing that may be
    left is that mapping of the process, which is not made writable again. *)
Theorem cxl_map_all_or_nothing L P arg m s :
  cx_copy_map arg = Some m → is_u64 (xm_user_addr m) → is_u64 (xm_length m) → PFN_DOWN (xm_length m) < 2 ^ 31 →
  cxl_inv L P (x_dma s) →
  wp (cxl_cache_ioctl_numa_buffer_map arg)
     (λ _ s', cxl_map_ok m ∧ cxl_inv L P (x_dma s') ∧ (∃ l1 l2 pages p, buffer_mapped m s s' l1 l2 pages p) ∧
        x_protected s' = x_protected s ++ protects (xm_flags m) (xm_user_addr m))
     (λ _ s', cxl_inv L P (x_dma s') ∧ nothing_left (xm_flags m) (xm_user_addr m) (x_dma s) s s') s.
Proof.
  intros Hm Ha Hlen Hn Hinv. unfold cxl_cache_ioctl_numa_buffer_map. rewrite Hm.
  assert (∀ s', nothing_left (xm_flags m) (xm_user_addr m) (x_dma s) s s' →
    cxl_inv L P (x_dma s') ∧ nothing_left (xm_flags m) (xm_user_addr m) (x_dma s) s s') as Hleft.
  { intros s' Hk. split; [eapply same_inv; [apply Hk|done]|done]. }
  assert (∀ s', same_but_kernel (x_dma s) (x_dma s') → x_mm s' = x_mm s → x_protected s' = x_protected s →
    cxl_inv L P (x_dma s') ∧ nothing_left (xm_flags m) (xm_user_addr m) (x_dma s) s s') as Hsame.
  { intros s' Hk Hmm Hp. apply Hleft. split; [done|]. split; [done|by left]. }
  pose proof (Hsame s ltac:(by unfold same_but_kernel; destruct (x_dma s)) eq_refl eq_refl) as Hid.
  destruct (Z.ltb_spec (xm_argsz m) cxl_buffer_minsz); [by wsteps|].
  destruct (PAGE_ALIGNED (xm_user_addr m)) eqn:Ha1; cbn [negb orb]; [|by wsteps].
  destruct (PAGE_ALIGNED (xm_length m)) eqn:Ha2; cbn [negb orb]; [|by wsteps].
  destruct (Z.eqb_spec (xm_length m) 0); [by wsteps|].
  destruct (Z.ltb_spec (u64 (xm_user_addr m + xm_length m)) (xm_user_addr m)) as [|Hw]; [by wsteps|].
  assert (xm_user_addr m + xm_length m < 2 ^ 64).
  { destruct (Z.lt_ge_cases (xm_user_addr m + xm_length m) (2 ^ 64)) as [|Hge]; [done|]. exfalso. revert Hw.
    unfold u64. rewrite <- (Z_mod_plus_full _ (-1)), Z.mod_small; unfold is_u64 in *; lia. }
  assert (cxl_map_ok m) as Hok by (unfold cxl_map_ok, is_u64 in *; split_and!; first [done|lia]).
  assert (0 < PFN_DOWN (xm_length m)) by (apply pfn_down_aligned; unfold is_u64 in *; [done|lia]).
  wsteps. apply on_pages_spec. unfold kalloc_ok. apply dk_op_spec. intros k0.
  destruct (dk_alloc _).1; cbn [negb]; [|wsteps; by apply Hsame].
  wsteps. apply on_pages_spec. eapply wp_mono; [apply cxl_pin_spec; cbn; lia|..]; cbn [cr_length].
  2: { intros e d' Hk. apply Hsame; [|done..]. cbn. exact Hk. }
  intros ps d' (Hlp & k & ->). cbn -[cxl_cache_dma_region_add]. wstep.
  set (r := CxlRegion _ _ _ _ _).
  assert (buffer_ok r) as Hr by (constructor; cbn; [done|done|lia|unfold area_ok, is_u64 in *; cbn; lia]).
  eapply wp_mono; [apply (cxl_register_spec L P (x_dma s) k r); [done|done|done|cbn; lia]|..].
  2: { intros e s' Hk. by apply Hleft. }
  intros _ s' (t & l1 & l2 & Hd & Hb & Hi & Hs & Hc & Hmm & Hri & Hba & Hpr). wsteps.
  destruct ps as [|p ps]; [cbn in Hlp; lia|]. cbn [access lookup list_lookup]. wsteps.
  apply on_pages_spec. wsteps. cbn in Hd.
  assert (inorder (rb_map (λ q, if cr_user_addr q =? xm_user_addr m then set_cr_phys (page_to_phys p) q else q) t) =
    l1 ++ set_cr_phys (page_to_phys p) r :: l2) as Ht.
  { rewrite inorder_map, Hi. rewrite Hi in Hs. exact (map_at_key l1 r l2 _ Hs). }
  eapply wp_mono; [apply write_csrs_spec| |done]. cbn -[csr_writes]. intros _ s2 [Hs2 Hlog].
  assert (x_dma s2 = DSt k (rb_map (λ q, if cr_user_addr q =? xm_user_addr m then set_cr_phys (page_to_phys p) q else q) t)
    (d_locked (x_dma s) + PFN_DOWN (cr_length (set_cr_phys (page_to_phys p) r)))
    (d_pins (x_dma s) ⊎ list_to_set_disj (buffer_pages (set_cr_phys (page_to_phys p) r))) (d_maps (x_dma s))) as Hd2.
  { rewrite Hs2. cbn. by rewrite Hd. }
  split_and!; [done| | |].
  - rewrite Hd2. eapply cxl_inv_insert; [done|done|done| |by destruct Hr].
    rewrite Ht. rewrite Hi in Hs. apply key_sorted_node in Hs. by apply key_sorted_node.
  - exists l1, l2, (p :: ps), p. constructor; [done|by rewrite Hd2|done|done|].
    rewrite Hlog, Hmm. unfold csr_writes. cbn. by rewrite Hri, Hba.
  - rewrite Hs2. cbn. exact Hpr.
Qed.

(** ** Unmapping and closing *)

(** The buffer found is the one taken out and given back; the registers of the
    argument become zero. *)
Lemma cxl_unmap_spec L P arg m s :
  cx_copy_unmap arg = Some m → cxl_inv L P (x_dma s) →
  wp (cxl_cache_ioctl_numa_buffer_unmap arg)
     (λ _ s', cxl_inv L P (x_dma s') ∧ (∃ i r, inorder (d_tree (x_dma s)) !! i = Some r ∧
        dma_region_check_user_addr r (xu_user_addr m) (xu_length m) = true ∧
        inorder (d_tree (x_dma s')) = delete i (inorder (d_tree (x_dma s)))) ∧
        mm_log (x_mm s') = mm_log (x_mm s) ++ csr_writes s 0 (xu_csr_array m))
     (λ e s', e = - EINVAL ∧ s' = s) s.
Proof.
  intros Hm Hinv. unfold cxl_cache_ioctl_numa_buffer_unmap. rewrite Hm.
  destruct (_ <? _); [by wsteps|]. wsteps. apply on_pages_spec. unfold cxl_cache_dma_region_find. wsteps.
  assert (set_x_dma (x_dma s) s = s) as -> by by destruct s.
  destruct (area_find _ _ _ _ _ 0) as [[i r]|] eqn:Hf; wsteps; [|done].
  apply area_find_sound in Hf as (_ & Hi & Hc). rewrite Nat.sub_0_r in Hi.
  apply on_pages_spec. unfold cxl_cache_dma_region_remove, set_tree. wsteps.
  apply on_pages_spec. apply cxl_unpin_spec.
  { pose proof (ci_buffers _ _ _ Hinv) as Hb. rewrite list.Forall_forall in Hb. apply Hb. by eapply list_elem_of_lookup_2. }
  eapply wp_mono; [apply write_csrs_spec| |done]. cbn -[csr_writes]. intros _ s' [Hs' Hlog].
  assert (x_dma s' = DSt (d_k (x_dma s)) (rb_erase i (d_tree (x_dma s))) (d_locked (x_dma s) - PFN_DOWN (cr_length r))
    (d_pins (x_dma s) ∖ list_to_set_disj (buffer_pages r)) (d_maps (x_dma s))) as Hd by by rewrite Hs'.
  rewrite Hd. split_and!; [by apply (cxl_inv_delete L P _ _ _ i); [..|apply rb_erase_order]| |done].
  exists i, r. split_and!; [done..|]. cbn. by rewrite rb_erase_order.
Qed.

(** Closing gives back every page and lets the device be opened again; no register
    is written. *)
Lemma cxl_release_spec L P s :
  cxl_inv L P (x_dma s) →
  wp (dfl_cxl_cache_release (length (inorder (d_tree (x_dma s)))))
     (λ _ s', x_opened s' = 0 ∧ inorder (d_tree (x_dma s')) = [] ∧ d_locked (x_dma s') = L ∧ d_pins (x_dma s') = P ∧
        x_mm s' = x_mm s)
     (λ _ _, False) s.
Proof.
  intros Hinv. unfold dfl_cxl_cache_release. wsteps. apply on_pages_spec.
  eapply wp_mono; [by eapply buffers_destroy_spec| |done]. cbn. intros _ d (_ & He & Hl & Hp). wsteps. by split_and!.
Qed.
End Facts.

(** ** A concrete cache device (CxlCache): witnesses and limits

    The kernel of [AfuDmaOps], registers that keep what is written only in the
    log, and a process whose arguments are at small addresses.  The theorem
    above at this device, and executions that the documentation does not
    foresee. *)

#[local] Existing Instance test_kernel.
#[local] Existing Instance test_kernel_ok.
#[local] Instance silent : MmioHw := {| hw := unit; hw_read _ h := (0, h); hw_write _ _ h := h |}.
(** At 1 two pages for two registers, of which the second is outside; at 2 the same
    buffer with a length of 2^44 bytes; at 3 a buffer that is not to be written; at
    4 the second page of the first buffer. *)
#[local] Instance process : CxlUser := {|
  cx_copy_info a := if a =? 9 then Some (CxlInfo 24 0 0 0) else None;
  cx_copy_map a :=
    if a =? 1 then Some (CxlMap 152 1 0x10000 0x2000 [0x40; 0; 0x800])
    else if a =? 2 then Some (CxlMap 152 1 0x10000 (2 ^ 44) [0x40])
    else if a =? 3 then Some (CxlMap 152 0 0x10000 0x1000 [0x40])
    else if a =? 5 then Some (CxlMap 152 1 0x10000 0x2000 [0x3ff])
    else None;
  cx_copy_unmap a :=
    if a =? 1 then Some (CxlUnmap 152 0 0x10000 0x2000 [0x40])
    else if a =? 4 then Some (CxlUnmap 152 0 0x11000 0x1000 [])
    else if a =? 6 then Some (CxlUnmap 152 0 0x10fff (2 ^ 64 - 1) [])
    else None;
  cx_writable _ := true;
  cx_vma_lookup _ := Some 77;
|}.
Definition cxl_dev (next room : Z) : dfl_cxl_cache :=
  Cxl 1 0x8000 0xfe000000 (CxlInfo 24 7 0x400 0) (DSt (next, room) RbLeaf 7 {[+ 3 +]} ∅) (Mm tt []) [] [] [].
Lemma cxl_dev_inv next room : cxl_inv 7 {[+ 3 +]} (x_dma (cxl_dev next room)).
Proof. constructor; cbn; try done. constructor. Qed.

Definition run_cxl (m : M dfl_cxl_cache unit) s : dfl_cxl_cache := match m s with Done (_, s') => s' | _ => s end.

Lemma cxl_map_all_or_nothing_witness : ∃ s',
  cxl_cache_ioctl_numa_buffer_map 1 (cxl_dev 5 10) = Done (Val tt, s') ∧
  cxl_inv 7 {[+ 3 +]} (x_dma s') ∧
  buffer_mapped (CxlMap 152 1 0x10000 0x2000 [0x40; 0; 0x800]) (cxl_dev 5 10) s' [] [] [5; 6] 5 ∧ x_protected s' = [].
Proof.
  pose proof (cxl_map_all_or_nothing 7 {[+ 3 +]} 1 (CxlMap 152 1 0x10000 0x2000 [0x40; 0; 0x800]) (cxl_dev 5 10)
    eq_refl ltac:(by split) ltac:(by split) ltac:(by vm_compute) (cxl_dev_inv 5 10)) as Hx.
  destruct (wp_val _ _ _ _ tt Hx ltac:(vm_compute; reflexivity)) as (s' & He & _ & Hi & _ & Hp).
  exists s'. split; [exact He|]. split; [exact Hi|]. split; [|exact Hp].
  assert (s' = run_cxl (cxl_cache_ioctl_numa_buffer_map 1) (cxl_dev 5 10)) as -> by (unfold run_cxl; by rewrite He).
  constructor; [reflexivity|vm_compute; reflexivity| |reflexivity|vm_compute; reflexivity].
  intros [|[|j]] p q; [|done..]. cbn. intros [= <-] [= <-]. reflexivity.
Defined.

(** The number of pages is an [int]: a buffer of 2^44 bytes has none, and the
    first of the pages is used. *)
Example cxl_huge_buffer_faults : cxl_cache_ioctl_numa_buffer_map 2 (cxl_dev 5 10) = Fault.
Proof. apply is_fault_eq. vm_compute. reflexivity. Qed.

(** When a buffer that is not to be written can not be added, the mapping of the
    process is read-only all the same. *)
Example cxl_failed_map_protects :
  let s := run_cxl (cxl_cache_ioctl_numa_buffer_map 1) (cxl_dev 5 10) in
  err_of (cxl_cache_ioctl_numa_buffer_map 3 s) = Some (- EEXIST) ∧
  x_protected (run_cxl (cxl_cache_ioctl_numa_buffer_map 3) s) = [77].
Proof. vm_compute. by split. Qed.

(** A part of a buffer, or an area that wraps, gives back all of it; the device
    keeps its address. *)
Example cxl_unmap_part :
  let s := run_cxl (cxl_cache_ioctl_numa_buffer_map 1) (cxl_dev 5 10) in
  let s4 := run_cxl (cxl_cache_ioctl_numa_buffer_unmap 4) s in
  let s6 := run_cxl (cxl_cache_ioctl_numa_buffer_unmap 6) s in
  inorder (d_tree (x_dma s4)) = [] ∧ mm_log (x_mm s4) = [MmioWrite 0x8040 0x5000] ∧ inorder (d_tree (x_dma s6)) = [].
Proof. vm_compute. by split_and!. Qed.

(** Closing the device leaves the address of a page that is no longer pinned in its
    register. *)
Example cxl_release_keeps_address :
  let s := run_cxl (dfl_cxl_cache_release 1) (run_cxl (cxl_cache_ioctl_numa_buffer_map 1) (cxl_dev 5 10)) in
  d_pins (x_dma s) = {[+ 3 +]} ∧ mm_log (x_mm s) = [MmioWrite 0x8040 0x5000].
Proof. vm_compute. by split. Qed.

(** The last byte of the region passes for a register of eight. *)
Example cxl_register_crosses_end :
  mm_log (x_mm (run_cxl (cxl_cache_ioctl_numa_buffer_map 5) (cxl_dev 5 10))) = [MmioWrite 0x83ff 0x5000].
Proof. vm_compute. reflexivity. Qed.

(** The version is the number of the command. *)
Example cxl_version_is_command : err_of (dfl_cxl_cache_ioctl CXL_GET_API_VERSION 0 (cxl_dev 5 10)) = Some 0xB600.
Proof. vm_compute. reflexivity. Qed.

(** A region of 1 KiB is mapped with a page that is far behind it. *)
Example cxl_mmap_outside :
  x_maps (run_cxl (dfl_cxl_cache_mmap (λ _ _ _, 0) (Vma 0x7000 0x9000 0x12345 9)) (cxl_dev 5 10)) =
  [(0x7000, 0x110345, 0x2000)].
Proof. vm_compute. reflexivity. Qed.

(** ** The devices *)

#[local] Instance cxl_kernel : CxlKernel := {|
  ck := unit;
  ck_class_create k := (0, k);
  ck_alloc_chrdev_region k := (0, k);
  ck_ioremap k := (0, k);
  ck_kzalloc k := (true, k);
  ck_device_create used id k := (if bool_decide (id ∈ used) then - EEXIST else 0, k);
  ck_cdev_add id k := (0, k);
|}.
Definition run_cg {A} (m : M cgst A) s : cgst := match m s with Done (_, s') => s' | _ => s end.
(** When the last device is removed the class stays; of two devices, when the first
    is removed the next one gets the number of the second. *)
Example cxl_class_stays :
  let s := run_cg dfl_cxl_cache_probe (CgSt tt false false 0 []) in
  cg_class (run_cg (dfl_cxl_cache_remove 0) s) = true ∧ cg_devices (run_cg (dfl_cxl_cache_remove 0) s) = 0 ∧
  err_of (dfl_cxl_cache_probe (run_cg (dfl_cxl_cache_remove 0) (run_cg dfl_cxl_cache_probe s))) = Some (- EEXIST).
Proof. vm_compute. by split_and!. Qed.
