(* ===== verification/FmePerf.v ===== *)
(** * Performance counters of the management engine (drivers/fpga/dfl-fme-perf.c)

    A PMU for the perf subsystem: events of a few types, each of which selects what
    one of the counters of the device counts.  The fabric counter counts either for
    the whole device or for one port, and the events that use it share this mode. *)
From Stdlib Require Import Ascii String.
From stdpp Require Import gmap strings.
From S2P Require Import Prelude Text DflRegs Mmio.

(* drivers/fpga/dfl-fme-perf.c:28-28 CACHE_CTRL *)
Definition CACHE_CTRL : Z := 0x8.
(* drivers/fpga/dfl-fme-perf.c:29-29 CACHE_RESET_CNTR *)
Definition CACHE_RESET_CNTR : field := BIT_ULL 0.
(* drivers/fpga/dfl-fme-perf.c:30-30 CACHE_FREEZE_CNTR *)
Definition CACHE_FREEZE_CNTR : field := BIT_ULL 8.
(* drivers/fpga/dfl-fme-perf.c:31-31 CACHE_CTRL_EVNT *)
Definition CACHE_CTRL_EVNT : field := GENMASK_ULL 19 16.
(* drivers/fpga/dfl-fme-perf.c:32-32 CACHE_EVNT_RD_HIT *)
Definition CACHE_EVNT_RD_HIT : Z := 0x0.
(* drivers/fpga/dfl-fme-perf.c:33-33 CACHE_EVNT_WR_HIT *)
Definition CACHE_EVNT_WR_HIT : Z := 0x1.
(* drivers/fpga/dfl-fme-perf.c:34-34 CACHE_EVNT_RD_MISS *)
Definition CACHE_EVNT_RD_MISS : Z := 0x2.
(* drivers/fpga/dfl-fme-perf.c:35-35 CACHE_EVNT_WR_MISS *)
Definition CACHE_EVNT_WR_MISS : Z := 0x3.
(* drivers/fpga/dfl-fme-perf.c:36-36 CACHE_EVNT_RSVD *)
Definition CACHE_EVNT_RSVD : Z := 0x4.
(* drivers/fpga/dfl-fme-perf.c:37-37 CACHE_EVNT_HOLD_REQ *)
Definition CACHE_EVNT_HOLD_REQ : Z := 0x5.
(* drivers/fpga/dfl-fme-perf.c:38-38 CACHE_EVNT_DATA_WR_PORT_CONTEN *)
Definition CACHE_EVNT_DATA_WR_PORT_CONTEN : Z := 0x6.
(* drivers/fpga/dfl-fme-perf.c:39-39 CACHE_EVNT_TAG_WR_PORT_CONTEN *)
Definition CACHE_EVNT_TAG_WR_PORT_CONTEN : Z := 0x7.
(* drivers/fpga/dfl-fme-perf.c:40-40 CACHE_EVNT_TX_REQ_STALL *)
Definition CACHE_EVNT_TX_REQ_STALL : Z := 0x8.
(* drivers/fpga/dfl-fme-perf.c:41-41 CACHE_EVNT_RX_REQ_STALL *)
Definition CACHE_EVNT_RX_REQ_STALL : Z := 0x9.
(* drivers/fpga/dfl-fme-perf.c:42-42 CACHE_EVNT_EVICTIONS *)
Definition CACHE_EVNT_EVICTIONS : Z := 0xa.
(* drivers/fpga/dfl-fme-perf.c:43-43 CACHE_EVNT_MAX *)
Definition CACHE_EVNT_MAX : Z := CACHE_EVNT_EVICTIONS.
(* drivers/fpga/dfl-fme-perf.c:44-44 CACHE_CHANNEL_SEL *)
Definition CACHE_CHANNEL_SEL : field := BIT_ULL 20.
(* drivers/fpga/dfl-fme-perf.c:45-45 CACHE_CHANNEL_RD *)
Definition CACHE_CHANNEL_RD : Z := 0.
(* drivers/fpga/dfl-fme-perf.c:46-46 CACHE_CHANNEL_WR *)
Definition CACHE_CHANNEL_WR : Z := 1.
(* drivers/fpga/dfl-fme-perf.c:47-47 CACHE_CNTR0 *)
Definition CACHE_CNTR0 : Z := 0x10.
(* drivers/fpga/dfl-fme-perf.c:48-48 CACHE_CNTR1 *)
Definition CACHE_CNTR1 : Z := 0x18.
(* drivers/fpga/dfl-fme-perf.c:49-49 CACHE_CNTR_EVNT_CNTR *)
Definition CACHE_CNTR_EVNT_CNTR : field := GENMASK_ULL 47 0.
(* drivers/fpga/dfl-fme-perf.c:50-50 CACHE_CNTR_EVNT *)
Definition CACHE_CNTR_EVNT : field := GENMASK_ULL 63 60.
(* drivers/fpga/dfl-fme-perf.c:57-57 FAB_CTRL *)
Definition FAB_CTRL : Z := 0x20.
(* drivers/fpga/dfl-fme-perf.c:58-58 FAB_RESET_CNTR *)
Definition FAB_RESET_CNTR : field := BIT_ULL 0.
(* drivers/fpga/dfl-fme-perf.c:59-59 FAB_FREEZE_CNTR *)
Definition FAB_FREEZE_CNTR : field := BIT_ULL 8.
(* drivers/fpga/dfl-fme-perf.c:60-60 FAB_CTRL_EVNT *)
Definition FAB_CTRL_EVNT : field := GENMASK_ULL 19 16.
(* drivers/fpga/dfl-fme-perf.c:61-61 FAB_EVNT_PCIE0_RD *)
Definition FAB_EVNT_PCIE0_RD : Z := 0x0.
(* drivers/fpga/dfl-fme-perf.c:62-62 FAB_EVNT_PCIE0_WR *)
Definition FAB_EVNT_PCIE0_WR : Z := 0x1.
(* drivers/fpga/dfl-fme-perf.c:63-63 FAB_EVNT_PCIE1_RD *)
Definition FAB_EVNT_PCIE1_RD : Z := 0x2.
(* drivers/fpga/dfl-fme-perf.c:64-64 FAB_EVNT_PCIE1_WR *)
Definition FAB_EVNT_PCIE1_WR : Z := 0x3.
(* drivers/fpga/dfl-fme-perf.c:65-65 FAB_EVNT_UPI_RD *)
Definition FAB_EVNT_UPI_RD : Z := 0x4.
(* drivers/fpga/dfl-fme-perf.c:66-66 FAB_EVNT_UPI_WR *)
Definition FAB_EVNT_UPI_WR : Z := 0x5.
(* drivers/fpga/dfl-fme-perf.c:67-67 FAB_EVNT_MMIO_RD *)
Definition FAB_EVNT_MMIO_RD : Z := 0x6.
(* drivers/fpga/dfl-fme-perf.c:68-68 FAB_EVNT_MMIO_WR *)
Definition FAB_EVNT_MMIO_WR : Z := 0x7.
(* drivers/fpga/dfl-fme-perf.c:69-69 FAB_EVNT_MAX *)
Definition FAB_EVNT_MAX : Z := FAB_EVNT_MMIO_WR.
(* drivers/fpga/dfl-fme-perf.c:70-70 FAB_PORT_ID *)
Definition FAB_PORT_ID : field := GENMASK_ULL 21 20.
(* drivers/fpga/dfl-fme-perf.c:71-71 FAB_PORT_FILTER *)
Definition FAB_PORT_FILTER : field := BIT_ULL 23.
(* drivers/fpga/dfl-fme-perf.c:72-72 FAB_PORT_FILTER_DISABLE *)
Definition FAB_PORT_FILTER_DISABLE : Z := 0.
(* drivers/fpga/dfl-fme-perf.c:73-73 FAB_PORT_FILTER_ENABLE *)
Definition FAB_PORT_FILTER_ENABLE : Z := 1.
(* drivers/fpga/dfl-fme-perf.c:74-74 FAB_CNTR *)
Definition FAB_CNTR : Z := 0x28.
(* drivers/fpga/dfl-fme-perf.c:75-75 FAB_CNTR_EVNT_CNTR *)
Definition FAB_CNTR_EVNT_CNTR : field := GENMASK_ULL 59 0.
(* drivers/fpga/dfl-fme-perf.c:76-76 FAB_CNTR_EVNT *)
Definition FAB_CNTR_EVNT : field := GENMASK_ULL 63 60.
(* drivers/fpga/dfl-fme-perf.c:83-83 CLK_CNTR *)
Definition CLK_CNTR : Z := 0x30.
(* drivers/fpga/dfl-fme-perf.c:84-84 BASIC_EVNT_CLK *)
Definition BASIC_EVNT_CLK : Z := 0x0.
(* drivers/fpga/dfl-fme-perf.c:85-85 BASIC_EVNT_MAX *)
Definition BASIC_EVNT_MAX : Z := BASIC_EVNT_CLK.
(* drivers/fpga/dfl-fme-perf.c:92-92 VTD_CTRL *)
Definition VTD_CTRL : Z := 0x38.
(* drivers/fpga/dfl-fme-perf.c:93-93 VTD_RESET_CNTR *)
Definition VTD_RESET_CNTR : field := BIT_ULL 0.
(* drivers/fpga/dfl-fme-perf.c:94-94 VTD_FREEZE_CNTR *)
Definition VTD_FREEZE_CNTR : field := BIT_ULL 8.
(* drivers/fpga/dfl-fme-perf.c:95-95 VTD_CTRL_EVNT *)
Definition VTD_CTRL_EVNT : field := GENMASK_ULL 19 16.
(* drivers/fpga/dfl-fme-perf.c:96-96 VTD_EVNT_AFU_MEM_RD_TRANS *)
Definition VTD_EVNT_AFU_MEM_RD_TRANS : Z := 0x0.
(* drivers/fpga/dfl-fme-perf.c:97-97 VTD_EVNT_AFU_MEM_WR_TRANS *)
Definition VTD_EVNT_AFU_MEM_WR_TRANS : Z := 0x1.
(* drivers/fpga/dfl-fme-perf.c:98-98 VTD_EVNT_AFU_DEVTLB_RD_HIT *)
Definition VTD_EVNT_AFU_DEVTLB_RD_HIT : Z := 0x2.
(* drivers/fpga/dfl-fme-perf.c:99-99 VTD_EVNT_AFU_DEVTLB_WR_HIT *)
Definition VTD_EVNT_AFU_DEVTLB_WR_HIT : Z := 0x3.
(* drivers/fpga/dfl-fme-perf.c:100-100 VTD_EVNT_DEVTLB_4K_FILL *)
Definition VTD_EVNT_DEVTLB_4K_FILL : Z := 0x4.
(* drivers/fpga/dfl-fme-perf.c:101-101 VTD_EVNT_DEVTLB_2M_FILL *)
Definition VTD_EVNT_DEVTLB_2M_FILL : Z := 0x5.
(* drivers/fpga/dfl-fme-perf.c:102-102 VTD_EVNT_DEVTLB_1G_FILL *)
Definition VTD_EVNT_DEVTLB_1G_FILL : Z := 0x6.
(* drivers/fpga/dfl-fme-perf.c:103-103 VTD_EVNT_MAX *)
Definition VTD_EVNT_MAX : Z := VTD_EVNT_DEVTLB_1G_FILL.
(* drivers/fpga/dfl-fme-perf.c:104-104 VTD_CNTR *)
Definition VTD_CNTR : Z := 0x40.
(* drivers/fpga/dfl-fme-perf.c:105-105 VTD_CNTR_EVNT_CNTR *)
Definition VTD_CNTR_EVNT_CNTR : field := GENMASK_ULL 47 0.
(* drivers/fpga/dfl-fme-perf.c:106-106 VTD_CNTR_EVNT *)
Definition VTD_CNTR_EVNT : field := GENMASK_ULL 63 60.
(* drivers/fpga/dfl-fme-perf.c:108-108 VTD_SIP_CTRL *)
Definition VTD_SIP_CTRL : Z := 0x48.
(* drivers/fpga/dfl-fme-perf.c:109-109 VTD_SIP_RESET_CNTR *)
Definition VTD_SIP_RESET_CNTR : field := BIT_ULL 0.
(* drivers/fpga/dfl-fme-perf.c:110-110 VTD_SIP_FREEZE_CNTR *)
Definition VTD_SIP_FREEZE_CNTR : field := BIT_ULL 8.
(* drivers/fpga/dfl-fme-perf.c:111-111 VTD_SIP_CTRL_EVNT *)
Definition VTD_SIP_CTRL_EVNT : field := GENMASK_ULL 19 16.
(* drivers/fpga/dfl-fme-perf.c:112-112 VTD_SIP_EVNT_IOTLB_4K_HIT *)
Definition VTD_SIP_EVNT_IOTLB_4K_HIT : Z := 0x0.
(* drivers/fpga/dfl-fme-perf.c:113-113 VTD_SIP_EVNT_IOTLB_2M_HIT *)
Definition VTD_SIP_EVNT_IOTLB_2M_HIT : Z := 0x1.
(* drivers/fpga/dfl-fme-perf.c:114-114 VTD_SIP_EVNT_IOTLB_1G_HIT *)
Definition VTD_SIP_EVNT_IOTLB_1G_HIT : Z := 0x2.
(* drivers/fpga/dfl-fme-perf.c:115-115 VTD_SIP_EVNT_SLPWC_L3_HIT *)
Definition VTD_SIP_EVNT_SLPWC_L3_HIT : Z := 0x3.
(* drivers/fpga/dfl-fme-perf.c:116-116 VTD_SIP_EVNT_SLPWC_L4_HIT *)
Definition VTD_SIP_EVNT_SLPWC_L4_HIT : Z := 0x4.
(* drivers/fpga/dfl-fme-perf.c:117-117 VTD_SIP_EVNT_RCC_HIT *)
Definition VTD_SIP_EVNT_RCC_HIT : Z := 0x5.
(* drivers/fpga/dfl-fme-perf.c:118-118 VTD_SIP_EVNT_IOTLB_4K_MISS *)
Definition VTD_SIP_EVNT_IOTLB_4K_MISS : Z := 0x6.
(* drivers/fpga/dfl-fme-perf.c:119-119 VTD_SIP_EVNT_IOTLB_2M_MISS *)
Definition VTD_SIP_EVNT_IOTLB_2M_MISS : Z := 0x7.
(* drivers/fpga/dfl-fme-perf.c:120-120 VTD_SIP_EVNT_IOTLB_1G_MISS *)
Definition VTD_SIP_EVNT_IOTLB_1G_MISS : Z := 0x8.
(* drivers/fpga/dfl-fme-perf.c:121-121 VTD_SIP_EVNT_SLPWC_L3_MISS *)
Definition VTD_SIP_EVNT_SLPWC_L3_MISS : Z := 0x9.
(* drivers/fpga/dfl-fme-perf.c:122-122 VTD_SIP_EVNT_SLPWC_L4_MISS *)
Definition VTD_SIP_EVNT_SLPWC_L4_MISS : Z := 0xa.
(* drivers/fpga/dfl-fme-perf.c:123-123 VTD_SIP_EVNT_RCC_MISS *)
Definition VTD_SIP_EVNT_RCC_MISS : Z := 0xb.
(* drivers/fpga/dfl-fme-perf.c:124-124 VTD_SIP_EVNT_MAX *)
Definition VTD_SIP_EVNT_MAX : Z := VTD_SIP_EVNT_SLPWC_L4_MISS.
(* drivers/fpga/dfl-fme-perf.c:125-125 VTD_SIP_CNTR *)
Definition VTD_SIP_CNTR : Z := 0x50.
(* drivers/fpga/dfl-fme-perf.c:126-126 VTD_SIP_CNTR_EVNT_CNTR *)
Definition VTD_SIP_CNTR_EVNT_CNTR : field := GENMASK_ULL 47 0.
(* drivers/fpga/dfl-fme-perf.c:127-127 VTD_SIP_CNTR_EVNT *)
Definition VTD_SIP_CNTR_EVNT : field := GENMASK_ULL 63 60.
(* drivers/fpga/dfl-fme-perf.c:129-129 PERF_TIMEOUT *)
Definition PERF_TIMEOUT : Z := 30.
(* drivers/fpga/dfl-fme-perf.c:131-131 PERF_MAX_PORT_NUM *)
Definition PERF_MAX_PORT_NUM : Z := 1.
(* drivers/fpga/dfl-fme-perf.c:199-199 FME_EVENT_MASK *)
Definition FME_EVENT_MASK : field := GENMASK_ULL 11 0.
(* drivers/fpga/dfl-fme-perf.c:200-200 FME_EVENT_SHIFT *)
Definition FME_EVENT_SHIFT : Z := 0.
(* drivers/fpga/dfl-fme-perf.c:201-201 FME_EVTYPE_MASK *)
Definition FME_EVTYPE_MASK : field := GENMASK_ULL 15 12.
(* drivers/fpga/dfl-fme-perf.c:202-202 FME_EVTYPE_SHIFT *)
Definition FME_EVTYPE_SHIFT : Z := 12.
(* drivers/fpga/dfl-fme-perf.c:203-203 FME_EVTYPE_BASIC *)
Definition FME_EVTYPE_BASIC : Z := 0.
(* drivers/fpga/dfl-fme-perf.c:204-204 FME_EVTYPE_CACHE *)
Definition FME_EVTYPE_CACHE : Z := 1.
(* drivers/fpga/dfl-fme-perf.c:205-205 FME_EVTYPE_FABRIC *)
Definition FME_EVTYPE_FABRIC : Z := 2.
(* drivers/fpga/dfl-fme-perf.c:206-206 FME_EVTYPE_VTD *)
Definition FME_EVTYPE_VTD : Z := 3.
(* drivers/fpga/dfl-fme-perf.c:207-207 FME_EVTYPE_VTD_SIP *)
Definition FME_EVTYPE_VTD_SIP : Z := 4.
(* drivers/fpga/dfl-fme-perf.c:208-208 FME_EVTYPE_MAX *)
Definition FME_EVTYPE_MAX : Z := FME_EVTYPE_VTD_SIP.
(* drivers/fpga/dfl-fme-perf.c:209-209 FME_PORTID_MASK *)
Definition FME_PORTID_MASK : field := GENMASK_ULL 23 16.
(* drivers/fpga/dfl-fme-perf.c:210-210 FME_PORTID_SHIFT *)
Definition FME_PORTID_SHIFT : Z := 16.
(* drivers/fpga/dfl-fme-perf.c:211-211 FME_PORTID_ROOT *)
Definition FME_PORTID_ROOT : Z := 0xff.

(** An event of the perf core, with what of it the driver looks at and what it
    keeps in it. *)
Record perf_event := PEvent {
  pe_type : Z;
  pe_sampling : bool;
  pe_attach_task : bool;
  pe_cpu : Z;
  pe_config : Z;
  pe_event_base : Z;
  pe_idx : Z;
  pe_config_base : Z;
  pe_prev_count : Z;
  pe_count : Z;
}.
Definition set_pe_hw evtype idx portid e :=
  PEvent (pe_type e) (pe_sampling e) (pe_attach_task e) (pe_cpu e) (pe_config e) evtype idx portid (pe_prev_count e) (pe_count e).
Definition set_pe_prev x e :=
  PEvent (pe_type e) (pe_sampling e) (pe_attach_task e) (pe_cpu e) (pe_config e) (pe_event_base e) (pe_idx e) (pe_config_base e) x (pe_count e).
Definition set_pe_count x e :=
  PEvent (pe_type e) (pe_sampling e) (pe_attach_task e) (pe_cpu e) (pe_config e) (pe_event_base e) (pe_idx e) (pe_config_base e) (pe_prev_count e) x.

(* drivers/fpga/dfl-fme-perf.c:213-213 get_event *)
Definition get_event (config : Z) : Z := u32 (FIELD_GET FME_EVENT_MASK config).
(* drivers/fpga/dfl-fme-perf.c:214-214 get_evtype *)
Definition get_evtype (config : Z) : Z := u32 (FIELD_GET FME_EVTYPE_MASK config).
(* drivers/fpga/dfl-fme-perf.c:215-215 get_portid *)
Definition get_portid (config : Z) : Z := u32 (FIELD_GET FME_PORTID_MASK config).

(* drivers/fpga/dfl-fme-perf.c:254-257 is_portid_root *)
Definition is_portid_root (portid : Z) : bool := portid =? FME_PORTID_ROOT.
(* drivers/fpga/dfl-fme-perf.c:259-262 is_portid_port *)
Definition is_portid_port (portid : Z) : bool := portid <? PERF_MAX_PORT_NUM.
(* drivers/fpga/dfl-fme-perf.c:264-267 is_portid_root_or_port *)
Definition is_portid_root_or_port (portid : Z) : bool := is_portid_root portid || is_portid_port portid.

Section Perf.
Context `{MmioHw}.
(** How often a poll reads, and how often a counter is read until it did not carry. *)
Context (tries fuel : nat).
(** The structures of the kernel in it (device, lock, hotplug node) are left out; of
    the PMU there is the type that registering it gives. *)
(* drivers/fpga/dfl-fme-perf.c:147-160 fme_perf_priv *)
Record fme_perf_priv := Perf {
  pf_ioaddr : Z;
  pf_id : Z;
  pf_pmu_type : Z;
  pf_fab_users : Z;
  pf_fab_port_id : Z;
  pf_cpu : Z;
  pf_mm : mmst;
}.
Implicit Types s : fme_perf_priv.

Definition set_pf_fab users portid s :=
  Perf (pf_ioaddr s) (pf_id s) (pf_pmu_type s) users portid (pf_cpu s) (pf_mm s).
Definition set_pf_cpu x s :=
  Perf (pf_ioaddr s) (pf_id s) (pf_pmu_type s) (pf_fab_users s) (pf_fab_port_id s) x (pf_mm s).
Definition set_pf_mm x s :=
  Perf (pf_ioaddr s) (pf_id s) (pf_pmu_type s) (pf_fab_users s) (pf_fab_port_id s) (pf_cpu s) x.
Definition pf_regs {A} (m : M mmst A) : M fme_perf_priv A := zoom pf_mm set_pf_mm m.

(** ** Reading a counter *)

(* drivers/fpga/dfl-fme-perf.c:269-286 fme_read_perf_cntr_reg *)
Fixpoint fme_read_perf_cntr_reg (n : nat) (addr : Z) : M mmst Z :=
  match n with
  | O => nofuel
  | S n =>
      v ← readq addr;
      low ← readl addr;
      if low <? u32 v then fme_read_perf_cntr_reg n addr else mret v
  end.
(** The event goes to the control register, and the counter is read once it shows
    the event's code; [None] if it does not in time. *)
Definition select_event (ctrl cntr : Z) (evnt cntr_evnt : field) (event : Z) (v : Z) : M mmst (option Z) :=
  writeq (Z.lor v (FIELD_PREP evnt event)) ctrl ;;
  r ← read_poll_timeout (readq cntr) (λ v, FIELD_GET cntr_evnt v =? event) tries;
  if negb ((r : Z * Z).1 =? 0) then mret None
  else v ← fme_read_perf_cntr_reg fuel cntr; mret (Some v).

(** ** The types of events *)

(* drivers/fpga/dfl-fme-perf.c:288-294 basic_event_init *)
Definition basic_event_init (event portid : Z) : M fme_perf_priv unit :=
  if (event <=? BASIC_EVNT_MAX) && is_portid_root portid then mret tt else throw (- EINVAL).
(* drivers/fpga/dfl-fme-perf.c:296-302 basic_read_event_counter *)
Definition basic_read_event_counter (event portid : Z) : M fme_perf_priv Z :=
  s ← get;
  pf_regs (fme_read_perf_cntr_reg fuel (pf_ioaddr s + CLK_CNTR)).

(* drivers/fpga/dfl-fme-perf.c:304-311 cache_event_init *)
Definition cache_event_init (event portid : Z) : M fme_perf_priv unit :=
  s ← get;
  if (pf_id s =? FME_FEATURE_ID_GLOBAL_IPERF) && (event <=? CACHE_EVNT_MAX) && is_portid_root portid
  then mret tt else throw (- EINVAL).
(* drivers/fpga/dfl-fme-perf.c:313-347 cache_read_event_counter *)
Definition cache_read_event_counter (event portid : Z) : M fme_perf_priv Z :=
  s ← get;
  let base := pf_ioaddr s in
  let channel :=
    if (event =? CACHE_EVNT_WR_HIT) || (event =? CACHE_EVNT_WR_MISS) ||
       (event =? CACHE_EVNT_DATA_WR_PORT_CONTEN) || (event =? CACHE_EVNT_TAG_WR_PORT_CONTEN)
    then CACHE_CHANNEL_WR else CACHE_CHANNEL_RD in
  v ← pf_regs (readq (base + CACHE_CTRL));
  let v := clear_field CACHE_CTRL_EVNT (clear_field CACHE_CHANNEL_SEL v) in
  let v := Z.lor v (FIELD_PREP CACHE_CHANNEL_SEL channel) in
  r ← pf_regs (select_event (base + CACHE_CTRL) (base + CACHE_CNTR0) CACHE_CTRL_EVNT CACHE_CNTR_EVNT event v);
  match (r : option Z) with
  | None => mret 0
  | Some v =>
      let count := FIELD_GET CACHE_CNTR_EVNT_CNTR v in
      v ← pf_regs (fme_read_perf_cntr_reg fuel (base + CACHE_CNTR1));
      mret (u64 (count + FIELD_GET CACHE_CNTR_EVNT_CNTR v))
  end.

(* drivers/fpga/dfl-fme-perf.c:349-361 is_fabric_event_supported *)
Definition is_fabric_event_supported (id event portid : Z) : bool :=
  if (FAB_EVNT_MAX <? event) || negb (is_portid_root_or_port portid) then false
  else if (id =? FME_FEATURE_ID_GLOBAL_DPERF) &&
    ((event =? FAB_EVNT_PCIE1_RD) || (event =? FAB_EVNT_UPI_RD) ||
     (event =? FAB_EVNT_PCIE1_WR) || (event =? FAB_EVNT_UPI_WR)) then false
  else true.
(* drivers/fpga/dfl-fme-perf.c:363-412 fabric_event_init *)
Definition fabric_event_init (event portid : Z) : M fme_perf_priv unit :=
  s ← get;
  let base := pf_ioaddr s in
  if negb (is_fabric_event_supported (pf_id s) event portid) then throw (- EINVAL) else
  if negb (pf_fab_users s =? 0) && negb (pf_fab_port_id s =? portid) then throw (- EOPNOTSUPP) else
  modify (set_pf_fab (u32 (pf_fab_users s + 1)) (pf_fab_port_id s)) ;;
  if pf_fab_port_id s =? portid then mret tt else
  modify (λ s, set_pf_fab (pf_fab_users s) portid s) ;;
  v ← pf_regs (readq (base + FAB_CTRL));
  let v := clear_field FAB_PORT_ID (clear_field FAB_PORT_FILTER v) in
  let v :=
    if is_portid_root portid then Z.lor v (FIELD_PREP FAB_PORT_FILTER FAB_PORT_FILTER_DISABLE)
    else Z.lor (Z.lor v (FIELD_PREP FAB_PORT_FILTER FAB_PORT_FILTER_ENABLE)) (FIELD_PREP FAB_PORT_ID portid) in
  pf_regs (writeq v (base + FAB_CTRL)).
(* drivers/fpga/dfl-fme-perf.c:414-420 fabric_event_destroy *)
Definition fabric_event_destroy (event portid : Z) : M fme_perf_priv unit :=
  modify (λ s, set_pf_fab (u32 (pf_fab_users s - 1)) (pf_fab_port_id s) s).
(** The three counters that are read the same way, each with its registers. *)
Definition read_selected (ctrl cntr : Z) (evnt cntr_evnt cntr_cntr : field) (event : Z) : M fme_perf_priv Z :=
  s ← get;
  let base := pf_ioaddr s in
  v ← pf_regs (readq (base + ctrl));
  let v := clear_field evnt v in
  r ← pf_regs (select_event (base + ctrl) (base + cntr) evnt cntr_evnt event v);
  match (r : option Z) with
  | None => mret 0
  | Some v => mret (FIELD_GET cntr_cntr v)
  end.
(* drivers/fpga/dfl-fme-perf.c:422-442 fabric_read_event_counter *)
Definition fabric_read_event_counter (event portid : Z) : M fme_perf_priv Z :=
  read_selected FAB_CTRL FAB_CNTR FAB_CTRL_EVNT FAB_CNTR_EVNT FAB_CNTR_EVNT_CNTR event.

(* drivers/fpga/dfl-fme-perf.c:444-451 vtd_event_init *)
Definition vtd_event_init (event portid : Z) : M fme_perf_priv unit :=
  s ← get;
  if (pf_id s =? FME_FEATURE_ID_GLOBAL_IPERF) && (event <=? VTD_EVNT_MAX) && is_portid_port portid
  then mret tt else throw (- EINVAL).
(* drivers/fpga/dfl-fme-perf.c:453-475 vtd_read_event_counter *)
Definition vtd_read_event_counter (event portid : Z) : M fme_perf_priv Z :=
  let event := u32 (event + u32 (portid * (VTD_EVNT_MAX + 1))) in
  read_selected VTD_CTRL VTD_CNTR VTD_CTRL_EVNT VTD_CNTR_EVNT VTD_CNTR_EVNT_CNTR event.

(* drivers/fpga/dfl-fme-perf.c:477-484 vtd_sip_event_init *)
Definition vtd_sip_event_init (event portid : Z) : M fme_perf_priv unit :=
  s ← get;
  if (pf_id s =? FME_FEATURE_ID_GLOBAL_IPERF) && (event <=? VTD_SIP_EVNT_MAX) && is_portid_root portid
  then mret tt else throw (- EINVAL).
(* drivers/fpga/dfl-fme-perf.c:486-506 vtd_sip_read_event_counter *)
Definition vtd_sip_read_event_counter (event portid : Z) : M fme_perf_priv Z :=
  read_selected VTD_SIP_CTRL VTD_SIP_CNTR VTD_SIP_CTRL_EVNT VTD_SIP_CNTR_EVNT VTD_SIP_CNTR_EVNT_CNTR event.

(* drivers/fpga/dfl-fme-perf.c:169-174 fme_perf_event_ops *)
Record fme_perf_event_ops := PerfEventOps {
  eo_event_init : Z → Z → M fme_perf_priv unit;
  eo_event_destroy : option (Z → Z → M fme_perf_priv unit);
  eo_read_counter : Z → Z → M fme_perf_priv Z;
}.
(* drivers/fpga/dfl-fme-perf.c:169-174 fme_perf_event_ops *)
Definition fme_perf_event_ops_table : list fme_perf_event_ops :=
  [PerfEventOps basic_event_init None basic_read_event_counter;
   PerfEventOps cache_event_init None cache_read_event_counter;
   PerfEventOps fabric_event_init (Some fabric_event_destroy) fabric_read_event_counter;
   PerfEventOps vtd_event_init None vtd_read_event_counter;
   PerfEventOps vtd_sip_event_init None vtd_sip_read_event_counter].
(* drivers/fpga/dfl-fme-perf.c:776-782 get_event_ops *)
Definition get_event_ops (evtype : Z) : option fme_perf_event_ops :=
  if FME_EVTYPE_MAX <? evtype then None else fme_perf_event_ops_table !! Z.to_nat evtype.

(** ** Events *)

(* drivers/fpga/dfl-fme-perf.c:784-791 fme_perf_event_destroy *)
Definition fme_perf_event_destroy (e : perf_event) : M fme_perf_priv unit :=
  ops ← access (get_event_ops (u32 (pe_event_base e)));
  match eo_event_destroy ops with
  | Some destroy => destroy (u32 (pe_idx e)) (u32 (pe_config_base e))
  | None => mret tt
  end.
(** The event with its codes. *)
(* drivers/fpga/dfl-fme-perf.c:793-838 fme_perf_event_init *)
Definition fme_perf_event_init (e : perf_event) : M fme_perf_priv perf_event :=
  s ← get;
  if negb (pe_type e =? pf_pmu_type s) then throw (- ENOENT) else
  if pe_sampling e || pe_attach_task e then throw (- EINVAL) else
  if pe_cpu e <? 0 then throw (- EINVAL) else
  if negb (u32 (pe_cpu e) =? pf_cpu s) then throw (- EINVAL) else
  let eventid := get_event (pe_config e) in
  let portid := get_portid (pe_config e) in
  let evtype := get_evtype (pe_config e) in
  if FME_EVTYPE_MAX <? evtype then throw (- EINVAL) else
  let e := set_pe_hw evtype (s32 eventid) portid e in
  ops ← access (get_event_ops evtype);
  eo_event_init ops eventid portid ;;
  mret e.
(* drivers/fpga/dfl-fme-perf.c:840-852 fme_perf_event_update *)
Definition fme_perf_event_update (e : perf_event) : M fme_perf_priv perf_event :=
  ops ← access (get_event_ops (u32 (pe_event_base e)));
  now ← eo_read_counter ops (u32 (pe_idx e)) (u32 (pe_config_base e));
  let prev := pe_prev_count e in
  let delta := u64 (now - prev) in
  mret (set_pe_count (u64 (pe_count e + delta)) e).
(* drivers/fpga/dfl-fme-perf.c:854-863 fme_perf_event_start *)
Definition fme_perf_event_start (e : perf_event) : M fme_perf_priv perf_event :=
  ops ← access (get_event_ops (u32 (pe_event_base e)));
  count ← eo_read_counter ops (u32 (pe_idx e)) (u32 (pe_config_base e));
  mret (set_pe_prev count e).
(* drivers/fpga/dfl-fme-perf.c:865-868 fme_perf_event_stop *)
Definition fme_perf_event_stop (e : perf_event) : M fme_perf_priv perf_event := fme_perf_event_update e.
(* drivers/fpga/dfl-fme-perf.c:870-876 fme_perf_event_add *)
Definition fme_perf_event_add (start : bool) (e : perf_event) : M fme_perf_priv perf_event :=
  if start then fme_perf_event_start e else mret e.
(* drivers/fpga/dfl-fme-perf.c:878-881 fme_perf_event_del *)
Definition fme_perf_event_del (e : perf_event) : M fme_perf_priv perf_event := fme_perf_event_stop e.
(* drivers/fpga/dfl-fme-perf.c:883-886 fme_perf_event_read *)
Definition fme_perf_event_read (e : perf_event) : M fme_perf_priv perf_event := fme_perf_event_update e.

(* drivers/fpga/dfl-fme-perf.c:888-900 fme_perf_setup_hardware *)
Definition fme_perf_setup_hardware : M fme_perf_priv unit :=
  s ← get;
  v ← pf_regs (readq (pf_ioaddr s + FAB_CTRL));
  if FIELD_GET FAB_PORT_FILTER v =? FAB_PORT_FILTER_DISABLE
  then modify (λ s, set_pf_fab (pf_fab_users s) FME_PORTID_ROOT s)
  else modify (λ s, set_pf_fab (pf_fab_users s) (u32 (FIELD_GET FAB_PORT_ID v)) s).

(** [target] is a processor other than [cpu] that is online, if below [nr_cpu_ids];
    the result are the processors between which the core moves the events. *)
(* drivers/fpga/dfl-fme-perf.c:939-957 fme_perf_offline_cpu *)
Definition fme_perf_offline_cpu (nr_cpu_ids target cpu : Z) : M fme_perf_priv (option (Z * Z)) :=
  s ← get;
  if negb (cpu =? pf_cpu s) then mret None else
  if nr_cpu_ids <=? target then mret None else
  modify (set_pf_cpu target) ;;
  mret (Some (cpu, target)).
End Perf.
#[global] Arguments fme_perf_priv {_}.

(** ** The attributes of the events *)

(* drivers/fpga/dfl-fme-perf.c:544-546 FME_PORT_EVENT_CONFIG *)
Definition FME_PORT_EVENT_CONFIG (event type : Z) : Z :=
  Z.lor (Z.land (Z.shiftl event FME_EVENT_SHIFT) (mask FME_EVENT_MASK))
    (Z.land (Z.shiftl type FME_EVTYPE_SHIFT) (mask FME_EVTYPE_MASK)).
(* drivers/fpga/dfl-fme-perf.c:548-551 FME_EVENT_CONFIG *)
Definition FME_EVENT_CONFIG (event type : Z) : Z :=
  Z.lor (Z.lor (Z.land (Z.shiftl event FME_EVENT_SHIFT) (mask FME_EVENT_MASK))
    (Z.land (Z.shiftl type FME_EVTYPE_SHIFT) (mask FME_EVTYPE_MASK)))
    (Z.shiftl FME_PORTID_ROOT FME_PORTID_SHIFT).
(** [%02llx] of a value of at most three digits. *)
Definition low_digit (d : Z) : ascii := nth (Z.to_nat d) (lit "0123456789abcdef") "0"%char.
Definition hex02 (v : Z) : text :=
  (if v <? 0x100 then [] else [low_digit (v / 0x100)]) ++ [low_digit (v / 0x10 mod 0x10); low_digit (v mod 0x10)].
(* drivers/fpga/dfl-fme-perf.c:522-539 fme_perf_event_show *)
Definition fme_perf_event_show (config : Z) : text :=
  if negb (is_portid_root (get_portid config)) then
    lit "event=0x" ++ hex02 (FIELD_GET FME_EVENT_MASK config) ++ lit ",evtype=0x" ++
    hex02 (FIELD_GET FME_EVTYPE_MASK config) ++ lit ",portid=?" ++ [newline]
  else
    lit "event=0x" ++ hex02 (FIELD_GET FME_EVENT_MASK config) ++ lit ",evtype=0x" ++
    hex02 (FIELD_GET FME_EVTYPE_MASK config) ++ lit ",portid=0x" ++ hex02 FME_PORTID_ROOT ++ [newline].

(** An attribute: its name and what [var] holds. *)
Abbreviation dev_ext_attribute := (string * Z)%type.
(* drivers/fpga/dfl-fme-perf.c:554-558 FME_EVENT_BASIC *)
Definition FME_EVENT_BASIC (name : string) (event : Z) : dev_ext_attribute :=
  (name, FME_EVENT_CONFIG event FME_EVTYPE_BASIC).
(* drivers/fpga/dfl-fme-perf.c:573-577 FME_EVENT_CACHE *)
Definition FME_EVENT_CACHE (name : string) (event : Z) : dev_ext_attribute :=
  (String.append "cache_" name, FME_EVENT_CONFIG event FME_EVTYPE_CACHE).
(* drivers/fpga/dfl-fme-perf.c:620-624 FME_EVENT_FABRIC *)
Definition FME_EVENT_FABRIC (name : string) (event : Z) : dev_ext_attribute :=
  (String.append "fab_" name, FME_EVENT_CONFIG event FME_EVTYPE_FABRIC).
(* drivers/fpga/dfl-fme-perf.c:626-630 FME_EVENT_FABRIC_PORT *)
Definition FME_EVENT_FABRIC_PORT (name : string) (event : Z) : dev_ext_attribute :=
  (String.append "fab_port_" name, FME_PORT_EVENT_CONFIG event FME_EVTYPE_FABRIC).
(* drivers/fpga/dfl-fme-perf.c:694-698 FME_EVENT_VTD_PORT *)
Definition FME_EVENT_VTD_PORT (name : string) (event : Z) : dev_ext_attribute :=
  (String.append "vtd_port_" name, FME_PORT_EVENT_CONFIG event FME_EVTYPE_VTD).
(* drivers/fpga/dfl-fme-perf.c:726-730 FME_EVENT_VTD_SIP *)
Definition FME_EVENT_VTD_SIP (name : string) (event : Z) : dev_ext_attribute :=
  (String.append "vtd_sip_" name, FME_EVENT_CONFIG event FME_EVTYPE_VTD_SIP).
(* drivers/fpga/dfl-fme-perf.c:560-560 FME_EVENT_BASIC *)
Definition fme_perf_event_clock : dev_ext_attribute := FME_EVENT_BASIC "clock" BASIC_EVNT_CLK.
(* drivers/fpga/dfl-fme-perf.c:579-579 FME_EVENT_CACHE *)
Definition fme_perf_event_cache_read_hit : dev_ext_attribute := FME_EVENT_CACHE "read_hit" CACHE_EVNT_RD_HIT.
(* drivers/fpga/dfl-fme-perf.c:580-580 FME_EVENT_CACHE *)
Definition fme_perf_event_cache_read_miss : dev_ext_attribute := FME_EVENT_CACHE "read_miss" CACHE_EVNT_RD_MISS.
(* drivers/fpga/dfl-fme-perf.c:581-581 FME_EVENT_CACHE *)
Definition fme_perf_event_cache_write_hit : dev_ext_attribute := FME_EVENT_CACHE "write_hit" CACHE_EVNT_WR_HIT.
(* drivers/fpga/dfl-fme-perf.c:582-582 FME_EVENT_CACHE *)
Definition fme_perf_event_cache_write_miss : dev_ext_attribute := FME_EVENT_CACHE "write_miss" CACHE_EVNT_WR_MISS.
(* drivers/fpga/dfl-fme-perf.c:583-583 FME_EVENT_CACHE *)
Definition fme_perf_event_cache_hold_request : dev_ext_attribute := FME_EVENT_CACHE "hold_request" CACHE_EVNT_HOLD_REQ.
(* drivers/fpga/dfl-fme-perf.c:584-584 FME_EVENT_CACHE *)
Definition fme_perf_event_cache_tx_req_stall : dev_ext_attribute := FME_EVENT_CACHE "tx_req_stall" CACHE_EVNT_TX_REQ_STALL.
(* drivers/fpga/dfl-fme-perf.c:585-585 FME_EVENT_CACHE *)
Definition fme_perf_event_cache_rx_req_stall : dev_ext_attribute := FME_EVENT_CACHE "rx_req_stall" CACHE_EVNT_RX_REQ_STALL.
(* drivers/fpga/dfl-fme-perf.c:586-586 FME_EVENT_CACHE *)
Definition fme_perf_event_cache_eviction : dev_ext_attribute := FME_EVENT_CACHE "eviction" CACHE_EVNT_EVICTIONS.
(* drivers/fpga/dfl-fme-perf.c:587-587 FME_EVENT_CACHE *)
Definition fme_perf_event_cache_data_write_port_contention : dev_ext_attribute := FME_EVENT_CACHE "data_write_port_contention" CACHE_EVNT_DATA_WR_PORT_CONTEN.
(* drivers/fpga/dfl-fme-perf.c:588-588 FME_EVENT_CACHE *)
Definition fme_perf_event_cache_tag_write_port_contention : dev_ext_attribute := FME_EVENT_CACHE "tag_write_port_contention" CACHE_EVNT_TAG_WR_PORT_CONTEN.
(* drivers/fpga/dfl-fme-perf.c:632-632 FME_EVENT_FABRIC *)
Definition fme_perf_event_fab_pcie0_read : dev_ext_attribute := FME_EVENT_FABRIC "pcie0_read" FAB_EVNT_PCIE0_RD.
(* drivers/fpga/dfl-fme-perf.c:633-633 FME_EVENT_FABRIC *)
Definition fme_perf_event_fab_pcie0_write : dev_ext_attribute := FME_EVENT_FABRIC "pcie0_write" FAB_EVNT_PCIE0_WR.
(* drivers/fpga/dfl-fme-perf.c:634-634 FME_EVENT_FABRIC *)
Definition fme_perf_event_fab_pcie1_read : dev_ext_attribute := FME_EVENT_FABRIC "pcie1_read" FAB_EVNT_PCIE1_RD.
(* drivers/fpga/dfl-fme-perf.c:635-635 FME_EVENT_FABRIC *)
Definition fme_perf_event_fab_pcie1_write : dev_ext_attribute := FME_EVENT_FABRIC "pcie1_write" FAB_EVNT_PCIE1_WR.
(* drivers/fpga/dfl-fme-perf.c:636-636 FME_EVENT_FABRIC *)
Definition fme_perf_event_fab_upi_read : dev_ext_attribute := FME_EVENT_FABRIC "upi_read" FAB_EVNT_UPI_RD.
(* drivers/fpga/dfl-fme-perf.c:637-637 FME_EVENT_FABRIC *)
Definition fme_perf_event_fab_upi_write : dev_ext_attribute := FME_EVENT_FABRIC "upi_write" FAB_EVNT_UPI_WR.
(* drivers/fpga/dfl-fme-perf.c:638-638 FME_EVENT_FABRIC *)
Definition fme_perf_event_fab_mmio_read : dev_ext_attribute := FME_EVENT_FABRIC "mmio_read" FAB_EVNT_MMIO_RD.
(* drivers/fpga/dfl-fme-perf.c:639-639 FME_EVENT_FABRIC *)
Definition fme_perf_event_fab_mmio_write : dev_ext_attribute := FME_EVENT_FABRIC "mmio_write" FAB_EVNT_MMIO_WR.
(* drivers/fpga/dfl-fme-perf.c:641-641 FME_EVENT_FABRIC_PORT *)
Definition fme_perf_event_fab_port_pcie0_read : dev_ext_attribute := FME_EVENT_FABRIC_PORT "pcie0_read" FAB_EVNT_PCIE0_RD.
(* drivers/fpga/dfl-fme-perf.c:642-642 FME_EVENT_FABRIC_PORT *)
Definition fme_perf_event_fab_port_pcie0_write : dev_ext_attribute := FME_EVENT_FABRIC_PORT "pcie0_write" FAB_EVNT_PCIE0_WR.
(* drivers/fpga/dfl-fme-perf.c:643-643 FME_EVENT_FABRIC_PORT *)
Definition fme_perf_event_fab_port_pcie1_read : dev_ext_attribute := FME_EVENT_FABRIC_PORT "pcie1_read" FAB_EVNT_PCIE1_RD.
(* drivers/fpga/dfl-fme-perf.c:644-644 FME_EVENT_FABRIC_PORT *)
Definition fme_perf_event_fab_port_pcie1_write : dev_ext_attribute := FME_EVENT_FABRIC_PORT "pcie1_write" FAB_EVNT_PCIE1_WR.
(* drivers/fpga/dfl-fme-perf.c:645-645 FME_EVENT_FABRIC_PORT *)
Definition fme_perf_event_fab_port_upi_read : dev_ext_attribute := FME_EVENT_FABRIC_PORT "upi_read" FAB_EVNT_UPI_RD.
(* drivers/fpga/dfl-fme-perf.c:646-646 FME_EVENT_FABRIC_PORT *)
Definition fme_perf_event_fab_port_upi_write : dev_ext_attribute := FME_EVENT_FABRIC_PORT "upi_write" FAB_EVNT_UPI_WR.
(* drivers/fpga/dfl-fme-perf.c:647-647 FME_EVENT_FABRIC_PORT *)
Definition fme_perf_event_fab_port_mmio_read : dev_ext_attribute := FME_EVENT_FABRIC_PORT "mmio_read" FAB_EVNT_MMIO_RD.
(* drivers/fpga/dfl-fme-perf.c:648-648 FME_EVENT_FABRIC_PORT *)
Definition fme_perf_event_fab_port_mmio_write : dev_ext_attribute := FME_EVENT_FABRIC_PORT "mmio_write" FAB_EVNT_MMIO_WR.
(* drivers/fpga/dfl-fme-perf.c:700-700 FME_EVENT_VTD_PORT *)
Definition fme_perf_event_vtd_port_read_transaction : dev_ext_attribute := FME_EVENT_VTD_PORT "read_transaction" VTD_EVNT_AFU_MEM_RD_TRANS.
(* drivers/fpga/dfl-fme-perf.c:701-701 FME_EVENT_VTD_PORT *)
Definition fme_perf_event_vtd_port_write_transaction : dev_ext_attribute := FME_EVENT_VTD_PORT "write_transaction" VTD_EVNT_AFU_MEM_WR_TRANS.
(* drivers/fpga/dfl-fme-perf.c:702-702 FME_EVENT_VTD_PORT *)
Definition fme_perf_event_vtd_port_devtlb_read_hit : dev_ext_attribute := FME_EVENT_VTD_PORT "devtlb_read_hit" VTD_EVNT_AFU_DEVTLB_RD_HIT.
(* drivers/fpga/dfl-fme-perf.c:703-703 FME_EVENT_VTD_PORT *)
Definition fme_perf_event_vtd_port_devtlb_write_hit : dev_ext_attribute := FME_EVENT_VTD_PORT "devtlb_write_hit" VTD_EVNT_AFU_DEVTLB_WR_HIT.
(* drivers/fpga/dfl-fme-perf.c:704-704 FME_EVENT_VTD_PORT *)
Definition fme_perf_event_vtd_port_devtlb_4k_fill : dev_ext_attribute := FME_EVENT_VTD_PORT "devtlb_4k_fill" VTD_EVNT_DEVTLB_4K_FILL.
(* drivers/fpga/dfl-fme-perf.c:705-705 FME_EVENT_VTD_PORT *)
Definition fme_perf_event_vtd_port_devtlb_2m_fill : dev_ext_attribute := FME_EVENT_VTD_PORT "devtlb_2m_fill" VTD_EVNT_DEVTLB_2M_FILL.
(* drivers/fpga/dfl-fme-perf.c:706-706 FME_EVENT_VTD_PORT *)
Definition fme_perf_event_vtd_port_devtlb_1g_fill : dev_ext_attribute := FME_EVENT_VTD_PORT "devtlb_1g_fill" VTD_EVNT_DEVTLB_1G_FILL.
(* drivers/fpga/dfl-fme-perf.c:732-732 FME_EVENT_VTD_SIP *)
Definition fme_perf_event_vtd_sip_iotlb_4k_hit : dev_ext_attribute := FME_EVENT_VTD_SIP "iotlb_4k_hit" VTD_SIP_EVNT_IOTLB_4K_HIT.
(* drivers/fpga/dfl-fme-perf.c:733-733 FME_EVENT_VTD_SIP *)
Definition fme_perf_event_vtd_sip_iotlb_2m_hit : dev_ext_attribute := FME_EVENT_VTD_SIP "iotlb_2m_hit" VTD_SIP_EVNT_IOTLB_2M_HIT.
(* drivers/fpga/dfl-fme-perf.c:734-734 FME_EVENT_VTD_SIP *)
Definition fme_perf_event_vtd_sip_iotlb_1g_hit : dev_ext_attribute := FME_EVENT_VTD_SIP "iotlb_1g_hit" VTD_SIP_EVNT_IOTLB_1G_HIT.
(* drivers/fpga/dfl-fme-perf.c:735-735 FME_EVENT_VTD_SIP *)
Definition fme_perf_event_vtd_sip_slpwc_l3_hit : dev_ext_attribute := FME_EVENT_VTD_SIP "slpwc_l3_hit" VTD_SIP_EVNT_SLPWC_L3_HIT.
(* drivers/fpga/dfl-fme-perf.c:736-736 FME_EVENT_VTD_SIP *)
Definition fme_perf_event_vtd_sip_slpwc_l4_hit : dev_ext_attribute := FME_EVENT_VTD_SIP "slpwc_l4_hit" VTD_SIP_EVNT_SLPWC_L4_HIT.
(* drivers/fpga/dfl-fme-perf.c:737-737 FME_EVENT_VTD_SIP *)
Definition fme_perf_event_vtd_sip_rcc_hit : dev_ext_attribute := FME_EVENT_VTD_SIP "rcc_hit" VTD_SIP_EVNT_RCC_HIT.
(* drivers/fpga/dfl-fme-perf.c:738-738 FME_EVENT_VTD_SIP *)
Definition fme_perf_event_vtd_sip_iotlb_4k_miss : dev_ext_attribute := FME_EVENT_VTD_SIP "iotlb_4k_miss" VTD_SIP_EVNT_IOTLB_4K_MISS.
(* drivers/fpga/dfl-fme-perf.c:739-739 FME_EVENT_VTD_SIP *)
Definition fme_perf_event_vtd_sip_iotlb_2m_miss : dev_ext_attribute := FME_EVENT_VTD_SIP "iotlb_2m_miss" VTD_SIP_EVNT_IOTLB_2M_MISS.
(* drivers/fpga/dfl-fme-perf.c:740-740 FME_EVENT_VTD_SIP *)
Definition fme_perf_event_vtd_sip_iotlb_1g_miss : dev_ext_attribute := FME_EVENT_VTD_SIP "iotlb_1g_miss" VTD_SIP_EVNT_IOTLB_1G_MISS.
(* drivers/fpga/dfl-fme-perf.c:741-741 FME_EVENT_VTD_SIP *)
Definition fme_perf_event_vtd_sip_slpwc_l3_miss : dev_ext_attribute := FME_EVENT_VTD_SIP "slpwc_l3_miss" VTD_SIP_EVNT_SLPWC_L3_MISS.
(* drivers/fpga/dfl-fme-perf.c:742-742 FME_EVENT_VTD_SIP *)
Definition fme_perf_event_vtd_sip_slpwc_l4_miss : dev_ext_attribute := FME_EVENT_VTD_SIP "slpwc_l4_miss" VTD_SIP_EVNT_SLPWC_L4_MISS.
(* drivers/fpga/dfl-fme-perf.c:743-743 FME_EVENT_VTD_SIP *)
Definition fme_perf_event_vtd_sip_rcc_miss : dev_ext_attribute := FME_EVENT_VTD_SIP "rcc_miss" VTD_SIP_EVNT_RCC_MISS.
(* drivers/fpga/dfl-fme-perf.c:562-565 fme_perf_basic_events_attrs *)
Definition fme_perf_basic_events_attrs : list dev_ext_attribute :=
  [fme_perf_event_clock].
(* drivers/fpga/dfl-fme-perf.c:590-602 fme_perf_cache_events_attrs *)
Definition fme_perf_cache_events_attrs : list dev_ext_attribute :=
  [fme_perf_event_cache_read_hit; fme_perf_event_cache_read_miss; fme_perf_event_cache_write_hit;
   fme_perf_event_cache_write_miss; fme_perf_event_cache_hold_request; fme_perf_event_cache_tx_req_stall;
   fme_perf_event_cache_rx_req_stall; fme_perf_event_cache_eviction; fme_perf_event_cache_data_write_port_contention;
   fme_perf_event_cache_tag_write_port_contention].
(* drivers/fpga/dfl-fme-perf.c:650-668 fme_perf_fabric_events_attrs *)
Definition fme_perf_fabric_events_attrs : list dev_ext_attribute :=
  [fme_perf_event_fab_pcie0_read; fme_perf_event_fab_pcie0_write; fme_perf_event_fab_pcie1_read;
   fme_perf_event_fab_pcie1_write; fme_perf_event_fab_upi_read; fme_perf_event_fab_upi_write;
   fme_perf_event_fab_mmio_read; fme_perf_event_fab_mmio_write; fme_perf_event_fab_port_pcie0_read;
   fme_perf_event_fab_port_pcie0_write; fme_perf_event_fab_port_pcie1_read; fme_perf_event_fab_port_pcie1_write;
   fme_perf_event_fab_port_upi_read; fme_perf_event_fab_port_upi_write; fme_perf_event_fab_port_mmio_read;
   fme_perf_event_fab_port_mmio_write].
(* drivers/fpga/dfl-fme-perf.c:708-717 fme_perf_vtd_events_attrs *)
Definition fme_perf_vtd_events_attrs : list dev_ext_attribute :=
  [fme_perf_event_vtd_port_read_transaction; fme_perf_event_vtd_port_write_transaction; fme_perf_event_vtd_port_devtlb_read_hit;
   fme_perf_event_vtd_port_devtlb_write_hit; fme_perf_event_vtd_port_devtlb_4k_fill; fme_perf_event_vtd_port_devtlb_2m_fill;
   fme_perf_event_vtd_port_devtlb_1g_fill].
(* drivers/fpga/dfl-fme-perf.c:745-759 fme_perf_vtd_sip_events_attrs *)
Definition fme_perf_vtd_sip_events_attrs : list dev_ext_attribute :=
  [fme_perf_event_vtd_sip_iotlb_4k_hit; fme_perf_event_vtd_sip_iotlb_2m_hit; fme_perf_event_vtd_sip_iotlb_1g_hit;
   fme_perf_event_vtd_sip_slpwc_l3_hit; fme_perf_event_vtd_sip_slpwc_l4_hit; fme_perf_event_vtd_sip_rcc_hit;
   fme_perf_event_vtd_sip_iotlb_4k_miss; fme_perf_event_vtd_sip_iotlb_2m_miss; fme_perf_event_vtd_sip_iotlb_1g_miss;
   fme_perf_event_vtd_sip_slpwc_l3_miss; fme_perf_event_vtd_sip_slpwc_l4_miss; fme_perf_event_vtd_sip_rcc_miss].

(** Whether an attribute is there, for the id of the feature. *)
(* drivers/fpga/dfl-fme-perf.c:604-611 fme_perf_events_visible *)
Definition fme_perf_events_visible (id : Z) : bool := id =? FME_FEATURE_ID_GLOBAL_IPERF.
(* drivers/fpga/dfl-fme-perf.c:670-685 fme_perf_fabric_events_visible *)
Definition fme_perf_fabric_events_visible (id : Z) (attr : dev_ext_attribute) : bool :=
  is_fabric_event_supported id (get_event attr.2) (get_portid attr.2).
(** Each group with the test of its attributes. *)
(* drivers/fpga/dfl-fme-perf.c:767-774 fme_perf_events_groups *)
Definition fme_perf_events_groups : list (list dev_ext_attribute * (Z → dev_ext_attribute → bool)) :=
  [(fme_perf_basic_events_attrs, λ _ _, true);
   (fme_perf_cache_events_attrs, λ id _, fme_perf_events_visible id);
   (fme_perf_fabric_events_attrs, fme_perf_fabric_events_visible);
   (fme_perf_vtd_events_attrs, λ id _, fme_perf_events_visible id);
   (fme_perf_vtd_sip_events_attrs, λ id _, fme_perf_events_visible id)].
(** What user space sees. *)
Definition visible_events (id : Z) : list dev_ext_attribute :=
  fme_perf_events_groups ≫= λ '(attrs, visible), base.filter (λ a, visible id a = true) attrs.

(** ** The feature driver *)

(** The kernel: each call gives a status, memory whether there is some. *)
Class PerfKernel := {
  pk : Type;
  pk_kzalloc : pk → bool * pk;
  pk_processor_id : pk → Z * pk;
  pk_cpuhp_setup : pk → Z * pk;
  pk_cpuhp_add : pk → Z * pk;
  pk_pmu_register : pk → (Z * Z) * pk;
}.
Inductive perf_resource := CpuhpState | CpuhpInstance | PmuRegistered.
#[export] Instance perf_resource_eq : EqDecision perf_resource.
Proof. solve_decision. Defined.

Section Init.
Context `{MmioHw} `{PerfKernel}.
(** [pp_held] is what is registered, [pp_priv] what the feature points to, [pp_cur]
    the structure that is set up. *)
Record perf_probe := PerfProbe {
  pp_k : pk;
  pp_held : list perf_resource;
  pp_priv : option fme_perf_priv;
  pp_cur : fme_perf_priv;
}.
Definition pk_op {A} (f : pk → A * pk) : M perf_probe A := λ s,
  let (a, k) := f (pp_k s) in Done (Val a, PerfProbe k (pp_held s) (pp_priv s) (pp_cur s)).
Definition perf_hold (r : perf_resource) : M perf_probe unit :=
  modify (λ s, PerfProbe (pp_k s) (r :: pp_held s) (pp_priv s) (pp_cur s)).
Definition perf_drop (r : perf_resource) : M perf_probe unit :=
  modify (λ s, PerfProbe (pp_k s) (base.filter (λ x, x ≠ r) (pp_held s)) (pp_priv s) (pp_cur s)).
Definition on_priv {A} (m : M fme_perf_priv A) : M perf_probe A :=
  zoom pp_cur (λ c s, PerfProbe (pp_k s) (pp_held s) (pp_priv s) c) m.

(** The type of the PMU comes from its registration. *)
(* drivers/fpga/dfl-fme-perf.c:902-932 fme_perf_pmu_register *)
Definition fme_perf_pmu_register : M perf_probe unit :=
  on_priv fme_perf_setup_hardware ;;
  r ← pk_op pk_pmu_register;
  rc (r : Z * Z).1 ;;
  perf_hold PmuRegistered ;;
  on_priv (modify (λ s, Perf (pf_ioaddr s) (pf_id s) r.2 (pf_fab_users s) (pf_fab_port_id s) (pf_cpu s) (pf_mm s))).
(* drivers/fpga/dfl-fme-perf.c:934-937 fme_perf_pmu_unregister *)
Definition fme_perf_pmu_unregister : M perf_probe unit := perf_drop PmuRegistered.
(* drivers/fpga/dfl-fme-perf.c:959-999 fme_perf_init *)
Definition fme_perf_init (ioaddr id : Z) : M perf_probe unit :=
  ok ← pk_op pk_kzalloc;
  if negb ok then throw (- ENOMEM) else
  cpu ← pk_op pk_processor_id;
  on_priv (modify (λ s, Perf ioaddr id 0 0 0 cpu (pf_mm s))) ;;
  ret ← pk_op pk_cpuhp_setup;
  if (ret : Z) <? 0 then throw ret else
  perf_hold CpuhpState ;;
  on_error (
    ret ← pk_op pk_cpuhp_add;
    rc ret ;;
    perf_hold CpuhpInstance ;;
    on_error fme_perf_pmu_register (perf_drop CpuhpInstance))
    (perf_drop CpuhpState) ;;
  modify (λ s, PerfProbe (pp_k s) (pp_held s) (Some (pp_cur s)) (pp_cur s)).
(* drivers/fpga/dfl-fme-perf.c:1001-1009 fme_perf_uinit *)
Definition fme_perf_uinit : M perf_probe unit :=
  fme_perf_pmu_unregister ;;
  perf_drop CpuhpInstance ;;
  perf_drop CpuhpState.
End Init.
