(* ===== verification/FmePerfFacts.v ===== *)
(** * Properties of the performance counters

    The mode of the fabric counter: as long as an event counts on it, it counts for
    the port that the event asked for.  Reading a counter selects the event, ends,
    and gives what the counter showed; what is advertised is accepted. *)
From stdpp Require Import gmap strings.
From S2P Require Import Prelude Text DflRegs Mmio FmePerf.

(** ** Fields *)
Lemma clear_set_field f v : clear_field f v = set_field f v 0.
Proof. unfold set_field, FIELD_PREP. by rewrite Z.shiftl_0_l, Z.land_0_l, Z.lor_0_r. Qed.

(** The port that the fabric counter counts for, by its control register. *)
Definition fab_mode (ctrl : Z) : Z :=
  if FIELD_GET FAB_PORT_FILTER ctrl =? FAB_PORT_FILTER_DISABLE then FME_PORTID_ROOT else FIELD_GET FAB_PORT_ID ctrl.
Lemma fab_mode_event v event : fab_mode (set_field FAB_CTRL_EVNT v event) = fab_mode v.
Proof. unfold fab_mode. by rewrite !FIELD_GET_set_field_ne by (unfold field_ok; cbn; lia). Qed.
Lemma fab_mode_root v :
  fab_mode (Z.lor (clear_field FAB_PORT_ID (clear_field FAB_PORT_FILTER v)) (FIELD_PREP FAB_PORT_FILTER FAB_PORT_FILTER_DISABLE)) = FME_PORTID_ROOT.
Proof.
  unfold fab_mode. change (FIELD_PREP FAB_PORT_FILTER FAB_PORT_FILTER_DISABLE) with 0.
  by rewrite Z.lor_0_r, !clear_set_field, FIELD_GET_set_field_ne, FIELD_GET_set_field by (unfold field_ok; cbn; lia).
Qed.
Lemma fab_mode_port v :
  fab_mode (Z.lor (Z.lor (clear_field FAB_PORT_ID (clear_field FAB_PORT_FILTER v)) (FIELD_PREP FAB_PORT_FILTER FAB_PORT_FILTER_ENABLE)) (FIELD_PREP FAB_PORT_ID 0)) = 0.
Proof.
  unfold fab_mode. change (FIELD_PREP FAB_PORT_ID 0) with 0. rewrite Z.lor_0_r, !FIELD_GET_lor, !clear_set_field.
  rewrite FIELD_GET_set_field_ne, !FIELD_GET_set_field by (unfold field_ok; cbn; lia). reflexivity.
Qed.

(** What is assumed of the control register of the fabric counter at [base]: it holds
    what is written to it, and no other access changes it. *)
Class FabCtrl `{MmioHw} (base : Z) := {
  fab_ctrl : hw → Z;
  fab_ctrl_value h : (hw_read (base + FAB_CTRL) h).1 = fab_ctrl h;
  fab_ctrl_read a h : fab_ctrl (hw_read a h).2 = fab_ctrl h;
  fab_ctrl_write a v h : fab_ctrl (hw_write a v h) = if a =? base + FAB_CTRL then v else fab_ctrl h;
}.

Section Mode.
Context `{FabCtrl} (tries fuel : nat).
Implicit Types (s : fme_perf_priv) (t : mmst) (ev : perf_event) (l : list perf_event).

Lemma pf_regs_spec {F N} {A} (m : M mmst A) s (Q : A → fme_perf_priv → Prop) E :
  wpg F N m (λ a t, Q a (set_pf_mm t s)) (λ e t, E e (set_pf_mm t s)) (pf_mm s) → wpg F N (pf_regs m) Q E s.
Proof. intros Hm. apply wp_zoom. unfold wpg in Hm. by destruct (m (pf_mm s)) as [[[] ?]| |]. Qed.

(** ** The mode is kept by every access but the one that sets it *)
Definition mode t : Z := fab_mode (fab_ctrl (mm_hw t)).
Definition keeps_mode {A} (m : M mmst A) : Prop :=
  ∀ t, wlp m (λ _ t', mode t' = mode t) (λ _ t', mode t' = mode t) t.
Lemma keep_bind {A B} (m : M mmst A) (f : A → M mmst B) : keeps_mode m → (∀ a, keeps_mode (f a)) → keeps_mode (m ≫= f).
Proof.
  intros Hm Hf t. apply wp_bind. eapply wp_mono; [apply Hm| |done]. cbv beta. intros a t' Ht.
  eapply wp_mono; [apply Hf|..]; cbv beta; intros; by etrans.
Qed.
Lemma keep_ret {A} (a : A) : keeps_mode (mret a).
Proof. by intros t. Qed.
Lemma keep_readq a : keeps_mode (readq a).
Proof. intros t. unfold wpg, readq, mode. pose proof (fab_ctrl_read a (mm_hw t)) as Hr. destruct (hw_read _ _). cbn in *. by rewrite Hr. Qed.
Lemma keep_readl a : keeps_mode (readl a).
Proof. intros t. unfold wpg, readl, mode. pose proof (fab_ctrl_read a (mm_hw t)) as Hr. destruct (hw_read _ _). cbn in *. by rewrite Hr. Qed.
Lemma keep_writeq v a : a ≠ base + FAB_CTRL → keeps_mode (writeq v a).
Proof. intros Ha t. unfold writeq, mode. wsteps. cbn. by rewrite fab_ctrl_write, (proj2 (Z.eqb_neq _ _) Ha). Qed.
Lemma keep_if {A} (b : bool) (m n : M mmst A) : keeps_mode m → keeps_mode n → keeps_mode (if b then m else n).
Proof. by destruct b. Qed.
Lemma keep_poll a c : keeps_mode (read_poll_timeout (readq a) c tries).
Proof.
  induction tries as [|n IH]; cbn [read_poll_timeout]; apply keep_bind; try apply keep_readq; intros v; apply keep_if;
    try apply keep_ret; [|done]. apply keep_bind; [apply keep_readq|intros; apply keep_ret].
Qed.
Lemma keep_cntr n a : keeps_mode (fme_read_perf_cntr_reg n a).
Proof.
  induction n as [|n IH]; cbn [fme_read_perf_cntr_reg]; [by intros t|]. apply keep_bind; [apply keep_readq|intros v].
  apply keep_bind; [apply keep_readl|intros low]. by apply keep_if; [|apply keep_ret].
Qed.
(** Selecting an event writes a control register, the fabric's only with its mode. *)
Lemma select_keeps ctrl cntr f g event v t :
  ctrl ≠ base + FAB_CTRL ∨ fab_mode (Z.lor v (FIELD_PREP f event)) = mode t →
  wlp (select_event tries fuel ctrl cntr f g event v) (λ _ t', mode t' = mode t) (λ _ t', mode t' = mode t) t.
Proof.
  intros Hc. unfold select_event. wstep.
  apply (wp_mono _ (λ _ t', mode t' = mode t) _ (λ _ t', mode t' = mode t)); [|intros _ t' Ht|done].
  - destruct (decide (ctrl = base + FAB_CTRL)) as [->|Hne]; [|by apply keep_writeq].
    unfold writeq, mode. wsteps. cbn. rewrite fab_ctrl_write, Z.eqb_refl. by destruct Hc.
  - rewrite <- Ht. apply keep_bind; [apply keep_poll|intros r]. apply keep_if; [apply keep_ret|].
    apply keep_bind; [apply keep_cntr|intros; apply keep_ret].
Qed.

(** ** The operations *)
Definition hw_mode s : Z := mode (pf_mm s).
(** What reading counters leaves alone. *)
Definition only_reads s s' : Prop := s' = set_pf_mm (pf_mm s') s ∧ hw_mode s' = hw_mode s.
Lemma only_reads_refl s : only_reads s s.
Proof. split; [by destruct s|done]. Qed.
Lemma only_reads_trans s1 s2 s3 : only_reads s1 s2 → only_reads s2 s3 → only_reads s1 s3.
Proof. intros [H1 M1] [H2 M2]. split; [rewrite H2, H1; done|congruence]. Qed.
Definition reads {A} (m : M fme_perf_priv A) : Prop :=
  ∀ s, pf_ioaddr s = base → wlp m (λ _, only_reads s) (λ _, only_reads s) s.
Lemma reads_regs {A} (m : M mmst A) s :
  wlp m (λ _ t, mode t = hw_mode s) (λ _ t, mode t = hw_mode s) (pf_mm s) →
  wlp (pf_regs m) (λ _, only_reads s) (λ _, only_reads s) s.
Proof. intros Hm. apply pf_regs_spec. eapply wp_mono; [exact Hm|..]; by intros ? t Ht. Qed.
Lemma reads_keeps {A} (m : M mmst A) : keeps_mode m → reads (pf_regs m).
Proof. intros Hm s _. apply reads_regs, Hm. Qed.
Lemma reads_bind {A B} (m : M fme_perf_priv A) (f : A → M fme_perf_priv B) :
  reads m → (∀ a, reads (f a)) → reads (m ≫= f).
Proof.
  intros Hm Hf s Hb. apply wp_bind. eapply wp_mono; [by apply Hm| |done]. cbv beta. intros a s' Hs.
  assert (pf_ioaddr s' = base) by (destruct Hs as [-> _]; done).
  eapply wp_mono; [by apply Hf|..]; cbv beta; intros; by eapply only_reads_trans.
Qed.
Lemma reads_ret {A} (a : A) : reads (mret a).
Proof. intros s _. apply only_reads_refl. Qed.
Lemma reads_selected ctrl cntr f g h event :
  ctrl ≠ FAB_CTRL ∨ ctrl = FAB_CTRL ∧ f = FAB_CTRL_EVNT → reads (read_selected tries fuel ctrl cntr f g h event).
Proof.
  intros Hc s Hb. unfold read_selected. wsteps. rewrite Hb. apply pf_regs_spec.
  assert (∀ t v, mode t = hw_mode s → ctrl ≠ FAB_CTRL ∨ v = fab_ctrl (mm_hw t) →
    wlp (r ← pf_regs (select_event tries fuel (base + ctrl) (base + cntr) f g event (clear_field f v));
         match r with None => mret 0 | Some v => mret (FIELD_GET h v) end)
      (λ _, only_reads s) (λ _, only_reads s) (set_pf_mm t s)) as Hrest.
  { intros t v Ht Hv. wstep. apply pf_regs_spec. cbn [pf_mm set_pf_mm].
    eapply wp_mono; [apply select_keeps|..]; cbv beta.
    - destruct Hv as [Hv| ->]; [left; lia|]. destruct Hc as [Hc|[-> ->]]; [left; lia|right]. apply fab_mode_event.
    - intros o t' Ht'. destruct o; wsteps; (split; [done|]); unfold hw_mode in *; cbn [pf_mm set_pf_mm]; congruence.
    - intros e t' Ht'. (split; [done|]); unfold hw_mode in *; cbn [pf_mm set_pf_mm]; congruence. }
  unfold wpg at 1, readq. destruct (hw_read _ _) as [v h'] eqn:Hr. cbn.
  pose proof (fab_ctrl_read (base + ctrl) (mm_hw (pf_mm s))) as Hk. rewrite Hr in Hk. cbn in Hk.
  apply Hrest; [unfold hw_mode, mode; cbn; by rewrite Hk|]. destruct (decide (ctrl = FAB_CTRL)) as [->|]; [right|by left].
  pose proof (fab_ctrl_value (mm_hw (pf_mm s))) as Hv. rewrite Hr in Hv. cbn [fst mm_hw] in *. congruence.
Qed.

Lemma read_counter_reads ty ops event portid : get_event_ops tries fuel ty = Some ops → reads (eo_read_counter ops event portid).
Proof.
  unfold get_event_ops. destruct (_ <? _); [done|]. intros Ho.
  assert (∀ c, keeps_mode (fme_read_perf_cntr_reg fuel c)) as Hc by (intros; apply keep_cntr).
  destruct (Z.to_nat ty) as [|[|[|[|[|n]]]]]; [| | | | |done]; injection Ho as <-; cbn [eo_read_counter].
  - intros s Hb. unfold basic_read_event_counter. wsteps. by apply reads_keeps.
  - intros s Hb. unfold cache_read_event_counter. wsteps. rewrite Hb.
    eapply wp_mono; [by apply (reads_keeps _ (keep_readq _))| |done]. cbv beta. intros v s1 H1. wstep.
    eapply wp_mono; [apply reads_regs, select_keeps; left; unfold CACHE_CTRL, FAB_CTRL; lia|..]; cbv beta; [|intros; by eapply only_reads_trans].
    intros o s2 H2. pose proof (only_reads_trans _ _ _ H1 H2) as H12. destruct o; [|by wsteps].
    assert (pf_ioaddr s2 = base) by (by destruct H12 as [-> _]).
    wstep. eapply wp_mono; [by apply (reads_keeps _ (Hc _))|..]; cbv beta; intros; wsteps; by eapply only_reads_trans.
  - apply reads_selected. by right.
  - apply reads_selected. by left.
  - apply reads_selected. by left.
Qed.

(** ** The events that are alive *)
Definition is_fabric ev : bool := pe_event_base ev =? FME_EVTYPE_FABRIC.
Definition fabric_events l : list perf_event := base.filter (λ ev, is_fabric ev = true) l.
(** Each user of the fabric counter is counted, counts for the port it asked for, and
    the device agrees. *)
Record perf_inv s l : Prop := {
  pi_base : pf_ioaddr s = base;
  pi_users : pf_fab_users s = Z.of_nat (length (fabric_events l));
  pi_mode : ∀ ev, ev ∈ fabric_events l → pe_config_base ev = pf_fab_port_id s;
  pi_hw : hw_mode s = pf_fab_port_id s;
  pi_types : Forall (λ ev, 0 ≤ pe_event_base ev ≤ FME_EVTYPE_MAX) l;
}.
(** What the perf core does with the events of the PMU, in any order: an event whose
    initialisation succeeded is alive until it is destroyed, and there are fewer than
    2^32 of them. *)
Inductive perf_step : fme_perf_priv * list perf_event → fme_perf_priv * list perf_event → Prop :=
| Pf_init ev ev' s s' l :
    Z.of_nat (length l) + 1 < 2 ^ 32 →
    fme_perf_event_init tries fuel ev s = Done (Val ev', s') → perf_step (s, l) (s', ev' :: l)
| Pf_init_fails ev e s s' l :
    Z.of_nat (length l) + 1 < 2 ^ 32 →
    fme_perf_event_init tries fuel ev s = Done (Err e, s') → perf_step (s, l) (s', l)
| Pf_destroy i ev r s s' l :
    l !! i = Some ev → fme_perf_event_destroy tries fuel ev s = Done (r, s') → perf_step (s, l) (s', delete i l)
| Pf_start i ev ev' s s' l :
    l !! i = Some ev → fme_perf_event_start tries fuel ev s = Done (Val ev', s') → perf_step (s, l) (s', <[i := ev']> l)
| Pf_update i ev ev' s s' l :
    l !! i = Some ev → fme_perf_event_update tries fuel ev s = Done (Val ev', s') → perf_step (s, l) (s', <[i := ev']> l)
| Pf_offline n target cpu r s s' l :
    fme_perf_offline_cpu n target cpu s = Done (r, s') → perf_step (s, l) (s', l).

Lemma fabric_events_cons ev l : fabric_events (ev :: l) = if is_fabric ev then ev :: fabric_events l else fabric_events l.
Proof. unfold fabric_events. rewrite filter_cons. by destruct (is_fabric ev). Qed.
Lemma fabric_events_app l1 l2 : fabric_events (l1 ++ l2) = fabric_events l1 ++ fabric_events l2.
Proof. apply list.filter_app. Qed.
Lemma perf_inv_reads s s' l : only_reads s s' → perf_inv s l → perf_inv s' l.
Proof. intros [He Hm] [Hb Hu Ho Hh Ht]. rewrite He in *. cbn in *. constructor; cbn; [done..|by rewrite Hm|done]. Qed.
(** An event that keeps its codes is as good as the one before. *)
Lemma perf_inv_insert s l i ev ev' :
  l !! i = Some ev → pe_event_base ev' = pe_event_base ev → pe_config_base ev' = pe_config_base ev →
  perf_inv s l → perf_inv s (<[i := ev']> l).
Proof.
  intros Hi Hb Hc [Hba Hu Ho Hh Ht]. pose proof (take_drop_middle _ _ _ Hi) as Hl.
  assert (Forall (λ ev, 0 ≤ pe_event_base ev ≤ FME_EVTYPE_MAX) (<[i := ev']> l)) as Ht'.
  { apply Forall_insert; [done|]. rewrite Hb. by apply (proj1 (Forall_lookup _ _) Ht i). }
  rewrite insert_take_drop by by eapply lookup_lt_Some. rewrite <- Hl in Hu, Ho.
  rewrite fabric_events_app, fabric_events_cons in Hu, Ho. unfold is_fabric in *.
  rewrite insert_take_drop in Ht' by by eapply lookup_lt_Some.
  constructor; [done| | |done|done]; rewrite fabric_events_app, fabric_events_cons; unfold is_fabric; rewrite Hb; case_match.
  - rewrite Hu, !length_app. done.
  - done.
  - intros x [Hx|[->|Hx]%elem_of_cons]%elem_of_app; [|rewrite Hc|]; apply Ho; set_solver.
  - done.
Qed.

(** Which initialisations do more than to check the codes. *)
Lemma other_init ty ops event portid s :
  get_event_ops tries fuel ty = Some ops → ty ≠ FME_EVTYPE_FABRIC → 0 ≤ ty →
  wlp (eo_event_init ops event portid) (λ _ s', s' = s) (λ _ s', s' = s) s ∧ eo_event_destroy ops = None.
Proof.
  unfold get_event_ops. destruct (_ <? _); [done|]. intros Ho Hne Hty.
  destruct (Z.to_nat ty) as [|[|[|[|[|n]]]]] eqn:Hn; [| |unfold FME_EVTYPE_FABRIC in Hne; lia| | |done];
    injection Ho as <-; cbn [eo_event_init eo_event_destroy]; (split; [|done]);
    unfold basic_event_init, cache_event_init, vtd_event_init, vtd_sip_event_init; wsteps; by case_match; wsteps.
Qed.
Lemma fabric_ops ops : get_event_ops tries fuel FME_EVTYPE_FABRIC = Some ops →
  eo_event_init ops = fabric_event_init ∧ eo_event_destroy ops = Some fabric_event_destroy.
Proof.
  change (get_event_ops tries fuel FME_EVTYPE_FABRIC) with
    (Some (PerfEventOps fabric_event_init (Some fabric_event_destroy) (fabric_read_event_counter tries fuel))).
  by intros [= <-].
Qed.

(** Using the fabric counter sets its mode, unless it is used in another one. *)
Lemma fabric_init_spec event portid s :
  pf_ioaddr s = base → hw_mode s = pf_fab_port_id s → 0 ≤ portid → 0 ≤ pf_fab_users s → pf_fab_users s + 1 < 2 ^ 32 →
  wlp (fabric_event_init event portid)
    (λ _ s', pf_ioaddr s' = base ∧ pf_fab_users s' = pf_fab_users s + 1 ∧ pf_fab_port_id s' = portid ∧
       hw_mode s' = portid ∧ (pf_fab_users s ≠ 0 → pf_fab_port_id s = portid))
    (λ _ s', s' = s) s.
Proof.
  intros Hb Hm Hp Hu Hu32. unfold fabric_event_init. wsteps.
  destruct (is_fabric_event_supported _ _ _) eqn:Hs; cbn [negb]; [|by wsteps].
  assert (portid = FME_PORTID_ROOT ∨ portid = 0) as Hport.
  { unfold is_fabric_event_supported in Hs. destruct (_ <? event); [done|]. cbn [orb] in Hs.
    destruct (is_portid_root_or_port portid) eqn:Hr; [|done].
    unfold is_portid_root_or_port, is_portid_root, is_portid_port, PERF_MAX_PORT_NUM in Hr. lia. }
  destruct (negb (pf_fab_users s =? 0) && negb (pf_fab_port_id s =? portid)) eqn:Hc; [by wsteps|].
  assert (pf_fab_users s ≠ 0 → pf_fab_port_id s = portid) as Hsame.
  { intros Hn. apply Z.eqb_neq in Hn. rewrite Hn in Hc. cbn in Hc. by apply negb_false_iff, Z.eqb_eq in Hc. }
  rewrite u32_small by (unfold is_u32; lia).
  destruct (Z.eqb_spec (pf_fab_port_id s) portid) as [He|He]; wsteps; [by rewrite <- He in *|].
  rewrite Hb. apply pf_regs_spec. unfold wpg at 1, readq. destruct (hw_read _ _) as [v h]. cbn [mm_log mm_hw].
  wsteps. apply pf_regs_spec. unfold writeq. wsteps. split_and!; [done..| |done].
  unfold hw_mode, mode. cbn -[fab_mode is_portid_root]. rewrite fab_ctrl_write, Z.eqb_refl.
  destruct Hport as [-> | ->]; [apply fab_mode_root|apply fab_mode_port].
Qed.

Lemma get_evtype_range config : 0 ≤ get_evtype config.
Proof. apply u32_range. Qed.
Lemma event_init_spec ev s l :
  perf_inv s l → Z.of_nat (length l) + 1 < 2 ^ 32 →
  wlp (fme_perf_event_init tries fuel ev) (λ ev' s', perf_inv s' (ev' :: l)) (λ _ s', s' = s) s.
Proof.
  intros [Hb Hu Ho Hh Ht] Hl. unfold fme_perf_event_init. wsteps.
  do 4 (case_match; [by wsteps|]). destruct (Z.ltb_spec FME_EVTYPE_MAX (get_evtype (pe_config ev))) as [|Hmax]; [by wsteps|].
  pose proof (get_evtype_range (pe_config ev)) as Hpos. wstep. apply wp_access; [|done]. intros ops Hops. wstep.
  set (ty := get_evtype (pe_config ev)) in *. set (ev' := set_pe_hw ty _ _ _).
  assert (Forall (λ ev, 0 ≤ pe_event_base ev ≤ FME_EVTYPE_MAX) (ev' :: l)) as Ht' by by constructor.
  assert (length (fabric_events l) ≤ length l)%nat by apply length_filter.
  destruct (decide (ty = FME_EVTYPE_FABRIC)) as [Hty|Hty].
  - rewrite Hty in Hops. apply fabric_ops in Hops as [-> _].
    eapply wp_mono; [apply fabric_init_spec; [done|done|apply u32_range|lia|lia]| |done]. cbv beta.
    intros _ s' (Hb' & Hu' & Hp' & Hm' & Hsame). wsteps.
    assert (is_fabric ev' = true) as Hf by (unfold is_fabric; cbn; by rewrite Hty).
    constructor; [done| | |congruence|done]; rewrite fabric_events_cons, Hf.
    + rewrite Hu', Hu. cbn [length]. lia.
    + intros x [-> |Hx]%elem_of_cons; [done|]. rewrite (Ho x Hx), Hp'. apply Hsame. rewrite Hu.
      destruct (fabric_events l); [by apply elem_of_nil in Hx|cbn; lia].
  - destruct (other_init ty ops (get_event (pe_config ev)) (get_portid (pe_config ev)) s Hops Hty Hpos) as [Hi _].
    eapply wp_mono; [exact Hi| |done]. cbv beta. intros _ s' ->. wsteps.
    assert (is_fabric ev' = false) as Hf by (unfold is_fabric; cbn; by apply Z.eqb_neq).
    constructor; [done| | |done|done]; by rewrite fabric_events_cons, Hf.
Qed.
Lemma event_destroy_spec i ev s l :
  perf_inv s l → l !! i = Some ev → Z.of_nat (length l) < 2 ^ 32 →
  wlp (fme_perf_event_destroy tries fuel ev) (λ _ s', perf_inv s' (delete i l)) (λ _ _, False) s.
Proof.
  intros [Hb Hu Ho Hh Ht] Hi Hl. unfold fme_perf_event_destroy. wstep. apply wp_access; [|done]. intros ops Hops.
  pose proof (proj1 (Forall_lookup _ _) Ht i _ Hi) as Hty. cbn beta in Hty.
  rewrite u32_small in Hops by (unfold is_u32, FME_EVTYPE_MAX, FME_EVTYPE_VTD_SIP in *; lia).
  pose proof (take_drop_middle _ _ _ Hi) as Hm.
  assert (pf_fab_users s < 2 ^ 32) as Hub.
  { rewrite Hu. assert (length (fabric_events l) ≤ length l)%nat by apply length_filter. lia. }
  rewrite <- Hm, fabric_events_app, fabric_events_cons in Hu, Ho.
  assert (Forall (λ ev, 0 ≤ pe_event_base ev ≤ FME_EVTYPE_MAX) (delete i l)) as Ht' by by apply Forall_delete.
  rewrite delete_take_drop in *. destruct (decide (pe_event_base ev = FME_EVTYPE_FABRIC)) as [He|He].
  - rewrite He in Hops. apply fabric_ops in Hops as [_ ->]. unfold fabric_event_destroy. wsteps.
    assert (is_fabric ev = true) as Hf by (unfold is_fabric; by rewrite He). rewrite Hf in *.
    rewrite length_app in Hu. cbn [length] in Hu.
    constructor; cbn; [done| | |done|done]; rewrite fabric_events_app.
    + rewrite u32_small, Hu, length_app by (unfold is_u32; lia). lia.
    + intros x Hx. apply Ho. set_solver.
  - destruct (other_init _ ops 0 0 s Hops He ltac:(lia)) as [_ ->]. wsteps.
    assert (is_fabric ev = false) as Hf by (unfold is_fabric; by apply Z.eqb_neq). rewrite Hf in *.
    constructor; [done| | |done|done]; rewrite fabric_events_app; done.
Qed.

(** Starting and updating an event read its counter and keep its codes. *)
Lemma event_reads_spec ev s l i (f : perf_event → Z → perf_event) :
  (∀ v, pe_event_base (f ev v) = pe_event_base ev ∧ pe_config_base (f ev v) = pe_config_base ev) →
  perf_inv s l → l !! i = Some ev →
  wlp (ops ← access (get_event_ops tries fuel (u32 (pe_event_base ev)));
       v ← eo_read_counter ops (u32 (pe_idx ev)) (u32 (pe_config_base ev)); mret (f ev v))
    (λ ev' s', perf_inv s' (<[i := ev']> l)) (λ _ s', perf_inv s' l) s.
Proof.
  intros Hf Hinv Hi. wstep. apply wp_access; [|done]. intros ops Hops. wstep.
  eapply wp_mono; [eapply read_counter_reads; [exact Hops|apply Hinv]|..]; cbv beta.
  - intros v s' Hs. wsteps. destruct (Hf v). eapply perf_inv_insert; [done..|]. by eapply perf_inv_reads.
  - intros e s' Hs. by eapply perf_inv_reads.
Qed.
Lemma perf_step_inv x y :
  perf_step x y → perf_inv x.1 x.2 ∧ Z.of_nat (length x.2) < 2 ^ 32 → perf_inv y.1 y.2 ∧ Z.of_nat (length y.2) < 2 ^ 32.
Proof.
  intros Hstep [Hinv Hl]. destruct Hstep as [ev ev' s s' l Hlt Hr|ev e s s' l Hlt Hr|i ev r s s' l Hi Hr|i ev ev' s s' l Hi Hr|i ev ev' s s' l Hi Hr|n target cpu r s s' l Hr];
    cbn [fst snd] in *.
  - split; [|cbn; lia]. exact (wp_elim _ _ _ _ _ _ (event_init_spec ev s l Hinv Hlt) Hr).
  - split; [|done]. by rewrite (wp_elim_err _ _ _ _ _ _ (event_init_spec ev s l Hinv Hlt) Hr).
  - pose proof (wp_done _ _ _ _ _ _ (event_destroy_spec i ev s l Hinv Hi Hl) Hr) as Hd. destruct r; [|done]. split; [done|].
    rewrite length_delete by (by eexists). lia.
  - split; [|by rewrite length_insert].
    exact (wp_elim _ _ _ _ _ _ (event_reads_spec ev s l i (λ ev v, set_pe_prev v ev) (λ v, conj eq_refl eq_refl) Hinv Hi) Hr).
  - split; [|by rewrite length_insert].
    exact (wp_elim _ _ _ _ _ _ (event_reads_spec ev s l i (λ ev v, set_pe_count (u64 (pe_count ev + u64 (v - pe_prev_count ev))) ev)
      (λ v, conj eq_refl eq_refl) Hinv Hi) Hr).
  - split; [|done]. destruct Hinv. unfold fme_perf_offline_cpu in Hr. revert Hr. cbv [mbind M_bind get].
    destruct (negb (cpu =? pf_cpu s)); [by intros [= _ <-]|]. destruct (n <=? target); [by intros [= _ <-]|].
    intros [= _ <-]. by constructor.
Qed.
Lemma setup_hardware_spec s :
  pf_ioaddr s = base → pf_fab_users s = 0 →
  wlp fme_perf_setup_hardware (λ _ s', perf_inv s' []) (λ _ _, False) s.
Proof.
  intros Hb Hu. unfold fme_perf_setup_hardware. wsteps. rewrite Hb. apply pf_regs_spec.
  unfold wpg at 1, readq. destruct (hw_read _ _) as [v h] eqn:Hr.
  pose proof (fab_ctrl_value (mm_hw (pf_mm s))) as Hv. pose proof (fab_ctrl_read (base + FAB_CTRL) (mm_hw (pf_mm s))) as Hk.
  rewrite Hr in Hv, Hk. cbn [fst snd] in Hv, Hk.
  assert (fab_mode (fab_ctrl h) = if FIELD_GET FAB_PORT_FILTER v =? FAB_PORT_FILTER_DISABLE then FME_PORTID_ROOT else FIELD_GET FAB_PORT_ID v) as Hm
    by by rewrite Hk, <- Hv.
  pose proof (FIELD_GET_range FAB_PORT_ID v ltac:(by vm_compute)) as Hrg. change (2 ^ f_width FAB_PORT_ID) with 4 in Hrg.
  destruct (_ =? _); wsteps; constructor; cbn [pf_ioaddr pf_fab_users pf_fab_port_id set_pf_fab set_pf_mm]; try done.
  - by intros ev ?%elem_of_nil.
  - by intros ev ?%elem_of_nil.
  - rewrite u32_small by (unfold is_u32; lia). exact Hm.
Qed.

(** C18: Whatever events are initialised, read and destroyed, in whatever order, from
    the state that the probe sets up on: the number of users of the fabric counter is
    the number of the events that count on it, and for each of these the device
    counts for the port that the event asked for. *)
Theorem fabric_mode_kept s0 s s' l :
  pf_ioaddr s0 = base → pf_fab_users s0 = 0 → fme_perf_setup_hardware s0 = Done (Val tt, s) →
  rtc perf_step (s, []) (s', l) →
  pf_fab_users s' = Z.of_nat (length (fabric_events l)) ∧
  ∀ ev, ev ∈ fabric_events l → fab_mode (fab_ctrl (mm_hw (pf_mm s'))) = pe_config_base ev.
Proof.
  intros Hb Hu Hset Hsteps.
  pose proof (wp_elim _ _ _ _ _ _ (setup_hardware_spec s0 Hb Hu) Hset) as Hinv.
  assert (perf_inv s' l ∧ Z.of_nat (length l) < 2 ^ 32) as [[_ Hn Ho Hh _] _].
  { apply (rtc_ind_r (λ x, perf_inv x.1 x.2 ∧ Z.of_nat (length x.2) < 2 ^ 32) (s, [])) in Hsteps; [done|done|].
    intros y z _ Hyz. by apply perf_step_inv. }
  split; [done|]. intros ev Hev. rewrite (Ho ev Hev). exact Hh.
Qed.
End Mode.

(** ** Reading a counter *)

(** What is assumed of a counter at [a]: it only grows, and between two reads in a
    row by less than 2^30. *)
Class Counts `{MmioHw} (a : Z) := {
  counts_u64 h : is_u64 (hw_read a h).1;
  counts_next h : (hw_read a h).1 ≤ (hw_read a (hw_read a h).2).1 < (hw_read a h).1 + 2 ^ 30;
}.

Section Counter.
Context `{MmioHw} (tries fuel : nat).
Implicit Types (s : fme_perf_priv) (t : mmst).

Lemma readq_run a t : readq a t = Done (Val (hw_read a (mm_hw t)).1, Mm (hw_read a (mm_hw t)).2 (mm_log t ++ [MmioRead a (hw_read a (mm_hw t)).1])).
Proof. unfold readq. by destruct (hw_read a (mm_hw t)). Qed.
Lemma readl_run a t : readl a t = Done (Val (u32 (hw_read a (mm_hw t)).1), Mm (hw_read a (mm_hw t)).2 (mm_log t ++ [MmioRead a (u32 (hw_read a (mm_hw t)).1)])).
Proof. unfold readl. by destruct (hw_read a (mm_hw t)). Qed.
Lemma carried v w : 0 ≤ v → v ≤ w < v + 2 ^ 30 → u32 w < u32 v → u32 w < 2 ^ 30.
Proof. unfold u32. intros. Z.div_mod_to_equations. lia. Qed.
Lemma not_carried v w : 0 ≤ v → v ≤ w < v + 2 ^ 30 → u32 v < 2 ^ 31 → u32 v ≤ u32 w.
Proof. unfold u32. intros. Z.div_mod_to_equations. lia. Qed.
Lemma carried_next v w : 0 ≤ v → v ≤ w < v + 2 ^ 30 → u32 v < 2 ^ 30 → u32 w < 2 ^ 31.
Proof. unfold u32. intros. Z.div_mod_to_equations. lia. Qed.

(** A counter is read at most twice until no carry came between the two halves. *)
Lemma read_cntr_spec a t `{!Counts a} :
  (2 ≤ fuel)%nat →
  wp (fme_read_perf_cntr_reg fuel a)
    (λ v t', ∃ l, mm_log t' = mm_log t ++ l ∧ MmioRead a v ∈ l ∧ Forall (λ io, ∃ x, io = MmioRead a x) l ∧
       (hw_read a (mm_hw t)).1 ≤ v < (hw_read a (mm_hw t)).1 + 2 ^ 31)
    (λ _ _, False) t.
Proof.
  intros Hf. destruct fuel as [|[|n]]; [lia|lia|]. cbn [fme_read_perf_cntr_reg].
  pose proof (counts_next (a := a) (mm_hw t)) as H1. pose proof (counts_u64 (a := a) (mm_hw t)) as [Hu _].
  wstep. eapply wp_eq; [apply readq_run|]. wstep. eapply wp_eq; [apply readl_run|]. cbn [mm_hw mm_log].
  set (v1 := (hw_read a (mm_hw t)).1) in *. set (h1 := (hw_read a (mm_hw t)).2) in *. set (w1 := (hw_read a h1).1) in *.
  set (h2 := (hw_read a h1).2) in *.
  destruct (Z.ltb_spec (u32 w1) (u32 v1)) as [Hc|Hc].
  - pose proof (carried v1 w1 Hu H1 Hc) as Hlow.
    pose proof (counts_next (a := a) h1) as H2. pose proof (counts_next (a := a) h2) as H3. fold w1 h2 in H2.
    wstep. eapply wp_eq; [apply readq_run|]. wstep. eapply wp_eq; [apply readl_run|]. cbn [mm_hw mm_log].
    set (v2 := (hw_read a h2).1) in *. set (w2 := (hw_read a (hw_read a h2).2).1) in *.
    pose proof (carried_next w1 v2 ltac:(lia) H2 Hlow) as Hv2. pose proof (not_carried v2 w2 ltac:(lia) H3 Hv2).
    destruct (Z.ltb_spec (u32 w2) (u32 v2)); [lia|]. wsteps. eexists. rewrite <- !app_assoc. split; [done|]. cbn.
    split_and!; [set_solver|repeat constructor; by eexists|lia|lia].
  - wsteps. eexists. rewrite <- app_assoc. split; [done|]. cbn. split_and!; [set_solver|repeat constructor; by eexists|lia|lia].
Qed.

(** Reading through a selection: the event is selected once; the result is 0 if the
    counter did not show it in time, and else what the counter held. *)
Lemma read_selected_spec ctrl cntr f g h event s `{!Counts (pf_ioaddr s + cntr)} :
  (2 ≤ fuel)%nat →
  let ctrl_reg := pf_ioaddr s + ctrl in let cntr_reg := pf_ioaddr s + cntr in
  wp (read_selected tries fuel ctrl cntr f g h event)
    (λ v s', s' = set_pf_mm (pf_mm s') s ∧ ∃ w l1 l2,
       mm_log (pf_mm s') = mm_log (pf_mm s) ++ MmioRead ctrl_reg w :: MmioWrite ctrl_reg (set_field f w event) :: l1 ++ l2 ∧
       (polled cntr_reg (λ v, FIELD_GET g v =? event) false l1 ∧ l2 = [] ∧ v = 0 ∨
        polled cntr_reg (λ v, FIELD_GET g v =? event) true l1 ∧ Forall (λ io, ∃ x, io = MmioRead cntr_reg x) l2 ∧
        ∃ x, MmioRead cntr_reg x ∈ l2 ∧ v = FIELD_GET h x))
    (λ _ _, False) s.
Proof.
  intros Hf ctrl_reg cntr_reg. unfold read_selected. wsteps. apply pf_regs_spec, readq_spec. intros w d. wstep.
  apply pf_regs_spec. cbn [pf_mm set_pf_mm]. unfold select_event. wstep. unfold writeq. wsteps.
  eapply wp_mono; [apply poll_spec| |done]. cbn [mm_log mm_hw]. intros r t (l & Hl & Hp & Hr).
  destruct (Z.eqb_spec r.1 0) as [He|He]; cbn [negb].
  - wsteps. eapply wp_mono; [by apply read_cntr_spec| |done]. cbv beta. intros v t' (l2 & Hl2 & Hin & Hall & _). wsteps.
    split; [done|]. exists w, l, l2. cbn [pf_mm set_pf_mm]. rewrite Hl2, Hl, <- !app_assoc. split; [done|]. right. eauto.
  - wsteps. split; [done|]. exists w, l, []. cbn [pf_mm set_pf_mm]. rewrite Hl, <- !app_assoc, app_nil_r. split; [done|]. by left.
Qed.
End Counter.

(** ** What is advertised is accepted *)
Definition supported (id config : Z) : bool :=
  let event := get_event config in
  let portid := get_portid config in
  match Z.to_nat (get_evtype config) with
  | 0%nat => (event <=? BASIC_EVNT_MAX) && is_portid_root portid
  | 1%nat => (id =? FME_FEATURE_ID_GLOBAL_IPERF) && (event <=? CACHE_EVNT_MAX) && is_portid_root portid
  | 2%nat => is_fabric_event_supported id event portid
  | 3%nat => (id =? FME_FEATURE_ID_GLOBAL_IPERF) && (event <=? VTD_EVNT_MAX) && is_portid_port portid
  | 4%nat => (id =? FME_FEATURE_ID_GLOBAL_IPERF) && (event <=? VTD_SIP_EVNT_MAX) && is_portid_root portid
  | _ => false
  end.
Lemma visible_supported id a :
  id = FME_FEATURE_ID_GLOBAL_IPERF ∨ id = FME_FEATURE_ID_GLOBAL_DPERF → a ∈ visible_events id →
  supported id a.2 = negb (a.2 =? fme_perf_event_vtd_sip_rcc_miss.2).
Proof.
  intros Hid. assert (forallb (λ a, Bool.eqb (supported id a.2) (negb (a.2 =? fme_perf_event_vtd_sip_rcc_miss.2))) (visible_events id) = true)
    as Hall by (destruct Hid as [-> | ->]; vm_compute; reflexivity).
  rewrite forallb_forall in Hall. intros Ha%list_elem_of_In. by apply eqb_prop, Hall.
Qed.

(** What an event needs beside its codes. *)
Definition countable `{MmioHw} s ev : Prop :=
  pe_type ev = pf_pmu_type s ∧ pe_sampling ev = false ∧ pe_attach_task ev = false ∧ is_u32 (pe_cpu ev) ∧ pe_cpu ev = pf_cpu s.
(** Initialising an event, by its codes. *)
Lemma event_init_exact `{MmioHw} tries fuel ev s :
  countable s ev →
  let event := get_event (pe_config ev) in let portid := get_portid (pe_config ev) in
  let free := pf_fab_users s = 0 ∨ pf_fab_port_id s = portid in
  wp (fme_perf_event_init tries fuel ev)
    (λ ev' _, supported (pf_id s) (pe_config ev) = true ∧ ev' = set_pe_hw (get_evtype (pe_config ev)) (s32 event) portid ev)
    (λ e s', s' = s ∧
       if supported (pf_id s) (pe_config ev) then e = - EOPNOTSUPP ∧ get_evtype (pe_config ev) = FME_EVTYPE_FABRIC ∧ ¬ free
       else e = - EINVAL) s.
Proof.
  intros (Ht & Hsm & Hat & Hcpu & Hcpu') event portid free. unfold fme_perf_event_init. wsteps.
  rewrite Ht, Z.eqb_refl, Hsm, Hat. cbn [negb orb]. destruct (Z.ltb_spec (pe_cpu ev) 0) as [Hn|_]; [unfold is_u32 in *; lia|].
  rewrite u32_small, Hcpu', Z.eqb_refl by done. cbn [negb]. unfold supported. fold event portid.
  pose proof (get_evtype_range (pe_config ev)) as Hpos. set (ty := get_evtype (pe_config ev)) in *.
  destruct (Z.ltb_spec FME_EVTYPE_MAX ty) as [Hx|Hx]; unfold FME_EVTYPE_MAX, FME_EVTYPE_VTD_SIP in Hx.
  { wsteps. split; [done|]. destruct (Z.to_nat ty) as [|[|[|[|[|]]]]] eqn:Hn; [lia..|done]. }
  unfold get_event_ops. destruct (Z.ltb_spec FME_EVTYPE_MAX ty) as [Hy|_]; [unfold FME_EVTYPE_MAX, FME_EVTYPE_VTD_SIP in Hy; lia|].
  destruct (Z.to_nat ty) as [|[|[|[|[|]]]]] eqn:Hn; [| | | | |lia];
    cbn [fme_perf_event_ops_table lookup list_lookup access]; wsteps; cbn [eo_event_init];
    unfold basic_event_init, cache_event_init, vtd_event_init, vtd_sip_event_init; wsteps.
  1, 2, 4, 5: case_match; by wsteps.
  unfold fabric_event_init. wsteps. destruct (is_fabric_event_supported _ _ _); cbn [negb]; wsteps; [|done].
  destruct (Z.eqb_spec (pf_fab_users s) 0), (Z.eqb_spec (pf_fab_port_id s) portid); cbn [negb andb]; wsteps; try done.
  - apply pf_regs_spec, readq_spec. intros v d. wsteps. apply pf_regs_spec. unfold writeq. by wsteps.
  - split_and!; [done|done|unfold FME_EVTYPE_FABRIC; lia|]. unfold free. by intros [|].
Qed.

(** Every event that user space sees is accepted, but one: the last one of the VT-d
    SIP counter is above what the driver takes for its maximum.  (A fabric event may
    find the counter used in another mode.) *)
Lemma advertised_accepted `{MmioHw} tries fuel ev a s :
  pf_id s = FME_FEATURE_ID_GLOBAL_IPERF ∨ pf_id s = FME_FEATURE_ID_GLOBAL_DPERF →
  a ∈ visible_events (pf_id s) → pe_config ev = a.2 → countable s ev →
  pf_fab_users s = 0 ∨ pf_fab_port_id s = get_portid a.2 →
  wp (fme_perf_event_init tries fuel ev)
    (λ ev' _, a.2 ≠ fme_perf_event_vtd_sip_rcc_miss.2)
    (λ e _, e = - EINVAL ∧ a.2 = fme_perf_event_vtd_sip_rcc_miss.2) s.
Proof.
  intros Hid Ha Hc Hco Hfree. pose proof (visible_supported _ _ Hid Ha) as Hs.
  eapply wp_mono; [by apply event_init_exact|..]; cbv beta; rewrite Hc, Hs.
  - intros ev' _ [He _]. by apply negb_true_iff, Z.eqb_neq in He.
  - intros e _ [_ He]. destruct (Z.eqb_spec a.2 fme_perf_event_vtd_sip_rcc_miss.2); cbn [negb] in He; [done|].
    by destruct He as (_ & _ & []).
Qed.

(** ** A concrete device

    At 0x4000; the control register of the fabric counter keeps what is written, the
    counters go on by five at each read. *)
#[local] Instance counting : MmioHw := {
  hw := Z * Z;
  hw_read a h := let '(ctrl, k) := h in
    if a =? 0x4000 + FAB_CTRL then (ctrl, h)
    else if a =? 0x4000 + FAB_CNTR then (Z.lor (FIELD_PREP FAB_CNTR_EVNT (FIELD_GET FAB_CTRL_EVNT ctrl)) k, (ctrl, k + 5))
    else (k, (ctrl, k + 5));
  hw_write a v h := if a =? 0x4000 + FAB_CTRL then (v, h.2) else h;
}.
#[local] Instance counting_ctrl : FabCtrl 0x4000.
Proof.
  refine {| fab_ctrl := fst : hw → Z |}.
  - by intros [c k].
  - intros a [c k]. cbn [hw_read counting]. by repeat case_match.
  - intros a v [c k]. cbn [hw_write counting]. by case_match.
Defined.
Definition perf_dev : fme_perf_priv := Perf 0x4000 FME_FEATURE_ID_GLOBAL_IPERF 9 0 0 3 (Mm (0, 100) []).
Definition perf_run {A} (m : M fme_perf_priv A) s : fme_perf_priv := match m s with Done (_, s') => s' | _ => s end.
Lemma perf_run_val {A} (m : M fme_perf_priv A) s a : val_of (m s) = Some a → m s = Done (Val a, perf_run m s).
Proof. unfold perf_run. destruct (m s) as [[[]?]| |]; cbn; congruence. Qed.
Definition new_event config : perf_event := PEvent 9 false false 3 config 0 0 0 0 0.
Definition event_of (m : M fme_perf_priv perf_event) s : perf_event := match m s with Done (Val e, _) => e | _ => new_event 0 end.
Definition set_up : fme_perf_priv := perf_run fme_perf_setup_hardware perf_dev.
(** A read event of port 0, which takes the counter from the mode of all ports. *)
Definition port_event : perf_event := event_of (fme_perf_event_init 3 2 (new_event fme_perf_event_fab_port_pcie0_read.2)) set_up.
Definition in_use : fme_perf_priv := perf_run (fme_perf_event_init 3 2 (new_event fme_perf_event_fab_port_pcie0_read.2)) set_up.

Lemma fabric_mode_kept_witness :
  pf_fab_users (perf_run (fme_perf_event_update 3 2 port_event) in_use) = 1 ∧
  fab_mode (mm_hw (pf_mm (perf_run (fme_perf_event_update 3 2 port_event) in_use))).1 = 0.
Proof.
  destruct (fabric_mode_kept (base := 0x4000) 3 2 perf_dev set_up (perf_run (fme_perf_event_update 3 2 port_event) in_use)
    [event_of (fme_perf_event_update 3 2 port_event) in_use]) as [Hn Hm].
  - reflexivity.
  - reflexivity.
  - apply perf_run_val. vm_compute. reflexivity.
  - eapply rtc_l.
    + apply (Pf_init 3 2 (new_event fme_perf_event_fab_port_pcie0_read.2) port_event set_up in_use []); [reflexivity|].
      apply perf_run_val. vm_compute. reflexivity.
    + apply rtc_once. apply (Pf_update 3 2 0 port_event _ in_use _ [port_event]); [reflexivity|].
      apply perf_run_val. vm_compute. reflexivity.
  - split; [rewrite Hn; vm_compute; reflexivity|]. specialize (Hm (event_of (fme_perf_event_update 3 2 port_event) in_use)).
    cbn [fab_ctrl counting_ctrl] in Hm. rewrite Hm; [vm_compute; reflexivity|]. apply list_elem_of_In. vm_compute. by left.
Defined.

(** While it is alive, an event of all ports is refused. *)
Example other_mode_refused :
  err_of (fme_perf_event_init 3 2 (new_event fme_perf_event_fab_pcie0_read.2) in_use) = Some (- EOPNOTSUPP).
Proof. vm_compute. reflexivity. Qed.
(** The clock is at 110 when the event starts and at 125 when it is read third
    time it is read; the event has then counted 10 and 20, not 20. *)
Example reads_counted_twice :
  let ev := event_of (fme_perf_event_init 3 2 (new_event fme_perf_event_clock.2)) perf_dev in
  let e1 := event_of (fme_perf_event_start 3 2 ev) perf_dev in let s1 := perf_run (fme_perf_event_start 3 2 ev) perf_dev in
  let e2 := event_of (fme_perf_event_read 3 2 e1) s1 in let s2 := perf_run (fme_perf_event_read 3 2 e1) s1 in
  let e3 := event_of (fme_perf_event_read 3 2 e2) s2 in
  (pe_prev_count e1, pe_count e2, pe_count e3) = (100, 10, 30).
Proof. vm_compute. reflexivity. Qed.
(** When the counter does not show the event in time, 0 is taken for its value. *)
Example timeout_counts_backwards :
  let e := set_pe_prev 50 (set_pe_hw FME_EVTYPE_CACHE CACHE_EVNT_HOLD_REQ FME_PORTID_ROOT (new_event 0)) in
  pe_count (event_of (fme_perf_event_update 3 2 e) perf_dev) = 2 ^ 64 - 50.
Proof. vm_compute. reflexivity. Qed.
Example advertised_event_refused :
  fme_perf_event_vtd_sip_rcc_miss ∈ visible_events FME_FEATURE_ID_GLOBAL_IPERF ∧
  err_of (fme_perf_event_init 3 2 (new_event fme_perf_event_vtd_sip_rcc_miss.2) perf_dev) = Some (- EINVAL).
Proof. split; [apply list_elem_of_In; vm_compute; tauto|vm_compute; reflexivity]. Qed.
Example event_shown :
  fme_perf_event_show fme_perf_event_cache_read_miss.2 = lit "event=0x02,evtype=0x01,portid=0xff" ++ [newline] ∧
  fme_perf_event_show fme_perf_event_fab_port_upi_read.2 = lit "event=0x04,evtype=0x02,portid=?" ++ [newline].
Proof. vm_compute. by split. Qed.
