(* ===== verification/FmeErr.v ===== *)
(** * Global errors of the management engine (drivers/fpga/dfl-fme-error.c)

    The error registers of the FME: shown, cleared by writing back what was seen,
    injected, masked while the feature is away.  The state is the feature device
    with its registers, as for a port ([AfuPort]); each operation runs under the
    lock of the feature device in the code, or is one access. *)
From stdpp Require Import gmap strings.
From S2P Require Import Prelude DflRegs DflTypes DflPorts Mmio AfuPort.

(* drivers/fpga/dfl-fme-error.c:25-25 FME_ERROR_MASK *)
Definition FME_ERROR_MASK : Z := 0x8.
(* drivers/fpga/dfl-fme-error.c:26-26 FME_ERROR *)
Definition FME_ERROR : Z := 0x10.
(* drivers/fpga/dfl-fme-error.c:27-27 MBP_ERROR *)
Definition MBP_ERROR : field := BIT_ULL 6.
(* drivers/fpga/dfl-fme-error.c:28-28 PCIE0_ERROR_MASK *)
Definition PCIE0_ERROR_MASK : Z := 0x18.
(* drivers/fpga/dfl-fme-error.c:29-29 PCIE0_ERROR *)
Definition PCIE0_ERROR : Z := 0x20.
(* drivers/fpga/dfl-fme-error.c:30-30 PCIE1_ERROR_MASK *)
Definition PCIE1_ERROR_MASK : Z := 0x28.
(* drivers/fpga/dfl-fme-error.c:31-31 PCIE1_ERROR *)
Definition PCIE1_ERROR : Z := 0x30.
(* drivers/fpga/dfl-fme-error.c:32-32 FME_FIRST_ERROR *)
Definition FME_FIRST_ERROR : Z := 0x38.
(* drivers/fpga/dfl-fme-error.c:33-33 FME_NEXT_ERROR *)
Definition FME_NEXT_ERROR : Z := 0x40.
(* drivers/fpga/dfl-fme-error.c:34-34 RAS_NONFAT_ERROR_MASK *)
Definition RAS_NONFAT_ERROR_MASK : Z := 0x48.
(* drivers/fpga/dfl-fme-error.c:35-35 RAS_NONFAT_ERROR *)
Definition RAS_NONFAT_ERROR : Z := 0x50.
(* drivers/fpga/dfl-fme-error.c:36-36 RAS_CATFAT_ERROR_MASK *)
Definition RAS_CATFAT_ERROR_MASK : Z := 0x58.
(* drivers/fpga/dfl-fme-error.c:37-37 RAS_CATFAT_ERROR *)
Definition RAS_CATFAT_ERROR : Z := 0x60.
(* drivers/fpga/dfl-fme-error.c:38-38 RAS_ERROR_INJECT *)
Definition RAS_ERROR_INJECT : Z := 0x68.
(* drivers/fpga/dfl-fme-error.c:39-39 INJECT_ERROR_MASK *)
Definition INJECT_ERROR_MASK : field := GENMASK_ULL 2 0.
(* drivers/fpga/dfl-fme-error.c:41-41 ERROR_MASK *)
Definition FME_ERROR_ALL : field := GENMASK_ULL 63 0.

Section FmeErr.
Context `{MmioHw}.

(** What is shown is a number, printed by the library; what is stored was parsed by
    it, [None] is a text it refuses. *)
Definition show_global_err (reg : Z) : M prt Z :=
  base ← feature_base FME_FEATURE_ID_GLOBAL_ERR;
  on_regs (readq (base + reg)).
(** Masking all the errors of a register, and writing them back if they are the
    ones that user space has seen: [val]. *)
Definition clear_masked (base mask_reg err_reg val : Z) : M prt Z :=
  on_regs (writeq (mask (GENMASK_ULL 63 0)) (base + mask_reg)) ;;
  v ← on_regs (readq (base + err_reg));
  if val =? v then on_regs (writeq v (base + err_reg)) ;; mret 0 else mret (- EINVAL).

(* drivers/fpga/dfl-fme-error.c:43-57 pcie0_errors_show *)
Definition pcie0_errors_show : M prt Z := show_global_err PCIE0_ERROR.
(* drivers/fpga/dfl-fme-error.c:59-85 pcie0_errors_store *)
Definition pcie0_errors_store (val : option Z) : M prt unit :=
  match val with
  | None => throw (- EINVAL)
  | Some val =>
      base ← feature_base FME_FEATURE_ID_GLOBAL_ERR;
      ret ← clear_masked base PCIE0_ERROR_MASK PCIE0_ERROR val;
      on_regs (writeq 0 (base + PCIE0_ERROR_MASK)) ;;
      rc ret
  end.
(* drivers/fpga/dfl-fme-error.c:88-102 pcie1_errors_show *)
Definition pcie1_errors_show : M prt Z := show_global_err PCIE1_ERROR.
(* drivers/fpga/dfl-fme-error.c:104-130 pcie1_errors_store *)
Definition pcie1_errors_store (val : option Z) : M prt unit :=
  match val with
  | None => throw (- EINVAL)
  | Some val =>
      base ← feature_base FME_FEATURE_ID_GLOBAL_ERR;
      ret ← clear_masked base PCIE1_ERROR_MASK PCIE1_ERROR val;
      on_regs (writeq 0 (base + PCIE1_ERROR_MASK)) ;;
      rc ret
  end.
(* drivers/fpga/dfl-fme-error.c:133-142 nonfatal_errors_show *)
Definition nonfatal_errors_show : M prt Z := show_global_err RAS_NONFAT_ERROR.
(* drivers/fpga/dfl-fme-error.c:145-154 catfatal_errors_show *)
Definition catfatal_errors_show : M prt Z := show_global_err RAS_CATFAT_ERROR.
(* drivers/fpga/dfl-fme-error.c:157-171 inject_errors_show *)
Definition inject_errors_show : M prt Z :=
  v ← show_global_err RAS_ERROR_INJECT;
  mret (FIELD_GET INJECT_ERROR_MASK v).
(** [inject_error] is a [u8]; the mask that refuses a value is 64 bits wide. *)
(* drivers/fpga/dfl-fme-error.c:173-198 inject_errors_store *)
Definition inject_errors_store (inject_error : option Z) : M prt unit :=
  match inject_error with
  | None => throw (- EINVAL)
  | Some inject_error =>
      if negb (Z.land inject_error (Z.lxor (Z.ones 64) (mask INJECT_ERROR_MASK)) =? 0) then throw (- EINVAL) else
      base ← feature_base FME_FEATURE_ID_GLOBAL_ERR;
      v ← on_regs (readq (base + RAS_ERROR_INJECT));
      let v := clear_field INJECT_ERROR_MASK v in
      let v := Z.lor v (FIELD_PREP INJECT_ERROR_MASK inject_error) in
      on_regs (writeq v (base + RAS_ERROR_INJECT))
  end.
(* drivers/fpga/dfl-fme-error.c:201-215 fme_errors_show *)
Definition fme_errors_show : M prt Z := show_global_err FME_ERROR.
(** The revision is read after the errors, just before the mask is written. *)
(* drivers/fpga/dfl-fme-error.c:217-245 fme_errors_store *)
Definition fme_errors_store (val : option Z) : M prt unit :=
  match val with
  | None => throw (- EINVAL)
  | Some val =>
      base ← feature_base FME_FEATURE_ID_GLOBAL_ERR;
      ret ← clear_masked base FME_ERROR_MASK FME_ERROR val;
      rev ← dfl_feature_revision base;
      on_regs (writeq (if negb (rev =? 0) then 0 else mask MBP_ERROR) (base + FME_ERROR_MASK)) ;;
      rc ret
  end.
(* drivers/fpga/dfl-fme-error.c:248-262 first_error_show *)
Definition fme_first_error_show : M prt Z := show_global_err FME_FIRST_ERROR.
(* drivers/fpga/dfl-fme-error.c:265-279 next_error_show *)
Definition next_error_show : M prt Z := show_global_err FME_NEXT_ERROR.
(* drivers/fpga/dfl-fme-error.c:282-293 revision_show *)
Definition fme_err_revision_show : M prt Z :=
  base ← feature_base FME_FEATURE_ID_GLOBAL_ERR;
  dfh ← on_regs (readq base);
  mret (FIELD_GET DFH_REVISION dfh).
(* drivers/fpga/dfl-fme-error.c:309-324 fme_global_err_attrs_visible *)
Definition fme_global_err_attrs_visible (mode : Z) : M prt Z :=
  s ← get;
  mret (if dfl_get_feature_by_id (pt_fd s) FME_FEATURE_ID_GLOBAL_ERR is Some _ then mode else 0).

(* drivers/fpga/dfl-fme-error.c:336-357 fme_err_mask *)
Definition fme_err_mask (masked : bool) : M prt unit :=
  base ← feature_base FME_FEATURE_ID_GLOBAL_ERR;
  rev ← dfl_feature_revision base;
  (if negb (rev =? 0)
   then on_regs (writeq (if masked then mask FME_ERROR_ALL else 0) (base + FME_ERROR_MASK))
   else on_regs (writeq (if masked then mask FME_ERROR_ALL else mask MBP_ERROR) (base + FME_ERROR_MASK))) ;;
  on_regs (writeq (if masked then mask FME_ERROR_ALL else 0) (base + PCIE0_ERROR_MASK)) ;;
  on_regs (writeq (if masked then mask FME_ERROR_ALL else 0) (base + PCIE1_ERROR_MASK)) ;;
  on_regs (writeq (if masked then mask FME_ERROR_ALL else 0) (base + RAS_NONFAT_ERROR_MASK)) ;;
  on_regs (writeq (if masked then mask FME_ERROR_ALL else 0) (base + RAS_CATFAT_ERROR_MASK)).
(** On a kernel from 5.4 on, the driver core creates the attributes. *)
(* drivers/fpga/dfl-fme-error.c:359-369 fme_global_err_init *)
Definition fme_global_err_init : M prt unit := fme_err_mask false.
(* drivers/fpga/dfl-fme-error.c:371-379 fme_global_err_uinit *)
Definition fme_global_err_uinit : M prt unit := fme_err_mask true.
End FmeErr.
