(* ===== verification/FmeMain.v ===== *)
(** * The features of the management engine (drivers/fpga/dfl-fme-main.c)

    The header of the FME, and the thermal and power features, whose registers the
    hwmon subsystem shows and sets.  The hwmon callbacks work on the address of
    their own feature; which attribute is asked for is data of the hwmon core, here
    a constructor each, with one for all the others. *)
From stdpp Require Import gmap strings.
From S2P Require Import Prelude DflRegs DflTypes DflPorts Mmio AfuPort FmeErr.

(* drivers/fpga/dfl-fme-main.c:209-209 FME_THERM_THRESHOLD *)
Definition FME_THERM_THRESHOLD : Z := 0x8.
(* drivers/fpga/dfl-fme-main.c:210-210 TEMP_THRESHOLD1 *)
Definition TEMP_THRESHOLD1 : field := GENMASK_ULL 6 0.
(* drivers/fpga/dfl-fme-main.c:212-212 TEMP_THRESHOLD2 *)
Definition TEMP_THRESHOLD2 : field := GENMASK_ULL 14 8.
(* drivers/fpga/dfl-fme-main.c:214-214 TRIP_THRESHOLD *)
Definition TRIP_THRESHOLD : field := GENMASK_ULL 30 24.
(* drivers/fpga/dfl-fme-main.c:215-215 TEMP_THRESHOLD1_STATUS *)
Definition TEMP_THRESHOLD1_STATUS : field := BIT_ULL 32.
(* drivers/fpga/dfl-fme-main.c:216-216 TEMP_THRESHOLD2_STATUS *)
Definition TEMP_THRESHOLD2_STATUS : field := BIT_ULL 33.
(* drivers/fpga/dfl-fme-main.c:218-218 TEMP_THRESHOLD1_POLICY *)
Definition TEMP_THRESHOLD1_POLICY : field := BIT_ULL 44.
(* drivers/fpga/dfl-fme-main.c:220-220 FME_THERM_RDSENSOR_FMT1 *)
Definition FME_THERM_RDSENSOR_FMT1 : Z := 0x10.
(* drivers/fpga/dfl-fme-main.c:221-221 FPGA_TEMPERATURE *)
Definition FPGA_TEMPERATURE : field := GENMASK_ULL 6 0.
(* drivers/fpga/dfl-fme-main.c:223-223 FME_THERM_CAP *)
Definition FME_THERM_CAP : Z := 0x20.
(* drivers/fpga/dfl-fme-main.c:224-224 THERM_NO_THROTTLE *)
Definition THERM_NO_THROTTLE : field := BIT_ULL 0.
(* drivers/fpga/dfl-fme-main.c:380-380 FME_PWR_STATUS *)
Definition FME_PWR_STATUS : Z := 0x8.
(* drivers/fpga/dfl-fme-main.c:381-381 FME_LATENCY_TOLERANCE *)
Definition FME_LATENCY_TOLERANCE : field := BIT_ULL 18.
(* drivers/fpga/dfl-fme-main.c:382-382 PWR_CONSUMED *)
Definition PWR_CONSUMED : field := GENMASK_ULL 17 0.
(* drivers/fpga/dfl-fme-main.c:384-384 FME_PWR_THRESHOLD *)
Definition FME_PWR_THRESHOLD : Z := 0x10.
(* drivers/fpga/dfl-fme-main.c:385-385 PWR_THRESHOLD1 *)
Definition PWR_THRESHOLD1 : field := GENMASK_ULL 6 0.
(* drivers/fpga/dfl-fme-main.c:386-386 PWR_THRESHOLD2 *)
Definition PWR_THRESHOLD2 : field := GENMASK_ULL 14 8.
(* drivers/fpga/dfl-fme-main.c:387-387 PWR_THRESHOLD_MAX *)
Definition PWR_THRESHOLD_MAX : Z := 0x7f.
(* drivers/fpga/dfl-fme-main.c:388-388 PWR_THRESHOLD1_STATUS *)
Definition PWR_THRESHOLD1_STATUS : field := BIT_ULL 16.
(* drivers/fpga/dfl-fme-main.c:389-389 PWR_THRESHOLD2_STATUS *)
Definition PWR_THRESHOLD2_STATUS : field := BIT_ULL 17.
(* drivers/fpga/dfl-fme-main.c:391-391 FME_PWR_XEON_LIMIT *)
Definition FME_PWR_XEON_LIMIT : Z := 0x18.
(* drivers/fpga/dfl-fme-main.c:392-392 XEON_PWR_LIMIT *)
Definition XEON_PWR_LIMIT : field := GENMASK_ULL 14 0.
(* drivers/fpga/dfl-fme-main.c:393-393 XEON_PWR_EN *)
Definition XEON_PWR_EN : field := BIT_ULL 15.
(* drivers/fpga/dfl-fme-main.c:394-394 FME_PWR_FPGA_LIMIT *)
Definition FME_PWR_FPGA_LIMIT : Z := 0x20.
(* drivers/fpga/dfl-fme-main.c:395-395 FPGA_PWR_LIMIT *)
Definition FPGA_PWR_LIMIT : field := GENMASK_ULL 14 0.
(* drivers/fpga/dfl-fme-main.c:396-396 FPGA_PWR_EN *)
Definition FPGA_PWR_EN : field := BIT_ULL 15.
(* include/linux/units.h:10-10 MICRO *)
Definition MICRO : Z := 1000000.
(* include/linux/units.h:11-11 MILLI *)
Definition MILLI : Z := 1000.
Definition S_IRUGO : Z := 0x124.
Definition S_IRUGO_IWUSR : Z := 0x1a4.

(** The attributes of the kernel's hwmon core. *)
Inductive temp_attr :=
| hwmon_temp_input | hwmon_temp_max | hwmon_temp_crit | hwmon_temp_emergency
| hwmon_temp_max_alarm | hwmon_temp_crit_alarm | hwmon_temp_other.
Inductive power_attr :=
| hwmon_power_input | hwmon_power_max | hwmon_power_crit | hwmon_power_max_alarm | hwmon_power_crit_alarm
| hwmon_power_other.
#[export] Instance temp_attr_eq : EqDecision temp_attr.
Proof. solve_decision. Defined.
#[export] Instance power_attr_eq : EqDecision power_attr.
Proof. solve_decision. Defined.

Section FmeMain.
Context `{MmioHw}.

(** ** The header *)

Definition show_fme_hdr (reg : Z) : M prt Z :=
  base ← feature_base FME_FEATURE_ID_HEADER;
  on_regs (readq (base + reg)).
(* drivers/fpga/dfl-fme-main.c:29-41 ports_num_show *)
Definition ports_num_show : M prt Z := v ← show_fme_hdr FME_HDR_CAP; mret (FIELD_GET FME_CAP_NUM_PORTS v).
(* drivers/fpga/dfl-fme-main.c:48-60 bitstream_id_show *)
Definition bitstream_id_show : M prt Z := show_fme_hdr FME_HDR_BITSTREAM_ID.
(* drivers/fpga/dfl-fme-main.c:67-79 bitstream_metadata_show *)
Definition bitstream_metadata_show : M prt Z := show_fme_hdr FME_HDR_BITSTREAM_MD.
(* drivers/fpga/dfl-fme-main.c:82-94 cache_size_show *)
Definition cache_size_show : M prt Z := v ← show_fme_hdr FME_HDR_CAP; mret (FIELD_GET FME_CAP_CACHE_SIZE v).
(* drivers/fpga/dfl-fme-main.c:97-109 fabric_version_show *)
Definition fabric_version_show : M prt Z := v ← show_fme_hdr FME_HDR_CAP; mret (FIELD_GET FME_CAP_FABRIC_VERID v).
(* drivers/fpga/dfl-fme-main.c:112-124 socket_id_show *)
Definition socket_id_show : M prt Z := v ← show_fme_hdr FME_HDR_CAP; mret (FIELD_GET FME_CAP_SOCKET_ID v).

(** ** A feature's own registers *)

Definition read_feature (feature : dfl_feature) (reg : Z) : M mmst Z :=
  base ← access (f_ioaddr feature); readq (base + reg).
Definition write_feature (feature : dfl_feature) (v reg : Z) : M mmst unit :=
  base ← access (f_ioaddr feature); writeq v (base + reg).

(** ** Thermal management *)

(* drivers/fpga/dfl-fme-main.c:228-233 fme_thermal_throttle_support *)
Definition fme_thermal_throttle_support (feature : dfl_feature) : M mmst bool :=
  v ← read_feature feature FME_THERM_CAP;
  mret (if negb (FIELD_GET THERM_NO_THROTTLE v =? 0) then false else true).
(* drivers/fpga/dfl-fme-main.c:235-246 thermal_hwmon_attrs_visible *)
Definition thermal_hwmon_attrs_visible (feature : dfl_feature) (attr : temp_attr) : M mmst Z :=
  if decide (attr = hwmon_temp_input) then mret S_IRUGO
  else ok ← fme_thermal_throttle_support feature; mret (if (ok : bool) then S_IRUGO else 0).
(** The value is a [long], computed as an unsigned one. *)
(* drivers/fpga/dfl-fme-main.c:248-284 thermal_hwmon_read *)
Definition thermal_hwmon_read (feature : dfl_feature) (attr : temp_attr) : M mmst Z :=
  match attr with
  | hwmon_temp_input =>
      v ← read_feature feature FME_THERM_RDSENSOR_FMT1; mret (s64 (u64 (FIELD_GET FPGA_TEMPERATURE v * MILLI)))
  | hwmon_temp_max =>
      v ← read_feature feature FME_THERM_THRESHOLD; mret (s64 (u64 (FIELD_GET TEMP_THRESHOLD1 v * MILLI)))
  | hwmon_temp_crit =>
      v ← read_feature feature FME_THERM_THRESHOLD; mret (s64 (u64 (FIELD_GET TEMP_THRESHOLD2 v * MILLI)))
  | hwmon_temp_emergency =>
      v ← read_feature feature FME_THERM_THRESHOLD; mret (s64 (u64 (FIELD_GET TRIP_THRESHOLD v * MILLI)))
  | hwmon_temp_max_alarm =>
      v ← read_feature feature FME_THERM_THRESHOLD; mret (s64 (FIELD_GET TEMP_THRESHOLD1_STATUS v))
  | hwmon_temp_crit_alarm =>
      v ← read_feature feature FME_THERM_THRESHOLD; mret (s64 (FIELD_GET TEMP_THRESHOLD2_STATUS v))
  | hwmon_temp_other => throw (- EOPNOTSUPP)
  end.
(* drivers/fpga/dfl-fme-main.c:303-312 temp1_max_policy_show *)
Definition temp1_max_policy_show (feature : dfl_feature) : M mmst Z :=
  v ← read_feature feature FME_THERM_THRESHOLD; mret (FIELD_GET TEMP_THRESHOLD1_POLICY v).
(* drivers/fpga/dfl-fme-main.c:321-328 thermal_extra_attrs_visible *)
Definition thermal_extra_attrs_visible (feature : dfl_feature) (mode : Z) : M mmst Z :=
  ok ← fme_thermal_throttle_support feature; mret (if (ok : bool) then mode else 0).

(** ** Power management *)

(* drivers/fpga/dfl-fme-main.c:398-430 power_hwmon_read *)
Definition power_hwmon_read (feature : dfl_feature) (attr : power_attr) : M mmst Z :=
  match attr with
  | hwmon_power_input =>
      v ← read_feature feature FME_PWR_STATUS; mret (s64 (u64 (FIELD_GET PWR_CONSUMED v * MICRO)))
  | hwmon_power_max =>
      v ← read_feature feature FME_PWR_THRESHOLD; mret (s64 (u64 (FIELD_GET PWR_THRESHOLD1 v * MICRO)))
  | hwmon_power_crit =>
      v ← read_feature feature FME_PWR_THRESHOLD; mret (s64 (u64 (FIELD_GET PWR_THRESHOLD2 v * MICRO)))
  | hwmon_power_max_alarm =>
      v ← read_feature feature FME_PWR_THRESHOLD; mret (s64 (FIELD_GET PWR_THRESHOLD1_STATUS v))
  | hwmon_power_crit_alarm =>
      v ← read_feature feature FME_PWR_THRESHOLD; mret (s64 (FIELD_GET PWR_THRESHOLD2_STATUS v))
  | hwmon_power_other => throw (- EOPNOTSUPP)
  end.
(** [MICRO] is an [unsigned long], so [val / MICRO] converts [val] to one first,
    and [clamp_val] compares in its type. *)
Definition watts (val : Z) : Z := Z.min (Z.max (u64 val / MICRO) 0) PWR_THRESHOLD_MAX.
(* drivers/fpga/dfl-fme-main.c:432-465 power_hwmon_write *)
Definition power_hwmon_write (feature : dfl_feature) (attr : power_attr) (val : Z) : M mmst unit :=
  let val := watts val in
  match attr with
  | hwmon_power_max =>
      v ← read_feature feature FME_PWR_THRESHOLD;
      let v := clear_field PWR_THRESHOLD1 v in
      let v := Z.lor v (FIELD_PREP PWR_THRESHOLD1 val) in
      write_feature feature v FME_PWR_THRESHOLD
  | hwmon_power_crit =>
      v ← read_feature feature FME_PWR_THRESHOLD;
      let v := clear_field PWR_THRESHOLD2 v in
      let v := Z.lor v (FIELD_PREP PWR_THRESHOLD2 val) in
      write_feature feature v FME_PWR_THRESHOLD
  | _ => throw (- EOPNOTSUPP)
  end.
(* drivers/fpga/dfl-fme-main.c:467-482 power_hwmon_attrs_visible *)
Definition power_hwmon_attrs_visible (attr : power_attr) : Z :=
  match attr with
  | hwmon_power_input | hwmon_power_max_alarm | hwmon_power_crit_alarm => S_IRUGO
  | hwmon_power_max | hwmon_power_crit => S_IRUGO_IWUSR
  | hwmon_power_other => 0
  end.
(** A [u16] promoted to [int]: the product of a limit above 21474 does not fit; it
    wraps, as the kernel is compiled, and is printed as unsigned. *)
(* drivers/fpga/dfl-fme-main.c:502-515 power1_xeon_limit_show *)
Definition power1_xeon_limit_show (feature : dfl_feature) : M mmst Z :=
  v ← read_feature feature FME_PWR_XEON_LIMIT;
  let xeon_limit := if negb (FIELD_GET XEON_PWR_EN v =? 0) then u16 (FIELD_GET XEON_PWR_LIMIT v) else 0 in
  mret (u32 (s32 (xeon_limit * 100000))).
(* drivers/fpga/dfl-fme-main.c:517-530 power1_fpga_limit_show *)
Definition power1_fpga_limit_show (feature : dfl_feature) : M mmst Z :=
  v ← read_feature feature FME_PWR_FPGA_LIMIT;
  let fpga_limit := if negb (FIELD_GET FPGA_PWR_EN v =? 0) then u16 (FIELD_GET FPGA_PWR_LIMIT v) else 0 in
  mret (u32 (s32 (fpga_limit * 100000))).
(* drivers/fpga/dfl-fme-main.c:532-541 power1_ltr_show *)
Definition power1_ltr_show (feature : dfl_feature) : M mmst Z :=
  v ← read_feature feature FME_PWR_STATUS; mret (FIELD_GET FME_LATENCY_TOLERANCE v).
End FmeMain.

(** ** Properties of the features of the management engine

    Clearing errors touches only the register in question, with its errors masked
    meanwhile; a power limit that is set is shown again. *)

Section Facts.
Context `{MmioHw}.

(** ** Errors *)
Implicit Types s : prt.

Inductive err_source := ErrPcie0 | ErrPcie1 | ErrFme.
Definition err_store (e : err_source) : option Z → M prt unit :=
  match e with ErrPcie0 => pcie0_errors_store | ErrPcie1 => pcie1_errors_store | ErrFme => fme_errors_store end.
Definition err_reg (e : err_source) : Z :=
  match e with ErrPcie0 => PCIE0_ERROR | ErrPcie1 => PCIE1_ERROR | ErrFme => FME_ERROR end.
Definition mask_reg (e : err_source) : Z :=
  match e with ErrPcie0 => PCIE0_ERROR_MASK | ErrPcie1 => PCIE1_ERROR_MASK | ErrFme => FME_ERROR_MASK end.
(** The accesses that end the session: nothing is masked afterwards, but the MBP
    error of a feature of revision 0. *)
Definition unmasked (base : Z) (e : err_source) (l : list mmio_io) : Prop :=
  match e with
  | ErrFme => ∃ h, l = [MmioRead (base + DFH) h;
      MmioWrite (base + FME_ERROR_MASK) (if FIELD_GET DFH_REVISION h =? 0 then mask MBP_ERROR else 0)]
  | _ => l = [MmioWrite (base + mask_reg e) 0]
  end.
(** [s'] is [s] after the accesses [l]. *)
Definition accessed (l : list mmio_io) s s' : Prop :=
  pt_fd s' = pt_fd s ∧ mm_log (pt_mm s') = mm_log (pt_mm s) ++ l.

Lemma on_writeq_spec a v s (Q : unit → prt → Prop) E :
  (∀ d, Q tt (Prt (pt_fd s) (Mm d (mm_log (pt_mm s) ++ [MmioWrite a v])))) → wp (on_regs (writeq v a)) Q E s.
Proof. intros HQ. apply on_regs_spec. unfold writeq. wsteps. apply HQ. Qed.
Lemma revision_spec base s (Q : Z → prt → Prop) E :
  (∀ h d, Q (FIELD_GET DFH_REVISION h) (Prt (pt_fd s) (Mm d (mm_log (pt_mm s) ++ [MmioRead (base + DFH) h])))) →
  wp (dfl_feature_revision base) Q E s.
Proof.
  intros HQ. unfold dfl_feature_revision. wsteps. apply on_readq_spec. intros h d. wsteps.
  assert (0 ≤ FIELD_GET DFH_REVISION h < 2 ^ 4) by (apply (FIELD_GET_range DFH_REVISION); unfold field_ok; cbn; lia).
  rewrite u8_small by (unfold is_u8; lia). apply HQ.
Qed.
Lemma clear_masked_spec base mr er val s (Q : Z → prt → Prop) E :
  (∀ d, Q 0 (Prt (pt_fd s) (Mm d (mm_log (pt_mm s) ++
     [MmioWrite (base + mr) (Z.ones 64); MmioRead (base + er) val; MmioWrite (base + er) val])))) →
  (∀ v d, v ≠ val → Q (- EINVAL) (Prt (pt_fd s) (Mm d (mm_log (pt_mm s) ++
     [MmioWrite (base + mr) (Z.ones 64); MmioRead (base + er) v])))) →
  wp (clear_masked base mr er val) Q E s.
Proof.
  intros Hsame Hother. unfold clear_masked. wsteps. apply on_writeq_spec. intros d. wsteps.
  apply on_readq_spec. intros v d'. destruct (Z.eqb_spec val v) as [<-|Hne]; wsteps.
  - apply on_writeq_spec. intros d''. wsteps. cbn [pt_fd pt_mm mm_log]. rewrite <- !app_assoc. apply Hsame.
  - cbn [pt_fd pt_mm mm_log]. rewrite <- !app_assoc. by apply Hother.
Qed.

(** Clearing errors of the management engine or of a PCIe link.  A text that is
    not a number is refused without an access.  Otherwise all errors of the register
    are masked, it is read, and it is written back exactly when it shows the errors
    that user space asked to clear; if it shows others, the request fails with
    [-EINVAL] and they stay.  In both cases the errors are unmasked at the end, but
    the MBP error of a feature of revision 0; no other register is written. *)
Lemma err_store_exact e val base s :
  dfl_get_feature_ioaddr_by_id (pt_fd s) FME_FEATURE_ID_GLOBAL_ERR = Some base →
  let session v := [MmioWrite (base + mask_reg e) (Z.ones 64); MmioRead (base + err_reg e) v] in
  wp (err_store e val)
    (λ _ s', ∃ v l, val = Some v ∧ unmasked base e l ∧
       accessed (session v ++ MmioWrite (base + err_reg e) v :: l) s s')
    (λ ret s', ret = - EINVAL ∧
       (val = None ∧ s' = s ∨ ∃ v w l, val = Some w ∧ v ≠ w ∧ unmasked base e l ∧ accessed (session v ++ l) s s')) s.
Proof.
  intros Hb session. destruct val as [val|]; [|destruct e; cbn; wsteps; auto].
  destruct e; cbn [err_store pcie0_errors_store pcie1_errors_store fme_errors_store]; wsteps;
    (eapply feature_base_spec; [exact Hb|]); wsteps; (apply clear_masked_spec; [intros d|intros v d Hne]); wsteps;
    try (apply revision_spec; intros h d'; wsteps); apply on_writeq_spec; intros d''; wsteps; intros Hrc; try done.
  all: first [exists val; eexists; split; [done|]
             |split; [done|]; right; exists v, val; eexists; split; [done|]; split; [done|]].
  all: split; [by cbn; eauto|split; [done|]]; cbn [pt_fd pt_mm mm_log]; rewrite <- !app_assoc; try done.
  all: by rewrite if_negb.
Qed.

(** ** Power limits *)
Implicit Types r : mmst.

Definition limit_field (attr : power_attr) : option field :=
  match attr with hwmon_power_max => Some PWR_THRESHOLD1 | hwmon_power_crit => Some PWR_THRESHOLD2 | _ => None end.
Lemma watts_alt val :
  - 2 ^ 63 ≤ val < 2 ^ 63 → watts val = if val <? 0 then 127 else Z.min (val / 1000000) 127.
Proof.
  intros Hv. unfold watts, MICRO, PWR_THRESHOLD_MAX. destruct (Z.ltb_spec val 0).
  - assert (u64 val = val + 2 ^ 64) as ->. { unfold u64. symmetry. apply (Z.mod_unique_pos _ _ (-1)); lia. }
    assert (127 ≤ (val + 2 ^ 64) / 1000000) by (apply Z.div_le_lower_bound; lia). lia.
  - rewrite u64_small by (unfold is_u64; lia). pose proof (Z.div_pos val 1000000). lia.
Qed.
Lemma shown_limit f v w :
  field_ok f → f_hi f < 64 → f_width f = 7 → 0 ≤ w ≤ 127 →
  s64 (u64 (FIELD_GET f (set_field f v w) * MICRO)) = 1000000 * w.
Proof.
  intros Hf Hh Hw Hr. rewrite FIELD_GET_set_field, Hw by done. change (2 ^ 7) with 128. rewrite Z.mod_small by lia.
  unfold MICRO. rewrite u64_small by (unfold is_u64; lia). unfold s64. rewrite Z.mod_small; lia.
Qed.

Lemma readq_val a v r (Q : Z → mmst → Prop) E :
  (hw_read a (mm_hw r)).1 = v → (∀ d, Q v (Mm d (mm_log r ++ [MmioRead a v]))) → wp (readq a) Q E r.
Proof. intros <- HQ. unfold wpg, readq. by destruct (hw_read a (mm_hw r)). Qed.

(** A power limit that is set is the one that is shown, if the register keeps
    what is written to it: in whole watts, rounded down, and at most 127 W; the
    other limit and the alarms keep their bits.  A negative limit becomes 127 W. *)
Lemma power_limit_shown base feature attr f val r :
  f_ioaddr feature = Some base → limit_field attr = Some f → - 2 ^ 63 ≤ val < 2 ^ 63 →
  let a := base + FME_PWR_THRESHOLD in
  (∀ v d, (hw_read a (hw_write a v d)).1 = v) →
  wp (power_hwmon_write feature attr val ;; power_hwmon_read feature attr)
    (λ shown r', shown = 1000000 * (if val <? 0 then 127 else Z.min (val / 1000000) 127) ∧
       ∃ v v', mm_log r' = mm_log r ++ [MmioRead a v; MmioWrite a v'; MmioRead a v'] ∧
         ∀ i, 0 ≤ i < 64 → i < f_lo f ∨ f_hi f < i → Z.testbit v' i = Z.testbit v i) (λ _ _, False) r.
Proof.
  intros Hb Hf Hval a Hkeep. rewrite <- watts_alt by done.
  assert (0 ≤ watts val ≤ 127) as Hw by (unfold watts, PWR_THRESHOLD_MAX; lia).
  destruct attr; cbn in Hf; try done; injection Hf as <-;
    unfold power_hwmon_write, power_hwmon_read, read_feature, write_feature; wsteps; rewrite !Hb; cbn [access]; wsteps; fold a;
    apply readq_spec; intros v d; wsteps; unfold writeq; wsteps; fold a;
    (eapply readq_val; [apply Hkeep|]); intros d'; wsteps; (split; [by apply shown_limit|]);
    exists v; eexists; (split; [cbn [mm_log]; by rewrite <- !app_assoc|]); intros i Hi Ho; by apply testbit_set_field_out.
Qed.
End Facts.
