(* ===== verification/FmeDev.v ===== *)
(** * The device file of the management engine (drivers/fpga/dfl-fme-main.c, dfl-fme-error.c)

    Opening, closing and the ioctls of the FME, which its features answer: releasing
    and assigning ports, partial reconfiguration, interrupts of errors.  The state
    puts together the feature device with its registers, the container of the ports,
    the partial reconfiguration and the interrupts. *)
From stdpp Require Import gmap gmultiset strings.
From S2P Require Import Prelude DflRegs DflTypes DflPorts DflIrq FpgaMgr FmeMgr FpgaRegion FmePr DflBus AreaTree DmaPages AfuDma Mmio FeatureIrqs AfuPort AfuRegion AfuMain FmeErr.

(* include/uapi/linux/fpga-dfl.h:255-255 DFL_FPGA_FME_PORT_RELEASE *)
Definition DFL_FPGA_FME_PORT_RELEASE : Z := 0x4004B681.
(* include/uapi/linux/fpga-dfl.h:264-264 DFL_FPGA_FME_PORT_ASSIGN *)
Definition DFL_FPGA_FME_PORT_ASSIGN : Z := 0x4004B682.
(* include/uapi/linux/fpga-dfl.h:274-275 DFL_FPGA_FME_ERR_GET_IRQ_NUM *)
Definition DFL_FPGA_FME_ERR_GET_IRQ_NUM : Z := 0x8004B683.
(* include/uapi/linux/fpga-dfl.h:285-287 DFL_FPGA_FME_ERR_SET_IRQ *)
Definition DFL_FPGA_FME_ERR_SET_IRQ : Z := 0x4008B684.

(** ** Feature drivers *)

(** The operations of the feature drivers, and the handles [dfl_feature] has for
    them. *)
Inductive fme_feature_ops :=
| fme_hdr_ops | fme_pr_mgmt_ops | fme_global_err_ops | fme_thermal_mgmt_ops | fme_power_mgmt_ops | fme_perf_ops.
Definition fme_ops_handle (o : fme_feature_ops) : Z :=
  match o with
  | fme_hdr_ops => 1 | fme_pr_mgmt_ops => 2 | fme_global_err_ops => 3
  | fme_thermal_mgmt_ops => 4 | fme_power_mgmt_ops => 5 | fme_perf_ops => 6
  end.
Definition fme_ops_of (h : Z) : option fme_feature_ops :=
  match h with
  | 1 => Some fme_hdr_ops | 2 => Some fme_pr_mgmt_ops | 3 => Some fme_global_err_ops
  | 4 => Some fme_thermal_mgmt_ops | 5 => Some fme_power_mgmt_ops | 6 => Some fme_perf_ops
  | _ => None
  end.
(* drivers/fpga/dfl-fme-perf.c:1011-1015 fme_perf_id_table *)
Definition fme_perf_id_table : list dfl_feature_id :=
  [FeatureId FME_FEATURE_ID_GLOBAL_IPERF guid_null; FeatureId FME_FEATURE_ID_GLOBAL_DPERF guid_null;
   FeatureId 0 guid_null].
(* drivers/fpga/dfl-fme-main.c:582-610 fme_feature_drvs *)
Definition fme_feature_drvs : list dfl_feature_driver :=
  [FeatureDriver (Some (one_id FME_FEATURE_ID_HEADER)) (Some (fme_ops_handle fme_hdr_ops));
   FeatureDriver (Some (one_id FME_FEATURE_ID_PR_MGMT)) (Some (fme_ops_handle fme_pr_mgmt_ops));
   FeatureDriver (Some (one_id FME_FEATURE_ID_GLOBAL_ERR)) (Some (fme_ops_handle fme_global_err_ops));
   FeatureDriver (Some (one_id FME_FEATURE_ID_THERMAL_MGMT)) (Some (fme_ops_handle fme_thermal_mgmt_ops));
   FeatureDriver (Some (one_id FME_FEATURE_ID_POWER_MGMT)) (Some (fme_ops_handle fme_power_mgmt_ops));
   FeatureDriver (Some fme_perf_id_table) (Some (fme_ops_handle fme_perf_ops));
   FeatureDriver None None].

(** The memory of the process: the port number at an address, interrupt descriptors
    as in [DflIrq], and whether an address can be written. *)
Class FmeUser := {
  fu_port_id : Z → option Z;
  fu_irq_set : Z → option (Z * Z);
  fu_evtfds : Z → Z → list Z + Z;
  fu_writable : Z → bool;
}.

Section Fme.
Context `{MmioHw} `{Kernel} `{MgrKernel} `{BridgeHw} `{PrEngine} `{PrUser} `{IrqKernel} `{FmeUser}.
(** The parameters of [DflPorts] and of [FmePr]. *)
Context (module_live : Z → bool) (chrdev_major : Z → Z).
Context (polls fuel fl : nat) (pdata_br : nat → Z) (fme_hdr : option Z) (reg : Z → Z).

(** [fm_ports] has the container, where this code reaches the ports only; [fm_out]
    are the numbers written to user space, with their addresses. *)
Record fmst := FmeSt {
  fm_dev : prt;
  fm_ports : pst;
  fm_pr : fst_;
  fm_ik : ik;
  fm_irqs : list irq_account;
  fm_out : list (Z * Z);
}.
Implicit Types s : fmst.
Definition fm_fd s : dfl_feature_dev_data := pt_fd (fm_dev s).
Definition set_fm_fd x s := FmeSt (Prt x (pt_mm (fm_dev s))) (fm_ports s) (fm_pr s) (fm_ik s) (fm_irqs s) (fm_out s).
Definition set_fm_ports x s := FmeSt (fm_dev s) x (fm_pr s) (fm_ik s) (fm_irqs s) (fm_out s).
Definition set_fm_pr x s := FmeSt (fm_dev s) (fm_ports s) x (fm_ik s) (fm_irqs s) (fm_out s).
Definition set_fm_out x s := FmeSt (fm_dev s) (fm_ports s) (fm_pr s) (fm_ik s) (fm_irqs s) x.
Definition get_fm_irqs s : fist := FiSt (fd_features (fm_fd s)) (fm_ik s) (fm_irqs s).
Definition put_fm_irqs (q : fist) s :=
  FmeSt (Prt (set_fd_features (fi_features q) (fm_fd s)) (pt_mm (fm_dev s))) (fm_ports s) (fm_pr s)
    (fi_k q) (fi_accs q) (fm_out s).
Definition on_ports {A} (m : M pst A) : M fmst A := zoom fm_ports set_fm_ports m.
Definition on_pr {A} (m : M fst_ A) : M fmst A := zoom fm_pr set_fm_pr m.
Definition on_fm_irqs {A} (m : M fist A) : M fmst A := zoom get_fm_irqs put_fm_irqs m.

(** ** Ioctls of the features *)

(* drivers/fpga/dfl-fme-main.c:156-166 fme_hdr_ioctl_release_port *)
Definition fme_hdr_ioctl_release_port (arg : Z) : M fmst unit :=
  match fu_port_id arg with
  | None => throw (- EFAULT)
  | Some port_id => on_ports (dfl_fpga_cdev_release_port module_live port_id)
  end.
(* drivers/fpga/dfl-fme-main.c:168-178 fme_hdr_ioctl_assign_port *)
Definition fme_hdr_ioctl_assign_port (arg : Z) : M fmst unit :=
  match fu_port_id arg with
  | None => throw (- EFAULT)
  | Some port_id => on_ports (dfl_fpga_cdev_assign_port module_live chrdev_major port_id)
  end.
(* drivers/fpga/dfl-fme-main.c:180-194 fme_hdr_ioctl *)
Definition fme_hdr_ioctl (i : nat) (cmd arg : Z) : M fmst unit :=
  if cmd =? DFL_FPGA_FME_PORT_RELEASE then fme_hdr_ioctl_release_port arg
  else if cmd =? DFL_FPGA_FME_PORT_ASSIGN then fme_hdr_ioctl_assign_port arg
  else throw (- ENODEV).

(** [put_user] of the number of interrupts. *)
Definition fme_get_num_irqs (i : nat) (arg : Z) : M fmst unit :=
  s ← get;
  feature ← access (fd_features (fm_fd s) !! i);
  (if fu_writable arg then modify (λ s, set_fm_out (fm_out s ++ [(arg, f_nr_irqs feature)]) s) else mret tt) ;;
  rc (dfl_feature_ioctl_get_num_irqs (λ _, if fu_writable arg then 0 else - EFAULT) (f_nr_irqs feature)).
(* drivers/fpga/dfl-fme-error.c:381-395 fme_global_error_ioctl *)
Definition fme_global_error_ioctl (i : nat) (cmd arg : Z) : M fmst unit :=
  if cmd =? DFL_FPGA_FME_ERR_GET_IRQ_NUM then fme_get_num_irqs i arg
  else if cmd =? DFL_FPGA_FME_ERR_SET_IRQ then
    on_fm_irqs (on_table i (λ f, dfl_feature_ioctl_set_irq (f_nr_irqs f) (fu_irq_set arg) (fu_evtfds arg)))
  else throw (- ENODEV).

(** [f->ops->ioctl], where the operations have one. *)
Definition fme_feature_ioctl (o : fme_feature_ops) : option (nat → Z → Z → M fmst unit) :=
  match o with
  | fme_hdr_ops => Some fme_hdr_ioctl
  | fme_pr_mgmt_ops => Some (λ _ cmd arg, on_pr (fme_pr_ioctl polls fuel fl pdata_br fme_hdr reg cmd arg))
  | fme_global_err_ops => Some fme_global_error_ioctl
  | _ => None
  end.

(** ** The device file *)

(* drivers/fpga/dfl-fme-main.c:612-617 fme_ioctl_check_extension *)
Definition fme_ioctl_check_extension (arg : Z) : M fmst unit := mret tt.
(* drivers/fpga/dfl-fme-main.c:619-635 fme_open *)
Definition fme_open (excl : bool) : M fmst unit :=
  s ← get;
  let (fd, ret) := dfl_feature_dev_use_begin excl (fm_fd s) in
  modify (set_fm_fd fd) ;;
  rc ret.
(* drivers/fpga/dfl-fme-main.c:637-655 fme_release *)
Definition fme_release : M fmst unit :=
  modify (λ s, set_fm_fd (dfl_feature_dev_use_end (fm_fd s)) s) ;;
  s ← get;
  if negb (dfl_feature_dev_use_count (fm_fd s) =? 0) then mret tt
  else on_fm_irqs (unbind_features 0 (Z.to_nat (fd_num (fm_fd s)))).

(** Asking the features from number [i] on, [n] of them. *)
(* drivers/fpga/dfl-fme-main.c:678-684 fme_ioctl *)
Fixpoint fme_ioctl_loop (cmd arg : Z) (i n : nat) : M fmst unit :=
  match n with
  | O => throw (- EINVAL)
  | S n =>
      s ← get;
      f ← access (fd_features (fm_fd s) !! i);
      match f_ops f ≫= (λ h, fme_ops_of h ≫= fme_feature_ioctl) with
      | Some ioctl =>
          ret ← status (ioctl i cmd arg);
          if negb (ret =? - ENODEV) then rc ret else fme_ioctl_loop cmd arg (S i) n
      | None => fme_ioctl_loop cmd arg (S i) n
      end
  end.
(* drivers/fpga/dfl-fme-main.c:657-688 fme_ioctl *)
Definition fme_ioctl (cmd arg : Z) : M fmst unit :=
  if cmd =? DFL_FPGA_GET_API_VERSION then rc DFL_FPGA_API_VERSION
  else if cmd =? DFL_FPGA_CHECK_EXTENSION then fme_ioctl_check_extension arg
  else s ← get; fme_ioctl_loop cmd arg 0 (Z.to_nat (fd_num (fm_fd s))).
End Fme.

(** ** Properties of the device file of the management engine

    What the ioctls that release and assign a port answer, and that closing the
    last file unbinds every interrupt. *)

Section Facts.
Context `{MmioHw} `{Kernel} `{MgrKernel} `{BridgeHw} `{PrEngine} `{PrUser} `{IrqKernel} `{FmeUser}.
Context (module_live : Z → bool) (chrdev_major : Z → Z).
Context (polls fuel fl : nat) (pdata_br : nat → Z) (fme_hdr : option Z) (reg : Z → Z).
Implicit Types s : fmst.
#[local] Abbreviation ioctl_loop := (fme_ioctl_loop module_live chrdev_major polls fuel fl pdata_br fme_hdr reg).
#[local] Abbreviation ioctl := (fme_ioctl module_live chrdev_major polls fuel fl pdata_br fme_hdr reg).

Definition ops_at s (i : nat) : option fme_feature_ops := (fd_features (fm_fd s) !! i ≫= f_ops : option Z) ≫= fme_ops_of.
(** Feature [i], and no other, is bound to the operations of the header. *)
Definition header_at s (i : nat) : Prop := ∀ j, ops_at s j = Some fme_hdr_ops ↔ j = i.

Lemma set_fm_pr_id s : set_fm_pr (fm_pr s) s = s.
Proof. by destruct s. Qed.
Lemma set_fm_ports_id s : set_fm_ports (fm_ports s) s = s.
Proof. by destruct s. Qed.

(** One of the two commands of the header. *)
Definition port_cmd (assign : bool) : Z := if assign then DFL_FPGA_FME_PORT_ASSIGN else DFL_FPGA_FME_PORT_RELEASE.
Definition port_op (assign : bool) (port_id : Z) : M pst unit :=
  if assign then dfl_fpga_cdev_assign_port module_live chrdev_major port_id
  else dfl_fpga_cdev_release_port module_live port_id.

Lemma ioctl_loop_step assign arg i n s :
  (i < length (fd_features (fm_fd s)))%nat → ops_at s i ≠ Some fme_hdr_ops →
  ioctl_loop (port_cmd assign) arg i (S n) s = ioctl_loop (port_cmd assign) arg (S i) n s.
Proof.
  intros Hi Hops. destruct (lookup_lt_is_Some_2 _ _ Hi) as [f Hf]. unfold ops_at in Hops. rewrite Hf in Hops. cbn in Hops.
  cbn [fme_ioctl_loop]. unfold mbind, M_bind at 1. cbn [get]. rewrite Hf. cbn -[fme_ioctl_loop].
  destruct (f_ops f) as [h|]; cbn -[fme_ioctl_loop] in *; [|done].
  destruct (fme_ops_of h) as [[]|]; cbn -[fme_ioctl_loop] in *; try done.
  - unfold fme_pr_ioctl, on_pr, zoom, status, throw, M_bind. replace (port_cmd assign =? DFL_FPGA_FME_PORT_PR) with false by by destruct assign.
    by rewrite set_fm_pr_id.
  - unfold fme_global_error_ioctl, status, throw, M_bind. by destruct assign.
Qed.
Lemma ioctl_loop_none assign arg n : ∀ i s,
  (i + n = length (fd_features (fm_fd s)))%nat → (∀ j, (i ≤ j)%nat → ops_at s j ≠ Some fme_hdr_ops) →
  ioctl_loop (port_cmd assign) arg i n s = Done (Err (- EINVAL), s).
Proof.
  induction n as [|n IH]; intros i s Hn Hno; [done|]. rewrite ioctl_loop_step; [|lia|by apply Hno].
  apply IH; [lia|]. intros j Hj. apply Hno. lia.
Qed.
Lemma hdr_ioctl_eq i assign arg s :
  fme_hdr_ioctl module_live chrdev_major i (port_cmd assign) arg s =
  match fu_port_id arg with
  | None => Done (Err (- EFAULT), s)
  | Some id => zoom fm_ports set_fm_ports (port_op assign id) s
  end.
Proof.
  unfold fme_hdr_ioctl, fme_hdr_ioctl_release_port, fme_hdr_ioctl_assign_port.
  destruct assign, (fu_port_id arg); reflexivity.
Qed.

(** C17: releasing and assigning a port from user space is the operation of the
    container, and touches nothing but the container; a number that cannot be read
    gives [-EFAULT].  Its errors are passed on, but for [-ENODEV], with which the
    container answers that it has no such port: the driver takes it for a command
    that the feature does not know, goes on to the other features, and answers
    [-EINVAL]. *)
Theorem port_ioctl_exact assign arg i s :
  fd_num (fm_fd s) = Z.of_nat (length (fd_features (fm_fd s))) → header_at s i →
  ioctl (port_cmd assign) arg s =
  match fu_port_id arg with
  | None => Done (Err (- EFAULT), s)
  | Some id =>
      match port_op assign id (fm_ports s) with
      | Done (Val _, p) => Done (Val tt, set_fm_ports p s)
      | Done (Err e, p) => rc (if e =? - ENODEV then - EINVAL else e) (set_fm_ports p s)
      | Fault => Fault
      | NoFuel => NoFuel
      end
  end.
Proof.
  intros Hnum Hi. assert (i < length (fd_features (fm_fd s)))%nat as Hlt.
  { pose proof (proj2 (Hi i) eq_refl) as Hops. unfold ops_at in Hops. apply lookup_lt_is_Some_1.
    destruct (fd_features (fm_fd s) !! i); [done|discriminate]. }
  replace (ioctl (port_cmd assign) arg s) with (ioctl_loop (port_cmd assign) arg 0 (length (fd_features (fm_fd s))) s).
  2: { unfold fme_ioctl. replace (port_cmd assign =? DFL_FPGA_GET_API_VERSION) with false by by destruct assign.
       replace (port_cmd assign =? DFL_FPGA_CHECK_EXTENSION) with false by by destruct assign.
       unfold mbind, M_bind, get. by rewrite Hnum, Nat2Z.id. }
  assert (∀ n j, (j + n = i)%nat → ioctl_loop (port_cmd assign) arg j (length (fd_features (fm_fd s)) - j) s =
    ioctl_loop (port_cmd assign) arg i (length (fd_features (fm_fd s)) - i) s) as Hskip.
  { induction n as [|n IH]; intros j Hj; [by replace j with i by lia|].
    replace (length (fd_features (fm_fd s)) - j)%nat with (S (length (fd_features (fm_fd s)) - S j)) by lia.
    rewrite ioctl_loop_step; [apply IH; lia|lia|]. intros Ho%Hi. lia. }
  rewrite <- (Nat.sub_0_r (length (fd_features (fm_fd s)))), (Hskip i 0%nat) by lia.
  destruct (lookup_lt_is_Some_2 _ _ Hlt) as [f Hf].
  assert ((f_ops f : option Z) ≫= fme_ops_of = Some fme_hdr_ops) as Hops.
  { rewrite <- (proj2 (Hi i) eq_refl). unfold ops_at. by rewrite Hf. }
  replace (length (fd_features (fm_fd s)) - i)%nat with (S (length (fd_features (fm_fd s)) - S i)) by lia.
  cbn [fme_ioctl_loop]. unfold mbind, M_bind at 1. cbn [get]. rewrite Hf. cbn -[fme_ioctl_loop].
  destruct (f_ops f) as [h|]; cbn in Hops; [|discriminate]. cbn -[fme_ioctl_loop]. rewrite Hops. cbn -[fme_ioctl_loop].
  unfold M_bind, status. rewrite hdr_ioctl_eq. destruct (fu_port_id arg) as [id|]; [|reflexivity].
  unfold zoom. destruct (port_op assign id (fm_ports s)) as [[[[]|e] p]| |]; [reflexivity| |reflexivity..].
  destruct (Z.eqb_spec e (- ENODEV)) as [->|Hne]; cbn [negb]; [|reflexivity].
  apply ioctl_loop_none;
    [change (fd_features (fm_fd (set_fm_ports p s))) with (fd_features (fm_fd s)); lia|]. intros j Hj Ho. assert (j = i) by (by apply Hi). lia.
Qed.

(** Closing a file of the management engine; when it is the last one, every
    interrupt of every feature is unbound. *)
Lemma fme_release_spec s :
  fd_num (fm_fd s) = Z.of_nat (length (fd_features (fm_fd s))) → tables_ok (get_fm_irqs s) → 0 < fd_open_count (fm_fd s) →
  wp fme_release (λ _ s', fd_open_count (fm_fd s') = fd_open_count (fm_fd s) - 1 ∧ fd_excl_open (fm_fd s') = false ∧
    fm_ports s' = fm_ports s ∧ fm_pr s' = fm_pr s ∧
    if fd_open_count (fm_fd s) =? 1 then quiet_tables 0 (length (fd_features (fm_fd s'))) (get_fm_irqs s')
    else s' = set_fm_fd (dfl_feature_dev_use_end (fm_fd s)) s) (λ _ _, False) s.
Proof.
  intros Hnum Hok Ho. unfold fme_release. wsteps. set (s0 := set_fm_fd _ s).
  assert (fm_fd s0 = set_fd_open_count (fd_open_count (fm_fd s) - 1) (set_fd_excl_open false (fm_fd s))) as Hfd0.
  { unfold s0, dfl_feature_dev_use_end. cbn. destruct (Z.leb_spec (fd_open_count (fm_fd s)) 0); [lia|done]. }
  unfold dfl_feature_dev_use_count. rewrite Hfd0. cbn [fd_open_count set_fd_open_count].
  destruct (Z.eqb_spec (fd_open_count (fm_fd s)) 1) as [Hone|Hone].
  2: { destruct (Z.eqb_spec (fd_open_count (fm_fd s) - 1) 0); [lia|]. cbn [negb]. wsteps. by rewrite Hfd0. }
  rewrite Hone. change (1 - 1 =? 0) with true. cbn [negb]. cbn [fd_num set_fd_open_count set_fd_excl_open].
  rewrite Hnum, Nat2Z.id. apply wp_zoom.
  assert (get_fm_irqs s0 = get_fm_irqs s) as Hg0 by (unfold get_fm_irqs; by rewrite Hfd0). rewrite Hg0.
  pose proof (unbind_features_spec (length (fd_features (fm_fd s))) 0 (get_fm_irqs s) Hok eq_refl) as Hun. unfold wpg in Hun.
  destruct (unbind_features _ _ _) as [[[u|e] q]| |]; try (apply Hun; intros k ? ? ?; lia).
  destruct Hun as (Hq & Hs & Hqu); [intros k ? ? ?; lia|]. pose proof (same_features_length _ _ Hs) as Hl.
  cbn in Hl |- *. rewrite Hl. unfold s0 in *. cbn in Hfd0. rewrite Hfd0. split_and!; try done; cbn; lia.
Qed.
End Facts.
