(* ===== verification/DflProbe.v ===== *)
(** * Probing the drivers of the feature devices (drivers/fpga/dfl.c, dfl-fme-main.c, dfl-afu-main.c)

    The drivers of the management engine and of a port set up their own data, then
    the features of their device, then the device file; a failure undoes what was
    done before it, and so does the removal.  Their bus work is [DflBus]. *)
From stdpp Require Import gmap gmultiset strings.
From S2P Require Import Prelude DflRegs DflTypes DflEnum DflPorts DflIrq FeatureIrqs DflBus DflBusFacts DflFeatureInit.
From S2P Require Import Mmio AfuPort AreaTree DmaPages AfuDma AfuRegion AfuMain FpgaMgr FmeMgr FpgaRegion FmePr FmeDev.

Section Probe.
Context `{BusKernel}.
(** Adding a character device with a number. *)
Context (cdev_add : Z → bk → Z * bk).

(** The feature device with its bus, the data of its driver, and whether it has its
    device file. *)
Record drst (D : Type) := DrSt {
  dr_bus : bst;
  dr_data : D;
  dr_cdev : bool;
}.
Arguments DrSt {D} _ _ _.
Arguments dr_bus {D} _.
Arguments dr_data {D} _.
Arguments dr_cdev {D} _.
Section Driver.
Context {D : Type}.
Implicit Types s : drst D.
Definition set_dr_bus x s : drst D := DrSt x (dr_data s) (dr_cdev s).
Definition set_dr_data x s : drst D := DrSt (dr_bus s) x (dr_cdev s).
Definition on_bus {A} (m : M bst A) : M (drst D) A := zoom dr_bus set_dr_bus m.
Definition on_data {A} (m : M D A) : M (drst D) A := zoom dr_data set_dr_data m.

(* drivers/fpga/dfl.c:705-723 dfl_fpga_dev_ops_register *)
Definition dfl_fpga_dev_ops_register (devt : Z) : M (drst D) unit :=
  ret ← on_bus (bk_op (cdev_add devt));
  rc ret ;;
  modify (λ s, DrSt (dr_bus s) (dr_data s) true).
(* drivers/fpga/dfl.c:730-735 dfl_fpga_dev_ops_unregister *)
Definition dfl_fpga_dev_ops_unregister : M (drst D) unit :=
  modify (λ s, DrSt (dr_bus s) (dr_data s) false).
End Driver.

(** ** The management engine *)

(** What [devm_kzalloc] leaves of the driver's data. *)
Definition zero_fme : dfl_fme := Fme None [] [].
(* drivers/fpga/dfl-fme-main.c:690-704 fme_dev_init *)
Definition fme_dev_init : M (drst (option dfl_fme)) unit :=
  on_bus alloc ;;
  modify (set_dr_data (Some zero_fme)).
(* drivers/fpga/dfl-fme-main.c:706-713 fme_dev_destroy *)
Definition fme_dev_destroy : M (drst (option dfl_fme)) unit := modify (set_dr_data None).
(* drivers/fpga/dfl-fme-main.c:722-746 fme_probe *)
Definition fme_probe (devt : Z) : M (drst (option dfl_fme)) unit :=
  fme_dev_init ;;
  on_error (
    on_bus (dfl_fpga_dev_feature_init fme_feature_drvs) ;;
    on_error (dfl_fpga_dev_ops_register devt) (on_bus dfl_fpga_dev_feature_uinit)) fme_dev_destroy.
(* drivers/fpga/dfl-fme-main.c:749-761 fme_remove *)
Definition fme_remove : M (drst (option dfl_fme)) unit :=
  dfl_fpga_dev_ops_unregister ;;
  on_bus dfl_fpga_dev_feature_uinit ;;
  fme_dev_destroy.

(** ** A port

    The driver's data is the state of [AfuMain], of which only the parts that the
    driver sets up are touched here. *)
Section Afu.
Context `{MmioHw} `{DmaKernel} `{IrqKernel}.
(* drivers/fpga/dfl-afu-main.c:992-1018 afu_probe *)
Definition afu_probe (fuel : nat) (devt : Z) : M (drst ast) unit :=
  on_data afu_dev_init ;;
  on_error (
    on_bus (dfl_fpga_dev_feature_init port_feature_drvs) ;;
    on_error (dfl_fpga_dev_ops_register devt) (on_bus dfl_fpga_dev_feature_uinit)) (on_data (afu_dev_destroy fuel)).
(* drivers/fpga/dfl-afu-main.c:1021-1035 afu_remove *)
Definition afu_remove (fuel : nat) : M (drst ast) unit :=
  dfl_fpga_dev_ops_unregister ;;
  on_bus dfl_fpga_dev_feature_uinit ;;
  on_data (afu_dev_destroy fuel).
End Afu.

(** ** Properties *)
Context `{!BusKernelOk}.

(** *** The tables of the two drivers: every feature has one owner at most *)

Lemma null_guid_matches g : dfl_guid_is_valid g && guid_equal guid_null g = false.
Proof.
  unfold guid_equal. destruct (bool_decide_reflect (guid_null = g)) as [<-|]; [by vm_compute|apply andb_false_r].
Qed.
Lemma ids_match (l : list Z) ops f :
  Forall (λ id, id ≠ 0) l →
  drv_matches (FeatureDriver (Some (((λ id, FeatureId id guid_null) <$> l) ++ [FeatureId 0 guid_null])) ops) f =
  existsb (λ id, id =? f_id f) l.
Proof.
  intros Hl. unfold drv_matches. cbn [fdr_id_table]. induction Hl as [|id l Hid _ IH]; [done|].
  cbn [fmap list_fmap app before_end]. unfold ids_end at 1. cbn [id_id id_guid].
  destruct (Z.eqb_spec id 0); [done|]. cbn [andb existsb]. unfold feature_id_matches at 1.
  cbn [id_id id_guid]. rewrite null_guid_matches. cbn [orb]. by rewrite IH.
Qed.

(** Drivers whose tables have no number in common. *)
Definition by_ids (t : list (list Z * Z)) : list dfl_feature_driver :=
  (λ p, FeatureDriver (Some (((λ id, FeatureId id guid_null) <$> p.1) ++ [FeatureId 0 guid_null])) (Some p.2)) <$> t.
Lemma by_ids_ok t : drivers_ok (by_ids t).
Proof.
  apply Forall_fmap, Forall_true. intros [ids ops]. split; [by eexists|]. cbn.
  apply Exists_app. right. constructor. by vm_compute.
Qed.
Lemma by_ids_one_owner l t :
  Forall (λ id, id ≠ 0) (concat t.*1) → NoDup (concat t.*1) → one_owner l (by_ids t).
Proof.
  intros Hnz Hnd ds1 d ds2 f Hds _ Hm. unfold by_ids in Hds.
  apply fmap_app_inv in Hds as (t1 & t2 & -> & Hr & ->). symmetry in Hr.
  apply fmap_cons_inv in Hr as ([ids ops] & t3 & -> & -> & ->). cbn [fst snd] in Hm.
  rewrite !fmap_app, fmap_cons, concat_app in *. cbn [concat fst] in *.
  apply Forall_app in Hnz as [Hnz1 [Hnzi _]%Forall_app]. rewrite ids_match in Hm by done.
  apply existsb_exists in Hm as (id & Hin%list_elem_of_In & ->%Z.eqb_eq).
  apply list.NoDup_app in Hnd as (_ & Hdis & _).
  assert (f_id f ∉ concat t1.*1) as Hno. { intros H1. apply (Hdis _ H1). apply elem_of_app. by left. }
  clear -Hno Hnz1. induction t1 as [|[i o] t1 IH]; [done|]. cbn [fmap list_fmap concat fst] in *.
  apply Forall_app in Hnz1 as [Hi Hnz1]. rewrite elem_of_app in Hno. cbn [DflFeatureInit.owner fst snd]. rewrite ids_match by done.
  destruct (existsb _ i) eqn:He; [|apply IH; tauto].
  apply existsb_exists in He as (id & Hin%list_elem_of_In & ->%Z.eqb_eq). tauto.
Qed.
Definition fme_owners : list (list Z * Z) :=
  [([FME_FEATURE_ID_HEADER], 1); ([FME_FEATURE_ID_PR_MGMT], 2); ([FME_FEATURE_ID_GLOBAL_ERR], 3);
   ([FME_FEATURE_ID_THERMAL_MGMT], 4); ([FME_FEATURE_ID_POWER_MGMT], 5);
   ([FME_FEATURE_ID_GLOBAL_IPERF; FME_FEATURE_ID_GLOBAL_DPERF], 6)].
Definition port_owners : list (list Z * Z) :=
  [([PORT_FEATURE_ID_HEADER], 1); ([PORT_FEATURE_ID_AFU], 2); ([PORT_FEATURE_ID_ERROR], 3);
   ([PORT_FEATURE_ID_STP], 4); ([PORT_FEATURE_ID_UINT], 5)].
Lemma fme_drivers : fme_feature_drvs = driver_array (by_ids fme_owners).
Proof. reflexivity. Qed.
Lemma port_drivers : port_feature_drvs = driver_array (by_ids port_owners).
Proof. reflexivity. Qed.
Lemma fme_one_owner l : one_owner l (by_ids fme_owners).
Proof. apply by_ids_one_owner; [by repeat constructor|apply (bool_decide_unpack _); by vm_compute]. Qed.
Lemma port_one_owner l : one_owner l (by_ids port_owners).
Proof. apply by_ids_one_owner; [by repeat constructor|apply (bool_decide_unpack _); by vm_compute]. Qed.

(** *** Attaching a device *)

Lemma on_bus_spec {D A} (m : M bst A) (s : drst D) (Q : A → drst D → Prop) E :
  wp m (λ a b, Q a (set_dr_bus b s)) (λ e b, E e (set_dr_bus b s)) (dr_bus s) → wp (on_bus m) Q E s.
Proof. apply wp_zoom. Qed.
Lemma ops_register_spec {D} devt (s : drst D) :
  wp (dfl_fpga_dev_ops_register devt)
    (λ _ s', ∃ k, s' = DrSt (only_k k (dr_bus s)) (dr_data s) true)
    (λ _ s', ∃ k, s' = set_dr_bus (only_k k (dr_bus s)) s) s.
Proof.
  unfold dfl_fpga_dev_ops_register. wsteps. apply on_bus_spec. apply wp_bk. intros ret k _. wsteps; intros _; by exists k.
Qed.
Lemma undone_refl s : undone s s.
Proof.
  exists (fd_features (b_fd s)), [], [], (b_k s). split_and!; [|done|].
  - apply Forall_Forall2_diag, Forall_true. intros f. exists (f_ioaddr f). by destruct f.
  - cbn. rewrite app_nil_r. by destruct s as [? [] ? ? ? ?].
Qed.

Lemma attach_spec {D} ds devt (s : drst D) :
  features_unused (dr_bus s) → drivers_ok ds → one_owner (fd_features (b_fd (dr_bus s))) ds →
  wp (on_bus (dfl_fpga_dev_feature_init (driver_array ds)) ;;
      on_error (dfl_fpga_dev_ops_register devt) (on_bus dfl_fpga_dev_feature_uinit))
    (λ _ s', ∃ b, s' = DrSt b (dr_data s) true ∧ initialised ds (dr_bus s) b)
    (λ _ s', ∃ b, s' = set_dr_bus b s ∧ undone (dr_bus s) b) s.
Proof.
  intros Hun Hds Hone. wstep. apply on_bus_spec.
  eapply wp_mono; [by apply feature_init_spec| |by intros e b Hb; exists b].
  intros u b Hb. change (initialised ds (dr_bus s) b) in Hb. wstep. eapply wp_mono; [apply ops_register_spec|..].
  - intros _ s' [k ->]. exists (only_k k b). split; [done|]. destruct Hb as (l & l' & L & ? & ? & ? & s1 & ? & Hw).
    exists l, l', L. split_and!; [done..|]. exists s1. split; [done|]. by apply with_devices_k.
  - intros e s' [k ->]. apply on_bus_spec. cbn [dr_bus set_dr_bus].
    apply (uinit_initialised _ _ ds (dr_bus s)); [done| |].
    + destruct Hb as (l & l' & L & ? & ? & ? & s1 & ? & Hw). exists l, l', L. split_and!; [done..|].
      exists s1. split; [done|]. by apply with_devices_k.
    + intros _ b' Hb'. by exists b'.
Qed.

Lemma fme_dev_init_spec (s : drst (option dfl_fme)) (Q : unit → drst (option dfl_fme) → Prop) E :
  (∀ k, Q tt (DrSt (only_k k (dr_bus s)) (Some zero_fme) (dr_cdev s))) →
  (∀ k, E (- ENOMEM) (set_dr_bus (only_k k (dr_bus s)) s)) → wp fme_dev_init Q E s.
Proof.
  intros HQ HE. unfold fme_dev_init, alloc. wsteps. apply on_bus_spec. wsteps. apply wp_bk. intros ok k _.
  destruct ok; wsteps; [apply HQ|apply HE].
Qed.

(** C16: probing the management engine is all or nothing.  When it succeeds, each
    feature is in the hands of the one driver that knows it, or is on the bus, and
    the device has its file.  When it fails, whatever step failed, no driver,
    device, number, resource or device file is left, exactly the features whose
    initialisation had succeeded were given up again, and the driver's data is
    gone. *)
Theorem fme_probe_exact devt (s : drst (option dfl_fme)) :
  features_unused (dr_bus s) → dr_data s = None → dr_cdev s = false →
  wp (fme_probe devt)
    (λ _ s', initialised (by_ids fme_owners) (dr_bus s) (dr_bus s') ∧ dr_data s' = Some zero_fme ∧ dr_cdev s' = true)
    (λ _ s', undone (dr_bus s) (dr_bus s') ∧ dr_data s' = None ∧ dr_cdev s' = false) s.
Proof.
  intros Hun Hd Hc. unfold fme_probe. wstep. apply fme_dev_init_spec; intros k.
  2: { split_and!; [|done..]. exact (undone_refl (only_k k (dr_bus s))). }
  wstep. rewrite fme_drivers. eapply wp_mono; [apply attach_spec; [exact Hun|apply by_ids_ok|apply fme_one_owner]|..].
  - intros _ s' (b & -> & Hb). by split_and!.
  - intros e s' (b & -> & Hb). unfold fme_dev_destroy. wsteps. by split_and!.
Qed.

(** Removing it undoes the probe. *)
Lemma fme_remove_spec (s s0 : drst (option dfl_fme)) :
  features_unused (dr_bus s0) → initialised (by_ids fme_owners) (dr_bus s0) (dr_bus s) →
  wp fme_remove (λ _ s', undone (dr_bus s0) (dr_bus s') ∧ dr_data s' = None ∧ dr_cdev s' = false) (λ _ _, False) s.
Proof.
  intros Hun Hi. unfold fme_remove, dfl_fpga_dev_ops_unregister, fme_dev_destroy. wsteps. apply on_bus_spec. cbn [dr_bus].
  eapply uinit_initialised; [done|exact Hi|]. intros u b Hb. wsteps. by split_and!.
Qed.
End Probe.
