(* ===== verification/FmeDevExamples.v ===== *)
(** * A concrete management engine with its device file (FmeErr, FmeMain, FmeDev, DflProbe)

    Registers that keep what is written; the header, the errors with one interrupt
    and the power feature; the container with two ports of [DflPortExamples]. *)
From stdpp Require Import gmap gmultiset strings.
From S2P Require Import Prelude DflRegs DflTypes DflEnum DflEnumExamples DflPorts DflIrq DflPortExamples FeatureIrqs.
From S2P Require Import DflBus DflBusFacts DflFeatureInit DflModalias AreaTree DmaPages AfuDma Mmio AfuPort AfuRegion AfuMain.
From S2P Require Import FpgaMgr FpgaMgrExamples FmeMgr FpgaRegion FmePr FmeExamples FmeErr FmeMain FmeDev DflProbe.

#[local] Existing Instance DflEnumExamples.demo_kernel.
#[local] Existing Instance FpgaMgrExamples.demo_kernel.
#[local] Existing Instance FmeExamples.demo_engine.
#[local] Existing Instance FmeExamples.demo_bridges.
#[local] Existing Instance FmeExamples.demo_user.
#[local] Existing Instance DflPortExamples.demo_irqs.

#[local] Instance memory : MmioHw := {
  hw := Z → Z;
  hw_read a m := (m a, m);
  hw_write a v m := λ x, if x =? a then v else m x;
}.
Definition ffeat (id addr : Z) (ops : fme_feature_ops) : dfl_feature :=
  set_f_ops (Some (fme_ops_handle ops)) (set_f_ioaddr (Some addr) (Feature None id 0 0 None [] 0 None None 0 0 [] guid_null)).
Definition power : dfl_feature := ffeat FME_FEATURE_ID_POWER_MGMT 0x3000 fme_power_mgmt_ops.
Definition err_feat : dfl_feature :=
  Feature None FME_FEATURE_ID_GLOBAL_ERR 0 0 (Some 0x2000) [IrqCtx 41 (Some 1007) true] 1
    (Some (fme_ops_handle fme_global_err_ops)) None 0 0 [] guid_null.
Definition fme_fd : dfl_feature_dev_data :=
  FData (Some 6) FME_ID 0 "dfl-fme" FEATURE_DEV_ID_UNUSED 0 false 1 4
    [err_feat; ffeat FME_FEATURE_ID_PR_MGMT 0x4000 fme_pr_mgmt_ops; ffeat FME_FEATURE_ID_HEADER 0x1000 fme_hdr_ops; power] 0 [].
(** Five errors are pending. *)
Definition fme_regs : Z → Z := λ a, if a =? 0x2010 then 5 else 0.
Definition fme_prt : prt := Prt fme_fd (Mm (fme_regs : @hw memory) []).

Lemma err_store_exact_witness :
  ∃ s', fme_errors_store (Some 5) fme_prt = Done (Val tt, s') ∧ ∃ v l, Some 5 = Some v ∧ unmasked 0x2000 ErrFme l ∧
    accessed ([MmioWrite 0x2008 (Z.ones 64); MmioRead 0x2010 v] ++ MmioWrite 0x2010 v :: l) fme_prt s'.
Proof.
  pose proof (err_store_exact ErrFme (Some 5) 0x2000 fme_prt eq_refl) as Hx. cbv zeta in Hx.
  destruct (wp_val _ _ _ _ tt Hx ltac:(vm_compute; reflexivity)) as (s' & He & Hs). exists s'. exact (conj He Hs).
Defined.

Lemma power_limit_shown_witness :
  ∃ s', (power_hwmon_write power hwmon_power_max 2500000 ;; power_hwmon_read power hwmon_power_max) (pt_mm fme_prt) =
      Done (Val 2000000, s').
Proof.
  pose proof (power_limit_shown 0x3000 power hwmon_power_max PWR_THRESHOLD1 2500000 (pt_mm fme_prt) eq_refl eq_refl ltac:(lia)) as Hx.
  cbv zeta in Hx. specialize (Hx ltac:(intros v d; cbn; by rewrite Z.eqb_refl)).
  destruct (wp_val _ _ _ _ 2000000 Hx ltac:(vm_compute; reflexivity)) as (s' & He & _). exists s'. exact He.
Defined.
(** A limit of minus one watt becomes the largest there is. *)
Example negative_limit :
  val_of ((power_hwmon_write power hwmon_power_max (- 1000000) ;; power_hwmon_read power hwmon_power_max) (pt_mm fme_prt)) =
  Some 127000000.
Proof. vm_compute. reflexivity. Qed.

(** ** The device file *)
#[local] Instance fme_user : FmeUser := {
  fu_port_id a := Some a;
  fu_irq_set _ := None;
  fu_evtfds _ _ := inr (- EFAULT);
  fu_writable _ := true;
}.
Definition demo_fmst : fmst :=
  FmeSt fme_prt DflPortExamples.demo_ports demo_pr (tt : ik)
    [IrqAcc (λ i t, count_if ((i =? 41) && (t =? 1007))) (λ t, count_if (t =? 1007)) 1;
     IrqAcc (λ _ _, 0) (λ _, 0) 0; IrqAcc (λ _ _, 0) (λ _, 0) 0; IrqAcc (λ _ _, 0) (λ _, 0) 0] [].
Lemma demo_header_at : header_at demo_fmst 2.
Proof. intros [|[|[|[|j]]]]; cbn; naive_solver. Qed.
Abbreviation demo_ioctl := (fme_ioctl (λ _, true) (λ _, 240) 0 0 0 (λ _, 0) (Some 0) (λ _, 0)).

(** Assigning port 1; port 9 is none of the container's. *)
Lemma port_ioctl_exact_witness :
  header_at demo_fmst 2 ∧ demo_ioctl DFL_FPGA_FME_PORT_ASSIGN 1 demo_fmst = Done (Val tt, set_fm_ports demo_assigned demo_fmst) ∧
  demo_ioctl DFL_FPGA_FME_PORT_RELEASE 9 demo_fmst = Done (Err (- EINVAL), demo_fmst).
Proof.
  split; [exact demo_header_at|]. split.
  - etrans; [apply (port_ioctl_exact (λ _, true) (λ _, 240) 0 0 0 (λ _, 0) (Some 0) (λ _, 0) true 1 2 demo_fmst eq_refl demo_header_at)|].
    vm_compute. reflexivity.
  - etrans; [apply (port_ioctl_exact (λ _, true) (λ _, 240) 0 0 0 (λ _, 0) (Some 0) (λ _, 0) false 9 2 demo_fmst eq_refl demo_header_at)|].
    vm_compute. reflexivity.
Defined.
(** The container itself says that there is no such device. *)
Example absent_port :
  err_of (dfl_fpga_cdev_release_port (λ _, true) 9 DflPortExamples.demo_ports) = Some (- ENODEV) ∧
  err_of (demo_ioctl DFL_FPGA_FME_PORT_RELEASE 9 demo_fmst) = Some (- EINVAL).
Proof. vm_compute. by split. Qed.

(** ** Probing *)
#[local] Existing Instance DflModalias.demo_bus.
#[local] Existing Instance DflModalias.demo_bus_ok.
(** An engine with a header, errors and a feature without a driver. *)
Definition new_fme : dfl_feature_dev_data :=
  FData (Some 5) FME_ID 0 "dfl-fme" (-1) 0 false 0 3
    [Feature (Some 5) FME_FEATURE_ID_HEADER 0 (-1) (Some 0x1000) [] 0 None None 0 0 [] guid_null;
     Feature (Some 5) FME_FEATURE_ID_GLOBAL_ERR 0 0 None [] 0 None None 0 0 [] guid_null;
     Feature (Some 5) 0x12 1 1 None [] 0 None None 1 0 [] guid_null] 2 [Res 0x2000 0x2fff; Res 0x3000 0x3fff].
Definition new_bst : bst := BSt (1%nat : bk) new_fme {[4]} {[4]} {[4]} [].
Lemma new_unused : features_unused new_bst.
Proof.
  split_and!; [split_and!| |by repeat constructor]; [reflexivity|by split| |by repeat constructor|];
    repeat (apply list.Forall_cons; split); try done; cbn; try (intros; by eexists); (split; [|done]); intros; by eexists.
Qed.
Lemma fme_probe_exact_witness :
  ∃ s', fme_probe (λ _ k, (0, k)) 7 (DrSt _ new_bst None false) = Done (Val tt, s') ∧
    initialised (by_ids fme_owners) new_bst (dr_bus _ s') ∧ dr_cdev _ s' = true.
Proof.
  pose proof (fme_probe_exact (λ _ k, (0, k)) 7 (DrSt _ new_bst None false) new_unused eq_refl eq_refl) as Hx.
  destruct (wp_val _ _ _ _ tt Hx ltac:(vm_compute; reflexivity)) as (s' & He & Hi & _ & Hc).
  exists s'. exact (conj He (conj Hi Hc)).
Defined.
