(* ===== verification/FmeBr.v ===== *)
(** * Bridge of the management engine (drivers/fpga/dfl-fme-br.c)

    The bridge of a port disables and enables it through the operations that the
    driver of the port registered; it looks them up once, and holds a reference to
    the module that has them from then on. *)
From stdpp Require Import gmap strings.
From S2P Require Import Prelude DflRegs DflTypes DflEnum DflPorts DflPortsFacts DflPortAccess Mmio AfuPort.

Section FmeBr.
Context `{Kernel} `{MmioHw}.
Context (module_live : Z → bool).
(** [ops->enable_set], which may be missing. *)
Context (enable_set : dfl_fpga_port_ops → option (bool → M prt unit)).

(** [port_fdata] is the position of the port in the container's list; the device
    registers are those of the port. *)
(* drivers/fpga/dfl-fme-br.c:22-26 fme_br_priv *)
Record fme_br_priv := BrPriv {
  fb_port_id : Z;
  fb_port_ops : option dfl_fpga_port_ops;
  fb_port_fdata : option nat;
}.
Record fbst := FbSt {
  fb_p : pst;
  fb_mm : mmst;
  fb_priv : fme_br_priv;
}.
Implicit Types s : fbst.
Definition set_fb_p x s := FbSt x (fb_mm s) (fb_priv s).
Definition set_fb_priv x s := FbSt (fb_p s) (fb_mm s) x.
Definition on_ports {A} (m : M pst A) : M fbst A := zoom fb_p set_fb_p m.
(** An operation of the port at position [i], on its data and registers. *)
Definition on_the_port (i : nat) (m : M prt unit) : M fbst unit := λ s,
  match cd_port_dev_list (p_c (fb_p s)) !! i with
  | None => Fault
  | Some fd =>
      match m (Prt fd (fb_mm s)) with
      | Done (r, p) =>
          Done (r, FbSt (set_p_c (set_ports (<[i := pt_fd p]> (cd_port_dev_list (p_c (fb_p s)))) (p_c (fb_p s))) (fb_p s))
                     (pt_mm p) (fb_priv s))
      | Fault => Fault
      | NoFuel => NoFuel
      end
  end.

(* drivers/fpga/dfl-fme-br.c:34-42 fme_bridge_enable_set *)
Definition find_the_port : M fbst unit :=
  s ← get;
  match fb_port_fdata (fb_priv s) with
  | Some _ => mret tt
  | None =>
      port_fdata ← on_ports (dfl_fpga_cdev_find_port_data (dfl_fpga_check_port_id module_live (fb_port_id (fb_priv s))));
      match port_fdata with
      | None => throw (- ENODEV)
      | Some i => modify (λ s, set_fb_priv (BrPriv (fb_port_id (fb_priv s)) (fb_port_ops (fb_priv s)) (Some i)) s)
      end
  end.
(* drivers/fpga/dfl-fme-br.c:44-50 fme_bridge_enable_set *)
Definition get_port_ops : M fbst unit :=
  s ← get;
  match fb_port_ops (fb_priv s) with
  | Some _ => mret tt
  | None =>
      i ← access (fb_port_fdata (fb_priv s));
      fd ← access (cd_port_dev_list (p_c (fb_p s)) !! i);
      ops ← on_ports (dfl_fpga_port_ops_get module_live fd);
      match ops with
      | None => throw (- ENOENT)
      | Some ops =>
          match enable_set ops with
          | None => throw (- ENOENT)
          | Some _ => modify (λ s, set_fb_priv (BrPriv (fb_port_id (fb_priv s)) (Some ops) (fb_port_fdata (fb_priv s))) s)
          end
      end
  end.
(* drivers/fpga/dfl-fme-br.c:28-53 fme_bridge_enable_set *)
Definition fme_bridge_enable_set (enable : bool) : M fbst unit :=
  find_the_port ;;
  get_port_ops ;;
  s ← get;
  i ← access (fb_port_fdata (fb_priv s));
  ops ← access (fb_port_ops (fb_priv s));
  f ← access (enable_set ops);
  on_the_port i (f enable).

(** The part of the removal after the bridge is unregistered. *)
(* drivers/fpga/dfl-fme-br.c:82-98 fme_br_remove *)
Definition fme_br_remove : M fbst unit :=
  s ← get;
  match fb_port_ops (fb_priv s) with
  | Some ops => on_ports (dfl_fpga_port_ops_put (Some ops))
  | None => mret tt
  end.

(** ** References *)

Lemma on_ports_spec {A} (m : M pst A) s (Q : A → fbst → Prop) E :
  wp m (λ a p, Q a (set_fb_p p s)) (λ e p, E e (set_fb_p p s)) (fb_p s) → wp (on_ports m) Q E s.
Proof. apply wp_zoom. Qed.

(** References to modules: how many more there are than in [r]. *)
Definition one_more (o : option Z) (r : Z → Z) : Z → Z :=
  λ x, r x + match o with Some m => if x =? m then 1 else 0 | None => 0 end.
Definition refs_eq (r r' : Z → Z) : Prop := ∀ x, r x = r' x.

Lemma try_module_get_spec o (p : pst) (Q : bool → pst → Prop) E :
  (match o with Some m => module_live m = true | None => True end →
   ∀ r, refs_eq r (one_more o (p_refs p)) → Q true (set_p_refs r p)) →
  (∀ m, o = Some m → module_live m = false → Q false p) →
  wp (DflPorts.try_module_get module_live o) Q E p.
Proof.
  intros Ht Hf. unfold DflPorts.try_module_get. destruct o as [m|].
  - destruct (module_live m) eqn:Hm; wsteps; [|by eapply Hf].
    apply Ht; [done|]. intros x. unfold one_more. destruct (x =? m); lia.
  - wsteps. assert (p = set_p_refs (p_refs p) p) as He by by destruct p. rewrite He at 1.
    apply Ht; [done|]. intros x. unfold one_more. lia.
Qed.
Lemma ops_get_spec fd (p : pst) (Q : option dfl_fpga_port_ops → pst → Prop) E :
  Q None p → (∀ ops r, ops ∈ p_ops p → refs_eq r (one_more (po_owner ops) (p_refs p)) → Q (Some ops) (set_p_refs r p)) →
  wp (dfl_fpga_port_ops_get module_live fd) Q E p.
Proof.
  intros Hn Hs. unfold dfl_fpga_port_ops_get. wsteps.
  assert (∀ l, (∀ x, x ∈ l → x ∈ p_ops p) → wp (port_ops_search module_live l fd) Q E p) as Hl; [|by apply Hl].
  induction l as [|ops l IH]; intros Hin; cbn [port_ops_search]; [by wsteps|].
  destruct (String.eqb _ _); [|apply IH; intros x Hx; apply Hin; by right].
  wsteps. apply try_module_get_spec; [|intros; by wsteps].
  intros _ r Hr. wsteps. apply Hs; [apply Hin; by left|done].
Qed.
Lemma ops_put_spec ops (p : pst) (Q : unit → pst → Prop) E :
  (∀ r, refs_eq (one_more (po_owner ops) r) (p_refs p) → Q tt (set_p_refs r p)) →
  wp (dfl_fpga_port_ops_put (Some ops)) Q E p.
Proof.
  intros HQ. unfold dfl_fpga_port_ops_put, module_put. destruct (po_owner ops) as [m|] eqn:Ho; wsteps.
  - apply HQ. intros x. unfold one_more. destruct (x =? m); lia.
  - assert (p = set_p_refs (p_refs p) p) as He by by destruct p. rewrite He. apply HQ.
    intros x. unfold one_more. lia.
Qed.

(** [s'] is [s] but for the data of ports, the port's registers, and what the
    bridge knows; the bridge holds a reference for each of its operations. *)
Definition holds_ops (r : Z → Z) s : Prop :=
  refs_eq (p_refs (fb_p s)) (match fb_port_ops (fb_priv s) with Some ops => one_more (po_owner ops) r | None => r end).
Context (P : dfl_feature_dev_data → Prop).
(** The position the bridge found is one of a port, and ids of ports are known. *)
Definition bridge_ok (r : Z → Z) s : Prop :=
  holds_ops r s ∧ (ids_known (cd_port_dev_list (p_c (fb_p s))) ∧ Forall P (cd_port_dev_list (p_c (fb_p s)))) ∧
  (∀ i, fb_port_fdata (fb_priv s) = Some i → (i < length (cd_port_dev_list (p_c (fb_p s))))%nat) ∧
  (∀ ops, fb_port_ops (fb_priv s) = Some ops → is_Some (enable_set ops)) ∧
  (∀ ops, ops ∈ p_ops (fb_p s) → is_Some (enable_set ops)).
(** What the port's operations may do to a port as [P] says it is: end, and leave
    its id and [P]. *)
Definition enable_ends : Prop := ∀ ops f b p, enable_set ops = Some f → P (pt_fd p) →
  let kept (p' : prt) := fd_id (pt_fd p') = fd_id (pt_fd p) ∧ P (pt_fd p') in
  wp (f b) (λ _ p', kept p') (λ _ p', kept p') p.

Lemma position_of_lt id l i : position_of id l = Some i → (i < length l)%nat.
Proof.
  revert i. induction l as [|fd l IH]; intros i; cbn; [done|]. destruct (fd_id fd =? id); [intros [= <-]; lia|].
  destruct (position_of id l); cbn; [|done]. intros [= <-]. specialize (IH _ eq_refl). lia.
Qed.
Lemma on_the_port_ok r i ops f b s :
  enable_ends → enable_set ops = Some f → (i < length (cd_port_dev_list (p_c (fb_p s))))%nat → bridge_ok r s →
  wp (on_the_port i (f b)) (λ _ s', bridge_ok r s') (λ _ s', bridge_ok r s') s.
Proof.
  intros He Hf Hi (Hr & [Hids HP] & Hpos & Hops & Hall). unfold wpg, on_the_port.
  destruct (lookup_lt_is_Some_2 _ _ Hi) as [fd Hfd]. rewrite Hfd.
  pose proof (He ops f b (Prt fd (fb_mm s)) Hf (Forall_lookup_1 _ _ _ _ HP Hfd)) as Hw. cbv zeta in Hw. unfold wpg in Hw.
  destruct (f b (Prt fd (fb_mm s))) as [[[[]|e] p]| |]; try done; cbn in Hw; destruct Hw as [Hid Hp];
    (split_and!; cbn; [done|by eapply ids_known_insert|by apply Forall_insert|by rewrite length_insert|done|done]).
Qed.

Lemma find_the_port_ok r s :
  bridge_ok r s →
  wp find_the_port (λ _ s', bridge_ok r s' ∧ is_Some (fb_port_fdata (fb_priv s'))) (λ _ s', bridge_ok r s') s.
Proof.
  intros Hok. pose proof Hok as (Hr & [Hids HP] & Hpos & Hops & Hall). unfold find_the_port. wsteps.
  destruct (fb_port_fdata (fb_priv s)) as [i|] eqn:Hi; wsteps; [split; [done|by rewrite Hi; eexists]|].
  apply on_ports_spec. unfold wpg. rewrite cdev_find_known by done.
  assert (set_fb_p (fb_p s) s = s) as -> by by destruct s.
  destruct (position_of _ _) as [i|] eqn:Hp; wsteps; [|done]. split; [|by eexists].
  split_and!; cbn; [done|done|done| |done|done]. intros j [= <-]. by eapply position_of_lt.
Qed.
Lemma get_port_ops_ok r s :
  bridge_ok r s → is_Some (fb_port_fdata (fb_priv s)) →
  wp get_port_ops (λ _ s', bridge_ok r s' ∧ is_Some (fb_port_fdata (fb_priv s')) ∧ is_Some (fb_port_ops (fb_priv s')))
    (λ _ s', bridge_ok r s') s.
Proof.
  intros Hok [i Hi]. pose proof Hok as (Hr & [Hids HP] & Hpos & Hops & Hall). unfold get_port_ops. wsteps.
  destruct (fb_port_ops (fb_priv s)) as [ops|] eqn:Ho; wsteps; [rewrite Ho, Hi; split; [done|split; by eexists]|]. rewrite Hi. cbn [access]. wsteps.
  destruct (lookup_lt_is_Some_2 _ _ (Hpos _ Hi)) as [fd Hfd]. rewrite Hfd. cbn [access]. wsteps.
  apply on_ports_spec, ops_get_spec.
  - wsteps. by assert (set_fb_p (fb_p s) s = s) as -> by by destruct s.
  - intros ops r' Hin Hr'. destruct (Hall _ Hin) as [f Hf]. rewrite Hf. wsteps. cbn. rewrite Hi.
    split; [|split; by eexists]. unfold holds_ops in Hr. rewrite Ho in Hr.
    split_and!; cbn; [|done|done|intros j Hj; apply Hpos; by rewrite Hi| |done].
    + intros x. cbn. rewrite Hr'. unfold one_more. by rewrite Hr.
    + intros ops' [= <-]. by eexists.
Qed.
Lemma enable_set_ok r b s :
  enable_ends → bridge_ok r s → wp (fme_bridge_enable_set b) (λ _ s', bridge_ok r s') (λ _ s', bridge_ok r s') s.
Proof.
  intros He Hok. unfold fme_bridge_enable_set. wsteps.
  eapply wp_mono; [by apply (find_the_port_ok r)| |done]. intros _ s1 (Hok1 & Hf1). wsteps.
  eapply wp_mono; [by apply (get_port_ops_ok r)| |done]. intros _ s2 (Hok2 & [i Hi] & [ops Ho]). wsteps.
  rewrite Hi, Ho. cbn [access]. wsteps. pose proof Hok2 as (_ & _ & Hpos & Hops & _).
  destruct (Hops _ Ho) as [f Hf]. rewrite Hf. cbn [access]. wsteps. by apply (on_the_port_ok r i ops f); auto.
Qed.

(** A bridge of the management engine keeps its references to modules balanced.
    However often it is enabled and disabled, with whatever results, once it is
    removed the code holds as many references to each module as before it was made.
    (All registered port drivers have the operation the bridge needs: see
    [enable_set_leaks] for the other case.) *)
Lemma bridge_references port_id bs s :
  enable_ends → fb_priv s = BrPriv port_id None None → ids_known (cd_port_dev_list (p_c (fb_p s))) →
  Forall P (cd_port_dev_list (p_c (fb_p s))) → (∀ ops, ops ∈ p_ops (fb_p s) → is_Some (enable_set ops)) →
  wp (for_each bs (λ b, status (fme_bridge_enable_set b) ;; mret tt) ;; fme_br_remove)
    (λ _ s', refs_eq (p_refs (fb_p s')) (p_refs (fb_p s))) (λ _ _, False) s.
Proof.
  intros He Hp Hids HP Hall. wsteps.
  assert (bridge_ok (p_refs (fb_p s)) s) as Hok. { unfold bridge_ok, holds_ops. by rewrite Hp. }
  eapply wp_mono; [apply (wp_for_each _ _ (bridge_ok (p_refs (fb_p s))) (λ _ _, False)); [done|]| |done].
  { intros b s1 _ Hok1. wsteps. eapply wp_mono; [by apply enable_set_ok|..]; by intros ? s2 Hok2. }
  intros _ s1 (Hr & _). unfold fme_br_remove. wsteps. unfold holds_ops in Hr.
  destruct (fb_port_ops (fb_priv s1)) as [ops|]; [|by wsteps].
  apply on_ports_spec, ops_put_spec. intros r Hr'. cbn. intros x. specialize (Hr x). specialize (Hr' x).
  unfold one_more in *. lia.
Qed.

(** A module whose operations for ports have no [enable_set] is referenced at every
    attempt to switch the bridge, and the reference is not kept anywhere. *)
Lemma enable_set_leaks ops m fd i b s :
  fb_priv s = BrPriv (fb_port_id (fb_priv s)) None (Some i) → cd_port_dev_list (p_c (fb_p s)) !! i = Some fd →
  p_ops (fb_p s) = [ops] → fd_pdev_name fd = po_name ops → po_owner ops = Some m → module_live m = true →
  enable_set ops = None →
  wp (fme_bridge_enable_set b) (λ _ _, False)
    (λ e s', e = - ENOENT ∧ p_refs (fb_p s') m = p_refs (fb_p s) m + 1 ∧ fb_port_ops (fb_priv s') = None) s.
Proof.
  intros Hp Hfd Hops Hn Hm Hlive Hen. unfold fme_bridge_enable_set, find_the_port, get_port_ops. wsteps.
  rewrite Hp. cbn. wsteps. rewrite Hp. cbn. wsteps. rewrite Hfd. cbn. wsteps. apply on_ports_spec.
  unfold dfl_fpga_port_ops_get. wsteps. rewrite Hops. cbn [port_ops_search]. rewrite Hn, String.eqb_refl. wsteps.
  unfold DflPorts.try_module_get. rewrite Hm, Hlive. wsteps. rewrite Hen. wsteps. cbn. rewrite Z.eqb_refl.
  split_and!; [done|lia|by rewrite Hp].
Qed.
End FmeBr.

(** The driver of the accelerator fulfils this for a port with a header. *)
Lemma port_enable_set_ends `{MmioHw} tries base b p :
  let good fd := dfl_get_feature_ioaddr_by_id fd PORT_FEATURE_ID_HEADER = Some base in
  good (pt_fd p) →
  let kept (p' : prt) := fd_id (pt_fd p') = fd_id (pt_fd p) ∧ good (pt_fd p') in
  wp (port_enable_set tries b) (λ _ p', kept p') (λ _ p', kept p') p.
Proof.
  intros good Hp kept. unfold port_enable_set, __afu_port_enable, __afu_port_disable, upd_fd.
  destruct b; wsteps; (destruct (_ =? 0); cbn [negb]; wsteps; [|done]);
    (eapply feature_base_spec; [exact Hp|]; wsteps; apply on_readq_spec; intros v d; wsteps;
     apply on_regs_spec; unfold writeq; wsteps; apply on_regs_spec;
     eapply wp_mono; [apply poll_spec| |done]; intros r q _; destruct (r.1 =? 0); cbn [negb]; by wsteps).
Qed.
