(* ===== verification/AfuExamples.v ===== *)
(** * A concrete port (AfuPort, AfuRegion, AfuMain, FmeBr)

    A port whose header is at 0x1000, its errors at 0x2000 and its accelerator at
    0x3000: the control register acknowledges a reset at once, or never.  The
    theorems at this port, and the executions in which a reset, or a partial
    reconfiguration, leaves a port disabled that later calls report as enabled. *)
From stdpp Require Import gmap gmultiset strings.
From S2P Require Import Prelude DflRegs DflTypes DflEnum DflEnumExamples DflPorts DflPortsFacts DflPortAccess DflIrq DflPortExamples FpgaMgr FpgaMgrExamples FmeMgr FpgaRegion FmeExamples DflBus AreaTree DmaPages AfuDma AfuDmaOps Mmio FeatureIrqs AfuPort AfuRegion AfuMain FmeBr.

(** The control register, the error register, and whether resets are acknowledged. *)
#[local] Instance demo_hw : MmioHw := {
  hw := Z * Z * bool;
  hw_read a h := let '(ctrl, err, ack) := h in
    (if a =? 0x1038 then if ack && Z.testbit ctrl 0 then Z.lor ctrl 16 else ctrl
     else if a =? 0x2010 then err else 0, h);
  hw_write a v h := let '(ctrl, err, ack) := h in
    if a =? 0x1038 then (Z.ldiff v 16, err, ack) else if a =? 0x2010 then (ctrl, Z.land err (Z.lnot v), ack) else h;
}.
Definition feat (id addr : Z) (ops : port_feature_ops) : dfl_feature :=
  set_f_ops (Some (ops_handle ops)) (set_f_ioaddr (Some addr) (Feature None id 0 0 None [] 0 None None 0 0 [] guid_null)).
(** The user interrupts have one interrupt bound, to the eventfd 1007. *)
Definition uint_feat : dfl_feature :=
  Feature None PORT_FEATURE_ID_UINT 0 0 None [IrqCtx 41 (Some 1007) true] 1 (Some (ops_handle port_uint_ops)) None 0 0 [] guid_null.
Definition demo_features : list dfl_feature :=
  [feat PORT_FEATURE_ID_HEADER 0x1000 port_hdr_ops; feat PORT_FEATURE_ID_ERROR 0x2000 port_err_ops;
   feat PORT_FEATURE_ID_AFU 0x3000 port_afu_ops; uint_feat].
Definition demo_fd (count : Z) : dfl_feature_dev_data :=
  FData (Some 7) PORT_ID 0 "dfl-port" 0 count true 1 4 demo_features 0 [].
Definition demo_prt (ack : bool) (count : Z) : prt := Prt (demo_fd count) (Mm (0, 5, ack) []).

(** ** Reset *)

Lemma port_reset_exact_witness :
  ∃ p, port_reset 3 (demo_prt true 0) = Done (Val tt, p) ∧ ∃ h l1 l2,
    became 0 (MmioRead (0x1000 + DFH) h :: l1 ++ l2) (demo_prt true 0) p ∧
    if FIELD_GET DFH_REVISION h <? 2
    then switched_port true 0x1000 (demo_prt true 0) l1 ∧ switched_port false 0x1000 (demo_prt true 0) l2
    else l1 ++ l2 = [].
Proof.
  refine (wp_val (port_reset 3) _ _ (demo_prt true 0) tt (port_reset_exact 3 0x1000 (demo_prt true 0) eq_refl _) _).
  - cbn. lia.
  - vm_compute. reflexivity.
Defined.
Definition run_state {S A} (s0 : S) (r : exec (outcome A * S)) : S := match r with Done (_, s) => s | _ => s0 end.

(** The first reset times out and leaves the port in reset; the second one reports a
    success without any access but to the revision. *)
Example second_reset_lies :
  let p1 := run_state (demo_prt false 0) (port_reset 3 (demo_prt false 0)) in
  let p2 := run_state p1 (port_reset 3 p1) in
  err_of (port_reset 3 (demo_prt false 0)) = Some (- ETIMEDOUT) ∧ val_of (port_reset 3 p1) = Some tt ∧
  count p2 = 1 ∧ mm_log (pt_mm p2) = mm_log (pt_mm p1) ++ [MmioRead 0x1000 0] ∧ (mm_hw (pt_mm p2)).1.1 = 1.
Proof. vm_compute. by split_and!. Qed.

Lemma err_clear_exact_witness :
  ∃ p, afu_port_err_clear 3 5 (demo_prt true 0) = Done (Val tt, p) ∧ ∃ v l1 m l2,
    (FIELD_GET PORT_STS_PWR_STATE v ≠ PORT_STS_PWR_STATE_AP6 ∧
     became 0 (MmioRead (0x1000 + PORT_HDR_STS) v :: l1 ++ m ++ l2) (demo_prt true 0) p ∧
     switched_port true 0x1000 (demo_prt true 0) l1 ∧ err_log 0x2000 5 true m) ∧
    switched_port false 0x1000 (demo_prt true 0) l2.
Proof.
  pose proof (err_clear_exact 3 0x1000 0x2000 5 (demo_prt true 0) eq_refl eq_refl ltac:(cbn; lia)) as Hc. cbv zeta in Hc.
  destruct (wp_val _ _ _ _ tt Hc ltac:(vm_compute; reflexivity)) as (p & He & Hx). exists p. exact (conj He Hx).
Defined.

(** ** Regions and mappings *)
#[local] Existing Instance test_kernel.
#[local] Existing Instance test_kernel_ok.
#[local] Existing Instance DflPortExamples.demo_irqs.

Definition afu_region : dfl_afu_mmio_region := MmioRegion 0 7 0x2000 0 0xa0000.
Definition demo_afu : dfl_afu := Afu 0x2000 1 0 [afu_region].
Definition demo_mrst : mrst := MrSt (5, 10) (Some demo_afu) 1 [].
Lemma demo_afu_wf : afu_wf demo_afu.
Proof. constructor; cbn; [done|apply NoDup_singleton|]. split_and!; try done. Qed.
Lemma region_add_wf_witness :
  ∃ s', afu_mmio_region_add 1 0x1800 0xb0000 7 demo_mrst = Done (Val tt, s') ∧ regions_inv s' ∧
    ∃ o, added (MmioRegion 1 7 0x1800 o 0xb0000) demo_mrst s'.
Proof.
  refine (wp_val (afu_mmio_region_add 1 0x1800 0xb0000 7) _ _ demo_mrst tt
    (region_add_wf 1 0x1800 0xb0000 7 demo_mrst _ _ _ _) _).
  - exists demo_afu. split; [done|]. split; [apply demo_afu_wf|done].
  - lia.
  - intros a [= <-]. split; [vm_compute; reflexivity|cbn; lia].
  - vm_compute. reflexivity.
  - vm_compute. reflexivity.
Defined.

Definition remap_ok (_ _ _ : Z) : Z := 0.
(** The second page of the region, readable and shared. *)
Definition demo_vma : vma := Vma 0x7000 0x8000 1 9.
Lemma mmap_inside_witness :
  ∃ s', afu_mmap remap_ok demo_vma demo_mrst = Done (Val tt, s') ∧ ∃ r pfn,
    r ∈ [afu_region] ∧ m_maps s' = [(0x7000, pfn, vma_size demo_vma)] ∧
    mr_phys r ≤ pfn * AfuRegion.PAGE_SIZE ∧ pfn * AfuRegion.PAGE_SIZE + vma_size demo_vma ≤ mr_phys r + mr_size r.
Proof.
  pose proof (mmap_inside remap_ok demo_vma demo_afu demo_mrst eq_refl (wf_tiled _ demo_afu_wf) ltac:(cbn; lia)
    ltac:(repeat constructor; cbn; try lia; by exists 160) ltac:(vm_compute; by split_and!)) as Hm. cbv zeta in Hm.
  destruct (wp_val _ _ _ _ tt Hm ltac:(vm_compute; reflexivity)) as (s' & He & r & pfn & [Hr _] & _ & _ & Hmaps & _ & Hlo & Hhi).
  exists s'. split; [exact He|]. exists r, pfn. split_and!; [exact Hr|exact Hmaps|exact Hlo|exact Hhi].
Defined.
(** Offset and size of a mapping are added modulo 2^64: a mapping of two pages at
    the last page of the file shows the page before the region (the kernel's limit
    on file offsets, in [vma_ok], is what excludes it). *)
Example mmap_wraps :
  m_maps (run_state demo_mrst (afu_mmap remap_ok (Vma 0x7000 0x9000 (2 ^ 52 - 1) 9) demo_mrst)) = [(0x7000, 0x9f, 0x2000)].
Proof. vm_compute. reflexivity. Qed.

(** ** The device file *)
#[local] Instance demo_afu_user : AfuUser := {
  copy_port_info _ := None;
  copy_region_info _ := None;
  copy_dma_map a := if a =? 1 then Some (DmaMap 32 1 0x10000 0x2000 0) else None;
  copy_dma_unmap _ := None;
  copy_irq_set _ := None;
  copy_evtfds _ _ := inr (- EFAULT);
  writable a := a =? 1;
}.
Definition no_account : irq_account := IrqAcc (λ _ _, 0) (λ _, 0) 0.
Definition demo_ast (d : dst) : ast :=
  ASt (demo_prt true 0) d (Some demo_afu) 1 [] tt
    [no_account; no_account; no_account;
     IrqAcc (λ i t, count_if ((i =? 41) && (t =? 1007))) (λ t, count_if (t =? 1007)) 1] [].
Lemma demo_irqs_ok d : irqs_ok (demo_ast d).
Proof.
  split; [done|]. split; [done|]. intros [|[|[|[|i]]]] f acc; cbn; try done; intros [= <-] [= <-].
  1-3: by (split_and!; [split_and!|constructor|done|cbn; lia]).
  split_and!; [split_and!; cbn; intros; lia|by repeat constructor|done|cbn; lia].
Qed.

Lemma release_gives_back_witness :
  ∃ s', afu_release 3 2 (demo_ast two_regions_state) = Done (Val tt, s') ∧
    quiet_tables 0 (length (fd_features (a_fd s'))) (get_irqs s') ∧ inorder (d_tree (a_dma s')) = [] ∧
    d_locked (a_dma s') = 7 ∧ d_pins (a_dma s') = {[+ 3 +]}.
Proof.
  pose proof (release_gives_back 3 7 {[+ 3 +]} 0x1000 (demo_ast two_regions_state) (demo_irqs_ok _) two_regions_inv eq_refl
    ltac:(cbn; lia) ltac:(cbn; lia)) as Hr.
  destruct (wp_val _ _ _ _ tt Hr ltac:(vm_compute; reflexivity)) as (s' & He & _ & _ & _ & Hq & Ht & Hl & Hp & _).
  exists s'. split; [|split_and!; [exact Hq|exact Ht|exact Hl|exact Hp]].
  replace 2%nat with (length (inorder (d_tree (a_dma (demo_ast two_regions_state))))) by (vm_compute; reflexivity). exact He.
Defined.

Lemma ioctl_dma_map_exact_witness :
  ∃ s', afu_ioctl_dma_map 1 (demo_ast (dma_state 5 10)) = Done (Val tt, s') ∧ dma_inv 7 {[+ 3 +]} (a_dma s') ∧
    ∃ m iova, copy_dma_map 1 = Some m ∧
      mapped (dm_user_addr m) (dm_length m) (dm_flags m) iova (dma_state 5 10) (a_dma s').
Proof.
  assert (∀ m, copy_dma_map 1 = Some m → is_u64 (dm_length m) ∧ PFN_DOWN (dm_length m) < 2 ^ 31) as Hlen.
  { intros m Hc. injection Hc as <-. cbn. split; [unfold is_u64; lia|vm_compute; reflexivity]. }
  pose proof (ioctl_dma_map_exact 7 {[+ 3 +]} 1 (demo_ast (dma_state 5 10)) (dma_state_inv 5 10) Hlen) as Hm.
  destruct (wp_val _ _ _ _ tt Hm ltac:(vm_compute; reflexivity)) as (s' & He & _ & Hi & m & iova & Hc & Hmap & _).
  exists s'. split; [exact He|]. split; [exact Hi|]. exists m, iova. split; [exact Hc|exact Hmap].
Defined.

Lemma ioctl_unknown_witness :
  afu_ioctl 3 0xB699 0 (demo_ast (dma_state 5 10)) = Done (Err (- EINVAL), demo_ast (dma_state 5 10)).
Proof. apply (ioctl_unknown 3 0xB699 0 (demo_ast (dma_state 5 10)) eq_refl). rewrite !not_elem_of_cons. split_and!; try done. by intros ?%elem_of_nil. Defined.

(** ** The bridge of the management engine *)
#[local] Existing Instance DflEnumExamples.demo_kernel.
Definition afu_ops : dfl_fpga_port_ops := PortOps "dfl-port" (Some 77) None.
Definition demo_enable (_ : dfl_fpga_port_ops) : option (bool → M prt unit) := Some (port_enable_set 3).
Definition demo_fbst : fbst :=
  FbSt (PSt 0 (CDev [] [demo_fd 0] [] 0) [afu_ops] (λ _, 0) (λ _, 0)) (Mm (0, 5, true) []) (BrPriv 0 None None).
Definition has_header (fd : dfl_feature_dev_data) : Prop :=
  dfl_get_feature_ioaddr_by_id fd PORT_FEATURE_ID_HEADER = Some 0x1000.
Lemma bridge_references_witness :
  wp (for_each [false; true; true] (λ b, status (fme_bridge_enable_set (λ _, true) demo_enable b) ;; mret tt) ;;
      fme_br_remove)
    (λ _ s', refs_eq (p_refs (fb_p s')) (λ _, 0)) (λ _ _, False) demo_fbst.
Proof.
  apply (bridge_references (λ _, true) demo_enable has_header 0 [false; true; true] demo_fbst).
  - intros ops f b p [= <-] Hp. exact (port_enable_set_ends 3 0x1000 b p Hp).
  - reflexivity.
  - repeat constructor. cbn. unfold FEATURE_DEV_ID_UNUSED. lia.
  - repeat constructor.
  - intros ops _. by eexists.
Defined.

(** ** A partial reconfiguration that fails

    The bridge of the port is left disabled, so the next one counts a second
    disable: it succeeds, and the port stays in reset. *)
Definition port_bridge : BridgeHw := {|
  bw := prt;
  enable_set _ := Some (λ b p, match port_enable_set 3 b p with
                               | Done (Val _, p') => (0, p') | Done (Err e, p') => (e, p') | _ => (- EIO, p) end);
  owner dev := dev;
  module_alive _ := true;
|}.
Section FailedPr.
#[local] Existing Instance FmeExamples.demo_engine.
#[local] Existing Instance FpgaMgrExamples.demo_kernel.
#[local] Existing Instance port_bridge.
(** An image without the flag for partial reconfiguration is refused. *)
Definition pr_image (flags : Z) : fpga_image_info := ImageInfo _ None None (Some (0x9000, [1; 2; 3; 4])) 0 0 flags 0.
Definition pr_state (flags : Z) (p : prt) : rst (D := fme_mgr_priv) :=
  RSt [Bridge 40 None false None] [Region 50 false [] 0] ∅ ∅ 30 false
    (GSt tt FPGA_MGR_STATE_UNKNOWN (pr_image flags) (FmePriv tt 0 0 []) []) p [].
Definition program (flags : Z) (p : prt) : exec (outcome unit * rst (D := fme_mgr_priv)) :=
  fpga_region_program_fpga (fme_mgr_ops 0 (Z.to_nat 8000001)) (Some (fpga_bridge_get_to_list 40 0 0)) 0 0 (pr_state flags p).
Definition port_after (r : exec (outcome unit * rst (D := fme_mgr_priv))) (p : prt) : prt :=
  match r with Done (_, s) => r_hw s | _ => p end.
Example failed_pr_disables_port :
  let p0 := demo_prt true 0 in
  let r1 := program 0 p0 in let p1 := port_after r1 p0 in
  let r2 := program 1 p1 in let p2 := port_after r2 p1 in
  err_of r1 = Some (- EINVAL) ∧ count p1 = 1 ∧ val_of r2 = Some tt ∧ count p2 = 1 ∧ (mm_hw (pt_mm p2)).1.1 = 1.
Proof. vm_compute. by split_and!. Qed.
End FailedPr.
